(* ===== verification/_CoqProject ===== *)
-Q . S2P
prelude.v
rust_str.v
std_path.v
std_fs.v
fs_facts.v
path_guard.v
db.v
journal_store.v
proposal_types.v
decision.v
auto_approval.v
glob.v
rule_definition.v
rule_engine.v
analyzer.v
browse.v
index_sql.v
tables.v
outbox.v
desk.v
managed_roots.v
roots_facts.v
roots_props.v
file_index.v
proposal.v
cleanliness.v
agent.v
network.v
agent_work.v
office.v
outbox_processor.v
command_processor.v
delivery_facts.v
approval_store.v
auto_cleanup.v
precondition.v
trash.v
execute.v
history.v
file_ops.v
undo.v
engine_safety.v
engine_guard.v
journal_facts.v
engine.v
execution_processor.v
delegation.v
auto_facts.v
command_facts.v
desk_db.v
execution_facts.v
move_undo.v
trash_facts.v
file_ops_facts.v
index_facts.v
index_scan.v
index_engine.v
index_page.v
reports.v
watcher.v
watcher_lifecycle.v
agent_files.v
file_browse.v
file_transfer.v
policy_glob.v
smart_cache_store.v
smart_cache_list.v
smart_cache_facts.v
documents.v
work_limiter.v
agent_sync.v
agent_chat.v
room_sync.v
overlay.v
background.v
replay_facts.v
background_facts.v
command_line.v
folder_commands.v
agent_commands.v
