(* ===== verification/prelude.v ===== *)
(** MouseKeeper: a verification of its file engine and of its desktop agent.

    MouseKeeper organises the files of managed folders.  The crate
    [tools/file-engine-cli] touches the files: it scans a folder, proposes moves,
    trashes and creations from rules, executes what was approved, undoes it on
    request, and keeps an index.  The desktop agent [apps/desktop/src-tauri] runs that
    engine on the folders of a user: it takes commands from a server, submits
    proposals, executes what the user approves elsewhere, reports the results, lists
    and sends files, and caches the most used of them.  This library models both,
    function by function, and proves what the parts rely on: files stay inside
    their root and are never lost, every change is journaled before it is made and can
    be undone, nothing is executed that was not approved, results reach the server
    once, and nothing leaves the machine but what was asked for and checked.

    * The engine, and the files that model it

    - This file: Rust's [Result] and [?], the state-and-error monad [io] of every
      effectful function ([let!], [do!], [io_try], [io_for], [zoom] on a part of the
      state), its lemmas, and lemmas on lists.
    - rust_str, std_path, std_fs: the standard library the code uses: strings
      as UTF-8 bytes, integers as [Z] with casts, [str::parse]; [std::path] on Unix; the
      file system (a finite map from paths to inodes, with symbolic links), the clock,
      and the world [world DB] that all operations thread.  fs_facts holds the lemmas.
    - path_guard (path_guard.rs): the only way to turn a relative path into one the
      engine opens: [resolve_existing] and [resolve_for_create].
    - db, journal_store (db.rs, journal.rs): the SQLite database of a root and its
      operation journal, a concrete database with the laws, and the machines the
      witnesses run on.
    - proposal_types, decision, auto_approval (proposal.rs, decision.rs,
      auto_approval.rs): proposals and their identifiers, the decisions of the user,
      the policy that approves on its own.
    - glob, rule_definition, rule_engine (rules/): name patterns, rules and their
      validation, the contract form of a rule, the first rule that matches.
    - analyzer, proposal (file_identity.rs, fs_safety.rs, analyzer.rs, proposal.rs): the
      scan of a root and the proposals for it.
    - precondition (precondition.rs): the check of every proposal before execution.
    - trash, execute, undo, file_ops (trash.rs, execute.rs, undo.rs, file_ops.rs): the
      changes themselves.
    - history (journal.rs): the history of a root, recovery, journaled plans.
    - browse (browse.rs): the listing of a directory.
    - index_sql, file_index (file_index.rs): the tables of the index, its rebuild, its
      updates and its paged search.
    - command_line (main.rs): the arguments, the subcommands, what they print and the
      code they exit with.

    [Execute.execute_decision_application] runs [Precheck.precheck_proposals], then for
    each ready check [execute_move], [Trash.trash_file], [execute_create_dir],
    [execute_create_file] or [execute_readme_write], all of them over [PathGuard] and
    [JournalStore].

    * The desktop agent, and the files that model it

    - tables, desk: the databases of the stores and the maps they keep in memory;
      office: the state that the processors share, [(AgentState * N) * (RootStore *
      world DB)], with [on_agent], [on_roots] and [on_machine] for its parts.
    - managed_roots (storage/managed_roots.rs): the registry of folders and their rooms.
      outbox (storage/outbox.rs): the queue of mutations.  approval_store
      (storage/auto_approval.rs): the policy of each folder.  cleanliness
      (cleanliness.rs): dates, the score of a folder, and the concurrent clock of its
      snapshots.
    - agent, agent_work, agent_files, agent_chat, network (agent.rs): the connection and
      the pairing, the requests and their validation, rooms, rules, chats and drafts;
      [network] keeps what was asked, for the theorems only.
    - outbox_processor (outbox_processor.rs): what is queued, and the flush.
    - command_processor, execution_processor, delegation (command_processor.rs,
      execution_processor.rs): commands become proposals; approved proposals are
      executed and reported.
    - auto_cleanup (auto_cleanup_processor.rs, auto_proposal.rs): the background scan and
      the submission of what it found.
    - file_browse, file_transfer (file_browse_processor.rs, file_transfer_processor.rs):
      the folders that the server lists and searches, the files it asks for.
    - policy_glob, smart_cache_store, smart_cache_list (smart_cache_processor.rs,
      smart_cache_crypto.rs, storage/smart_cache.rs): the patterns of a cache policy, the
      encryption, the usage of files, and the run that offers and uploads the files of
      a room.
    - watcher, watcher_lifecycle (watcher.rs, storage/watchers.rs, watcher_lifecycle.rs,
      storage/cleanliness_snapshots.rs): the events of a folder, what they do to index,
      snapshots and cache, and the watches of startup.
    - documents, work_limiter (document_extraction.rs, agent_tool_processor.rs,
      work_limiter.rs): the text of documents; one scan, write and transfer at a time;
      the other tools of the assistant.
    - agent_sync (storage/agent_sync.rs): the cursors of the replayed events.
    - room_sync (commands/agent.rs): what the commands do around rooms (binding,
      disconnecting, applying an event, a rule or a revocation), and the approvals given
      in a chat.
    - overlay (overlay.rs, commands/overlay.rs): the character, and the place of its
      chat and speech bubble on the screen.
    - background (background.rs): a tick with its stages in their order, their permits
      and early ends, and the start, pause and loop of the task.
    - folder_commands (commands/file_engine.rs, commands/smart_cache.rs,
      commands/watcher.rs, commands/permissions.rs): the commands of the windows about
      folders, each with the window that may ask and the permit it takes.
    - agent_commands (commands/agent.rs, commands/overlay.rs, commands/background.rs,
      lib.rs): the commands about the agent, and the startup of the application.

    [Background.tick] calls the processors one after another on the state [Desk], which
    holds the [Desktop] of room_sync, whose part is the [office].  A command of a window
    runs on the same [Desk], by [FolderCommands.in_folder] or [AgentCommands.ask];
    [Startup.setup] fills the stores of [App] and starts the task.  Each component is one
    Module with the source's function names; a constructor or a field has a letter or two
    before the source's name where two types share it.

    * Interfaces

    Code outside of src/ is a class or an argument, with named laws where a theorem
    relies on them.  SQLite with sqlx: [SqlDb] (db), with the journal's laws
    [JournalDb] (journal_store: an INSERT adds the row at the end or fails and adds
    nothing, a SELECT returns the rows, a DELETE empties the table), transactions and the
    index's laws [SqlTx], [IndexDb] (index_sql), for the stores [Schema] and [TableDb]
    (tables: a statement acts on the tables as the schema says, or fails and changes
    nothing) and [Apart] (command_facts: the statements on other tables leave these
    alone); [SqlCount], [SqlRowid].
    serde_json: [Serde], [ToValue], [JsonValue], [Json], [JsonObjects], [JsonValues] and
    the classes of codecs.  The network: [Http], [Uploader], [UrlParser].  The keyring:
    [CredentialStore], [CacheKeys] with [KeyLaws].  Hash and cipher: [Sha256], [Aes].
    Parsers of documents: [Formats].  The operating system's watches, the windows and
    their building by Tauri are the arguments [os_watch], [ui], [is_open], [build] and
    [show]; lower case beyond ASCII is [unicode]; the readers and printers of JSON on the
    command line are arguments too.  journal_store, index_sql and desk_db implement the
    databases, and the ends of the other files what else the witnesses need.  [StepRel]
    (engine_safety) is the interface between a property of single calls and whole runs: a
    relation kept by each call is kept by every operation.

    * The machine

    [world DB] has the tree, the databases, a clock indexed by its
    readings, an oracle of faults indexed by the calls made, and a log of changes that no definition
    reads.  Any call that changes the tree or the database may fail with the error the
    oracle chooses; theorems hold for all worlds, so for an interruption at every such
    call.  Concurrency is the relation [engine_step] (engine): commands run one at a
    time, and between two of them other programs change the tree as they like; with the
    index, [index_engine] adds its commands.  Transfers, uploads to the cache and the
    extraction of documents take an argument [meanwhile]: what other programs do to the
    machine before each of their looks at the files.  The clock of snapshots
    (cleanliness) and the permits of work (work_limiter) are step relations over the
    threads that use them.  Elsewhere a program that changes the tree during a command
    is not modelled, and a command and a tick do not interleave: a permit that is held
    shows as a limiter that refuses.  Nor is a mutex poisoned by a panic.

    * Bounds and fuel

    [max_links] is Linux's limit of 40 links.  The scan recurses with the number of
    entries of the tree as fuel, which exceeds the depth of any directory:
    [analyze_root_report] and [reindex_builds] hold without a fuel hypothesis.  The
    pattern loop has [glob_fuel] steps, shown to be enough by [glob_match_correct]; the
    table of a cache policy's pattern needs none.  The paged search has a fuel argument
    that [search_page_window] bounds.  A client that follows the pages of a directory
    needs as many steps as [listing_pages_cover] says, and a queue as many flushes as
    [outbox_drains] says.  [create_dir_all] recurses on the components of its path;
    [chunks_go] on the length of its text; the options of the command line on the list
    of arguments; the loop of the background on the list of what wakes it.  Sizes are
    [u64] and times [u128] or [i64], as [Z] with the casts written out ([as_i64],
    [as_u128], [wrap_u64], [i64_or]); the places of the overlay are [i32] and [u32] with
    the wrapping written out.  Left out: times beyond [u64], sums of scores that
    overflow in SQLite, counters that overflow [usize], panics of [json!] on a value that
    cannot be serialized.

    * What the theorems show

    - engine, engine_safety, engine_guard, and journal_facts for the steps of a run:
      whole runs, on success and on every error: the journal is append-only but for recoveries, which keep what they
      clear in a file; every rename and removal follows the row that plans this very
      change; executions rename only inside the root, and no file is lost by an execution
      and no non-empty file by an undo.
    - move_undo, trash_facts, undo, file_ops_facts: what a finished move, trash,
      rename or creation did to the tree, and that undoing a move or trash of a file that
      is named directly gives the tree back where no link dangles.
    - journal_facts, reports: the journal is read back as written, a bad row stops a
      strict read, recovery dumps every row before it clears any, the history offers
      what can be undone; reports account for every decision and every operation.
    - path_guard, precondition, analyzer, proposal, decision, auto_approval, glob,
      rule_definition, rule_engine: the functional specification of each component.
    - index_facts, index_scan, index_engine, index_page: what a rebuild, an
      update and a removal leave in the tables, one state of the tables per generation,
      pages that are windows of one list of hits.
    - command_line: exit codes tell what the parser takes, which is more than the usage
      says; no invocation rewrites a journal; with decisions only the proposals they
      approve are executed.
    - roots_facts, roots_props: the registry refines folders with a
      protocol for their room; folders stay apart, a restart restores them.
    - outbox, delivery_facts: the outbox refines a ledger whose mutations are settled
      once; a flush settles what the answers of the server say; the queue drains.
    - command_facts, execution_facts, delegation: commands only propose, what is
      executed is what was proposed and approved, it renames only inside the folder of
      its room, and it is reported.
    - approval_store, auto_facts, desk_db: policies can be applied and are restored;
      the scan only proposes; its submissions can be retried.
    - file_browse, file_transfer: pages cover a directory that does not change; what is
      sent is the file that was checked, unless a version of it is restored meanwhile.
    - policy_glob, smart_cache_facts, smart_cache_list: patterns mean
      what they say; only encrypted content of offered files is uploaded, it can be
      read back, and the most used files are offered.
    - work_limiter, watcher, watcher_lifecycle, documents: permits exclude one
      another; no change is lost; startup gives every folder its turn; documents are read
      with consent and within bounds.
    - agent_chat, agent_sync, overlay: what the server answers about chats and drafts is
      well typed or refused; cursors survive failures and restarts; the chat is placed on
      the screen.
    - replay_facts: a cursor only passes events that were applied, a
      revoked desktop leaves every room, a disconnect waits for the work of its room, a
      rule of the server is read back from the folder.
    - background_facts: a tick whose replay fails or finds a revocation does no work.
    - folder_commands, agent_commands: a window changes a folder only where it may and
      loses nothing; a startup is whole or starts nothing.
    - The examples at the end of the files, those of reports above all: concrete runs,
      some where the code differs from what a comment, a message or another part of it
      says.

    * What is not modelled

    Windows prefixes and reparse points (the platform is Unix); file permissions and
    hard links.  Of the agent: the Socket.IO
    client that wakes the background, of which the wake-ups are the events of its loop;
    the windows and the tray, which Tauri builds and moves and which keep no state of
    the program; the copy of the demo folder ([prepare_demo_root]); the conversation with
    language models, which runs on the server.  The server, the worker, the front ends
    and the mobile app are other programs. *)
From Stdlib Require Import ZArith Lia Permutation Sorted.
From stdpp Require Import strings pretty gmap functions option list.
From stdpp Require sorting.

(** * Results *)

(** Rust's [Result<A, E>]. *)
Inductive result (A E : Type) : Type :=
| Ok (a : A)
| Err (e : E).
Arguments Ok {A E} a.
Arguments Err {A E} e.

Declare Scope rust_scope.
Delimit Scope rust_scope with rust.
Open Scope rust_scope.

(** [let? x := e in k] is the [?] operator on a pure [Result]. *)
Notation "'let?' x := e 'in' k" :=
  (match e with Ok x => k | Err err_ => Err err_ end)
  (at level 10, x pattern, e at level 200, k at level 200,
   format "'[v' 'let?'  x  :=  e  'in'  '/' k ']'") : rust_scope.

Definition map_err {A E F : Type} (f : E -> F) (r : result A E) : result A F :=
  match r with Ok a => Ok a | Err e => Err (f e) end.

Definition result_map {A B E : Type} (f : A -> B) (r : result A E) : result B E :=
  match r with Ok a => Ok (f a) | Err e => Err e end.

Definition result_ok {A E : Type} (r : result A E) : option A :=
  match r with Ok a => Some a | Err _ => None end.

Definition is_ok {A E : Type} (r : result A E) : bool :=
  match r with Ok _ => true | Err _ => false end.

Definition unwrap_or_else {A E : Type} (f : E -> A) (r : result A E) : A :=
  match r with Ok a => a | Err e => f e end.

#[export] Instance result_eq_dec {A E : Type} `{EqDecision A, EqDecision E} :
  EqDecision (result A E).
Proof. solve_decision. Defined.

(** [iter.map(f).collect::<Result<Vec<_>, _>>()]: stops at the first error. *)
Fixpoint try_map {A B E : Type} (f : A -> result B E) (l : list A) : result (list B) E :=
  match l with
  | [] => Ok []
  | a :: l' =>
      let? b := f a in
      let? bs := try_map f l' in
      Ok (b :: bs)
  end.

(** A loop [for x in l { body?; }] that threads a state. *)
Fixpoint try_fold {A S E : Type} (f : S -> A -> result S E) (s : S) (l : list A)
  : result S E :=
  match l with
  | [] => Ok s
  | a :: l' => let? s' := f s a in try_fold f s' l'
  end.

Lemma try_map_ok {A B E : Type} (f : A -> result B E) l bs :
  try_map f l = Ok bs <-> Forall2 (fun a b => f a = Ok b) l bs.
Proof.
  revert bs. induction l as [|a l IH]; intros bs; simpl.
  - split; [intros [= <-]; constructor | intros Hf; inversion Hf; reflexivity].
  - split.
    + destruct (f a) eqn:Ha; [|discriminate].
      destruct (try_map f l) eqn:Hl; [|discriminate].
      intros [= <-]. constructor; [done|]. by apply IH.
    + intros Hf. inversion Hf as [|? b ? bs' Ha Hl]; subst.
      rewrite Ha. apply IH in Hl. by rewrite Hl.
Qed.

Lemma try_map_err {A B E : Type} (f : A -> result B E) l e :
  try_map f l = Err e <->
  exists l1 a l2, l = l1 ++ a :: l2 /\ f a = Err e /\ Forall (fun x => is_ok (f x)) l1.
Proof.
  induction l as [|a l IH]; simpl.
  - split; [done|]. intros (l1 & a & l2 & H & _). by destruct l1.
  - split.
    + destruct (f a) eqn:Ha.
      * destruct (try_map f l) as [bs|e'] eqn:Hl; [done|]. intros [= ->].
        destruct (proj1 IH eq_refl) as (l1 & x & l2 & -> & Hx & Hl1).
        exists (a :: l1), x, l2. split_and!; [done..|].
        constructor; [by rewrite Ha|done].
      * intros [= ->]. by exists [], a, l.
    + intros (l1 & x & l2 & Heq & Hx & Hl1). destruct l1 as [|y l1]; simplify_list_eq.
      * by rewrite Hx.
      * inversion Hl1; subst. destruct (f y) eqn:Hy; [|done].
        assert (try_map f (l1 ++ x :: l2) = Err e) as -> by (apply IH; eauto 10).
        done.
Qed.

Lemma try_map_forall {A B E} (P : B -> Prop) (g : A -> result B E) l l' :
  (forall a b, g a = Ok b -> P b) -> try_map g l = Ok l' -> Forall P l'.
Proof.
  intros Hg. revert l'. induction l as [|a l IH]; simpl; intros l'; [by intros [= <-]|].
  destruct (g a) as [b|] eqn:Hb; [|done]. simpl. destruct (try_map g l) as [l1|]; [|done]. intros [= <-].
  constructor; [by eapply Hg|by apply IH].
Qed.

(** Follows a computation that ends in [Ok] through its branches, and names them. *)
Ltac unwrap H :=
  repeat match type of H with
    | (match ?x with _ => _ end) = Ok _ => let E := fresh "E" in destruct x eqn:E; try discriminate H
    end.

(** * The effect monad

    A computation takes the state of the machine and returns a result together
    with the new state: an error keeps the effects made before it. *)
Definition io (W E A : Type) : Type := W -> result A E * W.

Definition io_ret {W E A} (a : A) : io W E A := fun w => (Ok a, w).
Definition io_fail {W E A} (e : E) : io W E A := fun w => (Err e, w).
Definition io_bind {W E A B} (m : io W E A) (k : A -> io W E B) : io W E B :=
  fun w => match m w with
           | (Ok a, w1) => k a w1
           | (Err e, w1) => (Err e, w1)
           end.
(** [m.map_err(f)] *)
Definition io_map_err {W E F A} (f : E -> F) (m : io W E A) : io W F A :=
  fun w => match m w with
           | (Ok a, w1) => (Ok a, w1)
           | (Err e, w1) => (Err (f e), w1)
           end.
(** Observes the result of a computation instead of propagating its error. *)
Definition io_try {W E F A} (m : io W E A) : io W F (result A E) :=
  fun w => let '(r, w1) := m w in (Ok r, w1).
(** A pure [Result] used in an effectful function. *)
Definition io_lift {W E A} (r : result A E) : io W E A := fun w => (r, w).
(** Reads the state. *)
Definition io_gets {W E A} (f : W -> A) : io W E A := fun w => (Ok (f w), w).

Notation "'let!' x := m 'in' k" :=
  (io_bind m (fun x => k))
  (at level 10, x name, m at level 200, k at level 200,
   format "'[v' 'let!'  x  :=  m  'in'  '/' k ']'") : rust_scope.
Notation "'let!' ' x := m 'in' k" :=
  (io_bind m (fun y_ => match y_ with x => k end))
  (at level 10, x pattern, m at level 200, k at level 200,
   format "'[v' 'let!'  ' x  :=  m  'in'  '/' k ']'") : rust_scope.
Notation "'do!' m ; k" :=
  (io_bind m (fun _ => k))
  (at level 10, m at level 200, k at level 200,
   format "'[v' 'do!'  m ;  '/' k ']'") : rust_scope.

(** [for (i, x) in l.iter().enumerate()] over an effectful body that threads
    the loop's mutable locals [s]. *)
Fixpoint io_for {W E A S} (f : nat -> S -> A -> io W E S) (i : nat) (s : S) (l : list A)
  : io W E S :=
  match l with
  | [] => io_ret s
  | a :: l' => let! s' := f i s a in io_for f (Datatypes.S i) s' l'
  end.

Section io_laws.
Context {W E : Type}.

Lemma io_bind_ret_l {A B} (a : A) (k : A -> io W E B) w :
  io_bind (io_ret a) k w = k a w.
Proof. done. Qed.

Lemma io_bind_assoc {A B C} (m : io W E A) (k : A -> io W E B) (h : B -> io W E C) w :
  io_bind (io_bind m k) h w = io_bind m (fun a => io_bind (k a) h) w.
Proof. unfold io_bind. by destruct (m w) as [[a|e] w1]. Qed.

Lemma io_bind_ok {A B} (m : io W E A) (k : A -> io W E B) w b w2 :
  io_bind m k w = (Ok b, w2) <->
  exists a w1, m w = (Ok a, w1) /\ k a w1 = (Ok b, w2).
Proof.
  unfold io_bind. destruct (m w) as [[a|e] w1].
  - split; [eauto 10|]. intros (? & ? & [= <- <-] & ?). done.
  - split; [done|]. by intros (? & ? & [=] & ?).
Qed.

Lemma io_bind_inv {A B} (m : io W E A) (k : A -> io W E B) w r w2 :
  io_bind m k w = (r, w2) ->
  (exists a w1, m w = (Ok a, w1) /\ k a w1 = (r, w2)) \/
  (exists e, m w = (Err e, w2) /\ r = Err e).
Proof.
  unfold io_bind. destruct (m w) as [[a|e] w1]; [eauto 10|].
  intros [= <- <-]. eauto.
Qed.

Lemma io_map_err_inv {F A} (f : E -> F) (m : io W E A) w r w1 :
  io_map_err f m w = (r, w1) ->
  exists r0, m w = (r0, w1) /\ r = map_err f r0.
Proof.
  unfold io_map_err. destruct (m w) as [[a|e] w']; intros [= <- <-]; eauto.
Qed.
Lemma io_map_err_ok {F A} (f : E -> F) (m : io W E A) w a w1 : io_map_err f m w = (Ok a, w1) -> m w = (Ok a, w1).
Proof. unfold io_map_err. by destruct (m w) as [[b|e] w']; [intros [= <- <-]|]. Qed.
Lemma io_lift_err_ok {F A} (f : F -> E) (r : result A F) (w : W) a w1 : io_lift (map_err f r) w = (Ok a, w1) -> r = Ok a /\ w1 = w.
Proof. unfold io_lift. destruct r; simpl; [by intros [= <- <-]|done]. Qed.

(** One more round of a loop. *)
Lemma io_for_snoc {A S} (f : nat -> S -> A -> io W E S) i s l a w s1 w1 s2 w2 :
  io_for f i s l w = (Ok s1, w1) -> f (i + length l) s1 a w1 = (Ok s2, w2) -> io_for f i s (l ++ [a]) w = (Ok s2, w2).
Proof.
  revert i s w. induction l as [|b l IH]; intros i s w; simpl.
  - rewrite Nat.add_0_r. intros [= -> ->] H. unfold io_bind. by rewrite H.
  - intros (s3 & w3 & H1 & H2)%io_bind_ok H. apply io_bind_ok. exists s3, w3. split; [done|].
    apply IH; [done|]. by rewrite Nat.add_succ_comm.
Qed.
(** What holds of the rounds of a loop so far, of its locals and of the state. *)
Lemma io_for_prefix {A S} (f : nat -> S -> A -> io W E S) (P : list A -> S -> W -> Prop) l s w s' w' :
  P [] s w ->
  (forall done a rest s w s1 w1, l = done ++ a :: rest -> P done s w -> f (length done) s a w = (Ok s1, w1) -> P (done ++ [a]) s1 w1) ->
  io_for f 0 s l w = (Ok s', w') -> P l s' w'.
Proof.
  intros H0 Hstep. assert (forall rest done s w, l = done ++ rest -> P done s w -> io_for f (length done) s rest w = (Ok s', w') -> P l s' w') as H.
  { intros rest. induction rest as [|a rest IH]; intros done t u Hl Ht H; simpl in H.
    - rewrite app_nil_r in Hl. subst. by injection H as <- <-.
    - apply io_bind_ok in H as (t1 & u1 & H1 & H2). apply (IH (done ++ [a]) t1 u1); [by rewrite <- app_assoc|by eapply Hstep|].
      by rewrite length_app, Nat.add_comm. }
  by apply (H l []).
Qed.
End io_laws.

(** ** Relations kept by every run, whatever its outcome

    [io_rel R m] says that the state after [m], on success and on error, is
    related by [R] to the state before it. *)
Definition io_rel {W E A} (R : W -> W -> Prop) (m : io W E A) : Prop :=
  forall w r w', m w = (r, w') -> R w w'.

Section io_rel.
Context {W : Type} (R : W -> W -> Prop) `{!PreOrder R}.

Lemma io_rel_ret {E A} (a : A) : io_rel (E:=E) R (io_ret a).
Proof. intros w r w' [= <- <-]. reflexivity. Qed.
Lemma io_rel_fail {E A} (e : E) : io_rel (A:=A) R (io_fail e).
Proof. intros w r w' [= <- <-]. reflexivity. Qed.
Lemma io_rel_lift {E A} (x : result A E) : io_rel R (io_lift x).
Proof. intros w r w' [= <- <-]. reflexivity. Qed.
Lemma io_rel_gets {E A} (f : W -> A) : io_rel (E:=E) R (io_gets f).
Proof. intros w r w' [= <- <-]. reflexivity. Qed.
(** The continuation may use that the first part ran. *)
Lemma io_rel_bind_ok {E A B} (m : io W E A) (k : A -> io W E B) :
  io_rel R m -> (forall a w w', m w = (Ok a, w') -> io_rel R (k a)) -> io_rel R (io_bind m k).
Proof.
  intros Hm Hk w r w' [(a & w1 & H1 & H2)|(e & H1 & ->)]%io_bind_inv.
  - etrans; [by eapply Hm|by eapply Hk].
  - by eapply Hm.
Qed.
Lemma io_rel_bind {E A B} (m : io W E A) (k : A -> io W E B) :
  io_rel R m -> (forall a, io_rel R (k a)) -> io_rel R (io_bind m k).
Proof. intros Hm Hk. apply io_rel_bind_ok; [done|]. intros a _ _ _. apply Hk. Qed.
Lemma io_rel_map_err {E F A} (f : E -> F) (m : io W E A) :
  io_rel R m -> io_rel R (io_map_err f m).
Proof. intros Hm w r w' (r0 & H & _)%io_map_err_inv. by eapply Hm. Qed.
Lemma io_rel_try {E F A} (m : io W E A) : io_rel R m -> io_rel (E:=F) R (io_try m).
Proof.
  intros Hm w r w'. unfold io_try. destruct (m w) as [r0 w1] eqn:H.
  intros [= <- <-]. by eapply Hm.
Qed.
Lemma io_rel_for {E A S} (f : nat -> S -> A -> io W E S) l i s :
  (forall i s a, io_rel R (f i s a)) -> io_rel R (io_for f i s l).
Proof.
  intros Hf. revert i s. induction l as [|a l IH]; intros i s; simpl.
  - apply io_rel_ret.
  - apply io_rel_bind; auto.
Qed.
(** A loop is related where its rounds are, each from the state the rounds before it left. *)
Lemma io_for_path {E A S} (f : nat -> S -> A -> io W E S) l s w r w' :
  io_for f 0 s l w = (r, w') ->
  (forall done a rest t v r v', l = done ++ a :: rest -> io_for f 0 s done w = (Ok t, v) -> f (length done) t a v = (r, v') -> R v v') ->
  R w w'.
Proof.
  intros H Hstep. assert (forall rest done t v, l = done ++ rest -> io_for f 0 s done w = (Ok t, v) ->
    io_for f (length done) t rest v = (r, w') -> R v w') as Hgo; [|by apply (Hgo l [] s w)].
  clear H. intros rest. induction rest as [|a rest IH]; intros done t v Hl Hpre H; simpl in H; [injection H as _ <-; reflexivity|].
  apply io_bind_inv in H as [(t1 & v1 & H1 & H2)|(e & H1 & _)]; [|by eapply Hstep].
  etrans; [by eapply Hstep|]. apply (IH (done ++ [a]) t1 v1); [by rewrite <- app_assoc|by eapply io_for_snoc|].
  by rewrite length_app, Nat.add_comm.
Qed.
End io_rel.

Create HintDb io discriminated.
(** Decomposes a run of a composite computation into the runs of its parts. *)
Ltac io_step :=
  match goal with
  | H : io_bind _ _ _ = (Ok _, _) |- _ =>
      apply io_bind_ok in H; destruct H as (? & ? & ? & H)
  | H : io_ret _ _ = (_, _) |- _ => injection H as ? ?; subst
  | H : io_fail _ _ = (_, _) |- _ => injection H as ? ?; subst
  | H : io_lift _ _ = (_, _) |- _ => injection H as ? ?; subst
  | H : io_gets _ _ = (_, _) |- _ => injection H as ? ?; subst
  | H : io_map_err _ _ _ = (_, _) |- _ =>
      apply io_map_err_inv in H; destruct H as (? & ? & ?)
  | H : Ok _ = map_err _ ?r |- _ => destruct r; simpl in H; [injection H as ?; subst|discriminate H]
  end.
Ltac io_inv := repeat io_step; simplify_eq/=.

(** Proves [io_rel R m] by following the structure of [m]. *)
Ltac io_rel_step :=
  match goal with
  | |- forall _, _ => intros ?
  | |- io_rel _ (io_bind _ _) => apply io_rel_bind; [typeclasses eauto | | intros ?]
  | |- io_rel _ (io_map_err _ _) => apply io_rel_map_err
  | |- io_rel _ (io_try _) => apply io_rel_try
  | |- io_rel _ (io_for _ _ _ _) => apply io_rel_for; [typeclasses eauto | intros ? ? ?]
  | |- io_rel _ (io_ret _) => apply io_rel_ret; typeclasses eauto
  | |- io_rel _ (io_fail _) => apply io_rel_fail; typeclasses eauto
  | |- io_rel _ (io_lift _) => apply io_rel_lift; typeclasses eauto
  | |- io_rel _ (io_gets _) => apply io_rel_gets; typeclasses eauto
  | |- io_rel _ (match ?x with _ => _ end) => destruct x
  | |- io_rel _ _ => solve [eauto with io]
  end.
Ltac io_rel_go := repeat io_rel_step.

(** [Iterator::find_map] *)
Fixpoint find_map {A B} (f : A -> option B) (l : list A) : option B :=
  match l with
  | [] => None
  | a :: l' => match f a with Some b => Some b | None => find_map f l' end
  end.

Lemma find_map_some {A B} (f : A -> option B) l b :
  find_map f l = Some b <->
  exists l1 a l2, l = l1 ++ a :: l2 /\ f a = Some b /\ Forall (fun x => f x = None) l1.
Proof.
  induction l as [|a l IH]; simpl.
  - split; [done|]. intros (l1 & ? & ? & ? & _). by destruct l1.
  - split.
    + destruct (f a) as [b'|] eqn:Ha; [intros [= ->]; exists [], a, l; by repeat constructor|].
      intros (l1 & x & l2 & -> & Hx & Hl1)%IH. exists (a :: l1), x, l2. by repeat constructor.
    + intros ([|y l1] & x & l2 & Heq & Hx & Hl1); simplify_list_eq; [by rewrite Hx|].
      apply Forall_cons in Hl1 as [-> Hl1]. apply IH. eauto 10.
Qed.
Lemma find_map_none {A B} (f : A -> option B) l :
  find_map f l = None <-> Forall (fun x => f x = None) l.
Proof.
  induction l as [|a l IH]; simpl; [split; [constructor|done]|]. rewrite Forall_cons, <- IH.
  destruct (f a); [|tauto]. split; [done|]. by intros [? _].
Qed.

(** * Stable sorting: [slice::sort_by] *)
Section sort_by.
Context {A : Type} (cmp : A -> A -> comparison).

Fixpoint insert_by (x : A) (l : list A) : list A :=
  match l with
  | [] => [x]
  | y :: l' => match cmp x y with Gt => y :: insert_by x l' | _ => x :: l end
  end.
Definition sort_by (l : list A) : list A := foldr insert_by [] l.

Definition cmp_le (x y : A) : Prop := cmp x y <> Gt.

Lemma insert_by_perm x l : Permutation (insert_by x l) (x :: l).
Proof.
  induction l as [|y l IH]; simpl; [done|].
  destruct (cmp x y); try done. rewrite IH. apply perm_swap.
Qed.
Lemma sort_by_perm l : Permutation (sort_by l) l.
Proof.
  induction l as [|x l IH]; simpl; [done|]. by rewrite insert_by_perm, IH.
Qed.
Lemma elem_of_sort_by x l : x ∈ sort_by l <-> x ∈ l.
Proof. by rewrite sort_by_perm. Qed.

Hypothesis cmp_total : forall x y, cmp x y = Gt -> cmp y x <> Gt.

Lemma insert_by_sorted x l : Sorted cmp_le l -> Sorted cmp_le (insert_by x l).
Proof.
  intros Hl. induction Hl as [|y l Hl IH Hhd]; simpl; [by repeat constructor|].
  destruct (cmp x y) eqn:Hxy.
  1,2: constructor; [by constructor|constructor; unfold cmp_le; by rewrite Hxy].
  constructor; [done|]. destruct l as [|z l]; simpl in *.
  - constructor. by apply cmp_total.
  - destruct (cmp x z); constructor; try by apply cmp_total.
    by inversion Hhd.
Qed.
Lemma sort_by_sorted l : Sorted cmp_le (sort_by l).
Proof. induction l as [|x l IH]; simpl; [constructor|]. by apply insert_by_sorted. Qed.

(** A list that is already in order is not changed. *)
Lemma sort_by_id l : Sorted cmp_le l -> sort_by l = l.
Proof.
  induction 1 as [|x l Hl IH Hhd]; simpl; [done|]. rewrite IH.
  destruct Hhd as [|y l Hy]; simpl; [done|].
  unfold cmp_le in Hy. by destruct (cmp x y).
Qed.
End sort_by.

(** ** Total comparisons

    What [Ord] promises of its [cmp]. *)
Class TotalCmp {A : Type} (cmp : A -> A -> comparison) : Prop := {
  cmp_antisym x y : cmp y x = CompOpp (cmp x y);
  cmp_trans x y z : cmp x y <> Gt -> cmp y z <> Gt -> cmp x z <> Gt;
}.

(** [Ordering::then_with] *)
Definition then_with (c d : comparison) : comparison :=
  match c with Eq => d | _ => c end.

Section total_cmp.
Context {A : Type} (cmp : A -> A -> comparison) `{!TotalCmp cmp}.

Lemma cmp_refl x : cmp x x = Eq.
Proof. pose proof (cmp_antisym (cmp:=cmp) x x) as H. by destruct (cmp x x). Qed.
Lemma cmp_gt x y : cmp x y = Gt -> cmp y x <> Gt.
Proof. intros H. by rewrite (cmp_antisym (cmp:=cmp) x y), H. Qed.
Lemma cmp_le_antisym x y : cmp x y <> Gt -> cmp y x <> Gt -> cmp x y = Eq.
Proof. rewrite (cmp_antisym (cmp:=cmp) x y). by destruct (cmp x y). Qed.
Lemma cmp_lt_trans x y z : cmp x y = Lt -> cmp y z <> Gt -> cmp x z = Lt.
Proof.
  intros Hxy Hyz. destruct (cmp x z) eqn:Hxz; [|done|].
  - assert (cmp y x <> Gt) as Hyx by (eapply cmp_trans; [exact Hyz|by rewrite (cmp_antisym (cmp:=cmp) x z), Hxz]).
    by rewrite (cmp_antisym (cmp:=cmp) x y), Hxy in Hyx.
  - exfalso. revert Hxz. eapply cmp_trans; [by rewrite Hxy|done].
Qed.

Lemma sort_by_strongly l : StronglySorted (cmp_le cmp) (sort_by cmp l).
Proof.
  apply Sorted_StronglySorted; [intros x y z; apply cmp_trans|].
  apply sort_by_sorted. intros x y. apply cmp_gt.
Qed.

(** Sorting forgets the order of the input when equal keys are equal. *)
Lemma sort_by_unique l1 l2 :
  (forall x y, x ∈ l1 -> y ∈ l1 -> cmp x y = Eq -> x = y) -> Permutation l1 l2 ->
  sort_by cmp l1 = sort_by cmp l2.
Proof.
  intros Hinj Hp. apply (sorting.StronglySorted_unique_strong (cmp_le cmp)); [|apply sort_by_strongly..|].
  - intros x y Hx Hy Hxy Hyx. apply elem_of_sort_by in Hx, Hy.
    apply Hinj; [done|by rewrite Hp|]. by apply cmp_le_antisym.
  - by rewrite !sort_by_perm.
Qed.

(** The first element [f] accepts, in sorted order. *)
Lemma find_map_sorted {B} (f : A -> option B) l b :
  find_map f (sort_by cmp l) = Some b ->
  exists a, a ∈ l /\ f a = Some b /\ forall a', a' ∈ l -> cmp a' a = Lt -> f a' = None.
Proof.
  intros (l1 & a & l2 & Heq & Ha & Hl1)%find_map_some. exists a.
  split; [by rewrite <- (elem_of_sort_by cmp), Heq, elem_of_app, elem_of_cons; auto|].
  split; [done|]. intros a' Hin Hlt. rewrite <- (elem_of_sort_by cmp), Heq in Hin.
  apply elem_of_app in Hin as [Hin|[->|Hin]%elem_of_cons].
  - rewrite list.Forall_forall in Hl1. by apply Hl1.
  - by rewrite cmp_refl in Hlt.
  - pose proof (sort_by_strongly l) as Hs. rewrite Heq in Hs.
    apply sorting.StronglySorted_app_1_r in Hs. inversion Hs as [|? ? _ Hall]; subst.
    rewrite list.Forall_forall in Hall. specialize (Hall _ Hin).
    unfold cmp_le in Hall. by rewrite (cmp_antisym (cmp:=cmp) a' a), Hlt in Hall.
Qed.
End total_cmp.

(** The instances combine keys. *)
#[export] Instance cmp_on_total {A B} (f : A -> B) (cmp : B -> B -> comparison) :
  TotalCmp cmp -> TotalCmp (fun x y => cmp (f x) (f y)).
Proof. intros H. split; intros; [apply H|by eapply H]. Qed.
#[export] Instance Z_compare_total : TotalCmp Z.compare.
Proof.
  split; [intros; by rewrite Z.compare_antisym|].
  intros x y z Hxy Hyz. change (x <= z)%Z. by etrans; [exact Hxy|exact Hyz].
Qed.
#[export] Instance lex_total {A} (cmp1 cmp2 : A -> A -> comparison) :
  TotalCmp cmp1 -> TotalCmp cmp2 -> TotalCmp (fun x y => then_with (cmp1 x y) (cmp2 x y)).
Proof.
  intros H1 H2. split.
  - intros x y. rewrite (cmp_antisym (cmp:=cmp1) x y), (cmp_antisym (cmp:=cmp2) x y).
    by destruct (cmp1 x y).
  - intros x y z Hxy Hyz.
    assert (cmp1 x y <> Gt) as Hxy1 by (by destruct (cmp1 x y)).
    assert (cmp1 y z <> Gt) as Hyz1 by (by destruct (cmp1 y z)).
    destruct (cmp1 x z) eqn:Hxz; simpl; [|done|by destruct (cmp_trans (cmp:=cmp1) x y z)].
    assert (cmp1 z x = Eq) as Hzx by (by rewrite (cmp_antisym (cmp:=cmp1) x z), Hxz).
    assert (cmp1 x y = Eq) as Heq1.
    { apply (cmp_le_antisym cmp1); [done|]. apply (cmp_trans (cmp:=cmp1) y z x); [done|by rewrite Hzx]. }
    assert (cmp1 y z = Eq) as Heq2.
    { apply (cmp_le_antisym cmp1); [done|]. apply (cmp_trans (cmp:=cmp1) z x y); [by rewrite Hzx|done]. }
    rewrite Heq1 in Hxy. rewrite Heq2 in Hyz. simpl in *. by apply (cmp_trans (cmp:=cmp2) x y z).
Qed.

(** * Finite-state helpers shared by the components *)
Lemma find_app {A} (f : A -> bool) l1 l2 :
  List.find f (l1 ++ l2) =
  match List.find f l1 with Some x => Some x | None => List.find f l2 end.
Proof. induction l1 as [|x l1 IH]; simpl; [done|]. by destruct (f x). Qed.

Lemma find_none_forall {A} (f : A -> bool) l :
  List.find f l = None <-> Forall (fun x => f x = false) l.
Proof.
  induction l as [|x l IH]; simpl; [by split|].
  rewrite Forall_cons. destruct (f x); [|tauto]. split; [done|]. by intros [[=] _].
Qed.

Lemma find_some_split {A} (f : A -> bool) l x :
  List.find f l = Some x <->
  exists l1 l2, l = l1 ++ x :: l2 /\ f x = true /\ Forall (fun y => f y = false) l1.
Proof.
  induction l as [|y l IH]; simpl.
  - split; [done|]. intros (l1 & ? & ? & _). by destruct l1.
  - destruct (f y) eqn:Hy.
    + split; [intros [= <-]; by exists [], l|].
      intros ([|z l1] & l2 & Heq & Hx & Hl1); simplify_list_eq; [done|].
      inversion Hl1; congruence.
    + rewrite IH. split.
      * intros (l1 & l2 & -> & Hx & Hl1). exists (y :: l1), l2. by repeat constructor.
      * intros ([|z l1] & l2 & Heq & Hx & Hl1); simplify_list_eq; [congruence|].
        inversion Hl1. eauto.
Qed.

(** * Lists without duplicates, and filters *)

Lemma NoDup_map_inj {A B} (f : A -> B) l x y :
  NoDup (map f l) -> x ∈ l -> y ∈ l -> f x = f y -> x = y.
Proof.
  induction l as [|a l IH]; simpl; [by intros _ ?%not_elem_of_nil|].
  intros [Ha Hl]%NoDup_cons Hx Hy Heq. apply elem_of_cons in Hx as [->|Hx], Hy as [->|Hy]; auto.
  - destruct Ha. rewrite Heq. by apply list_elem_of_fmap_2.
  - destruct Ha. rewrite <- Heq. by apply list_elem_of_fmap_2.
Qed.
Lemma NoDup_filter_map {A B} (f : A -> B) (P : A -> Prop) `{!forall x, base.Decision (P x)} (l : list A) :
  NoDup (map f l) -> NoDup (map f (filter P l)).
Proof.
  induction l as [|a l IH]; simpl; [done|]. intros [Ha Hl]%NoDup_cons. rewrite filter_cons.
  case_decide; [|by apply IH]. simpl. apply NoDup_cons. split; [|by apply IH].
  intros (x & Hx & [_ Hin]%list_elem_of_filter)%list_elem_of_fmap. apply Ha. rewrite Hx.
  by apply list_elem_of_fmap_2.
Qed.

Lemma list_filter_iff_elem {A} (P Q : A -> Prop) `{!forall x, base.Decision (P x), !forall x, base.Decision (Q x)} (l : list A) :
  (forall x, x ∈ l -> P x <-> Q x) -> filter P l = filter Q l.
Proof.
  induction l as [|a l IH]; intros HPQ; [done|]. rewrite !filter_cons, IH.
  - destruct (decide (P a)) as [HP|HP], (decide (Q a)) as [HQ|HQ]; try done;
      exfalso; specialize (HPQ a (list_elem_of_here _ _)); tauto.
  - intros x Hx. apply HPQ. by right.
Qed.
