(* ===== verification/rust_str.v ===== *)
(** Strings and integers of the Rust standard library, and the parsing of what was printed. *)
From Stdlib Require Import ZArith Lia Ascii.
From stdpp Require Import strings pretty gmap functions option list.
From S2P Require Import prelude.

Open Scope string_scope.
Open Scope list_scope.


(** * Strings and integers of the Rust standard library.

    A Rust [String] is its UTF-8 bytes, here a Rocq [string].  Operations that
    the standard library defines on bytes ([to_ascii_lowercase], [contains],
    [starts_with], comparison) are functions on the bytes; those it defines on
    [char] ([trim], [chars]) go through [chars], which cuts the bytes into the
    encodings of the code points.  Integers are [Z] with explicit casts. *)

From Stdlib Require String.


Abbreviation string := String.string.
Abbreviation String := String.String.

(** * Bytes *)

Lemma sappend_cons c (a b : string) : String c a +:+ b = String c (a +:+ b).
Proof. done. Qed.
Lemma sappend_nil_l (a : string) : "" +:+ a = a.
Proof. done. Qed.
Lemma sappend_assoc (a b c : string) : (a +:+ b) +:+ c = a +:+ (b +:+ c).
Proof. induction a as [|x a IH]; [done|]. by rewrite !sappend_cons, IH. Qed.
Lemma sappend_nil_r (a : string) : a +:+ "" = a.
Proof. induction a as [|x a IH]; [done|]. by rewrite sappend_cons, IH. Qed.

Definition byte_of (c : ascii) : Z := Z.of_N (Ascii.N_of_ascii c).

Fixpoint smap (f : ascii -> ascii) (s : string) : string :=
  match s with "" => "" | String c s' => String (f c) (smap f s') end.

Fixpoint sbytes (s : string) : list ascii :=
  match s with "" => [] | String c s' => c :: sbytes s' end.

(** [str::replace] of one ASCII character by another. *)
Definition replace_char (a b : ascii) (s : string) : string :=
  smap (fun c => if Ascii.eqb c a then b else c) s.

Definition to_ascii_lowercase_byte (c : ascii) : ascii :=
  if (65 <=? byte_of c)%Z && (byte_of c <=? 90)%Z
  then Ascii.ascii_of_N (Ascii.N_of_ascii c + 32) else c.
Definition to_ascii_lowercase (s : string) : string := smap to_ascii_lowercase_byte s.
(** [str::to_lowercase]: the ASCII letters as above; a string with other characters
    goes through the Unicode tables, the parameter [unicode]. *)
Definition is_ascii_str (s : string) : bool :=
  forallb (fun c => (byte_of c <? 128)%Z) (String.list_ascii_of_string s).
Definition str_to_lowercase (unicode : string -> string) (s : string) : string :=
  if is_ascii_str s then to_ascii_lowercase s else unicode s.
Definition eq_ignore_ascii_case (a b : string) : bool :=
  (to_ascii_lowercase a =? to_ascii_lowercase b)%string.

Definition is_empty (s : string) : bool := match s with "" => true | _ => false end.
Definition slen (s : string) : Z := Z.of_nat (String.length s).

(** [str::contains] of one ASCII character. *)
Fixpoint contains_char (a : ascii) (s : string) : bool :=
  match s with "" => false | String c s' => Ascii.eqb c a || contains_char a s' end.

Fixpoint starts_with (s p : string) : bool :=
  match p, s with
  | "", _ => true
  | String a p', String b s' => Ascii.eqb a b && starts_with s' p'
  | _, "" => false
  end.
Fixpoint strip_prefix (s p : string) : option string :=
  match p, s with
  | "", _ => Some s
  | String a p', String b s' => if Ascii.eqb a b then strip_prefix s' p' else None
  | _, "" => None
  end.
Fixpoint ends_with (s p : string) : bool :=
  (s =? p)%string || match s with "" => false | String _ s' => ends_with s' p end.
(** [str::contains] of a string. *)
Fixpoint contains (s p : string) : bool :=
  starts_with s p || match s with "" => false | String _ s' => contains s' p end.

(** [str::split] on the characters [f] accepts: always at least one piece. *)
Fixpoint split_on (f : ascii -> bool) (s : string) : list string :=
  match s with
  | "" => [""]
  | String c s' =>
      if f c then "" :: split_on f s'
      else match split_on f s' with
           | seg :: segs => String c seg :: segs
           | [] => [String c ""]
           end
  end.
Definition is_slash (c : ascii) : bool := Ascii.eqb c "/".
Definition split_slash : string -> list string := split_on is_slash.

(** [slice::join]. *)
Fixpoint join (sep : string) (l : list string) : string :=
  match l with
  | [] => ""
  | [s] => s
  | s :: l' => s +:+ sep +:+ join sep l'
  end.

Fixpoint trim_start_char (a : ascii) (s : string) : string :=
  match s with
  | String c s' => if Ascii.eqb c a then trim_start_char a s' else s
  | "" => ""
  end.
Fixpoint trim_end_char (a : ascii) (s : string) : string :=
  match s with
  | "" => ""
  | String c s' =>
      match trim_end_char a s' with
      | "" => if Ascii.eqb c a then "" else String c ""
      | t => String c t
      end
  end.
(** [str::trim_matches(c)] *)
Definition trim_matches (a : ascii) (s : string) : string :=
  trim_end_char a (trim_start_char a s).

(** * Characters *)

(** The number of bytes of the encoding that the lead byte [c] starts. *)
Definition utf8_width (c : ascii) : nat :=
  let b := byte_of c in
  if (b <? 192)%Z then 1 else if (b <? 224)%Z then 2 else if (b <? 240)%Z then 3 else 4.

Fixpoint stake (n : nat) (s : string) : string :=
  match n, s with
  | S n', String c s' => String c (stake n' s')
  | _, _ => ""
  end.

(** [str::chars]: each character is the string of its encoding.  [skip] counts
    the continuation bytes of the character already taken. *)
Fixpoint chars_go (skip : nat) (s : string) : list string :=
  match s with
  | "" => []
  | String c s' =>
      match skip with
      | S k => chars_go k s'
      | O => stake (utf8_width c) s :: chars_go (Nat.pred (utf8_width c)) s'
      end
  end.
Definition chars (s : string) : list string := chars_go 0 s.
Definition chars_count (s : string) : Z := Z.of_nat (length (chars s)).

Definition bytes_str (l : list N) : string :=
  fold_right (fun n s => String (Ascii.ascii_of_N n) s) "" l.

(** The characters with the Unicode property White_Space. *)
Definition white_space : list string :=
  map bytes_str
    ([[9]; [10]; [11]; [12]; [13]; [32]; [194; 133]; [194; 160]; [225; 154; 128];
      [226; 128; 168]; [226; 128; 169]; [226; 128; 175]; [226; 129; 159];
      [227; 128; 128]]
     ++ map (fun n => [226; 128; n]) [128; 129; 130; 131; 132; 133; 134; 135; 136; 137; 138])%N.
Definition is_whitespace (c : string) : bool := existsb (String.eqb c) white_space.

Fixpoint drop_while {A} (f : A -> bool) (l : list A) : list A :=
  match l with
  | a :: l' => if f a then drop_while f l' else l
  | [] => []
  end.
Definition concat_str (l : list string) : string := fold_right String.append "" l.
(** [str::trim] *)
Definition trim (s : string) : string :=
  concat_str (reverse (drop_while is_whitespace (reverse (drop_while is_whitespace (chars s))))).

Definition byte_order_mark : string := bytes_str [239; 187; 191]%N.
(** [trim_start_matches('\u{feff}')] *)
Fixpoint trim_start_bom_go (fuel : nat) (s : string) : string :=
  match fuel with
  | O => s
  | S k => match strip_prefix s byte_order_mark with
           | Some s' => trim_start_bom_go k s'
           | None => s
           end
  end.
Definition trim_start_bom (s : string) : string := trim_start_bom_go (String.length s) s.

(** [str::lines]: cut at ["\n"], the last empty piece dropped, one trailing
    ["\r"] of each line removed. *)
Definition strip_cr (s : string) : string :=
  match reverse (sbytes s) with
  | c :: l => if Ascii.eqb c (Ascii.ascii_of_N 13)
              then fold_right String "" (reverse l) else s
  | [] => s
  end.
Definition lines (s : string) : list string :=
  let pieces := split_on (fun c => Ascii.eqb c (Ascii.ascii_of_N 10)) s in
  map strip_cr (match reverse pieces with
                | "" :: l => reverse l
                | _ => pieces
                end).

(** * Integers *)

(** [{}] of a non-negative integer. *)
Definition fmt_int (z : Z) : string := pretty (Z.to_N z).

Definition hex_digit (d : Z) : ascii :=
  Ascii.ascii_of_N (Z.to_N (if (d <? 10)%Z then 48 + d else 87 + d)).
Fixpoint hex_fixed (width : nat) (z : Z) : string :=
  match width with
  | O => ""
  | S k => String (hex_digit (Z.land (Z.shiftr z (4 * Z.of_nat k)) 15)) (hex_fixed k z)
  end.
(** [{:016x}] of a [u64]: sixteen digits hold every value. *)
Definition fmt_hex16 (z : Z) : string := hex_fixed 16 z.

Definition wrap_u64 (z : Z) : Z := (z mod 2 ^ 64)%Z.
(** [x as i64] of an unsigned value: the low 64 bits, two's complement. *)
Definition as_i64 (z : Z) : Z :=
  let m := (z mod 2 ^ 64)%Z in if (m <? 2 ^ 63)%Z then m else (m - 2 ^ 64)%Z.
(** [x as u128] of an [i64]: sign extension. *)
Definition as_u128 (z : Z) : Z := (z mod 2 ^ 128)%Z.
(** [x as u64] of an [i64]. *)
Definition as_u64 (z : Z) : Z := (z mod 2 ^ 64)%Z.
(** [saturating_sub] on unsigned integers. *)
Definition saturating_sub (a b : Z) : Z := Z.max 0 (a - b).

(** * Facts *)

Lemma smap_smap f g s : smap f (smap g s) = smap (fun c => f (g c)) s.
Proof. induction s as [|c s IH]; simpl; [done|]. by rewrite IH. Qed.
Lemma smap_ext f g s : (forall c, f c = g c) -> smap f s = smap g s.
Proof. intros H. induction s as [|c s IH]; simpl; [done|]. by rewrite H, IH. Qed.

(** A fact about all bytes is decided by evaluation. *)
Definition all_bytes : list ascii := map Ascii.ascii_of_nat (seq 0 256).
Lemma all_bytes_complete c : c ∈ all_bytes.
Proof.
  unfold all_bytes. rewrite <- (Ascii.ascii_nat_embedding c).
  apply list_elem_of_fmap_2, elem_of_seq. pose proof (Ascii.nat_ascii_bounded c). lia.
Qed.
Lemma byte_forall (P : ascii -> bool) : forallb P all_bytes = true -> forall c, P c = true.
Proof.
  rewrite forallb_forall. intros H c. apply H, list_elem_of_In, all_bytes_complete.
Qed.

Lemma to_ascii_lowercase_byte_idemp c :
  to_ascii_lowercase_byte (to_ascii_lowercase_byte c) = to_ascii_lowercase_byte c.
Proof.
  apply Ascii.eqb_eq. revert c. apply byte_forall. by vm_compute.
Qed.
Lemma to_ascii_lowercase_idemp s : to_ascii_lowercase (to_ascii_lowercase s) = to_ascii_lowercase s.
Proof. unfold to_ascii_lowercase. rewrite smap_smap. apply smap_ext, to_ascii_lowercase_byte_idemp. Qed.

Lemma ascii_compare_trans a b c :
  Ascii.compare a b <> Gt -> Ascii.compare b c <> Gt -> Ascii.compare a c <> Gt.
Proof.
  unfold Ascii.compare. intros H1 H2.
  change (Ascii.N_of_ascii a <= Ascii.N_of_ascii c)%N. by etrans; [exact H1|exact H2].
Qed.
(** [str]'s [Ord]: bytewise. *)
#[export] Instance String_compare_total : TotalCmp String.compare.
Proof.
  split; [intros; by rewrite String.compare_antisym|].
  intros x. induction x as [|a x IH]; intros [|b y] [|c z]; simpl; try done.
  destruct (Ascii.compare a b) eqn:Hab; [apply Ascii.compare_eq_iff in Hab as ->| |done].
  - destruct (Ascii.compare b c) eqn:Hbc; [by apply IH|done..].
  - intros _ Hbc. assert (Ascii.compare b c <> Gt) as Hbc' by (by destruct (Ascii.compare b c)).
    assert (Ascii.compare a c <> Gt) as Hac by (eapply ascii_compare_trans; [by rewrite Hab|done]).
    destruct (Ascii.compare a c) eqn:Hac'; [|done..]. apply Ascii.compare_eq_iff in Hac' as ->.
    exfalso. rewrite Ascii.compare_antisym, Hab in Hbc'. done.
Qed.

(** * [str::parse] of an unsigned integer: what is printed is read back. *)

(** [char::to_digit(16)] *)
Definition hex_value (c : ascii) : option Z :=
  let b := byte_of c in
  if ((48 <=? b) && (b <=? 57))%Z then Some (b - 48)%Z
  else if ((97 <=? b) && (b <=? 102))%Z then Some (b - 87)%Z
  else if ((65 <=? b) && (b <=? 70))%Z then Some (b - 55)%Z
  else None.
(** The digits after the value [acc], which stays a [u64]. *)
Fixpoint parse_digits (radix acc : Z) (s : string) : option Z :=
  match s with
  | "" => Some acc
  | String c s =>
      d ← hex_value c;
      if ((d <? radix) && (acc * radix + d <? 2 ^ 64))%Z then parse_digits radix (acc * radix + d) s else None
  end.
(** [u64::from_str_radix]; a sign plus may lead. *)
Definition from_str_radix (radix : Z) (s : string) : option Z :=
  let digits := match s with String c t => if Ascii.eqb c "+" then t else s | "" => s end in
  if is_empty digits then None else parse_digits radix 0 digits.
(** [str::parse::<u64>] and, on 64-bit machines, [::<usize>]. *)
Definition parse_u64 : string -> option Z := from_str_radix 10.

(** * Facts *)

Lemma strip_prefix_app p s : strip_prefix (p +:+ s) p = Some s.
Proof. induction p as [|c p IH]; simpl; [by destruct s|]. by rewrite Ascii.eqb_refl. Qed.

Lemma hex_value_digit n : (n < 10)%N -> hex_value (pretty_N_char n) = Some (Z.of_N n).
Proof.
  intros Hn. assert (n ∈ map N.of_nat (seq 0 10)) as H.
  { apply list_elem_of_fmap. exists (N.to_nat n). split; [lia|]. apply elem_of_seq. lia. }
  revert H. clear. simpl. intros H. repeat (apply elem_of_cons in H as [->|H]; [reflexivity|]). by apply not_elem_of_nil in H.
Qed.
Lemma parse_pretty_go x s : (Z.of_N x < 2 ^ 64)%Z -> parse_digits 10 0 (pretty_N_go x s) = parse_digits 10 (Z.of_N x) s.
Proof.
  revert s. induction (N.lt_wf_0 x) as [x _ IH]; intros s Hx.
  destruct (decide (x = 0)%N) as [->|H0]; [by rewrite pretty_N_go_0|].
  rewrite pretty_N_go_step by lia. rewrite IH; [|apply N.div_lt; lia|].
  2: { rewrite N2Z.inj_div. pose proof (Z.div_le_upper_bound (Z.of_N x) 10 (Z.of_N x)). lia. }
  simpl. rewrite hex_value_digit by (apply N.mod_lt; lia). simpl.
  replace (Z.of_N (x `div` 10) * 10 + Z.of_N (x `mod` 10))%Z with (Z.of_N x).
  - rewrite (proj2 (Z.ltb_lt _ _)) by (pose proof (N.mod_lt x 10); lia). by rewrite (proj2 (Z.ltb_lt _ _)) by lia.
  - pose proof (N.div_mod x 10). lia.
Qed.
Lemma pretty_go_head x s : (x <> 0)%N -> exists c t, pretty_N_go x s = String c t /\ c <> "+"%char.
Proof.
  revert s. induction (N.lt_wf_0 x) as [x _ IH]; intros s Hx. rewrite pretty_N_go_step by lia.
  destruct (decide (x `div` 10 = 0)%N) as [->|Hd]; [|apply IH; [apply N.div_lt; lia|exact Hd]].
  rewrite pretty_N_go_0. eexists _, _. split; [done|]. unfold pretty_N_char. by repeat case_match.
Qed.
Lemma from_str_radix_cons radix c s : c <> "+"%char -> from_str_radix radix (String c s) = parse_digits radix 0 (String c s).
Proof. intros Hc. unfold from_str_radix. by rewrite (proj2 (Ascii.eqb_neq _ _)) by done. Qed.
Lemma parse_fmt_int z : (0 <= z < 2 ^ 64)%Z -> parse_u64 (fmt_int z) = Some z.
Proof.
  intros Hz. unfold parse_u64, fmt_int, pretty, pretty_N. case_decide as H0.
  - assert (z = 0%Z) as -> by lia. done.
  - destruct (pretty_go_head (Z.to_N z) "" H0) as (c & t & Hct & Hc). pose proof (parse_pretty_go (Z.to_N z) "") as Hp.
    rewrite Hct in *. rewrite from_str_radix_cons, Hp by (done || lia). simpl. f_equal. lia.
Qed.

Lemma hex_value_hex d : (0 <= d < 16)%Z -> hex_value (hex_digit d) = Some d.
Proof.
  intros Hd. assert (d ∈ map Z.of_nat (seq 0 16)) as H.
  { apply list_elem_of_fmap. exists (Z.to_nat d). split; [lia|]. apply elem_of_seq. lia. }
  revert H. clear. simpl. intros H. repeat (apply elem_of_cons in H as [->|H]; [reflexivity|]). by apply not_elem_of_nil in H.
Qed.
Lemma parse_hex_fixed n acc z :
  (0 <= acc)%Z -> (0 <= z)%Z -> (acc * 16 ^ Z.of_nat n + z mod 16 ^ Z.of_nat n < 2 ^ 64)%Z ->
  parse_digits 16 acc (hex_fixed n z) = Some (acc * 16 ^ Z.of_nat n + z mod 16 ^ Z.of_nat n)%Z.
Proof.
  revert acc. induction n as [|n IH]; intros acc Ha Hz Hlt; simpl.
  { f_equal. rewrite Z.mod_1_r. lia. }
  set (p := (16 ^ Z.of_nat n)%Z) in *. assert (0 < p)%Z as Hp by (apply Z.pow_pos_nonneg; lia).
  assert (16 ^ Z.of_nat (S n) = 16 * p)%Z as HS by (unfold p; rewrite Nat2Z.inj_succ, Z.pow_succ_r by lia; lia).
  assert (Z.land (Z.shiftr z (4 * Z.of_nat n)) 15 = (z / p) mod 16)%Z as ->.
  { change 15%Z with (Z.ones 4). rewrite Z.land_ones, Z.shiftr_div_pow2 by lia. unfold p. by rewrite <- (Z.pow_mul_r 2 4) by lia. }
  set (d := ((z / p) mod 16)%Z). assert (0 <= d < 16)%Z as Hd by (apply Z.mod_pos_bound; lia).
  rewrite HS in *. assert (z mod (16 * p) = d * p + z mod p)%Z as Hmod.
  { rewrite Z.mul_comm, Z.rem_mul_r by lia. unfold d. lia. }
  rewrite Hmod in *. rewrite hex_value_hex by done. simpl. pose proof (Z.mod_pos_bound z p Hp).
  assert ((acc * 16 + d) <= (acc * 16 + d) * p)%Z by nia.
  rewrite (proj2 (Z.ltb_lt d 16)) by lia. rewrite (proj2 (Z.ltb_lt _ (2 ^ 64))) by nia. simpl.
  rewrite IH; [f_equal; lia|lia|done|]. replace ((acc * 16 + d) * p)%Z with (acc * (16 * p) + d * p)%Z by lia. lia.
Qed.
Lemma hex_digit_head d : (0 <= d < 16)%Z -> hex_digit d <> "+"%char.
Proof.
  intros Hd Heq. assert (hex_value (hex_digit d) = Some d) as H by (by apply hex_value_hex). rewrite Heq in H. done.
Qed.
Lemma parse_fmt_hex16 z : (0 <= z < 2 ^ 64)%Z -> from_str_radix 16 (fmt_hex16 z) = Some z.
Proof.
  intros Hz. unfold fmt_hex16. pose proof (parse_hex_fixed 16 0 z ltac:(lia) ltac:(lia)) as Hp.
  change (16 ^ Z.of_nat 16)%Z with (2 ^ 64)%Z in Hp. rewrite Z.mod_small in Hp by lia.
  change (hex_fixed 16 z) with (String (hex_digit (Z.land (Z.shiftr z (4 * Z.of_nat 15)) 15)) (hex_fixed 15 z)) in *.
  rewrite from_str_radix_cons; [apply Hp; lia|apply hex_digit_head].
  change 15%Z with (Z.ones 4). rewrite Z.land_ones by lia. apply Z.mod_pos_bound. lia.
Qed.

(** What is printed has no character but digits. *)
Definition is_hex (c : ascii) : bool := match hex_value c with Some _ => true | None => false end.
Lemma parse_digits_hex radix acc s z : parse_digits radix acc s = Some z -> forallb is_hex (String.list_ascii_of_string s) = true.
Proof.
  revert acc. induction s as [|c s IH]; intros acc H; simpl in *; [done|]. unfold is_hex at 1.
  destruct (hex_value c); [|done]. simpl in *. destruct (_ && _); [|done]. by eapply IH.
Qed.
