(* ===== verification/std_path.v ===== *)
(** [std::path] on Unix.

    A [Path] or [PathBuf] is its string.  [components] cuts it as the standard
    library does: repeated and trailing separators and inner ["."] segments
    disappear, a leading ["."] of a relative path is [CurDir].  The platform of
    the model is Unix, where no path has a [Prefix] component. *)
From Stdlib Require Import Ascii.
From stdpp Require Import strings pretty gmap functions option list.
Open Scope string_scope.
Open Scope list_scope.
From S2P Require Import prelude rust_str.

Inductive Component :=
| RootDir
| CurDir
| ParentDir
| Normal (s : string).

#[export] Instance Component_eq_dec : EqDecision Component.
Proof. solve_decision. Defined.

Definition component_str (c : Component) : string :=
  match c with RootDir => "/" | CurDir => "." | ParentDir => ".." | Normal s => s end.

Definition is_absolute (p : string) : bool :=
  match p with String c _ => is_slash c | "" => false end.

Definition is_dot (s : string) : bool := (s =? ".")%string.
Definition is_dotdot (s : string) : bool := (s =? "..")%string.

Definition seg_component (s : string) : Component :=
  if is_dotdot s then ParentDir else Normal s.

(** Segments that [components] skips. *)
Definition skipped_seg (s : string) : bool := is_empty s || is_dot s.

Definition inner_components (segs : list string) : list Component :=
  map seg_component (filter (fun s => negb (skipped_seg s)) segs).

(** [Path::components] *)
Definition components (p : string) : list Component :=
  match split_slash p with
  | [] => []
  | s :: segs =>
      if is_absolute p then RootDir :: inner_components segs
      else if is_dot s then CurDir :: inner_components segs
      else inner_components (s :: segs)
  end.

Definition ends_with_slash (p : string) : bool := ends_with p "/".

(** [Path::join] *)
Definition path_join (p q : string) : string :=
  if is_absolute q then q
  else if is_empty p || ends_with_slash p then p +:+ q
  else p +:+ "/" +:+ q.

(** Drops the trailing segments that name no component; [rsegs] is reversed and
    the last of it is the first segment of the path. *)
Fixpoint trim_right (abs : bool) (rsegs : list string) : list string :=
  match rsegs with
  | [] => []
  | s :: r =>
      if is_empty s || (is_dot s && (abs || negb (bool_decide (r = []))))
      then trim_right abs r else rsegs
  end.

(** [Path::parent] *)
Definition path_parent (p : string) : option string :=
  let abs := is_absolute p in
  let body := if abs then match p with String _ p' => p' | "" => "" end else p in
  match trim_right abs (reverse (split_slash body)) with
  | [] => None
  | _ :: r => Some ((if abs then "/" else "") +:+ join "/" (reverse (trim_right abs r)))
  end.

(** [Path::file_name] *)
Definition path_file_name (p : string) : option string :=
  match reverse (components p) with
  | Normal s :: _ => Some s
  | _ => None
  end.

(** The name before and after the last dot; a leading dot starts no extension. *)
Definition rsplit_dot (name : string) : string * option string :=
  if is_dotdot name then (name, None) else
  match reverse (split_on (fun c => Ascii.eqb c ".") name) with
  | ext :: ((_ :: _) as r) =>
      let stem := join "." (reverse r) in
      if is_empty stem then (name, None) else (stem, Some ext)
  | _ => (name, None)
  end.
(** [Path::extension] *)
Definition path_extension (p : string) : option string :=
  match path_file_name p with
  | Some name => snd (rsplit_dot name)
  | None => None
  end.
(** [Path::with_file_name] *)
Definition path_with_file_name (p name : string) : string :=
  match path_file_name p, path_parent p with
  | Some _, Some parent => path_join parent name
  | _, _ => path_join p name
  end.
(** [Path::with_extension] *)
Definition path_with_extension (p ext : string) : string :=
  match path_file_name p with
  | Some name => path_with_file_name p (fst (rsplit_dot name) +:+ "." +:+ ext)
  | None => p
  end.

(** [Path::starts_with] and [Path::strip_prefix] compare components. *)
Fixpoint strip_components (l p : list Component) {struct p} : option (list Component) :=
  match p, l with
  | [], _ => Some l
  | c :: p', d :: l' => if decide (c = d) then strip_components l' p' else None
  | _ :: _, [] => None
  end.
Definition path_strip_prefix (p base : string) : option (list Component) :=
  strip_components (components p) (components base).
Definition path_starts_with (p base : string) : bool :=
  match path_strip_prefix p base with Some _ => true | None => false end.

(** The string of a path given by its absolute segments. *)
Definition abs_path (l : list string) : string := "/" +:+ join "/" l.

(** * Facts about segments *)

Lemma split_on_nonempty f s : split_on f s <> [].
Proof.
  destruct s as [|c s]; simpl; [done|]. destruct (f c); [done|].
  by destruct (split_on f s).
Qed.

Lemma split_slash_app a b :
  split_slash (a +:+ "/" +:+ b) = split_slash a ++ split_slash b.
Proof.
  unfold split_slash. induction a as [|c a IH]; [done|].
  rewrite sappend_cons. simpl. rewrite IH.
  destruct (is_slash c); simpl; [done|].
  destruct (split_on is_slash a) eqn:Ha; [|done].
  by apply split_on_nonempty in Ha.
Qed.

Lemma contains_char_app a s t :
  contains_char a (s +:+ t) = contains_char a s || contains_char a t.
Proof. induction s as [|c s IH]; [done|]. rewrite sappend_cons. simpl. by rewrite IH, orb_assoc. Qed.

(** A segment: what [split_slash] produces and [components] keeps. *)
Definition seg_ok (s : string) : Prop :=
  contains_char "/" s = false /\ is_empty s = false /\ is_dot s = false /\ is_dotdot s = false.

Lemma split_slash_seg s : contains_char "/" s = false -> split_slash s = [s].
Proof.
  unfold split_slash. induction s as [|c s IH]; simpl; [done|].
  unfold is_slash at 1. intros [Hc Hs]%orb_false_iff. rewrite Hc. by rewrite IH.
Qed.

Lemma split_slash_no_slash s : Forall (fun x => contains_char "/" x = false) (split_slash s).
Proof.
  unfold split_slash. induction s as [|c s IH]; simpl; [by repeat constructor|].
  destruct (is_slash c) eqn:Hc; [by constructor|].
  unfold is_slash in Hc.
  destruct (split_on is_slash s) as [|x l].
  - constructor; [simpl; by rewrite Hc|constructor].
  - apply Forall_cons in IH as [Hx Hl]. constructor; [simpl; by rewrite Hc|done].
Qed.

Lemma split_slash_join l :
  l <> [] -> Forall (fun x => contains_char "/" x = false) l ->
  split_slash (join "/" l) = l.
Proof.
  intros Hne Hl. induction Hl as [|x l Hx Hl IH]; [done|].
  destruct l as [|y l]; [by apply split_slash_seg|].
  change (join "/" (x :: y :: l)) with (x +:+ "/" +:+ join "/" (y :: l)).
  rewrite split_slash_app, split_slash_seg, IH by done. done.
Qed.

Lemma inner_components_app l1 l2 :
  inner_components (l1 ++ l2) = inner_components l1 ++ inner_components l2.
Proof. unfold inner_components. by rewrite filter_app, map_app. Qed.

Lemma inner_components_ok l : Forall seg_ok l -> inner_components l = map Normal l.
Proof.
  induction 1 as [|x l (Hs & He & Hd & Hdd) Hl IH]; [done|].
  unfold inner_components in *. rewrite filter_cons.
  rewrite decide_True by (unfold skipped_seg; by rewrite He, Hd).
  simpl. rewrite IH. unfold seg_component. by rewrite Hdd.
Qed.

Lemma components_cons_slash p : components (String "/" p) = RootDir :: inner_components (split_slash p).
Proof. done. Qed.

Lemma components_abs_path l : Forall seg_ok l -> components (abs_path l) = RootDir :: map Normal l.
Proof.
  intros Hl. unfold abs_path. change ("/" +:+ join "/" l) with (String "/" (join "/" l)).
  rewrite components_cons_slash. destruct l as [|x l]; [done|].
  rewrite split_slash_join; [by rewrite inner_components_ok|done|].
  eapply Forall_impl; [exact Hl|]. by intros ? [].
Qed.

(** Appending a segment to a relative path appends its component. *)
Lemma components_relative_app m n :
  is_empty m = false -> is_absolute m = false ->
  components (m +:+ "/" +:+ n) = components m ++ inner_components (split_slash n).
Proof.
  intros He Ha. unfold components.
  assert (is_absolute (m +:+ "/" +:+ n) = false) as -> by (destruct m; [done|by rewrite sappend_cons]).
  rewrite Ha, split_slash_app. destruct (split_slash m) as [|s segs] eqn:Hs; [by apply split_on_nonempty in Hs|].
  simpl. destruct (is_dot s); [by rewrite inner_components_app|].
  change (s :: segs ++ split_slash n) with ((s :: segs) ++ split_slash n). by rewrite inner_components_app.
Qed.
