(* ===== verification/std_fs.v ===== *)
(** [std::fs] and the clock: the machine the file engine runs on.

    A file system is a finite map from absolute paths (lists of names, the root
    first) to inodes.  Path resolution follows symbolic links as Linux does,
    with its limit of forty links.  Relative paths are resolved from the root
    directory.  Queries fail for the reasons the tree gives (missing entry, not
    a directory, too many links); a call that changes the tree may also fail
    with any error the oracle [w_faults] gives, so a theorem over all worlds
    covers an interruption at every such call.  Every change and every SQL
    statement executed is appended to the log [w_log], which no definition reads. *)
From Stdlib Require Import ZArith Lia Ascii.
From stdpp Require Import strings pretty gmap functions option list.
From S2P Require Import prelude rust_str std_path.

Open Scope string_scope.
Open Scope list_scope.

(** * Inodes and trees *)

Inductive kind :=
| KFile (content : string)
| KDir
| KLink (target : string).

Record inode := mkInode {
  i_kind : kind;
  i_mtime_ns : Z;           (** nanoseconds since the epoch, negative before it *)
  i_btime_ns : option Z;    (** [None]: creation time not recorded *)
  i_ino : Z;
}.

Abbreviation path := (list string).
Abbreviation tree := (@gmap path (@list_eq_dec string String.eq_dec)
  (@list_countable string String.eq_dec String.countable) inode).

Inductive io_error :=
| NotFound | NotADirectory | IsADirectory | AlreadyExists | DirectoryNotEmpty
| FilesystemLoop | InvalidInput | OtherError (message : string).

#[export] Instance kind_eq_dec : EqDecision kind.
Proof. solve_decision. Defined.
#[export] Instance inode_eq_dec : EqDecision inode.
Proof. solve_decision. Defined.
#[export] Instance io_error_eq_dec : EqDecision io_error.
Proof. solve_decision. Defined.

(** [io::Error::to_string] *)
Definition io_error_str (e : io_error) : string :=
  match e with
  | NotFound => "No such file or directory (os error 2)"
  | NotADirectory => "Not a directory (os error 20)"
  | IsADirectory => "Is a directory (os error 21)"
  | AlreadyExists => "File exists (os error 17)"
  | DirectoryNotEmpty => "Directory not empty (os error 39)"
  | FilesystemLoop => "Too many levels of symbolic links (os error 40)"
  | InvalidInput => "Invalid argument (os error 22)"
  | OtherError m => m
  end.

Definition is_dir_inode (i : inode) : bool := match i_kind i with KDir => true | _ => false end.
Definition is_file_inode (i : inode) : bool := match i_kind i with KFile _ => true | _ => false end.
Definition is_link_inode (i : inode) : bool := match i_kind i with KLink _ => true | _ => false end.

(** [Metadata::len]; the length the system gives a directory is fixed. *)
Definition inode_len (i : inode) : Z :=
  match i_kind i with KFile c => slen c | KDir => 4096 | KLink t => slen t end.

(** [SystemTime::duration_since(UNIX_EPOCH)] in milliseconds. *)
Definition ms_since_epoch (ns : Z) : option Z :=
  if (ns <? 0)%Z then None else Some (ns / 1000000)%Z.

(** * Resolution *)

(** [walk links f last_missing_ok follow_last cur rest] resolves [rest] from the directory
    [cur].  [follow_last] says whether a link in the last position is followed;
    [missing_ok] whether the last name may be missing ([O_CREAT]). *)
Fixpoint walk (links : nat) (f : tree) (missing_ok follow_last : bool) :
  path -> list Component -> result path io_error :=
  fix go (cur : path) (rest : list Component) : result path io_error :=
    match rest with
    | [] => Ok cur
    | RootDir :: rest' => go [] rest'
    | CurDir :: rest' => go cur rest'
    | ParentDir :: rest' => go (removelast cur) rest'
    | Normal s :: rest' =>
        let p := cur ++ [s] in
        match f !! p with
        | None => if missing_ok && bool_decide (rest' = []) then Ok p else Err NotFound
        | Some i =>
            match i_kind i with
            | KDir => go p rest'
            | KFile _ => if bool_decide (rest' = []) then Ok p else Err NotADirectory
            | KLink t =>
                if bool_decide (rest' = []) && negb follow_last then Ok p
                else match links with
                     | O => Err FilesystemLoop
                     | S n => walk n f missing_ok follow_last cur (components t ++ rest')
                     end
            end
        end
    end.

Definition max_links : nat := 40.

(** The entry a path names after following every link; it must exist. *)
Definition resolve (f : tree) (p : string) : result path io_error :=
  walk max_links f false true [] (components p).
(** The entry a path names, the last link not followed; it must exist. *)
Definition lresolve (f : tree) (p : string) : result path io_error :=
  walk max_links f false false [] (components p).
(** The same, where the entry may still be missing from its directory. *)
Definition locate (f : tree) (p : string) : result path io_error :=
  walk max_links f true false [] (components p).
(** The entry [open(O_CREAT)] names: links followed, last entry maybe missing. *)
Definition resolve_creat (f : tree) (p : string) : result path io_error :=
  walk max_links f true true [] (components p).

#[global] Arguments walk : simpl never.
#[global] Arguments resolve : simpl never.
#[global] Arguments lresolve : simpl never.
#[global] Arguments locate : simpl never.
#[global] Arguments resolve_creat : simpl never.

Definition tree_get (f : tree) (p : path) : result inode io_error :=
  match f !! p with Some i => Ok i | None => Err NotFound end.

(** [fs::metadata], [fs::symlink_metadata] *)
Definition metadata (f : tree) (p : string) : result inode io_error :=
  let? q := resolve f p in tree_get f q.
Definition symlink_metadata (f : tree) (p : string) : result inode io_error :=
  let? q := lresolve f p in tree_get f q.
(** [Path::exists], [Path::is_dir], [Path::is_file] *)
Definition path_exists (f : tree) (p : string) : bool := is_ok (metadata f p).
Definition path_is_dir (f : tree) (p : string) : bool :=
  match metadata f p with Ok i => is_dir_inode i | Err _ => false end.
Definition path_is_file (f : tree) (p : string) : bool :=
  match metadata f p with Ok i => is_file_inode i | Err _ => false end.
(** [Path::canonicalize] *)
Definition canonicalize (f : tree) (p : string) : result string io_error :=
  let? q := resolve f p in
  let? _ := tree_get f q in
  Ok (abs_path q).

(** The names of the entries of a directory. *)
Definition child_name (d p : path) : option string :=
  match reverse p with
  | s :: r => if bool_decide (reverse r = d) then Some s else None
  | [] => None
  end.
Definition children (f : tree) (d : path) : list string :=
  omap (fun kv => child_name d (fst kv)) (map_to_list f).
(** [fs::read_dir]: the paths of the entries, [DirEntry::path]. *)
Definition read_dir (f : tree) (p : string) : result (list string) io_error :=
  let? q := resolve f p in
  let? i := tree_get f q in
  if is_dir_inode i then Ok (map (path_join p) (children f q)) else Err NotADirectory.

(** [fs::read_to_string] *)
Definition read_to_string (f : tree) (p : string) : result string io_error :=
  let? i := metadata f p in
  match i_kind i with
  | KFile c => Ok c
  | KDir => Err IsADirectory
  | KLink _ => Err FilesystemLoop
  end.

(** * Changes of the tree *)

(** [src] and everything below it get the name [dst]. *)
Definition rekey (src dst p : path) : path := dst ++ drop (length src) p.
Definition below (d p : path) : bool := bool_decide (d `prefix_of` p).

Definition subtree (d : path) (f : tree) : tree :=
  filter (fun kv => d `prefix_of` fst kv) f.
Definition without (d : path) (f : tree) : tree :=
  filter (fun kv => ~ d `prefix_of` fst kv) f.
Definition move_subtree (src dst : path) (f : tree) : tree :=
  list_to_map ((fun kv => (rekey src dst (fst kv), snd kv)) <$> map_to_list (subtree src f))
  ∪ without dst (without src f).

Definition dir_empty (f : tree) (d : path) : bool := bool_decide (children f d = []).

(** [rename(2)] on entries. *)
Definition rename_entry (f : tree) (src dst : path) : result tree io_error :=
  match f !! src with
  | None => Err NotFound
  | Some i =>
      if bool_decide (src = dst) then Ok f
      else if below src dst then Err InvalidInput
      else match f !! dst with
           | None => Ok (move_subtree src dst f)
           | Some j =>
               match is_dir_inode i, is_dir_inode j with
               | true, false => Err NotADirectory
               | false, true => Err IsADirectory
               | true, true => if dir_empty f dst then Ok (move_subtree src dst f)
                               else Err DirectoryNotEmpty
               | false, false => Ok (move_subtree src dst f)
               end
           end
  end.

#[global] Arguments rename_entry : simpl never.
#[global] Arguments move_subtree : simpl never.
#[global] Arguments dir_empty : simpl never.
#[global] Arguments children : simpl never.

(** A value bound to a statement or returned by a query. *)
Inductive sql_value := SqlNull | SqlInt (z : Z) | SqlText (s : string).

Inductive event :=
| EvMkdir (p : path)
| EvCreate (p : path)
| EvWrite (p : path)
| EvRename (src dst : path)
| EvUnlink (p : path)
| EvRmdir (p : path)
| EvSql (db sql : string) (binds : list sql_value).

(** * The machine *)
Record world (DB : Type) := mkWorld {
  w_fs : tree;
  w_db : string -> DB;                (** the databases, by the path of their file *)
  w_clock : nat -> Z;                 (** successive clock readings, in ns *)
  w_ticks : nat;                      (** readings made *)
  w_faults : nat -> option string;    (** errors of the changing calls *)
  w_calls : nat;                      (** changing calls made *)
  w_next_ino : Z;
  w_log : list event;
}.
Arguments mkWorld {DB} _ _ _ _ _ _ _ _.
Arguments w_fs {DB} _. Arguments w_db {DB} _. Arguments w_clock {DB} _.
Arguments w_ticks {DB} _. Arguments w_faults {DB} _. Arguments w_calls {DB} _.
Arguments w_next_ino {DB} _. Arguments w_log {DB} _.

Section ops.
Context {DB : Type}.
Abbreviation IO := (io (world DB) io_error).

Definition set_fs (f : tree) (w : world DB) : world DB :=
  mkWorld f (w_db w) (w_clock w) (w_ticks w) (w_faults w) (w_calls w) (w_next_ino w) (w_log w).
Definition add_log (e : event) (w : world DB) : world DB :=
  mkWorld (w_fs w) (w_db w) (w_clock w) (w_ticks w) (w_faults w) (w_calls w)
    (w_next_ino w) (w_log w ++ [e]).
Definition set_db (p : string) (d : DB) (w : world DB) : world DB :=
  mkWorld (w_fs w) (<[p := d]> (w_db w)) (w_clock w) (w_ticks w) (w_faults w)
    (w_calls w) (w_next_ino w) (w_log w).
Definition tick (w : world DB) : world DB :=
  mkWorld (w_fs w) (w_db w) (w_clock w) (S (w_ticks w)) (w_faults w) (w_calls w)
    (w_next_ino w) (w_log w).
Definition count_call (w : world DB) : world DB :=
  mkWorld (w_fs w) (w_db w) (w_clock w) (w_ticks w) (w_faults w) (S (w_calls w))
    (w_next_ino w) (w_log w).
Definition fresh_ino (w : world DB) : world DB :=
  mkWorld (w_fs w) (w_db w) (w_clock w) (w_ticks w) (w_faults w) (w_calls w)
    (w_next_ino w + 1) (w_log w).

(** A reading of [SystemTime::now()], in nanoseconds since the epoch. *)
Definition now_ns {E} : io (world DB) E Z :=
  fun w => (Ok (w_clock w (w_ticks w)), tick w).
(** [SystemTime::now().duration_since(UNIX_EPOCH)], [0] before the epoch. *)
Definition now_ms {E} : io (world DB) E Z :=
  let! ns := now_ns in io_ret (if (ns <? 0)%Z then 0%Z else (ns / 1000000)%Z).
Definition now_nanos {E} : io (world DB) E Z :=
  let! ns := now_ns in io_ret (Z.max 0 ns).

(** The point at which the system may refuse a changing call. *)
Definition fault_point : IO unit :=
  fun w => (match w_faults w (w_calls w) with
            | Some m => Err (OtherError m)
            | None => Ok tt
            end, count_call w).

Definition get_fs {E} : io (world DB) E tree := io_gets w_fs.
(** A change of the tree, logged. *)
Definition commit (f : tree) (e : event) : IO unit :=
  fun w => (Ok tt, add_log e (set_fs f w)).
(** A new entry, created now. *)
Definition put (p : path) (k : kind) (e : event) : IO unit :=
  fun w => let t := w_clock w (w_ticks w) in
           (Ok tt, fresh_ino (add_log e (set_fs
              (<[p := mkInode k t (Some t) (w_next_ino w)]> (w_fs w)) w))).
(** New contents of the existing file [p], whose inode is [i]. *)
Definition set_content (p : path) (i : inode) (c : string) : IO unit :=
  fun w => let t := w_clock w (w_ticks w) in
           (Ok tt, add_log (EvWrite p) (set_fs
              (<[p := mkInode (KFile c) t (i_btime_ns i) (i_ino i)]> (w_fs w)) w)).

(** [fs::create_dir] *)
Definition create_dir (p : string) : IO unit :=
  do! fault_point;
  let! f := get_fs in
  let! q := io_lift (locate f p) in
  match f !! q with
  | Some _ => io_fail AlreadyExists
  | None => put q KDir (EvMkdir q)
  end.

(** [fs::create_dir_all] *)
Fixpoint create_dir_all_go (fuel : nat) (p : string) : IO unit :=
  match fuel with
  | O => io_fail InvalidInput
  | S n =>
      if is_empty p then io_ret tt else
      let! first := io_try (create_dir p) in
      let! f := get_fs in
      match first with
      | Ok _ => io_ret tt
      | Err NotFound =>
          match path_parent p with
          | None => io_fail (OtherError "failed to create whole tree")
          | Some parent =>
              do! create_dir_all_go n parent;
              let! second := io_try (create_dir p) in
              let! f := get_fs in
              match second with
              | Ok _ => io_ret tt
              | Err e => if path_is_dir f p then io_ret tt else io_fail e
              end
          end
      | Err e => if path_is_dir f p then io_ret tt else io_fail e
      end
  end.
Definition create_dir_all (p : string) : IO unit :=
  create_dir_all_go (S (length (components p))) p.

(** [File::create]: opens for writing, created or truncated; the handle is the
    entry opened. *)
Definition file_create (p : string) : IO path :=
  do! fault_point;
  let! f := get_fs in
  let! q := io_lift (resolve_creat f p) in
  match f !! q with
  | None => do! put q (KFile "") (EvCreate q); io_ret q
  | Some i =>
      match i_kind i with
      | KFile _ => do! set_content q i ""; io_ret q
      | KDir => io_fail IsADirectory
      | KLink _ => io_fail FilesystemLoop
      end
  end.
Definition file_append (q : path) (s : string) : IO unit :=
  do! fault_point;
  let! f := get_fs in
  match f !! q with
  | Some i => match i_kind i with
              | KFile c => set_content q i (c +:+ s)
              | _ => io_fail InvalidInput
              end
  | None => io_fail NotFound
  end.
(** [fs::write]: a failure after the file is opened leaves it truncated. *)
Definition fs_write (p content : string) : IO unit :=
  let! q := file_create p in
  file_append q content.
(** [fs::copy] *)
Definition fs_copy (src dst : string) : IO unit :=
  let! f := get_fs in
  let! i := io_lift (metadata f src) in
  match i_kind i with
  | KFile c => fs_write dst c
  | _ => io_fail InvalidInput
  end.
(** [OpenOptions::new().write(true).create_new(true).open(p)] *)
Definition create_new (p : string) : IO unit :=
  do! fault_point;
  let! f := get_fs in
  let! q := io_lift (locate f p) in
  match f !! q with
  | Some _ => io_fail AlreadyExists
  | None => put q (KFile "") (EvCreate q)
  end.
(** [fs::rename] *)
Definition fs_rename (src dst : string) : IO unit :=
  do! fault_point;
  let! f := get_fs in
  let! s := io_lift (lresolve f src) in
  let! d := io_lift (locate f dst) in
  let! f' := io_lift (rename_entry f s d) in
  commit f' (EvRename s d).
(** [fs::remove_file] *)
Definition remove_file (p : string) : IO unit :=
  do! fault_point;
  let! f := get_fs in
  let! q := io_lift (lresolve f p) in
  let! i := io_lift (tree_get f q) in
  if is_dir_inode i then io_fail IsADirectory else commit (delete q f) (EvUnlink q).
(** [fs::remove_dir] *)
Definition remove_dir (p : string) : IO unit :=
  do! fault_point;
  let! f := get_fs in
  let! q := io_lift (lresolve f p) in
  let! i := io_lift (tree_get f q) in
  if bool_decide (q = []) then io_fail (OtherError "Device or resource busy (os error 16)")
  else if negb (is_dir_inode i) then io_fail NotADirectory
  else if dir_empty f q then commit (delete q f) (EvRmdir q)
  else io_fail DirectoryNotEmpty.
End ops.
