(* ===== verification/fs_facts.v ===== *)
(** Facts about the file-system model: well-formed trees, resolution of
    canonical paths, and the effect of each changing call. *)
From Stdlib Require Import ZArith Lia Ascii.
From stdpp Require Import strings pretty gmap functions option list.
From S2P Require Import prelude rust_str std_path std_fs.

Open Scope string_scope.
Open Scope list_scope.

(** * Segments and components *)

Definition comp_ok (c : Component) : Prop := match c with Normal s => seg_ok s | _ => True end.

Lemma inner_components_comp_ok l :
  Forall (fun x => contains_char "/" x = false) l -> Forall comp_ok (inner_components l).
Proof.
  intros Hl. unfold inner_components. apply Forall_map, Forall_forall. intros x Hx.
  apply list_elem_of_filter in Hx as [Hk Hx]. rewrite Forall_forall in Hl.
  specialize (Hl _ Hx). unfold seg_component, skipped_seg in *.
  destruct (is_dotdot x) eqn:Hdd; [done|]. unfold comp_ok, seg_ok.
  destruct (is_empty x); [done|]. destruct (is_dot x); [done|]. done.
Qed.

Lemma components_comp_ok p : Forall comp_ok (components p).
Proof.
  unfold components. pose proof (split_slash_no_slash p) as Hp.
  destruct (split_slash p) as [|s segs] eqn:Hs; [done|].
  pose proof (Forall_inv_tail Hp) as Hsegs.
  repeat case_match; try (constructor; [done|]); by apply inner_components_comp_ok.
Qed.
#[export] Hint Resolve components_comp_ok : core.

Lemma seg_ok_first_char s : seg_ok s -> exists c s', s = String c s' /\ is_slash c = false.
Proof.
  intros (Hs & He & _). destruct s as [|c s]; [done|]. exists c, s. split; [done|].
  simpl in Hs. by apply orb_false_iff in Hs as [Hc _].
Qed.

Lemma ends_with_slash_snoc p c : is_slash c = false -> ends_with_slash (p +:+ String c "") = false.
Proof.
  intros Hc. unfold ends_with_slash. induction p as [|d p IH].
  - unfold is_slash in Hc. rewrite sappend_nil_l. simpl. rewrite Hc. done.
  - rewrite sappend_cons. simpl. rewrite IH, orb_false_r.
    destruct (Ascii.eqb d "/"); [|done]. by destruct p.
Qed.

(** The path of a directory given by its segments, with and without the
    separator [Path::join] adds. *)
Lemma split_slash_ends p : ends_with_slash p = true -> exists q, p = q +:+ "/".
Proof.
  unfold ends_with_slash. induction p as [|c p IH]; simpl; [done|].
  intros [H|H]%orb_true_iff.
  - destruct (Ascii.eqb_spec c "/") as [->|]; [|done].
    apply String.eqb_eq in H as ->. by exists "".
  - destruct (IH H) as [q ->]. by exists (String c q).
Qed.

Lemma inner_components_nil_seg l : inner_components (l ++ [""]) = inner_components l.
Proof. rewrite inner_components_app. apply app_nil_r. Qed.

Lemma split_slash_end r : split_slash (r +:+ "/") = split_slash r ++ [""].
Proof. exact (split_slash_app r ""). Qed.

(** Joining a relative path to an absolute one concatenates the components, the
    leading [CurDir] of the relative path dropped. *)
Definition drop_curdir (l : list Component) : list Component :=
  match l with CurDir :: l' => l' | _ => l end.

Lemma drop_curdir_components q :
  is_absolute q = false -> drop_curdir (components q) = inner_components (split_slash q).
Proof.
  intros Hq. unfold components. rewrite Hq.
  destruct (split_slash q) as [|s segs] eqn:Hs; [done|].
  destruct (is_dot s) eqn:Hd.
  - simpl. unfold inner_components. rewrite filter_cons, decide_False; [done|].
    unfold skipped_seg. rewrite Hd, orb_true_r. by intros [].
  - unfold inner_components. rewrite filter_cons. case_decide as Hk; [|].
    + simpl. assert (seg_component s <> CurDir) as Hc by (unfold seg_component; by destruct (is_dotdot s)).
      by destruct (seg_component s).
    + assert (is_empty s = true) as He.
      { unfold skipped_seg in Hk. rewrite Hd, orb_false_r in Hk. destruct (is_empty s); [done|]. by destruct Hk. }
      destruct s; [|done]. destruct q as [|c q]; [by injection Hs as <-|].
      simpl in Hq, Hs. unfold split_slash in Hs. simpl in Hs. rewrite Hq in Hs.
      by destruct (split_on is_slash q).
Qed.

Lemma components_join p q :
  is_absolute p = true -> is_absolute q = false ->
  components (path_join p q) = components p ++ drop_curdir (components q).
Proof.
  intros Hp Hq. rewrite drop_curdir_components by done. unfold path_join. rewrite Hq.
  destruct p as [|c p]; [done|]. simpl is_empty. simpl orb. simpl in Hp.
  assert (c = "/"%char) as -> by (by apply Ascii.eqb_eq in Hp).
  destruct (ends_with_slash (String "/" p)) eqn:He.
  - destruct p as [|d p].
    + rewrite sappend_cons, sappend_nil_l, !components_cons_slash. done.
    + assert (ends_with_slash (String d p) = true) as [r Hr]%split_slash_ends.
      { unfold ends_with_slash in *. simpl in He.
        destruct (String.eqb_spec (String "/" (String d p)) "/"); [done|]. exact He. }
      rewrite sappend_cons, !components_cons_slash, Hr, sappend_assoc, split_slash_app, split_slash_end.
      by rewrite inner_components_nil_seg, inner_components_app.
  - rewrite sappend_cons, !components_cons_slash, split_slash_app, inner_components_app. done.
Qed.

Lemma is_absolute_abs_path l : is_absolute (abs_path l) = true.
Proof. done. Qed.
Lemma is_absolute_join p q : is_absolute p = true -> is_absolute (path_join p q) = true.
Proof. unfold path_join. intros Hp. destruct p; [done|]. by repeat case_match. Qed.

Lemma components_seg s : seg_ok s -> components s = [Normal s].
Proof.
  intros Hok. pose proof (seg_ok_first_char _ Hok) as (c & s' & Heq & Hc).
  pose proof Hok as (Hs & _ & Hd & _).
  unfold components. rewrite split_slash_seg, Hd by done.
  rewrite Heq at 1. simpl is_absolute. rewrite Hc.
  apply (inner_components_ok [s]). by apply list.Forall_singleton.
Qed.

Lemma components_abs_join l s :
  Forall seg_ok l -> seg_ok s ->
  components (path_join (abs_path l) s) = RootDir :: map Normal (l ++ [s]).
Proof.
  intros Hl Hs. pose proof (seg_ok_first_char _ Hs) as (c & s' & -> & Hc).
  rewrite components_join by done.
  rewrite components_abs_path, components_seg by done. simpl. by rewrite map_app.
Qed.

Lemma strip_components_app p l : strip_components (p ++ l) p = Some l.
Proof. induction p as [|c p IH]; simpl; [done|]. by rewrite decide_True. Qed.
Lemma strip_components_some l p r : strip_components l p = Some r <-> l = p ++ r.
Proof.
  split; [|intros ->; apply strip_components_app].
  revert l. induction p as [|c p IH]; intros l; simpl; [by intros [= ->]|].
  destruct l as [|d l]; [done|]. case_decide; [|done]. subst. intros H. by rewrite (IH l).
Qed.

#[export] Instance Normal_inj : Inj (=) (=) Normal.
Proof. by intros ? ? [=]. Qed.

Lemma starts_with_abs l r :
  Forall seg_ok l -> Forall seg_ok r ->
  path_starts_with (abs_path l) (abs_path r) = true <-> r `prefix_of` l.
Proof.
  intros Hl Hr. unfold path_starts_with, path_strip_prefix.
  rewrite !components_abs_path by done. simpl.
  destruct (strip_components (map Normal l) (map Normal r)) as [k|] eqn:Hk.
  - split; [intros _|done]. apply strip_components_some in Hk.
    apply (f_equal (take (length r))) in Hk.
    rewrite <- (length_map Normal r) in Hk at 2. rewrite take_app_length in Hk.
    rewrite firstn_map in Hk. apply (inj (map Normal)) in Hk.
    exists (drop (length r) l). rewrite <- Hk at 1. by rewrite take_drop.
  - split; [done|]. intros [k ->]. rewrite map_app, strip_components_app in Hk. done.
Qed.

(** * Well-formed trees *)

(** The root is a directory; the parent of every other entry is a directory and
    every name is a segment. *)
Record wf_tree (f : tree) : Prop := {
  wf_root : exists i, f !! [] = Some i /\ is_dir_inode i = true;
  wf_parent : forall p s i, f !! (p ++ [s]) = Some i ->
    seg_ok s /\ exists j, f !! p = Some j /\ is_dir_inode j = true;
}.

Definition dir_at (f : tree) (p : path) : Prop :=
  exists i, f !! p = Some i /\ is_dir_inode i = true.

Lemma wf_segs f p i : wf_tree f -> f !! p = Some i -> Forall seg_ok p.
Proof.
  intros Hwf. revert i. induction p as [|s p IH] using rev_ind; intros i Hi; [done|].
  destruct (wf_parent _ Hwf _ _ _ Hi) as (Hs & j & Hj & _).
  apply Forall_app. split; [by eapply IH|by apply list.Forall_singleton].
Qed.

Lemma wf_prefix f p q i :
  wf_tree f -> f !! (p ++ q) = Some i -> q <> [] -> dir_at f p.
Proof.
  intros Hwf. revert i. induction q as [|s q IH] using rev_ind; intros i Hi Hq; [done|].
  rewrite app_assoc in Hi. destruct (wf_parent _ Hwf _ _ _ Hi) as (_ & j & Hj & Hd).
  destruct (decide (q = [])) as [->|Hne].
  - rewrite app_nil_r in Hj. by exists j.
  - by eapply IH.
Qed.

Lemma wf_below_none f p q : wf_tree f -> f !! p = None -> p `prefix_of` q -> f !! q = None.
Proof.
  intros Hwf Hp [k ->]. destruct (decide (k = [])) as [->|Hk]; [by rewrite app_nil_r|].
  destruct (f !! (p ++ k)) as [i|] eqn:Hi; [|done].
  destruct (wf_prefix _ _ _ _ Hwf Hi Hk) as (j & Hj & _). congruence.
Qed.

Lemma not_dir_no_children f p q i :
  wf_tree f -> f !! p = Some i -> is_dir_inode i = false -> p `prefix_of` q -> p <> q -> f !! q = None.
Proof.
  intros Hwf Hi Hd [k ->] Hne. destruct (f !! (p ++ k)) as [j|] eqn:Hj; [|done].
  destruct (wf_prefix f p k j) as (i' & ? & ?); [done..| |congruence].
  intros ->. by rewrite app_nil_r in Hne.
Qed.

(** * Resolution *)

Lemma walk_nil n f mo fl cur : walk n f mo fl cur [] = Ok cur.
Proof. by destruct n. Qed.

Lemma walk_cons n f mo fl cur c rest :
  walk n f mo fl cur (c :: rest) =
  match c with
  | RootDir => walk n f mo fl [] rest
  | CurDir => walk n f mo fl cur rest
  | ParentDir => walk n f mo fl (removelast cur) rest
  | Normal s =>
      match f !! (cur ++ [s]) with
      | None => if mo && bool_decide (rest = []) then Ok (cur ++ [s]) else Err NotFound
      | Some i =>
          match i_kind i with
          | KDir => walk n f mo fl (cur ++ [s]) rest
          | KFile _ => if bool_decide (rest = []) then Ok (cur ++ [s]) else Err NotADirectory
          | KLink t =>
              if bool_decide (rest = []) && negb fl then Ok (cur ++ [s])
              else match n with
                   | O => Err FilesystemLoop
                   | S n' => walk n' f mo fl cur (components t ++ rest)
                   end
          end
      end
  end.
Proof. by destruct n, c. Qed.

Lemma dir_at_removelast f cur : wf_tree f -> dir_at f cur -> dir_at f (removelast cur).
Proof.
  intros Hwf (i & Hi & Hd). destruct cur as [|x cur' _] using rev_ind; [by exists i|].
  rewrite removelast_last. by eapply wf_prefix.
Qed.

Lemma dir_at_not_link f p i : dir_at f p -> f !! p = Some i -> is_link_inode i = false.
Proof.
  intros (j & Hj & Hd) Hi. simplify_eq. unfold is_dir_inode, is_link_inode in *.
  by destruct (i_kind j).
Qed.

(** What a successful walk returns. *)
Lemma walk_ok n f mo fl cur rest q :
  wf_tree f -> dir_at f cur -> Forall comp_ok rest ->
  walk n f mo fl cur rest = Ok q ->
  (exists i, f !! q = Some i /\ (fl = true -> is_link_inode i = false)) \/
  (mo = true /\ f !! q = None /\ exists d s, q = d ++ [s] /\ seg_ok s /\ dir_at f d).
Proof.
  intros Hwf. revert cur rest.
  induction n as [n IHn] using lt_wf_ind. intros cur rest. revert cur.
  induction rest as [|c rest IH]; intros cur Hcur Hok Hw.
  { rewrite walk_nil in Hw. injection Hw as <-. destruct Hcur as (i & Hi & Hd).
    left. exists i. split; [done|]. intros _. eapply dir_at_not_link; [by exists i|done]. }
  apply Forall_cons in Hok as [Hc Hok]. rewrite walk_cons in Hw.
  destruct c as [| | |s].
  { eapply IH; [exact (wf_root _ Hwf)|done..]. }
  { by eapply IH. }
  { eapply IH; [by apply dir_at_removelast|done..]. }
  destruct (f !! (cur ++ [s])) as [i|] eqn:Hi.
  - destruct (i_kind i) as [ct| |t] eqn:Hk.
    + case_bool_decide; [|done]. injection Hw as <-. left. exists i. split; [done|].
      intros _. unfold is_link_inode. by rewrite Hk.
    + eapply IH; [|exact Hok|exact Hw]. exists i. split; [done|].
      unfold is_dir_inode. by rewrite Hk.
    + destruct (bool_decide (rest = []) && negb fl) eqn:Hb.
      * injection Hw as <-. left. exists i. split; [done|]. intros ->.
        by rewrite andb_false_r in Hb.
      * destruct n as [|n']; [done|]. eapply (IHn n'); [lia|exact Hcur| |exact Hw].
        apply Forall_app. auto.
  - destruct (mo && bool_decide (rest = [])) eqn:Hb; [|done]. injection Hw as <-.
    apply andb_true_iff in Hb as [-> _]. right. split; [done|]. split; [done|].
    by exists cur, s.
Qed.

(** [O_CREAT] differs only for a missing last name. *)
Lemma walk_creat n f fl cur rest q :
  walk n f true fl cur rest = Ok q -> is_Some (f !! q) -> walk n f false fl cur rest = Ok q.
Proof.
  revert cur rest. induction n as [n IHn] using lt_wf_ind. intros cur rest. revert cur.
  induction rest as [|c rest IH]; intros cur Hw Hq.
  { by rewrite walk_nil in *. }
  rewrite walk_cons in *. destruct c as [| | |s]; try by apply IH.
  destruct (f !! (cur ++ [s])) as [i|] eqn:Hi.
  - destruct (i_kind i) as [ct| |t]; [done|by apply IH|].
    destruct (bool_decide (rest = []) && negb fl); [done|].
    destruct n as [|n']; [done|]. apply (IHn n'); [lia|done..].
  - simpl in *. case_bool_decide; [|done]. injection Hw as <-. rewrite Hi in Hq. by destruct Hq.
Qed.

(** Following the last link differs only when the last entry is a link. *)
Lemma walk_follow n f mo cur rest q i :
  walk n f mo false cur rest = Ok q -> f !! q = Some i -> is_link_inode i = false ->
  walk n f mo true cur rest = Ok q.
Proof.
  revert cur rest. induction n as [n IHn] using lt_wf_ind. intros cur rest. revert cur.
  induction rest as [|c rest IH]; intros cur Hw Hq Hl.
  { by rewrite walk_nil in *. }
  rewrite walk_cons in *. destruct c as [| | |s]; try by apply IH.
  destruct (f !! (cur ++ [s])) as [j|] eqn:Hj; [|done].
  destruct (i_kind j) as [ct| |t] eqn:Hk; [done|by apply IH|].
  rewrite andb_false_r. rewrite andb_true_r in Hw. case_bool_decide as Hrest.
  - injection Hw as <-. rewrite Hj in Hq. injection Hq as ->. unfold is_link_inode in Hl. by rewrite Hk in Hl.
  - destruct n as [|n']; [done|]. apply (IHn n'); [lia|done..].
Qed.

(** The walk over a path whose directories are real reaches the entry itself. *)
Lemma walk_real n f mo fl cur l i :
  wf_tree f -> f !! (cur ++ l) = Some i -> dir_at f cur ->
  (fl = true -> is_link_inode i = false) ->
  walk n f mo fl cur (map Normal l) = Ok (cur ++ l).
Proof.
  intros Hwf. revert cur. induction l as [|s l IH]; intros cur Hi Hcur Hl; simpl.
  { by rewrite walk_nil, app_nil_r. }
  rewrite walk_cons. rewrite (cons_middle s cur l), app_assoc in *.
  destruct (decide (l = [])) as [->|Hne].
  - rewrite app_nil_r in *. rewrite Hi. simpl.
    destruct (i_kind i) eqn:Hk; [done|by rewrite walk_nil|].
    destruct fl; [|done]. unfold is_link_inode in Hl. rewrite Hk in Hl. by specialize (Hl eq_refl).
  - destruct (wf_prefix _ _ _ _ Hwf Hi Hne) as (j & Hj & Hd). rewrite Hj.
    unfold is_dir_inode in Hd. destruct (i_kind j) eqn:Hk; [done| |done].
    eapply IH; [done| |done]. exists j. unfold is_dir_inode. by rewrite Hk.
Qed.

Lemma walk_real_missing n f fl d s :
  wf_tree f -> dir_at f d -> f !! (d ++ [s]) = None ->
  walk n f true fl [] (map Normal (d ++ [s])) = Ok (d ++ [s]).
Proof.
  intros Hwf Hd Hs.
  assert (forall cur l, cur ++ l = d -> dir_at f cur ->
    walk n f true fl cur (map Normal (l ++ [s])) = Ok (d ++ [s])) as H.
  { intros cur l. revert cur. induction l as [|x l IH]; intros cur Heq Hcur; simpl; rewrite walk_cons.
    - rewrite app_nil_r in Heq. subst. rewrite Hs. simpl. done.
    - rewrite (cons_middle x cur l), app_assoc in Heq. subst d.
      assert (dir_at f (cur ++ [x])) as (j & Hj & Hdj).
      { destruct (decide (l = [])) as [->|]; [by rewrite app_nil_r in Hd|].
        destruct Hd as (i & Hi & _). by eapply wf_prefix. }
      rewrite Hj. unfold is_dir_inode in Hdj. destruct (i_kind j) eqn:Hk; [done| |done].
      eapply IH; [done|]. exists j. unfold is_dir_inode. by rewrite Hk. }
  apply (H [] d); [done|apply (wf_root _ Hwf)].
Qed.

Section canonical.
Context (f : tree) (Hwf : wf_tree f).

Lemma resolve_abs q i :
  f !! q = Some i -> is_link_inode i = false -> resolve f (abs_path q) = Ok q.
Proof.
  intros Hi Hl. unfold resolve. rewrite components_abs_path by (by eapply wf_segs).
  rewrite walk_cons. eapply (walk_real _ _ _ _ []); [done|exact Hi|apply (wf_root _ Hwf)|done].
Qed.
Lemma lresolve_abs q i : f !! q = Some i -> lresolve f (abs_path q) = Ok q.
Proof.
  intros Hi. unfold lresolve. rewrite components_abs_path by (by eapply wf_segs).
  rewrite walk_cons. eapply (walk_real _ _ _ _ []); [done|exact Hi|apply (wf_root _ Hwf)|done].
Qed.
Lemma locate_abs_join d s :
  dir_at f d -> seg_ok s -> locate f (path_join (abs_path d) s) = Ok (d ++ [s]).
Proof.
  intros Hd Hs. unfold locate. pose proof Hd as (j & Hj & _).
  rewrite components_abs_join; [|by eapply wf_segs|done]. rewrite walk_cons.
  destruct (f !! (d ++ [s])) as [i|] eqn:Hi.
  - eapply (walk_real _ _ _ _ []); [done|exact Hi|apply (wf_root _ Hwf)|done].
  - by apply walk_real_missing.
Qed.
Lemma walk_file_middle n mo fl cur l s i :
  f !! (cur ++ l) = Some i -> is_file_inode i = true -> dir_at f cur ->
  walk n f mo fl cur (map Normal (l ++ [s])) = Err NotADirectory.
Proof.
  revert cur. induction l as [|x l IH]; intros cur Hi Hf Hcur; simpl.
  { rewrite app_nil_r in Hi. destruct Hcur as (j & Hj & Hd). simplify_eq.
    unfold is_dir_inode, is_file_inode in *. by destruct (i_kind _). }
  rewrite walk_cons. rewrite (cons_middle x cur l), app_assoc in Hi.
  destruct (decide (l = [])) as [->|Hne].
  - rewrite app_nil_r in Hi. rewrite Hi. unfold is_file_inode in Hf. by destruct (i_kind i).
  - destruct (wf_prefix _ _ _ _ Hwf Hi Hne) as (j & Hj & Hd). rewrite Hj.
    pose proof Hd as Hd'. unfold is_dir_inode in Hd'. destruct (i_kind j); [done| |done].
    apply IH; [done|done|]. by exists j.
Qed.

(** A name located below an entry that is no link: the entry is a directory. *)
Lemma locate_abs_join_inv d s i q :
  f !! d = Some i -> is_link_inode i = false -> seg_ok s ->
  locate f (path_join (abs_path d) s) = Ok q -> dir_at f d /\ q = d ++ [s].
Proof.
  intros Hi Hl Hs Hq. destruct (is_dir_inode i) eqn:Hd.
  - assert (dir_at f d) as Hdir by (by exists i). split; [done|].
    rewrite locate_abs_join in Hq by done. by injection Hq as <-.
  - exfalso. unfold locate in Hq. rewrite components_abs_join in Hq; [|by eapply wf_segs|done].
    rewrite walk_cons, (walk_file_middle _ _ _ [] d s i) in Hq; [done|done| |apply (wf_root _ Hwf)].
    unfold is_link_inode, is_dir_inode, is_file_inode in *. by destruct (i_kind i).
Qed.
Lemma resolve_abs_join d s i :
  f !! (d ++ [s]) = Some i -> is_link_inode i = false -> seg_ok s ->
  resolve f (path_join (abs_path d) s) = Ok (d ++ [s]).
Proof.
  intros Hi Hl Hs. unfold resolve.
  pose proof (wf_segs _ _ _ Hwf Hi) as [Hd _]%Forall_app.
  rewrite components_abs_join by done. rewrite walk_cons.
  eapply (walk_real _ _ _ _ []); [done|exact Hi|apply (wf_root _ Hwf)|done].
Qed.

Lemma resolve_ok p q :
  resolve f p = Ok q -> exists i, f !! q = Some i /\ is_link_inode i = false.
Proof.
  intros [(i & Hi & Hl)|(? & _)]%walk_ok; [|done..|apply (wf_root _ Hwf)|done]. eauto.
Qed.
Lemma lresolve_ok p q : lresolve f p = Ok q -> is_Some (f !! q).
Proof.
  intros [(i & Hi & Hl)|(? & _)]%walk_ok; [|done..|apply (wf_root _ Hwf)|done]. eauto.
Qed.
Lemma locate_ok p q :
  locate f p = Ok q ->
  is_Some (f !! q) \/ (f !! q = None /\ exists d s, q = d ++ [s] /\ seg_ok s /\ dir_at f d).
Proof.
  intros [(i & Hi & Hl)|(_ & H)]%walk_ok; [|by right|done|apply (wf_root _ Hwf)|done].
  left. eauto.
Qed.
Lemma resolve_creat_ok p q :
  resolve_creat f p = Ok q ->
  is_Some (f !! q) \/ (f !! q = None /\ exists d s, q = d ++ [s] /\ seg_ok s /\ dir_at f d).
Proof.
  intros [(i & Hi & Hl)|(_ & H)]%walk_ok; [|by right|done|apply (wf_root _ Hwf)|done].
  left. eauto.
Qed.

(** What [open(O_CREAT)] opens where [exists] is false is a new entry. *)
Lemma resolve_creat_fresh p q : path_exists f p = false -> resolve_creat f p = Ok q -> f !! q = None.
Proof.
  intros He Hq. destruct (f !! q) as [i|] eqn:Hi; [|done].
  assert (resolve f p = Ok q) as Hr by (apply walk_creat; [exact Hq|by exists i]).
  unfold path_exists, metadata, tree_get in He. by rewrite Hr, Hi in He.
Qed.

(** [canonicalize] returns the path of an existing entry that is no link and
    that the path names again. *)
Lemma canonicalize_ok p r :
  canonicalize f p = Ok r ->
  exists q i, resolve f p = Ok q /\ f !! q = Some i /\ is_link_inode i = false /\ r = abs_path q.
Proof.
  unfold canonicalize, tree_get. destruct (resolve f p) as [q|e] eqn:Hq; [|done].
  destruct (resolve_ok _ _ Hq) as (i & Hi & Hl). rewrite Hi. intros [= <-]. eauto 10.
Qed.
Lemma canonicalize_idemp p r : canonicalize f p = Ok r -> canonicalize f r = Ok r.
Proof.
  intros (q & i & _ & Hi & Hl & ->)%canonicalize_ok. unfold canonicalize, tree_get.
  by rewrite (resolve_abs _ _ Hi Hl), Hi.
Qed.
End canonical.

Lemma abs_path_inj l r :
  Forall seg_ok l -> Forall seg_ok r -> abs_path l = abs_path r -> l = r.
Proof.
  intros Hl Hr H%(f_equal components). rewrite !components_abs_path in H by done.
  injection H as H. by apply (inj (map Normal)) in H.
Qed.

(** * Children *)

Lemma child_name_some d p s : child_name d p = Some s <-> p = d ++ [s].
Proof.
  unfold child_name. destruct p as [|x p _] using rev_ind; simpl.
  - split; [done|]. intros H. by destruct d.
  - rewrite reverse_snoc. case_bool_decide as Hd; rewrite reverse_involutive in Hd.
    + subst. split; [by intros [= ->]|]. by intros [_ [= ->]]%app_inj_2.
    + split; [done|]. by intros [-> _]%app_inj_2.
Qed.

Lemma elem_of_children f d s : s ∈ children f d <-> is_Some (f !! (d ++ [s])).
Proof.
  unfold children. rewrite list_elem_of_omap. split.
  - intros ([p i] & Hp & Hc). simpl in Hc. apply child_name_some in Hc as ->.
    apply elem_of_map_to_list in Hp. eauto.
  - intros [i Hi]. exists (d ++ [s], i). split; [by apply elem_of_map_to_list|].
    by apply child_name_some.
Qed.

Lemma dir_empty_true f d :
  wf_tree f -> dir_empty f d = true <-> (forall p, d `prefix_of` p -> p <> d -> f !! p = None).
Proof.
  intros Hwf. unfold dir_empty. rewrite bool_decide_eq_true. split.
  - intros Hnil p [k ->] Hne. destruct k as [|s k]; [by rewrite app_nil_r in Hne|].
    assert (f !! (d ++ [s]) = None) as Hs.
    { destruct (f !! (d ++ [s])) eqn:Hs; [|done].
      assert (s ∈ children f d) as Hc by (by apply elem_of_children; eauto).
      rewrite Hnil in Hc. by apply not_elem_of_nil in Hc. }
    eapply wf_below_none; [done|exact Hs|]. exists k. by rewrite <- app_assoc.
  - intros Hno. destruct (children f d) as [|s l] eqn:Hc; [done|].
    assert (s ∈ children f d) as [i Hi]%elem_of_children by (rewrite Hc; set_solver).
    rewrite Hno in Hi; [done|by eexists|]. intros H. apply (f_equal length) in H.
    rewrite length_app in H. simpl in H. lia.
Qed.

(** * Changes of the tree *)

Lemma wf_insert f d s i :
  wf_tree f -> dir_at f d -> seg_ok s -> f !! (d ++ [s]) = None -> wf_tree (<[d ++ [s] := i]> f).
Proof.
  intros Hwf Hd Hs Hnone. constructor.
  - rewrite lookup_insert_ne by (by destruct d). apply (wf_root _ Hwf).
  - intros p s' j Hj. destruct (decide (d ++ [s] = p ++ [s'])) as [Heq|Hne].
    + apply app_inj_2 in Heq as [-> [= ->]]; [|done]. split; [done|].
      destruct Hd as (k & Hk & Hkd). exists k. split; [|done].
      rewrite lookup_insert_ne; [done|]. intros H. apply (f_equal length) in H.
      rewrite length_app in H. simpl in H. lia.
    + rewrite lookup_insert_ne in Hj by done.
      destruct (wf_parent _ Hwf _ _ _ Hj) as (Hs' & k & Hk & Hkd). split; [done|].
      exists k. split; [|done]. rewrite lookup_insert_ne; [done|]. intros <-. congruence.
Qed.

Lemma wf_update f p i j :
  wf_tree f -> f !! p = Some i -> is_dir_inode i = is_dir_inode j -> wf_tree (<[p := j]> f).
Proof.
  intros Hwf Hp Hdir. constructor.
  - destruct (wf_root _ Hwf) as (r & Hr & Hrd). destruct (decide (p = [])) as [->|].
    + exists j. rewrite lookup_insert_eq. split; [done|congruence].
    + exists r. by rewrite lookup_insert_ne.
  - intros q s k Hk.
    assert (exists k', f !! (q ++ [s]) = Some k') as [k' Hk'].
    { destruct (decide (p = q ++ [s])) as [->|]; [eauto|]. rewrite lookup_insert_ne in Hk by done. eauto. }
    destruct (wf_parent _ Hwf _ _ _ Hk') as (Hs & r & Hr & Hrd). split; [done|].
    destruct (decide (p = q)) as [->|].
    + exists j. rewrite lookup_insert_eq. split; [done|congruence].
    + exists r. by rewrite lookup_insert_ne.
Qed.

Lemma wf_delete f p :
  wf_tree f -> p <> [] -> (forall q, p `prefix_of` q -> q <> p -> f !! q = None) -> wf_tree (delete p f).
Proof.
  intros Hwf Hp Hno. constructor.
  - rewrite lookup_delete_ne by done. apply (wf_root _ Hwf).
  - intros q s i Hi. destruct (decide (p = q ++ [s])) as [->|Hne].
    { by rewrite lookup_delete_eq in Hi. }
    rewrite lookup_delete_ne in Hi by done.
    destruct (wf_parent _ Hwf _ _ _ Hi) as (Hs & r & Hr & Hrd). split; [done|].
    exists r. rewrite lookup_delete_ne; [done|]. intros ->.
    rewrite Hno in Hi; [done|by eexists|done].
Qed.

Lemma rekey_app src dst k : rekey src dst (src ++ k) = dst ++ k.
Proof. unfold rekey. by rewrite drop_app_length. Qed.

Lemma lookup_move_subtree src dst f p :
  move_subtree src dst f !! p =
  if bool_decide (dst `prefix_of` p) then f !! (src ++ drop (length dst) p)
  else if bool_decide (src `prefix_of` p) then None else f !! p.
Proof.
  unfold move_subtree.
  set (l := (fun kv : path * inode => (rekey src dst kv.1, kv.2)) <$> map_to_list (subtree src f)).
  assert (forall k i, (k, i) ∈ l <-> exists t, k = dst ++ t /\ f !! (src ++ t) = Some i) as Hl.
  { intros k i. unfold l. rewrite list_elem_of_fmap. split.
    - intros ([q j] & Heq & Hin). apply elem_of_map_to_list in Hin.
      unfold subtree in Hin. apply map_lookup_filter_Some in Hin as [Hq [t Ht]].
      simpl in *. subst q. simplify_eq. exists t. by rewrite rekey_app.
    - intros (t & -> & Ht). exists (src ++ t, i). split; [simpl; by rewrite rekey_app|].
      apply elem_of_map_to_list, map_lookup_filter_Some. split; [done|]. by exists t. }
  assert (NoDup l.*1) as Hnd.
  { unfold l. rewrite <- list_fmap_compose.
    eapply (NoDup_fmap_2_strong (fun kv : path * inode => rekey src dst kv.1)).
    - intros [q1 i1] [q2 i2] H1%elem_of_map_to_list H2%elem_of_map_to_list Heq. simpl in *.
      unfold subtree in *.
      apply map_lookup_filter_Some in H1 as [H1 [t1 Ht1]], H2 as [H2 [t2 Ht2]]. simpl in *. subst.
      rewrite !rekey_app in Heq. apply app_inv_head in Heq as ->. by simplify_eq.
    - apply NoDup_map_to_list. }
  case_bool_decide as Hd.
  - destruct Hd as [t ->]. rewrite drop_app_length.
    destruct (f !! (src ++ t)) as [i|] eqn:Hi.
    + apply lookup_union_Some_l, elem_of_list_to_map_1; [done|]. apply Hl. eauto.
    + apply lookup_union_None. split.
      * apply not_elem_of_list_to_map_1. intros ([k i] & Heq & Hin)%list_elem_of_fmap.
        simpl in Heq. subst k. apply Hl in Hin as (t' & Heq & Ht').
        apply app_inv_head in Heq as ->. congruence.
      * apply map_lookup_filter_None. right. intros i _ Hn. apply Hn. by exists t.
  - rewrite lookup_union_r.
    2: { apply not_elem_of_list_to_map_1. intros ([k i] & Heq & Hin)%list_elem_of_fmap.
         simpl in Heq. subst k. apply Hl in Hin as (t' & -> & Ht'). apply Hd. by exists t'. }
    unfold without. case_bool_decide as Hs.
    + apply map_lookup_filter_None. right. simpl. intros i Hi Hn.
      apply map_lookup_filter_Some in Hi as [_ Hi]. by apply Hi.
    + destruct (f !! p) as [i|] eqn:Hp.
      * apply map_lookup_filter_Some. split; [|done]. by apply map_lookup_filter_Some.
      * apply map_lookup_filter_None. left. apply map_lookup_filter_None. by left.
Qed.

Lemma prefix_snoc_inv (p q : path) s : p `prefix_of` q ++ [s] -> p = q ++ [s] \/ p `prefix_of` q.
Proof.
  intros [k Hk]. destruct k as [|x k _] using rev_ind; [left; by rewrite app_nil_r in Hk|].
  rewrite app_assoc in Hk. apply app_inj_tail in Hk as [-> _]. right. by exists k.
Qed.

Lemma not_prefix_shorter (p : path) s : ~ p ++ [s] `prefix_of` p.
Proof. intros H%prefix_length. rewrite length_app in H. simpl in H. lia. Qed.

Lemma wf_move f src dst d s :
  wf_tree f -> dst = d ++ [s] -> dir_at f d -> seg_ok s -> ~ src `prefix_of` dst ->
  wf_tree (move_subtree src dst f).
Proof.
  intros Hwf -> Hd Hs Hsrc.
  assert (~ src `prefix_of` d) as Hsd.
  { intros H. apply Hsrc. by apply prefix_app_r. }
  constructor.
  - rewrite lookup_move_subtree.
    rewrite bool_decide_false by (intros [k Hk]; by destruct d).
    rewrite bool_decide_false; [apply (wf_root _ Hwf)|].
    intros [k Hk]. destruct src; [|done]. apply Hsrc, prefix_nil.
  - intros p x i. rewrite lookup_move_subtree.
    case_bool_decide as Hdst.
    + intros Hi. apply prefix_snoc_inv in Hdst as [Heq|Hp].
      * apply app_inj_tail in Heq as [-> ->]. split; [done|].
        destruct Hd as (j & Hj & Hdj). exists j. split; [|done].
        rewrite lookup_move_subtree, bool_decide_false by apply not_prefix_shorter.
        by rewrite bool_decide_false.
      * destruct Hp as [t ->]. rewrite <- app_assoc, drop_app_length, app_assoc in Hi.
        destruct (wf_parent _ Hwf _ _ _ Hi) as (Hx & j & Hj & Hdj). split; [done|].
        exists j. split; [|done]. rewrite lookup_move_subtree.
        rewrite bool_decide_true by (by exists t). by rewrite drop_app_length.
    + case_bool_decide as Hsp; [done|]. intros Hi.
      destruct (wf_parent _ Hwf _ _ _ Hi) as (Hx & j & Hj & Hdj). split; [done|].
      exists j. split; [|done]. rewrite lookup_move_subtree.
      rewrite !bool_decide_false; [done|..]; intros H; [apply Hsp|apply Hdst];
        by apply prefix_app_r.
Qed.

(** [rename(2)] succeeds either without effect (both names are the same entry)
    or by giving the source's subtree the new name; the entry it replaces, if
    any, has nothing below it. *)
Lemma rename_entry_ok f src dst f' :
  rename_entry f src dst = Ok f' ->
  is_Some (f !! src) /\
  ((src = dst /\ f' = f) \/
   (~ src `prefix_of` dst /\ f' = move_subtree src dst f /\
    (forall i j, f !! src = Some i -> f !! dst = Some j ->
       (is_dir_inode i = true /\ is_dir_inode j = true /\ dir_empty f dst = true) \/
       (is_dir_inode i = false /\ is_dir_inode j = false)))).
Proof.
  unfold rename_entry. destruct (f !! src) as [i|]; [|done].
  case_bool_decide as Heq; [intros [= <-]; split; [done|by left]|].
  unfold below. case_bool_decide as Hb; [done|].
  destruct (f !! dst) as [j|]; [|intros [= <-]; split; [done|right; by split_and!]].
  destruct (is_dir_inode i) eqn:Hi, (is_dir_inode j) eqn:Hj; try done;
    [destruct (dir_empty f dst) eqn:He; [|done]|]; intros [= <-];
    (split; [done|]); right; (split_and!; [done..|]); intros ? ? [= <-] [= <-]; auto.
Qed.

Lemma wf_rename f src dst f' :
  wf_tree f -> rename_entry f src dst = Ok f' ->
  is_Some (f !! dst) \/ (f !! dst = None /\ exists d s, dst = d ++ [s] /\ seg_ok s /\ dir_at f d) ->
  wf_tree f'.
Proof.
  intros Hwf Hr Hdst. apply rename_entry_ok in Hr as [[i Hi] [[_ ->]|(Hsd & -> & Hboth)]]; [done|].
  destruct Hdst as [[j Hj]|(_ & d & s & -> & Hs & Hd)].
  - destruct dst as [|s d _] using rev_ind.
    + exfalso. destruct (wf_root _ Hwf) as (r & Hr & Hrd). simplify_eq.
      destruct (Hboth _ _ Hi Hj) as [(_ & _ & He)|[_ ?]]; [|congruence].
      rewrite dir_empty_true in He by done. rewrite He in Hi; [done|apply prefix_nil|].
      intros ->. apply Hsd. done.
    + destruct (wf_parent _ Hwf _ _ _ Hj) as (Hs & Hd). by eapply wf_move.
  - by eapply wf_move.
Qed.

(** * Invariants of the changing calls *)

Section ops_facts.
Context {DB : Type}.
Implicit Types w : world DB.

(** Well-formedness is kept. *)
Definition keeps_wf w w' : Prop := wf_tree (w_fs w) -> wf_tree (w_fs w').
#[export] Instance keeps_wf_preorder : PreOrder keeps_wf.
Proof. split; [by intros ? ?|intros ? ? ? H1 H2 ?; auto]. Qed.

(** The databases are not touched. *)
Definition same_db w w' : Prop := w_db w' = w_db w.
#[export] Instance same_db_preorder : PreOrder same_db.
Proof. split; [by intros ?|intros ? ? ? H1 H2; unfold same_db in *; congruence]. Qed.

(** Only events of the class [P] are logged. *)
Definition logs (P : event -> Prop) w w' : Prop :=
  exists l, w_log w' = w_log w ++ l /\ Forall P l.
#[export] Instance logs_preorder P : PreOrder (logs P).
Proof.
  split.
  - intros w. exists []. by rewrite app_nil_r.
  - intros ? ? ? (l1 & H1 & ?) (l2 & H2 & ?). exists (l1 ++ l2).
    rewrite H2, H1, app_assoc. split; [done|]. by apply Forall_app.
Qed.

Lemma logs_one (P : event -> Prop) w w' e : w_log w' = w_log w ++ [e] -> P e -> logs P w w'.
Proof. intros H HP. exists [e]. split; [done|]. by apply list.Forall_singleton. Qed.
Lemma logs_none (P : event -> Prop) w w' : w_log w' = w_log w -> logs P w w'.
Proof. intros H. exists []. by rewrite app_nil_r. Qed.
Lemma logs_weaken (P Q : event -> Prop) {E A} (m : io (world DB) E A) :
  (forall e, P e -> Q e) -> io_rel (logs P) m -> io_rel (logs Q) m.
Proof.
  intros HPQ Hm w r w' H. destruct (Hm _ _ _ H) as (l & Hl & HP). exists l.
  split; [done|]. eapply Forall_impl; eauto.
Qed.

(** Only the counters of the machine moved. *)
Definition quiet w w' : Prop :=
  w_fs w' = w_fs w /\ w_db w' = w_db w /\ w_log w' = w_log w.
#[export] Instance quiet_preorder : PreOrder quiet.
Proof. split; [by intros ?|intros ? ? ? (?&?&?) (?&?&?); split_and!; congruence]. Qed.

Definition new_inode (k : kind) w : inode :=
  mkInode k (w_clock w (w_ticks w)) (Some (w_clock w (w_ticks w))) (w_next_ino w).

(** A run that adds the entry [q] and logs [e]. *)
Definition adds (q : path) (k : kind) (e : event) w w' : Prop :=
  w_fs w !! q = None /\ w_fs w' = <[q := new_inode k w]> (w_fs w) /\
  w_db w' = w_db w /\ w_log w' = w_log w ++ [e].
End ops_facts.

(** Unfolds the monad and follows every branch of a run in [H]. *)
Ltac io_crush H :=
  unfold io_try, io_bind, fault_point, get_fs, io_gets, io_lift, io_fail, io_ret, put, set_content,
    commit, now_ms, now_nanos, now_ns in H;
  repeat (case_match; simplify_eq/=).

Section run_lemmas.
Context {DB : Type}.
Implicit Types w : world DB.

Lemma create_dir_run p w r w' :
  create_dir p w = (r, w') ->
  match r with
  | Ok _ => exists q, locate (w_fs w) p = Ok q /\ adds q KDir (EvMkdir q) w w'
  | Err _ => quiet w w'
  end.
Proof. unfold create_dir, adds. intros H. io_crush H; eauto 10; done. Qed.

Lemma create_new_run p w r w' :
  create_new p w = (r, w') ->
  match r with
  | Ok _ => exists q, locate (w_fs w) p = Ok q /\ adds q (KFile "") (EvCreate q) w w'
  | Err _ => quiet w w'
  end.
Proof. unfold create_new, adds. intros H. io_crush H; eauto 10; done. Qed.

Lemma fs_rename_run p q w r w' :
  fs_rename p q w = (r, w') ->
  match r with
  | Ok _ => exists s d f', lresolve (w_fs w) p = Ok s /\ locate (w_fs w) q = Ok d /\
      rename_entry (w_fs w) s d = Ok f' /\ w_fs w' = f' /\ w_db w' = w_db w /\
      w_log w' = w_log w ++ [EvRename s d]
  | Err _ => quiet w w'
  end.
Proof. unfold fs_rename. intros H. io_crush H; eauto 20; done. Qed.

Lemma remove_file_run p w r w' :
  remove_file p w = (r, w') ->
  match r with
  | Ok _ => exists q i, lresolve (w_fs w) p = Ok q /\ w_fs w !! q = Some i /\
      is_dir_inode i = false /\ w_fs w' = delete q (w_fs w) /\ w_db w' = w_db w /\
      w_log w' = w_log w ++ [EvUnlink q]
  | Err _ => quiet w w'
  end.
Proof.
  unfold remove_file, tree_get. intros H. io_crush H; eauto 20; done.
Qed.

Lemma remove_dir_run p w r w' :
  remove_dir p w = (r, w') ->
  match r with
  | Ok _ => exists q i, lresolve (w_fs w) p = Ok q /\ w_fs w !! q = Some i /\
      is_dir_inode i = true /\ dir_empty (w_fs w) q = true /\ q <> [] /\
      w_fs w' = delete q (w_fs w) /\ w_db w' = w_db w /\ w_log w' = w_log w ++ [EvRmdir q]
  | Err _ => quiet w w'
  end.
Proof.
  unfold remove_dir, tree_get. intros H. io_crush H; try done.
  do 2 eexists. split_and!; [done|done| |done|by eapply bool_decide_eq_false|done..].
  by apply negb_false_iff.
Qed.

Definition file_inode (c : string) (i : inode) : Prop := i_kind i = KFile c.

(** [q] was missing or a regular file, and now is a regular file holding [c]. *)
Definition stores (q : path) (c : string) w w' : Prop :=
  (w_fs w !! q = None \/ exists i, w_fs w !! q = Some i /\ is_file_inode i = true) /\
  (exists i, w_fs w' = <[q := i]> (w_fs w) /\ file_inode c i) /\
  w_db w' = w_db w /\ exists l, w_log w' = w_log w ++ l /\
    Forall (fun e => e = EvCreate q \/ e = EvWrite q) l.

Lemma file_create_run p w r w' :
  file_create p w = (r, w') ->
  match r with
  | Ok q => resolve_creat (w_fs w) p = Ok q /\ stores q "" w w'
  | Err _ => quiet w w'
  end.
Proof.
  unfold file_create, stores, file_inode, is_file_inode. intros H. io_crush H; try done.
  - split; [done|]. split_and!; [right; eexists; split; [done|]; by case_match|eauto|done|].
    eexists; split; [done|]. apply list.Forall_singleton. auto.
  - split; [done|]. split_and!; [by left|eauto|done|].
    eexists; split; [done|]. apply list.Forall_singleton. auto.
Qed.

Lemma file_append_run q s w r w' :
  file_append q s w = (r, w') ->
  match r with
  | Ok _ => exists c i, w_fs w !! q = Some i /\ file_inode c i /\ stores q (c +:+ s) w w'
  | Err _ => quiet w w'
  end.
Proof.
  unfold file_append, stores, file_inode, is_file_inode. intros H. io_crush H; try done.
  do 2 eexists. split_and!; [done..| | |done|].
  - right. eexists; split; [done|]; by case_match.
  - eauto.
  - eexists; split; [done|]. apply list.Forall_singleton. auto.
Qed.

Lemma fs_write_run p c w r w' :
  fs_write p c w = (r, w') ->
  match r with
  | Ok _ => exists q, resolve_creat (w_fs w) p = Ok q /\ stores q c w w'
  | Err _ => quiet w w' \/ exists q, resolve_creat (w_fs w) p = Ok q /\ stores q "" w w'
  end.
Proof.
  unfold fs_write. intros [(q & w1 & H1 & H2)|(e & H1 & ->)]%io_bind_inv.
  - apply file_create_run in H1 as [Hq H1]. apply file_append_run in H2.
    destruct H1 as (Ha & (i & Hi & Hk) & Hdb & l & Hl & HF).
    destruct r as [[]|e].
    + destruct H2 as (c0 & i0 & Hi0 & Hc0 & _ & (i2 & Hi2 & Hk2) & Hdb2 & l2 & Hl2 & HF2).
      exists q. split; [done|]. split_and!; [done| |congruence|].
      * exists i2. rewrite Hi2, Hi, insert_insert_eq. split; [done|].
        rewrite Hi, lookup_insert_eq in Hi0. injection Hi0 as <-.
        unfold file_inode in *. rewrite Hk in Hc0. by injection Hc0 as <-.
      * exists (l ++ l2). rewrite Hl2, Hl, app_assoc. split; [done|]. by apply Forall_app.
    + right. exists q. split; [done|]. destruct H2 as (Hf2 & Hdb2 & Hl2).
      split_and!; [done|exists i; by rewrite Hf2|congruence|]. exists l. by rewrite Hl2.
  - apply file_create_run in H1. by left.
Qed.

Lemma fs_copy_run p q w r w' :
  fs_copy p q w = (r, w') ->
  match r with
  | Ok _ => exists i (c : string) d, metadata (w_fs w) p = Ok i /\ file_inode c i /\
      resolve_creat (w_fs w) q = Ok d /\ stores d c w w'
  | Err _ => quiet w w' \/ exists d, resolve_creat (w_fs w) q = Ok d /\ stores d "" w w'
  end.
Proof.
  unfold fs_copy, get_fs. intros H.
  apply io_bind_inv in H as [(f & w1 & [= <- <-] & H)|(e & [=] & _)].
  apply io_bind_inv in H as [(i & w1 & [= Hi <-] & H)|(e & [= Hi <-] & ->)]; [|by left].
  destruct (i_kind i) as [c0| |t] eqn:Hk; [|injection H as <- <-; by left..].
  apply fs_write_run in H. destruct r; [|done].
  destruct H as (d & Hd & Hs). exists i, c0, d. done.
Qed.

(** Writing where nothing exists only adds an entry. *)
Lemma fs_write_fresh p c w r w' :
  wf_tree (w_fs w) -> path_exists (w_fs w) p = false -> fs_write p c w = (r, w') -> w_fs w ⊆ w_fs w'.
Proof.
  intros Hwf He H. apply fs_write_run in H.
  assert (forall q c, resolve_creat (w_fs w) p = Ok q -> stores q c w w' -> w_fs w ⊆ w_fs w') as Hs.
  { intros q c' Hq (_ & (i & -> & _) & _). apply insert_subseteq. by eapply resolve_creat_fresh. }
  destruct r as [[]|e]; [|destruct H as [(-> & _)|H]; [done|]]; destruct H as (q & Hq & Hst); by eapply Hs.
Qed.

(** ** The invariants, call by call *)

Lemma wf_stores w w' q c p :
  resolve_creat (w_fs w) p = Ok q -> stores q c w w' -> keeps_wf w w'.
Proof.
  intros Hq (Ha & (i & Hf & Hk) & _) Hwf. rewrite Hf.
  destruct (resolve_creat_ok _ Hwf _ _ Hq) as [[j Hj]|(Hn & d & s & -> & Hs & Hd)].
  - eapply wf_update; [done|exact Hj|]. destruct Ha as [?|(k & Hk' & Hfile)]; simplify_eq.
    unfold file_inode, is_file_inode, is_dir_inode in *. rewrite Hk. by destruct (i_kind _).
  - by apply wf_insert.
Qed.

Lemma wf_adds w w' q k e p :
  locate (w_fs w) p = Ok q -> adds q k e w w' -> keeps_wf w w'.
Proof.
  intros Hq (Hn & Hf & _) Hwf. rewrite Hf.
  destruct (locate_ok _ Hwf _ _ Hq) as [[j Hj]|(_ & d & s & -> & Hs & Hd)]; [congruence|].
  by apply wf_insert.
Qed.

Lemma quiet_wf w w' : quiet w w' -> keeps_wf w w'.
Proof. intros (Hf & _) Hwf. by rewrite Hf. Qed.

Lemma fs_unlink_wf w w' q :
  is_Some (w_fs w !! q) -> (forall i, w_fs w !! q = Some i -> is_dir_inode i = true -> dir_empty (w_fs w) q = true /\ q <> []) ->
  w_fs w' = delete q (w_fs w) -> keeps_wf w w'.
Proof.
  intros [i Hi] Hd Hf Hwf. rewrite Hf. specialize (Hd _ Hi).
  destruct (is_dir_inode i) eqn:Hdir.
  - destruct (Hd eq_refl) as [He Hne]. apply wf_delete; [done|done|].
    by apply dir_empty_true.
  - apply wf_delete; [done| |].
    + intros ->. destruct (wf_root _ Hwf) as (r & Hr & Hrd). congruence.
    + intros p Hp Hne. eapply not_dir_no_children; eauto.
Qed.

Lemma create_dir_wf p : io_rel (@keeps_wf DB) (create_dir p).
Proof.
  intros w r w' H. apply create_dir_run in H. destruct r as [[]|e]; [|by apply quiet_wf].
  destruct H as (q & Hq & Ha). by eapply wf_adds.
Qed.
Lemma create_new_wf p : io_rel (@keeps_wf DB) (create_new p).
Proof.
  intros w r w' H. apply create_new_run in H. destruct r as [[]|e]; [|by apply quiet_wf].
  destruct H as (q & Hq & Ha). by eapply wf_adds.
Qed.
Lemma fs_rename_wf p q : io_rel (@keeps_wf DB) (fs_rename p q).
Proof.
  intros w r w' H. apply fs_rename_run in H. destruct r as [[]|e]; [|by apply quiet_wf].
  destruct H as (s & d & f' & Hs & Hd & Hr & Hf & _). intros Hwf. rewrite Hf.
  eapply wf_rename; [done|exact Hr|]. by eapply locate_ok.
Qed.
Lemma remove_file_wf p : io_rel (@keeps_wf DB) (remove_file p).
Proof.
  intros w r w' H. apply remove_file_run in H. destruct r as [[]|e]; [|by apply quiet_wf].
  destruct H as (q & i & Hq & Hi & Hd & Hf & _). eapply fs_unlink_wf; [eauto| |done].
  intros; congruence.
Qed.
Lemma file_create_wf p : io_rel (@keeps_wf DB) (file_create p).
Proof.
  intros w r w' H. apply file_create_run in H. destruct r as [q|e]; [|by apply quiet_wf].
  destruct H. by eapply wf_stores.
Qed.
Lemma fs_write_wf p c : io_rel (@keeps_wf DB) (fs_write p c).
Proof.
  intros w r w' H. apply fs_write_run in H. destruct r as [q|e].
  - destruct H as (d & ? & ?). by eapply wf_stores.
  - destruct H as [?|(d & ? & ?)]; [by apply quiet_wf|by eapply wf_stores].
Qed.

Lemma remove_dir_wf p : io_rel (@keeps_wf DB) (remove_dir p).
Proof.
  intros w r w' H. apply remove_dir_run in H. destruct r as [[]|e]; [|by apply quiet_wf].
  destruct H as (q & i & Hq & Hi & Hd & He & Hne & Hf & _). eapply fs_unlink_wf; eauto.
Qed.
Lemma file_append_wf p c : io_rel (@keeps_wf DB) (file_append p c).
Proof.
  intros w r w' H Hwf. apply file_append_run in H. destruct r as [q|e]; [|by apply (quiet_wf _ _ H)].
  destruct H as (c0 & i & Hi & Hk & _ & (j & -> & Hj) & _).
  eapply wf_update; [done..|]. unfold file_inode, is_dir_inode in *. by rewrite Hk, Hj.
Qed.
Lemma fs_copy_wf p q : io_rel (@keeps_wf DB) (fs_copy p q).
Proof.
  intros w r w' H. apply fs_copy_run in H. destruct r as [?|e].
  - destruct H as (? & ? & ? & _ & _ & ? & ?). by eapply wf_stores.
  - destruct H as [?|(d & ? & ?)]; [by apply quiet_wf|by eapply wf_stores].
Qed.

(** ** Logs and databases, call by call *)

Definition is_mkdir (e : event) : Prop := exists p, e = EvMkdir p.
Definition is_store (e : event) : Prop := exists p, e = EvCreate p \/ e = EvWrite p.
Definition is_rename (e : event) : Prop := exists p q, e = EvRename p q.
Definition is_removal (e : event) : Prop := exists p, e = EvUnlink p \/ e = EvRmdir p.

(** The database is kept and only events of the class [P] are logged. *)
Definition only (P : event -> Prop) w w' : Prop := same_db w w' /\ logs P w w'.
#[export] Instance only_preorder P : PreOrder (only P).
Proof.
  split; [by intros w; split|]. intros w1 w2 w3 [H1 H2] [H3 H4]. split; by etrans.
Qed.
Lemma quiet_only P w w' : quiet w w' -> only P w w'.
Proof. intros (_ & ? & ?). split; [done|by apply logs_none]. Qed.
Lemma only_weaken (P Q : event -> Prop) {E A} (m : io (world DB) E A) :
  io_rel (only P) m -> (forall e, P e -> Q e) -> io_rel (only Q) m.
Proof.
  intros Hm HPQ w r w' H. destruct (Hm _ _ _ H) as [Hdb (l & Hl & HP)]. split; [done|].
  exists l. split; [done|]. by eapply Forall_impl.
Qed.

Lemma create_dir_only p : io_rel (only is_mkdir) (create_dir p).
Proof.
  intros w r w' H. apply create_dir_run in H. destruct r; [|by apply quiet_only].
  destruct H as (q & _ & (_ & _ & Hdb & Hl)). split; [done|].
  eapply logs_one; [exact Hl|by eexists].
Qed.
Lemma create_new_only p : io_rel (only is_store) (create_new p).
Proof.
  intros w r w' H. apply create_new_run in H. destruct r; [|by apply quiet_only].
  destruct H as (q & _ & (_ & _ & Hdb & Hl)). split; [done|].
  eapply logs_one; [exact Hl|exists q; by left].
Qed.
Lemma fs_rename_only p q : io_rel (only is_rename) (fs_rename p q).
Proof.
  intros w r w' H. apply fs_rename_run in H. destruct r; [|by apply quiet_only].
  destruct H as (s & d & _ & _ & _ & _ & _ & Hdb & Hl). split; [done|].
  eapply logs_one; [exact Hl|by eexists _, _].
Qed.
Lemma remove_file_only p : io_rel (only is_removal) (remove_file p).
Proof.
  intros w r w' H. apply remove_file_run in H. destruct r; [|by apply quiet_only].
  destruct H as (q & i & _ & _ & _ & _ & Hdb & Hl). split; [done|].
  eapply logs_one; [exact Hl|exists q; by left].
Qed.
Lemma remove_dir_only p : io_rel (only is_removal) (remove_dir p).
Proof.
  intros w r w' H. apply remove_dir_run in H. destruct r; [|by apply quiet_only].
  destruct H as (q & i & _ & _ & _ & _ & _ & _ & Hdb & Hl). split; [done|].
  eapply logs_one; [exact Hl|exists q; by right].
Qed.
Lemma stores_only w w' q c : stores q c w w' -> only is_store w w'.
Proof.
  intros (_ & _ & Hdb & l & Hl & HF). split; [done|]. exists l. split; [done|].
  eapply Forall_impl; [exact HF|]. intros e He. by exists q.
Qed.
Lemma file_create_only p : io_rel (only is_store) (file_create p).
Proof.
  intros w r w' H. apply file_create_run in H. destruct r; [|by apply quiet_only].
  destruct H. by eapply stores_only.
Qed.
Lemma file_append_only q c : io_rel (only is_store) (file_append q c).
Proof.
  intros w r w' H. apply file_append_run in H. destruct r; [|by apply quiet_only].
  destruct H as (? & ? & _ & _ & H). by eapply stores_only.
Qed.
Lemma fs_write_only p c : io_rel (only is_store) (fs_write p c).
Proof. unfold fs_write. io_rel_go; [apply file_create_only|apply file_append_only]. Qed.
Lemma fs_copy_only p q : io_rel (only is_store) (fs_copy p q).
Proof. unfold fs_copy, get_fs. io_rel_go; apply fs_write_only. Qed.

Lemma create_dir_all_go_rel (R : world DB -> world DB -> Prop) `{!PreOrder R} n p :
  (forall p, io_rel R (create_dir p)) -> io_rel R (create_dir_all_go n p).
Proof.
  intros HR. revert p. induction n as [|n IH]; intros p; simpl; unfold get_fs; io_rel_go.
Qed.
Lemma create_dir_all_rel (R : world DB -> world DB -> Prop) `{!PreOrder R} p :
  (forall p, io_rel R (create_dir p)) -> io_rel R (create_dir_all p).
Proof. intros HR. by apply create_dir_all_go_rel. Qed.
Lemma create_dir_all_wf p : io_rel (@keeps_wf DB) (create_dir_all p).
Proof. apply create_dir_all_rel; [apply _|apply create_dir_wf]. Qed.
Lemma create_dir_all_only p : io_rel (only is_mkdir) (create_dir_all p).
Proof. apply create_dir_all_rel; [apply _|apply create_dir_only]. Qed.

(** Directories appear, nothing else changes. *)
Definition adds_dirs w w' : Prop :=
  forall p, w_fs w' !! p = w_fs w !! p \/ (w_fs w !! p = None /\ dir_at (w_fs w') p).
#[export] Instance adds_dirs_preorder : PreOrder adds_dirs.
Proof.
  split; [intros w p; by left|]. intros w1 w2 w3 H12 H23 p.
  destruct (H12 p) as [H1|[H1 (i & Hi & Hd)]], (H23 p) as [H2|[H2 H2']].
  - left. congruence.
  - right. split; [congruence|done].
  - right. split; [done|]. exists i. split; [congruence|done].
  - congruence.
Qed.
Lemma create_dir_adds_dirs p : io_rel adds_dirs (create_dir p).
Proof.
  intros w r w' H. apply create_dir_run in H. destruct r.
  - destruct H as (q & _ & (Hn & Hf & _)). intros p'. rewrite Hf.
    destruct (decide (q = p')) as [->|].
    + right. split; [done|]. eexists. by rewrite lookup_insert_eq.
    + left. by rewrite lookup_insert_ne.
  - destruct H as (Hf & _). intros p'. left. by rewrite Hf.
Qed.
Lemma create_dir_all_adds_dirs p : io_rel adds_dirs (create_dir_all p).
Proof. apply create_dir_all_rel; [apply _|apply create_dir_adds_dirs]. Qed.
Lemma adds_dirs_some w w' p i : adds_dirs w w' -> w_fs w !! p = Some i -> w_fs w' !! p = Some i.
Proof. intros H Hi. destruct (H p) as [Hp|[Hp _]]; congruence. Qed.

Lemma clock_quiet {E} (R : world DB -> world DB -> Prop) :
  (forall w w', quiet w w' -> R w w') -> io_rel (E:=E) R now_ms /\ io_rel (E:=E) R now_nanos.
Proof. intros HR. split; intros w r w' [= <- <-]; by apply HR. Qed.
End run_lemmas.

#[export] Hint Resolve create_dir_wf create_new_wf fs_rename_wf remove_file_wf remove_dir_wf
  file_create_wf file_append_wf fs_write_wf fs_copy_wf create_dir_all_wf
  create_dir_only create_new_only fs_rename_only remove_file_only remove_dir_only
  file_create_only file_append_only fs_write_only fs_copy_only create_dir_all_only
  create_dir_adds_dirs create_dir_all_adds_dirs : io.

(** ** Walks after a file is stored *)

Definition storable (f : tree) (q : path) : Prop :=
  f !! q = None \/ exists j, f !! q = Some j /\ is_file_inode j = true.

(** The path that opened the file [q] leads to it once it is stored. *)
Lemma walk_stored n f fl cur l q i :
  walk n f true fl cur l = Ok q -> storable f q -> is_file_inode i = true ->
  walk n (<[q := i]> f) false fl cur l = Ok q.
Proof.
  intros Hw Hq Hi. revert cur l Hw. induction n as [n IHn] using lt_wf_ind. intros cur l. revert cur.
  induction l as [|c l IH]; intros cur Hw; [by rewrite walk_nil in *|].
  rewrite walk_cons in *. destruct c as [| | |s]; try by apply IH.
  destruct (decide (q = cur ++ [s])) as [Heq|Hne].
  - rewrite Heq, lookup_insert_eq, <- Heq. unfold is_file_inode in Hi. destruct (i_kind i) as [c| |]; try done.
    rewrite <- Heq in Hw. destruct Hq as [Hq|(j & Hq & Hj)]; rewrite Hq in Hw.
    + simpl in Hw. destruct (bool_decide (l = [])); [done|discriminate].
    + unfold is_file_inode in Hj. by destruct (i_kind j).
  - rewrite lookup_insert_ne by done. destruct (f !! (cur ++ [s])) as [j|].
    + destruct (i_kind j) as [c| |t]; [done|by apply IH|]. case_match; [done|].
      destruct n as [|n]; [done|]. apply IHn; [lia|done].
    + simpl in Hw. destruct (bool_decide (l = [])); [congruence|done].
Qed.
(** A path that leads somewhere still leads there. *)
Lemma walk_store_other n f fl cur l p q i :
  walk n f false fl cur l = Ok p -> storable f q -> is_file_inode i = true ->
  walk n (<[q := i]> f) false fl cur l = Ok p.
Proof.
  intros Hw Hq Hi. revert cur l Hw. induction n as [n IHn] using lt_wf_ind. intros cur l. revert cur.
  induction l as [|c l IH]; intros cur Hw; [by rewrite walk_nil in *|].
  rewrite walk_cons in *. destruct c as [| | |s]; try by apply IH.
  destruct (decide (q = cur ++ [s])) as [Heq|Hne].
  - rewrite <- Heq in *. rewrite lookup_insert_eq. unfold is_file_inode in Hi. destruct (i_kind i) as [c| |]; try done.
    destruct Hq as [Hq|(j & Hq & Hj)]; rewrite Hq in Hw; [done|].
    unfold is_file_inode in Hj. by destruct (i_kind j).
  - rewrite lookup_insert_ne by done. destruct (f !! (cur ++ [s])) as [j|]; [|done].
    destruct (i_kind j) as [c| |t]; [done|by apply IH|]. case_match; [done|].
    destruct n as [|n]; [done|]. apply IHn; [lia|done].
Qed.
(** A path that leads somewhere is opened there. *)
Lemma walk_creat_ok n f fl cur l p :
  walk n f false fl cur l = Ok p -> walk n f true fl cur l = Ok p.
Proof.
  revert cur l. induction n as [n IHn] using lt_wf_ind. intros cur l. revert cur.
  induction l as [|c l IH]; intros cur Hw; [by rewrite walk_nil in *|].
  rewrite walk_cons in *. destruct c as [| | |s]; try by apply IH.
  destruct (f !! (cur ++ [s])) as [j|]; [|done].
  destruct (i_kind j) as [c| |t]; [done|by apply IH|]. case_match; [done|].
  destruct n as [|n]; [done|]. apply IHn; [lia|done].
Qed.
