(* ===== verification/path_guard.v ===== *)
(** [tools/file-engine-cli/src/path_guard.rs]: the boundary of a managed root.

    Every path the engine uses is resolved here.  The functions are pure reads
    of the file system, so they take the tree as an argument. *)
From Stdlib Require Import ZArith Lia Ascii.
From stdpp Require Import strings pretty gmap functions option list.
From S2P Require Import prelude rust_str std_path std_fs fs_facts.

Open Scope string_scope.
Open Scope list_scope.

Record PathGuard := mkPathGuard { root : string }.

Inductive PathGuardError :=
| RootNotDirectory (p : string)
| AbsoluteInput (p : string)
| ParentTraversal (p : string)
| MissingPath (p : string)
| EscapesRoot (root resolved : string)
| Io (message : string).

#[export] Instance PathGuardError_eq_dec : EqDecision PathGuardError.
Proof. solve_decision. Defined.

Module PathGuard.
Definition canonicalize_existing (f : tree) (p : string) : result string PathGuardError :=
  map_err (fun e => Io (io_error_str e)) (canonicalize f p).

Fixpoint reject_components (p : string) (l : list Component) : result unit PathGuardError :=
  match l with
  | [] => Ok tt
  | RootDir :: _ => Err (AbsoluteInput p)
  | ParentDir :: _ => Err (ParentTraversal p)
  | CurDir :: l' | Normal _ :: l' => reject_components p l'
  end.
Definition reject_unsafe_components (p : string) : result unit PathGuardError :=
  reject_components p (components p).

Definition new (f : tree) (r : string) : result PathGuard PathGuardError :=
  let? r := canonicalize_existing f r in
  if negb (path_is_dir f r) then Err (RootNotDirectory r) else Ok (mkPathGuard r).

Definition resolve_existing (f : tree) (g : PathGuard) (relative_path : string)
  : result string PathGuardError :=
  let? _ := reject_unsafe_components relative_path in
  let candidate := path_join (root g) relative_path in
  let? resolved := map_err (fun _ => MissingPath candidate)
                     (canonicalize_existing f candidate) in
  if negb (path_starts_with resolved (root g))
  then Err (EscapesRoot (root g) resolved)
  else Ok resolved.

Definition resolve_for_create (f : tree) (g : PathGuard) (relative_path : string)
  : result string PathGuardError :=
  let? _ := reject_unsafe_components relative_path in
  let candidate := path_join (root g) relative_path in
  let? parent := match path_parent candidate with
                 | Some p => Ok p
                 | None => Err (MissingPath candidate)
                 end in
  let? resolved_parent := map_err (fun _ => MissingPath parent)
                            (canonicalize_existing f parent) in
  if negb (path_starts_with resolved_parent (root g))
  then Err (EscapesRoot (root g) resolved_parent)
  else match path_file_name candidate with
       | Some name => Ok (path_join resolved_parent name)
       | None => Err (MissingPath candidate)
       end.

(** [impl Display for PathGuardError] *)
Definition fmt (e : PathGuardError) : string :=
  match e with
  | RootNotDirectory p => "managed root is not a directory: " +:+ p
  | AbsoluteInput p => "path must be relative to the managed root: " +:+ p
  | ParentTraversal p => "path cannot contain parent traversal: " +:+ p
  | MissingPath p => "path does not exist under managed root: " +:+ p
  | EscapesRoot root resolved =>
      "resolved path escapes managed root: root=" +:+ root +:+ ", resolved=" +:+ resolved
  | Io message => message
  end.
End PathGuard.

(** The components a relative path may have. *)
Definition safe_component (c : Component) : Prop :=
  match c with CurDir | Normal _ => True | RootDir | ParentDir => False end.

(** A guard made by [new] on the tree [f]: its root is the path of the real
    directory [r]. *)
Definition guard_at (f : tree) (g : PathGuard) (r : path) : Prop :=
  root g = abs_path r /\ dir_at f r.

(** What the guard's checks need of its root: the path's own name. *)
Definition guard_named (g : PathGuard) (r : path) : Prop := root g = abs_path r /\ Forall seg_ok r.

Lemma guard_at_named f g r : wf_tree f -> guard_at f g r -> guard_named g r.
Proof. intros Hwf [Hr (i & Hi & _)]. split; [done|]. by eapply wf_segs. Qed.

Lemma reject_unsafe_components_ok p :
  PathGuard.reject_unsafe_components p = Ok tt <-> Forall safe_component (components p).
Proof.
  unfold PathGuard.reject_unsafe_components. induction (components p) as [|c l IH]; simpl; [by split|].
  rewrite Forall_cons. destruct c; simpl; [by split; [|tauto]|tauto|by split; [|tauto]|tauto].
Qed.

Lemma reject_ok_unit p u : PathGuard.reject_unsafe_components p = Ok u -> Forall safe_component (components p).
Proof. destruct u. apply reject_unsafe_components_ok. Qed.

Lemma safe_not_absolute p : Forall safe_component (components p) -> is_absolute p = false.
Proof.
  unfold components. destruct (is_absolute p) eqn:Ha; [|done].
  destruct (split_slash p) eqn:Hs; [by apply split_on_nonempty in Hs|].
  rewrite Forall_cons. intros [[] _].
Qed.

Section guard.
Context (f : tree) (Hwf : wf_tree f).

Lemma new_guard_at r g :
  PathGuard.new f r = Ok g -> exists q, guard_at f g q /\ resolve f r = Ok q.
Proof.
  unfold PathGuard.new, PathGuard.canonicalize_existing, path_is_dir, metadata, tree_get.
  destruct (canonicalize f r) as [c|e] eqn:Hc; [|done]. simpl.
  apply canonicalize_ok in Hc as (q & i & Hq & Hi & Hl & ->); [|done].
  rewrite (resolve_abs _ Hwf _ _ Hi Hl), Hi.
  destruct (is_dir_inode i) eqn:Hd; [|done]. intros [= <-].
  exists q. split; [|done]. split; [done|]. by exists i.
Qed.

Lemma new_root g r : guard_at f g r -> PathGuard.new f (root g) = Ok g.
Proof.
  intros [Hr (i & Hi & Hd)]. assert (is_link_inode i = false) as Hl.
  { by apply (dir_at_not_link f r); [exists i|]. }
  unfold PathGuard.new, PathGuard.canonicalize_existing, canonicalize, path_is_dir, metadata, tree_get.
  rewrite Hr, (resolve_abs _ Hwf _ _ Hi Hl), Hi. simpl.
  rewrite (resolve_abs _ Hwf _ _ Hi Hl), Hi, Hd. simpl. destruct g. simpl in *. by subst.
Qed.

Context (g : PathGuard) (r : path) (Hg : guard_named g r).

(** A path [resolve_existing] returns is the real path of an existing entry
    inside the root. *)
Lemma resolve_existing_ok rel p :
  PathGuard.resolve_existing f g rel = Ok p ->
  exists q i, p = abs_path q /\ r `prefix_of` q /\ f !! q = Some i /\ is_link_inode i = false /\
    resolve f (path_join (root g) rel) = Ok q /\ Forall safe_component (components rel).
Proof.
  unfold PathGuard.resolve_existing, PathGuard.canonicalize_existing.
  destruct (PathGuard.reject_unsafe_components rel) as [u|] eqn:Hs; [|done].
  apply reject_ok_unit in Hs.
  destruct (canonicalize f _) as [c|e] eqn:Hc; [|done]. simpl.
  apply canonicalize_ok in Hc as (q & i & Hq & Hi & Hl & ->); [|done].
  pose proof Hg as [Hr _]. rewrite Hr in *.
  destruct (path_starts_with _ _) eqn:Hst; [|done]. intros [= <-].
  apply starts_with_abs in Hst; [|by eapply wf_segs|apply Hg].
  exists q, i. split_and!; done.
Qed.

(** A path [resolve_for_create] returns is an entry name in a real directory
    inside the root. *)
Lemma resolve_for_create_ok rel p :
  PathGuard.resolve_for_create f g rel = Ok p ->
  exists d s i, p = path_join (abs_path d) s /\ r `prefix_of` d /\ f !! d = Some i /\
    is_link_inode i = false /\ seg_ok s /\ Forall safe_component (components rel) /\
    path_file_name (path_join (root g) rel) = Some s.
Proof.
  unfold PathGuard.resolve_for_create, PathGuard.canonicalize_existing.
  destruct (PathGuard.reject_unsafe_components rel) as [u|] eqn:Hs; [|done].
  apply reject_ok_unit in Hs.
  destruct (path_parent _) as [pa|]; [|done].
  destruct (canonicalize f pa) as [c|e] eqn:Hc; [|done]. simpl.
  apply canonicalize_ok in Hc as (q & i & Hq & Hi & Hl & ->); [|done].
  pose proof Hg as [Hr _]. rewrite Hr in *.
  destruct (path_starts_with _ _) eqn:Hst; [|done]. simpl.
  destruct (path_file_name _) as [s|] eqn:Hn; [|done]. intros [= <-].
  apply starts_with_abs in Hst; [|by eapply wf_segs|apply Hg].
  exists q, s, i. split_and!; try done.
  - unfold path_file_name in Hn.
    pose proof (components_comp_ok (path_join (abs_path r) rel)) as Hok.
    destruct (reverse (components _)) as [|[| | |x] l] eqn:Hrev; [done..|].
    injection Hn as ->. rewrite list.Forall_forall in Hok. apply (Hok (Normal s)).
    rewrite <- elem_of_reverse, Hrev. by left.
Qed.
End guard.

(** * Properties *)

(** [resolve_existing] never leaves the managed root: whatever the links in
    the tree, a path it returns is canonical, exists, lies under the root, and
    its input had no absolute or parent component. *)
Theorem resolve_existing_contained f root_arg g rel p :
  wf_tree f -> PathGuard.new f root_arg = Ok g -> PathGuard.resolve_existing f g rel = Ok p ->
  path_starts_with p (root g) = true /\ canonicalize f p = Ok p /\
  Forall safe_component (components rel).
Proof.
  intros Hwf (r & Hg & _)%new_guard_at Hp; [|done].
  pose proof (guard_at_named _ _ _ Hwf Hg) as Hgn.
  destruct (resolve_existing_ok _ Hwf _ _ Hgn _ _ Hp) as (q & i & -> & Hr & Hi & Hl & _ & Hs).
  split_and!; [|by unfold canonicalize, tree_get; rewrite (resolve_abs _ Hwf _ _ Hi Hl), Hi|done].
  destruct Hg as [-> (j & Hj & _)]. by apply starts_with_abs; [eapply wf_segs..|].
Qed.
