(* ===== verification/db.v ===== *)
(** [tools/file-engine-cli/src/db.rs]: the per-root SQLite database.

    SQLite and [sqlx] are third-party: a database is a state of some type [DB]
    on which the class [SqlDb] gives the two operations the code calls.  The
    statements are the source's own texts.  What the code relies on about them
    is stated as laws by the components that issue them. *)
From Stdlib Require Import ZArith Lia Ascii.
From stdpp Require Import strings pretty gmap functions option list.
From S2P Require Import prelude rust_str std_path std_fs fs_facts.

Open Scope string_scope.
Open Scope list_scope.

Abbreviation sql_row := (list (string * sql_value)).

(** The interface of a database: connecting, executing a statement with its
    bound values, and fetching the rows of a query.  Errors are messages. *)
Class SqlDb (DB : Type) := {
  sql_connect : DB -> result unit string * DB;
  sql_execute : string -> list sql_value -> DB -> result unit string * DB;
  sql_fetch_all : string -> list sql_value -> DB -> result (list sql_row) string * DB;
}.

Definition STATE_DIR : string := ".mousekeeper".
Definition DB_FILE : string := "mousekeeper.db".

Inductive DbError :=
| CreateStateDir (path message : string)
| Open (path message : string)
| Migrate (message : string)
| Query (message : string).

#[export] Instance DbError_eq_dec : EqDecision DbError.
Proof. solve_decision. Defined.

(** [Row::try_get] *)
Fixpoint row_value (r : sql_row) (column : string) : option sql_value :=
  match r with
  | [] => None
  | (c, v) :: r' => if (c =? column)%string then Some v else row_value r' column
  end.
Definition try_get_text (r : sql_row) (column : string) : result string string :=
  match row_value r column with
  | Some (SqlText s) => Ok s
  | Some _ => Err ("error occurred while decoding column " +:+ column)
  | None => Err ("no column found for name: " +:+ column)
  end.
Definition try_get_int (r : sql_row) (column : string) : result Z string :=
  match row_value r column with
  | Some (SqlInt z) => Ok z
  | Some _ => Err ("error occurred while decoding column " +:+ column)
  | None => Err ("no column found for name: " +:+ column)
  end.

Module Db.
(** [impl Display for DbError] *)
Definition fmt (e : DbError) : string :=
  match e with
  | CreateStateDir p m => "cannot create state directory " +:+ p +:+ ": " +:+ m
  | Open p m => "cannot open database " +:+ p +:+ ": " +:+ m
  | Migrate m => "cannot apply schema: " +:+ m
  | Query m => "database query failed: " +:+ m
  end.

Definition db_path_for_root (root : string) : string :=
  path_join (path_join root STATE_DIR) DB_FILE.

(** ** The schema *)
Definition create_file_index : string := "CREATE TABLE IF NOT EXISTS file_index (
            relative_path     TEXT PRIMARY KEY,
            size_bytes        INTEGER NOT NULL,
            modified_unix_ms  INTEGER,
            extension         TEXT,
            file_id           TEXT
        )".
Definition create_file_search_entries : string := "CREATE TABLE IF NOT EXISTS file_search_entries (
            relative_path         TEXT PRIMARY KEY,
            parent_relative_path  TEXT NOT NULL,
            name                  TEXT NOT NULL,
            normalized_name       TEXT NOT NULL,
            entry_type            TEXT NOT NULL CHECK(entry_type IN ('file', 'directory')),
            extension             TEXT,
            size_bytes            INTEGER,
            modified_unix_ms      INTEGER
        )".
Definition create_search_index : string := "CREATE INDEX IF NOT EXISTS file_search_entries_parent_name_idx
         ON file_search_entries(parent_relative_path, normalized_name, relative_path)".
Definition create_file_index_meta : string := "CREATE TABLE IF NOT EXISTS file_index_meta (
            singleton   INTEGER PRIMARY KEY CHECK(singleton = 1),
            generation  INTEGER NOT NULL CHECK(generation >= 0),
            initialized INTEGER NOT NULL DEFAULT 0 CHECK(initialized IN (0, 1))
        )".
Definition insert_file_index_meta : string := "INSERT OR IGNORE INTO file_index_meta(singleton, generation, initialized)
         VALUES (1, 0, 0)".
Definition create_operation_journal : string := "CREATE TABLE IF NOT EXISTS operation_journal (
            seq              INTEGER PRIMARY KEY AUTOINCREMENT,
            operation_id     TEXT NOT NULL,
            status           TEXT NOT NULL,
            action           TEXT NOT NULL,
            from_path        TEXT NOT NULL,
            to_path          TEXT NOT NULL,
            created_unix_ms  INTEGER NOT NULL
        )".
Definition pragma_file_index : string := "PRAGMA table_info(file_index)".
Definition pragma_file_search_entries : string := "PRAGMA table_info(file_search_entries)".
Definition pragma_file_index_meta : string := "PRAGMA table_info(file_index_meta)".
Definition alter_file_id : string := "ALTER TABLE file_index ADD COLUMN file_id TEXT".
Definition alter_extension : string := "ALTER TABLE file_search_entries ADD COLUMN extension TEXT".
Definition alter_initialized : string := "ALTER TABLE file_index_meta
         ADD COLUMN initialized INTEGER NOT NULL DEFAULT 0 CHECK(initialized IN (0, 1))".

Section db.
Context {DB : Type} `{!SqlDb DB}.

(** A call on the database of the file [p]; a statement executed is logged. *)
Definition connect (p : string) : io (world DB) string unit :=
  fun w => let '(r, d) := sql_connect (w_db w p) in (r, set_db p d w).
Definition execute (p sql : string) (binds : list sql_value) : io (world DB) string unit :=
  fun w => let '(r, d) := sql_execute sql binds (w_db w p) in
           (r, if is_ok r then add_log (EvSql p sql binds) (set_db p d w) else set_db p d w).
Definition fetch_all (p sql : string) (binds : list sql_value)
  : io (world DB) string (list sql_row) :=
  fun w => let '(r, d) := sql_fetch_all sql binds (w_db w p) in (r, set_db p d w).

(** The pool is its database's path. *)
Definition open_pool_at (db_path : string) : io (world DB) DbError string :=
  do! match path_parent db_path with
      | Some parent =>
          io_map_err (fun e => CreateStateDir parent (io_error_str e)) (create_dir_all parent)
      | None => io_ret tt
      end;
  do! io_map_err (Open db_path) (connect db_path);
  io_ret db_path.

Definition add_column_if_missing (pool table_info_sql column alter_sql : string)
  : io (world DB) DbError unit :=
  let! rows := io_map_err Migrate (fetch_all pool table_info_sql []) in
  if existsb (fun row => match try_get_text row "name" with
                         | Ok name => (name =? column)%string
                         | Err _ => false
                         end) rows
  then io_ret tt
  else io_map_err Migrate (execute pool alter_sql []).

Definition migrate (pool : string) : io (world DB) DbError unit :=
  do! io_map_err Migrate (execute pool create_file_index []);
  do! add_column_if_missing pool pragma_file_index "file_id" alter_file_id;
  do! io_map_err Migrate (execute pool create_file_search_entries []);
  do! add_column_if_missing pool pragma_file_search_entries "extension" alter_extension;
  do! io_map_err Migrate (execute pool create_search_index []);
  do! io_map_err Migrate (execute pool create_file_index_meta []);
  do! add_column_if_missing pool pragma_file_index_meta "initialized" alter_initialized;
  do! io_map_err Migrate (execute pool insert_file_index_meta []);
  io_map_err Migrate (execute pool create_operation_journal []).

Definition open_root_db (root : string) : io (world DB) DbError string :=
  let db_path := db_path_for_root root in
  let! pool := open_pool_at db_path in
  do! migrate pool;
  io_ret pool.
End db.

(** The statements [migrate] executes and the queries it makes. *)
Definition schema_statements : list string :=
  [create_file_index; alter_file_id; create_file_search_entries; alter_extension;
   create_search_index; create_file_index_meta; alter_initialized; insert_file_index_meta;
   create_operation_journal].
Definition schema_queries : list string :=
  [pragma_file_index; pragma_file_search_entries; pragma_file_index_meta].
End Db.
