(* ===== verification/journal_store.v ===== *)
(** The journal of a root: its store, and the concrete database the witnesses use. *)
From Stdlib Require Import ZArith Lia Ascii.
From stdpp Require Import strings pretty gmap functions option list.
From S2P Require Import prelude rust_str std_path std_fs fs_facts path_guard db.

Open Scope string_scope.
Open Scope list_scope.


(** * [tools/file-engine-cli/src/journal.rs], the store: the operation journal of
    one managed root, an append-only table of planned, executed, undo-planned
    and undone events. *)

Definition TRASH_DIR : string := ".mousekeeper_trash".
Definition JOURNAL_FILE : string := "journal.jsonl".

Inductive JournalStatus := Planned | Executed | UndoPlanned | Undone.
Inductive JournalAction := JMove | JTrash | JCreateDir | JCreateFile | JReadmeWrite.

#[export] Instance JournalStatus_eq_dec : EqDecision JournalStatus.
Proof. solve_decision. Defined.
#[export] Instance JournalAction_eq_dec : EqDecision JournalAction.
Proof. solve_decision. Defined.

Record JournalEntry := mkJournalEntry {
  je_operation_id : string;
  je_status : JournalStatus;
  je_action : JournalAction;
  je_from : string;
  je_to : string;
  je_created_unix_ms : Z;   (** [u128] *)
}.

Record RawJournalRow := mkRawJournalRow {
  raw_seq : Z;
  raw_operation_id : string;
  raw_status : string;
  raw_action : string;
  raw_from_path : string;
  raw_to_path : string;
  raw_created_unix_ms : Z;  (** [i64] *)
}.

Record JournalCorruption := mkJournalCorruption { line : Z; message : string }.

(** [PrecheckError] is a parameter of the journal's error type: the journal only
    wraps it. *)
Inductive JournalError (PrecheckError : Type) :=
| JGuard (e : PathGuardError)
| JPrecheck (e : PrecheckError)
| JDb (e : DbError)
| JCorrupt (line : Z) (message : string)
| JNotCorrupted (path : string)
| JWriteQuarantine (path message : string)
| JSerialize (message : string).
Arguments JGuard {_} _. Arguments JPrecheck {_} _. Arguments JDb {_} _.
Arguments JCorrupt {_} _ _. Arguments JNotCorrupted {_} _.
Arguments JWriteQuarantine {_} _ _. Arguments JSerialize {_} _.

Module JournalStatus.
Definition as_db_str (s : JournalStatus) : string :=
  match s with
  | Planned => "planned"
  | Executed => "executed"
  | UndoPlanned => "undo_planned"
  | Undone => "undone"
  end.
Definition from_db_str (s : string) : option JournalStatus :=
  if (s =? "planned")%string then Some Planned
  else if (s =? "executed")%string then Some Executed
  else if (s =? "undo_planned")%string then Some UndoPlanned
  else if (s =? "undone")%string then Some Undone
  else None.
End JournalStatus.

Module JournalAction.
Definition as_db_str (a : JournalAction) : string :=
  match a with
  | JMove => "move"
  | JTrash => "trash"
  | JCreateDir => "create_dir"
  | JCreateFile => "create_file"
  | JReadmeWrite => "readme_write"
  end.
Definition from_db_str (s : string) : option JournalAction :=
  if (s =? "move")%string then Some JMove
  else if (s =? "trash")%string then Some JTrash
  else if (s =? "create_dir")%string then Some JCreateDir
  else if (s =? "create_file")%string then Some JCreateFile
  else if (s =? "readme_write")%string then Some JReadmeWrite
  else None.
End JournalAction.

Module JournalError.
(** [impl Display for JournalError] *)
Definition fmt {P} (precheck_fmt : P -> string) (e : JournalError P) : string :=
  match e with
  | JGuard e => PathGuard.fmt e
  | JPrecheck e => precheck_fmt e
  | JDb e => Db.fmt e
  | JCorrupt line message =>
      "cannot parse journal row " +:+ fmt_int line +:+ ": " +:+ message
  | JNotCorrupted path => "journal is not corrupted; refusing to recover: " +:+ path
  | JWriteQuarantine path message =>
      "cannot write quarantine file " +:+ path +:+ ": " +:+ message
  | JSerialize message => "cannot serialize journal entry: " +:+ message
  end.
End JournalError.

(** The state of the store: its database, which is also the pool. *)
Record JournalStore := mkJournalStore { pool : string; db_path : string }.

Module JournalStore.
Definition insert_sql : string := "INSERT INTO operation_journal
                    (operation_id, status, action, from_path, to_path, created_unix_ms)
                 VALUES (?, ?, ?, ?, ?, ?)".
Definition select_sql : string := "SELECT seq, operation_id, status, action, from_path, to_path, created_unix_ms
                 FROM operation_journal
                 ORDER BY seq".
Definition delete_sql : string := "DELETE FROM operation_journal".

Definition insert_binds (e : JournalEntry) : list sql_value :=
  [SqlText (je_operation_id e);
   SqlText (JournalStatus.as_db_str (je_status e));
   SqlText (JournalAction.as_db_str (je_action e));
   SqlText (je_from e);
   SqlText (je_to e);
   SqlInt (as_i64 (je_created_unix_ms e))].

(** The entries before the first row whose status or action is unknown, and
    that row's ordinal. *)
Fixpoint parse_rows (index : Z) (raw : list RawJournalRow)
  : list JournalEntry * option JournalCorruption :=
  match raw with
  | [] => ([], None)
  | row :: raw' =>
      match JournalStatus.from_db_str (raw_status row),
            JournalAction.from_db_str (raw_action row) with
      | Some status, Some action =>
          let '(entries, corruption) := parse_rows (index + 1) raw' in
          (mkJournalEntry (raw_operation_id row) status action (raw_from_path row)
             (raw_to_path row) (as_u128 (raw_created_unix_ms row)) :: entries, corruption)
      | _, _ =>
          ([], Some (mkJournalCorruption (index + 1)
             ("unrecognized journal row (status='" +:+ raw_status row +:+ "', action='"
              +:+ raw_action row +:+ "')")))
      end
  end.

Section store.
Context {DB : Type} `{!SqlDb DB} {P : Type}.
Abbreviation IO := (io (world DB) (JournalError P)).

Definition open (root : string) : IO JournalStore :=
  let! pool := io_map_err JDb (Db.open_root_db root) in
  io_ret (mkJournalStore pool (Db.db_path_for_root root)).

Definition journal_path_display (s : JournalStore) : string := db_path s.

Definition append (s : JournalStore) (entry : JournalEntry) : IO unit :=
  io_map_err (fun m => JDb (Query m))
    (Db.execute (pool s) insert_sql (insert_binds entry)).

Definition parse_raw_row (row : sql_row) : result RawJournalRow string :=
  let? seq := try_get_int row "seq" in
  let? operation_id := try_get_text row "operation_id" in
  let? status := try_get_text row "status" in
  let? action := try_get_text row "action" in
  let? from_path := try_get_text row "from_path" in
  let? to_path := try_get_text row "to_path" in
  let? created_unix_ms := try_get_int row "created_unix_ms" in
  Ok (mkRawJournalRow seq operation_id status action from_path to_path created_unix_ms).

Definition read_raw (s : JournalStore) : IO (list RawJournalRow) :=
  io_map_err (fun m => JDb (Query m))
    (let! rows := Db.fetch_all (pool s) select_sql [] in
     io_lift (try_map parse_raw_row rows)).

Definition read_all_lenient (s : JournalStore)
  : IO (list JournalEntry * option JournalCorruption) :=
  let! raw := read_raw s in
  io_ret (parse_rows 0 raw).

Definition read_all (s : JournalStore) : IO (list JournalEntry) :=
  let! ' (entries, corruption) := read_all_lenient s in
  match corruption with
  | Some c => io_fail (JCorrupt (line c) (message c))
  | None => io_ret entries
  end.

Definition clear (s : JournalStore) : IO unit :=
  io_map_err (fun m => JDb (Query m)) (Db.execute (pool s) delete_sql []).
End store.
End JournalStore.

(** The columns of a journal row as a query returns them. *)
Definition journal_row_columns (r : RawJournalRow) : sql_row :=
  [("seq", SqlInt (raw_seq r)); ("operation_id", SqlText (raw_operation_id r));
   ("status", SqlText (raw_status r)); ("action", SqlText (raw_action r));
   ("from_path", SqlText (raw_from_path r)); ("to_path", SqlText (raw_to_path r));
   ("created_unix_ms", SqlInt (raw_created_unix_ms r))].

(** What the journal relies on: SQLite's table [operation_journal] is a list of
    rows in [seq] order; an insert appends one row, the ordered select returns
    them all, the delete empties the table, and nothing else the engine issues
    while opening the database changes it.  A failed call changes nothing. *)
Class JournalDb (DB : Type) `{!SqlDb DB} := {
  journal_rows : DB -> list RawJournalRow;
  connect_rows d r d' : sql_connect d = (r, d') -> journal_rows d' = journal_rows d;
  schema_rows sql d r d' :
    sql ∈ Db.schema_statements -> sql_execute sql [] d = (r, d') -> journal_rows d' = journal_rows d;
  fetch_rows sql binds d r d' :
    sql_fetch_all sql binds d = (r, d') -> journal_rows d' = journal_rows d;
  insert_ok o st a f t ms d d' :
    sql_execute JournalStore.insert_sql
      [SqlText o; SqlText st; SqlText a; SqlText f; SqlText t; SqlInt ms] d = (Ok tt, d') ->
    exists seq, journal_rows d' = journal_rows d ++ [mkRawJournalRow seq o st a f t ms];
  insert_err binds e d d' :
    sql_execute JournalStore.insert_sql binds d = (Err e, d') -> journal_rows d' = journal_rows d;
  select_ok d rows d' :
    sql_fetch_all JournalStore.select_sql [] d = (Ok rows, d') ->
    rows = map journal_row_columns (journal_rows d);
  delete_ok d d' :
    sql_execute JournalStore.delete_sql [] d = (Ok tt, d') -> journal_rows d' = [];
  delete_err e d d' :
    sql_execute JournalStore.delete_sql [] d = (Err e, d') -> journal_rows d' = journal_rows d;
}.

(** * Codec *)

Lemma status_roundtrip s : JournalStatus.from_db_str (JournalStatus.as_db_str s) = Some s.
Proof. by destruct s. Qed.
Lemma action_roundtrip a : JournalAction.from_db_str (JournalAction.as_db_str a) = Some a.
Proof. by destruct a. Qed.

Lemma status_from_db s st : JournalStatus.from_db_str s = Some st -> s = JournalStatus.as_db_str st.
Proof.
  unfold JournalStatus.from_db_str.
  repeat match goal with
    | |- context [(s =? ?x)%string] => destruct (String.eqb_spec s x) as [->|]
    end; intros H; simplify_eq; done.
Qed.
Lemma action_from_db s a : JournalAction.from_db_str s = Some a -> s = JournalAction.as_db_str a.
Proof.
  unfold JournalAction.from_db_str.
  repeat match goal with
    | |- context [(s =? ?x)%string] => destruct (String.eqb_spec s x) as [->|]
    end; intros H; simplify_eq; done.
Qed.

(** Milliseconds that fit an [i64] survive the casts of a write and a read. *)
Definition time_ok (z : Z) : Prop := (0 <= z < 2 ^ 63)%Z.
Lemma time_roundtrip z : time_ok z -> as_u128 (as_i64 z) = z.
Proof.
  unfold time_ok, as_u128, as_i64. intros Hz.
  rewrite (Z.mod_small z (2 ^ 64)) by lia.
  destruct (Z.ltb_spec z (2 ^ 63)); [|lia]. apply Z.mod_small. lia.
Qed.

Definition row_of_entry (seq : Z) (e : JournalEntry) : RawJournalRow :=
  mkRawJournalRow seq (je_operation_id e) (JournalStatus.as_db_str (je_status e))
    (JournalAction.as_db_str (je_action e)) (je_from e) (je_to e) (as_i64 (je_created_unix_ms e)).

(** A row the store can read, and the entry it reads. *)
Definition entry_of_row (r : RawJournalRow) : option JournalEntry :=
  match JournalStatus.from_db_str (raw_status r), JournalAction.from_db_str (raw_action r) with
  | Some s, Some a =>
      Some (mkJournalEntry (raw_operation_id r) s a (raw_from_path r) (raw_to_path r)
              (as_u128 (raw_created_unix_ms r)))
  | _, _ => None
  end.

Lemma entry_of_row_of_entry seq e :
  time_ok (je_created_unix_ms e) -> entry_of_row (row_of_entry seq e) = Some e.
Proof.
  intros Ht. unfold entry_of_row. simpl. rewrite status_roundtrip, action_roundtrip.
  rewrite time_roundtrip by done. by destruct e.
Qed.

(** The entries of the longest readable prefix. *)
Fixpoint readable (raw : list RawJournalRow) : list JournalEntry :=
  match raw with
  | [] => []
  | r :: raw' => match entry_of_row r with Some e => e :: readable raw' | None => [] end
  end.

Lemma parse_rows_spec i raw :
  (JournalStore.parse_rows i raw).1 = readable raw /\
  match (JournalStore.parse_rows i raw).2 with
  | None => Forall (fun r => is_Some (entry_of_row r)) raw
  | Some c => exists l1 r l2, raw = l1 ++ r :: l2 /\ entry_of_row r = None /\
      Forall (fun r => is_Some (entry_of_row r)) l1 /\ line c = (i + Z.of_nat (length l1) + 1)%Z
  end.
Proof.
  revert i. induction raw as [|r raw IH]; intros i; simpl; [by split; [|apply Forall_nil_2]|].
  destruct (entry_of_row r) as [e|] eqn:He; unfold entry_of_row in He;
    destruct (JournalStatus.from_db_str (raw_status r)) as [s|] eqn:Hs; try done;
    destruct (JournalAction.from_db_str (raw_action r)) as [a|] eqn:Ha; try done.
  - injection He as <-.
    assert (is_Some (entry_of_row r)) as Hr by (unfold entry_of_row; rewrite Hs, Ha; eauto).
    specialize (IH (i + 1)%Z). destruct (JournalStore.parse_rows (i + 1) raw) as [es c]. simpl in *.
    destruct IH as [-> IH]. split; [done|]. destruct c as [c|]; [|by constructor].
    destruct IH as (l1 & x & l2 & -> & Hx & Hl1 & Hc). exists (r :: l1), x, l2.
    split_and!; [done..|by constructor|]. rewrite Hc. simpl. lia.
  - by split; [|exists [], r, raw; split_and!; [|unfold entry_of_row; rewrite Hs, Ha|apply Forall_nil_2|simpl; lia]].
  - by split; [|exists [], r, raw; split_and!; [|unfold entry_of_row; rewrite Hs|apply Forall_nil_2|simpl; lia]].
  - by split; [|exists [], r, raw; split_and!; [|unfold entry_of_row; rewrite Hs|apply Forall_nil_2|simpl; lia]].
Qed.

Lemma parse_rows_none i raw :
  Forall (fun r => is_Some (entry_of_row r)) raw -> JournalStore.parse_rows i raw = (readable raw, None).
Proof.
  intros Hraw. pose proof (parse_rows_spec i raw) as [H1 H2].
  destruct (JournalStore.parse_rows i raw) as [es [c|]]; simpl in *; [|by subst].
  destruct H2 as (l1 & r & l2 & -> & Hr & _). apply Forall_app in Hraw as [_ Hr']. 
  apply Forall_cons in Hr' as [[? ?] _]. congruence.
Qed.

Lemma readable_app l1 l2 :
  Forall (fun r => is_Some (entry_of_row r)) l1 -> readable (l1 ++ l2) = readable l1 ++ readable l2.
Proof.
  induction 1 as [|r l1 [e He] Hl IH]; [done|]. simpl. by rewrite He, IH.
Qed.

Lemma try_map_columns raw :
  try_map JournalStore.parse_raw_row (map journal_row_columns raw) = Ok raw.
Proof.
  induction raw as [|r raw IH]; [done|]. cbn [map try_map]. rewrite IH. by destruct r.
Qed.

(** * The store over a journal database *)

Section store_facts.
Context {DB : Type} `{!SqlDb DB, !JournalDb DB} {P : Type}.
Implicit Types w : world DB.

Definition journal_at (p : string) w : list RawJournalRow := journal_rows (w_db w p).

(** No journal changes. *)
Definition same_journal w w' : Prop := forall p, journal_at p w' = journal_at p w.
#[export] Instance same_journal_preorder : PreOrder same_journal.
Proof. split; [by intros ? ?|]. intros ? ? ? H1 H2 p. by rewrite H2. Qed.

(** Journals only grow: no recorded event is lost or changed. *)
Definition journal_grows w w' : Prop := forall p, exists l, journal_at p w' = journal_at p w ++ l.
#[export] Instance journal_grows_preorder : PreOrder journal_grows.
Proof.
  split; [intros w p; exists []; by rewrite app_nil_r|].
  intros w1 w2 w3 H1 H2 p. destruct (H1 p) as [l1 Hl1], (H2 p) as [l2 Hl2].
  exists (l1 ++ l2). by rewrite Hl2, Hl1, app_assoc.
Qed.
Lemma same_grows w w' : same_journal w w' -> journal_grows w w'.
Proof. intros H p. exists []. by rewrite H, app_nil_r. Qed.
Lemma same_db_journal w w' : same_db w w' -> same_journal w w'.
Proof. intros H p. unfold journal_at. by rewrite H. Qed.
Lemma only_same_journal (Q : event -> Prop) {E A} (m : io (world DB) E A) :
  io_rel (only Q) m -> io_rel same_journal m.
Proof. intros Hm w r w' H. apply same_db_journal. by apply (Hm _ _ _ H). Qed.

Lemma set_db_journal q d w :
  journal_rows d = journal_at q w -> same_journal w (set_db q d w).
Proof.
  intros Hd p. unfold journal_at in *. simpl. destruct (decide (q = p)) as [->|].
  - by rewrite fn_lookup_insert.
  - by rewrite fn_lookup_insert_ne.
Qed.

Lemma connect_journal p : io_rel same_journal (Db.connect (DB:=DB) p).
Proof.
  intros w r w'. unfold Db.connect. destruct (sql_connect (w_db w p)) as [r0 d] eqn:H.
  intros [= <- <-]. apply set_db_journal. by apply connect_rows in H.
Qed.
Lemma schema_execute_journal p sql :
  sql ∈ Db.schema_statements -> io_rel same_journal (Db.execute (DB:=DB) p sql []).
Proof.
  intros Hs w r w'. unfold Db.execute. destruct (sql_execute sql [] (w_db w p)) as [r0 d] eqn:H.
  apply schema_rows in H; [|done]. intros [= <- <-].
  destruct (is_ok r0); [intros q; change (journal_at q (add_log ?e ?x)) with (journal_at q x)|];
    by apply set_db_journal.
Qed.
Lemma fetch_journal p sql binds : io_rel same_journal (Db.fetch_all (DB:=DB) p sql binds).
Proof.
  intros w r w'. unfold Db.fetch_all. destruct (sql_fetch_all _ _ _) as [r0 d] eqn:H.
  apply fetch_rows in H. intros [= <- <-]. by apply set_db_journal.
Qed.

(** ** The tree and the log under database calls *)

Definition same_tree w w' : Prop := w_fs w' = w_fs w.
#[export] Instance same_tree_preorder : PreOrder same_tree.
Proof. split; [by intros ?|intros ? ? ? H1 H2; unfold same_tree in *; congruence]. Qed.
Lemma same_tree_wf {E A} (m : io (world DB) E A) : io_rel same_tree m -> io_rel keeps_wf m.
Proof. intros Hm w r w' H Hwf. by rewrite (Hm _ _ _ H). Qed.
Lemma same_tree_adds_dirs {E A} (m : io (world DB) E A) : io_rel same_tree m -> io_rel adds_dirs m.
Proof. intros Hm w r w' H p. left. by rewrite (Hm _ _ _ H). Qed.
Lemma only_logs (Q : event -> Prop) {E A} (m : io (world DB) E A) :
  io_rel (only Q) m -> io_rel (logs Q) m.
Proof. intros Hm w r w' H. by apply (Hm _ _ _ H). Qed.

Definition is_sql (e : event) : Prop := exists p sql binds, e = EvSql p sql binds.

Lemma connect_tree p : io_rel same_tree (Db.connect (DB:=DB) p).
Proof. intros w r w'. unfold Db.connect. destruct (sql_connect _). by intros [= <- <-]. Qed.
Lemma execute_tree p sql binds : io_rel same_tree (Db.execute (DB:=DB) p sql binds).
Proof.
  intros w r w'. unfold Db.execute. destruct (sql_execute _ _ _) as [r0 d].
  intros [= <- <-]. by destruct (is_ok r0).
Qed.
Lemma fetch_tree p sql binds : io_rel same_tree (Db.fetch_all (DB:=DB) p sql binds).
Proof. intros w r w'. unfold Db.fetch_all. destruct (sql_fetch_all _ _ _). by intros [= <- <-]. Qed.
Lemma connect_logs Q p : io_rel (logs Q) (Db.connect (DB:=DB) p).
Proof.
  intros w r w'. unfold Db.connect. destruct (sql_connect _). intros [= <- <-]. by apply logs_none.
Qed.
Lemma execute_logs p sql binds : io_rel (logs is_sql) (Db.execute (DB:=DB) p sql binds).
Proof.
  intros w r w'. unfold Db.execute. destruct (sql_execute _ _ _) as [r0 d].
  intros [= <- <-]. destruct (is_ok r0); [|by apply logs_none].
  eapply logs_one; [done|]. by exists p, sql, binds.
Qed.
Lemma fetch_logs Q p sql binds : io_rel (logs Q) (Db.fetch_all (DB:=DB) p sql binds).
Proof.
  intros w r w'. unfold Db.fetch_all. destruct (sql_fetch_all _ _ _). intros [= <- <-].
  by apply logs_none.
Qed.

(** Opening a root's database: a relation kept by its parts is kept. *)
Lemma open_root_db_rel (R : world DB -> world DB -> Prop) `{!PreOrder R} root :
  (forall p, io_rel R (create_dir_all p)) ->
  (forall p, io_rel R (Db.connect p)) ->
  (forall p sql, sql ∈ Db.schema_statements -> io_rel R (Db.execute p sql [])) ->
  (forall p sql, sql ∈ Db.schema_queries -> io_rel R (Db.fetch_all p sql [])) ->
  io_rel R (Db.open_root_db root).
Proof.
  intros Hd Hc He Hf.
  assert (forall p t c a, t ∈ Db.schema_queries -> a ∈ Db.schema_statements -> io_rel R (Db.add_column_if_missing p t c a)) as Ha.
  { intros p t c a Ht Hin. unfold Db.add_column_if_missing. io_rel_go; auto. }
  unfold Db.open_root_db, Db.open_pool_at, Db.migrate.
  io_rel_go; auto; first [apply He|apply Ha]; unfold Db.schema_statements, Db.schema_queries; set_solver.
Qed.
Lemma open_journal_same root : io_rel same_journal (JournalStore.open (DB:=DB) (P:=P) root).
Proof.
  unfold JournalStore.open. io_rel_go. apply open_root_db_rel; [apply _|..].
  - intros p. eapply only_same_journal, create_dir_all_only.
  - apply connect_journal.
  - apply schema_execute_journal.
  - intros. apply fetch_journal.
Qed.
Lemma open_wf root : io_rel keeps_wf (JournalStore.open (DB:=DB) (P:=P) root).
Proof.
  unfold JournalStore.open. io_rel_go. apply open_root_db_rel; [apply _|..]; intros;
    [apply create_dir_all_wf|apply same_tree_wf..];
    [apply connect_tree|apply execute_tree|apply fetch_tree].
Qed.
Lemma open_adds_dirs root : io_rel adds_dirs (JournalStore.open (DB:=DB) (P:=P) root).
Proof.
  unfold JournalStore.open. io_rel_go. apply open_root_db_rel; [apply _|..]; intros;
    [apply create_dir_all_adds_dirs|apply same_tree_adds_dirs..];
    [apply connect_tree|apply execute_tree|apply fetch_tree].
Qed.
Lemma open_logs root :
  io_rel (logs (fun e => is_mkdir e \/ is_sql e)) (JournalStore.open (DB:=DB) (P:=P) root).
Proof.
  unfold JournalStore.open. io_rel_go. apply open_root_db_rel; [apply _|..]; intros.
  - eapply logs_weaken; [|apply only_logs, create_dir_all_only]. auto.
  - apply connect_logs.
  - eapply logs_weaken; [|apply execute_logs]. auto.
  - apply fetch_logs.
Qed.
Lemma open_store root w s w' :
  JournalStore.open (DB:=DB) (P:=P) root w = (Ok s, w') ->
  pool s = Db.db_path_for_root root /\ db_path s = Db.db_path_for_root root.
Proof.
  unfold JournalStore.open, Db.open_root_db, Db.open_pool_at. intros H. io_inv. done.
Qed.

(** ** Reading and appending *)

Lemma append_run s e w r w' :
  JournalStore.append (P:=P) s e w = (r, w') ->
  w_fs w' = w_fs w /\
  match r with
  | Ok _ =>
      (exists seq, journal_at (pool s) w' = journal_at (pool s) w ++ [row_of_entry seq e]) /\
      (forall p, p <> pool s -> journal_at p w' = journal_at p w) /\
      w_log w' = w_log w ++ [EvSql (pool s) JournalStore.insert_sql (JournalStore.insert_binds e)]
  | Err _ => same_journal w w' /\ w_log w' = w_log w
  end.
Proof.
  unfold JournalStore.append. intros (r0 & H & ->)%io_map_err_inv.
  split; [by eapply execute_tree|].
  unfold Db.execute in H. destruct (sql_execute _ _ _) as [r1 d] eqn:Hx. injection H as <- <-.
  destruct r1 as [[]|m]; simpl.
  - apply insert_ok in Hx as [seq Hx]. split_and!; [|intros p Hp|done].
    + exists seq. unfold journal_at. simpl. rewrite fn_lookup_insert, Hx. done.
    + unfold journal_at. simpl. by rewrite fn_lookup_insert_ne.
  - apply insert_err in Hx. split; [by apply set_db_journal|done].
Qed.
Lemma append_grows s e : io_rel journal_grows (JournalStore.append (DB:=DB) (P:=P) s e).
Proof.
  intros w r w' H. apply append_run in H as [_ H]. destruct r as [[]|er].
  - destruct H as ([seq Hs] & Ho & _). intros p. destruct (decide (p = pool s)) as [->|Hp]; [eauto|].
    exists []. by rewrite Ho, app_nil_r.
  - apply same_grows, H.
Qed.
Lemma append_tree s e : io_rel same_tree (JournalStore.append (DB:=DB) (P:=P) s e).
Proof. intros w r w' H. by apply append_run in H as [H _]. Qed.

Lemma read_all_lenient_run s w r w' :
  JournalStore.read_all_lenient (P:=P) s w = (r, w') ->
  w_fs w' = w_fs w /\ same_journal w w' /\ w_log w' = w_log w /\
  (forall a, r = Ok a -> a = JournalStore.parse_rows 0 (journal_at (pool s) w)).
Proof.
  unfold JournalStore.read_all_lenient, JournalStore.read_raw, io_map_err, io_bind, Db.fetch_all.
  destruct (sql_fetch_all JournalStore.select_sql [] (w_db w (pool s))) as [r0 d] eqn:Hx.
  pose proof (fetch_rows _ _ _ _ _ Hx) as Hd.
  destruct r0 as [rows|m].
  - apply select_ok in Hx as ->. unfold io_lift. rewrite try_map_columns. intros [= <- <-].
    split_and!; [done|by apply set_db_journal|done|by intros ? [= <-]].
  - intros [= <- <-]. split_and!; [done|by apply set_db_journal|done|done].
Qed.
Lemma read_all_run s w r w' :
  JournalStore.read_all (P:=P) s w = (r, w') ->
  w_fs w' = w_fs w /\ same_journal w w' /\ w_log w' = w_log w /\
  (forall es, r = Ok es -> es = readable (journal_at (pool s) w) /\
     Forall (fun x => is_Some (entry_of_row x)) (journal_at (pool s) w)).
Proof.
  unfold JournalStore.read_all. intros [([es c] & w1 & H1 & H2)|(e & H1 & ->)]%io_bind_inv;
    apply read_all_lenient_run in H1 as (Hf & Hj & Hl & Ha).
  - specialize (Ha _ eq_refl). destruct c as [c|]; injection H2 as <- <-; split_and!; try done.
    intros ? [= <-]. pose proof (parse_rows_spec 0 (journal_at (pool s) w)) as [H1 H2].
    rewrite <- Ha in *. done.
  - done.
Qed.
End store_facts.

(** * A concrete database: an in-memory journal that satisfies the laws of
    [JournalDb], and the machines built on it.  It instantiates the third-party
    database wherever a theorem is evaluated. *)

(** The rows, the next [seq], and how many more inserts succeed ([None]: all). *)
Record MemDb := mkMemDb {
  mem_rows : list RawJournalRow;
  mem_next : Z;
  mem_left : option nat;
}.

Definition mem_empty : MemDb := mkMemDb [] 1 None.

Definition mem_execute (sql : string) (binds : list sql_value) (d : MemDb)
  : result unit string * MemDb :=
  if (sql =? JournalStore.insert_sql)%string then
    match mem_left d, binds with
    | Some O, _ => (Err "database or disk is full", d)
    | budget, [SqlText o; SqlText st; SqlText a; SqlText f; SqlText t; SqlInt ms] =>
        (Ok tt, mkMemDb (mem_rows d ++ [mkRawJournalRow (mem_next d) o st a f t ms])
                  (mem_next d + 1) (Nat.pred <$> budget))
    | _, _ => (Err "wrong number of bound values", d)
    end
  else if (sql =? JournalStore.delete_sql)%string then
    (Ok tt, mkMemDb [] (mem_next d) (mem_left d))
  else if existsb (String.eqb sql) Db.schema_statements then (Ok tt, d)
  else (Err "near: syntax error", d).

Definition mem_columns (sql : string) : list sql_row :=
  map (fun c => [("name", SqlText c)]) ["relative_path"; "file_id"; "extension"; "initialized"].

Definition mem_fetch (sql : string) (binds : list sql_value) (d : MemDb)
  : result (list sql_row) string * MemDb :=
  if (sql =? JournalStore.select_sql)%string then (Ok (map journal_row_columns (mem_rows d)), d)
  else if existsb (String.eqb sql) Db.schema_queries then (Ok (mem_columns sql), d)
  else (Err "near: syntax error", d).

#[export] Instance mem_sql_db : SqlDb MemDb :=
  {| sql_connect d := (Ok tt, d); sql_execute := mem_execute; sql_fetch_all := mem_fetch |}.

Lemma mem_execute_insert binds d :
  mem_execute JournalStore.insert_sql binds d =
    match mem_left d, binds with
    | Some O, _ => (Err "database or disk is full", d)
    | budget, [SqlText o; SqlText st; SqlText a; SqlText f; SqlText t; SqlInt ms] =>
        (Ok tt, mkMemDb (mem_rows d ++ [mkRawJournalRow (mem_next d) o st a f t ms])
                  (mem_next d + 1) (Nat.pred <$> budget))
    | _, _ => (Err "wrong number of bound values", d)
    end.
Proof. reflexivity. Qed.

Lemma mem_execute_schema sql d :
  sql ∈ Db.schema_statements -> mem_execute sql [] d = (Ok tt, d).
Proof.
  intros Hs. unfold Db.schema_statements in Hs.
  repeat (apply elem_of_cons in Hs as [->|Hs]; [reflexivity|]). by apply not_elem_of_nil in Hs.
Qed.

#[export] Instance mem_journal_db : JournalDb MemDb.
Proof.
  unshelve econstructor; [exact mem_rows|..].
  - intros d r d' [= <- <-]. done.
  - intros sql d r d' Hs H. cbn in H. rewrite mem_execute_schema in H by done. by injection H as <- <-.
  - intros sql binds d r d' H. cbn in H. unfold mem_fetch in H. repeat case_match; by simplify_eq.
  - intros o st a f t ms d d' H. cbn [sql_execute mem_sql_db] in H. rewrite mem_execute_insert in H.
    exists (mem_next d). destruct (mem_left d) as [[|n]|]; by simplify_eq/=.
  - intros binds e d d' H. cbn [sql_execute mem_sql_db] in H. rewrite mem_execute_insert in H.
    repeat case_match; by simplify_eq.
  - intros d rows d' H. cbn in H. by injection H as <- <-.
  - intros d d' H. cbn in H. by injection H as <-.
  - intros e d d' H. cbn in H. done.
Defined.

(** * Machines *)

Definition no_faults : nat -> option string := fun _ => None.
(** The clock reads one millisecond more at each reading. *)
Definition steady_clock : nat -> Z := fun n => (1700000000000000000 + 1000000 * Z.of_nat n)%Z.

Definition machine (f : tree) (d : MemDb) : world MemDb :=
  mkWorld f (fun _ => d) steady_clock 0 no_faults 0 100 [].

(** A file with contents [c], a directory, a link; times and numbers fixed. *)
Definition file_of (c : string) (n : Z) : inode := mkInode (KFile c) 1600000000000000000 None n.
Definition dir_of (n : Z) : inode := mkInode KDir 1600000000000000000 None n.
Definition link_of (t : string) (n : Z) : inode := mkInode (KLink t) 1600000000000000000 None n.

(** The managed root [/home/root] of the examples. *)
Definition sample_entries : list (path * inode) :=
  [([], dir_of 1); (["home"], dir_of 2); (["home"; "root"], dir_of 3);
   (["home"; "other"], dir_of 4); (["home"; "other"; "secret.txt"], file_of "secret" 5);
   (["home"; "root"; "a.txt"], file_of "hello" 6);
   (["home"; "root"; "docs"], dir_of 7);
   (["home"; "root"; "docs"; "b.txt"], file_of "world!" 8);
   (["home"; "root"; "escape"], link_of "../other" 9)].
Definition sample_tree : tree := list_to_map sample_entries.
Definition sample_root : string := "/home/root".

(** ** A decision procedure for [wf_tree] *)
Definition seg_okb (s : string) : bool :=
  negb (contains_char "/" s) && negb (is_empty s) && negb (is_dot s) && negb (is_dotdot s).
Definition wf_entryb (f : tree) (kv : path * inode) : bool :=
  match reverse (fst kv) with
  | [] => is_dir_inode (snd kv)
  | s :: r => seg_okb s &&
      match f !! reverse r with Some j => is_dir_inode j | None => false end
  end.
Definition wf_treeb (f : tree) : bool :=
  match f !! [] with Some _ => true | None => false end && forallb (wf_entryb f) (map_to_list f).

Lemma wf_treeb_ok f : wf_treeb f = true -> wf_tree f.
Proof.
  unfold wf_treeb. rewrite andb_true_iff, forallb_forall. intros [Hroot Hall].
  assert (forall p i, f !! p = Some i -> wf_entryb f (p, i) = true) as H.
  { intros p i Hi. apply Hall, list_elem_of_In, elem_of_map_to_list, Hi. }
  constructor.
  - destruct (f !! []) as [i|] eqn:Hi; [|done]. exists i. split; [done|]. by apply (H _ _ Hi).
  - intros p s i Hi. specialize (H _ _ Hi). unfold wf_entryb in H. simpl in H.
    rewrite reverse_snoc in H. apply andb_true_iff in H as [Hs Hp]. rewrite reverse_involutive in Hp.
    split.
    + unfold seg_okb in Hs. unfold seg_ok.
      destruct (contains_char _ s), (is_empty s), (is_dot s), (is_dotdot s); done.
    + destruct (f !! p) as [j|] eqn:Hj; [|done]. eauto.
Qed.

Lemma sample_wf : wf_tree sample_tree.
Proof. apply wf_treeb_ok. by vm_compute. Defined.

Definition sample_machine : world MemDb := machine sample_tree mem_empty.
