(* ===== verification/proposal_types.v ===== *)
(** The data of proposals ([proposal.rs]) and of scans ([analyzer.rs]), and the
    identifier that names a proposal. *)
From Stdlib Require Import ZArith Lia Ascii.
From stdpp Require Import strings pretty gmap functions option list.
From S2P Require Import prelude rust_str std_path.

Open Scope string_scope.
Open Scope list_scope.

Inductive ProposalAction := Move | Trash | CreateDir | CreateFile | ReadmeWrite.
Inductive ProposalStatus := Ready | DestinationExists.

#[export] Instance ProposalAction_eq_dec : EqDecision ProposalAction.
Proof. solve_decision. Defined.
#[export] Instance ProposalStatus_eq_dec : EqDecision ProposalStatus.
Proof. solve_decision. Defined.

Record Proposal := mkProposal {
  proposal_id_of : string;
  p_action : ProposalAction;
  p_from : string;
  p_to : string;
  p_content : option string;
  p_source_size_bytes : Z;                (** [u64] *)
  p_source_modified_unix_ms : option Z;   (** [u128] *)
  p_source_file_id : option string;
  p_reason : string;
  p_status : ProposalStatus;
}.

Record ProposalReport := mkProposalReport { pr_root : string; pr_proposals : list Proposal }.

#[export] Instance Proposal_eq_dec : EqDecision Proposal.
Proof. solve_decision. Defined.

Record FileEntry := mkFileEntry {
  fe_path : string;
  fe_size_bytes : Z;                (** [u64] *)
  fe_modified_unix_ms : option Z;   (** [u128] *)
  fe_created_unix_ms : option Z;    (** [u128] *)
  fe_file_id : option string;
}.
Record SkippedEntry := mkSkippedEntry { se_path : string; se_reason : string }.
Record AnalyzeReport := mkAnalyzeReport {
  ar_root : string;
  ar_files : list FileEntry;
  ar_directories : list string;
  ar_skipped_entries : list SkippedEntry;
}.

Module ProposalId.
(** [ProposalAction::as_str] *)
Definition as_str (a : ProposalAction) : string :=
  match a with
  | Move => "move"
  | Trash => "trash"
  | CreateDir => "create_dir"
  | CreateFile => "create_file"
  | ReadmeWrite => "readme_write"
  end.

Definition normalize_id_part (p : string) : string :=
  to_ascii_lowercase (replace_char "\" "/" p).

Definition fnv1a64 (bytes : list ascii) : Z :=
  fold_left (fun hash byte =>
    let hash := Z.lxor hash (byte_of byte) in
    wrap_u64 (hash * 1099511628211)) bytes 14695981039346656037%Z.

Definition proposal_id (action : ProposalAction) (from to : string) : string :=
  let input := as_str action +:+ "|" +:+ normalize_id_part from +:+ "|" +:+ normalize_id_part to in
  as_str action +:+ ":" +:+ fmt_hex16 (fnv1a64 (sbytes input)).
End ProposalId.

(** * Facts *)

Lemma fnv1a64_range l : (0 <= ProposalId.fnv1a64 l < 2 ^ 64)%Z.
Proof.
  unfold ProposalId.fnv1a64.
  assert (forall h, (0 <= h < 2 ^ 64)%Z ->
    (0 <= fold_left (fun hash byte => wrap_u64 (Z.lxor hash (byte_of byte) * 1099511628211)) l h < 2 ^ 64)%Z) as H.
  { induction l as [|c l IH]; intros h Hh; simpl; [done|]. apply IH.
    apply Z.mod_pos_bound. lia. }
  apply H. lia.
Qed.

Lemma hex_fixed_length n z : String.length (hex_fixed n z) = n.
Proof. induction n as [|n IH]; simpl; [done|]. by rewrite IH. Qed.

(** A proposal's identifier does not depend on the case of ASCII letters or on
    the slash style of its paths. *)
Lemma proposal_id_normalized a f t f' t' :
  ProposalId.normalize_id_part f = ProposalId.normalize_id_part f' ->
  ProposalId.normalize_id_part t = ProposalId.normalize_id_part t' ->
  ProposalId.proposal_id a f t = ProposalId.proposal_id a f' t'.
Proof. unfold ProposalId.proposal_id. by intros -> ->. Qed.
