(* ===== verification/decision.v ===== *)
(** [tools/file-engine-cli/src/decision.rs]: applying the user's decisions to a
    proposal report. *)
From Stdlib Require Import ZArith Lia Ascii.
From stdpp Require Import strings pretty gmap functions option list.
From S2P Require Import prelude rust_str std_path std_fs proposal_types.

Open Scope string_scope.
Open Scope list_scope.

Inductive Decision := Approved | Rejected.
#[export] Instance Decision_eq_dec : EqDecision Decision.
Proof. solve_decision. Defined.

Record DecisionEntry := mkDecisionEntry {
  d_proposal_id : string;
  d_decision : Decision;
  d_reason : option string;
}.
#[export] Instance DecisionEntry_eq_dec : EqDecision DecisionEntry.
Proof. solve_decision. Defined.

Inductive DecisionError :=
| ReadDecision (path message : string)
| ParseDecision (path : string) (line : Z) (message : string)
| UnknownProposalId (proposal_id : string)
| DuplicateDecision (proposal_id : string)
| MissingRejectionReason (proposal_id : string).
#[export] Instance DecisionError_eq_dec : EqDecision DecisionError.
Proof. solve_decision. Defined.

Record RejectedProposal := mkRejectedProposal { rp_proposal : Proposal; rp_reason : string }.
Record DecisionApplication := mkDecisionApplication {
  da_approved : ProposalReport;
  da_rejected : list RejectedProposal;
}.

Module Decision.
Section read.
(** [serde_json::from_str::<DecisionEntry>], a third-party parser. *)
Context (from_str : string -> result DecisionEntry string).

Fixpoint parse_lines (path : string) (index : Z) (ls : list string)
  : result (list DecisionEntry) DecisionError :=
  match ls with
  | [] => Ok []
  | l :: ls' =>
      if is_empty (trim l) then parse_lines path (index + 1) ls'
      else
        let? d := map_err (ParseDecision path (index + 1)) (from_str l) in
        let? ds := parse_lines path (index + 1) ls' in
        Ok (d :: ds)
  end.
Definition read_decision_file (f : tree) (path : string)
  : result (list DecisionEntry) DecisionError :=
  let? content := map_err (fun e => ReadDecision path (io_error_str e)) (read_to_string f path) in
  parse_lines path 0 (lines (trim_start_bom content)).
End read.

Definition rejection_reason (d : DecisionEntry) : option string :=
  match d_reason d with
  | Some r => let t := trim r in if is_empty t then None else Some t
  | None => None
  end.

(** The first loop: every decision names a known proposal, once, and every
    rejection has a reason. *)
Fixpoint check_decisions (known_ids seen_ids : list string) (decisions : list DecisionEntry)
  : result unit DecisionError :=
  match decisions with
  | [] => Ok tt
  | d :: ds =>
      if negb (bool_decide (d_proposal_id d ∈ known_ids)) then Err (UnknownProposalId (d_proposal_id d))
      else if bool_decide (d_proposal_id d ∈ seen_ids) then Err (DuplicateDecision (d_proposal_id d))
      else if bool_decide (d_decision d = Rejected) && bool_decide (rejection_reason d = None)
      then Err (MissingRejectionReason (d_proposal_id d))
      else check_decisions known_ids (d_proposal_id d :: seen_ids) ds
  end.

(** [HashMap::collect]: the last pair of a key wins. *)
Definition rejected_by_id (decisions : list DecisionEntry) : gmap string string :=
  fold_left (fun m d =>
    if bool_decide (d_decision d = Rejected)
    then match rejection_reason d with
         | Some reason => <[d_proposal_id d := reason]> m
         | None => m
         end
    else m) decisions ∅.
Definition approved_ids (decisions : list DecisionEntry) : list string :=
  map d_proposal_id (filter (fun d => d_decision d = Approved) decisions).

(** The second loop. *)
Fixpoint partition (approved : list string) (rejected : gmap string string) (ps : list Proposal)
  : list Proposal * list RejectedProposal :=
  match ps with
  | [] => ([], [])
  | p :: ps' =>
      let '(a, r) := partition approved rejected ps' in
      if bool_decide (proposal_id_of p ∈ approved) then (p :: a, r)
      else match rejected !! proposal_id_of p with
           | Some reason => (a, mkRejectedProposal p reason :: r)
           | None => (a, r)
           end
  end.

Definition apply_decisions (report : ProposalReport) (decisions : list DecisionEntry)
  : result DecisionApplication DecisionError :=
  let known_ids := map proposal_id_of (pr_proposals report) in
  let? _ := check_decisions known_ids [] decisions in
  let '(approved, rejected) :=
    partition (approved_ids decisions) (rejected_by_id decisions) (pr_proposals report) in
  Ok (mkDecisionApplication (mkProposalReport (pr_root report) approved) rejected).

(** [impl Display for DecisionError] *)
Definition fmt (e : DecisionError) : string :=
  match e with
  | ReadDecision path m => "cannot read decision file " +:+ path +:+ ": " +:+ m
  | ParseDecision path line m =>
      "cannot parse decision file " +:+ path +:+ " line " +:+ fmt_int line +:+ ": " +:+ m
  | UnknownProposalId id => "decision references unknown proposal_id " +:+ id
  | DuplicateDecision id => "decision contains duplicate proposal_id " +:+ id
  | MissingRejectionReason id =>
      "rejected decision for proposal_id " +:+ id +:+ " must include a non-empty reason"
  end.
End Decision.

(** * Facts *)

(** The verdict on one decision, given the identifiers decided before it. *)
Definition decision_ok (known seen : list string) (d : DecisionEntry) : Prop :=
  d_proposal_id d ∈ known /\ ~ d_proposal_id d ∈ seen /\
  (d_decision d = Rejected -> Decision.rejection_reason d <> None).

Lemma check_decisions_cons known seen d ds :
  Decision.check_decisions known seen (d :: ds) = Ok tt <->
  decision_ok known seen d /\ Decision.check_decisions known (d_proposal_id d :: seen) ds = Ok tt.
Proof.
  simpl. unfold decision_ok.
  destruct (decide (d_proposal_id d ∈ known)) as [Hk|Hk];
    [rewrite (bool_decide_true _ Hk)|rewrite (bool_decide_false _ Hk)]; simpl; [|by split; [|intros [[] _]]].
  destruct (decide (d_proposal_id d ∈ seen)) as [Hs|Hs];
    [rewrite (bool_decide_true _ Hs)|rewrite (bool_decide_false _ Hs)]; simpl;
    [by split; [|intros [(_ & [] & _) _]]|].
  destruct (decide (d_decision d = Rejected)) as [Hd|Hd];
    [rewrite (bool_decide_true _ Hd)|rewrite (bool_decide_false _ Hd)]; simpl;
    [|split; [by intros H; split_and!|by intros [_ ?]]].
  case_bool_decide as Hr; [split; [done|by intros [(_ & _ & H) _]; destruct H]|].
  split; [by intros H; split_and!|by intros [_ ?]].
Qed.

Lemma check_decisions_ok known seen ds :
  Decision.check_decisions known seen ds = Ok tt <->
  Forall (fun d => d_proposal_id d ∈ known) ds /\
  NoDup (map d_proposal_id ds) /\ Forall (fun d => d_proposal_id d ∉ seen) ds /\
  Forall (fun d => d_decision d = Rejected -> Decision.rejection_reason d <> None) ds.
Proof.
  revert seen. induction ds as [|d ds IH]; intros seen.
  { simpl. split; [|done]. intros _. split_and!; try apply Forall_nil_2. constructor. }
  rewrite check_decisions_cons, IH, !Forall_cons. simpl. rewrite NoDup_cons.
  unfold decision_ok. rewrite !list.Forall_forall. split.
  - intros ((Hk & Hs & Hr) & Hks & Hnd & Hss & Hrs). split_and!; auto.
    + intros (d' & Heq & Hin)%list_elem_of_fmap. apply (Hss d' Hin). rewrite Heq. by left.
    + intros d' Hin Hx. apply (Hss d' Hin). by right.
  - intros ((Hk & Hks) & (Hni & Hnd) & (Hs & Hss) & (Hr & Hrs)). split_and!; auto.
    intros d' Hin [Heq|Hx]%elem_of_cons; [|by eapply Hss].
    apply Hni. rewrite <- Heq. by apply list_elem_of_fmap_2.
Qed.

Lemma other_decision (ds : list DecisionEntry) d id r :
  ~ (d_proposal_id d = id /\ d_decision d = Rejected /\ Decision.rejection_reason d = Some r) ->
  (exists d', d' ∈ ds /\ d_proposal_id d' = id /\ d_decision d' = Rejected /\
    Decision.rejection_reason d' = Some r) <->
  (exists d', (d' ∈ ds \/ d' = d) /\ d_proposal_id d' = id /\ d_decision d' = Rejected /\
    Decision.rejection_reason d' = Some r).
Proof.
  intros Hd. split; [intros (d' & ? & H); eauto|].
  intros (d' & [Hin| ->] & H); [eauto|done].
Qed.

Lemma rejected_by_id_lookup ds id r :
  NoDup (map d_proposal_id ds) ->
  Decision.rejected_by_id ds !! id = Some r <->
  exists d, d ∈ ds /\ d_proposal_id d = id /\ d_decision d = Rejected /\ Decision.rejection_reason d = Some r.
Proof.
  unfold Decision.rejected_by_id. induction ds as [|d ds IH] using rev_ind; intros Hnd.
  { simpl. rewrite lookup_empty. split; [done|]. by intros (? & ?%not_elem_of_nil & _). }
  rewrite fold_left_app. simpl. rewrite map_app in Hnd. simpl in Hnd.
  apply NoDup_app in Hnd as (Hnd & Hni & _). specialize (IH Hnd).
  assert (forall d', d' ∈ ds -> d_proposal_id d' <> d_proposal_id d) as Hne.
  { intros d' Hin Heq. apply (Hni (d_proposal_id d')); [by apply list_elem_of_fmap_2|].
    rewrite Heq. by left. }
  setoid_rewrite elem_of_app. setoid_rewrite list_elem_of_singleton.
  case_bool_decide as Hd; [destruct (Decision.rejection_reason d) as [r'|] eqn:Hr|].
  - destruct (decide (d_proposal_id d = id)) as [Heq|Hid].
    + rewrite Heq, lookup_insert_eq. split; [intros [= <-]; exists d; by auto|].
      intros (d' & [Hin| ->] & Hx & _ & Hr'); [destruct (Hne _ Hin); congruence|congruence].
    + rewrite lookup_insert_ne, IH by done. apply other_decision. by intros [? _].
  - rewrite IH. apply other_decision. intros (_ & _ & ?). congruence.
  - rewrite IH. apply other_decision. by intros (_ & ? & _).
Qed.

Lemma partition_approved a m ps :
  (Decision.partition a m ps).1 = filter (fun p => proposal_id_of p ∈ a) ps.
Proof.
  induction ps as [|p ps IH]; simpl; [done|].
  destruct (Decision.partition a m ps) as [x y]. simpl in *. rewrite filter_cons, <- IH.
  case_bool_decide; case_decide; try done. by destruct (m !! _).
Qed.
Lemma partition_rejected a m ps :
  (Decision.partition a m ps).2 =
  omap (fun p => if bool_decide (proposal_id_of p ∈ a) then None
                 else mkRejectedProposal p <$> m !! proposal_id_of p) ps.
Proof.
  induction ps as [|p ps IH]; simpl; [done|].
  destruct (Decision.partition a m ps) as [x r]. simpl in IH |- *. subst r.
  case_bool_decide; simpl; [done|]. by destruct (m !! _).
Qed.

(** The decision [ds] holds about the proposal [p], if any. *)
Definition approved_by (ds : list DecisionEntry) (p : Proposal) : Prop :=
  exists d, d ∈ ds /\ d_proposal_id d = proposal_id_of p /\ d_decision d = Approved.
Definition rejected_by (ds : list DecisionEntry) (p : Proposal) (reason : string) : Prop :=
  exists d, d ∈ ds /\ d_proposal_id d = proposal_id_of p /\ d_decision d = Rejected /\
    Decision.rejection_reason d = Some reason.

Lemma approved_ids_elem ds p : proposal_id_of p ∈ Decision.approved_ids ds <-> approved_by ds p.
Proof.
  unfold Decision.approved_ids, approved_by. rewrite list_elem_of_fmap. split.
  - intros (d & Hid & [Hd Hin]%list_elem_of_filter). by exists d.
  - intros (d & Hin & Hid & Hd). exists d. split; [done|]. by apply list_elem_of_filter.
Qed.

(** The first decision that fails, and why. *)
Definition refuses (known seen : list string) (d : DecisionEntry) (e : DecisionError) : Prop :=
  (~ d_proposal_id d ∈ known /\ e = UnknownProposalId (d_proposal_id d)) \/
  (d_proposal_id d ∈ known /\ d_proposal_id d ∈ seen /\ e = DuplicateDecision (d_proposal_id d)) \/
  (d_proposal_id d ∈ known /\ ~ d_proposal_id d ∈ seen /\ d_decision d = Rejected /\
   Decision.rejection_reason d = None /\ e = MissingRejectionReason (d_proposal_id d)).

Lemma check_decisions_err known seen ds e :
  Decision.check_decisions known seen ds = Err e ->
  exists ds1 d ds2, ds = ds1 ++ d :: ds2 /\ refuses known (reverse (map d_proposal_id ds1) ++ seen) d e.
Proof.
  revert seen. induction ds as [|d ds IH]; intros seen; [done|]. simpl.
  destruct (decide (d_proposal_id d ∈ known)) as [Hk|Hk];
    [rewrite (bool_decide_true _ Hk)|rewrite (bool_decide_false _ Hk)]; simpl.
  2: { intros [= <-]. exists [], d, ds. split; [done|by left]. }
  destruct (decide (d_proposal_id d ∈ seen)) as [Hs|Hs];
    [rewrite (bool_decide_true _ Hs)|rewrite (bool_decide_false _ Hs)]; simpl.
  { intros [= <-]. exists [], d, ds. split; [done|right; by left]. }
  destruct (bool_decide (d_decision d = Rejected) && _) eqn:Hr.
  - apply andb_true_iff in Hr as [Hd%bool_decide_eq_true Hr%bool_decide_eq_true].
    intros [= <-]. exists [], d, ds. split; [done|right; right]. done.
  - intros (ds1 & x & ds2 & -> & Hx)%IH. exists (d :: ds1), x, ds2. split; [done|].
    simpl. by rewrite reverse_cons, <- app_assoc.
Qed.

(** * Properties *)

(** Decisions are applied all or not at all.  When every decision names a
    known proposal, once, and every rejection has a reason, the result holds in
    report order exactly the approved proposals and exactly the rejected ones with
    their trimmed reasons, none in both; otherwise the error names the first
    decision that breaks a rule, and which. *)
Theorem apply_decisions_partition report ds :
  match Decision.apply_decisions report ds with
  | Ok app =>
      pr_root (da_approved app) = pr_root report /\
      pr_proposals (da_approved app) `sublist_of` pr_proposals report /\
      map rp_proposal (da_rejected app) `sublist_of` pr_proposals report /\
      (forall p, p ∈ pr_proposals (da_approved app) <-> p ∈ pr_proposals report /\ approved_by ds p) /\
      (forall p r, mkRejectedProposal p r ∈ da_rejected app <-> p ∈ pr_proposals report /\ rejected_by ds p r) /\
      (forall p r, ~ (approved_by ds p /\ rejected_by ds p r))
  | Err e => exists ds1 d ds2, ds = ds1 ++ d :: ds2 /\
      refuses (map proposal_id_of (pr_proposals report)) (reverse (map d_proposal_id ds1)) d e
  end.
Proof.
  unfold Decision.apply_decisions.
  destruct (Decision.check_decisions _ [] ds) as [[]|e] eqn:Hc; simpl.
  2: { apply check_decisions_err in Hc as (ds1 & d & ds2 & -> & Hd). rewrite app_nil_r in Hd. eauto. }
  apply check_decisions_ok in Hc as (_ & Hnd & _ & _).
  pose proof (partition_approved (Decision.approved_ids ds) (Decision.rejected_by_id ds) (pr_proposals report)) as Ha.
  pose proof (partition_rejected (Decision.approved_ids ds) (Decision.rejected_by_id ds) (pr_proposals report)) as Hr.
  destruct (Decision.partition _ _ _) as [a rj]. simpl in *. subst a rj.
  assert (forall p r, ~ (approved_by ds p /\ rejected_by ds p r)) as Hdisj.
  { intros p r [(d & Hd & Hid & Hda) (d' & Hd' & Hid' & Hdr & _)].
    rewrite (NoDup_map_inj d_proposal_id ds d d') in Hda by (done || congruence). congruence. }
  split_and!; [done|apply sublist_filter| | | |done].
  - induction (pr_proposals report) as [|p ps IH]; simpl; [constructor|].
    case_bool_decide; simpl; [by constructor|]. destruct (Decision.rejected_by_id ds !! _); simpl; by constructor.
  - intros p. by rewrite list_elem_of_filter, approved_ids_elem, (and_comm (p ∈ _)).
  - intros p r. rewrite list_elem_of_omap. split.
    + intros (q & Hq & Hx). case_bool_decide as Hap; [done|].
      destruct (Decision.rejected_by_id ds !! proposal_id_of q) eqn:Hl; [|done]. injection Hx as -> ->.
      split; [done|]. by apply rejected_by_id_lookup in Hl.
    + intros [Hp Hrj]. exists p. split; [done|]. rewrite bool_decide_false.
      * apply (rejected_by_id_lookup ds) in Hrj; [|done]. by rewrite Hrj.
      * rewrite approved_ids_elem. intros Hap. by eapply Hdisj.
Qed.
