(* ===== verification/auto_approval.v ===== *)
(** [tools/file-engine-cli/src/auto_approval.rs]: the policy that approves ready
    proposals without asking. *)
From Stdlib Require Import ZArith Lia Ascii.
From stdpp Require Import strings pretty gmap functions option list.
From S2P Require Import prelude rust_str proposal_types decision.

Open Scope string_scope.
Open Scope list_scope.

Record AutoApprovalPolicy := mkAutoApprovalPolicy {
  enabled : bool;
  allowed_actions : list ProposalAction;
  max_files_per_run : Z;   (** [usize] *)
}.

Inductive AutoApprovalError :=
| Disabled
| EmptyAllowedActions
| MaxFilesPerRunZero
| TooManyReadyProposals (ready max : Z).
#[export] Instance AutoApprovalError_eq_dec : EqDecision AutoApprovalError.
Proof. solve_decision. Defined.

Module AutoApproval.
Definition validate (p : AutoApprovalPolicy) : result unit AutoApprovalError :=
  if negb (enabled p) then Err Disabled
  else if bool_decide (allowed_actions p = []) then Err EmptyAllowedActions
  else if (max_files_per_run p =? 0)%Z then Err MaxFilesPerRunZero
  else Ok tt.

Definition ready_allowed (report : ProposalReport) (policy : AutoApprovalPolicy) : list Proposal :=
  filter (fun p => p_status p = Ready /\ p_action p ∈ allowed_actions policy) (pr_proposals report).

Definition auto_approve_decisions (report : ProposalReport) (policy : AutoApprovalPolicy)
  : result (list DecisionEntry) AutoApprovalError :=
  let? _ := validate policy in
  let ready := ready_allowed report policy in
  let n := Z.of_nat (length ready) in
  if (max_files_per_run policy <? n)%Z then Err (TooManyReadyProposals n (max_files_per_run policy))
  else Ok (map (fun p => mkDecisionEntry (proposal_id_of p) Approved None) ready).

(** [impl Display for AutoApprovalError] *)
Definition fmt (e : AutoApprovalError) : string :=
  match e with
  | Disabled => "auto approval policy is disabled"
  | EmptyAllowedActions => "auto approval policy has no allowed actions"
  | MaxFilesPerRunZero => "auto approval max_files_per_run must be greater than zero"
  | TooManyReadyProposals ready max =>
      "auto approval would approve " +:+ fmt_int ready +:+ " proposals, exceeding limit " +:+ fmt_int max
  end.
End AutoApproval.

(** * Properties *)

(** What the policy asks for. *)
Definition policy_ok (policy : AutoApprovalPolicy) : Prop :=
  enabled policy = true /\ allowed_actions policy <> [] /\ max_files_per_run policy <> 0%Z.

Lemma validate_ok policy u : AutoApproval.validate policy = Ok u <-> policy_ok policy.
Proof.
  unfold AutoApproval.validate, policy_ok. destruct u.
  destruct (enabled policy); simpl; [|by split; [|intros [? _]]].
  case_bool_decide; [by split; [|intros (_ & ? & _)]|].
  destruct (Z.eqb_spec (max_files_per_run policy) 0); [by split; [|intros (_ & _ & ?)]|done].
Qed.

(** An automatic approval stays within its policy.  It succeeds exactly when
    the policy is enabled, allows some action, has a nonzero limit, and no more
    proposals than the limit are ready and allowed; it then only approves, once
    per such proposal, so never more than the limit. *)
Theorem auto_approve_bounded report policy ds :
  AutoApproval.auto_approve_decisions report policy = Ok ds <->
  policy_ok policy /\
  ds = map (fun p => mkDecisionEntry (proposal_id_of p) Approved None)
         (filter (fun p => p_status p = Ready /\ p_action p ∈ allowed_actions policy) (pr_proposals report)) /\
  (Z.of_nat (length ds) <= max_files_per_run policy)%Z.
Proof.
  unfold AutoApproval.auto_approve_decisions. fold (AutoApproval.ready_allowed report policy).
  destruct (AutoApproval.validate policy) as [u|e] eqn:Hv; simpl.
  - pose proof (proj1 (validate_ok _ _) Hv) as Hok.
    destruct (Z.ltb_spec (max_files_per_run policy) (Z.of_nat (length (AutoApproval.ready_allowed report policy)))).
    + split; [done|]. intros (_ & -> & Hle). rewrite length_map in Hle. lia.
    + split; [|by intros (_ & -> & _)]. intros [= <-]. split_and!; [done..|]. rewrite length_map. lia.
  - split; [done|]. intros (Hok & _). apply (validate_ok _ tt) in Hok. congruence.
Qed.

(** The decisions of an automatic approval are accepted, and approve exactly
    the ready proposals whose action the policy allows, when the report names each
    proposal once. *)
Theorem auto_approve_applies report policy ds :
  NoDup (map proposal_id_of (pr_proposals report)) ->
  AutoApproval.auto_approve_decisions report policy = Ok ds ->
  exists app, Decision.apply_decisions report ds = Ok app /\ da_rejected app = [] /\
    pr_proposals (da_approved app) =
      filter (fun p => p_status p = Ready /\ p_action p ∈ allowed_actions policy) (pr_proposals report).
Proof.
  intros Hnd H. unfold AutoApproval.auto_approve_decisions in H.
  destruct (AutoApproval.validate policy); [|done]. simpl in H. destruct (_ <? _)%Z; [done|].
  injection H as <-. unfold AutoApproval.ready_allowed. set (P := fun p => p_status p = Ready /\ _).
  set (ds := map (fun p => mkDecisionEntry (proposal_id_of p) Approved None) (filter P (pr_proposals report))).
  assert (map d_proposal_id ds = map proposal_id_of (filter P (pr_proposals report))) as Hids
    by (unfold ds; by rewrite map_map).
  assert (Decision.check_decisions (map proposal_id_of (pr_proposals report)) [] ds = Ok tt) as Hc.
  { apply check_decisions_ok. rewrite Hids. split_and!; try (apply list.Forall_forall; intros d Hd).
    - apply list_elem_of_fmap in Hd as (p & -> & [_ Hp]%list_elem_of_filter). simpl.
      by apply list_elem_of_fmap_2.
    - by apply NoDup_filter_map.
    - by apply not_elem_of_nil.
    - apply list_elem_of_fmap in Hd as (p & -> & _). done. }
  unfold Decision.apply_decisions. rewrite Hc. simpl.
  pose proof (partition_approved (Decision.approved_ids ds) (Decision.rejected_by_id ds) (pr_proposals report)) as Ha.
  pose proof (partition_rejected (Decision.approved_ids ds) (Decision.rejected_by_id ds) (pr_proposals report)) as Hr.
  destruct (Decision.partition _ _ _) as [ap rj]. simpl in *. subst ap rj.
  eexists. split_and!; [done| |]; simpl.
  - assert (Decision.rejected_by_id ds = ∅) as ->.
    { apply map_empty. intros id. destruct (Decision.rejected_by_id ds !! id) as [r|] eqn:Hl; [|done].
      apply rejected_by_id_lookup in Hl; [|rewrite Hids; by apply NoDup_filter_map].
      destruct Hl as (d & Hd & _ & Hrej & _). apply list_elem_of_fmap in Hd as (p & -> & _). done. }
    clearbody ds. clear. induction (pr_proposals report) as [|p ps IH]; simpl; [done|].
    rewrite lookup_empty. case_bool_decide; exact IH.
  - apply list_filter_iff_elem. intros p Hp. rewrite approved_ids_elem. unfold approved_by. split.
    + intros (d & Hd & Hid & _). apply list_elem_of_fmap in Hd as (q & -> & [HP Hq]%list_elem_of_filter).
      simpl in Hid. assert (p = q) as ->; [|done]. by eapply NoDup_map_inj.
    + intros HP. exists (mkDecisionEntry (proposal_id_of p) Approved None). split; [|done]. unfold ds. apply list_elem_of_fmap. exists p. split; [done|].
      by apply list_elem_of_filter.
Qed.

(** * Witness *)
Definition sample_ready (id : string) (a : ProposalAction) : Proposal :=
  mkProposal id a "a.txt" "docs/a.txt" None 5 None None "sample" Ready.
Definition sample_report : ProposalReport :=
  mkProposalReport "/home/root" [sample_ready "1" Move; sample_ready "2" Trash; sample_ready "3" Move].
Definition sample_policy : AutoApprovalPolicy := mkAutoApprovalPolicy true [Move] 2.

Lemma auto_approve_applies_witness :
  exists app, Decision.apply_decisions sample_report
      [mkDecisionEntry "1" Approved None; mkDecisionEntry "3" Approved None] = Ok app /\
    da_rejected app = [] /\ pr_proposals (da_approved app) = [sample_ready "1" Move; sample_ready "3" Move].
Proof.
  apply (auto_approve_applies sample_report sample_policy).
  - apply (bool_decide_unpack _). vm_compute. exact Logic.I.
  - vm_compute. reflexivity.
Defined.
