(* ===== verification/glob.v ===== *)
(** [tools/file-engine-cli/src/rules/glob.rs]: the case-insensitive wildcard
    match of the [name_matches] condition.

    The loop of the code is a step function on its four variables; [Glob.loop]
    runs it with fuel, and [Glob.glob_match] gives it [Glob.glob_fuel] steps, which
    [init_measure] shows to be enough. *)
From Stdlib Require Import ZArith Lia Ascii.
From stdpp Require Import strings pretty gmap functions option list.
From S2P Require Import prelude rust_str.

Open Scope string_scope.
Open Scope list_scope.

Module Glob.
(** The loop's variables. *)
Record state := mkState {
  p : nat;
  t : nat;
  star_pattern : option nat;
  star_text : nat;
}.

Definition at_ (l : list string) (i : nat) (c : string) : bool := bool_decide (l !! i = Some c).

(** One iteration of the first loop, or the [return false] it ends in. *)
Definition step (pattern text : list string) (s : state) : option state :=
  if (p s <? length pattern)%nat
     && (at_ pattern (p s) "?" || bool_decide (pattern !! p s = text !! t s))
  then Some (mkState (S (p s)) (S (t s)) (star_pattern s) (star_text s))
  else if (p s <? length pattern)%nat && at_ pattern (p s) "*"
  then Some (mkState (S (p s)) (t s) (Some (p s)) (t s))
  else match star_pattern s with
       | Some star => Some (mkState (S star) (S (star_text s)) (Some star) (S (star_text s)))
       | None => None
       end.

(** The first loop: the last [p], or [return false]. *)
Inductive outcome := Mismatch | Matched (p : nat) | OutOfFuel.
Fixpoint loop (fuel : nat) (pattern text : list string) (s : state) : outcome :=
  if (t s <? length text)%nat then
    match fuel with
    | O => OutOfFuel
    | S k => match step pattern text s with
             | Some s' => loop k pattern text s'
             | None => Mismatch
             end
    end
  else Matched (p s).

(** The second loop skips the trailing stars from [p]. *)
Definition rest_is_stars (pattern : list string) (p : nat) : bool :=
  forallb (fun c => bool_decide (c = "*")) (drop p pattern).

Definition glob_fuel (pattern text : list string) : nat :=
  (length text + 1) * (length pattern + 2).

Definition glob_match (pattern text : string) : bool :=
  let pattern := chars (to_ascii_lowercase pattern) in
  let text := chars (to_ascii_lowercase text) in
  match loop (glob_fuel pattern text) pattern text (mkState 0 0 None 0) with
  | Matched p => rest_is_stars pattern p
  | Mismatch | OutOfFuel => false
  end.
End Glob.

(** * The reference: what a wildcard pattern means *)

(** [*] matches any run of characters, [?] one character, any other itself. *)
Inductive glob_spec : list string -> list string -> Prop :=
| glob_nil : glob_spec [] []
| glob_star_end ps t : glob_spec ps t -> glob_spec ("*" :: ps) t
| glob_star_more ps c t : glob_spec ("*" :: ps) t -> glob_spec ("*" :: ps) (c :: t)
| glob_one ps c t : glob_spec ps t -> glob_spec ("?" :: ps) (c :: t)
| glob_char ps c t : c <> "*" -> glob_spec ps t -> glob_spec (c :: ps) (c :: t).

(** A pattern character that is no star matches a text character. *)
Definition lit_match (c d : string) : Prop := c <> "*" /\ (c = "?" \/ c = d).

Lemma glob_spec_lit c d ps t :
  c <> "*" -> glob_spec (c :: ps) (d :: t) <-> lit_match c d /\ glob_spec ps t.
Proof.
  intros Hc. unfold lit_match. split.
  - intros H. inversion H; subst; try done; split_and!; auto.
  - intros [[_ [->| ->]] H]; by constructor.
Qed.
Lemma glob_spec_lit_nil c ps : c <> "*" -> ~ glob_spec (c :: ps) [].
Proof. intros Hc H. by inversion H. Qed.

(** A star absorbs any prefix of the text. *)
Lemma glob_star_drop ps t1 t2 : glob_spec ("*" :: ps) t2 -> glob_spec ("*" :: ps) (t1 ++ t2).
Proof. intros H. induction t1 as [|c t1 IH]; simpl; [done|]. by constructor. Qed.
Lemma glob_star_inv ps t :
  glob_spec ("*" :: ps) t -> exists t1 t2, t = t1 ++ t2 /\ glob_spec ps t2.
Proof.
  intros H. remember ("*" :: ps) as q eqn:Hq. revert ps Hq.
  induction H as [|ps' t H _|ps' c t H IH|ps' c t H _|ps' c t Hc H _]; intros ps Hq; simplify_eq/=.
  - by exists [], t.
  - destruct (IH _ eq_refl) as (t1 & t2 & -> & Ht). by exists (c :: t1), t2.
Qed.

(** A star-free segment [w] matched literally. *)
Lemma glob_lits w u ps t :
  Forall2 lit_match w u -> glob_spec (w ++ ps) (u ++ t) <-> glob_spec ps t.
Proof.
  induction 1 as [|c d w u [Hc Hcd] Hwu IH]; simpl; [done|].
  rewrite glob_spec_lit by done. rewrite IH. unfold lit_match. tauto.
Qed.
Lemma glob_lits_inv w ps t :
  Forall (fun c => c <> "*") w -> glob_spec (w ++ ps) t ->
  exists u t', t = u ++ t' /\ Forall2 lit_match w u /\ glob_spec ps t'.
Proof.
  intros Hw. revert t. induction Hw as [|c w Hc Hw IH]; intros t H; simpl in *.
  { exists [], t. split_and!; [done|constructor|done]. }
  destruct t as [|d t]; [by apply glob_spec_lit_nil in H|].
  apply glob_spec_lit in H as [Hcd (u & t' & -> & Hu & Ht)%IH]; [|done].
  exists (d :: u), t'. by split_and!; [|constructor|].
Qed.
Lemma lit_match_no_star w u : Forall2 lit_match w u -> Forall (fun c => c <> "*") w.
Proof. induction 1 as [|c d w u [Hc _] Hwu IH]; constructor; done. Qed.

(** Having matched [w] at the first place it fits, a star may be closed: what
    follows a second star fits the text after that place. *)
Lemma glob_close_star w u ps t :
  Forall2 lit_match w u ->
  glob_spec ("*" :: w ++ "*" :: ps) (u ++ t) <-> glob_spec ("*" :: ps) t.
Proof.
  intros Hwu. split.
  - intros (t1 & t2 & Heq & H)%glob_star_inv.
    apply glob_lits_inv in H as (u' & t' & -> & Hwu' & H); [|by eapply lit_match_no_star].
    assert (t = drop (length u) (t1 ++ u') ++ t') as ->.
    { apply (f_equal (drop (length u))) in Heq. rewrite drop_app_length in Heq. subst t.
      rewrite app_assoc, drop_app_le; [done|]. rewrite length_app.
      apply Forall2_length in Hwu, Hwu'. lia. }
    by apply glob_star_drop.
  - intros H. constructor. by apply glob_lits.
Qed.

(** A failed attempt moves the star one character on. *)
Lemma glob_shift_star ps c t :
  ~ glob_spec ps (c :: t) -> glob_spec ("*" :: ps) (c :: t) <-> glob_spec ("*" :: ps) t.
Proof.
  intros Hno. split.
  - inversion 1; subst; done.
  - by constructor.
Qed.

Lemma glob_nil_stars ps : glob_spec ps [] <-> Forall (fun c => c = "*") ps.
Proof.
  induction ps as [|c ps IH]; [by split; constructor|]. rewrite Forall_cons, <- IH. split.
  - inversion 1; by subst.
  - intros [-> H]. by constructor.
Qed.

Lemma glob_star_exact w u ps :
  Forall2 lit_match w u -> glob_spec ("*" :: w ++ ps) u <-> glob_spec ps [].
Proof.
  intros Hwu. rewrite <- (glob_lits w u ps []) by done. rewrite app_nil_r. split; [|by constructor].
  intros (t1 & t2 & -> & H)%glob_star_inv.
  pose proof (glob_lits_inv _ _ _ (lit_match_no_star _ _ Hwu) H) as (u' & t' & -> & Hwu' & _).
  destruct t1 as [|c t1]; [done|]. apply Forall2_length in Hwu, Hwu'.
  simpl in Hwu. rewrite !length_app in Hwu. lia.
Qed.

(** * The loop decides the reference *)

Section loop.
Context (pattern text : list string) (no_star : Forall (fun c => c <> "*") text).
Import Glob.

Lemma drop_cons (l : list string) i c : l !! i = Some c -> drop i l = c :: drop (S i) l.
Proof. apply drop_S. Qed.

(** The segment [w] after the last star matched the text [u] after the place
    the star stops. *)
Definition inv (s : state) : Prop :=
  exists w u, Forall2 lit_match w u /\ (star_text s <= t s <= length text)%nat /\ (p s <= length pattern)%nat /\
  match star_pattern s with
  | None => pattern = w ++ drop (p s) pattern /\ text = u ++ drop (t s) text
  | Some sp => drop sp pattern = "*" :: w ++ drop (p s) pattern /\
      drop (star_text s) text = u ++ drop (t s) text /\
      (glob_spec pattern text <-> glob_spec (drop sp pattern) (drop (star_text s) text))
  end.

Lemma inv_lit s c d :
  pattern !! p s = Some c -> text !! t s = Some d -> lit_match c d -> inv s ->
  inv (mkState (S (p s)) (S (t s)) (star_pattern s) (star_text s)).
Proof.
  intros Hc Hd Hcd (w & u & Hwu & Ht & Hp & H).
  apply drop_cons in Hc as Hc'. apply drop_cons in Hd as Hd'.
  apply lookup_lt_Some in Hc, Hd. exists (w ++ [c]), (u ++ [d]). simpl.
  split; [by apply Forall2_app; [|constructor]|]. split; [lia|]. split; [lia|].
  rewrite Hc', Hd' in H. rewrite <- !app_assoc. done.
Qed.

Lemma inv_star s :
  pattern !! p s = Some "*" -> (t s < length text)%nat -> inv s ->
  inv (mkState (S (p s)) (t s) (Some (p s)) (t s)).
Proof.
  intros Hc Hlt (w & u & Hwu & Ht & Hp & H). apply drop_cons in Hc as Hc'.
  apply lookup_lt_Some in Hc. exists [], []. simpl.
  split; [constructor|]. split; [lia|]. split; [lia|]. split; [done|]. split; [done|].
  destruct (star_pattern s) as [sp|].
  - destruct H as (H1 & H2 & ->). rewrite H1, H2, Hc'. by apply glob_close_star.
  - destruct H as [H1 H2]. rewrite H1, H2 at 1. rewrite glob_lits by done. done.
Qed.

(** No character of the pattern applies: the rest does not match. *)
Lemma stuck s d :
  text !! t s = Some d -> pattern !! p s <> Some "*" ->
  (forall c, pattern !! p s = Some c -> ~ lit_match c d) ->
  ~ glob_spec (drop (p s) pattern) (drop (t s) text).
Proof.
  intros Hd Hstar Hno H. rewrite (drop_cons _ _ _ Hd) in H.
  destruct (pattern !! p s) as [c|] eqn:Hc.
  - rewrite (drop_cons _ _ _ Hc) in H. apply glob_spec_lit in H as [Hcd _]; [|congruence].
    by eapply Hno.
  - apply lookup_ge_None in Hc. rewrite drop_ge in H by done. inversion H.
Qed.

Lemma inv_restart s sp :
  star_pattern s = Some sp -> (t s < length text)%nat ->
  ~ glob_spec (drop (p s) pattern) (drop (t s) text) -> inv s ->
  inv (mkState (S sp) (S (star_text s)) (Some sp) (S (star_text s))).
Proof.
  intros Hsp Hlt Hno (w & u & Hwu & Ht & Hp & H). rewrite Hsp in H. destruct H as (H1 & H2 & H3).
  assert (sp < length pattern)%nat as Hlen.
  { apply (f_equal length) in H1. rewrite length_drop in H1. simpl in H1. lia. }
  destruct (lookup_lt_is_Some_2 text (star_text s)) as [d Hd]; [lia|].
  destruct (lookup_lt_is_Some_2 pattern sp Hlen) as [c Hc].
  rewrite (drop_cons _ _ _ Hc) in H1. injection H1 as -> Hw.
  exists [], []. simpl. split; [constructor|]. split; [lia|]. split; [lia|].
  rewrite (drop_cons _ _ _ Hc). split; [done|]. split; [done|].
  rewrite H3, (drop_cons _ _ _ Hc), (drop_cons _ _ _ Hd). apply glob_shift_star.
  rewrite <- (drop_cons _ _ _ Hd), Hw, H2. by rewrite glob_lits.
Qed.

Lemma step_spec s :
  inv s -> (t s < length text)%nat ->
  match step pattern text s with
  | Some s' => inv s'
  | None => ~ glob_spec pattern text
  end.
Proof.
  intros Hinv Hlt. destruct (lookup_lt_is_Some_2 text (t s) Hlt) as [d Hd].
  assert (d <> "*") as Hds by (by eapply (proj1 (list.Forall_forall _ _) no_star), list_elem_of_lookup_2).
  unfold step, at_. rewrite Hd.
  destruct (pattern !! p s) as [c|] eqn:Hc.
  - pose proof (lookup_lt_Some _ _ _ Hc) as Hp. apply Nat.ltb_lt in Hp. rewrite Hp. simpl.
    destruct (decide (c = "?" \/ c = d)) as [Hcd|Hcd].
    + rewrite (proj2 (orb_true_iff _ _)) by (rewrite !bool_decide_eq_true; destruct Hcd; [left|right]; congruence).
      eapply inv_lit; [done..| |done]. split; [|done]. destruct Hcd as [->| ->]; done.
    + rewrite (proj2 (orb_false_iff _ _)) by (rewrite !bool_decide_eq_false; split; intros ?; apply Hcd; [left|right]; congruence).
      destruct (decide (c = "*")) as [->|Hcs].
      * rewrite bool_decide_true by done. by apply inv_star.
      * rewrite bool_decide_false by congruence.
        assert (~ glob_spec (drop (p s) pattern) (drop (t s) text)) as Hno.
        { eapply stuck; [done|congruence|]. intros c' Hc' [_ Hx]. apply Hcd. assert (c' = c) as -> by congruence. done. }
        destruct (star_pattern s) as [sp|] eqn:Hsp; [by eapply inv_restart|].
        destruct Hinv as (w & u & Hwu & _ & _ & H). rewrite Hsp in H. destruct H as [H1 H2].
        rewrite H1, H2. by rewrite glob_lits.
  - assert ((p s <? length pattern)%nat = false) as -> by (apply Nat.ltb_ge; by apply lookup_ge_None).
    simpl. assert (~ glob_spec (drop (p s) pattern) (drop (t s) text)) as Hno.
    { eapply stuck; [done|congruence|]. intros c' Hc'. congruence. }
    destruct (star_pattern s) as [sp|] eqn:Hsp; [by eapply inv_restart|].
    destruct Hinv as (w & u & Hwu & _ & _ & H). rewrite Hsp in H. destruct H as [H1 H2].
    rewrite H1, H2. by rewrite glob_lits.
Qed.

Lemma loop_end s :
  inv s -> (length text <= t s)%nat ->
  glob_spec pattern text <-> rest_is_stars pattern (p s) = true.
Proof.
  intros (w & u & Hwu & Ht & Hp & H) Hge.
  assert (glob_spec pattern text <-> glob_spec (drop (p s) pattern) []) as ->.
  { destruct (star_pattern s) as [sp|]; rewrite (drop_ge text (t s)) in H by done; rewrite app_nil_r in H.
    - destruct H as (H1 & H2 & ->). rewrite H1, H2. by apply glob_star_exact.
    - destruct H as [H1 H2]. rewrite H1, H2 at 1. rewrite <- (app_nil_r u). by apply glob_lits. }
  rewrite glob_nil_stars. unfold rest_is_stars.
  rewrite forallb_forall, list.Forall_forall. split; intros Hs c Hc.
  - rewrite bool_decide_eq_true. apply Hs. by apply list_elem_of_In.
  - eapply bool_decide_eq_true_1, Hs. by apply list_elem_of_In.
Qed.

(** The steps left: each one advances the pattern or moves the star. *)
Definition measure (s : state) : nat :=
  (length text - star_text s) * (length pattern + 1) + (length pattern - p s).

Lemma step_measure s s' :
  inv s -> (t s < length text)%nat -> step pattern text s = Some s' ->
  (measure s' < measure s)%nat.
Proof.
  intros (w & u & _ & Ht & Hp & _) Hlt. unfold step, measure.
  destruct (Nat.ltb_spec (p s) (length pattern)) as [Hpl|Hpl]; simpl.
  - destruct (_ || _); [intros [= <-]; simpl; lia|].
    destruct (at_ pattern (p s) "*"); [intros [= <-]; simpl; nia|].
    destruct (star_pattern s); [|done]. intros [= <-]; simpl; nia.
  - destruct (star_pattern s); [|done]. intros [= <-]; simpl; nia.
Qed.

Lemma loop_spec fuel s :
  inv s -> (measure s <= fuel)%nat ->
  match loop fuel pattern text s with
  | Matched p => glob_spec pattern text <-> rest_is_stars pattern p = true
  | Mismatch => ~ glob_spec pattern text
  | OutOfFuel => False
  end.
Proof.
  revert s. induction fuel as [|k IH]; intros s Hinv Hm; simpl;
    destruct (Nat.ltb_spec (t s) (length text)) as [Hlt|Hge].
  - destruct Hinv as (w & u & _ & Ht & _). unfold measure in Hm.
    assert (0 < (length text - star_text s) * (length pattern + 1))%nat by nia. lia.
  - by apply loop_end.
  - pose proof (step_spec _ Hinv Hlt) as Hs.
    destruct (step pattern text s) as [s'|] eqn:Hst; [|done].
    apply IH; [done|]. pose proof (step_measure _ _ Hinv Hlt Hst). lia.
  - by apply loop_end.
Qed.

Lemma inv_init : inv (mkState 0 0 None 0).
Proof. exists [], []. simpl. split; [constructor|]. split; [lia|]. split; [lia|done]. Qed.
Lemma init_measure : (measure (mkState 0 0 None 0) <= glob_fuel pattern text)%nat.
Proof. unfold measure, glob_fuel. simpl. nia. Qed.
End loop.

Lemma chars_no_char a s k :
  contains_char a s = false -> Forall (fun c => c <> String a "") (chars_go k s).
Proof.
  revert k. induction s as [|b s IH]; intros k Hs; [constructor|]. simpl in Hs.
  apply orb_false_iff in Hs as [Hb Hs]. simpl. destruct k as [|k]; [|by apply IH].
  constructor; [|by apply IH]. destruct (utf8_width b); simpl; [done|]. intros [= -> _].
  by rewrite Ascii.eqb_refl in Hb.
Qed.
Lemma to_ascii_lowercase_no_star s :
  contains_char "*" s = false -> contains_char "*" (to_ascii_lowercase s) = false.
Proof.
  induction s as [|c s IH]; simpl; [done|]. intros [Hc Hs]%orb_false_iff.
  apply orb_false_iff. split; [|by apply IH].
  assert (implb (Ascii.eqb (to_ascii_lowercase_byte c) "*") (Ascii.eqb c "*") = true) as H.
  { revert c Hc. intros c _. revert c. apply byte_forall. by vm_compute. }
  rewrite Hc in H. destruct (Ascii.eqb (to_ascii_lowercase_byte c) "*"); [discriminate H|reflexivity].
Qed.

(** * Properties *)

(** on a name without [*], [glob_match] terminates within its fuel and
    decides the reference match of the lower-cased pattern and name. *)
Theorem glob_match_correct pattern text :
  contains_char "*" text = false ->
  Glob.glob_match pattern text = true <->
  glob_spec (chars (to_ascii_lowercase pattern)) (chars (to_ascii_lowercase text)).
Proof.
  intros Ht. unfold Glob.glob_match.
  set (ps := chars (to_ascii_lowercase pattern)). set (ts := chars (to_ascii_lowercase text)).
  assert (Forall (fun c => c <> "*") ts) as Hts.
  { by apply chars_no_char, to_ascii_lowercase_no_star. }
  pose proof (loop_spec ps ts Hts _ _ (inv_init ps ts) (init_measure ps ts)) as H.
  destruct (Glob.loop _ ps ts _) as [|n|]; [by split|by symmetry|done].
Qed.

Lemma glob_match_correct_witness :
  contains_char "*" "Report-7.PDF" = false /\ Glob.glob_match "report-?.*" "Report-7.PDF" = true /\
  (Glob.glob_match "report-?.*" "Report-7.PDF" = true <->
   glob_spec (chars (to_ascii_lowercase "report-?.*")) (chars (to_ascii_lowercase "Report-7.PDF"))).
Proof.
  split; [reflexivity|]. split; [vm_compute; reflexivity|]. apply glob_match_correct. reflexivity.
Defined.

(** On a name that holds [*] the code rejects names its pattern means: the
    star of the pattern is taken as a literal when the name has one there. *)
Theorem glob_match_star_in_name :
  Glob.glob_match "*a" "*ba" = false /\
  glob_spec (chars (to_ascii_lowercase "*a")) (chars (to_ascii_lowercase "*ba")).
Proof.
  split; [by vm_compute|]. change (glob_spec ["*"; "a"] ["*"; "b"; "a"]).
  do 2 apply glob_star_more. apply glob_star_end. apply glob_char; [done|]. apply glob_nil.
Qed.
