(* ===== verification/rule_definition.v ===== *)
(** [tools/file-engine-cli/src/rules/definition.rs]: the rule language: its data,
    the validation of a rule set, and the conversion of the server's contract
    form of a rule.

    [serde_json] is third-party: a JSON value is of some type and its parser is
    an argument of the definitions that use it. *)
From Stdlib Require Import ZArith Lia Ascii.
From stdpp Require Import strings pretty gmap functions option list.
From S2P Require Import prelude rust_str std_path.

Open Scope string_scope.
Open Scope list_scope.

Definition CURRENT_RULES_VERSION : Z := 1.

Inductive FileKind := File | Directory.
#[export] Instance FileKind_eq_dec : EqDecision FileKind.
Proof. solve_decision. Defined.

Record Condition := mkCondition {
  extension_in : option (list string);
  older_than_days : option Z;          (** ages: [u32] *)
  modified_age_days_gte : option Z;
  modified_age_days_gt : option Z;
  created_age_days_gte : option Z;
  created_age_days_gt : option Z;
  size_bytes_gte : option Z;           (** sizes: [u64] *)
  size_bytes_lte : option Z;
  relative_path_starts_with : option string;
  file_kind : option FileKind;
  name_matches : option string;
  name_contains : option string;
  name_starts_with : option string;
  name_ends_with : option string;
}.

Record Action := mkAction {
  move_to : option string;
  trash : bool;
  create_dir : option string;
}.

Record Rule := mkRule {
  r_id : string;
  r_priority : Z;    (** [i64] *)
  r_when : Condition;
  r_then : Action;
}.

Record RuleSet := mkRuleSet { version : Z; rules : list Rule }.

Inductive RuleError :=
| UnsupportedVersion (found supported : Z)
| EmptyRuleId
| DuplicateRuleId (id : string)
| EmptyCondition (id : string)
| EmptyExtensionList (id : string)
| InvalidExtension (rule extension : string)
| EmptyNamePattern (id : string)
| InvalidTarget (rule target message : string)
| InvalidCondition (rule condition message : string)
| ParseContract (message : string)
| RRead (path message : string)
| RParse (path message : string)
| RSerialize (message : string).

#[export] Instance Condition_eq_dec : EqDecision Condition.
Proof. solve_decision. Defined.
#[export] Instance Action_eq_dec : EqDecision Action.
Proof. solve_decision. Defined.
#[export] Instance Rule_eq_dec : EqDecision Rule.
Proof. solve_decision. Defined.
#[export] Instance RuleError_eq_dec : EqDecision RuleError.
Proof. solve_decision. Defined.

(** [Condition::default()] *)
Definition condition_default : Condition :=
  mkCondition None None None None None None None None None None None None None None.

(** Field updates. *)
Definition with_extension_in (c : Condition) (v : option (list string)) : Condition :=
  mkCondition v (older_than_days c) (modified_age_days_gte c) (modified_age_days_gt c) (created_age_days_gte c)
    (created_age_days_gt c) (size_bytes_gte c) (size_bytes_lte c) (relative_path_starts_with c)
    (file_kind c) (name_matches c) (name_contains c) (name_starts_with c) (name_ends_with c).
Definition with_older_than_days (c : Condition) (v : option (Z)) : Condition :=
  mkCondition (extension_in c) v (modified_age_days_gte c) (modified_age_days_gt c) (created_age_days_gte c)
    (created_age_days_gt c) (size_bytes_gte c) (size_bytes_lte c) (relative_path_starts_with c)
    (file_kind c) (name_matches c) (name_contains c) (name_starts_with c) (name_ends_with c).
Definition with_modified_age_days_gte (c : Condition) (v : option (Z)) : Condition :=
  mkCondition (extension_in c) (older_than_days c) v (modified_age_days_gt c) (created_age_days_gte c)
    (created_age_days_gt c) (size_bytes_gte c) (size_bytes_lte c) (relative_path_starts_with c)
    (file_kind c) (name_matches c) (name_contains c) (name_starts_with c) (name_ends_with c).
Definition with_modified_age_days_gt (c : Condition) (v : option (Z)) : Condition :=
  mkCondition (extension_in c) (older_than_days c) (modified_age_days_gte c) v (created_age_days_gte c)
    (created_age_days_gt c) (size_bytes_gte c) (size_bytes_lte c) (relative_path_starts_with c)
    (file_kind c) (name_matches c) (name_contains c) (name_starts_with c) (name_ends_with c).
Definition with_created_age_days_gte (c : Condition) (v : option (Z)) : Condition :=
  mkCondition (extension_in c) (older_than_days c) (modified_age_days_gte c) (modified_age_days_gt c) v
    (created_age_days_gt c) (size_bytes_gte c) (size_bytes_lte c) (relative_path_starts_with c)
    (file_kind c) (name_matches c) (name_contains c) (name_starts_with c) (name_ends_with c).
Definition with_created_age_days_gt (c : Condition) (v : option (Z)) : Condition :=
  mkCondition (extension_in c) (older_than_days c) (modified_age_days_gte c) (modified_age_days_gt c) (created_age_days_gte c)
    v (size_bytes_gte c) (size_bytes_lte c) (relative_path_starts_with c)
    (file_kind c) (name_matches c) (name_contains c) (name_starts_with c) (name_ends_with c).
Definition with_size_bytes_gte (c : Condition) (v : option (Z)) : Condition :=
  mkCondition (extension_in c) (older_than_days c) (modified_age_days_gte c) (modified_age_days_gt c) (created_age_days_gte c)
    (created_age_days_gt c) v (size_bytes_lte c) (relative_path_starts_with c)
    (file_kind c) (name_matches c) (name_contains c) (name_starts_with c) (name_ends_with c).
Definition with_size_bytes_lte (c : Condition) (v : option (Z)) : Condition :=
  mkCondition (extension_in c) (older_than_days c) (modified_age_days_gte c) (modified_age_days_gt c) (created_age_days_gte c)
    (created_age_days_gt c) (size_bytes_gte c) v (relative_path_starts_with c)
    (file_kind c) (name_matches c) (name_contains c) (name_starts_with c) (name_ends_with c).
Definition with_relative_path_starts_with (c : Condition) (v : option (string)) : Condition :=
  mkCondition (extension_in c) (older_than_days c) (modified_age_days_gte c) (modified_age_days_gt c) (created_age_days_gte c)
    (created_age_days_gt c) (size_bytes_gte c) (size_bytes_lte c) v
    (file_kind c) (name_matches c) (name_contains c) (name_starts_with c) (name_ends_with c).
Definition with_file_kind (c : Condition) (v : option (FileKind)) : Condition :=
  mkCondition (extension_in c) (older_than_days c) (modified_age_days_gte c) (modified_age_days_gt c) (created_age_days_gte c)
    (created_age_days_gt c) (size_bytes_gte c) (size_bytes_lte c) (relative_path_starts_with c)
    v (name_matches c) (name_contains c) (name_starts_with c) (name_ends_with c).
Definition with_name_contains (c : Condition) (v : option (string)) : Condition :=
  mkCondition (extension_in c) (older_than_days c) (modified_age_days_gte c) (modified_age_days_gt c) (created_age_days_gte c)
    (created_age_days_gt c) (size_bytes_gte c) (size_bytes_lte c) (relative_path_starts_with c)
    (file_kind c) (name_matches c) v (name_starts_with c) (name_ends_with c).
Definition with_name_starts_with (c : Condition) (v : option (string)) : Condition :=
  mkCondition (extension_in c) (older_than_days c) (modified_age_days_gte c) (modified_age_days_gt c) (created_age_days_gte c)
    (created_age_days_gt c) (size_bytes_gte c) (size_bytes_lte c) (relative_path_starts_with c)
    (file_kind c) (name_matches c) (name_contains c) v (name_ends_with c).
Definition with_name_ends_with (c : Condition) (v : option (string)) : Condition :=
  mkCondition (extension_in c) (older_than_days c) (modified_age_days_gte c) (modified_age_days_gt c) (created_age_days_gte c)
    (created_age_days_gt c) (size_bytes_gte c) (size_bytes_lte c) (relative_path_starts_with c)
    (file_kind c) (name_matches c) (name_contains c) (name_starts_with c) v.

(** The server's contract form of a rule. *)
Module Contract.
Inductive ContractMatchMode := All | Any.
Inductive ContractInOperator := In.
Inductive ContractGteOperator := OnlyGte.
Inductive ContractAgeOperator := Gte | Gt.
Inductive ContractSizeOperator := SizeGte | SizeLte.
Inductive ContractStartsWithOperator := OnlyStartsWith.
Inductive ContractEqOperator := Eq.
Inductive ContractNameOperator := Contains | StartsWith | EndsWith.

Inductive ContractCondition :=
| Extension (operator : ContractInOperator) (value : list string)
| AgeDays (operator : ContractGteOperator) (value : Z)
| ModifiedAgeDays (operator : ContractAgeOperator) (value : Z)
| CreatedAgeDays (operator : ContractAgeOperator) (value : Z)
| SizeBytes (operator : ContractSizeOperator) (value : Z)
| RelativePath (operator : ContractStartsWithOperator) (value : string)
| Kind (operator : ContractEqOperator) (value : FileKind)
| Name (operator : ContractNameOperator) (value : string).

Inductive ContractAction :=
| Move (destination_template : string)
| Quarantine
| Trash
| CreateDir (relative_path : string).

Record ContractRuleDefinition := mkContractRuleDefinition {
  match_mode : ContractMatchMode;
  conditions : list ContractCondition;
  action : ContractAction;
}.
End Contract.

(** [validate_relative_dir] *)
Fixpoint validate_components (l : list Component) : result unit string :=
  match l with
  | [] => Ok tt
  | RootDir :: _ => Err "destination must be relative to the managed root"
  | ParentDir :: _ => Err "destination cannot contain parent traversal"
  | CurDir :: _ => Err "destination cannot contain current-directory segments"
  | Normal _ :: l' => validate_components l'
  end.
Definition validate_relative_dir (target : string) : result unit string :=
  if is_empty (trim target) then Err "destination is empty"
  else if contains_char Ascii.zero target then Err "destination cannot contain NUL"
  else validate_components (components target).
Definition validate_relative_path_prefix (prefix : string) : result unit string :=
  map_err (fun message => "prefix " +:+ message) (validate_relative_dir prefix).

(** The serializer's [skip_serializing_if] predicate. *)
Definition is_false (value : bool) : bool := negb value.

Module Condition.
Definition is_empty (c : Condition) : bool :=
  bool_decide (extension_in c = None) && bool_decide (older_than_days c = None)
  && bool_decide (modified_age_days_gte c = None) && bool_decide (modified_age_days_gt c = None)
  && bool_decide (created_age_days_gte c = None) && bool_decide (created_age_days_gt c = None)
  && bool_decide (size_bytes_gte c = None) && bool_decide (size_bytes_lte c = None)
  && bool_decide (relative_path_starts_with c = None) && bool_decide (file_kind c = None)
  && bool_decide (name_matches c = None) && bool_decide (name_contains c = None)
  && bool_decide (name_starts_with c = None) && bool_decide (name_ends_with c = None).

(** The new value of the field [target]. *)
Definition set_once {T} (rule_id condition : string) (target : option T) (value : T)
  : result (option T) RuleError :=
  match target with
  | Some _ => Err (InvalidCondition rule_id condition "duplicate condition is ambiguous")
  | None => Ok (Some value)
  end.

Definition normalize_contract_extension (rule_id extension : string) : result string RuleError :=
  let trimmed := trim extension in
  let bare := default trimmed (strip_prefix trimmed ".") in
  if rust_str.is_empty bare || contains_char "." bare
  then Err (InvalidExtension rule_id extension)
  else Ok (to_ascii_lowercase bare).

Definition apply_contract_condition (c : Condition) (rule_id : string)
  (condition : Contract.ContractCondition) : result Condition RuleError :=
  match condition with
  | Contract.Extension _ value =>
      let? value := try_map (normalize_contract_extension rule_id) value in
      result_map (with_extension_in c) (set_once rule_id "extension_in" (extension_in c) value)
  | Contract.AgeDays _ value =>
      result_map (with_older_than_days c)
        (set_once rule_id "older_than_days" (older_than_days c) value)
  | Contract.ModifiedAgeDays Contract.Gte value =>
      result_map (with_modified_age_days_gte c)
        (set_once rule_id "modified_age_days_gte" (modified_age_days_gte c) value)
  | Contract.ModifiedAgeDays Contract.Gt value =>
      result_map (with_modified_age_days_gt c)
        (set_once rule_id "modified_age_days_gt" (modified_age_days_gt c) value)
  | Contract.CreatedAgeDays Contract.Gte value =>
      result_map (with_created_age_days_gte c)
        (set_once rule_id "created_age_days_gte" (created_age_days_gte c) value)
  | Contract.CreatedAgeDays Contract.Gt value =>
      result_map (with_created_age_days_gt c)
        (set_once rule_id "created_age_days_gt" (created_age_days_gt c) value)
  | Contract.SizeBytes Contract.SizeGte value =>
      result_map (with_size_bytes_gte c)
        (set_once rule_id "size_bytes_gte" (size_bytes_gte c) value)
  | Contract.SizeBytes Contract.SizeLte value =>
      result_map (with_size_bytes_lte c)
        (set_once rule_id "size_bytes_lte" (size_bytes_lte c) value)
  | Contract.RelativePath _ value =>
      result_map (with_relative_path_starts_with c)
        (set_once rule_id "relative_path_starts_with" (relative_path_starts_with c) value)
  | Contract.Kind _ value =>
      result_map (with_file_kind c) (set_once rule_id "file_kind" (file_kind c) value)
  | Contract.Name Contract.Contains value =>
      result_map (with_name_contains c)
        (set_once rule_id "name_contains" (name_contains c) value)
  | Contract.Name Contract.StartsWith value =>
      result_map (with_name_starts_with c)
        (set_once rule_id "name_starts_with" (name_starts_with c) value)
  | Contract.Name Contract.EndsWith value =>
      result_map (with_name_ends_with c)
        (set_once rule_id "name_ends_with" (name_ends_with c) value)
  end.
End Condition.

Module Rule.
(** The checks of the extension list, element by element. *)
Fixpoint check_extensions (rule : string) (l : list string) : result unit RuleError :=
  match l with
  | [] => Ok tt
  | e :: l' =>
      if is_empty (trim e) || contains_char "." e then Err (InvalidExtension rule e)
      else check_extensions rule l'
  end.

(** The loop over the labelled name conditions. *)
Fixpoint check_names (rule : string) (l : list (string * option string)) : result unit RuleError :=
  match l with
  | [] => Ok tt
  | (label, value) :: l' =>
      if match value with Some pattern => is_empty (trim pattern) | None => false end
      then Err (InvalidCondition rule label "name condition cannot be empty")
      else check_names rule l'
  end.

Definition check_target (rule : string) (target : option string) : result unit RuleError :=
  match target with
  | Some t => map_err (InvalidTarget rule t) (validate_relative_dir t)
  | None => Ok tt
  end.

Definition action_count (a : Action) : nat :=
  (if move_to a is Some _ then 1 else 0) + (if trash a then 1 else 0)
  + (if create_dir a is Some _ then 1 else 0).

Definition validate (r : Rule) : result unit RuleError :=
  if is_empty (trim (r_id r)) then Err EmptyRuleId
  else if Condition.is_empty (r_when r) then Err (EmptyCondition (r_id r))
  else
    let? _ := match extension_in (r_when r) with
              | Some extensions =>
                  if bool_decide (extensions = []) then Err (EmptyExtensionList (r_id r))
                  else check_extensions (r_id r) extensions
              | None => Ok tt
              end in
    let? _ := match name_matches (r_when r) with
              | Some pattern => if is_empty (trim pattern) then Err (EmptyNamePattern (r_id r)) else Ok tt
              | None => Ok tt
              end in
    let? _ := check_names (r_id r) [("name_contains", name_contains (r_when r));
                                  ("name_starts_with", name_starts_with (r_when r));
                                  ("name_ends_with", name_ends_with (r_when r))] in
    let? _ := match relative_path_starts_with (r_when r) with
              | Some prefix =>
                  map_err (InvalidCondition (r_id r) "relative_path_starts_with")
                    (validate_relative_path_prefix prefix)
              | None => Ok tt
              end in
    if negb (action_count (r_then r) =? 1)%nat
    then Err (InvalidTarget (r_id r) "action" "choose exactly one action")
    else let? _ := check_target (r_id r) (move_to (r_then r)) in
         check_target (r_id r) (create_dir (r_then r)).
End Rule.

Module RuleSet.
Fixpoint validate_rules (seen_ids : list string) (l : list Rule) : result unit RuleError :=
  match l with
  | [] => Ok tt
  | r :: l' =>
      let? _ := Rule.validate r in
      if bool_decide (r_id r ∈ seen_ids) then Err (DuplicateRuleId (r_id r))
      else validate_rules (r_id r :: seen_ids) l'
  end.
Definition validate (s : RuleSet) : result unit RuleError :=
  if negb (version s =? CURRENT_RULES_VERSION)%Z
  then Err (UnsupportedVersion (version s) CURRENT_RULES_VERSION)
  else validate_rules [] (rules s).
End RuleSet.

Module ContractRule.
Definition into_action (a : Contract.ContractAction) : Action :=
  match a with
  | Contract.Move destination_template => mkAction (Some destination_template) false None
  | Contract.Quarantine | Contract.Trash => mkAction None true None
  | Contract.CreateDir relative_path => mkAction None false (Some relative_path)
  end.

(** The rules of an [ANY] definition: one for each condition. *)
Fixpoint any_rules (rule_id : string) (priority : Z) (action : Action) (index : Z)
  (l : list Contract.ContractCondition) : result (list Rule) RuleError :=
  match l with
  | [] => Ok []
  | c :: l' =>
      let id := rule_id +:+ "-any-" +:+ fmt_int (index + 1) in
      let? condition := Condition.apply_contract_condition condition_default id c in
      let? rs := any_rules rule_id priority action (index + 1) l' in
      Ok (mkRule id priority condition action :: rs)
  end.

Definition into_rule_set (d : Contract.ContractRuleDefinition) (rule_id : string) (priority : Z)
  : result RuleSet RuleError :=
  let action := into_action (Contract.action d) in
  let? rules :=
    match Contract.match_mode d with
    | Contract.All =>
        let? condition := try_fold (fun c => Condition.apply_contract_condition c rule_id)
                            condition_default (Contract.conditions d) in
        Ok [mkRule rule_id priority condition action]
    | Contract.Any => any_rules rule_id priority action 0 (Contract.conditions d)
    end in
  let set := mkRuleSet CURRENT_RULES_VERSION rules in
  let? _ := RuleSet.validate set in
  Ok set.

Section parse.
(** A JSON value, and [serde_json::from_value] at this type. *)
Context {Value : Type}
  (from_value : Value -> result Contract.ContractRuleDefinition string).

Definition from_contract_definition (rule_id : string) (priority : Z) (definition : Value)
  : result RuleSet RuleError :=
  let? d := map_err ParseContract (from_value definition) in
  into_rule_set d rule_id priority.
End parse.
End ContractRule.

Definition quoted (s : string) : string := "'" +:+ s +:+ "'".
(** The double quote character. *)
Definition dquote : string := String (Ascii.ascii_of_nat 34) "".

Module RuleError.
(** [impl Display for RuleError] *)
Definition fmt (e : RuleError) : string :=
  match e with
  | UnsupportedVersion found supported =>
      "unsupported rules version " +:+ fmt_int found +:+ "; this build supports version "
      +:+ fmt_int supported
  | EmptyRuleId => "rule id cannot be empty"
  | DuplicateRuleId id => "duplicate rule id: " +:+ id
  | EmptyCondition id => "rule " +:+ quoted id +:+ " must have at least one condition"
  | EmptyExtensionList id => "rule " +:+ quoted id +:+ " has an empty extension_in list"
  | InvalidExtension rule extension =>
      "rule " +:+ quoted rule +:+ " has an invalid extension " +:+ quoted extension
      +:+ " (use bare extensions like " +:+ dquote +:+ "pdf" +:+ dquote +:+ ")"
  | EmptyNamePattern id => "rule " +:+ quoted id +:+ " has an empty name_matches pattern"
  | InvalidTarget rule target message =>
      "rule " +:+ quoted rule +:+ " has an invalid destination " +:+ quoted target +:+ ": " +:+ message
  | InvalidCondition rule condition message =>
      "rule " +:+ quoted rule +:+ " has an invalid condition " +:+ quoted condition +:+ ": " +:+ message
  | ParseContract message => "cannot parse rule contract definition: " +:+ message
  | RRead path message => "cannot read rules " +:+ path +:+ ": " +:+ message
  | RParse path message => "cannot parse rules " +:+ path +:+ ": " +:+ message
  | RSerialize message => "cannot serialize rules: " +:+ message
  end.
End RuleError.

(** * Facts *)

(** A destination the language accepts: relative, made of plain names. *)
Definition is_normal (c : Component) : Prop := match c with Normal _ => True | _ => False end.

Lemma validate_components_ok l : validate_components l = Ok tt <-> Forall is_normal l.
Proof.
  induction l as [|c l IH]; simpl; [by split; [constructor|]|]. rewrite Forall_cons, <- IH.
  by destruct c; simpl; split; [|intros [[] _]| |intros [[] _]| |intros [[] _]| |intros [_ ?]].
Qed.

Lemma trim_nil : trim "" = "".
Proof. done. Qed.

Lemma validate_relative_dir_ok t :
  validate_relative_dir t = Ok tt ->
  is_empty t = false /\ is_absolute t = false /\ Forall is_normal (components t).
Proof.
  unfold validate_relative_dir. destruct (is_empty (trim t)) eqn:Ht; [done|].
  destruct (contains_char _ _); [done|]. intros H%validate_components_ok. split_and!; [by destruct t| |done].
  destruct (is_absolute t) eqn:Ha; [|done]. exfalso. unfold components in H. rewrite Ha in H.
  destruct (split_slash t) eqn:Hs; [by apply split_on_nonempty in Hs|].
  by apply Forall_cons in H as [[] _].
Qed.

Lemma unit_result_ok {E} (r : result unit E) u : r = Ok u <-> r = Ok tt.
Proof. by destruct u. Qed.

(** What a rule that passes validation is. *)
Record valid_rule (r : Rule) : Prop := {
  valid_id : is_empty (trim (r_id r)) = false;
  valid_condition : Condition.is_empty (r_when r) = false;
  valid_action :
    (exists t, r_then r = mkAction (Some t) false None /\ validate_relative_dir t = Ok tt) \/
    r_then r = mkAction None true None \/
    (exists t, r_then r = mkAction None false (Some t) /\ validate_relative_dir t = Ok tt);
}.

Lemma check_target_ok rule t :
  Rule.check_target rule (Some t) = Ok tt <-> validate_relative_dir t = Ok tt.
Proof. unfold Rule.check_target. by destruct (validate_relative_dir t) as [[]|]. Qed.

Lemma rule_validate_ok r : Rule.validate r = Ok tt -> valid_rule r.
Proof.
  unfold Rule.validate. destruct (is_empty (trim (r_id r))) eqn:Hid; [done|].
  destruct (Condition.is_empty (r_when r)) eqn:Hc; [done|].
  repeat (match goal with |- (match ?x with Ok _ => _ | Err _ => _ end) = _ -> _ =>
            destruct x as [[]|] eqn:?; [|done] end).
  destruct (_ =? 1)%nat eqn:Hn; [|done]. apply Nat.eqb_eq in Hn. intros H. simpl in H.
  constructor; [done..|]. destruct (r_then r) as [[mt|] [] [cd|]]; unfold Rule.action_count in Hn; simpl in *; try lia;
    rewrite ?check_target_ok in *.
  - left. exists mt. split; [done|]. 
    destruct (map_err _ _) as [[]|] eqn:Hm; [|done].
    by destruct (validate_relative_dir mt) as [[]|].
  - by right; left.
  - right; right. exists cd. split; [done|]. by destruct (validate_relative_dir cd) as [[]|].
Qed.

Lemma rule_set_validate_ok s :
  RuleSet.validate s = Ok tt ->
  version s = CURRENT_RULES_VERSION /\ Forall valid_rule (rules s) /\ NoDup (map r_id (rules s)).
Proof.
  unfold RuleSet.validate. destruct (Z.eqb_spec (version s) CURRENT_RULES_VERSION) as [Hv|]; [|done].
  simpl. intros H. split; [done|].
  assert (forall l seen, RuleSet.validate_rules seen l = Ok tt ->
    Forall valid_rule l /\ NoDup (map r_id l) /\ Forall (fun r => ~ r_id r ∈ seen) l) as Hgo.
  { clear. induction l as [|r l IH]; intros seen; simpl.
    { intros _. split_and!; [apply Forall_nil_2|constructor|apply Forall_nil_2]. }
    destruct (Rule.validate r) as [[]|] eqn:Hr; [|done]. case_bool_decide as Hs; [done|].
    intros (Hl & Hnd & Hns)%IH. apply rule_validate_ok in Hr.
    rewrite list.Forall_forall in Hns. split_and!; [by constructor| |].
    - simpl. apply NoDup_cons. split; [|done].
      intros (r' & Heq & Hin)%list_elem_of_fmap. apply (Hns r' Hin). rewrite Heq. by left.
    - constructor; [done|]. rewrite list.Forall_forall. intros r' Hin Hx. apply (Hns r' Hin). by right. }
  by destruct (Hgo _ _ H) as (? & ? & _).
Qed.
