(* ===== verification/rule_engine.v ===== *)
(** [tools/file-engine-cli/src/rules/mod.rs]: the evaluation of rules against a
    scanned file, and the loading of a root's rule set. *)
From Stdlib Require Import ZArith Lia Ascii.
From stdpp Require Import strings pretty gmap functions option list.
From S2P Require Import prelude rust_str std_path std_fs fs_facts path_guard db journal_store.
From S2P Require Import proposal_types glob rule_definition.

Open Scope string_scope.
Open Scope list_scope.

Definition RULES_FILE : string := "rules.json".
Definition DAY_MS : Z := 24 * 60 * 60 * 1000.

Record RuleContext := mkRuleContext {
  existing_paths : gset string;
  now_unix_ms : Z;   (** [u128] *)
}.

Inductive AgeCompare := AgeGte | AgeGt.

Definition normalize_relative_path (path : string) : string :=
  to_ascii_lowercase (replace_char "\" "/" path).

Definition extension_of (path : string) : option string :=
  to_ascii_lowercase <$> path_extension path.

Definition age_days_matches (timestamp_unix_ms : option Z) (now_unix_ms days : Z)
  (compare : AgeCompare) : bool :=
  match timestamp_unix_ms with
  | None => false
  | Some timestamp =>
      let age := saturating_sub now_unix_ms timestamp in
      let threshold := (days * DAY_MS)%Z in
      match compare with
      | AgeGte => (threshold <=? age)%Z
      | AgeGt => (threshold <? age)%Z
      end
  end.

Definition relative_path_has_prefix (path prefix : string) : bool :=
  let path := trim_matches "/" (normalize_relative_path path) in
  let prefix := trim_matches "/" (normalize_relative_path prefix) in
  (path =? prefix)%string || starts_with path (prefix +:+ "/").

Definition file_name (path : string) : option string := path_file_name path.

Definition contains_ignore_case (value needle : string) : bool :=
  contains (to_ascii_lowercase value) (to_ascii_lowercase needle).
Definition starts_with_ignore_case (value prefix : string) : bool :=
  starts_with (to_ascii_lowercase value) (to_ascii_lowercase prefix).
Definition ends_with_ignore_case (value suffix : string) : bool :=
  ends_with (to_ascii_lowercase value) (to_ascii_lowercase suffix).

(** [if let Some(a) = o { if !f(a) { return false } }] *)
Definition if_set {A} (o : option A) (f : A -> bool) : bool :=
  match o with Some a => f a | None => true end.
(** [o.is_some_and(f)] *)
Definition is_some_and {A} (o : option A) (f : A -> bool) : bool :=
  match o with Some a => f a | None => false end.

Section matching.
Context (file : FileEntry) (context : RuleContext).

(** ** The checks of [rule_matches], one for each field of the condition *)
Definition extension_matches (extensions : list string) : bool :=
  is_some_and (extension_of (fe_path file)) (fun extension =>
    existsb (fun candidate => eq_ignore_ascii_case candidate extension) extensions).
Definition older_than_matches (days : Z) : bool :=
  match fe_modified_unix_ms file with
  | Some modified =>
      let threshold := (days * DAY_MS)%Z in
      negb (saturating_sub (now_unix_ms context) modified <? threshold)%Z
  | None => false
  end.
Definition modified_age_matches (compare : AgeCompare) (days : Z) : bool :=
  age_days_matches (fe_modified_unix_ms file) (now_unix_ms context) days compare.
Definition created_age_matches (compare : AgeCompare) (days : Z) : bool :=
  age_days_matches (fe_created_unix_ms file) (now_unix_ms context) days compare.
Definition size_gte_matches (min_size : Z) : bool := negb (fe_size_bytes file <? min_size)%Z.
Definition size_lte_matches (max_size : Z) : bool := negb (max_size <? fe_size_bytes file)%Z.
Definition prefix_matches (prefix : string) : bool := relative_path_has_prefix (fe_path file) prefix.
Definition kind_matches (kind : FileKind) : bool := bool_decide (kind = File).
Definition name_matches_pattern (pattern : string) : bool :=
  is_some_and (path_file_name (fe_path file)) (Glob.glob_match pattern).
Definition name_contains_matches (needle : string) : bool :=
  is_some_and (file_name (fe_path file)) (fun name => contains_ignore_case name needle).
Definition name_starts_matches (prefix : string) : bool :=
  is_some_and (file_name (fe_path file)) (fun name => starts_with_ignore_case name prefix).
Definition name_ends_matches (suffix : string) : bool :=
  is_some_and (file_name (fe_path file)) (fun name => ends_with_ignore_case name suffix).

Definition rule_matches (rule : Rule) : bool :=
  let condition := r_when rule in
  if_set (extension_in condition) extension_matches
  && if_set (older_than_days condition) older_than_matches
  && if_set (modified_age_days_gte condition) (modified_age_matches AgeGte)
  && if_set (modified_age_days_gt condition) (modified_age_matches AgeGt)
  && if_set (created_age_days_gte condition) (created_age_matches AgeGte)
  && if_set (created_age_days_gt condition) (created_age_matches AgeGt)
  && if_set (size_bytes_gte condition) size_gte_matches
  && if_set (size_bytes_lte condition) size_lte_matches
  && if_set (relative_path_starts_with condition) prefix_matches
  && if_set (file_kind condition) kind_matches
  && if_set (name_matches condition) name_matches_pattern
  && if_set (name_contains condition) name_contains_matches
  && if_set (name_starts_with condition) name_starts_matches
  && if_set (name_ends_with condition) name_ends_matches.

Definition reason_for (rule : Rule) : string :=
  if trash (r_then rule)
  then "rule " +:+ quoted (r_id rule) +:+ " moves this into recoverable trash"
  else
    let move_to := default "destination" (move_to (r_then rule)) in
    match extension_in (r_when rule), extension_of (fe_path file) with
    | Some _, Some extension => "." +:+ extension +:+ " files belong in " +:+ move_to +:+ "/"
    | _, _ => "rule " +:+ quoted (r_id rule) +:+ " moves this into " +:+ move_to +:+ "/"
    end.

(** ** The proposals of the three actions *)
Definition target_status (normalized_target : string) : ProposalStatus :=
  if bool_decide (normalized_target ∈ existing_paths context) then DestinationExists else Ready.

Definition move_proposal_from_rule (rule : Rule) (move_to : string) : option Proposal :=
  match path_file_name (fe_path file) with
  | None => None
  | Some file_name =>
      let target := move_to +:+ "/" +:+ file_name in
      let normalized_target := normalize_relative_path target in
      if (normalize_relative_path (fe_path file) =? normalized_target)%string then None
      else Some (mkProposal (ProposalId.proposal_id Move (fe_path file) target)
             Move (fe_path file) target None (fe_size_bytes file) (fe_modified_unix_ms file)
             (fe_file_id file) (reason_for rule) (target_status normalized_target))
  end.

Definition trash_proposal_from_rule (rule : Rule) : option Proposal :=
  Some (mkProposal (ProposalId.proposal_id Trash (fe_path file) TRASH_DIR)
    Trash (fe_path file) TRASH_DIR None (fe_size_bytes file) (fe_modified_unix_ms file)
    (fe_file_id file) (reason_for rule) Ready).

Definition create_dir_proposal_from_rule (rule : Rule) (target : string) : option Proposal :=
  Some (mkProposal (ProposalId.proposal_id CreateDir "" target)
    CreateDir "" target None 0 None None
    ("rule " +:+ quoted (r_id rule) +:+ " creates this managed-root directory")
    (target_status (normalize_relative_path target))).

Definition proposal_from_rule (rule : Rule) : option Proposal :=
  if negb (rule_matches rule) then None
  else match move_to (r_then rule), trash (r_then rule), create_dir (r_then rule) with
       | Some move_to, false, None => move_proposal_from_rule rule move_to
       | None, true, None => trash_proposal_from_rule rule
       | None, false, Some create_dir => create_dir_proposal_from_rule rule create_dir
       | _, _, _ => None
       end.

(** Priority first, then the identifier. *)
Definition rule_cmp (left right : Rule) : comparison :=
  then_with (r_priority left ?= r_priority right)%Z (String.compare (r_id left) (r_id right)).

(** [RuleSet::propose] *)
Definition propose (set : RuleSet) : option Proposal :=
  find_map proposal_from_rule (sort_by rule_cmp (rules set)).
End matching.

(** * Rule sets of a root *)

Definition default_rule (id : string) (extensions : list string) (target : string) : Rule :=
  mkRule id 10 (with_extension_in condition_default (Some extensions)) (mkAction (Some target) false None).
Definition default_rule_set : RuleSet :=
  mkRuleSet CURRENT_RULES_VERSION
    [default_rule "documents" ["md"; "pdf"; "doc"; "docx"; "txt"] "documents";
     default_rule "images" ["png"; "jpg"; "jpeg"; "gif"; "webp"] "images";
     default_rule "archives" ["zip"; "tar"; "gz"; "7z"] "archives"].

Section load.
(** [serde_json]: [from_str::<RuleSet>], and [from_value] at the two types a
    draft may have. *)
Context (from_str : string -> result RuleSet string).

Definition load_rule_set_for_root (f : tree) (root : string) : result RuleSet RuleError :=
  let path := path_join (path_join root STATE_DIR) RULES_FILE in
  if negb (path_exists f path) then Ok default_rule_set
  else
    let? content := map_err (fun e => RRead path (io_error_str e)) (read_to_string f path) in
    let content := trim_start_bom content in
    let? set := map_err (RParse path) (from_str content) in
    let? _ := RuleSet.validate set in
    Ok set.

Context {Value : Type} (rule_set_from_value : Value -> result RuleSet string)
  (contract_from_value : Value -> result Contract.ContractRuleDefinition string).

Definition rule_set_from_draft_value (value : Value) : result RuleSet RuleError :=
  match rule_set_from_value value with
  | Ok set => let? _ := RuleSet.validate set in Ok set
  | Err internal_error =>
      map_err (fun contract_error =>
        ParseContract ("internal RuleSet parse failed: " +:+ internal_error
          +:+ "; contract RuleDefinition parse failed: " +:+ RuleError.fmt contract_error))
        (ContractRule.from_contract_definition contract_from_value "draft-rule" 0 value)
  end.
End load.

(** * Facts *)

Lemma rule_cmp_total : TotalCmp rule_cmp.
Proof.
  apply (lex_total (fun l r => (r_priority l ?= r_priority r)%Z) (fun l r => String.compare (r_id l) (r_id r)));
    apply _.
Qed.
#[export] Existing Instance rule_cmp_total.

Lemma rule_cmp_eq r r' : rule_cmp r r' = Eq -> r_id r = r_id r'.
Proof.
  unfold rule_cmp, then_with. destruct (_ ?= _)%Z; [|done..]. apply String.compare_eq_iff.
Qed.

(** The proposal of a rule, by its action. *)
Lemma proposal_from_rule_some file ctx r p :
  proposal_from_rule file ctx r = Some p ->
  rule_matches file ctx r = true /\
  ((exists mt name, r_then r = mkAction (Some mt) false None /\ path_file_name (fe_path file) = Some name /\
      p_action p = Move /\ p_from p = fe_path file /\ p_to p = mt +:+ "/" +:+ name) \/
   (r_then r = mkAction None true None /\ p_action p = Trash /\ p_from p = fe_path file /\ p_to p = TRASH_DIR) \/
   (exists cd, r_then r = mkAction None false (Some cd) /\ p_action p = CreateDir /\ p_from p = "" /\
      p_to p = cd)).
Proof.
  unfold proposal_from_rule. destruct (rule_matches file ctx r); [|done]. simpl.
  intros H. split; [done|]. destruct (r_then r) as [[mt|] [] [cd|]]; simpl in H; try done.
  - unfold move_proposal_from_rule in H. destruct (path_file_name _) as [name|] eqn:Hn; [|done].
    destruct (_ =? _)%string; [done|]. injection H as <-. left. by exists mt, name.
  - injection H as <-. by right; left.
  - injection H as <-. right; right. by exists cd.
Qed.

(** ** Contract conditions *)

(** What a condition of the contract says about a file. *)
Definition contract_holds (file : FileEntry) (context : RuleContext) (c : Contract.ContractCondition) : bool :=
  match c with
  | Contract.Extension _ value =>
      is_some_and (extension_of (fe_path file)) (fun extension =>
        existsb (fun v => eq_ignore_ascii_case (default (trim v) (strip_prefix (trim v) ".")) extension) value)
  | Contract.AgeDays _ days => older_than_matches file context days
  | Contract.ModifiedAgeDays Contract.Gte days => modified_age_matches file context AgeGte days
  | Contract.ModifiedAgeDays Contract.Gt days => modified_age_matches file context AgeGt days
  | Contract.CreatedAgeDays Contract.Gte days => created_age_matches file context AgeGte days
  | Contract.CreatedAgeDays Contract.Gt days => created_age_matches file context AgeGt days
  | Contract.SizeBytes Contract.SizeGte size => size_gte_matches file size
  | Contract.SizeBytes Contract.SizeLte size => size_lte_matches file size
  | Contract.RelativePath _ prefix => prefix_matches file prefix
  | Contract.Kind _ kind => kind_matches kind
  | Contract.Name Contract.Contains needle => name_contains_matches file needle
  | Contract.Name Contract.StartsWith prefix => name_starts_matches file prefix
  | Contract.Name Contract.EndsWith suffix => name_ends_matches file suffix
  end.

Lemma normalize_extensions_match rid value vs extension :
  try_map (Condition.normalize_contract_extension rid) value = Ok vs ->
  existsb (fun v => eq_ignore_ascii_case v extension) vs =
  existsb (fun v => eq_ignore_ascii_case (default (trim v) (strip_prefix (trim v) ".")) extension) value.
Proof.
  intros H%try_map_ok. induction H as [|v v' value vs Hv _ IH]; [done|]. simpl. rewrite IH. f_equal.
  unfold Condition.normalize_contract_extension in Hv. destruct (_ || _); [done|]. injection Hv as <-.
  unfold eq_ignore_ascii_case. by rewrite to_ascii_lowercase_idemp.
Qed.

Ltac andb_shuffle x := destruct x; rewrite ?andb_true_r, ?andb_false_r, ?andb_false_l; reflexivity.
Ltac condition_simpl :=
  cbn [r_when extension_in older_than_days modified_age_days_gte modified_age_days_gt
    created_age_days_gte created_age_days_gt size_bytes_gte size_bytes_lte relative_path_starts_with
    file_kind name_matches name_contains name_starts_with name_ends_with if_set with_extension_in
    with_older_than_days with_modified_age_days_gte with_modified_age_days_gt
    with_created_age_days_gte with_created_age_days_gt with_size_bytes_gte with_size_bytes_lte
    with_relative_path_starts_with with_file_kind with_name_contains with_name_starts_with
    with_name_ends_with].

(** Adding a condition of the contract adds its meaning. *)
Lemma apply_contract_condition_matches rid c cc c' i pr a file ctx :
  Condition.apply_contract_condition c rid cc = Ok c' ->
  rule_matches file ctx (mkRule i pr c' a) =
  rule_matches file ctx (mkRule i pr c a) && contract_holds file ctx cc.
Proof.
  unfold rule_matches, Condition.apply_contract_condition, Condition.set_once.
  intros H; destruct cc as [o v|o v|[] v|[] v|[] v|o v|o v|[] v].
  { destruct (try_map _ _) as [vs|] eqn:Hvs; [|discriminate H].
    destruct (extension_in c) eqn:Ht; [discriminate H|]. injection H as <-. condition_simpl.
    assert (extension_matches file vs = contract_holds file ctx (Contract.Extension o v)) as ->.
    { unfold extension_matches, contract_holds. destruct (extension_of _); [|done]. simpl.
      by eapply normalize_extensions_match. }
    rewrite Ht. cbn [if_set]. andb_shuffle (contract_holds file ctx (Contract.Extension o v)). }
  all: match type of H with result_map _ (match ?t with _ => _ end) = _ => destruct t eqn:Ht end;
    [discriminate H|]; injection H as <-; unfold contract_holds; condition_simpl;
    rewrite Ht; cbn [if_set]; match goal with |- _ = _ && ?x => andb_shuffle x end.
Qed.

Lemma condition_default_matches i pr a file ctx :
  rule_matches file ctx (mkRule i pr condition_default a) = true.
Proof. done. Qed.

Lemma all_conditions_match rid cs c c' i pr a file ctx :
  try_fold (fun c => Condition.apply_contract_condition c rid) c cs = Ok c' ->
  rule_matches file ctx (mkRule i pr c' a) =
  rule_matches file ctx (mkRule i pr c a) && forallb (contract_holds file ctx) cs.
Proof.
  revert c. induction cs as [|cc cs IH]; intros c; simpl.
  - intros [= ->]. by rewrite andb_true_r.
  - destruct (Condition.apply_contract_condition c rid cc) as [c1|] eqn:Hc; [|done]. intros H%IH.
    rewrite H, (apply_contract_condition_matches _ _ _ _ i pr a file ctx Hc). by rewrite andb_assoc.
Qed.

Lemma any_rules_match rid pr a cs n rs file ctx :
  ContractRule.any_rules rid pr a n cs = Ok rs ->
  existsb (rule_matches file ctx) rs = existsb (contract_holds file ctx) cs /\
  Forall (fun r => r_priority r = pr /\ r_then r = a) rs /\ length rs = length cs.
Proof.
  revert n rs. induction cs as [|cc cs IH]; intros n rs; simpl.
  - intros [= <-]. by split_and!; [|apply Forall_nil_2|].
  - destruct (Condition.apply_contract_condition _ _ cc) as [c1|] eqn:Hc; [|done].
    destruct (ContractRule.any_rules _ _ _ _ cs) as [rs'|] eqn:Hrs; [|done]. intros [= <-].
    destruct (IH _ _ Hrs) as (H1 & H2 & H3). split_and!; [|by constructor|by simpl; rewrite H3].
    simpl. rewrite H1. f_equal. rewrite (apply_contract_condition_matches _ _ _ _ _ _ _ file ctx Hc).
    by rewrite condition_default_matches.
Qed.

Lemma is_normal_safe l : Forall is_normal l -> Forall safe_component l.
Proof. intros H. eapply Forall_impl; [exact H|]. by intros []. Qed.

Lemma file_name_seg p name : path_file_name p = Some name -> seg_ok name.
Proof.
  unfold path_file_name. destruct (reverse (components p)) as [|[| | |s] l] eqn:Hrev; try done. intros [= ->].
  pose proof (components_comp_ok p) as Hok. rewrite list.Forall_forall in Hok.
  apply (Hok (Normal name)). rewrite <- elem_of_reverse, Hrev. by left.
Qed.

(** The target of a validated move: its directory's components and the name. *)
Lemma move_target_components mt name :
  validate_relative_dir mt = Ok tt -> seg_ok name ->
  components (mt +:+ "/" +:+ name) = components mt ++ [Normal name].
Proof.
  intros (He & Ha & _)%validate_relative_dir_ok Hn. rewrite components_relative_app by done. f_equal.
  rewrite split_slash_seg by apply Hn. apply (inner_components_ok [name]). by apply list.Forall_singleton.
Qed.

(** The target of a valid rule's proposal passes the path guard's check. *)
Lemma proposal_target_safe file ctx r p :
  valid_rule r -> proposal_from_rule file ctx r = Some p ->
  PathGuard.reject_unsafe_components (p_to p) = Ok tt.
Proof.
  intros Hv Hp. destruct (valid_action _ Hv) as [(t & Ha & Ht)|[Ha|(t & Ha & Ht)]];
    apply proposal_from_rule_some in Hp as [_ [(mt & name & Ha' & Hn & _ & _ & ->)|[(Ha' & _ & _ & ->)|(cd & Ha' & _ & _ & ->)]]];
    rewrite Ha in Ha'; simplify_eq; [| by vm_compute|].
  - apply reject_unsafe_components_ok. rewrite move_target_components by (done || by eapply file_name_seg).
    apply Forall_app. split; [|by apply list.Forall_singleton].
    apply is_normal_safe. by apply validate_relative_dir_ok in Ht as (_ & _ & ?).
  - apply reject_unsafe_components_ok, is_normal_safe. by apply validate_relative_dir_ok in Ht as (_ & _ & ?).
Qed.

(** * Properties *)

(** The proposal for a file comes from a rule that no rule with a smaller
    (priority, identifier) key precedes among those that yield a proposal; there
    is none exactly when no rule yields one. *)
Theorem propose_first_match file ctx set :
  match propose file ctx set with
  | Some p => exists r, r ∈ rules set /\ proposal_from_rule file ctx r = Some p /\
      forall r', r' ∈ rules set -> rule_cmp r' r = Lt -> proposal_from_rule file ctx r' = None
  | None => Forall (fun r => proposal_from_rule file ctx r = None) (rules set)
  end.
Proof.
  unfold propose. destruct (find_map _ _) as [p|] eqn:Hp; [exact (find_map_sorted rule_cmp _ _ _ Hp)|].
  apply find_map_none in Hp. by rewrite sort_by_perm in Hp.
Qed.

(** The order in which a validated set lists its rules does not matter. *)
Theorem propose_rule_order file ctx s l :
  RuleSet.validate s = Ok tt -> Permutation (rules s) l ->
  propose file ctx (mkRuleSet (version s) l) = propose file ctx s.
Proof.
  intros (_ & _ & Hnd)%rule_set_validate_ok Hl. unfold propose. simpl.
  rewrite (sort_by_unique rule_cmp (rules s) l); [done| |done].
  intros x y Hx Hy Hxy. eapply NoDup_map_inj; [done..|]. by apply rule_cmp_eq.
Qed.

Definition sample_file : FileEntry := mkFileEntry "a/b.PDF" 3 (Some 0%Z) None None.
Definition sample_context : RuleContext := mkRuleContext ∅ 86400000.

Lemma propose_rule_order_witness :
  RuleSet.validate default_rule_set = Ok tt /\
  propose sample_file sample_context (mkRuleSet 1 (reverse (rules default_rule_set))) =
  propose sample_file sample_context default_rule_set /\
  p_to <$> propose sample_file sample_context default_rule_set = Some "documents/b.PDF".
Proof.
  split; [by vm_compute|]. split; [|by vm_compute].
  apply (propose_rule_order sample_file sample_context default_rule_set); [by vm_compute|].
  symmetry. apply reverse_Permutation.
Defined.

(** A validated rule set only proposes targets the path guard accepts:
    relative, without parent traversal. *)
Theorem propose_target_inside file ctx s p :
  RuleSet.validate s = Ok tt -> propose file ctx s = Some p ->
  PathGuard.reject_unsafe_components (p_to p) = Ok tt.
Proof.
  intros (_ & Hv & _)%rule_set_validate_ok (r & Hr & Hp & _)%(find_map_sorted rule_cmp).
  eapply proposal_target_safe; [|exact Hp]. rewrite list.Forall_forall in Hv. by apply Hv.
Qed.

Lemma propose_target_inside_witness :
  exists p, propose sample_file sample_context default_rule_set = Some p /\
    PathGuard.reject_unsafe_components (p_to p) = Ok tt.
Proof.
  eexists. split; [vm_compute; reflexivity|].
  apply (propose_target_inside sample_file sample_context default_rule_set); by vm_compute.
Defined.

(** a contract rule keeps its meaning: some rule of the converted set
    matches a file exactly when all (or any) of its conditions hold, and every
    rule carries its action. *)
Theorem contract_rule_meaning d rid pr set file ctx :
  ContractRule.into_rule_set d rid pr = Ok set ->
  existsb (rule_matches file ctx) (rules set) =
    match Contract.match_mode d with
    | Contract.All => forallb (contract_holds file ctx) (Contract.conditions d)
    | Contract.Any => existsb (contract_holds file ctx) (Contract.conditions d)
    end /\
  Forall (fun r => r_then r = ContractRule.into_action (Contract.action d)) (rules set).
Proof.
  unfold ContractRule.into_rule_set. destruct (Contract.match_mode d).
  - destruct (try_fold _ _ _) as [c|] eqn:Hc; [|done].
    destruct (RuleSet.validate _) as [[]|]; [|done]. intros [= <-]. simpl.
    rewrite (all_conditions_match _ _ _ _ _ _ _ file ctx Hc), condition_default_matches, orb_false_r.
    split; [done|]. by apply list.Forall_singleton.
  - destruct (ContractRule.any_rules _ _ _ _ _) as [rs|] eqn:Hrs; [|done].
    destruct (RuleSet.validate _) as [[]|]; [|done]. intros [= <-]. simpl.
    destruct (any_rules_match _ _ _ _ _ _ file ctx Hrs) as (H1 & H2 & _). split; [done|].
    eapply Forall_impl; [exact H2|]. by intros ? [_ ?].
Qed.

Definition sample_contract : Contract.ContractRuleDefinition :=
  Contract.mkContractRuleDefinition Contract.Any
    [Contract.Extension Contract.In [".PDF"]; Contract.SizeBytes Contract.SizeGte 10] Contract.Trash.

Lemma contract_rule_meaning_witness :
  exists set, ContractRule.into_rule_set sample_contract "r" 5 = Ok set /\
    existsb (rule_matches sample_file sample_context) (rules set) = true.
Proof.
  eexists. split; [vm_compute; reflexivity|].
  etrans; [apply (contract_rule_meaning sample_contract "r" 5); vm_compute; reflexivity|].
  by vm_compute.
Defined.
