(* ===== verification/analyzer.v ===== *)
(** The scan of a managed root: the identity of a file, the entries that are not followed, and the scan itself. *)
From Stdlib Require Import ZArith Lia Ascii Sorted.
From stdpp Require Import strings pretty gmap functions option list.
From S2P Require Import prelude rust_str std_path std_fs fs_facts path_guard db journal_store proposal_types.

Open Scope string_scope.
Open Scope list_scope.


(** * [tools/file-engine-cli/src/file_identity.rs] and [fs_safety.rs], Unix: the
    identity of a file and the entries the engine must not follow. *)

(** [MetadataExt::dev]: the tree of the model is one file system. *)
Definition fs_device : Z := 2049.

Definition file_id_of_inode (i : inode) : string :=
  "unix:d" +:+ fmt_hex16 fs_device +:+ ":i" +:+ fmt_hex16 (i_ino i).

Definition file_id_for_path (f : tree) (path : string) : option string :=
  match metadata f path with
  | Ok i => Some (file_id_of_inode i)
  | Err _ => None
  end.

(** Unix has no reparse points. *)
Definition is_windows_reparse_point (metadata : inode) : bool := false.
Definition is_link_or_reparse_point (metadata : inode) : bool :=
  is_link_inode metadata || is_windows_reparse_point metadata.

(** [modified_unix_ms] and [created_unix_ms] of the analyzer and the precheck. *)
Definition modified_unix_ms (metadata : inode) : option Z := ms_since_epoch (i_mtime_ns metadata).
Definition created_unix_ms (metadata : inode) : option Z := i_btime_ns metadata ≫= ms_since_epoch.

(** * [tools/file-engine-cli/src/analyzer.rs]: the scan of a managed root.

    The recursion over directories has fuel: the number of entries of the tree,
    more than the depth of any directory, as [analyze_root_report] shows. *)

Inductive AnalyzeError :=
| AGuard (e : PathGuardError)
| AReadDir (path message : string)
| AMetadata (path message : string)
| AEscapedEntry (path : string)
| ASerialize (message : string).

(** The vectors the scan fills, most recent last. *)
Record Scan := mkScan {
  files : list FileEntry;
  directories : list string;
  skipped_entries : list SkippedEntry;
}.
Definition push_file (s : Scan) (e : FileEntry) : Scan :=
  mkScan (files s ++ [e]) (directories s) (skipped_entries s).
Definition push_directory (s : Scan) (d : string) : Scan :=
  mkScan (files s) (directories s ++ [d]) (skipped_entries s).
Definition push_skipped (s : Scan) (e : SkippedEntry) : Scan :=
  mkScan (files s) (directories s) (skipped_entries s ++ [e]).

Module Analyzer.
(** [impl Display for AnalyzeError] *)
Definition fmt (e : AnalyzeError) : string :=
  match e with
  | AGuard e => PathGuard.fmt e
  | AReadDir path message => "cannot read directory " +:+ path +:+ ": " +:+ message
  | AMetadata path message => "cannot read metadata " +:+ path +:+ ": " +:+ message
  | AEscapedEntry path => "entry escaped managed root: " +:+ path
  | ASerialize message => "cannot serialize report: " +:+ message
  end.

Definition join_components (l : list Component) : string := join "/" (map component_str l).

Definition relative_path (root path : string) : result string AnalyzeError :=
  match path_strip_prefix path root with
  | Some relative => Ok (join_components relative)
  | None => Err (AEscapedEntry path)
  end.
Definition relative_path_lossy (root path : string) : string :=
  join_components (default (components path) (path_strip_prefix path root)).
Definition skipped_entry (root path reason : string) : SkippedEntry :=
  mkSkippedEntry (relative_path_lossy root path) reason.

Definition is_mousekeeper_internal_dir (path : string) : bool :=
  match path_file_name path with
  | Some name => (name =? STATE_DIR)%string || (name =? TRASH_DIR)%string
  | None => false
  end.

(** [==] on paths compares components. *)
Definition same_path (p q : string) : bool := bool_decide (components p = components q).

(** The body of the loop over the entries of a directory; [collect] is the
    recursive call. *)
Definition collect_entry (collect : string -> Scan -> result Scan AnalyzeError)
  (f : tree) (root : string) (acc : Scan) (path : string) : result Scan AnalyzeError :=
  if is_mousekeeper_internal_dir path then Ok acc
  else match symlink_metadata f path with
       | Err error => Ok (push_skipped acc (skipped_entry root path (io_error_str error)))
       | Ok metadata =>
           if is_link_or_reparse_point metadata
           then Ok (push_skipped acc
                  (skipped_entry root path "skipped symlink, junction, or reparse point"))
           else if is_dir_inode metadata then
             let acc := if negb (same_path path root)
                        then match relative_path root path with
                             | Ok relative => push_directory acc relative
                             | Err error => push_skipped acc (skipped_entry root path (fmt error))
                             end
                        else acc in
             collect path acc
           else if is_file_inode metadata then
             match relative_path root path with
             | Ok relative =>
                 Ok (push_file acc (mkFileEntry relative (inode_len metadata)
                       (modified_unix_ms metadata) (created_unix_ms metadata)
                       (file_id_for_path f path)))
             | Err error => Ok (push_skipped acc (skipped_entry root path (fmt error)))
             end
           else Ok acc
       end.

Fixpoint collect_files (fuel : nat) (f : tree) (root current_dir : string) (acc : Scan)
  : result Scan AnalyzeError :=
  match fuel with
  | O => Err (AReadDir current_dir "recursion limit")
  | S n =>
      match read_dir f current_dir with
      | Err error =>
          if same_path current_dir root then Err (AReadDir current_dir (io_error_str error))
          else Ok (push_skipped acc (skipped_entry root current_dir (io_error_str error)))
      | Ok entries => try_fold (collect_entry (collect_files n f root) f root) acc entries
      end
  end.

Definition file_cmp (left right : FileEntry) : comparison :=
  String.compare (fe_path left) (fe_path right).
Definition skipped_cmp (left right : SkippedEntry) : comparison :=
  String.compare (se_path left) (se_path right).

Definition analyze_root (f : tree) (root_arg : string) : result AnalyzeReport AnalyzeError :=
  let? guard := map_err AGuard (PathGuard.new f root_arg) in
  let? scan := collect_files (size f) f (root guard) (root guard) (mkScan [] [] []) in
  Ok (mkAnalyzeReport (root guard) (sort_by file_cmp (files scan))
        (sort_by String.compare (directories scan)) (sort_by skipped_cmp (skipped_entries scan))).
End Analyzer.

(** * Facts *)

Lemma join_snoc sep l s : l <> [] -> join sep (l ++ [s]) = join sep l +:+ sep +:+ s.
Proof.
  induction l as [|x l IH]; [done|]. intros _. destruct l as [|y l]; [done|].
  change (join sep ((x :: y :: l) ++ [s])) with (x +:+ sep +:+ join sep ((y :: l) ++ [s])).
  rewrite IH by done. change (join sep (x :: y :: l)) with (x +:+ sep +:+ join sep (y :: l)).
  by rewrite !sappend_assoc.
Qed.

(** The string [DirEntry::path] builds is the entry's absolute path. *)
Lemma join_abs_path d s : Forall seg_ok d -> seg_ok s -> path_join (abs_path d) s = abs_path (d ++ [s]).
Proof.
  intros Hd Hs. destruct (seg_ok_first_char _ Hs) as (c & s' & Heq & Hc).
  unfold path_join. assert (is_absolute s = false) as -> by (by rewrite Heq).
  destruct (decide (d = [])) as [->|Hne]; [done|].
  destruct (ends_with_slash (abs_path d)) eqn:He.
  - exfalso. apply split_slash_ends in He as [q Hq].
    apply (f_equal split_slash) in Hq. rewrite split_slash_end in Hq.
    unfold abs_path in Hq. change ("/" +:+ join "/" d) with ("" +:+ "/" +:+ join "/" d) in Hq.
    rewrite split_slash_app, split_slash_join in Hq; [|done|].
    + destruct d as [|x d _] using rev_ind; [done|]. rewrite app_assoc in Hq.
      apply app_inj_2 in Hq as [_ [= Hx]]; [|done]. subst x.
      apply Forall_app in Hd as [_ [(_ & He & _) _]%Forall_cons]. done.
    + eapply Forall_impl; [exact Hd|]. by intros ? [].
  - simpl. unfold abs_path. rewrite join_snoc by done. by rewrite sappend_assoc.
Qed.

(** A tree has more entries than the depth of any of them. *)
Lemma depth_lt_size f q i : wf_tree f -> f !! q = Some i -> (length q < size f)%nat.
Proof.
  intros Hwf. revert f i Hwf. induction q as [|s q IH] using rev_ind; intros f i Hwf Hi.
  - apply Nat.neq_0_lt_0. rewrite map_size_non_empty_iff. intros ->. by rewrite lookup_empty in Hi.
  - destruct (wf_parent _ Hwf _ _ _ Hi) as (_ & j & Hj & _).
    assert (exists g, wf_tree g /\ g !! q = Some j /\ (S (size g) <= size f)%nat) as (g & Hg & Hgj & Hsz).
    { exists (without (q ++ [s]) f). unfold without. split_and!.
      - split.
        + destruct (wf_root _ Hwf) as (r & Hr & Hd). exists r. split; [|done].
          apply map_lookup_filter_Some. split; [done|]. simpl. intros H%prefix_nil_inv. by destruct q.
        + intros p t k [Hk Hnp]%map_lookup_filter_Some. simpl in Hnp.
          destruct (wf_parent _ Hwf _ _ _ Hk) as (Ht & r & Hr & Hd). split; [done|].
          exists r. split; [|done]. apply map_lookup_filter_Some. split; [done|]. simpl.
          intros H. apply Hnp. etrans; [exact H|]. by eexists.
      - apply map_lookup_filter_Some. split; [done|]. apply not_prefix_shorter.
      - change (S (size (filter (fun kv : path * inode => ~ (q ++ [s]) `prefix_of` kv.1) f)) <= size f)%nat.
        rewrite <- (insert_delete_id f _ _ Hi) at 2. rewrite map_size_insert_None by apply lookup_delete_eq.
        apply le_n_S, map_subseteq_size. apply map_subseteq_spec. intros p k [Hk Hnp]%map_lookup_filter_Some.
        rewrite lookup_delete_ne; [done|]. intros <-. by apply Hnp. }
    specialize (IH g j Hg Hgj). rewrite length_app. simpl. lia.
Qed.

(** Names the scan enters. *)
Definition visible_name (s : string) : Prop := s <> STATE_DIR /\ s <> TRASH_DIR.
Definition visible (q : path) : Prop := Forall visible_name q.

(** The entry recorded for the regular file [q] below the root, of inode [i]. *)
Definition entry_of (q : path) (i : inode) : FileEntry :=
  mkFileEntry (join "/" q) (inode_len i) (modified_unix_ms i) (created_unix_ms i)
    (Some (file_id_of_inode i)).

Section scan.
Context (f : tree) (Hwf : wf_tree f) (r : path) (Hr : dir_at f r).
Implicit Types (k q : path) (acc : Scan).

Lemma join_components_normal q : Analyzer.join_components (map Normal q) = join "/" q.
Proof. unfold Analyzer.join_components. rewrite map_map. simpl. by rewrite map_id. Qed.

Lemma relative_path_below q :
  Forall seg_ok (r ++ q) -> Analyzer.relative_path (abs_path r) (abs_path (r ++ q)) = Ok (join "/" q).
Proof.
  intros Hok. pose proof Hok as [Hokr _]%Forall_app.
  unfold Analyzer.relative_path, path_strip_prefix. rewrite !components_abs_path by done.
  rewrite map_app. change (RootDir :: map Normal r ++ map Normal q) with ((RootDir :: map Normal r) ++ map Normal q).
  by rewrite strip_components_app, join_components_normal.
Qed.

(** What the scan of the entries [L] of the directory [r ++ k] finds. *)
Definition found_file k (L : list string) (fe : FileEntry) : Prop :=
  exists s q i, s ∈ L /\ f !! (r ++ k ++ s :: q) = Some i /\ is_file_inode i = true /\
    visible (s :: q) /\ fe = entry_of (k ++ s :: q) i.
Definition found_dir k (L : list string) (d : string) : Prop :=
  exists s q i, s ∈ L /\ f !! (r ++ k ++ s :: q) = Some i /\ is_dir_inode i = true /\
    visible (s :: q) /\ d = join "/" (k ++ s :: q).

(** [acc'] is [acc] and the findings of the entries [L] of [r ++ k]. *)
Definition extends k L acc acc' : Prop :=
  (forall fe, fe ∈ files acc' <-> fe ∈ files acc \/ found_file k L fe) /\
  (forall d, d ∈ directories acc' <-> d ∈ directories acc \/ found_dir k L d).

Lemma extends_nil k acc : extends k [] acc acc.
Proof.
  split; intros x; (split; [by left|]); intros [?|(s & q & i & Hs & _)]; try done;
    by apply not_elem_of_nil in Hs.
Qed.
Lemma extends_app k L1 L2 acc acc1 acc2 :
  extends k L1 acc acc1 -> extends k L2 acc1 acc2 -> extends k (L1 ++ L2) acc acc2.
Proof.
  intros [H1 H1'] [H2 H2']. unfold extends, found_file, found_dir in *.
  split; intros x; rewrite ?H2, ?H2', ?H1, ?H1'; clear -x; setoid_rewrite elem_of_app; split.
  - intros [[?|(s & q & i & ? & ?)]|(s & q & i & ? & ?)]; eauto 10.
  - intros [?|(s & q & i & [?|?] & ?)]; eauto 10.
  - intros [[?|(s & q & i & ? & ?)]|(s & q & i & ? & ?)]; eauto 10.
  - intros [?|(s & q & i & [?|?] & ?)]; eauto 10.
Qed.
Lemma extends_cons k s L acc acc1 acc2 :
  extends k [s] acc acc1 -> extends k L acc1 acc2 -> extends k (s :: L) acc acc2.
Proof. apply (extends_app k [s]). Qed.

Lemma children_of_dir d : dir_at f d -> read_dir f (abs_path d) = Ok (map (path_join (abs_path d)) (children f d)).
Proof.
  intros (i & Hi & Hd). unfold read_dir, tree_get.
  rewrite (resolve_abs _ Hwf _ _ Hi), Hi, Hd; [done|]. by apply (dir_at_not_link f d); [exists i|].
Qed.
Lemma internal_dir_iff q s :
  Forall seg_ok (q ++ [s]) ->
  Analyzer.is_mousekeeper_internal_dir (abs_path (q ++ [s])) = false <-> visible_name s.
Proof.
  intros Hok. unfold Analyzer.is_mousekeeper_internal_dir, path_file_name, visible_name.
  rewrite components_abs_path, map_app by done. simpl.
  change (RootDir :: map Normal q ++ [Normal s]) with ((RootDir :: map Normal q) ++ [Normal s]).
  rewrite reverse_snoc, orb_false_iff, !String.eqb_neq. done.
Qed.

Lemma not_root_path k s i :
  f !! (r ++ k ++ [s]) = Some i -> Analyzer.same_path (abs_path (r ++ k ++ [s])) (abs_path r) = false.
Proof.
  intros Hi. unfold Analyzer.same_path. apply bool_decide_eq_false. destruct Hr as (j & Hj & _).
  rewrite !components_abs_path by (by eapply wf_segs). intros [= Heq].
  apply (f_equal length) in Heq. rewrite !length_map, !length_app in Heq. simpl in Heq. lia.
Qed.

Lemma below_not_dir p q i : f !! p = Some i -> is_dir_inode i = false -> is_Some (f !! (p ++ q)) -> q = [].
Proof.
  intros Hi Hd [j Hj]. destruct (decide (q = [])) as [->|Hq]; [done|].
  destruct (wf_prefix _ _ _ _ Hwf Hj Hq) as (i' & Hi' & Hd'). congruence.
Qed.

(** An entry that is no directory. *)
Lemma extends_leaf k s i acc acc' :
  f !! (r ++ k ++ [s]) = Some i -> is_dir_inode i = false -> visible_name s ->
  directories acc' = directories acc ->
  files acc' = files acc ++ (if is_file_inode i then [entry_of (k ++ [s]) i] else []) ->
  extends k [s] acc acc'.
Proof.
  intros Hi Hd Hs Hdirs Hfiles.
  assert (forall s' q j, s' ∈ [s] -> f !! (r ++ k ++ s' :: q) = Some j -> s' = s /\ q = [] /\ j = i) as Hone.
  { intros s' q j ->%list_elem_of_singleton Hj. split; [done|].
    assert (q = []) as ->; [|split; [done|]; change [s] with ([s] ++ []) in Hi; simpl in *; congruence].
    apply (below_not_dir _ _ _ Hi Hd). exists j. rewrite <- Hj. f_equal. by rewrite <- !app_assoc. }
  split; intros x.
  - rewrite Hfiles, elem_of_app. split; (intros [?|H]; [by left|right]).
    + destruct (is_file_inode i) eqn:Hf; [|by apply not_elem_of_nil in H]. apply list_elem_of_singleton in H as ->.
      exists s, [], i. split_and!; [by left|done..|by apply list.Forall_singleton|done].
    + destruct H as (s' & q & j & Hs' & Hj & Hf & _ & ->).
      destruct (Hone _ _ _ Hs' Hj) as (-> & -> & ->). rewrite Hf. by left.
  - rewrite Hdirs. split; [by left|]. intros [?|(s' & q & j & Hs' & Hj & Hdj & _)]; [done|].
    destruct (Hone _ _ _ Hs' Hj) as (-> & -> & ->). congruence.
Qed.

(** An entry the scan does not enter. *)
Lemma extends_hidden k s acc : ~ visible_name s -> extends k [s] acc acc.
Proof.
  intros Hs. split; intros x; (split; [by left|]);
    intros [?|(s' & q & i & ->%list_elem_of_singleton & _ & _ & [Hv _]%Forall_cons & _)]; done.
Qed.

(** A directory and what is found below it. *)
Lemma extends_dir k s i acc acc' :
  f !! (r ++ k ++ [s]) = Some i -> is_dir_inode i = true -> visible_name s ->
  extends (k ++ [s]) (children f (r ++ k ++ [s])) (push_directory acc (join "/" (k ++ [s]))) acc' ->
  extends k [s] acc acc'.
Proof.
  intros Hi Hd Hs [H1 H2].
  assert (forall t q, (k ++ [s]) ++ t :: q = k ++ s :: t :: q) as Happ by (intros; by rewrite <- app_assoc).
  assert (forall t q j, f !! (r ++ k ++ s :: t :: q) = Some j -> t ∈ children f (r ++ k ++ [s])) as Hc.
  { intros t q j Hj. apply elem_of_children. destruct (decide (q = [])) as [->|Hq].
    - exists j. rewrite <- Hj. f_equal. by rewrite <- !app_assoc.
    - replace (r ++ k ++ s :: t :: q) with (((r ++ k ++ [s]) ++ [t]) ++ q) in Hj by (by rewrite <- !app_assoc).
      by destruct (wf_prefix _ _ _ _ Hwf Hj Hq) as (x & Hx & _). }
  split; intros x; rewrite ?H1, ?H2; simpl; rewrite ?elem_of_app, ?list_elem_of_singleton.
  - split; (intros [?|H]; [by left|right]).
    + destruct H as (t & q & j & _ & Hj & Hf & Hv & ->). rewrite Happ in *.
      exists s, (t :: q), j. split_and!; [by left|done..|by constructor|done].
    + destruct H as (s' & [|t q] & j & ->%list_elem_of_singleton & Hj & Hf & [_ Hv]%Forall_cons & ->).
      * rewrite Hi in Hj. injection Hj as <-. unfold is_dir_inode, is_file_inode in *. by destruct (i_kind i).
      * exists t, q, j. rewrite !Happ. split_and!; [by eapply Hc|done..].
  - split.
    + intros [[?| ->]|(t & q & j & _ & Hj & Hf & Hv & ->)]; [by left|right|right].
      * exists s, [], i. split_and!; [by left|done..|by apply list.Forall_singleton|done].
      * rewrite Happ in *. exists s, (t :: q), j. split_and!; [by left|done..|by constructor|done].
    + intros [?|(s' & [|t q] & j & ->%list_elem_of_singleton & Hj & Hf & [_ Hv]%Forall_cons & ->)];
        [by left; left|by left; right|].
      right. exists t, q, j. rewrite !Happ. split_and!; [by eapply Hc|done..].
Qed.
Lemma collect_entry_ok collect k s acc :
  is_Some (f !! (r ++ k ++ [s])) ->
  (dir_at f (r ++ k ++ [s]) -> forall acc, exists acc',
    collect (abs_path (r ++ k ++ [s])) acc = Ok acc' /\ extends (k ++ [s]) (children f (r ++ k ++ [s])) acc acc') ->
  exists acc', Analyzer.collect_entry collect f (abs_path r) acc (abs_path (r ++ k ++ [s])) = Ok acc' /\
    extends k [s] acc acc'.
Proof.
  intros [i Hi] Hcol. pose proof (wf_segs _ _ _ Hwf Hi) as Hok.
  pose proof Hok as Hok'. rewrite app_assoc in Hok'. pose proof (internal_dir_iff _ _ Hok') as Hint.
  rewrite <- app_assoc in Hint. unfold Analyzer.collect_entry.
  destruct (Analyzer.is_mousekeeper_internal_dir _) eqn:Hv.
  { exists acc. split; [done|]. apply extends_hidden. intros H. by apply Hint in H. }
  assert (visible_name s) as Hs by (by apply Hint).
  unfold symlink_metadata, tree_get. rewrite (lresolve_abs _ Hwf _ _ Hi), Hi.
  unfold is_link_or_reparse_point, is_windows_reparse_point. rewrite orb_false_r.
  destruct (is_link_inode i) eqn:Hl.
  { eexists. split; [done|]. eapply extends_leaf; [done| |done..|];
      unfold is_link_inode, is_dir_inode, is_file_inode in *; destruct (i_kind i); try done.
    simpl. by rewrite app_nil_r. }
  rewrite (not_root_path _ _ _ Hi). simpl. rewrite relative_path_below by done.
  destruct (is_dir_inode i) eqn:Hd.
  { destruct (Hcol ltac:(by exists i) (push_directory acc (join "/" (k ++ [s])))) as (acc' & Hc & Hext).
    exists acc'. split; [done|]. by eapply extends_dir. }
  destruct (is_file_inode i) eqn:Hf.
  - eexists. split; [done|]. eapply extends_leaf; [done..|]. rewrite Hf. simpl.
    unfold file_id_for_path, metadata, tree_get. by rewrite (resolve_abs _ Hwf _ _ Hi Hl), Hi.
  - exists acc. split; [done|]. eapply extends_leaf; [done..|]. by rewrite Hf, app_nil_r.
Qed.

Lemma collect_entries_ok collect k L acc :
  Forall (fun s => is_Some (f !! (r ++ k ++ [s])) /\
    (dir_at f (r ++ k ++ [s]) -> forall acc, exists acc',
      collect (abs_path (r ++ k ++ [s])) acc = Ok acc' /\ extends (k ++ [s]) (children f (r ++ k ++ [s])) acc acc')) L ->
  exists acc', try_fold (Analyzer.collect_entry collect f (abs_path r)) acc
      (map (fun s => abs_path (r ++ k ++ [s])) L) = Ok acc' /\ extends k L acc acc'.
Proof.
  intros HL. revert acc. induction HL as [|s L [Hs Hc] _ IH]; intros acc; simpl.
  { exists acc. split; [done|]. apply extends_nil. }
  destruct (collect_entry_ok collect k s acc Hs Hc) as (acc1 & H1 & He1). rewrite H1.
  destruct (IH acc1) as (acc2 & H2 & He2). exists acc2. split; [done|]. by eapply extends_cons.
Qed.

Lemma collect_files_ok n k acc :
  dir_at f (r ++ k) -> (size f <= n + length (r ++ k))%nat ->
  exists acc', Analyzer.collect_files n f (abs_path r) (abs_path (r ++ k)) acc = Ok acc' /\
    extends k (children f (r ++ k)) acc acc'.
Proof.
  revert k acc. induction n as [|n IH]; intros k acc Hk Hn.
  { destruct Hk as (i & Hi & _). pose proof (depth_lt_size _ _ _ Hwf Hi). lia. }
  simpl. rewrite children_of_dir by done. pose proof Hk as (ik & Hik & _).
  assert (map (path_join (abs_path (r ++ k))) (children f (r ++ k)) =
    map (fun s => abs_path (r ++ k ++ [s])) (children f (r ++ k))) as ->.
  { apply map_ext_in. intros s [i Hi]%list_elem_of_In%elem_of_children.
    pose proof (wf_segs _ _ _ Hwf Hi) as [H1 [H2 _]%Forall_cons]%Forall_app.
    rewrite join_abs_path by done. by rewrite <- app_assoc. }
  apply collect_entries_ok. rewrite list.Forall_forall. intros s Hs%elem_of_children.
  rewrite <- app_assoc in Hs. split; [done|]. intros Hd acc1. apply IH; [done|].
  rewrite !length_app in *. simpl. lia.
Qed.
End scan.

Lemma file_cmp_total : TotalCmp Analyzer.file_cmp.
Proof. apply (cmp_on_total fe_path String.compare), _. Qed.

(** * Properties *)

(** the scan of a root that exists returns, within its fuel; it reports
    exactly the regular files below the root that no symbolic link and no
    internal directory hides, with their metadata, in path order, and exactly the
    directories it entered. *)
Theorem analyze_root_report f root_arg g r :
  wf_tree f -> PathGuard.new f root_arg = Ok g -> guard_at f g r ->
  exists rep, Analyzer.analyze_root f root_arg = Ok rep /\ ar_root rep = root g /\
    (forall fe, fe ∈ ar_files rep <->
      exists q i, q <> [] /\ f !! (r ++ q) = Some i /\ is_file_inode i = true /\ visible q /\ fe = entry_of q i) /\
    (forall d, d ∈ ar_directories rep <->
      exists q i, q <> [] /\ f !! (r ++ q) = Some i /\ is_dir_inode i = true /\ visible q /\ d = join "/" q) /\
    StronglySorted (cmp_le Analyzer.file_cmp) (ar_files rep) /\
    StronglySorted (cmp_le String.compare) (ar_directories rep).
Proof.
  intros Hwf Hnew [Hg Hr]. unfold Analyzer.analyze_root. rewrite Hnew. simpl.
  destruct (collect_files_ok f Hwf r Hr (size f) [] (mkScan [] [] [])) as (acc & Hc & Hext);
    rewrite ?app_nil_r; [done|lia|].
  rewrite app_nil_r in *. rewrite Hg, Hc. eexists. split; [done|]. simpl. split; [done|].
  destruct Hext as [H1 H2]. simpl in *.
  assert (forall q i, q <> [] -> f !! (r ++ q) = Some i -> exists s q', q = s :: q' /\ s ∈ children f r) as Hch.
  { intros [|s q] i Hq Hi; [done|]. exists s, q. split; [done|]. apply elem_of_children.
    destruct (decide (q = [])) as [->|Hne]; [eauto|].
    replace (r ++ s :: q) with ((r ++ [s]) ++ q) in Hi by (by rewrite <- app_assoc).
    by destruct (wf_prefix _ _ _ _ Hwf Hi Hne) as (x & Hx & _). }
  split_and!; [| |by apply sort_by_strongly, file_cmp_total|by apply sort_by_strongly, _].
  - intros fe. rewrite elem_of_sort_by, H1. split.
    + intros [?%not_elem_of_nil|(s & q & i & _ & Hi & Hf & Hv & ->)]; [done|]. by exists (s :: q), i.
    + intros (q & i & Hq & Hi & Hf & Hv & ->). right. destruct (Hch _ _ Hq Hi) as (s & q' & -> & Hs).
      by exists s, q', i.
  - intros d. rewrite elem_of_sort_by, H2. split.
    + intros [?%not_elem_of_nil|(s & q & i & _ & Hi & Hf & Hv & ->)]; [done|]. by exists (s :: q), i.
    + intros (q & i & Hq & Hi & Hf & Hv & ->). right. destruct (Hch _ _ Hq Hi) as (s & q' & -> & Hs).
      by exists s, q', i.
Qed.

Lemma analyze_root_report_witness :
  wf_tree sample_tree /\ PathGuard.new sample_tree sample_root = Ok (mkPathGuard sample_root) /\
  exists rep, Analyzer.analyze_root sample_tree sample_root = Ok rep /\ ar_root rep = sample_root.
Proof.
  split; [apply sample_wf|]. split; [by vm_compute|].
  assert (guard_at sample_tree (mkPathGuard sample_root) ["home"; "root"]) as Hg.
  { split; [by vm_compute|]. exists (dir_of 3). by split; vm_compute. }
  destruct (analyze_root_report sample_tree sample_root (mkPathGuard sample_root) ["home"; "root"]
    sample_wf ltac:(by vm_compute) Hg) as (rep & H1 & H2 & _).
  exists rep. split; [exact H1|exact H2].
Defined.
