(* ===== verification/browse.v ===== *)
(** [tools/file-engine-cli/src/browse.rs]: the listing of one directory of a root. *)
From Stdlib Require Import ZArith Lia Ascii Sorted.
From stdpp Require Import strings pretty gmap functions option list.
From S2P Require Import prelude rust_str std_path std_fs fs_facts path_guard db journal_store.
From S2P Require Import proposal_types analyzer.

Open Scope string_scope.
Open Scope list_scope.

Record BrowseEntry := mkBrowseEntry {
  be_name : string;
  be_path : string;
  be_is_dir : bool;
  be_size_bytes : option Z;          (** [u64] *)
  be_modified_unix_ms : option Z;    (** [u128] *)
}.
Record BrowseReport := mkBrowseReport {
  br_root : string;
  br_path : string;
  br_entries : list BrowseEntry;
  br_skipped_entries : list SkippedEntry;
}.

Inductive BrowseError :=
| BGuard (e : PathGuardError)
| BNotADirectory (path : string)
| BReadDir (path message : string)
| BMetadata (path message : string)
| BEscapedEntry (path : string)
| BSerialize (message : string).

Module Browse.
(** [impl Display for BrowseError] *)
Definition fmt (e : BrowseError) : string :=
  match e with
  | BGuard e => PathGuard.fmt e
  | BNotADirectory path => "path is not a directory: " +:+ path
  | BReadDir path message => "cannot read directory " +:+ path +:+ ": " +:+ message
  | BMetadata path message => "cannot read metadata " +:+ path +:+ ": " +:+ message
  | BEscapedEntry path => "entry escaped managed root: " +:+ path
  | BSerialize message => "cannot serialize report: " +:+ message
  end.

Definition is_separator (c : ascii) : bool := Ascii.eqb c "/" || Ascii.eqb c "\".

Definition normalize_relative (path : string) : string :=
  join "/" (filter (fun s => negb (is_empty s)) (split_on is_separator path)).

Definition relative_entry_path (root path : string) : result string BrowseError :=
  match path_strip_prefix path root with
  | Some relative => Ok (Analyzer.join_components relative)
  | None => Err (BEscapedEntry path)
  end.
Definition skipped_entry (root path reason : string) : SkippedEntry :=
  mkSkippedEntry (Analyzer.join_components (default (components path) (path_strip_prefix path root))) reason.

Definition is_mousekeeper_internal_dir (path : string) : bool :=
  match path_file_name path with
  | Some name => (name =? STATE_DIR)%string || (name =? TRASH_DIR)%string
  | None => false
  end.

(** The body of the loop over the entries of the directory. *)
Definition browse_entry (f : tree) (root : string) (acc : list BrowseEntry * list SkippedEntry)
  (entry_path : string) : list BrowseEntry * list SkippedEntry :=
  let '(entries, skipped) := acc in
  if is_mousekeeper_internal_dir entry_path then acc
  else match symlink_metadata f entry_path with
       | Err error => (entries, skipped ++ [skipped_entry root entry_path (io_error_str error)])
       | Ok metadata =>
           if is_link_or_reparse_point metadata
           then (entries, skipped ++ [skipped_entry root entry_path
                   "skipped symlink, junction, or reparse point"])
           else
             let is_dir := is_dir_inode metadata in
             let name := default "" (path_file_name entry_path) in
             match relative_entry_path root entry_path with
             | Ok path =>
                 (entries ++ [mkBrowseEntry name path is_dir
                    (if is_dir then None else Some (inode_len metadata)) (modified_unix_ms metadata)], skipped)
             | Err error => (entries, skipped ++ [skipped_entry root entry_path (fmt error)])
             end
       end.

(** Directories first, then by name. *)
Definition entry_cmp (left right : BrowseEntry) : comparison :=
  match be_is_dir left, be_is_dir right with
  | true, false => Lt
  | false, true => Gt
  | _, _ => String.compare (be_name left) (be_name right)
  end.
Definition skipped_cmp (left right : SkippedEntry) : comparison :=
  String.compare (se_path left) (se_path right).

Definition target_dir (f : tree) (g : PathGuard) (relative_path : string) : result string BrowseError :=
  if is_empty relative_path then Ok (root g)
  else
    let? resolved := map_err BGuard (PathGuard.resolve_existing f g relative_path) in
    if negb (path_is_dir f resolved) then Err (BNotADirectory resolved) else Ok resolved.

Definition browse_root (f : tree) (root_arg : string) (relative_path : option string)
  : result BrowseReport BrowseError :=
  let? guard := map_err BGuard (PathGuard.new f root_arg) in
  let relative_path := normalize_relative (default "" relative_path) in
  let? target_dir := target_dir f guard relative_path in
  let? read_dir := map_err (fun e => BReadDir target_dir (io_error_str e)) (read_dir f target_dir) in
  let '(entries, skipped) := fold_left (browse_entry f (root guard)) read_dir ([], []) in
  Ok (mkBrowseReport (root guard) relative_path (sort_by entry_cmp entries) (sort_by skipped_cmp skipped)).
End Browse.

(** * Facts *)

Lemma children_nodup f d : NoDup (children f d).
Proof.
  unfold children. pose proof (NoDup_fst_map_to_list f) as H. induction (map_to_list f) as [|[p i] l IH]; [constructor|].
  simpl in *. apply NoDup_cons in H as [Hp Hl]. specialize (IH Hl).
  destruct (child_name d p) as [s|] eqn:Hs; simpl; [|exact IH]. constructor; [|exact IH].
  rewrite list_elem_of_omap. intros ([p' i'] & Hin & Hs'). simpl in Hs'.
  apply child_name_some in Hs as ->. apply child_name_some in Hs' as ->.
  apply Hp. by apply list_elem_of_fmap_2 with (f:=fst) in Hin.
Qed.

(** What is shown of the child [s] of the directory [r ++ k], and what is skipped. *)
Definition browse_row (k : path) (s : string) (i : inode) : BrowseEntry :=
  mkBrowseEntry s (join "/" (k ++ [s])) (is_dir_inode i)
    (if is_dir_inode i then None else Some (inode_len i)) (modified_unix_ms i).
Definition link_row (k : path) (s : string) : SkippedEntry :=
  mkSkippedEntry (join "/" (k ++ [s])) "skipped symlink, junction, or reparse point".

Section browse.
Context (f : tree) (Hwf : wf_tree f) (r k : path) (Hk : dir_at f (r ++ k)).

Definition shown (s : string) : option BrowseEntry :=
  if bool_decide (visible_name s) then
    match f !! (r ++ k ++ [s]) with
    | Some i => if is_link_inode i then None else Some (browse_row k s i)
    | None => None
    end
  else None.
Definition hidden_link (s : string) : option SkippedEntry :=
  if bool_decide (visible_name s) then
    match f !! (r ++ k ++ [s]) with
    | Some i => if is_link_inode i then Some (link_row k s) else None
    | None => None
    end
  else None.

Lemma browse_entry_step acc s i :
  f !! (r ++ k ++ [s]) = Some i ->
  Browse.browse_entry f (abs_path r) acc (abs_path (r ++ k ++ [s])) =
    (acc.1 ++ option_list (shown s), acc.2 ++ option_list (hidden_link s)).
Proof.
  intros Hi. destruct acc as [es sk]. pose proof (wf_segs _ _ _ Hwf Hi) as Hok.
  pose proof Hok as Hok'. rewrite app_assoc in Hok'. pose proof (internal_dir_iff _ _ Hok') as Hint.
  rewrite <- app_assoc in Hint. unfold Browse.browse_entry, shown, hidden_link.
  change Browse.is_mousekeeper_internal_dir with Analyzer.is_mousekeeper_internal_dir.
  destruct (Analyzer.is_mousekeeper_internal_dir _) eqn:Hv.
  { rewrite bool_decide_false; [simpl; by rewrite !app_nil_r|]. intros H. by apply Hint in H. }
  rewrite bool_decide_true by (by apply Hint). rewrite Hi.
  unfold symlink_metadata, tree_get. rewrite (lresolve_abs _ Hwf _ _ Hi), Hi.
  unfold is_link_or_reparse_point, is_windows_reparse_point. rewrite orb_false_r.
  assert (path_strip_prefix (abs_path (r ++ k ++ [s])) (abs_path r) = Some (map Normal (k ++ [s]))) as Hstrip.
  { unfold path_strip_prefix. pose proof Hok as [Hr _]%Forall_app. rewrite !components_abs_path by done.
    rewrite map_app. change (RootDir :: map Normal r ++ map Normal (k ++ [s]))
      with ((RootDir :: map Normal r) ++ map Normal (k ++ [s])). by rewrite strip_components_app. }
  unfold Browse.relative_entry_path, Browse.skipped_entry. rewrite Hstrip. simpl default.
  rewrite join_components_normal. destruct (is_link_inode i); simpl; rewrite ?app_nil_r; [done|].
  unfold browse_row. do 3 f_equal. unfold path_file_name. rewrite components_abs_path by done.
  rewrite !map_app. simpl. rewrite app_assoc.
  change (RootDir :: (map Normal r ++ map Normal k) ++ [Normal s]) with ((RootDir :: map Normal r ++ map Normal k) ++ [Normal s]).
  by rewrite reverse_snoc.
Qed.

Lemma browse_fold L acc :
  Forall (fun s => is_Some (f !! (r ++ k ++ [s]))) L ->
  fold_left (Browse.browse_entry f (abs_path r)) (map (fun s => abs_path (r ++ k ++ [s])) L) acc =
    (acc.1 ++ omap shown L, acc.2 ++ omap hidden_link L).
Proof.
  revert acc. induction L as [|s L IH]; intros acc HL; [simpl; rewrite !app_nil_r; by destruct acc|].
  apply Forall_cons in HL as [[i Hi] HL]. cbn [map fold_left]. rewrite (browse_entry_step _ _ _ Hi), IH by done. simpl.
  by destruct (shown s), (hidden_link s); simpl; rewrite <- ?app_assoc, ?app_nil_r.
Qed.

Lemma browse_children :
  fold_left (Browse.browse_entry f (abs_path r)) (map (path_join (abs_path (r ++ k))) (children f (r ++ k))) ([], []) =
    (omap shown (children f (r ++ k)), omap hidden_link (children f (r ++ k))).
Proof.
  assert (map (path_join (abs_path (r ++ k))) (children f (r ++ k)) =
    map (fun s => abs_path (r ++ k ++ [s])) (children f (r ++ k))) as ->.
  { apply map_ext_in. intros s [i Hi]%list_elem_of_In%elem_of_children.
    pose proof (wf_segs _ _ _ Hwf Hi) as [H1 [H2 _]%Forall_cons]%Forall_app.
    rewrite join_abs_path by done. by rewrite <- app_assoc. }
  apply (browse_fold _ ([], [])). apply list.Forall_forall. intros s Hs%elem_of_children. by rewrite app_assoc.
Qed.

Lemma elem_of_shown e :
  e ∈ omap shown (children f (r ++ k)) <->
  exists s i, f !! (r ++ k ++ [s]) = Some i /\ is_link_inode i = false /\ visible_name s /\ e = browse_row k s i.
Proof.
  rewrite list_elem_of_omap. unfold shown. split.
  - intros (s & _ & Hs). case_bool_decide; [|done]. destruct (f !! _) as [i|] eqn:Hi; [|done].
    destruct (is_link_inode i) eqn:Hl; [done|]. injection Hs as <-. eauto 10.
  - intros (s & i & Hi & Hl & Hv & ->). exists s. rewrite elem_of_children, <- app_assoc, Hi, Hl.
    by rewrite bool_decide_true.
Qed.
Lemma elem_of_hidden e :
  e ∈ omap hidden_link (children f (r ++ k)) <->
  exists s i, f !! (r ++ k ++ [s]) = Some i /\ is_link_inode i = true /\ visible_name s /\ e = link_row k s.
Proof.
  rewrite list_elem_of_omap. unfold hidden_link. split.
  - intros (s & _ & Hs). case_bool_decide; [|done]. destruct (f !! _) as [i|] eqn:Hi; [|done].
    destruct (is_link_inode i) eqn:Hl; [|done]. injection Hs as <-. eauto 10.
  - intros (s & i & Hi & Hl & Hv & ->). exists s. rewrite elem_of_children, <- app_assoc, Hi, Hl.
    by rewrite bool_decide_true.
Qed.
Lemma shown_names L : NoDup L -> NoDup (map be_name (omap shown L)).
Proof.
  assert (forall s e, shown s = Some e -> be_name e = s) as Hn.
  { unfold shown. intros s e. case_bool_decide; [|done]. destruct (f !! _) as [i|]; [|done].
    destruct (is_link_inode i); [done|]. by intros [= <-]. }
  induction 1 as [|s L Hs HL IH]; [constructor|]. simpl. destruct (shown s) as [e|] eqn:He; [|exact IH].
  simpl. constructor; [|exact IH]. rewrite (Hn _ _ He). intros (e' & Heq & Hin)%list_elem_of_fmap.
  apply list_elem_of_omap in Hin as (s' & Hs' & He'). apply Hn in He'. congruence.
Qed.
End browse.

#[export] Instance entry_cmp_total : TotalCmp Browse.entry_cmp.
Proof.
  unfold Browse.entry_cmp. split.
  - intros x y. destruct (be_is_dir x), (be_is_dir y); try done; apply cmp_antisym.
  - intros x y z. destruct (be_is_dir x), (be_is_dir y), (be_is_dir z); try done; apply cmp_trans.
Qed.

(** The report lists the directory [r ++ k] of the root [r]: directories first and
    then in the order of names, each name once, exactly its entries that are no links
    and not internal; the links as skipped. *)
Record listing (f : tree) (r k : path) (rep : BrowseReport) : Prop := {
  listing_dir : dir_at f (r ++ k);
  listing_entries e : e ∈ br_entries rep <->
    exists s i, f !! (r ++ k ++ [s]) = Some i /\ is_link_inode i = false /\ visible_name s /\ e = browse_row k s i;
  listing_skipped e : e ∈ br_skipped_entries rep <->
    exists s i, f !! (r ++ k ++ [s]) = Some i /\ is_link_inode i = true /\ visible_name s /\ e = link_row k s;
  listing_names : NoDup (map be_name (br_entries rep));
  listing_sorted : StronglySorted (cmp_le Browse.entry_cmp) (br_entries rep);
}.

Lemma browse_at f root_arg rel g r k :
  wf_tree f -> PathGuard.new f root_arg = Ok g -> root g = abs_path r -> dir_at f (r ++ k) ->
  let path := Browse.normalize_relative (default "" rel) in
  Browse.target_dir f g path = Ok (abs_path (r ++ k)) ->
  exists rep, Browse.browse_root f root_arg rel = Ok rep /\ br_root rep = root g /\ br_path rep = path /\ listing f r k rep.
Proof.
  intros Hwf Hnew Hroot Hk path Ht. unfold Browse.browse_root. rewrite Hnew. simpl. fold path. rewrite Ht.
  rewrite (children_of_dir _ Hwf) by done. simpl. rewrite Hroot, (browse_children f Hwf r k).
  eexists. split_and!; [done..|]. split; simpl; [done| | | |].
  - intros e. by rewrite elem_of_sort_by, elem_of_shown.
  - intros e. by rewrite elem_of_sort_by, elem_of_hidden.
  - rewrite (fmap_Permutation be_name _ _ (sort_by_perm _ _)). apply shown_names, children_nodup.
  - apply sort_by_strongly, _.
Qed.

(** * Properties *)

(** A listing shows its directory.  On success the report lists one directory
    under the root, the one the path names: directories first and then in the order
    of names, each name once, exactly the entries that are no links and not internal.
    It fails only when the guard refuses the path, or the path is no directory. *)
Theorem browse_root_report f root_arg rel g r :
  wf_tree f -> PathGuard.new f root_arg = Ok g -> guard_at f g r ->
  let path := Browse.normalize_relative (default "" rel) in
  match Browse.browse_root f root_arg rel with
  | Ok rep => br_root rep = root g /\ br_path rep = path /\ exists k, listing f r k rep /\
      (if is_empty path then k = [] else PathGuard.resolve_existing f g path = Ok (abs_path (r ++ k)))
  | Err (BGuard e) => PathGuard.resolve_existing f g path = Err e
  | Err (BNotADirectory p) => PathGuard.resolve_existing f g path = Ok p /\ path_is_dir f p = false
  | Err _ => False
  end.
Proof.
  intros Hwf Hnew Hg path. pose proof (guard_at_named _ _ _ Hwf Hg) as Hgn. destruct Hg as [Hroot Hr].
  destruct (is_empty path) eqn:He.
  - destruct (browse_at f root_arg rel g r [] Hwf Hnew Hroot) as (rep & -> & H1 & H2 & H3);
      [by rewrite app_nil_r|unfold Browse.target_dir; fold path; by rewrite He, app_nil_r, Hroot|].
    split_and!; [done..|]. by exists [].
  - destruct (PathGuard.resolve_existing f g path) as [p|e] eqn:Hp.
    + destruct (resolve_existing_ok _ Hwf _ _ Hgn _ _ Hp) as (q & i & -> & [k ->] & Hi & Hl & _).
      destruct (path_is_dir f (abs_path (r ++ k))) eqn:Hd.
      * assert (dir_at f (r ++ k)) as Hk.
        { exists i. split; [done|]. unfold path_is_dir, metadata, tree_get in Hd.
          by rewrite (resolve_abs _ Hwf _ _ Hi Hl), Hi in Hd. }
        destruct (browse_at f root_arg rel g r k Hwf Hnew Hroot Hk) as (rep & -> & H1 & H2 & H3);
          [unfold Browse.target_dir; fold path; by rewrite He, Hp; simpl; rewrite Hd|].
        split_and!; [done..|]. by exists k.
      * unfold Browse.browse_root, Browse.target_dir. rewrite Hnew. simpl. fold path. rewrite He, Hp. simpl. by rewrite Hd.
    + unfold Browse.browse_root, Browse.target_dir. rewrite Hnew. simpl. fold path. by rewrite He, Hp.
Qed.

Lemma browse_root_report_witness :
  match Browse.browse_root sample_tree sample_root (Some "docs\") with
  | Ok rep => br_root rep = sample_root /\ br_path rep = "docs"
  | Err _ => False
  end.
Proof.
  assert (guard_at sample_tree (mkPathGuard sample_root) ["home"; "root"]) as Hg.
  { split; [by vm_compute|]. exists (dir_of 3). by split; vm_compute. }
  assert (is_ok (Browse.browse_root sample_tree sample_root (Some "docs\")) = true) as Hok by (vm_compute; reflexivity).
  pose proof (browse_root_report sample_tree sample_root (Some "docs\") (mkPathGuard sample_root) ["home"; "root"]
    sample_wf ltac:(by vm_compute) Hg) as H. cbv zeta in H.
  destruct (Browse.browse_root _ _ _) as [rep|e]; [|discriminate Hok].
  destruct H as (H1 & H2 & _). split; [exact H1|]. rewrite H2. vm_compute. reflexivity.
Defined.
