(* ===== verification/index_sql.v ===== *)
(** The tables and statements of the file index, and a concrete database with them. *)
From Stdlib Require Import ZArith Lia Ascii Sorted.
From stdpp Require Import strings pretty gmap functions option list.
From S2P Require Import prelude rust_str std_path std_fs fs_facts path_guard db journal_store.

Open Scope string_scope.
Open Scope list_scope.


(** * The tables of the file index in a root's database, and the statements that
    [tools/file-engine-cli/src/file_index.rs] issues on them.

    SQLite is third-party: the class [IndexDb] states what the index relies on, that
    a statement does to the tables what SQL says ([idx_execute], [idx_fetch]) or fails
    and changes nothing, and that a rolled-back transaction leaves the tables as they
    were when it began. *)

(** * Tables *)

(** A row of [file_index] but its key [relative_path]; integers are [i64]. *)
Record FileRow := mkFileRow {
  fr_size_bytes : Z;
  fr_modified_unix_ms : option Z;
  fr_extension : option string;
  fr_file_id : option string;
}.
(** A row of [file_search_entries] but its key [relative_path]. *)
Record SearchRow := mkSearchRow {
  sr_parent_relative_path : string;
  sr_name : string;
  sr_normalized_name : string;
  sr_entry_type : string;
  sr_extension : option string;
  sr_size_bytes : option Z;
  sr_modified_unix_ms : option Z;
}.
Record IndexTables := mkIndexTables {
  it_files : gmap string FileRow;
  it_entries : gmap string SearchRow;
  it_generation : Z;
  it_initialized : Z;
}.
Definition with_files (t : IndexTables) (m : gmap string FileRow) : IndexTables :=
  mkIndexTables m (it_entries t) (it_generation t) (it_initialized t).
Definition with_entries (t : IndexTables) (m : gmap string SearchRow) : IndexTables :=
  mkIndexTables (it_files t) m (it_generation t) (it_initialized t).

Definition opt_int (o : option Z) : sql_value := match o with Some z => SqlInt z | None => SqlNull end.
Definition opt_text (o : option string) : sql_value := match o with Some s => SqlText s | None => SqlNull end.
Definition int_opt (v : sql_value) : option (option Z) :=
  match v with SqlInt z => Some (Some z) | SqlNull => Some None | SqlText _ => None end.
Definition text_opt (v : sql_value) : option (option string) :=
  match v with SqlText s => Some (Some s) | SqlNull => Some None | SqlInt _ => None end.

(** [Row::try_get] of an [Option]. *)
Definition try_get_opt_int (r : sql_row) (column : string) : result (option Z) string :=
  match row_value r column with
  | Some v => match int_opt v with Some o => Ok o | None => Err ("error occurred while decoding column " +:+ column) end
  | None => Err ("no column found for name: " +:+ column)
  end.
Definition try_get_opt_text (r : sql_row) (column : string) : result (option string) string :=
  match row_value r column with
  | Some v => match text_opt v with Some o => Ok o | None => Err ("error occurred while decoding column " +:+ column) end
  | None => Err ("no column found for name: " +:+ column)
  end.

(** * [x LIKE pattern ESCAPE '\'] *)

(** [%] is any bytes, [_] one character, the character after the escape is itself;
    ASCII letters match whatever their case. *)
Definition same_letter (a b : ascii) : bool :=
  Ascii.eqb (to_ascii_lowercase_byte a) (to_ascii_lowercase_byte b).
Fixpoint drop_bytes (n : nat) (s : string) : option string :=
  match n, s with
  | O, _ => Some s
  | S k, String _ s' => drop_bytes k s'
  | S _, "" => None
  end.
Fixpoint sql_like (pattern x : string) {struct pattern} : bool :=
  match pattern with
  | "" => is_empty x
  | String c p =>
      if Ascii.eqb c "%" then
        (fix any (x : string) : bool :=
           sql_like p x || match x with "" => false | String _ x' => any x' end) x
      else if Ascii.eqb c "_" then
        match x with
        | "" => false
        | String b _ => match drop_bytes (utf8_width b) x with Some x' => sql_like p x' | None => false end
        end
      else if Ascii.eqb c "\" then
        match p, x with
        | String l p', String b x' => same_letter l b && sql_like p' x'
        | _, _ => false
        end
      else match x with String b x' => same_letter c b && sql_like p x' | "" => false end
  end.

(** * Statements *)

Module IndexSql.
Definition delete_files : string := "DELETE FROM file_index".
Definition insert_file : string := "INSERT INTO file_index (relative_path, size_bytes, modified_unix_ms, extension, file_id)
                 VALUES (?, ?, ?, ?, ?)".
Definition upsert_file : string := "INSERT INTO file_index (relative_path, size_bytes, modified_unix_ms, extension, file_id)
             VALUES (?, ?, ?, ?, ?)
             ON CONFLICT(relative_path) DO UPDATE SET
                 size_bytes = excluded.size_bytes,
                 modified_unix_ms = excluded.modified_unix_ms,
                 extension = excluded.extension,
                 file_id = excluded.file_id".
Definition delete_entries : string := "DELETE FROM file_search_entries".
Definition delete_entry : string := "DELETE FROM file_search_entries WHERE relative_path = ?".
Definition insert_entry : string := "INSERT INTO file_search_entries (
             relative_path, parent_relative_path, name, normalized_name,
             entry_type, extension, size_bytes, modified_unix_ms
         ) VALUES (?, ?, ?, ?, ?, ?, ?, ?)".
Definition remove_files : string := "DELETE FROM file_index
             WHERE relative_path = ? OR relative_path LIKE ? ESCAPE '\'".
Definition remove_entries : string := "DELETE FROM file_search_entries
             WHERE relative_path = ? OR relative_path LIKE ? ESCAPE '\'".
Definition set_initialized : string := "UPDATE file_index_meta SET initialized = 1 WHERE singleton = 1".
Definition clear_initialized : string := "UPDATE file_index_meta SET initialized = 0 WHERE singleton = 1".
Definition bump_generation : string := "UPDATE file_index_meta SET generation = generation + 1 WHERE singleton = 1".
Definition select_generation : string := "SELECT generation FROM file_index_meta WHERE singleton = 1".
Definition select_initialized : string := "SELECT initialized FROM file_index_meta WHERE singleton = 1".
Definition select_files : string := "SELECT relative_path, size_bytes, modified_unix_ms, extension, file_id
             FROM file_index
             ORDER BY relative_path".
Definition select_files_by_name : string := "SELECT fi.relative_path, fi.size_bytes, fi.modified_unix_ms, fi.extension, fi.file_id
             FROM file_index fi
             JOIN file_search_entries se ON se.relative_path = fi.relative_path
             WHERE instr(se.normalized_name, ?) > 0
             ORDER BY se.normalized_name, fi.relative_path".
Definition select_page_in_directory : string := "SELECT name, relative_path, entry_type, extension, size_bytes, modified_unix_ms
                     FROM file_search_entries
                     WHERE parent_relative_path = ? AND instr(normalized_name, ?) > 0
                     ORDER BY normalized_name, relative_path
                     LIMIT ? OFFSET ?".
Definition select_page : string := "SELECT name, relative_path, entry_type, extension, size_bytes, modified_unix_ms
                     FROM file_search_entries
                     WHERE instr(normalized_name, ?) > 0
                     ORDER BY normalized_name, relative_path
                     LIMIT ? OFFSET ?".

Definition statements : list string :=
  [delete_files; insert_file; upsert_file; delete_entries; delete_entry; insert_entry; remove_files;
   remove_entries; set_initialized; clear_initialized; bump_generation].
Definition queries : list string :=
  [select_generation; select_initialized; select_files; select_files_by_name; select_page_in_directory; select_page].

(** The rows that [WHERE relative_path = ? OR relative_path LIKE ?] does not select. *)
Definition kept {A} (path like : string) (m : gmap string A) : gmap string A :=
  filter (fun kv => kv.1 <> path /\ sql_like like kv.1 = false) m.

(** What a statement with its bound values does to the tables; [None] when it breaks
    a constraint or its values do not fit. *)
Definition file_of_binds (l : list sql_value) : option (string * FileRow) :=
  match l with
  | [SqlText p; SqlInt size; m; e; i] =>
      match int_opt m, text_opt e, text_opt i with
      | Some m, Some e, Some i => Some (p, mkFileRow size m e i)
      | _, _, _ => None
      end
  | _ => None
  end.
Definition entry_of_binds (l : list sql_value) : option (string * SearchRow) :=
  match l with
  | [SqlText p; SqlText parent; SqlText name; SqlText normalized; SqlText ty; e; size; m] =>
      match text_opt e, int_opt size, int_opt m with
      | Some e, Some size, Some m =>
          if (ty =? "file")%string || (ty =? "directory")%string
          then Some (p, mkSearchRow parent name normalized ty e size m) else None
      | _, _, _ => None
      end
  | _ => None
  end.
Definition execute (sql : string) (binds : list sql_value) (t : IndexTables) : option IndexTables :=
  if (sql =? delete_files)%string then Some (with_files t ∅)
  else if (sql =? insert_file)%string then
    match file_of_binds binds with
    | Some (p, r) =>
        match it_files t !! p with
        | Some _ => None
        | None => Some (with_files t (<[p := r]> (it_files t)))
        end
    | None => None
    end
  else if (sql =? upsert_file)%string then
    match file_of_binds binds with
    | Some (p, r) => Some (with_files t (<[p := r]> (it_files t)))
    | None => None
    end
  else if (sql =? delete_entries)%string then Some (with_entries t ∅)
  else if (sql =? delete_entry)%string then
    match binds with [SqlText p] => Some (with_entries t (delete p (it_entries t))) | _ => None end
  else if (sql =? insert_entry)%string then
    match entry_of_binds binds with
    | Some (p, r) =>
        match it_entries t !! p with
        | Some _ => None
        | None => Some (with_entries t (<[p := r]> (it_entries t)))
        end
    | None => None
    end
  else if (sql =? remove_files)%string then
    match binds with [SqlText p; SqlText l] => Some (with_files t (kept p l (it_files t))) | _ => None end
  else if (sql =? remove_entries)%string then
    match binds with [SqlText p; SqlText l] => Some (with_entries t (kept p l (it_entries t))) | _ => None end
  else if (sql =? set_initialized)%string then
    Some (mkIndexTables (it_files t) (it_entries t) (it_generation t) 1)
  else if (sql =? clear_initialized)%string then
    Some (mkIndexTables (it_files t) (it_entries t) (it_generation t) 0)
  else if (sql =? bump_generation)%string then
    Some (mkIndexTables (it_files t) (it_entries t) (it_generation t + 1) (it_initialized t))
  else None.

(** The rows of a query. *)
Definition file_columns (kv : string * FileRow) : sql_row :=
  [("relative_path", SqlText kv.1); ("size_bytes", SqlInt (fr_size_bytes kv.2));
   ("modified_unix_ms", opt_int (fr_modified_unix_ms kv.2)); ("extension", opt_text (fr_extension kv.2));
   ("file_id", opt_text (fr_file_id kv.2))].
Definition entry_columns (kv : string * SearchRow) : sql_row :=
  [("name", SqlText (sr_name kv.2)); ("relative_path", SqlText kv.1); ("entry_type", SqlText (sr_entry_type kv.2));
   ("extension", opt_text (sr_extension kv.2)); ("size_bytes", opt_int (sr_size_bytes kv.2));
   ("modified_unix_ms", opt_int (sr_modified_unix_ms kv.2))].

(** [ORDER BY relative_path] and [ORDER BY normalized_name, relative_path]: by bytes. *)
Definition path_cmp {A} (x y : string * A) : comparison := String.compare x.1 y.1.
Definition entry_cmp (x y : string * SearchRow) : comparison :=
  then_with (String.compare (sr_normalized_name x.2) (sr_normalized_name y.2)) (String.compare x.1 y.1).
Definition joined_cmp (x y : string * (FileRow * SearchRow)) : comparison :=
  then_with (String.compare (sr_normalized_name x.2.2) (sr_normalized_name y.2.2)) (String.compare x.1 y.1).

Definition files_in_order (t : IndexTables) : list (string * FileRow) :=
  sort_by path_cmp (map_to_list (it_files t)).
(** [instr(normalized_name, query) > 0] *)
Definition joined_by_name (query : string) (t : IndexTables) : list (string * FileRow) :=
  map (fun x => (x.1, x.2.1))
    (sort_by joined_cmp (filter (fun x => contains (sr_normalized_name x.2.2) query)
       (omap (fun kv => match it_entries t !! kv.1 with
                        | Some e => Some (kv.1, (kv.2, e))
                        | None => None
                        end) (map_to_list (it_files t))))).
Definition entries_in_order (parent : option string) (query : string) (t : IndexTables) : list (string * SearchRow) :=
  sort_by entry_cmp (filter (fun kv =>
    match parent with Some p => (sr_parent_relative_path kv.2 =? p)%string | None => true end
    && contains (sr_normalized_name kv.2) query) (map_to_list (it_entries t))).
(** [LIMIT limit OFFSET offset] *)
Definition window {A} (limit offset : Z) (l : list A) : list A :=
  take (Z.to_nat limit) (drop (Z.to_nat offset) l).

Definition fetch (sql : string) (binds : list sql_value) (t : IndexTables) : option (list sql_row) :=
  if (sql =? select_generation)%string then Some [[("generation", SqlInt (it_generation t))]]
  else if (sql =? select_initialized)%string then Some [[("initialized", SqlInt (it_initialized t))]]
  else if (sql =? select_files)%string then Some (map file_columns (files_in_order t))
  else if (sql =? select_files_by_name)%string then
    match binds with [SqlText q] => Some (map file_columns (joined_by_name q t)) | _ => None end
  else if (sql =? select_page_in_directory)%string then
    match binds with
    | [SqlText p; SqlText q; SqlInt limit; SqlInt offset] =>
        Some (map entry_columns (window limit offset (entries_in_order (Some p) q t)))
    | _ => None
    end
  else if (sql =? select_page)%string then
    match binds with
    | [SqlText q; SqlInt limit; SqlInt offset] =>
        Some (map entry_columns (window limit offset (entries_in_order None q t)))
    | _ => None
    end
  else None.
End IndexSql.

(** * The interface *)

(** Transactions of a connection; dropping one that was not committed rolls it back. *)
Class SqlTx (DB : Type) := {
  sql_begin : DB -> result unit string * DB;
  sql_commit : DB -> result unit string * DB;
  sql_rollback : DB -> DB;
}.

(** What the index relies on.  [idx] is the tables a connection sees, [saved] the
    tables and the journal when its transaction began. *)
Class IndexDb (DB : Type) `{!SqlDb DB, !SqlTx DB, !JournalDb DB} := {
  idx : DB -> IndexTables;
  saved : DB -> IndexTables * list RawJournalRow;
  connect_idx d r d' : sql_connect d = (r, d') -> idx d' = idx d;
  schema_idx sql d r d' :
    sql ∈ Db.schema_statements -> sql_execute sql [] d = (r, d') -> idx d' = idx d;
  journal_idx sql binds d r d' :
    sql ∈ [JournalStore.insert_sql; JournalStore.delete_sql] -> sql_execute sql binds d = (r, d') -> idx d' = idx d;
  fetch_idx sql binds d r d' : sql_fetch_all sql binds d = (r, d') -> idx d' = idx d /\ saved d' = saved d;
  execute_idx sql binds d r d' :
    sql ∈ IndexSql.statements -> sql_execute sql binds d = (r, d') ->
    journal_rows d' = journal_rows d /\ saved d' = saved d /\
    match r with Ok _ => IndexSql.execute sql binds (idx d) = Some (idx d') | Err _ => idx d' = idx d end;
  fetch_rows_idx sql binds d rows d' :
    sql ∈ IndexSql.queries -> sql_fetch_all sql binds d = (Ok rows, d') -> IndexSql.fetch sql binds (idx d) = Some rows;
  begin_idx d r d' :
    sql_begin d = (r, d') ->
    idx d' = idx d /\ journal_rows d' = journal_rows d /\ (is_ok r = true -> saved d' = (idx d, journal_rows d));
  commit_idx d r d' :
    sql_commit d = (r, d') ->
    if is_ok r then idx d' = idx d /\ journal_rows d' = journal_rows d else saved d' = saved d;
  rollback_idx d : (idx (sql_rollback d), journal_rows (sql_rollback d)) = saved d;
}.

(** * Transactions *)

Section tx.
Context {DB : Type} `{!SqlDb DB, !SqlTx DB} {E : Type}.

(** [let mut tx = pool.begin().await?; ...; tx.commit().await?] where [m] is what is
    done in between; [tx] is dropped when [m] or the commit fails. *)
Definition transaction (begin_err commit_err : string -> E) {A} (pool : string) (m : io (world DB) E A)
  : io (world DB) E A := fun w =>
  match sql_begin (w_db w pool) with
  | (Err e, d) => (Err (begin_err e), set_db pool d w)
  | (Ok _, d) =>
      match m (set_db pool d w) with
      | (Err e, w1) => (Err e, set_db pool (sql_rollback (w_db w1 pool)) w1)
      | (Ok a, w1) =>
          match sql_commit (w_db w1 pool) with
          | (Ok _, d2) => (Ok a, set_db pool d2 w1)
          | (Err e, d2) => (Err (commit_err e), set_db pool (sql_rollback d2) w1)
          end
      end
  end.
Definition in_transaction (err : string -> E) {A} (pool : string) (m : io (world DB) E A) : io (world DB) E A :=
  transaction err err pool m.
End tx.

(** * A concrete database with the index tables: the in-memory journal of journal_store beside
    [IndexTables], with transactions.  It satisfies the laws of [JournalDb] and of
    [IndexDb], so it instantiates the database where the index is evaluated. *)

(** The journal, the tables, both as they were when the transaction began, and how
    many more commits succeed ([None]: all). *)
Record MemIndex := mkMemIndex {
  mi_journal : MemDb;
  mi_tables : IndexTables;
  mi_saved : MemDb * IndexTables;
  mi_commits : option nat;
}.
Definition empty_tables : IndexTables := mkIndexTables ∅ ∅ 0 0.
Definition mem_index_of (t : IndexTables) (commits : option nat) : MemIndex :=
  mkMemIndex mem_empty t (mem_empty, t) commits.

Definition on_journal (d : MemIndex) (j : MemDb) : MemIndex := mkMemIndex j (mi_tables d) (mi_saved d) (mi_commits d).
Definition on_tables (d : MemIndex) (t : IndexTables) : MemIndex := mkMemIndex (mi_journal d) t (mi_saved d) (mi_commits d).

Definition mi_execute (sql : string) (binds : list sql_value) (d : MemIndex) : result unit string * MemIndex :=
  if bool_decide (sql ∈ IndexSql.statements) then
    match IndexSql.execute sql binds (mi_tables d) with
    | Some t => (Ok tt, on_tables d t)
    | None => (Err "constraint failed", d)
    end
  else let '(r, j) := mem_execute sql binds (mi_journal d) in (r, on_journal d j).
Definition mi_fetch (sql : string) (binds : list sql_value) (d : MemIndex) : result (list sql_row) string * MemIndex :=
  if bool_decide (sql ∈ IndexSql.queries) then
    match IndexSql.fetch sql binds (mi_tables d) with
    | Some rows => (Ok rows, d)
    | None => (Err "wrong number of bound values", d)
    end
  else let '(r, j) := mem_fetch sql binds (mi_journal d) in (r, on_journal d j).

#[export] Instance mi_sql_db : SqlDb MemIndex :=
  {| sql_connect d := (Ok tt, d); sql_execute := mi_execute; sql_fetch_all := mi_fetch |}.
#[export] Instance mi_sql_tx : SqlTx MemIndex :=
  {| sql_begin d := (Ok tt, mkMemIndex (mi_journal d) (mi_tables d) (mi_journal d, mi_tables d) (mi_commits d));
     sql_commit d := match mi_commits d with
                     | Some O => (Err "disk I/O error", d)
                     | c => (Ok tt, mkMemIndex (mi_journal d) (mi_tables d) (mi_saved d) (Nat.pred <$> c))
                     end;
     sql_rollback d := mkMemIndex (mi_saved d).1 (mi_saved d).2 (mi_saved d) (mi_commits d) |}.

Lemma mi_fetch_same sql binds d r d' : mi_fetch sql binds d = (r, d') -> d' = d.
Proof.
  unfold mi_fetch. case_bool_decide; [destruct (IndexSql.fetch _ _ _); by intros [= <- <-]|].
  unfold mem_fetch, on_journal. destruct d. destruct (_ =? _)%string; [by intros [= <- <-]|].
  destruct (existsb _ _); by intros [= <- <-].
Qed.

(** The other statements are the journal's. *)
Lemma mi_execute_journal sql binds d r d' :
  sql ∉ IndexSql.statements -> mi_execute sql binds d = (r, d') ->
  exists j, mem_execute sql binds (mi_journal d) = (r, j) /\ d' = on_journal d j.
Proof.
  intros Hs. unfold mi_execute. rewrite bool_decide_false by done.
  destruct (mem_execute _ _ _) as [r0 j]. intros [= <- <-]. eauto.
Qed.
Lemma not_index_statement sql :
  sql ∈ JournalStore.insert_sql :: JournalStore.delete_sql :: Db.schema_statements -> sql ∉ IndexSql.statements.
Proof.
  intros Hs. apply (bool_decide_unpack (sql ∉ IndexSql.statements)). revert sql Hs. apply list.Forall_forall.
  repeat (constructor; [vm_compute; exact Logic.I|]). constructor.
Qed.

#[export] Instance mi_journal_db : JournalDb MemIndex.
Proof.
  unshelve econstructor; [exact (fun d => mem_rows (mi_journal d))|..].
  - intros d r d' [= <- <-]. done.
  - intros sql d r d' Hs H. apply mi_execute_journal in H as (j & H & ->); [|apply not_index_statement; by do 2 right].
    exact (schema_rows (DB:=MemDb) sql _ _ _ Hs H).
  - intros sql binds d r d' H. by apply mi_fetch_same in H as ->.
  - intros o st a f t ms d d' H. apply mi_execute_journal in H as (j & H & ->); [|apply not_index_statement; by left].
    exact (insert_ok (DB:=MemDb) _ _ _ _ _ _ _ _ H).
  - intros binds e d d' H. apply mi_execute_journal in H as (j & H & ->); [|apply not_index_statement; by left].
    exact (insert_err (DB:=MemDb) _ _ _ _ H).
  - intros d rows d' H. cbn in H. unfold mi_fetch in H. rewrite bool_decide_false in H.
    + cbn in H. by injection H as <- <-.
    + apply (bool_decide_unpack (_ ∉ _)). vm_compute. exact Logic.I.
  - intros d d' H. apply mi_execute_journal in H as (j & H & ->); [|apply not_index_statement; by right; left].
    exact (delete_ok (DB:=MemDb) _ _ H).
  - intros e d d' H. apply mi_execute_journal in H as (j & H & ->); [|apply not_index_statement; by right; left].
    exact (delete_err (DB:=MemDb) _ _ _ H).
Defined.

#[export] Instance mi_index_db : IndexDb MemIndex.
Proof.
  unshelve econstructor; [exact mi_tables|exact (fun d => ((mi_saved d).2, mem_rows (mi_saved d).1))|..].
  - intros d r d' [= <- <-]. done.
  - intros sql d r d' Hs H. by apply mi_execute_journal in H as (j & H & ->); [|apply not_index_statement; do 2 right].
  - intros sql binds d r d' Hs H. apply mi_execute_journal in H as (j & H & ->); [done|]. apply not_index_statement.
    rewrite !elem_of_cons in *. destruct Hs as [?|[?|?%not_elem_of_nil]]; auto; done.
  - intros sql binds d r d' H. by apply mi_fetch_same in H as ->.
  - intros sql binds d r d' Hs H. cbn in H. unfold mi_execute in H. rewrite bool_decide_true in H by done.
    destruct (IndexSql.execute _ _ _) as [t|] eqn:Ht; by injection H as <- <-.
  - intros sql binds d rows d' Hs H. cbn in H. unfold mi_fetch in H. rewrite bool_decide_true in H by done.
    destruct (IndexSql.fetch _ _ _) as [t|] eqn:Ht; [|done]. by injection H as <- <-.
  - intros d r d' [= <- <-]. done.
  - intros d r d' H. cbn in H. destruct (mi_commits d) as [[|n]|]; injection H as <- <-; done.
  - done.
Defined.

(** The sample machine with this database. *)
Definition index_machine (f : tree) (d : MemIndex) : world MemIndex :=
  mkWorld f (fun _ => d) steady_clock 0 no_faults 0 100 [].
