(* ===== verification/tables.v ===== *)
(** The databases of the desktop: tables of some type [T] and the statements on them.

    Each store of [apps/desktop/src-tauri/src/storage/] has a database of its own.  A
    [Schema] says what the statements of a store do to its tables and what its queries
    return; the class [TableDb] states what the store relies on, that a statement does
    so or fails and changes nothing.  [MemTables] is a database that satisfies it. *)
From Stdlib Require Import ZArith Lia Ascii.
From stdpp Require Import strings pretty gmap functions option list.
From S2P Require Import prelude rust_str std_path std_fs fs_facts db index_sql.

Open Scope string_scope.
Open Scope list_scope.

(** * Schemas *)

Class Schema (T : Type) := {
  sc_statements : list string;
  sc_queries : list string;
  (** the tables after a statement and the number of rows it affected; [None] when it
      breaks a constraint or its values do not fit *)
  sc_execute : string -> list sql_value -> T -> option (T * Z);
  sc_fetch : string -> list sql_value -> T -> option (list sql_row);
}.

(** [SqliteQueryResult::rows_affected] of the last statement. *)
Class SqlCount (DB : Type) := sql_changes : DB -> Z.

(** What a store relies on.  [table] is the tables a connection sees, [saved_table]
    those when its transaction began. *)
Class TableDb (DB T : Type) `{!SqlDb DB, !SqlTx DB, !SqlCount DB, !Schema T} := {
  table : DB -> T;
  saved_table : DB -> T;
  connect_table d r d' : sql_connect d = (r, d') -> table d' = table d;
  execute_table sql binds d r d' :
    sql ∈ sc_statements -> sql_execute sql binds d = (r, d') ->
    saved_table d' = saved_table d /\
    match r with
    | Ok _ => sc_execute sql binds (table d) = Some (table d', sql_changes d')
    | Err _ => table d' = table d
    end;
  fetch_table sql binds d r d' :
    sql ∈ sc_queries -> sql_fetch_all sql binds d = (r, d') ->
    saved_table d' = saved_table d /\ table d' = table d /\
    match r with Ok rows => sc_fetch sql binds (table d) = Some rows | Err _ => True end;
  begin_table d r d' :
    sql_begin d = (r, d') -> table d' = table d /\ (is_ok r = true -> saved_table d' = table d);
  commit_table d r d' :
    sql_commit d = (r, d') -> if is_ok r then table d' = table d else saved_table d' = saved_table d;
  rollback_table d : table (sql_rollback d) = saved_table d;
}.

(** [Pool]s are lazily opened connections; [rows_affected] is read off the connection. *)
Definition rows_affected {DB} `{!SqlCount DB} {E} (pool : string) : io (world DB) E Z :=
  io_gets (fun w => sql_changes (w_db w pool)).

(** * Running the statements *)

Section run.
Context {DB T : Type} `{!SqlDb DB, !SqlTx DB, !SqlCount DB, !Schema T, !TableDb DB T}.
Implicit Types (w : world DB) (p : string).

Definition table_at p w : T := table (w_db w p).

(** Nothing but the database [p] changes. *)
Definition db_only p w w' : Prop :=
  w_fs w' = w_fs w /\ w_clock w' = w_clock w /\ (w_ticks w <= w_ticks w')%nat /\
  forall q, q <> p -> w_db w' q = w_db w q.
#[export] Instance db_only_preorder p : PreOrder (db_only p).
Proof.
  split; [by intros w|]. intros w1 w2 w3 (H1 & H2 & H3 & H4) (H5 & H6 & H7 & H8).
  split_and!; [congruence..|lia|]. intros q Hq. by rewrite H8, H4.
Qed.
Lemma set_db_only p d w : db_only p w (set_db p d w).
Proof. split_and!; [done..|]. intros q Hq. simpl. by rewrite fn_lookup_insert_ne. Qed.
Lemma table_at_set p d w : table_at p (set_db p d w) = table d.
Proof. unfold table_at. simpl. by rewrite fn_lookup_insert. Qed.

Definition saved_at p w : T := saved_table (w_db w p).
(** Inside a transaction: also what a rollback restores is kept. *)
Definition in_tables p w w' : Prop := db_only p w w' /\ saved_at p w' = saved_at p w.
#[export] Instance in_tables_preorder p : PreOrder (in_tables p).
Proof. split; [by intros w|]. intros w1 w2 w3 [H1 H2] [H3 H4]. split; [by etrans|congruence]. Qed.

Lemma statement_run p sql binds w r w' :
  sql ∈ sc_statements (T:=T) -> Db.execute p sql binds w = (r, w') ->
  in_tables p w w' /\
  match r with
  | Ok _ => exists n, sc_execute sql binds (table_at p w) = Some (table_at p w', n) /\ sql_changes (w_db w' p) = n
  | Err _ => table_at p w' = table_at p w
  end.
Proof.
  intros Hs. unfold Db.execute. destruct (sql_execute sql binds (w_db w p)) as [r1 d] eqn:Hx. intros [= <- <-].
  destruct (execute_table _ _ _ _ _ Hs Hx) as [Hsv H].
  assert (in_tables p w (set_db p d w)) as Hin.
  { split; [apply set_db_only|]. unfold saved_at. simpl. by rewrite fn_lookup_insert. }
  destruct r1 as [[]|e]; simpl.
  - split; [exact Hin|]. exists (sql_changes d). unfold table_at. simpl. rewrite fn_lookup_insert. done.
  - split; [exact Hin|]. by rewrite table_at_set.
Qed.
Lemma query_run p sql binds w r w' :
  sql ∈ sc_queries (T:=T) -> Db.fetch_all p sql binds w = (r, w') ->
  in_tables p w w' /\ table_at p w' = table_at p w /\
  match r with Ok rows => sc_fetch sql binds (table_at p w) = Some rows | Err _ => True end.
Proof.
  intros Hs. unfold Db.fetch_all. destruct (sql_fetch_all _ _ _) as [r1 d] eqn:Hx. intros [= <- <-].
  destruct (fetch_table _ _ _ _ _ Hs Hx) as (Hsv & Ht & Hr). split_and!; [|by rewrite table_at_set|exact Hr].
  split; [apply set_db_only|]. unfold saved_at. simpl. by rewrite fn_lookup_insert.
Qed.

(** The ends of a statement and of a query whose errors are worded. *)
Lemma statement_ok {E} (f : string -> E) p sql binds w u w' :
  sql ∈ sc_statements (T:=T) -> io_map_err f (Db.execute p sql binds) w = (Ok u, w') ->
  in_tables p w w' /\ exists n, sc_execute sql binds (table_at p w) = Some (table_at p w', n) /\ sql_changes (w_db w' p) = n.
Proof. intros Hs (r & H & Hr)%io_map_err_inv. destruct r; [|done]. by apply (statement_run _ _ _ _ _ _ Hs H). Qed.
Lemma query_ok {E} (f : string -> E) p sql binds w rows w' :
  sql ∈ sc_queries (T:=T) -> io_map_err f (Db.fetch_all p sql binds) w = (Ok rows, w') ->
  in_tables p w w' /\ table_at p w' = table_at p w /\ sc_fetch sql binds (table_at p w) = Some rows.
Proof.
  intros Hs (r & H & Hr)%io_map_err_inv. destruct r as [rows'|]; [|done]. injection Hr as <-.
  by apply (query_run _ _ _ _ _ _ Hs H).
Qed.
Lemma open_pool_table path w p w' :
  Db.open_pool_at path w = (Ok p, w') -> p = path /\ table_at path w' = table_at path w.
Proof.
  intros H. unfold Db.open_pool_at in H. apply io_bind_ok in H as ([] & w1 & Hdir & H).
  apply io_bind_ok in H as ([] & w2 & Hcon & [= <- <-]). split; [done|].
  assert (w_db w1 = w_db w) as Hdb.
  { destruct (path_parent path) as [parent|]; [|by injection Hdir as <-]. apply io_map_err_inv in Hdir as (r & Hdir & _).
    by destruct (create_dir_all_only parent _ _ _ Hdir). }
  apply io_map_err_inv in Hcon as (r & Hcon & _). unfold Db.connect in Hcon. rewrite Hdb in Hcon.
  destruct (sql_connect (w_db w path)) as [r2 d] eqn:Hd. injection Hcon as _ <-. rewrite table_at_set.
  by rewrite (connect_table _ _ _ Hd).
Qed.

(** A transaction happens as a whole or not at all. *)
Lemma table_transaction {E A} (err err2 : string -> E) p (m : io (world DB) E A) w r w' :
  io_rel (in_tables p) m -> transaction err err2 p m w = (r, w') ->
  db_only p w w' /\
  match r with
  | Ok a => exists w1 w2, db_only p w w1 /\ table_at p w1 = table_at p w /\ m w1 = (Ok a, w2) /\ table_at p w' = table_at p w2
  | Err _ => table_at p w' = table_at p w
  end.
Proof.
  intros Hm. unfold transaction. destruct (sql_begin (w_db w p)) as [[[]|e] d] eqn:Hb;
    destruct (begin_table _ _ _ Hb) as [Hbt Hbs]; simpl in Hbs.
  2: { intros [= <- <-]. split; [apply set_db_only|]. by rewrite table_at_set. }
  specialize (Hbs eq_refl). destruct (m (set_db p d w)) as [r1 w1] eqn:Hr. destruct (Hm _ _ _ Hr) as [Ho Hs].
  unfold saved_at in Hs. simpl in Hs. rewrite fn_lookup_insert in Hs.
  assert (forall d2, db_only p w (set_db p d2 w1)) as Hall.
  { intros d2. etrans; [apply (set_db_only p d)|]. etrans; [exact Ho|apply set_db_only]. }
  assert (forall d2, saved_table d2 = table (w_db w p) -> table (sql_rollback d2) = table_at p w) as Hroll.
  { intros d2 Hd2. by rewrite rollback_table, Hd2. }
  destruct r1 as [a|e].
  - destruct (sql_commit (w_db w1 p)) as [[[]|e2] d2] eqn:Hc; pose proof (commit_table _ _ _ Hc) as Hct; simpl in Hct;
      intros [= <- <-]; (split; [apply Hall|]).
    + exists (set_db p d w), w1. split_and!; [apply set_db_only|by rewrite table_at_set|done|by rewrite table_at_set, Hct].
    + rewrite table_at_set. apply Hroll. congruence.
  - intros [= <- <-]. split; [apply Hall|]. rewrite table_at_set. apply Hroll. congruence.
Qed.
End run.

(** * A database in memory *)

(** The tables, those of the transaction, the rows affected, and how many more
    statements succeed ([None]: all). *)
Record MemTables (T : Type) := mkMemTables { mt_now : T; mt_saved : T; mt_changes : Z; mt_left : option nat }.
Arguments mkMemTables {T} _ _ _ _.
Arguments mt_now {T} _. Arguments mt_saved {T} _. Arguments mt_changes {T} _. Arguments mt_left {T} _.

Definition mem_of {T} (t : T) : MemTables T := mkMemTables t t 0 None.

Section mem.
Context {T : Type} `{!Schema T}.
Implicit Types d : MemTables T.

Definition mt_execute (sql : string) (binds : list sql_value) d : result unit string * MemTables T :=
  match mt_left d with
  | Some O => (Err "database or disk is full", d)
  | left_ =>
      match sc_execute sql binds (mt_now d) with
      | Some (t, n) => (Ok tt, mkMemTables t (mt_saved d) n (Nat.pred <$> left_))
      | None => (Err "constraint failed", d)
      end
  end.
Definition mt_fetch (sql : string) (binds : list sql_value) d : result (list sql_row) string * MemTables T :=
  match sc_fetch sql binds (mt_now d) with
  | Some rows => (Ok rows, d)
  | None => (Err "near: syntax error", d)
  end.
#[export] Instance mt_sql_db : SqlDb (MemTables T) :=
  {| sql_connect d := (Ok tt, d); sql_execute := mt_execute; sql_fetch_all := mt_fetch |}.
#[export] Instance mt_sql_tx : SqlTx (MemTables T) :=
  {| sql_begin d := (Ok tt, mkMemTables (mt_now d) (mt_now d) (mt_changes d) (mt_left d));
     sql_commit d := (Ok tt, d);
     sql_rollback d := mkMemTables (mt_saved d) (mt_saved d) (mt_changes d) (mt_left d) |}.
#[export] Instance mt_sql_count : SqlCount (MemTables T) := mt_changes.

#[export] Instance mt_table_db : TableDb (MemTables T) T.
Proof.
  unshelve econstructor; [exact mt_now|exact mt_saved|..].
  - by intros d r d' [= <- <-].
  - intros sql binds d r d' _ H. cbn in H. unfold mt_execute in H.
    destruct (mt_left d) as [[|n]|]; [by injection H as <- <-|..];
      (destruct (sc_execute _ _ _) as [[t k]|]; injection H as <- <-; done).
  - intros sql binds d r d' _ H. cbn in H. unfold mt_fetch in H.
    destruct (sc_fetch _ _ _) as [rows|] eqn:Hf; by injection H as <- <-.
  - by intros d r d' [= <- <-].
  - by intros d r d' [= <- <-].
  - done.
Defined.
End mem.
