(* ===== verification/outbox.v ===== *)
(** The durable queue of mutations for the server, and its refinement of a ledger. *)
From Stdlib Require Import ZArith Lia Ascii Sorted.
From stdpp Require Import strings pretty gmap functions option list sorting relations.
From S2P Require Import prelude rust_str std_path std_fs fs_facts db journal_store index_sql tables.

Open Scope string_scope.
Open Scope list_scope.


(** * [apps/desktop/src-tauri/src/storage/outbox.rs]: the durable queue of mutations for
    the server. *)

(** * The table *)

(** A row of [desktop_outbox]; integers are [i64]. *)
Record OutboxRow := mkOutboxRow {
  ob_id : Z;
  ob_kind : string;
  ob_key : string;
  ob_payload : string;
  ob_state : string;
  ob_attempts : Z;
  ob_last_error : option string;
  ob_created : Z;
  ob_updated : Z;
}.
(** The rows in the order of [id], and the next [id] ([AUTOINCREMENT]). *)
Record OutboxTable := mkOutboxTable { ot_rows : list OutboxRow; ot_next : Z }.

Definition same_mutation (kind key : string) (r : OutboxRow) : bool :=
  (ob_kind r =? kind)%string && (ob_key r =? key)%string.
Definition add_row (kind key payload : string) (now : Z) (t : OutboxTable) : OutboxTable :=
  mkOutboxTable (ot_rows t ++ [mkOutboxRow (ot_next t) kind key payload "pending" 0 None now now]) (ot_next t + 1).
Definition with_state (state : string) (increment : Z) (code : option string) (now : Z) (r : OutboxRow) : OutboxRow :=
  mkOutboxRow (ob_id r) (ob_kind r) (ob_key r) (ob_payload r) state (ob_attempts r + increment)
    (match code with Some c => Some c | None => ob_last_error r end) (ob_created r) now.
(** [UPDATE ... WHERE sel]: the table and the number of rows selected. *)
Definition update_where (sel : OutboxRow -> bool) (f : OutboxRow -> OutboxRow) (t : OutboxTable) : OutboxTable * Z :=
  (mkOutboxTable (map (fun r => if sel r then f r else r) (ot_rows t)) (ot_next t),
   Z.of_nat (length (List.filter sel (ot_rows t)))).

Module OutboxSql.
Definition migrate : string := "CREATE TABLE IF NOT EXISTS desktop_outbox (
            id INTEGER PRIMARY KEY AUTOINCREMENT,
            kind TEXT NOT NULL,
            idempotency_key TEXT NOT NULL,
            payload_json TEXT NOT NULL,
            state TEXT NOT NULL DEFAULT 'pending',
            attempt_count INTEGER NOT NULL DEFAULT 0,
            last_error TEXT,
            created_unix_ms INTEGER NOT NULL,
            updated_unix_ms INTEGER NOT NULL,
            UNIQUE(kind, idempotency_key)
        )".
Definition insert : string := "INSERT INTO desktop_outbox
                    (kind, idempotency_key, payload_json, state, attempt_count, created_unix_ms, updated_unix_ms)
                 VALUES (?1, ?2, ?3, 'pending', 0, ?4, ?4)
                 ON CONFLICT(kind, idempotency_key) DO NOTHING".
Definition supersede : string := "UPDATE desktop_outbox
                 SET state = 'superseded', updated_unix_ms = ?
                 WHERE kind = ? AND state = 'pending' AND idempotency_key < ?".
Definition insert_newest : string := "INSERT INTO desktop_outbox
                    (kind, idempotency_key, payload_json, state, attempt_count, created_unix_ms, updated_unix_ms)
                 SELECT ?, ?, ?, 'pending', 0, ?, ?
                 WHERE NOT EXISTS (
                    SELECT 1 FROM desktop_outbox
                    WHERE kind = ? AND idempotency_key >= ?
                 )
                 ON CONFLICT(kind, idempotency_key) DO NOTHING".
Definition select_pending : string := "SELECT id, kind, idempotency_key, payload_json, attempt_count
                 FROM desktop_outbox
                 WHERE state = 'pending'
                 ORDER BY id ASC
                 LIMIT ?1".
Definition update : string := "UPDATE desktop_outbox
                 SET state = ?2,
                     attempt_count = attempt_count + ?3,
                     last_error = COALESCE(?4, last_error),
                     updated_unix_ms = ?5
                 WHERE id = ?1 AND state = 'pending'".

Definition is_pending (r : OutboxRow) : bool := (ob_state r =? "pending")%string.
(** Texts compare by their bytes. *)
Definition key_lt (a b : string) : bool := match String.compare a b with Lt => true | _ => false end.

Definition execute (sql : string) (binds : list sql_value) (t : OutboxTable) : option (OutboxTable * Z) :=
  if (sql =? migrate)%string then Some (t, 0%Z)
  else if (sql =? insert)%string then
    match binds with
    | [SqlText kind; SqlText key; SqlText payload; SqlInt now] =>
        if existsb (same_mutation kind key) (ot_rows t) then Some (t, 0%Z)
        else Some (add_row kind key payload now t, 1%Z)
    | _ => None
    end
  else if (sql =? supersede)%string then
    match binds with
    | [SqlInt now; SqlText kind; SqlText key] =>
        Some (update_where (fun r => (ob_kind r =? kind)%string && is_pending r && key_lt (ob_key r) key)
                (with_state "superseded" 0 None now) t)
    | _ => None
    end
  else if (sql =? insert_newest)%string then
    match binds with
    | [SqlText kind; SqlText key; SqlText payload; SqlInt created; SqlInt updated; SqlText kind'; SqlText key'] =>
        if existsb (fun r => (ob_kind r =? kind')%string && negb (key_lt (ob_key r) key')) (ot_rows t)
           || existsb (same_mutation kind key) (ot_rows t)
        then Some (t, 0%Z)
        else Some (mkOutboxTable (ot_rows t ++ [mkOutboxRow (ot_next t) kind key payload "pending" 0 None created updated])
                     (ot_next t + 1), 1%Z)
    | _ => None
    end
  else if (sql =? update)%string then
    match binds with
    | [SqlInt id; SqlText state; SqlInt increment; code; SqlInt now] =>
        match text_opt code with
        | Some code => Some (update_where (fun r => (ob_id r =? id)%Z && is_pending r) (with_state state increment code now) t)
        | None => None
        end
    | _ => None
    end
  else None.

Definition pending_columns (r : OutboxRow) : sql_row :=
  [("id", SqlInt (ob_id r)); ("kind", SqlText (ob_kind r)); ("idempotency_key", SqlText (ob_key r));
   ("payload_json", SqlText (ob_payload r)); ("attempt_count", SqlInt (ob_attempts r))].
(** A negative limit is none. *)
Definition fetch (sql : string) (binds : list sql_value) (t : OutboxTable) : option (list sql_row) :=
  if (sql =? select_pending)%string then
    match binds with
    | [SqlInt limit] =>
        let rows := List.filter is_pending (ot_rows t) in
        Some (map pending_columns (if (limit <? 0)%Z then rows else take (Z.to_nat limit) rows))
    | _ => None
    end
  else None.
End OutboxSql.

#[export] Instance outbox_schema : Schema OutboxTable := {
  sc_statements := [OutboxSql.migrate; OutboxSql.insert; OutboxSql.supersede; OutboxSql.insert_newest; OutboxSql.update];
  sc_queries := [OutboxSql.select_pending];
  sc_execute := OutboxSql.execute;
  sc_fetch := OutboxSql.fetch;
}.

(** * The store *)

(** The pool, once [load_from_db] has set it; a lock is never poisoned, since nothing
    panics while it is held. *)
Record OutboxStore := mkOutboxStore { os_pool : option string }.
Record OutboxItem := mkOutboxItem {
  oi_id : Z;
  oi_kind : string;
  oi_idempotency_key : string;
  oi_payload_json : string;
  oi_attempt_count : Z;
}.
#[export] Instance OutboxItem_eq_dec : EqDecision OutboxItem.
Proof. solve_decision. Defined.

Definition i64_max : Z := (2 ^ 63 - 1)%Z.

Module Outbox.
Section outbox.
Context {DB : Type} `{!SqlDb DB, !SqlTx DB, !SqlCount DB}.
Abbreviation IO := (io (world DB) string).

(** [i64::try_from(...).unwrap_or(i64::MAX)] *)
Definition unix_ms : IO Z := let! ms := now_ms in io_ret (Z.min i64_max ms).

Definition migrate (pool : string) : IO unit :=
  io_map_err (fun e => "cannot migrate outbox table: " +:+ e) (Db.execute pool OutboxSql.migrate []).

Definition load_from_db (path : string) : IO OutboxStore :=
  let! pool := io_map_err Db.fmt (Db.open_pool_at path) in
  do! migrate pool;
  io_ret (mkOutboxStore (Some pool)).

(** [self.pool()?], which must be there. *)
Definition with_pool {A} (store : OutboxStore) (k : string -> IO A) : IO A :=
  match os_pool store with
  | Some pool => k pool
  | None => io_fail "outbox database is not initialized"
  end.

Definition enqueue (store : OutboxStore) (kind idempotency_key payload_json : string) : IO unit :=
  with_pool store (fun pool =>
    let! now := unix_ms in
    do! io_map_err (fun e => "cannot enqueue outbox item: " +:+ e)
          (Db.execute pool OutboxSql.insert [SqlText kind; SqlText idempotency_key; SqlText payload_json; SqlInt now]);
    io_ret tt).

(** What [enqueue_replacing_pending] does in its transaction. *)
Definition replace_pending (pool kind idempotency_key payload_json : string) (now : Z) : IO bool :=
  do! io_map_err (fun e => "cannot supersede older outbox item: " +:+ e)
        (Db.execute pool OutboxSql.supersede [SqlInt now; SqlText kind; SqlText idempotency_key]);
  do! io_map_err (fun e => "cannot enqueue replacement outbox item: " +:+ e)
        (Db.execute pool OutboxSql.insert_newest
           [SqlText kind; SqlText idempotency_key; SqlText payload_json; SqlInt now; SqlInt now;
            SqlText kind; SqlText idempotency_key]);
  let! inserted := rows_affected pool in
  io_ret (0 <? inserted)%Z.
Definition enqueue_replacing_pending (store : OutboxStore) (kind idempotency_key payload_json : string) : IO bool :=
  with_pool store (fun pool =>
    let! now := unix_ms in
    transaction (fun e => "cannot begin outbox replacement: " +:+ e)
      (fun e => "cannot commit outbox replacement: " +:+ e) pool
      (replace_pending pool kind idempotency_key payload_json now)).

Definition item_of_row (row : sql_row) : result OutboxItem string :=
  let? id := try_get_int row "id" in
  let? kind := try_get_text row "kind" in
  let? key := try_get_text row "idempotency_key" in
  let? payload := try_get_text row "payload_json" in
  let? attempts := try_get_int row "attempt_count" in
  Ok (mkOutboxItem id kind key payload attempts).
Definition pending_batch (store : OutboxStore) (limit : Z) : IO (list OutboxItem) :=
  match os_pool store with
  | None => io_ret []
  | Some pool =>
      let! rows := io_map_err (fun e => "cannot read outbox batch: " +:+ e)
                     (Db.fetch_all pool OutboxSql.select_pending [SqlInt limit]) in
      io_lift (try_map item_of_row rows)
  end.

Definition update_state (store : OutboxStore) (id : Z) (state : string) (error_code : option string) : IO unit :=
  with_pool store (fun pool =>
    let! now := unix_ms in
    let increment := if (state =? "sent")%string then 0%Z else 1%Z in
    do! io_map_err (fun e => "cannot update outbox item: " +:+ e)
          (Db.execute pool OutboxSql.update
             [SqlInt id; SqlText state; SqlInt increment; opt_text error_code; SqlInt now]);
    io_ret tt).
Definition mark_sent (store : OutboxStore) (id : Z) : IO unit := update_state store id "sent" None.
Definition mark_retry (store : OutboxStore) (id : Z) (error_code : string) : IO unit :=
  update_state store id "pending" (Some error_code).
Definition mark_failed (store : OutboxStore) (id : Z) (error_code : string) : IO unit :=
  update_state store id "failed" (Some error_code).
End outbox.
End Outbox.

(** * The outbox against its specification: a ledger of mutations, each delivered,
    refused or superseded at most once. *)

(** * The specification *)

Inductive delivery := Pending | Sent | Failed | Superseded.
#[export] Instance delivery_eq_dec : EqDecision delivery.
Proof. solve_decision. Defined.
Record mutation := mkMutation {
  mu_id : Z;
  mu_kind : string;
  mu_key : string;
  mu_payload : string;
  mu_delivery : delivery;
}.
(** The mutations in the order they were queued. *)
Abbreviation ledger := (list mutation).

Definition settled (d : delivery) (m : mutation) : mutation := mkMutation (mu_id m) (mu_kind m) (mu_key m) (mu_payload m) d.
Definition name_of (m : mutation) : string * string := (mu_kind m, mu_key m).
Definition pending_of (m : mutation) : bool := match mu_delivery m with Pending => true | _ => false end.
Definition settle (id : Z) (d : delivery) (l : ledger) : ledger :=
  map (fun m => if (mu_id m =? id)%Z && pending_of m then settled d m else m) l.
(** The pending mutations of the kind with an earlier key are superseded. *)
Definition supersede (kind key : string) (l : ledger) : ledger :=
  map (fun m => if (mu_kind m =? kind)%string && pending_of m && OutboxSql.key_lt (mu_key m) key
                then settled Superseded m else m) l.
(** No mutation of the kind has this key or a later one. *)
Definition newest (kind key : string) (l : ledger) : Prop :=
  Forall (fun m => mu_kind m = kind -> OutboxSql.key_lt (mu_key m) key = true) l.

Inductive outbox_command :=
| OEnqueue (kind key payload : string)
| OReplace (kind key payload : string)
| OBatch (limit : Z)
| OSent (id : Z)
| ORetry (id : Z) (code : string)
| OFailed (id : Z) (code : string).
Inductive outbox_answer := ADone | AReplaced (inserted : bool) | AItems (items : list OutboxItem).

(** An item handed out is a mutation of the ledger. *)
Definition item_for (item : OutboxItem) (m : mutation) : Prop :=
  oi_id item = mu_id m /\ oi_kind item = mu_kind m /\ oi_idempotency_key item = mu_key m /\ oi_payload_json item = mu_payload m.
Definition fresh_id (id : Z) (l : ledger) : Prop := Forall (fun m => (mu_id m < id)%Z) l.

(** What a command that succeeds does to the ledger, and answers. *)
Inductive ledger_does (l : ledger) : outbox_command -> outbox_answer -> ledger -> Prop :=
| does_queue kind key payload id :
    (kind, key) ∉ map name_of l -> fresh_id id l ->
    ledger_does l (OEnqueue kind key payload) ADone (l ++ [mkMutation id kind key payload Pending])
| does_nothing kind key payload :
    (kind, key) ∈ map name_of l -> ledger_does l (OEnqueue kind key payload) ADone l
| does_replace kind key payload id :
    newest kind key l -> fresh_id id l ->
    ledger_does l (OReplace kind key payload) (AReplaced true) (supersede kind key l ++ [mkMutation id kind key payload Pending])
| does_come_late kind key payload :
    ~ newest kind key l -> ledger_does l (OReplace kind key payload) (AReplaced false) (supersede kind key l)
| does_hand_out limit items :
    (0 <= limit)%Z -> Forall2 item_for items (take (Z.to_nat limit) (List.filter pending_of l)) ->
    ledger_does l (OBatch limit) (AItems items) l
| does_hand_out_all limit items :
    (limit < 0)%Z -> Forall2 item_for items (List.filter pending_of l) -> ledger_does l (OBatch limit) (AItems items) l
| does_send id : ledger_does l (OSent id) ADone (settle id Sent l)
| does_keep id code : ledger_does l (ORetry id code) ADone l
| does_fail id code : ledger_does l (OFailed id code) ADone (settle id Failed l).

(** * What the tables say *)

Definition delivery_of (state : string) : delivery :=
  if (state =? "pending")%string then Pending else if (state =? "sent")%string then Sent
  else if (state =? "failed")%string then Failed else Superseded.
Definition mutation_of (r : OutboxRow) : mutation :=
  mkMutation (ob_id r) (ob_kind r) (ob_key r) (ob_payload r) (delivery_of (ob_state r)).
Definition ledger_of (t : OutboxTable) : ledger := map mutation_of (ot_rows t).

(** The type invariant of the table: its constraints, and ids that count up. *)
Record outbox_ok (t : OutboxTable) : Prop := {
  ok_ids : StronglySorted Z.lt (map ob_id (ot_rows t));
  ok_next : Forall (fun r => (ob_id r < ot_next t)%Z) (ot_rows t);
  ok_unique : NoDup (map name_of (ledger_of t));
  ok_states : Forall (fun r => ob_state r ∈ ["pending"; "sent"; "failed"; "superseded"]) (ot_rows t);
  ok_attempts : Forall (fun r => (0 <= ob_attempts r)%Z) (ot_rows t);
}.

Lemma pending_iff r : OutboxSql.is_pending r = pending_of (mutation_of r).
Proof.
  unfold OutboxSql.is_pending, pending_of, mutation_of, delivery_of. simpl.
  by destruct (ob_state r =? "pending")%string, (ob_state r =? "sent")%string, (ob_state r =? "failed")%string.
Qed.
Lemma same_mutation_iff kind key t :
  existsb (same_mutation kind key) (ot_rows t) = false <-> (kind, key) ∉ map name_of (ledger_of t).
Proof.
  unfold ledger_of. rewrite map_map, <- not_true_iff_false, existsb_exists. apply not_iff_compat.
  rewrite list_elem_of_fmap. unfold same_mutation, name_of. simpl. split.
  - intros (r & Hr & [H1 H2]%andb_true_iff). apply String.eqb_eq in H1, H2. exists r. split; [by rewrite H1, H2|].
    by apply list_elem_of_In.
  - intros (r & [= -> ->] & Hr). exists r. split; [by apply list_elem_of_In|]. by rewrite !String.eqb_refl.
Qed.

(** ** Appending a row *)
Lemma add_row_ok kind key payload now t :
  outbox_ok t -> (kind, key) ∉ map name_of (ledger_of t) ->
  outbox_ok (add_row kind key payload now t) /\
  ledger_of (add_row kind key payload now t) = ledger_of t ++ [mkMutation (ot_next t) kind key payload Pending].
Proof.
  intros [H1 H2 H3 H4 H5] Hn. assert (ledger_of (add_row kind key payload now t) =
    ledger_of t ++ [mkMutation (ot_next t) kind key payload Pending]) as Hl by (unfold ledger_of, add_row; simpl; by rewrite map_app).
  split; [|exact Hl]. split; [| |rewrite Hl|..]; unfold add_row; simpl; rewrite ?map_app, ?Forall_app.
  - apply StronglySorted_app. split_and!; [|exact H1|by repeat constructor].
    intros x y (r & -> & Hr)%list_elem_of_fmap ->%list_elem_of_singleton. rewrite list.Forall_forall in H2. by apply H2.
  - split; [|constructor; [simpl; lia|constructor]]. eapply Forall_impl; [exact H2|]. intros r Hr. simpl in *. lia.
  - apply NoDup_app. split_and!; [exact H3| |apply NoDup_singleton].
    intros x Hx ->%list_elem_of_singleton. done.
  - split; [exact H4|]. apply list.Forall_singleton. simpl. by left.
  - split; [exact H5|]. by apply list.Forall_singleton.
Qed.

(** ** Changing rows *)
Lemma with_state_mutation state n code now r :
  mutation_of (with_state state n code now r) = settled (delivery_of state) (mutation_of r).
Proof. done. Qed.

Lemma update_ok (sel : OutboxRow -> bool) state n code now t :
  outbox_ok t -> state ∈ ["pending"; "sent"; "failed"; "superseded"] -> (0 <= n)%Z ->
  outbox_ok (update_where sel (with_state state n code now) t).1.
Proof.
  intros [H1 H2 H3 H4 H5] Hs Hn. set (f := fun r => if sel r then with_state state n code now r else r).
  assert (forall r, ob_id (f r) = ob_id r) as Hid by (intros r; unfold f; by destruct (sel r)).
  split; simpl; fold f.
  - rewrite map_map. by rewrite (map_ext _ _ Hid).
  - apply Forall_map. eapply Forall_impl; [exact H2|]. intros r Hr. simpl. by rewrite Hid.
  - unfold ledger_of in *. simpl. fold f. rewrite !map_map in *. erewrite map_ext; [exact H3|].
    intros r. unfold f, name_of. by destruct (sel r).
  - apply Forall_map. eapply Forall_impl; [exact H4|]. intros r Hr. simpl. unfold f. by destruct (sel r).
  - apply Forall_map. eapply Forall_impl; [exact H5|]. intros r Hr. simpl in *. unfold f. destruct (sel r); simpl; lia.
Qed.

(** What an update by id does to the ledger. *)
Lemma update_ledger id state n code now t :
  ledger_of (update_where (fun r => (ob_id r =? id)%Z && OutboxSql.is_pending r) (with_state state n code now) t).1 =
  settle id (delivery_of state) (ledger_of t).
Proof.
  unfold ledger_of, settle, update_where. simpl. rewrite !map_map. apply map_ext. intros r. rewrite pending_iff. simpl.
  by destruct (_ && _).
Qed.
Lemma settle_pending id l : settle id Pending l = l.
Proof.
  unfold settle. rewrite <- (map_id l) at 2. apply map_ext. intros [i k y p d]. unfold pending_of, settled. simpl.
  by destruct (_ =? _)%Z, d.
Qed.

(** What superseding does. *)
Lemma supersede_ledger kind key now t :
  ledger_of (update_where (fun r => (ob_kind r =? kind)%string && OutboxSql.is_pending r && OutboxSql.key_lt (ob_key r) key)
    (with_state "superseded" 0 None now) t).1 = supersede kind key (ledger_of t).
Proof.
  unfold ledger_of, update_where, supersede. simpl. rewrite !map_map. apply map_ext. intros r.
  rewrite pending_iff. simpl. by destruct (_ && _ && _).
Qed.
Lemma supersede_names kind key l : map name_of (supersede kind key l) = map name_of l.
Proof. unfold supersede. rewrite map_map. apply map_ext. intros m. by destruct (_ && _ && _). Qed.
Lemma string_compare_refl s : String.compare s s = Eq.
Proof. pose proof (String.compare_antisym s s) as H. by destruct (String.compare s s). Qed.
Lemma newest_unnamed kind key l : newest kind key l -> (kind, key) ∉ map name_of l.
Proof.
  unfold newest. rewrite list.Forall_forall. intros H (m & [= -> ->] & Hm)%list_elem_of_fmap. specialize (H m Hm eq_refl).
  unfold OutboxSql.key_lt in H. by rewrite string_compare_refl in H.
Qed.
Lemma newest_iff kind key t :
  existsb (fun r => (ob_kind r =? kind)%string && negb (OutboxSql.key_lt (ob_key r) key)) (ot_rows t) = false <->
  newest kind key (ledger_of t).
Proof.
  rewrite <- not_true_iff_false, existsb_exists. unfold newest, ledger_of. rewrite Forall_map, list.Forall_forall. split.
  - intros H r Hr Hk. simpl in *. apply not_false_iff_true. intros Hl. apply H. exists r. split; [by apply list_elem_of_In|].
    by rewrite Hk, String.eqb_refl, Hl.
  - intros H (r & Hr & [Hk Hl]%andb_true_iff). apply String.eqb_eq in Hk. apply negb_true_iff in Hl.
    specialize (H r ltac:(by apply list_elem_of_In) Hk). simpl in H. congruence.
Qed.

Lemma supersede_newest kind key l : newest kind key (supersede kind key l) <-> newest kind key l.
Proof.
  unfold newest, supersede. rewrite Forall_map. apply Forall_proper; [|done]. intros m. simpl. by destruct (_ && _ && _).
Qed.

(** ** The statements *)
Lemma execute_insert kind key payload now t :
  OutboxSql.execute OutboxSql.insert [SqlText kind; SqlText key; SqlText payload; SqlInt now] t =
    if existsb (same_mutation kind key) (ot_rows t) then Some (t, 0%Z) else Some (add_row kind key payload now t, 1%Z).
Proof. reflexivity. Qed.
Lemma execute_supersede kind key now t :
  OutboxSql.execute OutboxSql.supersede [SqlInt now; SqlText kind; SqlText key] t =
    Some (update_where (fun r => (ob_kind r =? kind)%string && OutboxSql.is_pending r && OutboxSql.key_lt (ob_key r) key)
      (with_state "superseded" 0 None now) t).
Proof. reflexivity. Qed.
Lemma execute_insert_newest kind key payload now t :
  OutboxSql.execute OutboxSql.insert_newest
    [SqlText kind; SqlText key; SqlText payload; SqlInt now; SqlInt now; SqlText kind; SqlText key] t =
    if existsb (fun r => (ob_kind r =? kind)%string && negb (OutboxSql.key_lt (ob_key r) key)) (ot_rows t)
       || existsb (same_mutation kind key) (ot_rows t)
    then Some (t, 0%Z) else Some (add_row kind key payload now t, 1%Z).
Proof. reflexivity. Qed.
Lemma execute_update id state n code now t :
  OutboxSql.execute OutboxSql.update [SqlInt id; SqlText state; SqlInt n; opt_text code; SqlInt now] t =
    Some (update_where (fun r => (ob_id r =? id)%Z && OutboxSql.is_pending r) (with_state state n code now) t).
Proof. by destruct code. Qed.

(** * The store *)

Section store.
Context {DB : Type} `{!SqlDb DB, !SqlTx DB, !SqlCount DB, !TableDb DB OutboxTable}.
Implicit Types (w : world DB) (p : string) (t : OutboxTable).

Definition run_outbox (store : OutboxStore) (c : outbox_command) : io (world DB) string outbox_answer :=
  match c with
  | OEnqueue kind key payload => do! Outbox.enqueue store kind key payload; io_ret ADone
  | OReplace kind key payload =>
      let! b := Outbox.enqueue_replacing_pending store kind key payload in io_ret (AReplaced b)
  | OBatch limit => let! items := Outbox.pending_batch store limit in io_ret (AItems items)
  | OSent id => do! Outbox.mark_sent store id; io_ret ADone
  | ORetry id code => do! Outbox.mark_retry store id code; io_ret ADone
  | OFailed id code => do! Outbox.mark_failed store id code; io_ret ADone
  end.

Lemma unix_ms_run w r w' : Outbox.unix_ms w = (r, w') -> w' = tick w /\ exists ms, r = Ok ms.
Proof.
  unfold Outbox.unix_ms, now_ms, now_ns. intros H. unfold io_bind in H. simpl in H. injection H as <- <-. eauto.
Qed.
Lemma tick_only p w : db_only p w (tick w).
Proof. split_and!; [done..|simpl; lia|done]. Qed.
Lemma tick_table p w : table_at p (tick w) = table_at p w.
Proof. done. Qed.

Ltac in_outbox := apply (bool_decide_unpack (_ ∈ _)); vm_compute; exact Logic.I.

(** One statement on the outbox. *)
Lemma outbox_statement p sql binds (f : string -> string) w r w' :
  sql ∈ sc_statements (T:=OutboxTable) -> io_map_err f (Db.execute p sql binds) w = (r, w') ->
  in_tables (T:=OutboxTable) p w w' /\
  match r with
  | Ok _ => exists n, OutboxSql.execute sql binds (table_at p w) = Some (table_at p w', n) /\ sql_changes (w_db w' p) = n
  | Err _ => table_at p w' = table_at p w
  end.
Proof.
  intros Hs (r0 & H & ->)%io_map_err_inv. apply statement_run in H as [Hin H]; [|done]. split; [done|]. by destruct r0.
Qed.

Lemma enqueue_run p kind key payload w r w' :
  outbox_ok (table_at p w) -> Outbox.enqueue (mkOutboxStore (Some p)) kind key payload w = (r, w') ->
  db_only p w w' /\ outbox_ok (table_at p w') /\
  match r with
  | Ok _ => ledger_does (ledger_of (table_at p w)) (OEnqueue kind key payload) ADone (ledger_of (table_at p w'))
  | Err _ => ledger_of (table_at p w') = ledger_of (table_at p w)
  end.
Proof.
  intros Hok. unfold Outbox.enqueue, Outbox.with_pool. simpl.
  intros [(now & w1 & H1 & H)|(e & H1 & ->)]%io_bind_inv; apply unix_ms_run in H1 as [-> [ms Hms]]; [|done].
  apply io_bind_inv in H as [(u & w2 & H2 & H)|(e & H2 & ->)]; apply outbox_statement in H2 as [[Ho _] H2]; [|in_outbox| |in_outbox].
  - injection H as <- <-. destruct H2 as (n & Hx & _). rewrite tick_table in Hx. rewrite execute_insert in Hx.
    split; [etrans; [apply tick_only|exact Ho]|]. destruct (existsb _ _) eqn:He.
    + injection Hx as <- _. split; [done|]. apply does_nothing. apply dec_stable.
      rewrite <- same_mutation_iff. by rewrite He.
    + injection Hx as <- _. apply same_mutation_iff in He. destruct (add_row_ok kind key payload now _ Hok He) as [Hok' ->].
      split; [exact Hok'|]. apply does_queue; [done|]. apply Forall_map. eapply Forall_impl; [apply Hok|]. done.
  - rewrite tick_table in H2. split; [etrans; [apply tick_only|exact Ho]|]. by rewrite H2.
Qed.

(** The transaction of a replacement. *)
Lemma replace_pending_in p kind key payload now : io_rel (in_tables (T:=OutboxTable) p) (Outbox.replace_pending (DB:=DB) p kind key payload now).
Proof.
  unfold Outbox.replace_pending, rows_affected. io_rel_go; intros w r w' H; apply statement_run in H as [H _]; try done; in_outbox.
Qed.
Lemma replace_pending_run p kind key payload now w b w' :
  outbox_ok (table_at p w) -> Outbox.replace_pending p kind key payload now w = (Ok b, w') ->
  outbox_ok (table_at p w') /\
  ledger_does (ledger_of (table_at p w)) (OReplace kind key payload) (AReplaced b) (ledger_of (table_at p w')).
Proof.
  intros Hok. unfold Outbox.replace_pending, rows_affected, io_gets.
  intros [(u & w1 & H1 & H)|(e & _ & [=])]%io_bind_inv. apply outbox_statement in H1 as [_ (n & Hx & _)]; [|in_outbox].
  rewrite execute_supersede in Hx. injection Hx as Hx _.
  assert (ledger_of (table_at p w1) = supersede kind key (ledger_of (table_at p w))) as Hl
    by (rewrite <- Hx; apply supersede_ledger).
  apply io_bind_inv in H as [(u2 & w2 & H2 & H)|(e & _ & [=])]. apply outbox_statement in H2 as [_ (n2 & Hx2 & Hn)]; [|in_outbox].
  injection H as <- <-. rewrite Hn. rewrite execute_insert_newest in Hx2.
  assert (outbox_ok (table_at p w1)) as Hok1 by (rewrite <- Hx; apply update_ok; [done|by do 3 right; left|done]).
  destruct (existsb (fun r => (ob_kind r =? kind)%string && _) _) eqn:Hnew; simpl in Hx2.
  - injection Hx2 as <- <-. rewrite Hl. split; [done|]. apply does_come_late.
    rewrite <- supersede_newest, <- Hl, <- newest_iff. by rewrite Hnew.
  - apply newest_iff in Hnew. pose proof (newest_unnamed _ _ _ Hnew) as Hnot.
    rewrite (proj2 (same_mutation_iff kind key _) Hnot) in Hx2. injection Hx2 as <- <-.
    destruct (add_row_ok kind key payload now _ Hok1 Hnot) as [Hok2 ->]. split; [exact Hok2|]. rewrite Hl.
    rewrite Hl, supersede_newest in Hnew. apply does_replace; [done|].
    apply Forall_map. rewrite <- Hx. eapply Forall_impl; [apply Hok|]. done.
Qed.
Lemma replacing_run p kind key payload w r w' :
  outbox_ok (table_at p w) -> Outbox.enqueue_replacing_pending (mkOutboxStore (Some p)) kind key payload w = (r, w') ->
  db_only p w w' /\ outbox_ok (table_at p w') /\
  match r with
  | Ok b => ledger_does (ledger_of (table_at p w)) (OReplace kind key payload) (AReplaced b) (ledger_of (table_at p w'))
  | Err _ => ledger_of (table_at p w') = ledger_of (table_at p w)
  end.
Proof.
  intros Hok. unfold Outbox.enqueue_replacing_pending, Outbox.with_pool. simpl.
  intros [(now & w1 & H1 & H)|(e & H1 & ->)]%io_bind_inv; apply unix_ms_run in H1 as [-> [ms Hms]]; [|done].
  apply table_transaction in H as [Ho H]; [|apply replace_pending_in]. split; [etrans; [apply tick_only|exact Ho]|].
  destruct r as [b|e].
  - destruct H as (w1 & w2 & _ & Ht & Hrun & ->). rewrite tick_table in Ht. rewrite <- Ht in *. by apply replace_pending_run in Hrun.
  - rewrite tick_table in H. by rewrite H.
Qed.

Lemma item_of_pending r : exists item, Outbox.item_of_row (OutboxSql.pending_columns r) = Ok item /\ item_for item (mutation_of r).
Proof. eexists. by split. Qed.
Lemma batch_items rows :
  exists items, try_map Outbox.item_of_row (map OutboxSql.pending_columns rows) = Ok items /\
    Forall2 item_for items (map mutation_of rows).
Proof.
  induction rows as [|r rows (items & IH & Hi)]; [by exists []|]. destruct (item_of_pending r) as (item & Hr & Hitem).
  exists (item :: items). cbn [map try_map]. rewrite Hr. cbn. rewrite IH. split; [done|]. by constructor.
Qed.
Lemma pending_ledger t : map mutation_of (List.filter OutboxSql.is_pending (ot_rows t)) = List.filter pending_of (ledger_of t).
Proof.
  unfold ledger_of. induction (ot_rows t) as [|r l IH]; [done|]. simpl. rewrite pending_iff.
  destruct (pending_of (mutation_of r)); simpl; by rewrite IH.
Qed.
Lemma batch_run p limit w r w' :
  Outbox.pending_batch (mkOutboxStore (Some p)) limit w = (r, w') ->
  db_only p w w' /\ table_at p w' = table_at p w /\
  match r with
  | Ok items => ledger_does (ledger_of (table_at p w)) (OBatch limit) (AItems items) (ledger_of (table_at p w))
  | Err _ => True
  end.
Proof.
  unfold Outbox.pending_batch. simpl.
  intros [(rows & w1 & (r0 & H1 & Hr0)%io_map_err_inv & H)|(e & (r0 & H1 & _)%io_map_err_inv & ->)]%io_bind_inv;
    apply query_run in H1 as ([Ho _] & Ht & Hf); [|in_outbox| |in_outbox]; [|by split_and!].
  destruct r0 as [rows'|]; [|done]. injection Hr0 as <-. unfold io_lift in H. injection H as <- <-. split_and!; [done..|].
  change (Some (map OutboxSql.pending_columns (let rows := List.filter OutboxSql.is_pending (ot_rows (table_at p w)) in
    if (limit <? 0)%Z then rows else take (Z.to_nat limit) rows)) = Some rows) in Hf. injection Hf as <-. cbv zeta.
  destruct (batch_items (if (limit <? 0)%Z then List.filter OutboxSql.is_pending (ot_rows (table_at p w))
    else take (Z.to_nat limit) (List.filter OutboxSql.is_pending (ot_rows (table_at p w))))) as (items & -> & Hi).
  destruct (Z.ltb_spec limit 0).
  - rewrite pending_ledger in Hi. by apply does_hand_out_all.
  - rewrite <- firstn_map, pending_ledger in Hi. by apply does_hand_out.
Qed.

Lemma update_run p id state code w r w' :
  state ∈ ["pending"; "sent"; "failed"] -> outbox_ok (table_at p w) ->
  Outbox.update_state (mkOutboxStore (Some p)) id state code w = (r, w') ->
  db_only p w w' /\ outbox_ok (table_at p w') /\
  ledger_of (table_at p w') =
    match r with Ok _ => settle id (delivery_of state) (ledger_of (table_at p w)) | Err _ => ledger_of (table_at p w) end.
Proof.
  intros Hs Hok. unfold Outbox.update_state, Outbox.with_pool. simpl.
  intros [(now & w1 & H1 & H)|(e & H1 & ->)]%io_bind_inv; apply unix_ms_run in H1 as [-> [ms Hms]]; [|done].
  apply io_bind_inv in H as [(u & w2 & H2 & H)|(e & H2 & ->)]; apply outbox_statement in H2 as [[Ho _] H2]; [|in_outbox| |in_outbox].
  - injection H as <- <-. destruct H2 as (n & Hx & _). rewrite tick_table, execute_update in Hx. injection Hx as Hx _.
    split; [etrans; [apply tick_only|exact Ho]|]. rewrite <- Hx. split; [|apply update_ledger].
    apply update_ok; [done|rewrite !elem_of_cons in *; tauto|]. by destruct (_ =? _)%string.
  - rewrite tick_table in H2. split; [etrans; [apply tick_only|exact Ho]|]. by rewrite H2.
Qed.

Lemma outbox_does p c w res w' :
  outbox_ok (table_at p w) -> run_outbox (mkOutboxStore (Some p)) c w = (res, w') ->
  db_only p w w' /\ outbox_ok (table_at p w') /\
  match res with
  | Ok a => ledger_does (ledger_of (table_at p w)) c a (ledger_of (table_at p w'))
  | Err _ => ledger_of (table_at p w') = ledger_of (table_at p w)
  end.
Proof.
  intros Hok. destruct c; unfold run_outbox; intros [(a & w1 & H1 & H2)|(e & H1 & ->)]%io_bind_inv; try injection H2 as <- <-.
  - destruct (enqueue_run _ _ _ _ _ _ _ Hok H1) as (Ho & Hok' & H). by destruct a.
  - by destruct (enqueue_run _ _ _ _ _ _ _ Hok H1) as (Ho & Hok' & H).
  - by destruct (replacing_run _ _ _ _ _ _ _ Hok H1) as (Ho & Hok' & H).
  - by destruct (replacing_run _ _ _ _ _ _ _ Hok H1) as (Ho & Hok' & H).
  - destruct (batch_run _ _ _ _ _ H1) as (Ho & Ht & H). by rewrite Ht.
  - destruct (batch_run _ _ _ _ _ H1) as (Ho & Ht & _). by rewrite Ht.
  - apply update_run in H1 as (Ho & Hok' & ->); [|by right; left|done]. split_and!; [done..|]. apply does_send.
  - apply update_run in H1 as (Ho & Hok' & ->); [done|by right; left|done].
  - apply update_run in H1 as (Ho & Hok' & ->); [|by left|done]. split_and!; [done..|].
    change (delivery_of "pending") with Pending. rewrite settle_pending. apply does_keep.
  - apply update_run in H1 as (Ho & Hok' & ->); [done|by left|done].
  - apply update_run in H1 as (Ho & Hok' & ->); [|by right; right; left|done]. split_and!; [done..|]. apply does_fail.
  - apply update_run in H1 as (Ho & Hok' & ->); [done|by right; right; left|done].
Qed.
End store.

(** * The history of a mutation *)

(** A mutation stays as it was queued; once it is settled it stays settled. *)
Definition settles (m m' : mutation) : Prop :=
  m' = m \/ mu_delivery m = Pending /\ m' = settled (mu_delivery m') m.
#[export] Instance settles_preorder : PreOrder settles.
Proof.
  split; [by left|]. intros m1 m2 m3 [->|[H1 H1']] [->|[H2 H2']]; [by left|by right|by right|].
  right. split; [done|]. rewrite H2', H1'. by destruct m1.
Qed.
(** What is queued stays in its place. *)
Definition extends (l l' : ledger) : Prop := exists old new, l' = old ++ new /\ Forall2 settles l old.
#[export] Instance extends_preorder : PreOrder extends.
Proof.
  split.
  - intros l. exists l, []. rewrite app_nil_r. split; [done|reflexivity].
  - intros l1 l2 l3 (o1 & n1 & -> & H1) (o2 & n2 & -> & H2). apply Forall2_app_inv_l in H2 as (o3 & o4 & H3 & H4 & ->).
    exists o3, (o4 ++ n2). split; [by rewrite app_assoc|]. by etrans.
Qed.

Lemma extends_map (f : mutation -> mutation) l new : (forall m, settles m (f m)) -> extends l (map f l ++ new).
Proof.
  intros Hf. exists (map f l), new. split; [done|]. rewrite Forall2_fmap_r. apply Forall_Forall2_diag, list.Forall_true. exact Hf.
Qed.
Lemma settles_if (b : mutation -> bool) d m : settles m (if b m && pending_of m then settled d m else m).
Proof.
  destruct (b m && pending_of m) eqn:H; [|by left]. apply andb_true_iff in H as [_ H]. right.
  unfold pending_of in H. by destruct (mu_delivery m).
Qed.
Lemma does_extends l c a l' : ledger_does l c a l' -> extends l l'.
Proof.
  assert (forall kind key new, extends l (supersede kind key l ++ new)) as Hs.
  { intros kind key new. apply extends_map. intros m.
    pose proof (settles_if (fun m => (mu_kind m =? kind)%string && OutboxSql.key_lt (mu_key m) key) Superseded m) as H.
    cbv beta in H. revert H. by destruct (_ =? _)%string, (pending_of m), (OutboxSql.key_lt _ _). }
  assert (forall id d, extends l (settle id d l)) as Ht.
  { intros id d. rewrite <- (app_nil_r (settle id d l)). apply extends_map. intros m.
    apply (settles_if (fun m => (mu_id m =? id)%Z)). }
  intros [].
  - eexists l, _. split; [reflexivity|reflexivity].
  - reflexivity.
  - apply Hs.
  - rewrite <- (app_nil_r (supersede _ _ _)). apply Hs.
  - reflexivity.
  - reflexivity.
  - apply Ht.
  - reflexivity.
  - apply Ht.
Qed.

(** An id names one mutation. *)
Lemma ledger_ids t m m' : outbox_ok t -> m ∈ ledger_of t -> m' ∈ ledger_of t -> mu_id m = mu_id m' -> m = m'.
Proof.
  intros Hok (r & -> & Hr)%list_elem_of_fmap (r' & -> & Hr')%list_elem_of_fmap Hid. simpl in Hid. f_equal.
  pose proof (ok_ids _ Hok) as Hs. clear Hok. induction (ot_rows t) as [|x l IH]; [by apply not_elem_of_nil in Hr|].
  simpl in Hs. apply StronglySorted_inv in Hs as [Hs Hx]. rewrite list.Forall_forall in Hx.
  apply elem_of_cons in Hr as [->|Hr], Hr' as [->|Hr'].
  - done.
  - specialize (Hx (ob_id r') ltac:(by apply list_elem_of_fmap_2)). lia.
  - specialize (Hx (ob_id r) ltac:(by apply list_elem_of_fmap_2)). lia.
  - by apply IH.
Qed.
(** What is handed out is pending. *)
Lemma handed_out l limit items l' item :
  ledger_does l (OBatch limit) (AItems items) l' -> item ∈ items -> exists m, m ∈ l /\ mu_delivery m = Pending /\ item_for item m.
Proof.
  intros H Hitem. assert (exists l2, Forall2 item_for items l2 /\ forall m, m ∈ l2 -> m ∈ List.filter pending_of l) as (l2 & Hl2 & Hsub).
  { inversion H; subst; eexists; (split; [eassumption|]); [|done]. intros m (i & Hi & _)%elem_of_take. by eapply list_elem_of_lookup_2. }
  apply list_elem_of_lookup in Hitem as [i Hi]. destruct (Forall2_lookup_l _ _ _ _ _ Hl2 Hi) as (m & Hm & Hfor).
  exists m. apply list_elem_of_lookup_2, Hsub, list_elem_of_In, filter_In in Hm as [Hm Hp]. split_and!; [by apply list_elem_of_In| |done].
  unfold pending_of in Hp. by destruct (mu_delivery m).
Qed.

Section history.
Context {DB : Type} `{!SqlDb DB, !SqlTx DB, !SqlCount DB, !TableDb DB OutboxTable}.

(** A command on the outbox of the database [p], or anything that leaves that alone. *)
Inductive outbox_step (p : string) (w : world DB) : world DB -> Prop :=
| step_command c : outbox_step p w (run_outbox (mkOutboxStore (Some p)) c w).2
| step_elsewhere w' : table_at p w' = table_at p w -> outbox_step p w w'.
End history.

(** * Properties *)

(** C24: the outbox implements the ledger.  A command on a table that satisfies the
    invariant keeps it; when it succeeds it does to the ledger, and answers, what the
    specification says; when it fails the ledger is as before. *)
Theorem outbox_refines_ledger {DB : Type} `{!SqlDb DB, !SqlTx DB, !SqlCount DB, !TableDb DB OutboxTable}
    (p : string) (c : outbox_command) (w w' : world DB) res :
  outbox_ok (table_at p w) -> run_outbox (mkOutboxStore (Some p)) c w = (res, w') ->
  outbox_ok (table_at p w') /\ (forall q, q <> p -> w_db w' q = w_db w q) /\
  match res with
  | Ok a => ledger_does (ledger_of (table_at p w)) c a (ledger_of (table_at p w'))
  | Err _ => ledger_of (table_at p w') = ledger_of (table_at p w)
  end.
Proof. intros Hok Hrun. apply outbox_does in Hrun as ((_ & _ & _ & H1) & H2 & H3); [by split_and!|done]. Qed.

(** a mutation is queued once and settled once.  Along every sequence of commands
    the queued mutations keep their place, kind, key and payload; one that was sent,
    refused or superseded stays so, and is not handed out again; no kind and key is
    queued twice. *)
Theorem mutations_settle_once {DB : Type} `{!SqlDb DB, !SqlTx DB, !SqlCount DB, !TableDb DB OutboxTable}
    (p : string) (w w' : world DB) :
  outbox_ok (table_at p w) -> rtc (outbox_step p) w w' ->
  extends (ledger_of (table_at p w)) (ledger_of (table_at p w')) /\
  NoDup (map name_of (ledger_of (table_at p w'))) /\
  forall limit items w2, Outbox.pending_batch (mkOutboxStore (Some p)) limit w' = (Ok items, w2) ->
    forall m item, m ∈ ledger_of (table_at p w) -> item ∈ items -> oi_id item = mu_id m -> mu_delivery m = Pending.
Proof.
  intros Hok Hsteps. assert (outbox_ok (table_at p w') /\ extends (ledger_of (table_at p w)) (ledger_of (table_at p w'))) as [Hok' Hext].
  { induction Hsteps as [w|w1 w2 w3 Hstep _ IH]; [by split|].
    assert (outbox_ok (table_at p w2) /\ extends (ledger_of (table_at p w1)) (ledger_of (table_at p w2))) as [H1 H2].
    { destruct Hstep as [c|w2 ->]; [|by split]. destruct (run_outbox _ c w1) as [res w2] eqn:Hr.
      destruct (outbox_does p c w1 res w2 Hok Hr) as (_ & H1 & H2). split; [done|].
      destruct res as [a|e]; simpl; [by eapply does_extends|by rewrite H2]. }
    destruct (IH H1) as [H3 H4]. split; [done|by etrans]. }
  split_and!; [done|apply Hok'|]. intros limit items w2 Hb m item Hm Hitem Hid.
  apply batch_run in Hb as (_ & _ & Hb). destruct (handed_out _ _ _ _ _ Hb Hitem) as (m2 & Hm2 & Hp & Hfor & _).
  destruct Hext as (old & new & Hl & Hold). apply list_elem_of_lookup in Hm as [i Hi].
  destruct (Forall2_lookup_l _ _ _ _ _ Hold Hi) as (m' & Hm' & Hset).
  assert (m' = m2) as ->.
  { eapply ledger_ids; [exact Hok'| |exact Hm2|].
    - rewrite Hl. apply elem_of_app. left. by eapply list_elem_of_lookup_2.
    - destruct Hset as [->|[_ ->]]; [congruence|simpl; congruence]. }
  destruct Hset as [->|[H _]]; done.
Qed.

(** * Witnesses *)

Definition outbox_machine : world (MemTables OutboxTable) :=
  mkWorld sample_tree (fun _ => mem_of (mkOutboxTable [] 1)) steady_clock 0 no_faults 0 100 [].
Definition outbox_db : string := "/home/outbox.db".
Definition sample_outbox : OutboxStore := mkOutboxStore (Some outbox_db).
Lemma empty_outbox_ok : outbox_ok (table_at outbox_db outbox_machine).
Proof. split; constructor. Qed.

Definition enqueued := run_outbox sample_outbox (OEnqueue "proposal" "cmd-1" "{}") outbox_machine.
Definition sent := run_outbox sample_outbox (OSent 1) enqueued.2.

Lemma outbox_refines_ledger_witness :
  ledger_does (ledger_of (table_at outbox_db outbox_machine)) (OEnqueue "proposal" "cmd-1" "{}") ADone
    (ledger_of (table_at outbox_db enqueued.2)).
Proof.
  assert (is_ok enqueued.1 = true) as Hok by (vm_compute; reflexivity).
  destruct enqueued as [[a|e] w'] eqn:H; [|discriminate Hok].
  destruct (outbox_refines_ledger outbox_db (OEnqueue "proposal" "cmd-1" "{}") outbox_machine w' (Ok a) empty_outbox_ok H)
    as (_ & _ & Hdoes).
  inversion Hdoes; subst; exact Hdoes.
Defined.

Lemma mutations_settle_once_witness :
  extends (ledger_of (table_at outbox_db enqueued.2)) (ledger_of (table_at outbox_db sent.2)) /\
  length (ledger_of (table_at outbox_db sent.2)) = 1%nat.
Proof.
  split; [|vm_compute; reflexivity].
  assert (outbox_ok (table_at outbox_db enqueued.2)) as Hok.
  { replace (table_at outbox_db enqueued.2) with (mkOutboxTable [mkOutboxRow 1 "proposal" "cmd-1" "{}" "pending" 0 None 1700000000000 1700000000000] 2)
      by (vm_compute; reflexivity).
    split; [repeat constructor|repeat constructor|apply NoDup_singleton|repeat constructor|repeat constructor]. simpl. lia. }
  assert (rtc (outbox_step outbox_db) enqueued.2 sent.2) as Hsteps by (apply rtc_once, (step_command outbox_db _ (OSent 1))).
  destruct (mutations_settle_once outbox_db enqueued.2 sent.2 Hok Hsteps) as [Hext _]. exact Hext.
Defined.
