(* ===== verification/desk.v ===== *)
(** What the stores of the desktop share: a [BTreeMap] as a finite map read in the
    order of its keys, and operations on a part of a larger state. *)
From Stdlib Require Import ZArith Lia Ascii.
From stdpp Require Import strings pretty gmap functions option list.
From S2P Require Import prelude rust_str std_path std_fs fs_facts db index_sql tables.

Open Scope string_scope.
Open Scope list_scope.

(** * Maps in the order of their keys *)

Definition key_cmp {A} (x y : string * A) : comparison := String.compare x.1 y.1.
Definition entries {A} (m : gmap string A) : list (string * A) := sort_by key_cmp (map_to_list m).
(** [BTreeMap::values] *)
Definition values {A} (m : gmap string A) : list A := map snd (entries m).
(** [Iterator::find] *)
Definition find {A} (f : A -> bool) (l : list A) : option A := find_map (fun a => if f a then Some a else None) l.

Lemma elem_of_entries {A} (m : gmap string A) k a : (k, a) ∈ entries m <-> m !! k = Some a.
Proof. unfold entries. by rewrite elem_of_sort_by, elem_of_map_to_list. Qed.
Lemma elem_of_values {A} (m : gmap string A) a : a ∈ values m <-> exists k, m !! k = Some a.
Proof.
  unfold values. rewrite list_elem_of_fmap. split.
  - intros ([k x] & -> & H%elem_of_entries). by exists k.
  - intros (k & H%elem_of_entries). by exists (k, a).
Qed.
Lemma find_some {A} (f : A -> bool) l a : find f l = Some a -> a ∈ l /\ f a = true.
Proof.
  unfold find. induction l as [|x l IH]; simpl; [done|]. destruct (f x) eqn:Hx.
  - intros [= ->]. split; [by left|done].
  - intros [H1 H2]%IH. split; [by right|done].
Qed.
Lemma find_none {A} (f : A -> bool) l : find f l = None <-> Forall (fun a => f a = false) l.
Proof.
  unfold find. induction l as [|x l IH]; simpl; [by split|]. rewrite Forall_cons, <- IH. destruct (f x); by intuition.
Qed.

Lemma entries_fmap {A B} (f : A -> B) (m : gmap string A) : entries (f <$> m) = map (prod_map id f) (entries m).
Proof.
  unfold entries. assert (sort_by key_cmp (map (prod_map id f) (map_to_list m)) = map (prod_map id f) (sort_by key_cmp (map_to_list m))) as <-.
  { induction (map_to_list m) as [|x l IH]; [done|]. simpl. rewrite IH. generalize (sort_by key_cmp l). clear.
    induction l as [|y l IH]; [done|]. simpl. unfold key_cmp at 1 3. simpl. destruct (String.compare x.1 y.1); simpl; [done..|by rewrite IH]. }
  apply sort_by_unique; [apply cmp_on_total, _| |by rewrite map_to_list_fmap].
  intros x y Hx Hy Hxy%String.compare_eq_iff. destruct x as [i x], y as [j y]. simpl in Hxy. subst j.
  apply elem_of_map_to_list in Hx, Hy. congruence.
Qed.
Lemma find_map_comm {A B} (g : B -> A) (f : A -> bool) l : find f (map g l) = g <$> find (fun b => f (g b)) l.
Proof. unfold find. induction l as [|b l IH]; simpl; [done|]. by destruct (f (g b)). Qed.

(** * A part of the state *)

(** [m] on the part [get] of the state. *)
Definition zoom {W V E A} (get : W -> V) (put : V -> W -> W) (m : io V E A) : io W E A :=
  fun w => let '(r, v) := m (get w) in (r, put v w).

Lemma zoom_run {W V E A} (get : W -> V) (put : V -> W -> W) (m : io V E A) w r w' :
  zoom get put m w = (r, w') -> exists v, m (get w) = (r, v) /\ w' = put v w.
Proof. unfold zoom. destruct (m (get w)) as [r0 v]. intros [= <- <-]. eauto. Qed.

Lemma io_rel_zoom {W V E A} (R : V -> V -> Prop) (S : W -> W -> Prop) (get : W -> V) (put : V -> W -> W) (m : io V E A) :
  io_rel R m -> (forall w v, R (get w) v -> S w (put v w)) -> io_rel S (zoom get put m).
Proof. intros Hm Hput w r w' (v & H & ->)%zoom_run. apply Hput. by eapply Hm. Qed.

(** A store with the world around it. *)
Section store.
Context {S DB E : Type}.
Definition on_world {A} (m : io (world DB) E A) : io (S * world DB) E A := zoom snd (fun w s => (s.1, w)) m.
Definition get_store : io (S * world DB) E S := io_gets fst.
Definition set_store (s : S) : io (S * world DB) E unit := fun st => (Ok tt, (s, st.2)).

Lemma on_world_run {A} (m : io (world DB) E A) s w r st :
  on_world m (s, w) = (r, st) -> exists w', m w = (r, w') /\ st = (s, w').
Proof. intros H. by apply zoom_run in H. Qed.
End store.
