(* ===== verification/managed_roots.v ===== *)
(** [apps/desktop/src-tauri/src/storage/managed_roots.rs]: the registry of the folders
    the desktop manages and the rooms they are bound to, in memory and in a database. *)
From Stdlib Require Import ZArith Lia Ascii Sorted.
From stdpp Require Import strings pretty gmap functions option list relations.
From S2P Require Import prelude rust_str std_path std_fs fs_facts path_guard db proposal_types index_sql tables desk.

Open Scope string_scope.
Open Scope list_scope.

Inductive RoomBindingStatus := Unbound | Active | Detached.
Inductive ManagedRootStatus := RootReady | RootMissing | RootError.
Record ManagedRoot := mkManagedRoot {
  mr_root_id : string;
  mr_root : string;
  mr_display_name : string;
  mr_enabled : bool;
  mr_watch_on_startup : bool;
  mr_last_seen_status : ManagedRootStatus;
  mr_last_error : option string;
  mr_registered_unix_ms : Z;          (** [i64] *)
  mr_updated_unix_ms : Z;             (** [i64] *)
  mr_room_id : option string;
  mr_detached_room_id : option string;
  mr_room_binding_status : RoomBindingStatus;
}.
Record ManagedRootStatePatch := mkManagedRootStatePatch {
  patch_enabled : option bool;
  patch_watch_on_startup : option bool;
}.
#[export] Instance RoomBindingStatus_eq_dec : EqDecision RoomBindingStatus.
Proof. solve_decision. Defined.
#[export] Instance ManagedRootStatus_eq_dec : EqDecision ManagedRootStatus.
Proof. solve_decision. Defined.
#[export] Instance ManagedRoot_eq_dec : EqDecision ManagedRoot.
Proof. solve_decision. Defined.

(** * The table *)

(** A row of [managed_roots]; a column the table does not have yet holds its default. *)
Record RootRow := mkRootRow {
  rr_root_id : string;
  rr_canonical_path : string;
  rr_display_name : string;
  rr_enabled : Z;
  rr_watch_on_startup : Z;
  rr_last_seen_status : string;
  rr_last_error : option string;
  rr_registered_unix_ms : Z;
  rr_updated_unix_ms : Z;
  rr_room_id : option string;
  rr_detached_room_id : option string;
  rr_room_binding_status : string;
}.
(** The columns the table has, none before it is made, and the rows in the order they
    were inserted, which is the order of a scan. *)
Record RootTable := mkRootTable { rt_columns : list string; rt_rows : list RootRow }.

Definition has_id (id : string) (r : RootRow) : bool := (rr_root_id r =? id)%string.
Definition has_path (path : string) (r : RootRow) : bool := (rr_canonical_path r =? path)%string.

Module RootSql.
Definition create : string := "CREATE TABLE IF NOT EXISTS managed_roots (
            root_id         TEXT PRIMARY KEY,
            canonical_path  TEXT NOT NULL UNIQUE,
            display_name    TEXT NOT NULL
        )".
Definition table_info : string := "PRAGMA table_info(managed_roots)".
Definition add_enabled : string := "ALTER TABLE managed_roots ADD COLUMN enabled INTEGER NOT NULL DEFAULT 1".
Definition add_room_id : string := "ALTER TABLE managed_roots ADD COLUMN room_id TEXT".
Definition add_detached_room_id : string := "ALTER TABLE managed_roots ADD COLUMN detached_room_id TEXT".
Definition add_room_binding_status : string :=
  "ALTER TABLE managed_roots ADD COLUMN room_binding_status TEXT NOT NULL DEFAULT 'unbound'".
Definition add_watch_on_startup : string := "ALTER TABLE managed_roots ADD COLUMN watch_on_startup INTEGER NOT NULL DEFAULT 1".
Definition add_last_seen_status : string := "ALTER TABLE managed_roots ADD COLUMN last_seen_status TEXT NOT NULL DEFAULT 'ready'".
Definition add_last_error : string := "ALTER TABLE managed_roots ADD COLUMN last_error TEXT".
Definition add_registered : string := "ALTER TABLE managed_roots ADD COLUMN registered_unix_ms INTEGER NOT NULL DEFAULT 0".
Definition add_updated : string := "ALTER TABLE managed_roots ADD COLUMN updated_unix_ms INTEGER NOT NULL DEFAULT 0".
Definition normalize : string := "UPDATE managed_roots
         SET detached_room_id = COALESCE(detached_room_id, room_id), room_id = NULL
         WHERE room_binding_status = 'detached' AND room_id IS NOT NULL".
Definition select : string := "SELECT root_id, canonical_path, display_name, enabled, watch_on_startup,
                last_seen_status, last_error, registered_unix_ms, updated_unix_ms,
                room_id, detached_room_id, room_binding_status
         FROM managed_roots".
Definition upsert : string := "INSERT INTO managed_roots (
             root_id, canonical_path, display_name, enabled, watch_on_startup,
             last_seen_status, last_error, registered_unix_ms, updated_unix_ms,
             room_id, detached_room_id, room_binding_status
         )
         VALUES (?, ?, ?, ?, ?, ?, ?, ?, ?, ?, ?, ?)
         ON CONFLICT(root_id) DO UPDATE SET
             canonical_path = excluded.canonical_path,
             display_name = excluded.display_name,
             enabled = excluded.enabled,
             watch_on_startup = excluded.watch_on_startup,
             last_seen_status = excluded.last_seen_status,
             last_error = excluded.last_error,
             registered_unix_ms = excluded.registered_unix_ms,
             updated_unix_ms = excluded.updated_unix_ms,
             room_id = excluded.room_id,
             detached_room_id = excluded.detached_room_id,
             room_binding_status = excluded.room_binding_status".
Definition delete : string := "DELETE FROM managed_roots WHERE root_id = ?1".

(** The columns that [migrate] adds, with the statements that do. *)
Definition additions : list (string * string) :=
  [("enabled", add_enabled); ("room_id", add_room_id); ("detached_room_id", add_detached_room_id);
   ("room_binding_status", add_room_binding_status); ("watch_on_startup", add_watch_on_startup);
   ("last_seen_status", add_last_seen_status); ("last_error", add_last_error);
   ("registered_unix_ms", add_registered); ("updated_unix_ms", add_updated)].
Definition base_columns : list string := ["root_id"; "canonical_path"; "display_name"].
Definition all_columns : list string := base_columns ++ map fst additions.
Definition complete (t : RootTable) : bool := forallb (fun c => existsb (String.eqb c) (rt_columns t)) all_columns.

Definition normalized (r : RootRow) : RootRow :=
  if (rr_room_binding_status r =? "detached")%string && is_ok (match rr_room_id r with Some _ => Ok tt | None => Err tt end)
  then mkRootRow (rr_root_id r) (rr_canonical_path r) (rr_display_name r) (rr_enabled r) (rr_watch_on_startup r)
         (rr_last_seen_status r) (rr_last_error r) (rr_registered_unix_ms r) (rr_updated_unix_ms r) None
         (match rr_detached_room_id r with Some d => Some d | None => rr_room_id r end) (rr_room_binding_status r)
  else r.

(** A row of the same id is overwritten in its place; no other row may have the path. *)
Definition put_row (r : RootRow) (rows : list RootRow) : option (list RootRow) :=
  if existsb (fun x => has_path (rr_canonical_path r) x && negb (has_id (rr_root_id r) x)) rows then None
  else if existsb (has_id (rr_root_id r)) rows
       then Some (map (fun x => if has_id (rr_root_id r) x then r else x) rows)
       else Some (rows ++ [r]).
Definition row_of_binds (binds : list sql_value) : option RootRow :=
  match binds with
  | [SqlText id; SqlText path; SqlText name; SqlInt enabled; SqlInt watch; SqlText status; error; SqlInt registered;
     SqlInt updated; room; detached; SqlText binding] =>
      match text_opt error, text_opt room, text_opt detached with
      | Some error, Some room, Some detached =>
          Some (mkRootRow id path name enabled watch status error registered updated room detached binding)
      | _, _, _ => None
      end
  | _ => None
  end.

Definition execute (sql : string) (binds : list sql_value) (t : RootTable) : option (RootTable * Z) :=
  if (sql =? create)%string then
    Some (if bool_decide (rt_columns t = []) then mkRootTable base_columns [] else t, 0%Z)
  else if (sql =? normalize)%string then
    if complete t then Some (mkRootTable (rt_columns t) (map normalized (rt_rows t)), 0%Z) else None
  else if (sql =? upsert)%string then
    if complete t then
      match row_of_binds binds with
      | Some r => match put_row r (rt_rows t) with
                  | Some rows => Some (mkRootTable (rt_columns t) rows, 1%Z)
                  | None => None
                  end
      | None => None
      end
    else None
  else if (sql =? delete)%string then
    match binds with
    | [SqlText id] => Some (mkRootTable (rt_columns t) (List.filter (fun r => negb (has_id id r)) (rt_rows t)),
                            Z.of_nat (length (List.filter (has_id id) (rt_rows t))))
    | _ => None
    end
  else match find (fun a => (sql =? a.2)%string) additions with
       | Some (column, _) =>
           if existsb (String.eqb column) (rt_columns t) then None
           else Some (mkRootTable (rt_columns t ++ [column]) (rt_rows t), 0%Z)
       | None => None
       end.

Definition columns_of (r : RootRow) : sql_row :=
  [("root_id", SqlText (rr_root_id r)); ("canonical_path", SqlText (rr_canonical_path r));
   ("display_name", SqlText (rr_display_name r)); ("enabled", SqlInt (rr_enabled r));
   ("watch_on_startup", SqlInt (rr_watch_on_startup r)); ("last_seen_status", SqlText (rr_last_seen_status r));
   ("last_error", opt_text (rr_last_error r)); ("registered_unix_ms", SqlInt (rr_registered_unix_ms r));
   ("updated_unix_ms", SqlInt (rr_updated_unix_ms r)); ("room_id", opt_text (rr_room_id r));
   ("detached_room_id", opt_text (rr_detached_room_id r)); ("room_binding_status", SqlText (rr_room_binding_status r))].
Definition fetch (sql : string) (binds : list sql_value) (t : RootTable) : option (list sql_row) :=
  if (sql =? table_info)%string then Some (map (fun c => [("name", SqlText c)]) (rt_columns t))
  else if (sql =? select)%string then if complete t then Some (map columns_of (rt_rows t)) else None
  else None.
End RootSql.

#[export] Instance root_schema : Schema RootTable := {
  sc_statements := [RootSql.create; RootSql.normalize; RootSql.upsert; RootSql.delete] ++ map snd RootSql.additions;
  sc_queries := [RootSql.table_info; RootSql.select];
  sc_execute := RootSql.execute;
  sc_fetch := RootSql.fetch;
}.

(** * The store *)

(** A [BTreeMap] of the roots by their ids, and the pool once a database is loaded. *)
Record RootStore := mkRootStore { ms_roots : gmap string ManagedRoot; ms_pool : option string }.
Definition empty_store : RootStore := mkRootStore ∅ None.
Definition with_roots (m : gmap string ManagedRoot) (s : RootStore) : RootStore := mkRootStore m (ms_pool s).

Definition with_binding (room detached : option string) (status : RoomBindingStatus) (now : Z) (r : ManagedRoot) : ManagedRoot :=
  mkManagedRoot (mr_root_id r) (mr_root r) (mr_display_name r) (mr_enabled r) (mr_watch_on_startup r)
    (mr_last_seen_status r) (mr_last_error r) (mr_registered_unix_ms r) now room detached status.
Definition with_health (status : ManagedRootStatus) (error : option string) (now : Z) (r : ManagedRoot) : ManagedRoot :=
  mkManagedRoot (mr_root_id r) (mr_root r) (mr_display_name r) (mr_enabled r) (mr_watch_on_startup r)
    status error (mr_registered_unix_ms r) now (mr_room_id r) (mr_detached_room_id r) (mr_room_binding_status r).
Definition with_patch (p : ManagedRootStatePatch) (now : Z) (r : ManagedRoot) : ManagedRoot :=
  mkManagedRoot (mr_root_id r) (mr_root r) (mr_display_name r)
    (match patch_enabled p with Some b => b | None => mr_enabled r end)
    (match patch_watch_on_startup p with Some b => b | None => mr_watch_on_startup r end)
    (mr_last_seen_status r) (mr_last_error r) (mr_registered_unix_ms r) now
    (mr_room_id r) (mr_detached_room_id r) (mr_room_binding_status r).

Definition opt_is (o : option string) (s : string) : bool := match o with Some t => (t =? s)%string | None => false end.
Definition unwrap_or {A E} (r : result A E) (a : A) : A := match r with Ok x => x | Err _ => a end.
Module ManagedRoots.
Definition status_str (s : ManagedRootStatus) : string :=
  match s with RootReady => "ready" | RootMissing => "missing" | RootError => "error" end.
Definition status_of_str (s : string) : ManagedRootStatus :=
  if (s =? "missing")%string then RootMissing else if (s =? "error")%string then RootError else RootReady.
Definition binding_str (s : RoomBindingStatus) : string :=
  match s with Unbound => "unbound" | Active => "active" | Detached => "detached" end.
Definition binding_of_str (s : string) : RoomBindingStatus :=
  if (s =? "active")%string then Active else if (s =? "detached")%string then Detached else Unbound.
Definition bool_int (b : bool) : Z := if b then 1%Z else 0%Z.
Definition int_bool (z : Z) : bool := negb (z =? 0)%Z.

(** ** Overlapping roots *)

(** [Path == Path] compares the components. *)
Definition same_path (p q : string) : bool := bool_decide (components p = components q).
Fixpoint ensure_not_overlapping_iter (roots : list ManagedRoot) (candidate : ManagedRoot) : result unit string :=
  match roots with
  | [] => Ok tt
  | existing :: rest =>
      if (mr_root_id existing =? mr_root_id candidate)%string then ensure_not_overlapping_iter rest candidate
      else if same_path (mr_root existing) (mr_root candidate) then
        Err ("managed root is already registered: " +:+ mr_root candidate)
      else if path_starts_with (mr_root existing) (mr_root candidate) then
        Err ("managed root overlaps an existing registered child root: candidate=" +:+ mr_root candidate
             +:+ ", existing=" +:+ mr_root existing)
      else if path_starts_with (mr_root candidate) (mr_root existing) then
        Err ("managed root overlaps an existing registered parent root: candidate=" +:+ mr_root candidate
             +:+ ", existing=" +:+ mr_root existing)
      else ensure_not_overlapping_iter rest candidate
  end.
Definition ensure_not_overlapping (roots : gmap string ManagedRoot) (candidate : ManagedRoot) : result unit string :=
  ensure_not_overlapping_iter (values roots) candidate.
Definition without_index {A} (i : nat) (l : list A) : list A := take i l ++ drop (S i) l.
Fixpoint validate_go (roots : list ManagedRoot) (i : nat) (rest : list ManagedRoot) : result unit string :=
  match rest with
  | [] => Ok tt
  | candidate :: rest =>
      let? _ := ensure_not_overlapping_iter (without_index i roots) candidate in validate_go roots (S i) rest
  end.
Definition validate_no_overlaps (roots : list ManagedRoot) : result unit string := validate_go roots 0 roots.

(** The root of the room [room_id], also when it was detached from it. *)
Definition of_room (room_id : string) (r : ManagedRoot) : bool :=
  opt_is (mr_room_id r) room_id
  || (bool_decide (mr_room_binding_status r = Detached) && opt_is (mr_detached_room_id r) room_id).

Section managed_roots.
Context {DB : Type} `{!SqlDb DB}.
Abbreviation WIO := (io (world DB) string).
Abbreviation IO := (io (RootStore * world DB) string).

(** ** The database *)

Definition unix_ms {E} : io (world DB) E Z := let! ms := now_ms in io_ret (Z.min (2 ^ 63 - 1) ms).

Definition add_column_if_missing (pool column alter_sql : string) : WIO unit :=
  let! rows := io_map_err (fun e => "cannot inspect managed_roots table: " +:+ e)
                 (Db.fetch_all pool RootSql.table_info []) in
  if existsb (fun row => match try_get_text row "name" with
                         | Ok name => (name =? column)%string
                         | Err _ => false
                         end) rows
  then io_ret tt
  else io_map_err (fun e => "cannot add managed_roots." +:+ column +:+ ": " +:+ e) (Db.execute pool alter_sql []).

Definition migrate (pool : string) : WIO unit :=
  do! io_map_err (fun e => "cannot create managed_roots table: " +:+ e) (Db.execute pool RootSql.create []);
  do! add_column_if_missing pool "enabled" RootSql.add_enabled;
  do! add_column_if_missing pool "room_id" RootSql.add_room_id;
  do! add_column_if_missing pool "detached_room_id" RootSql.add_detached_room_id;
  do! add_column_if_missing pool "room_binding_status" RootSql.add_room_binding_status;
  do! add_column_if_missing pool "watch_on_startup" RootSql.add_watch_on_startup;
  do! add_column_if_missing pool "last_seen_status" RootSql.add_last_seen_status;
  do! add_column_if_missing pool "last_error" RootSql.add_last_error;
  do! add_column_if_missing pool "registered_unix_ms" RootSql.add_registered;
  do! add_column_if_missing pool "updated_unix_ms" RootSql.add_updated;
  io_map_err (fun e => "cannot normalize detached room tombstones: " +:+ e) (Db.execute pool RootSql.normalize []).

Definition root_of_row (row : sql_row) : result ManagedRoot string :=
  let? root_id := map_err (fun e => "cannot read managed root id: " +:+ e) (try_get_text row "root_id") in
  let? root := map_err (fun e => "cannot read managed root path: " +:+ e) (try_get_text row "canonical_path") in
  let? name := map_err (fun e => "cannot read managed root name: " +:+ e) (try_get_text row "display_name") in
  Ok (mkManagedRoot root_id root name
        (int_bool (unwrap_or (try_get_int row "enabled") 1%Z))
        (int_bool (unwrap_or (try_get_int row "watch_on_startup") 1%Z))
        (status_of_str (unwrap_or (try_get_text row "last_seen_status") "ready"))
        (unwrap_or (try_get_opt_text row "last_error") None)
        (unwrap_or (try_get_int row "registered_unix_ms") 0%Z)
        (unwrap_or (try_get_int row "updated_unix_ms") 0%Z)
        (unwrap_or (try_get_opt_text row "room_id") None)
        (unwrap_or (try_get_opt_text row "detached_room_id") None)
        (binding_of_str (unwrap_or (try_get_text row "room_binding_status") "unbound"))).
Definition read_roots (pool : string) : WIO (list ManagedRoot) :=
  let! rows := io_map_err (fun e => "cannot read managed roots: " +:+ e) (Db.fetch_all pool RootSql.select []) in
  io_lift (try_map root_of_row rows).

Definition upsert_binds (root : ManagedRoot) : list sql_value :=
  [SqlText (mr_root_id root); SqlText (mr_root root); SqlText (mr_display_name root);
   SqlInt (bool_int (mr_enabled root)); SqlInt (bool_int (mr_watch_on_startup root));
   SqlText (status_str (mr_last_seen_status root)); opt_text (mr_last_error root);
   SqlInt (mr_registered_unix_ms root); SqlInt (mr_updated_unix_ms root); opt_text (mr_room_id root);
   opt_text (mr_detached_room_id root); SqlText (binding_str (mr_room_binding_status root))].
Definition upsert_root (pool : string) (root : ManagedRoot) : WIO unit :=
  io_map_err (fun e => "cannot persist managed root: " +:+ e) (Db.execute pool RootSql.upsert (upsert_binds root)).

(** ** The operations *)

Definition load_from_db (path : string) : IO unit :=
  let! pool := on_world (io_map_err Db.fmt (Db.open_pool_at path)) in
  do! on_world (migrate pool);
  let! loaded := on_world (read_roots pool) in
  do! io_lift (validate_no_overlaps loaded);
  set_store (mkRootStore (list_to_map (rev (map (fun r => (mr_root_id r, r)) loaded))) (Some pool)).

Definition persist (root : ManagedRoot) : IO unit :=
  let! s := get_store in
  match ms_pool s with
  | Some pool => on_world (upsert_root pool root)
  | None => io_ret tt
  end.
Definition delete_persisted (root_id : string) : IO unit :=
  let! s := get_store in
  match ms_pool s with
  | Some pool =>
      on_world (io_map_err (fun e => "cannot delete managed root: " +:+ e)
        (Db.execute pool RootSql.delete [SqlText root_id]))
  | None => io_ret tt
  end.

Definition new_root (root_id root display_name : string) : WIO ManagedRoot :=
  let! now := unix_ms in
  io_ret (mkManagedRoot root_id root display_name true true RootReady None now now None None Unbound).

Definition upsert (root : ManagedRoot) : IO ManagedRoot :=
  let! s := get_store in
  do! io_lift (ensure_not_overlapping (ms_roots s) root);
  do! set_store (with_roots (<[mr_root_id root := root]> (ms_roots s)) s);
  do! persist root;
  io_ret root.

(** Changes the root of the id [root_id] in memory and returns it. *)
Definition edit_root (root_id : string) (f : Z -> ManagedRoot -> ManagedRoot) : IO ManagedRoot :=
  let! s := get_store in
  match ms_roots s !! root_id with
  | None => io_fail ("managed root is not registered: " +:+ root_id)
  | Some root =>
      let! now := on_world unix_ms in
      do! set_store (with_roots (<[root_id := f now root]> (ms_roots s)) s);
      io_ret (f now root)
  end.
Definition update_state (root_id : string) (patch : ManagedRootStatePatch) : IO ManagedRoot :=
  let! updated := edit_root root_id (with_patch patch) in
  do! persist updated;
  io_ret updated.
Definition update_health (root_id : string) (status : ManagedRootStatus) (last_error : option string) : IO ManagedRoot :=
  let! updated := edit_root root_id (with_health status last_error) in
  do! persist updated;
  io_ret updated.

Definition list_ : IO (list ManagedRoot) := let! s := get_store in io_ret (values (ms_roots s)).
Definition get (root_id : string) : IO ManagedRoot :=
  let! s := get_store in
  match ms_roots s !! root_id with
  | Some root => io_ret root
  | None => io_fail ("managed root is not registered: " +:+ root_id)
  end.
Definition remove (root_id : string) : IO bool :=
  let! s := get_store in
  match ms_roots s !! root_id with
  | Some _ =>
      do! set_store (with_roots (delete root_id (ms_roots s)) s);
      do! delete_persisted root_id;
      io_ret true
  | None => io_ret false
  end.
Definition contains_root (root : string) : IO bool :=
  let! s := get_store in io_ret (existsb (fun m => (mr_root m =? root)%string) (values (ms_roots s))).
Definition find_by_room (room_id : string) : IO (option ManagedRoot) :=
  let! s := get_store in io_ret (find (of_room room_id) (values (ms_roots s))).

(** ** The rooms *)

Definition bind_room (root_id room_id : string) : IO ManagedRoot :=
  if is_empty (trim room_id) then io_fail "room binding id cannot be empty"
  else
    let! s := get_store in
    if existsb (fun r => negb (mr_root_id r =? root_id)%string && opt_is (mr_room_id r) room_id) (values (ms_roots s))
    then io_fail ("room is already bound to another managed root: " +:+ room_id)
    else
      let! updated := edit_root root_id (with_binding (Some room_id) None Active) in
      do! persist updated;
      io_ret updated.

Definition ensure_active_room_binding (root_id room_id : string) : IO ManagedRoot :=
  let! root := get root_id in
  match mr_room_binding_status root, mr_room_id root with
  | Active, Some bound_room =>
      if (bound_room =? room_id)%string then io_ret root
      else io_fail ("managed root belongs to a different room: root=" +:+ root_id +:+ ", expected=" +:+ bound_room
                    +:+ ", actual=" +:+ room_id)
  | Unbound, None => bind_room root_id room_id
  | Detached, _ => io_fail ("managed root is detached from mobile access: " +:+ root_id)
  | _, Some bound_room =>
      io_fail ("managed root belongs to a different room: root=" +:+ root_id +:+ ", expected=" +:+ bound_room
               +:+ ", actual=" +:+ room_id)
  | _, None => io_fail ("managed root has an invalid room binding state: " +:+ root_id)
  end.

Definition detached (now : Z) (r : ManagedRoot) : ManagedRoot :=
  with_binding None (match mr_room_id r with Some room => Some room | None => mr_detached_room_id r end) Detached now r.
Definition detach_room (room_id : string) : IO (option ManagedRoot) :=
  let! s := get_store in
  match find (fun e => of_room room_id e.2) (entries (ms_roots s)) with
  | None => io_ret None
  | Some (k, _) =>
      let! updated := edit_root k detached in
      do! persist updated;
      io_ret (Some updated)
  end.

Definition has_active_room (r : ManagedRoot) : bool :=
  is_ok (match mr_room_id r with Some _ => Ok tt | None => Err tt end) && bool_decide (mr_room_binding_status r = Active).
Definition detach_all_rooms : IO (list ManagedRoot) :=
  let! s := get_store in
  let! updated := io_for (fun _ updated e => let! r := edit_root e.1 detached in io_ret (updated ++ [r])) 0 []
                    (List.filter (fun e => has_active_room e.2) (entries (ms_roots s))) in
  do! io_for (fun _ _ root => persist root) 0 tt updated;
  io_ret updated.
End managed_roots.
End ManagedRoots.

(** * Registering a folder *)

(** [register_managed_root_in_store] of [commands/file_engine.rs]. *)
Module RootCommands.
Definition managed_root_id (root : string) : string := "root:" +:+ fmt_hex16 (ProposalId.fnv1a64 (sbytes root)).

Section commands.
Context {DB : Type} `{!SqlDb DB}.

Definition register_managed_root_without_store (path : string) : io (world DB) string ManagedRoot :=
  let! f := get_fs in
  let! guard := io_lift (map_err PathGuard.fmt (PathGuard.new f path)) in
  ManagedRoots.new_root (managed_root_id (root guard)) (root guard)
    (default "managed root" (path_file_name (root guard))).
Definition register_managed_root_in_store (path : string) : io (RootStore * world DB) string ManagedRoot :=
  let! managed := on_world (register_managed_root_without_store path) in
  ManagedRoots.upsert managed.
End commands.
End RootCommands.
