(* ===== verification/roots_facts.v ===== *)
(** The registry of managed roots against its specification: folders that do not
    overlap, each with a protocol for the room it is bound to. *)
From Stdlib Require Import ZArith Lia Ascii Sorted.
From stdpp Require Import strings pretty gmap functions option list relations.
From S2P Require Import prelude rust_str std_path std_fs fs_facts path_guard db proposal_types index_sql tables desk.
From S2P Require Import managed_roots.

Open Scope string_scope.
Open Scope list_scope.

(** * The specification *)

Inductive room_binding := NoRoom | InRoom (room : string) | LeftRoom (room : string).
Record folder := mkFolder { fo_path : list Component; fo_binding : room_binding }.
Abbreviation folders := (gmap string folder).
#[export] Instance room_binding_eq_dec : EqDecision room_binding.
Proof. solve_decision. Defined.
#[export] Instance folder_eq_dec : EqDecision folder.
Proof. solve_decision. Defined.

(** One path is at or below the other. *)
Definition nested (p q : list Component) : Prop := p `prefix_of` q \/ q `prefix_of` p.
#[export] Instance nested_dec p q : Decision (nested p q).
Proof. unfold nested. apply _. Defined.
Definition knows_room (room : string) (d : folder) : bool :=
  bool_decide (fo_binding d = InRoom room \/ fo_binding d = LeftRoom room).
Definition leave (d : folder) : folder :=
  match fo_binding d with InRoom room => mkFolder (fo_path d) (LeftRoom room) | _ => d end.

Inductive root_command :=
| CRegister (path : string)
| CState (id : string) (patch : ManagedRootStatePatch)
| CHealth (id : string) (status : ManagedRootStatus) (error : option string)
| CRemove (id : string)
| CBind (id room : string)
| CEnsure (id room : string)
| CDetach (room : string)
| CDetachAll.

Definition pair_room (id room : string) (b : folders) : option folders :=
  match b !! id with
  | Some d =>
      if negb (is_empty (trim room)) && bool_decide (map_Forall (fun j d => j <> id -> fo_binding d <> InRoom room) b)
      then Some (<[id := mkFolder (fo_path d) (InRoom room)]> b) else None
  | None => None
  end.
(** What a command does to the folders; [None]: it is refused. *)
Definition folder_effect (f : tree) (c : root_command) (b : folders) : option folders :=
  match c with
  | CRegister path =>
      match PathGuard.new f path with
      | Ok guard =>
          let id := RootCommands.managed_root_id (root guard) in
          let p := components (root guard) in
          if bool_decide (map_Forall (fun j d => j <> id -> ~ nested (fo_path d) p) b)
          then Some (<[id := mkFolder p NoRoom]> b) else None
      | Err _ => None
      end
  | CState id _ | CHealth id _ _ => if bool_decide (is_Some (b !! id)) then Some b else None
  | CRemove id => Some (delete id b)
  | CBind id room => pair_room id room b
  | CEnsure id room =>
      match fo_binding <$> b !! id with
      | Some NoRoom => pair_room id room b
      | Some (InRoom bound) => if bool_decide (bound = room) then Some b else None
      | _ => None
      end
  | CDetach room =>
      match find (fun e => knows_room room e.2) (entries b) with
      | Some (id, d) => Some (<[id := mkFolder (fo_path d) (LeftRoom room)]> b)
      | None => Some b
      end
  | CDetachAll => Some (leave <$> b)
  end.

(** No two folders overlap, and no room has two of them. *)
Record folders_ok (b : folders) : Prop := {
  fo_apart i j d e : b !! i = Some d -> b !! j = Some e -> i <> j -> ~ nested (fo_path d) (fo_path e);
  fo_rooms i j d e room : b !! i = Some d -> b !! j = Some e ->
    fo_binding d = InRoom room -> fo_binding e = InRoom room -> i = j;
}.

(** * The store as folders *)

Definition binding_of (r : ManagedRoot) : room_binding :=
  match mr_room_binding_status r, mr_room_id r, mr_detached_room_id r with
  | Active, Some room, _ => InRoom room
  | Detached, _, Some room => LeftRoom room
  | _, _, _ => NoRoom
  end.
Definition folder_of (r : ManagedRoot) : folder := mkFolder (components (mr_root r)) (binding_of r).
Definition folders_of (s : RootStore) : folders := folder_of <$> ms_roots s.

(** The type invariant of a root: its status says which room it has. *)
Definition binding_ok (r : ManagedRoot) : Prop :=
  match mr_room_binding_status r with
  | Unbound => mr_room_id r = None /\ mr_detached_room_id r = None
  | Active => is_Some (mr_room_id r) /\ mr_detached_room_id r = None
  | Detached => mr_room_id r = None /\ is_Some (mr_detached_room_id r)
  end.
Definition root_ok (id : string) (r : ManagedRoot) : Prop := mr_root_id r = id /\ binding_ok r.
Definition roots_ok (s : RootStore) : Prop := map_Forall root_ok (ms_roots s).

(** ** The checks of the code *)

Lemma starts_with_prefix p b : path_starts_with p b = true <-> components b `prefix_of` components p.
Proof.
  unfold path_starts_with, path_strip_prefix. destruct (strip_components _ _) as [l|] eqn:H; split; try done.
  - intros _. apply strip_components_some in H. by exists l.
  - intros [l Hl]. rewrite Hl, strip_components_app in H. done.
Qed.

Lemma not_overlapping_iter roots c :
  ManagedRoots.ensure_not_overlapping_iter roots c = Ok tt <->
  Forall (fun r => mr_root_id r <> mr_root_id c -> ~ nested (components (mr_root r)) (components (mr_root c))) roots.
Proof.
  induction roots as [|r l IH]; simpl; [by split; [intros _; constructor|done]|]. rewrite Forall_cons.
  destruct (mr_root_id r =? mr_root_id c)%string eqn:Hid.
  - apply String.eqb_eq in Hid. rewrite IH. split; [by intros ?|by intros [_ ?]].
  - apply String.eqb_neq in Hid.
    assert (ManagedRoots.same_path (mr_root r) (mr_root c) = true -> nested (components (mr_root r)) (components (mr_root c))) as Hs.
    { unfold ManagedRoots.same_path. intros ->%bool_decide_eq_true. by left. }
    pose proof (starts_with_prefix (mr_root r) (mr_root c)) as H1. pose proof (starts_with_prefix (mr_root c) (mr_root r)) as H2.
    destruct (ManagedRoots.same_path _ _); [split; [done|intros [H _]; destruct (H Hid); by apply Hs]|].
    destruct (path_starts_with (mr_root r) (mr_root c)); [split; [done|intros [H _]; destruct (H Hid); right; by apply H1]|].
    destruct (path_starts_with (mr_root c) (mr_root r)); [split; [done|intros [H _]; destruct (H Hid); left; by apply H2]|].
    rewrite IH. split; [|by intros [_ ?]]. intros H. split; [|done]. intros _ [H3|H3]; [by apply H2 in H3|by apply H1 in H3].
Qed.

Lemma not_overlapping s c :
  roots_ok s -> ManagedRoots.ensure_not_overlapping (ms_roots s) c = Ok tt <->
  map_Forall (fun j d => j <> mr_root_id c -> ~ nested (fo_path d) (components (mr_root c))) (folders_of s).
Proof.
  intros Hok. unfold ManagedRoots.ensure_not_overlapping. rewrite not_overlapping_iter, list.Forall_forall. split.
  - intros H j d (r & <- & Hr)%lookup_fmap_Some Hj. destruct (Hok _ _ Hr) as [Hid _].
    apply H; [apply elem_of_values; by exists j|congruence].
  - intros H r (j & Hr)%elem_of_values Hj. destruct (Hok _ _ Hr) as [Hid _].
    apply (H j (folder_of r)); [unfold folders_of; by rewrite lookup_fmap, Hr|congruence].
Qed.

Lemma lookup_folders s id : folders_of s !! id = folder_of <$> ms_roots s !! id.
Proof. apply lookup_fmap. Qed.

Lemma room_taken s id room :
  roots_ok s ->
  existsb (fun r => negb (mr_root_id r =? id)%string && opt_is (mr_room_id r) room) (values (ms_roots s)) = false <->
  map_Forall (fun j d => j <> id -> fo_binding d <> InRoom room) (folders_of s).
Proof.
  intros Hok. rewrite <- not_true_iff_false, existsb_exists. split.
  - intros H j d (r & <- & Hr)%lookup_fmap_Some Hj Hb. destruct (Hok _ _ Hr) as [Hid Hbind]. apply H. exists r.
    split; [apply list_elem_of_In, elem_of_values; by exists j|]. rewrite Hid. apply String.eqb_neq in Hj. rewrite Hj. simpl.
    simpl in Hb. unfold binding_of, binding_ok, opt_is in *.
    destruct (mr_room_binding_status r), (mr_room_id r), (mr_detached_room_id r); simplify_eq; by rewrite ?String.eqb_refl.
  - intros H (r & Hr%list_elem_of_In & [Hj Hb]%andb_true_iff). apply elem_of_values in Hr as [j Hr].
    destruct (Hok _ _ Hr) as [Hid Hbind]. apply negb_true_iff, String.eqb_neq in Hj.
    apply (H j (folder_of r)); [by rewrite lookup_folders, Hr|congruence|]. simpl. unfold opt_is, binding_of, binding_ok in *.
    destruct (mr_room_id r) as [x|]; [|done]. apply String.eqb_eq in Hb as ->.
    destruct (mr_room_binding_status r); [by destruct Hbind|done|by destruct Hbind].
Qed.

Lemma of_room_knows room r : binding_ok r -> ManagedRoots.of_room room r = knows_room room (folder_of r).
Proof.
  intros Hb. apply eq_true_iff_eq. unfold knows_room. rewrite bool_decide_eq_true. unfold ManagedRoots.of_room, binding_ok, folder_of, binding_of, opt_is in *.
  simpl. destruct (mr_room_binding_status r), (mr_room_id r) as [x|], (mr_detached_room_id r) as [y|]; simpl;
    try (by destruct Hb as [[] ?]); try (by destruct Hb as [? []]); try (by destruct Hb);
    rewrite ?orb_false_r, ?String.eqb_eq.
  all: split; [intros H; simplify_eq; by auto|by intros [[=]|[=]]].
Qed.

Lemma find_ext {A} (f g : A -> bool) l : Forall (fun a => f a = g a) l -> find f l = find g l.
Proof. unfold find. induction 1 as [|a l H _ IH]; simpl; [done|]. by rewrite H, IH. Qed.
Lemma entries_folders s room :
  roots_ok s ->
  find (fun e => knows_room room e.2) (entries (folders_of s)) =
  prod_map id folder_of <$> find (fun e => ManagedRoots.of_room room e.2) (entries (ms_roots s)).
Proof.
  intros Hok. unfold folders_of. rewrite entries_fmap, find_map_comm. f_equal. apply find_ext, list.Forall_forall.
  intros [k r] Hr%elem_of_entries. simpl. symmetry. apply of_room_knows. by destruct (Hok _ _ Hr).
Qed.

(** ** The changes of the code *)

Lemma put_root s id r :
  roots_ok s -> root_ok id r ->
  roots_ok (with_roots (<[id := r]> (ms_roots s)) s) /\
  folders_of (with_roots (<[id := r]> (ms_roots s)) s) = <[id := folder_of r]> (folders_of s).
Proof. intros Hs Hr. split; [by apply map_Forall_insert_2|]. apply fmap_insert. Qed.

Lemma detached_ok id now r :
  root_ok id r -> fo_binding (folder_of r) <> NoRoom ->
  root_ok id (ManagedRoots.detached now r) /\ folder_of (ManagedRoots.detached now r) = leave (folder_of r).
Proof.
  intros [Hid Hb] Hn. unfold root_ok, folder_of, leave, binding_ok, binding_of in *. simpl in *.
  destruct (mr_room_binding_status r), (mr_room_id r) as [x|], (mr_detached_room_id r) as [y|]; simpl in *;
    destruct Hb as [Hr Hd]; try (by destruct Hn); try (by destruct Hr); try (by destruct Hd); done.
Qed.
Lemma leave_knows room d : knows_room room d = true -> leave d = mkFolder (fo_path d) (LeftRoom room).
Proof. unfold knows_room, leave. intros [H|H]%bool_decide_eq_true; rewrite H; [done|]. by rewrite <- H; destruct d. Qed.

(** * The operations *)

Section ops.
Context {DB : Type} `{!SqlDb DB}.
Implicit Types (s : RootStore) (w : world DB) (st : RootStore * world DB).

Definition discard {A} (m : io (RootStore * world DB) string A) : io (RootStore * world DB) string unit :=
  let! _ := m in io_ret tt.
Definition run_root (c : root_command) : io (RootStore * world DB) string unit :=
  match c with
  | CRegister path => discard (RootCommands.register_managed_root_in_store path)
  | CState id patch => discard (ManagedRoots.update_state id patch)
  | CHealth id status error => discard (ManagedRoots.update_health id status error)
  | CRemove id => discard (ManagedRoots.remove id)
  | CBind id room => discard (ManagedRoots.bind_room id room)
  | CEnsure id room => discard (ManagedRoots.ensure_active_room_binding id room)
  | CDetach room => discard (ManagedRoots.detach_room room)
  | CDetachAll => discard ManagedRoots.detach_all_rooms
  end.

(** Nothing but the database changes. *)
Definition kept st st' : Prop := st'.1 = st.1 /\ w_fs st'.2 = w_fs st.2.
#[export] Instance kept_preorder : PreOrder kept.
Proof. split; [by intros st|]. intros s1 s2 s3 [H1 H2] [H3 H4]. split; congruence. Qed.

Lemma execute_kept {E} (err : string -> E) pool sql binds :
  io_rel kept (on_world (io_map_err err (Db.execute pool sql binds))).
Proof.
  intros [s w] r st (w1 & H & ->)%on_world_run. apply io_map_err_inv in H as (r1 & H & _).
  unfold Db.execute in H. destruct (sql_execute _ _ _) as [r2 d]. injection H as _ <-. by destruct (is_ok r2).
Qed.
Lemma persist_kept root : io_rel kept (ManagedRoots.persist root).
Proof.
  intros [s w] r st. unfold ManagedRoots.persist, get_store, io_bind, io_gets. simpl.
  destruct (ms_pool s); [apply execute_kept|by intros [= <- <-]].
Qed.
Lemma delete_persisted_kept id : io_rel kept (ManagedRoots.delete_persisted id).
Proof.
  intros [s w] r st. unfold ManagedRoots.delete_persisted, get_store, io_bind, io_gets. simpl.
  destruct (ms_pool s); [apply execute_kept|by intros [= <- <-]].
Qed.

(** Persisting and returning. *)
Definition persisting (root : ManagedRoot) st (r : result ManagedRoot string) st' : Prop :=
  kept st st' /\ forall x, r = Ok x -> x = root.
Lemma persist_ret root st r st' :
  (do! ManagedRoots.persist root; io_ret root) st = (r, st') -> persisting root st r st'.
Proof.
  unfold io_bind, io_ret. destruct (ManagedRoots.persist root st) as [[[]|e] st1] eqn:H; intros [= <- <-];
    (split; [eapply persist_kept, H|by intros x [= ->]]).
Qed.

Lemma edit_root_run id f st r st' :
  ManagedRoots.edit_root id f st = (r, st') ->
  match ms_roots st.1 !! id with
  | Some root => exists now, r = Ok (f now root) /\ st'.1 = with_roots (<[id := f now root]> (ms_roots st.1)) st.1 /\ w_fs st'.2 = w_fs st.2 /\ w_db st'.2 = w_db st.2
  | None => is_ok r = false /\ st' = st
  end.
Proof.
  destruct st as [s w]. unfold ManagedRoots.edit_root, get_store, io_bind, io_gets. simpl.
  destruct (ms_roots s !! id) as [root|]; simpl; [|by intros [= <- <-]]. intros [= <- <-]. by eexists.
Qed.

(** Changing a root, which must be there, and persisting it. *)
Lemma edit_persist id f st r st' (g : folder -> folder) :
  roots_ok st.1 ->
  (forall now root, ms_roots st.1 !! id = Some root -> root_ok id root ->
     root_ok id (f now root) /\ folder_of (f now root) = g (folder_of root)) ->
  (let! updated := ManagedRoots.edit_root id f in do! ManagedRoots.persist updated; io_ret updated) st = (r, st') ->
  w_fs st'.2 = w_fs st.2 /\ roots_ok st'.1 /\ ms_pool st'.1 = ms_pool st.1 /\
  match folders_of st.1 !! id with
  | Some d => folders_of st'.1 = <[id := g d]> (folders_of st.1)
  | None => is_ok r = false /\ folders_of st'.1 = folders_of st.1
  end.
Proof.
  intros Hok Hf. unfold io_bind at 1. destruct (ManagedRoots.edit_root id f st) as [r1 st1] eqn:He.
  apply edit_root_run in He. rewrite lookup_folders. destruct (ms_roots st.1 !! id) as [root|] eqn:Hr; simpl.
  - destruct He as (now & -> & H1 & H2 & _). intros [[H3 H4] _]%persist_ret. rewrite H3, H4, H1, H2.
    destruct (Hf now root eq_refl (Hok _ _ Hr)) as [Hro Hfo].
    destruct (put_root st.1 id (f now root) Hok Hro) as [H5 H6]. by rewrite H6, Hfo.
  - destruct He as [He ->]. destruct r1; [done|]. by intros [= <- <-].
Qed.

(** What the specification says of a command that returned [r]. *)
Definition obeys {A} (f : tree) (c : root_command) (b : folders) (r : result A string) (b' : folders) : Prop :=
  match r with
  | Ok _ => folder_effect f c b = Some b'
  | Err _ => b' = b \/ folder_effect f c b = Some b'
  end.
Definition follows {A} (c : root_command) (m : io (RootStore * world DB) string A) : Prop :=
  forall st r st', roots_ok st.1 -> m st = (r, st') ->
    w_fs st'.2 = w_fs st.2 /\ roots_ok st'.1 /\ ms_pool st'.1 = ms_pool st.1 /\
    obeys (w_fs st.2) c (folders_of st.1) r (folders_of st'.1).

Lemma obeys_effect {A} f c b (r : result A string) b' : folder_effect f c b = Some b' -> obeys f c b r b'.
Proof. destruct r; simpl; auto. Qed.
Lemma obeys_refused {A} f c b (r : result A string) : is_ok r = false -> obeys f c b r b.
Proof. destruct r; [done|]. by left. Qed.
Lemma follows_discard {A} c (m : io (RootStore * world DB) string A) : follows c m -> follows c (discard m).
Proof.
  intros Hm st r st' Hok. unfold discard, io_bind, io_ret. destruct (m st) as [[a|e] st1] eqn:H; intros [= <- <-];
    by destruct (Hm _ _ _ Hok H) as (? & ? & ? & ?).
Qed.

(** An edit that does [g] to the folder. *)
Lemma follows_edit c id f (g : folder -> folder) st r st' :
  roots_ok st.1 ->
  (forall now root, root_ok id root -> root_ok id (f now root) /\ folder_of (f now root) = g (folder_of root)) ->
  (forall d, folders_of st.1 !! id = Some d -> folder_effect (w_fs st.2) c (folders_of st.1) = Some (<[id := g d]> (folders_of st.1))) ->
  (let! updated := ManagedRoots.edit_root id f in do! ManagedRoots.persist updated; io_ret updated) st = (r, st') ->
  w_fs st'.2 = w_fs st.2 /\ roots_ok st'.1 /\ ms_pool st'.1 = ms_pool st.1 /\
  obeys (w_fs st.2) c (folders_of st.1) r (folders_of st'.1).
Proof.
  intros Hok Hf Hc H. apply (edit_persist _ _ _ _ _ g) in H as (H1 & H2 & H3 & H4); [|done|by auto].
  split_and!; [done..|]. destruct (folders_of st.1 !! id) as [d|] eqn:Hd.
  - rewrite H4. apply obeys_effect. by apply Hc.
  - destruct H4 as [H4 ->]. by apply obeys_refused.
Qed.

Lemma same_folder id f :
  (forall now root, mr_root_id (f now root) = mr_root_id root /\ mr_root (f now root) = mr_root root /\
     mr_room_id (f now root) = mr_room_id root /\ mr_detached_room_id (f now root) = mr_detached_room_id root /\
     mr_room_binding_status (f now root) = mr_room_binding_status root) ->
  forall (now : Z) root, root_ok id root -> root_ok id (f now root) /\ folder_of (f now root) = folder_of root.
Proof.
  intros Hf now root [H1 H2]. destruct (Hf now root) as (E1 & E2 & E3 & E4 & E5).
  unfold root_ok, binding_ok, folder_of, binding_of in *. rewrite E1, E2, E3, E4, E5. done.
Qed.
Lemma update_state_follows id patch : follows (CState id patch) (ManagedRoots.update_state id patch).
Proof.
  intros st r st' Hok. apply (follows_edit _ _ _ (fun d => d)); [done|by apply same_folder|].
  intros d Hd. simpl. rewrite bool_decide_true by by rewrite Hd. by rewrite insert_id.
Qed.
Lemma update_health_follows id status error : follows (CHealth id status error) (ManagedRoots.update_health id status error).
Proof.
  intros st r st' Hok. apply (follows_edit _ _ _ (fun d => d)); [done|by apply same_folder|].
  intros d Hd. simpl. rewrite bool_decide_true by by rewrite Hd. by rewrite insert_id.
Qed.

Lemma bind_room_follows c id room st r st' :
  roots_ok st.1 -> folder_effect (w_fs st.2) c (folders_of st.1) = pair_room id room (folders_of st.1) ->
  ManagedRoots.bind_room id room st = (r, st') ->
  w_fs st'.2 = w_fs st.2 /\ roots_ok st'.1 /\ ms_pool st'.1 = ms_pool st.1 /\
  obeys (w_fs st.2) c (folders_of st.1) r (folders_of st'.1).
Proof.
  intros Hok Hc. unfold ManagedRoots.bind_room. destruct (is_empty (trim room)) eqn:Hblank.
  { intros [= <- <-]. split_and!; [done..|by left]. }
  unfold get_store. unfold io_bind at 1. unfold io_gets.
  destruct (existsb _ _) eqn:Ht.
  { intros [= <- <-]. split_and!; [done..|by left]. }
  apply room_taken in Ht; [|done]. apply (follows_edit _ _ _ (fun d => mkFolder (fo_path d) (InRoom room))); [done| |].
  - intros now root [H1 H2]. split; [|done]. split; [done|]. split; [by eexists|done].
  - intros d Hd. rewrite Hc. unfold pair_room. by rewrite Hd, Hblank, bool_decide_true.
Qed.
Lemma ensure_follows id room : follows (CEnsure id room) (ManagedRoots.ensure_active_room_binding id room).
Proof.
  intros st r st' Hok. unfold ManagedRoots.ensure_active_room_binding, ManagedRoots.get, get_store.
  unfold io_bind at 1 2. unfold io_gets. destruct (ms_roots st.1 !! id) as [root|] eqn:Hr.
  2: { intros [= <- <-]. split_and!; [done..|by left]. }
  simpl. destruct (Hok _ _ Hr) as [Hid Hb]. pose proof (lookup_folders st.1 id) as Hd. rewrite Hr in Hd.
  simpl in Hd. unfold folder_of, binding_of in Hd. unfold binding_ok in Hb.
  destruct (mr_room_binding_status root).
  - destruct Hb as [H1 H2]. rewrite H1 in *. apply bind_room_follows; [done|]. simpl. by rewrite Hd.
  - destruct Hb as [[bound H1] H2]. rewrite H1 in *. destruct (bound =? room)%string eqn:Hroom.
    + intros [= <- <-]. split_and!; [done..|]. apply String.eqb_eq in Hroom. simpl. by rewrite Hd; simpl; rewrite bool_decide_true.
    + intros [= <- <-]. split_and!; [done..|by left].
  - intros [= <- <-]. split_and!; [done..|by left].
Qed.

Lemma detach_room_follows room : follows (CDetach room) (ManagedRoots.detach_room room).
Proof.
  intros st r st' Hok. unfold ManagedRoots.detach_room, get_store. unfold io_bind at 1. unfold io_gets.
  pose proof (entries_folders st.1 room Hok) as He. destruct (find _ (entries (ms_roots st.1))) as [[k root]|] eqn:Hf.
  2: { intros [= <- <-]. split_and!; [done..|]. simpl in *. by rewrite He. }
  intros H.
  apply find_some in Hf as [Hk%elem_of_entries Hroom]. simpl in Hroom. destruct (Hok _ _ Hk) as [Hid Hb].
  rewrite of_room_knows in Hroom by done.
  assert (exists r0, r = result_map Some r0 /\
    (let! updated := ManagedRoots.edit_root k ManagedRoots.detached in do! ManagedRoots.persist updated; io_ret updated) st = (r0, st'))
    as (r0 & -> & H0).
  { revert H. unfold io_bind, io_ret. destruct (ManagedRoots.edit_root k _ st) as [[u|e] st1]; [|by intros [= <- <-]; exists (Err e)].
    destruct (ManagedRoots.persist u st1) as [[[]|e] st2]; intros [= <- <-]; [by exists (Ok u)|by exists (Err e)]. }
  clear H. apply (edit_persist _ _ _ _ _ leave) in H0 as (H1 & H2 & H3 & H4); [|done|].
  - split_and!; [done..|]. rewrite lookup_folders, Hk in H4. simpl in H4. apply obeys_effect. rewrite H4. simpl. rewrite He.
    simpl. f_equal. by rewrite (leave_knows room).
  - intros now x Hx Hxo. assert (x = root) as -> by congruence. apply detached_ok; [done|].
    unfold knows_room in Hroom. apply bool_decide_eq_true in Hroom. intros Hn. rewrite Hn in Hroom. by destruct Hroom.
Qed.

Lemma remove_follows id : follows (CRemove id) (ManagedRoots.remove id).
Proof.
  intros st r st' Hok. unfold ManagedRoots.remove, get_store. unfold io_bind at 1. unfold io_gets.
  destruct (ms_roots st.1 !! id) as [root|] eqn:Hr.
  - unfold io_bind, set_store, io_ret. destruct (ManagedRoots.delete_persisted id _) as [r1 st1] eqn:Hd.
    apply delete_persisted_kept in Hd as [H1 H2]. intros H. assert (st' = st1) as -> by (destruct r1; congruence). rewrite H1, H2. simpl.
    split_and!; [done|by apply map_Forall_delete|done|]. apply obeys_effect. simpl. unfold folders_of. simpl. by rewrite fmap_delete.
  - intros [= <- <-]. split_and!; [done..|]. simpl. rewrite delete_id; [done|]. by rewrite lookup_folders, Hr.
Qed.

Lemma register_follows path : follows (CRegister path) (RootCommands.register_managed_root_in_store path).
Proof.
  intros st r st' Hok. unfold RootCommands.register_managed_root_in_store, RootCommands.register_managed_root_without_store.
  unfold io_bind at 1, on_world, zoom, io_bind at 1, get_fs, io_gets, io_bind at 1, io_lift.
  destruct (PathGuard.new (w_fs st.2) path) as [g|e] eqn:Hg; simpl.
  2: { intros [= <- <-]. split_and!; [done..|by left]. }
  unfold ManagedRoots.upsert, get_store. unfold io_bind at 1. unfold io_gets. unfold io_bind at 1. unfold io_lift. simpl.
  set (root_ := mkManagedRoot _ _ _ _ _ _ _ _ _ _ _ _). pose proof (not_overlapping st.1 root_ Hok) as Hn.
  destruct (ManagedRoots.ensure_not_overlapping (ms_roots st.1) root_) as [[]|e].
  2: { intros [= <- <-]. split_and!; [done..|by left]. }
  assert (root_ok (mr_root_id root_) root_) as Hro by done. destruct (put_root st.1 _ root_ Hok Hro) as [H1 H2].
  unfold io_bind at 1, set_store. intros [[H3 H4] _]%persist_ret. rewrite H3, H4. simpl in *. split_and!; [done..|].
  apply obeys_effect. simpl. rewrite Hg, bool_decide_true; [|by apply Hn]. by rewrite H2.
Qed.

(** ** Leaving every room *)

Definition leave_all (ks : list string) (b : folders) : folders := foldl (fun b k => alter leave k b) b ks.
Lemma leave_idemp d : leave (leave d) = leave d.
Proof. unfold leave. by destruct (fo_binding d) eqn:H; simpl; rewrite ?H. Qed.
Lemma leave_roomed d : fo_binding d <> NoRoom -> fo_binding (leave d) <> NoRoom.
Proof. unfold leave. by destruct (fo_binding d) eqn:H; rewrite ?H. Qed.
Lemma lookup_leave_all ks b j :
  leave_all ks b !! j = (if bool_decide (j ∈ ks) then leave <$> b !! j else b !! j).
Proof.
  revert b. induction ks as [|k ks IH]; intros b; [done|]. unfold leave_all in *. simpl. rewrite IH.
  destruct (decide (j = k)) as [->|Hj].
  - rewrite lookup_alter_eq. rewrite (bool_decide_true (k ∈ k :: ks)) by by left.
    case_bool_decide; [|done]. destruct (b !! k); [|done]. simpl. by rewrite leave_idemp.
  - rewrite lookup_alter_ne by done. assert (bool_decide (j ∈ k :: ks) = bool_decide (j ∈ ks)) as ->; [|done].
    apply bool_decide_ext. rewrite elem_of_cons. split; [by intros [?|?]|by right].
Qed.

Definition roomed (b : folders) (k : string) : Prop := exists d, b !! k = Some d /\ fo_binding d <> NoRoom.
Lemma roomed_alter b k j : roomed b j -> roomed (alter leave k b) j.
Proof.
  intros (d & Hd & Hn). destruct (decide (j = k)) as [->|Hj].
  - exists (leave d). by rewrite lookup_alter_eq, Hd; split; [|apply leave_roomed].
  - exists d. by rewrite lookup_alter_ne.
Qed.
Lemma detach_loop l i acc st :
  roots_ok st.1 -> Forall (fun e => roomed (folders_of st.1) e.1) l ->
  exists us st', io_for (fun _ (updated : list ManagedRoot) (e : string * ManagedRoot) =>
      let! r := ManagedRoots.edit_root e.1 ManagedRoots.detached in io_ret (updated ++ [r])) i acc l st = (Ok us, st') /\
    w_fs st'.2 = w_fs st.2 /\ roots_ok st'.1 /\ ms_pool st'.1 = ms_pool st.1 /\
    folders_of st'.1 = leave_all (map fst l) (folders_of st.1).
Proof.
  revert i acc st. induction l as [|[k root0] l IH]; intros i acc st Hok Hl.
  { exists acc, st. split_and!; done. }
  apply Forall_cons in Hl as [(d & Hd & Hn) Hl]. simpl. unfold io_bind at 1. unfold io_bind at 1.
  destruct (ManagedRoots.edit_root k ManagedRoots.detached st) as [r1 st1] eqn:He. apply edit_root_run in He.
  pose proof (lookup_folders st.1 k) as Hk. simpl in Hd. rewrite Hd in Hk. destruct (ms_roots st.1 !! k) as [root|] eqn:Hr; [|done].
  injection Hk as ->. destruct He as (now & -> & H1 & H2 & _). unfold io_ret at 1.
  destruct (detached_ok k now root (Hok _ _ Hr) Hn) as [Hro Hfo]. simpl. destruct (put_root st.1 k _ Hok Hro) as [H3 H4].
  rewrite <- H1 in H3, H4. rewrite Hfo in H4. assert (folders_of st1.1 = alter leave k (folders_of st.1)) as H5.
  { rewrite H4. apply map_eq. intros j. destruct (decide (j = k)) as [->|Hj]; [by rewrite lookup_insert_eq, lookup_alter_eq, Hd|].
    by rewrite lookup_insert_ne, lookup_alter_ne. }
  destruct (IH (S i) (acc ++ [ManagedRoots.detached now root]) st1 H3) as (us & st' & Hrun & H6 & H7 & H8 & H9).
  { rewrite H5. eapply Forall_impl; [exact Hl|]. intros e. apply roomed_alter. }
  exists us, st'. rewrite Hrun. split_and!; [done|congruence|done|rewrite H8, H1; done|]. by rewrite H9, H5.
Qed.

(** Whatever fails, every folder leaves its room in memory. *)
Lemma detach_all_run st r st' :
  roots_ok st.1 -> ManagedRoots.detach_all_rooms st = (r, st') ->
  w_fs st'.2 = w_fs st.2 /\ roots_ok st'.1 /\ ms_pool st'.1 = ms_pool st.1 /\ folders_of st'.1 = leave <$> folders_of st.1.
Proof.
  intros Hok. unfold ManagedRoots.detach_all_rooms, get_store. unfold io_bind at 1. unfold io_gets.
  set (l := List.filter _ _). assert (forall k root, (k, root) ∈ l <-> ms_roots st.1 !! k = Some root /\ ManagedRoots.has_active_room root = true) as Hl.
  { intros k root. unfold l. rewrite list_elem_of_In, filter_In, <- list_elem_of_In, elem_of_entries. done. }
  assert (forall k root, ms_roots st.1 !! k = Some root ->
            if ManagedRoots.has_active_room root then fo_binding (folder_of root) <> NoRoom else leave (folder_of root) = folder_of root) as Hact.
  { intros k root Hk. destruct (Hok _ _ Hk) as [_ Hb]. unfold ManagedRoots.has_active_room, leave, folder_of, binding_of, binding_ok in *.
    destruct (mr_room_binding_status root), (mr_room_id root), (mr_detached_room_id root); simpl; try done; by destruct Hb as [[] ?]. }
  unfold io_bind at 1. destruct (detach_loop l 0 [] st Hok) as (us & st1 & Hrun & H1 & H2 & H3 & H4).
  { apply list.Forall_forall. intros [k root] [Hk Ha]%Hl. specialize (Hact _ _ Hk). rewrite Ha in Hact.
    exists (folder_of root). split; [|exact Hact]. rewrite lookup_folders. simpl. by rewrite Hk. }
  rewrite Hrun. unfold io_bind, io_ret. destruct (io_for _ _ _ us st1) as [r1 st2] eqn:Hp.
  assert (kept st1 st2) as [H5 H6] by (refine (io_rel_for _ _ us 0 tt _ _ _ _ Hp); intros; apply persist_kept).
  intros H. assert (st' = st2) as -> by (destruct r1; congruence). rewrite H5, H6. split_and!; [done..|].
  rewrite H4. apply map_eq. intros j. rewrite lookup_leave_all, lookup_fmap, lookup_folders.
  destruct (ms_roots st.1 !! j) as [root|] eqn:Hj; simpl; [|by case_bool_decide].
  specialize (Hact _ _ Hj). case_bool_decide as Hin; [done|]. f_equal.
  destruct (ManagedRoots.has_active_room root) eqn:Ha; [|done]. destruct Hin. apply list_elem_of_fmap. exists (j, root).
  split; [done|]. by apply Hl.
Qed.
Lemma detach_all_follows : follows CDetachAll ManagedRoots.detach_all_rooms.
Proof.
  intros st r st' Hok H. destruct (detach_all_run _ _ _ Hok H) as (H1 & H2 & H3 & H4). split_and!; [done..|].
  apply obeys_effect. simpl. by rewrite H4.
Qed.

Lemma run_root_follows c : follows c (run_root c).
Proof.
  destruct c; simpl; apply follows_discard;
    [apply register_follows|apply update_state_follows|apply update_health_follows|apply remove_follows|..|apply ensure_follows
    |apply detach_room_follows|apply detach_all_follows].
  intros st r st' Hok. by apply bind_room_follows.
Qed.
End ops.

(** * Runs of commands *)

Section runs.
Context {DB : Type} `{!SqlDb DB}.
Implicit Types (st : RootStore * world DB).

(** The commands one after the other, with their results. *)
Fixpoint run_roots (cs : list root_command) st : list (result unit string) * (RootStore * world DB) :=
  match cs with
  | [] => ([], st)
  | c :: cs =>
      let '(r, st1) := run_root c st in
      let '(rs, st2) := run_roots cs st1 in
      (r :: rs, st2)
  end.

(** [rs] are answers the specification allows. *)
Inductive obeyed (f : tree) : list root_command -> list (result unit string) -> folders -> folders -> Prop :=
| obeyed_nil b : obeyed f [] [] b b
| obeyed_cons c cs r rs b b1 b2 : obeys f c b r b1 -> obeyed f cs rs b1 b2 -> obeyed f (c :: cs) (r :: rs) b b2.

Lemma run_roots_obeyed cs st rs st' :
  roots_ok st.1 -> run_roots cs st = (rs, st') ->
  roots_ok st'.1 /\ obeyed (w_fs st.2) cs rs (folders_of st.1) (folders_of st'.1).
Proof.
  revert st rs. induction cs as [|c cs IH]; intros st rs Hok; simpl; [intros [= <- <-]; split; [done|constructor]|].
  destruct (run_root c st) as [r st1] eqn:Hr. destruct (run_roots cs st1) as [rs1 st2] eqn:Hrs. intros [= <- <-].
  destruct (run_root_follows c st r st1 Hok Hr) as (H1 & H2 & _ & H3).
  destruct (IH st1 rs1 H2 Hrs) as [H4 H5]. rewrite H1 in H5. split; [done|by econstructor].
Qed.

Lemma run_roots_pool cs st rs st' : roots_ok st.1 -> run_roots cs st = (rs, st') -> ms_pool st'.1 = ms_pool st.1.
Proof.
  revert st rs. induction cs as [|c cs IH]; intros st rs Hok; simpl; [by intros [= <- <-]|].
  destruct (run_root c st) as [r st1] eqn:Hr. destruct (run_roots cs st1) as [rs1 st2] eqn:Hrs. intros [= <- <-].
  destruct (run_root_follows c st r st1 Hok Hr) as (_ & H2 & H3 & _). by rewrite (IH _ _ H2 Hrs).
Qed.

(** What every effect keeps is kept by a run. *)
Lemma obeyed_keeps (P : folders -> Prop) f cs rs b b' :
  Forall (fun c => forall b b', P b -> folder_effect f c b = Some b' -> P b') cs ->
  obeyed f cs rs b b' -> P b -> P b'.
Proof.
  intros Hcs H. induction H as [|c cs r rs b b1 b2 Hc _ IH]; [done|]. apply Forall_cons in Hcs as [Hp Hcs].
  intros Hb. apply IH; [done|]. destruct r; simpl in Hc; [by eapply Hp|]. destruct Hc as [->|Hc]; [done|by eapply Hp].
Qed.
End runs.

(** ** The effects keep folders apart *)

Lemma nested_sym p q : nested p q -> nested q p.
Proof. intros [H|H]; [by right|by left]. Qed.

(** Replacing a folder by one that nothing else clashes with. *)
Lemma folders_ok_insert b id d :
  folders_ok b ->
  (forall j e, b !! j = Some e -> j <> id -> ~ nested (fo_path e) (fo_path d)) ->
  (forall j e room, b !! j = Some e -> j <> id -> fo_binding d = InRoom room -> fo_binding e <> InRoom room) ->
  folders_ok (<[id := d]> b).
Proof.
  intros [H1 H2] Hp Hr. split.
  - intros i j x y Hi%lookup_insert_Some Hj%lookup_insert_Some Hij.
    destruct Hi as [[<- <-]|[Hi Hx]], Hj as [[<- <-]|[Hj Hy]]; [done| | |by eapply H1].
    + intros Hn. by eapply Hp, nested_sym.
    + by eapply Hp.
  - intros i j x y room Hi%lookup_insert_Some Hj%lookup_insert_Some Hx Hy.
    destruct Hi as [[<- <-]|[Hi Hx']], Hj as [[<- <-]|[Hj Hy']]; [done| | |by eapply H2].
    + by destruct (Hr _ _ _ Hy' (not_eq_sym Hj) Hx).
    + by destruct (Hr _ _ _ Hx' (not_eq_sym Hi) Hy).
Qed.
Lemma folders_ok_leave b (g : string -> folder -> folder) b' :
  folders_ok b -> (forall j, b' !! j = g j <$> b !! j) ->
  (forall j d, fo_path (g j d) = fo_path d /\ forall room, fo_binding (g j d) = InRoom room -> fo_binding d = InRoom room) ->
  folders_ok b'.
Proof.
  intros [H1 H2] Hb Hg. split.
  - intros i j d e. rewrite !Hb. intros (x & Hx & ->)%fmap_Some_1 (y & Hy & ->)%fmap_Some_1.
    rewrite (proj1 (Hg i x)), (proj1 (Hg j y)). by eapply H1.
  - intros i j d e room. rewrite !Hb. intros (x & Hx & ->)%fmap_Some_1 (y & Hy & ->)%fmap_Some_1 Hd%Hg He%Hg. by eapply H2.
Qed.

Lemma pair_room_ok id room b b' : folders_ok b -> pair_room id room b = Some b' -> folders_ok b'.
Proof.
  intros Hok. unfold pair_room. destruct (b !! id) as [d|] eqn:Hd; [|done].
  destruct (negb _ && _) eqn:Hg; [|done]. apply andb_true_iff in Hg as [_ Hg%bool_decide_eq_true]. intros [= <-].
  apply folders_ok_insert; simpl; [done| |].
  - intros j e He Hj. by apply (fo_apart b Hok j id).
  - intros j e room0 He Hj [= <-]. by apply (Hg j e).
Qed.
Lemma folder_effect_ok f c b b' : folders_ok b -> folder_effect f c b = Some b' -> folders_ok b'.
Proof.
  intros Hok. destruct c as [path|id patch|id status e|id|id room|id room|room|]; simpl.
  - destruct (PathGuard.new f path) as [g|]; [|done]. case_bool_decide as Hn; [|done]. intros [= <-].
    apply folders_ok_insert; simpl; [done|..|done]. intros j e He Hj. by apply (Hn j e).
  - by case_bool_decide; intros [= <-].
  - by case_bool_decide; intros [= <-].
  - intros [= <-]. destruct Hok as [H1 H2]. split.
    + intros i j d e [_ Hi]%lookup_delete_Some [_ Hj]%lookup_delete_Some. by eapply H1.
    + intros i j d e room [_ Hi]%lookup_delete_Some [_ Hj]%lookup_delete_Some. by eapply H2.
  - by apply pair_room_ok.
  - destruct (fo_binding <$> b !! id) as [[|bound|]|]; [by apply pair_room_ok|by case_bool_decide; intros [= <-]|done..].
  - destruct (find _ _) as [[k d]|] eqn:Hf; [|by intros [= <-]]. intros [= <-]. apply find_some in Hf as [Hk%elem_of_entries _].
    apply folders_ok_insert; simpl; [done|..|done]. intros j e He Hj. by apply (fo_apart b Hok j k).
  - intros [= <-]. apply (folders_ok_leave b (fun _ => leave)); [done|intros j; apply lookup_fmap|].
    intros _ d. unfold leave. destruct (fo_binding d) eqn:Hb; simpl; rewrite ?Hb; done.
Qed.

(** ** A folder that has left its room *)

(** [c] neither registers nor pairs the folder [id]. *)
Definition no_pairing (f : tree) (id : string) (c : root_command) : Prop :=
  match c with
  | CRegister path => match PathGuard.new f path with
                      | Ok guard => RootCommands.managed_root_id (root guard) <> id
                      | Err _ => True
                      end
  | CBind id' _ => id' <> id
  | _ => True
  end.
Definition has_left (id : string) (b : folders) : Prop :=
  match b !! id with Some d => exists room, fo_binding d = LeftRoom room | None => True end.

Lemma has_left_insert id k d b : k <> id -> has_left id (<[k := d]> b) <-> has_left id b.
Proof. intros Hk. unfold has_left. by rewrite lookup_insert_ne. Qed.
Lemma pair_room_left id k room b b' : k <> id -> pair_room k room b = Some b' -> has_left id b -> has_left id b'.
Proof.
  intros Hk. unfold pair_room. destruct (b !! k) as [d|]; [|done]. destruct (_ && _); [|done]. intros [= <-] H.
  by apply has_left_insert.
Qed.
Lemma folder_effect_left f c id b b' :
  no_pairing f id c -> has_left id b -> folder_effect f c b = Some b' -> has_left id b'.
Proof.
  intros Hc Hl. destruct c as [path|k patch|k status e|k|k room|k room|room|]; simpl in *.
  - destruct (PathGuard.new f path) as [g|]; [|done]. case_bool_decide; [|done]. intros [= <-]. by apply has_left_insert.
  - by case_bool_decide; intros [= <-].
  - by case_bool_decide; intros [= <-].
  - intros [= <-]. unfold has_left in *. destruct (decide (k = id)) as [->|Hk]; [by rewrite lookup_delete_eq|by rewrite lookup_delete_ne].
  - intros H. by eapply pair_room_left.
  - destruct (decide (k = id)) as [->|Hk].
    + unfold has_left in Hl. destruct (b !! id) as [d|]; simpl; [|done]. destruct Hl as [room0 ->]. done.
    + destruct (fo_binding <$> b !! k) as [[|bound|]|]; [|by case_bool_decide; intros [= <-]|done..].
      intros H. by eapply pair_room_left.
  - destruct (find _ _) as [[k d]|] eqn:Hf; intros [= <-]; [|done]. unfold has_left in *.
    destruct (decide (k = id)) as [->|Hk]; [rewrite lookup_insert_eq; by eexists|by rewrite lookup_insert_ne].
  - intros [= <-]. unfold has_left in *. rewrite lookup_fmap. destruct (b !! id) as [d|]; simpl; [|done].
    destruct Hl as [room0 Hl]. exists room0. unfold leave. by rewrite Hl.
Qed.
