(* ===== verification/roots_props.v ===== *)
(** The properties of the registry of managed roots, across restarts. *)
From Stdlib Require Import ZArith Lia Ascii Sorted.
From stdpp Require Import strings pretty gmap functions option list relations.
From S2P Require Import prelude rust_str std_path std_fs fs_facts path_guard db journal_store proposal_types index_sql tables desk managed_roots roots_facts.

Open Scope string_scope.
Open Scope list_scope.


(** * The registry of managed roots after a restart: what its database holds. *)

(** * Rows and roots *)

Definition row_for (r : ManagedRoot) : RootRow :=
  mkRootRow (mr_root_id r) (mr_root r) (mr_display_name r) (ManagedRoots.bool_int (mr_enabled r))
    (ManagedRoots.bool_int (mr_watch_on_startup r)) (ManagedRoots.status_str (mr_last_seen_status r)) (mr_last_error r)
    (mr_registered_unix_ms r) (mr_updated_unix_ms r) (mr_room_id r) (mr_detached_room_id r)
    (ManagedRoots.binding_str (mr_room_binding_status r)).

Lemma root_text_opt o : text_opt (opt_text o) = Some o.
Proof. by destruct o. Qed.
Lemma row_of_upsert r : RootSql.row_of_binds (ManagedRoots.upsert_binds r) = Some (row_for r).
Proof. unfold RootSql.row_of_binds, ManagedRoots.upsert_binds. by rewrite !root_text_opt. Qed.
Lemma bool_round b : ManagedRoots.int_bool (ManagedRoots.bool_int b) = b.
Proof. by destruct b. Qed.
Lemma status_round x : ManagedRoots.status_of_str (ManagedRoots.status_str x) = x.
Proof. by destruct x. Qed.
Lemma binding_round x : ManagedRoots.binding_of_str (ManagedRoots.binding_str x) = x.
Proof. by destruct x. Qed.
Lemma read_opt row column o : row_value row column = Some (opt_text o) -> try_get_opt_text row column = Ok o.
Proof. unfold try_get_opt_text. intros ->. by rewrite root_text_opt. Qed.
(** A row that was written is read as it was. *)
Lemma read_row r : ManagedRoots.root_of_row (RootSql.columns_of (row_for r)) = Ok r.
Proof.
  unfold ManagedRoots.root_of_row.
  rewrite (read_opt _ "last_error" (mr_last_error r)), (read_opt _ "room_id" (mr_room_id r)),
    (read_opt _ "detached_room_id" (mr_detached_room_id r)) by reflexivity.
  unfold try_get_text, try_get_int. simpl. rewrite !bool_round, status_round, binding_round. by destruct r.
Qed.
(** The rows of roots whose status fits their room are normal. *)
Lemma normal_row r : binding_ok r -> RootSql.normalized (row_for r) = row_for r.
Proof.
  unfold binding_ok, RootSql.normalized. simpl. destruct (mr_room_binding_status r); simpl; try done. by intros [-> _].
Qed.

Definition rows_of (m : gmap string ManagedRoot) : list RootRow := map row_for (map snd (map_to_list m)).
Lemma rows_of_insert m id r : m !! id = None -> Permutation (rows_of (<[id := r]> m)) (row_for r :: rows_of m).
Proof. intros H. unfold rows_of. by rewrite map_to_list_insert. Qed.
Lemma elem_of_rows m x : x ∈ rows_of m <-> exists id r, m !! id = Some r /\ x = row_for r.
Proof.
  unfold rows_of. rewrite map_map, list_elem_of_fmap. split.
  - intros ([id r] & -> & H%elem_of_map_to_list). by exists id, r.
  - intros (id & r & H & ->). exists (id, r). split; [done|]. by apply elem_of_map_to_list.
Qed.

Definition keyed (m : gmap string ManagedRoot) : Prop := map_Forall (fun id r => mr_root_id r = id) m.

Lemma rows_split m id :
  Permutation (rows_of m) ((match m !! id with Some y => [row_for y] | None => [] end) ++ rows_of (delete id m)).
Proof.
  destruct (m !! id) as [y|] eqn:Hy; simpl; [|by rewrite delete_id].
  rewrite <- (rows_of_insert (delete id m) id y) by apply lookup_delete_eq. by rewrite insert_delete_id.
Qed.
Lemma rows_other m id : keyed m -> Forall (fun x => has_id id x = false) (rows_of (delete id m)).
Proof.
  intros Hk. apply list.Forall_forall. intros x (j & r & [Hj Hr]%lookup_delete_Some & ->)%elem_of_rows.
  unfold has_id. apply String.eqb_neq. simpl. specialize (Hk _ _ Hr). simpl in Hk. congruence.
Qed.
Lemma rows_own m id y : keyed m -> m !! id = Some y -> has_id id (row_for y) = true.
Proof. intros Hk Hy. specialize (Hk _ _ Hy). apply String.eqb_eq, Hk. Qed.

(** Writing a row is inserting a root. *)
Lemma map_other {A} (sel : A -> bool) (f : A -> A) l : Forall (fun x => sel x = false) l -> map (fun x => if sel x then f x else x) l = l.
Proof. induction 1 as [|x l H _ IH]; simpl; [done|]. by rewrite H, IH. Qed.
Lemma existsb_other {A} (sel : A -> bool) l : Forall (fun x => sel x = false) l -> existsb sel l = false.
Proof. induction 1 as [|x l H _ IH]; simpl; [done|]. by rewrite H, IH. Qed.
Lemma filter_other {A} (sel : A -> bool) l : Forall (fun x => sel x = false) l -> List.filter (fun x => negb (sel x)) l = l.
Proof. induction 1 as [|x l H _ IH]; simpl; [done|]. by rewrite H, IH. Qed.
Lemma existsb_perm {A} (sel : A -> bool) l k : Permutation l k -> existsb sel l = existsb sel k.
Proof. induction 1 as [|x l k _ IH|x y l|l1 l2 l3 _ IH1 _ IH2]; simpl; [done|by rewrite IH|by destruct (sel x), (sel y)|congruence]. Qed.
Lemma filter_perm {A} (sel : A -> bool) l k : Permutation l k -> Permutation (List.filter sel l) (List.filter sel k).
Proof.
  induction 1 as [|x l k _ IH|x y l|l1 l2 l3 _ IH1 _ IH2]; simpl; [done|destruct (sel x); by rewrite IH| |by etrans].
  destruct (sel x), (sel y); done || apply perm_swap.
Qed.

Lemma put_row_rows m r rows rows' :
  keyed m -> Permutation rows (rows_of m) -> RootSql.put_row (row_for r) rows = Some rows' ->
  Permutation rows' (rows_of (<[mr_root_id r := r]> m)).
Proof.
  intros Hk Hp. unfold RootSql.put_row. destruct (existsb (fun x => _ && _) rows); [done|]. simpl. set (id := mr_root_id r).
  rewrite (existsb_perm _ _ _ Hp), (existsb_perm _ _ _ (rows_split m id)), existsb_app.
  rewrite <- (insert_delete_eq m id r). rewrite rows_of_insert by apply lookup_delete_eq.
  pose proof (rows_other m id Hk) as Ho. rewrite (existsb_other _ _ Ho). pose proof (rows_split m id) as Hs. rewrite <- Hp in Hs.
  destruct (m !! id) as [y|] eqn:Hy; simpl.
  - rewrite (rows_own m id y Hk Hy). simpl. intros [= <-]. rewrite Hs. simpl.
    rewrite (rows_own m id y Hk Hy). by rewrite (map_other (has_id id) (fun _ => row_for r) _ Ho).
  - intros [= <-]. rewrite Hs. simpl. by rewrite Permutation_app_comm.
Qed.
Lemma delete_rows m id rows :
  keyed m -> Permutation rows (rows_of m) ->
  Permutation (List.filter (fun x => negb (has_id id x)) rows) (rows_of (delete id m)).
Proof.
  intros Hk Hp. rewrite (filter_perm _ _ _ Hp), (filter_perm _ _ _ (rows_split m id)), List.filter_app.
  rewrite (filter_other _ _ (rows_other m id Hk)). destruct (m !! id) as [y|] eqn:Hy; simpl; [|done].
  by rewrite (rows_own m id y Hk Hy).
Qed.

(** Reading the rows gives the roots back. *)
Lemma try_map_rows rs : try_map ManagedRoots.root_of_row (map RootSql.columns_of (map row_for rs)) = Ok rs.
Proof. induction rs as [|r rs IH]; [done|]. cbn [map try_map]. rewrite read_row. simpl. by rewrite IH. Qed.
Lemma normal_rows rs : Forall binding_ok rs -> map RootSql.normalized (map row_for rs) = map row_for rs.
Proof. induction 1 as [|r rs H _ IH]; [done|]. cbn [map]. by rewrite normal_row, IH. Qed.
Lemma collect_roots m rs :
  keyed m -> Permutation rs (map snd (map_to_list m)) ->
  (list_to_map (rev (map (fun r => (mr_root_id r, r)) rs)) : gmap string ManagedRoot) = m.
Proof.
  intros Hk Hp. assert (Permutation (rev (map (fun r => (mr_root_id r, r)) rs)) (map_to_list m)) as H.
  { rewrite <- Permutation_rev, Hp, map_map. erewrite map_ext_Forall; [by rewrite map_id|].
    apply list.Forall_forall. intros [id r] Hr%elem_of_map_to_list. simpl. by rewrite (Hk _ _ Hr). }
  rewrite (list_to_map_proper _ (map_to_list m)); [apply list_to_map_to_list| |done].
  rewrite H. apply NoDup_fst_map_to_list.
Qed.

(** * The database *)

Section disk.
Context {DB : Type} `{!SqlDb DB, !SqlTx DB, !SqlCount DB, !TableDb DB RootTable}.
Implicit Types (w : world DB) (st : RootStore * world DB) (m : gmap string ManagedRoot).

(** The database [p] has the roots [m]. *)
Definition disk_is (p : string) w m : Prop :=
  RootSql.complete (table_at p w) = true /\ Permutation (rt_rows (table_at p w)) (rows_of m).
(** The store and its database agree. *)
Definition saved st : Prop := exists p, ms_pool st.1 = Some p /\ disk_is p st.2 (ms_roots st.1).

Lemma roots_keyed (s : RootStore) : roots_ok s -> keyed (ms_roots s).
Proof. intros H id r Hr. by destruct (H _ _ Hr). Qed.

Lemma upsert_in : RootSql.upsert ∈ sc_statements (T:=RootTable).
Proof. apply list_elem_of_In. simpl. tauto. Qed.
Lemma delete_in : RootSql.delete ∈ sc_statements (T:=RootTable).
Proof. apply list_elem_of_In. simpl. tauto. Qed.
Lemma execute_root_upsert r t :
  RootSql.execute RootSql.upsert (ManagedRoots.upsert_binds r) t =
  if RootSql.complete t then
    match RootSql.put_row (row_for r) (rt_rows t) with Some rows => Some (mkRootTable (rt_columns t) rows, 1%Z) | None => None end
  else None.
Proof. unfold RootSql.execute. by rewrite row_of_upsert. Qed.
Lemma execute_delete id t :
  RootSql.execute RootSql.delete [SqlText id] t =
  Some (mkRootTable (rt_columns t) (List.filter (fun r => negb (has_id id r)) (rt_rows t)),
        Z.of_nat (length (List.filter (has_id id) (rt_rows t)))).
Proof. reflexivity. Qed.

Lemma upsert_root_disk p r w u w' m :
  ManagedRoots.upsert_root p r w = (Ok u, w') -> keyed m -> disk_is p w m -> disk_is p w' (<[mr_root_id r := r]> m).
Proof.
  intros H Hk [H1 H2]. unfold ManagedRoots.upsert_root in H. apply io_map_err_inv in H as (r1 & H & Hr). destruct r1 as [x|e]; [|done].
  destruct (statement_run _ _ _ _ _ _ upsert_in H) as (_ & n & Hx & _). simpl in Hx. rewrite execute_root_upsert, H1 in Hx.
  destruct (RootSql.put_row _ _) as [rows|] eqn:Hp; [|done]. injection Hx as Hx _. unfold disk_is. rewrite <- Hx. simpl.
  split; [exact H1|]. by eapply put_row_rows.
Qed.
Lemma persist_saved r s w x st' :
  ManagedRoots.persist r (s, w) = (Ok x, st') -> forall m p, ms_pool s = Some p -> keyed m -> disk_is p w m ->
  st'.1 = s /\ disk_is p st'.2 (<[mr_root_id r := r]> m).
Proof.
  intros H m p Hp Hk Hd. unfold ManagedRoots.persist, get_store, io_bind, io_gets in H. simpl in H. rewrite Hp in H.
  apply on_world_run in H as (w' & H & ->). split; [done|]. by eapply upsert_root_disk.
Qed.

(** A command that succeeds keeps the store and its database in agreement. *)
Definition saves {A} (m : io (RootStore * world DB) string A) : Prop :=
  forall st a st', roots_ok st.1 -> m st = (Ok a, st') -> saved st -> saved st'.

Lemma edit_saves id f st r st' :
  (forall now root, mr_root_id (f now root) = mr_root_id root) ->
  roots_ok st.1 ->
  (let! updated := ManagedRoots.edit_root id f in do! ManagedRoots.persist updated; io_ret updated) st = (Ok r, st') ->
  saved st -> saved st'.
Proof.
  intros Hf Hok H (p & Hp & Hd). apply io_bind_ok in H as (u & [s1 w1] & He & H). apply edit_root_run in He.
  destruct (ms_roots st.1 !! id) as [root|] eqn:Hr; [|by destruct He]. destruct He as (now & [= ->] & H1 & H2 & H3).
  apply io_bind_ok in H as (x & st2 & Hx & [= <- <-]). simpl in *. subst s1.
  assert (disk_is p w1 (ms_roots st.1)) as Hd1 by (unfold disk_is, table_at in *; by rewrite H3).
  destruct (persist_saved _ _ _ _ _ Hx (ms_roots st.1) p Hp) as [H4 H5]; [by apply roots_keyed|done|].
  exists p. rewrite H4. simpl. split; [done|]. rewrite Hf in H5. by rewrite (proj1 (Hok _ _ Hr)) in H5.
Qed.

Lemma saves_discard {A} (m : io (RootStore * world DB) string A) : saves m -> saves (discard m).
Proof. intros Hm st [] st' Hok H. unfold discard in H. apply io_bind_ok in H as (a & st1 & H & [= <-]). by eapply Hm. Qed.

Lemma upsert_saves root : saves (ManagedRoots.upsert root).
Proof.
  intros st a st' Hok H (p & Hp & Hd). unfold ManagedRoots.upsert, get_store in H.
  apply io_bind_ok in H as (s & st1 & [= <- <-] & H). apply io_bind_ok in H as ([] & st2 & [= _ <-] & H).
  apply io_bind_ok in H as ([] & st3 & [= <-] & H). apply io_bind_ok in H as (x & st4 & Hx & [= <- <-]).
  destruct (persist_saved _ _ _ _ _ Hx (ms_roots st.1) p Hp (roots_keyed _ Hok) Hd) as [H4 H5].
  exists p. rewrite H4. done.
Qed.
Lemma register_saves path : saves (RootCommands.register_managed_root_in_store path).
Proof.
  intros st a st' Hok H Hs. unfold RootCommands.register_managed_root_in_store in H.
  apply io_bind_ok in H as (managed & st1 & H1 & H). destruct st as [s w].
  apply on_world_run in H1 as (w1 & H1 & ->). eapply upsert_saves; [|exact H|]; [exact Hok|].
  destruct Hs as (p & Hp & Hd). exists p. split; [done|]. simpl in *. unfold disk_is, table_at in *.
  assert (w_db w1 = w_db w) as ->; [|done].
  unfold RootCommands.register_managed_root_without_store in H1. apply io_bind_ok in H1 as (f & w2 & [= _ <-] & H1).
  apply io_bind_ok in H1 as (g & w3 & Hg & H1). injection Hg as Hg <-.
  unfold ManagedRoots.new_root, ManagedRoots.unix_ms, now_ms, now_ns, io_bind, io_ret in H1. by injection H1 as _ <-.
Qed.
Lemma bind_saves id room : saves (ManagedRoots.bind_room id room).
Proof.
  intros st a st' Hok. unfold ManagedRoots.bind_room, get_store. destruct (is_empty (trim room)); [done|].
  intros H. apply io_bind_ok in H as (s & st1 & [= <- <-] & H). destruct (existsb _ _); [done|].
  by apply (edit_saves id (with_binding (Some room) None Active) st a).
Qed.
Lemma ensure_saves id room : saves (ManagedRoots.ensure_active_room_binding id room).
Proof.
  intros st a st' Hok H. unfold ManagedRoots.ensure_active_room_binding, get_store in H. apply io_bind_ok in H as (root & st1 & Hg & H).
  unfold ManagedRoots.get, get_store in Hg. apply io_bind_ok in Hg as (s & st2 & [= <- <-] & Hg).
  destruct (ms_roots st.1 !! id); [|done]. injection Hg as <- <-.
  destruct (mr_room_binding_status m), (mr_room_id m) as [bound|]; try done.
  - by eapply bind_saves.
  - destruct (bound =? room)%string; [|done]. by injection H as <- <-.
Qed.
Lemma detach_saves room : saves (ManagedRoots.detach_room room).
Proof.
  intros st a st' Hok H. unfold ManagedRoots.detach_room, get_store in H. apply io_bind_ok in H as (s & st1 & [= <- <-] & H).
  destruct (find _ _) as [[k x]|]; [|by injection H as <- <-].
  apply io_bind_ok in H as (u & st2 & He & H). apply io_bind_ok in H as ([] & st3 & Hx & [= <- <-]).
  eapply (edit_saves k ManagedRoots.detached st u); [done|exact Hok|]. unfold io_bind, io_ret. by rewrite He, Hx.
Qed.
Lemma remove_saves id : saves (ManagedRoots.remove id).
Proof.
  intros st a st' Hok H Hs. unfold ManagedRoots.remove, get_store in H. apply io_bind_ok in H as (s & st1 & [= <- <-] & H).
  destruct (ms_roots st.1 !! id) as [root|] eqn:Hr; [|by injection H as <- <-]. destruct Hs as (p & Hp & H1 & H2).
  apply io_bind_ok in H as ([] & st1 & [= <-] & H). apply io_bind_ok in H as (x & st2 & Hx & [= <- <-]).
  unfold ManagedRoots.delete_persisted, get_store in Hx. apply io_bind_ok in Hx as (s & st3 & [= <- <-] & Hx). simpl in Hx. rewrite Hp in Hx.
  apply on_world_run in Hx as (w' & Hx & ->). apply io_map_err_inv in Hx as (r1 & Hx & Hr1). destruct r1 as [y|e]; [|done].
  destruct (statement_run _ _ _ _ _ _ delete_in Hx) as (_ & n & Ht & _). simpl in Ht. rewrite execute_delete in Ht. injection Ht as Ht _.
  exists p. split; [done|]. unfold disk_is. simpl. rewrite <- Ht. simpl. split; [exact H1|]. apply delete_rows; [by apply roots_keyed|done].
Qed.

(** Leaving every room: what is in memory after the loop is what the second loop writes. *)
Definition put_all (us : list ManagedRoot) m : gmap string ManagedRoot := foldl (fun m u => <[mr_root_id u := u]> m) m us.
Lemma detach_memory (l : list (string * ManagedRoot)) i acc st us st' :
  keyed (ms_roots st.1) ->
  io_for (fun _ (updated : list ManagedRoot) (e : string * ManagedRoot) =>
      let! r := ManagedRoots.edit_root e.1 ManagedRoots.detached in io_ret (updated ++ [r])) i acc l st = (Ok us, st') ->
  exists vs, us = acc ++ vs /\ ms_roots st'.1 = put_all vs (ms_roots st.1) /\ ms_pool st'.1 = ms_pool st.1 /\ w_db st'.2 = w_db st.2.
Proof.
  revert i acc st. induction l as [|[k root0] l IH]; intros i acc st Hk H; simpl in H.
  { injection H as <- <-. exists []. by rewrite app_nil_r. }
  apply io_bind_ok in H as (us1 & st1 & He & H). apply io_bind_ok in He as (r & st2 & He & [= <- <-]).
  apply edit_root_run in He. destruct (ms_roots st.1 !! k) as [root|] eqn:Hr; [|by destruct He].
  destruct He as (now & [= ->] & H1 & H2 & H3). pose proof (Hk _ _ Hr) as Hid. simpl in Hid.
  apply IH in H as (vs & -> & H4 & H5 & H6).
  - exists (ManagedRoots.detached now root :: vs). rewrite <- app_assoc. simpl. rewrite Hid. split_and!; [done|by rewrite H4, H1|by rewrite H5, H1|congruence].
  - rewrite H1. by apply map_Forall_insert_2.
Qed.
Lemma persist_all us i s w x st' m p :
  io_for (fun _ _ root => ManagedRoots.persist root) i tt us (s, w) = (Ok x, st') ->
  ms_pool s = Some p -> keyed m -> disk_is p w m -> st'.1 = s /\ disk_is p st'.2 (put_all us m).
Proof.
  revert i w m. induction us as [|u us IH]; intros i w m H Hp Hk Hd; simpl in H; [by injection H as <- <-|].
  apply io_bind_ok in H as ([] & [s1 w1] & Hx & H). destruct (persist_saved _ _ _ _ _ Hx m p Hp Hk Hd) as [H1 H2]. simpl in H1, H2. subst s1.
  eapply IH; [exact H|done| |exact H2]. by apply map_Forall_insert_2.
Qed.
Lemma detach_all_saves : saves ManagedRoots.detach_all_rooms.
Proof.
  intros st us st' Hok H (p & Hp & Hd). unfold ManagedRoots.detach_all_rooms, get_store in H.
  apply io_bind_ok in H as (s & st1 & [= <- <-] & H). apply io_bind_ok in H as (us1 & [s1 w1] & Hl & H).
  apply io_bind_ok in H as (x & st2 & Hx & [= <- <-]). apply detach_memory in Hl as (vs & -> & H1 & H2 & H3); [|by apply roots_keyed].
  simpl in *. destruct (persist_all _ _ _ _ _ _ (ms_roots st.1) p Hx) as [H4 H5]; [congruence|by apply roots_keyed| |].
  - unfold disk_is, table_at in *. by rewrite H3.
  - exists p. rewrite H4, H1. by rewrite H2.
Qed.

Lemma run_root_saves c : saves (run_root c).
Proof.
  destruct c; simpl; apply saves_discard;
    [apply register_saves|intros st r st' Hok; by apply (edit_saves id (with_patch patch))|intros st r st' Hok; by apply (edit_saves id (with_health status error))
    |apply remove_saves|apply bind_saves|apply ensure_saves|apply detach_saves|apply detach_all_saves].
Qed.
Lemma run_roots_saved cs st rs st' :
  roots_ok st.1 -> saved st -> run_roots cs st = (rs, st') -> Forall (fun r => is_ok r = true) rs -> saved st'.
Proof.
  revert st rs. induction cs as [|c cs IH]; intros st rs Hok Hs; simpl; [by intros [= <- <-]|].
  destruct (run_root c st) as [r st1] eqn:Hr. destruct (run_roots cs st1) as [rs1 st2] eqn:Hrs. intros [= <- <-] [Hr1 Hrs1]%Forall_cons.
  destruct r as [[]|e]; [|done]. eapply IH; [|by eapply run_root_saves|exact Hrs|done].
  by destruct (run_root_follows c st _ st1 Hok Hr) as (_ & ? & _).
Qed.

(** ** Loading *)

(** The table before it is made, or with at least the columns it is made with. *)
Definition table_ok (t : RootTable) : Prop :=
  (rt_columns t = [] /\ rt_rows t = []) \/ Forall (fun c => c ∈ rt_columns t) RootSql.base_columns.
(** More columns, the same rows. *)
Definition grown (t t' : RootTable) : Prop := rt_rows t' = rt_rows t /\ forall c, c ∈ rt_columns t -> c ∈ rt_columns t'.
#[export] Instance grown_preorder : PreOrder grown.
Proof. split; [by intros t|]. intros t1 t2 t3 [H1 H2] [H3 H4]. split; [congruence|auto]. Qed.

Lemma execute_add column sql t :
  (column, sql) ∈ RootSql.additions ->
  RootSql.execute sql [] t = (if existsb (String.eqb column) (rt_columns t) then None
                              else Some (mkRootTable (rt_columns t ++ [column]) (rt_rows t), 0%Z)).
Proof. intros H. apply list_elem_of_In in H. simpl in H. repeat (destruct H as [[= <- <-]|H]; [reflexivity|]). done. Qed.
Lemma add_in column sql : (column, sql) ∈ RootSql.additions -> sql ∈ sc_statements (T:=RootTable).
Proof. intros H. apply list_elem_of_In. simpl. do 4 right. apply list_elem_of_In in H. simpl in H. intuition congruence. Qed.

Lemma add_column_run p column sql w w' :
  (column, sql) ∈ RootSql.additions -> ManagedRoots.add_column_if_missing p column sql w = (Ok tt, w') ->
  grown (table_at p w) (table_at p w') /\ column ∈ rt_columns (table_at p w').
Proof.
  intros Hin H. unfold ManagedRoots.add_column_if_missing in H. apply io_bind_ok in H as (rows & w1 & Hq & H).
  apply io_map_err_inv in Hq as (r1 & Hq & Hr1). destruct r1 as [rows1|]; [|done]. injection Hr1 as <-.
  assert (RootSql.table_info ∈ sc_queries (T:=RootTable)) as Hqin by (by left).
  destruct (query_run _ _ _ _ _ _ Hqin Hq) as (_ & Ht & Hrows). injection Hrows as <-.
  set (t := table_at p w) in *. destruct (existsb _ _) eqn:He.
  - injection H as <-. rewrite Ht. split; [done|]. apply existsb_exists in He as (row & Hrow & He).
    apply in_map_iff in Hrow as (c & <- & Hc). simpl in He. apply String.eqb_eq in He as <-. by apply list_elem_of_In.
  - apply io_map_err_inv in H as (r1 & H & Hr1). destruct r1 as [x|]; [|done].
    destruct (statement_run _ _ _ _ _ _ (add_in _ _ Hin) H) as (_ & n & Hx & _). simpl in Hx. rewrite (execute_add _ _ _ Hin), Ht in Hx.
    destruct (existsb (String.eqb column) _); [done|]. injection Hx as <- _. simpl. split; [split; [done|]|].
    + intros c Hc. apply elem_of_app. by left.
    + apply elem_of_app. right. by left.
Qed.

Lemma execute_create t :
  RootSql.execute RootSql.create [] t =
  Some (if bool_decide (rt_columns t = []) then mkRootTable RootSql.base_columns [] else t, 0%Z).
Proof. reflexivity. Qed.
Lemma execute_normalize t :
  RootSql.execute RootSql.normalize [] t =
  (if RootSql.complete t then Some (mkRootTable (rt_columns t) (map RootSql.normalized (rt_rows t)), 0%Z) else None).
Proof. reflexivity. Qed.
Lemma elem_existsb c l : existsb (String.eqb c) l = true <-> c ∈ l.
Proof.
  rewrite existsb_exists, list_elem_of_In. split.
  - by intros (x & Hx & ->%String.eqb_eq).
  - intros H. exists c. by rewrite String.eqb_refl.
Qed.

Lemma migrate_run p w w' :
  ManagedRoots.migrate p w = (Ok tt, w') -> table_ok (table_at p w) ->
  RootSql.complete (table_at p w') = true /\
  rt_rows (table_at p w') = map RootSql.normalized (rt_rows (table_at p w)).
Proof.
  intros H Hok. unfold ManagedRoots.migrate in H. apply io_bind_ok in H as ([] & w0 & Hc & H).
  apply io_map_err_inv in Hc as (r0 & Hc & Hr0). destruct r0 as [[]|]; [|done].
  assert (RootSql.create ∈ sc_statements (T:=RootTable)) as Hcin by (by left).
  destruct (statement_run _ _ _ _ _ _ Hcin Hc) as (_ & n0 & Hx & _). simpl in Hx. rewrite execute_create in Hx. injection Hx as Hx _.
  assert (rt_rows (table_at p w0) = rt_rows (table_at p w) /\ Forall (fun c => c ∈ rt_columns (table_at p w0)) RootSql.base_columns) as [Hrows0 Hbase].
  { rewrite <- Hx. destruct Hok as [[H1 H2]|H1]; case_bool_decide as Hb; try done.
    - simpl. split; [done|]. apply list.Forall_forall. auto.
    - rewrite Hb in H1. apply Forall_cons in H1 as [H1 _]. by apply elem_of_nil in H1. }
  repeat lazymatch goal with
  | H : io_bind (ManagedRoots.add_column_if_missing _ _ _) _ _ = (Ok _, _) |- _ =>
      let Ha := fresh "Ha" in apply io_bind_ok in H as ([] & ? & Ha & H);
      apply add_column_run in Ha as [? ?]; [|apply list_elem_of_In; simpl; tauto]
  end.
  apply io_map_err_inv in H as (r1 & H & Hr1). destruct r1 as [[]|]; [|done].
  assert (RootSql.normalize ∈ sc_statements (T:=RootTable)) as Hnin by (right; by left).
  destruct (statement_run _ _ _ _ _ _ Hnin H) as (_ & n1 & Hn & _). simpl in Hn. rewrite execute_normalize in Hn.
  destruct (RootSql.complete _) eqn:Hcomplete; [|done]. injection Hn as Hn _. rewrite <- Hn. unfold RootSql.complete. simpl.
  split; [exact Hcomplete|]. f_equal. rewrite <- Hrows0.
  repeat match goal with Hg : grown ?a ?b |- context [rt_rows ?b] => rewrite (proj1 Hg); clear Hg end. done.
Qed.

Definition open_and_read (path : string) : io (world DB) string (list ManagedRoot) :=
  let! pool := io_map_err Db.fmt (Db.open_pool_at path) in
  do! ManagedRoots.migrate pool;
  ManagedRoots.read_roots pool.
(** What is read from a database that has normal roots. *)
Lemma open_and_read_rows path w loaded w' :
  open_and_read path w = (Ok loaded, w') -> table_ok (table_at path w) ->
  RootSql.complete (table_at path w') = true /\
  rt_rows (table_at path w') = map RootSql.normalized (rt_rows (table_at path w)) /\
  try_map ManagedRoots.root_of_row (map RootSql.columns_of (rt_rows (table_at path w'))) = Ok loaded.
Proof.
  intros H Hok. unfold open_and_read in H. apply io_bind_ok in H as (p & w1 & Hopen & H).
  apply io_map_err_inv in Hopen as (r & Hopen & Hr). destruct r as [q|]; [|done]. injection Hr as ->.
  apply open_pool_table in Hopen as [-> Ht]. apply io_bind_ok in H as ([] & w2 & Hm & H).
  apply migrate_run in Hm as [Hc Hrows]; [|by rewrite Ht]. rewrite Ht in Hrows.
  unfold ManagedRoots.read_roots in H. apply io_bind_ok in H as (rows & w3 & Hq & H).
  apply io_map_err_inv in Hq as (r & Hq & Hr). destruct r as [rows1|]; [|done]. injection Hr as <-.
  assert (RootSql.select ∈ sc_queries (T:=RootTable)) as Hsin by (right; by left).
  destruct (query_run _ _ _ _ _ _ Hsin Hq) as (_ & Ht3 & Hf). injection H as H <-. rewrite Ht3. split_and!; [done..|].
  assert (sc_fetch RootSql.select [] (table_at path w2) =
    if RootSql.complete (table_at path w2) then Some (map RootSql.columns_of (rt_rows (table_at path w2))) else None) as Hsel by reflexivity.
  rewrite Hsel, Hc in Hf. injection Hf as <-. done.
Qed.

Lemma load_from_db_open path s w :
  ManagedRoots.load_from_db path (s, w) =
  match open_and_read path w with
  | (Ok loaded, w') =>
      match ManagedRoots.validate_no_overlaps loaded with
      | Ok _ => (Ok tt, (mkRootStore (list_to_map (rev (map (fun r => (mr_root_id r, r)) loaded))) (Some path), w'))
      | Err e => (Err e, (s, w'))
      end
  | (Err e, w') => (Err e, (s, w'))
  end.
Proof.
  unfold ManagedRoots.load_from_db, open_and_read, on_world, zoom, io_bind, io_map_err. simpl.
  destruct (Db.open_pool_at path w) as [[p|e] w1] eqn:Ho; [|done]. apply open_pool_table in Ho as [-> _]. simpl.
  destruct (ManagedRoots.migrate path w1) as [[[]|e] w2]; [|done]. simpl.
  destruct (ManagedRoots.read_roots path w2) as [[loaded|e] w3]; [|done]. simpl. unfold io_lift.
  by destruct (ManagedRoots.validate_no_overlaps loaded).
Qed.

(** ** Roots that do not overlap pass the check of [load_from_db] *)
Lemma no_overlaps_ok (s : RootStore) loaded :
  roots_ok s -> folders_ok (folders_of s) -> Permutation loaded (map snd (map_to_list (ms_roots s))) ->
  ManagedRoots.validate_no_overlaps loaded = Ok tt.
Proof.
  intros Hok Hf Hp. unfold ManagedRoots.validate_no_overlaps.
  assert (forall r, r ∈ loaded -> exists id, ms_roots s !! id = Some r /\ mr_root_id r = id) as Hin.
  { intros r Hr. rewrite Hp in Hr. apply list_elem_of_fmap in Hr as ([id x] & -> & Hx%elem_of_map_to_list).
    exists id. split; [done|]. by destruct (Hok _ _ Hx). }
  assert (forall rest i, (forall r, r ∈ rest -> r ∈ loaded) -> ManagedRoots.validate_go loaded i rest = Ok tt) as Hgo; [|by apply Hgo].
  induction rest as [|c rest IH]; intros i Hrest; simpl; [done|].
  destruct (Hin c) as (j & Hc & Hcid); [by apply Hrest; left|].
  rewrite (proj2 (not_overlapping_iter _ _)); [simpl; apply IH; intros r Hr; apply Hrest; by right|].
  apply list.Forall_forall. intros r Hr Hne. assert (r ∈ loaded) as Hrl.
  { unfold ManagedRoots.without_index in Hr. apply elem_of_app in Hr as [Hr|Hr]; [by eapply elem_of_take in Hr as (? & ? & _); eapply list_elem_of_lookup_2|].
    rewrite <- (take_drop (S i) loaded). apply elem_of_app. by right. }
  destruct (Hin r Hrl) as (k & Hk & Hkid). pose proof (lookup_folders s k) as H1. pose proof (lookup_folders s j) as H2.
  rewrite Hk in H1. rewrite Hc in H2. apply (fo_apart _ Hf k j _ _ H1 H2). congruence.
Qed.

(** Loading a database that agrees with a good store gives the store's roots. *)
Lemma reload_same p s0 s w r st' :
  roots_ok s -> folders_ok (folders_of s) -> disk_is p w (ms_roots s) ->
  ManagedRoots.load_from_db p (s0, w) = (r, st') ->
  match r with
  | Ok _ => ms_roots st'.1 = ms_roots s /\ saved st'
  | Err e => st'.1 = s0 /\ (open_and_read p w).1 = Err e
  end.
Proof.
  intros Hok Hf [Hc Hp]. rewrite load_from_db_open. destruct (open_and_read p w) as [[loaded|e] w'] eqn:Ho; [|by intros [= <- <-]].
  assert (table_ok (table_at p w)) as Htok.
  { right. apply list.Forall_forall. intros c Hcin. apply elem_existsb. unfold RootSql.complete in Hc. rewrite forallb_forall in Hc.
    apply Hc, list_elem_of_In. unfold RootSql.all_columns. apply elem_of_app. by left. }
  destruct (open_and_read_rows _ _ _ _ Ho Htok) as (Hc' & Hrows & Hread).
  assert (exists rs, rt_rows (table_at p w) = map row_for rs /\ Permutation rs (map snd (map_to_list (ms_roots s)))) as (rs & Hrs & Hrsp).
  { unfold rows_of in Hp. apply Permutation_map_inv in Hp as (rs & H1 & H2). exists rs. by split. }
  assert (Forall binding_ok rs) as Hb.
  { apply list.Forall_forall. intros x Hx. rewrite Hrsp in Hx. apply list_elem_of_fmap in Hx as ([id y] & -> & Hy%elem_of_map_to_list).
    by destruct (Hok _ _ Hy). }
  rewrite Hrs, normal_rows in Hrows by done. rewrite Hrows, try_map_rows in Hread. injection Hread as <-.
  rewrite (no_overlaps_ok s rs) by done. intros [= <- <-]. simpl.
  rewrite (collect_roots (ms_roots s)) by (done || by apply roots_keyed). split; [done|]. exists p. split; [done|]. split; [exact Hc'|].
  simpl. rewrite Hrows. unfold rows_of. by rewrite Hrsp.
Qed.
End disk.

(** * The registry of managed roots: its properties, and what it does where a restart,
    a second registration or a reused room comes in the way. *)

(** * Properties *)

(** C10: the registry implements its folders.  Along every sequence of commands, some
    of which fail, each command that succeeds does to the folders what the
    specification says (a folder is added only beside the others, a room is given to
    one folder, a folder that left its room is not taken back by the room alone), and
    each that fails has done this or nothing; the roots stay well-formed. *)
Theorem registry_refines_folders {DB : Type} `{!SqlDb DB} (cs : list root_command) (st : RootStore * world DB) rs st' :
  roots_ok st.1 -> run_roots cs st = (rs, st') ->
  roots_ok st'.1 /\ obeyed (w_fs st.2) cs rs (folders_of st.1) (folders_of st'.1).
Proof. intros Hok H. by apply run_roots_obeyed. Qed.

(** C12: no two managed folders ever overlap, and no room is ever bound to two of
    them, whatever the commands and whichever of them fail. *)
Theorem folders_stay_apart {DB : Type} `{!SqlDb DB} (cs : list root_command) (st : RootStore * world DB) rs st' :
  roots_ok st.1 -> folders_ok (folders_of st.1) -> run_roots cs st = (rs, st') -> folders_ok (folders_of st'.1).
Proof.
  intros Hok Hf H. destruct (run_roots_obeyed _ _ _ _ Hok H) as [_ Ho].
  refine (obeyed_keeps folders_ok _ _ _ _ _ _ Ho Hf). apply list.Forall_true. intros c b b'. apply folder_effect_ok.
Qed.

(** a folder that was detached from its room stays detached: until it is
    registered or paired again no command binds it, and the room's claim on it is
    refused. *)
Theorem left_room_stays_left {DB : Type} `{!SqlDb DB} (id : string) (cs : list root_command) (st : RootStore * world DB) rs st' room :
  roots_ok st.1 -> has_left id (folders_of st.1) -> Forall (no_pairing (w_fs st.2) id) cs -> run_roots cs st = (rs, st') ->
  has_left id (folders_of st'.1) /\
  forall r st'', ManagedRoots.ensure_active_room_binding id room st' = (r, st'') -> is_ok r = false.
Proof.
  intros Hok Hl Hcs H. destruct (run_roots_obeyed _ _ _ _ Hok H) as [Hok' Ho].
  assert (has_left id (folders_of st'.1)) as Hl'.
  { refine (obeyed_keeps (has_left id) _ _ _ _ _ _ Ho Hl). eapply Forall_impl; [exact Hcs|].
    intros c Hc b b' Hb. by apply folder_effect_left. }
  split; [done|]. intros r st'' He. apply ensure_follows in He as (_ & _ & _ & He); [|done].
  destruct r as [x|e]; [|done]. exfalso. simpl in He. unfold has_left in Hl'.
  destruct (folders_of st'.1 !! id) as [d|]; simpl in He; [|done]. by destruct Hl' as [room' Hd]; rewrite Hd in He.
Qed.

(** A restart restores the registry.  After a sequence of commands that all
    succeed on a store that agrees with its database, a store that loads the database
    has the same roots, or reading the database failed: what was stored is never
    rejected as overlapping. *)
Theorem restart_restores_roots {DB : Type} `{!SqlDb DB, !SqlTx DB, !SqlCount DB, !TableDb DB RootTable}
    (p : string) (cs : list root_command) (st : RootStore * world DB) rs st' s0 r st'' :
  roots_ok st.1 -> folders_ok (folders_of st.1) -> ms_pool st.1 = Some p -> saved st ->
  run_roots cs st = (rs, st') -> Forall (fun r => is_ok r = true) rs ->
  ManagedRoots.load_from_db p (s0, st'.2) = (r, st'') ->
  match r with
  | Ok _ => ms_roots st''.1 = ms_roots st'.1 /\ saved st''
  | Err e => st''.1 = s0 /\ (open_and_read p st'.2).1 = Err e
  end.
Proof.
  intros Hok Hf Hp Hs H Hrs Hload. destruct (run_roots_obeyed _ _ _ _ Hok H) as [Hok' Ho].
  assert (folders_ok (folders_of st'.1)) as Hf'.
  { refine (obeyed_keeps folders_ok _ _ _ _ _ _ Ho Hf). apply list.Forall_true. intros c b b'. apply folder_effect_ok. }
  destruct (run_roots_saved _ _ _ _ Hok Hs H Hrs) as (p' & Hp' & Hd).
  assert (p' = p) as -> by (rewrite (run_roots_pool _ _ _ _ Hok H) in Hp'; congruence).
  by apply (reload_same p s0 st'.1 st'.2).
Qed.

(** * Witnesses *)

(** Conversion compares the runs below before it computes them. *)
Strategy 1000 [run_roots ManagedRoots.load_from_db].

Definition roots_machine : world (MemTables RootTable) :=
  mkWorld sample_tree (fun _ => mem_of (mkRootTable [] [])) steady_clock 0 no_faults 0 100 [].
Definition roots_db : string := "/home/roots.db".
Definition root_id : string := RootCommands.managed_root_id "/home/root".
Definition other_id : string := RootCommands.managed_root_id "/home/other".

(** The store after the first start, with two folders, one of which left its room. *)
Definition opened := (ManagedRoots.load_from_db roots_db (empty_store, roots_machine)).2.
Definition sample_commands : list root_command :=
  [CRegister "/home/root"; CRegister "/home/other"; CBind root_id "room-1"; CDetach "room-1"].
Definition sample_run := run_roots sample_commands opened.
Definition left_over := sample_run.2.

Lemma opened_roots : ms_roots opened.1 = ∅.
Proof. vm_compute. reflexivity. Qed.
Lemma opened_ok : roots_ok opened.1.
Proof. unfold roots_ok. rewrite opened_roots. apply map_Forall_empty. Qed.
Lemma no_folders_ok (s : RootStore) : ms_roots s = ∅ -> folders_ok (folders_of s).
Proof.
  intros Hs. assert (forall i, folders_of s !! i = None) as H.
  { intros i. rewrite lookup_folders, Hs. by rewrite lookup_empty. }
  split; intros i j d e; by rewrite H.
Qed.
Lemma opened_folders_ok : folders_ok (folders_of opened.1).
Proof. apply no_folders_ok, opened_roots. Qed.
Lemma opened_saved : saved opened.
Proof.
  exists roots_db. split; [vm_compute; reflexivity|]. split; [vm_compute; reflexivity|].
  rewrite opened_roots. vm_compute. constructor.
Qed.
Lemma sample_left : has_left root_id (folders_of left_over.1).
Proof.
  assert (fo_binding <$> folders_of left_over.1 !! root_id = Some (LeftRoom "room-1")) as H by (vm_compute; reflexivity).
  unfold has_left. destruct (folders_of left_over.1 !! root_id) as [d|]; [|done]. injection H as H. by eexists.
Qed.

Lemma registry_refines_folders_witness :
  obeyed (w_fs opened.2) sample_commands sample_run.1 (folders_of opened.1) (folders_of left_over.1) /\
  map is_ok sample_run.1 = [true; true; true; true].
Proof.
  split; [|vm_compute; reflexivity]. unfold left_over. destruct sample_run as [rs st'] eqn:H.
  exact (proj2 (registry_refines_folders sample_commands opened rs st' opened_ok H)).
Defined.

(** The second registration is inside the first and is refused. *)
Definition nested_run := run_roots [CRegister "/home/root"; CRegister "/home/root/docs"; CRegister "/home"] opened.
Lemma folders_stay_apart_witness : folders_ok (folders_of nested_run.2.1) /\ map is_ok nested_run.1 = [true; false; false].
Proof.
  split; [|vm_compute; reflexivity]. destruct nested_run as [rs st'] eqn:H.
  exact (folders_stay_apart _ opened rs st' opened_ok opened_folders_ok H).
Defined.

Definition health_run := run_roots [CHealth root_id RootMissing None; CEnsure root_id "room-1"] left_over.
Lemma left_room_stays_left_witness : has_left root_id (folders_of health_run.2.1) /\ map is_ok health_run.1 = [true; false].
Proof.
  split; [|vm_compute; reflexivity]. destruct health_run as [rs st'] eqn:H.
  assert (roots_ok left_over.1) as Hok.
  { unfold left_over. destruct sample_run as [rs0 st0] eqn:H0. exact (proj1 (run_roots_obeyed _ _ _ _ opened_ok H0)). }
  assert (Forall (no_pairing (w_fs left_over.2) root_id) [CHealth root_id RootMissing None; CEnsure root_id "room-1"]) as Hcs
    by (repeat constructor).
  unfold health_run in H. exact (proj1 (left_room_stays_left root_id _ left_over rs st' "room-1" Hok sample_left Hcs H)).
Defined.

Definition restarted := ManagedRoots.load_from_db roots_db (empty_store, left_over.2).
Lemma restart_restores_roots_witness :
  ms_roots restarted.2.1 = ms_roots left_over.1 /\ map mr_root (values (ms_roots restarted.2.1)) = ["/home/root"; "/home/other"].
Proof.
  split; [|vm_compute; reflexivity]. assert (is_ok restarted.1 = true) as Hok by (vm_compute; reflexivity).
  unfold restarted, left_over in *. destruct sample_run as [rs st'] eqn:H. simpl in *.
  destruct (ManagedRoots.load_from_db roots_db (empty_store, st'.2)) as [[u|e] st''] eqn:Hl; [|discriminate Hok].
  assert (Forall (fun r => is_ok r = true) rs) as Hrs.
  { change rs with (rs, st').1. rewrite <- H. vm_compute. repeat constructor. }
  assert (ms_pool opened.1 = Some roots_db) as Hp by (vm_compute; reflexivity).
  exact (proj1 (restart_restores_roots roots_db _ opened rs st' empty_store (Ok u) st'' opened_ok opened_folders_ok Hp
    opened_saved H Hrs Hl)).
Defined.

(** * Edge cases *)

Definition bindings (st : RootStore * world (MemTables RootTable)) : list (string * room_binding) :=
  map (fun e => (mr_root e.2, binding_of e.2)) (entries (ms_roots st.1)).

(** Registering a folder again makes a new root of the same id: a folder that was
    detached is unbound, and the room it was detached from takes it back. *)
Definition registered_again := run_roots [CRegister "/home/root"; CEnsure root_id "room-1"] left_over.
Example registration_forgets_detachment :
  bindings left_over = [("/home/root", LeftRoom "room-1"); ("/home/other", NoRoom)] /\
  map is_ok registered_again.1 = [true; true] /\
  bindings registered_again.2 = [("/home/root", InRoom "room-1"); ("/home/other", NoRoom)].
Proof. split_and!; vm_compute; reflexivity. Qed.

(** Detaching a room looks for a folder that has it or had it, in the order of the
    ids: when the room was given to another folder since, that one keeps it. *)
Definition reused_room := run_roots [CBind other_id "room-1"; CDetach "room-1"] left_over.
Example detach_misses_bound_root :
  map is_ok reused_room.1 = [true; true] /\
  bindings reused_room.2 = [("/home/root", LeftRoom "room-1"); ("/home/other", InRoom "room-1")].
Proof. split_and!; vm_compute; reflexivity. Qed.

(** A root is taken out of memory before its row is deleted: when the deletion fails
    a folder inside it can be registered, and the next start rejects the database. *)
Definition out_of_space (w : world (MemTables RootTable)) : world (MemTables RootTable) :=
  set_db roots_db (mkMemTables (table_at roots_db w) (table_at roots_db w) 0 (Some O)) w.
Definition space_again (w : world (MemTables RootTable)) : world (MemTables RootTable) :=
  set_db roots_db (mem_of (table_at roots_db w)) w.
Definition before_removal := (run_roots [CRegister "/home/root"] opened).2.
Definition failed_removal := run_root (CRemove root_id) (before_removal.1, out_of_space before_removal.2).
Definition registered_inside := run_root (CRegister "/home/root/docs") (failed_removal.2.1, space_again failed_removal.2.2).
Example failed_removal_blocks_next_start :
  is_ok failed_removal.1 = false /\ is_ok registered_inside.1 = true /\
  (ManagedRoots.load_from_db roots_db (empty_store, registered_inside.2.2)).1 =
    Err ("managed root overlaps an existing registered child root: candidate=/home/root, existing=/home/root/docs").
Proof. split_and!; vm_compute; reflexivity. Qed.
