(* ===== verification/file_index.v ===== *)
(** [tools/file-engine-cli/src/file_index.rs]: the index of a root, kept in its
    database: rebuilt from a scan, refined by the watcher's events, searched by name
    a page at a time.

    SQLite is the interface of index_sql.  [unicode] lowers the case of names that are
    not ASCII.  The loop over the pages of a query has fuel, a parameter;
    [IOutOfFuel] is its exhaustion, which is no error of the code. *)
From Stdlib Require Import ZArith Lia Ascii.
From stdpp Require Import strings pretty gmap functions option list.
From S2P Require Import prelude rust_str std_path std_fs fs_facts path_guard db journal_store.
From S2P Require Import proposal_types analyzer browse index_sql.

Open Scope string_scope.
Open Scope list_scope.

Record IndexedFile := mkIndexedFile {
  if_relative_path : string;
  if_size_bytes : Z;                  (** [u64] *)
  if_modified_unix_ms : option Z;     (** [u128] *)
  if_extension : option string;
  if_file_id : option string;
}.
Record FileIndexReport := mkFileIndexReport {
  fi_root : string;
  fi_generation : Z;                  (** [u64] *)
  fi_files : list IndexedFile;
  fi_skipped_entries : list SkippedEntry;
}.
Inductive IndexedSearchScope := CurrentDirectory | ManagedRoot.
Record IndexedSearchEntry := mkIndexedSearchEntry {
  is_name : string;
  is_relative_path : string;
  is_dir : bool;
  is_extension : option string;
  is_size_bytes : option Z;           (** [u64] *)
  is_modified_unix_ms : option Z;     (** [u128] *)
}.
Record IndexedSearchPage := mkIndexedSearchPage {
  pg_generation : Z;                  (** [u64] *)
  pg_entries : list IndexedSearchEntry;
  pg_next_offset : option Z;          (** [usize] *)
}.

Inductive FileIndexError :=
| IGuard (e : PathGuardError)
| IAnalyze (e : AnalyzeError)
| IDb (e : DbError)
| IMetadata (path message : string)
| INotAFile (path : string)
| InvalidSearch (message : string)
| GenerationChanged (expected actual : Z)
| IOutOfFuel.

Definition opt_i64 (o : option Z) : sql_value := opt_int (as_i64 <$> o).
(** [i64::try_from(x).unwrap_or(i64::MAX)] of a [usize] *)
Definition i64_or_max (x : Z) : Z := if (x <? 2 ^ 63)%Z then x else (2 ^ 63 - 1)%Z.
(** [usize::saturating_add] *)
Definition saturating_add (a b : Z) : Z := Z.min (2 ^ 64 - 1) (a + b).

Module FileIndex.
(** [impl Display for FileIndexError] *)
Definition fmt (e : FileIndexError) : string :=
  match e with
  | IGuard e => PathGuard.fmt e
  | IAnalyze e => Analyzer.fmt e
  | IDb e => Db.fmt e
  | IMetadata path message => "cannot read metadata " +:+ path +:+ ": " +:+ message
  | INotAFile path => "index entry is not a file: " +:+ path
  | InvalidSearch message => "invalid indexed search: " +:+ message
  | GenerationChanged expected actual =>
      "file index generation changed (expected " +:+ fmt_int expected +:+ ", actual " +:+ fmt_int actual +:+ ")"
  | IOutOfFuel => ""
  end.

(** ** Names *)
Definition extension_of (path : string) : option string := to_ascii_lowercase <$> path_extension path.

(** [replace] of one character by two *)
Fixpoint escape_char (a : ascii) (s : string) : string :=
  match s with
  | "" => ""
  | String c s' => if Ascii.eqb c a then String "\" (String c (escape_char a s')) else String c (escape_char a s')
  end.
Definition escape_like (query : string) : string := escape_char "_" (escape_char "%" (escape_char "\" query)).

Definition normalize_name (unicode : string -> string) (value : string) : string := str_to_lowercase unicode value.

Definition file_id_for_relative_path (f : tree) (g : PathGuard) (relative_path : string) : option string :=
  match PathGuard.resolve_existing f g relative_path with
  | Ok path => file_id_for_path f path
  | Err _ => None
  end.

Definition indexed_search_entry (relative_path : string) (is_dir : bool) (size_bytes modified_unix_ms : option Z)
  : option IndexedSearchEntry :=
  let normalized_path := Browse.normalize_relative relative_path in
  match path_file_name normalized_path with
  | None => None
  | Some name => Some (mkIndexedSearchEntry name normalized_path is_dir
      (if is_dir then None else extension_of normalized_path) (if is_dir then None else size_bytes)
      modified_unix_ms)
  end.

(** ** The scan for search entries *)

(** The body of the loop over the entries of a directory. *)
Definition visit_entry (visit : string -> list IndexedSearchEntry -> result (list IndexedSearchEntry) FileIndexError)
  (f : tree) (root : string) (entries : list IndexedSearchEntry) (path : string)
  : result (list IndexedSearchEntry) FileIndexError :=
  if match path_file_name path with
     | Some name => (name =? STATE_DIR)%string || (name =? TRASH_DIR)%string
     | None => false
     end
  then Ok entries
  else match symlink_metadata f path with
       | Err _ => Ok entries
       | Ok metadata =>
           if is_link_or_reparse_point metadata then Ok entries
           else match path_strip_prefix path root with
                | None => Ok entries
                | Some relative =>
                    let relative := Analyzer.join_components relative in
                    if is_dir_inode metadata then
                      visit path (entries ++ option_list
                        (indexed_search_entry relative true None (modified_unix_ms metadata)))
                    else if is_file_inode metadata then
                      Ok (entries ++ option_list (indexed_search_entry relative false
                            (Some (inode_len metadata)) (modified_unix_ms metadata)))
                    else Ok entries
                end
       end.

Fixpoint visit (fuel : nat) (f : tree) (root directory : string) (entries : list IndexedSearchEntry)
  : result (list IndexedSearchEntry) FileIndexError :=
  match fuel with
  | O => Err IOutOfFuel
  | S n =>
      match read_dir f directory with
      | Err error => Err (IMetadata directory (io_error_str error))
      | Ok items => try_fold (visit_entry (visit n f root) f root) entries items
      end
  end.

Definition entry_cmp (unicode : string -> string) (left right : IndexedSearchEntry) : comparison :=
  then_with (String.compare (normalize_name unicode (is_name left)) (normalize_name unicode (is_name right)))
    (String.compare (is_relative_path left) (is_relative_path right)).

Definition collect_search_entries (unicode : string -> string) (f : tree) (root : string)
  : result (list IndexedSearchEntry) FileIndexError :=
  let? entries := visit (size f) f root root [] in
  Ok (sort_by (entry_cmp unicode) entries).

(** ** Rows *)
(** The body of the loop of [fetch_indexed]. *)
Definition indexed_file_of_row (row : sql_row) : result IndexedFile string :=
  let? relative_path := try_get_text row "relative_path" in
  let? size_bytes := try_get_int row "size_bytes" in
  let? modified := try_get_opt_int row "modified_unix_ms" in
  let? extension := try_get_opt_text row "extension" in
  let? file_id := try_get_opt_text row "file_id" in
  Ok (mkIndexedFile relative_path (as_u64 size_bytes) (as_u128 <$> modified) extension file_id).

Definition indexed_search_entry_from_row (row : sql_row) : result IndexedSearchEntry string :=
  let? entry_type := try_get_text row "entry_type" in
  let? size_bytes := try_get_opt_int row "size_bytes" in
  let? modified := try_get_opt_int row "modified_unix_ms" in
  let? extension := try_get_opt_text row "extension" in
  let? name := try_get_text row "name" in
  let? relative_path := try_get_text row "relative_path" in
  Ok (mkIndexedSearchEntry name relative_path (entry_type =? "directory")%string extension
        (as_u64 <$> size_bytes) (as_u128 <$> modified)).

(** ** Checks *)
Definition is_ascii_alphanumeric (c : ascii) : bool :=
  let b := byte_of c in
  ((48 <=? b)%Z && (b <=? 57)%Z) || ((65 <=? b)%Z && (b <=? 90)%Z) || ((97 <=? b)%Z && (b <=? 122)%Z).

Definition normalize_extension (extension : string) : result string FileIndexError :=
  match strip_prefix (to_ascii_lowercase (trim extension)) "." with
  | None => Err (InvalidSearch "extension filters must start with a dot")
  | Some raw =>
      if is_empty raw || negb (forallb is_ascii_alphanumeric (String.list_ascii_of_string raw))
      then Err (InvalidSearch "extension filters may contain only ASCII letters and digits")
      else Ok raw
  end.
Definition normalize_extension_filter (extensions : list string) : result (list string) FileIndexError :=
  if (50 <? Z.of_nat (length extensions))%Z
  then Err (InvalidSearch "extension filter may contain at most 50 extensions")
  else try_map normalize_extension extensions.

Definition indexed_entry_matches_extensions (entry : IndexedSearchEntry) (extensions : list string) : bool :=
  bool_decide (extensions = [])
  || (negb (is_dir entry)
      && match is_extension entry with
         | Some extension => existsb (fun item => (item =? extension)%string) extensions
         | None => false
         end).

Definition leaves_root (c : Component) : bool := match c with RootDir | ParentDir => true | _ => false end.
Definition normal_name (c : Component) : option string := match c with Normal s => Some s | _ => None end.
Definition normalize_relative_directory (path : string) : result string FileIndexError :=
  if existsb leaves_root (components path)
  then Err (InvalidSearch "search directory must stay relative to the managed root")
  else Ok (join "/" (omap normal_name (components path))).

(** The loop over the components, from [current]. *)
Fixpoint no_link_below (f : tree) (current : string) (l : list Component) : result unit FileIndexError :=
  match l with
  | [] => Ok tt
  | Normal component :: l' =>
      let current := path_join current component in
      let? metadata := map_err (fun e => IMetadata current (io_error_str e)) (symlink_metadata f current) in
      if is_link_or_reparse_point metadata
      then Err (InvalidSearch "indexed path crosses a symlink, junction, or reparse point")
      else no_link_below f current l'
  | _ :: _ => Err (InvalidSearch "indexed path has an unsafe component")
  end.
Definition validate_no_link_path (f : tree) (g : PathGuard) (relative_path : string) (require_directory : bool)
  : result unit FileIndexError :=
  if is_empty relative_path then Ok tt
  else
    let? _ := no_link_below f (root g) (components relative_path) in
    let? resolved := map_err IGuard (PathGuard.resolve_existing f g relative_path) in
    if require_directory && negb (path_is_dir f resolved)
    then Err (InvalidSearch "search scope is not a directory") else Ok tt.

Definition hidden_segment (s : string) : bool :=
  (s =? STATE_DIR)%string || (s =? TRASH_DIR)%string || is_empty s || is_dotdot s.
Definition validate_indexed_search_hit (f : tree) (g : PathGuard) (entry : IndexedSearchEntry) : bool :=
  if existsb hidden_segment (split_slash (is_relative_path entry)) then false
  else if negb (is_ok (validate_no_link_path f g (is_relative_path entry) (is_dir entry))) then false
  else match symlink_metadata f (path_join (root g) (is_relative_path entry)) with
       | Ok metadata => negb (is_link_or_reparse_point metadata)
           && (if is_dir entry then is_dir_inode metadata else is_file_inode metadata)
       | Err _ => false
       end.

(** ** The database *)
Section index.
Context {DB : Type} `{!SqlDb DB, !SqlTx DB}.
Context (unicode : string -> string).
Abbreviation IO := (io (world DB)).

Definition query_error (message : string) : DbError := Query message.
Definition db_error (message : string) : FileIndexError := IDb (query_error message).

Definition execute (pool sql : string) (binds : list sql_value) : IO DbError unit :=
  io_map_err query_error (Db.execute pool sql binds).
(** [query_scalar(sql).fetch_one(pool)] of an integer *)
Definition fetch_scalar (pool sql column : string) : IO DbError Z :=
  io_map_err query_error
    (let! rows := Db.fetch_all pool sql [] in
     io_lift (match rows with
              | row :: _ => try_get_int row column
              | [] => Err "no rows returned by a query that expected to return at least one row"
              end)).

Definition file_binds (file : IndexedFile) : list sql_value :=
  [SqlText (if_relative_path file); SqlInt (as_i64 (if_size_bytes file)); opt_i64 (if_modified_unix_ms file);
   opt_text (if_extension file); opt_text (if_file_id file)].
Definition parent_of (relative_path : string) : string :=
  match path_parent relative_path with
  | Some parent => Analyzer.join_components (components parent)
  | None => ""
  end.
Definition entry_binds (entry : IndexedSearchEntry) : list sql_value :=
  [SqlText (is_relative_path entry); SqlText (parent_of (is_relative_path entry)); SqlText (is_name entry);
   SqlText (normalize_name unicode (is_name entry)); SqlText (if is_dir entry then "directory" else "file");
   opt_text (is_extension entry); opt_i64 (is_size_bytes entry); opt_i64 (is_modified_unix_ms entry)].
Definition insert_search_entry (pool : string) (entry : IndexedSearchEntry) : IO DbError unit :=
  execute pool IndexSql.insert_entry (entry_binds entry).

Definition generation_of (generation : Z) : result Z DbError :=
  if (generation <? 0)%Z then Err (Query "negative file index generation") else Ok generation.
Definition read_generation (pool : string) : IO DbError Z :=
  let! generation := fetch_scalar pool IndexSql.select_generation "generation" in
  io_lift (generation_of generation).
Definition bump_generation (pool : string) : IO DbError Z :=
  do! execute pool IndexSql.bump_generation [];
  let! generation := fetch_scalar pool IndexSql.select_generation "generation" in
  io_lift (generation_of generation).

Definition open_index (root_arg : string) : IO FileIndexError (PathGuard * string) :=
  let! f := get_fs in
  let! guard := io_lift (map_err IGuard (PathGuard.new f root_arg)) in
  let! pool := io_map_err IDb (Db.open_root_db (root guard)) in
  io_ret (guard, pool).

Definition indexed_file (f : tree) (guard : PathGuard) (file : FileEntry) : IndexedFile :=
  mkIndexedFile (fe_path file) (fe_size_bytes file) (fe_modified_unix_ms file) (extension_of (fe_path file))
    (file_id_for_relative_path f guard (fe_path file)).

(** What [reindex_root] does in its transaction. *)
Definition replace_index (pool : string) (files : list IndexedFile) (search_entries : list IndexedSearchEntry)
  : IO DbError Z :=
  do! execute pool IndexSql.delete_files [];
  do! io_for (fun _ _ file => execute pool IndexSql.insert_file (file_binds file)) 0 tt files;
  do! execute pool IndexSql.delete_entries [];
  do! io_for (fun _ _ entry => insert_search_entry pool entry) 0 tt search_entries;
  do! execute pool IndexSql.set_initialized [];
  bump_generation pool.

Definition reindex_root (root_arg : string) : IO FileIndexError FileIndexReport :=
  let! f := get_fs in
  let! guard := io_lift (map_err IGuard (PathGuard.new f root_arg)) in
  let! analysis := io_lift (map_err IAnalyze (Analyzer.analyze_root f (root guard))) in
  let! search_entries := io_lift (collect_search_entries unicode f (root guard)) in
  let! pool := io_map_err IDb (Db.open_root_db (root guard)) in
  let! f := get_fs in
  let files := map (indexed_file f guard) (ar_files analysis) in
  let! generation := io_map_err IDb (in_transaction query_error pool (replace_index pool files search_entries)) in
  io_ret (mkFileIndexReport (ar_root analysis) generation files (ar_skipped_entries analysis)).

Definition upsert_file (root_arg relative_path : string) (size_bytes : Z) (modified_unix_ms : option Z)
  : IO FileIndexError unit :=
  let! ' (guard, pool) := open_index root_arg in
  let! f := get_fs in
  let file_id := file_id_for_relative_path f guard relative_path in
  let! search_entry := io_lift (match indexed_search_entry relative_path false (Some size_bytes) modified_unix_ms with
                                | Some entry => Ok entry
                                | None => Err (InvalidSearch "indexed file path has no name")
                                end) in
  io_map_err IDb (in_transaction query_error pool
    (do! execute pool IndexSql.upsert_file (file_binds
           (mkIndexedFile relative_path size_bytes modified_unix_ms (extension_of relative_path) file_id));
     do! execute pool IndexSql.delete_entry [SqlText relative_path];
     do! insert_search_entry pool search_entry;
     do! bump_generation pool;
     io_ret tt)).

Definition upsert_existing_file (root_arg relative_path : string) : IO FileIndexError unit :=
  let! f := get_fs in
  let! guard := io_lift (map_err IGuard (PathGuard.new f root_arg)) in
  let! path := io_lift (map_err IGuard (PathGuard.resolve_existing f guard relative_path)) in
  let! metadata := io_lift (map_err (fun e => IMetadata path (io_error_str e)) (symlink_metadata f path)) in
  if negb (is_file_inode metadata) then io_fail (INotAFile path)
  else upsert_file (root guard) relative_path (inode_len metadata) (modified_unix_ms metadata).

Definition remove_path (root_arg relative_path : string) : IO FileIndexError unit :=
  let! ' (guard, pool) := open_index root_arg in
  let prefix := escape_like (trim_end_char "/" relative_path) +:+ "/%" in
  io_map_err IDb (in_transaction query_error pool
    (do! execute pool IndexSql.remove_files [SqlText relative_path; SqlText prefix];
     do! execute pool IndexSql.remove_entries [SqlText relative_path; SqlText prefix];
     do! bump_generation pool;
     io_ret tt)).
Definition remove_file (root_arg relative_path : string) : IO FileIndexError unit := remove_path root_arg relative_path.

Definition clear_index (root_arg : string) : IO FileIndexError unit :=
  let! ' (guard, pool) := open_index root_arg in
  io_map_err IDb (in_transaction query_error pool
    (do! execute pool IndexSql.delete_files [];
     do! execute pool IndexSql.delete_entries [];
     do! execute pool IndexSql.clear_initialized [];
     do! bump_generation pool;
     io_ret tt)).

Definition index_generation (root_arg : string) : IO FileIndexError Z :=
  let! ' (guard, pool) := open_index root_arg in
  io_map_err IDb (read_generation pool).
Definition index_is_initialized (root_arg : string) : IO FileIndexError bool :=
  let! ' (guard, pool) := open_index root_arg in
  let! initialized := io_map_err IDb (fetch_scalar pool IndexSql.select_initialized "initialized") in
  io_ret (negb (initialized =? 0)%Z).

Definition fetch_indexed (pool : string) (name_query : option string) : IO DbError (list IndexedFile) :=
  io_map_err query_error
    (let! rows := match name_query with
                  | Some query => Db.fetch_all pool IndexSql.select_files_by_name [SqlText (normalize_name unicode query)]
                  | None => Db.fetch_all pool IndexSql.select_files []
                  end in
     io_lift (try_map indexed_file_of_row rows)).
Definition query_index (root_arg : string) (name_query : option string) : IO FileIndexError FileIndexReport :=
  let! ' (guard, pool) := open_index root_arg in
  let! files := io_map_err IDb (fetch_indexed pool name_query) in
  let! generation := io_map_err IDb (read_generation pool) in
  io_ret (mkFileIndexReport (root guard) generation files []).
Definition list_index (root_arg : string) : IO FileIndexError FileIndexReport := query_index root_arg None.
Definition search_index (root_arg query : string) : IO FileIndexError FileIndexReport := query_index root_arg (Some query).

(** ** Pages *)
Definition FETCH_BATCH : Z := 256.

Definition fetch_page (pool : string) (scope : IndexedSearchScope) (relative_directory query : string) (offset : Z)
  : IO FileIndexError (list sql_row) :=
  io_map_err db_error
    (match scope with
     | CurrentDirectory => Db.fetch_all pool IndexSql.select_page_in_directory
         [SqlText relative_directory; SqlText query; SqlInt (i64_or_max FETCH_BATCH); SqlInt (i64_or_max offset)]
     | ManagedRoot => Db.fetch_all pool IndexSql.select_page
         [SqlText query; SqlInt (i64_or_max FETCH_BATCH); SqlInt (i64_or_max offset)]
     end).

(** The loop over the rows of a batch: the entries, the offset, and the offset of the
    next page when the page is full. *)
Fixpoint scan_rows (f : tree) (guard : PathGuard) (extensions : list string) (limit : Z) (rows : list sql_row)
  (entries : list IndexedSearchEntry) (scanned_offset : Z)
  : result (list IndexedSearchEntry * Z * option Z) FileIndexError :=
  match rows with
  | [] => Ok (entries, scanned_offset, None)
  | row :: rows' =>
      let? entry := map_err db_error (indexed_search_entry_from_row row) in
      if validate_indexed_search_hit f guard entry && indexed_entry_matches_extensions entry extensions then
        if (Z.of_nat (length entries) =? limit)%Z then Ok (entries, scanned_offset, Some scanned_offset)
        else scan_rows f guard extensions limit rows' (entries ++ [entry]) (saturating_add scanned_offset 1)
      else scan_rows f guard extensions limit rows' entries (saturating_add scanned_offset 1)
  end.

Fixpoint page_loop (fuel : nat) (pool : string) (guard : PathGuard) (scope : IndexedSearchScope)
  (relative_directory query : string) (extensions : list string) (limit : Z)
  (entries : list IndexedSearchEntry) (scanned_offset : Z)
  : IO FileIndexError (list IndexedSearchEntry * option Z) :=
  match fuel with
  | O => io_fail IOutOfFuel
  | S n =>
      let! rows := fetch_page pool scope relative_directory query scanned_offset in
      if bool_decide (rows = []) then io_ret (entries, None)
      else
        let! f := get_fs in
        let! ' (entries, scanned_offset, next_offset) :=
          io_lift (scan_rows f guard extensions limit rows entries scanned_offset) in
        match next_offset with
        | Some next_offset => io_ret (entries, Some next_offset)
        | None =>
            if (Z.of_nat (length rows) <? FETCH_BATCH)%Z then io_ret (entries, None)
            else page_loop n pool guard scope relative_directory query extensions limit entries scanned_offset
        end
  end.

Definition search_index_page_with_extensions (fuel : nat) (root_arg query : string) (scope : IndexedSearchScope)
  (relative_directory : string) (expected_generation : option Z) (offset limit : Z) (extensions : list string)
  : IO FileIndexError IndexedSearchPage :=
  let query := trim query in
  if negb ((2 <=? chars_count query)%Z && (chars_count query <=? 100)%Z)
  then io_fail (InvalidSearch "file name query must contain between 2 and 100 Unicode code points")
  else if negb ((1 <=? limit)%Z && (limit <=? 200)%Z)
  then io_fail (InvalidSearch "search page limit must be between 1 and 200")
  else
    let! extensions := io_lift (normalize_extension_filter extensions) in
    let! f := get_fs in
    let! guard := io_lift (map_err IGuard (PathGuard.new f root_arg)) in
    let! relative_directory := io_lift (normalize_relative_directory relative_directory) in
    do! match scope with
        | CurrentDirectory => io_lift (validate_no_link_path f guard relative_directory true)
        | ManagedRoot => io_ret tt
        end;
    let! pool := io_map_err IDb (Db.open_root_db (root guard)) in
    let normalized_query := normalize_name unicode query in
    in_transaction db_error pool
      (let! actual := io_map_err IDb (fetch_scalar pool IndexSql.select_generation "generation") in
       if (actual <? 0)%Z then io_fail (InvalidSearch "file index generation is invalid")
       else if match expected_generation with Some expected => negb (expected =? actual)%Z | None => false end
       then io_fail (GenerationChanged (default 0%Z expected_generation) actual)
       else
         let! ' (entries, next_offset) :=
           page_loop fuel pool guard scope relative_directory normalized_query extensions limit [] offset in
         io_ret (mkIndexedSearchPage actual entries next_offset)).

Definition search_index_page (fuel : nat) (root_arg query : string) (scope : IndexedSearchScope)
  (relative_directory : string) (expected_generation : option Z) (offset limit : Z) : IO FileIndexError IndexedSearchPage :=
  search_index_page_with_extensions fuel root_arg query scope relative_directory expected_generation offset limit [].
End index.
End FileIndex.
