(* ===== verification/proposal.v ===== *)
(** [tools/file-engine-cli/src/proposal.rs]: the proposals of a root: the scan,
    the rule set applied to each file, and the removal of repeated identifiers. *)
From Stdlib Require Import ZArith Lia Ascii.
From stdpp Require Import strings pretty gmap functions option list.
From S2P Require Import prelude rust_str std_path std_fs fs_facts path_guard db journal_store.
From S2P Require Import proposal_types analyzer rule_definition rule_engine.

Open Scope string_scope.
Open Scope list_scope.

Inductive ProposalError :=
| PAnalyze (e : AnalyzeError)
| PRule (e : RuleError)
| PReadProposal (path message : string)
| PParseProposal (path message : string)
| PSerialize (message : string).

Module ProposalEngine.
(** [impl Display for ProposalError] *)
Definition fmt (e : ProposalError) : string :=
  match e with
  | PAnalyze e => Analyzer.fmt e
  | PRule e => RuleError.fmt e
  | PReadProposal path message => "cannot read proposal file " +:+ path +:+ ": " +:+ message
  | PParseProposal path message => "cannot parse proposal file " +:+ path +:+ ": " +:+ message
  | PSerialize message => "cannot serialize proposal report: " +:+ message
  end.

(** [filter(|p| seen.insert(p.proposal_id))] *)
Fixpoint filter_seen (seen : list string) (ps : list Proposal) : list Proposal :=
  match ps with
  | [] => []
  | p :: ps' =>
      if bool_decide (proposal_id_of p ∈ seen) then filter_seen seen ps'
      else p :: filter_seen (proposal_id_of p :: seen) ps'
  end.

Definition existing_paths_of (report : AnalyzeReport) : gset string :=
  list_to_set (map (fun file => normalize_relative_path (fe_path file)) (ar_files report))
  ∪ list_to_set (map normalize_relative_path (ar_directories report)).

Section engine.
Context {DB : Type}.
Abbreviation IO := (io (world DB) ProposalError).

Definition unix_ms : IO Z := now_ms.

Definition propose_for_analysis_with_rule_set (report : AnalyzeReport) (rule_set : RuleSet)
  : IO ProposalReport :=
  do! io_lift (map_err PRule (RuleSet.validate rule_set));
  let existing_paths := existing_paths_of report in
  let! now_unix_ms := unix_ms in
  let context := mkRuleContext existing_paths now_unix_ms in
  io_ret (mkProposalReport (ar_root report)
    (filter_seen [] (omap (fun file => propose file context rule_set) (ar_files report)))).

Definition propose_for_root_with_rule_set (root : string) (rule_set : RuleSet)
  : IO ProposalReport :=
  let! f := get_fs in
  let! report := io_lift (map_err PAnalyze (Analyzer.analyze_root f root)) in
  propose_for_analysis_with_rule_set report rule_set.

(** [serde_json]: the parsers of a rule set and of a report. *)
Context (rule_set_from_str : string -> result RuleSet string)
  (report_from_str : string -> result ProposalReport string).

Definition propose_for_root (root : string) : IO ProposalReport :=
  let! f := get_fs in
  let! rule_set := io_lift (map_err PRule (load_rule_set_for_root rule_set_from_str f root)) in
  propose_for_root_with_rule_set root rule_set.

Definition propose_for_analysis (root : string) (report : AnalyzeReport) : IO ProposalReport :=
  let! f := get_fs in
  let! rule_set := io_lift (map_err PRule (load_rule_set_for_root rule_set_from_str f root)) in
  propose_for_analysis_with_rule_set report rule_set.

Definition read_proposal_file (path : string) : IO ProposalReport :=
  let! f := get_fs in
  let! content := io_lift (map_err (fun e => PReadProposal path (io_error_str e)) (read_to_string f path)) in
  let content := trim_start_bom content in
  io_lift (map_err (PParseProposal path) (report_from_str content)).
End engine.
End ProposalEngine.

(** * Facts *)

Lemma filter_seen_spec seen ps :
  NoDup (map proposal_id_of (ProposalEngine.filter_seen seen ps)) /\
  Forall (fun p => p ∈ ps /\ ~ proposal_id_of p ∈ seen) (ProposalEngine.filter_seen seen ps) /\
  (forall p, p ∈ ps -> proposal_id_of p ∈ seen ++ map proposal_id_of (ProposalEngine.filter_seen seen ps)).
Proof.
  revert seen. induction ps as [|p ps IH]; intros seen; simpl.
  { split_and!; [constructor|apply Forall_nil_2|by intros ? ?%not_elem_of_nil]. }
  case_bool_decide as Hp.
  - destruct (IH seen) as (H1 & H2 & H3). split_and!; [done| |].
    + eapply Forall_impl; [exact H2|]. simpl. intros q [? ?]. split; [by right|done].
    + intros q [->|Hq]%elem_of_cons; [apply elem_of_app; by left|by apply H3].
  - destruct (IH (proposal_id_of p :: seen)) as (H1 & H2 & H3). split_and!.
    + simpl. apply NoDup_cons. split; [|done]. intros (q & Heq & Hq)%list_elem_of_fmap.
      rewrite list.Forall_forall in H2. apply H2 in Hq as [_ Hq]. apply Hq. rewrite Heq. by left.
    + constructor; [split; [by left|done]|]. eapply Forall_impl; [exact H2|]. simpl.
      intros q [? Hq]. split; [by right|]. intros ?. apply Hq. by right.
    + intros q [->|Hq]%elem_of_cons; [apply elem_of_app; right; by left|].
      specialize (H3 _ Hq). apply elem_of_app in H3 as [[->|?]%elem_of_cons|?]; apply elem_of_app.
      * right. by left.
      * by left.
      * right. by right.
Qed.

(** * Properties *)

(** the proposals of a root, when they are computed, change nothing on the
    machine, carry the guarded root's name, have distinct identifiers and safe
    targets, and each is the rule set's proposal for a file of the scan. *)
Theorem propose_for_root_report {DB} parse root w rep (w' : world DB) :
  ProposalEngine.propose_for_root parse root w = (Ok rep, w') ->
  w_fs w' = w_fs w /\ w_db w' = w_db w /\ w_log w' = w_log w /\
  NoDup (map proposal_id_of (pr_proposals rep)) /\
  exists scan set ctx, Analyzer.analyze_root (w_fs w) root = Ok scan /\ pr_root rep = ar_root scan /\
    load_rule_set_for_root parse (w_fs w) root = Ok set /\
    Forall (fun p => (exists file, file ∈ ar_files scan /\ propose file ctx set = Some p) /\
      PathGuard.reject_unsafe_components (p_to p) = Ok tt) (pr_proposals rep).
Proof.
  unfold ProposalEngine.propose_for_root, ProposalEngine.propose_for_root_with_rule_set,
    ProposalEngine.propose_for_analysis_with_rule_set, ProposalEngine.unix_ms, get_fs.
  unfold io_bind, io_gets, io_lift, io_ret.
  destruct (load_rule_set_for_root parse (w_fs w) root) as [set|] eqn:Hset; [|done]. simpl.
  destruct (Analyzer.analyze_root (w_fs w) root) as [scan|] eqn:Hscan; [|done]. simpl.
  destruct (RuleSet.validate set) as [[]|] eqn:Hv; [|done]. simpl. intros [= <- <-].
  split_and!; [done..| |].
  - simpl. apply filter_seen_spec.
  - eexists scan, set, _. split_and!; [done..|]. simpl.
    destruct (filter_seen_spec [] (omap (fun file => propose file
      (mkRuleContext (ProposalEngine.existing_paths_of scan) (if (w_clock w (w_ticks w) <? 0)%Z then 0%Z
        else (w_clock w (w_ticks w) / 1000000)%Z)) set) (ar_files scan))) as (_ & H & _).
    eapply Forall_impl; [exact H|]. simpl. intros p [(file & Hf & Hp)%list_elem_of_omap _].
    split; [by exists file|]. apply find_map_some in Hp as Hp'.
    apply rule_set_validate_ok in Hv as (_ & Hv & _).
    destruct (find_map_sorted rule_cmp _ _ _ Hp) as (r & Hr & Hpr & _).
    eapply proposal_target_safe; [|exact Hpr]. rewrite list.Forall_forall in Hv. by apply Hv.
Qed.

Lemma propose_for_root_report_witness :
  exists rep w', ProposalEngine.propose_for_root (fun _ => Err "") sample_root sample_machine = (Ok rep, w') /\
    NoDup (map proposal_id_of (pr_proposals rep)) /\ w_fs w' = w_fs sample_machine /\
    map p_to (pr_proposals rep) = ["documents/a.txt"; "documents/b.txt"].
Proof.
  assert (match fst (ProposalEngine.propose_for_root (fun _ => Err "") sample_root sample_machine) with
          | Ok rep => bool_decide (map p_to (pr_proposals rep) = ["documents/a.txt"; "documents/b.txt"])
          | Err _ => false end = true) as Hok by (vm_compute; reflexivity).
  destruct (ProposalEngine.propose_for_root _ sample_root sample_machine) as [[rep|e] w'] eqn:H;
    [|discriminate Hok].
  exists rep, w'. split; [reflexivity|].
  destruct (propose_for_root_report _ _ _ _ _ H) as (Hfs & _ & _ & Hnd & _).
  split; [exact Hnd|]. split; [exact Hfs|]. exact (bool_decide_eq_true_1 _ Hok).
Defined.
