(* ===== verification/cleanliness.v ===== *)
(** The dates and the cleanliness score of a root. *)
From Stdlib Require Import ZArith Lia Ascii Sorted.
From stdpp Require Import strings pretty gmap functions option list sorting relations.
From S2P Require Import prelude rust_str std_path std_fs fs_facts proposal_types rule_definition rule_engine analyzer proposal.

Open Scope string_scope.
Open Scope list_scope.
Open Scope Z_scope.


(** * Instants of the desktop as text: the calendar arithmetic of
    [apps/desktop/src-tauri/src/cleanliness.rs]. *)

#[local] Ltac Zify.zify_post_hook ::= Z.to_euclidean_division_equations.

(** [i32::try_from(x).unwrap_or(d)] and the like. *)
Definition i32_or (d x : Z) : Z := if (- 2 ^ 31 <=? x) && (x <? 2 ^ 31) then x else d.
Definition u32_or (d x : Z) : Z := if (0 <=? x) && (x <? 2 ^ 32) then x else d.
Definition i64_or (d x : Z) : Z := if (- 2 ^ 63 <=? x) && (x <? 2 ^ 63) then x else d.

Fixpoint zeros (n : nat) : string := match n with O => "" | S n => String "0" (zeros n) end.
(** [{:0w}] of a non-negative integer; a longer one is not cut. *)
Definition fmt_pad (w : nat) (z : Z) : string := zeros (w - String.length (fmt_int z)) +:+ fmt_int z.

Module Calendar.
(** [i64] division truncates. *)
Definition civil_from_days (days : Z) : Z * Z * Z :=
  let z := days + 719468 in
  let era := Z.quot (if z >=? 0 then z else z - 146096) 146097 in
  let doe := z - era * 146097 in
  let yoe := Z.quot (doe - Z.quot doe 1460 + Z.quot doe 36524 - Z.quot doe 146096) 365 in
  let y := yoe + era * 400 in
  let doy := doe - (365 * yoe + Z.quot yoe 4 - Z.quot yoe 100) in
  let mp := Z.quot (5 * doy + 2) 153 in
  let day := doy - Z.quot (153 * mp + 2) 5 + 1 in
  let month := mp + (if mp <? 10 then 3 else -9) in
  let year := y + (if month <=? 2 then 1 else 0) in
  (i32_or (2 ^ 31 - 1) year, u32_or 1 month, u32_or 1 day).

Definition unix_seconds_to_utc (seconds : Z) : (Z * Z * Z) * (Z * Z * Z) :=
  let days := seconds / 86400 in
  let day_seconds := seconds mod 86400 in
  let hour := u32_or 0 (Z.quot day_seconds 3600) in
  let minute := u32_or 0 (Z.quot (Z.rem day_seconds 3600) 60) in
  let second := u32_or 0 (Z.rem day_seconds 60) in
  (civil_from_days days, (hour, minute, second)).

Definition unix_ms_to_rfc3339 (unix_ms : option Z) : string :=
  let millis := default 0 unix_ms in
  let seconds := i64_or (2 ^ 63 - 1) (Z.quot millis 1000) in
  let sub_ms := u32_or 0 (Z.rem millis 1000) in
  let '((year, month, day), (hour, minute, second)) := unix_seconds_to_utc seconds in
  fmt_pad 4 year +:+ "-" +:+ fmt_pad 2 month +:+ "-" +:+ fmt_pad 2 day +:+ "T" +:+ fmt_pad 2 hour +:+ ":"
  +:+ fmt_pad 2 minute +:+ ":" +:+ fmt_pad 2 second +:+ "." +:+ fmt_pad 3 sub_ms +:+ "Z".
End Calendar.

(** * The reference: counting days *)

(** The Gregorian calendar, by its rule for leap years. *)
Definition leap (y : Z) : bool := ((y mod 4 =? 0) && negb (y mod 100 =? 0)) || (y mod 400 =? 0).
Definition days_in_month (y m : Z) : Z :=
  if m =? 2 then (if leap y then 29 else 28) else if (m =? 4) || (m =? 6) || (m =? 9) || (m =? 11) then 30 else 31.
Definition days_in_year (y : Z) : Z := if leap y then 366 else 365.
Definition valid_date (d : Z * Z * Z) : Prop :=
  let '(y, m, d) := d in 1 <= m <= 12 /\ 1 <= d <= days_in_month y m.
(** The day after. *)
Definition next_date (d : Z * Z * Z) : Z * Z * Z :=
  let '(y, m, d) := d in
  if d <? days_in_month y m then (y, m, d + 1) else if m <? 12 then (y, m + 1, 1) else (y + 1, 1, 1).

Example epoch : Calendar.civil_from_days 0 = (1970, 1, 1).
Proof. reflexivity. Qed.
Example leap_day : Calendar.unix_ms_to_rfc3339 (Some 1709210096789) = "2024-02-29T12:34:56.789Z".
Proof. vm_compute. reflexivity. Qed.

(** * Years that begin in March *)

(** The days before the year [y] of the cycle of 400. *)
Definition year_start (y : Z) : Z := 365 * y + y / 4 - y / 100 + y / 400.
Definition century_days (doe : Z) : Z := doe - doe / 1460 + doe / 36524 - doe / 146096.

Lemma century_days_step doe : 0 <= doe < 146096 -> century_days doe <= century_days (doe + 1).
Proof.
  intros H. destruct (decide (doe = 146095)) as [->|Hd]; [vm_compute; discriminate|]. unfold century_days.
  rewrite (Z.div_small doe 146096), (Z.div_small (doe + 1) 146096) by lia.
  assert ((doe + 1) / 1460 <= doe / 1460 + 1) by lia. assert (doe / 36524 <= (doe + 1) / 36524) by (apply Z.div_le_mono; lia). lia.
Qed.
Lemma century_days_mono a b : 0 <= a -> a <= b -> b <= 146096 -> century_days a <= century_days b.
Proof.
  intros Ha Hab Hb. replace b with (a + Z.of_nat (Z.to_nat (b - a))) in * by lia.
  induction (Z.to_nat (b - a)) as [|n IH]; [by rewrite Z.add_0_r|].
  etrans; [apply IH; lia|]. replace (a + Z.of_nat (S n)) with (a + Z.of_nat n + 1) by lia. apply century_days_step. lia.
Qed.
Definition starts_ok (n : nat) : bool :=
  let y := Z.of_nat n in
  (365 * y <=? century_days (year_start y)) && (century_days (year_start (y + 1) - 1) <? 365 * (y + 1)).
Lemma starts_all : forallb starts_ok (seq 0 400) = true.
Proof. vm_compute. reflexivity. Qed.
Lemma starts_at y : 0 <= y < 400 ->
  365 * y <= century_days (year_start y) /\ century_days (year_start (y + 1) - 1) < 365 * (y + 1).
Proof.
  intros Hy. pose proof (proj1 (forallb_forall _ _) starts_all (Z.to_nat y)) as H. unfold starts_ok in H.
  rewrite Z2Nat.id in H by lia. rewrite andb_true_iff in H. destruct H as [H1 H2]; [apply in_seq; lia|].
  apply Z.leb_le in H1. apply Z.ltb_lt in H2. done.
Qed.
(** The year of the cycle that the code computes. *)
Lemma year_of_era doe : 0 <= doe < 146097 ->
  let yoe := century_days doe / 365 in 0 <= yoe < 400 /\ year_start yoe <= doe < year_start (yoe + 1).
Proof.
  intros Hd yoe. assert (century_days doe <= 145999) as Hmax.
  { etrans; [apply (century_days_mono doe 146096); lia|]. vm_compute. done. }
  assert (0 <= century_days doe) as Hmin by (etrans; [|apply (century_days_mono 0 doe); lia]; done).
  assert (0 <= yoe < 400) as Hy by (unfold yoe; lia). split; [done|].
  pose proof (Z.div_mod (century_days doe) 365 ltac:(lia)) as Hdm. pose proof (Z.mod_pos_bound (century_days doe) 365 ltac:(lia)) as Hm.
  fold yoe in Hdm. split.
  - destruct (decide (year_start yoe <= doe)) as [|Hn]; [done|]. exfalso.
    destruct (decide (yoe = 0)) as [H0|H0]; [rewrite H0 in Hn; vm_compute in Hn; lia|].
    pose proof (proj2 (starts_at (yoe - 1) ltac:(lia))) as Hs. replace (yoe - 1 + 1) with yoe in Hs by lia.
    pose proof (century_days_mono doe (year_start yoe - 1) ltac:(lia) ltac:(lia)) as Hc.
    assert (year_start yoe - 1 <= 146096) by (unfold year_start; lia). lia.
  - destruct (decide (doe < year_start (yoe + 1))) as [|Hn]; [done|]. exfalso.
    destruct (decide (yoe = 399)) as [H0|H0]; [apply Hn; rewrite H0; apply Hd|].
    pose proof (proj1 (starts_at (yoe + 1) ltac:(lia))) as Hs.
    assert (0 <= year_start (yoe + 1)) by (unfold year_start; lia).
    pose proof (century_days_mono (year_start (yoe + 1)) doe ltac:(lia) ltac:(lia) ltac:(lia)) as Hc. lia.
Qed.

(** The date of the day [doy] of the March year [y]. *)
Definition month_index (doy : Z) : Z := (5 * doy + 2) / 153.
Definition month_of (doy : Z) : Z := let mp := month_index doy in if mp <? 10 then mp + 3 else mp - 9.
Definition day_of (doy : Z) : Z := doy - (153 * month_index doy + 2) / 5 + 1.
Definition march_date (y doy : Z) : Z * Z * Z :=
  (y + (if month_of doy <=? 2 then 1 else 0), month_of doy, day_of doy).
(** [days] after the epoch is the day [doy] of the March year [y]. *)
Definition is_day (days y doy : Z) : Prop := days + 719468 = year_start y + doy /\ 0 <= doy < year_start (y + 1) - year_start y.

Lemma is_day_exists days : 0 <= days -> exists y doy, is_day days y doy /\ 0 <= y /\
  let z := days + 719468 in let era := z / 146097 in let doe := z - era * 146097 in
  y = century_days doe / 365 + era * 400 /\ doy = doe - year_start (century_days doe / 365).
Proof.
  intros Hd. set (z := days + 719468). set (era := z / 146097). set (doe := z - era * 146097).
  assert (0 <= doe < 146097) as Hdoe by (unfold doe, era; lia). pose proof (year_of_era doe Hdoe) as H. cbv zeta in H.
  set (yoe := century_days doe / 365) in *. destruct H as [Hy Hs].
  exists (yoe + era * 400), (doe - year_start yoe). assert (0 <= era) as He by (unfold era, z; lia). split; [|split; [lia|by split]].
  assert (year_start (yoe + era * 400) = 146097 * era + year_start yoe) as H1 by (unfold year_start; lia).
  assert (year_start (yoe + era * 400 + 1) = 146097 * era + year_start (yoe + 1)) as H2 by (unfold year_start; lia).
  unfold is_day. rewrite H1, H2. unfold doe, z in *. lia.
Qed.
Lemma year_start_step y : 365 <= year_start (y + 1) - year_start y <= 366.
Proof. unfold year_start. lia. Qed.
Lemma year_start_lt y y' : y < y' -> year_start (y + 1) <= year_start y'.
Proof. unfold year_start. lia. Qed.
Lemma is_day_unique days y doy y' doy' : is_day days y doy -> is_day days y' doy' -> y = y' /\ doy = doy'.
Proof.
  intros [H1 H2] [H3 H4]. assert (y = y') as ->; [|lia].
  destruct (Z.lt_trichotomy y y') as [H|[H|H]]; [|done|]; apply year_start_lt in H; lia.
Qed.
Lemma next_day days y doy : is_day days y doy ->
  is_day (days + 1) y (doy + 1) \/ (doy + 1 = year_start (y + 1) - year_start y /\ is_day (days + 1) (y + 1) 0).
Proof.
  intros [H1 H2]. destruct (decide (doy + 1 < year_start (y + 1) - year_start y)) as [H|H]; [left; split; lia|right].
  split; [lia|]. pose proof (year_start_step (y + 1)). split; lia.
Qed.

(** ** The code computes them *)

Lemma i32_or_small d x : - 2 ^ 31 <= x < 2 ^ 31 -> i32_or d x = x.
Proof. intros H. unfold i32_or. by rewrite (proj2 (Z.leb_le _ _)), (proj2 (Z.ltb_lt _ _)) by lia. Qed.
Lemma u32_or_small d x : 0 <= x < 2 ^ 32 -> u32_or d x = x.
Proof. intros H. unfold u32_or. by rewrite (proj2 (Z.leb_le _ _)), (proj2 (Z.ltb_lt _ _)) by lia. Qed.

(** Every day of a March year, leap or not. *)
Definition doy_ok (n : nat) : bool :=
  let doy := Z.of_nat n in
  (0 <=? month_index doy) && (month_index doy <? 12) && (1 <=? month_of doy) && (month_of doy <=? 12)
  && (1 <=? day_of doy) && (day_of doy <=? 31).
Lemma doy_all : forallb doy_ok (seq 0 366) = true.
Proof. vm_compute. reflexivity. Qed.
Lemma doy_bounds doy : 0 <= doy < 366 ->
  0 <= month_index doy < 12 /\ 1 <= month_of doy <= 12 /\ 1 <= day_of doy <= 31.
Proof.
  intros Hd. pose proof (proj1 (forallb_forall _ _) doy_all (Z.to_nat doy)) as H. unfold doy_ok in H.
  rewrite Z2Nat.id in H by lia. rewrite !andb_true_iff, !Z.leb_le, Z.ltb_lt in H. destruct H as [[[[[H1 H2] H3] H4] H5] H6]; [apply in_seq; lia|].
  done.
Qed.

(** [u64::MAX] milliseconds are fewer days. *)
Definition max_days : Z := 213503982335.
Lemma civil_from_days_march days y doy :
  0 <= days <= max_days -> is_day days y doy -> Calendar.civil_from_days days = march_date y doy.
Proof.
  intros Hd H. destruct (is_day_exists days) as (y' & doy' & H' & Hy0 & Hy & Hdoy); [lia|].
  destruct (is_day_unique _ _ _ _ _ H H') as [<- <-]. cbv zeta in Hy, Hdoy. unfold Calendar.civil_from_days.
  set (z := days + 719468) in *. rewrite (proj2 (Z.geb_le z 0)) by lia. rewrite (Z.quot_div_nonneg z) by lia.
  set (era := z / 146097) in *. set (doe := z - era * 146097) in *.
  assert (0 <= doe < 146097) as Hdoe by (unfold doe, era; lia). pose proof (year_of_era doe Hdoe) as Hyoe. cbv zeta in Hyoe.
  rewrite !(Z.quot_div_nonneg doe) by lia. assert (0 <= century_days doe) as Hc.
  { etrans; [|apply (century_days_mono 0 doe); lia]. vm_compute. discriminate. }
  unfold century_days in Hc. rewrite (Z.quot_div_nonneg (doe - doe / 1460 + doe / 36524 - doe / 146096)) by lia.
  fold (century_days doe). set (yoe := century_days doe / 365) in *. destruct Hyoe as [Hyb Hyoe].
  rewrite !(Z.quot_div_nonneg yoe) by lia.
  assert (doe - (365 * yoe + yoe / 4 - yoe / 100) = doy) as ->.
  { rewrite Hdoy. unfold year_start. rewrite (Z.div_small yoe 400) by lia. lia. }
  assert (0 <= doy < 366) as Hb.
  { destruct H as [_ H]. pose proof (year_start_step y). lia. }
  destruct (doy_bounds doy Hb) as (H1 & H2 & H3). rewrite (Z.quot_div_nonneg (5 * doy + 2)) by lia. fold (month_index doy).
  rewrite (Z.quot_div_nonneg (153 * month_index doy + 2)) by lia. fold (day_of doy). rewrite <- Hy.
  assert (month_index doy + (if month_index doy <? 10 then 3 else -9) = month_of doy) as ->.
  { unfold month_of. destruct (month_index doy <? 10); lia. }
  unfold march_date. rewrite (u32_or_small _ (month_of doy)), (u32_or_small _ (day_of doy)), i32_or_small; [done| |lia|lia].
  destruct H as [H _]. unfold year_start in H. unfold max_days in Hd. destruct (month_of doy <=? 2); lia.
Qed.

(** Within a year of the given length the next day is the next date. *)
Lemma leap_len y : year_start (y + 1) - year_start y = if leap (y + 1) then 366 else 365.
Proof.
  unfold year_start, leap.
  destruct ((y + 1) mod 4 =? 0) eqn:H4, ((y + 1) mod 100 =? 0) eqn:H100, ((y + 1) mod 400 =? 0) eqn:H400; simpl;
    rewrite ?Z.eqb_eq, ?Z.eqb_neq in *; lia.
Qed.
(** The dates of one March year, whose second calendar year is leap or not. *)
Definition day_length (b : bool) (m : Z) : Z :=
  if m =? 2 then (if b then 29 else 28) else if (m =? 4) || (m =? 6) || (m =? 9) || (m =? 11) then 30 else 31.
Definition step_ok (b : bool) (n : nat) : bool :=
  let doy := Z.of_nat n in
  let len := day_length b (month_of doy) in
  (day_of doy <=? len) &&
  (if day_of doy <? len then (month_of (doy + 1) =? month_of doy) && (day_of (doy + 1) =? day_of doy + 1)
   else if doy + 1 =? (if b then 366 else 365) then (month_of doy =? 2)
   else if month_of doy <? 12 then (month_of (doy + 1) =? month_of doy + 1) && (day_of (doy + 1) =? 1) && negb (month_of doy =? 2)
   else (month_of (doy + 1) =? 1) && (day_of (doy + 1) =? 1)).
Lemma step_all b : forallb (step_ok b) (seq 0 (if b then 366 else 365)) = true.
Proof. destruct b; vm_compute; reflexivity. Qed.

Lemma days_in_month_length y doy :
  let '(yr, m, _) := march_date y doy in days_in_month yr m = day_length (leap (y + 1)) m.
Proof.
  unfold march_date, days_in_month, day_length. destruct (month_of doy =? 2) eqn:H; [|done].
  apply Z.eqb_eq in H. by rewrite H.
Qed.
Lemma march_steps days y doy :
  is_day days y doy ->
  valid_date (march_date y doy) /\
  exists y' doy', is_day (days + 1) y' doy' /\ march_date y' doy' = next_date (march_date y doy).
Proof.
  intros H. pose proof (leap_len y) as Hlen. pose proof (next_day _ _ _ H) as Hnext. destruct H as [_ Hb]. rewrite Hlen in Hb, Hnext.
  pose proof (proj1 (forallb_forall _ _) (step_all (leap (y + 1))) (Z.to_nat doy)) as Hs. unfold step_ok in Hs.
  rewrite Z2Nat.id in Hs by lia. rewrite andb_true_iff, Z.leb_le in Hs. destruct Hs as [Hday Hs].
  { apply in_seq. destruct (leap (y + 1)); lia. }
  pose proof (days_in_month_length y doy) as Hm. unfold march_date in Hm.
  destruct (doy_bounds doy) as (_ & Hmonth & Hday1); [destruct (leap (y + 1)); lia|].
  split.
  { unfold valid_date, march_date. rewrite Hm. lia. }
  unfold march_date, next_date. rewrite Hm. destruct (day_of doy <? day_length _ _) eqn:Hlast.
  - apply andb_true_iff in Hs as [H1%Z.eqb_eq H2%Z.eqb_eq]. destruct Hnext as [Hn|[He _]].
    + exists y, (doy + 1). split; [done|]. by rewrite H1, H2.
    + exfalso. pose proof (proj1 (forallb_forall _ _) (step_all (leap (y + 1))) (Z.to_nat doy)) as _.
      rewrite He in H1, H2. revert H1 H2 Hlast. replace doy with ((if leap (y + 1) then 366 else 365) - 1) by lia.
      destruct (leap (y + 1)); vm_compute; discriminate.
  - destruct (doy + 1 =? (if leap (y + 1) then 366 else 365)) eqn:He.
    + apply Z.eqb_eq in He, Hs. destruct Hnext as [Hn|[_ Hn]].
      { exfalso. destruct Hn as [_ Hn]. rewrite Hlen in Hn. lia. }
      exists (y + 1), 0. split; [done|]. rewrite Hs.
      change (march_date (y + 1) 0) with (y + 1 + 0, 3, 1). rewrite Z.add_0_r. reflexivity.
    + destruct Hnext as [Hn|[He2 _]]; [|rewrite He2, Z.eqb_refl in He; discriminate]. exists y, (doy + 1). split; [done|].
      destruct (month_of doy <? 12) eqn:H12.
      * rewrite !andb_true_iff, !Z.eqb_eq, negb_true_iff, Z.eqb_neq in Hs. destruct Hs as [[H1 H2] H3]. rewrite H1, H2.
        f_equal. f_equal. destruct (month_of doy <=? 2) eqn:Hc; [rewrite (proj2 (Z.leb_le _ 2)) by lia; done|].
        rewrite (proj2 (Z.leb_gt _ 2)) by lia. done.
      * rewrite !andb_true_iff, !Z.eqb_eq in Hs. destruct Hs as [H1 H2]. rewrite H1, H2. simpl.
        apply Z.ltb_ge in H12. assert (month_of doy = 12) as -> by lia. simpl. by rewrite Z.add_0_r.
Qed.

Lemma civil_steps days : 0 <= days < max_days ->
  valid_date (Calendar.civil_from_days days) /\
  Calendar.civil_from_days (days + 1) = next_date (Calendar.civil_from_days days).
Proof.
  intros Hd. destruct (is_day_exists days) as (y & doy & H & _); [lia|].
  destruct (march_steps _ _ _ H) as (Hv & y' & doy' & H' & Heq).
  rewrite (civil_from_days_march days y doy), (civil_from_days_march (days + 1) y' doy') by (done || lia). done.
Qed.

(** ** The order of dates *)
Definition date_lt (d e : Z * Z * Z) : Prop :=
  let '(y, m, d) := d in let '(y', m', d') := e in y < y' \/ (y = y' /\ (m < m' \/ (m = m' /\ d < d'))).
#[export] Instance date_lt_trans : Transitive date_lt.
Proof. intros [[a b] c] [[d e] f] [[g h] i]. unfold date_lt. lia. Qed.
Lemma next_date_lt d : date_lt d (next_date d).
Proof. destruct d as [[y m] d]. unfold next_date, date_lt. destruct (d <? _); [lia|]. destruct (m <? 12); lia. Qed.
Lemma civil_lt a b : 0 <= a -> a < b -> b <= max_days -> date_lt (Calendar.civil_from_days a) (Calendar.civil_from_days b).
Proof.
  intros Ha Hab Hb. replace b with (a + 1 + Z.of_nat (Z.to_nat (b - a - 1))) in * by lia.
  induction (Z.to_nat (b - a - 1)) as [|n IH].
  - rewrite Z.add_0_r. rewrite (proj2 (civil_steps a ltac:(lia))). apply next_date_lt.
  - etrans; [apply IH; lia|]. replace (a + 1 + Z.of_nat (S n)) with (a + 1 + Z.of_nat n + 1) by lia.
    rewrite (proj2 (civil_steps (a + 1 + Z.of_nat n) ltac:(lia))). apply next_date_lt.
Qed.

(** * Texts in order *)

Lemma length_sappend a b : String.length (a +:+ b) = (String.length a + String.length b)%nat.
Proof. induction a as [|c a IH]; [done|]. rewrite sappend_cons. simpl. by rewrite IH. Qed.
(** Texts whose first parts are equally long compare by these first. *)
Lemma compare_app a b s t : String.length a = String.length b ->
  String.compare (a +:+ s) (b +:+ t) = then_with (String.compare a b) (String.compare s t).
Proof.
  revert b. induction a as [|c a IH]; intros [|d b] H; simpl in H; try done. injection H as H. rewrite !sappend_cons. simpl.
  destruct (Ascii.compare c d); [by apply IH|done..].
Qed.
Lemma compare_same c s t : String.compare (c +:+ s) (c +:+ t) = String.compare s t.
Proof.
  rewrite compare_app by done. pose proof (cmp_refl String.compare c) as ->. done.
Qed.

(** The last [w] decimal digits. *)
Fixpoint digits (w : nat) (n : N) (s : string) : string :=
  match w with
  | O => s
  | S k => digits k (n `div` 10) (String (pretty_N_char (n `mod` 10)) s)
  end.
Lemma digits_length w n s : String.length (digits w n s) = (w + String.length s)%nat.
Proof. revert n s. induction w as [|w IH]; intros n s; simpl; [done|]. rewrite IH. simpl. lia. Qed.
Lemma digits_zero w s : digits w 0 s = zeros w +:+ s.
Proof.
  assert (forall w s, zeros w +:+ String "0" s = String "0" (zeros w +:+ s)) as Hc.
  { intros k t. induction k as [|k IH]; [done|]. simpl. rewrite !sappend_cons. by rewrite IH. }
  revert s. induction w as [|w IH]; intros s; [done|]. simpl. rewrite IH. rewrite sappend_cons. by apply Hc.
Qed.
Lemma pretty_go_length n s : (String.length s <= String.length (pretty_N_go n s))%nat.
Proof.
  revert s. induction (N.lt_wf_0 n) as [n _ IH]; intros s. destruct (decide (n = 0)%N) as [->|Hn]; [by rewrite pretty_N_go_0|].
  rewrite pretty_N_go_step by lia. etrans; [|apply IH, N.div_lt; lia]. simpl. lia.
Qed.
Lemma pretty_go_digits w n s : (n < 10 ^ N.of_nat w)%N ->
  zeros (w - (String.length (pretty_N_go n s) - String.length s)) +:+ pretty_N_go n s = digits w n s.
Proof.
  revert n s. induction w as [|w IH]; intros n s Hn; [assert (n = 0%N) as -> by (simpl in Hn; lia); by rewrite pretty_N_go_0|].
  destruct (decide (n = 0)%N) as [->|H0].
  - rewrite pretty_N_go_0, Nat.sub_diag, Nat.sub_0_r. by rewrite digits_zero.
  - rewrite pretty_N_go_step by lia. simpl digits. rewrite <- IH.
    + pose proof (pretty_go_length (n `div` 10) (String (pretty_N_char (n `mod` 10)) s)) as Hl. simpl in Hl |- *.
      f_equal. f_equal. lia.
    + apply N.Div0.div_lt_upper_bound. rewrite Nat2N.inj_succ, N.pow_succ_r' in Hn. lia.
Qed.
Lemma fmt_pad_digits w z : (0 < w)%nat -> 0 <= z < 10 ^ Z.of_nat w -> fmt_pad w z = digits w (Z.to_N z) "".
Proof.
  intros Hw Hz. unfold fmt_pad, fmt_int, pretty, pretty_N. case_decide as H0.
  - rewrite H0, digits_zero. destruct w as [|w]; [lia|]. simpl. rewrite Nat.sub_0_r. clear.
    induction w as [|w IH]; [done|]. simpl. rewrite sappend_cons. by rewrite IH.
  - rewrite <- pretty_go_digits; [simpl; by rewrite Nat.sub_0_r|].
    apply N2Z.inj_lt. rewrite Z2N.id, N2Z.inj_pow, nat_N_Z by lia. lia.
Qed.

Lemma char_compare : forallb (fun a => forallb (fun b =>
    bool_decide (Ascii.compare (pretty_N_char (N.of_nat a)) (pretty_N_char (N.of_nat b)) = Nat.compare a b)) (seq 0 10)) (seq 0 10) = true.
Proof. vm_compute. reflexivity. Qed.
Lemma pretty_char_compare a b : (a < 10)%N -> (b < 10)%N ->
  Ascii.compare (pretty_N_char a) (pretty_N_char b) = N.compare a b.
Proof.
  intros Ha Hb. pose proof (proj1 (forallb_forall _ _) char_compare (N.to_nat a) ltac:(apply in_seq; lia)) as H.
  pose proof (proj1 (forallb_forall _ _) H (N.to_nat b) ltac:(apply in_seq; lia)) as H2. apply bool_decide_eq_true in H2.
  by rewrite !N2Nat.id, <- N2Nat.inj_compare in H2.
Qed.
Lemma digits_split w n s : digits w n s = digits w n "" +:+ s.
Proof.
  revert n s. induction w as [|w IH]; intros n s; [done|]. simpl. rewrite IH, (IH _ (String _ "")), sappend_assoc. done.
Qed.
Lemma digits_compare w a b : (a < 10 ^ N.of_nat w)%N -> (b < 10 ^ N.of_nat w)%N ->
  String.compare (digits w a "") (digits w b "") = N.compare a b.
Proof.
  revert a b. induction w as [|w IH]; intros a b Ha Hb.
  { simpl in Ha, Hb. assert (a = b) as -> by lia. simpl. symmetry. apply N.compare_refl. }
  simpl. rewrite digits_split, (digits_split w (b `div` 10)), compare_app by by rewrite !digits_length.
  rewrite Nat2N.inj_succ, N.pow_succ_r' in Ha, Hb. rewrite IH by (apply N.Div0.div_lt_upper_bound; lia).
  simpl. rewrite pretty_char_compare by (apply N.mod_lt; lia).
  pose proof (N.div_mod a 10 ltac:(lia)) as H1. pose proof (N.div_mod b 10 ltac:(lia)) as H2.
  pose proof (N.mod_lt a 10 ltac:(lia)). pose proof (N.mod_lt b 10 ltac:(lia)).
  destruct (N.compare_spec (a `div` 10) (b `div` 10)) as [He|He|He]; simpl.
  - destruct (N.compare_spec (a `mod` 10) (b `mod` 10)); symmetry; [apply N.compare_eq_iff|apply N.compare_lt_iff|apply N.compare_gt_iff]; lia.
  - symmetry. apply N.compare_lt_iff. lia.
  - symmetry. apply N.compare_gt_iff. lia.
Qed.
(** Numbers that fit their width compare as their texts. *)
Lemma fmt_pad_compare w a b : (0 < w)%nat -> 0 <= a < 10 ^ Z.of_nat w -> 0 <= b < 10 ^ Z.of_nat w ->
  String.compare (fmt_pad w a) (fmt_pad w b) = Z.compare a b.
Proof.
  intros Hw Ha Hb. rewrite !fmt_pad_digits by done. assert (forall z, 0 <= z < 10 ^ Z.of_nat w -> (Z.to_N z < 10 ^ N.of_nat w)%N) as H.
  { intros z Hz. apply N2Z.inj_lt. rewrite Z2N.id, N2Z.inj_pow, nat_N_Z by lia. lia. }
  rewrite digits_compare by auto. rewrite <- N2Z.inj_compare, !Z2N.id by lia. done.
Qed.
Lemma fmt_pad_length w a : (0 < w)%nat -> 0 <= a < 10 ^ Z.of_nat w -> String.length (fmt_pad w a) = w.
Proof. intros Hw Ha. rewrite fmt_pad_digits, digits_length by done. simpl. lia. Qed.

Definition stamp (d t : Z * Z * Z) (ms : Z) : string :=
  let '((year, month, day), (hour, minute, second)) := (d, t) in
  fmt_pad 4 year +:+ "-" +:+ fmt_pad 2 month +:+ "-" +:+ fmt_pad 2 day +:+ "T" +:+ fmt_pad 2 hour +:+ ":"
  +:+ fmt_pad 2 minute +:+ ":" +:+ fmt_pad 2 second +:+ "." +:+ fmt_pad 3 ms +:+ "Z".
(** Every field fits its width. *)
Definition stamp_ok (d t : Z * Z * Z) (ms : Z) : Prop :=
  let '((year, month, day), (hour, minute, second)) := (d, t) in
  0 <= year < 10000 /\ 0 <= month < 100 /\ 0 <= day < 100 /\ 0 <= hour < 100 /\ 0 <= minute < 100 /\ 0 <= second < 100 /\ 0 <= ms < 1000.
Definition triple_cmp (d e : Z * Z * Z) : comparison :=
  let '(a, b, c) := d in let '(a', b', c') := e in then_with (Z.compare a a') (then_with (Z.compare b b') (Z.compare c c')).
Lemma then_with_assoc a b c : then_with (then_with a b) c = then_with a (then_with b c).
Proof. by destruct a. Qed.
Lemma stamp_compare d t ms d' t' ms' : stamp_ok d t ms -> stamp_ok d' t' ms' ->
  String.compare (stamp d t ms) (stamp d' t' ms') = then_with (triple_cmp d d') (then_with (triple_cmp t t') (Z.compare ms ms')).
Proof.
  destruct d as [[y m] dd], t as [[h mi] s], d' as [[y' m'] dd'], t' as [[h' mi'] s']. unfold stamp_ok, stamp, triple_cmp.
  intros (H1 & H2 & H3 & H4 & H5 & H6 & H7) (K1 & K2 & K3 & K4 & K5 & K6 & K7). rewrite !then_with_assoc.
  rewrite (compare_app (fmt_pad 4 y)), (fmt_pad_compare 4) by (rewrite ?fmt_pad_length; lia). f_equal. rewrite compare_same.
  rewrite (compare_app (fmt_pad 2 m)), (fmt_pad_compare 2) by (rewrite ?fmt_pad_length; lia). f_equal. rewrite compare_same.
  rewrite (compare_app (fmt_pad 2 dd)), (fmt_pad_compare 2) by (rewrite ?fmt_pad_length; lia). f_equal. rewrite compare_same.
  rewrite (compare_app (fmt_pad 2 h)), (fmt_pad_compare 2) by (rewrite ?fmt_pad_length; lia). f_equal. rewrite compare_same.
  rewrite (compare_app (fmt_pad 2 mi)), (fmt_pad_compare 2) by (rewrite ?fmt_pad_length; lia). f_equal. rewrite compare_same.
  rewrite (compare_app (fmt_pad 2 s)), (fmt_pad_compare 2) by (rewrite ?fmt_pad_length; lia). f_equal. rewrite compare_same.
  rewrite (compare_app (fmt_pad 3 ms)), (fmt_pad_compare 3) by (rewrite ?fmt_pad_length; lia).
  change (String.compare "Z" "Z") with Eq. by destruct (ms ?= ms').
Qed.

(** The year 10000 begins there. *)
Definition year_10000_ms : Z := 253402300800000.
Lemma rfc3339_stamp ms : 0 <= ms < year_10000_ms ->
  let day := ms / 86400000 in let second := ms / 1000 mod 86400 in
  Calendar.unix_ms_to_rfc3339 (Some ms) =
    stamp (Calendar.civil_from_days day) (second / 3600, second mod 3600 / 60, second mod 60) (ms mod 1000) /\
  stamp_ok (Calendar.civil_from_days day) (second / 3600, second mod 3600 / 60, second mod 60) (ms mod 1000).
Proof.
  intros Hms day second. unfold year_10000_ms in Hms. unfold Calendar.unix_ms_to_rfc3339, Calendar.unix_seconds_to_utc. simpl default.
  rewrite Z.quot_div_nonneg, Z.rem_mod_nonneg by lia. assert (i64_or (2 ^ 63 - 1) (ms / 1000) = ms / 1000) as ->.
  { unfold i64_or. by rewrite (proj2 (Z.leb_le _ _)), (proj2 (Z.ltb_lt _ _)) by lia. }
  assert (ms / 1000 / 86400 = day) as -> by (unfold day; rewrite Z.div_div by lia; done). fold second.
  assert (0 <= second < 86400) as Hs by (unfold second; lia).
  rewrite !Z.quot_div_nonneg, !Z.rem_mod_nonneg by lia.
  rewrite !u32_or_small by lia. assert (0 <= day <= 2932896) as Hd by (unfold day; lia).
  destruct (Calendar.civil_from_days day) as [[y m] d] eqn:Hc. split; [done|].
  pose proof (civil_steps day ltac:(unfold max_days; lia)) as [Hv _]. rewrite Hc in Hv. unfold valid_date in Hv.
  assert (days_in_month y m <= 31) by (unfold days_in_month; repeat case_match; lia).
  assert (0 <= y < 10000) as Hy; [|unfold stamp_ok; lia].
  split.
  - destruct (decide (day = 0)) as [H0|H0]; [rewrite H0 in Hc; vm_compute in Hc; injection Hc as <- _ _; lia|].
    pose proof (civil_lt 0 day ltac:(lia) ltac:(lia) ltac:(unfold max_days; lia)) as Hl. rewrite Hc in Hl.
    change (Calendar.civil_from_days 0) with (1970, 1, 1) in Hl. unfold date_lt in Hl. lia.
  - destruct (decide (day = 2932896)) as [H0|H0]; [rewrite H0 in Hc; vm_compute in Hc; injection Hc as <- _ _; lia|].
    pose proof (civil_lt day 2932896 ltac:(lia) ltac:(lia) ltac:(unfold max_days; lia)) as Hl. rewrite Hc in Hl.
    assert (Calendar.civil_from_days 2932896 = (9999, 12, 31)) as Hlast by (vm_compute; reflexivity). rewrite Hlast in Hl.
    unfold date_lt in Hl. lia.
Qed.

Lemma date_lt_cmp d e : date_lt d e -> triple_cmp d e = Lt.
Proof.
  destruct d as [[a b] c], e as [[a' b'] c']. unfold date_lt, triple_cmp.
  intros [H|[-> [H|[-> H]]]]; [by rewrite (proj2 (Z.compare_lt_iff _ _) H)|rewrite Z.compare_refl; simpl..].
  - by rewrite (proj2 (Z.compare_lt_iff _ _) H).
  - rewrite Z.compare_refl. simpl. by apply Z.compare_lt_iff.
Qed.
Lemma triple_cmp_refl d : triple_cmp d d = Eq.
Proof. destruct d as [[a b] c]. unfold triple_cmp. by rewrite !Z.compare_refl. Qed.
Lemma rfc3339_lt a b : 0 <= a -> a < b -> b < year_10000_ms ->
  String.compare (Calendar.unix_ms_to_rfc3339 (Some a)) (Calendar.unix_ms_to_rfc3339 (Some b)) = Lt.
Proof.
  intros Ha Hab Hb. destruct (rfc3339_stamp a) as [-> Hoka]; [lia|]. destruct (rfc3339_stamp b) as [-> Hokb]; [lia|].
  rewrite stamp_compare by done. unfold year_10000_ms in Hb.
  destruct (decide (a / 86400000 < b / 86400000)) as [Hd|Hd].
  { rewrite (date_lt_cmp (Calendar.civil_from_days (a / 86400000))); [done|]. apply civil_lt; [lia|done|unfold max_days; lia]. }
  assert (a / 86400000 = b / 86400000) as Hday by lia. rewrite Hday, triple_cmp_refl. cbn [then_with].
  set (s := a / 1000 mod 86400). set (t := b / 1000 mod 86400). destruct (decide (s < t)) as [Hst|Hst].
  - rewrite (date_lt_cmp (s / 3600, s mod 3600 / 60, s mod 60)); [done|]. unfold date_lt. lia.
  - assert (s = t) as Heq by (unfold s, t in *; lia). rewrite Heq, triple_cmp_refl. cbn [then_with].
    apply Z.compare_lt_iff. unfold s, t in Heq. lia.
Qed.

(** * Properties *)

(** the calendar arithmetic is the Gregorian calendar: the date computed for a
    day is the one reached from 1 January 1970 by counting days, with 29 February in
    leap years only, for every day that an unsigned 64-bit clock can name. *)
Theorem civil_from_days_counts (n : nat) :
  Z.of_nat n < max_days ->
  Calendar.civil_from_days (Z.of_nat n) = Nat.iter n next_date (1970, 1, 1) /\
  valid_date (Calendar.civil_from_days (Z.of_nat n)).
Proof.
  intros Hn. split; [|apply civil_steps; lia]. induction n as [|n IH]; [done|].
  rewrite Nat.iter_succ, <- IH by lia. rewrite Nat2Z.inj_succ, <- Z.add_1_r. apply civil_steps. lia.
Qed.
Lemma civil_from_days_counts_witness : Calendar.civil_from_days 59 = Nat.iter 59 next_date (1970, 1, 1).
Proof. apply (proj1 (civil_from_days_counts 59 ltac:(reflexivity))). Defined.

(** Snapshot times sort as texts: until the year 10000 two timestamps compare as
    strings as the instants do, which [save_latest] and the outbox rely on. *)
Theorem timestamps_sort_by_time (a b : Z) :
  0 <= a < year_10000_ms -> 0 <= b < year_10000_ms ->
  String.compare (Calendar.unix_ms_to_rfc3339 (Some a)) (Calendar.unix_ms_to_rfc3339 (Some b)) = Z.compare a b.
Proof.
  intros Ha Hb. destruct (Z.compare_spec a b) as [->|H|H].
  - pose proof (cmp_refl String.compare (Calendar.unix_ms_to_rfc3339 (Some b))) as ->. done.
  - apply rfc3339_lt; lia.
  - rewrite String.compare_antisym, rfc3339_lt by lia. done.
Qed.
Lemma timestamps_sort_by_time_witness :
  String.compare (Calendar.unix_ms_to_rfc3339 (Some 1709210096789)) (Calendar.unix_ms_to_rfc3339 (Some 1709210096790)) = Lt.
Proof.
  assert (0 <= 1709210096789 < year_10000_ms) as Ha by (unfold year_10000_ms; lia).
  assert (0 <= 1709210096790 < year_10000_ms) as Hb by (unfold year_10000_ms; lia).
  exact (timestamps_sort_by_time 1709210096789 1709210096790 Ha Hb).
Defined.
(** From then on they do not. *)
Example year_10000_sorts_first :
  String.compare (Calendar.unix_ms_to_rfc3339 (Some (year_10000_ms - 1))) (Calendar.unix_ms_to_rfc3339 (Some year_10000_ms)) = Gt.
Proof. vm_compute. reflexivity. Qed.

(** * [apps/desktop/src-tauri/src/cleanliness.rs]: the score of a root, and the clock
    that orders its snapshots. *)

#[local] Ltac Zify.zify_post_hook ::= Z.to_euclidean_division_equations.

Record CleanlinessDeduction := mkCleanlinessDeduction {
  cd_reason_code : string;
  cd_count : Z;    (** [u64] *)
  cd_points : Z;   (** [u8] *)
}.
Record CleanlinessMetrics := mkCleanlinessMetrics {
  cm_total_file_count : Z;         (** [u64] *)
  cm_managed_file_count : Z;       (** [u64] *)
  cm_unorganized_file_count : Z;   (** [u64] *)
  cm_deductions : list CleanlinessDeduction;
}.
Record CleanlinessSnapshot := mkCleanlinessSnapshot {
  cs_formula_version : string;
  cs_score : Z;    (** [u8] *)
  cs_metrics : CleanlinessMetrics;
  cs_calculated_at : string;
}.
#[export] Instance CleanlinessDeduction_eq_dec : EqDecision CleanlinessDeduction.
Proof. solve_decision. Defined.
#[export] Instance CleanlinessMetrics_eq_dec : EqDecision CleanlinessMetrics.
Proof. solve_decision. Defined.
#[export] Instance CleanlinessSnapshot_eq_dec : EqDecision CleanlinessSnapshot.
Proof. solve_decision. Defined.

Definition CLEANLINESS_FORMULA_VERSION : string := "mousekeeper-cleanliness-v1".
Definition u64_max : Z := 2 ^ 64 - 1.
(** [u64::try_from(len).unwrap_or(u64::MAX)] *)
Definition u64_of_len {A} (l : list A) : Z := Z.min u64_max (Z.of_nat (length l)).

Module Cleanliness.
Definition ratio_points (count total max_points : Z) : Z :=
  if (total =? 0) || (count =? 0) then 0
  else
    let raw := count * max_points in
    let rounded_up := (raw + total - 1) / total in
    Z.min rounded_up max_points.
Definition capped_points (count points_per_item cap : Z) : Z :=
  Z.min (Z.min u64_max (count * points_per_item)) cap.

Definition cleanliness_deductions (total_file_count unorganized_file_count skipped_count collision_count : Z)
  : list CleanlinessDeduction :=
  (if (0 <? total_file_count) && (0 <? unorganized_file_count)
   then [mkCleanlinessDeduction "UNORGANIZED_FILES" unorganized_file_count
           (ratio_points unorganized_file_count total_file_count 70)]
   else [])
  ++ (if 0 <? skipped_count
      then [mkCleanlinessDeduction "UNREADABLE_OR_UNSAFE_ENTRIES" skipped_count (capped_points skipped_count 5 20)]
      else [])
  ++ (if 0 <? collision_count
      then [mkCleanlinessDeduction "PROPOSAL_CONFLICTS" collision_count (capped_points collision_count 10 20)]
      else []).

(** The sum is a [u16]; it wraps beyond. *)
Definition deducted_points (deductions : list CleanlinessDeduction) : Z :=
  fold_left (fun total deduction => (total + cd_points deduction) mod 2 ^ 16) deductions 0.
Definition score_of (deductions : list CleanlinessDeduction) : Z :=
  Z.min (saturating_sub 100 (deducted_points deductions)) 100.

(** The time a snapshot takes after the time of the last one. *)
Definition candidate_ms (now previous : Z) : Z := Z.max now (Z.min u64_max (previous + 1)).

Section calculate.
Context {DB : Type}.
(** [LAST_SNAPSHOT_UNIX_MS], then the world. *)
Abbreviation IO := (io (Z * world DB) string).
Definition on_machine {A} (m : io (world DB) string A) : IO A :=
  fun s => let '(r, w) := m s.2 in (r, (s.1, w)).

(** [monotonic_unix_ms] when no other thread interferes. *)
Definition monotonic_unix_ms : IO Z :=
  let! now := on_machine now_ms in
  let now := Z.min u64_max now in
  fun s => let candidate := candidate_ms now s.1 in (Ok candidate, (candidate, s.2)).

Definition calculate_cleanliness_snapshot (parse : string -> result RuleSet string) (root : string) : IO CleanlinessSnapshot :=
  let! f := on_machine get_fs in
  let! analysis := io_lift (map_err Analyzer.fmt (Analyzer.analyze_root f root)) in
  let! proposal := on_machine (io_map_err ProposalEngine.fmt (ProposalEngine.propose_for_analysis parse root analysis)) in
  let total_file_count := u64_of_len (ar_files analysis) in
  let unorganized_file_count := u64_of_len (pr_proposals proposal) in
  let collision_count :=
    u64_of_len (List.filter (fun item => bool_decide (p_status item = DestinationExists)) (pr_proposals proposal)) in
  let skipped_count := u64_of_len (ar_skipped_entries analysis) in
  let managed_file_count := saturating_sub total_file_count unorganized_file_count in
  let deductions := cleanliness_deductions total_file_count unorganized_file_count skipped_count collision_count in
  let! at_ms := monotonic_unix_ms in
  io_ret (mkCleanlinessSnapshot CLEANLINESS_FORMULA_VERSION (score_of deductions)
    (mkCleanlinessMetrics total_file_count managed_file_count unorganized_file_count deductions)
    (Calendar.unix_ms_to_rfc3339 (Some at_ms))).
End calculate.
End Cleanliness.

(** * The score *)

Lemma ratio_points_bounds count total m : 0 < count -> 0 < total -> 0 < m -> 1 <= Cleanliness.ratio_points count total m <= m.
Proof.
  intros Hc Ht Hm. unfold Cleanliness.ratio_points. rewrite (proj2 (Z.eqb_neq total 0)), (proj2 (Z.eqb_neq count 0)) by lia. simpl.
  assert (1 <= (count * m + total - 1) / total); [|lia]. apply Z.div_le_lower_bound; nia.
Qed.
Lemma capped_points_bounds count p cap : 0 < count -> 0 < p -> 0 < cap -> 1 <= Cleanliness.capped_points count p cap <= cap.
Proof. intros Hc Hp Hk. unfold Cleanliness.capped_points, u64_max. nia. Qed.
Lemma ratio_points_mono c1 c2 total m : 0 <= c1 -> c1 <= c2 -> 0 < total -> 0 < m ->
  Cleanliness.ratio_points c1 total m <= Cleanliness.ratio_points c2 total m.
Proof.
  intros H0 Hc Ht Hm. unfold Cleanliness.ratio_points. rewrite (proj2 (Z.eqb_neq total 0)) by lia. simpl.
  assert ((c1 * m + total - 1) / total <= (c2 * m + total - 1) / total) as Hd by (apply Z.div_le_mono; nia).
  destruct (c1 =? 0) eqn:H1, (c2 =? 0) eqn:H2; rewrite ?Z.eqb_eq, ?Z.eqb_neq in *; [done| |lia|lia].
  assert (0 <= (c2 * m + total - 1) / total) by (apply Z.div_pos; nia). lia.
Qed.

(** The points taken for each kind of finding. *)
Definition unorganized_points (total unorganized : Z) : Z :=
  if (0 <? total) && (0 <? unorganized) then Cleanliness.ratio_points unorganized total 70 else 0.
Definition capped_or_none (count p cap : Z) : Z := if 0 <? count then Cleanliness.capped_points count p cap else 0.
Lemma unorganized_points_bounds t u : 0 <= unorganized_points t u <= 70 /\ (0 < t -> 0 < u -> 1 <= unorganized_points t u).
Proof.
  unfold unorganized_points. destruct (0 <? t) eqn:Ht, (0 <? u) eqn:Hu; simpl; rewrite ?Z.ltb_lt, ?Z.ltb_ge in *; try (split; lia).
  pose proof (ratio_points_bounds u t 70). lia.
Qed.
Lemma capped_or_none_bounds c p cap : 0 < p -> 0 < cap -> 0 <= capped_or_none c p cap <= cap /\ (0 < c -> 1 <= capped_or_none c p cap).
Proof.
  intros Hp Hk. unfold capped_or_none. destruct (0 <? c) eqn:Hc; rewrite ?Z.ltb_lt, ?Z.ltb_ge in *; [|split; lia].
  pose proof (capped_points_bounds c p cap). lia.
Qed.
(** The [u16] never wraps, and the [u8] never overflows. *)
Lemma score_sum t u s c :
  Cleanliness.deducted_points (Cleanliness.cleanliness_deductions t u s c) =
  unorganized_points t u + capped_or_none s 5 20 + capped_or_none c 10 20.
Proof.
  pose proof (unorganized_points_bounds t u) as [H1 _]. pose proof (capped_or_none_bounds s 5 20 ltac:(lia) ltac:(lia)) as [H2 _].
  pose proof (capped_or_none_bounds c 10 20 ltac:(lia) ltac:(lia)) as [H3 _].
  unfold Cleanliness.deducted_points, Cleanliness.cleanliness_deductions. unfold unorganized_points, capped_or_none in *.
  destruct ((0 <? t) && (0 <? u)), (0 <? s), (0 <? c); simpl; rewrite ?Z.mod_small; lia.
Qed.

(** * The times *)

(** A thread that takes a time: it has read the clock and [LAST_SNAPSHOT_UNIX_MS], or
    has its time. *)
Inductive ticket := Asking | Loaded (now previous : Z) | Taken (ms : Z).
Record clock_state := mkClockState {
  ck_last : Z;
  ck_threads : gmap nat ticket;
  (** the times taken, in the order of the exchanges that succeeded *)
  ck_taken : list Z;
}.
(** One atomic step of the thread [i]; a weak exchange may fail for no reason. *)
Inductive clock_step : clock_state -> clock_state -> Prop :=
| clock_load i now s :
    ck_threads s !! i = Some Asking -> 0 <= now <= u64_max ->
    clock_step s (mkClockState (ck_last s) (<[i := Loaded now (ck_last s)]> (ck_threads s)) (ck_taken s))
| clock_exchange i now s :
    ck_threads s !! i = Some (Loaded now (ck_last s)) ->
    let ms := Cleanliness.candidate_ms now (ck_last s) in
    clock_step s (mkClockState ms (<[i := Taken ms]> (ck_threads s)) (ck_taken s ++ [ms]))
| clock_retry i now previous s :
    ck_threads s !! i = Some (Loaded now previous) ->
    clock_step s (mkClockState (ck_last s) (<[i := Loaded now (ck_last s)]> (ck_threads s)) (ck_taken s))
| clock_start i s :
    ck_threads s !! i = None -> clock_step s (mkClockState (ck_last s) (<[i := Asking]> (ck_threads s)) (ck_taken s)).

Definition clock_ok (first : Z) (s : clock_state) : Prop :=
  first <= ck_last s <= u64_max /\ Forall (fun t => t <= ck_last s) (ck_taken s) /\
  (ck_last s < u64_max -> StronglySorted Z.lt (ck_taken s) /\ Forall (fun t => first < t) (ck_taken s)) /\
  forall i ms, ck_threads s !! i = Some (Taken ms) -> ms ∈ ck_taken s.

Lemma candidate_bounds now previous : 0 <= now <= u64_max -> 0 <= previous <= u64_max ->
  now <= Cleanliness.candidate_ms now previous <= u64_max /\ previous <= Cleanliness.candidate_ms now previous /\
  (Cleanliness.candidate_ms now previous < u64_max -> previous < Cleanliness.candidate_ms now previous).
Proof. unfold Cleanliness.candidate_ms. lia. Qed.

Definition now_ok (s : clock_state) : Prop :=
  forall i now previous, ck_threads s !! i = Some (Loaded now previous) -> 0 <= now <= u64_max.
Lemma clock_step_ok first s s' :
  0 <= first -> clock_step s s' -> clock_ok first s /\ now_ok s -> clock_ok first s' /\ now_ok s'.
Proof.
  intros Hf Hstep [(H1 & H2 & H3 & H4) Hn].
  assert (forall i x, (forall ms, x <> Taken ms) -> (forall now p, x = Loaded now p -> 0 <= now <= u64_max) ->
    clock_ok first (mkClockState (ck_last s) (<[i := x]> (ck_threads s)) (ck_taken s)) /\
    now_ok (mkClockState (ck_last s) (<[i := x]> (ck_threads s)) (ck_taken s))) as Hidle.
  { intros i x Hx Hxn. split; [split_and!; simpl; try done; try lia|].
    - intros j ms [[<- ->]|[_ Hj]]%lookup_insert_Some; [by destruct (Hx ms)|by eapply H4].
    - intros j now p Hj. simpl in Hj. apply lookup_insert_Some in Hj as [[<- ->]|[_ Hj]]; [by eapply Hxn|by eapply Hn]. }
  destruct Hstep as [i now s Hi Hnow|i now s Hi ms|i now previous s Hi|i s Hi].
  - apply Hidle; [done|]. by intros now' p [= <- _].
  - destruct (candidate_bounds now (ck_last s) (Hn _ _ _ Hi)) as (C1 & C2 & C3); [lia|]. fold ms in C1, C2, C3.
    split; [split_and!; simpl; try lia|].
    + apply Forall_app. split; [|constructor; [lia|constructor]]. eapply Forall_impl; [exact H2|]. simpl. lia.
    + intros Hlt. specialize (C3 Hlt). destruct H3 as [H5 H6]; [lia|]. split.
      * apply StronglySorted_app. split_and!; [|done|by repeat constructor].
        intros x y Hx ->%list_elem_of_singleton. rewrite list.Forall_forall in H2. specialize (H2 x Hx). lia.
      * apply Forall_app. split; [done|]. constructor; [lia|constructor].
    + intros j m [[<- [= <-]]|[_ Hj]]%lookup_insert_Some; apply elem_of_app; [right; by left|left; by eapply H4].
    + intros j n p Hj. simpl in Hj. apply lookup_insert_Some in Hj as [[_ [=]]|[_ Hj]]. by eapply Hn.
  - apply Hidle; [done|]. intros now' p [= <- _]. by eapply Hn.
  - apply Hidle; [done|]. done.
Qed.

Lemma clock_steps_ok first s s' :
  0 <= first -> rtc clock_step s s' -> clock_ok first s /\ now_ok s -> clock_ok first s' /\ now_ok s'.
Proof. intros Hf. induction 1 as [s|s1 s2 s3 Hstep _ IH]; [done|]. intros H. apply IH. by eapply clock_step_ok. Qed.

(** * A snapshot *)

Lemma u64_of_len_mono {A B} (l : list A) (k : list B) : (length l <= length k)%nat -> 0 <= u64_of_len l <= u64_of_len k.
Proof. unfold u64_of_len, u64_max. lia. Qed.
Lemma filter_seen_length seen ps : (length (ProposalEngine.filter_seen seen ps) <= length ps)%nat.
Proof. revert seen. induction ps as [|p ps IH]; intros seen; simpl; [lia|]. case_bool_decide; simpl; [etrans; [apply IH|lia]|specialize (IH (proposal_id_of p :: seen)); lia]. Qed.
Lemma omap_length {A B} (f : A -> option B) l : (length (omap f l) <= length l)%nat.
Proof. induction l as [|a l IH]; csimpl; [lia|]. destruct (f a); csimpl; lia. Qed.

(** The proposals for a scan are at most as many as its files. *)
Lemma propose_for_analysis_length {DB} parse root scan (w : world DB) rep w' :
  ProposalEngine.propose_for_analysis parse root scan w = (Ok rep, w') ->
  (length (pr_proposals rep) <= length (ar_files scan))%nat /\ w_fs w' = w_fs w /\ w_db w' = w_db w /\ w_log w' = w_log w.
Proof.
  unfold ProposalEngine.propose_for_analysis, ProposalEngine.propose_for_analysis_with_rule_set, ProposalEngine.unix_ms.
  unfold get_fs, io_bind, io_gets, io_lift, io_ret. destruct (load_rule_set_for_root parse (w_fs w) root) as [set|]; [|done]. simpl.
  destruct (RuleSet.validate set) as [[]|]; [|done]. simpl. intros [= <- <-]. split_and!; [|done..]. simpl.
  etrans; [apply filter_seen_length|apply omap_length].
Qed.

(** What a snapshot says of a scan and its proposals. *)
Definition snapshot_of (scan : AnalyzeReport) (proposals : list Proposal) (at_ms : Z) : CleanlinessSnapshot :=
  let total := u64_of_len (ar_files scan) in
  let unorganized := u64_of_len proposals in
  let deductions := Cleanliness.cleanliness_deductions total unorganized (u64_of_len (ar_skipped_entries scan))
    (u64_of_len (List.filter (fun item => bool_decide (p_status item = DestinationExists)) proposals)) in
  mkCleanlinessSnapshot CLEANLINESS_FORMULA_VERSION (Cleanliness.score_of deductions)
    (mkCleanlinessMetrics total (total - unorganized) unorganized deductions) (Calendar.unix_ms_to_rfc3339 (Some at_ms)).

Lemma calculate_run {DB} parse root last (w : world DB) snap last' w' :
  Cleanliness.calculate_cleanliness_snapshot parse root (last, w) = (Ok snap, (last', w')) ->
  w_fs w' = w_fs w /\ w_db w' = w_db w /\ w_log w' = w_log w /\
  exists scan rep w1, Analyzer.analyze_root (w_fs w) root = Ok scan /\
    ProposalEngine.propose_for_analysis parse root scan w = (Ok rep, w1) /\
    (length (pr_proposals rep) <= length (ar_files scan))%nat /\
    snap = snapshot_of scan (pr_proposals rep) last' /\
    exists now, 0 <= now <= u64_max /\ last' = Cleanliness.candidate_ms now last.
Proof.
  unfold Cleanliness.calculate_cleanliness_snapshot, Cleanliness.on_machine, get_fs. unfold io_bind, io_gets, io_lift, io_ret, io_map_err. simpl.
  destruct (Analyzer.analyze_root (w_fs w) root) as [scan|] eqn:Hscan; [|done]. simpl.
  destruct (ProposalEngine.propose_for_analysis parse root scan w) as [[rep|] w1] eqn:Hrep; [|done]. simpl.
  destruct (propose_for_analysis_length _ _ _ _ _ _ Hrep) as (Hlen & Hfs & Hdb & Hlog).
  unfold Cleanliness.monotonic_unix_ms, Cleanliness.on_machine, now_ms, now_ns, io_bind, io_ret. simpl.
  intros [= <- <- <-]. split_and!; [done..|]. exists scan, rep, w1. split_and!; [done..| |].
  - unfold snapshot_of. do 2 f_equal. unfold saturating_sub. pose proof (u64_of_len_mono _ _ Hlen). lia.
  - eexists. split; [|reflexivity]. unfold u64_max. destruct (w_clock w1 (w_ticks w1) <? 0) eqn:H; rewrite ?Z.ltb_lt, ?Z.ltb_ge in *; lia.
Qed.

(** * Properties *)

(** the score is a number from 0 to 100 and says what it means to: 70 points at
    most in proportion to the files without a place, 20 at most for entries that
    could not be read and 20 for conflicts; the sum never wraps its 16 bits; every
    kind of finding costs something, so that 100 means none; and more findings never
    score better. *)
Theorem score_is_bounded (t u s c : Z) :
  0 <= t -> 0 <= u -> 0 <= s -> 0 <= c ->
  let score t u s c := Cleanliness.score_of (Cleanliness.cleanliness_deductions t u s c) in
  0 <= score t u s c <= 100 /\
  score t u s c = Z.max 0 (100 - (unorganized_points t u + capped_or_none s 5 20 + capped_or_none c 10 20)) /\
  Forall (fun d => 1 <= cd_points d <= 70) (Cleanliness.cleanliness_deductions t u s c) /\
  (score t u s c = 100 <-> (t = 0 \/ u = 0) /\ s = 0 /\ c = 0) /\
  forall u' s' c', u <= u' -> s <= s' -> c <= c' -> score t u' s' c' <= score t u s c.
Proof.
  intros Ht Hu Hs Hc score.
  assert (forall u s c, score t u s c = Z.max 0 (100 - (unorganized_points t u + capped_or_none s 5 20 + capped_or_none c 10 20))) as Hscore.
  { intros u0 s0 c0. unfold score, Cleanliness.score_of. rewrite score_sum. unfold saturating_sub.
    pose proof (unorganized_points_bounds t u0). pose proof (capped_or_none_bounds s0 5 20). pose proof (capped_or_none_bounds c0 10 20). lia. }
  pose proof (unorganized_points_bounds t u) as [B1 P1]. pose proof (capped_or_none_bounds s 5 20 ltac:(lia) ltac:(lia)) as [B2 P2].
  pose proof (capped_or_none_bounds c 10 20 ltac:(lia) ltac:(lia)) as [B3 P3].
  split_and!; [rewrite Hscore; lia|rewrite Hscore; lia|apply Hscore| |rewrite Hscore; split|].
  - unfold Cleanliness.cleanliness_deductions. rewrite !Forall_app. split_and!.
    + destruct ((0 <? t) && (0 <? u)) eqn:H; constructor; [|constructor]. simpl. rewrite andb_true_iff, !Z.ltb_lt in H.
      apply ratio_points_bounds; lia.
    + destruct (0 <? s) eqn:H; constructor; [|constructor]. rewrite Z.ltb_lt in H. pose proof (capped_points_bounds s 5 20). simpl. lia.
    + destruct (0 <? c) eqn:H; constructor; [|constructor]. rewrite Z.ltb_lt in H. pose proof (capped_points_bounds c 10 20). simpl. lia.
  - intros H. split_and!; [|lia..]. destruct (decide (t = 0)), (decide (u = 0)); auto. lia.
  - intros (H1 & -> & ->). assert (unorganized_points t u = 0) as ->; [|done].
    unfold unorganized_points. destruct H1 as [-> | ->]; [done|by rewrite andb_false_r].
  - intros u' s' c' Hu' Hs' Hc'. rewrite !Hscore. assert (unorganized_points t u <= unorganized_points t u') as M1.
    { unfold unorganized_points. destruct (0 <? t) eqn:H; simpl; [|lia]. rewrite Z.ltb_lt in H.
      destruct (0 <? u) eqn:H1, (0 <? u') eqn:H2; rewrite ?Z.ltb_lt, ?Z.ltb_ge in *; try lia.
      - apply ratio_points_mono; lia.
      - pose proof (ratio_points_bounds u' t 70). lia. }
    assert (forall p x y, 0 < p -> 0 <= x -> x <= y -> capped_or_none x p 20 <= capped_or_none y p 20) as M2.
    { intros p x y Hp H0 Hxy. unfold capped_or_none, Cleanliness.capped_points, u64_max.
      destruct (0 <? x) eqn:H1, (0 <? y) eqn:H2; rewrite ?Z.ltb_lt, ?Z.ltb_ge in *; nia. }
    pose proof (M2 5 s s' ltac:(lia) Hs Hs'). pose proof (M2 10 c c' ltac:(lia) Hc Hc'). lia.
Qed.
Lemma score_is_bounded_witness :
  Cleanliness.score_of (Cleanliness.cleanliness_deductions 3 2 0 0) = 53 /\
  0 <= Cleanliness.score_of (Cleanliness.cleanliness_deductions 3 2 0 0) <= 100.
Proof.
  split; [vm_compute; reflexivity|].
  exact (proj1 (score_is_bounded 3 2 0 0 ltac:(lia) ltac:(lia) ltac:(lia) ltac:(lia))).
Defined.

(** Snapshot times never repeat and never go back: whatever threads take a time,
    in whatever order their steps interleave and whichever exchanges fail, the times
    taken strictly increase as long as the counter has not reached its last value. *)
Theorem snapshot_times_increase (first : Z) (s : clock_state) :
  0 <= first <= u64_max -> rtc clock_step (mkClockState first ∅ []) s ->
  ck_last s < u64_max ->
  StronglySorted Z.lt (ck_taken s) /\ Forall (fun t => first < t <= ck_last s) (ck_taken s) /\
  forall i ms, ck_threads s !! i = Some (Taken ms) -> ms ∈ ck_taken s.
Proof.
  intros Hf Hsteps Hlt. assert (clock_ok first s /\ now_ok s) as [(H1 & H2 & H3 & H4) _].
  { apply (clock_steps_ok first _ _ ltac:(lia) Hsteps). split; [split_and!; simpl; try lia|by intros i now p].
    - constructor.
    - split; constructor.
    - by intros i ms. }
  destruct (H3 Hlt) as [H5 H6]. split_and!; [done| |done]. apply list.Forall_forall. intros t Ht.
  rewrite list.Forall_forall in H2, H6. split; [by apply H6|by apply H2].
Qed.

(** Two threads that read the same times: the second takes the next one. *)
Definition two_clocks : clock_state :=
  mkClockState 6 (<[1%nat := Taken 6]> (<[1%nat := Loaded 5 5]> (<[0%nat := Taken 5]> (<[1%nat := Loaded 5 0]>
    (<[0%nat := Loaded 5 0]> (<[1%nat := Asking]> (<[0%nat := Asking]> ∅))))))) [5; 6].
Lemma snapshot_times_increase_witness :
  rtc clock_step (mkClockState 0 ∅ []) two_clocks /\ StronglySorted Z.lt (ck_taken two_clocks).
Proof.
  assert (rtc clock_step (mkClockState 0 ∅ []) two_clocks) as Hsteps.
  { eapply rtc_l; [apply (clock_start 0); reflexivity|]. eapply rtc_l; [apply (clock_start 1); reflexivity|].
    eapply rtc_l; [apply (clock_load 0 5); [reflexivity|unfold u64_max; lia]|].
    eapply rtc_l; [apply (clock_load 1 5); [reflexivity|unfold u64_max; lia]|].
    eapply rtc_l; [apply (clock_exchange 0 5); reflexivity|]. eapply rtc_l; [apply (clock_retry 1 5 0); reflexivity|].
    eapply rtc_l; [apply (clock_exchange 1 5); reflexivity|]. apply rtc_refl. }
  split; [exact Hsteps|].
  assert (0 <= 0 <= u64_max) as H0 by (unfold u64_max; lia). assert (ck_last two_clocks < u64_max) as Hlast by reflexivity.
  exact (proj1 (snapshot_times_increase 0 two_clocks H0 Hsteps Hlast)).
Defined.
