(* ===== verification/agent.v ===== *)
(** [apps/desktop/src-tauri/src/agent.rs]: the client of the server.  What it keeps of
    its connection, which requests it makes and how it reads the answers.

    The HTTP client, the JSON codec and the keyring are third-party: the classes
    [Http], [Serde] and [CredentialStore] are what the code asks of them. *)
From Stdlib Require Import ZArith Lia Ascii.
From stdpp Require Import strings pretty gmap functions option list.
From S2P Require Import prelude rust_str std_path cleanliness.

Open Scope string_scope.
Open Scope list_scope.

(** * Third-party interfaces *)

(** [serde_json]: the text of a value, and the value of a text that has one. *)
Class Serde (T : Type) := { to_text : T -> string; from_text : string -> option T }.
(** [serde_json::Value], of which the code asks this. *)
Class JsonValue (V : Type) := value_is_object : V -> bool.

(** * Errors *)

Inductive AgentErrorCode :=
| CUnconfigured | CValidationFailed | CTransportUnavailable | CUnauthenticated | CForbidden
| CInvalidResponse | CCredentialStoreUnavailable.
Record AgentError := mkAgentError {
  ae_code : AgentErrorCode;
  ae_message : string;
  ae_server_code : option string;
}.
#[export] Instance AgentErrorCode_eq_dec : EqDecision AgentErrorCode.
Proof. solve_decision. Defined.
#[export] Instance AgentError_eq_dec : EqDecision AgentError.
Proof. solve_decision. Defined.
Record ServerErrorResponse := mkServerErrorResponse { se_code : option string; se_message : option string }.

Definition code_str (c : AgentErrorCode) : string :=
  match c with
  | CUnconfigured => "UNCONFIGURED"
  | CValidationFailed => "VALIDATION_FAILED"
  | CTransportUnavailable => "TRANSPORT_UNAVAILABLE"
  | CUnauthenticated => "UNAUTHENTICATED"
  | CForbidden => "FORBIDDEN"
  | CInvalidResponse => "INVALID_RESPONSE"
  | CCredentialStoreUnavailable => "CREDENTIAL_STORE_UNAVAILABLE"
  end.
Definition is_transient (e : AgentError) : bool := bool_decide (ae_code e = CTransportUnavailable).
Definition is_confirmed_device_absent (e : AgentError) : bool :=
  match ae_server_code e with
  | Some c => (c =? "DEVICE_REVOKED")%string || (c =? "DEVICE_NOT_REGISTERED")%string
  | None => false
  end.

Definition unconfigured_error (message : string) : AgentError := mkAgentError CUnconfigured message None.
Definition validation_error (message : string) : AgentError := mkAgentError CValidationFailed message None.
Definition invalid_response_error (message : string) : AgentError := mkAgentError CInvalidResponse message None.

(** [StatusCode]: [is_success] is 200..299, [is_client_error] is 400..499. *)
Definition is_success (status : Z) : bool := ((200 <=? status) && (status <? 300))%Z.
Definition is_client_error (status : Z) : bool := ((400 <=? status) && (status <? 500))%Z.
(** [Display for StatusCode]: the number and its canonical reason, which is the HTTP
    client's. *)
Definition http_error (status_text : Z -> string) (status : Z) (server_error : option ServerErrorResponse) : AgentError :=
  let code :=
    if (status =? 401)%Z then CUnauthenticated
    else if (status =? 403)%Z then CForbidden
    else if ((status =? 408) || (status =? 429))%Z then CTransportUnavailable
    else if is_client_error status then CValidationFailed
    else CTransportUnavailable in
  let server_code := match server_error with Some body => se_code body | None => None end in
  let message :=
    match server_error with
    | Some body => match se_message body with Some m => Some m | None => se_code body end
    | None => None
    end in
  mkAgentError code (default ("MouseKeeper server request failed with HTTP " +:+ status_text status) message) server_code.

(** * Data *)

Record DeviceCredential := mkDeviceCredential {
  dc_server_base_url : string;
  dc_device_id : string;
  dc_device_token : string;
}.
Inductive AgentConnectionState := SUnconfigured | SOffline | SConnecting | SOnline | SRevoked.
Record AgentState := mkAgentState {
  ag_server_base_url : option string;
  ag_credential : option DeviceCredential;
  ag_state : AgentConnectionState;
  ag_last_error : option AgentError;
}.
#[export] Instance DeviceCredential_eq_dec : EqDecision DeviceCredential.
Proof. solve_decision. Defined.
#[export] Instance AgentConnectionState_eq_dec : EqDecision AgentConnectionState.
Proof. solve_decision. Defined.
#[export] Instance AgentState_eq_dec : EqDecision AgentState.
Proof. solve_decision. Defined.

Record AgentConnectionStatus := mkAgentConnectionStatus {
  st_state : AgentConnectionState;
  st_server_base_url : option string;
  st_device_id : option string;
  st_last_error_code : option AgentErrorCode;
  st_last_error_message : option string;
}.
Record RealtimeCredentials := mkRealtimeCredentials { rc_base_url : string; rc_device_token : string }.
Record PairingSession := mkPairingSession {
  ps_session_id : string; ps_desktop_nonce : string; ps_code : string; ps_expires_at : string }.
Record PairingStatus := mkPairingStatus {
  pst_status : string; pst_device_id : option string; pst_expires_at : option string }.
Record HeartbeatResult := mkHeartbeatResult { hb_device_id : string; hb_presence : string; hb_ttl_seconds : Z }.
Record SmartCacheEncryptionMetadata := mkSmartCacheEncryptionMetadata {
  em_algorithm : string;
  em_format : string;
  em_key_id : string;
  em_nonce_hex : string;
  em_plaintext_size_bytes : Z;   (** [u64] *)
  em_plaintext_sha256 : string;
}.
Inductive AgentProposalActionType := AMove | AQuarantine | ACreateDir | ACreateFile | AReadmeWrite.
Inductive AgentProposalConflictState := NoConflict | NameConflict.
Record AgentProposalSummary := mkAgentProposalSummary {
  su_item_count : Z; su_readme_draft : option string; su_readme_diff : option string }.
Inductive AgentFileTransferFailureCode :=
| SourceNotFound | SourceChanged | OutsideManagedRoot | SizeLimitExceeded | ChecksumMismatch.

Section data.
Context (V : Type).
Record AgentProposalItem := mkAgentProposalItem {
  it_item_order : Z;
  it_action_type : AgentProposalActionType;
  it_source_relative_path : option string;
  it_destination_relative_path : option string;
  it_reason_code : string;
  it_precondition : V;
  it_conflict_state : AgentProposalConflictState;
}.
Record AgentProposalSubmission := mkAgentProposalSubmission {
  pb_command_id : string;
  pb_room_id : string;
  pb_summary : AgentProposalSummary;
  pb_expires_at : option string;
  pb_items : list AgentProposalItem;
}.
Record AgentCommand := mkAgentCommand {
  ac_command_id : string; ac_command_type : string; ac_room_id : string; ac_status : string; ac_payload : V }.
Record AgentRoomSnapshot := mkAgentRoomSnapshot {
  rs_snapshot_id : string; rs_room_id : string; rs_formula_version : string; rs_score : Z; rs_metrics : V;
  rs_calculated_at : string }.
Record AgentSmartCacheCandidate := mkAgentSmartCacheCandidate {
  sd_source_relative_path : string;
  sd_source_version : V;
  sd_source_version_hash : string;
  sd_size_bytes : Z;     (** [u64] *)
  sd_usage_score : Z;    (** [i64] *)
  sd_manual_pin : bool;
}.
End data.
Arguments mkAgentSmartCacheCandidate {V} _ _ _ _ _ _. Arguments sd_source_relative_path {V} _. Arguments sd_source_version {V} _.
Arguments sd_source_version_hash {V} _. Arguments sd_size_bytes {V} _. Arguments sd_usage_score {V} _. Arguments sd_manual_pin {V} _.
Arguments mkAgentProposalItem {V} _ _ _ _ _ _ _. Arguments mkAgentProposalSubmission {V} _ _ _ _ _.
Arguments pb_command_id {V} _. Arguments pb_items {V} _.
Arguments mkAgentCommand {V} _ _ _ _ _. Arguments mkAgentRoomSnapshot {V} _ _ _ _ _ _.
Arguments ac_command_id {V} _. Arguments ac_command_type {V} _. Arguments ac_room_id {V} _. Arguments ac_status {V} _.
Arguments ac_payload {V} _. Arguments pb_room_id {V} _. Arguments pb_summary {V} _. Arguments pb_expires_at {V} _.
Arguments it_item_order {V} _. Arguments it_action_type {V} _. Arguments it_source_relative_path {V} _.
Arguments it_destination_relative_path {V} _. Arguments it_reason_code {V} _. Arguments it_precondition {V} _.
Arguments it_conflict_state {V} _.
Record AgentFileTransferSourceVersion := mkAgentFileTransferSourceVersion {
  fv_file_id : string; fv_size_bytes : Z; fv_modified_at : string }.
Inductive AgentFileBrowseEntryType := BfFile | BfDirectory.
Record AgentFileBrowseEntry := mkAgentFileBrowseEntry {
  bn_name : string;
  bn_relative_path : string;
  bn_entry_type : AgentFileBrowseEntryType;
  bn_size_bytes : option Z;   (** [u64] *)
  bn_modified_at : string;
  bn_file_id : string;
}.
Record AgentFileBrowseResult := mkAgentFileBrowseResult {
  fb_entries : list AgentFileBrowseEntry; fb_next_cursor : option string; fb_desktop_generation : string }.
Record AgentFileTransfer := mkAgentFileTransfer {
  ft_transfer_id : string; ft_room_id : string; ft_source_relative_path : string; ft_status : string;
  ft_expires_at : string; ft_size_bytes : option Z; ft_sha256 : option string;
  ft_failure_code : option AgentFileTransferFailureCode }.
Record AgentCachedFile := mkAgentCachedFile {
  cf_cached_file_id : string; cf_source_relative_path : string; cf_source_version_hash : string; cf_size_bytes : Z;
  cf_sha256 : string; cf_freshness_status : string; cf_encryption_metadata : option SmartCacheEncryptionMetadata }.
Record AgentSmartCacheStaleResult := mkAgentSmartCacheStaleResult {
  sr_room_id : string; sr_source_relative_path : option string; sr_reason : string; sr_stale_count : Z }.
Record AgentExecution := mkAgentExecution { ex_execution_id : string; ex_status : string }.

(** ** Answers of the server *)
Record PairingSessionResponse := mkPairingSessionResponse {
  pr_session_id : string; pr_desktop_nonce : string; pr_code : string; pr_expires_at : string }.
Record PairingStatusResponse := mkPairingStatusResponse {
  pp_status : string; pp_expires_at : option string; pp_device_id : option string; pp_device_token : option string }.
Record HeartbeatResponse := mkHeartbeatResponse { hr_device_id : string; hr_presence : string; hr_ttl_seconds : Z }.
Record ServerCommand (V : Type) := mkServerCommand {
  sc_id : string; sc_intent : string; sc_room_id : string; sc_status : string; sc_payload : V }.
Arguments mkServerCommand {V} _ _ _ _ _. Arguments sc_id {V} _. Arguments sc_intent {V} _.
Arguments sc_room_id {V} _. Arguments sc_status {V} _. Arguments sc_payload {V} _.
Record FileTransferResponse := mkFileTransferResponse {
  fp_id : string; fp_room_id : string; fp_source_relative_path : string; fp_status : string; fp_expires_at : string;
  fp_size_bytes : option Z; fp_sha256 : option string; fp_failure_code : option AgentFileTransferFailureCode }.
Record CachedFileResponse := mkCachedFileResponse {
  cr_id : string; cr_source_relative_path : string; cr_source_version_hash : string; cr_size_bytes : Z;
  cr_sha256 : string; cr_freshness_status : string; cr_encryption_metadata : option SmartCacheEncryptionMetadata }.
Record SmartCacheStaleResponse := mkSmartCacheStaleResponse {
  ss_room_id : string; ss_source_relative_path : option string; ss_reason : string; ss_stale_count : Z }.
Record RoomSnapshotResponse (V : Type) := mkRoomSnapshotResponse {
  rp_id : string; rp_room_id : string; rp_formula_version : option string; rp_score : Z; rp_metrics : V;
  rp_calculated_at : string }.
Arguments mkRoomSnapshotResponse {V} _ _ _ _ _ _. Arguments rp_id {V} _. Arguments rp_room_id {V} _.
Arguments rp_formula_version {V} _. Arguments rp_score {V} _. Arguments rp_metrics {V} _. Arguments rp_calculated_at {V} _.
Record ExecutionResponse := mkExecutionResponse { er_id : string; er_status : string }.

(** * Validation *)

(** [matches!(value, a | b | ...)] *)
Definition one_of (l : list string) (s : string) : bool := existsb (String.eqb s) l.
Definition ascii_between (a b c : ascii) : bool :=
  ((byte_of a <=? byte_of c) && (byte_of c <=? byte_of b))%Z.
Definition is_ascii_digit (c : ascii) : bool := ascii_between "0" "9" c.
Definition is_ascii_letter (c : ascii) : bool := ascii_between "a" "z" c || ascii_between "A" "Z" c.
Definition is_ascii_hexdigit (c : ascii) : bool :=
  is_ascii_digit c || ascii_between "a" "f" c || ascii_between "A" "F" c.
(** [value.chars().all(f)] of a predicate that only ASCII characters satisfy: every
    byte of another character is 128 or more. *)
Definition all_chars (f : ascii -> bool) (s : string) : bool := forallb f (String.list_ascii_of_string s).
Definition is_separator (c : ascii) : bool := Ascii.eqb c "/" || Ascii.eqb c "\".
Definition starts_with_separator (s : string) : bool := match s with String c _ => is_separator c | "" => false end.

Module Validate.
Definition opaque_char (c : ascii) : bool :=
  is_ascii_digit c || is_ascii_letter c || Ascii.eqb c "-" || Ascii.eqb c "_".
Definition opaque_value (name value : string) (max_length : Z) : result unit AgentError :=
  if is_empty value || (max_length <? slen value)%Z || negb (all_chars opaque_char value)
  then Err (validation_error (name +:+ " has an invalid format")) else Ok tt.
Definition relative_path (label path : string) : result unit AgentError :=
  if is_empty path || (1024 <? slen path)%Z || starts_with_separator path || contains_char "000" path
     || contains_char ":" path
     || existsb (fun part => is_empty part || is_dot part || is_dotdot part) (split_on is_separator path)
  then Err (validation_error (label +:+ " must be a managed-root-relative path")) else Ok tt.
Definition lower_hex (c : ascii) : bool := is_ascii_hexdigit c && negb (ascii_between "A" "Z" c).
Definition is_valid_sha256 (value : string) : bool := (slen value =? 64)%Z && all_chars lower_hex value.
Definition sha256 (value : string) : result unit AgentError :=
  if is_valid_sha256 value then Ok tt
  else Err (validation_error "file transfer sha256 must be 64 lowercase hex characters").

Definition pairing_session (r : PairingSessionResponse) : result PairingSession AgentError :=
  if is_empty (pr_session_id r) || is_empty (pr_desktop_nonce r) || is_empty (pr_expires_at r)
     || negb (slen (pr_code r) =? 6)%Z || negb (all_chars is_ascii_digit (pr_code r))
  then Err (invalid_response_error "pairing session failed response validation")
  else Ok (mkPairingSession (pr_session_id r) (pr_desktop_nonce r) (pr_code r) (pr_expires_at r)).
Definition presences : list string := ["ONLINE_IDLE"; "ONLINE_SCANNING"; "ONLINE_EXECUTING"; "DEGRADED"].
Definition heartbeat_response (expected_device_id : string) (r : HeartbeatResponse) : result HeartbeatResult AgentError :=
  if negb (hr_device_id r =? expected_device_id)%string || negb (one_of presences (hr_presence r))
     || (hr_ttl_seconds r =? 0)%Z
  then Err (invalid_response_error "heartbeat failed response validation")
  else Ok (mkHeartbeatResult (hr_device_id r) (hr_presence r) (hr_ttl_seconds r)).

Section value.
Context {V : Type} `{!JsonValue V}.
Definition server_command (r : ServerCommand V) : result (AgentCommand V) AgentError :=
  if is_empty (sc_id r) || is_empty (sc_intent r) || is_empty (sc_room_id r)
     || negb (one_of ["QUEUED"; "DELIVERED"; "ANALYZING"; "PROPOSAL_READY"; "WAITING_APPROVAL"; "APPROVED"; "REJECTED";
                      "EXPIRED"; "EXECUTING"; "SUCCEEDED"; "PARTIALLY_SUCCEEDED"; "FAILED"; "STALE"] (sc_status r))
     || negb (value_is_object (sc_payload r))
  then Err (invalid_response_error "command failed response validation")
  else Ok (mkAgentCommand (sc_id r) (sc_intent r) (sc_room_id r) (sc_status r) (sc_payload r)).
Definition room_snapshot_response (expected_room_id expected_formula_version : string) (r : RoomSnapshotResponse V)
  : result (AgentRoomSnapshot V) AgentError :=
  let formula_version := default expected_formula_version (rp_formula_version r) in
  if is_empty (rp_id r) || negb (rp_room_id r =? expected_room_id)%string
     || negb (formula_version =? expected_formula_version)%string || (100 <? rp_score r)%Z
     || negb (value_is_object (rp_metrics r)) || is_empty (trim (rp_calculated_at r))
  then Err (invalid_response_error "room snapshot failed response validation")
  else Ok (mkAgentRoomSnapshot (rp_id r) (rp_room_id r) formula_version (rp_score r) (rp_metrics r) (rp_calculated_at r)).
End value.

Definition file_transfer_response (r : FileTransferResponse) : result AgentFileTransfer AgentError :=
  if is_empty (fp_id r) || is_empty (fp_room_id r) || is_empty (fp_source_relative_path r)
     || (1024 <? slen (fp_source_relative_path r))%Z || is_empty (fp_expires_at r)
     || negb (one_of ["REQUESTED"; "UPLOADING"; "READY"; "FAILED"; "COMPLETED"; "CANCELLED"; "EXPIRED"] (fp_status r))
     || match fp_sha256 r with Some h => negb (is_valid_sha256 h) | None => false end
  then Err (invalid_response_error "file transfer failed response validation")
  else Ok (mkAgentFileTransfer (fp_id r) (fp_room_id r) (fp_source_relative_path r) (fp_status r) (fp_expires_at r)
             (fp_size_bytes r) (fp_sha256 r) (fp_failure_code r)).
Definition transfer_id_match (expected_transfer_id : string) (t : AgentFileTransfer) : result AgentFileTransfer AgentError :=
  if negb (ft_transfer_id t =? expected_transfer_id)%string
  then Err (invalid_response_error "file transfer response did not match the requested transfer id") else Ok t.

Definition SMART_CACHE_ENCRYPTION_ALGORITHM : string := "AES-256-GCM".
Definition SMART_CACHE_ENCRYPTION_FORMAT : string := "MKS1_NONCE_CIPHERTEXT_TAG".
Definition smart_cache_encryption_metadata (m : SmartCacheEncryptionMetadata) : result unit AgentError :=
  if negb (em_algorithm m =? SMART_CACHE_ENCRYPTION_ALGORITHM)%string
     || negb (em_format m =? SMART_CACHE_ENCRYPTION_FORMAT)%string
     || (slen (trim (em_key_id m)) <? 16)%Z || (128 <? slen (em_key_id m))%Z
     || negb (slen (em_nonce_hex m) =? 24)%Z || negb (all_chars is_ascii_hexdigit (em_nonce_hex m))
     || (em_plaintext_size_bytes m =? 0)%Z
     || negb (slen (em_plaintext_sha256 m) =? 64)%Z || negb (all_chars is_ascii_hexdigit (em_plaintext_sha256 m))
  then Err (invalid_response_error "smart cache encryption metadata failed response validation") else Ok tt.
Definition cached_file_response (r : CachedFileResponse) : result AgentCachedFile AgentError :=
  let? _ := relative_path "cached file path" (cr_source_relative_path r) in
  let? _ := sha256 (cr_source_version_hash r) in
  let? _ := sha256 (cr_sha256 r) in
  let? _ := match cr_encryption_metadata r with Some m => smart_cache_encryption_metadata m | None => Ok tt end in
  if is_empty (cr_id r) || (cr_size_bytes r =? 0)%Z
     || negb (one_of ["VERIFIED_CURRENT"; "UNVERIFIED_OFFLINE"; "STALE"] (cr_freshness_status r))
  then Err (invalid_response_error "cached file failed response validation")
  else Ok (mkAgentCachedFile (cr_id r) (cr_source_relative_path r) (cr_source_version_hash r) (cr_size_bytes r)
             (cr_sha256 r) (cr_freshness_status r) (cr_encryption_metadata r)).
Definition smart_cache_stale_reason (reason : string) : result unit AgentError :=
  if one_of ["SOURCE_CHANGED"; "SOURCE_REMOVED"; "REINDEXED"] reason then Ok tt
  else Err (validation_error "smart cache stale reason must be SOURCE_CHANGED, SOURCE_REMOVED, or REINDEXED").
Definition smart_cache_stale_response (expected_room_id : string) (expected_path : option string) (expected_reason : string)
    (r : SmartCacheStaleResponse) : result AgentSmartCacheStaleResult AgentError :=
  let? _ := map_err (fun _ => invalid_response_error "smart cache stale response reason is invalid")
              (smart_cache_stale_reason (ss_reason r)) in
  if negb (ss_room_id r =? expected_room_id)%string || negb (bool_decide (ss_source_relative_path r = expected_path))
     || negb (ss_reason r =? expected_reason)%string
  then Err (invalid_response_error "smart cache stale response did not match the request")
  else
    let? _ := match ss_source_relative_path r with
              | Some path => map_err (fun _ => invalid_response_error "smart cache stale response path is invalid")
                               (relative_path "smart cache stale response path" path)
              | None => Ok tt
              end in
    Ok (mkAgentSmartCacheStaleResult (ss_room_id r) (ss_source_relative_path r) (ss_reason r) (ss_stale_count r)).

Fixpoint deductions (l : list CleanlinessDeduction) : result unit AgentError :=
  match l with
  | [] => Ok tt
  | d :: l =>
      if is_empty (trim (cd_reason_code d)) || (100 <? cd_points d)%Z
      then Err (validation_error "cleanliness snapshot deduction failed validation") else deductions l
  end.
(** The [u64] sum of the two counts wraps. *)
Definition cleanliness_snapshot (s : CleanlinessSnapshot) : result unit AgentError :=
  let m := cs_metrics s in
  if negb (cs_formula_version s =? CLEANLINESS_FORMULA_VERSION)%string || (100 <? cs_score s)%Z
     || is_empty (trim (cs_calculated_at s))
     || (cm_total_file_count m <? cm_managed_file_count m)%Z || (cm_total_file_count m <? cm_unorganized_file_count m)%Z
     || (cm_total_file_count m <? wrap_u64 (cm_managed_file_count m + cm_unorganized_file_count m))%Z
  then Err (validation_error "cleanliness snapshot failed validation")
  else deductions (cm_deductions m).
Definition execution_response (r : ExecutionResponse) : result AgentExecution AgentError :=
  if is_empty (er_id r)
     || negb (one_of ["EXECUTING"; "SUCCEEDED"; "PARTIALLY_SUCCEEDED"; "FAILED"; "STALE"; "ROLLED_BACK"] (er_status r))
  then Err (invalid_response_error "execution failed response validation")
  else Ok (mkAgentExecution (er_id r) (er_status r)).
End Validate.

(** * The runtime *)

(** The bodies of requests: the fields of [json!({...})], or a value that serializes. *)
Inductive body_field (V : Type) :=
| FText (s : string) | FInt (z : Z) | FBool (b : bool) | FOptText (o : option string) | FTexts (l : list string) | FValue (v : V)
| FMetadata (m : SmartCacheEncryptionMetadata)
| FVersion (v : AgentFileTransferSourceVersion) | FCandidates (l : list (AgentSmartCacheCandidate V)).
Arguments FText {V} _. Arguments FInt {V} _. Arguments FBool {V} _. Arguments FOptText {V} _. Arguments FTexts {V} _.
Arguments FValue {V} _.
Arguments FMetadata {V} _. Arguments FVersion {V} _. Arguments FCandidates {V} _.
Inductive request_body (V : Type) :=
| BNone | BFields (fields : list (string * body_field V)) | BProposal (p : AgentProposalSubmission V)
| BSnapshot (s : CleanlinessSnapshot) | BBrowse (r : AgentFileBrowseResult).
Arguments BNone {V}. Arguments BFields {V} _. Arguments BProposal {V} _. Arguments BSnapshot {V} _. Arguments BBrowse {V} _.
Record HttpRequest (V : Type) := mkHttpRequest {
  rq_method : string;
  rq_url : string;
  rq_query : list (string * string);
  rq_bearer : option string;
  rq_idempotency_key : option string;
  rq_body : request_body V;
}.
Arguments mkHttpRequest {V} _ _ _ _ _ _. Arguments rq_method {V} _. Arguments rq_url {V} _. Arguments rq_bearer {V} _.
Arguments rq_idempotency_key {V} _. Arguments rq_body {V} _.
Record HttpResponse := mkHttpResponse { hp_status : Z; hp_body : string }.

(** The state [N] of the network: an answer, or none that arrives. *)
Class Http (N V : Type) := {
  http_send : HttpRequest V -> N -> option HttpResponse * N;
  http_status_text : Z -> string;
}.
(** The trait [CredentialStore]; the keyring is outside. *)
Class CredentialStore (N : Type) := {
  credentials_load : N -> result (option DeviceCredential) AgentError * N;
  credentials_save : DeviceCredential -> N -> result unit AgentError * N;
  credentials_delete : N -> result unit AgentError * N;
}.

Definition SERVER_BASE_URL_ENV : string := "MOUSEKEEPER_SERVER_BASE_URL".
Definition chars_count_ok (s : string) : bool := (chars_count s <=? 120)%Z.

Module Agent.
Section agent.
Context {N V : Type} `{!Http N V, !CredentialStore N, !JsonValue V, !Serde ServerErrorResponse}.
Abbreviation IO := (io (AgentState * N) AgentError).
Abbreviation request := (HttpRequest V).

(** ** State *)

Definition get_state {E} : io (AgentState * N) E AgentState := io_gets fst.
Definition set_state {E} (s : AgentState) : io (AgentState * N) E unit := fun st => (Ok tt, (s, st.2)).
Definition on_network {A} (m : N -> result A AgentError * N) : IO A := fun st => let '(r, n) := m st.2 in (r, (st.1, n)).

Definition connection_status (s : AgentState) : AgentConnectionStatus :=
  mkAgentConnectionStatus (ag_state s) (ag_server_base_url s) (dc_device_id <$> ag_credential s)
    (ae_code <$> ag_last_error s) (ae_message <$> ag_last_error s).
Definition realtime_credentials (s : AgentState) : option RealtimeCredentials :=
  match ag_server_base_url s, ag_credential s with
  | Some base_url, Some credential => Some (mkRealtimeCredentials base_url (dc_device_token credential))
  | _, _ => None
  end.
Definition missing_url : AgentError := unconfigured_error ("set " +:+ SERVER_BASE_URL_ENV +:+ " before connecting the desktop agent").
Definition require_server_url : IO string :=
  let! s := get_state in
  io_lift (match ag_server_base_url s with Some url => Ok url | None => Err missing_url end).
Definition require_authenticated_config : IO (string * DeviceCredential) :=
  let! s := get_state in
  io_lift (match ag_server_base_url s with
           | None => Err missing_url
           | Some base_url =>
               match ag_credential s with
               | None => Err (unconfigured_error "desktop device pairing is required")
               | Some credential => Ok (base_url, credential)
               end
           end).
Definition with_connection (state : AgentConnectionState) (error : option AgentError) : IO unit :=
  let! s := get_state in
  set_state (mkAgentState (ag_server_base_url s) (ag_credential s) state error).
Definition set_connecting : IO unit := with_connection SConnecting None.
Definition mark_online : IO unit := with_connection SOnline None.
Definition record_non_authoritative_error (error : AgentError) (state : AgentConnectionState) : IO unit :=
  with_connection state (Some error).
Definition record_error (error : AgentError) (state : AgentConnectionState) : IO unit :=
  if is_confirmed_device_absent error then
    let! _ := io_try (on_network credentials_delete) in
    let! s := get_state in
    set_state (mkAgentState (ag_server_base_url s) None SRevoked (Some error))
  else record_non_authoritative_error error state.

(** ** Requests *)

Definition unreachable : AgentError := mkAgentError CTransportUnavailable "cannot reach the MouseKeeper server" None.
(** [request.send()], and the answer when its status is a success. *)
Definition send (r : request) : IO HttpResponse :=
  fun st =>
    let '(a, n) := http_send r st.2 in
    (match a with
     | None => Err unreachable
     | Some response =>
         if is_success (hp_status response) then Ok response
         else Err (http_error (http_status_text (V:=V)) (hp_status response) (from_text (hp_body response)))
     end, (st.1, n)).
Definition send_json {T} `{!Serde T} (r : request) : IO T :=
  let! response := send r in
  io_lift (match from_text (hp_body response) with
           | Some value => Ok value
           | None => Err (invalid_response_error "server returned an unexpected response shape")
           end).
Definition send_empty (r : request) : IO unit := let! _ := send r in io_ret tt.

(** What every call on the server ends with. *)
Definition recording {A} (m : IO A) : IO A :=
  let! r := io_try m in
  match r with
  | Ok a => do! mark_online; io_ret a
  | Err e => do! record_error e SOffline; io_fail e
  end.

Definition start_pairing `{!Serde PairingSessionResponse} (device_name : string) : IO PairingSession :=
  let device_name := trim device_name in
  if is_empty device_name || negb (chars_count_ok device_name)
  then io_fail (validation_error "device name must contain between 1 and 120 characters")
  else
    let! base_url := require_server_url in
    do! set_connecting;
    let! r := io_try (let! response := send_json (mkHttpRequest "POST" (base_url +:+ "/v1/pairing-sessions") [] None None
                                (BFields [("deviceName", FText device_name); ("platform", FText "WINDOWS")])) in
                      io_lift (Validate.pairing_session response)) in
    match r with
    | Ok session => io_ret session
    | Err e => do! record_error e SUnconfigured; io_fail e
    end.

Definition poll_pairing `{!Serde PairingStatusResponse} (session_id desktop_nonce : string) : IO PairingStatus :=
  do! io_lift (Validate.opaque_value "pairing session id" session_id 200);
  do! io_lift (Validate.opaque_value "desktop nonce" desktop_nonce 512);
  let! base_url := require_server_url in
  let! r := io_try (send_json (mkHttpRequest "GET" (base_url +:+ "/v1/pairing-sessions/" +:+ session_id +:+ "/status")
                                 [("nonce", desktop_nonce)] None None BNone)) in
  match r with
  | Err e => do! record_error e SUnconfigured; io_fail e
  | Ok response =>
      if (pp_status response =? "PENDING")%string then
        do! set_connecting;
        io_ret (mkPairingStatus (pp_status response) None (pp_expires_at response))
      else if (pp_status response =? "CLAIMED")%string then
        let! device_id := io_lift (match pp_device_id response with
                                   | Some x => Ok x
                                   | None => Err (invalid_response_error "claimed pairing response omitted deviceId")
                                   end) in
        let! device_token := io_lift (match pp_device_token response with
                                      | Some x => Ok x
                                      | None => Err (invalid_response_error "claimed pairing response omitted deviceToken")
                                      end) in
        let credential := mkDeviceCredential base_url device_id device_token in
        let! saved := io_try (on_network (credentials_save credential)) in
        match saved with
        | Err e => do! record_error e SUnconfigured; io_fail e
        | Ok _ =>
            let! s := get_state in
            do! set_state (mkAgentState (ag_server_base_url s) (Some credential) SOffline None);
            io_ret (mkPairingStatus (pp_status response) (Some device_id) None)
        end
      else io_fail (invalid_response_error "pairing status must be PENDING or CLAIMED")
  end.

Definition heartbeat `{!Serde HeartbeatResponse} (presence : string) : IO HeartbeatResult :=
  if negb (one_of Validate.presences presence)
  then io_fail (validation_error "presence must be ONLINE_IDLE, ONLINE_SCANNING, ONLINE_EXECUTING, or DEGRADED")
  else
    let! config := require_authenticated_config in
    let '(base_url, credential) := config in
    recording (
      let! response := send_json (mkHttpRequest "POST" (base_url +:+ "/v1/devices/" +:+ dc_device_id credential +:+ "/heartbeat") []
                         (Some (dc_device_token credential)) None (BFields [("presence", FText presence)])) in
      io_lift (Validate.heartbeat_response (dc_device_id credential) response)).

Definition revoke_self (idempotency_key : string) : IO unit :=
  do! io_lift (Validate.opaque_value "device revoke idempotency key" idempotency_key 200);
  let! config := require_authenticated_config in
  let '(base_url, credential) := config in
  let! r := io_try (send_empty (mkHttpRequest "DELETE" (base_url +:+ "/v1/agent/devices/self") []
                                  (Some (dc_device_token credential)) (Some idempotency_key) BNone)) in
  match r with
  | Ok _ => io_ret tt
  | Err e => do! record_non_authoritative_error e SOffline; io_fail e
  end.

Definition forget_device : IO AgentConnectionStatus :=
  do! on_network credentials_delete;
  let! s := get_state in
  do! set_state (mkAgentState (ag_server_base_url s) None SUnconfigured
        (Some (unconfigured_error "server pairing is optional; local desktop features remain available")));
  let! s := get_state in
  io_ret (connection_status s).

(** ** The mutations the outbox delivers *)

Definition update_command_status `{!Serde (ServerCommand V)} (command_id status : string) : IO (AgentCommand V) :=
  do! io_lift (Validate.opaque_value "command id" command_id 200);
  if negb (one_of ["DELIVERED"; "ANALYZING"; "FAILED"] status)
  then io_fail (validation_error "command status must be DELIVERED, ANALYZING, or FAILED")
  else
    let! config := require_authenticated_config in
    let '(base_url, credential) := config in
    recording (
      let! response := send_json (mkHttpRequest "PATCH"
                         (base_url +:+ "/v1/devices/" +:+ dc_device_id credential +:+ "/commands/" +:+ command_id +:+ "/status") []
                         (Some (dc_device_token credential)) None (BFields [("status", FText status)])) in
      let! command := io_lift (Validate.server_command response) in
      if negb (ac_command_id command =? command_id)%string
      then io_fail (invalid_response_error "updated command response did not match the requested command id")
      else io_ret command).

Definition submit_proposal (idempotency_key : string) (proposal : AgentProposalSubmission V) : IO unit :=
  do! io_lift (Validate.opaque_value "proposal idempotency key" idempotency_key 200);
  if bool_decide (pb_items proposal = []) || (200 <? Z.of_nat (length (pb_items proposal)))%Z
  then io_fail (validation_error "proposal submission must contain between 1 and 200 items")
  else
    let! config := require_authenticated_config in
    let '(base_url, credential) := config in
    recording (send_empty (mkHttpRequest "POST" (base_url +:+ "/v1/agent/proposals") [] (Some (dc_device_token credential))
                 (Some idempotency_key) (BProposal proposal))).

Definition complete_file_transfer_upload `{!Serde FileTransferResponse}
    (transfer_id idempotency_key : string) (size_bytes : Z) (sha256 : string) : IO AgentFileTransfer :=
  do! io_lift (Validate.opaque_value "file transfer id" transfer_id 200);
  do! io_lift (Validate.opaque_value "file transfer completion idempotency key" idempotency_key 128);
  if (size_bytes =? 0)%Z then io_fail (validation_error "completed file transfer sizeBytes must be positive")
  else
    do! io_lift (Validate.sha256 sha256);
    let! config := require_authenticated_config in
    let '(base_url, credential) := config in
    recording (
      let! response := send_json (mkHttpRequest "POST"
                         (base_url +:+ "/v1/agent/file-transfers/" +:+ transfer_id +:+ "/complete-upload") []
                         (Some (dc_device_token credential)) (Some idempotency_key)
                         (BFields [("sizeBytes", FInt size_bytes); ("sha256", FText sha256)])) in
      let! transfer := io_lift (Validate.file_transfer_response response) in
      io_lift (Validate.transfer_id_match transfer_id transfer)).

Definition submit_room_snapshot `{!Serde (RoomSnapshotResponse V)} (room_id : string) (snapshot : CleanlinessSnapshot)
  : IO (AgentRoomSnapshot V) :=
  do! io_lift (Validate.opaque_value "room id" room_id 200);
  do! io_lift (Validate.cleanliness_snapshot snapshot);
  let formula_version := cs_formula_version snapshot in
  let! config := require_authenticated_config in
  let '(base_url, credential) := config in
  recording (
    let! response := send_json (mkHttpRequest "POST" (base_url +:+ "/v1/rooms/" +:+ room_id +:+ "/snapshots") []
                       (Some (dc_device_token credential)) None (BSnapshot snapshot)) in
    io_lift (Validate.room_snapshot_response room_id formula_version response)).

Definition complete_smart_cache_upload `{!Serde CachedFileResponse}
    (reservation_id idempotency_key : string) (size_bytes : Z) (sha256 : string) (usage_score : Z) (manual_pin : bool)
    (encryption_metadata : SmartCacheEncryptionMetadata) : IO AgentCachedFile :=
  do! io_lift (Validate.opaque_value "smart cache reservation id" reservation_id 200);
  do! io_lift (Validate.opaque_value "smart cache completion idempotency key" idempotency_key 128);
  if (size_bytes =? 0)%Z then io_fail (validation_error "completed smart cache upload sizeBytes must be positive")
  else
    do! io_lift (Validate.sha256 sha256);
    do! io_lift (Validate.smart_cache_encryption_metadata encryption_metadata);
    let! config := require_authenticated_config in
    let '(base_url, credential) := config in
    recording (
      let! response := send_json (mkHttpRequest "POST"
                         (base_url +:+ "/v1/agent/cache-uploads/" +:+ reservation_id +:+ "/complete") []
                         (Some (dc_device_token credential)) (Some idempotency_key)
                         (BFields [("sizeBytes", FInt size_bytes); ("sha256", FText sha256); ("usageScore", FInt usage_score);
                                   ("manualPin", FBool manual_pin); ("encryptionMetadata", FMetadata encryption_metadata)])) in
      io_lift (Validate.cached_file_response response)).

Definition mark_smart_cache_stale `{!Serde SmartCacheStaleResponse}
    (idempotency_key room_id : string) (source_relative_path : option string) (reason : string) : IO AgentSmartCacheStaleResult :=
  do! io_lift (Validate.opaque_value "smart cache stale idempotency key" idempotency_key 128);
  do! io_lift (Validate.opaque_value "room id" room_id 200);
  do! io_lift (Validate.smart_cache_stale_reason reason);
  do! match source_relative_path with
      | Some path =>
          if one_of ["SOURCE_CHANGED"; "SOURCE_REMOVED"] reason
          then io_lift (Validate.relative_path "smart cache stale source path" path)
          else io_fail (validation_error "smart cache REINDEXED stale reports must not include sourceRelativePath")
      | None =>
          if (reason =? "REINDEXED")%string then io_ret tt
          else io_fail (validation_error "smart cache source changes must include sourceRelativePath")
      end;
  let! config := require_authenticated_config in
  let '(base_url, credential) := config in
  recording (
    let! response := send_json (mkHttpRequest "POST" (base_url +:+ "/v1/agent/cached-files/stale") []
                       (Some (dc_device_token credential)) (Some idempotency_key)
                       (BFields [("roomId", FText room_id); ("sourceRelativePath", FOptText source_relative_path);
                                 ("reason", FText reason)])) in
    io_lift (Validate.smart_cache_stale_response room_id source_relative_path reason response)).

Definition execution_statuses : list string := ["SUCCEEDED"; "PARTIALLY_SUCCEEDED"; "FAILED"; "STALE"; "ROLLED_BACK"].
Definition update_execution `{!Serde ExecutionResponse} (execution_id status : string) (result_summary : V) : IO AgentExecution :=
  do! io_lift (Validate.opaque_value "execution id" execution_id 200);
  if negb (one_of execution_statuses status)
  then io_fail (validation_error
         "execution status must be SUCCEEDED, PARTIALLY_SUCCEEDED, FAILED, STALE, or ROLLED_BACK")
  else if negb (value_is_object result_summary)
  then io_fail (validation_error "execution result summary must be a JSON object")
  else
    let! config := require_authenticated_config in
    let '(base_url, credential) := config in
    recording (
      let! response := send_json (mkHttpRequest "PATCH" (base_url +:+ "/v1/agent/executions/" +:+ execution_id) []
                         (Some (dc_device_token credential)) (Some execution_id)
                         (BFields [("status", FText status); ("resultSummary", FValue result_summary)])) in
      io_lift (Validate.execution_response response)).
End agent.
End Agent.
