(* ===== verification/network.v ===== *)
(** A network that keeps the requests made on it, and what the calls of the agent leave
    on it. *)
From Stdlib Require Import ZArith Lia Ascii.
From stdpp Require Import strings pretty gmap functions option list.
From S2P Require Import prelude rust_str agent.

Open Scope string_scope.
Open Scope list_scope.

(** Any network, with the requests in the order they were made. *)
Record taped (N V : Type) := mkTaped { tp_requests : list (HttpRequest V); tp_net : N }.
Arguments mkTaped {N V} _ _. Arguments tp_requests {N V} _. Arguments tp_net {N V} _.
#[export] Instance taped_http {N V} `{!Http N V} : Http (taped N V) V := {|
  http_send req t := let '(answer, n) := http_send req (tp_net t) in (answer, mkTaped (tp_requests t ++ [req]) n);
  http_status_text := http_status_text (N:=N) (V:=V) |}.
Definition on_tape {N V A} (m : N -> A * N) (t : taped N V) : A * taped N V :=
  let '(a, n) := m (tp_net t) in (a, mkTaped (tp_requests t) n).
#[export] Instance taped_keys {N V} `{!CredentialStore N} : CredentialStore (taped N V) := {|
  credentials_load := on_tape credentials_load;
  credentials_save c := on_tape (credentials_save c);
  credentials_delete := on_tape credentials_delete |}.

Section asks.
Context {N V : Type} `{!Http N V, !CredentialStore N, !JsonValue V, !Serde ServerErrorResponse}.
Abbreviation agent := (AgentState * taped N V)%type.
Implicit Types st : agent.

(** The server and the device stay the same, unless the device is forgotten. *)
Definition same_device (a a' : AgentState) : Prop :=
  ag_server_base_url a' = ag_server_base_url a /\ (ag_credential a' = ag_credential a \/ ag_credential a' = None).
#[export] Instance same_device_preorder : PreOrder same_device.
Proof.
  split; [intros a; split; [done|by left]|]. intros a b c [H1 H2] [H3 H4]. split; [congruence|].
  destruct H4 as [H4|H4]; [rewrite H4; exact H2|by right].
Qed.

(** The requests that were made, each one that [own] allows this device. *)
Definition asks (own : string -> DeviceCredential -> HttpRequest V -> Prop) st st' : Prop :=
  same_device st.1 st'.1 /\
  exists reqs, tp_requests st'.2 = tp_requests st.2 ++ reqs /\
    Forall (fun rq => exists base c, ag_server_base_url st.1 = Some base /\ ag_credential st.1 = Some c /\ own base c rq) reqs.
#[export] Instance asks_preorder own : PreOrder (asks own).
Proof.
  split; [intros st; split; [done|]; exists []; by rewrite app_nil_r|].
  intros s1 s2 s3 [H1 (r1 & H2 & H3)] [H4 (r2 & H5 & H6)]. split; [by etrans|]. exists (r1 ++ r2).
  split; [by rewrite H5, H2, app_assoc|]. apply Forall_app. split; [done|]. eapply Forall_impl; [exact H6|].
  intros rq (base & c & Hb & Hc & Ho). exists base, c. destruct H1 as [Hb1 [Hc1|Hc1]]; split_and!; congruence.
Qed.

Lemma record_error_asks own e s : io_rel (asks own) (Agent.record_error e s).
Proof.
  intros [a t] r st'. unfold Agent.record_error. destruct (is_confirmed_device_absent e).
  - unfold io_bind, io_try, Agent.on_network, Agent.get_state, io_gets, Agent.set_state. simpl. unfold on_tape.
    destruct (credentials_delete (tp_net t)) as [r0 n]. simpl. intros [= <- <-]. split; [split; [done|by right]|].
    exists []. simpl. by rewrite app_nil_r.
  - unfold Agent.record_non_authoritative_error, Agent.with_connection, io_bind, Agent.get_state, io_gets, Agent.set_state. simpl.
    intros [= <- <-]. split; [split; [done|by left]|]. exists []. by rewrite app_nil_r.
Qed.
Lemma mark_online_asks own : io_rel (asks own) (Agent.mark_online (N:=taped N V)).
Proof.
  intros [a t] r st'. unfold Agent.mark_online, Agent.with_connection, io_bind, Agent.get_state, io_gets, Agent.set_state. simpl.
  intros [= <- <-]. split; [split; [done|by left]|]. exists []. by rewrite app_nil_r.
Qed.
(** What a call of a state asks. *)
Definition asks_at own st {A} (m : io agent AgentError A) : Prop := forall r st', m st = (r, st') -> asks own st st'.
Lemma recording_at own st {A} (m : io agent AgentError A) : asks_at own st m -> asks_at own st (Agent.recording m).
Proof.
  intros Hm r st' H. unfold Agent.recording in H. apply io_bind_inv in H as [(x & st1 & H1 & H2)|(e & H1 & _)]; unfold io_try in H1;
    destruct (m st) as [r1 st1'] eqn:Hr; [|done]. injection H1 as <- <-. etrans; [by eapply Hm|].
  refine ((_ : io_rel (asks own) _) _ _ _ H2). destruct r1 as [a|e].
  - apply io_rel_bind; [apply _|apply mark_online_asks|]. intros _. apply io_rel_ret, _.
  - apply io_rel_bind; [apply _|apply record_error_asks|]. intros _. apply io_rel_fail, _.
Qed.
(** One request, made with the configuration of the state it is made in. *)
Lemma send_at own base c (rq : HttpRequest V) st :
  ag_server_base_url st.1 = Some base -> ag_credential st.1 = Some c -> own base c rq -> asks_at own st (Agent.send rq).
Proof.
  intros Hb Hc Ho r st'. unfold Agent.send. cbn [http_send taped_http]. destruct (http_send rq (tp_net st.2)) as [a n].
  intros [= _ <-]. split; [done|]. exists [rq]. split; [done|]. apply Forall_singleton. eauto.
Qed.
Lemma bind_at own st {A B} (m : io agent AgentError A) (k : A -> io agent AgentError B) :
  asks_at own st m -> (forall a, io_rel (asks own) (k a)) -> asks_at own st (io_bind m k).
Proof.
  intros Hm Hk r st' [(a & st1 & H1 & H2)|(e & H1 & _)]%io_bind_inv; [|by eapply Hm].
  etrans; [by eapply Hm|by eapply Hk].
Qed.
Lemma send_json_at own base c {T} `{!Serde T} (rq : HttpRequest V) st :
  ag_server_base_url st.1 = Some base -> ag_credential st.1 = Some c -> own base c rq -> asks_at own st (Agent.send_json (T:=T) rq).
Proof. intros Hb Hc Ho. unfold Agent.send_json. apply bind_at; [by eapply send_at|]. intros resp. apply io_rel_lift, _. Qed.
Lemma send_empty_at own base c (rq : HttpRequest V) st :
  ag_server_base_url st.1 = Some base -> ag_credential st.1 = Some c -> own base c rq -> asks_at own st (Agent.send_empty rq).
Proof. intros Hb Hc Ho. unfold Agent.send_empty. apply bind_at; [by eapply send_at|]. intros resp. apply io_rel_ret, _. Qed.

(** Every authenticated call: the configuration, then a call recorded with it. *)
Lemma authenticated_asks own {A} (k : string -> DeviceCredential -> io agent AgentError A) :
  (forall base c st, ag_server_base_url st.1 = Some base -> ag_credential st.1 = Some c -> asks_at own st (k base c)) ->
  io_rel (asks own) (let! config := Agent.require_authenticated_config in let '(base, c) := config in Agent.recording (k base c)).
Proof.
  intros Hk st r st' H. apply io_bind_inv in H as [([base c] & st1 & H1 & H2)|(e & H1 & _)];
    unfold Agent.require_authenticated_config, Agent.get_state, io_bind, io_gets, io_lift in H1.
  2: { injection H1 as _ <-. reflexivity. }
  destruct (ag_server_base_url st.1) as [base1|] eqn:Hb; [|done]. destruct (ag_credential st.1) as [c1|] eqn:Hc; [|done].
  injection H1 as -> -> <-. exact (recording_at own st (k base c) (Hk base c st Hb Hc) r st' H2).
Qed.

(** A recorded call that succeeds is its request and what the answer is read as. *)
Lemma recording_ok {A} (m : io agent AgentError A) st a st' :
  Agent.recording m st = (Ok a, st') -> exists st1, m st = (Ok a, st1) /\ st'.2 = st1.2.
Proof.
  intros H. unfold Agent.recording in H. apply io_bind_ok in H as (x & st1 & H1 & H2). unfold io_try in H1.
  destruct (m st) as [r1 st1'] eqn:Hr. injection H1 as <- <-. destruct r1 as [b|e].
  - apply io_bind_ok in H2 as (u & st2 & H2 & [= <- <-]). exists st1'. split; [done|].
    unfold Agent.mark_online, Agent.with_connection, Agent.get_state, Agent.set_state, io_bind, io_gets in H2. by injection H2 as _ <-.
  - by apply io_bind_ok in H2 as (u & st2 & _ & [=]).
Qed.
Lemma send_tape (rq : HttpRequest V) st r st' :
  Agent.send rq st = (r, st') -> tp_requests st'.2 = tp_requests st.2 ++ [rq].
Proof. unfold Agent.send. cbn [http_send taped_http]. destruct (http_send rq _) as [a n]. by intros [= _ <-]. Qed.
Lemma authenticated_ok {A} (k : string * DeviceCredential -> io agent AgentError A) st a st' :
  (let! config := Agent.require_authenticated_config in k config) st = (Ok a, st') ->
  exists base c, ag_server_base_url st.1 = Some base /\ ag_credential st.1 = Some c /\ k (base, c) st = (Ok a, st').
Proof.
  intros (config & st1 & H1 & H2)%io_bind_ok. unfold Agent.require_authenticated_config, Agent.get_state, io_bind, io_gets, io_lift in H1.
  destruct (ag_server_base_url st.1) as [base|]; [|done]. destruct (ag_credential st.1) as [c|]; [|done].
  injection H1 as <- <-. eauto.
Qed.
End asks.

(** Proves [io_rel (asks own)] of a call of the agent, down to what [own] allows. *)
Ltac asks_go :=
  repeat first
    [ progress intros
    | apply authenticated_asks
    | eapply send_json_at; [eassumption|eassumption|]
    | eapply send_empty_at; [eassumption|eassumption|]
    | apply bind_at
    | io_rel_step ].
