(* ===== verification/agent_work.v ===== *)
(** JSON values, and the calls of the agent that the processors of commands and decisions make. *)
From Stdlib Require Import ZArith Lia Ascii.
From stdpp Require Import strings pretty gmap functions option list.
From S2P Require Import prelude rust_str desk cleanliness agent.

Open Scope string_scope.
Open Scope list_scope.


(** * [serde_json::Value] as the processors use it: building an object with [json!],
    reading a field of it, and reading numbers and texts.

    [serde_json] is third-party: a type of values is any [V] with these operations, and
    [JsonLaws] states the documented behaviour that is relied on. *)

Class Json (V : Type) := {
  json_text : string -> V;
  json_int : Z -> V;                              (** of an integer type *)
  json_null : V;
  json_object : list (string * V) -> V;           (** [json!({...})] *)
  json_set : string -> V -> V -> V;               (** [object[key] = value] *)
  json_remove : string -> V -> V;                 (** [Map::remove], on an object *)
  json_get : string -> V -> option V;             (** [Value::get] *)
  json_as_u64 : V -> option Z;
  json_as_str : V -> option string;
  json_is_empty : V -> bool;                      (** [as_object().is_some_and(Map::is_empty)] *)
}.
(** [serde_json::from_value] and [to_value], with serde's message. *)
Class FromValue (V T : Type) := from_value : V -> result T string.
Class ToValue (V T : Type) := to_value : T -> result V string.

(** The first binding of a key. *)
Fixpoint field {V} (key : string) (l : list (string * V)) : option V :=
  match l with [] => None | (k, v) :: l => if (k =? key)%string then Some v else field key l end.

Class JsonLaws (V : Type) `{!Json V} := {
  json_get_object key l : NoDup (map fst l) -> json_get key (json_object l) = field key l;
  json_get_set key k v l :
    json_get key (json_set k v (json_object l)) = if (k =? key)%string then Some v else json_get key (json_object l);
  json_get_remove key k l :
    json_get key (json_remove k (json_object l)) = if (k =? key)%string then None else json_get key (json_object l);
  json_as_u64_int z : (0 <= z < 2 ^ 64)%Z -> json_as_u64 (json_int z) = Some z;
  json_as_u64_null : json_as_u64 json_null = None;
  json_as_str_text s : json_as_str (json_text s) = Some s;
}.

(** Objects and the removal of a key, also of a key that [json_set] did not set. *)
Class JsonObjects (V : Type) `{!Json V, !JsonValue V} := {
  json_object_is_object l : value_is_object (json_object l) = true;
  json_set_is_object k v l : value_is_object (json_set k v (json_object l)) = true;
  json_remove_object k l : json_remove k (json_object l) = json_object (List.filter (fun e => negb (e.1 =? k)%string) l);
  json_remove_set k j v l : k <> j -> json_remove k (json_set j v (json_object l)) = json_set j v (json_remove k (json_object l));
}.

(** [json!] of an [Option]. *)
Definition json_opt_int {V} `{!Json V} (o : option Z) : V := match o with Some z => json_int z | None => json_null end.

(** * Values in memory *)

Inductive value_tree :=
| TNull
| TInt (z : Z)
| TText (s : string)
| TObject (l : list (string * value_tree)).

Definition tree_set (k : string) (v t : value_tree) : value_tree :=
  match t with TObject l => TObject ((k, v) :: l) | _ => t end.
Definition tree_remove (k : string) (t : value_tree) : value_tree :=
  match t with TObject l => TObject (List.filter (fun e => negb (e.1 =? k)%string) l) | _ => t end.
#[export] Instance tree_json : Json value_tree := {
  json_text := TText; json_int := TInt; json_null := TNull; json_object := TObject;
  json_set := tree_set; json_remove := tree_remove;
  json_get key t := match t with TObject l => field key l | _ => None end;
  json_as_u64 t := match t with TInt z => if ((0 <=? z) && (z <? 2 ^ 64))%Z then Some z else None | _ => None end;
  json_as_str t := match t with TText s => Some s | _ => None end;
  json_is_empty t := match t with TObject [] => true | _ => false end;
}.
#[export] Instance tree_is_object : JsonValue value_tree := fun t => match t with TObject _ => true | _ => false end.

Lemma field_remove key k (l : list (string * value_tree)) :
  field key (List.filter (fun e => negb (e.1 =? k)%string) l) = if (k =? key)%string then None else field key l.
Proof.
  induction l as [|[j v] l IH]; simpl; [by destruct (k =? key)%string|].
  destruct (String.eqb_spec j k) as [->|Hj]; simpl; rewrite IH.
  - by destruct (String.eqb_spec k key).
  - destruct (String.eqb_spec j key) as [->|]; [|done]. by destruct (String.eqb_spec k key).
Qed.
#[export] Instance tree_json_laws : JsonLaws value_tree.
Proof.
  constructor; try done; simpl.
  - intros key k l. apply field_remove.
  - intros z Hz. by rewrite (proj2 (Z.leb_le _ _)), (proj2 (Z.ltb_lt _ _)) by lia.
Qed.
#[export] Instance tree_json_objects : JsonObjects value_tree.
Proof.
  constructor; try done. intros k j v l Hkj. simpl. apply not_eq_sym, String.eqb_neq in Hkj. by rewrite Hkj.
Qed.

(** * [apps/desktop/src-tauri/src/agent.rs]: what the processors ask the server for, the
    pending commands, the folder of a room, the approved decisions and the claim of an
    execution, with the validation of the answers. *)

(** * Data *)

Record AgentRoomSync := mkAgentRoomSync { ry_room_id : string; ry_root_id : string; ry_name : string; ry_created : bool }.
Record ServerRoom := mkServerRoom {
  sr_id : string; sr_desktop_device_id : string; sr_name : string; sr_root_alias : string; sr_status : string }.

Section data.
Context (V : Type).
Record AgentProposalItemRecord := mkAgentProposalItemRecord {
  ir_item_order : Z;   (** [i64] *)
  ir_action_type : string;
  ir_source_relative_path : option string;
  ir_destination_relative_path : option string;
  ir_reason_code : string;
  ir_precondition : V;
  ir_conflict_state : string;
}.
Record AgentPendingDecision := mkAgentPendingDecision {
  pd_decision_id : string; pd_proposal_id : string; pd_room_id : string; pd_items : list AgentProposalItemRecord }.
Record ProposalItemResponse := mkProposalItemResponse {
  pi_id : string;
  pi_proposal_id : string;
  pi_item_order : Z;   (** [i64] *)
  pi_action_type : string;
  pi_source_relative_path : option string;
  pi_destination_relative_path : option string;
  pi_reason_code : string;
  pi_precondition : V;
  pi_conflict_state : string;
}.
End data.
Arguments mkAgentProposalItemRecord {V} _ _ _ _ _ _ _. Arguments ir_item_order {V} _. Arguments ir_action_type {V} _.
Arguments ir_source_relative_path {V} _. Arguments ir_destination_relative_path {V} _. Arguments ir_reason_code {V} _.
Arguments ir_precondition {V} _. Arguments ir_conflict_state {V} _.
Arguments mkAgentPendingDecision {V} _ _ _ _. Arguments pd_decision_id {V} _. Arguments pd_proposal_id {V} _.
Arguments pd_room_id {V} _. Arguments pd_items {V} _.
Arguments mkProposalItemResponse {V} _ _ _ _ _ _ _ _ _. Arguments pi_id {V} _. Arguments pi_proposal_id {V} _.
Arguments pi_item_order {V} _. Arguments pi_action_type {V} _. Arguments pi_source_relative_path {V} _.
Arguments pi_destination_relative_path {V} _. Arguments pi_reason_code {V} _. Arguments pi_precondition {V} _.
Arguments pi_conflict_state {V} _.

Record DecisionResponse := mkDecisionResponse { dn_id : string; dn_proposal_id : string; dn_decision_type : string }.
Record ProposalResponse := mkProposalResponse { po_id : string; po_room_id : string }.
Record PendingDecisionResponse (V : Type) := mkPendingDecisionResponse {
  pe_decision : DecisionResponse; pe_proposal : ProposalResponse; pe_items : list (ProposalItemResponse V) }.
Arguments mkPendingDecisionResponse {V} _ _ _. Arguments pe_decision {V} _. Arguments pe_proposal {V} _. Arguments pe_items {V} _.

(** [impl Display for AgentError] *)
Definition fmt_error (e : AgentError) : string := code_str (ae_code e) +:+ ": " +:+ ae_message e.

(** * Validation *)

Module ValidateWork.
Definition server_room (expected_device_id : string) (room : ServerRoom) : result ServerRoom AgentError :=
  if is_empty (sr_id room) || negb (sr_desktop_device_id room =? expected_device_id)%string
     || is_empty (trim (sr_name room)) || (120 <? chars_count (sr_name room))%Z
     || is_empty (trim (sr_root_alias room)) || (120 <? chars_count (sr_root_alias room))%Z
     || negb (sr_status room =? "ACTIVE")%string
  then Err (invalid_response_error "room failed response validation") else Ok room.
Definition server_rooms (expected_device_id : string) (rooms : list ServerRoom) : result (list ServerRoom) AgentError :=
  try_map (server_room expected_device_id)
    (List.filter (fun room => sr_desktop_device_id room =? expected_device_id)%string rooms).

Section value.
Context {V : Type}.
Definition proposal_item (expected_proposal_id : string) (item : ProposalItemResponse V)
  : result (AgentProposalItemRecord V) AgentError :=
  if is_empty (pi_id item) || negb (pi_proposal_id item =? expected_proposal_id)%string || is_empty (pi_reason_code item)
     || negb (one_of ["MOVE"; "QUARANTINE"; "CREATE_DIR"; "CREATE_FILE"; "README_WRITE"] (pi_action_type item))
     || negb (one_of ["NONE"; "NAME_CONFLICT"; "UNSUPPORTED"] (pi_conflict_state item))
  then Err (invalid_response_error "proposal item failed response validation")
  else Ok (mkAgentProposalItemRecord (pi_item_order item) (pi_action_type item) (pi_source_relative_path item)
             (pi_destination_relative_path item) (pi_reason_code item) (pi_precondition item) (pi_conflict_state item)).
Definition pending_decision (r : PendingDecisionResponse V) : result (AgentPendingDecision V) AgentError :=
  let decision := pe_decision r in
  let proposal := pe_proposal r in
  if is_empty (dn_id decision) || negb (dn_proposal_id decision =? po_id proposal)%string
     || negb (dn_decision_type decision =? "APPROVE")%string || is_empty (po_id proposal) || is_empty (po_room_id proposal)
     || match pe_items r with [] => true | _ => false end
  then Err (invalid_response_error "pending decision failed response validation")
  else
    let? items := try_map (proposal_item (po_id proposal)) (pe_items r) in
    Ok (mkAgentPendingDecision (dn_id decision) (po_id proposal) (po_room_id proposal) items).
Definition pending_decisions (responses : list (PendingDecisionResponse V)) : result (list (AgentPendingDecision V)) AgentError :=
  try_map pending_decision responses.
End value.
End ValidateWork.

(** * Requests *)

(** The codecs of the lists the server answers with. *)
Class WorkCodecs (V : Type) := {
  codec_commands :: Serde (list (ServerCommand V));
  codec_rooms :: Serde (list ServerRoom);
  codec_decisions :: Serde (list (PendingDecisionResponse V));
}.

Module AgentWork.
Section agent.
Context {N V : Type} `{!Http N V, !CredentialStore N, !JsonValue V, !Serde ServerErrorResponse, !WorkCodecs V}.
Abbreviation IO := (io (AgentState * N) AgentError).

Definition poll_commands : IO (list (AgentCommand V)) :=
  let! config := Agent.require_authenticated_config in
  let '(base_url, credential) := config in
  Agent.recording (
    let! commands := Agent.send_json (V:=V) (mkHttpRequest "GET" (base_url +:+ "/v1/devices/" +:+ dc_device_id credential +:+ "/commands/pending")
                       [] (Some (dc_device_token credential)) None BNone) in
    io_lift (try_map Validate.server_command commands)).

Definition root_id_for_room (room_id : string) : IO AgentRoomSync :=
  do! io_lift (Validate.opaque_value "room id" room_id 200);
  let! config := Agent.require_authenticated_config in
  let '(base_url, credential) := config in
  Agent.recording (
    let! rooms := Agent.send_json (V:=V) (mkHttpRequest "GET" (base_url +:+ "/v1/rooms") [] (Some (dc_device_token credential)) None BNone) in
    let! rooms := io_lift (ValidateWork.server_rooms (dc_device_id credential) rooms) in
    match find (fun room => sr_id room =? room_id)%string rooms with
    | Some room => io_ret (mkAgentRoomSync (sr_id room) (sr_root_alias room) (sr_name room) false)
    | None => io_fail (invalid_response_error "command room is not registered for this device")
    end).

Definition pending_decisions : IO (list (AgentPendingDecision V)) :=
  let! config := Agent.require_authenticated_config in
  let '(base_url, credential) := config in
  Agent.recording (
    let! responses := Agent.send_json (V:=V) (mkHttpRequest "GET" (base_url +:+ "/v1/devices/" +:+ dc_device_id credential +:+ "/decisions/pending")
                        [] (Some (dc_device_token credential)) None BNone) in
    io_lift (ValidateWork.pending_decisions responses)).

Definition create_execution `{!Serde ExecutionResponse} (proposal_id decision_id : string) : IO AgentExecution :=
  do! io_lift (Validate.opaque_value "proposal id" proposal_id 200);
  do! io_lift (Validate.opaque_value "decision id" decision_id 200);
  let! config := Agent.require_authenticated_config in
  let '(base_url, credential) := config in
  Agent.recording (
    let! response := Agent.send_json (V:=V) (mkHttpRequest "POST" (base_url +:+ "/v1/agent/executions") []
                       (Some (dc_device_token credential)) (Some decision_id)
                       (BFields [("proposalId", FText proposal_id); ("decisionId", FText decision_id);
                                 ("desktopDeviceId", FText (dc_device_id credential))])) in
    io_lift (Validate.execution_response response)).
End agent.
End AgentWork.
