(* ===== verification/office.v ===== *)
(** The state the processors of the desktop share: the agent with its network, the
    registry of folders and the machine, and the parts of it each component runs on. *)
From Stdlib Require Import ZArith Lia Ascii.
From stdpp Require Import strings pretty gmap functions option list.
From S2P Require Import prelude rust_str std_path std_fs fs_facts db index_sql tables desk managed_roots agent agent_work.

Open Scope string_scope.
Open Scope list_scope.

Abbreviation office N DB := ((AgentState * N) * (RootStore * world DB))%type.
(** The machine of an office. *)
Definition machine_of {N DB} (st : office N DB) : world DB := st.2.2.

Section office.
Context {N DB : Type}.
Abbreviation IO := (io (office N DB) string).

(** [agent.method(...).await.map_err(|error| error.to_string())] *)
Definition on_agent {A} (m : io (AgentState * N) AgentError A) : IO A :=
  zoom fst (fun a st => (a, st.2)) (io_map_err fmt_error m).
Definition on_roots {A} (m : io (RootStore * world DB) string A) : IO A := zoom snd (fun s st => (st.1, s)) m.
Definition on_machine {A} (m : io (world DB) string A) : IO A := on_roots (on_world m).

(** ** What the parts keep *)

Lemma on_agent_run {A} (m : io (AgentState * N) AgentError A) (st : office N DB) r st' :
  on_agent m st = (r, st') -> exists r0 a, m st.1 = (r0, a) /\ r = map_err fmt_error r0 /\ st' = (a, st.2).
Proof. intros (a & (r0 & H & ->)%io_map_err_inv & ->)%zoom_run. by exists r0, a. Qed.
Lemma on_roots_run {A} (m : io (RootStore * world DB) string A) (st : office N DB) r st' :
  on_roots m st = (r, st') -> exists s, m st.2 = (r, s) /\ st' = (st.1, s).
Proof. intros (s & H & ->)%zoom_run. by exists s. Qed.
Lemma on_machine_run {A} (m : io (world DB) string A) (st : office N DB) r st' :
  on_machine m st = (r, st') -> exists w, m (machine_of st) = (r, w) /\ st' = (st.1, (st.2.1, w)).
Proof.
  intros (s & H & ->)%on_roots_run. destruct st as [a [s0 w0]]. apply on_world_run in H as (w & H & ->). by exists w.
Qed.

(** A relation between machines, of offices. *)
Definition machines (R : world DB -> world DB -> Prop) (st st' : office N DB) : Prop := R (machine_of st) (machine_of st').
#[export] Instance machines_preorder R `{!PreOrder R} : PreOrder (machines R).
Proof. split; [intros st; unfold machines; reflexivity|intros st1 st2 st3 H1 H2; unfold machines in *; by etrans]. Qed.
Lemma on_agent_machines R `{!PreOrder R} {A} (m : io (AgentState * N) AgentError A) : io_rel (machines R) (on_agent m).
Proof. intros st r st' (r0 & a & _ & _ & ->)%on_agent_run. unfold machines, machine_of. simpl. reflexivity. Qed.
Lemma on_machine_machines R {A} (m : io (world DB) string A) : io_rel R m -> io_rel (machines R) (on_machine m).
Proof. intros Hm st r st' (w & H & ->)%on_machine_run. by apply (Hm _ _ _ H). Qed.
Lemma on_roots_machines R {A} (m : io (RootStore * world DB) string A) :
  io_rel (fun s s' => R s.2 s'.2) m -> io_rel (machines R) (on_roots m).
Proof. intros Hm st r st' (s & H & ->)%on_roots_run. by apply (Hm _ _ _ H). Qed.

(** A relation of machines that the clock and the upsert of a root keep is kept by the
    lookup of a folder, which may bind it to its room. *)
Section ensure.
Context `{!SqlDb DB} (R : world DB -> world DB -> Prop) `{!PreOrder R}.
Hypothesis R_quiet : forall w w', quiet w w' -> R w w'.
Hypothesis R_upsert : forall pool binds, io_rel R (Db.execute pool RootSql.upsert binds).

Let on_worlds (s s' : RootStore * world DB) : Prop := R s.2 s'.2.
Let on_worlds_preorder : PreOrder on_worlds.
Proof. split; [intros st; unfold on_worlds; reflexivity|intros s1 s2 s3 H1 H2; unfold on_worlds in *; by etrans]. Qed.
Local Existing Instance on_worlds_preorder.
Lemma persist_worlds root : io_rel on_worlds (ManagedRoots.persist root).
Proof.
  unfold ManagedRoots.persist. apply io_rel_bind; [apply _|apply io_rel_gets, _|]. intros s.
  destruct (ms_pool s); [|apply io_rel_ret, _].
  intros [s1 w] r st' (w' & (r0 & H & _)%io_map_err_inv & ->)%on_world_run. by apply R_upsert in H.
Qed.
Lemma edit_root_worlds id f : io_rel on_worlds (ManagedRoots.edit_root (DB:=DB) id f).
Proof.
  unfold ManagedRoots.edit_root. apply io_rel_bind; [apply _|apply io_rel_gets, _|]. intros s.
  destruct (ms_roots s !! id); [|apply io_rel_fail, _].
  apply io_rel_bind; [apply _| |].
  { intros [s1 w] r0 st' (w' & H & ->)%on_world_run. unfold ManagedRoots.unix_ms in H.
    apply io_bind_inv in H as [(ms & w1 & H1 & H2)|(e & H1 & ->)]; [injection H2 as <- <-|]; (eapply (proj1 (clock_quiet R R_quiet)); exact H1). }
  intros now. apply io_rel_bind; [apply _| |intros _; apply io_rel_ret, _].
  intros st r0 st' [= <- <-]. unfold on_worlds. simpl. reflexivity.
Qed.
Lemma ensure_worlds id room : io_rel on_worlds (ManagedRoots.ensure_active_room_binding (DB:=DB) id room).
Proof.
  unfold ManagedRoots.ensure_active_room_binding. apply io_rel_bind; [apply _| |].
  { unfold ManagedRoots.get. apply io_rel_bind; [apply _|apply io_rel_gets, _|]. intros s. io_rel_go. }
  intros root. destruct (mr_room_binding_status root), (mr_room_id root); io_rel_go.
  unfold ManagedRoots.bind_room. io_rel_go; [apply io_rel_gets, _|apply edit_root_worlds|apply persist_worlds].
Qed.
End ensure.
End office.
