(* ===== verification/outbox_processor.v ===== *)
(** [apps/desktop/src-tauri/src/outbox_processor.rs]: the mutations that are queued for
    the server, and the loop that delivers them. *)
From Stdlib Require Import ZArith Lia Ascii.
From stdpp Require Import strings pretty gmap functions option list.
From S2P Require Import prelude rust_str std_path std_fs fs_facts db index_sql tables outbox cleanliness agent.

Open Scope string_scope.
Open Scope list_scope.

Definition OUTBOX_FLUSH_BATCH : Z := 50.
Definition KIND_EXECUTION_RESULT : string := "execution_result".
Definition KIND_PROPOSAL : string := "proposal".
Definition KIND_COMMAND_STATUS : string := "command_status".
Definition KIND_FILE_TRANSFER_COMPLETION : string := "file_transfer_completion".
Definition KIND_SMART_CACHE_COMPLETION : string := "smart_cache_completion".
Definition KIND_SMART_CACHE_STALE_PREFIX : string := "smart_cache_stale:".
Definition KIND_ROOM_SNAPSHOT_PREFIX : string := "room_snapshot:".

Record OutboxFlushReport := mkOutboxFlushReport {
  fl_inspected_count : Z;
  fl_sent_count : Z;
  fl_retried_count : Z;
  fl_failed_count : Z;
}.
Record ExecutionResultPayload (V : Type) := mkExecutionResultPayload {
  xp_execution_id : string; xp_status : string; xp_result_summary : V }.
Arguments mkExecutionResultPayload {V} _ _ _. Arguments xp_execution_id {V} _. Arguments xp_status {V} _.
Arguments xp_result_summary {V} _.
Record CommandStatusPayload := mkCommandStatusPayload { cp_command_id : string; cp_status : string }.
Record FileTransferCompletionPayload := mkFileTransferCompletionPayload {
  tp_transfer_id : string; tp_size_bytes : Z; tp_sha256 : string }.
Record SmartCacheCompletionPayload := mkSmartCacheCompletionPayload {
  sp_reservation_id : string; sp_size_bytes : Z; sp_sha256 : string; sp_usage_score : Z; sp_manual_pin : bool;
  sp_encryption_metadata : SmartCacheEncryptionMetadata }.
Record SmartCacheStalePayload := mkSmartCacheStalePayload {
  lp_room_id : string; lp_source_relative_path : option string; lp_reason : string }.
Record RoomSnapshotPayload := mkRoomSnapshotPayload { np_room_id : string; np_snapshot : CleanlinessSnapshot }.
Inductive DispatchError := Transient (code : string) | Terminal (code : string).

(** The codecs of the payloads, and the digest of [sha2], in hexadecimal digits. *)
Class PayloadCodecs (V : Type) := {
  codec_execution :: Serde (ExecutionResultPayload V);
  codec_proposal :: Serde (AgentProposalSubmission V);
  codec_command :: Serde CommandStatusPayload;
  codec_transfer :: Serde FileTransferCompletionPayload;
  codec_cache :: Serde SmartCacheCompletionPayload;
  codec_stale :: Serde SmartCacheStalePayload;
  codec_snapshot :: Serde RoomSnapshotPayload;
}.
Class ResponseCodecs (V : Type) := {
  codec_server_error :: Serde ServerErrorResponse;
  codec_server_command :: Serde (ServerCommand V);
  codec_file_transfer :: Serde FileTransferResponse;
  codec_cached_file :: Serde CachedFileResponse;
  codec_stale_result :: Serde SmartCacheStaleResponse;
  codec_room_snapshot :: Serde (RoomSnapshotResponse V);
  codec_execution_result :: Serde ExecutionResponse;
}.
Class Sha256 := sha256_hex : string -> string.

Module OutboxProcessor.
Definition file_transfer_completion_key (transfer_id : string) : string := transfer_id +:+ "-complete".
Definition smart_cache_completion_key (reservation_id : string) : string := reservation_id +:+ "-complete".

Definition invalid_source : string := "smart cache stale source path is invalid".
Definition validate_stale_source_path (path : string) : result unit string :=
  if is_empty path || (1024 <? slen path)%Z || contains_char "000" path || starts_with_separator path
     || contains path "//" || contains path "\\"
  then Err invalid_source
  else if existsb (fun segment => is_empty segment || is_dot segment || is_dotdot segment) (split_on is_separator path)
  then Err invalid_source else Ok tt.

Section queue.
Context {DB V : Type} `{!SqlDb DB, !SqlTx DB, !SqlCount DB, !PayloadCodecs V}.
Abbreviation IO := (io (world DB) string).

Definition enqueue_execution_result (outbox : OutboxStore) (execution_id status : string) (result_summary : V) : IO unit :=
  Outbox.enqueue outbox KIND_EXECUTION_RESULT execution_id
    (to_text (mkExecutionResultPayload execution_id status result_summary)).
Definition enqueue_proposal (outbox : OutboxStore) (submission : AgentProposalSubmission V) : IO unit :=
  Outbox.enqueue outbox KIND_PROPOSAL (pb_command_id submission) (to_text submission).
Definition enqueue_command_status (outbox : OutboxStore) (command_id status : string) : IO unit :=
  Outbox.enqueue outbox KIND_COMMAND_STATUS (command_id +:+ ":" +:+ status) (to_text (mkCommandStatusPayload command_id status)).
Definition enqueue_file_transfer_completion (outbox : OutboxStore) (transfer_id : string) (size_bytes : Z) (sha256 : string) : IO unit :=
  Outbox.enqueue outbox KIND_FILE_TRANSFER_COMPLETION (file_transfer_completion_key transfer_id)
    (to_text (mkFileTransferCompletionPayload transfer_id size_bytes sha256)).
Definition enqueue_smart_cache_completion (outbox : OutboxStore) (reservation_id : string) (size_bytes : Z) (sha256 : string)
    (usage_score : Z) (manual_pin : bool) (encryption_metadata : SmartCacheEncryptionMetadata) : IO unit :=
  Outbox.enqueue outbox KIND_SMART_CACHE_COMPLETION (smart_cache_completion_key reservation_id)
    (to_text (mkSmartCacheCompletionPayload reservation_id size_bytes sha256 usage_score manual_pin encryption_metadata)).

Definition unix_nanos : IO Z := now_nanos.
Definition enqueue_smart_cache_stale `{!Sha256} (outbox : OutboxStore) (room_id : string) (source_relative_path : option string)
    (reason : string) : IO bool :=
  if is_empty (trim room_id) then io_fail "smart cache stale room id is required"
  else
    do! match source_relative_path with
        | Some path =>
            if one_of ["SOURCE_CHANGED"; "SOURCE_REMOVED"] reason then io_lift (validate_stale_source_path path)
            else if (reason =? "REINDEXED")%string
            then io_fail "smart cache REINDEXED reports must not include a source path"
            else io_fail "smart cache stale reason is invalid"
        | None =>
            if (reason =? "REINDEXED")%string then io_ret tt
            else if one_of ["SOURCE_CHANGED"; "SOURCE_REMOVED"] reason
            then io_fail "smart cache stale source path is required"
            else io_fail "smart cache stale reason is invalid"
        end;
    let payload_json := to_text (mkSmartCacheStalePayload room_id source_relative_path reason) in
    let path_scope := default "*" source_relative_path in
    let kind := KIND_SMART_CACHE_STALE_PREFIX +:+ sha256_hex (room_id +:+ String "000" path_scope) in
    let! nanos := unix_nanos in
    Outbox.enqueue_replacing_pending outbox kind (fmt_pad 39 nanos +:+ "-" +:+ reason) payload_json.

Definition enqueue_room_snapshot (outbox : OutboxStore) (room_id : string) (snapshot : CleanlinessSnapshot) : IO bool :=
  Outbox.enqueue_replacing_pending outbox (KIND_ROOM_SNAPSHOT_PREFIX +:+ room_id)
    (room_id +:+ "-" +:+ cs_calculated_at snapshot) (to_text (mkRoomSnapshotPayload room_id snapshot)).
End queue.

(** ** Delivery *)

Definition classify (e : AgentError) : DispatchError :=
  let code := code_str (ae_code e) in if is_transient e then Transient code else Terminal code.
Definition decode {T} `{!Serde T} (payload_json : string) : result T DispatchError :=
  match from_text payload_json with Some p => Ok p | None => Err (Terminal "CORRUPT_PAYLOAD") end.

Section deliver.
Context {DB N V : Type} `{!SqlDb DB, !SqlTx DB, !SqlCount DB, !Http N V, !CredentialStore N, !JsonValue V}.
Context `{!PayloadCodecs V, !ResponseCodecs V}.
Abbreviation agent_io := (io (AgentState * N) DispatchError).

(** [.await.map(|_| ()).map_err(classify)] *)
Definition delivering {A} (m : io (AgentState * N) AgentError A) : agent_io unit :=
  io_map_err classify (let! _ := m in io_ret tt).

Definition dispatch (item : OutboxItem) : agent_io unit :=
  if starts_with (oi_kind item) KIND_ROOM_SNAPSHOT_PREFIX then
    let! payload := io_lift (decode (T:=RoomSnapshotPayload) (oi_payload_json item)) in
    if negb (oi_kind item =? KIND_ROOM_SNAPSHOT_PREFIX +:+ np_room_id payload)%string
    then io_fail (Terminal "CORRUPT_PAYLOAD")
    else delivering (Agent.submit_room_snapshot (np_room_id payload) (np_snapshot payload))
  else if starts_with (oi_kind item) KIND_SMART_CACHE_STALE_PREFIX then
    let! payload := io_lift (decode (T:=SmartCacheStalePayload) (oi_payload_json item)) in
    delivering (Agent.mark_smart_cache_stale (oi_idempotency_key item) (lp_room_id payload)
                  (lp_source_relative_path payload) (lp_reason payload))
  else if (oi_kind item =? KIND_EXECUTION_RESULT)%string then
    let! payload := io_lift (decode (T:=ExecutionResultPayload V) (oi_payload_json item)) in
    delivering (Agent.update_execution (xp_execution_id payload) (xp_status payload) (xp_result_summary payload))
  else if (oi_kind item =? KIND_PROPOSAL)%string then
    let! submission := io_lift (decode (T:=AgentProposalSubmission V) (oi_payload_json item)) in
    delivering (Agent.submit_proposal (oi_idempotency_key item) submission)
  else if (oi_kind item =? KIND_COMMAND_STATUS)%string then
    let! payload := io_lift (decode (T:=CommandStatusPayload) (oi_payload_json item)) in
    delivering (Agent.update_command_status (cp_command_id payload) (cp_status payload))
  else if (oi_kind item =? KIND_FILE_TRANSFER_COMPLETION)%string then
    let! payload := io_lift (decode (T:=FileTransferCompletionPayload) (oi_payload_json item)) in
    delivering (Agent.complete_file_transfer_upload (tp_transfer_id payload) (oi_idempotency_key item)
                  (tp_size_bytes payload) (tp_sha256 payload))
  else if (oi_kind item =? KIND_SMART_CACHE_COMPLETION)%string then
    let! payload := io_lift (decode (T:=SmartCacheCompletionPayload) (oi_payload_json item)) in
    delivering (Agent.complete_smart_cache_upload (sp_reservation_id payload) (oi_idempotency_key item)
                  (sp_size_bytes payload) (sp_sha256 payload) (sp_usage_score payload) (sp_manual_pin payload)
                  (sp_encryption_metadata payload))
  else io_fail (Terminal ("UNKNOWN_KIND:" +:+ oi_kind item)).

(** The agent, then the world. *)
Abbreviation IO := (io ((AgentState * N) * world DB) string).
Definition on_agent {E A} (m : io (AgentState * N) E A) : io ((AgentState * N) * world DB) E A :=
  fun st => let '(r, a) := m st.1 in (r, (a, st.2)).
Definition on_outbox {A} (m : io (world DB) string A) : IO A :=
  fun st => let '(r, w) := m st.2 in (r, (st.1, w)).

Definition count_sent (r : OutboxFlushReport) : OutboxFlushReport :=
  mkOutboxFlushReport (fl_inspected_count r) (fl_sent_count r + 1) (fl_retried_count r) (fl_failed_count r).
Definition count_retried (r : OutboxFlushReport) : OutboxFlushReport :=
  mkOutboxFlushReport (fl_inspected_count r) (fl_sent_count r) (fl_retried_count r + 1) (fl_failed_count r).
Definition count_failed (r : OutboxFlushReport) : OutboxFlushReport :=
  mkOutboxFlushReport (fl_inspected_count r) (fl_sent_count r) (fl_retried_count r) (fl_failed_count r + 1).
Definition deliver_item (outbox : OutboxStore) (report : OutboxFlushReport) (item : OutboxItem) : IO OutboxFlushReport :=
  let! r := io_try (on_agent (dispatch item)) in
  match r with
  | Ok _ => do! on_outbox (Outbox.mark_sent outbox (oi_id item)); io_ret (count_sent report)
  | Err (Transient code) => do! on_outbox (Outbox.mark_retry outbox (oi_id item) code); io_ret (count_retried report)
  | Err (Terminal code) => do! on_outbox (Outbox.mark_failed outbox (oi_id item) code); io_ret (count_failed report)
  end.
Definition flush_outbox (outbox : OutboxStore) : IO OutboxFlushReport :=
  let! items := on_outbox (Outbox.pending_batch outbox OUTBOX_FLUSH_BATCH) in
  io_for (fun _ report item => deliver_item outbox report item) 0
    (mkOutboxFlushReport (Z.of_nat (length items)) 0 0 0) items.
End deliver.
End OutboxProcessor.
