(* ===== verification/command_processor.v ===== *)
(** [apps/desktop/src-tauri/src/command_processor.rs]: turning the pending commands of
    the server into proposals that wait for an approval.

    [serde_json] is the classes of [json] and [CommandCodecs], its readers at the types
    of the payloads. *)
From Stdlib Require Import ZArith Lia Ascii.
From stdpp Require Import strings pretty gmap functions option list.
From S2P Require Import prelude rust_str rule_definition std_path std_fs fs_facts path_guard db.
From S2P Require Import proposal_types rule_engine analyzer proposal index_sql tables desk managed_roots.
From S2P Require Import outbox agent agent_work office outbox_processor.

Open Scope string_scope.
Open Scope list_scope.

(** * Data *)

Definition ANALYZE : string := "ANALYZE".
Definition RENAME : string := "RENAME".
Definition MOVE : string := "MOVE".
Definition TRASH : string := "TRASH".
Definition CREATE : string := "CREATE".
Definition FIND : string := "FIND".
Definition DOWNLOAD : string := "DOWNLOAD".
Definition UPLOAD : string := "UPLOAD".
Definition ORGANIZE : string := "ORGANIZE".
Definition ORGANIZE_FILES : string := "organize_files".
Definition ORGANIZE_ROOT : string := "ORGANIZE_ROOT".
Definition DEFAULT_MAX_PROPOSALS : Z := 50.
Definition USER_REQUESTED_RENAME_REASON : string := "USER_REQUESTED_RENAME".
Definition USER_REQUESTED_MOVE_REASON : string := "USER_REQUESTED_MOVE".
Definition USER_REQUESTED_TRASH_REASON : string := "USER_REQUESTED_TRASH".
Definition USER_REQUESTED_CREATE_DIR_REASON : string := "USER_REQUESTED_CREATE_DIR".
Definition USER_REQUESTED_CREATE_FILE_REASON : string := "USER_REQUESTED_CREATE_FILE".

Inductive CommandProcessingStatus := SubmittedProposal | NoProposal | CommandFailed | CommandSkipped.
Record CommandProcessingResult := mkCommandProcessingResult {
  cx_command_id : string;
  cx_command_type : string;
  cx_status : CommandProcessingStatus;
  cx_message : option string;
  cx_proposal_item_count : Z;
}.
Record CommandProcessingReport := mkCommandProcessingReport {
  cy_inspected_count : Z;
  cy_processed_count : Z;
  cy_submitted_proposal_count : Z;
  cy_failed_count : Z;
  cy_skipped_count : Z;
  cy_results : list CommandProcessingResult;
}.

Record OrganizeFilesPayload (V : Type) := mkOrganizeFilesPayload {
  og_root_id : option string;
  og_relative_path : option string;
  og_scope_relative_path : option string;
  og_max_proposals : option Z;   (** [usize] *)
  og_rule_mode : option string;
  og_user_intent : option string;
  og_rule_draft : option V;
}.
Arguments mkOrganizeFilesPayload {V} _ _ _ _ _ _ _. Arguments og_root_id {V} _. Arguments og_relative_path {V} _.
Arguments og_scope_relative_path {V} _. Arguments og_max_proposals {V} _. Arguments og_rule_mode {V} _.
Arguments og_user_intent {V} _. Arguments og_rule_draft {V} _.
Record RenameCommandPayload := mkRenameCommandPayload {
  rn_root_id : string; rn_source_relative_path : string; rn_new_name : string }.
Record MoveCommandPayload := mkMoveCommandPayload {
  mv_root_id : string; mv_source_relative_paths : list string; mv_destination_relative_directory : string }.
Record TrashCommandPayload := mkTrashCommandPayload { tr_root_id : string; tr_source_relative_paths : list string }.
Record CreateCommandPayload := mkCreateCommandPayload {
  cr_root_id : string; cr_kind : string; cr_relative_path : string; cr_content : option string }.

Class CommandCodecs (V : Type) := {
  codec_organize :: FromValue V (OrganizeFilesPayload V);
  codec_rename :: FromValue V RenameCommandPayload;
  codec_move :: FromValue V MoveCommandPayload;
  codec_trash :: FromValue V TrashCommandPayload;
  codec_create :: FromValue V CreateCommandPayload;
  codec_rule_set :: FromValue V RuleSet;
  codec_contract :: FromValue V Contract.ContractRuleDefinition;
  codec_rules_text : string -> result RuleSet string;
}.

(** [str::rsplit_once('/')] *)
Definition rsplit_once_slash (s : string) : option (string * string) :=
  match rev (split_slash s) with
  | name :: (_ :: _) as rest => Some (join "/" (rev (tail rest)), name)
  | _ => None
  end.
Definition to_ascii_uppercase_byte (c : ascii) : ascii :=
  if ((97 <=? byte_of c) && (byte_of c <=? 122))%Z then Ascii.ascii_of_nat (Z.to_nat (byte_of c) - 32) else c.
Definition to_ascii_uppercase (s : string) : string := smap to_ascii_uppercase_byte s.

(** * Validation *)

Module Remote.
Definition outside_root : string := "remote command path must stay inside the managed root".
Definition validate_remote_relative_path (path : string) : result unit string :=
  if is_empty (trim path) || contains_char "\" path || starts_with path "/" || starts_with path "\\"
     || contains_char ":" path || contains_char "000" path
     || existsb (fun part => is_empty part || is_dot part || is_dotdot part) (split_slash path)
  then Err outside_root else Ok tt.
Definition normalize_slashes (path : string) : string := join "/" (map component_str (components path)).
Definition normalize_remote_file_source (path : string) : result string string :=
  let? _ := validate_remote_relative_path path in Ok (normalize_slashes path).
Definition normalize_remote_relative_directory (path : string) : result string string :=
  let trimmed := trim_matches "/" (trim path) in
  if is_empty trimmed then Ok ""
  else let? _ := validate_remote_relative_path trimmed in Ok (normalize_slashes trimmed).
Definition normalize_remote_directory_target (path : string) : result string string :=
  let? normalized := normalize_remote_relative_directory path in
  if is_empty normalized then Err "CREATE_DIR target must not be the managed root" else Ok normalized.
Definition parent_relative_directory (path : string) : string :=
  match rsplit_once_slash path with Some (parent, _) => parent | None => "" end.
Definition reserved_names : list string :=
  ["CON"; "PRN"; "AUX"; "NUL"; "COM1"; "COM2"; "COM3"; "COM4"; "COM5"; "COM6"; "COM7"; "COM8"; "COM9";
   "LPT1"; "LPT2"; "LPT3"; "LPT4"; "LPT5"; "LPT6"; "LPT7"; "LPT8"; "LPT9"].
Definition validate_remote_file_name (name : string) : result string string :=
  let trimmed := trim name in
  let stem := to_ascii_uppercase (hd "" (split_on (Ascii.eqb ".") trimmed)) in
  if is_empty trimmed || is_dot trimmed || is_dotdot trimmed || contains_char "/" trimmed || contains_char "\" trimmed
     || contains_char "000" trimmed || ends_with trimmed "." || ends_with trimmed " " || one_of reserved_names stem
  then Err "remote rename newName is not a safe file name" else Ok trimmed.
Definition sibling_relative_path (source_relative_path new_name : string) : string :=
  match rsplit_once_slash (normalize_slashes source_relative_path) with
  | Some (parent, _) => parent +:+ "/" +:+ new_name
  | None => new_name
  end.
Definition validate_relative_scope (path : string) : result unit string :=
  if negb (is_empty path) then Err "organize_files.relativePath is not supported until scoped analysis is implemented"
  else if contains_char "\" path || starts_with path "/" || starts_with path "\\" || contains_char ":" path
          || existsb is_dotdot (split_slash path)
  then Err "organize_files.relativePath must stay inside the managed root" else Ok tt.
End Remote.

(** * Proposals for the commands of a user *)

Module Requested.
Section tree.
Context (f : tree).

Definition inspect_regular_source_file (guard : PathGuard) (source_relative_path intent : string) : result inode string :=
  let? source := map_err PathGuard.fmt (PathGuard.resolve_existing f guard source_relative_path) in
  let raw_source := path_join (root guard) source_relative_path in
  let? metadata := map_err (fun e => "cannot read source metadata " +:+ raw_source +:+ ": " +:+ io_error_str e)
                     (symlink_metadata f raw_source) in
  if is_link_or_reparse_point metadata then Err (intent +:+ " refuses symlinks, junctions, and reparse points")
  else if negb (is_file_inode metadata) then Err (intent +:+ " currently supports regular files only")
  else if negb (path_starts_with source (root guard)) then Err (intent +:+ " source escaped managed root")
  else Ok metadata.
Definition source_file_id_for_path (guard : PathGuard) (source_relative_path : string) : option string :=
  result_ok (PathGuard.resolve_existing f guard source_relative_path) ≫= file_id_for_path f.

Definition ensure_existing_directory_is_safe (guard : PathGuard) (relative_directory : string) : result unit string :=
  if is_empty relative_directory then Ok tt
  else
    let? resolved := map_err PathGuard.fmt (PathGuard.resolve_existing f guard relative_directory) in
    let? metadata := map_err (fun e => "cannot inspect destination parent: " +:+ io_error_str e)
                       (symlink_metadata f (path_join (root guard) relative_directory)) in
    if is_link_or_reparse_point metadata then Err "CREATE_DIR parent refuses symlinks, junctions, and reparse points"
    else if negb (is_dir_inode metadata) then Err "CREATE_DIR parent is not a directory"
    else if negb (path_starts_with resolved (root guard)) then Err "CREATE_DIR parent escaped managed root"
    else Ok tt.
Fixpoint destination_safe (guard : PathGuard) (current : string) (segments : list string) : result unit string :=
  match segments with
  | [] => Ok tt
  | segment :: segments =>
      let current := path_join current segment in
      if negb (path_exists f current) then destination_safe guard current segments
      else
        let? metadata := map_err (fun e => "cannot inspect destination directory: " +:+ io_error_str e) (symlink_metadata f current) in
        if is_link_or_reparse_point metadata then Err "MOVE destination refuses symlinks, junctions, and reparse points"
        else if negb (is_dir_inode metadata) then Err "MOVE destination path contains a non-directory entry"
        else
          let? resolved := map_err (fun e => "cannot canonicalize destination directory: " +:+ io_error_str e) (canonicalize f current) in
          if negb (path_starts_with resolved (root guard)) then Err "MOVE destination escaped managed root"
          else destination_safe guard current segments
  end.
Definition ensure_destination_directory_is_safe (guard : PathGuard) (relative_directory : string) : result unit string :=
  destination_safe guard (root guard) (List.filter (fun s => negb (is_empty s)) (split_slash relative_directory)).

Definition taken (target : string) : ProposalStatus := if path_exists f target then DestinationExists else Ready.
Definition build_single_move_proposal (guard : PathGuard) (source_relative_path destination_relative_path reason : string)
  : result Proposal string :=
  let? metadata := inspect_regular_source_file guard source_relative_path "MOVE" in
  Ok (mkProposal (ProposalId.proposal_id Move source_relative_path destination_relative_path)
        Move source_relative_path destination_relative_path None (inode_len metadata) (modified_unix_ms metadata)
        (source_file_id_for_path guard source_relative_path) reason
        (taken (path_join (root guard) destination_relative_path))).

Definition build_create_proposal_report (root_arg : string) (payload : CreateCommandPayload) : result ProposalReport string :=
  let? is_directory := if (cr_kind payload =? "DIRECTORY")%string then Ok true
                       else if (cr_kind payload =? "FILE")%string then Ok false
                       else Err "CREATE kind must be FILE or DIRECTORY" in
  if is_directory && match cr_content payload with Some _ => true | None => false end
  then Err "CREATE DIRECTORY must not include file content"
  else if negb is_directory && negb (is_empty (default "" (cr_content payload)))
  then Err "CREATE FILE currently supports empty files only"
  else
    let? relative_path := (if is_directory then Remote.normalize_remote_directory_target else Remote.normalize_remote_file_source)
                            (cr_relative_path payload) in
    let? guard := map_err PathGuard.fmt (PathGuard.new f root_arg) in
    let? _ := ensure_existing_directory_is_safe guard (Remote.parent_relative_directory relative_path) in
    let action := if is_directory then CreateDir else CreateFile in
    Ok (mkProposalReport (root guard)
          [mkProposal (ProposalId.proposal_id action "" relative_path) action "" relative_path None 0 None None
             (if is_directory then USER_REQUESTED_CREATE_DIR_REASON else USER_REQUESTED_CREATE_FILE_REASON)
             (taken (path_join (root guard) relative_path))]).

Definition too_many {A} (l : list A) : bool := match l with [] => true | _ => (200 <? Z.of_nat (length l))%Z end.
Definition trash_proposal (guard : PathGuard) (path : string) : result Proposal string :=
  let? source_relative_path := Remote.normalize_remote_file_source path in
  let? metadata := inspect_regular_source_file guard source_relative_path TRASH in
  Ok (mkProposal (ProposalId.proposal_id Trash source_relative_path ".mousekeeper_trash") Trash source_relative_path
        ".mousekeeper_trash" None (inode_len metadata) (modified_unix_ms metadata)
        (source_file_id_for_path guard source_relative_path) USER_REQUESTED_TRASH_REASON Ready).
Definition build_trash_proposal_report (root_arg : string) (payload : TrashCommandPayload) : result ProposalReport string :=
  if too_many (tr_source_relative_paths payload) then Err "TRASH sourceRelativePaths must contain 1 to 200 paths"
  else
    let? guard := map_err PathGuard.fmt (PathGuard.new f root_arg) in
    let? proposals := try_map (trash_proposal guard) (tr_source_relative_paths payload) in
    Ok (mkProposalReport (root guard) proposals).

Definition move_proposal (guard : PathGuard) (destination_directory path : string) : result Proposal string :=
  let? source_relative_path := Remote.normalize_remote_file_source path in
  let file_name := match rsplit_once_slash source_relative_path with Some (_, name) => name | None => source_relative_path end in
  let destination_relative_path :=
    if is_empty destination_directory then file_name else destination_directory +:+ "/" +:+ file_name in
  if (source_relative_path =? destination_relative_path)%string then Err "MOVE destination must differ from the source path"
  else build_single_move_proposal guard source_relative_path destination_relative_path USER_REQUESTED_MOVE_REASON.
Definition build_move_proposal_report (root_arg : string) (payload : MoveCommandPayload) : result ProposalReport string :=
  if too_many (mv_source_relative_paths payload) then Err "MOVE sourceRelativePaths must contain 1 to 200 paths"
  else
    let? destination_directory := Remote.normalize_remote_relative_directory (mv_destination_relative_directory payload) in
    let? guard := map_err PathGuard.fmt (PathGuard.new f root_arg) in
    let? _ := ensure_destination_directory_is_safe guard destination_directory in
    let? proposals := try_map (move_proposal guard destination_directory) (mv_source_relative_paths payload) in
    Ok (mkProposalReport (root guard) proposals).

Definition build_rename_proposal_report (root_arg : string) (payload : RenameCommandPayload) : result ProposalReport string :=
  let? source_relative_path := Remote.normalize_remote_file_source (rn_source_relative_path payload) in
  let? new_name := Remote.validate_remote_file_name (rn_new_name payload) in
  let destination_relative_path := Remote.sibling_relative_path source_relative_path new_name in
  if (source_relative_path =? destination_relative_path)%string
  then Err "rename newName must differ from the source file name"
  else
    let? guard := map_err PathGuard.fmt (PathGuard.new f root_arg) in
    let? proposal := build_single_move_proposal guard source_relative_path destination_relative_path USER_REQUESTED_RENAME_REASON in
    Ok (mkProposalReport (root guard) [proposal]).
End tree.
End Requested.

(** * Submissions *)

Module Submission.
Definition reason_code (proposal : Proposal) : string :=
  if one_of [USER_REQUESTED_RENAME_REASON; USER_REQUESTED_MOVE_REASON; USER_REQUESTED_TRASH_REASON;
             USER_REQUESTED_CREATE_DIR_REASON; USER_REQUESTED_CREATE_FILE_REASON] (p_reason proposal)
  then p_reason proposal
  else match p_action proposal with
       | Move => "RULE_MOVE_BY_EXTENSION"
       | Trash => "RULE_QUARANTINE"
       | CreateDir => "RULE_CREATE_DIR"
       | CreateFile => "CREATE_FILE"
       | ReadmeWrite => "README_WRITE"
       end.
Definition action_type (action : ProposalAction) : AgentProposalActionType :=
  match action with
  | Move => AMove | Trash => AQuarantine | CreateDir => ACreateDir | CreateFile => ACreateFile | ReadmeWrite => AReadmeWrite
  end.
Definition conflict_state (status : ProposalStatus) : AgentProposalConflictState :=
  match status with Ready => NoConflict | DestinationExists => NameConflict end.

Section value.
Context {V : Type} `{!Json V}.
Definition precondition_of (checked_at : Z) (proposal : Proposal) : V :=
  let precondition :=
    json_object [("proposalId", json_text (proposal_id_of proposal));
                 ("sourceSizeBytes", json_int (p_source_size_bytes proposal));
                 ("sourceModifiedUnixMs", json_opt_int (p_source_modified_unix_ms proposal));
                 ("checkedAtUnixMs", json_int checked_at)] in
  match p_source_file_id proposal with
  | Some id => json_set "sourceFileId" (json_text id) precondition
  | None => precondition
  end.
Definition proposal_item (checked_at : Z) (item_order : nat) (proposal : Proposal) : AgentProposalItem V :=
  mkAgentProposalItem (Z.of_nat item_order) (action_type (p_action proposal))
    (match p_action proposal with Move | Trash => Some (p_from proposal) | _ => None end)
    (match p_action proposal with
     | Move | CreateDir | CreateFile => Some (p_to proposal)
     | Trash => None
     | ReadmeWrite => Some "README.md"
     end)
    (reason_code proposal) (precondition_of checked_at proposal) (conflict_state (p_status proposal)).

Section world.
Context {DB : Type}.
Definition unix_ms : io (world DB) string Z := let! ms := now_ms in io_ret (Z.min (2 ^ 63 - 1) ms).
(** Every item is built at its own time. *)
Definition proposal_items (proposals : list Proposal) : io (world DB) string (list (AgentProposalItem V)) :=
  io_for (fun index items proposal => let! now := unix_ms in io_ret (items ++ [proposal_item now index proposal])) 0 [] proposals.
Definition build_agent_proposal_submission (command : AgentCommand V) (report : ProposalReport) (max_proposals : Z)
  : io (world DB) string (AgentProposalSubmission V) :=
  if negb ((1 <=? max_proposals) && (max_proposals <=? 200))%Z
  then io_fail "organize_files.maxProposals must be between 1 and 200"
  else
    let! items := proposal_items (take (Z.to_nat max_proposals) (pr_proposals report)) in
    io_ret (mkAgentProposalSubmission (ac_command_id command) (ac_room_id command)
              (mkAgentProposalSummary (Z.of_nat (length items)) None None) None items).
End world.
End value.
End Submission.

(** * Processing *)

Module CommandProcessor.
Section payload.
Context {V : Type} `{!JsonValue V, !Json V, !CommandCodecs V}.

Definition scope (payload : OrganizeFilesPayload V) : string :=
  match og_scope_relative_path payload with
  | Some scope => scope
  | None => default "" (og_relative_path payload)
  end.
Definition max_proposals (payload : OrganizeFilesPayload V) : Z := default DEFAULT_MAX_PROPOSALS (og_max_proposals payload).

Definition parse_with {T} `{!FromValue V T} (name : string) (command : AgentCommand V) : result T string :=
  map_err (fun e => "invalid " +:+ name +:+ " payload: " +:+ e) (from_value (ac_payload command)).
Definition parse_rename_payload : AgentCommand V -> result RenameCommandPayload string := parse_with "rename".
Definition parse_move_payload : AgentCommand V -> result MoveCommandPayload string := parse_with "move".
Definition parse_trash_payload : AgentCommand V -> result TrashCommandPayload string := parse_with "trash".
Definition parse_create_payload : AgentCommand V -> result CreateCommandPayload string := parse_with "create".
Definition parse_organize_payload (command : AgentCommand V) : result (OrganizeFilesPayload V) string :=
  let? payload :=
    if (ac_command_type command =? ANALYZE)%string then
      if negb (value_is_object (ac_payload command)) || negb (json_is_empty (ac_payload command))
      then Err "ANALYZE payload must be an empty object"
      else Ok (mkOrganizeFilesPayload None None None (Some DEFAULT_MAX_PROPOSALS) None None None)
    else parse_with "organize_files" command in
  if negb ((1 <=? max_proposals payload) && (max_proposals payload <=? 200))%Z
  then Err "organize_files.maxProposals must be between 1 and 200"
  else if match og_rule_mode payload with
          | Some rule_mode => negb (one_of ["default"; "managed_root_rules"] rule_mode)
          | None => false
          end
  then Err "organize_files.ruleMode is not supported"
  else if match og_user_intent payload with Some intent => (2000 <? chars_count intent)%Z | None => false end
  then Err "organize_files.userIntent is too long"
  else Ok payload.

Definition is_processable_command_status (status : string) : bool := one_of ["QUEUED"; "DELIVERED"; "ANALYZING"] status.
Definition is_supported_command (command : AgentCommand V) : bool :=
  one_of [ANALYZE; RENAME; MOVE; TRASH; CREATE; ORGANIZE; ORGANIZE_FILES; ORGANIZE_ROOT] (ac_command_type command).
Definition is_contract_command_without_desktop_handler (command : AgentCommand V) : bool :=
  one_of [FIND; DOWNLOAD; UPLOAD] (ac_command_type command).
End payload.

Section processor.
Context {N V DB : Type} `{!SqlDb DB, !SqlTx DB, !SqlCount DB, !Http N V, !CredentialStore N, !JsonValue V, !Json V}.
Context `{!PayloadCodecs V, !ResponseCodecs V, !WorkCodecs V, !CommandCodecs V}.
Context (outbox : OutboxStore).
Abbreviation IO := (io (office N DB) string).

Definition resolve_proposal (root : string) (payload : OrganizeFilesPayload V) : io (world DB) string ProposalReport :=
  match og_rule_draft payload with
  | Some draft =>
      let! rule_set := io_lift (map_err (fun e => "invalid AI rule draft shape: " +:+ RuleError.fmt e)
                                  (rule_set_from_draft_value from_value from_value draft)) in
      io_map_err ProposalEngine.fmt (ProposalEngine.propose_for_root_with_rule_set root rule_set)
  | None =>
      match og_user_intent payload with
      | Some _ => io_fail "ORGANIZE_RULE_DRAFT_REQUIRED: refusing to ignore the requested file selector"
      | None => io_map_err ProposalEngine.fmt (ProposalEngine.propose_for_root codec_rules_text root)
      end
  end.

Definition set_status (command : AgentCommand V) (status : string) : IO (AgentCommand V) :=
  on_agent (Agent.update_command_status (V:=V) (ac_command_id command) status).
Definition claim_command_for_analysis (command : AgentCommand V) : IO unit :=
  if (ac_status command =? "QUEUED")%string then
    let! _ := set_status command "DELIVERED" in
    let! _ := set_status command "ANALYZING" in
    io_ret tt
  else if (ac_status command =? "DELIVERED")%string then
    let! _ := set_status command "ANALYZING" in io_ret tt
  else if (ac_status command =? "ANALYZING")%string then io_ret tt
  else io_fail ("command status is not claimable for analysis: " +:+ ac_status command).

(** The folder of the command's room; the payload names it too. *)
Definition managed_root_for (command : AgentCommand V) (root_id : option string) : IO ManagedRoot :=
  let! room := on_agent (AgentWork.root_id_for_room (V:=V) (ac_room_id command)) in
  let! managed_root := on_roots (ManagedRoots.ensure_active_room_binding (ry_root_id room) (ac_room_id command)) in
  if match root_id with Some id => negb (id =? mr_root_id managed_root)%string | None => false end
  then io_fail "command rootId does not match the room binding"
  else if negb (mr_enabled managed_root) then io_fail ("managed root is disabled: " +:+ mr_root_id managed_root)
  else io_ret managed_root.

(** What the four commands of a user share: the payload, the claim, the folder, the
    proposal and its submission. *)
Definition process_requested (command : AgentCommand V) (root_id : string)
    (build : tree -> string -> result ProposalReport string) (max : Z) : IO Z :=
  do! claim_command_for_analysis command;
  let! managed_root := managed_root_for command (Some root_id) in
  let! f := on_machine get_fs in
  let! local_report := io_lift (build f (mr_root managed_root)) in
  let! submission := on_machine (Submission.build_agent_proposal_submission command local_report max) in
  let item_count := Z.of_nat (length (pb_items submission)) in
  do! on_machine (OutboxProcessor.enqueue_proposal outbox submission);
  io_ret item_count.
Definition process_create_command (command : AgentCommand V) : IO Z :=
  let! payload := io_lift (parse_create_payload command) in
  process_requested command (cr_root_id payload) (fun f root => Requested.build_create_proposal_report f root payload) 1.
Definition process_trash_command (command : AgentCommand V) : IO Z :=
  let! payload := io_lift (parse_trash_payload command) in
  process_requested command (tr_root_id payload) (fun f root => Requested.build_trash_proposal_report f root payload) 200.
Definition process_move_command (command : AgentCommand V) : IO Z :=
  let! payload := io_lift (parse_move_payload command) in
  process_requested command (mv_root_id payload) (fun f root => Requested.build_move_proposal_report f root payload) 200.
Definition process_rename_command (command : AgentCommand V) : IO Z :=
  let! payload := io_lift (parse_rename_payload command) in
  process_requested command (rn_root_id payload) (fun f root => Requested.build_rename_proposal_report f root payload) 1.

Definition process_organize_command (command : AgentCommand V) : IO Z :=
  let! payload := io_lift (parse_organize_payload command) in
  do! io_lift (Remote.validate_relative_scope (scope payload));
  do! claim_command_for_analysis command;
  let! managed_root := managed_root_for command (og_root_id payload) in
  let! local_report := on_machine (resolve_proposal (mr_root managed_root) payload) in
  let! submission := on_machine (Submission.build_agent_proposal_submission command local_report (max_proposals payload)) in
  let item_count := Z.of_nat (length (pb_items submission)) in
  if (item_count =? 0)%Z then
    let! _ := io_try (F:=string) (on_machine (OutboxProcessor.enqueue_command_status (V:=V) outbox (ac_command_id command) "SUCCEEDED")) in
    io_ret 0%Z
  else
    do! on_machine (OutboxProcessor.enqueue_proposal outbox submission);
    io_ret item_count.

(** ** The loop *)

Definition result_for (command : AgentCommand V) (status : CommandProcessingStatus) (message : option string) (items : Z)
  : CommandProcessingResult :=
  mkCommandProcessingResult (ac_command_id command) (ac_command_type command) status message items.
Definition not_handled : string := "command type or status is not handled by the desktop proposal processor".
Definition count_skipped (report : CommandProcessingReport) (command : AgentCommand V) : CommandProcessingReport :=
  mkCommandProcessingReport (cy_inspected_count report) (cy_processed_count report) (cy_submitted_proposal_count report)
    (cy_failed_count report) (cy_skipped_count report + 1)
    (cy_results report ++ [result_for command CommandSkipped (Some not_handled) 0]).
Definition count_failed (report : CommandProcessingReport) (command : AgentCommand V) (message : string) : CommandProcessingReport :=
  mkCommandProcessingReport (cy_inspected_count report) (cy_processed_count report + 1) (cy_submitted_proposal_count report)
    (cy_failed_count report + 1) (cy_skipped_count report)
    (cy_results report ++ [result_for command CommandFailed (Some message) 0]).
Definition count_done (report : CommandProcessingReport) (command : AgentCommand V) (item_count : Z) : CommandProcessingReport :=
  if (item_count =? 0)%Z then
    mkCommandProcessingReport (cy_inspected_count report) (cy_processed_count report + 1) (cy_submitted_proposal_count report)
      (cy_failed_count report) (cy_skipped_count report)
      (cy_results report ++ [result_for command NoProposal (Some "already clean; no proposal items were found") 0])
  else
    mkCommandProcessingReport (cy_inspected_count report) (cy_processed_count report + 1) (cy_submitted_proposal_count report + 1)
      (cy_failed_count report) (cy_skipped_count report)
      (cy_results report ++ [result_for command SubmittedProposal None item_count]).

Definition not_yet_handled : string := "command intent is not yet handled by the desktop processor".
Definition refuse_contract_command (command : AgentCommand V) : IO string :=
  let! claim := io_try (claim_command_for_analysis command) in
  match claim with
  | Err error =>
      io_ret (not_yet_handled +:+ "; additionally failed to claim command for failure reporting: " +:+ error)
  | Ok _ =>
      let! sync := io_try (on_machine (OutboxProcessor.enqueue_command_status (V:=V) outbox (ac_command_id command) "FAILED")) in
      io_ret (match sync with
              | Err error => not_yet_handled +:+ "; additionally failed to queue FAILED status: " +:+ error
              | Ok _ => not_yet_handled
              end)
  end.
Definition dispatch (command : AgentCommand V) : IO Z :=
  let type := ac_command_type command in
  if (type =? RENAME)%string then process_rename_command command
  else if (type =? MOVE)%string then process_move_command command
  else if (type =? TRASH)%string then process_trash_command command
  else if (type =? CREATE)%string then process_create_command command
  else process_organize_command command.
Definition process_command (report : CommandProcessingReport) (command : AgentCommand V) : IO CommandProcessingReport :=
  if negb (is_processable_command_status (ac_status command)) then io_ret (count_skipped report command)
  else if is_contract_command_without_desktop_handler command then
    let! message := refuse_contract_command command in io_ret (count_failed report command message)
  else if negb (is_supported_command command) then io_ret (count_skipped report command)
  else
    let! r := io_try (dispatch command) in
    match r with
    | Ok item_count => io_ret (count_done report command item_count)
    | Err error =>
        let! _ := io_try (F:=string) (on_machine (OutboxProcessor.enqueue_command_status (V:=V) outbox (ac_command_id command) "FAILED")) in
        io_ret (count_failed report command error)
    end.
Definition process_commands (commands : list (AgentCommand V)) : IO CommandProcessingReport :=
  io_for (fun _ report command => process_command report command) 0
    (mkCommandProcessingReport (Z.of_nat (length commands)) 0 0 0 0 []) commands.
Definition process_pending_commands : IO CommandProcessingReport :=
  let! commands := on_agent (AgentWork.poll_commands (V:=V)) in
  process_commands commands.
End processor.
End CommandProcessor.
