(* ===== verification/delivery_facts.v ===== *)
(** The properties of delivery, and delivery evaluated on a small server. *)
From Stdlib Require Import ZArith Lia Ascii Sorted.
From stdpp Require Import strings pretty gmap functions option list relations.
From S2P Require Import prelude rust_str std_path std_fs fs_facts db journal_store index_sql tables outbox cleanliness agent outbox_processor.

Open Scope string_scope.
Open Scope list_scope.


(** * What the agent and the outbox loop promise: one request per delivery, a verdict
    that is final exactly when the server decided, and an outbox that drains. *)

(** * Answers of the server *)

(** A status after which the request may be sent again. *)
Definition retryable_status (status : Z) : bool :=
  ((status =? 408) || (status =? 429))%Z || negb (is_client_error status).
(** The request did not arrive, or the server did not decide on it. *)
Definition undecided (answer : option HttpResponse) : bool :=
  match answer with
  | None => true
  | Some response => negb (is_success (hp_status response)) && retryable_status (hp_status response)
  end.

Lemma http_error_transient text status e : is_transient (http_error text status e) = retryable_status status.
Proof.
  unfold is_transient, http_error, retryable_status, is_client_error. simpl.
  destruct (status =? 401)%Z eqn:H1; [by apply Z.eqb_eq in H1 as ->|].
  destruct (status =? 403)%Z eqn:H2; [by apply Z.eqb_eq in H2 as ->|].
  destruct ((status =? 408) || (status =? 429))%Z; [done|].
  by destruct ((400 <=? status) && (status <? 500))%Z.
Qed.

Section agent.
Context {N V : Type} `{!Http N V, !CredentialStore N, !JsonValue V, !Serde ServerErrorResponse}.
Implicit Types (st : AgentState * N).

(** What is asked, at a server and with a credential, and which successes are understood. *)
Definition plea : Type := ((string -> DeviceCredential -> HttpRequest V) * (HttpResponse -> bool))%type.
(** [m] asks [q] at most once, with the credential of the device: it ends well on a success
    that is understood; a failure without a request is final, and one after a request is
    transient exactly when the server left it undecided. *)
Definition answered_once {A} (q : plea) st (r : result A AgentError) st' : Prop :=
  exists url credential answer n,
    ag_server_base_url st.1 = Some url /\ ag_credential st.1 = Some credential /\ http_send (q.1 url credential) st.2 = (answer, n) /\
    match r with
    | Ok _ => (exists response, answer = Some response /\ is_success (hp_status response) = true /\ q.2 response = true) /\
              st' = (mkAgentState (ag_server_base_url st.1) (Some credential) SOnline None, n)
    | Err e => is_transient e = undecided answer /\
               forall response, answer = Some response -> is_success (hp_status response) = true -> q.2 response = false
    end.
Definition asks_once {A} (q : plea) (m : io (AgentState * N) AgentError A) : Prop :=
  forall st r st', m st = (r, st') ->
  (st' = st /\ exists e, r = Err e /\ is_transient e = false) \/ answered_once q st r st'.

Lemma asks_once_guard {A B} q (r : result B AgentError) (m : B -> io (AgentState * N) AgentError A) :
  (forall e, r = Err e -> is_transient e = false) -> (forall b, r = Ok b -> asks_once q (m b)) ->
  asks_once q (let! b := io_lift r in m b).
Proof.
  intros He Hm st r' st'. unfold io_bind, io_lift. destruct r as [b|e]; [by apply Hm|].
  intros [= <- <-]. left. split; [done|]. exists e. auto.
Qed.
Lemma asks_once_fail {A} q e : is_transient e = false -> asks_once (A:=A) q (io_fail e).
Proof. intros He st r st' [= <- <-]. left. eauto. Qed.

Lemma record_error_ok e state st : exists st', Agent.record_error e state st = (Ok tt, st').
Proof.
  unfold Agent.record_error, Agent.record_non_authoritative_error, Agent.with_connection, Agent.get_state, Agent.set_state, Agent.on_network.
  unfold io_try, io_bind, io_gets. destruct (is_confirmed_device_absent e); [|by eexists].
  destruct (credentials_delete st.2) as [r n]. by eexists.
Qed.

(** A call: one request, then what is made of its answer, which is never transient. *)
Lemma recording_asks {A} url (credential : DeviceCredential) (req : string -> DeviceCredential -> HttpRequest V)
    (read : HttpResponse -> result A AgentError) (m : io (AgentState * N) AgentError A) st r st' :
  ag_server_base_url st.1 = Some url -> ag_credential st.1 = Some credential ->
  (forall response e, read response = Err e -> is_transient e = false) ->
  m st = (let! response := Agent.send (req url credential) in io_lift (read response)) st ->
  Agent.recording m st = (r, st') -> answered_once (req, fun response => is_ok (read response)) st r st'.
Proof.
  destruct st as [s n0]. simpl. intros Hurl Hcred Hread Hm H. unfold Agent.recording, io_bind at 1, io_try in H. rewrite Hm in H. clear Hm.
  unfold Agent.send, io_bind at 1, io_lift in H. simpl in H. exists url, credential. simpl.
  destruct (http_send (req url credential) n0) as [[response|] n] eqn:Hsend; simpl in H.
  - exists (Some response), n. split_and!; [done..|]. destruct (is_success (hp_status response)) eqn:Hok; simpl in H.
    + destruct (read response) as [a|e] eqn:Hr; unfold io_bind in H.
      * unfold Agent.mark_online, Agent.with_connection, Agent.get_state, Agent.set_state, io_bind, io_gets, io_ret in H. simpl in H.
        injection H as <- <-. split; [exists response; by rewrite Hr|]. by rewrite Hcred.
      * destruct (record_error_ok e SOffline (s, n)) as [st2 Hrec]. rewrite Hrec in H. injection H as <- _.
        rewrite (Hread _ _ Hr). simpl. rewrite Hok. split; [done|]. intros x [= <-] _. by rewrite Hr.
    + unfold io_bind in H. destruct (record_error_ok (http_error (http_status_text (V:=V)) (hp_status response) (from_text (hp_body response)))
        SOffline (s, n)) as [st2 Hrec]. rewrite Hrec in H. injection H as <- _. rewrite http_error_transient. simpl. rewrite Hok.
      split; [done|]. intros x [= <-]. by rewrite Hok.
  - exists None, n. split_and!; [done..|]. unfold io_bind in H.
    destruct (record_error_ok Agent.unreachable SOffline (s, n)) as [st2 Hrec]. rewrite Hrec in H. injection H as <- _. by split.
Qed.

(** The configuration, then a call made with it. *)
Lemma asks_once_config {A} (m : string * DeviceCredential -> io (AgentState * N) AgentError A)
    (req : string -> DeviceCredential -> HttpRequest V) (call : string -> DeviceCredential -> io (AgentState * N) AgentError A)
    (read : HttpResponse -> result A AgentError) :
  (forall url c, m (url, c) = Agent.recording (call url c)) ->
  (forall url c st, call url c st = (let! response := Agent.send (req url c) in io_lift (read response)) st) ->
  (forall response e, read response = Err e -> is_transient e = false) ->
  asks_once (req, fun response => is_ok (read response)) (let! config := Agent.require_authenticated_config in m config).
Proof.
  intros Hm Hcall Hread st r st'. unfold Agent.require_authenticated_config, Agent.get_state. unfold io_bind at 1 2, io_gets, io_lift.
  destruct (ag_server_base_url st.1) as [url|] eqn:Hurl; [|intros [= <- <-]; left; eauto].
  destruct (ag_credential st.1) as [c|] eqn:Hc; [|intros [= <- <-]; left; eauto].
  rewrite Hm. intros H. right. eapply recording_asks; [exact Hurl|exact Hc|exact Hread|apply Hcall|exact H].
Qed.

Lemma opaque_final name value n e : Validate.opaque_value name value n = Err e -> is_transient e = false.
Proof. unfold Validate.opaque_value. destruct (_ || _); [|done]. by intros [= <-]. Qed.
Lemma relative_final label path e : Validate.relative_path label path = Err e -> is_transient e = false.
Proof. unfold Validate.relative_path. destruct (_ || _); [|done]. by intros [= <-]. Qed.
Lemma sha256_final value e : Validate.sha256 value = Err e -> is_transient e = false.
Proof. unfold Validate.sha256. destruct (Validate.is_valid_sha256 value); [done|]. by intros [= <-]. Qed.
Lemma metadata_final m e : Validate.smart_cache_encryption_metadata m = Err e -> is_transient e = false.
Proof. unfold Validate.smart_cache_encryption_metadata. destruct (_ || _); [|done]. by intros [= <-]. Qed.
Lemma stale_reason_final reason e : Validate.smart_cache_stale_reason reason = Err e -> is_transient e = false.
Proof. unfold Validate.smart_cache_stale_reason. destruct (one_of _ reason); [done|]. by intros [= <-]. Qed.
Lemma deductions_final l e : Validate.deductions l = Err e -> is_transient e = false.
Proof. induction l as [|d l IH]; simpl; [done|]. destruct (_ || _); [by intros [= <-]|done]. Qed.
Lemma snapshot_final s e : Validate.cleanliness_snapshot s = Err e -> is_transient e = false.
Proof. unfold Validate.cleanliness_snapshot. destruct (_ || _); [by intros [= <-]|apply deductions_final]. Qed.
Lemma command_final (r : ServerCommand V) e : Validate.server_command r = Err e -> is_transient e = false.
Proof. unfold Validate.server_command. destruct (_ || _); [|done]. by intros [= <-]. Qed.
Lemma transfer_final r e : Validate.file_transfer_response r = Err e -> is_transient e = false.
Proof. unfold Validate.file_transfer_response. destruct (_ || _); [|done]. by intros [= <-]. Qed.
Lemma transfer_match_final id t e : Validate.transfer_id_match id t = Err e -> is_transient e = false.
Proof. unfold Validate.transfer_id_match. destruct (negb _); [|done]. by intros [= <-]. Qed.
Lemma room_response_final id v (r : RoomSnapshotResponse V) e : Validate.room_snapshot_response id v r = Err e -> is_transient e = false.
Proof. unfold Validate.room_snapshot_response. destruct (_ || _); [|done]. by intros [= <-]. Qed.
Lemma execution_final r e : Validate.execution_response r = Err e -> is_transient e = false.
Proof. unfold Validate.execution_response. destruct (_ || _); [|done]. by intros [= <-]. Qed.
Lemma cached_final r e : Validate.cached_file_response r = Err e -> is_transient e = false.
Proof.
  unfold Validate.cached_file_response. destruct (Validate.relative_path _ _) eqn:H1; simpl; [|intros [= <-]; by eapply relative_final].
  destruct (Validate.sha256 (cr_source_version_hash r)) eqn:H2; simpl; [|intros [= <-]; by eapply sha256_final].
  destruct (Validate.sha256 (cr_sha256 r)) eqn:H3; simpl; [|intros [= <-]; by eapply sha256_final].
  destruct (cr_encryption_metadata r) as [m|]; simpl.
  - destruct (Validate.smart_cache_encryption_metadata m) eqn:H4; simpl; [|intros [= <-]; by eapply metadata_final].
    destruct (_ || _); [|done]. by intros [= <-].
  - destruct (_ || _); [|done]. by intros [= <-].
Qed.
Lemma stale_response_final room path reason r e :
  Validate.smart_cache_stale_response room path reason r = Err e -> is_transient e = false.
Proof.
  unfold Validate.smart_cache_stale_response. destruct (Validate.smart_cache_stale_reason _); simpl; [|by intros [= <-]].
  destruct (_ || _); [by intros [= <-]|]. destruct (ss_source_relative_path r) as [p|]; simpl; [|done].
  destruct (Validate.relative_path _ p); simpl; [done|]. by intros [= <-].
Qed.

(** The body of an answer, read and validated. *)
Definition reading {T A} `{!Serde T} (validate : T -> result A AgentError) (response : HttpResponse) : result A AgentError :=
  match from_text (hp_body response) with
  | Some value => validate value
  | None => Err (invalid_response_error "server returned an unexpected response shape")
  end.
Lemma reading_final {T A} `{!Serde T} (validate : T -> result A AgentError) response e :
  (forall value e, validate value = Err e -> is_transient e = false) -> reading validate response = Err e -> is_transient e = false.
Proof. unfold reading. intros Hv. destruct (from_text _); [by apply Hv|]. by intros [= <-]. Qed.
Lemma send_json_reading {T A} `{!Serde T} (validate : T -> result A AgentError) (req : HttpRequest V) st :
  (let! response := Agent.send_json req in io_lift (validate response)) st =
  (let! response := Agent.send req in io_lift (reading validate response)) st.
Proof.
  unfold Agent.send_json, reading, io_bind, io_lift. destruct (Agent.send req st) as [[response|e] st1]; [|done].
  by destruct (from_text (hp_body response)).
Qed.

(** ** The mutations *)

Section mutations.
Context `{!ResponseCodecs V}.

Definition execution_plea id status summary : plea :=
  (fun url c => mkHttpRequest "PATCH" (url +:+ "/v1/agent/executions/" +:+ id) [] (Some (dc_device_token c)) (Some id)
                  (BFields [("status", FText status); ("resultSummary", FValue summary)]),
   fun response => is_ok (reading Validate.execution_response response)).
Lemma update_execution_asks id status summary : asks_once (execution_plea id status summary) (Agent.update_execution id status summary).
Proof.
  apply asks_once_guard; [by intros e; apply opaque_final|]. intros _ _. destruct (negb _); [by apply asks_once_fail|].
  destruct (negb _); [by apply asks_once_fail|].
  eapply (asks_once_config _ _ _ (reading Validate.execution_response)); [intros url c; reflexivity|..].
  - intros url c st. apply send_json_reading.
  - intros response e. apply reading_final, execution_final.
Qed.
Definition proposal_plea key p : plea :=
  (fun url c => mkHttpRequest "POST" (url +:+ "/v1/agent/proposals") [] (Some (dc_device_token c)) (Some key) (BProposal p), fun _ => true).
Lemma submit_proposal_asks key p : asks_once (proposal_plea key p) (Agent.submit_proposal key p).
Proof.
  apply asks_once_guard; [by intros e; apply opaque_final|]. intros _ _. destruct (_ || _); [by apply asks_once_fail|].
  eapply (asks_once_config _ _ _ (fun _ => Ok tt)); [intros url c; reflexivity|..].
  - intros url c st. unfold Agent.send_empty, io_bind, io_ret, io_lift. by destruct (Agent.send _ st) as [[]].
  - done.
Qed.
Definition read_command (id : string) (v : ServerCommand V) : result (AgentCommand V) AgentError :=
  let? command := Validate.server_command v in
  if negb (ac_command_id command =? id)%string
  then Err (invalid_response_error "updated command response did not match the requested command id") else Ok command.
Definition command_plea id status : plea :=
  (fun url c => mkHttpRequest "PATCH" (url +:+ "/v1/devices/" +:+ dc_device_id c +:+ "/commands/" +:+ id +:+ "/status") []
                  (Some (dc_device_token c)) None (BFields [("status", FText status)]),
   fun response => is_ok (reading (read_command id) response)).
Lemma update_command_status_asks id status : asks_once (command_plea id status) (Agent.update_command_status id status).
Proof.
  apply asks_once_guard; [by intros e; apply opaque_final|]. intros _ _. destruct (negb _); [by apply asks_once_fail|].
  eapply (asks_once_config _ _ _ (reading (read_command id))); [intros url c; reflexivity|..].
  - intros url c st. etrans; [|apply send_json_reading]. unfold io_bind, io_lift, io_fail, io_ret, read_command.
    destruct (Agent.send_json _ st) as [[v|] st1]; [|done]. destruct (Validate.server_command v); simpl; [|done]. by destruct (negb _).
  - intros response e. apply reading_final. intros v e'. unfold read_command.
    destruct (Validate.server_command v) as [command|] eqn:Hv; simpl; [|intros [= <-]; by eapply command_final].
    destruct (negb _); [|done]. by intros [= <-].
Qed.
Definition read_transfer (id : string) (v : FileTransferResponse) : result AgentFileTransfer AgentError :=
  let? t := Validate.file_transfer_response v in Validate.transfer_id_match id t.
Definition transfer_plea id key size sha : plea :=
  (fun url c => mkHttpRequest "POST" (url +:+ "/v1/agent/file-transfers/" +:+ id +:+ "/complete-upload") [] (Some (dc_device_token c))
                  (Some key) (BFields [("sizeBytes", FInt size); ("sha256", FText sha)]),
   fun response => is_ok (reading (read_transfer id) response)).
Lemma complete_file_transfer_asks id key size sha : asks_once (transfer_plea id key size sha) (Agent.complete_file_transfer_upload id key size sha).
Proof.
  apply asks_once_guard; [by intros e; apply opaque_final|]. intros _ _. apply asks_once_guard; [by intros e; apply opaque_final|]. intros _ _.
  destruct (size =? 0)%Z; [by apply asks_once_fail|]. apply asks_once_guard; [by intros e; apply sha256_final|]. intros _ _.
  eapply (asks_once_config _ _ _ (reading (read_transfer id))); [intros url c; reflexivity|..].
  - intros url c st. etrans; [|apply send_json_reading]. unfold io_bind, io_lift, read_transfer. destruct (Agent.send_json _ st) as [[v|] st1]; [|done].
    by destruct (Validate.file_transfer_response v).
  - intros response e. apply reading_final. intros v e'. unfold read_transfer.
    destruct (Validate.file_transfer_response v) as [t|] eqn:Hv; simpl; [apply transfer_match_final|intros [= <-]; by eapply transfer_final].
Qed.
Definition snapshot_plea id snapshot : plea :=
  (fun url c => mkHttpRequest "POST" (url +:+ "/v1/rooms/" +:+ id +:+ "/snapshots") [] (Some (dc_device_token c)) None (BSnapshot snapshot),
   fun response => is_ok (reading (Validate.room_snapshot_response id (cs_formula_version snapshot)) response)).
Lemma submit_room_snapshot_asks id snapshot : asks_once (snapshot_plea id snapshot) (Agent.submit_room_snapshot id snapshot).
Proof.
  apply asks_once_guard; [by intros e; apply opaque_final|]. intros _ _. apply asks_once_guard; [by intros e; apply snapshot_final|]. intros _ _.
  eapply (asks_once_config _ _ _ (reading (Validate.room_snapshot_response id (cs_formula_version snapshot)))); [intros url c; reflexivity|..].
  - intros url c st. apply send_json_reading.
  - intros response e. apply reading_final, room_response_final.
Qed.
Definition cached_plea id key size sha usage pin m : plea :=
  (fun url c => mkHttpRequest "POST" (url +:+ "/v1/agent/cache-uploads/" +:+ id +:+ "/complete") [] (Some (dc_device_token c)) (Some key)
                  (BFields [("sizeBytes", FInt size); ("sha256", FText sha); ("usageScore", FInt usage); ("manualPin", FBool pin);
                            ("encryptionMetadata", FMetadata m)]),
   fun response => is_ok (reading Validate.cached_file_response response)).
Lemma complete_smart_cache_asks id key size sha usage pin m :
  asks_once (cached_plea id key size sha usage pin m) (Agent.complete_smart_cache_upload id key size sha usage pin m).
Proof.
  apply asks_once_guard; [by intros e; apply opaque_final|]. intros _ _. apply asks_once_guard; [by intros e; apply opaque_final|]. intros _ _.
  destruct (size =? 0)%Z; [by apply asks_once_fail|]. apply asks_once_guard; [by intros e; apply sha256_final|]. intros _ _.
  apply asks_once_guard; [by intros e; apply metadata_final|]. intros _ _.
  eapply (asks_once_config _ _ _ (reading Validate.cached_file_response)); [intros url c; reflexivity|..].
  - intros url c st. apply send_json_reading.
  - intros response e. apply reading_final, cached_final.
Qed.
Definition stale_plea key room path reason : plea :=
  (fun url c => mkHttpRequest "POST" (url +:+ "/v1/agent/cached-files/stale") [] (Some (dc_device_token c)) (Some key)
                  (BFields [("roomId", FText room); ("sourceRelativePath", FOptText path); ("reason", FText reason)]),
   fun response => is_ok (reading (Validate.smart_cache_stale_response room path reason) response)).
Lemma mark_stale_asks key room path reason : asks_once (stale_plea key room path reason) (Agent.mark_smart_cache_stale key room path reason).
Proof.
  do 2 (apply asks_once_guard; [by intros e; apply opaque_final|]; intros _ _).
  apply asks_once_guard; [by intros e; apply stale_reason_final|]. intros _ _.
  assert (asks_once (stale_plea key room path reason) (let! config := Agent.require_authenticated_config in let '(url, c) := config in
    Agent.recording (let! response := Agent.send_json (mkHttpRequest "POST" (url +:+ "/v1/agent/cached-files/stale") []
         (Some (dc_device_token c)) (Some key) (BFields [("roomId", FText room); ("sourceRelativePath", FOptText path); ("reason", FText reason)])) in
      io_lift (Validate.smart_cache_stale_response room path reason response)))) as Hcall.
  { eapply (asks_once_config _ _ _ (reading (Validate.smart_cache_stale_response room path reason))); [intros url c; reflexivity|..].
    - intros url c st. apply send_json_reading.
    - intros response e. apply reading_final, stale_response_final. }
  destruct path as [p|].
  - destruct (one_of _ reason); [|intros st r st' [= <- <-]; left; eauto].
    apply asks_once_guard; [by intros e; apply relative_final|]. done.
  - destruct (reason =? "REINDEXED")%string; [exact Hcall|]. intros st r st' [= <- <-]. left. eauto.
Qed.
End mutations.
End agent.

(** * Dispatch *)

Section dispatch.
Context {N V : Type} `{!Http N V, !CredentialStore N, !JsonValue V, !PayloadCodecs V, !ResponseCodecs V}.
Implicit Types (st : AgentState * N) (item : OutboxItem).

(** The request that delivers an item, unless its payload or its kind is unknown. *)
Definition request_of item : option (plea (V:=V)) :=
  let text := oi_payload_json item in
  let key := oi_idempotency_key item in
  if starts_with (oi_kind item) KIND_ROOM_SNAPSHOT_PREFIX then (fun p => snapshot_plea (np_room_id p) (np_snapshot p)) <$> from_text text
  else if starts_with (oi_kind item) KIND_SMART_CACHE_STALE_PREFIX
  then (fun p => stale_plea key (lp_room_id p) (lp_source_relative_path p) (lp_reason p)) <$> from_text text
  else if (oi_kind item =? KIND_EXECUTION_RESULT)%string
  then (fun p => execution_plea (xp_execution_id p) (xp_status p) (xp_result_summary p)) <$> from_text text
  else if (oi_kind item =? KIND_PROPOSAL)%string then proposal_plea key <$> from_text text
  else if (oi_kind item =? KIND_COMMAND_STATUS)%string then (fun p => command_plea (cp_command_id p) (cp_status p)) <$> from_text text
  else if (oi_kind item =? KIND_FILE_TRANSFER_COMPLETION)%string
  then (fun p => transfer_plea (tp_transfer_id p) key (tp_size_bytes p) (tp_sha256 p)) <$> from_text text
  else if (oi_kind item =? KIND_SMART_CACHE_COMPLETION)%string
  then (fun p => cached_plea (sp_reservation_id p) key (sp_size_bytes p) (sp_sha256 p) (sp_usage_score p) (sp_manual_pin p)
                   (sp_encryption_metadata p)) <$> from_text text
  else None.

(** What becomes of an item: the server took it, did not decide, refused it, took it with an
    answer that is not understood, or was not asked. *)
Inductive fate := Accepted | Undecided | Refused | Unreadable | Unsendable.
Definition answer_means (understood : HttpResponse -> bool) (answer : option HttpResponse) (x : fate) : Prop :=
  match x, answer with
  | Accepted, Some response => is_success (hp_status response) = true /\ understood response = true
  | Unreadable, Some response => is_success (hp_status response) = true /\ understood response = false
  | Undecided, _ => undecided answer = true
  | Refused, Some response => is_success (hp_status response) = false /\ retryable_status (hp_status response) = false
  | _, _ => False
  end.
(** At most one request, that of the item, with the credential of the device. *)
Definition comes_to item st (x : fate) st' : Prop :=
  match x with
  | Unsendable => st' = st
  | _ => exists request understood url credential answer n,
      request_of item = Some (request, understood) /\ ag_server_base_url st.1 = Some url /\ ag_credential st.1 = Some credential /\
      http_send (request url credential) st.2 = (answer, n) /\ answer_means understood answer x /\
      (x = Accepted -> st' = (mkAgentState (Some url) (Some credential) SOnline None, n))
  end.
(** What an item that comes to [x] is answered with. *)
Definition outcome_of (x : fate) (r : result unit DispatchError) : Prop :=
  match x, r with
  | Accepted, Ok _ | Undecided, Err (Transient _) | (Refused | Unreadable | Unsendable), Err (Terminal _) => True
  | _, _ => False
  end.
Definition verdict item st (r : result unit DispatchError) st' : Prop := exists x, outcome_of x r /\ comes_to item st x st'.
Lemma unsendable item st code : verdict item st (Err (Terminal code)) st.
Proof. by exists Unsendable. Qed.

Lemma delivering_verdict {A} item q (m : io (AgentState * N) AgentError A) st r st' :
  request_of item = Some q -> asks_once q m -> OutboxProcessor.delivering m st = (r, st') -> verdict item st r st'.
Proof.
  destruct q as [request understood]. intros Hq Hm. unfold OutboxProcessor.delivering, io_map_err, io_bind, io_ret.
  destruct (m st) as [[a|e] st1] eqn:H; intros [= <- <-].
  - destruct (Hm _ _ _ H) as [(_ & e & He & _)|(url & c & answer & n & Hu & Hc & Hs & (response & -> & H1 & H2) & ->)]; [done|].
    exists Accepted. split; [done|]. exists request, understood, url, c, (Some response), n. split_and!; try done. intros _. by rewrite Hu.
  - unfold OutboxProcessor.classify.
    destruct (Hm _ _ _ H) as [(-> & e' & [= <-] & ->)|(url & c & answer & n & Hu & Hc & Hs & Ht & Hno)]; [apply unsendable|]. simpl in *. rewrite Ht.
    assert (forall x, x <> Accepted -> x <> Unsendable -> answer_means understood answer x -> comes_to item st x st1) as Hx.
    { intros x Ha Hn Hx. destruct x; try done; exists request, understood, url, c, answer, n; by split_and!. }
    destruct (undecided answer) eqn:Hun; [exists Undecided; split; [done|by apply Hx]|].
    destruct answer as [response|]; [|done]. simpl in Hun. destruct (is_success (hp_status response)) eqn:Hok.
    + exists Unreadable. split; [done|]. apply Hx; [done..|]. split; [done|by apply Hno].
    + exists Refused. split; [done|]. by apply Hx.
Qed.

Lemma decode_verdict {T} `{!Serde T} item text (m : T -> io (AgentState * N) DispatchError unit) st r st' :
  (forall p r st', from_text text = Some p -> m p st = (r, st') -> verdict item st r st') ->
  (let! p := io_lift (OutboxProcessor.decode text) in m p) st = (r, st') -> verdict item st r st'.
Proof.
  intros Hm. unfold io_bind, io_lift, OutboxProcessor.decode. destruct (from_text text) as [p|]; [by apply Hm|].
  intros [= <- <-]. apply unsendable.
Qed.

(** The request of an item whose kind is known, and the call made with its payload. *)
Ltac request_is :=
  unfold request_of; repeat match goal with H : ?b = true |- context [?b] => rewrite H | H : ?b = false |- context [?b] => rewrite H end;
  match goal with H : from_text _ = Some _ |- _ => rewrite H; reflexivity end.
Ltac kind_verdict asks :=
  apply decode_verdict; intros ?p ?r0 ?st0 ?Hp; eapply delivering_verdict; [request_is|apply asks].
Lemma dispatch_verdict item st r st' : OutboxProcessor.dispatch item st = (r, st') -> verdict item st r st'.
Proof.
  unfold OutboxProcessor.dispatch. destruct (starts_with (oi_kind item) KIND_ROOM_SNAPSHOT_PREFIX) eqn:H1.
  { apply decode_verdict. intros p r0 st0 Hp. destruct (negb _); [intros [= <- <-]; apply unsendable|].
    eapply delivering_verdict; [request_is|apply submit_room_snapshot_asks]. }
  destruct (starts_with (oi_kind item) KIND_SMART_CACHE_STALE_PREFIX) eqn:H2; [kind_verdict mark_stale_asks|].
  destruct (oi_kind item =? KIND_EXECUTION_RESULT)%string eqn:H3; [kind_verdict update_execution_asks|].
  destruct (oi_kind item =? KIND_PROPOSAL)%string eqn:H4; [kind_verdict submit_proposal_asks|].
  destruct (oi_kind item =? KIND_COMMAND_STATUS)%string eqn:H5; [kind_verdict update_command_status_asks|].
  destruct (oi_kind item =? KIND_FILE_TRANSFER_COMPLETION)%string eqn:H6;
    [kind_verdict complete_file_transfer_asks|].
  destruct (oi_kind item =? KIND_SMART_CACHE_COMPLETION)%string eqn:H7;
    [kind_verdict complete_smart_cache_asks|].
  intros [= <- <-]. apply unsendable.
Qed.
End dispatch.

(** * Flushing *)

Section flush.
Context {DB N V : Type} `{!SqlDb DB, !SqlTx DB, !SqlCount DB, !TableDb DB OutboxTable}.
Context `{!Http N V, !CredentialStore N, !JsonValue V, !PayloadCodecs V, !ResponseCodecs V}.
Abbreviation agent := (AgentState * N)%type.
Implicit Types (a : agent) (w : world DB) (l : ledger).

(** The items delivered one after the other: what becomes of each, the numbers sent,
    kept for later and given up, and the ledger they leave. *)
Inductive delivers : list OutboxItem -> agent -> ledger -> Z * Z * Z -> agent -> ledger -> Prop :=
| delivers_none a l : delivers [] a l (0, 0, 0)%Z a l
| delivers_sent item items a a1 a2 l l2 s r f :
    OutboxProcessor.dispatch item a = (Ok tt, a1) -> delivers items a1 (settle (oi_id item) Sent l) (s, r, f) a2 l2 ->
    delivers (item :: items) a l ((s + 1)%Z, r, f) a2 l2
| delivers_later item items a a1 a2 l l2 s r f code :
    OutboxProcessor.dispatch item a = (Err (Transient code), a1) -> delivers items a1 l (s, r, f) a2 l2 ->
    delivers (item :: items) a l (s, (r + 1)%Z, f) a2 l2
| delivers_never item items a a1 a2 l l2 s r f code :
    OutboxProcessor.dispatch item a = (Err (Terminal code), a1) -> delivers items a1 (settle (oi_id item) Failed l) (s, r, f) a2 l2 ->
    delivers (item :: items) a l (s, r, (f + 1)%Z) a2 l2.

Lemma delivers_count items a l s r f a' l' :
  delivers items a l (s, r, f) a' l' -> (s + r + f = Z.of_nat (length items) /\ 0 <= s /\ 0 <= r /\ 0 <= f)%Z.
Proof.
  intros H. remember (s, r, f) as c eqn:Hc. revert s r f Hc.
  induction H as [| | |]; intros s' r' f' [= <- <- <-]; simpl length; [lia|..]; specialize (IHdelivers _ _ _ eq_refl); lia.
Qed.

Lemma mark_ledger p (c : outbox_command) (m : io (world DB) string unit) w u w' :
  run_outbox (mkOutboxStore (Some p)) c w = (let! _ := m in io_ret ADone) w ->
  outbox_ok (table_at p w) -> m w = (Ok u, w') ->
  outbox_ok (table_at p w') /\ ledger_does (ledger_of (table_at p w)) c ADone (ledger_of (table_at p w')).
Proof.
  intros Hc Hok Hm. unfold io_bind, io_ret in Hc. rewrite Hm in Hc. by apply outbox_does in Hc as (_ & H1 & H2).
Qed.
Lemma deliver_items p items i s0 r0 f0 n a w rep a' w' :
  outbox_ok (table_at p w) ->
  io_for (fun _ report item => OutboxProcessor.deliver_item (mkOutboxStore (Some p)) report item) i
    (mkOutboxFlushReport n s0 r0 f0) items (a, w) = (Ok rep, (a', w')) ->
  outbox_ok (table_at p w') /\
  exists s r f, rep = mkOutboxFlushReport n (s0 + s) (r0 + r) (f0 + f) /\
    delivers items a (ledger_of (table_at p w)) (s, r, f) a' (ledger_of (table_at p w')).
Proof.
  revert i s0 r0 f0 a w. induction items as [|item items IH]; intros i s0 r0 f0 a w Hok H; simpl in H.
  { injection H as <- <- <-. split; [done|]. exists 0%Z, 0%Z, 0%Z. rewrite !Z.add_0_r. split; [done|constructor]. }
  apply io_bind_ok in H as (rep1 & [a1 w1] & Hd & H). unfold OutboxProcessor.deliver_item in Hd.
  apply io_bind_ok in Hd as (v & [a2 w2] & Hv & Hd). unfold io_try, OutboxProcessor.on_agent in Hv. simpl in Hv.
  destruct (OutboxProcessor.dispatch item a) as [v' a3] eqn:Hdisp. injection Hv as -> -> <-.
  destruct v as [[]|[code|code]]; apply io_bind_ok in Hd as (u & [a4 w4] & Hm & [= <- <- <-]);
    unfold OutboxProcessor.on_outbox in Hm; simpl in Hm.
  - destruct (Outbox.mark_sent _ _ w) as [rm wm] eqn:Hmark. injection Hm as -> <- ->.
    destruct (mark_ledger p (OSent (oi_id item)) (Outbox.mark_sent (mkOutboxStore (Some p)) (oi_id item)) w u w4 eq_refl Hok Hmark) as [Hok1 Hl].
    destruct (IH _ _ _ _ _ _ Hok1 H) as (Hok' & s & r & f & -> & Hdel). split; [done|]. exists (s + 1)%Z, r, f.
    split; [simpl; f_equal; lia|]. inversion Hl; subst. eapply delivers_sent; [exact Hdisp|]. congruence.
  - destruct (Outbox.mark_retry _ _ _ w) as [rm wm] eqn:Hmark. injection Hm as -> <- ->.
    destruct (mark_ledger p (ORetry (oi_id item) code) (Outbox.mark_retry (mkOutboxStore (Some p)) (oi_id item) code) w u w4 eq_refl Hok Hmark) as [Hok1 Hl].
    destruct (IH _ _ _ _ _ _ Hok1 H) as (Hok' & s & r & f & -> & Hdel). split; [done|]. exists s, (r + 1)%Z, f.
    split; [simpl; f_equal; lia|]. inversion Hl; subst. eapply delivers_later; [exact Hdisp|]. congruence.
  - destruct (Outbox.mark_failed _ _ _ w) as [rm wm] eqn:Hmark. injection Hm as -> <- ->.
    destruct (mark_ledger p (OFailed (oi_id item) code) (Outbox.mark_failed (mkOutboxStore (Some p)) (oi_id item) code) w u w4 eq_refl Hok Hmark) as [Hok1 Hl].
    destruct (IH _ _ _ _ _ _ Hok1 H) as (Hok' & s & r & f & -> & Hdel). split; [done|]. exists s, r, (f + 1)%Z.
    split; [simpl; f_equal; lia|]. inversion Hl; subst. eapply delivers_never; [exact Hdisp|]. congruence.
Qed.

Lemma flush_run p a w rep a' w' :
  outbox_ok (table_at p w) -> OutboxProcessor.flush_outbox (mkOutboxStore (Some p)) (a, w) = (Ok rep, (a', w')) ->
  outbox_ok (table_at p w') /\
  exists items s r f,
    Forall2 item_for items (take 50 (List.filter pending_of (ledger_of (table_at p w)))) /\
    rep = mkOutboxFlushReport (Z.of_nat (length items)) s r f /\
    delivers items a (ledger_of (table_at p w)) (s, r, f) a' (ledger_of (table_at p w')).
Proof.
  intros Hok H. unfold OutboxProcessor.flush_outbox in H. apply io_bind_ok in H as (items & [a1 w1] & Hb & H).
  unfold OutboxProcessor.on_outbox in Hb. simpl in Hb. destruct (Outbox.pending_batch _ _ w) as [rb wb] eqn:Hbatch.
  injection Hb as -> <- ->. apply batch_run in Hbatch as (_ & Ht & Hdoes). rewrite <- Ht in Hok.
  destruct (deliver_items _ _ _ _ _ _ _ _ _ _ _ _ Hok H) as (Hok' & s & r & f & -> & Hdel). split; [done|].
  exists items, s, r, f. rewrite Ht in Hdel. split_and!; [|done|done].
  inversion Hdoes as [| | | |? ? Hlim Hf| | | |]; subst; [exact Hf|unfold OUTBOX_FLUSH_BATCH in *; lia].
Qed.

(** ** By the answers of the server *)

(** Items dispatched one after the other, and what each came to; the marks they get. *)
Inductive answered : list (OutboxItem * fate) -> agent -> agent -> Prop :=
| answered_none a : answered [] a a
| answered_item item x items a a1 a2 : comes_to item a x a1 -> answered items a1 a2 -> answered ((item, x) :: items) a a2.
Definition mark_of (x : fate) : option delivery :=
  match x with Accepted => Some Sent | Undecided => None | Refused | Unreadable | Unsendable => Some Failed end.
Definition marked (l : ledger) (items : list (OutboxItem * fate)) : ledger :=
  foldl (fun l '(item, x) => match mark_of x with Some d => settle (oi_id item) d l | None => l end) l items.
Definition fates_of (d : option delivery) (items : list (OutboxItem * fate)) : Z :=
  Z.of_nat (length (List.filter (fun i => bool_decide (mark_of i.2 = d)) items)).

Lemma count_head (d : option delivery) item x items :
  fates_of d ((item, x) :: items) = (fates_of d items + if bool_decide (mark_of x = d) then 1 else 0)%Z.
Proof. unfold fates_of. simpl. case_bool_decide; simpl; lia. Qed.

(** The mark [c] of an item that came to [x]. *)
Ltac mark_case Hmark c x :=
  match goal with H : io_bind (OutboxProcessor.on_outbox _) _ _ = _ |- _ =>
    eapply (Hmark c) in H as (? & -> & ?); [|reflexivity..]; split; [done|]; exists x; split; [done|];
    match goal with |- match ?r with Ok _ => _ | Err _ => _ end => destruct r as [?|]; [|done] end; destruct_and!; subst;
    match goal with H : ledger_does _ _ _ _ |- _ => inversion H; subst; split_and!; [done|done|simpl; unfold fates_of; simpl; lia..] end
  end.
(** One item: dispatched, and marked when its mark could be written. *)
Lemma deliver_item_run p item rep a w r a' w' :
  outbox_ok (table_at p w) -> OutboxProcessor.deliver_item (mkOutboxStore (Some p)) rep item (a, w) = (r, (a', w')) ->
  outbox_ok (table_at p w') /\ exists x, comes_to item a x a' /\
    match r with
    | Ok rep' => ledger_of (table_at p w') = marked (ledger_of (table_at p w)) [(item, x)] /\
        fl_inspected_count rep' = fl_inspected_count rep /\ fl_sent_count rep' = (fl_sent_count rep + fates_of (Some Sent) [(item, x)])%Z /\
        fl_retried_count rep' = (fl_retried_count rep + fates_of None [(item, x)])%Z /\
        fl_failed_count rep' = (fl_failed_count rep + fates_of (Some Failed) [(item, x)])%Z
    | Err _ => ledger_of (table_at p w') = ledger_of (table_at p w)
    end.
Proof.
  intros Hok H. unfold OutboxProcessor.deliver_item in H. unfold io_bind at 1, io_try, OutboxProcessor.on_agent in H. simpl in H.
  destruct (OutboxProcessor.dispatch item a) as [v a3] eqn:Hd. apply dispatch_verdict in Hd as (x & Hx & Hc).
  assert (forall c (m : io (world DB) string unit) (k : OutboxFlushReport) w1,
            run_outbox (mkOutboxStore (Some p)) c w1 = (let! _ := m in io_ret ADone) w1 -> w1 = w ->
            (let! _ := OutboxProcessor.on_outbox m in io_ret k) (a3, w) = (r, (a', w')) ->
            outbox_ok (table_at p w') /\ a' = a3 /\
            match r with Ok rep' => rep' = k /\ ledger_does (ledger_of (table_at p w)) c ADone (ledger_of (table_at p w'))
            | Err _ => ledger_of (table_at p w') = ledger_of (table_at p w) end) as Hmark.
  { intros c m k w1 Hrun -> Hm. unfold io_bind, OutboxProcessor.on_outbox, io_ret in Hrun, Hm. simpl in Hm.
    destruct (m w) as [[u|e] wm] eqn:Hmw; injection Hm as <- <- <-; apply outbox_does in Hrun as (_ & H1 & H2); auto. }
  destruct v as [[]|[code|code]], x; try done.
  - mark_case Hmark (OSent (oi_id item)) Accepted.
  - mark_case Hmark (ORetry (oi_id item) code) Undecided.
  - mark_case Hmark (OFailed (oi_id item) code) Refused.
  - mark_case Hmark (OFailed (oi_id item) code) Unreadable.
  - mark_case Hmark (OFailed (oi_id item) code) Unsendable.
Qed.
(** All of them, or up to the first whose mark could not be written. *)
Lemma items_run p items i rep a w r a' w' :
  outbox_ok (table_at p w) ->
  io_for (fun _ report item => OutboxProcessor.deliver_item (mkOutboxStore (Some p)) report item) i rep items (a, w) = (r, (a', w')) ->
  outbox_ok (table_at p w') /\
  match r with
  | Ok rep' => exists fates, length fates = length items /\ answered (zip items fates) a a' /\
      ledger_of (table_at p w') = marked (ledger_of (table_at p w)) (zip items fates) /\
      fl_inspected_count rep' = fl_inspected_count rep /\ fl_sent_count rep' = (fl_sent_count rep + fates_of (Some Sent) (zip items fates))%Z /\
      fl_retried_count rep' = (fl_retried_count rep + fates_of None (zip items fates))%Z /\
      fl_failed_count rep' = (fl_failed_count rep + fates_of (Some Failed) (zip items fates))%Z
  | Err _ => exists n fates, (n < length items)%nat /\ length fates = S n /\ answered (zip (take (S n) items) fates) a a' /\
      ledger_of (table_at p w') = marked (ledger_of (table_at p w)) (zip (take n items) fates)
  end.
Proof.
  revert i rep a w. induction items as [|item items IH]; intros i rep a w Hok H; simpl in H.
  { injection H as <- <- <-. split; [done|]. exists []. split_and!; try done; [constructor|unfold fates_of; simpl; lia..]. }
  apply io_bind_inv in H as [(rep1 & [a1 w1] & H1 & H)|(e & H1 & ->)]; apply deliver_item_run in H1 as (Hok1 & x & Hx & H1); try done.
  - destruct H1 as (Hl & Hi & Hs & Hr & Hf). apply IH in H as [Hok' H]; [|done]. split; [done|]. destruct r as [rep'|e].
    + destruct H as (fates & Hlen & Ha & Hl' & Hi' & Hs' & Hr' & Hf'). exists (x :: fates). simpl. rewrite !count_head.
      rewrite count_head in Hs, Hr, Hf. unfold fates_of at 1 in Hs. unfold fates_of at 1 in Hr. unfold fates_of at 1 in Hf. simpl in Hs, Hr, Hf.
      split_and!; [congruence|by econstructor|by rewrite Hl', Hl|congruence|lia..].
    + destruct H as (n & fates & Hn & Hlen & Ha & Hl'). exists (S n), (x :: fates). simpl. split_and!; [lia|congruence|by econstructor|by rewrite Hl', Hl].
  - split; [done|]. exists 0%nat, [x]. simpl. split_and!; [lia|done| |exact H1]. repeat econstructor. exact Hx.
Qed.
End flush.

(** ** Draining *)

Definition pending_ids (l : ledger) : list Z := map mu_id (List.filter pending_of l).
Lemma settle_ids id d l : map mu_id (settle id d l) = map mu_id l.
Proof. unfold settle. rewrite map_map. apply map_ext. intros m. by destruct (_ && _). Qed.
Lemma settle_other id d l : Forall (fun m => mu_id m <> id) l -> settle id d l = l.
Proof.
  unfold settle. induction 1 as [|m l Hm _ IH]; simpl; [done|]. rewrite (proj2 (Z.eqb_neq _ _) Hm). simpl. by rewrite IH.
Qed.
(** Settling the first pending mutation leaves the others. *)
Lemma settle_first id d l rest : d <> Pending ->
  NoDup (map mu_id l) -> pending_ids l = id :: rest -> pending_ids (settle id d l) = rest.
Proof.
  intros Hd. unfold pending_ids. induction l as [|m l IH]; simpl; [done|]. intros [Hm Hn]%NoDup_cons.
  destruct (pending_of m) eqn:Hp; simpl.
  - intros [= <- Hr]. rewrite Z.eqb_refl. simpl.
    assert (pending_of (settled d m) = false) as -> by (unfold pending_of; simpl; by destruct d).
    fold (settle (mu_id m) d l). rewrite settle_other; [done|]. apply list.Forall_forall. intros x Hx Heq. apply Hm.
    apply list_elem_of_fmap. by exists x.
  - intros Hr. destruct ((mu_id m =? id)%Z && false) eqn:Hf; [by rewrite andb_false_r in Hf|]. rewrite Hp. by apply IH.
Qed.

Section drain.
Context {DB N V : Type} `{!SqlDb DB, !SqlTx DB, !SqlCount DB, !TableDb DB OutboxTable}.
Context `{!Http N V, !CredentialStore N, !JsonValue V, !PayloadCodecs V, !ResponseCodecs V}.
Implicit Types (a : AgentState * N) (w : world DB).

(** The loop of the background task, [k] times. *)
Fixpoint flush_rounds (outbox : OutboxStore) (k : nat) (st : (AgentState * N) * world DB)
  : list (result OutboxFlushReport string) * ((AgentState * N) * world DB) :=
  match k with
  | O => ([], st)
  | S k =>
      let '(r, st1) := OutboxProcessor.flush_outbox outbox st in
      let '(rs, st2) := flush_rounds outbox k st1 in
      (r :: rs, st2)
  end.

Lemma delivers_pending items a l s r f a' l' rest :
  (forall item a, forall code a1, OutboxProcessor.dispatch item a <> (Err (Transient code), a1)) ->
  delivers items a l (s, r, f) a' l' -> NoDup (map mu_id l) -> pending_ids l = map oi_id items ++ rest ->
  pending_ids l' = rest /\ map mu_id l' = map mu_id l.
Proof.
  intros Hnt H. remember (s, r, f) as c eqn:Hc. revert s r f Hc.
  induction H as [a l|item items a a1 a2 l l2 s r f Hd _ IH|item items a a1 a2 l l2 s r f code Hd _ IH|item items a a1 a2 l l2 s r f code Hd _ IH];
    intros s' r' f' Hc Hnd Hp; simpl in Hp.
  - done.
  - destruct (IH _ _ _ eq_refl) as [H1 H2]; [by rewrite settle_ids|by apply settle_first|]. by rewrite settle_ids in H2.
  - by apply Hnt in Hd.
  - destruct (IH _ _ _ eq_refl) as [H1 H2]; [by rewrite settle_ids|by apply settle_first|]. by rewrite settle_ids in H2.
Qed.

Lemma sorted_nodup (l : list Z) : StronglySorted Z.lt l -> NoDup l.
Proof.
  induction 1 as [|x l _ IH Hx]; constructor; [|done]. intros Hin. rewrite list.Forall_forall in Hx. specialize (Hx x Hin). lia.
Qed.
Lemma ledger_nodup t : outbox_ok t -> NoDup (map mu_id (ledger_of t)).
Proof. intros Hok. unfold ledger_of. rewrite map_map. apply sorted_nodup, (ok_ids _ Hok). Qed.

Lemma flush_pending p a w rep a' w' :
  (forall item a, forall code a1, OutboxProcessor.dispatch item a <> (Err (Transient code), a1)) ->
  outbox_ok (table_at p w) -> OutboxProcessor.flush_outbox (mkOutboxStore (Some p)) (a, w) = (Ok rep, (a', w')) ->
  outbox_ok (table_at p w') /\ pending_ids (ledger_of (table_at p w')) = drop 50 (pending_ids (ledger_of (table_at p w))).
Proof.
  intros Hnt Hok H. destruct (flush_run _ _ _ _ _ _ Hok H) as (Hok' & items & s & r & f & Hitems & _ & Hdel). split; [done|].
  set (l := ledger_of (table_at p w)) in *.
  assert (pending_ids l = map oi_id items ++ drop 50 (pending_ids l)) as Hp.
  { assert (map oi_id items = take 50 (pending_ids l)) as ->; [|by rewrite take_drop].
    unfold pending_ids. rewrite firstn_map. clear -Hitems. induction Hitems as [|i m items ms Him _ IH]; [done|].
    simpl. destruct Him as (-> & _). by rewrite IH. }
  exact (proj1 (delivers_pending _ _ _ _ _ _ _ _ _ Hnt Hdel (ledger_nodup _ Hok) Hp)).
Qed.
Lemma rounds_pending p k a w reports a' w' :
  (forall item a, forall code a1, OutboxProcessor.dispatch item a <> (Err (Transient code), a1)) ->
  outbox_ok (table_at p w) -> flush_rounds (mkOutboxStore (Some p)) k (a, w) = (reports, (a', w')) ->
  Forall (fun r => is_ok r = true) reports ->
  outbox_ok (table_at p w') /\ pending_ids (ledger_of (table_at p w')) = drop (50 * k) (pending_ids (ledger_of (table_at p w))).
Proof.
  intros Hnt. revert a w reports. induction k as [|k IH]; intros a w reports Hok H Hall; simpl in H; [by injection H as <- <- <-|].
  destruct (OutboxProcessor.flush_outbox _ (a, w)) as [r [a1 w1]] eqn:Hf.
  destruct (flush_rounds _ k (a1, w1)) as [rs [a2 w2]] eqn:Hr. injection H as <- <- <-. apply Forall_cons in Hall as [H1 H2].
  destruct r as [rep|]; [|done]. destruct (flush_pending _ _ _ _ _ _ Hnt Hok Hf) as [Hok1 Hp].
  destruct (IH _ _ _ Hok1 Hr H2) as [Hok2 Hp2]. split; [done|]. rewrite Hp2, Hp, drop_drop. f_equal. lia.
Qed.
End drain.

(** * Properties *)

(** delivering a queued mutation makes at most one request, the one of its payload, with
    the credential of the device; it counts as sent only when the server answered with a
    success that was understood, may be retried only when the server did not decide, and is
    given up only when it did or when there was nothing to send. *)
Theorem dispatch_asks_once {N V : Type} `{!Http N V, !CredentialStore N, !JsonValue V, !PayloadCodecs V, !ResponseCodecs V}
    (item : OutboxItem) (st : AgentState * N) r st' :
  OutboxProcessor.dispatch item st = (r, st') -> verdict item st r st'.
Proof. apply dispatch_verdict. Qed.


(** C25: the outbox drains: while the server decides every request, fifty mutations are
    settled by each flush that succeeds, so that after enough flushes none is pending. *)
Theorem outbox_drains {DB N V : Type} `{!SqlDb DB, !SqlTx DB, !SqlCount DB, !TableDb DB OutboxTable}
    `{!Http N V, !CredentialStore N, !JsonValue V, !PayloadCodecs V, !ResponseCodecs V}
    (p : string) (k : nat) (a a' : AgentState * N) (w w' : world DB) reports :
  (forall (req : HttpRequest V) n, undecided (http_send req n).1 = false) ->
  outbox_ok (table_at p w) -> flush_rounds (mkOutboxStore (Some p)) k (a, w) = (reports, (a', w')) ->
  Forall (fun r => is_ok r = true) reports -> (length (List.filter pending_of (ledger_of (table_at p w))) <= 50 * k)%nat ->
  Forall (fun m => pending_of m = false) (ledger_of (table_at p w')).
Proof.
  intros Hserver Hok H Hall Hk.
  assert (forall item (a : AgentState * N) code a1, OutboxProcessor.dispatch item a <> (Err (Transient code), a1)) as Hnt.
  { intros item a0 code a1 Hd. apply dispatch_verdict in Hd as (x & Hx & Hc). destruct x; try done.
    destruct Hc as (request & understood & url & c & answer & n & _ & _ & _ & Hs & Hu & _).
    specialize (Hserver (request url c) a0.2). rewrite Hs in Hserver. simpl in Hserver, Hu. congruence. }
  destruct (rounds_pending _ _ _ _ _ _ _ Hnt Hok H Hall) as [_ Hp].
  rewrite drop_ge in Hp by (unfold pending_ids; rewrite length_map; lia). apply map_eq_nil in Hp.
  apply list.Forall_forall. intros m Hm. destruct (pending_of m) eqn:Hpm; [|done]. exfalso.
  apply (in_nil (a := m)). rewrite <- Hp. apply filter_In. split; [by apply list_elem_of_In|done].
Qed.

(** * The outbox loop at work: a small server and its codecs, the witnesses of the
    properties of delivery, and what the loop does where a device, a path or a
    mutation comes in the way. *)

(** * A server *)

(** JSON values of which one is an object. *)
#[local] Instance bool_value : JsonValue bool := fun b => b.
Definition no_codec (T : Type) : Serde T := {| to_text := fun _ => ""; from_text := fun _ => None |}.
Definition parts (text : string) : list string := split_on (Ascii.eqb "|") text.

#[local] Instance sample_payloads : PayloadCodecs bool := {|
  codec_execution := {| to_text p := xp_execution_id p +:+ "|" +:+ xp_status p;
                        from_text t := match parts t with [id; status] => Some (mkExecutionResultPayload id status true) | _ => None end |};
  codec_proposal := no_codec _; codec_command := no_codec _; codec_transfer := no_codec _; codec_cache := no_codec _;
  codec_stale := {| to_text p := lp_room_id p +:+ "|" +:+ default "" (lp_source_relative_path p) +:+ "|" +:+ lp_reason p;
                    from_text t := match parts t with
                                   | [room; path; reason] =>
                                       Some (mkSmartCacheStalePayload room (if is_empty path then None else Some path) reason)
                                   | _ => None
                                   end |};
  codec_snapshot := no_codec _ |}.
#[local] Instance sample_responses : ResponseCodecs bool := {|
  codec_server_error := no_codec _; codec_server_command := no_codec _; codec_file_transfer := no_codec _;
  codec_cached_file := no_codec _; codec_stale_result := no_codec _; codec_room_snapshot := no_codec _;
  codec_execution_result := {| to_text r := er_id r; from_text t := Some (mkExecutionResponse t "SUCCEEDED") |} |}.
#[local] Instance sample_sha : Sha256 := fun s => s.

Inductive healthy := Healthy.
(** It cannot take what names [poison], and may be down. *)
Inductive mood := Up | Down.
Definition accepted : option HttpResponse := Some (mkHttpResponse 200 "done").
#[local] Instance healthy_http : Http healthy bool := {| http_send _ n := (accepted, n); http_status_text := fmt_int |}.
#[local] Instance mood_http : Http mood bool := {|
  http_send req n :=
    (match n with
     | Down => None
     | Up => if contains (rq_url req) "poison" then Some (mkHttpResponse 503 "") else accepted
     end, n);
  http_status_text := fmt_int |}.
Definition no_keyring (N : Type) : CredentialStore N := {|
  credentials_load n := (Ok None, n); credentials_save _ n := (Ok tt, n); credentials_delete n := (Ok tt, n) |}.
#[local] Instance healthy_keys : CredentialStore healthy := no_keyring _.
#[local] Instance mood_keys : CredentialStore mood := no_keyring _.

Definition paired : AgentState :=
  mkAgentState (Some "https://server") (Some (mkDeviceCredential "https://server" "device-1" "token-1")) SOffline None.
Definition unpaired : AgentState := mkAgentState (Some "https://server") None SUnconfigured None.

(** The results of the executions [ids], queued. *)
Fixpoint queue_results (ids : list string) (w : world (MemTables OutboxTable)) : world (MemTables OutboxTable) :=
  match ids with
  | [] => w
  | id :: ids => queue_results ids (OutboxProcessor.enqueue_execution_result (V:=bool) sample_outbox id "SUCCEEDED" true w).2
  end.
Definition queued (ids : list string) : world (MemTables OutboxTable) := queue_results ids outbox_machine.
Definition fates (w : world (MemTables OutboxTable)) : list (string * delivery) :=
  map (fun m => (mu_key m, mu_delivery m)) (ledger_of (table_at outbox_db w)).
Definition flush {N} `{!Http N bool, !CredentialStore N} (a : AgentState * N) (w : world (MemTables OutboxTable)) :=
  OutboxProcessor.flush_outbox (V:=bool) sample_outbox (a, w).

(** * Witnesses *)

(** Conversion compares the runs below before it computes them. *)
Strategy 1000 [OutboxProcessor.flush_outbox flush_rounds].

Lemma queued_ok ids : outbox_ok (table_at outbox_db (queued ids)).
Proof.
  unfold queued. pose proof empty_outbox_ok as H. revert H. generalize outbox_machine.
  induction ids as [|id ids IH]; intros w Hok; simpl; [done|]. apply IH.
  pose proof (outbox_does outbox_db (OEnqueue KIND_EXECUTION_RESULT id (to_text (mkExecutionResultPayload id "SUCCEEDED" true))) w) as H.
  unfold run_outbox, io_bind, io_ret in H. unfold OutboxProcessor.enqueue_execution_result. unfold sample_outbox in *.
  destruct (Outbox.enqueue _ _ _ _ w) as [[u|e] w']; by destruct (H _ w' Hok eq_refl) as (_ & ? & _).
Qed.

Definition sample_item : OutboxItem := mkOutboxItem 1 KIND_EXECUTION_RESULT "exec-1" "exec-1|SUCCEEDED" 0.
Lemma dispatch_asks_once_witness :
  verdict (V:=bool) sample_item (paired, Healthy) (Ok tt) (mkAgentState (ag_server_base_url paired) (ag_credential paired) SOnline None, Healthy).
Proof.
  assert (OutboxProcessor.dispatch (V:=bool) sample_item (paired, Healthy) =
    (Ok tt, (mkAgentState (ag_server_base_url paired) (ag_credential paired) SOnline None, Healthy))) as H by (vm_compute; reflexivity).
  exact (dispatch_asks_once sample_item (paired, Healthy) _ _ H).
Defined.

Definition two_results : list string := ["exec-1"; "exec-poison"].
Definition flushed := flush (paired, Up) (queued two_results).

Definition drained := flush_rounds (V:=bool) sample_outbox 1 ((paired, Healthy), queued two_results).
Lemma outbox_drains_witness :
  Forall (fun m => pending_of m = false) (ledger_of (table_at outbox_db drained.2.2)) /\
  fates drained.2.2 = [("exec-1", Sent); ("exec-poison", Sent)].
Proof.
  split; [|vm_compute; reflexivity].
  assert (forallb is_ok drained.1 = true) as Hall by (vm_compute; reflexivity).
  assert (length (List.filter pending_of (ledger_of (table_at outbox_db (queued two_results)))) <= 50 * 1)%nat as Hk by (vm_compute; lia).
  unfold drained, sample_outbox in *. destruct (flush_rounds _ _ _) as [reports [a' w']] eqn:H.
  assert (Forall (fun r => is_ok r = true) reports) as Hok.
  { apply list.Forall_forall. intros r Hr. rewrite forallb_forall in Hall. apply Hall. by apply list_elem_of_In. }
  exact (outbox_drains outbox_db 1 (paired, Healthy) a' (queued two_results) w' reports (fun _ _ => eq_refl)
    (queued_ok two_results) H Hok Hk).
Defined.

(** * Edge cases *)

(** While the device is not paired no request is made, and yet every pending mutation
    is given up: the results of executions are lost. *)
Definition flushed_unpaired := flush (unpaired, Up) (queued ["exec-1"; "exec-2"]).
Example unpaired_device_gives_up :
  fates flushed_unpaired.2.2 = [("exec-1", Failed); ("exec-2", Failed)] /\ flushed_unpaired.2.1 = (unpaired, Up).
Proof. split; vm_compute; reflexivity. Qed.
Definition flushed_down := flush (paired, Down) (queued ["exec-1"; "exec-2"]).
Example unreachable_server_is_retried : fates flushed_down.2.2 = [("exec-1", Pending); ("exec-2", Pending)].
Proof. vm_compute. reflexivity. Qed.

(** A file whose name has a colon may be queued as stale; the report is never sent. *)
Definition colon_report := OutboxProcessor.enqueue_smart_cache_stale (V:=bool) sample_outbox "room-1" (Some "notes/a:b.txt") "SOURCE_CHANGED" outbox_machine.
Definition colon_flushed := flush (paired, Up) colon_report.2.
Example colon_path_is_never_reported :
  colon_report.1 = Ok true /\ map snd (fates colon_flushed.2.2) = [Failed] /\ colon_flushed.2.1 = (paired, Up).
Proof. split_and!; vm_compute; reflexivity. Qed.

(** Fifty mutations that the server cannot take keep all later ones from being sent. *)
Definition poisoned : list string := map (fun n => "poison-" +:+ pretty n) (seq 0 50) ++ ["exec-1"].
Definition starved := flush (paired, Up) (flush (paired, Up) (queued poisoned)).2.2.
Example poison_starves_the_queue :
  forallb (fun f => bool_decide (f.2 = Pending)) (fates starved.2.2) = true.
Proof. vm_compute. reflexivity. Qed.
