(* ===== verification/approval_store.v ===== *)
(** The policies of automatic approval: their store, and its properties. *)
From Stdlib Require Import ZArith Lia Ascii.
From stdpp Require Import strings pretty gmap functions option list.
From S2P Require Import prelude rust_str std_path std_fs fs_facts db journal_store proposal_types auto_approval index_sql tables desk cleanliness agent.

Open Scope string_scope.
Open Scope list_scope.


(** * [apps/desktop/src-tauri/src/storage/auto_approval.rs]: the policy of automatic
    approval of each root, in memory and in a database. *)

Record AutoApprovalPolicyRecord := mkPolicyRecord {
  ap_root_id : string;
  ap_enabled : bool;
  ap_allowed_actions : list ProposalAction;
  ap_max_files_per_run : Z;          (** [usize] *)
  ap_expires_unix_ms : option Z;     (** [i64] *)
  ap_updated_unix_ms : Z;            (** [i64] *)
}.
#[export] Instance AutoApprovalPolicyRecord_eq_dec : EqDecision AutoApprovalPolicyRecord.
Proof. solve_decision. Defined.
Record AutoApprovalPolicyPatch := mkPolicyPatch {
  pp_enabled : option bool;
  pp_allowed_actions : option (list ProposalAction);
  pp_max_files_per_run : option Z;   (** [usize] *)
  pp_expires_unix_ms : option Z;     (** [i64] *)
}.

(** * The database *)

(** A row but its key [root_id]. *)
Record PolicyRow := mkPolicyRow {
  pw_enabled : Z; pw_allowed_actions_json : string; pw_max_files_per_run : Z; pw_expires_unix_ms : option Z;
  pw_updated_unix_ms : Z }.
Record PolicyTable := mkPolicyTable { pt_made : bool; pt_rows : gmap string PolicyRow }.

Module PolicySql.
Definition migrate : string := "CREATE TABLE IF NOT EXISTS auto_approval_policies (
            root_id TEXT PRIMARY KEY NOT NULL,
            enabled INTEGER NOT NULL,
            allowed_actions_json TEXT NOT NULL,
            max_files_per_run INTEGER NOT NULL,
            expires_unix_ms INTEGER,
            updated_unix_ms INTEGER NOT NULL
        )".
Definition select : string := "SELECT root_id, enabled, allowed_actions_json, max_files_per_run, expires_unix_ms, updated_unix_ms
         FROM auto_approval_policies
         ORDER BY root_id".
Definition upsert : string := "INSERT INTO auto_approval_policies
                    (root_id, enabled, allowed_actions_json, max_files_per_run, expires_unix_ms, updated_unix_ms)
                 VALUES (?1, ?2, ?3, ?4, ?5, ?6)
                 ON CONFLICT(root_id) DO UPDATE SET
                    enabled = excluded.enabled,
                    allowed_actions_json = excluded.allowed_actions_json,
                    max_files_per_run = excluded.max_files_per_run,
                    expires_unix_ms = excluded.expires_unix_ms,
                    updated_unix_ms = excluded.updated_unix_ms".
Definition delete : string := "DELETE FROM auto_approval_policies WHERE root_id = ?1".

Definition execute (sql : string) (binds : list sql_value) (t : PolicyTable) : option (PolicyTable * Z) :=
  if (sql =? migrate)%string then Some (mkPolicyTable true (pt_rows t), 0%Z)
  else if negb (pt_made t) then None
  else if (sql =? upsert)%string then
    match binds with
    | [SqlText id; SqlInt enabled; SqlText json; SqlInt max; expires; SqlInt updated] =>
        expires ← int_opt expires;
        Some (mkPolicyTable true (<[id := mkPolicyRow enabled json max expires updated]> (pt_rows t)), 1%Z)
    | _ => None
    end
  else if (sql =? delete)%string then
    match binds with
    | [SqlText id] =>
        Some (mkPolicyTable true (base.delete id (pt_rows t)), match pt_rows t !! id with Some _ => 1%Z | None => 0%Z end)
    | _ => None
    end
  else None.
Definition columns_of (e : string * PolicyRow) : sql_row :=
  [("root_id", SqlText e.1); ("enabled", SqlInt (pw_enabled e.2));
   ("allowed_actions_json", SqlText (pw_allowed_actions_json e.2));
   ("max_files_per_run", SqlInt (pw_max_files_per_run e.2)); ("expires_unix_ms", opt_int (pw_expires_unix_ms e.2));
   ("updated_unix_ms", SqlInt (pw_updated_unix_ms e.2))].
Definition fetch (sql : string) (binds : list sql_value) (t : PolicyTable) : option (list sql_row) :=
  if (sql =? select)%string then
    if pt_made t then Some (map columns_of (entries (pt_rows t))) else None
  else None.
End PolicySql.

#[export] Instance policy_schema : Schema PolicyTable := {
  sc_statements := [PolicySql.migrate; PolicySql.upsert; PolicySql.delete];
  sc_queries := [PolicySql.select];
  sc_execute := PolicySql.execute;
  sc_fetch := PolicySql.fetch;
}.

(** * The store *)

Record AutoApprovalStore := mkApprovalStore {
  as_policies : gmap string AutoApprovalPolicyRecord; as_pool : option string }.
Definition no_policies : AutoApprovalStore := mkApprovalStore ∅ None.

Module ApprovalStore.
Definition bool_int (b : bool) : Z := if b then 1%Z else 0%Z.
Definition int_bool (z : Z) : bool := negb (z =? 0)%Z.

Definition with_enabled (b : option bool) (p : AutoApprovalPolicyRecord) : AutoApprovalPolicyRecord :=
  mkPolicyRecord (ap_root_id p) (default (ap_enabled p) b) (ap_allowed_actions p) (ap_max_files_per_run p)
    (ap_expires_unix_ms p) (ap_updated_unix_ms p).
Definition with_actions (l : option (list ProposalAction)) (p : AutoApprovalPolicyRecord) : AutoApprovalPolicyRecord :=
  mkPolicyRecord (ap_root_id p) (ap_enabled p) (default (ap_allowed_actions p) l) (ap_max_files_per_run p)
    (ap_expires_unix_ms p) (ap_updated_unix_ms p).
Definition with_limit (max : option Z) (p : AutoApprovalPolicyRecord) : AutoApprovalPolicyRecord :=
  mkPolicyRecord (ap_root_id p) (ap_enabled p) (ap_allowed_actions p) (default (ap_max_files_per_run p) max)
    (ap_expires_unix_ms p) (ap_updated_unix_ms p).
Definition with_expiry (expires : option Z) (now : Z) (p : AutoApprovalPolicyRecord) : AutoApprovalPolicyRecord :=
  mkPolicyRecord (ap_root_id p) (ap_enabled p) (ap_allowed_actions p) (ap_max_files_per_run p)
    (match expires with Some _ => expires | None => ap_expires_unix_ms p end) now.

Section store.
Context {DB : Type} `{!SqlDb DB, !Serde (list ProposalAction)}.
Abbreviation WIO := (io (world DB) string).
Abbreviation IO := (io (AutoApprovalStore * world DB) string).

Definition unix_ms {E} : io (world DB) E Z := let! ms := now_ms in io_ret (Z.min (2 ^ 63 - 1) ms).
Definition default_for_root (root_id : string) : WIO AutoApprovalPolicyRecord :=
  let! now := unix_ms in io_ret (mkPolicyRecord root_id false [Trash] 20 None now).
Definition is_expired (p : AutoApprovalPolicyRecord) : WIO bool :=
  match ap_expires_unix_ms p with
  | Some expires => let! now := unix_ms in io_ret (expires <=? now)%Z
  | None => io_ret false
  end.
Definition to_engine_policy (p : AutoApprovalPolicyRecord) : WIO AutoApprovalPolicy :=
  let! on := if ap_enabled p then let! expired := is_expired p in io_ret (negb expired) else io_ret false in
  io_ret (mkAutoApprovalPolicy on (ap_allowed_actions p) (ap_max_files_per_run p)).

Definition policy_of_row (row : sql_row) : result AutoApprovalPolicyRecord string :=
  let? root_id := map_err (fun e => "cannot read auto approval root_id: " +:+ e) (try_get_text row "root_id") in
  let? json := map_err (fun e => "cannot read auto approval actions: " +:+ e) (try_get_text row "allowed_actions_json") in
  let? actions := match from_text json with
                  | Some l => Ok l
                  | None => Err ("cannot parse auto approval actions: " +:+ json)
                  end in
  if bool_decide ((actions : list ProposalAction) = []) then Err ("auto approval policy has no allowed actions: " +:+ root_id)
  else
    let? max := map_err (fun e => "cannot read auto approval limit: " +:+ e) (try_get_int row "max_files_per_run") in
    if (max <=? 0)%Z then Err ("auto approval max_files_per_run must be positive: " +:+ root_id)
    else
      let? on := map_err (fun e => "cannot read auto approval enabled: " +:+ e) (try_get_int row "enabled") in
      let? expires := map_err (fun e => "cannot read auto approval expiry: " +:+ e) (try_get_opt_int row "expires_unix_ms") in
      let? updated := map_err (fun e => "cannot read auto approval update time: " +:+ e) (try_get_int row "updated_unix_ms") in
      Ok (mkPolicyRecord root_id (int_bool on) actions max expires updated).
Definition migrate (pool : string) : WIO unit :=
  io_map_err (fun e => "cannot migrate auto approval policies: " +:+ e) (Db.execute pool PolicySql.migrate []).
Definition read_policies (pool : string) : WIO (list AutoApprovalPolicyRecord) :=
  let! rows := io_map_err (fun e => "cannot read auto approval policies: " +:+ e) (Db.fetch_all pool PolicySql.select []) in
  io_lift (try_map policy_of_row rows).
Definition load_from_db (path : string) : IO unit :=
  let! pool := on_world (io_map_err Db.fmt (Db.open_pool_at path)) in
  let! loaded := on_world (do! migrate pool; read_policies pool) in
  set_store (mkApprovalStore (list_to_map (rev (map (fun p => (ap_root_id p, p)) loaded))) (Some pool)).

Definition binds_of (p : AutoApprovalPolicyRecord) : list sql_value :=
  [SqlText (ap_root_id p); SqlInt (bool_int (ap_enabled p)); SqlText (to_text (ap_allowed_actions p));
   SqlInt (i64_or (2 ^ 63 - 1) (ap_max_files_per_run p)); opt_int (ap_expires_unix_ms p); SqlInt (ap_updated_unix_ms p)].
Definition persist (p : AutoApprovalPolicyRecord) : IO unit :=
  let! s := get_store in
  match as_pool s with
  | None => io_ret tt
  | Some pool =>
      on_world (io_map_err (fun e => "cannot persist auto approval policy: " +:+ e)
                  (Db.execute pool PolicySql.upsert (binds_of p)))
  end.
Definition delete_persisted (root_id : string) : IO unit :=
  let! s := get_store in
  match as_pool s with
  | None => io_ret tt
  | Some pool =>
      on_world (io_map_err (fun e => "cannot delete auto approval policy: " +:+ e)
                  (Db.execute pool PolicySql.delete [SqlText root_id]))
  end.

Definition get_or_default (root_id : string) : IO AutoApprovalPolicyRecord :=
  let! s := get_store in
  match as_policies s !! root_id with
  | Some policy => io_ret policy
  | None => on_world (default_for_root root_id)
  end.
(** The entry of [root_id] is changed in place. *)
Definition put (root_id : string) (p : AutoApprovalPolicyRecord) : IO unit :=
  let! s := get_store in set_store (mkApprovalStore (<[root_id := p]> (as_policies s)) (as_pool s)).
Definition patch (root_id : string) (changes : AutoApprovalPolicyPatch) : IO AutoApprovalPolicyRecord :=
  let! policy := get_or_default root_id in
  let policy := with_enabled (pp_enabled changes) policy in
  if bool_decide (pp_allowed_actions changes = Some []) then
    do! put root_id policy;
    io_fail "auto approval policy must allow at least one action"
  else
    let policy := with_actions (pp_allowed_actions changes) policy in
    if bool_decide (pp_max_files_per_run changes = Some 0%Z) then
      do! put root_id policy;
      io_fail "auto approval max_files_per_run must be greater than zero"
    else
      let policy := with_limit (pp_max_files_per_run changes) policy in
      let! now := on_world unix_ms in
      let policy := with_expiry (pp_expires_unix_ms changes) now policy in
      do! put root_id policy;
      do! persist policy;
      io_ret policy.
Definition remove (root_id : string) : IO bool :=
  let! s := get_store in
  do! set_store (mkApprovalStore (delete root_id (as_policies s)) (as_pool s));
  do! delete_persisted root_id;
  io_ret (match as_policies s !! root_id with Some _ => true | None => false end).

(** ** Calls *)

Inductive Call := CLoad (path : string) | CPatch (root_id : string) (changes : AutoApprovalPolicyPatch) | CRemove (root_id : string).
Definition call (c : Call) : IO unit :=
  match c with
  | CLoad path => load_from_db path
  | CPatch root_id changes => do! patch root_id changes; io_ret tt
  | CRemove root_id => do! remove root_id; io_ret tt
  end.
(** Calls in their order, each answered before the next, refused or not. *)
Definition calls (l : list Call) (st : AutoApprovalStore * world DB) : AutoApprovalStore * world DB :=
  fold_left (fun st c => (call c st).2) l st.
End store.
End ApprovalStore.
Arguments ApprovalStore.Call : clear implicits.

(** * The policies of automatic approval: every one of them can be applied, and a restart
    restores them. *)

(** * Well-typed policies *)

(** What the engine asks of an enabled policy, of the policies of a store under their
    own ids, and of the [usize] of a change. *)
Definition policy_typed (p : AutoApprovalPolicyRecord) : Prop := ap_allowed_actions p <> [] /\ (0 < ap_max_files_per_run p)%Z.
Definition store_typed (s : AutoApprovalStore) : Prop :=
  map_Forall (fun id p => ap_root_id p = id /\ policy_typed p) (as_policies s).
Definition changes_typed (c : AutoApprovalPolicyPatch) : Prop :=
  match pp_max_files_per_run c with Some max => (0 <= max)%Z | None => True end.
Definition call_typed (c : ApprovalStore.Call) : Prop :=
  match c with ApprovalStore.CPatch _ changes => changes_typed changes | _ => True end.

Lemma with_enabled_typed b p : policy_typed p -> policy_typed (ApprovalStore.with_enabled b p).
Proof. done. Qed.
Lemma with_actions_typed l p : l <> Some [] -> policy_typed p -> policy_typed (ApprovalStore.with_actions l p).
Proof. intros Hl [H1 H2]. split; [|done]. destruct l; simpl; congruence. Qed.
Lemma with_limit_typed max p :
  max <> Some 0%Z -> match max with Some m => (0 <= m)%Z | None => True end -> policy_typed p ->
  policy_typed (ApprovalStore.with_limit max p).
Proof. intros Hm Hz [H1 H2]. split; [done|]. destruct max as [m|]; simpl; [|done]. assert (m <> 0%Z) by congruence. lia. Qed.

Section typed.
Context {DB : Type} `{!SqlDb DB, !Serde (list ProposalAction)}.
Implicit Types st : AutoApprovalStore * world DB.

Definition keeps_typed st st' : Prop := store_typed st.1 -> store_typed st'.1.
#[export] Instance keeps_typed_preorder : PreOrder keeps_typed.
Proof. split; [by intros st H|]. intros s1 s2 s3 H1 H2 H. by apply H2, H1. Qed.
Lemma on_world_typed {A} (m : io (world DB) string A) : io_rel keeps_typed (on_world m).
Proof. intros [s w] r st' (w' & _ & ->)%on_world_run. by unfold keeps_typed. Qed.

Lemma policy_of_row_typed row p : ApprovalStore.policy_of_row row = Ok p -> policy_typed p.
Proof.
  unfold ApprovalStore.policy_of_row. intros H. unwrap H. injection H as <-.
  split; simpl; [by eapply bool_decide_eq_false_1|by apply Z.leb_gt].
Qed.
Lemma load_typed path : io_rel keeps_typed (ApprovalStore.load_from_db (DB:=DB) path).
Proof.
  unfold ApprovalStore.load_from_db. apply io_rel_bind; [apply _|apply on_world_typed|]. intros pool.
  apply io_rel_bind_ok; [apply _|apply on_world_typed|]. intros loaded st0 st1 H [s w] r st' [= <- <-] _. simpl.
  destruct st0 as [s0 w0]. apply on_world_run in H as (w1 & H & ->).
  apply io_bind_ok in H as ([] & w2 & _ & H). apply io_bind_ok in H as (rows & w3 & _ & [= H _]).
  apply (try_map_forall policy_typed) in H; [|by apply policy_of_row_typed]. intros id p Hp.
  apply elem_of_list_to_map_2, list_elem_of_In, in_rev, in_map_iff in Hp as (q & [= <- <-] & Hq%list_elem_of_In).
  rewrite list.Forall_forall in H. by split; [|apply H].
Qed.
Lemma put_typed id p : ap_root_id p = id -> policy_typed p -> io_rel keeps_typed (ApprovalStore.put (DB:=DB) id p).
Proof. intros Hid Hp st r st' [= <- <-] H. by apply map_Forall_insert_2. Qed.
Lemma default_run id (w : world DB) : exists now w',
  ApprovalStore.default_for_root id w = (Ok (mkPolicyRecord id false [Trash] 20 None now), w').
Proof. unfold ApprovalStore.default_for_root, ApprovalStore.unix_ms, now_ms, now_ns, io_bind, io_ret. simpl. eauto. Qed.

(** Whatever the store answers for a root is the root's and is well typed. *)
Lemma get_or_default_typed id st r st' :
  store_typed st.1 -> ApprovalStore.get_or_default id st = (r, st') ->
  st'.1 = st.1 /\ exists p, r = Ok p /\ ap_root_id p = id /\ policy_typed p.
Proof.
  destruct st as [s w]. intros Hs H. cbn in H. destruct (as_policies s !! id) as [p|] eqn:Hp.
  - injection H as <- <-. split; [done|]. exists p. destruct (Hs _ _ Hp). done.
  - apply on_world_run in H as (w' & H & ->). destruct (default_run id w) as (now & w1 & Hd). rewrite Hd in H.
    injection H as <- <-. split; [done|]. eexists. split_and!; [done..|]. split; simpl; [done|lia].
Qed.
Lemma patch_typed id changes : changes_typed changes -> io_rel keeps_typed (ApprovalStore.patch (DB:=DB) id changes).
Proof.
  intros Hc st r st' H Hs. apply io_bind_inv in H as [(p & st0 & Hg & H)|(e & Hg & _)];
    apply get_or_default_typed in Hg as (Hst0 & q & Hq & Hid & Hp); try done. injection Hq as <-.
  revert st0 r st' H Hst0 Hs. cbv zeta.
  match goal with |- forall st0 r st', ?m st0 = _ -> _ => enough (io_rel keeps_typed m) as Hm end.
  { intros st0 r st' H Hst0 Hs. apply (Hm _ _ _ H). unfold store_typed. by rewrite Hst0. }
  case_bool_decide as Ha; [apply io_rel_bind; [apply _|by apply put_typed|intros; apply io_rel_fail, _]|].
  pose proof (with_actions_typed _ _ Ha (with_enabled_typed (pp_enabled changes) _ Hp)) as Hp1.
  case_bool_decide as Hm; [apply io_rel_bind; [apply _|by apply put_typed|intros; apply io_rel_fail, _]|].
  pose proof (with_limit_typed _ _ Hm Hc Hp1) as Hp2.
  io_rel_go; [apply on_world_typed|by apply put_typed|unfold ApprovalStore.persist; io_rel_go; [apply io_rel_gets, _|apply on_world_typed]].
Qed.
Lemma delete_persisted_typed {A} id (a : A) :
  io_rel keeps_typed (let! _ := ApprovalStore.delete_persisted (DB:=DB) id in io_ret a).
Proof. unfold ApprovalStore.delete_persisted. io_rel_go; [apply io_rel_gets, _|apply on_world_typed]. Qed.
Lemma remove_typed id : io_rel keeps_typed (ApprovalStore.remove (DB:=DB) id).
Proof.
  intros st r st' H Hs. apply (delete_persisted_typed id _ _ _ _ H). simpl. by apply map_Forall_delete.
Qed.
Lemma call_typed_kept c : call_typed c -> io_rel keeps_typed (ApprovalStore.call (DB:=DB) c).
Proof.
  destruct c as [path|id changes|id]; simpl; intros Hc;
    [apply load_typed|apply io_rel_bind; [apply _|by apply patch_typed|intros; apply io_rel_ret, _]
    |apply io_rel_bind; [apply _|apply remove_typed|intros; apply io_rel_ret, _]].
Qed.
Lemma calls_typed l st : Forall call_typed l -> store_typed st.1 -> store_typed (ApprovalStore.calls l st).1.
Proof.
  intros Hl. revert st. induction Hl as [|c l Hc _ IH]; intros st Hs; simpl; [done|]. apply IH.
  destruct (ApprovalStore.call c st) as [r st'] eqn:H. by apply (call_typed_kept c Hc _ _ _ H).
Qed.

(** C18: The policies that the desktop keeps can always be applied.  After any calls, from
    an empty store, that load a database, change policies and remove them, refused calls
    and failing disks included, the policy answered for a root carries the id of that
    root, and the engine's policy made of it, once enabled, passes the engine's own check
    (some action is allowed, and the limit is not zero). *)
Theorem policies_apply l id (w : world DB) r st :
  Forall call_typed l ->
  ApprovalStore.get_or_default id (ApprovalStore.calls l (no_policies, w)) = (r, st) ->
  exists p, r = Ok p /\ ap_root_id p = id /\
    exists policy w', ApprovalStore.to_engine_policy p st.2 = (Ok policy, w') /\
      (enabled policy = true -> AutoApproval.validate policy = Ok tt).
Proof.
  intros Hl H. pose proof (calls_typed l (no_policies, w) Hl (map_Forall_empty _)) as Hs.
  apply get_or_default_typed in H as (_ & p & -> & Hid & Ha & Hm); [|exact Hs]. exists p. split_and!; [done..|].
  unfold ApprovalStore.to_engine_policy, ApprovalStore.is_expired, ApprovalStore.unix_ms, now_ms, now_ns, io_bind, io_ret.
  assert (forall on, (enabled (mkAutoApprovalPolicy on (ap_allowed_actions p) (ap_max_files_per_run p)) = true ->
    AutoApproval.validate (mkAutoApprovalPolicy on (ap_allowed_actions p) (ap_max_files_per_run p)) = Ok tt)) as Hv.
  { intros on Hon. apply validate_ok. split_and!; [done..|simpl; lia]. }
  destruct (ap_enabled p), (ap_expires_unix_ms p); simpl; eauto.
Qed.
End typed.

(** * A restart *)

Section disk.
Context {DB : Type} `{!SqlDb DB, !SqlTx DB, !SqlCount DB, !TableDb DB PolicyTable}.
Context `{!Serde (list ProposalAction)}.
(** [serde_json] reads what it writes. *)
Hypothesis actions_read : forall l : list ProposalAction, from_text (to_text l) = Some l.
Implicit Types (w : world DB) (st : AutoApprovalStore * world DB) (m : gmap string AutoApprovalPolicyRecord).

Definition row_for (p : AutoApprovalPolicyRecord) : PolicyRow :=
  mkPolicyRow (ApprovalStore.bool_int (ap_enabled p)) (to_text (ap_allowed_actions p))
    (i64_or (2 ^ 63 - 1) (ap_max_files_per_run p)) (ap_expires_unix_ms p) (ap_updated_unix_ms p).
(** What is left of a policy on the disk: a limit beyond [i64] becomes the largest. *)
Definition stored (p : AutoApprovalPolicyRecord) : AutoApprovalPolicyRecord :=
  ApprovalStore.with_limit (Some (i64_or (2 ^ 63 - 1) (ap_max_files_per_run p))) p.

Definition disk_is (path : string) w m : Prop :=
  pt_made (table_at path w) = true /\ pt_rows (table_at path w) = row_for <$> m.
Definition saved st : Prop := exists path, as_pool st.1 = Some path /\ disk_is path st.2 (as_policies st.1).

Lemma int_opt_inv o : int_opt (opt_int o) = Some o.
Proof. by destruct o. Qed.
Lemma execute_policy_upsert p t :
  pt_made t = true ->
  PolicySql.execute PolicySql.upsert (ApprovalStore.binds_of p) t =
  Some (mkPolicyTable true (<[ap_root_id p := row_for p]> (pt_rows t)), 1%Z).
Proof.
  intros Ht. unfold PolicySql.execute, ApprovalStore.binds_of.
  change (PolicySql.upsert =? PolicySql.migrate)%string with false. change (PolicySql.upsert =? PolicySql.upsert)%string with true.
  cbv beta iota. rewrite Ht. simpl. by rewrite int_opt_inv.
Qed.
Lemma execute_policy_delete id t :
  pt_made t = true ->
  PolicySql.execute PolicySql.delete [SqlText id] t =
  Some (mkPolicyTable true (delete id (pt_rows t)), match pt_rows t !! id with Some _ => 1%Z | None => 0%Z end).
Proof.
  intros Ht. unfold PolicySql.execute.
  change (PolicySql.delete =? PolicySql.migrate)%string with false. change (PolicySql.delete =? PolicySql.upsert)%string with false.
  change (PolicySql.delete =? PolicySql.delete)%string with true. cbv beta iota. by rewrite Ht.
Qed.

Lemma persist_disk p s w u st' path m :
  ApprovalStore.persist p (s, w) = (Ok u, st') -> as_pool s = Some path -> disk_is path w m ->
  st'.1 = s /\ disk_is path st'.2 (<[ap_root_id p := p]> m).
Proof.
  intros H Hp [H1 H2]. cbn in H. rewrite Hp in H. apply on_world_run in H as (w' & H & ->). split; [done|].
  apply (statement_ok (T:=PolicyTable)) in H as (_ & n & Hx & _); [|by right; left].
  cbn [sc_execute policy_schema] in Hx. rewrite execute_policy_upsert in Hx by done. injection Hx as Hx _.
  unfold disk_is. simpl. rewrite <- Hx, H2. by rewrite fmap_insert.
Qed.
Lemma delete_disk id s w u st' path m :
  ApprovalStore.delete_persisted id (s, w) = (Ok u, st') -> as_pool s = Some path -> disk_is path w m ->
  st'.1 = s /\ disk_is path st'.2 (delete id m).
Proof.
  intros H Hp [H1 H2]. cbn in H. rewrite Hp in H. apply on_world_run in H as (w' & H & ->). split; [done|].
  apply (statement_ok (T:=PolicyTable)) in H as (_ & n & Hx & _); [|by right; right; left].
  cbn [sc_execute policy_schema] in Hx. rewrite execute_policy_delete in Hx by done. injection Hx as Hx _.
  unfold disk_is. simpl. rewrite <- Hx, H2. by rewrite fmap_delete.
Qed.

(** What succeeds keeps the store and its database in agreement. *)
Lemma unix_ms_db w r w' : ApprovalStore.unix_ms (E:=string) w = (r, w') -> w_db w' = w_db w.
Proof. unfold ApprovalStore.unix_ms, now_ms, now_ns, io_bind, io_ret. by intros [= _ <-]. Qed.
Lemma get_or_default_db id st p st' : ApprovalStore.get_or_default id st = (Ok p, st') -> w_db st'.2 = w_db st.2.
Proof.
  destruct st as [s w]. intros H. cbn in H. destruct (as_policies s !! id); [by injection H as _ <-|].
  apply on_world_run in H as (w' & H & ->). apply io_bind_ok in H as (now & w1 & H & [= _ <-]). by eapply unix_ms_db.
Qed.
Lemma patch_saves id changes st p st' :
  store_typed st.1 -> ApprovalStore.patch id changes st = (Ok p, st') -> saved st -> saved st'.
Proof.
  intros Hs H (path & Hp & Hd). unfold ApprovalStore.patch in H. apply io_bind_ok in H as (p0 & [s1 w1] & Hg & H).
  pose proof (get_or_default_db _ _ _ _ Hg) as Hdb. apply get_or_default_typed in Hg as (Hs1 & p1 & [= <-] & Hid & _); [|done].
  simpl in *. case_bool_decide; [done|]. case_bool_decide; [done|].
  apply io_bind_ok in H as (now & st2 & H2 & H). apply on_world_run in H2 as (w2 & Hdb2%unix_ms_db & ->).
  apply io_bind_ok in H as ([] & st3 & [= <-] & H). apply io_bind_ok in H as (u & st4 & H & [= _ <-]).
  subst s1. destruct (persist_disk _ _ _ _ _ path (as_policies st.1) H) as [H4 H5]; [done| |].
  - unfold disk_is, table_at in *. by rewrite Hdb2, Hdb.
  - exists path. rewrite H4. simpl in *. by rewrite Hid in H5.
Qed.
Lemma policy_remove_saves id st b st' : ApprovalStore.remove id st = (Ok b, st') -> saved st -> saved st'.
Proof.
  intros H (path & Hp & Hd). unfold ApprovalStore.remove in H. apply io_bind_ok in H as (s & st1 & [= <- <-] & H).
  apply io_bind_ok in H as ([] & st2 & [= <-] & H). apply io_bind_ok in H as (u & st3 & H & [= _ <-]).
  destruct (delete_disk _ _ _ _ _ path (as_policies st.1) H) as [H4 H5]; [done..|]. exists path. by rewrite H4.
Qed.

(** Reading the rows gives the policies back. *)
Lemma policy_read_row p :
  policy_typed p -> ApprovalStore.policy_of_row (PolicySql.columns_of (ap_root_id p, row_for p)) = Ok (stored p).
Proof.
  intros [Ha Hm]. unfold ApprovalStore.policy_of_row, PolicySql.columns_of, row_for, try_get_opt_int. simpl. rewrite actions_read.
  rewrite bool_decide_eq_false_2 by done.
  assert (0 < i64_or (2 ^ 63 - 1) (ap_max_files_per_run p))%Z as Hi by (unfold i64_or; destruct (_ && _); [exact Hm|reflexivity]).
  rewrite (proj2 (Z.leb_gt _ _)) by exact Hi. simpl. rewrite int_opt_inv.
  unfold stored, ApprovalStore.with_limit. by destruct (ap_enabled p).
Qed.
Lemma policy_read_rows (s : AutoApprovalStore) :
  store_typed s ->
  try_map ApprovalStore.policy_of_row (map PolicySql.columns_of (entries (row_for <$> as_policies s))) =
  Ok (map stored (values (as_policies s))).
Proof.
  intros Hs. apply try_map_ok. rewrite entries_fmap. unfold values.
  assert (Forall (fun e => ap_root_id e.2 = e.1 /\ policy_typed e.2) (entries (as_policies s))) as He.
  { apply list.Forall_forall. intros [id p] Hp%elem_of_entries. by destruct (Hs _ _ Hp). }
  induction He as [|[id p] l [Hid Hp] _ IH]; simpl; constructor; [|exact IH]. simpl in *. subst id. by apply policy_read_row.
Qed.
Lemma collect_policies (s : AutoApprovalStore) :
  store_typed s ->
  list_to_map (rev (map (fun p => (ap_root_id p, p)) (map stored (values (as_policies s))))) = stored <$> as_policies s.
Proof.
  intros Hs. assert (Permutation (rev (map (fun p => (ap_root_id p, p)) (map stored (values (as_policies s)))))
                       (map_to_list (stored <$> as_policies s))) as H.
  { rewrite <- Permutation_rev, map_to_list_fmap. unfold values, entries. rewrite !map_map.
    rewrite (sort_by_perm key_cmp (map_to_list (as_policies s))).
    erewrite map_ext_Forall; [reflexivity|]. apply list.Forall_forall. intros [id p] Hp%elem_of_map_to_list. simpl.
    by rewrite (proj1 (Hs _ _ Hp)). }
  rewrite (list_to_map_proper _ (map_to_list (stored <$> as_policies s))); [apply list_to_map_to_list| |exact H].
  rewrite H. apply NoDup_fst_map_to_list.
Qed.

(** What the store reads at a start. *)
Definition read_at (path : string) : io (world DB) string (list sql_row) :=
  let! pool := io_map_err Db.fmt (Db.open_pool_at path) in
  do! ApprovalStore.migrate pool;
  io_map_err (fun e => "cannot read auto approval policies: " +:+ e) (Db.fetch_all pool PolicySql.select []).
Lemma load_from_db_read path s w :
  ApprovalStore.load_from_db path (s, w) =
  match read_at path w with
  | (Ok rows, w') =>
      match try_map ApprovalStore.policy_of_row rows with
      | Ok loaded => (Ok tt, (mkApprovalStore (list_to_map (rev (map (fun p => (ap_root_id p, p)) loaded))) (Some path), w'))
      | Err e => (Err e, (s, w'))
      end
  | (Err e, w') => (Err e, (s, w'))
  end.
Proof.
  unfold ApprovalStore.load_from_db, read_at, on_world, zoom, io_bind. simpl.
  destruct (io_map_err Db.fmt (Db.open_pool_at path) w) as [[p|e] w1] eqn:Ho; [|done]. simpl.
  assert (p = path) as ->.
  { apply io_map_err_inv in Ho as (r & Ho & Hr). destruct r; [|done]. injection Hr as ->. by apply (open_pool_table (T:=PolicyTable)) in Ho as [-> _]. }
  destruct (ApprovalStore.migrate path w1) as [[[]|e] w2]; [|done]. unfold ApprovalStore.read_policies, io_bind.
  destruct (io_map_err _ _ w2) as [[rows|e] w3]; [|done]. unfold io_lift. by destruct (try_map _ _).
Qed.
Lemma read_at_rows path w m rows w' :
  read_at path w = (Ok rows, w') -> pt_rows (table_at path w) = row_for <$> m ->
  disk_is path w' m /\ rows = map PolicySql.columns_of (entries (row_for <$> m)).
Proof.
  intros H Hm. unfold read_at in H. apply io_bind_ok in H as (p & w1 & Ho & H).
  apply io_map_err_inv in Ho as (r & Ho & Hr). destruct r as [q|]; [|done]. injection Hr as ->.
  apply (open_pool_table (T:=PolicyTable)) in Ho as [-> Ht]. apply io_bind_ok in H as ([] & w2 & Hmig & H).
  apply (statement_ok (T:=PolicyTable)) in Hmig as (_ & n & Hx & _); [|by left]. rewrite Ht in Hx. injection Hx as Hx _.
  apply (query_ok (T:=PolicyTable)) in H as (_ & Ht3 & Hf); [|by left]. unfold disk_is. rewrite Ht3, <- Hx. simpl.
  rewrite <- Hx in Hf. cbn in Hf. rewrite Hm in Hf. by injection Hf as <-.
Qed.

(** A change of the policies that is answered before the next one. *)
Inductive policy_change := Patched (id : string) (changes : AutoApprovalPolicyPatch) | Removed (id : string).
Definition call_of (c : policy_change) : ApprovalStore.Call :=
  match c with Patched id changes => ApprovalStore.CPatch id changes | Removed id => ApprovalStore.CRemove id end.
(** Every one of the calls succeeds. *)
Fixpoint all_succeed (cs : list policy_change) st : bool :=
  match cs with
  | [] => true
  | c :: cs => let '(r, st') := ApprovalStore.call (call_of c) st in is_ok r && all_succeed cs st'
  end.
Lemma changes_saved cs st :
  Forall (fun c => call_typed (call_of c)) cs -> all_succeed cs st = true -> store_typed st.1 -> saved st ->
  store_typed (ApprovalStore.calls (map call_of cs) st).1 /\ saved (ApprovalStore.calls (map call_of cs) st).
Proof.
  intros Hc. revert st. induction Hc as [|c cs Hc _ IH]; intros st Hall Hs Hd; simpl in *; [done|].
  destruct (ApprovalStore.call (call_of c) st) as [[[]|e] st'] eqn:H; [|done]. apply IH; [done| |].
  - by apply (call_typed_kept _ Hc _ _ _ H).
  - destruct c as [id changes|id]; simpl in H; apply io_bind_ok in H as (x & st1 & H & [= <-]);
      [by eapply patch_saves|by eapply policy_remove_saves].
Qed.

(** A restart restores the policies of automatic approval.  After changes that all
    succeed on a store that agrees with its database, a store that loads the database has
    the same policies, a limit beyond [i64] cut to the largest; what was stored is never
    refused: otherwise the database could not be read, and the store is unchanged. *)
Theorem restart_restores_policies cs st path s0 r st' :
  Forall (fun c => call_typed (call_of c)) cs -> store_typed st.1 -> saved st -> all_succeed cs st = true ->
  as_pool (ApprovalStore.calls (map call_of cs) st).1 = Some path ->
  ApprovalStore.load_from_db path (s0, (ApprovalStore.calls (map call_of cs) st).2) = (r, st') ->
  match r with
  | Ok _ => as_policies st'.1 = stored <$> as_policies (ApprovalStore.calls (map call_of cs) st).1
  | Err e => st'.1 = s0 /\ (read_at path (ApprovalStore.calls (map call_of cs) st).2).1 = Err e
  end.
Proof.
  intros Hc Hs Hd Hall. destruct (changes_saved _ _ Hc Hall Hs Hd) as [Hs1 (path1 & Hp1 & Hd1)].
  generalize dependent (ApprovalStore.calls (map call_of cs) st). intros [s1 w1] Hs1 Hp1 Hd1 Hp H. simpl in *.
  assert (path1 = path) as -> by congruence. rewrite load_from_db_read in H.
  destruct (read_at path w1) as [[rows|e] w2] eqn:Hr; [|by injection H as <- <-].
  destruct (read_at_rows _ _ _ _ _ Hr (proj2 Hd1)) as [_ ->]. rewrite policy_read_rows in H by exact Hs1.
  injection H as <- <-. simpl. by apply collect_policies.
Qed.
End disk.

(** * Witnesses *)

(** Actions as a text of one letter each. *)
Definition letter (a : ProposalAction) : ascii :=
  match a with Move => "m" | Trash => "t" | CreateDir => "d" | CreateFile => "f" | ReadmeWrite => "r" end%char.
Fixpoint letters (l : list ProposalAction) : string := match l with [] => "" | a :: l => String (letter a) (letters l) end.
Fixpoint of_letters (s : string) : option (list ProposalAction) :=
  match s with
  | "" => Some []
  | String c s =>
      l ← of_letters s;
      e ← list_find (fun a => letter a = c) [Move; Trash; CreateDir; CreateFile; ReadmeWrite];
      Some (e.2 :: l)
  end.
#[export] Instance letters_codec : Serde (list ProposalAction) := {| to_text := letters; from_text := of_letters |}.
Lemma letters_read (l : list ProposalAction) : from_text (to_text l) = Some l.
Proof. cbn. induction l as [|a l IH]; [done|]. simpl. rewrite IH. by destruct a. Qed.

Definition approval_db : string := "/home/desk.db".
Definition approval_machine : world (MemTables PolicyTable) :=
  mkWorld sample_tree (fun _ => mem_of (mkPolicyTable false ∅)) steady_clock 0 no_faults 0 100 [].
(** The store of a first start. *)
Definition first_start := ApprovalStore.calls [ApprovalStore.CLoad approval_db] (no_policies, approval_machine).
Definition moves : AutoApprovalPolicyPatch := mkPolicyPatch (Some true) (Some [Move]) (Some 3%Z) None.
Definition changed : list policy_change := [Patched "root:1" moves; Patched "root:2" moves; Removed "root:2"].
Definition changed_store := ApprovalStore.calls (map call_of changed) first_start.
Definition reloaded := ApprovalStore.load_from_db approval_db (no_policies, changed_store.2).

(** Conversion compares these runs before it computes them. *)
Strategy 1000 [ApprovalStore.calls ApprovalStore.load_from_db].

Definition refused_change : AutoApprovalPolicyPatch := mkPolicyPatch (Some true) (Some []) None None.
Definition asked := ApprovalStore.get_or_default (DB:=MemTables PolicyTable) "root:1"
  (ApprovalStore.calls [ApprovalStore.CLoad approval_db; ApprovalStore.CPatch "root:1" refused_change] (no_policies, approval_machine)).
Lemma policies_apply_witness :
  exists p policy w', asked.1 = Ok p /\ ApprovalStore.to_engine_policy p asked.2.2 = (Ok policy, w') /\
    AutoApproval.validate policy = Ok tt.
Proof.
  assert (match asked with (Ok p, st) => match ApprovalStore.to_engine_policy p st.2 with (Ok policy, _) => enabled policy | _ => false end
          | _ => false end = true) as Hen by (vm_compute; reflexivity).
  assert (Forall call_typed [ApprovalStore.CLoad approval_db; ApprovalStore.CPatch "root:1" refused_change]) as Hc by (repeat constructor).
  unfold asked in *. destruct (ApprovalStore.get_or_default _ _) as [r st] eqn:H.
  destruct (policies_apply _ _ _ _ _ Hc H) as (p & -> & _ & policy & w' & He & Hv). simpl in *. rewrite He in Hen.
  exists p, policy, w'. split_and!; [done|exact He|by apply Hv].
Defined.

Lemma first_start_agrees : store_typed first_start.1 /\ saved first_start.
Proof.
  split.
  - apply (calls_typed [ApprovalStore.CLoad approval_db] (no_policies, approval_machine)); [repeat constructor|apply map_Forall_empty].
  - exists approval_db. split; [vm_compute; reflexivity|]. split; vm_compute; reflexivity.
Qed.
Lemma restart_restores_policies_witness :
  as_policies reloaded.2.1 = stored <$> as_policies changed_store.1 /\
  map ap_allowed_actions (values (as_policies reloaded.2.1)) = [[Move]].
Proof.
  split; [|vm_compute; reflexivity]. destruct first_start_agrees as [Hs Hd].
  assert (all_succeed changed first_start = true) as Hall by (vm_compute; reflexivity).
  assert (is_ok reloaded.1 = true) as Hok by (vm_compute; reflexivity).
  assert (as_pool changed_store.1 = Some approval_db) as Hp by (vm_compute; reflexivity).
  assert (Forall (fun c => call_typed (call_of c)) changed) as Hc by (repeat constructor; done).
  unfold reloaded in *. destruct (ApprovalStore.load_from_db _ _) as [[u|e] st'] eqn:H; [|discriminate Hok].
  exact (restart_restores_policies letters_read changed first_start approval_db no_policies (Ok u) st' Hc Hs Hd Hall Hp H).
Defined.

(** * Edge cases *)

(** A change is applied piece by piece before it is refused: the refused change above
    turned automatic approval on, in memory only. *)
Example refused_change_enables :
  asked.1 = Ok (mkPolicyRecord "root:1" true [Trash] 20 None (match asked.1 with Ok p => ap_updated_unix_ms p | Err _ => 0%Z end)) /\
  pt_rows (table_at approval_db asked.2.2) = ∅.
Proof. split; vm_compute; reflexivity. Qed.
