(* ===== verification/auto_cleanup.v ===== *)
(** The background cleanup: the scan that proposes, and the submission of its proposals. *)
From Stdlib Require Import ZArith Lia Ascii.
From stdpp Require Import strings pretty gmap functions option list.
From S2P Require Import prelude rust_str std_path std_fs fs_facts db proposal_types decision auto_approval rule_definition index_sql tables desk managed_roots.
From S2P Require Import proposal agent agent_work office outbox_processor command_processor approval_store.

Open Scope string_scope.
Open Scope list_scope.


(** * [apps/desktop/src-tauri/src/auto_cleanup_processor.rs]: the background scan that
    proposes for every folder bound to a room and says which proposals its policy
    approves. *)

Definition AUTO_CLEANUP_PROPOSAL_EVENT : string := "auto-cleanup-proposal".

Record AutoCleanupProposalEvent := mkCleanupEvent {
  ce_root_id : string;
  ce_proposal : ProposalReport;
  ce_auto_approved_count : Z;                  (** [usize] *)
  ce_auto_approved_proposal_ids : list string;
  ce_executed_count : Z;                       (** [usize] *)
  ce_skipped_count : Z;                        (** [usize] *)
}.
Record AutoCleanupReport := mkCleanupReport {
  cl_inspected_count : Z;                      (** [usize], as the counts below *)
  cl_proposed_root_count : Z;
  cl_proposal_count : Z;
  cl_eligible_root_count : Z;
  cl_approved_count : Z;
  cl_executed_count : Z;
  cl_skipped_count : Z;
  cl_failed_count : Z;
  cl_proposals : list AutoCleanupProposalEvent;
}.

Module AutoCleanup.
Definition no_report : AutoCleanupReport := mkCleanupReport 0 0 0 0 0 0 0 0 [].
(** [report.inspected_count += 1], and so on. *)
Definition inspected (r : AutoCleanupReport) : AutoCleanupReport :=
  mkCleanupReport (cl_inspected_count r + 1) (cl_proposed_root_count r) (cl_proposal_count r) (cl_eligible_root_count r)
    (cl_approved_count r) (cl_executed_count r) (cl_skipped_count r) (cl_failed_count r) (cl_proposals r).
Definition failed (r : AutoCleanupReport) : AutoCleanupReport :=
  mkCleanupReport (cl_inspected_count r) (cl_proposed_root_count r) (cl_proposal_count r) (cl_eligible_root_count r)
    (cl_approved_count r) (cl_executed_count r) (cl_skipped_count r) (cl_failed_count r + 1) (cl_proposals r).
Definition proposed (n : Z) (r : AutoCleanupReport) : AutoCleanupReport :=
  mkCleanupReport (cl_inspected_count r) (cl_proposed_root_count r + 1) (cl_proposal_count r + n) (cl_eligible_root_count r)
    (cl_approved_count r) (cl_executed_count r) (cl_skipped_count r) (cl_failed_count r) (cl_proposals r).
Definition eligible (r : AutoCleanupReport) : AutoCleanupReport :=
  mkCleanupReport (cl_inspected_count r) (cl_proposed_root_count r) (cl_proposal_count r) (cl_eligible_root_count r + 1)
    (cl_approved_count r) (cl_executed_count r) (cl_skipped_count r) (cl_failed_count r) (cl_proposals r).
Definition approved (n : Z) (r : AutoCleanupReport) : AutoCleanupReport :=
  mkCleanupReport (cl_inspected_count r) (cl_proposed_root_count r) (cl_proposal_count r) (cl_eligible_root_count r)
    (cl_approved_count r + n) (cl_executed_count r) (cl_skipped_count r) (cl_failed_count r) (cl_proposals r).
Definition with_event (e : AutoCleanupProposalEvent) (r : AutoCleanupReport) : AutoCleanupReport :=
  mkCleanupReport (cl_inspected_count r) (cl_proposed_root_count r) (cl_proposal_count r) (cl_eligible_root_count r)
    (cl_approved_count r) (cl_executed_count r) (cl_skipped_count r) (cl_failed_count r) (cl_proposals r ++ [e]).

Section cleanup.
Context {DB : Type} `{!SqlDb DB}.
(** [serde_json]: the parser of a rule set. *)
Context (rules_text : string -> result RuleSet string).
(** The policies, then the folders, then the machine. *)
Abbreviation state := (AutoApprovalStore * (RootStore * world DB))%type.
Abbreviation IO := (io state string).

Definition on_folders {A} (m : io (RootStore * world DB) string A) : IO A := zoom snd (fun s st => (st.1, s)) m.
Definition on_policies {A} (m : io (AutoApprovalStore * world DB) string A) : IO A :=
  zoom (fun st => (st.1, st.2.2)) (fun v st => (v.1, (st.2.1, v.2))) m.

(** The ids the policy approves, and how the report counts them. *)
Definition approve (policy : AutoApprovalPolicy) (proposal : ProposalReport) (report : AutoCleanupReport)
  : AutoCleanupReport * list string :=
  if enabled policy then
    let report := eligible report in
    match AutoApproval.auto_approve_decisions proposal policy with
    | Ok decisions => (approved (Z.of_nat (length decisions)) report, map d_proposal_id decisions)
    | Err _ => (failed report, [])
    end
  else (report, []).
Definition process_root (report : AutoCleanupReport) (root : ManagedRoot) : IO AutoCleanupReport :=
  let report := inspected report in
  if negb (mr_enabled root) || negb (bool_decide (mr_room_binding_status root = Active)) then io_ret report
  else
    let! made := io_try (on_folders (on_world (io_map_err ProposalEngine.fmt
                   (ProposalEngine.propose_for_root rules_text (mr_root root))))) in
    match made with
    | Err _ => io_ret (failed report)
    | Ok proposal =>
        if bool_decide (pr_proposals proposal = []) then io_ret report
        else
          let report := proposed (Z.of_nat (length (pr_proposals proposal))) report in
          let! policy_record := on_policies (ApprovalStore.get_or_default (mr_root_id root)) in
          let! engine_policy := on_policies (on_world (ApprovalStore.to_engine_policy policy_record)) in
          let '(report, ids) := approve engine_policy proposal report in
          io_ret (with_event (mkCleanupEvent (mr_root_id root) proposal (Z.of_nat (length ids)) ids 0 0) report)
    end.
Definition process_auto_cleanup : IO AutoCleanupReport :=
  let! roots := on_folders ManagedRoots.list_ in
  io_for (fun _ report root => process_root report root) 0 no_report roots.
End cleanup.
End AutoCleanup.

(** * [apps/desktop/src-tauri/src/auto_proposal.rs]: the proposals that the desktop makes on
    its own, submitted to the server under keys made of their contents.

    [AgentProposals] has the calls of [agent.rs] that it makes. *)

(** * The server *)

Module AgentProposals.
Section agent.
Context {N V : Type} `{!Http N V, !CredentialStore N, !JsonValue V, !Serde ServerErrorResponse}.
Abbreviation IO := (io (AgentState * N) AgentError).

Definition create_command `{!Serde (ServerCommand V)} (room_id intent : string) (payload : V) (idempotency_key : string)
  : IO (AgentCommand V) :=
  do! io_lift (Validate.opaque_value "room id" room_id 200);
  do! io_lift (Validate.opaque_value "command idempotency key" idempotency_key 128);
  let! config := Agent.require_authenticated_config in
  let '(base_url, credential) := config in
  Agent.recording (
    let! response := Agent.send_json (mkHttpRequest "POST" (base_url +:+ "/v1/rooms/" +:+ room_id +:+ "/commands") []
                       (Some (dc_device_token credential)) (Some idempotency_key)
                       (BFields [("intent", FText intent); ("payload", FValue payload)])) in
    io_lift (Validate.server_command response)).

Definition open_proposal_count_for_room `{!Serde (list V)} (room_id : string) : IO Z :=
  do! io_lift (Validate.opaque_value "room id" room_id 200);
  let! config := Agent.require_authenticated_config in
  let '(base_url, credential) := config in
  Agent.recording (
    let! proposals := Agent.send_json (V:=V) (T:=list V)
                        (mkHttpRequest "GET" (base_url +:+ "/v1/rooms/" +:+ room_id +:+ "/proposals/open") []
                           (Some (dc_device_token credential)) None BNone) in
    io_ret (Z.of_nat (length proposals))).
End agent.
End AgentProposals.

(** * The submissions *)

Definition AUTO_PROPOSAL_INTENT : string := "ANALYZE".
Definition MAX_PROPOSAL_ITEMS : Z := 200.

Record AutoProposalReport := mkAutoProposalReport {
  au_considered_count : Z;   (** [usize], as the counts below *)
  au_submitted_count : Z;
  au_skipped_count : Z;
  au_failed_count : Z;
}.

Module AutoProposal.
Definition should_submit_to_mobile (proposal_len : Z) : bool := (0 <? proposal_len)%Z.

Definition key_char (c : ascii) : ascii := if Validate.opaque_char c then c else "_"%char.
(** Every character that is not of a key is an underscore: of a character of several
    bytes, the first is, and the others (128 to 191) leave nothing. *)
Fixpoint key_chars (s : string) : string :=
  match s with
  | "" => ""
  | String c s => if ((128 <=? byte_of c) && (byte_of c <? 192))%Z then key_chars s else String (key_char c) (key_chars s)
  end.
Definition auto_proposal_key (prefix root_id fingerprint : string) : string :=
  prefix +:+ "-" +:+ key_chars root_id +:+ "-" +:+ fingerprint.
(** [usize::clamp] *)
Definition clamp (lo hi z : Z) : Z := Z.min hi (Z.max lo z).

Section submit.
Context {N V DB : Type} `{!SqlDb DB, !Http N V, !CredentialStore N, !JsonValue V, !Json V}.
Context `{!ResponseCodecs V, !Serde (list V), !Serde ProposalReport, !Sha256}.
Abbreviation IO := (io (office N DB) string).

Definition proposal_fingerprint (root_id : string) (proposal : ProposalReport) : string :=
  sha256_hex (root_id +:+ String "000" (to_text proposal)).

(** [item.precondition.as_object_mut()...remove("checkedAtUnixMs")] *)
Definition without_time (item : AgentProposalItem V) : AgentProposalItem V :=
  let precondition := it_precondition item in
  mkAgentProposalItem (it_item_order item) (it_action_type item) (it_source_relative_path item)
    (it_destination_relative_path item) (it_reason_code item)
    (if value_is_object precondition then json_remove "checkedAtUnixMs" precondition else precondition)
    (it_conflict_state item).
Definition timeless (s : AgentProposalSubmission V) : AgentProposalSubmission V :=
  mkAgentProposalSubmission (pb_command_id s) (pb_room_id s) (pb_summary s) (pb_expires_at s) (map without_time (pb_items s)).

Definition submit_one (root_id : string) (proposal : ProposalReport) : IO bool :=
  let! managed := on_roots (ManagedRoots.get root_id) in
  if negb (bool_decide (mr_room_binding_status managed = Active)) then io_ret false
  else
    match mr_room_id managed with
    | None => io_fail "active managed root is missing its durable room id"
    | Some room_id =>
        let! open := on_agent (AgentProposals.open_proposal_count_for_room (V:=V) room_id) in
        if (0 <? open)%Z then io_ret false
        else
          let fingerprint := proposal_fingerprint root_id proposal in
          let! command := on_agent (AgentProposals.create_command room_id AUTO_PROPOSAL_INTENT (json_object [])
                            (auto_proposal_key "autocmd" root_id fingerprint)) in
          if one_of ["QUEUED"; "DELIVERED"; "ANALYZING"] (ac_status command) then
            do! CommandProcessor.claim_command_for_analysis command;
            let max := clamp 1 MAX_PROPOSAL_ITEMS (Z.of_nat (length (pr_proposals proposal))) in
            let! submission := on_machine (Submission.build_agent_proposal_submission command proposal max) in
            do! on_agent (Agent.submit_proposal (auto_proposal_key "autoprop" root_id fingerprint) (timeless submission));
            io_ret true
          else if one_of ["WAITING_APPROVAL"; "APPROVED"; "REJECTED"; "EXECUTING"; "SUCCEEDED"; "PARTIALLY_SUCCEEDED";
                          "FAILED"; "EXPIRED"; "STALE"] (ac_status command)
          then io_ret false
          else io_fail ("autonomous proposal command cannot resume from status " +:+ ac_status command)
    end.

Definition no_report : AutoProposalReport := mkAutoProposalReport 0 0 0 0.
Definition counted (r : result bool string) (report : AutoProposalReport) : AutoProposalReport :=
  mkAutoProposalReport (au_considered_count report + 1)
    (au_submitted_count report + match r with Ok true => 1 | _ => 0 end)
    (au_skipped_count report + match r with Ok false => 1 | _ => 0 end)
    (au_failed_count report + match r with Err _ => 1 | _ => 0 end).
(** The function returns the report itself: nothing fails it. *)
Definition submit_autonomous_proposals (cleanup : AutoCleanupReport) : IO AutoProposalReport :=
  io_for (fun _ report event =>
      if should_submit_to_mobile (Z.of_nat (length (pr_proposals (ce_proposal event)))) then
        let! r := io_try (submit_one (ce_root_id event) (ce_proposal event)) in
        io_ret (counted r report)
      else io_ret report)
    0 no_report (cl_proposals cleanup).
End submit.
End AutoProposal.
