(* ===== verification/precondition.v ===== *)
(** [tools/file-engine-cli/src/precondition.rs]: the check of each proposal
    against the file system just before it is executed. *)
From Stdlib Require Import ZArith Lia Ascii.
From stdpp Require Import strings pretty gmap functions option list.
From S2P Require Import prelude rust_str std_path std_fs fs_facts path_guard db journal_store.
From S2P Require Import proposal_types decision analyzer rule_definition.
From S2P Require Import rule_engine proposal.

Open Scope string_scope.
Open Scope list_scope.

Inductive PrecheckStatus :=
| PReady
| PDestinationExists
| MissingSource
| SourceChanged
| RejectedPath.
#[export] Instance PrecheckStatus_eq_dec : EqDecision PrecheckStatus.
Proof. solve_decision. Defined.

Record PrecheckResult := mkPrecheckResult {
  c_action : ProposalAction;
  c_from : string;
  c_to : string;
  c_content : option string;
  c_status : PrecheckStatus;
  c_reason : option string;
}.
Record PrecheckReport := mkPrecheckReport { pc_root : string; pc_checks : list PrecheckResult }.
#[export] Instance PrecheckResult_eq_dec : EqDecision PrecheckResult.
Proof. solve_decision. Defined.

Inductive PrecheckError :=
| PcProposal (e : ProposalError)
| PcDecision (e : DecisionError)
| PcGuard (e : PathGuardError)
| RootMismatch (expected actual : string)
| PcSerialize (message : string).

Module Precheck.
(** [impl Display for PrecheckError] *)
Definition fmt (e : PrecheckError) : string :=
  match e with
  | PcProposal e => ProposalEngine.fmt e
  | PcDecision e => Decision.fmt e
  | PcGuard e => PathGuard.fmt e
  | RootMismatch expected actual =>
      "proposal root mismatch: expected " +:+ expected +:+ ", got " +:+ actual
  | PcSerialize message => "cannot serialize precheck report: " +:+ message
  end.

Definition result_ (p : Proposal) (status : PrecheckStatus) (reason : option string) : PrecheckResult :=
  mkPrecheckResult (p_action p) (p_from p) (p_to p) (p_content p) status reason.

Definition source_identity_change_reason (f : tree) (path : string) (p : Proposal) : option string :=
  match p_source_file_id p with
  | None => None
  | Some expected =>
      match file_id_for_path f path with
      | Some current =>
          if (current =? expected)%string then None
          else Some "source file identity changed since proposal"
      | None => Some "source file identity is unavailable during precheck"
      end
  end.

(** [to.is_empty() || to == "." || to == ".."] *)
Definition bad_create_target (to : string) : bool := is_empty to || is_dot to || is_dotdot to.

Definition precheck_create_dir (f : tree) (g : PathGuard) (p : Proposal) : PrecheckResult :=
  if bad_create_target (p_to p)
  then result_ p RejectedPath (Some "CREATE_DIR target must be a relative directory path")
  else match PathGuard.resolve_for_create f g (p_to p) with
       | Err error => result_ p RejectedPath (Some (PathGuard.fmt error))
       | Ok target =>
           if path_exists f target
           then result_ p PDestinationExists
                  (Some "directory already exists; execution must not overwrite it")
           else result_ p PReady None
       end.

Definition precheck_create_file (f : tree) (g : PathGuard) (p : Proposal) : PrecheckResult :=
  if bad_create_target (p_to p)
  then result_ p RejectedPath (Some "CREATE_FILE target must be a relative file path")
  else if negb (default "" (p_content p) =? "")%string
  then result_ p RejectedPath (Some "CREATE_FILE currently supports empty files only")
  else match PathGuard.resolve_for_create f g (p_to p) with
       | Err error => result_ p RejectedPath (Some (PathGuard.fmt error))
       | Ok target =>
           if path_exists f target
           then result_ p PDestinationExists
                  (Some "file already exists; execution must not overwrite it")
           else result_ p PReady None
       end.

(** The source is what the proposal saw: same identity, size and time. *)
Definition precheck_source (f : tree) (source : string) (p : Proposal) (changed : string)
  : PrecheckResult :=
  match metadata f source with
  | Err error => result_ p MissingSource (Some (io_error_str error))
  | Ok metadata =>
      match source_identity_change_reason f source p with
      | Some reason => result_ p SourceChanged (Some reason)
      | None =>
          if negb (inode_len metadata =? p_source_size_bytes p)%Z
             || negb (bool_decide (modified_unix_ms metadata = p_source_modified_unix_ms p))
          then result_ p SourceChanged (Some changed)
          else result_ p PReady None
      end
  end.

Definition precheck_readme_write (f : tree) (g : PathGuard) (p : Proposal) : PrecheckResult :=
  if negb (p_from p =? "README.md")%string || negb (p_to p =? "README.md")%string
  then result_ p RejectedPath
         (Some "README_WRITE may only target README.md at the managed-root root")
  else if bool_decide (p_content p = None)
  then result_ p RejectedPath (Some "README_WRITE proposal is missing approved content")
  else
    let raw_target := path_join (root g) "README.md" in
    if match symlink_metadata f raw_target with
       | Ok metadata => is_link_or_reparse_point metadata
       | Err _ => false
       end
    then result_ p RejectedPath (Some "README.md is a symlink, junction, or reparse point")
    else match PathGuard.resolve_existing f g "README.md" with
         | Err (MissingPath _) =>
             if (p_source_size_bytes p =? 0)%Z
                && bool_decide (p_source_modified_unix_ms p = None)
                && bool_decide (p_source_file_id p = None)
             then result_ p PReady None
             else result_ p MissingSource (Some "README.md no longer exists")
         | Err error => result_ p RejectedPath (Some (PathGuard.fmt error))
         | Ok target => precheck_source f target p "README.md changed since proposal"
         end.

Definition precheck_proposal (f : tree) (g : PathGuard) (p : Proposal) : PrecheckResult :=
  if bool_decide (p_status p = DestinationExists)
  then result_ p PDestinationExists
         (Some "destination already exists; execution must not overwrite it")
  else match p_action p with
       | CreateDir => precheck_create_dir f g p
       | CreateFile => precheck_create_file f g p
       | ReadmeWrite => precheck_readme_write f g p
       | Move | Trash =>
           match PathGuard.resolve_existing f g (p_from p) with
           | Err (MissingPath _) => result_ p MissingSource (Some "source file no longer exists")
           | Err error => result_ p RejectedPath (Some (PathGuard.fmt error))
           | Ok source =>
               precheck_source f source p "source size or modified time changed since proposal"
           end
       end.

Definition precheck_proposals_with_guard (f : tree) (g : PathGuard) (report : ProposalReport)
  : result PrecheckReport PrecheckError :=
  let expected_root := root g in
  if negb (pr_root report =? expected_root)%string
  then Err (RootMismatch expected_root (pr_root report))
  else Ok (mkPrecheckReport (pr_root report) (map (precheck_proposal f g) (pr_proposals report))).

Definition precheck_proposals (f : tree) (root_arg : string) (report : ProposalReport)
  : result PrecheckReport PrecheckError :=
  let? guard := map_err PcGuard (PathGuard.new f root_arg) in
  precheck_proposals_with_guard f guard report.

Definition precheck_root {DB} (parse : string -> result RuleSet string) (root_arg : string)
  : io (world DB) PrecheckError PrecheckReport :=
  let! f := get_fs in
  let! guard := io_lift (map_err PcGuard (PathGuard.new f root_arg)) in
  let! report := io_map_err PcProposal (ProposalEngine.propose_for_root parse (root guard)) in
  io_lift (precheck_proposals_with_guard f guard report).
End Precheck.

Abbreviation JErr := (JournalError PrecheckError).

(** * Facts *)

Lemma precheck_fields f g p :
  let c := Precheck.precheck_proposal f g p in
  c_action c = p_action p /\ c_from c = p_from p /\ c_to c = p_to p /\ c_content c = p_content p.
Proof.
  unfold Precheck.precheck_proposal, Precheck.precheck_create_dir, Precheck.precheck_create_file,
    Precheck.precheck_readme_write, Precheck.precheck_source. simpl.
  repeat case_match; done.
Qed.

Lemma precheck_source_ready f source p m :
  c_status (Precheck.precheck_source f source p m) = PReady <->
  exists i, metadata f source = Ok i /\ inode_len i = p_source_size_bytes p /\
    modified_unix_ms i = p_source_modified_unix_ms p /\
    (forall id, p_source_file_id p = Some id -> file_id_for_path f source = Some id).
Proof.
  unfold Precheck.precheck_source, Precheck.source_identity_change_reason.
  destruct (metadata f source) as [i|e] eqn:Hm; [|split; [done|by intros (? & [=] & _)]].
  assert (file_id_for_path f source = Some (file_id_of_inode i)) as Hid by (unfold file_id_for_path; by rewrite Hm).
  rewrite Hid.
  assert ((match p_source_file_id p with
           | None => None
           | Some expected => if (file_id_of_inode i =? expected)%string then None
                              else Some "source file identity changed since proposal"
           end = None) <-> (forall id, p_source_file_id p = Some id -> Some (file_id_of_inode i) = Some id)) as Hcase.
  { destruct (p_source_file_id p) as [id|]; [|done].
    destruct (String.eqb_spec (file_id_of_inode i) id) as [->|Hne].
    - split; [by intros _ ? [= ->]|done].
    - split; [done|]. intros H. destruct Hne. by injection (H _ eq_refl). }
  destruct (match p_source_file_id p with Some _ => _ | None => _ end).
  - split; [done|]. intros (i' & [= <-] & _ & _ & H). by apply Hcase in H.
  - destruct (Z.eqb_spec (inode_len i) (p_source_size_bytes p)); simpl.
    + case_bool_decide as Ht; simpl.
      * split; [|done]. intros _. exists i. split_and!; [done..|]. by apply Hcase.
      * split; [done|]. by intros (i' & [= <-] & _ & ? & _).
    + split; [done|]. by intros (i' & [= <-] & ? & _).
Qed.

(** What a proposal saw of its source still holds of [source]. *)
Definition source_unchanged (f : tree) (source : string) (p : Proposal) : Prop :=
  exists i, metadata f source = Ok i /\ inode_len i = p_source_size_bytes p /\
    modified_unix_ms i = p_source_modified_unix_ms p /\
    (forall id, p_source_file_id p = Some id -> file_id_for_path f source = Some id).

(** The name [to] can be created: it is a safe path whose directory exists
    inside the root and it names nothing. *)
Definition creatable (f : tree) (g : PathGuard) (to : string) : Prop :=
  Precheck.bad_create_target to = false /\
  exists target, PathGuard.resolve_for_create f g to = Ok target /\ path_exists f target = false.

Lemma precheck_create_dir_ready f g p :
  c_status (Precheck.precheck_create_dir f g p) = PReady <-> creatable f g (p_to p).
Proof.
  unfold Precheck.precheck_create_dir, creatable.
  destruct (Precheck.bad_create_target _); [by split; [|intros [? _]]|].
  destruct (PathGuard.resolve_for_create _ _ _) as [t|e]; [|split; [done|by intros (_ & ? & ? & _)]].
  destruct (path_exists f t) eqn:Ht; simpl; split; try done.
  - intros (_ & ? & [= <-] & ?). congruence.
  - intros _. split; [done|]. by exists t.
Qed.

Lemma precheck_create_file_ready f g p :
  c_status (Precheck.precheck_create_file f g p) = PReady <->
  creatable f g (p_to p) /\ default "" (p_content p) = "".
Proof.
  unfold Precheck.precheck_create_file, creatable.
  destruct (Precheck.bad_create_target _); [by split; [|intros [[? _] _]]|].
  destruct (String.eqb_spec (default "" (p_content p)) ""); simpl; [|by split; [|intros [_ ?]]].
  destruct (PathGuard.resolve_for_create _ _ _) as [t|er]; [|split; [done|by intros ((_ & ? & ? & _) & _)]].
  destruct (path_exists f t) eqn:Ht; simpl; split; try done.
  - intros ((_ & ? & [= <-] & ?) & _). congruence.
  - intros _. split; [|done]. split; [done|]. by exists t.
Qed.

(** [README.md] of the root, and whether a link stands in its place. *)
Definition readme_path (g : PathGuard) : string := path_join (root g) "README.md".
Definition link_at (f : tree) (p : string) : bool :=
  match symlink_metadata f p with Ok i => is_link_or_reparse_point i | Err _ => false end.

Lemma precheck_readme_ready f g p :
  c_status (Precheck.precheck_readme_write f g p) = PReady <->
  p_from p = "README.md" /\ p_to p = "README.md" /\ p_content p <> None /\
  link_at f (readme_path g) = false /\
  match PathGuard.resolve_existing f g "README.md" with
  | Ok target => source_unchanged f target p
  | Err (MissingPath _) => p_source_size_bytes p = 0%Z /\ p_source_modified_unix_ms p = None /\
      p_source_file_id p = None
  | Err _ => False
  end.
Proof.
  unfold Precheck.precheck_readme_write, readme_path, link_at.
  destruct (String.eqb_spec (p_from p) "README.md"); simpl; [|by split; [|intros (? & _)]].
  destruct (String.eqb_spec (p_to p) "README.md"); simpl; [|by split; [|intros (_ & ? & _)]].
  case_bool_decide; [by split; [|intros (_ & _ & ? & _)]|].
  destruct (match symlink_metadata f _ with Ok _ => _ | Err _ => _ end);
    [by split; [|intros (_ & _ & _ & ? & _)]|].
  destruct (PathGuard.resolve_existing f g "README.md") as [t|[]]; try (by split; [|intros (_ & _ & _ & _ & ?)]).
  - rewrite precheck_source_ready. unfold source_unchanged. split; [by intros ?|by intros (_ & _ & _ & _ & ?)].
  - destruct (Z.eqb_spec (p_source_size_bytes p) 0); simpl; [|by split; [|intros (_ & _ & _ & _ & ? & _)]].
    repeat case_bool_decide; simpl; split; try done; by intros (_ & _ & _ & _ & _ & ? & ?).
Qed.

(** * Properties *)

(** a proposal is ready exactly when the scan did not mark its destination
    and its action's conditions hold of the file system now: an unchanged source
    inside the root for a move or a trash, a free name in a directory of the root
    for a creation, the unchanged (or still absent) real README.md for a write. *)
Theorem precheck_ready f g p :
  c_status (Precheck.precheck_proposal f g p) = PReady <->
  p_status p = Ready /\
  match p_action p with
  | Move | Trash => exists source, PathGuard.resolve_existing f g (p_from p) = Ok source /\
      source_unchanged f source p
  | CreateDir => creatable f g (p_to p)
  | CreateFile => creatable f g (p_to p) /\ default "" (p_content p) = ""
  | ReadmeWrite => p_from p = "README.md" /\ p_to p = "README.md" /\ p_content p <> None /\
      link_at f (readme_path g) = false /\
      match PathGuard.resolve_existing f g "README.md" with
      | Ok target => source_unchanged f target p
      | Err (MissingPath _) => p_source_size_bytes p = 0%Z /\ p_source_modified_unix_ms p = None /\
          p_source_file_id p = None
      | Err _ => False
      end
  end.
Proof.
  unfold Precheck.precheck_proposal. case_bool_decide as Hs.
  { split; [done|]. rewrite Hs. by intros [? _]. }
  assert (p_status p = Ready) as Hr by (by destruct (p_status p)).
  rewrite Hr. destruct (p_action p) eqn:Ha;
    rewrite ?precheck_create_dir_ready, ?precheck_create_file_ready, ?precheck_readme_ready;
    try (by split; [|intros [_ ?]]);
    destruct (PathGuard.resolve_existing f g (p_from p)) as [t|[]];
    try (split; [done|]; by intros (_ & ? & [=] & _));
    rewrite precheck_source_ready; (split; [intros H; split; [done|]; by exists t|]);
    by intros (_ & t' & [= <-] & ?).
Qed.
