(* ===== verification/trash.v ===== *)
(** [tools/file-engine-cli/src/trash.rs]: moving a file to the root's own trash,
    journaled before and after. *)
From Stdlib Require Import ZArith Lia Ascii.
From stdpp Require Import strings pretty gmap functions option list.
From S2P Require Import prelude rust_str std_path std_fs fs_facts path_guard db journal_store.
From S2P Require Import proposal_types analyzer precondition.

Open Scope string_scope.
Open Scope list_scope.

Definition TRASHED_FILE_NAME : string := "file".
Definition TRASH_METADATA_FILE_NAME : string := "original.json".

Record TrashReport := mkTrashReport {
  tr_root : string;
  tr_journal_path : string;
  tr_operation_id : string;
  tr_original_path : string;
  tr_trashed_path : string;
  tr_metadata_path : string;
}.

Record TrashMetadata := mkTrashMetadata {
  tm_operation_id : string;
  tm_original_path : string;
  tm_trashed_path : string;
  tm_size_bytes : Z;
  tm_modified_unix_ms : option Z;
  tm_trashed_unix_ms : Z;
}.

Inductive TrashError :=
| TGuard (e : PathGuardError)
| TJournal (e : JErr)
| TMetadata (path message : string)
| TNotAFile (path : string)
| TBlockedLinkOrReparse (path : string)
| TCreateTrashDir (path message : string)
| TWriteMetadata (path message : string)
| TDestinationExists (path : string)
| TMove (from to message : string)
| TSerialize (message : string).

Module Trash.
(** [impl Display for TrashError] *)
Definition fmt (e : TrashError) : string :=
  match e with
  | TGuard e => PathGuard.fmt e
  | TJournal e => JournalError.fmt Precheck.fmt e
  | TMetadata path message => "cannot read metadata " +:+ path +:+ ": " +:+ message
  | TNotAFile path => "trash target is not a file: " +:+ path
  | TBlockedLinkOrReparse path =>
      "refusing to trash symlink, junction, or reparse point: " +:+ path
  | TCreateTrashDir path message => "cannot create trash directory " +:+ path +:+ ": " +:+ message
  | TWriteMetadata path message => "cannot write trash metadata " +:+ path +:+ ": " +:+ message
  | TDestinationExists path => "trash destination already exists: " +:+ path
  | TMove from to message =>
      "cannot move " +:+ from +:+ " to trash " +:+ to +:+ ": " +:+ message
  | TSerialize message => "cannot serialize trash metadata: " +:+ message
  end.

Definition journal_entry (operation_id : string) (status : JournalStatus) (from to : string)
  (created_unix_ms : Z) : JournalEntry :=
  mkJournalEntry operation_id status JTrash from to created_unix_ms.

Definition operation_id_of (nanos : Z) : string := "trash-" +:+ fmt_int nanos.
Definition trash_relative_dir (operation_id : string) : string := TRASH_DIR +:+ "/" +:+ operation_id.
Definition trashed_relative_path (operation_id : string) : string :=
  trash_relative_dir operation_id +:+ "/" +:+ TRASHED_FILE_NAME.
Definition metadata_relative_path (operation_id : string) : string :=
  trash_relative_dir operation_id +:+ "/" +:+ TRASH_METADATA_FILE_NAME.

Section trash.
Context {DB : Type} `{!SqlDb DB}.
(** [serde_json::to_string_pretty] *)
Context (to_string_pretty : TrashMetadata -> result string string).
Abbreviation IO := (io (world DB) TrashError).

(** [resolve_for_create] of a name that must not exist yet. *)
Definition free_path (g : PathGuard) (relative : string) : IO string :=
  let! f := get_fs in
  let! path := io_lift (map_err TGuard (PathGuard.resolve_for_create f g relative)) in
  if path_exists f path then io_fail (TDestinationExists path) else io_ret path.

(** From the planned entry to the report. *)
Definition trash_journaled (g : PathGuard) (store : JournalStore) (relative_path source : string)
  (metadata : inode) : IO TrashReport :=
  let! created_unix_ms := now_ms in
  let! nanos := now_nanos in
  let operation_id := operation_id_of nanos in
  let trashed_relative_path := trashed_relative_path operation_id in
  let metadata_relative_path := metadata_relative_path operation_id in
  do! io_map_err TJournal (JournalStore.append store
        (journal_entry operation_id Planned relative_path trashed_relative_path created_unix_ms));
  let trash_dir := path_join (root g) (trash_relative_dir operation_id) in
  do! io_map_err (fun e => TCreateTrashDir trash_dir (io_error_str e)) (create_dir_all trash_dir);
  let! trashed_path := free_path g trashed_relative_path in
  let! metadata_path := free_path g metadata_relative_path in
  let! metadata_json := io_lift (map_err TSerialize (to_string_pretty
        (mkTrashMetadata operation_id relative_path trashed_relative_path (inode_len metadata)
           (modified_unix_ms metadata) created_unix_ms))) in
  do! io_map_err (fun e => TWriteMetadata metadata_path (io_error_str e))
        (fs_write metadata_path metadata_json);
  do! io_map_err (fun e => TMove source trashed_path (io_error_str e))
        (fs_rename source trashed_path);
  let! done_unix_ms := now_ms in
  do! io_map_err TJournal (JournalStore.append store
        (journal_entry operation_id Executed relative_path trashed_relative_path done_unix_ms));
  io_ret (mkTrashReport (root g) (JournalStore.journal_path_display store) operation_id
            relative_path trashed_relative_path metadata_relative_path).

Definition trash_file (root_arg relative_path : string) : IO TrashReport :=
  let! f := get_fs in
  let! g := io_lift (map_err TGuard (PathGuard.new f root_arg)) in
  let! source := io_lift (map_err TGuard (PathGuard.resolve_existing f g relative_path)) in
  let joined := path_join (root g) relative_path in
  let! metadata := io_lift (map_err (fun e => TMetadata joined (io_error_str e))
                              (symlink_metadata f joined)) in
  if is_link_or_reparse_point metadata then io_fail (TBlockedLinkOrReparse joined)
  else if negb (is_file_inode metadata) then io_fail (TNotAFile joined)
  else
    let! store := io_map_err TJournal (JournalStore.open (root g)) in
    trash_journaled g store relative_path source metadata.
End trash.
End Trash.
