(* ===== verification/execute.v ===== *)
(** [tools/file-engine-cli/src/execute.rs]: executing the approved proposals of a
    root, each journaled before and after its change. *)
From Stdlib Require Import ZArith Lia Ascii.
From stdpp Require Import strings pretty gmap functions option list.
From S2P Require Import prelude rust_str rule_definition std_path std_fs fs_facts path_guard db.
From S2P Require Import journal_store proposal_types decision analyzer proposal precondition.
From S2P Require Import trash.

Open Scope string_scope.
Open Scope list_scope.

Inductive ExecuteStatus := XExecuted | XSkipped | XRejected.
#[export] Instance ExecuteStatus_eq_dec : EqDecision ExecuteStatus.
Proof. solve_decision. Defined.

Record ExecuteResult := mkExecuteResult {
  x_action : ProposalAction;
  x_from : string;
  x_to : string;
  x_status : ExecuteStatus;
  x_reason : option string;
}.
#[export] Instance ExecuteResult_eq_dec : EqDecision ExecuteResult.
Proof. solve_decision. Defined.

Record ExecuteReport := mkExecuteReport {
  xr_root : string;
  xr_journal_path : string;
  xr_executed_count : Z;   (** the counts are [usize] *)
  xr_skipped_count : Z;
  xr_rejected_count : Z;
  xr_results : list ExecuteResult;
}.

Inductive ExecuteError :=
| XGuard (e : PathGuardError)
| XPrecheck (e : PrecheckError)
| XPrecheckProposal (e : ProposalError)
| XDecision (e : DecisionError)
| XJournal (e : JErr)
| XCreateParentDir (path message : string)
| XMove (from to message : string)
| XWrite (path message : string)
| XTrash (e : TrashError)
| XSerialize (message : string).

Module Execute.
(** [impl Display for ExecuteError] *)
Definition fmt (e : ExecuteError) : string :=
  match e with
  | XGuard e => PathGuard.fmt e
  | XPrecheck e => Precheck.fmt e
  | XPrecheckProposal e => ProposalEngine.fmt e
  | XDecision e => Decision.fmt e
  | XJournal e => JournalError.fmt Precheck.fmt e
  | XCreateParentDir path message =>
      "cannot create destination parent " +:+ path +:+ ": " +:+ message
  | XMove from to message => "cannot move " +:+ from +:+ " to " +:+ to +:+ ": " +:+ message
  | XWrite path message => "cannot write " +:+ path +:+ ": " +:+ message
  | XTrash e => Trash.fmt e
  | XSerialize message => "cannot serialize execute journal: " +:+ message
  end.

Definition journal_action (a : ProposalAction) : JournalAction :=
  match a with
  | Move => JMove
  | Trash => JTrash
  | CreateDir => JCreateDir
  | CreateFile => JCreateFile
  | ReadmeWrite => JReadmeWrite
  end.

Definition operation_id_of (ms : Z) (index : nat) : string :=
  "op-" +:+ fmt_int ms +:+ "-" +:+ fmt_int (Z.of_nat index).

Definition executed_result (check : PrecheckResult) : ExecuteResult :=
  mkExecuteResult (c_action check) (c_from check) (c_to check) XExecuted None.
Definition skipped_result (check : PrecheckResult) (reason : option string) : ExecuteResult :=
  mkExecuteResult (c_action check) (c_from check) (c_to check) XSkipped reason.
Definition rejected_result (rejected : RejectedProposal) : ExecuteResult :=
  let p := rp_proposal rejected in
  mkExecuteResult (p_action p) (p_from p) (p_to p) XRejected (Some (rp_reason rejected)).

(** The latest planned move of the pair with no later mark. *)
Definition completed_ids (entries : list JournalEntry) : list string :=
  map je_operation_id (filter (fun e => je_status e = Executed \/ je_status e = Undone
                                        \/ je_status e = UndoPlanned) entries).
Definition pending_planned_operation (entries : list JournalEntry) (from to : string) : option string :=
  je_operation_id <$>
  List.find (fun e => bool_decide (je_status e = Planned) && bool_decide (je_action e = JMove)
               && (je_from e =? from)%string && (je_to e =? to)%string
               && negb (bool_decide (je_operation_id e ∈ completed_ids entries)))
    (reverse entries).

Definition backup_relative (operation_id : string) : string :=
  ".mousekeeper/readme_backups/" +:+ operation_id +:+ ".bak".
Definition absent_relative (operation_id : string) : string :=
  ".mousekeeper/readme_backups/" +:+ operation_id +:+ ".absent".

Section execute.
Context {DB : Type} `{!SqlDb DB}.
Abbreviation IO := (io (world DB) ExecuteError).

Definition unix_ms : IO Z := now_ms.

Definition journal_entry (operation_id : string) (status : JournalStatus) (check : PrecheckResult)
  : IO JournalEntry :=
  let! ms := unix_ms in
  io_ret (mkJournalEntry operation_id status (journal_action (c_action check)) (c_from check)
            (c_to check) ms).
Definition planned_entry (operation_id : string) (check : PrecheckResult) : IO JournalEntry :=
  journal_entry operation_id Planned check.
Definition executed_entry (operation_id : string) (check : PrecheckResult) : IO JournalEntry :=
  journal_entry operation_id Executed check.
Definition readme_journal_entry (operation_id : string) (status : JournalStatus)
  (backup_relative target_relative : string) : IO JournalEntry :=
  let! ms := unix_ms in
  io_ret (mkJournalEntry operation_id status JReadmeWrite backup_relative target_relative ms).

(** [store.append(&entry).map_err(ExecuteError::Journal)?] *)
Definition record (store : JournalStore) (entry : IO JournalEntry) : IO unit :=
  let! e := entry in
  io_map_err XJournal (JournalStore.append store e).

Definition execute_create_dir (g : PathGuard) (store : JournalStore) (check : PrecheckResult)
  (index : nat) : IO (result ExecuteResult string) :=
  let! ms := unix_ms in
  let operation_id := operation_id_of ms index in
  do! record store (planned_entry operation_id check);
  let! f := get_fs in
  match PathGuard.resolve_for_create f g (c_to check) with
  | Err error => io_ret (Err (PathGuard.fmt error))
  | Ok target =>
      if path_exists f target
      then io_ret (Err "directory appeared before create; refusing to overwrite")
      else
        do! io_map_err (fun e => XCreateParentDir target (io_error_str e)) (create_dir target);
        do! record store (executed_entry operation_id check);
        io_ret (Ok (executed_result check))
  end.

Definition execute_create_file (g : PathGuard) (store : JournalStore) (check : PrecheckResult)
  (index : nat) : IO (result ExecuteResult string) :=
  let! ms := unix_ms in
  let operation_id := operation_id_of ms index in
  do! record store (planned_entry operation_id check);
  if negb (default "" (c_content check) =? "")%string
  then io_ret (Err "CREATE_FILE currently supports empty files only")
  else
    let! f := get_fs in
    match PathGuard.resolve_for_create f g (c_to check) with
    | Err error => io_ret (Err (PathGuard.fmt error))
    | Ok target =>
        let! opened := io_try (create_new target) in
        let! f := get_fs in
        match opened with
        | Err error =>
            if path_exists f target
            then io_ret (Err "file appeared before create; refusing to overwrite")
            else io_fail (XWrite target (io_error_str error))
        | Ok _ =>
            do! record store (executed_entry operation_id check);
            io_ret (Ok (executed_result check))
        end
    end.

Definition execute_readme_write (g : PathGuard) (store : JournalStore) (check : PrecheckResult)
  (index : nat) : IO (result ExecuteResult string) :=
  if negb (c_from check =? "README.md")%string || negb (c_to check =? "README.md")%string
  then io_ret (Err "README_WRITE may only target README.md at the managed-root root")
  else match c_content check with
  | None => io_ret (Err "README_WRITE is missing approved content")
  | Some content =>
      let! ms := unix_ms in
      let operation_id := operation_id_of ms index in
      let backup_relative := backup_relative operation_id in
      let target := path_join (root g) "README.md" in
      let backup := path_join (root g) backup_relative in
      let absent := path_join (root g) (absent_relative operation_id) in
      do! match path_parent backup with
          | Some parent =>
              io_map_err (fun e => XCreateParentDir parent (io_error_str e)) (create_dir_all parent)
          | None => io_ret tt
          end;
      let! f := get_fs in
      do! (if path_exists f target
           then io_map_err (fun e => XWrite backup (io_error_str e)) (fs_copy target backup)
           else io_map_err (fun e => XWrite absent (io_error_str e)) (fs_write absent ""));
      do! record store (readme_journal_entry operation_id Planned backup_relative "README.md");
      do! io_map_err (fun e => XWrite target (io_error_str e)) (fs_write target content);
      do! record store (readme_journal_entry operation_id Executed backup_relative "README.md");
      io_ret (Ok (mkExecuteResult (c_action check) "README.md" "README.md" XExecuted None))
  end.

Definition execute_move (g : PathGuard) (store : JournalStore) (check : PrecheckResult)
  (index : nat) : IO (result ExecuteResult string) :=
  let! ms := unix_ms in
  let operation_id := operation_id_of ms index in
  do! record store (planned_entry operation_id check);
  let! f := get_fs in
  match PathGuard.resolve_existing f g (c_from check) with
  | Err error => io_ret (Err (PathGuard.fmt error))
  | Ok source =>
      let destination := path_join (root g) (c_to check) in
      let! parent := io_lift (match path_parent destination with
                              | Some p => Ok p
                              | None => Err (XGuard (MissingPath destination))
                              end) in
      do! io_map_err (fun e => XCreateParentDir parent (io_error_str e)) (create_dir_all parent);
      let! f := get_fs in
      let! destination := io_lift (map_err XGuard (PathGuard.resolve_for_create f g (c_to check))) in
      if path_exists f destination
      then io_ret (Err "destination appeared before move; refusing to overwrite")
      else
        do! io_map_err (fun e => XMove source destination (io_error_str e))
              (fs_rename source destination);
        do! record store (executed_entry operation_id check);
        io_ret (Ok (executed_result check))
  end.

Definition recover_planned_move (g : PathGuard) (prior_entries : list JournalEntry)
  (store : JournalStore) (check : PrecheckResult) : IO (option ExecuteResult) :=
  if negb (bool_decide (c_status check = MissingSource)) then io_ret None
  else match pending_planned_operation prior_entries (c_from check) (c_to check) with
  | None => io_ret None
  | Some operation_id =>
      let! f := get_fs in
      match PathGuard.resolve_existing f g (c_to check) with
      | Err _ => io_ret None
      | Ok _ =>
          do! record store (executed_entry operation_id check);
          io_ret (Some (mkExecuteResult (c_action check) (c_from check) (c_to check) XExecuted
            (Some "source missing and destination exists; recorded recovered execute")))
      end
  end.

(** [serde_json]: the rule set's parser and the trash metadata's printer. *)
Context (parse : string -> result RuleSet string)
  (to_string_pretty : TrashMetadata -> result string string).

(** The loop's mutable locals. *)
Record tally := mkTally { executed_count : Z; skipped_count : Z; results : list ExecuteResult }.
Definition count_executed (t : tally) (r : ExecuteResult) : tally :=
  mkTally (executed_count t + 1) (skipped_count t) (results t ++ [r]).
Definition count_skipped (t : tally) (r : ExecuteResult) : tally :=
  mkTally (executed_count t) (skipped_count t + 1) (results t ++ [r]).

(** [match .. { Ok(result) => .., Err(reason) => .. }] *)
Definition tally_outcome (t : tally) (check : PrecheckResult)
  (outcome : result ExecuteResult string) : tally :=
  match outcome with
  | Ok r => count_executed t r
  | Err reason => count_skipped t (skipped_result check (Some reason))
  end.

(** The body of the loop. *)
Definition execute_check (g : PathGuard) (store : JournalStore) (prior_entries : list JournalEntry)
  (index : nat) (t : tally) (check : PrecheckResult) : IO tally :=
  if negb (bool_decide (c_status check = PReady)) then
    let! recovered := recover_planned_move g prior_entries store check in
    match recovered with
    | Some r => io_ret (count_executed t r)
    | None => io_ret (count_skipped t (skipped_result check (c_reason check)))
    end
  else match c_action check with
  | Move =>
      let! outcome := execute_move g store check index in io_ret (tally_outcome t check outcome)
  | Trash =>
      let! report := io_map_err XTrash (Trash.trash_file to_string_pretty (root g) (c_from check)) in
      io_ret (count_executed t
        (mkExecuteResult (c_action check) (c_from check) (tr_trashed_path report) XExecuted None))
  | CreateDir =>
      let! outcome := execute_create_dir g store check index in
      io_ret (tally_outcome t check outcome)
  | CreateFile =>
      let! outcome := execute_create_file g store check index in
      io_ret (tally_outcome t check outcome)
  | ReadmeWrite =>
      let! outcome := execute_readme_write g store check index in
      io_ret (tally_outcome t check outcome)
  end.

Definition execute_prechecked (g : PathGuard) (precheck : PrecheckReport) : IO ExecuteReport :=
  let! store := io_map_err XJournal (JournalStore.open (root g)) in
  let! prior_entries := io_map_err XJournal (JournalStore.read_all store) in
  let! t := io_for (execute_check g store prior_entries) 0 (mkTally 0 0 []) (pc_checks precheck) in
  io_ret (mkExecuteReport (pc_root precheck) (JournalStore.journal_path_display store)
            (executed_count t) (skipped_count t) 0 (results t)).

Definition execute_root (root_arg : string) : IO ExecuteReport :=
  let! f := get_fs in
  let! g := io_lift (map_err XGuard (PathGuard.new f root_arg)) in
  let! precheck := io_map_err XPrecheck (Precheck.precheck_root parse (root g)) in
  execute_prechecked g precheck.

Definition execute_proposals (root_arg : string) (report : ProposalReport) : IO ExecuteReport :=
  let! f := get_fs in
  let! g := io_lift (map_err XGuard (PathGuard.new f root_arg)) in
  let! precheck := io_lift (map_err XPrecheck (Precheck.precheck_proposals f (root g) report)) in
  execute_prechecked g precheck.

Definition execute_decision_application (root_arg : string) (application : DecisionApplication)
  : IO ExecuteReport :=
  let rejected := da_rejected application in
  let! report := execute_proposals root_arg (da_approved application) in
  io_ret (mkExecuteReport (xr_root report) (xr_journal_path report) (xr_executed_count report)
            (xr_skipped_count report) (Z.of_nat (length rejected))
            (xr_results report ++ map rejected_result rejected)).
End execute.
End Execute.
