(* ===== verification/history.v ===== *)
(** [tools/file-engine-cli/src/journal.rs], the operations over the store: the
    history shown to the user, the recovery of a corrupted journal, and the
    journaling of a plan. *)
From Stdlib Require Import ZArith Lia Ascii.
From stdpp Require Import strings pretty gmap functions option list.
From S2P Require Import prelude rust_str rule_definition std_path std_fs fs_facts path_guard db.
From S2P Require Import journal_store proposal_types precondition.

Open Scope string_scope.
Open Scope list_scope.

Record JournalWriteReport := mkJournalWriteReport {
  jw_root : string;
  jw_journal_path : string;
  jw_planned_count : Z;
  jw_skipped_count : Z;
}.

Record OperationHistoryEntry := mkOperationHistoryEntry {
  h_operation_id : string;
  h_action : JournalAction;
  h_from : string;
  h_to : string;
  h_latest_status : JournalStatus;
  h_created_unix_ms : Z;
  h_can_undo : bool;
  h_undo_blocked_reason : option string;
}.
Record OperationHistoryReport := mkOperationHistoryReport {
  hr_root : string;
  hr_journal_path : string;
  hr_operations : list OperationHistoryEntry;
  hr_corruption : option JournalCorruption;
}.
Record JournalRecoveryReport := mkJournalRecoveryReport {
  rr_root : string;
  rr_journal_path : string;
  rr_quarantined_path : string;
}.

(** [iter_mut().find(p)] followed by an update of the element found, or nothing
    when there is none. *)
Fixpoint update_first {A} (p : A -> bool) (f : A -> A) (l : list A) : option (list A) :=
  match l with
  | [] => None
  | a :: l' => if p a then Some (f a :: l') else cons a <$> update_first p f l'
  end.

Module History.
Definition with_state (status : JournalStatus) (created : Z) (can_undo : bool)
  (reason : option string) (o : OperationHistoryEntry) : OperationHistoryEntry :=
  mkOperationHistoryEntry (h_operation_id o) (h_action o) (h_from o) (h_to o) status created can_undo reason.
Definition of_entry (e : JournalEntry) (can_undo : bool) (reason : option string) : OperationHistoryEntry :=
  mkOperationHistoryEntry (je_operation_id e) (je_action e) (je_from e) (je_to e) (je_status e)
    (je_created_unix_ms e) can_undo reason.
Definition same_operation (e : JournalEntry) (o : OperationHistoryEntry) : bool :=
  (h_operation_id o =? je_operation_id e)%string.

(** The body of the loop over the entries. *)
Definition add_entry (operations : list OperationHistoryEntry) (e : JournalEntry)
  : list OperationHistoryEntry :=
  match je_status e with
  | Planned => operations ++ [of_entry e false (Some "operation has not been executed yet")]
  | Executed =>
      match update_first (same_operation e)
              (with_state Executed (je_created_unix_ms e) true None) operations with
      | Some operations => operations
      | None => operations ++ [of_entry e true None]
      end
  | UndoPlanned | Undone =>
      default operations (update_first (same_operation e) (fun o =>
        with_state (je_status e) (h_created_unix_ms o) false
          (Some (if bool_decide (je_status e = UndoPlanned)
                 then "undo is already in progress for this operation"
                 else "already undone")) o) operations)
  end.

Definition undo_blocked_reason_from_filesystem (f : tree) (root : string)
  (o : OperationHistoryEntry) : option string :=
  match h_action o with
  | JReadmeWrite => None
  | JCreateDir =>
      let target := path_join root (h_to o) in
      if negb (path_exists f target) then None
      else if negb (path_is_dir f target)
      then Some ("created path is no longer a directory (" +:+ h_to o +:+ "); undo would be unsafe")
      else if match read_dir f target with Ok entries => negb (bool_decide (entries = [])) | Err _ => true end
      then Some ("created directory is not empty (" +:+ h_to o +:+ "); undo would delete user data")
      else None
  | JCreateFile =>
      let target := path_join root (h_to o) in
      if negb (path_exists f target) then None
      else if negb (path_is_file f target)
      then Some ("created path is no longer a file (" +:+ h_to o +:+ "); undo would be unsafe")
      else if negb (unwrap_or_else (fun _ => 1%Z) (result_map inode_len (metadata f target)) =? 0)%Z
      then Some ("created file is no longer empty (" +:+ h_to o +:+ "); undo would delete user data")
      else None
  | JMove | JTrash =>
      let destination := path_join root (h_to o) in
      let original := path_join root (h_from o) in
      if negb (path_exists f destination)
      then if path_exists f original then None
           else Some ("moved file is missing at its expected location (" +:+ h_to o +:+ ")")
      else if path_exists f original
      then Some ("original path already has a file (" +:+ h_from o +:+ "); undo would overwrite it")
      else None
  end.

(** The pass over the operations still marked undoable. *)
Definition block_from_filesystem (f : tree) (root : string) (o : OperationHistoryEntry)
  : OperationHistoryEntry :=
  if h_can_undo o
  then match undo_blocked_reason_from_filesystem f root o with
       | Some reason => with_state (h_latest_status o) (h_created_unix_ms o) false (Some reason) o
       | None => o
       end
  else o.

(** Most recent first, then the identifier. *)
Definition history_cmp (left right : OperationHistoryEntry) : comparison :=
  then_with (h_created_unix_ms right ?= h_created_unix_ms left)%Z
    (String.compare (h_operation_id left) (h_operation_id right)).

Definition operations_of (f : tree) (root : string) (entries : list JournalEntry)
  : list OperationHistoryEntry :=
  sort_by history_cmp (map (block_from_filesystem f root) (fold_left add_entry entries [])).

Section history.
Context {DB : Type} `{!SqlDb DB}.
Abbreviation IO := (io (world DB) JErr).

Definition read_operation_history (root_arg : string) : IO OperationHistoryReport :=
  let! f := get_fs in
  let! g := io_lift (map_err JGuard (PathGuard.new f root_arg)) in
  let! store := JournalStore.open (root g) in
  let! ' (entries, corruption) := JournalStore.read_all_lenient store in
  let! f := get_fs in
  io_ret (mkOperationHistoryReport (root g) (JournalStore.journal_path_display store)
            (operations_of f (root g) entries) corruption).

(** [serde_json::to_string] of a row. *)
Context (to_string : RawJournalRow -> result string string).

(** [writeln!(dump, ..)] for each row. *)
Fixpoint dump_rows (path : string) (dump : std_fs.path) (raw : list RawJournalRow) : IO unit :=
  match raw with
  | [] => io_ret tt
  | row :: raw' =>
      let! line := io_lift (map_err JSerialize (to_string row)) in
      do! io_map_err (fun e => JWriteQuarantine path (io_error_str e))
            (do! file_append dump line; file_append dump (String (Ascii.ascii_of_nat 10) ""));
      dump_rows path dump raw'
  end.

Definition recover_journal (root_arg : string) : IO JournalRecoveryReport :=
  let! f := get_fs in
  let! g := io_lift (map_err JGuard (PathGuard.new f root_arg)) in
  let! store := JournalStore.open (root g) in
  let! ' (_, corruption) := JournalStore.read_all_lenient store in
  if bool_decide (is_Some corruption) then
    let! ms := now_ms in
    let quarantined_path :=
      path_with_file_name (db_path store) (JOURNAL_FILE +:+ ".corrupted-" +:+ fmt_int ms) in
    let! raw := JournalStore.read_raw store in
    let! dump := io_map_err (fun e => JWriteQuarantine quarantined_path (io_error_str e))
                   (file_create quarantined_path) in
    do! dump_rows quarantined_path dump raw;
    do! JournalStore.clear store;
    io_ret (mkJournalRecoveryReport (root g) (JournalStore.journal_path_display store) quarantined_path)
  else io_fail (JNotCorrupted (db_path store)).

Context (parse : string -> result RuleSet string).

(** The loop of [write_planned_journal]: planned and skipped counts. *)
Definition plan_check (store : JournalStore) (created_unix_ms : Z) (index : nat)
  (counts : Z * Z) (check : PrecheckResult) : IO (Z * Z) :=
  let '(planned, skipped) := counts in
  if negb (bool_decide (c_status check = PReady)) then io_ret (planned, skipped + 1)%Z
  else
    do! JournalStore.append store
          (mkJournalEntry ("op-" +:+ fmt_int created_unix_ms +:+ "-" +:+ fmt_int (Z.of_nat index))
             Planned JMove (c_from check) (c_to check) created_unix_ms);
    io_ret (planned + 1, skipped)%Z.

Definition write_planned_journal (root_arg : string) : IO JournalWriteReport :=
  let! f := get_fs in
  let! g := io_lift (map_err JGuard (PathGuard.new f root_arg)) in
  let! precheck := io_map_err JPrecheck (Precheck.precheck_root parse (root g)) in
  let! store := JournalStore.open (root g) in
  let! created_unix_ms := now_ms in
  let! ' (planned, skipped) :=
    io_for (plan_check store created_unix_ms) 0 (0, 0)%Z (pc_checks precheck) in
  io_ret (mkJournalWriteReport (pc_root precheck) (JournalStore.journal_path_display store)
            planned skipped).
End history.
End History.
