(* ===== verification/file_ops.v ===== *)
(** [tools/file-engine-cli/src/file_ops.rs]: creating an empty file and renaming a
    file in place, outside the proposals. *)
From Stdlib Require Import ZArith Lia Ascii.
From stdpp Require Import strings pretty gmap functions option list.
From S2P Require Import prelude rust_str rule_definition std_path std_fs fs_facts path_guard db.
From S2P Require Import journal_store analyzer precondition.

Open Scope string_scope.
Open Scope list_scope.

Record CreateFileReport := mkCreateFileReport {
  cf_root : string;
  cf_created_path : string;
}.
Record RenameFileReport := mkRenameFileReport {
  rf_root : string;
  rf_journal_path : string;
  rf_operation_id : string;
  rf_from : string;
  rf_to : string;
}.

Inductive FileOpError :=
| FGuard (e : PathGuardError)
| FJournal (e : JErr)
| InvalidName (name : string)
| FNotAFile (path : string)
| FBlockedLinkOrReparse (path : string)
| FDestinationExists (path : string)
| FCreate (path message : string)
| FMove (from to message : string)
| FSerialize (message : string).

Module FileOps.
(** [impl Display for FileOpError] *)
Definition fmt (e : FileOpError) : string :=
  match e with
  | FGuard e => PathGuard.fmt e
  | FJournal e => JournalError.fmt Precheck.fmt e
  | InvalidName name => "invalid file name: " +:+ name
  | FNotAFile path => "target is not a file: " +:+ path
  | FBlockedLinkOrReparse path =>
      "refusing to rename symlink, junction, or reparse point: " +:+ path
  | FDestinationExists path => "destination already exists: " +:+ path
  | FCreate path message => "cannot create " +:+ path +:+ ": " +:+ message
  | FMove from to message => "cannot move " +:+ from +:+ " to " +:+ to +:+ ": " +:+ message
  | FSerialize message => "cannot serialize file op report: " +:+ message
  end.

Definition validate_file_name (name : string) : result string FileOpError :=
  let trimmed := trim name in
  if is_empty trimmed || contains_char "/" trimmed || contains_char "\" trimmed
     || is_dot trimmed || is_dotdot trimmed
  then Err (InvalidName name) else Ok trimmed.

Definition sibling_relative_path (relative_path new_name : string) : string :=
  match path_parent relative_path with
  | Some parent =>
      if is_empty parent then new_name else replace_char "\" "/" (path_join parent new_name)
  | None => new_name
  end.

Section file_ops.
Context {DB : Type} `{!SqlDb DB}.
Abbreviation IO := (io (world DB) FileOpError).

Definition unix_ms : IO Z := now_ms.
Definition unix_nanos : IO Z := now_nanos.

Definition journal_entry (operation_id : string) (status : JournalStatus) (from to : string)
  : IO JournalEntry :=
  let! ms := unix_ms in
  io_ret (mkJournalEntry operation_id status JMove from to ms).

Definition create_empty_file (root_arg relative_path : string) : IO CreateFileReport :=
  let! f := get_fs in
  let! g := io_lift (map_err FGuard (PathGuard.new f root_arg)) in
  let! target := io_lift (map_err FGuard (PathGuard.resolve_for_create f g relative_path)) in
  let! opened := io_try (create_new target) in
  let! f := get_fs in
  match opened with
  | Err error => io_fail (if path_exists f target then FDestinationExists target
                          else FCreate target (io_error_str error))
  | Ok _ => io_ret (mkCreateFileReport (root g) relative_path)
  end.

Definition rename_file (root_arg relative_path new_name : string) : IO RenameFileReport :=
  let! f := get_fs in
  let! g := io_lift (map_err FGuard (PathGuard.new f root_arg)) in
  let! new_name := io_lift (validate_file_name new_name) in
  let! source := io_lift (map_err FGuard (PathGuard.resolve_existing f g relative_path)) in
  let joined := path_join (root g) relative_path in
  let! metadata := io_lift (map_err (fun e => FCreate joined (io_error_str e))
                              (symlink_metadata f joined)) in
  if is_link_or_reparse_point metadata then io_fail (FBlockedLinkOrReparse joined)
  else if negb (is_file_inode metadata) then io_fail (FNotAFile joined)
  else
    let to := sibling_relative_path relative_path new_name in
    let! destination := io_lift (map_err FGuard (PathGuard.resolve_for_create f g to)) in
    if path_exists f destination then io_fail (FDestinationExists destination)
    else
      let! store := io_map_err FJournal (JournalStore.open (root g)) in
      let! nanos := unix_nanos in
      let operation_id := "rename-" +:+ fmt_int nanos in
      let! planned := journal_entry operation_id Planned relative_path to in
      do! io_map_err FJournal (JournalStore.append store planned);
      let! f := get_fs in
      let! destination := io_lift (map_err FGuard (PathGuard.resolve_for_create f g to)) in
      do! io_map_err (fun e => FMove source destination (io_error_str e))
            (fs_rename source destination);
      let! executed := journal_entry operation_id Executed relative_path to in
      do! io_map_err FJournal (JournalStore.append store executed);
      io_ret (mkRenameFileReport (root g) (JournalStore.journal_path_display store) operation_id
                relative_path to).
End file_ops.
End FileOps.
