(* ===== verification/undo.v ===== *)
(** Undoing operations, and the guarded rename that every move of the engine goes through. *)
From Stdlib Require Import ZArith Lia Ascii.
From stdpp Require Import strings pretty gmap functions option list.
From S2P Require Import prelude rust_str std_path std_fs fs_facts path_guard db journal_store precondition.

Open Scope string_scope.
Open Scope list_scope.


(** * [tools/file-engine-cli/src/undo.rs]: undoing the executed operations of a
    root, the latest first. *)

Inductive UndoStatus := UUndone | USkipped.
#[export] Instance UndoStatus_eq_dec : EqDecision UndoStatus.
Proof. solve_decision. Defined.

Record UndoResult := mkUndoResult {
  u_from : string;
  u_to : string;
  u_status : UndoStatus;
  u_reason : option string;
}.
#[export] Instance UndoResult_eq_dec : EqDecision UndoResult.
Proof. solve_decision. Defined.

Record UndoReport := mkUndoReport {
  ur_root : string;
  ur_journal_path : string;
  ur_undone_count : Z;
  ur_skipped_count : Z;
  ur_results : list UndoResult;
}.

Inductive UndoError :=
| UGuard (e : PathGuardError)
| UJournal (e : JErr)
| UCreateParentDir (path message : string)
| UMove (from to message : string)
| OperationNotUndoable (operation_id : string)
| USerialize (message : string).

Module Undo.
(** [impl Display for UndoError] *)
Definition fmt (e : UndoError) : string :=
  match e with
  | UGuard e => PathGuard.fmt e
  | UJournal e => JournalError.fmt Precheck.fmt e
  | UCreateParentDir path message =>
      "cannot create original parent " +:+ path +:+ ": " +:+ message
  | UMove from to message => "cannot move " +:+ from +:+ " to " +:+ to +:+ ": " +:+ message
  | OperationNotUndoable operation_id => "operation is not undoable: " +:+ operation_id
  | USerialize message => "cannot serialize undo journal: " +:+ message
  end.

Definition undone_result (e : JournalEntry) (reason : option string) : UndoResult :=
  mkUndoResult (je_to e) (je_from e) UUndone reason.
Definition skipped_result (e : JournalEntry) (reason : option string) : UndoResult :=
  mkUndoResult (je_to e) (je_from e) USkipped reason.

Section undo.
Context {DB : Type} `{!SqlDb DB}.
Abbreviation IO := (io (world DB) UndoError).

Definition unix_ms : IO Z := now_ms.

Definition undo_entry (e : JournalEntry) (status : JournalStatus) : IO JournalEntry :=
  let! ms := unix_ms in
  io_ret (mkJournalEntry (je_operation_id e) status (je_action e) (je_to e) (je_from e) ms).

(** [store.append(&undo_entry(entry, status)).map_err(UndoError::Journal)?] *)
Definition record (store : JournalStore) (e : JournalEntry) (status : JournalStatus) : IO unit :=
  let! e' := undo_entry e status in
  io_map_err UJournal (JournalStore.append store e').

Definition undo_create_file (g : PathGuard) (store : JournalStore) (e : JournalEntry)
  : IO (result UndoResult string) :=
  let target := path_join (root g) (je_to e) in
  let! f := get_fs in
  if negb (path_exists f target) then
    do! record store e Undone;
    io_ret (Ok (undone_result e (Some "created file is already missing; recorded recovered undo")))
  else if negb (path_is_file f target)
  then io_ret (Err "created path is no longer a file; refusing undo")
  else if negb (unwrap_or_else (fun _ => 1%Z) (result_map inode_len (metadata f target)) =? 0)%Z
  then io_ret (Err "created file is no longer empty; refusing to delete user data")
  else
    do! record store e UndoPlanned;
    do! io_map_err (fun er => UMove target target (io_error_str er)) (remove_file target);
    do! record store e Undone;
    io_ret (Ok (undone_result e None)).

Definition undo_create_dir (g : PathGuard) (store : JournalStore) (e : JournalEntry)
  : IO (result UndoResult string) :=
  let target := path_join (root g) (je_to e) in
  let! f := get_fs in
  if negb (path_exists f target) then
    do! record store e Undone;
    io_ret (Ok (undone_result e
      (Some "created directory is already missing; recorded recovered undo")))
  else if negb (path_is_dir f target)
  then io_ret (Err "created path is no longer a directory; refusing undo")
  else if match read_dir f target with Ok entries => negb (bool_decide (entries = [])) | Err _ => true end
  then io_ret (Err "created directory is not empty; refusing to delete user data")
  else
    do! record store e UndoPlanned;
    do! io_map_err (fun er => UMove target target (io_error_str er)) (remove_dir target);
    do! record store e Undone;
    io_ret (Ok (undone_result e None)).

Definition undo_readme_write (g : PathGuard) (store : JournalStore) (e : JournalEntry)
  : IO (result UndoResult string) :=
  if negb (je_to e =? "README.md")%string
  then io_ret (Err "README write journal target is not README.md; refusing undo")
  else
    let target := path_join (root g) "README.md" in
    let backup := path_join (root g) (je_from e) in
    let absent := path_with_extension backup "absent" in
    do! record store e UndoPlanned;
    let! f := get_fs in
    let finish :=
      do! record store e Undone;
      io_ret (Ok (undone_result e None)) in
    if path_exists f backup then
      do! io_map_err (fun er => UMove backup target (io_error_str er)) (fs_copy backup target);
      finish
    else if path_exists f absent then
      do! (if path_exists f target
           then io_map_err (fun er => UMove target absent (io_error_str er)) (remove_file target)
           else io_ret tt);
      finish
    else io_ret (Err "README write backup is missing; refusing undo").

(** The part of the loop's body for moves and trash. *)
Definition undo_move (g : PathGuard) (store : JournalStore) (e : JournalEntry)
  : IO (result UndoResult string) :=
  let! f := get_fs in
  match PathGuard.resolve_existing f g (je_to e) with
  | Err error =>
      if is_ok (PathGuard.resolve_existing f g (je_from e)) then
        do! record store e Undone;
        io_ret (Ok (undone_result e
          (Some "destination missing and original path exists; recorded recovered undo")))
      else io_ret (Err (PathGuard.fmt error))
  | Ok current_path =>
      let original_path := path_join (root g) (je_from e) in
      let! parent := io_lift (match path_parent original_path with
                              | Some p => Ok p
                              | None => Err (UGuard (MissingPath original_path))
                              end) in
      do! io_map_err (fun er => UCreateParentDir parent (io_error_str er)) (create_dir_all parent);
      let! f := get_fs in
      let! original_path := io_lift (map_err UGuard (PathGuard.resolve_for_create f g (je_from e))) in
      if path_exists f original_path
      then io_ret (Err "original path already exists; refusing to overwrite")
      else
        do! record store e UndoPlanned;
        do! io_map_err (fun er => UMove current_path original_path (io_error_str er))
              (fs_rename current_path original_path);
        do! record store e Undone;
        io_ret (Ok (undone_result e None))
  end.

Record tally := mkTally { undone_count : Z; skipped_count : Z; results : list UndoResult }.

(** The body of the loop. *)
Definition undo_step (g : PathGuard) (store : JournalStore) (undone_operation_ids : list string)
  (only_operation_id : option string) (_ : nat) (t : tally) (e : JournalEntry) : IO tally :=
  if match only_operation_id with
     | Some id => negb (id =? je_operation_id e)%string
     | None => false
     end
  then io_ret t
  else if negb (bool_decide (je_status e = Executed))
          || bool_decide (je_operation_id e ∈ undone_operation_ids)
  then io_ret t
  else
    let! outcome := match je_action e with
                    | JCreateDir => undo_create_dir g store e
                    | JCreateFile => undo_create_file g store e
                    | JReadmeWrite => undo_readme_write g store e
                    | JMove | JTrash => undo_move g store e
                    end in
    match outcome with
    | Ok r => io_ret (mkTally (undone_count t + 1) (skipped_count t) (results t ++ [r]))
    | Err reason =>
        io_ret (mkTally (undone_count t) (skipped_count t + 1)
                  (results t ++ [skipped_result e (Some reason)]))
    end.

Definition undo_with_filter (root_arg : string) (only_operation_id : option string)
  : IO UndoReport :=
  let! f := get_fs in
  let! g := io_lift (map_err UGuard (PathGuard.new f root_arg)) in
  let! store := io_map_err UJournal (JournalStore.open (root g)) in
  let! entries := io_map_err UJournal (JournalStore.read_all store) in
  let undone_operation_ids :=
    map je_operation_id (filter (fun e => je_status e = Undone) entries) in
  let! t := io_for (undo_step g store undone_operation_ids only_operation_id) 0 (mkTally 0 0 [])
              (reverse entries) in
  match only_operation_id with
  | Some operation_id =>
      if bool_decide (results t = []) then io_fail (OperationNotUndoable operation_id)
      else io_ret (mkUndoReport (root g) (JournalStore.journal_path_display store)
                     (undone_count t) (skipped_count t) (results t))
  | None =>
      io_ret (mkUndoReport (root g) (JournalStore.journal_path_display store)
                (undone_count t) (skipped_count t) (results t))
  end.

Definition undo_root (root_arg : string) : IO UndoReport := undo_with_filter root_arg None.
Definition undo_operation (root_arg operation_id : string) : IO UndoReport :=
  undo_with_filter root_arg (Some operation_id).
End undo.
End Undo.

(** * The guarded rename, the step that [execute_move], [trash_file] and the undo of
    both share: a source resolved by [resolve_existing], a destination resolved by
    [resolve_for_create] that names nothing, and [fs::rename]. *)

(** The name an entry has after the rename of [q] to [dst]. *)
Definition renamed (q dst p : path) : path := if bool_decide (q `prefix_of` p) then rekey q dst p else p.

(** [rename(2)] loses only the entry it replaces. *)
Lemma rename_lookup f q dst f' p i :
  wf_tree f -> rename_entry f q dst = Ok f' -> q <> dst -> f !! p = Some i -> p <> dst ->
  f' !! renamed q dst p = Some i.
Proof.
  unfold renamed.
  intros Hwf ([iq Hiq] & [[? _]|(Hnp & -> & Hdst)])%rename_entry_ok Hqd Hp Hne; [done|].
  case_bool_decide as Hq; rewrite lookup_move_subtree.
  { destruct Hq as [k ->]. rewrite rekey_app, bool_decide_true by (by exists k). by rewrite drop_app_length. }
  rewrite bool_decide_false, bool_decide_false; [done..|]. intros [k ->].
  destruct (decide (k = [])) as [->|Hk]; [by rewrite app_nil_r in Hne|].
  destruct (wf_prefix _ _ _ _ Hwf Hp Hk) as (j & Hj & Hdj).
  destruct (Hdst _ _ Hiq Hj) as [(_ & _ & He)|[_ ?]]; [|congruence].
  rewrite dir_empty_true in He by done. rewrite He in Hp; [done|by exists k|]. intros H.
  apply Hk. apply (f_equal length) in H. rewrite length_app in H. apply length_zero_iff_nil. lia.
Qed.

(** A name that [exists] denies holds nothing, or a link that leads nowhere. *)
Definition free (f : tree) (p : path) : Prop :=
  f !! p = None \/ exists j, f !! p = Some j /\ is_link_inode j = true.

Lemma not_exists_free f d s :
  wf_tree f -> seg_ok s -> path_exists f (path_join (abs_path d) s) = false -> free f (d ++ [s]).
Proof.
  intros Hwf Hs He. destruct (f !! (d ++ [s])) as [j|] eqn:Hj; [|by left]. right. exists j. split; [done|].
  destruct (is_link_inode j) eqn:Hl; [done|]. unfold path_exists, metadata, tree_get in He.
  by rewrite (resolve_abs_join _ Hwf _ _ _ Hj Hl Hs), Hj in He.
Qed.

(** [f'] is [f] with the entry [q] renamed to [dst], inside the root [r]; [fa] is
    the earlier tree in which [dst] was seen to be free. *)
Record moved (r q dst : path) (fa f f' : tree) : Prop := {
  moved_source : exists i, fa !! q = Some i /\ is_link_inode i = false;
  moved_source_in : r `prefix_of` q;
  moved_dest : exists d s, dst = d ++ [s] /\ r `prefix_of` d /\ seg_ok s /\ dir_at f d;
  moved_free : free fa dst;
  moved_kept : fa ⊆ f;
  moved_rename : rename_entry f q dst = Ok f';
}.

Section moved.
Context (r q dst : path) (fa f f' : tree) (Hwf : wf_tree f) (Hm : moved r q dst fa f f').

Lemma moved_ne : q <> dst.
Proof.
  intros ->. destruct (moved_source _ _ _ _ _ _ Hm) as (i & Hi & Hl).
  destruct (moved_free _ _ _ _ _ _ Hm) as [?|(j & ? & ?)]; congruence.
Qed.

(** Every entry seen but a link at the destination keeps its contents, below
    the new name if it was below the old one. *)
Lemma moved_lookup p i : fa !! p = Some i -> p <> dst -> f' !! renamed q dst p = Some i.
Proof.
  intros Hp Hne. eapply rename_lookup; [done|apply (moved_rename _ _ _ _ _ _ Hm)|apply moved_ne| |done].
  by eapply lookup_weaken, (moved_kept _ _ _ _ _ _ Hm).
Qed.
Lemma moved_entry p i : fa !! p = Some i -> is_link_inode i = false -> f' !! renamed q dst p = Some i.
Proof.
  intros Hp Hl. apply moved_lookup; [done|]. intros ->.
  destruct (moved_free _ _ _ _ _ _ Hm) as [?|(j & ? & ?)]; congruence.
Qed.

Lemma moved_subtree : ~ q `prefix_of` dst /\ f' = move_subtree q dst f.
Proof.
  destruct (rename_entry_ok _ _ _ _ (moved_rename _ _ _ _ _ _ Hm)) as (_ & [[? _]|(? & ? & _)]); [|done].
  by destruct moved_ne.
Qed.

Lemma moved_not_root : ~ q `prefix_of` r.
Proof.
  destruct (moved_dest _ _ _ _ _ _ Hm) as (d & s & Heq & Hrd & _).
  intros Hq. apply moved_subtree. rewrite Heq. etrans; [exact Hq|]. by apply prefix_app_r.
Qed.
Lemma moved_root : dir_at f r -> dir_at f' r.
Proof.
  intros (i & Hi & Hd). destruct (moved_dest _ _ _ _ _ _ Hm) as (d & s & Heq & Hrd & _).
  assert (r <> dst) as Hne by (intros ->; rewrite Heq in Hrd; by apply not_prefix_shorter in Hrd).
  pose proof moved_not_root as Hq. exists i. split; [|done].
  pose proof (rename_lookup f q dst f' r i Hwf (moved_rename _ _ _ _ _ _ Hm) moved_ne Hi Hne) as H.
  unfold renamed in H. by rewrite bool_decide_false in H.
Qed.

Lemma moved_wf : wf_tree f'.
Proof.
  destruct moved_subtree as [Hnp ->].
  destruct (moved_dest _ _ _ _ _ _ Hm) as (d & s & -> & _ & Hs & Hd). by eapply wf_move.
Qed.

(** Renaming back restores the tree, when nothing was replaced. *)
Lemma moved_back : f !! dst = None -> move_subtree dst q f' = f.
Proof.
  intros Hnone. destruct moved_subtree as [Hnp ->]. apply map_eq. intros p. rewrite lookup_move_subtree.
  case_bool_decide as Hq.
  - destruct Hq as [k ->]. rewrite drop_app_length, lookup_move_subtree.
    rewrite bool_decide_true by (by exists k). by rewrite drop_app_length.
  - case_bool_decide as Hd; [symmetry; by eapply wf_below_none|].
    rewrite lookup_move_subtree. by rewrite !bool_decide_false.
Qed.
End moved.

Lemma guard_at_mono f f' g r : f ⊆ f' -> guard_at f g r -> guard_at f' g r.
Proof. intros Hs [Hr (i & Hi & Hd)]. split; [done|]. exists i. split; [|done]. by eapply lookup_weaken. Qed.

Lemma adds_dirs_mono {DB} (w w' : world DB) : adds_dirs w w' -> w_fs w ⊆ w_fs w'.
Proof. intros H. apply map_subseteq_spec. intros p i. by apply adds_dirs_some. Qed.

(** What the guard found stays found when entries are added. *)
Lemma walk_mono n f f' fl cur l p :
  f ⊆ f' -> walk n f false fl cur l = Ok p -> walk n f' false fl cur l = Ok p.
Proof.
  intros Hsub. revert cur l. induction n as [n IHn] using lt_wf_ind. intros cur l. revert cur.
  induction l as [|c l IH]; intros cur; [by rewrite !walk_nil|].
  rewrite !walk_cons. destruct c as [| | |x]; try by apply IH.
  destruct (f !! (cur ++ [x])) as [i|] eqn:Hi; [|done]. rewrite (lookup_weaken _ _ _ _ Hi Hsub).
  destruct (i_kind i) as [c| |t]; [done|by apply IH|]. case_match; [done|].
  destruct n as [|n]; [done|]. apply IHn. lia.
Qed.
Lemma canonicalize_mono f f' p c : wf_tree f -> f ⊆ f' -> canonicalize f p = Ok c -> canonicalize f' p = Ok c.
Proof.
  intros Hwf Hs H. apply canonicalize_ok in H as (q & i & Hq & Hi & _ & ->); [|done].
  unfold canonicalize, tree_get, resolve. rewrite (walk_mono _ _ _ _ _ _ _ Hs Hq).
  by rewrite (lookup_weaken _ _ _ _ Hi Hs).
Qed.
Lemma resolve_existing_mono f f' g rel p :
  wf_tree f -> f ⊆ f' -> PathGuard.resolve_existing f g rel = Ok p -> PathGuard.resolve_existing f' g rel = Ok p.
Proof.
  unfold PathGuard.resolve_existing, PathGuard.canonicalize_existing. intros Hwf Hs.
  destruct (PathGuard.reject_unsafe_components rel); [|done]. simpl.
  destruct (canonicalize f _) as [c|e] eqn:Hc; [|done].
  by rewrite (canonicalize_mono _ _ _ _ Hwf Hs Hc).
Qed.
Lemma resolve_for_create_mono f f' g rel p :
  wf_tree f -> f ⊆ f' -> PathGuard.resolve_for_create f g rel = Ok p -> PathGuard.resolve_for_create f' g rel = Ok p.
Proof.
  unfold PathGuard.resolve_for_create, PathGuard.canonicalize_existing. intros Hwf Hs.
  destruct (PathGuard.reject_unsafe_components rel); [|done]. simpl.
  destruct (path_parent _) as [pa|]; [|done]. simpl.
  destruct (canonicalize f _) as [c|e] eqn:Hc; [|done].
  by rewrite (canonicalize_mono _ _ _ _ Hwf Hs Hc).
Qed.

(** The rename of a source resolved in [f0] to a destination resolved and seen
    free in [fa], on the machine [w]. *)
Lemma guarded_rename_run {DB : Type} (g : PathGuard) (r : path) (from to source dest : string) (f0 fa : tree) (w : world DB) (res : result unit io_error) w' :
  wf_tree f0 -> guard_named g r -> PathGuard.resolve_existing f0 g from = Ok source ->
  f0 ⊆ fa -> wf_tree fa -> PathGuard.resolve_for_create fa g to = Ok dest ->
  path_exists fa dest = false -> fa ⊆ w_fs w -> wf_tree (w_fs w) ->
  fs_rename source dest w = (res, w') ->
  match res with
  | Ok _ => exists q dst, resolve f0 (path_join (root g) from) = Ok q /\
      (exists d s, dest = path_join (abs_path d) s /\ dst = d ++ [s] /\ Forall seg_ok d /\ seg_ok s) /\
      moved r q dst fa (w_fs w) (w_fs w') /\ w_db w' = w_db w /\ w_log w' = w_log w ++ [EvRename q dst]
  | Err _ => quiet w w'
  end.
Proof.
  intros Hwf0 Hg Hsrc H0a Hwfa Hdst Hex Hsub Hwf Hrun. apply fs_rename_run in Hrun.
  destruct res as [u|e]; [|done].
  destruct (resolve_existing_ok _ Hwf0 _ _ Hg _ _ Hsrc) as (q & i & -> & Hrq & Hi & Hl & Hres & _).
  destruct (resolve_for_create_ok _ Hwfa _ _ Hg _ _ Hdst) as (d & s & k & -> & Hrd & Hk & Hkl & Hs & _).
  pose proof (lookup_weaken _ _ _ _ Hi H0a) as Hia.
  pose proof (lookup_weaken _ _ _ _ Hia Hsub) as Hiw. pose proof (lookup_weaken _ _ _ _ Hk Hsub) as Hkw.
  destruct Hrun as (s' & d' & f' & Hls & Hld & Hren & Hf' & Hdb & Hlog).
  rewrite (lresolve_abs _ Hwf _ _ Hiw) in Hls. injection Hls as <-.
  destruct (locate_abs_join_inv _ Hwf _ _ _ _ Hkw Hkl Hs Hld) as [Hdd ->].
  exists q, (d ++ [s]). split_and!; [done|exists d, s; split_and!; try done; by eapply wf_segs| |done|done].
  split; [by exists i|done|by exists d, s|by apply not_exists_free|done|by rewrite Hf'].
Qed.
