(* ===== verification/engine_safety.v ===== *)
(** What whole engine operations keep: a method for relations, and the journal. *)
From Stdlib Require Import ZArith Lia Ascii.
From stdpp Require Import strings pretty gmap functions option list relations.
From S2P Require Import prelude rust_str rule_definition std_path std_fs fs_facts path_guard db journal_store proposal_types decision analyzer proposal precondition.
From S2P Require Import trash execute undo history file_ops.

Open Scope string_scope.
Open Scope list_scope.


(** * Relations kept by whole engine operations.

    [StepRel R] is the interface between a property of single calls and the
    operations built from them: a relation kept by the calls below is kept by
    trash, execute, undo and journal operations as soon as it is kept by the
    places that rename or remove. *)

Class StepRel {DB} `{!SqlDb DB} (R : world DB -> world DB -> Prop) : Prop := {
  #[global] step_preorder :: PreOrder R;
  step_quiet w w' : quiet w w' -> R w w';
  step_mkdir p : io_rel R (create_dir p);
  step_new p : io_rel R (create_new p);
  step_append s e : io_rel R (JournalStore.append (P:=PrecheckError) s e);
  step_open root : io_rel R (JournalStore.open (P:=PrecheckError) root);
  step_read s : io_rel R (JournalStore.read_raw (P:=PrecheckError) s);
}.

(** The calls that rename, remove or overwrite. *)
Class ChangeRel {DB} `{!SqlDb DB} (R : world DB -> world DB -> Prop) : Prop := {
  #[global] change_step :: StepRel R;
  change_rename p q : io_rel R (fs_rename p q);
  change_remove_file p : io_rel R (remove_file p);
  change_remove_dir p : io_rel R (remove_dir p);
  change_create p : io_rel R (file_create p);
  change_append p c : io_rel R (file_append p c);
}.

Section step.
Context {DB : Type} `{!SqlDb DB} (R : world DB -> world DB -> Prop) `{!StepRel R}.

Lemma step_now_ms {E} : io_rel (E:=E) R now_ms.
Proof. apply clock_quiet. intros; by apply step_quiet. Qed.
Lemma step_now_nanos {E} : io_rel (E:=E) R now_nanos.
Proof. apply clock_quiet. intros; by apply step_quiet. Qed.
Lemma step_get_fs {E} : io_rel (E:=E) R get_fs.
Proof. apply io_rel_gets, _. Qed.
Lemma step_mkdir_all p : io_rel R (create_dir_all p).
Proof. apply create_dir_all_rel; [apply _|apply step_mkdir]. Qed.
Lemma step_read_lenient s : io_rel R (JournalStore.read_all_lenient (P:=PrecheckError) s).
Proof. unfold JournalStore.read_all_lenient. io_rel_go. apply step_read. Qed.
Lemma step_read_all s : io_rel R (JournalStore.read_all (P:=PrecheckError) s).
Proof. unfold JournalStore.read_all. io_rel_go. apply step_read_lenient. Qed.
Lemma step_read_raw s : io_rel R (JournalStore.read_raw (P:=PrecheckError) s).
Proof. apply step_read. Qed.
End step.

#[export] Hint Resolve step_now_ms step_now_nanos step_get_fs step_mkdir step_mkdir_all step_new
  step_append step_open step_read_lenient step_read_all step_read_raw
  change_step change_rename change_remove_file change_remove_dir change_create change_append : io.

#[export] Hint Extern 1 (StepRel _) => typeclasses eauto : io.
#[export] Hint Extern 1 (ChangeRel _) => typeclasses eauto : io.

Section engine.
Context {DB : Type} `{!SqlDb DB} (R : world DB -> world DB -> Prop) `{!StepRel R}.
Context (parse : string -> result RuleSet string)
  (to_string_pretty : TrashMetadata -> result string string).

Lemma execute_record_rel s m : io_rel R m -> io_rel R (Execute.record s m).
Proof. intros Hm. unfold Execute.record. io_rel_go; done. Qed.
Lemma journal_entry_rel id st c : io_rel R (Execute.journal_entry (DB:=DB) id st c).
Proof. unfold Execute.journal_entry, Execute.unix_ms. io_rel_go. Qed.
Lemma readme_entry_rel id st b t : io_rel R (Execute.readme_journal_entry (DB:=DB) id st b t).
Proof. unfold Execute.readme_journal_entry, Execute.unix_ms. io_rel_go. Qed.
Lemma undo_record_rel s e st : io_rel R (Undo.record s e st).
Proof. unfold Undo.record, Undo.undo_entry, Undo.unix_ms. io_rel_go. Qed.

Lemma propose_rel root : io_rel R (ProposalEngine.propose_for_root (DB:=DB) parse root).
Proof.
  unfold ProposalEngine.propose_for_root, ProposalEngine.propose_for_root_with_rule_set,
    ProposalEngine.propose_for_analysis_with_rule_set, ProposalEngine.unix_ms. io_rel_go.
Qed.
Lemma precheck_root_rel root : io_rel R (Precheck.precheck_root (DB:=DB) parse root).
Proof. unfold Precheck.precheck_root. io_rel_go. apply propose_rel. Qed.
Lemma history_rel root : io_rel R (History.read_operation_history (DB:=DB) root).
Proof. unfold History.read_operation_history. io_rel_go. Qed.
Lemma write_planned_rel root : io_rel R (History.write_planned_journal (DB:=DB) parse root).
Proof.
  unfold History.write_planned_journal, History.plan_check. io_rel_go. apply precheck_root_rel.
Qed.

Lemma execute_create_dir_rel g s c i : io_rel R (Execute.execute_create_dir g s c i).
Proof.
  unfold Execute.execute_create_dir, Execute.planned_entry, Execute.executed_entry, Execute.unix_ms.
  io_rel_go; apply execute_record_rel, journal_entry_rel.
Qed.
Lemma execute_create_file_rel g s c i : io_rel R (Execute.execute_create_file g s c i).
Proof.
  unfold Execute.execute_create_file, Execute.planned_entry, Execute.executed_entry, Execute.unix_ms.
  io_rel_go; apply execute_record_rel, journal_entry_rel.
Qed.
Lemma recover_planned_rel g es s c : io_rel R (Execute.recover_planned_move g es s c).
Proof.
  unfold Execute.recover_planned_move, Execute.executed_entry.
  io_rel_go; apply execute_record_rel, journal_entry_rel.
Qed.

Lemma file_ops_entry_rel id st from to : io_rel R (FileOps.journal_entry (DB:=DB) id st from to).
Proof. unfold FileOps.journal_entry, FileOps.unix_ms. io_rel_go. Qed.
Lemma create_empty_file_rel root p : io_rel R (FileOps.create_empty_file (DB:=DB) root p).
Proof. unfold FileOps.create_empty_file. io_rel_go. Qed.

(** Execution keeps what its three changing actions keep. *)
Context (Hmove : forall g s c i, io_rel R (Execute.execute_move g s c i))
  (Htrash : forall root p, io_rel R (Trash.trash_file to_string_pretty root p)).

Lemma execute_check_rel g s es i t c :
  (c_action c = ReadmeWrite -> io_rel R (Execute.execute_readme_write g s c i)) ->
  io_rel R (Execute.execute_check to_string_pretty g s es i t c).
Proof.
  intros Hreadme. unfold Execute.execute_check. destruct (negb _).
  { io_rel_go. apply recover_planned_rel. }
  destruct (c_action c); io_rel_go; auto using execute_create_dir_rel, execute_create_file_rel.
Qed.

Lemma io_rel_for_in {W E A S} (Q : W -> W -> Prop) `{!PreOrder Q} (f : nat -> S -> A -> io W E S) l i s :
  (forall i s a, a ∈ l -> io_rel Q (f i s a)) -> io_rel Q (io_for f i s l).
Proof.
  revert i s. induction l as [|a l IH]; intros i s Hf; simpl; [apply io_rel_ret, _|].
  apply io_rel_bind; [apply _|apply Hf; by left|]. intros s'. apply IH. intros. apply Hf. by right.
Qed.

Lemma execute_prechecked_rel g pre :
  (forall s c i, c ∈ pc_checks pre -> c_action c = ReadmeWrite ->
     io_rel R (Execute.execute_readme_write g s c i)) ->
  io_rel R (Execute.execute_prechecked to_string_pretty g pre).
Proof.
  intros Hreadme. unfold Execute.execute_prechecked.
  apply io_rel_bind; [apply _|io_rel_go|]. intros s.
  apply io_rel_bind; [apply _|io_rel_go|]. intros es.
  apply io_rel_bind; [apply _| |intros t; apply io_rel_ret, _].
  apply io_rel_for_in; [apply _|]. intros i t c Hc. apply execute_check_rel. intros. by eapply Hreadme.
Qed.
End engine.

Section change.
Context {DB : Type} `{!SqlDb DB} (R : world DB -> world DB -> Prop) `{!ChangeRel R}.
Context (parse : string -> result RuleSet string)
  (to_string_pretty : TrashMetadata -> result string string)
  (row_to_string : RawJournalRow -> result string string).

Lemma change_write p c : io_rel R (fs_write p c).
Proof. unfold fs_write. io_rel_go. Qed.
Lemma change_copy p q : io_rel R (fs_copy p q).
Proof. unfold fs_copy. io_rel_go. apply change_write. Qed.

Lemma trash_file_rel root p : io_rel R (Trash.trash_file to_string_pretty root p).
Proof.
  unfold Trash.trash_file, Trash.trash_journaled, Trash.free_path. io_rel_go. apply change_write.
Qed.
Lemma rename_file_rel root p n : io_rel R (FileOps.rename_file root p n).
Proof. unfold FileOps.rename_file, FileOps.unix_nanos. io_rel_go; apply file_ops_entry_rel, _. Qed.
Lemma execute_move_rel g s c i : io_rel R (Execute.execute_move g s c i).
Proof.
  unfold Execute.execute_move, Execute.planned_entry, Execute.executed_entry, Execute.unix_ms.
  io_rel_go; apply execute_record_rel, journal_entry_rel; apply _.
Qed.
Lemma execute_readme_rel g s c i : io_rel R (Execute.execute_readme_write g s c i).
Proof.
  unfold Execute.execute_readme_write, Execute.unix_ms.
  io_rel_go; first [apply change_write|apply change_copy|apply execute_record_rel, readme_entry_rel; apply _].
Qed.

Lemma execute_proposals_rel root rep : io_rel R (Execute.execute_proposals to_string_pretty root rep).
Proof.
  unfold Execute.execute_proposals. io_rel_go.
  apply execute_prechecked_rel; auto using execute_move_rel, trash_file_rel, execute_readme_rel; apply _.
Qed.
Lemma execute_decisions_rel root app :
  io_rel R (Execute.execute_decision_application to_string_pretty root app).
Proof. unfold Execute.execute_decision_application. io_rel_go. apply execute_proposals_rel. Qed.
Lemma execute_root_rel root : io_rel R (Execute.execute_root parse to_string_pretty root).
Proof.
  unfold Execute.execute_root. io_rel_go; [apply precheck_root_rel, _|].
  apply execute_prechecked_rel; auto using execute_move_rel, trash_file_rel, execute_readme_rel; apply _.
Qed.

Lemma undo_step_rel g s ids only i t e : io_rel R (Undo.undo_step g s ids only i t e).
Proof.
  unfold Undo.undo_step, Undo.undo_create_dir, Undo.undo_create_file, Undo.undo_readme_write, Undo.undo_move.
  io_rel_go; first [apply undo_record_rel, _|apply change_copy].
Qed.
Lemma undo_with_filter_rel root only : io_rel R (Undo.undo_with_filter root only).
Proof. unfold Undo.undo_with_filter. io_rel_go. apply undo_step_rel. Qed.
End change.

(** * What every operation of the engine keeps, on success and on every error: the rows of
    the journals, and that the files are a tree. *)

(** * The instances *)
Section instances.
Context {DB : Type} `{!SqlDb DB, !JournalDb DB}.
Implicit Types w : world DB.

Lemma read_raw_run s w r w' :
  JournalStore.read_raw (P:=PrecheckError) s w = (r, w') ->
  w_fs w' = w_fs w /\ same_journal w w' /\ w_log w' = w_log w /\
  (forall a, r = Ok a -> a = journal_at (pool s) w).
Proof.
  unfold JournalStore.read_raw, io_map_err, io_bind, Db.fetch_all.
  destruct (sql_fetch_all JournalStore.select_sql [] (w_db w (pool s))) as [r0 d] eqn:Hx.
  pose proof (fetch_rows _ _ _ _ _ Hx) as Hd.
  destruct r0 as [rows|m].
  - apply select_ok in Hx as ->. unfold io_lift. rewrite try_map_columns. intros [= <- <-].
    split_and!; [done|by apply set_db_journal|done|by intros ? [= <-]].
  - intros [= <- <-]. split_and!; [done|by apply set_db_journal|done|done].
Qed.

Lemma quiet_grows w w' : quiet w w' -> journal_grows w w'.
Proof. intros (_ & Hdb & _). by apply same_grows, same_db_journal. Qed.
Lemma only_grows (Q : event -> Prop) {E A} (m : io (world DB) E A) :
  io_rel (only Q) m -> io_rel journal_grows m.
Proof. intros Hm w r w' H. eapply same_grows, only_same_journal; [exact Hm|exact H]. Qed.

#[export] Instance journal_grows_change : ChangeRel (journal_grows (DB:=DB)).
Proof.
  unshelve econstructor; [unshelve econstructor|..]; [apply _|..].
  - apply quiet_grows.
  - intros p. eapply only_grows, create_dir_only.
  - intros p. eapply only_grows, create_new_only.
  - intros s e. apply append_grows.
  - intros root w r w' H. eapply same_grows, open_journal_same, H.
  - intros s w r w' H. apply read_raw_run in H as (_ & H & _). by apply same_grows.
  - intros p q. eapply only_grows, fs_rename_only.
  - intros p. eapply only_grows, remove_file_only.
  - intros p. eapply only_grows, remove_dir_only.
  - intros p. eapply only_grows, file_create_only.
  - intros p c. eapply only_grows, file_append_only.
Qed.

(** The rows that are added can be read. *)
Definition rows_readable (rows : list RawJournalRow) : Prop := Forall (fun row => is_Some (entry_of_row row)) rows.
Definition readable_grows w w' : Prop :=
  forall p, exists l, journal_at p w' = journal_at p w ++ l /\ rows_readable l.
#[export] Instance readable_grows_preorder : PreOrder readable_grows.
Proof.
  split; [intros w p; exists []; split; [by rewrite app_nil_r|by apply Forall_nil]|].
  intros w1 w2 w3 H1 H2 p. destruct (H1 p) as (l1 & Hl1 & HF1), (H2 p) as (l2 & Hl2 & HF2).
  exists (l1 ++ l2). split; [by rewrite Hl2, Hl1, app_assoc|by apply Forall_app].
Qed.
Lemma same_readable w w' : same_journal w w' -> readable_grows w w'.
Proof. intros H p. exists []. split; [by rewrite H, app_nil_r|by apply Forall_nil]. Qed.
Lemma readable_grows_grows w w' : readable_grows w w' -> journal_grows w w'.
Proof. intros H p. destruct (H p) as (l & Hl & _). by exists l. Qed.
Lemma only_readable (Q : event -> Prop) {E A} (m : io (world DB) E A) : io_rel (only Q) m -> io_rel readable_grows m.
Proof. intros Hm w r w' H. eapply same_readable, only_same_journal; [exact Hm|exact H]. Qed.
Lemma row_of_entry_readable seq e : is_Some (entry_of_row (row_of_entry seq e)).
Proof. unfold entry_of_row. simpl. rewrite status_roundtrip, action_roundtrip. by eexists. Qed.
#[export] Instance readable_grows_change : ChangeRel (readable_grows).
Proof.
  unshelve econstructor; [unshelve econstructor|..]; [apply _|..].
  - intros w w' (_ & Hdb & _). by apply same_readable, same_db_journal.
  - intros p. eapply only_readable, create_dir_only.
  - intros p. eapply only_readable, create_new_only.
  - intros s e w r w' H. apply append_run in H as [_ H]. destruct r as [u|er]; [|by apply same_readable, H].
    destruct H as ([seq Hseq] & Ho & _). intros p. destruct (decide (p = pool s)) as [->|Hp].
    + exists [row_of_entry seq e]. split; [done|]. apply list.Forall_singleton, row_of_entry_readable.
    + exists []. split; [by rewrite Ho, app_nil_r|by apply Forall_nil].
  - intros root w r w' H. eapply same_readable, open_journal_same, H.
  - intros s w r w' H. apply read_raw_run in H as (_ & H & _). by apply same_readable.
  - intros p q. eapply only_readable, fs_rename_only.
  - intros p. eapply only_readable, remove_file_only.
  - intros p. eapply only_readable, remove_dir_only.
  - intros p. eapply only_readable, file_create_only.
  - intros p c. eapply only_readable, file_append_only.
Qed.

Lemma same_tree_step_wf {E A} (m : io (world DB) E A) : io_rel same_tree m -> io_rel keeps_wf m.
Proof. apply same_tree_wf. Qed.

#[export] Instance keeps_wf_change : ChangeRel (keeps_wf (DB:=DB)).
Proof.
  unshelve econstructor; [unshelve econstructor|..]; [apply _|..]; eauto with io.
  - apply quiet_wf.
  - intros s e. apply same_tree_wf, append_tree.
  - apply open_wf.
  - intros s. apply same_tree_wf. intros w r w' H. by apply read_raw_run in H as (H & _).
Qed.

(** ** Logs *)
Definition adds_only (e : event) : Prop := is_mkdir e \/ is_store e \/ is_sql e.

Lemma step_logs (Q : event -> Prop) : (forall e, adds_only e -> Q e) -> StepRel (logs (DB:=DB) Q).
Proof.
  intros HQ. unshelve econstructor; [apply _|..].
  - intros w w' (_ & _ & H). by apply logs_none.
  - intros p. eapply logs_weaken; [|apply only_logs, create_dir_only]. intros e He. by apply HQ; left.
  - intros p. eapply logs_weaken; [|apply only_logs, create_new_only]. intros e He. by apply HQ; right; left.
  - intros s e w r w' H. apply append_run in H as [_ H]. destruct r as [u|er].
    + destruct H as (_ & _ & Hl). eapply logs_one; [exact Hl|]. apply HQ. right; right. by eexists _, _, _.
    + apply logs_none, H.
  - intros root. eapply logs_weaken; [|apply open_logs]. intros e [He|He]; apply HQ; [by left|by right; right].
  - intros s w r w' H. apply read_raw_run in H as (_ & _ & H & _). by apply logs_none.
Qed.
End instances.
