(* ===== verification/engine_guard.v ===== *)
(** The engine inside its root: every rename stays under the managed root, nothing
    is removed by an execution, and no regular file is lost. *)
From Stdlib Require Import ZArith Lia Ascii.
From stdpp Require Import strings pretty gmap functions option list relations.
From S2P Require Import prelude rust_str rule_definition std_path std_fs fs_facts path_guard db.
From S2P Require Import journal_store proposal_types decision analyzer proposal.
From S2P Require Import precondition trash execute undo history engine_safety.

Open Scope string_scope.
Open Scope list_scope.

(** Renames below the root [r] of an entry that is not the root; no removals. *)
Definition inside (r : path) (e : event) : Prop :=
  match e with
  | EvRename s d => r `prefix_of` s /\ s <> r /\ r `prefix_of` d
  | EvUnlink _ | EvRmdir _ => False
  | _ => True
  end.

(** What the relation below adds to containment. *)
Class TreeRel (Q : tree -> tree -> Prop) : Prop := {
  #[global] tree_preorder :: PreOrder Q;
  tree_sub f f' : f ⊆ f' -> Q f f';
  tree_moved r q dst fa f f' : wf_tree f -> moved r q dst fa f f' -> Q fa f';
}.

(** An invariant of the tree that additions and moves inside the root keep. *)
Class KeptInv (r : path) (I : tree -> Prop) : Prop := {
  inv_sub f f' : f ⊆ f' -> I f -> I f';
  inv_moved q dst fa f f' : wf_tree f -> moved r q dst fa f f' -> I f -> I f';
}.

Section keep.
Context {DB : Type} `{!SqlDb DB, !JournalDb DB}.
(** The tree's invariant, the events allowed, the relation of the trees. *)
Context (I : tree -> Prop) (P : event -> Prop) (Q : tree -> tree -> Prop) (r : path).
Context `{!KeptInv r I, !TreeRel Q} (HP : forall e, inside r e -> P e) (Hsegs : Forall seg_ok r).
Context (to_string_pretty : TrashMetadata -> result string string).
Implicit Types w : world DB.

Definition rooted w : Prop := wf_tree (w_fs w) /\ I (w_fs w).
Definition keep w w' : Prop :=
  rooted w -> rooted w' /\ logs P w w' /\ Q (w_fs w) (w_fs w').

#[local] Instance keep_preorder : PreOrder keep.
Proof.
  split; [intros w Hw; split_and!; [done|reflexivity|reflexivity]|].
  intros w1 w2 w3 H12 H23 (Hw2 & Hl2 & HQ2)%H12. destruct (H23 Hw2) as (Hw3 & Hl3 & HQ3).
  split_and!; [done|by etrans|by etrans].
Qed.

(** Calls that only add entries. *)
Lemma keep_sub w w' :
  (wf_tree (w_fs w) -> wf_tree (w_fs w') /\ w_fs w ⊆ w_fs w') -> logs P w w' -> keep w w'.
Proof.
  intros Hsub Hlog [Hwf Hi]. destruct (Hsub Hwf) as [Hwf' Hs].
  split_and!; [split; [done|by eapply inv_sub]|done|by apply tree_sub].
Qed.
Lemma keep_same w w' : w_fs w' = w_fs w -> logs P w w' -> keep w w'.
Proof. intros Hf. apply keep_sub. by rewrite Hf. Qed.

#[local] Instance inside_step : StepRel (logs (DB:=DB) P).
Proof. apply step_logs. by intros e [(p & ->)|[(p & [->| ->])|(p & sql & b & ->)]]; apply HP. Qed.

Lemma adds_sub q k e w w' p :
  locate (w_fs w) p = Ok q -> adds q k e w w' -> wf_tree (w_fs w) -> wf_tree (w_fs w') /\ w_fs w ⊆ w_fs w'.
Proof.
  intros Hq Ha Hwf. split; [by eapply wf_adds|]. destruct Ha as (Hn & -> & _). by apply insert_subseteq.
Qed.

#[local] Instance keep_step : StepRel keep.
Proof.
  unshelve econstructor; [apply _|..].
  - intros w w' (Hf & _ & Hl). apply keep_same; [done|by apply logs_none].
  - intros p w x w' H. apply keep_sub; [|by eapply (step_mkdir (R:=logs P))].
    apply create_dir_run in H. destruct x; [|destruct H as (-> & _); done].
    destruct H as (q & Hq & Ha). by eapply adds_sub.
  - intros p w x w' H. apply keep_sub; [|by eapply (step_new (R:=logs P))].
    apply create_new_run in H. destruct x; [|destruct H as (-> & _); done].
    destruct H as (q & Hq & Ha). by eapply adds_sub.
  - intros s e w x w' H. apply keep_same; [by eapply append_tree|].
    by eapply (step_append (R:=logs P)).
  - intros root w x w' H. apply keep_sub; [|by eapply (step_open (R:=logs P))].
    intros Hwf. split; [by eapply open_wf|]. by eapply adds_dirs_mono, open_adds_dirs.
  - intros s w x w' H. apply keep_same; [by apply read_raw_run in H as (? & _)|].
    by eapply (step_read (R:=logs P)).
Qed.

(** The rename of [execute_move], [undo_move] and [trash_file]. *)
Lemma keep_rename (g : PathGuard) (from to source dest : string) (f0 : tree) w0 w
  (res : result unit io_error) w' :
  root g = abs_path r -> wf_tree f0 -> PathGuard.resolve_existing f0 g from = Ok source ->
  f0 ⊆ w_fs w0 -> rooted w0 -> PathGuard.resolve_for_create (w_fs w0) g to = Ok dest ->
  path_exists (w_fs w0) dest = false -> w_fs w0 ⊆ w_fs w -> rooted w ->
  fs_rename source dest w = (res, w') ->
  rooted w' /\ logs P w w' /\ Q (w_fs w0) (w_fs w').
Proof.
  intros Hg Hwf0 Hsrc Hsub0 [Hwfa Hda] Hdst Hex Hsub [Hwf Hd] Hrun.
  eapply guarded_rename_run in Hrun; [|exact Hwf0|by split|exact Hsrc|exact Hsub0|exact Hwfa|exact Hdst|done..].
  destruct res as [u|e].
  - destruct Hrun as (q & dst & _ & _ & Hm & _ & Hlog).
    split_and!; [split; [by eapply moved_wf|by eapply inv_moved]| |by eapply tree_moved].
    eapply logs_one; [exact Hlog|]. apply HP. split_and!; [by eapply moved_source_in| |].
    { intros ->. eapply moved_not_root; [done|reflexivity]. }
    destruct (moved_dest _ _ _ _ _ _ Hm) as (d & s & -> & Hrd & _). by apply prefix_app_r.
  - destruct Hrun as (Hf & _ & Hl). rewrite Hf. split_and!; [by split; rewrite Hf|by apply logs_none|by apply tree_sub].
Qed.
Definition kept w w' : Prop := rooted w' /\ logs P w w' /\ Q (w_fs w) (w_fs w').

Lemma kept_trans w1 w2 w3 : kept w1 w2 -> kept w2 w3 -> kept w1 w3.
Proof. intros (_ & Hl1 & HQ1) (Hr & Hl2 & HQ2). split_and!; [done|by etrans|by etrans]. Qed.
Lemma kept_refl w : rooted w -> kept w w.
Proof. intros Hw. by apply keep_preorder. Qed.

(** A computation begins with [m], which keeps the relation. *)
Lemma keep_then {E A B} (m : io (world DB) E A) (k : A -> io (world DB) E B) w x w' :
  io_rel keep m -> rooted w -> io_bind m k w = (x, w') ->
  (forall a w1, m w = (Ok a, w1) -> rooted w1 -> k a w1 = (x, w') -> kept w1 w') -> kept w w'.
Proof.
  intros Hm Hw [(a & w1 & H1 & H2)|(e & H1 & ->)]%io_bind_inv Hk; [|exact (Hm _ _ _ H1 Hw)].
  pose proof (Hm _ _ _ H1 Hw) as H1'. eapply kept_trans; [exact H1'|]. eapply Hk; [done| |done]. apply H1'.
Qed.
Lemma keep_all {E A} (m : io (world DB) E A) w x w' :
  io_rel keep m -> rooted w -> m w = (x, w') -> kept w w'.
Proof. intros Hm Hw H. exact (Hm _ _ _ H Hw). Qed.

(** From the guarded rename at [w] to the end. *)
Lemma keep_rename_then {E A} (g : PathGuard) (from to source dest : string) (f0 : tree) w0 w
    (h : io_error -> E) (k : unit -> io (world DB) E A) x w' :
  root g = abs_path r -> wf_tree f0 -> PathGuard.resolve_existing f0 g from = Ok source ->
  f0 ⊆ w_fs w0 -> rooted w0 -> PathGuard.resolve_for_create (w_fs w0) g to = Ok dest ->
  path_exists (w_fs w0) dest = false -> w_fs w0 ⊆ w_fs w -> rooted w -> logs P w0 w ->
  (forall u, io_rel keep (k u)) ->
  io_bind (io_map_err h (fs_rename source dest)) k w = (x, w') -> kept w0 w'.
Proof.
  intros Hg Hwf0 Hsrc Hsub0 Hw0 Hdst Hex Hsub Hw Hl0 Hk Hrun.
  assert (forall res w1, fs_rename source dest w = (res, w1) -> kept w0 w1) as Hren.
  { intros res w1 H.
    destruct (keep_rename g from to source dest f0 w0 w res w1 Hg Hwf0 Hsrc Hsub0 Hw0 Hdst Hex Hsub Hw H)
      as (H1 & H2 & H3). split_and!; [done|by etrans|done]. }
  apply io_bind_inv in Hrun as [(u & w1 & H1 & H2)|(e & H1 & ->)];
    apply io_map_err_inv in H1 as (r0 & H1 & _); apply Hren in H1; [|done].
  eapply kept_trans; [exact H1|]. exact (Hk _ _ _ _ H2 (proj1 H1)).
Qed.

Lemma execute_move_keep g s c i :
  root g = abs_path r -> io_rel keep (Execute.execute_move g s c i).
Proof.
  intros Hg w x w' H Hw. fold (kept w w'). unfold Execute.execute_move, Execute.unix_ms, Execute.planned_entry in H.
  eapply keep_then; [|exact Hw|exact H|]; [io_rel_go|]. clear H. intros ms w1 _ Hw1 H.
  eapply keep_then; [|exact Hw1|exact H|]; [apply execute_record_rel, journal_entry_rel; apply _|].
  clear H. intros u w2 _ Hw2 H.
  eapply keep_then; [|exact Hw2|exact H|]; [io_rel_go|]. clear H. intros f w3 [= <- <-] _ H.
  destruct (PathGuard.resolve_existing (w_fs w2) g (c_from c)) as [source|er] eqn:Hsrc;
    [|injection H as <- <-; by apply kept_refl].
  eapply keep_then; [|exact Hw2|exact H|]; [io_rel_go|]. clear H. intros parent w3 Hp _ H.
  unfold io_lift in Hp. injection Hp as _ <-.
  eapply keep_then; [|exact Hw2|exact H|]; [io_rel_go|]. clear H. intros u' w3 Hmk Hw3 H.
  apply io_map_err_inv in Hmk as (r0 & Hmk & _).
  pose proof (adds_dirs_mono _ _ (create_dir_all_adds_dirs _ _ _ _ Hmk)) as Hsub.
  eapply keep_then; [|exact Hw3|exact H|]; [io_rel_go|]. clear H. intros f w4 [= <- <-] _ H.
  eapply keep_then; [|exact Hw3|exact H|]; [io_rel_go|]. clear H. intros dest w4 Hd _ H.
  unfold io_lift in Hd. injection Hd as Hd <-.
  destruct (PathGuard.resolve_for_create (w_fs w3) g (c_to c)) as [dest'|] eqn:Hdst; [|done].
  injection Hd as ->. destruct (path_exists (w_fs w3) dest) eqn:Hex;
    [injection H as <- <-; by apply kept_refl|].
  destruct Hw2 as [Hwf2 _].
  eapply (keep_rename_then g _ _ _ _ (w_fs w2) w3 w3); [..|exact H]; try done.
  intros u0. cbv beta. io_rel_go. apply execute_record_rel, journal_entry_rel; apply _.
Qed.

Lemma undo_move_keep g s e :
  root g = abs_path r -> io_rel keep (Undo.undo_move g s e).
Proof.
  intros Hg w x w' H Hw. fold (kept w w'). unfold Undo.undo_move in H.
  eapply keep_then; [|exact Hw|exact H|]; [io_rel_go|]. clear H. intros f w3 [= <- <-] _ H.
  destruct (PathGuard.resolve_existing (w_fs w) g (je_to e)) as [source|er] eqn:Hsrc.
  2: { refine (keep_all _ _ _ _ _ Hw H). io_rel_go. apply undo_record_rel, _. }
  eapply keep_then; [|exact Hw|exact H|]; [io_rel_go|]. clear H. intros parent w3 Hp _ H.
  unfold io_lift in Hp. injection Hp as _ <-.
  eapply keep_then; [|exact Hw|exact H|]; [io_rel_go|]. clear H. intros u' w3 Hmk Hw3 H.
  apply io_map_err_inv in Hmk as (r0 & Hmk & _).
  pose proof (adds_dirs_mono _ _ (create_dir_all_adds_dirs _ _ _ _ Hmk)) as Hsub.
  eapply keep_then; [|exact Hw3|exact H|]; [io_rel_go|]. clear H. intros f w4 [= <- <-] _ H.
  eapply keep_then; [|exact Hw3|exact H|]; [io_rel_go|]. clear H. intros dest w4 Hd _ H.
  unfold io_lift in Hd. injection Hd as Hd <-.
  destruct (PathGuard.resolve_for_create (w_fs w3) g (je_from e)) as [dest'|] eqn:Hdst; [|done].
  injection Hd as ->. destruct (path_exists (w_fs w3) dest) eqn:Hex;
    [injection H as <- <-; by apply kept_refl|].
  assert (io_rel same_tree (Undo.record (DB:=DB) s e UndoPlanned)) as Hst.
  { intros a y b Hab. unfold Undo.record in Hab.
    apply io_bind_inv in Hab as [(e1 & b1 & [= <- <-] & Hab)|(e1 & [=] & _)].
    apply io_map_err_inv in Hab as (r1 & Hab & _). exact (append_tree _ _ _ _ _ Hab). }
  destruct Hw as [Hwf2 _].
  apply io_bind_inv in H as [(u & w4 & Hrec & H)|(er & Hrec & ->)].
  - pose proof (undo_record_rel keep s e UndoPlanned _ _ _ Hrec Hw3) as (Hw4 & Hl4 & _).
    pose proof (Hst _ _ _ Hrec) as Hfs.
    eapply (keep_rename_then g _ _ _ _ (w_fs w) w3 w4); [..|exact H]; try done; [by rewrite Hfs|].
    intros u0. cbv beta. io_rel_go. apply undo_record_rel, _.
  - exact (undo_record_rel keep s e UndoPlanned _ _ _ Hrec Hw3).
Qed.
(** A guard built on the root's own path. *)
Lemma new_abs_root f : wf_tree f -> dir_at f r -> PathGuard.new f (abs_path r) = Ok (mkPathGuard (abs_path r)).
Proof. intros Hwf Hd. exact (new_root f Hwf (mkPathGuard (abs_path r)) r (conj eq_refl Hd)). Qed.

(** A computation whose writes go to new files. *)
Lemma fs_write_keep p c w x w' :
  rooted w -> path_exists (w_fs w) p = false -> fs_write p c w = (x, w') ->
  kept w w' /\ w_fs w ⊆ w_fs w'.
Proof.
  intros Hw He H. pose proof Hw as [Hwf _]. pose proof (fs_write_fresh _ _ _ _ _ Hwf He H) as Hs.
  split; [|done]. refine (keep_sub _ _ _ _ Hw).
  - intros _. split; [by eapply fs_write_wf|done].
  - destruct (fs_write_only _ _ _ _ _ H) as [_ (l & Hl & HF)]. exists l. split; [done|].
    eapply Forall_impl; [exact HF|]. by intros e (q & [->| ->]); apply HP.
Qed.

Lemma free_path_run g rel w x w' :
  Trash.free_path g rel w = (x, w') ->
  w' = w /\ forall p, x = Ok p -> PathGuard.resolve_for_create (w_fs w) g rel = Ok p /\ path_exists (w_fs w) p = false.
Proof.
  unfold Trash.free_path, io_bind, get_fs, io_gets, io_lift.
  destruct (PathGuard.resolve_for_create (w_fs w) g rel) as [p|e]; simpl; [|by intros [= <- <-]].
  destruct (path_exists (w_fs w) p) eqn:He; intros [= <- <-]; (split; [done|]); [done|].
  by intros ? [= <-].
Qed.

Lemma trash_journaled_keep g store rel source md (f0 : tree) w x w' :
  root g = abs_path r -> wf_tree f0 -> PathGuard.resolve_existing f0 g rel = Ok source ->
  f0 ⊆ w_fs w -> rooted w ->
  Trash.trash_journaled to_string_pretty g store rel source md w = (x, w') -> kept w w'.
Proof.
  intros Hg Hwf0 Hsrc Hsub Hw H. unfold Trash.trash_journaled in H.
  eapply keep_then; [|exact Hw|exact H|]; [io_rel_go|]. clear H. intros ms w1 [= <- <-] Hw1 H.
  eapply keep_then; [|exact Hw1|exact H|]; [io_rel_go|]. clear H. intros ns w2 [= <- <-] Hw2 H.
  eapply keep_then; [|exact Hw2|exact H|]; [io_rel_go|]. clear H. intros u w3 Happ Hw3 H.
  apply io_map_err_inv in Happ as (r0 & Happ & _). pose proof (append_tree _ _ _ _ _ Happ) as Hf3.
  simpl in Hf3.
  eapply keep_then; [|exact Hw3|exact H|]; [io_rel_go|]. clear H. intros u' w4 Hmk Hw4 H.
  apply io_map_err_inv in Hmk as (r1 & Hmk & _).
  pose proof (adds_dirs_mono _ _ (create_dir_all_adds_dirs _ _ _ _ Hmk)) as Hs4.
  apply io_bind_inv in H as [(tp & w5 & Hfp & H)|(e & Hfp & ->)];
    apply free_path_run in Hfp as [-> Hfp]; [|by apply kept_refl].
  destruct (Hfp _ eq_refl) as [Hdst Hex]. clear Hfp.
  apply io_bind_inv in H as [(mp & w5 & Hfp & H)|(e & Hfp & ->)];
    apply free_path_run in Hfp as [-> Hfp]; [|by apply kept_refl].
  destruct (Hfp _ eq_refl) as [_ Hexm]. clear Hfp.
  eapply keep_then; [|exact Hw4|exact H|]; [io_rel_go|]. clear H. intros json w5 Hj _ H.
  unfold io_lift in Hj. injection Hj as _ <-.
  apply io_bind_inv in H as [(v & w5 & Hwr & H)|(e & Hwr & ->)];
    apply io_map_err_inv in Hwr as (r2 & Hwr & _);
    destruct (fs_write_keep _ _ _ _ _ Hw4 Hexm Hwr) as [Hk5 Hs5]; [|done].
  eapply (keep_rename_then g rel _ source tp f0 w4 w5); [..|exact H]; try done.
  - etrans; [exact Hsub|]. change (w_fs w) with (w_fs (tick (tick w))). rewrite <- Hf3. exact Hs4.
  - apply Hk5.
  - apply Hk5.
  - intros u0. cbv beta. io_rel_go.
Qed.

Context (HI : forall f, I f -> dir_at f r).

Lemma trash_file_keep rel : io_rel keep (Trash.trash_file to_string_pretty (abs_path r) rel).
Proof.
  intros w x w' H Hw. fold (kept w w'). unfold Trash.trash_file in H.
  eapply keep_then; [|exact Hw|exact H|]; [io_rel_go|]. clear H. intros f w1 [= <- <-] _ H.
  pose proof Hw as [Hwf Hd]. rewrite (new_abs_root _ Hwf (HI _ Hd)) in H. cbn [map_err] in H.
  eapply keep_then; [|exact Hw|exact H|]; [io_rel_go|]. clear H. intros g w1 [= <- <-] _ H.
  eapply keep_then; [|exact Hw|exact H|]; [io_rel_go|]. clear H. intros source w1 Hsrc _ H.
  unfold io_lift in Hsrc. injection Hsrc as Hsrc <-.
  destruct (PathGuard.resolve_existing (w_fs w) _ rel) as [source'|] eqn:Hres; [|done]. injection Hsrc as ->.
  eapply keep_then; [|exact Hw|exact H|]; [io_rel_go|]. clear H. intros md w1 Hmd _ H.
  unfold io_lift in Hmd. injection Hmd as _ <-.
  destruct (is_link_or_reparse_point md); [injection H as <- <-; by apply kept_refl|].
  destruct (negb (is_file_inode md)); [injection H as <- <-; by apply kept_refl|].
  eapply keep_then; [|exact Hw|exact H|]; [io_rel_go|]. clear H. intros store w1 Ho Hw1 H.
  apply io_map_err_inv in Ho as (r0 & Ho & _).
  refine (trash_journaled_keep _ _ _ _ _ (w_fs w) _ _ _ _ Hwf Hres _ Hw1 H); [done|].
  by eapply adds_dirs_mono, open_adds_dirs.
Qed.

(** ** Whole executions *)
Lemma execute_prechecked_keep g pre :
  root g = abs_path r ->
  (forall s c i, c ∈ pc_checks pre -> c_action c = ReadmeWrite ->
     io_rel keep (Execute.execute_readme_write g s c i)) ->
  io_rel keep (Execute.execute_prechecked to_string_pretty g pre).
Proof.
  intros Hg Hreadme. unfold Execute.execute_prechecked.
  apply io_rel_bind; [apply _|io_rel_go|]. intros s.
  apply io_rel_bind; [apply _|io_rel_go|]. intros es.
  apply io_rel_bind; [apply _| |intros t; apply io_rel_ret, _].
  apply io_rel_for_in; [apply _|]. intros i t c Hc. unfold Execute.execute_check. rewrite Hg.
  destruct (negb _); [io_rel_go; apply recover_planned_rel, _|].
  destruct (c_action c) eqn:Ha; apply io_rel_bind; try apply _; try (intros; apply io_rel_ret, _).
  - by apply execute_move_keep.
  - apply io_rel_map_err, trash_file_keep.
  - apply execute_create_dir_rel, _.
  - apply execute_create_file_rel, _.
  - by eapply Hreadme.
Qed.
End keep.

(** * The instances *)

#[export] Instance dir_at_kept r : KeptInv r (fun f => dir_at f r).
Proof.
  split.
  - intros f f' Hs (i & Hi & Hd). exists i. split; [by eapply lookup_weaken|done].
  - intros q dst fa f f' Hwf Hm. by eapply moved_root.
Qed.
#[export] Instance true_kept r : KeptInv r (fun _ => True).
Proof. by split. Qed.

Definition any_tree (f f' : tree) : Prop := True.
#[export] Instance any_tree_rel : TreeRel any_tree.
Proof. repeat split. Qed.

(** Every file that satisfies [keepf] is still there, perhaps under another name. *)
Definition files_kept (keepf : inode -> bool) (f f' : tree) : Prop :=
  forall p i, f !! p = Some i -> is_file_inode i = true -> keepf i = true -> exists p', f' !! p' = Some i.
#[export] Instance files_kept_rel keepf : TreeRel (files_kept keepf).
Proof.
  split; [split|..].
  - intros f p i Hp _ _. by exists p.
  - intros f1 f2 f3 H12 H23 p i Hp Hf Hk. destruct (H12 _ _ Hp Hf Hk) as [p' Hp']. by eapply H23.
  - intros f f' Hs p i Hp _ _. exists p. by eapply lookup_weaken.
  - intros r q dst fa f f' Hwf Hm p i Hp Hf _. eexists. eapply moved_entry; [done..|].
    unfold is_file_inode, is_link_inode in *. by destruct (i_kind i).
Qed.
Definition every_file (i : inode) : bool := true.
Definition not_empty (i : inode) : bool := negb (inode_len i =? 0)%Z.

Section readme.
Context {DB : Type} `{!SqlDb DB, !JournalDb DB} (r : path) (Hsegs : Forall seg_ok r).
Implicit Types w : world DB.
Abbreviation contained := (keep (DB:=DB) (fun f => dir_at f r) (inside r) any_tree).

Lemma contained_preorder : PreOrder contained.
Proof. apply keep_preorder, _. Qed.
Lemma contained_step : StepRel contained.
Proof. by eapply (keep_step _ _ _ r). Qed.

Lemma stores_dir q c w w' : stores q c w w' -> dir_at (w_fs w) r -> dir_at (w_fs w') r.
Proof.
  intros (Hq & (i & -> & _) & _) (j & Hj & Hd). exists j. split; [|done]. rewrite lookup_insert_ne; [done|].
  intros ->. destruct Hq as [?|(k & Hk & Hf)]; [congruence|]. simplify_eq.
  unfold is_file_inode, is_dir_inode in *. by destruct (i_kind _).
Qed.
Lemma contained_write p c : io_rel contained (fs_write (DB:=DB) p c).
Proof.
  intros w x w' H [Hwf Hd]. pose proof (fs_write_wf _ _ _ _ _ H Hwf) as Hwf'.
  destruct (fs_write_only _ _ _ _ _ H) as [_ (l & Hl & HF)].
  split_and!; [split; [done|]| |done].
  - apply fs_write_run in H. destruct x as [u|e].
    + destruct H as (q & _ & Hs). by eapply stores_dir.
    + destruct H as [(-> & _)|(q & _ & Hs)]; [done|]. by eapply stores_dir.
  - exists l. split; [done|]. eapply Forall_impl; [exact HF|]. by intros e (q & [->| ->]).
Qed.
Lemma contained_copy p q : io_rel contained (fs_copy (DB:=DB) p q).
Proof.
  pose proof contained_preorder. unfold fs_copy, get_fs. io_rel_go. apply contained_write.
Qed.
Lemma execute_readme_contained g s c i : io_rel contained (Execute.execute_readme_write (DB:=DB) g s c i).
Proof.
  pose proof contained_step. unfold Execute.execute_readme_write, Execute.unix_ms.
  io_rel_go; first [apply contained_write|apply contained_copy|apply execute_record_rel, readme_entry_rel; apply _].
Qed.
End readme.

Section undo_data.
Context {DB : Type} `{!SqlDb DB, !JournalDb DB} (r : path) (Hsegs : Forall seg_ok r).
Implicit Types w : world DB.
Abbreviation data := (keep (DB:=DB) (fun _ => True) (fun _ => True) (files_kept not_empty)).

Lemma data_step : StepRel data.
Proof. by eapply (keep_step _ _ _ r). Qed.

Lemma data_intro w w' :
  (wf_tree (w_fs w) -> wf_tree (w_fs w') /\ files_kept not_empty (w_fs w) (w_fs w')) ->
  (exists l, w_log w' = w_log w ++ l) -> data w w'.
Proof.
  intros H [l Hl] [Hwf _]. destruct (H Hwf) as [Hwf' Hk]. split_and!; [done| |done].
  exists l. split; [done|]. by apply list.Forall_forall.
Qed.

(** Removing the entry a path names, where the file it leads to is empty. *)
Lemma remove_empty_file_data target w x w' :
  unwrap_or_else (fun _ => 1%Z) (result_map inode_len (metadata (w_fs w) target)) = 0%Z ->
  remove_file target w = (x, w') -> data w w'.
Proof.
  intros Hlen H. pose proof (remove_file_wf _ _ _ _ H) as Hwf. apply remove_file_run in H.
  destruct x as [u|e].
  - destruct H as (q & i & Hq & Hi & Hnd & Hf & _ & Hl). apply data_intro; [|by eexists].
    intros Hw. split; [by apply Hwf|]. rewrite Hf. intros p j Hp Hfile Hne. exists p.
    rewrite lookup_delete_ne; [done|]. intros ->. rewrite Hi in Hp. injection Hp as ->.
    assert (resolve (w_fs w) target = Ok p) as Hr.
    { eapply walk_follow; [exact Hq|exact Hi|]. unfold is_file_inode, is_link_inode in *. by destruct (i_kind j). }
    unfold metadata, tree_get in Hlen. rewrite Hr, Hi in Hlen. simpl in Hlen.
    unfold not_empty in Hne. by rewrite Hlen in Hne.
  - destruct H as (Hf & _ & Hl). apply data_intro; [|exists []; by rewrite app_nil_r].
    intros Hw. rewrite Hf. split; [done|reflexivity].
Qed.
Lemma remove_dir_data target : io_rel data (remove_dir (DB:=DB) target).
Proof.
  intros w x w' H. pose proof (remove_dir_wf _ _ _ _ H) as Hwf. apply remove_dir_run in H.
  destruct x as [u|e].
  - destruct H as (q & i & _ & Hi & Hd & _ & _ & Hf & _ & Hl). apply data_intro; [|by eexists].
    intros Hw. split; [by apply Hwf|]. rewrite Hf. intros p j Hp Hfile _. exists p.
    rewrite lookup_delete_ne; [done|]. intros ->. simplify_eq.
    unfold is_file_inode, is_dir_inode in *. by destruct (i_kind _).
  - destruct H as (Hf & _ & Hl). apply data_intro; [|exists []; by rewrite app_nil_r].
    intros Hw. rewrite Hf. split; [done|reflexivity].
Qed.

Lemma undo_record_tree s e st : io_rel same_tree (Undo.record (DB:=DB) s e st).
Proof.
  intros a y b Hab. unfold Undo.record in Hab.
  apply io_bind_inv in Hab as [(e1 & b1 & [= <- <-] & Hab)|(e1 & [=] & _)].
  apply io_map_err_inv in Hab as (r1 & Hab & _). exact (append_tree _ _ _ _ _ Hab).
Qed.

Lemma undo_mark_data s e reason :
  io_rel data (do! Undo.record s e Undone; io_ret (E:=UndoError) (Ok (E:=string) (Undo.undone_result e reason))).
Proof. pose proof data_step. io_rel_go. apply undo_record_rel, _. Qed.

Lemma undo_create_file_data g s e : io_rel data (Undo.undo_create_file g s e).
Proof.
  pose proof data_step as Hstep. intros w x w' H. unfold Undo.undo_create_file in H.
  apply io_bind_inv in H as [(f & w1 & [= <- <-] & H)|(er & [=] & _)].
  destruct (negb (path_exists _ _)).
  { exact (undo_mark_data _ _ _ _ _ _ H). }
  destruct (negb (path_is_file _ _)); [injection H as <- <-; reflexivity|].
  destruct (negb (unwrap_or_else _ _ =? 0)%Z) eqn:Hlen; [injection H as <- <-; reflexivity|].
  apply negb_false_iff, Z.eqb_eq in Hlen.
  apply io_bind_inv in H as [(u & w1 & H1 & H)|(er & H1 & ->)];
    pose proof (undo_record_rel data s e UndoPlanned _ _ _ H1) as Hd1; [|done].
  rewrite <- (undo_record_tree _ _ _ _ _ _ H1) in Hlen. etrans; [exact Hd1|].
  apply io_bind_inv in H as [(u' & w2 & H2 & H)|(er & H2 & ->)];
    apply io_map_err_inv in H2 as (r0 & H2 & _); pose proof (remove_empty_file_data _ _ _ _ Hlen H2) as Hd2; [|done].
  etrans; [exact Hd2|]. exact (undo_mark_data _ _ _ _ _ _ H).
Qed.

Lemma undo_create_dir_data g s e : io_rel data (Undo.undo_create_dir g s e).
Proof.
  pose proof data_step as Hstep. unfold Undo.undo_create_dir.
  io_rel_go; first [apply undo_record_rel, _|apply remove_dir_data].
Qed.

Lemma undo_step_data g s ids only i t e :
  root g = abs_path r -> je_action e <> JReadmeWrite -> io_rel data (Undo.undo_step g s ids only i t e).
Proof.
  pose proof data_step as Hstep. intros Hg Ha. unfold Undo.undo_step.
  destruct (match only with Some _ => _ | None => _ end); [apply io_rel_ret, _|].
  destruct (_ || _); [apply io_rel_ret, _|].
  apply io_rel_bind; [apply _| |intros [?|?]; apply io_rel_ret, _].
  destruct (je_action e); [..|done]; auto using undo_create_dir_data, undo_create_file_data;
    by eapply (undo_move_keep _ _ _ r).
Qed.
End undo_data.
