(* ===== verification/journal_facts.v ===== *)
(** What the journal keeps and gives back, and that it is written ahead of the changes. *)
From Stdlib Require Import ZArith Lia Ascii.
From stdpp Require Import strings pretty gmap functions option list relations.
From S2P Require Import prelude rust_str rule_definition std_path std_fs fs_facts path_guard db journal_store proposal_types precondition history engine_safety decision.
From S2P Require Import analyzer proposal trash execute undo file_ops engine_guard.

Open Scope string_scope.
Open Scope list_scope.


(** * The journal as the engine relies on it: what is appended is read back, a bad
    row stops a strict read and is named, recovery dumps every row before it
    clears any, and the history offers an undo only of an executed operation. *)

Section store.
Context {DB : Type} `{!SqlDb DB, !JournalDb DB}.
Implicit Types w : world DB.

(** What a strict read of the journal finds. *)
Lemma read_all_outcome s w x w' :
  JournalStore.read_all (P:=PrecheckError) s w = (x, w') ->
  match x with
  | Ok es => es = readable (journal_at (pool s) w) /\
      Forall (fun r => is_Some (entry_of_row r)) (journal_at (pool s) w)
  | Err (JCorrupt n m) => exists l1 r l2, journal_at (pool s) w = l1 ++ r :: l2 /\
      Forall (fun r => is_Some (entry_of_row r)) l1 /\ entry_of_row r = None /\
      n = (Z.of_nat (length l1) + 1)%Z
  | Err e => exists m, e = JDb (Query m)
  end.
Proof.
  unfold JournalStore.read_all. intros [([es c] & w1 & H1 & H2)|(e & H1 & ->)]%io_bind_inv.
  - apply read_all_lenient_run in H1 as (_ & _ & _ & Ha). specialize (Ha _ eq_refl).
    pose proof (parse_rows_spec 0 (journal_at (pool s) w)) as [He Hc]. rewrite <- Ha in *. simpl in *.
    destruct c as [c|]; injection H2 as <- <-; [|by subst].
    destruct Hc as (l1 & r & l2 & -> & Hr & Hl1 & Hn). exists l1, r, l2. split_and!; try done; lia.
  - unfold JournalStore.read_all_lenient, JournalStore.read_raw in H1.
    apply io_bind_inv in H1 as [(a & w1 & H1 & [=])|(e' & H1 & [= <-])].
    apply io_map_err_inv in H1 as ([|m] & _ & [=]); subst. by exists m.
Qed.
End store.

(** * The history *)

(** The last event of the operation [id] that is not its plan. *)
Definition last_mark (id : string) (es : list JournalEntry) : option JournalStatus :=
  je_status <$> last (filter (fun e => je_operation_id e = id /\ je_status e <> Planned) es).

Lemma last_mark_snoc id es e :
  last_mark id (es ++ [e]) =
    if bool_decide (je_operation_id e = id /\ je_status e <> Planned) then Some (je_status e)
    else last_mark id es.
Proof.
  unfold last_mark. rewrite filter_app, filter_cons, filter_nil.
  case_bool_decide as H; [rewrite decide_True by done; by rewrite last_snoc|].
  rewrite decide_False by done. by rewrite app_nil_r.
Qed.

Definition has_id (id : string) (o : OperationHistoryEntry) : Prop := h_operation_id o = id.
#[export] Instance has_id_dec id o : base.Decision (has_id id o).
Proof. unfold has_id. apply _. Defined.

(** The listings of the operation [id] after the mark [mark]: the first says the
    operation can be undone if it was executed last; all others, plans under the
    same identifier, cannot be undone. *)
Definition blocked (o : OperationHistoryEntry) : Prop := h_can_undo o = false.
Definition listed (os : list OperationHistoryEntry) (id : string) (mark : option JournalStatus) : Prop :=
  match mark with
  | Some Executed => exists o rest, filter (has_id id) os = o :: rest /\ h_can_undo o = true /\
      h_latest_status o = Executed /\ Forall blocked rest
  | _ => Forall blocked (filter (has_id id) os)
  end.

Lemma update_first_some {A} (p : A -> bool) (f : A -> A) l l' :
  update_first p f l = Some l' <->
  exists l1 a l2, l = l1 ++ a :: l2 /\ p a = true /\ Forall (fun x => p x = false) l1 /\ l' = l1 ++ f a :: l2.
Proof.
  revert l'. induction l as [|a l IH]; intros l'; simpl.
  { split; [done|]. intros (l1 & ? & ? & H & _). by destruct l1. }
  destruct (p a) eqn:Hp.
  - split.
    + intros [= <-]. by exists [], a, l.
    + intros ([|y l1] & x & l2 & Heq & Hx & Hl1 & ->); simplify_list_eq; [done|].
      apply Forall_cons in Hl1 as [? _]. congruence.
  - split.
    + destruct (update_first p f l) as [k|] eqn:Hk; [|done]. intros [= <-].
      destruct (proj1 (IH _) eq_refl) as (l1 & x & l2 & -> & Hx & Hl1 & ->).
      exists (a :: l1), x, l2. by repeat constructor.
    + intros ([|y l1] & x & l2 & Heq & Hx & Hl1 & ->); simplify_list_eq; [congruence|].
      apply Forall_cons in Hl1 as [_ Hl1]. rewrite (proj2 (IH (l1 ++ f x :: l2))); [done|].
      by exists l1, x, l2.
Qed.
Lemma update_first_none {A} (p : A -> bool) (f : A -> A) l :
  update_first p f l = None <-> Forall (fun x => p x = false) l.
Proof.
  induction l as [|a l IH]; simpl; [by split; [constructor|]|]. rewrite Forall_cons, <- IH.
  destruct (p a); [by split; [|intros [? _]]|]. destruct (update_first p f l); simpl; split; try done; by intros [_ ?].
Qed.
Lemma same_operation_eq e o : History.same_operation e o = true <-> h_operation_id o = je_operation_id e.
Proof. apply String.eqb_eq. Qed.
Lemma same_operation_ne e o : History.same_operation e o = false <-> h_operation_id o <> je_operation_id e.
Proof. apply String.eqb_neq. Qed.

Lemma listed_rest os id mark :
  listed os id mark -> match filter (has_id id) os with [] => True | _ :: rest => Forall blocked rest end.
Proof.
  unfold listed. destruct mark as [[| | |]|]; try (destruct (filter _ _); [done|by intros [_ ?]%Forall_cons]).
  by intros (o & rest & -> & _ & _ & ?).
Qed.
Lemma filter_none_id id os :
  Forall (fun o => h_operation_id o <> id) os -> filter (has_id id) os = [].
Proof. induction 1 as [|o os Ho _ IH]; [done|]. by rewrite filter_cons, decide_False. Qed.

(** Where the operation of [e] is updated, and where it is not listed. *)
Lemma update_listed e f os os' id :
  update_first (History.same_operation e) f os = Some os' ->
  (forall o, h_operation_id (f o) = h_operation_id o) ->
  (je_operation_id e <> id -> filter (has_id id) os' = filter (has_id id) os) /\
  (je_operation_id e = id -> exists o rest, filter (has_id id) os = o :: rest /\ filter (has_id id) os' = f o :: rest).
Proof.
  intros (l1 & o & l2 & -> & Ho%same_operation_eq & Hl1 & ->)%update_first_some Hf.
  rewrite !filter_app, !filter_cons. split; intros Hid.
  - assert (~ has_id id o /\ ~ has_id id (f o)) as [? ?] by (unfold has_id; rewrite Hf; split; congruence).
    by rewrite !decide_False.
  - assert (has_id id o /\ has_id id (f o)) as [? ?] by (unfold has_id; rewrite Hf; split; congruence).
    rewrite !decide_True by done.
    rewrite filter_none_id; [by eexists _, _|]. eapply Forall_impl; [exact Hl1|].
    intros x Hx%same_operation_ne. congruence.
Qed.

Lemma mark_undo_listed e (f : OperationHistoryEntry -> OperationHistoryEntry) os id m st :
  (forall o, h_operation_id (f o) = h_operation_id o /\ h_can_undo (f o) = false) ->
  st = UndoPlanned \/ st = Undone -> listed os id m ->
  listed (default os (update_first (History.same_operation e) f os)) id
    (if bool_decide (je_operation_id e = id /\ st <> Planned) then Some st else m).
Proof.
  intros Hf Hst H. pose proof (listed_rest _ _ _ H) as Hrest.
  assert (forall l : list OperationHistoryEntry, Forall blocked (filter (has_id id) l) -> listed l id (Some st)) as Hl
    by (by destruct Hst as [-> | ->]).
  assert (st <> Planned) as Hnp by (by destruct Hst as [-> | ->]).
  destruct (decide (je_operation_id e = id)) as [Hid|Hid];
    [rewrite bool_decide_true by done|rewrite bool_decide_false by (by intros [? _])];
    destruct (update_first _ f os) as [os'|] eqn:Hu; simpl.
  - apply (update_listed _ _ _ _ id) in Hu as [_ Heq]; [|by intros; apply Hf].
    destruct (Heq Hid) as (o & rest & H1 & H2). rewrite H1 in Hrest. apply Hl. rewrite H2.
    constructor; [apply Hf|done].
  - apply update_first_none in Hu. apply Hl. rewrite filter_none_id; [constructor|].
    eapply Forall_impl; [exact Hu|]. intros x Hx%same_operation_ne. congruence.
  - apply (update_listed _ _ _ _ id) in Hu as [Hne _]; [|by intros; apply Hf].
    unfold listed in *. by rewrite Hne.
  - done.
Qed.

Lemma add_entry_listed es os e id :
  listed os id (last_mark id es) -> listed (History.add_entry os e) id (last_mark id (es ++ [e])).
Proof.
  intros H. pose proof (listed_rest _ _ _ H) as Hrest. rewrite last_mark_snoc. unfold History.add_entry.
  destruct (je_status e) eqn:Hst.
  - rewrite bool_decide_false by (intros [_ ?]; done). unfold listed in *.
    assert (Forall blocked (filter (has_id id) [History.of_entry e false (Some "operation has not been executed yet")]))
      as Hnew by (rewrite filter_cons; case_decide; by repeat constructor).
    destruct (last_mark id es) as [[| | |]|]; rewrite filter_app; try (by apply Forall_app).
    destruct H as (o & rest & -> & Hc & Hs & Hb). exists o, (rest ++ filter (has_id id)
      [History.of_entry e false (Some "operation has not been executed yet")]).
    split_and!; [done..|]. by apply Forall_app.
  - destruct (update_first _ _ os) as [os'|] eqn:Hu.
    + apply (update_listed _ _ _ _ id) in Hu as [Hne Heq]; [|done].
      destruct (decide (je_operation_id e = id)) as [Hid|Hid].
      * rewrite bool_decide_true by done. destruct (Heq Hid) as (o & rest & H1 & H2). rewrite H1 in Hrest.
        simpl. by eexists _, rest.
      * rewrite bool_decide_false by (by intros [? _]). unfold listed. by rewrite Hne.
    + apply update_first_none in Hu. case_bool_decide as Hid.
      * destruct Hid as [Hid _]. simpl. rewrite filter_app, filter_cons, decide_True by done.
        rewrite filter_none_id; [by eexists _, []|].
        eapply Forall_impl; [exact Hu|]. intros x Hx%same_operation_ne. congruence.
      * assert (je_operation_id e <> id) as Hne by (intros ?; by destruct Hid).
        unfold listed. rewrite filter_app, filter_cons, decide_False by done. by rewrite filter_nil, app_nil_r.
  - apply mark_undo_listed; auto.
  - apply mark_undo_listed; auto.
Qed.

Lemma operations_listed es id : listed (fold_left History.add_entry es []) id (last_mark id es).
Proof.
  induction es as [|e es IH] using rev_ind; [by apply Forall_nil_2|].
  rewrite fold_left_app. by apply add_entry_listed.
Qed.

(** What the file system blocks does not depend on the flags of the listing. *)
Lemma block_fields f root o :
  let o' := History.block_from_filesystem f root o in
  h_operation_id o' = h_operation_id o /\ h_latest_status o' = h_latest_status o /\
  History.undo_blocked_reason_from_filesystem f root o' = History.undo_blocked_reason_from_filesystem f root o /\
  (h_can_undo o' = true <-> h_can_undo o = true /\ History.undo_blocked_reason_from_filesystem f root o = None).
Proof.
  unfold History.block_from_filesystem. destruct (h_can_undo o) eqn:Hc; simpl.
  - destruct (History.undo_blocked_reason_from_filesystem f root o) as [m|] eqn:Hr; simpl.
    + split_and!; [done..|split; [done|by intros [_ ?]]].
    + by rewrite Hr, Hc.
  - rewrite Hc. split_and!; [done..|split; [done|by intros [? _]]].
Qed.

(** * Recovery *)
Section recovery.
Context {DB : Type} `{!SqlDb DB, !JournalDb DB} (to_string : RawJournalRow -> result string string).
Implicit Types w : world DB.

Definition newline : string := String (Ascii.ascii_of_nat 10) "".

(** The text of a dump: one line per row. *)
Fixpoint dump_text (raw : list RawJournalRow) : result string string :=
  match raw with
  | [] => Ok ""
  | row :: raw' =>
      let? line := to_string row in
      let? rest := dump_text raw' in
      Ok (line +:+ newline +:+ rest)
  end.

Lemma stores_same_db q c w w' : stores q c w w' -> w_db w' = w_db w.
Proof. by intros (_ & _ & ? & _). Qed.

Lemma append_line q line w u w' c i :
  w_fs w !! q = Some i -> file_inode c i ->
  (do! file_append q line; file_append q newline) w = (Ok u, w') ->
  exists j, w_fs w' = <[q := j]> (w_fs w) /\ file_inode (c +:+ line +:+ newline) j.
Proof.
  intros Hq Hi (u1 & w1 & H1 & H2)%io_bind_ok. apply file_append_run in H1 as (c1 & i1 & Hq1 & Hi1 & H1).
  rewrite Hq in Hq1. injection Hq1 as <-. unfold file_inode in *. rewrite Hi in Hi1. injection Hi1 as <-.
  destruct H1 as (_ & (j1 & Hf1 & Hj1) & _).
  apply file_append_run in H2 as (c2 & i2 & Hq2 & Hi2 & H2).
  rewrite Hf1, lookup_insert_eq in Hq2. injection Hq2 as <-. unfold file_inode in *. rewrite Hj1 in Hi2.
  injection Hi2 as <-. destruct H2 as (_ & (j2 & Hf2 & Hj2) & _). exists j2. split.
  - by rewrite Hf2, Hf1, insert_insert_eq.
  - unfold file_inode in *. by rewrite Hj2, sappend_assoc.
Qed.

Lemma dump_rows_run path q raw w u w' c i :
  History.dump_rows (DB:=DB) to_string path q raw w = (Ok u, w') ->
  w_fs w !! q = Some i -> file_inode c i ->
  exists text j, dump_text raw = Ok text /\ w_fs w' = <[q := j]> (w_fs w) /\ file_inode (c +:+ text) j.
Proof.
  revert w c i. induction raw as [|row raw IH]; intros w c i; simpl.
  - intros [= <- <-] Hq Hi. exists "", i. split; [done|]. rewrite sappend_nil_r. split; [|done].
    by rewrite insert_id.
  - intros H Hq Hi. apply io_bind_ok in H as (line & w1 & H1 & H). unfold io_lift in H1. injection H1 as H1 <-.
    destruct (to_string row) as [l|]; [|done]. injection H1 as ->.
    apply io_bind_ok in H as (u1 & w1 & H1 & H). apply io_map_err_inv in H1 as ([[]|] & H1 & Hr); [|done].
    eapply append_line in H1 as (j & Hf & Hj); [|exact Hq|exact Hi].
    eapply IH in H as (text & k & Ht & Hf' & Hk); [|rewrite Hf; apply lookup_insert_eq|exact Hj].
    simpl. rewrite Ht. eexists _, k. split; [done|]. split; [by rewrite Hf', Hf, insert_insert_eq|].
    by rewrite <- !sappend_assoc in *.
Qed.

Lemma file_create_journal p : io_rel (same_journal (DB:=DB)) (file_create p).
Proof. eapply only_same_journal, file_create_only. Qed.
Lemma dump_rows_journal path q raw : io_rel (same_journal (DB:=DB)) (History.dump_rows to_string path q raw).
Proof.
  induction raw as [|row raw IH]; simpl; [apply io_rel_ret, _|].
  io_rel_go; first [exact IH|eapply only_same_journal, file_append_only].
Qed.
Lemma clear_run s w x w' :
  JournalStore.clear (P:=PrecheckError) s w = (x, w') ->
  w_fs w' = w_fs w /\
  match x with
  | Ok _ => journal_at (pool s) w' = [] /\ (forall p, p <> pool s -> journal_at p w' = journal_at p w)
  | Err _ => same_journal w w'
  end.
Proof.
  unfold JournalStore.clear. intros (r0 & H & ->)%io_map_err_inv. split; [by eapply execute_tree|].
  unfold Db.execute in H. destruct (sql_execute _ _ _) as [[[]|m] d] eqn:Hx; injection H as <- <-; simpl.
  - apply delete_ok in Hx. split.
    + unfold journal_at. simpl. by rewrite fn_lookup_insert.
    + intros p Hp. unfold journal_at. simpl. by rewrite fn_lookup_insert_ne.
  - apply delete_err in Hx. by apply set_db_journal.
Qed.
End recovery.

Section recover.
Context {DB : Type} `{!SqlDb DB, !JournalDb DB} (to_string : RawJournalRow -> result string string).
Implicit Types w : world DB.

(** From the corruption found to the end. *)
Lemma recover_run root_arg w x w' :
  History.recover_journal to_string root_arg w = (x, w') ->
  match x with
  | Ok rep => exists g w1 text, PathGuard.new (w_fs w) root_arg = Ok g /\ rr_root rep = root g /\
      same_journal w w1 /\ journal_at (Db.db_path_for_root (root g)) w' = [] /\
      (forall p, p <> Db.db_path_for_root (root g) -> journal_at p w' = journal_at p w) /\
      (exists r, r ∈ journal_at (Db.db_path_for_root (root g)) w /\ entry_of_row r = None) /\
      dump_text to_string (journal_at (Db.db_path_for_root (root g)) w) = Ok text /\
      read_to_string (w_fs w') (rr_quarantined_path rep) = Ok text
  | Err _ => same_journal w w'
  end.
Proof.
  unfold History.recover_journal. intros H.
  apply io_bind_inv in H as [(f & w1 & [= <- <-] & H)|(er & [=] & _)].
  apply io_bind_inv in H as [(g & w1 & H1 & H)|(er & H1 & ->)]; unfold io_lift in H1; injection H1 as Hg <-; [|done].
  destruct (PathGuard.new (w_fs w) root_arg) as [g'|] eqn:Hnew; [|done]. injection Hg as ->.
  apply io_bind_inv in H as [(s & w1 & H1 & H)|(er & H1 & ->)]; [|by eapply open_journal_same].
  pose proof (open_journal_same _ _ _ _ H1) as Hj1. destruct (open_store _ _ _ _ H1) as [Hpool Hdb]. clear H1.
  apply io_bind_inv in H as [([es c] & w2 & H2 & H)|(er & H2 & ->)];
    apply read_all_lenient_run in H2 as (_ & Hj2 & _ & Ha); [|by etrans].
  specialize (Ha _ eq_refl). pose proof (parse_rows_spec 0 (journal_at (pool s) w1)) as [_ Hspec].
  rewrite <- Ha in Hspec. simpl in Hspec. clear Ha.
  destruct c as [c|]; [|injection H as <- <-; by etrans]. cbn [bool_decide decide is_Some_dec] in H.
  apply io_bind_inv in H as [(ms & w3 & H3 & H)|(er & H3 & ->)]; [|done].
  unfold now_ms, now_ns, io_bind, io_ret in H3. injection H3 as <- <-.
  apply io_bind_inv in H as [(raw & w4 & H4 & H)|(er & H4 & ->)];
    apply read_raw_run in H4 as (_ & Hj4 & _ & Hraw); [|etrans; [exact Hj1|by etrans]].
  rewrite (Hraw _ eq_refl) in H. clear Hraw.
  assert (same_journal w w4) as Hj by (etrans; [exact Hj1|by etrans]).
  set (qp := path_with_file_name _ _) in *.
  apply io_bind_inv in H as [(q & w5 & H5 & H)|(er & H5 & ->)]; apply io_map_err_inv in H5 as (r5 & H5 & Hr5);
    pose proof (file_create_journal _ _ _ _ H5) as Hj5; [|by etrans].
  destruct r5 as [q'|]; [|done]. injection Hr5 as <-.
  apply file_create_run in H5 as (Hq & Hstor & (i5 & Hf5 & Hi5) & _).
  apply io_bind_inv in H as [(u & w6 & H6 & H)|(er & H6 & ->)]; pose proof (dump_rows_journal to_string _ _ _ _ _ _ H6) as Hj6;
    [|etrans; [exact Hj|by etrans]].
  eapply dump_rows_run in H6 as (text & j & Ht & Hf6 & Hi6); [|rewrite Hf5; apply lookup_insert_eq|exact Hi5].
  assert (same_journal w w6) as Hj' by (etrans; [exact Hj|by etrans]).
  apply io_bind_inv in H as [(u' & w7 & H7 & H)|(er & H7 & ->)]; apply clear_run in H7 as [Hf7 H7];
    [|by etrans].
  injection H as <- <-. destruct H7 as [H7 Ho]. rewrite Hpool in *. simpl.
  assert (journal_at (Db.db_path_for_root (root g)) (tick w2) = journal_at (Db.db_path_for_root (root g)) w) as Hjt.
  { change (journal_at (Db.db_path_for_root (root g)) w2 = journal_at (Db.db_path_for_root (root g)) w).
    by rewrite Hj2, Hj1. }
  exists g, w6, text. split_and!; try done.
  - intros p Hp. by rewrite Ho, Hj'.
  - destruct Hspec as (l1 & r & l2 & Heq & Hr & _). exists r. split; [|done].
    rewrite <- Hj1, Heq, elem_of_app, elem_of_cons. auto.
  - by rewrite <- Hjt.
  - assert (w_fs w7 = <[q := j]> (w_fs w4)) as Hfin by (by rewrite Hf7, Hf6, Hf5, insert_insert_eq).
    assert (is_file_inode j = true) as Hjf by (unfold file_inode, is_file_inode in *; by rewrite Hi6).
    unfold read_to_string, metadata, resolve, tree_get. rewrite Hfin.
    rewrite (walk_stored _ _ _ _ _ q j); [|exact Hq|exact Hstor|done]. simpl. rewrite lookup_insert_eq.
    unfold file_inode in Hi6. simpl. by rewrite Hi6.
Qed.

(** A recovery: a journal with a row that cannot be read is empty now, every row of it
    stands in a file, one line each, and no other journal changed. *)
Definition recovered root_arg w w' : Prop :=
  exists g path text, PathGuard.new (w_fs w) root_arg = Ok g /\
    let db := Db.db_path_for_root (root g) in
    (exists row, row ∈ journal_at db w /\ entry_of_row row = None) /\ journal_at db w' = [] /\
    (forall p, p <> db -> journal_at p w' = journal_at p w) /\
    dump_text to_string (journal_at db w) = Ok text /\ read_to_string (w_fs w') path = Ok text.
Lemma recover_recovered root_arg w x w' :
  History.recover_journal to_string root_arg w = (x, w') -> same_journal w w' \/ recovered root_arg w w'.
Proof.
  intros H%recover_run. destruct x as [rep|e]; [right|by left].
  destruct H as (g & w1 & text & Hg & _ & _ & He & Ho & Hrow & Ht & Hrd). by exists g, (rr_quarantined_path rep), text.
Qed.
End recover.

(** * Properties *)

(** What is recorded is read back.  After an entry is appended, a strict read
    gives every entry read before it, then that entry with all its fields, for
    times that fit the column. *)
Theorem journal_append_read {DB : Type} `{!SqlDb DB, !JournalDb DB} (s : JournalStore) (e : JournalEntry)
    (w : world DB) es w1 w2 es' w3 :
  time_ok (je_created_unix_ms e) ->
  JournalStore.read_all (P:=PrecheckError) s w = (Ok es, w1) ->
  JournalStore.append (P:=PrecheckError) s e w1 = (Ok tt, w2) ->
  JournalStore.read_all (P:=PrecheckError) s w2 = (Ok es', w3) ->
  es' = es ++ [e].
Proof.
  intros Ht H1 H2 H3. pose proof (read_all_run _ _ _ _ H1) as (_ & Hj1 & _ & Ha1).
  pose proof (read_all_run _ _ _ _ H3) as (_ & _ & _ & Ha3).
  apply append_run in H2 as (_ & [seq Hj2] & _).
  destruct (Ha1 _ eq_refl) as [-> Hall]. destruct (Ha3 _ eq_refl) as [-> _].
  rewrite Hj2, Hj1, readable_app by done. simpl. by rewrite entry_of_row_of_entry.
Qed.

(** A strict read trusts the whole journal or nothing.  It returns the entries
    only when every row has a known status and action; otherwise its error names
    the first row that has not, by its ordinal, or the failure of the database. *)
Theorem journal_read_strict {DB : Type} `{!SqlDb DB, !JournalDb DB} (s : JournalStore) (w : world DB) x w' :
  JournalStore.read_all (P:=PrecheckError) s w = (x, w') ->
  same_journal w w' /\
  match x with
  | Ok es => map (fun e => Some e) es = map entry_of_row (journal_at (pool s) w)
  | Err (JCorrupt n m) => exists l1 r l2, journal_at (pool s) w = l1 ++ r :: l2 /\
      Forall (fun r => is_Some (entry_of_row r)) l1 /\ entry_of_row r = None /\
      n = (Z.of_nat (length l1) + 1)%Z
  | Err e => exists m, e = JDb (Query m)
  end.
Proof.
  intros H. split; [by apply read_all_run in H as (_ & Hj & _)|]. apply read_all_outcome in H.
  destruct x as [es|er]; [|done]. destruct H as [-> Hall].
  induction Hall as [|r rows [e He] _ IH]; simpl; [done|]. by rewrite He; simpl; rewrite IH.
Qed.

(** Recovery loses nothing.  A recovery that succeeds found a corrupted journal,
    leaves it empty, and leaves a quarantine file that holds every row it had,
    one line each; a recovery that fails, wherever, leaves every journal as it
    was. *)
Theorem recover_journal_dumps {DB : Type} `{!SqlDb DB, !JournalDb DB}
    (to_string : RawJournalRow -> result string string) (root_arg : string) (w : world DB) x w' :
  History.recover_journal to_string root_arg w = (x, w') ->
  match x with
  | Ok rep => exists g, PathGuard.new (w_fs w) root_arg = Ok g /\
      let db := Db.db_path_for_root (root g) in
      (exists r, r ∈ journal_at db w /\ entry_of_row r = None) /\
      journal_at db w' = [] /\
      exists text, dump_text to_string (journal_at db w) = Ok text /\
        read_to_string (w_fs w') (rr_quarantined_path rep) = Ok text
  | Err _ => forall db, journal_at db w' = journal_at db w
  end.
Proof.
  intros H. apply recover_run in H. destruct x as [rep|e]; [|exact H].
  destruct H as (g & w1 & text & Hg & _ & _ & He & _ & Hr & Ht & Hrd). exists g. split; [done|]. cbv zeta.
  split_and!; [done|done|]. by exists text.
Qed.

(** the history offers to undo exactly what can be undone.  An operation whose
    last event is its execution is listed as executed, and as undoable unless the
    file system blocks its undo; nothing else is offered: not a plan, not an
    operation whose undo was planned or done, not one that is blocked. *)
Theorem history_offers_undo (f : tree) (root : string) (entries : list JournalEntry) (id : string) :
  (last_mark id entries = Some Executed ->
     exists o, o ∈ History.operations_of f root entries /\ h_operation_id o = id /\ h_latest_status o = Executed /\
       (h_can_undo o = true <-> History.undo_blocked_reason_from_filesystem f root o = None)) /\
  (forall o, o ∈ History.operations_of f root entries -> h_operation_id o = id -> h_can_undo o = true ->
     last_mark id entries = Some Executed /\ History.undo_blocked_reason_from_filesystem f root o = None).
Proof.
  pose proof (operations_listed entries id) as H. unfold History.operations_of.
  set (os := fold_left History.add_entry entries []) in *. split.
  - intros Hm. rewrite Hm in H. destruct H as (o & rest & Ho & Hc & Hs & _).
    assert (o ∈ filter (has_id id) os) as [Hid Hin]%list_elem_of_filter by (rewrite Ho; by left).
    destruct (block_fields f root o) as (H1 & H2 & H3 & H4).
    exists (History.block_from_filesystem f root o). rewrite elem_of_sort_by. split_and!.
    + by apply list_elem_of_fmap_2.
    + by rewrite H1.
    + by rewrite H2.
    + rewrite H4, H3, Hc. by split; [intros [_ ?]|].
  - intros o. rewrite elem_of_sort_by. intros (o' & -> & Hin)%list_elem_of_fmap Hid Hc.
    destruct (block_fields f root o') as (H1 & H2 & H3 & H4). rewrite H1 in Hid. apply H4 in Hc as [Hc Hr].
    rewrite H3. split; [|done].
    assert (o' ∈ filter (has_id id) os) as Ho by (by apply list_elem_of_filter).
    unfold listed in H. destruct (last_mark id entries) as [[| | |]|]; try done;
      rewrite list.Forall_forall in H; apply H in Ho; unfold blocked in Ho; congruence.
Qed.

(** * Witnesses *)
Definition sample_pool : JournalStore :=
  mkJournalStore (Db.db_path_for_root sample_root) (Db.db_path_for_root sample_root).
Definition sample_row : JournalEntry := mkJournalEntry "op-1" Planned JMove "a.txt" "docs/a.txt" 1700000000000.

Definition with_rows (rows : list RawJournalRow) : world MemDb :=
  machine sample_tree (mkMemDb rows (Z.of_nat (length rows) + 1) None).
Definition good_row : RawJournalRow := row_of_entry 1 sample_row.
Definition bad_row : RawJournalRow := mkRawJournalRow 2 "op-2" "half-done" "move" "x" "y" 0.

(** A run by its result, the machine after it left as it is. *)
Lemma run_result {W E A} (m : io W E A) v a : (m v).1 = Ok a -> m v = (Ok a, (m v).2).
Proof. intros H. rewrite <- H. by destruct (m v). Qed.

Lemma journal_append_read_witness : [sample_row] = [] ++ [sample_row].
Proof.
  set (read := JournalStore.read_all (P:=PrecheckError) sample_pool).
  set (w1 := (read sample_machine).2).
  set (w2 := (JournalStore.append (P:=PrecheckError) sample_pool sample_row w1).2).
  refine (journal_append_read sample_pool sample_row sample_machine [] w1 w2 _ (read w2).2 _ _ _ _).
  - split; [discriminate|reflexivity].
  - apply run_result. vm_compute. reflexivity.
  - apply run_result. vm_compute. reflexivity.
  - apply run_result. vm_compute. reflexivity.
Defined.

Lemma journal_read_strict_witness :
  exists l1 r l2, [good_row; bad_row] = l1 ++ r :: l2 /\
    Forall (fun r => is_Some (entry_of_row r)) l1 /\ entry_of_row r = None /\ 2%Z = (Z.of_nat (length l1) + 1)%Z.
Proof.
  assert (match fst (JournalStore.read_all (P:=PrecheckError) sample_pool (with_rows [good_row; bad_row])) with
          | Err (JCorrupt n _) => bool_decide (n = 2%Z) | _ => false end = true) as Hx by (vm_compute; reflexivity).
  destruct (JournalStore.read_all sample_pool (with_rows [good_row; bad_row])) as [x w'] eqn:H.
  destruct x as [|[| | |n m| | |]]; try discriminate Hx. apply bool_decide_eq_true in Hx. subst n.
  exact (proj2 (journal_read_strict _ _ _ _ H)).
Defined.

Definition sample_json (r : RawJournalRow) : result string string := Ok (raw_operation_id r).

Lemma recover_journal_dumps_witness :
  let run := History.recover_journal sample_json sample_root (with_rows [good_row; bad_row]) in
  match run.1 with
  | Ok rep => exists text, read_to_string (w_fs run.2) (rr_quarantined_path rep) = Ok text
  | Err _ => False
  end.
Proof.
  intros run. assert (is_ok run.1 = true) as Hok by (vm_compute; reflexivity).
  destruct run as [[rep|e] w'] eqn:H; [|discriminate Hok]. unfold run in H. simpl.
  destruct (recover_journal_dumps _ _ _ _ _ H) as (g & _ & _ & _ & text & _ & Hr). by exists text.
Defined.

(** * The journal is written ahead: the steps that a command makes on the machine, one for
    each event of its log, in which a rename or a removal needs the latest row of the
    journals to plan exactly this change. *)

(** * Plans *)

(** A row of the journal in the database [pl_db]. *)
Record plan := mkPlan { pl_db : string; pl_status : string; pl_action : string; pl_from : string; pl_to : string }.
(** The row that an event adds. *)
Definition row_added (e : event) : option plan :=
  match e with
  | EvSql db sql [_; SqlText status; SqlText action; SqlText from; SqlText to; _] =>
      if (sql =? JournalStore.insert_sql)%string then Some (mkPlan db status action from to) else None
  | _ => None
  end.
Definition plan_of (db : string) (e : JournalEntry) : plan :=
  mkPlan db (JournalStatus.as_db_str (je_status e)) (JournalAction.as_db_str (je_action e)) (je_from e) (je_to e).
Definition changes_entry (e : event) : bool :=
  match e with EvRename _ _ | EvUnlink _ | EvRmdir _ => true | _ => false end.

(** The row plans this change of the tree [f]: it stands in the journal of the root whose
    relative paths it names; a rename takes what its source leads to, to the new name that
    its destination stands for, both checked by the guard of that root; a removal, which
    only an undo makes, takes the file or directory that it says was created. *)
Definition covers (p : plan) (f : tree) (e : event) : Prop :=
  exists g, pl_db p = Db.db_path_for_root (root g) /\
  match e with
  | EvRename src dst =>
      pl_status p ∈ ["planned"; "undo_planned"] /\ pl_action p ∈ ["move"; "trash"] /\
      exists source destination,
        PathGuard.resolve_existing f g (pl_from p) = Ok source /\ lresolve f source = Ok src /\
        PathGuard.resolve_for_create f g (pl_to p) = Ok destination /\ locate f destination = Ok dst
  | EvUnlink q =>
      pl_status p = "undo_planned" /\ pl_action p ∈ ["create_file"; "readme_write"] /\
      lresolve f (path_join (root g) (pl_from p)) = Ok q
  | EvRmdir q =>
      pl_status p = "undo_planned" /\ pl_action p = "create_dir" /\ lresolve f (path_join (root g) (pl_from p)) = Ok q
  | _ => True
  end.

(** What an event does to the tree. *)
Definition effect (e : event) (f f' : tree) : Prop :=
  match e with
  | EvMkdir p => f !! p = None /\ exists i, is_dir_inode i = true /\ f' = <[p := i]> f
  | EvCreate p | EvWrite p =>
      (forall j, f !! p = Some j -> is_file_inode j = true) /\ exists i, is_file_inode i = true /\ f' = <[p := i]> f
  | EvRename s d => rename_entry f s d = Ok f'
  | EvUnlink p | EvRmdir p => f' = delete p f
  | EvSql _ _ _ => f' = f
  end.

Definition latest (row : option plan) (e : event) : option plan :=
  match row_added e with Some p => Some p | None => row end.

(** One step, with the latest row before and after: one event of the log, or none. *)
Inductive journaled {DB} : option plan * world DB -> option plan * world DB -> Prop :=
| journaled_silent row w w' : w_fs w' = w_fs w -> w_log w' = w_log w -> journaled (row, w) (row, w')
| journaled_event row w w' e :
    w_log w' = w_log w ++ [e] -> effect e (w_fs w) (w_fs w') ->
    (changes_entry e = true -> exists p, row = Some p /\ covers p (w_fs w) e) ->
    journaled (row, w) (latest row e, w').

Section write_ahead.
Context {DB : Type} `{!SqlDb DB, !JournalDb DB}.
Implicit Types (w : world DB) (row : option plan).

Definition runs row w row' w' : Prop := rtc journaled (row, w) (row', w').
Lemma runs_trans row w row1 w1 row2 w2 : runs row w row1 w1 -> runs row1 w1 row2 w2 -> runs row w row2 w2.
Proof. unfold runs. apply transitivity. Qed.
Lemma runs_quiet row w w' : w_fs w' = w_fs w -> w_log w' = w_log w -> runs row w row w'.
Proof. intros H1 H2. by apply rtc_once, journaled_silent. Qed.
Lemma runs_event row w w' e :
  w_log w' = w_log w ++ [e] -> effect e (w_fs w) (w_fs w') ->
  (changes_entry e = true -> exists p, row = Some p /\ covers p (w_fs w) e) -> runs row w (latest row e) w'.
Proof. intros H1 H2 H3. by apply rtc_once, journaled_event. Qed.

(** Computations that add no row and take nothing away. *)
Definition calm w w' : Prop := forall row, runs row w row w'.
#[export] Instance calm_preorder : PreOrder calm.
Proof. split; [intros w row; apply rtc_refl|]. intros w1 w2 w3 H1 H2 row. by eapply runs_trans. Qed.
Lemma calm_quiet w w' : quiet w w' -> calm w w'.
Proof. intros (H1 & _ & H2) row. by apply runs_quiet. Qed.
Lemma calm_event w w' e :
  w_log w' = w_log w ++ [e] -> effect e (w_fs w) (w_fs w') -> changes_entry e = false -> row_added e = None -> calm w w'.
Proof.
  intros H1 H2 H3 H4 row. replace row with (latest row e) at 2 by (unfold latest; by rewrite H4).
  apply runs_event; [done..|]. by rewrite H3.
Qed.

Lemma create_dir_calm p : io_rel calm (create_dir (DB:=DB) p).
Proof.
  intros w r w' H. apply create_dir_run in H. destruct r; [|by apply calm_quiet].
  destruct H as (q & _ & Hn & Hf & _ & Hl). eapply calm_event; [exact Hl| |done..]. split; [done|]. eexists. split; [|exact Hf]. done.
Qed.
Lemma create_new_calm p : io_rel calm (create_new (DB:=DB) p).
Proof.
  intros w r w' H. apply create_new_run in H. destruct r; [|by apply calm_quiet].
  destruct H as (q & _ & Hn & Hf & _ & Hl). eapply calm_event; [exact Hl| |done..].
  split; [by intros j; rewrite Hn|]. eexists. split; [|exact Hf]. done.
Qed.
Lemma file_create_calm p : io_rel calm (file_create (DB:=DB) p).
Proof.
  intros w r w' H. unfold file_create in H. io_crush H; try (by apply calm_quiet).
  - eapply calm_event; [done| |done..]. split; [|eexists; split; [|reflexivity]; done]. intros j Hj. simplify_eq. unfold is_file_inode. by case_match.
  - eapply calm_event; [done| |done..]. split; [|eexists; split; [|reflexivity]; done]. intros j Hj. congruence.
Qed.
Lemma file_append_calm q s : io_rel calm (file_append (DB:=DB) q s).
Proof.
  intros w r w' H. unfold file_append in H. io_crush H; try (by apply calm_quiet).
  eapply calm_event; [done| |done..]. split; [|eexists; split; [|reflexivity]; done]. intros j Hj. simplify_eq. unfold is_file_inode. by case_match.
Qed.
Lemma connect_calm p : io_rel calm (Db.connect (DB:=DB) p).
Proof. intros w r w' H row. apply runs_quiet; [by eapply connect_tree|]. unfold Db.connect in H. destruct (sql_connect _). by injection H as _ <-. Qed.
Lemma fetch_calm p sql binds : io_rel calm (Db.fetch_all (DB:=DB) p sql binds).
Proof. intros w r w' H row. apply runs_quiet; [by eapply fetch_tree|]. unfold Db.fetch_all in H. destruct (sql_fetch_all _ _ _). by injection H as _ <-. Qed.
Lemma execute_calm p sql binds : sql <> JournalStore.insert_sql -> io_rel calm (Db.execute (DB:=DB) p sql binds).
Proof.
  intros Hsql w r w' H. pose proof (execute_tree _ _ _ _ _ _ H) as Ht. unfold Db.execute in H.
  destruct (sql_execute _ _ _) as [r0 d]. injection H as _ <-. destruct (is_ok r0); [|intros row; by apply runs_quiet].
  eapply calm_event; [done..|]. simpl. apply String.eqb_neq in Hsql. rewrite Hsql. by repeat case_match.
Qed.
Lemma create_dir_all_calm p : io_rel calm (create_dir_all (DB:=DB) p).
Proof. apply create_dir_all_rel; [apply _|apply create_dir_calm]. Qed.
Lemma open_calm root : io_rel calm (JournalStore.open (DB:=DB) (P:=PrecheckError) root).
Proof.
  unfold JournalStore.open. io_rel_go. apply open_root_db_rel; [apply _|..]; intros;
    [apply create_dir_all_calm|apply connect_calm| |apply fetch_calm].
  apply execute_calm. intros ->. revert H. apply (bool_decide_unpack _). vm_compute. exact Logic.I.
Qed.
Lemma read_raw_calm s : io_rel calm (JournalStore.read_raw (DB:=DB) (P:=PrecheckError) s).
Proof. unfold JournalStore.read_raw. io_rel_go. apply fetch_calm. Qed.
Lemma clear_calm s : io_rel calm (JournalStore.clear (DB:=DB) (P:=PrecheckError) s).
Proof. unfold JournalStore.clear. io_rel_go. by apply execute_calm. Qed.
Lemma write_calm p c : io_rel calm (fs_write (DB:=DB) p c).
Proof. unfold fs_write. io_rel_go; [apply file_create_calm|apply file_append_calm]. Qed.
Lemma copy_calm p q : io_rel calm (fs_copy (DB:=DB) p q).
Proof. unfold fs_copy, get_fs. io_rel_go; apply write_calm. Qed.

(** Computations whose every change was planned, from any latest row. *)
Definition ahead w w' : Prop := wf_tree (w_fs w) -> wf_tree (w_fs w') /\ forall row, exists row', runs row w row' w'.
#[export] Instance ahead_preorder : PreOrder ahead.
Proof.
  split; [intros w Hwf; split; [done|]; intros row; exists row; apply rtc_refl|].
  intros w1 w2 w3 H1 H2 Hwf. destruct (H1 Hwf) as [Hwf2 Hr1]. destruct (H2 Hwf2) as [Hwf3 Hr2]. split; [done|].
  intros row. destruct (Hr1 row) as [row1 H3]. destruct (Hr2 row1) as [row2 H4]. exists row2. by eapply runs_trans.
Qed.
Lemma calm_ahead {E A} (m : io (world DB) E A) : io_rel calm m -> io_rel keeps_wf m -> io_rel ahead m.
Proof. intros H1 H2 w r w' H Hwf. split; [by eapply H2|]. intros row. exists row. by eapply H1. Qed.
Lemma append_ahead s e : io_rel ahead (JournalStore.append (DB:=DB) (P:=PrecheckError) s e).
Proof.
  intros w r w' H Hwf. apply append_run in H as [Hf H]. split; [by rewrite Hf|]. intros row. destruct r as [u|er].
  - destruct H as (_ & _ & Hl). eexists. refine (runs_event row _ _ _ Hl Hf _). done.
  - destruct H as [_ Hl]. exists row. by apply runs_quiet.
Qed.
#[export] Instance ahead_step : StepRel (DB:=DB) ahead.
Proof.
  unshelve econstructor; [apply _|..].
  - intros w w' H Hwf. split; [by apply (quiet_wf _ _ H)|]. intros row. exists row. by apply calm_quiet.
  - intros p. apply calm_ahead; [apply create_dir_calm|apply create_dir_wf].
  - intros p. apply calm_ahead; [apply create_new_calm|apply create_new_wf].
  - apply append_ahead.
  - intros root. apply calm_ahead; [apply open_calm|apply open_wf].
  - intros s. apply calm_ahead; [apply read_raw_calm|]. apply same_tree_wf. intros w r w' H. by apply read_raw_run in H as (H & _).
Qed.
Lemma write_ahead p c : io_rel ahead (fs_write (DB:=DB) p c).
Proof. apply calm_ahead; [apply write_calm|apply fs_write_wf]. Qed.
Lemma copy_ahead p q : io_rel ahead (fs_copy (DB:=DB) p q).
Proof. apply calm_ahead; [apply copy_calm|apply fs_copy_wf]. Qed.
Lemma file_create_ahead p : io_rel ahead (file_create (DB:=DB) p).
Proof. apply calm_ahead; [apply file_create_calm|apply file_create_wf]. Qed.
Lemma file_append_ahead p c : io_rel ahead (file_append (DB:=DB) p c).
Proof. apply calm_ahead; [apply file_append_calm|apply file_append_wf]. Qed.

(** ** From a row and a tree *)

(** The computation runs ahead when the latest row is [row] and the entries of [f] are there. *)
Definition from row (f : tree) {E A} (m : io (world DB) E A) : Prop :=
  forall w r w', f ⊆ w_fs w -> wf_tree (w_fs w) -> m w = (r, w') -> exists row', runs row w row' w'.
Lemma from_ahead row f {E A} (m : io (world DB) E A) : io_rel ahead m -> from row f m.
Proof. intros Hm w r w' _ Hwf H. by apply (Hm _ _ _ H Hwf). Qed.
Lemma ahead_from {E A} (m : io (world DB) E A) : io_rel keeps_wf m -> (forall row, from row ∅ m) -> io_rel ahead m.
Proof.
  intros H1 H2 w r w' H Hwf. split; [by eapply H1|]. intros row. eapply H2; [apply map_empty_subseteq|done|exact H].
Qed.
(** What only adds entries. *)
Definition grows w w' : Prop := calm w w' /\ keeps_wf w w' /\ w_fs w ⊆ w_fs w'.
#[export] Instance grows_preorder : PreOrder grows.
Proof. split; [by intros w; split_and!|]. intros w1 w2 w3 (?&?&?) (?&?&?). split_and!; by etrans. Qed.
Lemma from_bind row f {E A B} (m : io (world DB) E A) (k : A -> io (world DB) E B) :
  io_rel grows m -> (forall a, from row f (k a)) -> from row f (io_bind m k).
Proof.
  intros Hm Hk w r w' Hs Hwf [(a & w1 & H1 & H2)|(e & H1 & ->)]%io_bind_inv; destruct (Hm _ _ _ H1) as (Hc & Hw & Hsub).
  - destruct (Hk a _ _ _ (transitivity Hs Hsub) (Hw Hwf) H2) as [row' Hr]. exists row'. by eapply runs_trans; [apply Hc|].
  - exists row. apply Hc.
Qed.
Lemma from_get row f {E A} (k : tree -> io (world DB) E A) :
  (forall f', f ⊆ f' -> wf_tree f' -> from row f' (k f')) -> from row f (io_bind get_fs k).
Proof. intros Hk w r w' Hs Hwf H. unfold io_bind, get_fs, io_gets in H. by eapply (Hk (w_fs w)). Qed.
Lemma from_assoc row f {E A B C} (m : io (world DB) E A) (k1 : A -> io (world DB) E B) (k2 : B -> io (world DB) E C) :
  from row f (let! a := m in let! b := k1 a in k2 b) -> from row f (let! b := (let! a := m in k1 a) in k2 b).
Proof. intros Hm w r w' Hs Hwf H. eapply Hm; [done..|]. rewrite <- H. unfold io_bind. by destruct (m w) as [[]]. Qed.
Lemma from_ret row f {E A B} (a : A) (k : A -> io (world DB) E B) : from row f (k a) -> from row f (io_bind (io_ret a) k).
Proof. done. Qed.
Lemma from_lift row f {E A B} (x : result A E) (k : A -> io (world DB) E B) :
  (forall a, x = Ok a -> from row f (k a)) -> from row f (io_bind (io_lift x) k).
Proof.
  intros Hk w r w' Hs Hwf. destruct x as [a|e]; [by apply Hk|]. intros [= <- <-]. exists row. by apply runs_quiet.
Qed.
Lemma from_lift_err row f {E F A B} (g : F -> E) (x : result A F) (k : A -> io (world DB) E B) :
  (forall a, x = Ok a -> from row f (k a)) -> from row f (io_bind (io_lift (map_err g x)) k).
Proof. intros Hk. apply from_lift. intros a Ha. apply Hk. by destruct x; simplify_eq/=. Qed.
Lemma from_append row f {E A} s e (g : JErr -> E) (k : unit -> io (world DB) E A) :
  from (Some (plan_of (pool s) e)) f (k tt) -> from row f (io_bind (io_map_err g (JournalStore.append s e)) k).
Proof.
  intros Hk w r w' Hs Hwf [(u & w1 & H1 & H2)|(er & H1 & ->)]%io_bind_inv;
    apply io_map_err_inv in H1 as (r0 & H1 & Hr0); apply append_run in H1 as [Hf H1].
  - destruct r0 as [[]|]; [|done]. destruct u, H1 as (_ & _ & Hl). rewrite <- Hf in Hs, Hwf.
    destruct (Hk _ _ _ Hs Hwf H2) as [row' Hr]. exists row'. eapply runs_trans; [|exact Hr].
    refine (runs_event row _ _ _ Hl Hf _). done.
  - destruct r0 as [[]|]; [done|]. destruct H1 as [_ Hl]. exists row. by apply runs_quiet.
Qed.
(** A planned change, and what follows it. *)
Lemma from_change p f {E F A B} (m : io (world DB) E A) (g : E -> F) (k : A -> io (world DB) F B) :
  io_rel keeps_wf m ->
  (forall w a w', f ⊆ w_fs w -> m w = (Ok a, w') ->
     exists e, w_log w' = w_log w ++ [e] /\ effect e (w_fs w) (w_fs w') /\ row_added e = None /\ (wf_tree (w_fs w) -> covers p (w_fs w) e)) ->
  (forall w e w', m w = (Err e, w') -> quiet w w') ->
  (forall a, io_rel ahead (k a)) -> from (Some p) f (io_bind (io_map_err g m) k).
Proof.
  intros Hw Hok Herr Hk w r w' Hs Hwf [(a & w1 & H1 & H2)|(er & H1 & ->)]%io_bind_inv;
    apply io_map_err_inv in H1 as (r0 & H1 & Hr0); destruct r0 as [a0|e0]; try done.
  - injection Hr0 as <-. destruct (Hok _ _ _ Hs H1) as (e & Hl & He & Hn & Hc).
    destruct (Hk _ _ _ _ H2 (Hw _ _ _ H1 Hwf)) as [_ Hr]. destruct (Hr (latest (Some p) e)) as [row' Hrun]. exists row'.
    eapply runs_trans; [|exact Hrun]. eapply runs_event; [exact Hl|exact He|]. intros _. exists p. split; [done|by apply Hc].
  - exists (Some p). by apply calm_quiet, (Herr _ _ _ H1).
Qed.
Lemma from_rename p f g source destination {F A} (h : io_error -> F) (k : unit -> io (world DB) F A) :
  wf_tree f -> pl_db p = Db.db_path_for_root (root g) -> pl_status p ∈ ["planned"; "undo_planned"] -> pl_action p ∈ ["move"; "trash"] ->
  PathGuard.resolve_existing f g (pl_from p) = Ok source -> PathGuard.resolve_for_create f g (pl_to p) = Ok destination ->
  (forall u, io_rel ahead (k u)) -> from (Some p) f (io_bind (io_map_err h (fs_rename source destination)) k).
Proof.
  intros Hwf Hdb Hst Hac Hsrc Hdst Hk. apply from_change; [apply fs_rename_wf| | |done].
  - intros w u w' Hs H. apply fs_rename_run in H as (s & d & f' & Hsr & Hd & Hr & Hf & _ & Hl).
    exists (EvRename s d). split_and!; [done|simpl; by rewrite Hf|done|]. intros _. exists g. split_and!; [done..|]. exists source, destination.
    split_and!; [by eapply resolve_existing_mono|done|by eapply resolve_for_create_mono|done].
  - intros w e w' H. by apply fs_rename_run in H.
Qed.
Lemma from_unlink p f g {F A} (h : io_error -> F) (k : unit -> io (world DB) F A) :
  pl_db p = Db.db_path_for_root (root g) -> pl_status p = "undo_planned" -> pl_action p ∈ ["create_file"; "readme_write"] ->
  (forall u, io_rel ahead (k u)) -> from (Some p) f (io_bind (io_map_err h (remove_file (path_join (root g) (pl_from p)))) k).
Proof.
  intros Hdb Hst Hac Hk. apply from_change; [apply remove_file_wf| | |done].
  - intros w u w' _ H. apply remove_file_run in H as (q & i & Hq & _ & _ & Hf & _ & Hl).
    exists (EvUnlink q). split_and!; [done..|]. intros _. by exists g.
  - intros w e w' H. by apply remove_file_run in H.
Qed.
Lemma from_rmdir p f g {F A} (h : io_error -> F) (k : unit -> io (world DB) F A) :
  pl_db p = Db.db_path_for_root (root g) -> pl_status p = "undo_planned" -> pl_action p = "create_dir" ->
  (forall u, io_rel ahead (k u)) -> from (Some p) f (io_bind (io_map_err h (remove_dir (path_join (root g) (pl_from p)))) k).
Proof.
  intros Hdb Hst Hac Hk. apply from_change; [apply remove_dir_wf| | |done].
  - intros w u w' _ H. apply remove_dir_run in H as (q & i & Hq & _ & _ & _ & _ & Hf & _ & Hl).
    exists (EvRmdir q). split_and!; [done..|]. intros _. by exists g.
  - intros w e w' H. by apply remove_dir_run in H.
Qed.
End write_ahead.
#[export] Hint Resolve write_ahead copy_ahead file_create_ahead file_append_ahead : io.

(** Walks through what follows from a row and a tree. *)
Ltac from_step :=
  match goal with
  | |- forall _, _ => intros ?
  | |- from _ _ (io_bind (io_map_err _ (JournalStore.append _ _)) _) => apply from_append
  | |- from _ _ (io_bind get_fs _) => apply from_get; intros ? ? ?
  | |- from _ _ (io_bind (io_bind _ _) _) => apply from_assoc
  | |- from _ _ (io_bind (io_ret _) _) => apply from_ret
  | |- from _ _ (io_bind (io_lift (map_err _ _)) _) => apply from_lift_err; intros ? ?
  | |- from _ _ (io_bind (io_lift _) _) => apply from_lift; intros ? ?
  | |- from _ _ (io_bind _ _) => apply from_bind; [solve [auto with grows]|intros ?]
  | |- from _ _ (match ?x with _ => _ end) => let E := fresh "E" in destruct x eqn:E
  | |- from _ _ _ => apply from_ahead; solve [io_rel_go]
  end.

Section engine.
Context {DB : Type} `{!SqlDb DB, !JournalDb DB}.
Implicit Types (w : world DB) (s : JournalStore).

(** ** What only adds *)

Lemma quiet_grows_entries {E A} (m : io (world DB) E A) : io_rel quiet m -> io_rel grows m.
Proof.
  intros Hm w r w' H. apply Hm in H. split_and!; [by apply calm_quiet|by apply quiet_wf|]. destruct H as [-> _]. done.
Qed.
Lemma grows_lift {E A} (x : result A E) : io_rel grows (io_lift (W:=world DB) x).
Proof. apply io_rel_lift, _. Qed.
Lemma grows_map_err {E F A} (g : E -> F) (m : io (world DB) E A) : io_rel grows m -> io_rel grows (io_map_err g m).
Proof. apply io_rel_map_err. Qed.
Lemma grows_ret {E A} (a : A) : io_rel (E:=E) grows (io_ret (W:=world DB) a).
Proof. apply io_rel_ret, _. Qed.
Lemma grows_now_ms {E} : io_rel (E:=E) grows (now_ms (DB:=DB)).
Proof. apply quiet_grows_entries. by intros w r w' [= <- <-]. Qed.
Lemma grows_now_nanos {E} : io_rel (E:=E) grows (now_nanos (DB:=DB)).
Proof. apply quiet_grows_entries. by intros w r w' [= <- <-]. Qed.
Lemma grows_mkdirs p : io_rel grows (create_dir_all (DB:=DB) p).
Proof.
  intros w r w' H. split_and!; [by eapply create_dir_all_calm|by eapply create_dir_all_wf|].
  by eapply adds_dirs_mono, create_dir_all_adds_dirs.
Qed.
Lemma grows_open root : io_rel grows (JournalStore.open (DB:=DB) (P:=PrecheckError) root).
Proof.
  intros w r w' H. split_and!; [by eapply open_calm|by eapply open_wf|]. by eapply adds_dirs_mono, open_adds_dirs.
Qed.
End engine.
Create HintDb grows discriminated.
#[export] Hint Resolve grows_lift grows_map_err grows_ret grows_now_ms grows_now_nanos grows_mkdirs grows_open : grows.

Section engine2.
Context {DB : Type} `{!SqlDb DB, !JournalDb DB}.
Context (to_string_pretty : TrashMetadata -> result string string).
Implicit Types (w : world DB) (s : JournalStore).
Abbreviation ahead := (ahead (DB:=DB)).

(** ** The operations *)

Lemma execute_record_ahead s id st c : io_rel ahead (Execute.record s (Execute.journal_entry id st c)).
Proof. apply execute_record_rel; [apply _|]. apply journal_entry_rel, _. Qed.
Lemma undo_record_ahead s e st : io_rel ahead (Undo.record s e st).
Proof. apply undo_record_rel, _. Qed.
Lemma readme_record_ahead s id st b t : io_rel ahead (Execute.record s (Execute.readme_journal_entry id st b t)).
Proof. apply execute_record_rel; [apply _|]. apply readme_entry_rel, _. Qed.
Lemma rename_mark_ahead id st a b : io_rel ahead (FileOps.journal_entry (DB:=DB) id st a b).
Proof. apply file_ops_entry_rel, _. Qed.
#[local] Hint Resolve execute_record_ahead undo_record_ahead readme_record_ahead rename_mark_ahead : io.

#[local] Ltac renaming g := eapply (from_rename _ _ g); [done|done|simpl; set_solver|..|solve [intros; io_rel_go]].
#[local] Ltac still_there := eapply resolve_existing_mono; [| |eassumption]; done.
Lemma execute_move_ahead g s c i : c_action c = Move -> pool s = Db.db_path_for_root (root g) -> io_rel ahead (Execute.execute_move g s c i).
Proof.
  intros Hc Hs. apply ahead_from; [apply execute_move_rel, _|]. intros row.
  unfold Execute.execute_move, Execute.planned_entry, Execute.executed_entry, Execute.unix_ms, Execute.record at 1, Execute.journal_entry at 1, Execute.unix_ms.
  repeat from_step. renaming g; simpl.
  - rewrite Hc. set_solver.
  - still_there.
  - done.
Qed.

Lemma trash_file_ahead root p : io_rel ahead (Trash.trash_file to_string_pretty root p).
Proof.
  apply ahead_from; [apply trash_file_rel, _|]. intros row. unfold Trash.trash_file.
  apply from_get. intros f _ Hwf. apply from_lift_err. intros g Hg. apply from_lift_err. intros source Hsource.
  apply from_lift_err. intros metadata _. destruct (is_link_or_reparse_point metadata); [repeat from_step|].
  destruct (negb (is_file_inode metadata)); [repeat from_step|].
  intros w r w' Hs Hw [(s & w1 & H1 & H)|(e & H1 & ->)]%io_bind_inv; pose proof (grows_map_err TJournal _ (grows_open (path_guard.root g)) _ _ _ H1) as (Hc & Hwf1 & Hsub);
    [|by exists row].
  apply io_map_err_ok, open_store in H1 as [Hpool _].
  enough (from row f (Trash.trash_journaled to_string_pretty g s p source metadata)) as Hrest.
  { destruct (Hrest _ _ _ (transitivity Hs Hsub) (Hwf1 Hw) H) as [row' Hr]. exists row'. by eapply runs_trans. }
  clear -JournalDb0 Hpool Hwf Hsource. unfold Trash.trash_journaled. do 2 from_step. cbv zeta. apply from_append. from_step.
  match goal with |- from (Some ?x) _ _ => set (planned := x) end.
  intros w r w' Hs Hw [(tp & w1 & H1 & H)|(e & H1 & ->)]%io_bind_inv; apply free_path_run in H1 as [-> H1]; [|eexists; apply rtc_refl].
  apply io_bind_inv in H as [(mp & w1 & H2 & H)|(e & H2 & ->)]; apply free_path_run in H2 as [-> H2]; [|eexists; apply rtc_refl].
  destruct (H1 _ eq_refl) as [Htp _]. destruct (H2 _ eq_refl) as [_ Hmp].
  apply io_bind_inv in H as [(json & w1 & [= _ <-] & H)|(e & [= _ <-] & ->)]; [|eexists; apply rtc_refl].
  apply io_bind_inv in H as [(u & w1 & H3 & H)|(e & H3 & ->)]; apply io_map_err_inv in H3 as (r3 & H3 & _).
  2: { eexists. by apply write_calm in H3. }
  pose proof (fs_write_fresh _ _ _ _ _ Hw Hmp H3) as Hsub. pose proof (fs_write_wf _ _ _ _ _ H3 Hw) as Hw1. apply write_calm in H3.
  enough (exists row', runs (Some planned) w1 row' w') as [row' Hr] by (exists row'; by eapply runs_trans).
  refine (from_rename planned (w_fs w) g source tp _ _ Hw Hpool _ _ _ Htp _ w1 r w' Hsub Hw1 H); [simpl; set_solver..|simpl; still_there|].
  intros ?. io_rel_go.
Qed.

Lemma rename_file_ahead root p n : io_rel ahead (FileOps.rename_file root p n).
Proof.
  apply ahead_from; [apply rename_file_rel, _|]. intros row. unfold FileOps.rename_file, FileOps.unix_nanos.
  do 5 from_step. destruct (is_link_or_reparse_point _); [repeat from_step|]. destruct (negb _); [repeat from_step|]. from_step.
  destruct (path_exists _ _); [repeat from_step|].
  intros w r w' Hs Hw [(s & w1 & Hop & Hrun)|(e & Hop & ->)]%io_bind_inv;
    pose proof (grows_map_err FJournal _ (grows_open (path_guard.root a)) _ _ _ Hop) as (Hc & Hwf1 & Hsub); [|by exists row].
  apply io_map_err_ok, open_store in Hop as [Hpool _].
  match type of Hrun with ?m _ = _ => enough (from row f' m) as Hrest end.
  { destruct (Hrest _ _ _ (transitivity Hs Hsub) (Hwf1 Hw) Hrun) as [row' Hr]. exists row'. by eapply runs_trans. }
  from_step. unfold FileOps.journal_entry at 1, FileOps.unix_ms. repeat from_step. renaming a; simpl; [set_solver|still_there|done].
Qed.

Lemma execute_readme_ahead g s c i : io_rel ahead (Execute.execute_readme_write g s c i).
Proof. unfold Execute.execute_readme_write, Execute.unix_ms. io_rel_go. Qed.
Lemma execute_check_ahead g s es i t c : pool s = Db.db_path_for_root (root g) ->
  io_rel ahead (Execute.execute_check to_string_pretty g s es i t c).
Proof.
  intros Hs. unfold Execute.execute_check. destruct (negb _); [io_rel_go; apply recover_planned_rel, _|].
  destruct (c_action c) eqn:Hc; io_rel_go;
    first [by apply execute_move_ahead|apply trash_file_ahead|apply execute_create_dir_rel, _|apply execute_create_file_rel, _|apply execute_readme_ahead].
Qed.
Lemma execute_prechecked_ahead g pre : io_rel ahead (Execute.execute_prechecked to_string_pretty g pre).
Proof.
  unfold Execute.execute_prechecked. apply io_rel_bind_ok; [apply _|io_rel_go|].
  intros s w w' [Hs _]%io_map_err_ok%open_store. io_rel_go. by apply execute_check_ahead.
Qed.

(** An undo is no less: the row names the file or directory that is there. *)
Lemma undo_create_file_ahead g s e : je_action e = JCreateFile -> pool s = Db.db_path_for_root (root g) ->
  io_rel ahead (Undo.undo_create_file g s e).
Proof.
  intros He Hs. apply ahead_from; [unfold Undo.undo_create_file; io_rel_go; apply undo_record_rel, _|]. intros row.
  unfold Undo.undo_create_file. apply from_get. intros f _ _.
  do 3 (match goal with |- from _ _ (if ?b then _ else _) => destruct b end; [apply from_ahead; io_rel_go|]).
  unfold Undo.record at 1, Undo.undo_entry, Undo.unix_ms. repeat from_step.
  match goal with |- from (Some ?p) _ _ => apply (from_unlink p _ g) end; [done|done|simpl; rewrite He; set_solver|intros; io_rel_go].
Qed.
Lemma undo_create_dir_ahead g s e : je_action e = JCreateDir -> pool s = Db.db_path_for_root (root g) ->
  io_rel ahead (Undo.undo_create_dir g s e).
Proof.
  intros He Hs. apply ahead_from; [unfold Undo.undo_create_dir; io_rel_go; apply undo_record_rel, _|]. intros row.
  unfold Undo.undo_create_dir. apply from_get. intros f _ _.
  do 3 (match goal with |- from _ _ (if ?b then _ else _) => destruct b end; [apply from_ahead; io_rel_go|]).
  unfold Undo.record at 1, Undo.undo_entry, Undo.unix_ms. repeat from_step.
  match goal with |- from (Some ?p) _ _ => apply (from_rmdir p _ g) end; [done|done|simpl; by rewrite He|intros; io_rel_go].
Qed.
Lemma undo_readme_ahead g s e : je_action e = JReadmeWrite -> pool s = Db.db_path_for_root (root g) ->
  io_rel ahead (Undo.undo_readme_write g s e).
Proof.
  intros He Hs. apply ahead_from; [unfold Undo.undo_readme_write; io_rel_go; first [apply undo_record_rel, _|apply change_copy, _]|]. intros row.
  unfold Undo.undo_readme_write. destruct (negb _) eqn:Hto; [repeat from_step|]. apply negb_false_iff, String.eqb_eq in Hto. cbv zeta.
  unfold Undo.record at 1, Undo.undo_entry, Undo.unix_ms. do 4 from_step. apply from_append. apply from_get. intros f _ _.
  destruct (path_exists f (path_join (root g) (je_from e))); [apply from_ahead; io_rel_go; apply copy_ahead|].
  destruct (path_exists f (path_with_extension _ _)); [|repeat from_step].
  destruct (path_exists f (path_join (root g) "README.md")); [|apply from_ahead; io_rel_go].
  rewrite <- Hto. match goal with |- from (Some ?p) _ _ => apply (from_unlink p _ g) end;
    [done|done|simpl; rewrite He; set_solver|intros; io_rel_go].
Qed.
Lemma undo_move_ahead g s e : je_action e ∈ [JMove; JTrash] -> pool s = Db.db_path_for_root (root g) -> io_rel ahead (Undo.undo_move g s e).
Proof.
  intros He Hs. apply ahead_from; [unfold Undo.undo_move; io_rel_go; apply undo_record_rel, _|]. intros row.
  unfold Undo.undo_move. from_step. from_step; [|repeat from_step]. cbv zeta. do 4 from_step.
  destruct (path_exists _ _); [repeat from_step|]. unfold Undo.record at 1, Undo.undo_entry, Undo.unix_ms. repeat from_step.
  renaming g; simpl; [|still_there|done]. apply elem_of_cons in He as [->| ->%list_elem_of_singleton]; set_solver.
Qed.

Lemma undo_step_ahead g s ids only i t e : pool s = Db.db_path_for_root (root g) -> io_rel ahead (Undo.undo_step g s ids only i t e).
Proof.
  intros Hs. unfold Undo.undo_step. destruct (match only with Some _ => _ | None => _ end); [apply io_rel_ret, _|].
  destruct (_ || _); [apply io_rel_ret, _|]. apply io_rel_bind; [apply _| |intros [?|?]; apply io_rel_ret, _].
  destruct (je_action e) eqn:He;
    [apply undo_move_ahead..|apply undo_create_dir_ahead|apply undo_create_file_ahead|apply undo_readme_ahead]; try done; rewrite He; set_solver.
Qed.
Lemma undo_with_filter_ahead root only : io_rel ahead (Undo.undo_with_filter root only).
Proof.
  unfold Undo.undo_with_filter. do 2 (apply io_rel_bind; [apply _|io_rel_go|]; intros ?).
  apply io_rel_bind_ok; [apply _|io_rel_go|]. intros s w w' [Hs _]%io_map_err_ok%open_store.
  io_rel_go. by apply undo_step_ahead.
Qed.

(** ** The commands *)

Lemma execute_root_ahead (parse : string -> result RuleSet string) root : io_rel ahead (Execute.execute_root parse to_string_pretty root).
Proof. unfold Execute.execute_root. io_rel_go; [apply precheck_root_rel, _|apply execute_prechecked_ahead]. Qed.
Lemma execute_decisions_ahead root app : io_rel ahead (Execute.execute_decision_application to_string_pretty root app).
Proof. unfold Execute.execute_decision_application, Execute.execute_proposals. io_rel_go. apply execute_prechecked_ahead. Qed.
Lemma recover_ahead (to_string : RawJournalRow -> result string string) root : io_rel ahead (History.recover_journal to_string root).
Proof.
  assert (forall path dump raw, io_rel ahead (History.dump_rows to_string path dump raw)) as Hdump.
  { intros path dump raw. induction raw as [|row raw IH]; simpl; [apply io_rel_ret, _|]. io_rel_go; exact IH. }
  unfold History.recover_journal. io_rel_go.
  apply calm_ahead; [apply clear_calm|]. intros w r w' H. apply clear_run in H as [Hf _]. unfold keeps_wf. by rewrite Hf.
Qed.
End engine2.
