(* ===== verification/engine.v ===== *)
(** Theorems about whole runs of the engine: the commands of the program, the
    machine they run on together with other programs, and what every run keeps,
    whether it succeeds or stops at any error. *)
From Stdlib Require Import ZArith Lia Ascii.
From stdpp Require Import strings pretty gmap functions option list relations.
From S2P Require Import prelude rust_str rule_definition std_path std_fs fs_facts path_guard db.
From S2P Require Import journal_store proposal_types decision analyzer proposal.
From S2P Require Import precondition trash execute undo history file_ops engine_safety.
From S2P Require Import engine_guard journal_facts.

Open Scope string_scope.
Open Scope list_scope.

(** * Commands *)

Inductive command :=
| CmdExecute (root : string)
| CmdExecuteDecisions (root : string) (application : DecisionApplication)
| CmdPlan (root : string)
| CmdPrecheck (root : string)
| CmdTrash (root path : string)
| CmdUndo (root : string)
| CmdUndoOperation (root operation_id : string)
| CmdHistory (root : string)
| CmdCreateFile (root path : string)
| CmdRename (root path new_name : string).

Section engine.
Context {DB : Type} `{!SqlDb DB, !JournalDb DB}.
Context (parse : string -> result RuleSet string)
  (to_string_pretty : TrashMetadata -> result string string) (to_string : RawJournalRow -> result string string).
Implicit Types w : world DB.

(** The machine after a command, whatever its result. *)
Definition run_command (c : command) w : world DB :=
  match c with
  | CmdExecute root => (Execute.execute_root parse to_string_pretty root w).2
  | CmdExecuteDecisions root application =>
      (Execute.execute_decision_application to_string_pretty root application w).2
  | CmdPlan root => (History.write_planned_journal parse root w).2
  | CmdPrecheck root => (Precheck.precheck_root parse root w).2
  | CmdTrash root path => (Trash.trash_file to_string_pretty root path w).2
  | CmdUndo root => (Undo.undo_root root w).2
  | CmdUndoOperation root operation_id => (Undo.undo_operation root operation_id w).2
  | CmdHistory root => (History.read_operation_history root w).2
  | CmdCreateFile root path => (FileOps.create_empty_file root path w).2
  | CmdRename root path new_name => (FileOps.rename_file root path new_name w).2
  end.

(** A command, or the recovery of a journal. *)
Inductive any_command := Command (c : command) | RecoverJournal (root : string).
Definition run_any (c : any_command) w : world DB :=
  match c with
  | Command c => run_command c w
  | RecoverJournal root => (History.recover_journal to_string root w).2
  end.

(** What other programs do between commands: anything to the tree, as long as
    it stays a tree, and nothing to the journals. *)
Definition outside w w' : Prop := same_journal w w' /\ keeps_wf w w'.

Inductive engine_step w : world DB -> Prop :=
| step_command c : engine_step w (run_any c w)
| step_outside w' : outside w w' -> engine_step w w'.
(** A step that only adds rows that can be read, or a recovery, which has kept every row
    in a file. *)
Definition accounted w w' : Prop := readable_grows w w' \/ exists root, recovered to_string root w w'.

Lemma run_snd {W E A} (R : W -> W -> Prop) (m : io W E A) v : io_rel R m -> R v (m v).2.
Proof. intros Hm. destruct (m v) as [x v'] eqn:H. exact (Hm _ _ _ H). Qed.

(** A relation kept by every change is kept by every command. *)
Lemma run_command_rel (R : world DB -> world DB -> Prop) `{!ChangeRel R} c w : R w (run_command c w).
Proof.
  destruct c; unfold run_command; apply run_snd.
  - apply execute_root_rel, _.
  - apply execute_decisions_rel, _.
  - apply write_planned_rel, _.
  - apply precheck_root_rel, _.
  - apply trash_file_rel, _.
  - apply undo_with_filter_rel, _.
  - apply undo_with_filter_rel, _.
  - apply history_rel, _.
  - apply create_empty_file_rel, _.
  - apply rename_file_rel, _.
Qed.

(** Every command runs ahead. *)
Lemma run_any_ahead c w : ahead w (run_any c w).
Proof.
  destruct c as [c|root]; [destruct c|]; unfold run_any, run_command; apply run_snd.
  - apply execute_root_ahead.
  - apply execute_decisions_ahead.
  - apply write_planned_rel, _.
  - apply precheck_root_rel, _.
  - apply trash_file_ahead.
  - apply undo_with_filter_ahead.
  - apply undo_with_filter_ahead.
  - apply history_rel, _.
  - apply create_empty_file_rel, _.
  - apply rename_file_ahead.
  - apply recover_ahead.
Qed.
Lemma step_accounted w w' : engine_step w w' -> accounted w w' /\ (wf_tree (w_fs w) -> wf_tree (w_fs w')).
Proof.
  intros [c|w2 [Hj Hw]]; [|split; [left; by apply same_readable|done]].
  split; [|intros Hwf; by apply run_any_ahead]. destruct c as [c|root]; [left; exact (run_command_rel readable_grows c w)|].
  simpl. destruct (History.recover_journal to_string root w) as [x w2] eqn:H.
  apply recover_recovered in H as [H|H]; [left; by apply same_readable|right; by exists root].
Qed.
(** A journal without a bad row is not recovered. *)
Lemma accounted_readable w w' db : accounted w w' -> rows_readable (journal_at db w) ->
  exists rows, journal_at db w' = journal_at db w ++ rows /\ rows_readable rows.
Proof.
  intros [H|(root & g & path & text & _ & (row & Hrow & Hbad) & _ & Ho & _)] Hr; [apply H|].
  destruct (decide (db = Db.db_path_for_root (path_guard.root g))) as [->|Hne].
  - pose proof (proj1 (list.Forall_forall _ _) Hr row Hrow) as [e He]. congruence.
  - exists []. split; [by rewrite (Ho db Hne), app_nil_r|by apply Forall_nil].
Qed.

(** An execution on a machine whose root is a directory. *)
Lemma execute_decisions_kept I (P : event -> Prop) Q r root_arg app g w x w' :
  KeptInv r I -> TreeRel Q -> (forall e, inside r e -> P e) -> (forall f, I f -> dir_at f r) ->
  rooted I w -> PathGuard.new (w_fs w) root_arg = Ok g -> root g = abs_path r ->
  (forall g s c i, c_action c = ReadmeWrite -> ReadmeWrite ∈ map p_action (pr_proposals (da_approved app)) ->
     io_rel (keep I P Q) (Execute.execute_readme_write g s c i)) ->
  Execute.execute_decision_application to_string_pretty root_arg app w = (x, w') ->
  kept I P Q w w'.
Proof.
  intros HK HQ HP HI Hw Hnew Hg Hreadme H.
  assert (Forall seg_ok r) as Hsegs.
  { destruct Hw as [Hwf Hi]. destruct (HI _ Hi) as (j & Hj & _). by eapply wf_segs. }
  unfold Execute.execute_decision_application in H.
  enough (io_rel (fun a b => a = w -> kept I P Q a b) (Execute.execute_proposals to_string_pretty root_arg (da_approved app))) as Hx.
  { apply io_bind_inv in H as [(rep & w1 & H1 & H2)|(e & H1 & ->)]; [injection H2 as <- <-|]; by eapply Hx. }
  clear H x w'. intros w0 x w' H ->. unfold Execute.execute_proposals in H.
  unfold io_bind, io_lift, get_fs, io_gets in H. rewrite Hnew in H. simpl in H.
  destruct (Precheck.precheck_proposals _ _ _) as [pre|e] eqn:Hpre'; simpl in H;
    [|injection H as <- <-; by apply kept_refl].
  eapply keep_all; [|exact Hw|exact H]. eapply execute_prechecked_keep; try done.
  intros s c i Hc Ha. apply Hreadme; [done|].
  unfold Precheck.precheck_proposals in Hpre'.
  destruct (PathGuard.new (w_fs w) (root g)) as [g'|]; [|done]. simpl in Hpre'.
  unfold Precheck.precheck_proposals_with_guard in Hpre'. destruct (negb _); [done|].
  injection Hpre' as <-. simpl in Hc. apply list_elem_of_fmap in Hc as (p & -> & Hp).
  pose proof (precheck_fields (w_fs w) g' p) as (Hf & _). rewrite <- Ha, Hf. by apply list_elem_of_fmap_2.
Qed.

(** An undo on a machine whose journal holds no README write. *)
Lemma undo_kept_data root_arg only g w x w' :
  wf_tree (w_fs w) -> PathGuard.new (w_fs w) root_arg = Ok g ->
  Forall (fun e => je_action e <> JReadmeWrite) (readable (journal_at (Db.db_path_for_root (root g)) w)) ->
  Undo.undo_with_filter root_arg only w = (x, w') ->
  kept (fun _ => True) (fun _ => True) (files_kept not_empty) w w'.
Proof.
  intros Hwf Hnew Hno H. destruct (new_guard_at _ Hwf _ _ Hnew) as (r & Hg & _).
  destruct (guard_at_named _ _ _ Hwf Hg) as [Hr Hsegs].
  pose proof (data_step (DB:=DB) r) as Hstep.
  assert (rooted (fun _ => True) w) as Hw by done.
  unfold Undo.undo_with_filter in H. unfold get_fs, io_gets, io_lift in H.
  unfold io_bind at 1 in H. cbv beta iota in H. unfold io_bind at 1 in H. rewrite Hnew in H. simpl in H.
  eapply keep_then; [apply _| |exact Hw|exact H|]; [io_rel_go|]. clear H. intros s w1 H1 Hw1 H.
  apply io_map_err_inv in H1 as (r1 & H1 & Hr1). destruct r1 as [s'|]; [|done]. injection Hr1 as <-.
  pose proof (open_journal_same _ _ _ _ H1) as Hj. destruct (open_store _ _ _ _ H1) as [Hpool _].
  eapply keep_then; [apply _| |exact Hw1|exact H|]; [io_rel_go|]. clear H. intros es w2 H2 Hw2 H.
  apply io_map_err_inv in H2 as (r2 & H2 & Hr2). destruct r2 as [es'|]; [|done]. injection Hr2 as <-.
  apply read_all_run in H2 as (_ & _ & _ & Hes). destruct (Hes _ eq_refl) as [-> _].
  rewrite Hpool, (Hj _) in H.
  eapply keep_all; [|exact Hw2|exact H].
  apply io_rel_bind; [apply _| |intros t; destruct only; [case_bool_decide|]; io_rel_go].
  apply io_rel_for_in; [apply _|]. intros i t e He. rewrite elem_of_reverse in He.
  rewrite list.Forall_forall in Hno. eapply undo_step_data; eauto.
Qed.
End engine.

(** * Properties *)


(** C3: changes are journaled ahead.  Every command, a recovery included, on success and on
    every error, goes from step to step, each one event of its log or none, where a rename
    or a removal of an entry needs the latest row of the journals to plan this very change:
    the row stands in the journal of the root whose paths it names, its status says that a
    change or its undo begins, its action is that of the change, and in the tree just before
    the change its source leads to the entry that is renamed or removed, and its destination
    to the new name. *)
Theorem changes_journaled_ahead {DB : Type} `{!SqlDb DB, !JournalDb DB}
    (parse : string -> result RuleSet string) (to_string_pretty : TrashMetadata -> result string string)
    (to_string : RawJournalRow -> result string string) (c : any_command) (w : world DB) :
  wf_tree (w_fs w) -> exists row, rtc journaled (None, w) (row, run_any parse to_string_pretty to_string c w).
Proof. intros Hwf. by apply (run_any_ahead parse to_string_pretty to_string c w Hwf). Qed.

(** C6: an execution renames only entries below the managed root, to names below
    it, never the root itself, and removes nothing; the root is still a directory
    afterwards, also when the execution stops at an error. *)
Theorem execute_inside_root {DB : Type} `{!SqlDb DB, !JournalDb DB}
    (to_string_pretty : TrashMetadata -> result string string) (root_arg : string)
    (app : DecisionApplication) (g : PathGuard) (w : world DB) x w' :
  wf_tree (w_fs w) -> PathGuard.new (w_fs w) root_arg = Ok g ->
  Execute.execute_decision_application to_string_pretty root_arg app w = (x, w') ->
  exists r l, root g = abs_path r /\ dir_at (w_fs w) r /\ dir_at (w_fs w') r /\
    w_log w' = w_log w ++ l /\ Forall (inside r) l.
Proof.
  intros Hwf Hnew H. destruct (new_guard_at _ Hwf _ _ Hnew) as (r & [Hr Hd] & _).
  destruct (execute_decisions_kept to_string_pretty (fun f => dir_at f r) (inside r) any_tree r
              root_arg app g w x w') as ([_ Hd'] & (l & Hl & HF) & _); try apply _; try done.
  { intros g' s c i _ _. apply execute_readme_contained. }
  by exists r, l.
Qed.

(** C1: an execution loses no file.  When no README write was approved, every
    file there was before the execution is still there after it, with its
    contents, its times and its identity, under its old name or a new one,
    whatever fails. *)
Theorem execute_loses_no_file {DB : Type} `{!SqlDb DB, !JournalDb DB}
    (to_string_pretty : TrashMetadata -> result string string) (root_arg : string)
    (app : DecisionApplication) (w : world DB) x w' (p : path) (i : inode) :
  wf_tree (w_fs w) -> ReadmeWrite ∉ map p_action (pr_proposals (da_approved app)) ->
  Execute.execute_decision_application to_string_pretty root_arg app w = (x, w') ->
  w_fs w !! p = Some i -> is_file_inode i = true -> exists p', w_fs w' !! p' = Some i.
Proof.
  intros Hwf Hno H Hp Hf. destruct (PathGuard.new (w_fs w) root_arg) as [g|e] eqn:Hnew.
  - destruct (new_guard_at _ Hwf _ _ Hnew) as (r & [Hr Hd] & _).
    destruct (execute_decisions_kept to_string_pretty (fun f => dir_at f r) (fun _ => True)
                (files_kept every_file) r root_arg app g w x w') as (_ & _ & Hk); try apply _; try done.
    by eapply Hk.
  - unfold Execute.execute_decision_application, Execute.execute_proposals, io_bind, io_lift, get_fs, io_gets in H.
    rewrite Hnew in H. injection H as <- <-. by exists p.
Qed.

(** C5: an undo never loses data.  When the journal holds no README write, every
    file with contents that there was before an undo (of everything or of one
    operation) is still there after it, the same inode, whatever fails. *)
Theorem undo_loses_no_data {DB : Type} `{!SqlDb DB, !JournalDb DB}
    (root_arg : string) (only : option string) (g : PathGuard) (w : world DB) x w' (p : path) (i : inode) :
  wf_tree (w_fs w) -> PathGuard.new (w_fs w) root_arg = Ok g ->
  Forall (fun e => je_action e <> JReadmeWrite) (readable (journal_at (Db.db_path_for_root (root g)) w)) ->
  Undo.undo_with_filter root_arg only w = (x, w') ->
  w_fs w !! p = Some i -> is_file_inode i = true -> inode_len i <> 0%Z -> exists p', w_fs w' !! p' = Some i.
Proof.
  intros Hwf Hnew Hno H Hp Hf Hlen. destruct (undo_kept_data _ _ _ _ _ _ Hwf Hnew Hno H) as (_ & _ & Hk).
  eapply Hk; [done..|]. unfold not_empty. by destruct (Z.eqb_spec (inode_len i) 0).
Qed.

(** * Witnesses *)

(** A plan on the sample machine: a move, a trash, a new directory, a new file. *)
Definition sample_proposal (a : ProposalAction) (from to : string) (size : Z) : Proposal :=
  mkProposal "id" a from to None size (Some 1600000000000%Z) None "sample" Ready.
Definition sample_plan : list Proposal :=
  [sample_proposal CreateDir "" "new" 0; sample_proposal Move "a.txt" "new/a.txt" 5;
   sample_proposal Trash "docs/b.txt" "" 6; sample_proposal CreateFile "" "docs/empty.txt" 0].
Definition sample_application : DecisionApplication :=
  mkDecisionApplication (mkProposalReport sample_root sample_plan) [].
Definition sample_pretty (m : TrashMetadata) : result string string := Ok (tm_original_path m).
Definition sample_parse (s : string) : result RuleSet string := Err "no rules".

Definition executed_run :=
  Execute.execute_decision_application sample_pretty sample_root sample_application sample_machine.
Definition undone_run := Undo.undo_root sample_root executed_run.2.

Lemma sample_guard : PathGuard.new (w_fs sample_machine) sample_root = Ok (mkPathGuard sample_root).
Proof. vm_compute. reflexivity. Defined.

Definition sample_line (row : RawJournalRow) : result string string := Ok (raw_operation_id row).

Lemma changes_journaled_ahead_witness :
  w_fs executed_run.2 !! ["home"; "root"; "new"; "a.txt"] = Some (file_of "hello" 6) /\
  exists row, rtc journaled (None, sample_machine)
    (row, run_any sample_parse sample_pretty sample_line (Command (CmdExecuteDecisions sample_root sample_application)) sample_machine).
Proof.
  split; [vm_compute; reflexivity|].
  exact (changes_journaled_ahead sample_parse sample_pretty sample_line
           (Command (CmdExecuteDecisions sample_root sample_application)) sample_machine sample_wf).
Defined.

Lemma execute_inside_root_witness :
  match executed_run.1 with Ok rep => xr_executed_count rep = 4%Z | Err _ => False end /\
  exists r l, sample_root = abs_path r /\ dir_at sample_tree r /\ dir_at (w_fs executed_run.2) r /\
    w_log executed_run.2 = [] ++ l /\ Forall (inside r) l.
Proof.
  split; [vm_compute; reflexivity|]. destruct executed_run as [x w'] eqn:H. simpl.
  exact (execute_inside_root sample_pretty sample_root sample_application _ sample_machine x w'
           sample_wf sample_guard H).
Defined.

Lemma execute_loses_no_file_witness :
  exists p', w_fs executed_run.2 !! p' = Some (file_of "world!" 8).
Proof.
  destruct executed_run as [x w'] eqn:H. simpl.
  refine (execute_loses_no_file sample_pretty sample_root sample_application sample_machine x w'
           ["home"; "root"; "docs"; "b.txt"] _ sample_wf _ H _ _); try reflexivity.
  apply (bool_decide_unpack _). vm_compute. exact Logic.I.
Defined.

Lemma undo_loses_no_data_witness :
  match undone_run.1 with Ok rep => ur_undone_count rep = 4%Z | Err _ => False end /\
  exists p', w_fs undone_run.2 !! p' = Some (file_of "hello" 6).
Proof.
  split; [vm_compute; reflexivity|].
  assert (wf_treeb (w_fs executed_run.2) = true) as Hwf by (vm_compute; reflexivity).
  apply wf_treeb_ok in Hwf.
  assert (w_fs executed_run.2 !! ["home"; "root"; "new"; "a.txt"] = Some (file_of "hello" 6)) as Hp
    by (vm_compute; reflexivity).
  destruct undone_run as [x w'] eqn:H. unfold undone_run, Undo.undo_root in H.
  change ((x, w').2) with w'.
  refine (undo_loses_no_data sample_root None (mkPathGuard sample_root) executed_run.2 x w'
           ["home"; "root"; "new"; "a.txt"] (file_of "hello" 6) Hwf _ _ H Hp _ _).
  - vm_compute. reflexivity.
  - assert (forallb (fun e => negb (bool_decide (je_action e = JReadmeWrite)))
              (readable (journal_at (Db.db_path_for_root sample_root) executed_run.2)) = true) as Ha
      by (vm_compute; reflexivity).
    apply list.Forall_forall. intros e He. rewrite forallb_forall in Ha.
    apply list_elem_of_In, Ha in He. apply negb_true_iff, bool_decide_eq_false in He. exact He.
  - reflexivity.
  - vm_compute. discriminate.
Defined.

Lemma resolve_existing_contained_witness :
  path_starts_with "/home/root/docs/b.txt" sample_root = true /\
  canonicalize sample_tree "/home/root/docs/b.txt" = Ok "/home/root/docs/b.txt" /\
  Forall safe_component (components "docs/b.txt").
Proof.
  apply (resolve_existing_contained sample_tree sample_root (mkPathGuard sample_root) "docs/b.txt"
           "/home/root/docs/b.txt" sample_wf sample_guard).
  vm_compute. reflexivity.
Defined.
