(* ===== verification/execution_processor.v ===== *)
(** [apps/desktop/src-tauri/src/execution_processor.rs]: turning a decision the server
    recorded into a local execution, and queueing its result.

    [serde_json] is the classes of [json]; the text of a trash's metadata is a parameter
    of the engine. *)
From Stdlib Require Import ZArith Lia Ascii.
From stdpp Require Import strings pretty gmap functions option list.
From S2P Require Import prelude rust_str rule_definition std_path std_fs fs_facts path_guard db journal_store.
From S2P Require Import proposal_types decision trash execute index_sql tables desk managed_roots outbox.
From S2P Require Import agent agent_work office outbox_processor.

Open Scope string_scope.
Open Scope list_scope.

Inductive DecisionProcessingStatus := DecisionCompleted | DecisionFailed.
Record DecisionProcessingResult := mkDecisionProcessingResult {
  dr_decision_id : string;
  dr_proposal_id : string;
  dr_status : DecisionProcessingStatus;
  dr_message : option string;
  dr_executed_item_count : Z;
  dr_skipped_item_count : Z;
}.
Record DecisionProcessingReport := mkDecisionProcessingReport {
  dp_inspected_count : Z;
  dp_processed_count : Z;
  dp_executed_item_count : Z;
  dp_skipped_item_count : Z;
  dp_failed_count : Z;
  dp_results : list DecisionProcessingResult;
}.

(** [Display for i64] *)
Definition fmt_i64 (z : Z) : string := if (z <? 0)%Z then "-" +:+ fmt_int (- z) else fmt_int z.

Module ExecutionProcessor.
Section item.
Context {V : Type} `{!Json V}.

Definition readme_write_content (value : V) : result string string :=
  let content := match json_get "content" value with Some v => Some v | None => json_get "readmeContent" value end in
  match content ≫= json_as_str with
  | None => Err "README_WRITE precondition is missing approved content"
  | Some content =>
      if (200000 <? slen content)%Z then Err "README_WRITE content exceeds 200000 bytes" else Ok content
  end.

Definition precondition_snapshot (value : V) : Z * option Z * option string :=
  let size := default 0%Z (json_get "sourceSizeBytes" value ≫= json_as_u64) in
  let modified := json_get "sourceModifiedUnixMs" value ≫= json_as_u64 in
  let file_id := match json_get "sourceFileId" value ≫= json_as_str with
                 | Some id => if is_empty id then None else Some id
                 | None => None
                 end in
  (size, modified, file_id).

Definition action_of (action_type : string) : result ProposalAction string :=
  if (action_type =? "MOVE")%string then Ok Move
  else if (action_type =? "QUARANTINE")%string then Ok Trash
  else if (action_type =? "CREATE_DIR")%string then Ok CreateDir
  else if (action_type =? "CREATE_FILE")%string then Ok CreateFile
  else if (action_type =? "README_WRITE")%string then Ok ReadmeWrite
  else Err ("delegated action type " +:+ action_type +:+ " is not supported yet").
Definition source_of (item : AgentProposalItemRecord V) (action : ProposalAction) : result string string :=
  match action with
  | Move | Trash =>
      match ir_source_relative_path item with
      | Some from => Ok from
      | None => Err ("proposal item " +:+ fmt_i64 (ir_item_order item) +:+ " is missing a source path")
      end
  | CreateDir | CreateFile => Ok ""
  | ReadmeWrite => Ok "README.md"
  end.
Definition destination_of (item : AgentProposalItemRecord V) (action : ProposalAction) : result string string :=
  match action with
  | Move | CreateDir | CreateFile =>
      match ir_destination_relative_path item with
      | Some to => Ok to
      | None => Err ("proposal item " +:+ fmt_i64 (ir_item_order item) +:+ " is missing a destination path")
      end
  | Trash => Ok TRASH_DIR
  | ReadmeWrite => Ok "README.md"
  end.
Definition status_of (conflict_state : string) : result ProposalStatus string :=
  if (conflict_state =? "NONE")%string then Ok Ready
  else if (conflict_state =? "NAME_CONFLICT")%string then Ok DestinationExists
  else Err ("delegated conflict state " +:+ conflict_state +:+ " is not supported yet").

Definition local_proposal_from_item (item : AgentProposalItemRecord V) : result Proposal string :=
  let? action := action_of (ir_action_type item) in
  let? from := source_of item action in
  let? to := destination_of item action in
  let? status := status_of (ir_conflict_state item) in
  let '(source_size_bytes, source_modified_unix_ms, source_file_id) := precondition_snapshot (ir_precondition item) in
  let? content := if bool_decide (action = ReadmeWrite)
                  then result_map Some (readme_write_content (ir_precondition item)) else Ok None in
  Ok (mkProposal (ProposalId.proposal_id action from to) action from to content source_size_bytes
        source_modified_unix_ms source_file_id (ir_reason_code item) status).

Definition order_cmp (x y : AgentProposalItemRecord V) : comparison := Z.compare (ir_item_order x) (ir_item_order y).
Definition build_local_proposal_report (f : tree) (root : string) (items : list (AgentProposalItemRecord V))
  : result ProposalReport string :=
  match items with
  | [] => Err "approved proposal has no items"
  | _ =>
      let? guard := map_err PathGuard.fmt (PathGuard.new f root) in
      let? proposals := try_map local_proposal_from_item (sort_by order_cmp items) in
      Ok (mkProposalReport (path_guard.root guard) proposals)
  end.

(** The status and the summary of the contract; [to_value] is the report as JSON. *)
Definition execution_status (report : ExecuteReport) : string :=
  let total := (xr_executed_count report + xr_skipped_count report + xr_rejected_count report)%Z in
  if ((0 <? total) && (xr_executed_count report =? total))%Z then "SUCCEEDED"
  else if (0 <? xr_executed_count report)%Z then "PARTIALLY_SUCCEEDED" else "STALE".
Definition summarize_execution `{!ToValue V ExecuteReport} (report : ExecuteReport) : string * V :=
  (execution_status report,
   match to_value report with
   | Ok summary => summary
   | Err _ => json_object [("executedCount", json_int (xr_executed_count report))]
   end).
End item.

Section processor.
Context {N V DB : Type} `{!SqlDb DB, !SqlTx DB, !SqlCount DB, !Http N V, !CredentialStore N, !JsonValue V, !Json V}.
Context `{!PayloadCodecs V, !ResponseCodecs V, !WorkCodecs V, !ToValue V ExecuteReport}.
Context (to_string_pretty : TrashMetadata -> result string string) (outbox : OutboxStore).
Abbreviation IO := (io (office N DB) string).

Definition execute_approved_decision (decision : AgentPendingDecision V) : IO ExecuteReport :=
  let! room := on_agent (AgentWork.root_id_for_room (V:=V) (pd_room_id decision)) in
  let! managed_root := on_roots (ManagedRoots.ensure_active_room_binding (ry_root_id room) (pd_room_id decision)) in
  if negb (mr_enabled managed_root) then io_fail ("managed root is disabled: " +:+ mr_root_id managed_root)
  else
    let! f := on_machine get_fs in
    let! local_report := io_lift (build_local_proposal_report f (mr_root managed_root) (pd_items decision)) in
    on_machine (io_map_err Execute.fmt
      (Execute.execute_decision_application to_string_pretty (mr_root managed_root) (mkDecisionApplication local_report []))).

(** What is reported of an execution's outcome. *)
Definition outcome_report (r : result ExecuteReport string) : string * V :=
  match r with
  | Ok execute_report => summarize_execution execute_report
  | Err error => ("FAILED", json_object [("reason", json_text error)])
  end.
Definition process_decision (decision : AgentPendingDecision V) : IO ExecuteReport :=
  let! execution := on_agent (AgentWork.create_execution (V:=V) (pd_proposal_id decision) (pd_decision_id decision)) in
  let! r := io_try (execute_approved_decision decision) in
  let '(status, summary) := outcome_report r in
  do! on_machine (OutboxProcessor.enqueue_execution_result outbox (ex_execution_id execution) status summary);
  io_lift r.

Definition count_decision (report : DecisionProcessingReport) (decision : AgentPendingDecision V) (r : result ExecuteReport string)
  : DecisionProcessingReport :=
  let id := pd_decision_id decision in
  let proposal := pd_proposal_id decision in
  match r with
  | Ok done =>
      mkDecisionProcessingReport (dp_inspected_count report) (dp_processed_count report + 1)
        (dp_executed_item_count report + xr_executed_count done) (dp_skipped_item_count report + xr_skipped_count done)
        (dp_failed_count report)
        (dp_results report ++ [mkDecisionProcessingResult id proposal DecisionCompleted None (xr_executed_count done) (xr_skipped_count done)])
  | Err error =>
      mkDecisionProcessingReport (dp_inspected_count report) (dp_processed_count report) (dp_executed_item_count report)
        (dp_skipped_item_count report) (dp_failed_count report + 1)
        (dp_results report ++ [mkDecisionProcessingResult id proposal DecisionFailed (Some error) 0 0])
  end.
Definition process_pending_decisions : IO DecisionProcessingReport :=
  let! decisions := on_agent (AgentWork.pending_decisions (V:=V)) in
  io_for (fun _ report decision => let! r := io_try (process_decision decision) in io_ret (count_decision report decision r)) 0
    (mkDecisionProcessingReport (Z.of_nat (length decisions)) 0 0 0 0 []) decisions.
End processor.
End ExecutionProcessor.
