(* ===== verification/delegation.v ===== *)
(** The round trip of a delegated proposal: what the desktop submits for approval
    ([command_processor.rs]) is what it executes once the server returns it approved
    ([execution_processor.rs]). *)
From Stdlib Require Import ZArith Lia Ascii.
From stdpp Require Import strings pretty gmap functions option list sorting.
From S2P Require Import prelude rust_str rule_definition std_path std_fs fs_facts path_guard db journal_store.
From S2P Require Import proposal_types rule_engine analyzer proposal.
From S2P Require Import index_sql tables desk managed_roots agent agent_work office outbox_processor.
From S2P Require Import command_processor execution_processor.

Open Scope string_scope.
Open Scope list_scope.

(** * What the server returns of an item *)

(** [serde(rename_all = SCREAMING_SNAKE_CASE)] *)
Definition wire_action (a : AgentProposalActionType) : string :=
  match a with
  | AMove => "MOVE" | AQuarantine => "QUARANTINE" | ACreateDir => "CREATE_DIR" | ACreateFile => "CREATE_FILE"
  | AReadmeWrite => "README_WRITE"
  end.
Definition wire_conflict (c : AgentProposalConflictState) : string :=
  match c with NoConflict => "NONE" | NameConflict => "NAME_CONFLICT" end.
(** The record of a stored item: every field as it was sent. *)
Definition record_of {V} (item : AgentProposalItem V) : AgentProposalItemRecord V :=
  mkAgentProposalItemRecord (it_item_order item) (wire_action (it_action_type item)) (it_source_relative_path item)
    (it_destination_relative_path item) (it_reason_code item) (it_precondition item) (wire_conflict (it_conflict_state item)).

(** * Proposals that survive the trip *)

Definition u64 (z : Z) : Prop := (0 <= z < 2 ^ 64)%Z.
Record delegable (p : Proposal) : Prop := {
  dg_id : proposal_id_of p = ProposalId.proposal_id (p_action p) (p_from p) (p_to p);
  dg_action : p_action p <> ReadmeWrite;
  dg_content : p_content p = None;
  dg_trash : p_action p = Trash -> p_to p = TRASH_DIR;
  dg_create : p_action p = CreateDir \/ p_action p = CreateFile -> p_from p = "";
  dg_size : u64 (p_source_size_bytes p);
  dg_modified ms : p_source_modified_unix_ms p = Some ms -> u64 ms;
  dg_file_id : p_source_file_id p <> Some "";
}.

(** The proposal with the code of its reason. *)
Definition recoded (p : Proposal) : Proposal :=
  mkProposal (proposal_id_of p) (p_action p) (p_from p) (p_to p) (p_content p) (p_source_size_bytes p)
    (p_source_modified_unix_ms p) (p_source_file_id p) (Submission.reason_code p) (p_status p).

Section json.
Context {V : Type} `{!Json V, !JsonLaws V}.

Lemma precondition_field now p key :
  json_get key (Submission.precondition_of (V:=V) now p) =
  match p_source_file_id p with
  | Some id => if ("sourceFileId" =? key)%string then Some (json_text id) else
      field key [("proposalId", json_text (proposal_id_of p)); ("sourceSizeBytes", json_int (p_source_size_bytes p));
                 ("sourceModifiedUnixMs", json_opt_int (p_source_modified_unix_ms p)); ("checkedAtUnixMs", json_int now)]
  | None => field key [("proposalId", json_text (proposal_id_of p)); ("sourceSizeBytes", json_int (p_source_size_bytes p));
                 ("sourceModifiedUnixMs", json_opt_int (p_source_modified_unix_ms p)); ("checkedAtUnixMs", json_int now)]
  end.
Proof.
  assert (NoDup ["proposalId"; "sourceSizeBytes"; "sourceModifiedUnixMs"; "checkedAtUnixMs"]) as Hd
    by (apply (bool_decide_unpack _); vm_compute; exact Logic.I).
  unfold Submission.precondition_of. destruct (p_source_file_id p); [rewrite json_get_set|]; by rewrite json_get_object.
Qed.

Lemma precondition_returns now p :
  delegable p ->
  ExecutionProcessor.precondition_snapshot (V:=V) (Submission.precondition_of now p)
  = (p_source_size_bytes p, p_source_modified_unix_ms p, p_source_file_id p).
Proof.
  intros Hp. unfold ExecutionProcessor.precondition_snapshot. rewrite !precondition_field.
  pose proof (dg_size _ Hp) as Hs. pose proof (dg_modified _ Hp) as Hm. pose proof (dg_file_id _ Hp) as Hi.
  assert (json_as_u64 (json_opt_int (V:=V) (p_source_modified_unix_ms p)) = p_source_modified_unix_ms p) as Hmod.
  { destruct (p_source_modified_unix_ms p) as [ms|]; simpl; [apply json_as_u64_int; by apply Hm|apply json_as_u64_null]. }
  destruct (p_source_file_id p) as [id|]; simpl.
  - rewrite json_as_u64_int, Hmod, json_as_str_text by done. simpl. by destruct id.
  - by rewrite json_as_u64_int, Hmod by done.
Qed.

(** An item comes back as the proposal it was made of. *)
Lemma item_returns now i p :
  delegable p ->
  ExecutionProcessor.local_proposal_from_item (V:=V) (record_of (Submission.proposal_item now i p)) = Ok (recoded p).
Proof.
  intros Hp. pose proof (precondition_returns now p Hp) as Hpre. destruct Hp as [Hid Ha Hc Ht Hcr _ _ _].
  unfold ExecutionProcessor.local_proposal_from_item, recoded.
  cbn [record_of Submission.proposal_item ir_action_type ir_precondition ir_conflict_state ir_reason_code
    it_action_type it_precondition it_conflict_state it_reason_code].
  rewrite Hpre, Hid, Hc.
  unfold ExecutionProcessor.source_of, ExecutionProcessor.destination_of, Submission.proposal_item.
  destruct (p_action p) eqn:Hact; [| | | |done]; try rewrite (Ht eq_refl); try rewrite Hcr by auto;
    destruct (p_status p); reflexivity.
Qed.
End json.

(** * Whole reports *)

Section report.
Context {V : Type} `{!Json V, !JsonLaws V} {DB : Type}.
Implicit Types (w : world DB) (ps : list Proposal).

(** The items of a submission, in order, each checked at some time. *)
Definition items_at (clock : nat -> Z) ps : list (AgentProposalItem V) :=
  imap (fun i p => Submission.proposal_item (clock i) i p) ps.

Lemma items_loop ps i acc w r w' :
  io_for (fun index items p => let! now := Submission.unix_ms in io_ret (items ++ [Submission.proposal_item (V:=V) now index p]))
    i acc ps w = (r, w') ->
  exists clock, r = Ok (acc ++ imap (fun j p => Submission.proposal_item (clock j) (i + j) p) ps).
Proof.
  revert i acc w. induction ps as [|p ps IH]; intros i acc w; simpl.
  { intros [= <- <-]. exists (fun _ => 0%Z). by rewrite app_nil_r. }
  intros [(items & w1 & H1 & H2)|(e & H1 & ->)]%io_bind_inv.
  - apply io_bind_inv in H1 as [(now & w2 & _ & [= <- <-])|(e & _ & H)]; [|done].
    apply IH in H2 as [clock ->]. exists (fun j => match j with O => now | S j => clock j end).
    f_equal. rewrite <- app_assoc. simpl. rewrite Nat.add_0_r. do 2 f_equal.
    apply imap_ext. intros j q _. simpl. by rewrite Nat.add_succ_r.
  - exfalso. unfold Submission.unix_ms in H1. apply io_bind_inv in H1 as [(now & w2 & _ & H)|(e' & H & _)]; [done|].
    apply io_bind_inv in H as [(ms & w3 & _ & H)|(e2 & H & _)]; done.
Qed.
Lemma submission_items command rep max w sub w' :
  Submission.build_agent_proposal_submission (V:=V) command rep max w = (Ok sub, w') ->
  (1 <= max <= 200)%Z /\ exists clock, pb_items sub = items_at clock (take (Z.to_nat max) (pr_proposals rep)).
Proof.
  unfold Submission.build_agent_proposal_submission. destruct (negb _) eqn:Hmax; [done|].
  apply negb_false_iff, andb_true_iff in Hmax as [H1%Z.leb_le H2%Z.leb_le].
  intros (items & w1 & H & [= <- <-])%io_bind_ok. split; [done|].
  apply items_loop in H as [clock [= ->]]. exists clock. done.
Qed.

Lemma items_orders clock ps : map (fun x => ir_item_order (record_of x)) (items_at clock ps) = map Z.of_nat (seq 0 (length ps)).
Proof.
  unfold items_at. change (map (fun x => ir_item_order (record_of x))) with (fmap (M:=list) (fun x : AgentProposalItem V => ir_item_order (record_of x))).
  rewrite fmap_imap. apply list_eq. intros i. rewrite list_lookup_imap, list_lookup_fmap.
  destruct (ps !! i) as [p|] eqn:Hp; simpl.
  - by rewrite lookup_seq_lt by (by eapply lookup_lt_Some).
  - by rewrite lookup_seq_ge by (by apply lookup_ge_None).
Qed.
Lemma orders_sorted (l : list (AgentProposalItemRecord V)) :
  Sorted Z.le (map ir_item_order l) -> Sorted (cmp_le ExecutionProcessor.order_cmp) l.
Proof.
  induction l as [|x l IH]; [constructor|]. simpl. intros [Hl Hx]%Sorted_inv. constructor; [by apply IH|].
  destruct l as [|y l]; constructor. apply HdRel_inv in Hx. exact Hx.
Qed.
Lemma seq_sorted i n : Sorted Z.le (map Z.of_nat (seq i n)).
Proof.
  revert i. induction n as [|n IH]; intros i; simpl; [constructor|]. constructor; [apply IH|].
  destruct n; constructor. lia.
Qed.
(** Whatever the order the server returns the records in. *)
Lemma records_sorted clock ps records :
  Permutation records (map record_of (items_at clock ps)) ->
  sort_by ExecutionProcessor.order_cmp records = map record_of (items_at clock ps).
Proof.
  intros Hp. pose proof (items_orders clock ps) as Ho.
  assert (TotalCmp (ExecutionProcessor.order_cmp (V:=V))) as Htot by (apply cmp_on_total, _).
  rewrite <- (sort_by_unique _ _ _ (fun x y Hx Hy Hxy => ltac:(
    apply (NoDup_map_inj ir_item_order (map record_of (items_at clock ps))); [|exact Hx|exact Hy|by apply Z.compare_eq];
    rewrite map_map, Ho; apply NoDup_fmap; [apply _|apply NoDup_seq])) (Permutation_sym Hp)).
  apply sort_by_id, orders_sorted. rewrite map_map, Ho. apply seq_sorted.
Qed.

Lemma items_return_from (clock : nat -> Z) i ps :
  Forall delegable ps ->
  try_map ExecutionProcessor.local_proposal_from_item
    (map record_of (imap (fun j p => Submission.proposal_item (V:=V) (clock j) (i + j) p) ps)) = Ok (map recoded ps).
Proof.
  revert clock i. induction ps as [|p ps IH]; intros clock i Hps; [done|].
  apply Forall_cons in Hps as [Hp Hps]. cbn [imap map try_map]. rewrite item_returns by done. simpl.
  specialize (IH (fun j => clock (S j)) (S i) Hps).
  assert (imap (fun j p => Submission.proposal_item (V:=V) (clock (S j)) (i + S j) p) ps
          = imap (fun j p => Submission.proposal_item (clock (S j)) (S i + j) p) ps) as Heq.
  { apply imap_ext. intros j q _. by rewrite Nat.add_succ_r. }
  unfold compose. rewrite Heq. by rewrite IH.
Qed.

Lemma report_returns clock ps records f root g :
  Forall delegable ps -> ps <> [] -> Permutation records (map record_of (items_at clock ps)) -> PathGuard.new f root = Ok g ->
  ExecutionProcessor.build_local_proposal_report f root records = Ok (mkProposalReport (path_guard.root g) (map recoded ps)).
Proof.
  intros Hps Hne Hperm Hg. unfold ExecutionProcessor.build_local_proposal_report. rewrite (records_sorted _ _ _ Hperm), Hg.
  destruct records as [|x records].
  { apply Permutation_nil_l in Hperm. unfold items_at in Hperm. by destruct ps. }
  simpl. pose proof (items_return_from clock 0 ps Hps) as H. simpl in H. unfold items_at. by rewrite H.
Qed.
End report.

(** * Every proposal the desktop makes survives the trip *)

(** Sizes and times of the files fit the 64 bits of a JSON number. *)
Definition fits (f : tree) : Prop :=
  forall q i, f !! q = Some i -> u64 (inode_len i) /\ forall ms, modified_unix_ms i = Some ms -> u64 ms.

Section made.
Context (f : tree) (Hfits : fits f).

Lemma symlink_fits p i : symlink_metadata f p = Ok i -> u64 (inode_len i) /\ forall ms, modified_unix_ms i = Some ms -> u64 ms.
Proof.
  unfold symlink_metadata. destruct (lresolve f p) as [q|]; [|done]. simpl. unfold tree_get.
  destruct (f !! q) as [j|] eqn:Hq; [|done]. intros [= ->]. by eapply Hfits.
Qed.
Lemma file_id_not_empty p : file_id_for_path f p <> Some "".
Proof. unfold file_id_for_path. by destruct (metadata f p). Qed.

(** ** The commands of a user *)

Lemma inspect_fits g p intent i : Requested.inspect_regular_source_file f g p intent = Ok i -> symlink_metadata f (path_join (root g) p) = Ok i.
Proof.
  unfold Requested.inspect_regular_source_file. destruct (PathGuard.resolve_existing f g p); [|done]. simpl.
  destruct (symlink_metadata _ _); [|done]. simpl. repeat case_match; by intros [= ->].
Qed.
Lemma source_id_not_empty g p : Requested.source_file_id_for_path f g p <> Some "".
Proof.
  unfold Requested.source_file_id_for_path. destruct (PathGuard.resolve_existing f g p); [|done]. apply file_id_not_empty.
Qed.
Lemma file_proposal_delegable g p intent i action to reason status :
  Requested.inspect_regular_source_file f g p intent = Ok i -> action = Move \/ action = Trash -> (action = Trash -> to = TRASH_DIR) ->
  delegable (mkProposal (ProposalId.proposal_id action p to) action p to None (inode_len i) (modified_unix_ms i)
    (Requested.source_file_id_for_path f g p) reason status).
Proof.
  intros Hi Ha Ht. destruct (symlink_fits _ _ (inspect_fits _ _ _ _ Hi)) as [Hs Hm].
  constructor; try done; simpl; [by destruct Ha as [->| ->]| |apply source_id_not_empty].
  intros [Hc|Hc]; subst; by destruct Ha.
Qed.
Lemma single_move_delegable g p to reason q :
  Requested.build_single_move_proposal f g p to reason = Ok q -> delegable q.
Proof.
  unfold Requested.build_single_move_proposal. destruct (Requested.inspect_regular_source_file _ _ _ _) as [i|] eqn:Hi; [|done].
  intros [= <-]. eapply file_proposal_delegable; [exact Hi|by left|done].
Qed.
Lemma create_delegable root_arg payload rep :
  Requested.build_create_proposal_report f root_arg payload = Ok rep -> Forall delegable (pr_proposals rep).
Proof.
  unfold Requested.build_create_proposal_report.
  match goal with |- context [match ?x with Ok _ => _ | Err _ => _ end] => destruct x as [b|]; [|done] end. simpl.
  destruct (b && _); [done|]. destruct (negb b && _); [done|].
  match goal with |- context [match ?x with Ok _ => _ | Err _ => _ end] => destruct x as [p|]; [|done] end. simpl.
  destruct (PathGuard.new f root_arg); [|done]. simpl.
  destruct (Requested.ensure_existing_directory_is_safe _ _ _); [|done]. intros [= <-]. constructor; [|constructor].
  by constructor; destruct b.
Qed.
Lemma trash_delegable root_arg payload rep :
  Requested.build_trash_proposal_report f root_arg payload = Ok rep -> Forall delegable (pr_proposals rep).
Proof.
  unfold Requested.build_trash_proposal_report. destruct (Requested.too_many _); [done|].
  destruct (PathGuard.new f root_arg) as [g|]; [|done]. simpl. destruct (try_map _ _) as [l|] eqn:Hl; [|done]. intros [= <-].
  eapply try_map_forall; [|exact Hl]. intros p q. unfold Requested.trash_proposal.
  destruct (Remote.normalize_remote_file_source p); [|done]. simpl.
  destruct (Requested.inspect_regular_source_file _ _ _ _) as [i|] eqn:Hi; [|done]. intros [= <-].
  eapply file_proposal_delegable; [exact Hi|by right|done].
Qed.
Lemma move_delegable root_arg payload rep :
  Requested.build_move_proposal_report f root_arg payload = Ok rep -> Forall delegable (pr_proposals rep).
Proof.
  unfold Requested.build_move_proposal_report. destruct (Requested.too_many _); [done|].
  destruct (Remote.normalize_remote_relative_directory _) as [d|]; [|done]. simpl.
  destruct (PathGuard.new f root_arg) as [g|]; [|done]. simpl.
  destruct (Requested.ensure_destination_directory_is_safe _ _ _); [|done]. simpl.
  destruct (try_map _ _) as [l|] eqn:Hl; [|done]. intros [= <-].
  eapply try_map_forall; [|exact Hl]. intros p q. unfold Requested.move_proposal.
  destruct (Remote.normalize_remote_file_source p); [|done]. simpl. destruct (_ =? _)%string; [done|]. apply single_move_delegable.
Qed.
Lemma rename_delegable root_arg payload rep :
  Requested.build_rename_proposal_report f root_arg payload = Ok rep -> Forall delegable (pr_proposals rep).
Proof.
  unfold Requested.build_rename_proposal_report. destruct (Remote.normalize_remote_file_source _); [|done]. simpl.
  destruct (Remote.validate_remote_file_name _); [|done]. simpl. destruct (_ =? _)%string; [done|].
  destruct (PathGuard.new f root_arg) as [g|]; [|done]. simpl.
  destruct (Requested.build_single_move_proposal _ _ _ _ _) as [p|] eqn:Hp; [|done]. intros [= <-].
  constructor; [|constructor]. by eapply single_move_delegable.
Qed.

(** ** The rules *)

Definition file_fits (file : FileEntry) : Prop :=
  u64 (fe_size_bytes file) /\ (forall ms, fe_modified_unix_ms file = Some ms -> u64 ms) /\ fe_file_id file <> Some "".
Lemma collect_entry_fits (collect : string -> Scan -> result Scan AnalyzeError) root acc path acc' :
  (forall p a a', collect p a = Ok a' -> Forall file_fits (files a) -> Forall file_fits (files a')) ->
  Analyzer.collect_entry collect f root acc path = Ok acc' -> Forall file_fits (files acc) -> Forall file_fits (files acc').
Proof.
  intros Hc. unfold Analyzer.collect_entry. destruct (Analyzer.is_mousekeeper_internal_dir path); [by intros [= <-]|].
  destruct (symlink_metadata f path) as [i|] eqn:Hi; [|by intros [= <-]].
  destruct (is_link_or_reparse_point i); [by intros [= <-]|]. destruct (is_dir_inode i).
  { intros H Ha. eapply Hc; [exact H|]. repeat case_match; done. }
  destruct (is_file_inode i); [|by intros [= <-]]. destruct (Analyzer.relative_path root path); [|by intros [= <-]].
  intros [= <-] Ha. destruct (symlink_fits _ _ Hi) as [Hs Hm]. simpl. apply Forall_app. split; [done|].
  constructor; [|constructor]. split_and!; [done..|apply file_id_not_empty].
Qed.
Lemma collect_fits n root dir acc acc' :
  Analyzer.collect_files n f root dir acc = Ok acc' -> Forall file_fits (files acc) -> Forall file_fits (files acc').
Proof.
  revert dir acc acc'. induction n as [|n IH]; intros dir acc acc'; simpl; [done|].
  destruct (read_dir f dir) as [L|]; [|destruct (Analyzer.same_path _ _); [done|by intros [= <-]]].
  revert acc. induction L as [|p L IHL]; intros acc; simpl; [by intros [= <-]|].
  destruct (Analyzer.collect_entry _ _ _ _ _) as [acc1|] eqn:H1; [|done]. simpl. intros H2 Ha.
  eapply IHL; [exact H2|]. eapply collect_entry_fits; [|exact H1|exact Ha]. intros p0 a a'. apply IH.
Qed.
Lemma analyze_fits root_arg scan : Analyzer.analyze_root f root_arg = Ok scan -> Forall file_fits (ar_files scan).
Proof.
  unfold Analyzer.analyze_root. destruct (PathGuard.new f root_arg); [|done]. simpl.
  destruct (Analyzer.collect_files _ _ _ _ _) as [s|] eqn:Hs; [|done]. intros [= <-]. simpl.
  assert (Forall file_fits (files s)) as H by (eapply collect_fits; [exact Hs|constructor]).
  by rewrite sort_by_perm.
Qed.
Lemma rule_delegable file ctx r p : file_fits file -> proposal_from_rule file ctx r = Some p -> delegable p.
Proof.
  intros (Hs & Hm & Hi). unfold proposal_from_rule. destruct (rule_matches file ctx r); [|done]. simpl.
  destruct (r_then r) as [[mt|] [] [cd|]]; simpl; try done.
  - unfold move_proposal_from_rule. destruct (path_file_name _); [|done]. destruct (_ =? _)%string; [done|]. intros [= <-].
    constructor; try done. by intros [|].
  - intros [= <-]. constructor; try done. by intros [|].
  - intros [= <-]. by constructor.
Qed.
Lemma analysis_delegable {DB} scan set (w : world DB) rep w' :
  Forall file_fits (ar_files scan) ->
  ProposalEngine.propose_for_analysis_with_rule_set scan set w = (Ok rep, w') -> Forall delegable (pr_proposals rep).
Proof.
  intros Hf. unfold ProposalEngine.propose_for_analysis_with_rule_set. intros H.
  apply io_bind_ok in H as (u & w1 & _ & H). apply io_bind_ok in H as (now & w2 & _ & [= <- <-]). simpl.
  destruct (filter_seen_spec [] (omap (fun file => propose file (mkRuleContext (ProposalEngine.existing_paths_of scan) now) set)
    (ar_files scan))) as (_ & Hall & _).
  eapply Forall_impl; [exact Hall|]. intros p [(file & Hin & Hp)%list_elem_of_omap _]. rewrite list.Forall_forall in Hf.
  apply find_map_some in Hp as (l1 & r & l2 & _ & Hr & _). eapply rule_delegable; [by apply Hf|exact Hr].
Qed.
End made.

(** * Properties *)

(** The reports the desktop makes on a machine: one of the requested changes of a user,
    or the proposals of a rule draft or of the rules of the root. *)
Inductive proposed {V DB} `{!Json V, !CommandCodecs V} (w : world DB) (root_arg : string) : ProposalReport -> Prop :=
| PropCreate payload rep : Requested.build_create_proposal_report (w_fs w) root_arg payload = Ok rep -> proposed w root_arg rep
| PropTrash payload rep : Requested.build_trash_proposal_report (w_fs w) root_arg payload = Ok rep -> proposed w root_arg rep
| PropMove payload rep : Requested.build_move_proposal_report (w_fs w) root_arg payload = Ok rep -> proposed w root_arg rep
| PropRename payload rep : Requested.build_rename_proposal_report (w_fs w) root_arg payload = Ok rep -> proposed w root_arg rep
| PropRules (payload : OrganizeFilesPayload V) rep w' :
    CommandProcessor.resolve_proposal root_arg payload w = (Ok rep, w') -> proposed w root_arg rep.

Section proposed.
Context {V DB : Type} `{!Json V, !CommandCodecs V}.
Lemma resolve_delegable root_arg (payload : OrganizeFilesPayload V) (w : world DB) rep w' :
  fits (w_fs w) -> CommandProcessor.resolve_proposal root_arg payload w = (Ok rep, w') -> Forall delegable (pr_proposals rep).
Proof.
  intros Hf. assert (forall set (w1 : world DB) w2, w_fs w1 = w_fs w ->
    ProposalEngine.propose_for_root_with_rule_set root_arg set w1 = (Ok rep, w2) -> Forall delegable (pr_proposals rep)) as Hset.
  { intros set w1 w2 Hw H. unfold ProposalEngine.propose_for_root_with_rule_set in H.
    apply io_bind_ok in H as (f & w3 & [= <- <-] & H). apply io_bind_ok in H as (scan & w3 & Hs & H).
    injection Hs as Hs <-. destruct (Analyzer.analyze_root (w_fs w1) root_arg) as [s|] eqn:Ha; [|done]. injection Hs as <-.
    eapply analysis_delegable; [|exact H]. eapply analyze_fits; [|exact Ha]. by rewrite Hw. }
  unfold CommandProcessor.resolve_proposal. destruct (og_rule_draft payload) as [draft|].
  - intros H. apply io_bind_ok in H as (set & w1 & Hl & H). injection Hl as _ <-.
    apply io_map_err_inv in H as ([rep0|] & H & Hr); [|done]. injection Hr as <-. by eapply Hset.
  - destruct (og_user_intent payload); [done|]. intros (r & H & Hr)%io_map_err_inv. destruct r as [rep0|]; [|done].
    injection Hr as <-. unfold ProposalEngine.propose_for_root in H.
    apply io_bind_ok in H as (f & w3 & [= <- <-] & H). apply io_bind_ok in H as (set & w3 & Hl & H).
    injection Hl as _ <-. by eapply Hset.
Qed.
Lemma proposed_delegable (w : world DB) root_arg rep :
  fits (w_fs w) -> proposed (V:=V) w root_arg rep -> Forall delegable (pr_proposals rep).
Proof.
  intros Hf H. destruct H; eauto using create_delegable, trash_delegable, move_delegable, rename_delegable, resolve_delegable.
Qed.
End proposed.

(** C17: what is executed is what was proposed.  Take any report the desktop makes for a
    command, of a user's request, a rule draft or the rules of the root, and submits; when
    the server returns the items approved, in any order, the execution rebuilds the same
    proposals in the same order, the first [max] of them, with their identifiers, paths
    and the size, time and identity of each source; only the reason is its code. *)
Theorem approved_as_proposed {V DB : Type} `{!Json V, !JsonLaws V, !CommandCodecs V}
    (command : AgentCommand V) (max : Z) (w0 w w' : world DB) (root_arg : string) rep sub records f g :
  fits (w_fs w0) -> proposed (V:=V) w0 root_arg rep ->
  Submission.build_agent_proposal_submission command rep max w = (Ok sub, w') ->
  Permutation records (map record_of (pb_items sub)) -> records <> [] -> PathGuard.new f root_arg = Ok g ->
  ExecutionProcessor.build_local_proposal_report f root_arg records
    = Ok (mkProposalReport (root g) (map recoded (take (Z.to_nat max) (pr_proposals rep)))).
Proof.
  intros Hf Hp Hsub Hperm Hne Hg. apply submission_items in Hsub as (Hmax & clock & Hitems). rewrite Hitems in Hperm.
  apply (report_returns clock); [|intros Hnil|exact Hperm|exact Hg].
  - apply Forall_take. by eapply proposed_delegable.
  - rewrite Hnil in Hperm. apply Permutation_sym, Permutation_nil_l in Hperm. by subst.
Qed.

(** ** Witness *)

Definition fitsb (f : tree) : bool :=
  forallb (fun e : path * inode => (inode_len e.2 <? 2 ^ 64)%Z &&
    match modified_unix_ms e.2 with Some ms => (0 <=? ms)%Z && (ms <? 2 ^ 64)%Z | None => true end) (map_to_list f).
Lemma fitsb_ok f : fitsb f = true -> fits f.
Proof.
  unfold fitsb. rewrite forallb_forall. intros H q i Hi.
  specialize (H (q, i)). rewrite <- list_elem_of_In, elem_of_map_to_list in H. specialize (H Hi). simpl in H.
  apply andb_true_iff in H as [Hl Hm]. apply Z.ltb_lt in Hl. split.
  - split; [|done]. unfold inode_len. destruct (i_kind i); unfold slen; lia.
  - intros ms Hms. rewrite Hms in Hm. apply andb_true_iff in Hm as [H1%Z.leb_le H2%Z.ltb_lt]. done.
Qed.

#[export] Instance no_command_codecs : CommandCodecs value_tree := {|
  codec_organize := fun _ => Err "not a payload";
  codec_rename := fun _ => Err "not a payload";
  codec_move := fun _ => Err "not a payload";
  codec_trash := fun _ => Err "not a payload";
  codec_create := fun _ => Err "not a payload";
  codec_rule_set := fun _ => Err "not a rule set";
  codec_contract := fun _ => Err "not a rule";
  codec_rules_text := fun _ => Err "not a rule set";
|}.
Definition trash_command : AgentCommand value_tree := mkAgentCommand "cmd-1" "TRASH" "room-1" "QUEUED" (TObject []).
Definition trash_payload : TrashCommandPayload := mkTrashCommandPayload "root:1" ["docs/b.txt"; "a.txt"].
Definition requested := Requested.build_trash_proposal_report sample_tree sample_root trash_payload.
Definition submitted (rep : ProposalReport) := Submission.build_agent_proposal_submission trash_command rep 200 sample_machine.
(** Conversion compares these runs before it computes them. *)
Strategy 1000 [requested submitted].
Lemma approved_as_proposed_witness :
  match requested with
  | Ok rep =>
      match (submitted rep).1 with
      | Ok sub =>
          map p_from (pr_proposals rep) = ["docs/b.txt"; "a.txt"] /\
          ExecutionProcessor.build_local_proposal_report sample_tree sample_root (reverse (map record_of (pb_items sub)))
          = Ok (mkProposalReport sample_root (map recoded (pr_proposals rep)))
      | Err _ => False
      end
  | Err _ => False
  end.
Proof.
  assert (is_ok requested = true) as Hok by (vm_compute; reflexivity).
  assert (match requested with Ok rep => is_ok (submitted rep).1 | Err _ => false end = true) as Hsent by (vm_compute; reflexivity).
  destruct requested as [rep|e] eqn:Hr; [|done].
  assert (map p_from (pr_proposals rep) = ["docs/b.txt"; "a.txt"]) as Hfrom.
  { vm_compute in Hr. injection Hr as <-. reflexivity. }
  destruct (submitted rep) as [[sub|e] w'] eqn:Hs; simpl.
  2: done.
  split; [exact Hfrom|].
  pose proof (submission_items _ _ _ _ _ _ Hs) as (_ & clock & Hitems).
  replace (map recoded (pr_proposals rep)) with (map recoded (take (Z.to_nat 200) (pr_proposals rep))).
  2: { rewrite firstn_all2; [done|]. rewrite <- (length_map p_from), Hfrom. simpl. lia. }
  refine (approved_as_proposed (V:=value_tree) trash_command 200 sample_machine sample_machine w' sample_root rep sub _ sample_tree
    (mkPathGuard sample_root) _ _ Hs _ _ _).
  - apply fitsb_ok. vm_compute. reflexivity.
  - by apply (PropTrash _ _ trash_payload).
  - apply reverse_Permutation.
  - rewrite Hitems. intros Hnil. apply (f_equal length) in Hnil. unfold items_at in Hnil.
    rewrite length_reverse, length_map, length_imap, length_take, <- (length_map p_from), Hfrom in Hnil. simpl in Hnil. lia.
  - vm_compute. reflexivity.
Defined.
