(* ===== verification/auto_facts.v ===== *)
(** The background scan only proposes; its submissions repeat themselves byte for byte
    when they are retried. *)
From Stdlib Require Import ZArith Lia Ascii.
From stdpp Require Import strings pretty gmap functions option list.
From S2P Require Import prelude rust_str rule_definition std_path std_fs fs_facts proposal_types decision auto_approval.
From S2P Require Import proposal db journal_store index_sql tables desk managed_roots agent agent_work office.
From S2P Require Import approval_store outbox_processor command_processor delegation network auto_cleanup.

Open Scope string_scope.
Open Scope list_scope.

(** * The scan *)

Section cleanup.
Context {DB : Type} `{!SqlDb DB} (rules_text : string -> result RuleSet string).
Implicit Types (w : world DB) (st : AutoApprovalStore * (RootStore * world DB)).

(** Only the clock is read, and its readings are numbered on. *)
Definition only_read w w' : Prop := quiet w w' /\ w_clock w' = w_clock w /\ (w_ticks w <= w_ticks w').
#[export] Instance only_read_preorder : PreOrder only_read.
Proof. split; [by intros w|]. intros w1 w2 w3 (H1 & H2 & H3) (H4 & H5 & H6). split_and!; [by etrans|congruence|lia]. Qed.
Lemma tick_reads w : only_read w (tick w).
Proof. split_and!; [done..|]. simpl. lia. Qed.
Lemma now_ms_reads {E} : io_rel (E:=E) only_read now_ms.
Proof. intros w r w' [= <- <-]. apply tick_reads. Qed.
Lemma propose_reads root : io_rel only_read (ProposalEngine.propose_for_root (DB:=DB) rules_text root).
Proof.
  unfold ProposalEngine.propose_for_root, ProposalEngine.propose_for_root_with_rule_set,
    ProposalEngine.propose_for_analysis_with_rule_set, ProposalEngine.unix_ms, get_fs.
  io_rel_go. apply now_ms_reads.
Qed.

Definition scan_only st st' : Prop := st'.1 = st.1 /\ st'.2.1 = st.2.1 /\ only_read st.2.2 st'.2.2.
#[export] Instance scan_only_preorder : PreOrder scan_only.
Proof. split; [by intros st|]. intros s1 s2 s3 (H1 & H2 & H3) (H4 & H5 & H6). split_and!; [congruence..|by etrans]. Qed.

(** ** The policy of a root *)

Definition clock_ms (ns : Z) : Z := Z.min (2 ^ 63 - 1) (if (ns <? 0)%Z then 0%Z else (ns / 1000000)%Z).
(** The policy has not expired at a reading of the clock made between two states. *)
Definition unexpired w w' (p : AutoApprovalPolicyRecord) : Prop :=
  match ap_expires_unix_ms p with
  | Some e => exists k, w_ticks w <= k < w_ticks w' /\ (clock_ms (w_clock w k) < e)%Z
  | None => True
  end.
Lemma unexpired_within w0 w w' w1 p : only_read w0 w -> only_read w' w1 -> unexpired w w' p -> unexpired w0 w1 p.
Proof.
  unfold unexpired. intros (_ & Hc & H0) (_ & _ & H1). destruct (ap_expires_unix_ms p); [|done]. intros (k & Hk & He).
  exists k. rewrite <- Hc. split; [lia|done].
Qed.

Lemma policy_run id st :
  exists p st', AutoCleanup.on_policies (ApprovalStore.get_or_default id) st = (Ok p, st') /\ scan_only st st' /\
    match as_policies st.1 !! id with Some q => p = q | None => ap_enabled p = false end.
Proof.
  destruct st as [s [rs w]]. unfold AutoCleanup.on_policies, zoom, ApprovalStore.get_or_default, get_store, io_bind, io_gets. simpl.
  destruct (as_policies s !! id) as [q|]; simpl;
    (eexists _, _; split; [reflexivity|]; split; [|done]); split_and!; first [done|apply tick_reads].
Qed.
Lemma engine_policy_run p st :
  exists policy st', AutoCleanup.on_policies (on_world (ApprovalStore.to_engine_policy p)) st = (Ok policy, st') /\
    scan_only st st' /\ allowed_actions policy = ap_allowed_actions p /\ max_files_per_run policy = ap_max_files_per_run p /\
    (enabled policy = true -> ap_enabled p = true /\ unexpired st.2.2 st'.2.2 p).
Proof.
  destruct st as [s [rs w]]. unfold AutoCleanup.on_policies, on_world, zoom, ApprovalStore.to_engine_policy, ApprovalStore.is_expired,
    ApprovalStore.unix_ms, now_ms, now_ns, io_bind, io_ret, unexpired. simpl.
  destruct (ap_enabled p), (ap_expires_unix_ms p) as [e|]; simpl; eexists _, _; (split; [reflexivity|]); (split; [split_and!; first [done|apply tick_reads]|]);
    (split_and!; [done..|]); simpl; intros He; try done.
  split; [done|]. exists (w_ticks w). apply negb_true_iff, Z.leb_gt in He. split; [lia|exact He].
Qed.

(** ** The events of a report *)

(** Why the scan tells of a root, and why it says that a proposal is approved. *)
Record event_ok st st' (e : AutoCleanupProposalEvent) : Prop := {
  eo_root : exists root, root ∈ values (ms_roots st.2.1) /\ mr_root_id root = ce_root_id e /\
    mr_enabled root = true /\ mr_room_binding_status root = Active;
  eo_proposes : pr_proposals (ce_proposal e) <> [];
  eo_nothing_done : ce_executed_count e = 0%Z /\ ce_skipped_count e = 0%Z;
  eo_count : ce_auto_approved_count e = Z.of_nat (length (ce_auto_approved_proposal_ids e));
  eo_approved : ce_auto_approved_proposal_ids e <> [] ->
    exists policy, as_policies st.1 !! ce_root_id e = Some policy /\ ap_enabled policy = true /\ unexpired st.2.2 st'.2.2 policy /\
      ce_auto_approved_proposal_ids e =
        map proposal_id_of (filter (fun p => p_status p = Ready /\ p_action p ∈ ap_allowed_actions policy)
                              (pr_proposals (ce_proposal e))) /\
      (ce_auto_approved_count e <= ap_max_files_per_run policy)%Z;
}.
Lemma event_ok_scan st0 st st' st1 e : scan_only st0 st -> scan_only st' st1 -> event_ok st st' e -> event_ok st0 st1 e.
Proof.
  intros (H1 & H2 & H3) (_ & _ & H4) [Hr ? ? ? He]. constructor; try done; [by rewrite <- H2|]. intros Hids.
  destruct (He Hids) as (policy & Hp & Hen & Hun & Hrest). exists policy. rewrite H1 in Hp.
  split_and!; try done; [|by destruct Hrest..]. by eapply unexpired_within.
Qed.

Definition report_ok st st' (n : Z) (r : AutoCleanupReport) : Prop :=
  cl_inspected_count r = n /\ cl_executed_count r = 0%Z /\ cl_skipped_count r = 0%Z /\ Forall (event_ok st st') (cl_proposals r).
Lemma report_ok_scan st0 st st' st1 n r : scan_only st0 st -> scan_only st' st1 -> report_ok st st' n r -> report_ok st0 st1 n r.
Proof. intros H0 H1 (? & ? & ? & Hev). split_and!; [done..|]. eapply Forall_impl; [exact Hev|]. intros e. by apply event_ok_scan. Qed.

Lemma approve_told policy proposal report report' ids st st' n :
  AutoCleanup.approve policy proposal report = (report', ids) -> report_ok st st' n report ->
  report_ok st st' n report' /\ cl_proposals report' = cl_proposals report /\
  (ids <> [] -> enabled policy = true /\
    ids = map proposal_id_of (filter (fun p => p_status p = Ready /\ p_action p ∈ allowed_actions policy) (pr_proposals proposal)) /\
    (Z.of_nat (length ids) <= max_files_per_run policy)%Z).
Proof.
  unfold AutoCleanup.approve. intros H Hr. destruct (enabled policy) eqn:He; [|by injection H as <- <-].
  destruct (AutoApproval.auto_approve_decisions proposal policy) as [ds|e] eqn:Hd; injection H as <- <-; [|done].
  split_and!; [done..|]. intros _. unfold AutoApproval.auto_approve_decisions in Hd. unwrap Hd. injection Hd as <-.
  split_and!; [done| |].
  - by rewrite map_map.
  - rewrite !length_map. by apply Z.ltb_ge.
Qed.

Lemma process_root_told st0 st n report root r st' :
  scan_only st0 st -> report_ok st0 st n report -> root ∈ values (ms_roots st.2.1) -> AutoCleanup.process_root rules_text report root st = (r, st') ->
  exists report', r = Ok report' /\ scan_only st st' /\ report_ok st0 st' (n + 1) report'.
Proof.
  intros Hst0 (Hn & Hx & Hs & He) Hroot. unfold AutoCleanup.process_root.
  assert (report_ok st0 st (n + 1) (AutoCleanup.inspected report)) as Hin by (split_and!; simpl; [lia|done..]).
  set (report1 := AutoCleanup.inspected report) in *. clearbody report1.
  destruct (mr_enabled root) eqn:Hen; [|by intros [= <- <-]; exists report1]. case_bool_decide as Hact; [|by intros [= <- <-]; exists report1].
  simpl. unfold io_bind at 1. unfold io_try. destruct (AutoCleanup.on_folders _ st) as [made st1] eqn:Hm.
  assert (scan_only st st1) as Hst1.
  { apply zoom_run in Hm as (v & Hm & ->). apply zoom_run in Hm as (w & Hm & ->). apply io_map_err_inv in Hm as (r0 & Hm & _).
    apply propose_reads in Hm. done. }
  apply (report_ok_scan st0 st0 st st1) in Hin; [|done..].
  destruct made as [proposal|e].
  2: { intros [= <- <-]. exists (AutoCleanup.failed report1). by destruct Hin as (? & ? & ? & ?). }
  case_bool_decide as Hne; [by intros [= <- <-]; exists report1|].
  destruct (policy_run (mr_root_id root) st1) as (p & st2 & Hg & Hst2 & Hp). unfold io_bind at 1. rewrite Hg.
  destruct (engine_policy_run p st2) as (policy & st3 & Hpol & Hst3 & Ha & Hmax & Hlive). unfold io_bind. rewrite Hpol.
  set (report2 := AutoCleanup.proposed _ report1).
  assert (report_ok st0 st3 (n + 1) report2) as H2 by (apply (report_ok_scan st0 st0 st1 st3); [done|by etrans|by destruct Hin as (? & ? & ? & ?)]).
  clearbody report2. destruct (AutoCleanup.approve policy proposal report2) as [report3 ids] eqn:Happ. intros [= <- <-].
  destruct (approve_told _ _ _ _ _ _ _ _ Happ H2) as ((Hn3 & Hx3 & Hs3 & He3) & _ & Hids).
  exists (AutoCleanup.with_event (mkCleanupEvent (mr_root_id root) proposal (Z.of_nat (length ids)) ids 0 0) report3).
  assert (scan_only st st2) as Hst by (by etrans).
  split_and!; [done|by etrans|]. split_and!; [done..|]. simpl. apply Forall_app. split; [done|]. apply Forall_singleton.
  apply (event_ok_scan st0 st st3 st3); [done..|]. constructor; simpl; [by exists root|done..|]. intros Hne2. destruct (Hids Hne2) as (Hon & -> & Hlen).
  destruct (Hlive Hon) as [Hpen Hun]. rewrite (proj1 Hst1) in Hp.
  destruct (as_policies st.1 !! mr_root_id root) as [q|] eqn:Hq; [subst q|congruence].
  exists p. rewrite Ha, Hmax in *. split_and!; [done|done| |done|done].
  eapply unexpired_within; [apply Hst| |exact Hun]. reflexivity.
Qed.
Lemma scan_told i l report n st st0 r st' :
  scan_only st0 st -> report_ok st0 st n report -> l ⊆ values (ms_roots st0.2.1) ->
  io_for (fun _ report root => AutoCleanup.process_root rules_text report root) i report l st = (r, st') ->
  exists report', r = Ok report' /\ scan_only st0 st' /\ report_ok st0 st' (n + Z.of_nat (length l)) report'.
Proof.
  revert i report n st. induction l as [|root l IH]; intros i report n st Hst Hr Hl H; simpl in H.
  { injection H as <- <-. exists report. rewrite Z.add_0_r. done. }
  apply io_bind_inv in H as [(report1 & st1 & H1 & H)|(e & H1 & ->)];
    (eapply process_root_told in H1 as (rep & Hrep & Hst1 & Hr1); [|exact Hst|exact Hr|rewrite (proj1 (proj2 Hst)); apply Hl; by left]); [|done].
  injection Hrep as <-. apply (IH _ _ (n + 1)%Z) in H as (report' & -> & Hst' & Hr'); [|by etrans|done|].
  - exists report'. split_and!; [done..|]. cbn [length]. by replace (n + Z.of_nat (S (length l)))%Z with (n + 1 + Z.of_nat (length l))%Z by lia.
  - intros x Hx. apply Hl. by right.
Qed.

(** C21: The background cleanup only proposes.  It always answers, changes neither files,
    databases, folders nor policies, and looks at every folder once.  Each of its events
    is of an enabled folder that is bound to a room and has proposals; nothing was
    executed; and when it names approved proposals, they are the ready ones whose action
    the stored policy of that very folder allows, the policy is enabled, it was unexpired at
    a reading of the clock made during this very scan, and they are no more than its
    limit. *)
Theorem cleanup_only_proposes st r st' :
  AutoCleanup.process_auto_cleanup rules_text st = (r, st') ->
  scan_only st st' /\
  exists report, r = Ok report /\ cl_inspected_count report = Z.of_nat (size (ms_roots st.2.1)) /\
    cl_executed_count report = 0%Z /\ Forall (event_ok st st') (cl_proposals report).
Proof.
  intros H. unfold AutoCleanup.process_auto_cleanup in H. apply io_bind_inv in H as [(roots & st1 & H1 & H2)|(e & H1 & _)].
  2: { by destruct st as [s [rs w]]. }
  destruct st as [s [rs w]]. injection H1 as <- <-.
  apply (scan_told _ _ _ 0%Z _ (s, (rs, w))) in H2 as (report & -> & Hst & Hn & Hx & _ & Hev).
  - split; [done|]. exists report. split_and!; try done. rewrite Hn, Z.add_0_l. f_equal. unfold values, entries. simpl.
    rewrite length_map. rewrite (Permutation_length (sort_by_perm key_cmp (map_to_list (ms_roots rs)))). apply length_map_to_list.
  - done.
  - by split_and!.
  - done.
Qed.
End cleanup.

(** * The submissions *)

Section proposals.
Context {N V DB : Type} `{!SqlDb DB, !Http N V, !CredentialStore N, !JsonValue V, !Json V, !JsonObjects V}.
Context `{!ResponseCodecs V, !Serde (list V), !Serde ProposalReport, hash : !Sha256}.
Abbreviation state := (office (taped N V) DB).
Implicit Types (st : state) (proposal : ProposalReport).

(** ** What a submission says, and when *)

(** The submission of a proposal for a command, and of nothing else: not of the clock. *)
Definition autonomous (command_id room_id : string) proposal : AgentProposalSubmission V :=
  let items := map AutoProposal.without_time
                 (items_at (fun _ => 0%Z) (take (Z.to_nat (AutoProposal.clamp 1 200 (Z.of_nat (length (pr_proposals proposal)))))
                                             (pr_proposals proposal))) in
  mkAgentProposalSubmission command_id room_id (mkAgentProposalSummary (Z.of_nat (length items)) None None) None items.

Lemma without_time_item t1 t2 i p :
  AutoProposal.without_time (V:=V) (Submission.proposal_item t1 i p) = AutoProposal.without_time (Submission.proposal_item t2 i p).
Proof.
  unfold AutoProposal.without_time, Submission.proposal_item. simpl. f_equal. unfold Submission.precondition_of.
  destruct (p_source_file_id p) as [id|]; [rewrite !json_set_is_object, !json_remove_set by done|rewrite !json_object_is_object];
    by rewrite !json_remove_object.
Qed.
Lemma without_time_items clock ps :
  map (AutoProposal.without_time (V:=V)) (items_at clock ps) = map AutoProposal.without_time (items_at (fun _ => 0%Z) ps).
Proof.
  unfold items_at. change (map (AutoProposal.without_time (V:=V))) with (fmap (M:=list) (AutoProposal.without_time (V:=V))).
  rewrite !fmap_imap. apply imap_ext. intros i p _. apply without_time_item.
Qed.
Lemma timeless_submission (command : AgentCommand V) proposal (w : world DB) sub w' :
  Submission.build_agent_proposal_submission command proposal
    (AutoProposal.clamp 1 MAX_PROPOSAL_ITEMS (Z.of_nat (length (pr_proposals proposal)))) w = (Ok sub, w') ->
  AutoProposal.timeless sub = autonomous (ac_command_id command) (ac_room_id command) proposal.
Proof.
  intros H. pose proof (submission_items _ _ _ _ _ _ H) as (_ & clock & Hitems). unfold Submission.build_agent_proposal_submission in H.
  destruct (negb _); [done|]. apply io_bind_ok in H as (items & w1 & _ & [= <- _]). unfold AutoProposal.timeless, autonomous. simpl in *.
  rewrite Hitems, without_time_items, length_map. unfold items_at. by rewrite !length_imap.
Qed.

(** ** The requests *)

Definition command_request (root_id room_id : string) proposal base c : HttpRequest V :=
  mkHttpRequest "POST" (base +:+ "/v1/rooms/" +:+ room_id +:+ "/commands") [] (Some (dc_device_token c))
    (Some (AutoProposal.auto_proposal_key "autocmd" root_id (AutoProposal.proposal_fingerprint root_id proposal)))
    (BFields [("intent", FText AUTO_PROPOSAL_INTENT); ("payload", FValue (json_object []))]).
Definition proposal_request (root_id : string) proposal (command : AgentCommand V) base c : HttpRequest V :=
  mkHttpRequest "POST" (base +:+ "/v1/agent/proposals") [] (Some (dc_device_token c))
    (Some (AutoProposal.auto_proposal_key "autoprop" root_id (AutoProposal.proposal_fingerprint root_id proposal)))
    (BProposal (autonomous (ac_command_id command) (ac_room_id command) proposal)).
(** The requests of a submission: reads and reports of a status, which carry no key, the
    command of the room, and the proposal. *)
Definition autonomous_request (root_id room_id : string) proposal base c (rq : HttpRequest V) : Prop :=
  rq_idempotency_key rq = None \/ rq = command_request root_id room_id proposal base c \/
  exists command, rq = proposal_request root_id proposal command base c.

Definition office_asks own st st' : Prop := asks own st.1 st'.1.
#[export] Instance office_asks_preorder own : PreOrder (office_asks own).
Proof. split; [intros st; unfold office_asks; reflexivity|intros s1 s2 s3 H1 H2; unfold office_asks in *; by etrans]. Qed.
Lemma on_agent_asks own {A} (m : io (AgentState * taped N V) AgentError A) :
  io_rel (asks own) m -> io_rel (office_asks own) (on_agent (DB:=DB) m).
Proof. intros Hm st r st' (r0 & a & H & _ & ->)%on_agent_run. unfold office_asks. simpl. by eapply Hm. Qed.
Lemma on_roots_asks own {A} (m : io (RootStore * world DB) string A) : io_rel (office_asks own) (on_roots (N:=taped N V) m).
Proof. intros st r st' (s & _ & ->)%on_roots_run. unfold office_asks. simpl. reflexivity. Qed.
Lemma on_machine_asks own {A} (m : io (world DB) string A) : io_rel (office_asks own) (on_machine (N:=taped N V) m).
Proof. apply on_roots_asks. Qed.

Section own.
Context (own : string -> DeviceCredential -> HttpRequest V -> Prop).
Hypothesis own_keyless : forall base c rq, rq_idempotency_key rq = None -> own base c rq.

Lemma open_count_asks room : io_rel (asks own) (AgentProposals.open_proposal_count_for_room (V:=V) (N:=taped N V) room).
Proof. unfold AgentProposals.open_proposal_count_for_room. asks_go. by apply own_keyless. Qed.
Lemma create_command_asks room intent payload key :
  (forall base c, own base c (mkHttpRequest "POST" (base +:+ "/v1/rooms/" +:+ room +:+ "/commands") [] (Some (dc_device_token c))
                                (Some key) (BFields [("intent", FText intent); ("payload", FValue payload)]))) ->
  io_rel (asks own) (AgentProposals.create_command (V:=V) (N:=taped N V) room intent payload key).
Proof. intros Ho. unfold AgentProposals.create_command. asks_go. apply Ho. Qed.
Lemma status_asks id status : io_rel (asks own) (Agent.update_command_status (V:=V) (N:=taped N V) id status).
Proof.
  unfold Agent.update_command_status. apply io_rel_bind; [apply _|apply io_rel_lift, _|]. intros _.
  destruct (negb _); [apply io_rel_fail, _|]. asks_go. by apply own_keyless.
Qed.
Lemma claim_asks (command : AgentCommand V) : io_rel (office_asks own) (CommandProcessor.claim_command_for_analysis (N:=taped N V) (DB:=DB) command).
Proof. unfold CommandProcessor.claim_command_for_analysis. io_rel_go; apply on_agent_asks, status_asks. Qed.
Lemma submission_asks key sub :
  (forall base c, own base c (mkHttpRequest "POST" (base +:+ "/v1/agent/proposals") [] (Some (dc_device_token c)) (Some key) (BProposal sub))) ->
  io_rel (asks own) (Agent.submit_proposal (V:=V) (N:=taped N V) key sub).
Proof. intros Ho. unfold Agent.submit_proposal. asks_go. apply Ho. Qed.
End own.

Lemma submit_asks root_id proposal st managed room r st' :
  ms_roots st.2.1 !! root_id = Some managed -> mr_room_id managed = Some room ->
  AutoProposal.submit_one root_id proposal st = (r, st') ->
  office_asks (autonomous_request root_id room proposal) st st'.
Proof.
  intros Hm Hroom H. unfold AutoProposal.submit_one, ManagedRoots.get, get_store in H.
  apply io_bind_inv in H as [(m & st1 & H1 & H)|(e & H1 & _)]; apply on_roots_run in H1 as (s & H1 & ->);
    unfold io_bind, io_gets in H1; rewrite Hm in H1; [|done]. injection H1 as <- <-.
  destruct st as [a [rs w]]. simpl in *. revert H.
  match goal with |- ?m ?st0 = _ -> _ => enough (io_rel (office_asks (autonomous_request root_id room proposal)) m) as Hrel
    by (intros H; exact (Hrel _ _ _ H)) end.
  case_bool_decide; [|apply io_rel_ret, _]. simpl. rewrite Hroom.
  apply io_rel_bind; [apply _|apply on_agent_asks, open_count_asks; by left|]. intros n. destruct (0 <? n)%Z; [apply io_rel_ret, _|].
  apply io_rel_bind; [apply _|apply on_agent_asks, create_command_asks; right; by left|]. intros command.
  case_match; [|case_match; [apply io_rel_ret, _|apply io_rel_fail, _]].
  apply io_rel_bind; [apply _|apply claim_asks; by left|]. intros _.
  apply io_rel_bind_ok; [apply _|apply on_machine_asks|]. intros sub st1 st2 (w2 & Hsub & _)%on_machine_run.
  rewrite (timeless_submission _ _ _ _ _ Hsub).
  apply io_rel_bind; [apply _|apply on_agent_asks, submission_asks|intros; apply io_rel_ret, _].
  intros base c. right. right. by exists command.
Qed.

Lemma submit_proposal_last key sub (a : AgentState * taped N V) u a' :
  Agent.submit_proposal (V:=V) key sub a = (Ok u, a') ->
  exists base c, ag_server_base_url a.1 = Some base /\ ag_credential a.1 = Some c /\
    tp_requests a'.2 = tp_requests a.2 ++ [mkHttpRequest "POST" (base +:+ "/v1/agent/proposals") [] (Some (dc_device_token c)) (Some key) (BProposal sub)].
Proof.
  intros Hrun. unfold Agent.submit_proposal in Hrun. apply io_bind_ok in Hrun as ([] & st1 & Hl & Hrun). injection Hl as _ <-.
  destruct (_ || _); [done|]. apply authenticated_ok in Hrun as (base & c & Hb & Hc & Hrun). exists base, c. split_and!; [done..|].
  apply recording_ok in Hrun as (st1 & Hrun & ->). unfold Agent.send_empty in Hrun. apply io_bind_ok in Hrun as (x & st2 & Hs & [= _ <-]).
  by apply send_tape in Hs.
Qed.
Lemma submit_last root_id proposal st st' :
  AutoProposal.submit_one root_id proposal st = (Ok true, st') ->
  exists command base c before, tp_requests st'.1.2 = before ++ [proposal_request root_id proposal command base c].
Proof.
  intros Hrun. unfold AutoProposal.submit_one in Hrun. apply io_bind_ok in Hrun as (m & st1 & _ & Hrun).
  case_bool_decide; [|done]. simpl in Hrun. destruct (mr_room_id m); [|done].
  apply io_bind_ok in Hrun as (n & st2 & _ & Hrun). destruct (0 <? n)%Z; [done|].
  apply io_bind_ok in Hrun as (command & st3 & _ & Hrun). case_match; [|by case_match].
  apply io_bind_ok in Hrun as (x & st4 & _ & Hrun). apply io_bind_ok in Hrun as (sub & st5 & Hsub & Hrun).
  apply io_bind_ok in Hrun as (y & st6 & Hrun & [= <-]). apply on_machine_run in Hsub as (w & Hsub & _).
  rewrite (timeless_submission _ _ _ _ _ Hsub) in Hrun. apply on_agent_run in Hrun as (r0 & a & Hrun & Hr & ->).
  destruct r0 as [z|]; [|done]. apply submit_proposal_last in Hrun as (base & c & _ & _ & Ht).
  exists command, base, c, (tp_requests st5.1.2). exact Ht.
Qed.

(** A submission that the desktop makes on its own can be retried.  Whatever answers
    and failures it meets, every request it makes that carries an idempotency key is one
    of two, fixed by the server, the device, the folder, its room and the proposal (and
    the command the server named): the command of the room, and the proposal; both keys
    and both bodies are the same whenever they are made again, at any time of the clock.
    When it reports a submission, the proposal was the last request. *)
Theorem autonomous_retry_repeats root_id proposal st managed room r st' :
  ms_roots st.2.1 !! root_id = Some managed -> mr_room_id managed = Some room ->
  AutoProposal.submit_one root_id proposal st = (r, st') ->
  office_asks (autonomous_request root_id room proposal) st st' /\
  (r = Ok true -> exists command base c before,
     tp_requests st'.1.2 = before ++ [proposal_request root_id proposal command base c]).
Proof.
  intros Hm Hroom Hrun. split; [by eapply submit_asks|]. intros ->. by eapply submit_last.
Qed.
End proposals.
