(* ===== verification/command_facts.v ===== *)
(** What processing the commands of the server does to the desktop: it proposes, and
    changes nothing itself. *)
From Stdlib Require Import ZArith Lia Ascii.
From stdpp Require Import strings pretty gmap functions option list.
From S2P Require Import prelude rust_str rule_definition std_path std_fs fs_facts path_guard db journal_store.
From S2P Require Import proposal_types rule_engine analyzer proposal engine_safety.
From S2P Require Import index_sql tables outbox desk managed_roots agent agent_work office.
From S2P Require Import outbox_processor command_processor.

Open Scope string_scope.
Open Scope list_scope.

(** The other stores an execution writes to: the registry of folders and the database
    of a root.  Their statements leave the tables [T] alone, as in SQLite a statement
    changes the tables it names. *)
Definition foreign_statements : list string := RootSql.upsert :: JournalStore.insert_sql :: Db.schema_statements.
Definition foreign_queries : list string := JournalStore.select_sql :: Db.schema_queries.
Class Apart (DB T : Type) `{!SqlDb DB, !SqlTx DB, !SqlCount DB, !Schema T, !TableDb DB T} := {
  apart_execute sql binds d r d' : sql ∈ foreign_statements -> sql_execute sql binds d = (r, d') -> table (T:=T) d' = table d;
  apart_fetch sql binds d r d' : sql ∈ foreign_queries -> sql_fetch_all sql binds d = (r, d') -> table (T:=T) d' = table d;
}.

Section apart.
Context {DB T : Type} `{Apart DB T}.
(** Nothing happens to the tables at [p]. *)
Definition same_table (p : string) (w w' : world DB) : Prop := table_at (T:=T) p w' = table_at p w.
#[export] Instance same_table_preorder p : PreOrder (same_table p).
Proof. split; [done|]. intros w1 w2 w3 H1 H2. unfold same_table in *. congruence. Qed.
Lemma set_db_same_table p pool d w : table (T:=T) d = table (w_db w pool) -> same_table p w (set_db pool d w).
Proof.
  intros Hd. unfold same_table, table_at. simpl.
  destruct (decide (p = pool)) as [->|Hne]; rewrite ?fn_lookup_insert, ?fn_lookup_insert_ne; done.
Qed.
Lemma apart_statement p pool sql binds : sql ∈ foreign_statements -> io_rel (same_table p) (Db.execute (DB:=DB) pool sql binds).
Proof.
  intros Hs w r w'. unfold Db.execute. destruct (sql_execute sql binds (w_db w pool)) as [r1 d] eqn:Hx. intros [= _ <-].
  apply apart_execute in Hx; [|done]. pose proof (set_db_same_table p _ _ _ Hx). by destruct (is_ok r1).
Qed.
Lemma apart_query p pool sql binds : sql ∈ foreign_queries -> io_rel (same_table p) (Db.fetch_all (DB:=DB) pool sql binds).
Proof.
  intros Hs w r w'. unfold Db.fetch_all. destruct (sql_fetch_all sql binds (w_db w pool)) as [r1 d] eqn:Hx. intros [= _ <-].
  apply apart_fetch in Hx; [|done]. by apply set_db_same_table.
Qed.
Lemma apart_connect p pool : io_rel (same_table p) (Db.connect (DB:=DB) pool).
Proof.
  intros w r w'. unfold Db.connect. destruct (sql_connect (w_db w pool)) as [r1 d] eqn:Hx. intros [= _ <-].
  apply (connect_table (T:=T)) in Hx. by apply set_db_same_table.
Qed.
End apart.

Section commands.
Context {N V DB : Type} `{!SqlDb DB, !SqlTx DB, !SqlCount DB, !Http N V, !CredentialStore N, !JsonValue V, !Json V}.
Context `{!PayloadCodecs V, !ResponseCodecs V, !WorkCodecs V, !CommandCodecs V}.
Context (outbox : OutboxStore).

Lemma submission_command (command : AgentCommand V) rep max (w : world DB) sub w' :
  Submission.build_agent_proposal_submission command rep max w = (Ok sub, w') -> pb_command_id sub = ac_command_id command.
Proof.
  unfold Submission.build_agent_proposal_submission. destruct (negb _); [done|].
  by intros (items & w1 & _ & [= <- _])%io_bind_ok.
Qed.

(** A relation of machines [R] that the clock and the mutations of these commands keep, and
    one of offices [S] that the agent, such a machine and the lookup of a folder keep. *)
Class Offices (R : world DB -> world DB -> Prop) (S : office N DB -> office N DB -> Prop) : Prop := {
  offices_worlds :: PreOrder R;
  offices_preorder :: PreOrder S;
  offices_quiet w w' : quiet w w' -> R w w';
  offices_agent {A} (m : io (AgentState * N) AgentError A) : io_rel S (on_agent m);
  offices_machine {A} (m : io (world DB) string A) : io_rel R m -> io_rel S (on_machine m);
  offices_ensure id room : io_rel S (on_roots (ManagedRoots.ensure_active_room_binding id room));
}.
Lemma machines_offices R `{!PreOrder R} :
  (forall w w', quiet w w' -> R w w') -> (forall pool binds, io_rel R (Db.execute pool RootSql.upsert binds)) -> Offices R (machines R).
Proof.
  intros Hq Hu. split; [apply _|apply _|done|..].
  - intros A m. apply on_agent_machines, _.
  - intros A m. apply on_machine_machines.
  - intros id room. apply on_roots_machines, ensure_worlds; [apply _|exact Hq|exact Hu].
Qed.

Section rel.
Context (R : world DB -> world DB -> Prop) (S : office N DB -> office N DB -> Prop) `{HS : !Offices R S} (commands : list (AgentCommand V)).
Hypothesis R_proposal : forall command sub, command ∈ commands -> pb_command_id sub = ac_command_id command ->
  io_rel R (OutboxProcessor.enqueue_proposal outbox sub).
Hypothesis R_status : forall command status, command ∈ commands -> status ∈ ["SUCCEEDED"; "FAILED"] ->
  io_rel R (OutboxProcessor.enqueue_command_status (V:=V) outbox (ac_command_id command) status).

Abbreviation kept m := (io_rel S m).

Lemma clock_kept {E A} (k : Z -> A) : io_rel (E:=E) R (let! ms := now_ms in io_ret (k ms)).
Proof. apply io_rel_bind; [apply _|apply clock_quiet, offices_quiet|]. intros ms. apply io_rel_ret, _. Qed.
Lemma submission_kept (command : AgentCommand V) rep max :
  io_rel R (Submission.build_agent_proposal_submission (DB:=DB) command rep max).
Proof.
  unfold Submission.build_agent_proposal_submission, Submission.proposal_items. destruct (negb _); [apply io_rel_fail, _|].
  io_rel_go. apply clock_kept.
Qed.
Lemma rule_set_kept root set : io_rel R (ProposalEngine.propose_for_root_with_rule_set (DB:=DB) root set).
Proof.
  unfold ProposalEngine.propose_for_root_with_rule_set, ProposalEngine.propose_for_analysis_with_rule_set, ProposalEngine.unix_ms, get_fs.
  io_rel_go. apply clock_quiet, offices_quiet.
Qed.
Lemma resolve_kept root (payload : OrganizeFilesPayload V) : io_rel R (CommandProcessor.resolve_proposal (DB:=DB) root payload).
Proof.
  unfold CommandProcessor.resolve_proposal, ProposalEngine.propose_for_root, get_fs.
  destruct (og_rule_draft payload), (og_user_intent payload); io_rel_go; apply rule_set_kept.
Qed.

Lemma claim_kept (command : AgentCommand V) : kept (CommandProcessor.claim_command_for_analysis (N:=N) (DB:=DB) command).
Proof.
  unfold CommandProcessor.claim_command_for_analysis, CommandProcessor.set_status.
  destruct (_ =? _)%string; [|destruct (_ =? _)%string; [|destruct (_ =? _)%string]]; io_rel_go; apply offices_agent.
Qed.
Lemma managed_root_kept (command : AgentCommand V) root_id :
  kept (CommandProcessor.managed_root_for (N:=N) (DB:=DB) command root_id).
Proof.
  unfold CommandProcessor.managed_root_for. apply io_rel_bind; [apply _|apply offices_agent|]. intros room.
  apply io_rel_bind; [apply _|apply offices_ensure|].
  intros root. destruct (match root_id with Some _ => _ | None => _ end); [|destruct (negb _)]; io_rel_go.
Qed.
Lemma requested_kept command root_id build max :
  command ∈ commands -> kept (CommandProcessor.process_requested (N:=N) (DB:=DB) outbox command root_id build max).
Proof.
  intros Hc. unfold CommandProcessor.process_requested.
  apply io_rel_bind; [apply _|apply claim_kept|]. intros _.
  apply io_rel_bind; [apply _|apply managed_root_kept|]. intros root.
  apply io_rel_bind; [apply _|apply offices_machine, io_rel_gets, _|]. intros f.
  apply io_rel_bind; [apply _|apply io_rel_lift, _|]. intros rep.
  apply io_rel_bind_ok; [apply _|apply offices_machine, submission_kept|]. intros sub st st' H.
  apply on_machine_run in H as (w & H & _). apply submission_command in H.
  io_rel_go. by apply offices_machine, (R_proposal command).
Qed.
Lemma organize_kept command : command ∈ commands -> kept (CommandProcessor.process_organize_command (N:=N) (DB:=DB) outbox command).
Proof.
  intros Hc. unfold CommandProcessor.process_organize_command.
  apply io_rel_bind; [apply _|apply io_rel_lift, _|]. intros payload.
  apply io_rel_bind; [apply _|apply io_rel_lift, _|]. intros _.
  apply io_rel_bind; [apply _|apply claim_kept|]. intros _.
  apply io_rel_bind; [apply _|apply managed_root_kept|]. intros root.
  apply io_rel_bind; [apply _|apply offices_machine, resolve_kept|]. intros rep.
  apply io_rel_bind_ok; [apply _|apply offices_machine, submission_kept|]. intros sub st st' H.
  apply on_machine_run in H as (w & H & _). apply submission_command in H.
  destruct (_ =? 0)%Z; io_rel_go; apply offices_machine; [apply R_status; [done|set_solver]|by apply (R_proposal command)].
Qed.
Lemma dispatch_kept command : command ∈ commands -> kept (CommandProcessor.dispatch (N:=N) (DB:=DB) outbox command).
Proof.
  intros Hc. unfold CommandProcessor.dispatch, CommandProcessor.process_rename_command, CommandProcessor.process_move_command,
    CommandProcessor.process_trash_command, CommandProcessor.process_create_command.
  repeat (destruct (_ =? _)%string; [io_rel_go; by apply requested_kept|]). by apply organize_kept.
Qed.
Lemma command_kept report command :
  command ∈ commands -> kept (CommandProcessor.process_command (N:=N) (DB:=DB) outbox report command).
Proof.
  intros Hc. unfold CommandProcessor.process_command, CommandProcessor.refuse_contract_command.
  assert (kept (on_machine (N:=N) (OutboxProcessor.enqueue_command_status (V:=V) outbox (ac_command_id command) "FAILED"))) as Hs
    by (apply offices_machine, R_status; [done|set_solver]).
  destruct (negb _); [io_rel_go|]. destruct (CommandProcessor.is_contract_command_without_desktop_handler command).
  - apply io_rel_bind; [apply _| |intros ?; apply io_rel_ret, _].
    apply io_rel_bind; [apply _|apply io_rel_try, claim_kept|]. intros [?|?]; io_rel_go.
  - destruct (negb _); [io_rel_go|].
    apply io_rel_bind; [apply _|by apply io_rel_try, dispatch_kept|]. intros [?|?]; io_rel_go.
Qed.
Lemma commands_kept : kept (CommandProcessor.process_commands (N:=N) (DB:=DB) outbox commands).
Proof.
  unfold CommandProcessor.process_commands. apply io_rel_for_in; [apply _|]. intros i report command Hc. by apply command_kept.
Qed.
End rel.
End commands.

(** * What is queued *)

Section queued.
Context {N V DB : Type} `{!SqlDb DB, !SqlTx DB, !SqlCount DB, !Http N V, !CredentialStore N, !JsonValue V, !Json V}.
Context `{!PayloadCodecs V, !ResponseCodecs V, !WorkCodecs V, !CommandCodecs V}.
Context `{!TableDb DB OutboxTable, !Apart DB OutboxTable} (p : string).
Implicit Types (w : world DB) (commands : list (AgentCommand V)).

(** A mutation for one of the commands: its proposal or its last status. *)
Definition reply_to commands (m : mutation) : Prop :=
  mu_delivery m = Pending /\ exists command : AgentCommand V, command ∈ commands /\
  (name_of m = (KIND_PROPOSAL, ac_command_id command) \/
   exists status, status ∈ ["SUCCEEDED"; "FAILED"] /\ name_of m = (KIND_COMMAND_STATUS, ac_command_id command +:+ ":" +:+ status)).
Definition queues commands w w' : Prop :=
  outbox_ok (table_at p w) ->
  outbox_ok (table_at p w') /\ exists new, ledger_of (table_at p w') = ledger_of (table_at p w) ++ new /\ Forall (reply_to commands) new.
#[export] Instance queues_preorder commands : PreOrder (queues commands).
Proof.
  split; [intros w H; split; [done|]; exists []; by rewrite app_nil_r|].
  intros w1 w2 w3 H12 H23 H1. destruct (H12 H1) as (H2 & l & Hl & HF). destruct (H23 H2) as (H3 & l' & Hl' & HF').
  split; [done|]. exists (l ++ l'). rewrite Hl', Hl, app_assoc. split; [done|]. by apply Forall_app.
Qed.
Lemma queues_same commands w w' : table_at (T:=OutboxTable) p w' = table_at p w -> queues commands w w'.
Proof. intros H Hok. rewrite H. split; [done|]. exists []. by rewrite app_nil_r. Qed.
Lemma quiet_queues commands w w' : quiet w w' -> queues commands w w'.
Proof. intros (_ & H & _). apply queues_same. unfold table_at. by rewrite H. Qed.
Lemma upsert_queues commands pool binds : io_rel (queues commands) (Db.execute pool RootSql.upsert binds).
Proof. intros w r w' H. eapply queues_same, apart_statement; [|exact H]. by left. Qed.
Lemma enqueue_queues commands kind key payload :
  (forall id, reply_to commands (mkMutation id kind key payload Pending)) ->
  io_rel (queues commands) (Outbox.enqueue (mkOutboxStore (Some p)) kind key payload).
Proof.
  intros Hreply w r w' H Hok. destruct (enqueue_run p _ _ _ _ _ _ Hok H) as (_ & Hok' & Hr). split; [done|].
  destruct r as [u|e]; [inversion Hr; subst|rewrite Hr]; [by eexists; split; [done|]; apply list.Forall_singleton|..];
    exists []; by rewrite app_nil_r.
Qed.

Abbreviation box := (mkOutboxStore (Some p)).
Lemma proposal_queues commands command sub :
  command ∈ commands -> pb_command_id sub = ac_command_id command ->
  io_rel (queues commands) (OutboxProcessor.enqueue_proposal (V:=V) box sub).
Proof. intros Hc Hs. apply enqueue_queues. intros id. split; [done|]. exists command. split; [done|]. left. by rewrite <- Hs. Qed.
Lemma status_queues commands command status :
  command ∈ commands -> status ∈ ["SUCCEEDED"; "FAILED"] ->
  io_rel (queues commands) (OutboxProcessor.enqueue_command_status (V:=V) box (ac_command_id command) status).
Proof. intros Hc Hs. apply enqueue_queues. intros id. split; [done|]. exists command. split; [done|]. right. by exists status. Qed.
End queued.

(** * The folder of a command *)

Section folders.
Context {DB : Type} `{!SqlDb DB}.

(** A folder that takes the commands of a room. *)
Definition bound_to (room : string) (root : ManagedRoot) : Prop :=
  mr_room_binding_status root = Active /\ mr_room_id root = Some room.
Lemma ensure_bound id room (s s' : RootStore * world DB) root :
  ManagedRoots.ensure_active_room_binding id room s = (Ok root, s') -> bound_to room root /\ ms_roots s'.1 !! id = Some root.
Proof.
  unfold ManagedRoots.ensure_active_room_binding, ManagedRoots.get, get_store.
  intros (root0 & s1 & (s0 & s2 & [= <- <-] & H1)%io_bind_ok & H)%io_bind_ok.
  destruct (ms_roots s.1 !! id) as [root1|] eqn:Hid; [|done]. injection H1 as <- <-.
  destruct (mr_room_binding_status root1) eqn:Hs, (mr_room_id root1) as [bound|] eqn:Hb; try done.
  2: { destruct (String.eqb_spec bound room) as [->|]; [|done]. by injection H as <- <-. }
  unfold ManagedRoots.bind_room, get_store in H. destruct (is_empty _); [done|].
  apply io_bind_ok in H as (s0 & s1 & [= <- <-] & H). destruct (existsb _ _); [done|].
  apply io_bind_ok in H as (root2 & s1 & H & (u & s2 & Hp & [= -> <-])%io_bind_ok).
  unfold ManagedRoots.edit_root, get_store in H. apply io_bind_ok in H as (s0 & s3 & [= <- <-] & H). rewrite Hid in H.
  apply io_bind_ok in H as (now & s3 & _ & (u2 & s4 & Hset & [= <- <-])%io_bind_ok).
  injection Hset as _ <-. split; [done|]. assert (s2.1 = with_roots (<[id:=with_binding (Some room) None Active now root1]> (ms_roots s.1)) s.1) as ->.
  { unfold ManagedRoots.persist, get_store in Hp. apply io_bind_ok in Hp as (s0 & s4 & [= <- <-] & Hp). cbn [fst] in Hp.
    destruct (ms_pool _); [|by injection Hp as _ <-]. by apply on_world_run in Hp as (w' & _ & ->). }
  simpl. by rewrite lookup_insert_eq.
Qed.

(** A folder as it was, or a free one that was bound, at the same path and enabled as before. *)
Definition rebound (x y : ManagedRoot) : Prop :=
  y = x \/ mr_room_binding_status x = Unbound /\ mr_root y = mr_root x /\ mr_enabled y = mr_enabled x.
#[export] Instance rebound_preorder : PreOrder rebound.
Proof.
  split; [by left|]. intros x y z [->|(H1 & H2 & H3)] [->|(H4 & H5 & H6)]; [by left|by right|by right|].
  right. split_and!; congruence.
Qed.
Definition rebinds (s s' : RootStore) : Prop := forall id, option_Forall2 rebound (ms_roots s !! id) (ms_roots s' !! id).
#[export] Instance rebinds_preorder : PreOrder rebinds.
Proof.
  split; [intros s id; destruct (ms_roots s !! id); constructor; reflexivity|]. intros s1 s2 s3 H1 H2 id. specialize (H1 id). specialize (H2 id).
  destruct H1; inversion H2; subst; constructor. by etrans.
Qed.
(** A free folder, or one of the room, enabled, at a path. *)
Definition open_to (s : RootStore) (room root : string) : Prop :=
  exists id folder, ms_roots s !! id = Some folder /\ mr_root folder = root /\ mr_enabled folder = true /\
    (bound_to room folder \/ mr_room_binding_status folder = Unbound).
Lemma rebinds_open s s' room root : rebinds s s' -> open_to s' room root -> open_to s room root.
Proof.
  intros Hb (id & fo & Hid & Hr & He & Hs). specialize (Hb id). rewrite Hid in Hb. inversion Hb as [x y Hxy Hx|]; subst.
  exists id, x. destruct Hxy as [<-|(H1 & H2 & H3)]; [by split_and!|]. split_and!; [done|congruence..|by right].
Qed.

Lemma persist_roots root (s : RootStore * world DB) r s' : ManagedRoots.persist root s = (r, s') -> s'.1 = s.1.
Proof.
  unfold ManagedRoots.persist, get_store. intros [(s0 & s1 & [= <- <-] & H)|(e & [=] & _)]%io_bind_inv. cbn [fst] in H.
  destruct (ms_pool s.1); [by apply on_world_run in H as (w & _ & ->)|by injection H as _ <-].
Qed.
Lemma edit_rebinds id room (s : RootStore * world DB) root r s' :
  ms_roots s.1 !! id = Some root -> mr_room_binding_status root = Unbound ->
  ManagedRoots.edit_root id (with_binding (Some room) None Active) s = (r, s') -> rebinds s.1 s'.1.
Proof.
  unfold ManagedRoots.edit_root, get_store. intros Hid Hs [(s0 & s1 & [= <- <-] & H)|(e & [=] & _)]%io_bind_inv. rewrite Hid in H.
  apply io_bind_inv in H as [(now & s3 & (w & _ & ->)%on_world_run & H)|(e & (w & _ & ->)%on_world_run & _)]; [|reflexivity].
  injection H as _ <-. intros k. simpl. destruct (decide (id = k)) as [<-|Hne].
  - rewrite lookup_insert_eq, Hid. constructor. by right.
  - rewrite lookup_insert_ne by done. destruct (ms_roots s.1 !! k); constructor. reflexivity.
Qed.
Lemma ensure_rebinds id room (s : RootStore * world DB) r s' :
  ManagedRoots.ensure_active_room_binding id room s = (r, s') -> rebinds s.1 s'.1.
Proof.
  unfold ManagedRoots.ensure_active_room_binding, ManagedRoots.get, get_store. intros H.
  unfold io_bind at 1 in H. unfold io_bind at 1, io_gets at 1 in H. cbv beta iota in H.
  destruct (ms_roots s.1 !! id) as [root|] eqn:Hid; [|injection H as _ <-; reflexivity]. unfold io_ret at 1 in H. cbv beta iota in H.
  destruct (mr_room_binding_status root) eqn:Hs, (mr_room_id root) as [bound|]; try (injection H as _ <-; reflexivity).
  2: { destruct (_ =? _)%string; injection H as _ <-; reflexivity. }
  unfold ManagedRoots.bind_room, get_store in H. destruct (is_empty _); [injection H as _ <-; reflexivity|].
  apply io_bind_inv in H as [(s0 & s1 & [= <- <-] & H)|(e & [=] & _)]. destruct (existsb _ _); [injection H as _ <-; reflexivity|].
  apply io_bind_inv in H as [(root2 & s2 & H2 & H)|(e & H2 & ->)]; eapply edit_rebinds in H2; [|done..].
  apply io_bind_inv in H as [(u & s3 & H3 & [= _ <-])|(e & H3 & ->)]; apply persist_roots in H3; by rewrite H3.
Qed.
End folders.

(** * What is done *)

(** The changes processing may make: a folder bound to its room, a mutation queued. *)
Definition binds_or_queues (e : event) : Prop :=
  exists pool sql binds, e = EvSql pool sql binds /\ sql ∈ [RootSql.upsert; OutboxSql.insert].
Definition only_queues {DB} (w w' : world DB) : Prop := w_fs w' = w_fs w /\ logs binds_or_queues w w'.
#[export] Instance only_queues_preorder {DB} : PreOrder (only_queues (DB:=DB)).
Proof.
  split; [intros w; split; [done|reflexivity]|]. intros w1 w2 w3 [H1 H2] [H3 H4]. split; [congruence|by etrans].
Qed.

Section done.
Context {N V DB : Type} `{!SqlDb DB, !SqlTx DB, !SqlCount DB, !Http N V, !CredentialStore N, !JsonValue V, !Json V}.
Context `{!PayloadCodecs V, !ResponseCodecs V, !WorkCodecs V, !CommandCodecs V}.

Lemma quiet_only_queues (w w' : world DB) : quiet w w' -> only_queues w w'.
Proof. intros (H1 & _ & H2). split; [done|]. by apply logs_none. Qed.
Lemma statement_only_queues pool sql binds :
  sql ∈ [RootSql.upsert; OutboxSql.insert] -> io_rel only_queues (Db.execute (DB:=DB) pool sql binds).
Proof.
  intros Hs w r w'. unfold Db.execute. destruct (sql_execute _ _ _) as [[u|e] d]; intros [= _ <-]; (split; [done|]).
  - eapply logs_one; [done|]. by eexists _, _, _.
  - by apply logs_none.
Qed.
Lemma enqueue_only_queues outbox kind key payload : io_rel only_queues (Outbox.enqueue (DB:=DB) outbox kind key payload).
Proof.
  unfold Outbox.enqueue, Outbox.with_pool, Outbox.unix_ms. destruct (os_pool outbox); io_rel_go;
    [apply clock_quiet, quiet_only_queues|apply statement_only_queues; right; by left].
Qed.

(** ** The reports *)

Definition reported (r : CommandProcessingResult) : string * string := (cx_command_id r, cx_command_type r).
Definition with_status (s : CommandProcessingStatus) (l : list CommandProcessingResult) : list CommandProcessingResult :=
  List.filter (fun r => match cx_status r, s with
    | SubmittedProposal, SubmittedProposal | NoProposal, NoProposal
    | CommandFailed, CommandFailed | CommandSkipped, CommandSkipped => true
    | _, _ => false
    end) l.
(** The counters are those of the results. *)
Record counted (report : CommandProcessingReport) : Prop := {
  cn_submitted : cy_submitted_proposal_count report = Z.of_nat (length (with_status SubmittedProposal (cy_results report)));
  cn_failed : cy_failed_count report = Z.of_nat (length (with_status CommandFailed (cy_results report)));
  cn_skipped : cy_skipped_count report = Z.of_nat (length (with_status CommandSkipped (cy_results report)));
  cn_processed : (cy_processed_count report + cy_skipped_count report)%Z = Z.of_nat (length (cy_results report));
}.

Lemma with_status_snoc s l x : length (with_status s (l ++ [x])) = (length (with_status s l) + length (with_status s [x]))%nat.
Proof. unfold with_status. by rewrite List.filter_app, length_app. Qed.
Lemma counted_adds report c s message n p1 p2 p3 p4 :
  counted report ->
  (p1 = cy_submitted_proposal_count report + match s with SubmittedProposal => 1 | _ => 0 end)%Z ->
  (p2 = cy_failed_count report + match s with CommandFailed => 1 | _ => 0 end)%Z ->
  (p3 = cy_skipped_count report + match s with CommandSkipped => 1 | _ => 0 end)%Z ->
  (p4 = cy_processed_count report + match s with CommandSkipped => 0 | _ => 1 end)%Z ->
  counted (mkCommandProcessingReport (cy_inspected_count report) p4 p1 p2 p3
    (cy_results report ++ [CommandProcessor.result_for (V:=V) c s message n])).
Proof.
  intros [H1 H2 H3 H4] -> -> -> ->. split; cbn [cy_submitted_proposal_count cy_failed_count cy_skipped_count cy_processed_count cy_results];
    rewrite ?with_status_snoc, ?length_app; destruct s; simpl; lia.
Qed.

Context (outbox : OutboxStore).
(** What one command adds to a report, and when. *)
Inductive answered (command : AgentCommand V) (report : CommandProcessingReport) (st st' : office N DB)
  : CommandProcessingReport -> Prop :=
| by_skipping : answered command report st st' (CommandProcessor.count_skipped report command)
| by_failing message : answered command report st st' (CommandProcessor.count_failed report command message)
| by_doing n : CommandProcessor.dispatch outbox command st = (Ok n, st') ->
    answered command report st st' (CommandProcessor.count_done report command n).
Lemma command_answered report (command : AgentCommand V) (st : office N DB) r st' :
  CommandProcessor.process_command outbox report command st = (r, st') ->
  exists report', r = Ok report' /\ answered command report st st' report'.
Proof.
  unfold CommandProcessor.process_command, CommandProcessor.refuse_contract_command.
  destruct (negb _); [intros [= <- <-]; eexists; split; [done|constructor]|].
  destruct (CommandProcessor.is_contract_command_without_desktop_handler command).
  { unfold io_bind, io_try. destruct (CommandProcessor.claim_command_for_analysis command st) as [[u|e] st1].
    - destruct (on_machine _ st1) as [r2 st2]. intros [= <- <-]. eexists. split; [done|constructor].
    - intros [= <- <-]. eexists. split; [done|constructor]. }
  destruct (negb _); [intros [= <- <-]; eexists; split; [done|constructor]|].
  unfold io_bind, io_try. destruct (CommandProcessor.dispatch outbox command st) as [[n|e] st1] eqn:Hd.
  - intros [= <- <-]. eexists. split; [done|by constructor].
  - destruct (on_machine _ st1) as [r2 st2]. intros [= <- <-]. eexists. split; [done|constructor].
Qed.
Lemma answered_counted command report st st' report' :
  answered command report st st' report' -> counted report ->
  counted report' /\ cy_inspected_count report' = cy_inspected_count report /\
  exists x, cy_results report' = cy_results report ++ [x] /\ reported x = (ac_command_id command, ac_command_type command) /\
    (cx_status x = SubmittedProposal ->
       exists n, n <> 0%Z /\ CommandProcessor.dispatch outbox command st = (Ok n, st') /\ cx_proposal_item_count x = n).
Proof.
  intros H Hc. destruct H as [|message|n Hd].
  - split_and!; [apply counted_adds; simpl; done || lia|done|]. by eexists.
  - split_and!; [apply counted_adds; simpl; done || lia|done|]. by eexists.
  - unfold CommandProcessor.count_done. destruct (Z.eqb_spec n 0).
    + split_and!; [apply counted_adds; simpl; done || lia|done|]. by eexists.
    + split_and!; [apply counted_adds; simpl; done || lia|done|]. eexists. split_and!; [done..|]. by exists n.
Qed.
End done.

Section replies.
Context {N V DB : Type} `{!SqlDb DB, !SqlTx DB, !SqlCount DB, !Http N V, !CredentialStore N, !JsonValue V, !Json V}.
Context `{!PayloadCodecs V, !ResponseCodecs V, !WorkCodecs V, !CommandCodecs V}.
Context `{!TableDb DB OutboxTable, !Apart DB OutboxTable} (p : string).
Abbreviation box := (mkOutboxStore (Some p)).
Abbreviation queue st := (table_at (T:=OutboxTable) p (machine_of st)).
Implicit Types (st : office N DB) (command : AgentCommand V) (commands : list (AgentCommand V)).

Lemma queues_offices commands : Offices (queues p commands) (machines (N:=N) (queues (DB:=DB) p commands)).
Proof. apply machines_offices; [apply _|apply quiet_queues|apply upsert_queues]. Qed.
Lemma commands_queue commands : io_rel (machines (queues p commands)) (CommandProcessor.process_commands (N:=N) box commands).
Proof. eapply commands_kept; [apply queues_offices|apply proposal_queues|apply status_queues]. Qed.

(** What processing some commands does to the files, the folders and the queue. *)
Definition quietly commands (w w' : world DB) : Prop := queues p commands w w' /\ w_fs w' = w_fs w.
#[export] Instance quietly_preorder commands : PreOrder (quietly commands).
Proof. split; [intros w; split; [reflexivity|done]|]. intros w1 w2 w3 [H1 H2] [H3 H4]. split; [by etrans|congruence]. Qed.
Definition moved commands st st' : Prop := quietly commands (machine_of st) (machine_of st') /\ rebinds st.2.1 st'.2.1.
#[export] Instance moved_preorder commands : PreOrder (moved commands).
Proof. split; [intros st; split; reflexivity|]. intros s1 s2 s3 [H1 H2] [H3 H4]. split; by etrans. Qed.
#[export] Instance moved_offices commands : Offices (quietly commands) (moved commands).
Proof.
  assert (forall w w', quiet w w' -> quietly commands w w') as Hquiet by (intros w w' Hq; split; [by apply quiet_queues|apply Hq]).
  split; [apply _|apply _|exact Hquiet|..].
  - intros A m st r st' (r0 & a & _ & _ & ->)%on_agent_run. split; reflexivity.
  - intros A m Hm st r st' (w & H & ->)%on_machine_run. split; [by eapply Hm|reflexivity].
  - intros id room st r st' (s & H & ->)%on_roots_run. split; [|by eapply ensure_rebinds].
    refine (ensure_worlds (quietly commands) Hquiet _ id room _ _ _ H). intros pool binds w r0 w' Hx.
    split; [by eapply upsert_queues|]. by destruct (statement_only_queues _ _ _ (list_elem_of_here _ _) _ _ _ Hx).
Qed.
Lemma enqueue_quietly commands kind key payload :
  io_rel (queues p commands) (Outbox.enqueue box kind key payload) -> io_rel (quietly commands) (Outbox.enqueue box kind key payload).
Proof. intros Hq w r w' H. split; [by eapply Hq|]. by destruct (enqueue_only_queues _ _ _ _ _ _ _ H). Qed.
Lemma command_moves commands report command : command ∈ commands ->
  io_rel (moved commands) (CommandProcessor.process_command (N:=N) box report command).
Proof.
  intros Hc. eapply command_kept with (commands:=commands); [apply _|..|done].
  - intros c sub H1 H2. by apply enqueue_quietly, (proposal_queues p commands c).
  - intros c status H1 H2. by apply enqueue_quietly, (status_queues p commands c).
Qed.

Lemma moved_more commands commands' st st' : commands ⊆ commands' -> moved commands st st' -> moved commands' st st'.
Proof.
  intros Hsub [[Hq Hf] Hb]. split; [split; [|done]|done]. intros Hok. destruct (Hq Hok) as (Hok' & new & Hl & HF). split; [done|]. exists new. split; [done|].
  eapply Forall_impl; [exact HF|]. intros m (Hm & c & Hc & Hn). split; [done|]. exists c. split; [by apply Hsub|done].
Qed.

(** ** What a command asks for *)

(** The report and the bound on its items that a command asks for, of the files of a folder. *)
Inductive asks_for (f : tree) (root : string) command : ProposalReport -> Z -> Prop :=
| asks_rename payload rep : ac_command_type command = RENAME -> CommandProcessor.parse_rename_payload command = Ok payload ->
    Requested.build_rename_proposal_report f root payload = Ok rep -> asks_for f root command rep 1
| asks_move payload rep : ac_command_type command = MOVE -> CommandProcessor.parse_move_payload command = Ok payload ->
    Requested.build_move_proposal_report f root payload = Ok rep -> asks_for f root command rep 200
| asks_trash payload rep : ac_command_type command = TRASH -> CommandProcessor.parse_trash_payload command = Ok payload ->
    Requested.build_trash_proposal_report f root payload = Ok rep -> asks_for f root command rep 200
| asks_create payload rep : ac_command_type command = CREATE -> CommandProcessor.parse_create_payload command = Ok payload ->
    Requested.build_create_proposal_report f root payload = Ok rep -> asks_for f root command rep 1
| asks_organize payload rep (w w' : world DB) : ac_command_type command ∉ [RENAME; MOVE; TRASH; CREATE] ->
    CommandProcessor.parse_organize_payload command = Ok payload ->
    w_fs w = f -> CommandProcessor.resolve_proposal root payload w = (Ok rep, w') -> asks_for f root command rep (CommandProcessor.max_proposals payload).
(** The submission that answers a command: for it and its room, of what it asks for, in the
    enabled folder that is the room's or still free. *)
Definition submission_for st command (sub : AgentProposalSubmission V) : Prop :=
  exists root rep max (w w' : world DB), open_to st.2.1 (ac_room_id command) root /\
    asks_for (w_fs (machine_of st)) root command rep max /\
    Submission.build_agent_proposal_submission command rep max w = (Ok sub, w').
Lemma submission_before commands st st' command sub : moved commands st st' -> submission_for st' command sub -> submission_for st command sub.
Proof.
  intros [[_ Hf] Hb] (root & rep & max & w & w' & Ho & Ha & Hs). exists root, rep, max, w, w'. rewrite Hf in Ha.
  split_and!; [by eapply rebinds_open|done..].
Qed.

(** The row of a submission: queued as pending, unless a row had its name before. *)
Definition row_of command (sub : AgentProposalSubmission V) (before after : ledger) : Prop :=
  (KIND_PROPOSAL, ac_command_id command) ∈ map name_of before \/
  exists id, mkMutation id KIND_PROPOSAL (ac_command_id command) (to_text sub) Pending ∈ after.
(** A command of which [n] items were submitted. *)
Definition answered_with command (n : Z) st st' : Prop :=
  exists sub, submission_for st command sub /\ Z.of_nat (length (pb_items sub)) = n /\
    row_of command sub (ledger_of (queue st)) (ledger_of (queue st')).

Lemma bind_moved {A B} (m : io (office N DB) string A) (k : A -> io (office N DB) string B) st0 st b st' (G : Prop) :
  io_rel (moved []) m -> (forall a st1, m st = (Ok a, st1) -> moved [] st0 st1 -> k a st1 = (Ok b, st') -> G) ->
  moved [] st0 st -> io_bind m k st = (Ok b, st') -> G.
Proof. intros Hm Hk Hst (a & st1 & H1 & H2)%io_bind_ok. eapply Hk; [done| |done]. etrans; [exact Hst|by eapply Hm]. Qed.
Lemma managed_root_open command root_id st folder st' :
  CommandProcessor.managed_root_for command root_id st = (Ok folder, st') -> open_to st'.2.1 (ac_room_id command) (mr_root folder).
Proof.
  unfold CommandProcessor.managed_root_for. intros (room & st1 & _ & (fo & st2 & H & H2)%io_bind_ok)%io_bind_ok.
  apply on_roots_run in H as (s & H & ->). apply ensure_bound in H as [Hb Hid].
  destruct (match root_id with Some _ => _ | None => _ end); [done|]. destruct (mr_enabled fo) eqn:He; [|done]. simpl in H2.
  injection H2 as <- <-. exists (ry_root_id room), fo. split_and!; [done..|by left].
Qed.
Lemma submit_answers command rep max root st0 st n st' (k : AgentProposalSubmission V -> io (office N DB) string Z) :
  outbox_ok (queue st0) -> open_to st.2.1 (ac_room_id command) root -> asks_for (w_fs (machine_of st0)) root command rep max ->
  (forall sub st1, k sub st1 = (Ok n, st') -> exists u w1, OutboxProcessor.enqueue_proposal box sub (machine_of st1) = (Ok u, w1) /\
     machine_of st' = w1 /\ Z.of_nat (length (pb_items sub)) = n) ->
  moved [] st0 st ->
  io_bind (on_machine (Submission.build_agent_proposal_submission command rep max)) k st = (Ok n, st') ->
  answered_with command n st0 st'.
Proof.
  intros Hok Ho Ha Hk Hst (sub & st1 & H1 & H2)%io_bind_ok.
  assert (moved [] st0 st1) as [[Hq _] _].
  { etrans; [exact Hst|]. eapply (offices_machine (Offices:=moved_offices [])); [|exact H1]. eapply submission_kept, (moved_offices []). }
  apply on_machine_run in H1 as (w & H1 & ->). apply Hk in H2 as (u & w1 & H2 & <- & Hn). exists sub. split_and!; [|done|].
  - exists root, rep, max, (machine_of st), w. split_and!; [by eapply rebinds_open; [apply Hst|]|done..].
  - destruct (Hq Hok) as (Hok1 & new & Hl & Hnew). destruct new as [|m new]; [|by apply Forall_cons in Hnew as [(_ & c & Hc%elem_of_nil & _) _]].
    rewrite app_nil_r in Hl. destruct (enqueue_run p _ _ _ _ _ _ Hok1 H2) as (_ & _ & Hr).
    unfold row_of. rewrite (submission_command _ _ _ _ _ _ H1) in Hr. rewrite <- Hl. inversion Hr; subst; [right|by left].
    eexists. apply elem_of_app. right. by apply list_elem_of_singleton.
Qed.
Lemma queue_last (sub : AgentProposalSubmission V) (n : Z) st st' :
  (do! on_machine (OutboxProcessor.enqueue_proposal box sub); io_ret (Z.of_nat (length (pb_items sub)))) st = (Ok n, st') ->
  exists u w1, OutboxProcessor.enqueue_proposal box sub (machine_of st) = (Ok u, w1) /\ machine_of st' = w1 /\ Z.of_nat (length (pb_items sub)) = n.
Proof. intros (u & st1 & H & [= <- <-])%io_bind_ok. apply on_machine_run in H as (w & H & ->). by exists u, w. Qed.
Lemma requested_answers command root_id build max st0 st n st' :
  outbox_ok (queue st0) ->
  (forall f root rep, build f root = Ok rep -> asks_for f root command rep max) ->
  moved [] st0 st -> CommandProcessor.process_requested box command root_id build max st = (Ok n, st') ->
  answered_with command n st0 st'.
Proof.
  intros Hok Hb. unfold CommandProcessor.process_requested.
  apply bind_moved; [eapply claim_kept, (moved_offices [])|]. intros _ st1 _.
  apply bind_moved; [eapply managed_root_kept, (moved_offices [])|]. intros root st2 Hroot Hst2 H. revert H.
  apply managed_root_open in Hroot.
  intros (f & st3 & (w & [= <- <-] & ->)%on_machine_run & H)%io_bind_ok. apply io_bind_ok in H as (rep & st4 & H4 & H).
  unfold io_lift in H4. injection H4 as Hrep <-. revert H.
  eapply submit_answers; [exact Hok|exact Hroot| | |exact Hst2].
  - rewrite <- (proj2 (proj1 Hst2)). by apply Hb.
  - intros sub st5. apply queue_last.
Qed.
Lemma organize_answers command st n st' :
  n <> 0%Z -> outbox_ok (queue st) -> ac_command_type command ∉ [RENAME; MOVE; TRASH; CREATE] ->
  CommandProcessor.process_organize_command box command st = (Ok n, st') -> answered_with command n st st'.
Proof.
  intros Hn Hok Ht. unfold CommandProcessor.process_organize_command.
  intros (payload & st1 & H1 & H)%io_bind_ok. unfold io_lift in H1. injection H1 as Hpay <-. revert H.
  apply bind_moved with (st0:=st); [apply io_rel_lift, _|intros _ st2 _|reflexivity].
  apply bind_moved; [eapply claim_kept, (moved_offices [])|]. intros _ st3 _.
  apply bind_moved; [eapply managed_root_kept, (moved_offices [])|]. intros root st4 Hroot Hst4 H. apply managed_root_open in Hroot. revert Hst4 H.
  intros Hst4 (rep & st5 & H5 & H)%io_bind_ok.
  assert (moved [] st4 st5) as Hst5.
  { eapply (offices_machine (Offices:=moved_offices [])); [|exact H5]. eapply resolve_kept, (moved_offices []). }
  apply on_machine_run in H5 as (w & H5 & ->). revert H.
  eapply submit_answers; [exact Hok|exact Hroot| | |by etrans].
  - eapply asks_organize; [done|done| |exact H5]. apply Hst4.
  - intros sub st6. cbv zeta. destruct (Z.eqb_spec (Z.of_nat (length (pb_items sub))) 0); [|apply queue_last].
    intros (r & st7 & _ & [= <- _])%io_bind_ok. done.
Qed.
Lemma dispatch_answers command st n st' :
  n <> 0%Z -> outbox_ok (queue st) -> CommandProcessor.dispatch box command st = (Ok n, st') -> answered_with command n st st'.
Proof.
  intros Hn Hok. unfold CommandProcessor.dispatch, CommandProcessor.process_rename_command, CommandProcessor.process_move_command,
    CommandProcessor.process_trash_command, CommandProcessor.process_create_command.
  repeat (match goal with |- context [String.eqb (ac_command_type command) ?t] => destruct (String.eqb_spec (ac_command_type command) t) end;
    [intros (payload & st1 & H1 & H)%io_bind_ok; unfold io_lift in H1; injection H1 as Hpay <-; revert H;
     apply requested_answers with (st0:=st); [done| |reflexivity]; intros f root rep Hrep; by econstructor|]).
  apply organize_answers; [done|done|]. rewrite !not_elem_of_cons. split_and!; [done..|apply not_elem_of_nil].
Qed.

(** ** The report *)

(** Of the command at [i], processed after those before it: what was submitted has its row,
    unless the name was taken in the queue before, or by an earlier command of the same id. *)
Definition submitted st0 commands (i : nat) command (x : CommandProcessingResult) st : Prop :=
  cx_status x = SubmittedProposal ->
  cx_proposal_item_count x <> 0%Z /\
  exists sub, submission_for st0 command sub /\ Z.of_nat (length (pb_items sub)) = cx_proposal_item_count x /\
    (row_of command sub (ledger_of (queue st0)) (ledger_of (queue st)) \/
     exists j earlier, j < i /\ commands !! j = Some earlier /\ ac_command_id earlier = ac_command_id command).
Definition reports_on st0 commands (report : CommandProcessingReport) st : Prop :=
  map reported (cy_results report) = map (fun c => (ac_command_id c, ac_command_type c)) commands /\ counted report /\
  forall i command x, commands !! i = Some command -> cy_results report !! i = Some x -> submitted st0 commands i command x st.
Lemma submitted_grows st0 commands more i command x st st' cs :
  moved cs st st' -> outbox_ok (queue st) -> submitted st0 commands i command x st -> submitted st0 (commands ++ more) i command x st'.
Proof.
  intros [[Hq _] _] Hok H Hs. destruct (Hq Hok) as (_ & new & Hl & _). destruct (H Hs) as (Hn & sub & Hsub & Hc & Hrow).
  split; [done|]. exists sub. split_and!; [done..|]. destruct Hrow as [[Hrow|(id & Hrow)]|(j & e & Hj & He & Hid)].
  - left. by left.
  - left. right. exists id. rewrite Hl. apply elem_of_app. by left.
  - right. exists j, e. split_and!; [done|by apply lookup_app_l_Some|done].
Qed.
(** The names taken while commands were processed. *)
Lemma earlier_name commands st st' id :
  moved commands st st' -> outbox_ok (queue st) -> (KIND_PROPOSAL, id) ∈ map name_of (ledger_of (queue st')) ->
  (KIND_PROPOSAL, id) ∈ map name_of (ledger_of (queue st)) \/ exists j c, commands !! j = Some c /\ ac_command_id c = id.
Proof.
  intros [[Hq _] _] Hok Hn. destruct (Hq Hok) as (_ & new & Hl & HF). rewrite Hl, map_app in Hn.
  apply elem_of_app in Hn as [Hn|(m & Hm & Hin)%list_elem_of_fmap]; [by left|]. right.
  destruct (proj1 (list.Forall_forall _ _) HF m Hin) as (_ & c & Hc & Hname). rewrite <- Hm in Hname.
  apply list_elem_of_lookup in Hc as [j Hj]. exists j, c. split; [done|]. by destruct Hname as [[= ->]|(status & _ & [=])].
Qed.
Lemma answer_submitted st0 before command x n st st' :
  moved before st0 st -> outbox_ok (queue st0) -> outbox_ok (queue st) -> n <> 0%Z -> cx_proposal_item_count x = n ->
  answered_with command n st st' -> submitted st0 (before ++ [command]) (length before) command x st'.
Proof.
  intros Hm Hok0 Hok Hn Hx (sub & Hsub & Hc & Hrow) _. rewrite Hx. split; [done|]. exists sub.
  split_and!; [by eapply submission_before|done|]. destruct Hrow as [Hrow|Hrow]; [|left; by right].
  destruct (earlier_name _ _ _ _ Hm Hok0 Hrow) as [Hr|(j & c & Hj & Hid)]; [left; by left|]. right. exists j, c.
  pose proof (lookup_lt_Some _ _ _ Hj). split_and!; [done|by apply lookup_app_l_Some|done].
Qed.
Lemma loop_reports commands i report before st0 st r st' :
  moved before st0 st -> outbox_ok (queue st0) -> reports_on st0 before report st ->
  io_for (fun _ report command => CommandProcessor.process_command box report command) i report commands st = (r, st') ->
  exists report', r = Ok report' /\ cy_inspected_count report' = cy_inspected_count report /\ reports_on st0 (before ++ commands) report' st'.
Proof.
  revert i report before st. induction commands as [|c commands IH]; intros i report before st Hm Hok0 Hrep; simpl.
  { intros [= <- <-]. rewrite app_nil_r. by exists report. }
  intros H. destruct (proj1 (proj1 Hm) Hok0) as [Hok _].
  apply io_bind_inv in H as [(report1 & st1 & H1 & H)|(e & H1 & _)];
    pose proof (command_moves [c] _ _ (list_elem_of_here _ _) _ _ _ H1) as Hq; apply command_answered in H1 as (report2 & Hr & Ha); [|done].
  injection Hr as <-. destruct Hrep as (R1 & R2 & R3).
  destruct (answered_counted _ _ _ _ _ _ Ha R2) as (Hc & Hi & x & Hx & Hid & Hsub).
  replace (before ++ c :: commands) with ((before ++ [c]) ++ commands) by (by rewrite <- app_assoc). rewrite <- Hi.
  assert (length (cy_results report) = length before) as Hlen by (rewrite <- (length_map reported), R1; apply length_map).
  eapply IH; [|exact Hok0| |exact H].
  { etrans; (eapply moved_more; [|first [exact Hm|exact Hq]]); set_solver. }
  split_and!; [rewrite Hx, !map_app, R1; by simpl; rewrite Hid|done|]. rewrite Hx.
  intros k command y [[Hk Hk']|[Hk Hk']]%lookup_snoc_Some Hy.
  - rewrite lookup_app_l in Hy by (by rewrite Hlen). eapply submitted_grows; [exact Hq|exact Hok|by apply R3].
  - subst. rewrite lookup_app_r, Hlen, Nat.sub_diag in Hy by lia. injection Hy as <-. intros Hs.
    destruct (Hsub Hs) as (n & Hn & Hd & Hxn). eapply answer_submitted; [exact Hm|done|done|exact Hn|exact Hxn| |done]. by apply dispatch_answers.
Qed.
End replies.

(** * Properties *)

(** C20: processing the commands of the server only proposes.  Whatever the commands say
    and whatever fails, no file or directory changes; the only writes are of a folder
    bound to its room and of mutations for the server, which are the proposals of these
    commands and their last statuses, queued as pending after the others. *)
Theorem commands_only_propose {N V DB : Type} `{!SqlDb DB, !SqlTx DB, !SqlCount DB, !Http N V, !CredentialStore N, !JsonValue V, !Json V}
    `{!PayloadCodecs V, !ResponseCodecs V, !WorkCodecs V, !CommandCodecs V, !TableDb DB OutboxTable, !Apart DB OutboxTable}
    (p : string) (commands : list (AgentCommand V)) (st st' : office N DB) r :
  outbox_ok (table_at p (machine_of st)) ->
  CommandProcessor.process_commands (mkOutboxStore (Some p)) commands st = (r, st') ->
  only_queues (machine_of st) (machine_of st') /\
  exists new, ledger_of (table_at p (machine_of st')) = ledger_of (table_at p (machine_of st)) ++ new /\
    Forall (reply_to commands) new.
Proof.
  intros Hok H. split.
  - assert (Offices only_queues (machines (N:=N) (only_queues (DB:=DB)))) as HS.
    { apply machines_offices; [apply _|apply quiet_only_queues|]. intros pool binds. apply statement_only_queues. by left. }
    eapply (commands_kept _ only_queues (machines only_queues) commands); [..|exact H]; intros; apply enqueue_only_queues.
  - by destruct (commands_queue p commands _ _ _ H Hok) as [_ Hnew].
Qed.

(** C23: processing answers for every command.  It always ends with a report that holds
    one result per command, in order, whose counters are those of the results.  For each
    command reported as submitted there is a submission for it and its room, with the number
    of items reported, at least one: what the command asks for - its parsed payload, on the
    files as they are - in an enabled folder that is its room's or was free.  And the queue
    holds the text of that submission as a pending row under the id of the command; unless
    the queue had a proposal under that id before, which is then left as it is, or an earlier
    command of the batch has the same id. *)
Theorem commands_each_reported {N V DB : Type} `{!SqlDb DB, !SqlTx DB, !SqlCount DB, !Http N V, !CredentialStore N, !JsonValue V, !Json V}
    `{!PayloadCodecs V, !ResponseCodecs V, !WorkCodecs V, !CommandCodecs V, !TableDb DB OutboxTable, !Apart DB OutboxTable}
    (p : string) (commands : list (AgentCommand V)) (st st' : office N DB) r :
  outbox_ok (table_at p (machine_of st)) ->
  CommandProcessor.process_commands (mkOutboxStore (Some p)) commands st = (r, st') ->
  exists report, r = Ok report /\ cy_inspected_count report = Z.of_nat (length commands) /\ counted report /\
    map reported (cy_results report) = map (fun c => (ac_command_id c, ac_command_type c)) commands /\
    forall i command x, commands !! i = Some command -> cy_results report !! i = Some x -> cx_status x = SubmittedProposal ->
      cx_proposal_item_count x <> 0%Z /\
      exists sub, submission_for st command sub /\ Z.of_nat (length (pb_items sub)) = cx_proposal_item_count x /\
        (row_of command sub (ledger_of (table_at p (machine_of st))) (ledger_of (table_at p (machine_of st'))) \/
         exists j earlier, j < i /\ commands !! j = Some earlier /\ ac_command_id earlier = ac_command_id command).
Proof.
  intros Hok H. apply (loop_reports p commands _ _ [] st) in H as (report & -> & Hi & Hids & Hc & Hsub); [|reflexivity|done|].
  - exists report. split_and!; [done..|]. intros i command x Hx Hy. by apply Hsub.
  - split_and!; [done|by split|]. intros i command x Hx. done.
Qed.

(** the end of a command that found nothing to do never reaches the server.  The
    queue holds its status SUCCEEDED, which the agent refuses without a request, so the
    flush gives it up for good and the command stays in analysis on the server. *)
Theorem clean_command_unreported {N V : Type} `{!Http N V, !CredentialStore N, !JsonValue V, !PayloadCodecs V, !ResponseCodecs V, !Sha256}
    (item : OutboxItem) (id : string) (st st' : AgentState * N) r :
  oi_kind item = KIND_COMMAND_STATUS -> from_text (oi_payload_json item) = Some (mkCommandStatusPayload id "SUCCEEDED") ->
  OutboxProcessor.dispatch (V:=V) item st = (r, st') ->
  st' = st /\ exists code, r = Err (Terminal code).
Proof.
  intros Hk Hp. unfold OutboxProcessor.dispatch. rewrite Hk. simpl. unfold OutboxProcessor.decode. rewrite Hp.
  unfold OutboxProcessor.delivering, Agent.update_command_status, io_bind, io_map_err, io_lift, io_fail. simpl.
  destruct (Validate.opaque_value "command id" id 200) as [u|e] eqn:Ho; simpl.
  - intros [= <- <-]. split; [done|]. by eexists.
  - unfold Validate.opaque_value in Ho. destruct (_ || _ || _); [|done]. injection Ho as <-.
    intros [= <- <-]. split; [done|]. by eexists.
Qed.
