(* ===== verification/desk_db.v ===== *)
(** Concrete databases of a desktop, and the background cleanup evaluated on them. *)
From Stdlib Require Import ZArith Lia Ascii.
From stdpp Require Import strings pretty gmap functions option list.
From S2P Require Import prelude rust_str std_path std_fs fs_facts db journal_store proposal_types decision auto_approval rule_definition index_sql tables outbox.
From S2P Require Import desk managed_roots proposal cleanliness agent network agent_work office outbox_processor command_processor delivery_facts approval_store auto_cleanup execute.
From S2P Require Import delegation auto_facts command_facts.

Open Scope string_scope.
Open Scope list_scope.


(** * The databases of a desktop in memory: the journal and the index of a root beside the
    outbox, and the network it asks.  They instantiate the third parties wherever a
    theorem about the processors is evaluated. *)

(** * A database with two owners *)

Definition deskdb : Type := MemDb * MemTables OutboxTable.
Definition of_outbox (sql : string) : bool := existsb (String.eqb sql) (sc_statements (T:=OutboxTable)).
Definition desk_execute (sql : string) (binds : list sql_value) (d : deskdb) : result unit string * deskdb :=
  if of_outbox sql then let '(r, t) := sql_execute sql binds d.2 in (r, (d.1, t))
  else let '(r, m) := sql_execute sql binds d.1 in (r, (m, d.2)).
Definition desk_fetch (sql : string) (binds : list sql_value) (d : deskdb) : result (list sql_row) string * deskdb :=
  if existsb (String.eqb sql) (sc_queries (T:=OutboxTable)) then let '(r, t) := sql_fetch_all sql binds d.2 in (r, (d.1, t))
  else let '(r, m) := sql_fetch_all sql binds d.1 in (r, (m, d.2)).
#[export] Instance desk_sql_db : SqlDb deskdb :=
  {| sql_connect d := (Ok tt, d); sql_execute := desk_execute; sql_fetch_all := desk_fetch |}.
#[export] Instance desk_sql_tx : SqlTx deskdb :=
  {| sql_begin d := let '(r, t) := sql_begin d.2 in (r, (d.1, t));
     sql_commit d := let '(r, t) := sql_commit d.2 in (r, (d.1, t));
     sql_rollback d := (d.1, sql_rollback d.2) |}.
#[export] Instance desk_sql_count : SqlCount deskdb := fun d => sql_changes d.2.

Lemma of_outbox_iff sql (l : list string) : existsb (String.eqb sql) l = true <-> sql ∈ l.
Proof.
  rewrite existsb_exists. split.
  - by intros (x & Hx & ->%String.eqb_eq); apply list_elem_of_In.
  - intros H. exists sql. split; [by apply list_elem_of_In|apply String.eqb_refl].
Qed.
#[export] Instance desk_outbox : TableDb deskdb OutboxTable.
Proof.
  unshelve econstructor; [exact (fun d => table d.2)|exact (fun d => saved_table d.2)|..].
  - by intros d r d' [= <- <-].
  - intros sql binds d r d' Hs H. cbn [sql_execute sql_fetch_all desk_sql_db] in H. unfold desk_execute, of_outbox in H.
    rewrite (proj2 (of_outbox_iff _ _) Hs) in H. destruct (sql_execute sql binds d.2) as [r1 t] eqn:Hx. injection H as <- <-.
    exact (execute_table _ _ _ _ _ Hs Hx).
  - intros sql binds d r d' Hs H. cbn [sql_execute sql_fetch_all desk_sql_db] in H. unfold desk_fetch in H.
    rewrite (proj2 (of_outbox_iff _ _) Hs) in H. destruct (sql_fetch_all sql binds d.2) as [r1 t] eqn:Hx. injection H as <- <-.
    exact (fetch_table _ _ _ _ _ Hs Hx).
  - by intros d r d' [= <- <-].
  - by intros d r d' [= <- <-].
  - done.
Defined.

Ltac each_of Hs := repeat (apply elem_of_cons in Hs as [->|Hs]; [reflexivity|]); by apply not_elem_of_nil in Hs.
Lemma foreign_not_outbox sql : sql ∈ foreign_statements -> of_outbox sql = false.
Proof. intros Hs. unfold foreign_statements, Db.schema_statements in Hs. each_of Hs. Qed.
Lemma foreign_query_not_outbox sql :
  sql ∈ foreign_queries -> existsb (String.eqb sql) (sc_queries (T:=OutboxTable)) = false.
Proof. intros Hs. unfold foreign_queries, Db.schema_queries in Hs. each_of Hs. Qed.
#[export] Instance desk_apart : Apart deskdb OutboxTable.
Proof.
  constructor; intros sql binds d r d' Hs H; cbn [sql_execute sql_fetch_all desk_sql_db] in H; unfold desk_execute, desk_fetch in H.
  - rewrite foreign_not_outbox in H by done. destruct (sql_execute sql binds d.1) as [r1 m]. by injection H as <- <-.
  - rewrite foreign_query_not_outbox in H by done. destruct (sql_fetch_all sql binds d.1) as [r1 m]. by injection H as <- <-.
Qed.
#[export] Instance desk_journal : JournalDb deskdb.
Proof.
  unshelve econstructor; [exact (fun d => journal_rows d.1)|..].
  - by intros d r d' [= <- <-].
  - intros sql d r d' Hs H. cbn [sql_execute sql_fetch_all desk_sql_db] in H. unfold desk_execute in H.
    rewrite foreign_not_outbox in H by (by right; right). destruct (sql_execute sql [] d.1) as [r1 m] eqn:Hx.
    injection H as <- <-. by eapply (schema_rows sql d.1).
  - intros sql binds d r d' H. cbn [sql_execute sql_fetch_all desk_sql_db] in H. unfold desk_fetch in H. destruct (existsb _ _).
    + destruct (sql_fetch_all sql binds d.2) as [r1 t]. by injection H as <- <-.
    + destruct (sql_fetch_all sql binds d.1) as [r1 m] eqn:Hx. injection H as <- <-. by eapply (fetch_rows sql binds d.1).
  - intros o st a f t ms d d' H. cbn [sql_execute sql_fetch_all desk_sql_db] in H. unfold desk_execute in H.
    rewrite foreign_not_outbox in H by (by right; left). destruct (sql_execute _ _ d.1) as [r1 m] eqn:Hx.
    injection H as -> <-. by eapply (insert_ok o st a f t ms d.1).
  - intros binds e d d' H. cbn [sql_execute sql_fetch_all desk_sql_db] in H. unfold desk_execute in H.
    rewrite foreign_not_outbox in H by (by right; left). destruct (sql_execute _ _ d.1) as [r1 m] eqn:Hx.
    injection H as -> <-. by eapply (insert_err binds e d.1).
  - intros d rows d' H. cbn [sql_execute sql_fetch_all desk_sql_db] in H. unfold desk_fetch in H. rewrite foreign_query_not_outbox in H by (by left).
    destruct (sql_fetch_all _ _ d.1) as [r1 m] eqn:Hx. injection H as -> _. by eapply (select_ok d.1).
  - intros d d' H. cbn [sql_execute sql_fetch_all desk_sql_db] in H. unfold desk_execute in H. change (of_outbox JournalStore.delete_sql) with false in H. cbv beta iota in H.
    destruct (sql_execute _ _ d.1) as [r1 m] eqn:Hx. injection H as -> <-. by eapply (delete_ok d.1).
  - intros e d d' H. cbn [sql_execute sql_fetch_all desk_sql_db] in H. unfold desk_execute in H. change (of_outbox JournalStore.delete_sql) with false in H. cbv beta iota in H.
    destruct (sql_execute _ _ d.1) as [r1 m] eqn:Hx. injection H as -> <-. by eapply (delete_err e d.1).
Defined.

(** * A server that takes everything *)

Inductive helpful := Helpful.
Definition sample_answer (url : string) : string := if contains url "/executions" then "exec-1" else "cmd-1".
#[export] Instance helpful_http : Http helpful value_tree := {|
  http_send req n := (Some (mkHttpResponse 200 (sample_answer (rq_url req))), n); http_status_text := fmt_int |}.
#[export] Instance helpful_keys : CredentialStore helpful := no_keyring _.
Definition text_of_tree (v : value_tree) : string :=
  match v with TObject [(key, TInt n)] => key +:+ "=" +:+ fmt_int n | TObject [(key, TText s)] => key +:+ "=" +:+ s | _ => "" end.
#[export] Instance desk_payloads : PayloadCodecs value_tree := {|
  codec_execution := {| to_text p := xp_execution_id p +:+ "|" +:+ xp_status p +:+ "|" +:+ text_of_tree (xp_result_summary p);
                        from_text t := None |};
  codec_proposal := {| to_text p := pb_command_id p; from_text t := None |};
  codec_command := {| to_text p := cp_command_id p +:+ "|" +:+ cp_status p;
                      from_text t := match parts t with [id; status] => Some (mkCommandStatusPayload id status) | _ => None end |};
  codec_transfer := no_codec _; codec_cache := no_codec _; codec_stale := no_codec _; codec_snapshot := no_codec _ |}.
#[export] Instance desk_responses : ResponseCodecs value_tree := {|
  codec_server_error := no_codec _;
  codec_server_command := {| to_text r := sc_id r; from_text t := Some (mkServerCommand t "TRASH" "room-1" "ANALYZING" (TObject [])) |};
  codec_file_transfer := no_codec _; codec_cached_file := no_codec _; codec_stale_result := no_codec _; codec_room_snapshot := no_codec _;
  codec_execution_result := {| to_text r := er_id r; from_text t := Some (mkExecutionResponse t "EXECUTING") |} |}.
#[export] Instance desk_work : WorkCodecs value_tree := {|
  codec_commands := no_codec _;
  codec_rooms := {| to_text _ := ""; from_text _ := Some [mkServerRoom "room-1" "device-1" "Docs" "root-1" "ACTIVE"] |};
  codec_decisions := no_codec _ |}.
#[export] Instance desk_reports : ToValue value_tree ExecuteReport :=
  fun r => Ok (TObject [("executedCount", TInt (xr_executed_count r))]).
(** One file to the trash. *)
#[export] Instance desk_commands : CommandCodecs value_tree := {|
  codec_organize := fun _ => Err "not a payload"; codec_rename := fun _ => Err "not a payload"; codec_move := fun _ => Err "not a payload";
  codec_trash := fun _ => Ok (mkTrashCommandPayload "root-1" ["docs/b.txt"]);
  codec_create := fun _ => Err "not a payload"; codec_rule_set := fun _ => Err "not a rule set";
  codec_contract := fun _ => Err "not a rule"; codec_rules_text := fun _ => Err "not a rule set" |}.

(** * The desktop *)

Definition docs_root : ManagedRoot := mkManagedRoot "root-1" sample_root "Docs" true true RootReady None 0 0 None None Unbound.
Definition desk_machine : world deskdb :=
  mkWorld sample_tree (fun _ => (mem_empty, mem_of (mkOutboxTable [] 1))) steady_clock 0 no_faults 0 100 [].
Definition desk : office helpful deskdb := ((paired, Helpful), (mkRootStore {[ "root-1" := docs_root ]} None, desk_machine)).
Lemma desk_outbox_ok : outbox_ok (table_at outbox_db (machine_of desk)).
Proof. split; constructor. Qed.

(** ** The commands of the server *)

Definition desk_command (status : string) : AgentCommand value_tree := mkAgentCommand "cmd-1" "TRASH" "room-1" status (TObject []).
Definition desk_queue : list (AgentCommand value_tree) :=
  [desk_command "QUEUED"; mkAgentCommand "cmd-2" "FIND" "room-1" "ANALYZING" (TObject []); desk_command "SUCCEEDED"].
Definition processed := CommandProcessor.process_commands (V:=value_tree) sample_outbox desk_queue desk.

(** Conversion compares these runs before it computes them. *)
Strategy 1000 [processed].
Lemma commands_only_propose_witness :
  only_queues (machine_of desk) (machine_of processed.2) /\
  map mu_key (ledger_of (table_at outbox_db (machine_of processed.2))) = ["cmd-1"; "cmd-2:FAILED"].
Proof.
  split; [|vm_compute; reflexivity].
  unfold sample_outbox, processed. destruct (CommandProcessor.process_commands _ _ _) as [r st'] eqn:H.
  exact (proj1 (commands_only_propose outbox_db desk_queue desk st' r desk_outbox_ok H)).
Defined.
Lemma commands_each_reported_witness :
  exists report, processed.1 = Ok report /\ cy_inspected_count report = 3%Z /\ cy_submitted_proposal_count report = 1%Z.
Proof.
  assert (match processed.1 with Ok report => (cy_submitted_proposal_count report =? 1)%Z | Err _ => false end = true) as Hsub
    by (vm_compute; reflexivity).
  unfold sample_outbox, processed in *. destruct (CommandProcessor.process_commands _ _ _) as [r st'] eqn:H.
  destruct (commands_each_reported outbox_db desk_queue desk st' r desk_outbox_ok H) as (report & -> & Hi & _).
  exists report. split_and!; [done|exact Hi|]. by apply Z.eqb_eq.
Defined.
Definition clean_item : OutboxItem := mkOutboxItem 1 KIND_COMMAND_STATUS "cmd-1:SUCCEEDED" "cmd-1|SUCCEEDED" 0.
#[export] Instance desk_sha : Sha256 := fun s => s.
Definition refused := OutboxProcessor.dispatch (V:=value_tree) clean_item desk.1.
Lemma clean_command_unreported_witness : refused.2 = desk.1 /\ exists code, refused.1 = Err (Terminal code).
Proof.
  assert (from_text (oi_payload_json clean_item) = Some (mkCommandStatusPayload "cmd-1" "SUCCEEDED")) as Hp by (vm_compute; reflexivity).
  unfold refused. destruct (OutboxProcessor.dispatch clean_item desk.1) as [r st'] eqn:H.
  exact (clean_command_unreported (V:=value_tree) clean_item "cmd-1" desk.1 st' r eq_refl Hp H).
Defined.

(** * The background cleanup and its submissions on concrete machines. *)

(** A folder bound to a room, another that left its room, and a policy of the first. *)
Definition bound_root : ManagedRoot := mkManagedRoot "root-1" sample_root "Docs" true true RootReady None 0 0 (Some "room-1") None Active.
Definition left_root : ManagedRoot := mkManagedRoot "root-2" "/home/other" "Other" true true RootReady None 0 0 None (Some "room-2") Detached.
Definition sample_folders : RootStore := mkRootStore {[ "root-1" := bound_root; "root-2" := left_root ]} None.
Definition move_policy : AutoApprovalPolicyRecord := mkPolicyRecord "root-1" true [Move] 5 None 0.
Definition no_rules : string -> result RuleSet string := fun _ => Err "".

Definition scanned_state : AutoApprovalStore * (RootStore * world MemDb) :=
  (mkApprovalStore {[ "root-1" := move_policy ]} None, (sample_folders, sample_machine)).
Definition scanned := AutoCleanup.process_auto_cleanup no_rules scanned_state.

(** Conversion compares these runs before it computes them. *)
Strategy 1000 [scanned].

Lemma cleanup_only_proposes_witness :
  exists report, scanned.1 = Ok report /\ w_fs scanned.2.2.2 = w_fs sample_machine /\ cl_inspected_count report = 2%Z /\
    map ce_root_id (cl_proposals report) = ["root-1"] /\ map ce_auto_approved_count (cl_proposals report) = [2%Z].
Proof.
  assert (match scanned.1 with
          | Ok report => bool_decide (map ce_root_id (cl_proposals report) = ["root-1"] /\ map ce_auto_approved_count (cl_proposals report) = [2%Z])
          | Err _ => false end = true) as Htold by (vm_compute; reflexivity).
  unfold scanned in *. destruct (AutoCleanup.process_auto_cleanup _ _) as [r st'] eqn:H.
  destruct (cleanup_only_proposes no_rules scanned_state r st' H) as ((_ & _ & (Hfs & _) & _) & report & -> & Hn & _).
  exists report. destruct (bool_decide_eq_true_1 _ Htold) as [H1 H2]. split_and!; [done|exact Hfs|exact Hn|exact H1|exact H2].
Defined.

(** ** A submission *)

#[local] Instance hex_hash : Sha256 := fun _ => zeros 64.
#[export] Instance open_proposals : Serde (list value_tree) := {| to_text _ := "[]"; from_text _ := Some [] |}.
#[export] Instance report_text : Serde ProposalReport := {| to_text rep := pr_root rep; from_text _ := None |}.
Definition found_report : ProposalReport := match scanned.1 with Ok report => from_option ce_proposal (mkProposalReport "" []) (head (cl_proposals report)) | Err _ => mkProposalReport "" [] end.
Definition submitting : office (taped helpful value_tree) MemDb := ((paired, mkTaped [] Helpful), (sample_folders, sample_machine)).
Definition autonomously := AutoProposal.submit_one "root-1" found_report submitting.
Strategy 1000 [autonomously found_report].

Lemma autonomous_retry_repeats_witness :
  autonomously.1 = Ok true /\ map rq_method (tp_requests autonomously.2.1.2) = ["GET"; "POST"; "POST"] /\
  exists command base c before,
    tp_requests autonomously.2.1.2 = before ++ [proposal_request "root-1" found_report command base c].
Proof.
  assert (autonomously.1 = Ok true) as Hok by (vm_compute; reflexivity).
  split; [exact Hok|]. split; [vm_compute; reflexivity|].
  assert (ms_roots submitting.2.1 !! "root-1" = Some bound_root) as Hroot by reflexivity.
  unfold autonomously in *. destruct (AutoProposal.submit_one _ _ _) as [r st'] eqn:H.
  exact (proj2 (autonomous_retry_repeats "root-1" found_report submitting bound_root "room-1" r st' Hroot eq_refl H) Hok).
Defined.
