(* ===== verification/execution_facts.v ===== *)
(** What an approved decision does on a desktop: inside the folder of its room, and
    reported to the server. *)
From Stdlib Require Import ZArith Lia Ascii.
From stdpp Require Import strings pretty gmap functions option list.
From S2P Require Import prelude rust_str rule_definition std_path std_fs fs_facts path_guard db journal_store.
From S2P Require Import proposal_types decision analyzer proposal precondition trash execute undo history file_ops.
From S2P Require Import engine_safety engine_guard engine.
From S2P Require Import index_sql tables outbox desk managed_roots agent agent_work office.
From S2P Require Import outbox_processor execution_processor command_facts desk_db delivery_facts.

Open Scope string_scope.
Open Scope list_scope.

(** * The outbox during an execution *)

Section apart.
Context {DB T : Type} `{Apart DB T} (p : string).
Implicit Types w : world DB.

Lemma same_db_table w w' : w_db w' = w_db w -> same_table (T:=T) p w w'.
Proof. intros H'. unfold same_table, table_at. by rewrite H'. Qed.
Lemma only_same_table {E A} P (m : io (world DB) E A) : io_rel (only P) m -> io_rel (same_table (T:=T) p) m.
Proof. intros Hm w r w' Hr. apply same_db_table. by destruct (Hm _ _ _ Hr). Qed.
#[export] Instance same_table_change : ChangeRel (same_table (T:=T) p).
Proof.
  unshelve econstructor; [unshelve econstructor|..]; [apply _|..].
  - intros w w' (_ & Hd & _). by apply same_db_table.
  - intros q. eapply only_same_table, create_dir_only.
  - intros q. eapply only_same_table, create_new_only.
  - intros s e. unfold JournalStore.append. io_rel_go. apply apart_statement. right. by left.
  - intros root. unfold JournalStore.open. io_rel_go. apply open_root_db_rel; [apply _|..].
    + intros q. eapply only_same_table, create_dir_all_only.
    + intros q. apply apart_connect.
    + intros q sql Hs. apply apart_statement. by right; right.
    + intros q sql Hs. apply apart_query. by right.
  - intros s. unfold JournalStore.read_raw. io_rel_go. apply apart_query. by left.
  - intros q1 q2. eapply only_same_table, fs_rename_only.
  - intros q. eapply only_same_table, remove_file_only.
  - intros q. eapply only_same_table, remove_dir_only.
  - intros q. eapply only_same_table, file_create_only.
  - intros q c. eapply only_same_table, file_append_only.
Qed.
End apart.

Section execution.
Context {N V DB : Type} `{!SqlDb DB, !SqlTx DB, !SqlCount DB, !Http N V, !CredentialStore N, !JsonValue V, !Json V}.
Context `{!PayloadCodecs V, !ResponseCodecs V, !WorkCodecs V, !ToValue V ExecuteReport}.
Context (to_string_pretty : TrashMetadata -> result string string).
Implicit Types (st : office N DB) (decision : AgentPendingDecision V).

(** ** The queue *)

Section queue.
Context `{!TableDb DB OutboxTable, !Apart DB OutboxTable} (p : string).
Abbreviation same := (machines (N:=N) (same_table (DB:=DB) (T:=OutboxTable) p)).
Let same_preorder := machines_preorder (N:=N) (same_table (DB:=DB) (T:=OutboxTable) p).
Local Existing Instance same_preorder.

Lemma ensure_same id room : io_rel same (on_roots (ManagedRoots.ensure_active_room_binding id room)).
Proof.
  apply on_roots_machines, ensure_worlds; [apply _|intros w w'; apply step_quiet|].
  intros pool binds. apply apart_statement. by left.
Qed.
Lemma approved_same decision :
  io_rel same (ExecutionProcessor.execute_approved_decision (N:=N) to_string_pretty decision).
Proof.
  unfold ExecutionProcessor.execute_approved_decision.
  apply io_rel_bind; [apply _|apply on_agent_machines, _|]. intros room.
  apply io_rel_bind; [apply _|apply ensure_same|]. intros root. destruct (negb _); [apply io_rel_fail, _|].
  apply io_rel_bind; [apply _|apply on_machine_machines, io_rel_gets, _|]. intros f.
  apply io_rel_bind; [apply _|apply io_rel_lift, _|]. intros rep.
  apply on_machine_machines, io_rel_map_err, execute_decisions_rel, _.
Qed.
End queue.

(** ** The folder *)

(** The lookup changes no file. *)
Lemma ensure_queues id room : io_rel (machines (N:=N) only_queues) (on_roots (ManagedRoots.ensure_active_room_binding (DB:=DB) id room)).
Proof.
  apply on_roots_machines, ensure_worlds; [apply _|apply quiet_only_queues|].
  intros pool binds. apply statement_only_queues. by left.
Qed.
Lemma binds_inside q l : Forall binds_or_queues l -> Forall (inside q) l.
Proof. intros H. eapply Forall_impl; [exact H|]. by intros e (pool & sql & binds & -> & _). Qed.

(** ** The proposals *)
Lemma item_action (item : AgentProposalItemRecord V) p :
  ExecutionProcessor.local_proposal_from_item item = Ok p -> ExecutionProcessor.action_of (ir_action_type item) = Ok (p_action p).
Proof.
  unfold ExecutionProcessor.local_proposal_from_item. destruct (ExecutionProcessor.action_of _) as [a|]; [|done]. simpl.
  destruct (ExecutionProcessor.source_of _ _); [|done]. simpl. destruct (ExecutionProcessor.destination_of _ _); [|done]. simpl.
  destruct (ExecutionProcessor.status_of _); [|done]. simpl. destruct (ExecutionProcessor.precondition_snapshot (ir_precondition item)) as [[? ?] ?].
  by destruct (if bool_decide _ then _ else _); [intros [= <-]|].
Qed.
Lemma action_readme s : ExecutionProcessor.action_of s = Ok ReadmeWrite -> s = "README_WRITE".
Proof.
  unfold ExecutionProcessor.action_of.
  repeat match goal with |- context [(s =? ?x)%string] => destruct (String.eqb_spec s x) as [Hs|_]; [done|] end. done.
Qed.
Lemma report_guard f root (items : list (AgentProposalItemRecord V)) rep :
  ExecutionProcessor.build_local_proposal_report f root items = Ok rep ->
  (exists g, PathGuard.new f root = Ok g) /\
  (Forall (fun item => ir_action_type item <> "README_WRITE") items -> ReadmeWrite ∉ map p_action (pr_proposals rep)).
Proof.
  unfold ExecutionProcessor.build_local_proposal_report. destruct items as [|i0 items0]; [done|]. set (items := i0 :: items0).
  destruct (PathGuard.new f root) as [g|]; [|done]. simpl. destruct (try_map _ _) as [ps|] eqn:Hps; [|done]. intros [= <-]. split; [by exists g|].
  intros Hno (p & Ha & Hp)%list_elem_of_fmap. simpl in Hp. apply try_map_ok in Hps.
  apply list_elem_of_lookup in Hp as [k Hk]. destruct (Forall2_lookup_r _ _ _ _ _ Hps Hk) as (item & Hitem & Hi).
  rewrite list.Forall_forall in Hno. apply (Hno item); [|apply action_readme; rewrite Ha; by apply item_action].
  rewrite <- (sort_by_perm ExecutionProcessor.order_cmp items). by eapply list_elem_of_lookup_2.
Qed.
End execution.

(** ** An execution, step by step *)

Section approved.
Context {N V DB : Type} `{!SqlDb DB, !SqlTx DB, !SqlCount DB, !Http N V, !CredentialStore N, !JsonValue V, !Json V}.
Context `{!PayloadCodecs V, !ResponseCodecs V, !WorkCodecs V, !ToValue V ExecuteReport}.
Context (to_string_pretty : TrashMetadata -> result string string).

(** Either nothing happens to the files, or the proposals of the decision are executed
    in the folder of its room. *)
Lemma approved_run (decision : AgentPendingDecision V) (st : office N DB) r st' :
  ExecutionProcessor.execute_approved_decision (N:=N) to_string_pretty decision st = (r, st') ->
  exists w1, only_queues (machine_of st) w1 /\
  (machine_of st' = w1 \/
   exists id root rep r0, ms_roots st'.2.1 !! id = Some root /\ bound_to (pd_room_id decision) root /\ mr_enabled root = true /\
     ExecutionProcessor.build_local_proposal_report (w_fs w1) (mr_root root) (pd_items decision) = Ok rep /\
     Execute.execute_decision_application to_string_pretty (mr_root root) (mkDecisionApplication rep []) w1 = (r0, machine_of st')).
Proof.
  unfold ExecutionProcessor.execute_approved_decision.
  intros [(room & st1 & H1 & H)|(e & H1 & _)]%io_bind_inv; apply on_agent_run in H1 as (r1 & a & _ & _ & ->);
    [|exists (machine_of st); split; [reflexivity|by left]].
  apply io_bind_inv in H as [(root & st2 & H2 & H)|(e & H2 & _)];
    pose proof (ensure_queues _ _ _ _ _ H2) as Hq; [|eexists; split; [exact Hq|by left]].
  exists (machine_of st2). split; [exact Hq|]. clear Hq.
  apply on_roots_run in H2 as (s & H2 & ->). apply ensure_bound in H2 as [Hb Hid].
  destruct (mr_enabled root) eqn:He; [|by injection H as _ <-; left]. simpl in H.
  apply io_bind_inv in H as [(f & st3 & H3 & H)|(e & H3 & _)]; apply on_machine_run in H3 as (w & H3 & ->); [|done].
  injection H3 as <- <-. apply io_bind_inv in H as [(rep & st3 & H3 & H)|(e & H3 & _)]; [|by injection H3 as _ <-; left].
  injection H3 as H3 <-. apply on_machine_run in H as (w & (r0 & H & _)%io_map_err_inv & ->). right.
  exists (ry_root_id room), root, rep, r0. by split_and!.
Qed.
End approved.

(** * Properties *)

(** C19: an approved decision is executed inside the folder of its room.  Whatever the
    server sends and whatever fails, either no file or directory changes, or the folder is
    registered, enabled and bound to the room of the decision; then every rename leads from a
    path below that folder to one below it, nothing is removed, the folder is still a
    directory, and unless the decision approves a README write every file of the file system
    is still there, with its contents.  Where new entries are made is not restricted:
    [move_makes_directory_outside] makes a directory elsewhere. *)
Theorem delegated_execution_stays_inside {N V DB : Type} `{!SqlDb DB, !JournalDb DB, !SqlTx DB, !SqlCount DB}
    `{!Http N V, !CredentialStore N, !JsonValue V, !Json V, !PayloadCodecs V, !ResponseCodecs V, !WorkCodecs V, !ToValue V ExecuteReport}
    (to_string_pretty : TrashMetadata -> result string string) (decision : AgentPendingDecision V) (st st' : office N DB) r :
  wf_tree (w_fs (machine_of st)) ->
  ExecutionProcessor.execute_approved_decision (N:=N) to_string_pretty decision st = (r, st') ->
  w_fs (machine_of st') = w_fs (machine_of st) \/
  exists id root g q l, ms_roots st'.2.1 !! id = Some root /\ bound_to (pd_room_id decision) root /\ mr_enabled root = true /\
    PathGuard.new (w_fs (machine_of st)) (mr_root root) = Ok g /\ path_guard.root g = abs_path q /\ dir_at (w_fs (machine_of st')) q /\
    w_log (machine_of st') = w_log (machine_of st) ++ l /\ Forall (inside q) l /\
    (Forall (fun item => ir_action_type item <> "README_WRITE") (pd_items decision) ->
     files_kept every_file (w_fs (machine_of st)) (w_fs (machine_of st'))).
Proof.
  intros Hwf (w1 & [Hfs (l1 & Hl1 & HF1)] & [Hst'|(id & root & rep & r0 & Hid & Hb & He & Hrep & Hx)])%approved_run.
  { left. by rewrite Hst'. }
  right. rewrite <- Hfs in Hwf |- *. apply report_guard in Hrep as [[g Hg] Hreadme].
  destruct (new_guard_at _ Hwf _ _ Hg) as (q & [Hq Hd] & _).
  destruct (execute_decisions_kept to_string_pretty (fun f => dir_at f q) (inside q) any_tree q
              (mr_root root) (mkDecisionApplication rep []) g w1 r0 (machine_of st')) as ([_ Hd'] & (l & Hl & HF) & _); try apply _; try done.
  { intros g' s c i _ _. apply execute_readme_contained. }
  exists id, root, g, q, (l1 ++ l). split_and!; try done.
  - by rewrite Hl, Hl1, app_assoc.
  - apply Forall_app. split; [by apply binds_inside|done].
  - intros Hno%Hreadme. destruct (execute_decisions_kept to_string_pretty (fun f => dir_at f q) (fun _ => True) (files_kept every_file) q
      (mr_root root) (mkDecisionApplication rep []) g w1 r0 (machine_of st')) as (_ & _ & Hk); try apply _; done.
Qed.

(** C22: an execution is claimed before it starts, and its outcome is queued for the
    server.  Without the claim no file, folder or queue is touched.  With it, the outcome
    the desktop reports locally, done or failed, is the mutation queued under the
    execution's identifier, once; only when the queue itself cannot be written the
    execution ends as failed with nothing queued. *)
Theorem claimed_execution_is_reported {N V DB : Type} `{!SqlDb DB, !SqlTx DB, !SqlCount DB, !Http N V, !CredentialStore N, !JsonValue V, !Json V}
    `{!PayloadCodecs V, !ResponseCodecs V, !WorkCodecs V, !ToValue V ExecuteReport, !TableDb DB OutboxTable, !Apart DB OutboxTable}
    (to_string_pretty : TrashMetadata -> result string string) (p : string) (decision : AgentPendingDecision V) (st st' : office N DB) r :
  outbox_ok (table_at p (machine_of st)) ->
  ExecutionProcessor.process_decision (N:=N) to_string_pretty (mkOutboxStore (Some p)) decision st = (r, st') ->
  match AgentWork.create_execution (V:=V) (pd_proposal_id decision) (pd_decision_id decision) st.1 with
  | (Err e, a) => r = Err (fmt_error e) /\ st' = (a, st.2)
  | (Ok execution, a) =>
      exists r0 st1, ExecutionProcessor.execute_approved_decision (N:=N) to_string_pretty decision (a, st.2) = (r0, st1) /\
        w_fs (machine_of st') = w_fs (machine_of st1) /\
        let '(status, summary) := ExecutionProcessor.outcome_report (V:=V) r0 in
        let payload := to_text (mkExecutionResultPayload (ex_execution_id execution) status summary) in
        (r = r0 /\
         ledger_does (ledger_of (table_at p (machine_of st))) (OEnqueue KIND_EXECUTION_RESULT (ex_execution_id execution) payload) ADone
           (ledger_of (table_at p (machine_of st'))) \/
         is_ok r = false /\ ledger_of (table_at p (machine_of st')) = ledger_of (table_at p (machine_of st)))
  end.
Proof.
  intros Hok. unfold ExecutionProcessor.process_decision.
  intros [(execution & st1 & H1 & H)|(e & H1 & ->)]%io_bind_inv; apply on_agent_run in H1 as (r1 & a & -> & Hr & ->).
  2: { destruct r1; [done|]. by injection Hr as <-. }
  destruct r1 as [x|]; [|done]. injection Hr as <-.
  unfold io_bind at 1, io_try in H. destruct (ExecutionProcessor.execute_approved_decision _ _ _) as [r0 st2] eqn:Hx.
  pose proof (approved_same to_string_pretty p _ _ _ _ Hx) as Hsame. unfold machines, same_table in Hsame.
  change (machine_of (a, st.2)) with (machine_of st) in Hsame.
  exists r0, st2. split; [done|]. destruct (ExecutionProcessor.outcome_report r0) as [status summary].
  apply io_bind_inv in H as [(u & st3 & H & Hr)|(e & H & ->)]; apply on_machine_run in H as (w & H & Hst);
    apply enqueue_run in H as ((Hfs & _) & _ & Hl); try (by rewrite Hsame).
  - injection Hr as <- <-. subst st3. rewrite <- Hsame. by split; [|left].
  - subst st'. rewrite <- Hsame. by split; [|right].
Qed.

(** * Witnesses *)

Definition desk_item (order : Z) (action from : string) (to : option string) (size : Z) : AgentProposalItemRecord value_tree :=
  mkAgentProposalItemRecord order action (Some from) to "RULE" (TObject [("sourceSizeBytes", TInt size); ("sourceModifiedUnixMs", TInt 1600000000000)]) "NONE".
(** A move and a trash, given in the other order. *)
Definition desk_decision : AgentPendingDecision value_tree :=
  mkAgentPendingDecision "dec-1" "prop-1" "room-1"
    [desk_item 1 "QUARANTINE" "docs/b.txt" None 6; desk_item 0 "MOVE" "a.txt" (Some "docs/a.txt") 5].
Definition executed := ExecutionProcessor.execute_approved_decision sample_pretty desk_decision desk.
Definition decided := ExecutionProcessor.process_decision sample_pretty sample_outbox desk_decision desk.
(** Conversion compares these runs before it computes them. *)
Strategy 1000 [executed decided].

Lemma delegated_execution_stays_inside_witness :
  match executed.1 with Ok rep => xr_executed_count rep = 2%Z | Err _ => False end /\
  files_kept every_file sample_tree (w_fs (machine_of executed.2)).
Proof.
  split; [vm_compute; reflexivity|].
  assert (w_fs (machine_of executed.2) !! ["home"; "root"; "docs"; "a.txt"] = Some (file_of "hello" 6)) as Hmoved by (vm_compute; reflexivity).
  assert (sample_tree !! ["home"; "root"; "docs"; "a.txt"] = None) as Hfree by (vm_compute; reflexivity).
  destruct executed as [r st'] eqn:H.
  destruct (delegated_execution_stays_inside sample_pretty desk_decision desk st' r sample_wf H)
    as [Hsame|(id & root & g & q & l & _ & _ & _ & _ & _ & _ & _ & _ & Hkept)].
  - simpl in Hmoved. rewrite Hsame in Hmoved. change (w_fs (machine_of desk)) with sample_tree in Hmoved. congruence.
  - apply Hkept. repeat constructor; done.
Defined.

Lemma claimed_execution_is_reported_witness :
  is_ok decided.1 = true /\
  map (fun m => (mu_kind m, mu_key m, mu_delivery m)) (ledger_of (table_at outbox_db (machine_of decided.2)))
    = [(KIND_EXECUTION_RESULT, "exec-1", Pending)] /\
  exists status summary, ledger_does [] (OEnqueue KIND_EXECUTION_RESULT "exec-1" (to_text (mkExecutionResultPayload (V:=value_tree) "exec-1" status summary)))
    ADone (ledger_of (table_at outbox_db (machine_of decided.2))).
Proof.
  assert (is_ok decided.1 = true) as Hok by (vm_compute; reflexivity).
  split; [exact Hok|]. split; [vm_compute; reflexivity|].
  unfold sample_outbox, decided in *. destruct (ExecutionProcessor.process_decision _ _ _ _) as [r st'] eqn:H.
  pose proof (claimed_execution_is_reported sample_pretty outbox_db desk_decision desk st' r desk_outbox_ok H) as Hr.
  destruct (AgentWork.create_execution (V:=value_tree) (pd_proposal_id desk_decision) (pd_decision_id desk_decision) desk.1)
    as [[execution|e] a] eqn:Hc.
  2: { assert (is_ok (AgentWork.create_execution (V:=value_tree) (pd_proposal_id desk_decision) (pd_decision_id desk_decision) desk.1).1 = true)
         as Hclaim by (vm_compute; reflexivity). by rewrite Hc in Hclaim. }
  assert (ex_execution_id execution = "exec-1") as Hid.
  { set (id_of (x : result AgentExecution AgentError * (AgentState * helpful)) := match x with (Ok ex, _) => ex_execution_id ex | _ => "" end).
    change (id_of (Ok execution, a) = "exec-1"). rewrite <- Hc. vm_compute. reflexivity. }
  destruct Hr as (r0 & st1 & _ & _ & Hr). destruct (ExecutionProcessor.outcome_report r0) as [status summary].
  exists status, summary. rewrite <- Hid. destruct Hr as [[_ Hdoes]|[Hfail _]]; [exact Hdoes|]. simpl in Hok. congruence.
Defined.

(** ** Edge cases *)

(** When the queue cannot be written the files are moved and the server hears nothing:
    the claimed execution has no result. *)
Definition full_desk : office helpful deskdb :=
  (desk.1, (desk.2.1, mkWorld sample_tree (fun _ => (mem_empty, mkMemTables (mkOutboxTable [] 1) (mkOutboxTable [] 1) 0 (Some 0%nat)))
                        steady_clock 0 no_faults 0 100 [])).
Definition unreported := ExecutionProcessor.process_decision sample_pretty sample_outbox desk_decision full_desk.
Example full_queue_hides_execution :
  is_ok unreported.1 = false /\ ledger_of (table_at outbox_db (machine_of unreported.2)) = [] /\
  w_fs (machine_of unreported.2) !! ["home"; "root"; "docs"; "a.txt"] = Some (file_of "hello" 6).
Proof. split_and!; vm_compute; reflexivity. Qed.
