(* ===== verification/move_undo.v ===== *)
(** Moving and undoing: what a finished [execute_move] did to the tree and to the
    journal, and that [undo_move] takes it back. *)
From Stdlib Require Import ZArith Lia Ascii.
From stdpp Require Import strings pretty gmap functions option list relations.
From S2P Require Import prelude rust_str rule_definition std_path std_fs fs_facts path_guard db.
From S2P Require Import journal_store proposal_types decision analyzer proposal.
From S2P Require Import precondition trash execute undo history engine_safety.

Open Scope string_scope.
Open Scope list_scope.

(** * Parents of absolute paths *)

Lemma trim_right_abs rs :
  inner_components (reverse (trim_right true rs)) = inner_components (reverse rs) /\
  match trim_right true rs with [] => True | s :: _ => skipped_seg s = false end.
Proof.
  induction rs as [|s rs [IH1 IH2]]; simpl; [done|]. unfold skipped_seg.
  destruct (is_empty s || is_dot s) eqn:Hs.
  - rewrite andb_true_r, Hs. split; [|done].
    rewrite IH1, reverse_cons, inner_components_app. unfold inner_components at 3.
    rewrite filter_cons, decide_False; [by rewrite filter_nil, app_nil_r|].
    unfold skipped_seg. rewrite Hs. by intros [].
  - rewrite andb_true_r, Hs. done.
Qed.
Lemma trim_right_sub abs rs : trim_right abs rs `suffix_of` rs.
Proof.
  induction rs as [|s rs IH]; simpl; [done|]. case_match; [by apply suffix_cons_r|done].
Qed.

Lemma components_parent p pa :
  is_absolute p = true -> path_parent p = Some pa ->
  is_absolute pa = true /\ exists c, components p = components pa ++ [c].
Proof.
  destruct p as [|c p]; [done|]. simpl. intros Hc. assert (c = "/"%char) as -> by (by apply Ascii.eqb_eq).
  unfold path_parent. simpl. destruct (trim_right true (reverse (split_slash p))) as [|s r] eqn:Ht; [done|].
  intros [= <-]. rewrite components_cons_slash. split; [done|].
  destruct (trim_right_abs (reverse (split_slash p))) as [H1 H2]. rewrite Ht in H1, H2.
  rewrite reverse_involutive in H1. rewrite <- H1, reverse_cons, inner_components_app.
  exists (seg_component s). unfold inner_components at 2. rewrite filter_cons, decide_True by (by rewrite H2).
  rewrite filter_nil. change ("/" +:+ join "/" (reverse (trim_right true r)))
    with (String "/" (join "/" (reverse (trim_right true r)))).
  rewrite components_cons_slash. simpl. f_equal. f_equal.
  destruct (trim_right_abs r) as [<- _]. destruct (reverse (trim_right true r)) as [|x l] eqn:Hr; [done|].
  rewrite split_slash_join; [done|done|]. rewrite <- Hr.
  apply Forall_reverse. eapply list.Forall_forall. intros y Hy.
  destruct (trim_right_sub true r) as [k Hk].
  pose proof (trim_right_sub true (reverse (split_slash p))) as [k' Hk']. rewrite Ht in Hk'.
  pose proof (split_slash_no_slash p) as Hns. rewrite list.Forall_forall in Hns. apply Hns.
  rewrite <- elem_of_reverse, Hk', elem_of_app, elem_of_cons, Hk, elem_of_app. auto.
Qed.

(** * Walks *)

Lemma walk_app_inv n f fl cur l s p :
  walk n f false fl cur (l ++ [Normal s]) = Ok p ->
  exists n' d, walk n f false true cur l = Ok d /\ walk n' f false fl d [Normal s] = Ok p.
Proof.
  revert cur l. induction n as [n IHn] using lt_wf_ind. intros cur l. revert cur.
  induction l as [|c l IH]; intros cur Hw.
  { exists n, cur. by rewrite walk_nil. }
  cbn [app] in Hw. rewrite walk_cons in *. destruct c as [| | |x]; try by apply IH.
  rewrite (bool_decide_false (l ++ [Normal s] = [])) in Hw by (by destruct l).
  destruct (f !! (cur ++ [x])) as [i|]; [|done].
  destruct (i_kind i) as [c| |t]; [done|by apply IH|]. simpl in Hw.
  rewrite andb_false_r. destruct n as [|n]; [done|]. rewrite app_assoc in Hw. apply IHn in Hw; [done|lia].
Qed.

Lemma path_exists_mono f f' p : wf_tree f -> f ⊆ f' -> path_exists f p = true -> path_exists f' p = true.
Proof.
  unfold path_exists, metadata, tree_get. intros Hwf Hs.
  destruct (resolve f p) as [q|] eqn:Hq; [|done].
  destruct (resolve_ok _ Hwf _ _ Hq) as (i & Hi & _). apply (walk_mono _ _ f') in Hq; [|done].
  unfold resolve. by rewrite Hq, (lookup_weaken _ _ _ _ Hi Hs).
Qed.

(** What a walk found before the entry [q] was moved to the free name [dst], it
    finds again or finds missing. *)
Lemma walk_moved n f q dst cur l p p' :
  wf_tree f -> f !! dst = None -> q <> [] -> ~ q `prefix_of` cur ->
  walk n f false true cur l = Ok p -> walk n (move_subtree q dst f) false true cur l = Ok p' -> p' = p.
Proof.
  intros Hwf Hdst Hq. revert cur l. induction n as [n IHn] using lt_wf_ind. intros cur l. revert cur.
  induction l as [|c l IH]; intros cur Hcur; [rewrite !walk_nil; congruence|].
  assert (~ q `prefix_of` []) as Hroot by (by intros ?%prefix_nil_inv).
  rewrite !walk_cons. destruct c as [| | |x]; [by apply IH|by apply IH|apply IH|].
  { intros Hp. apply Hcur. etrans; [exact Hp|]. destruct cur as [|y cur' _] using rev_ind; [done|].
    rewrite removelast_last. by eexists. }
  destruct (f !! (cur ++ [x])) as [i|] eqn:Hi; [|done]. rewrite lookup_move_subtree.
  rewrite (bool_decide_false (dst `prefix_of` _)).
  2: { intros Hp. by rewrite (wf_below_none _ _ _ Hwf Hdst Hp) in Hi. }
  destruct (bool_decide (q `prefix_of` cur ++ [x])) eqn:Hqp; [done|]. apply bool_decide_eq_false in Hqp. rewrite Hi.
  destruct (i_kind i) as [c| |t]; [case_match; congruence|by apply IH|].
  rewrite andb_false_r. destruct n as [|n]; [done|]. apply IHn; [lia|done].
Qed.

(** * Runs *)
Section runs.
Context {DB : Type} `{!SqlDb DB, !JournalDb DB}.
Implicit Types w : world DB.

(** An append with its clock reading. *)
Lemma execute_record_run s id st c w u w' :
  Execute.record s (Execute.journal_entry id st c) w = (Ok u, w') ->
  w_fs w' = w_fs w /\ exists seq ms, journal_at (pool s) w' = journal_at (pool s) w ++
    [row_of_entry seq (mkJournalEntry id st (Execute.journal_action (c_action c)) (c_from c) (c_to c) ms)].
Proof.
  unfold Execute.record, Execute.journal_entry, Execute.unix_ms. intros H. io_inv.
  match goal with Hn : now_ms _ = _ |- _ => unfold now_ms, now_ns, io_bind, io_ret in Hn; injection Hn as <- <- end.
  match goal with Ha : JournalStore.append _ _ _ = _ |- _ => apply append_run in Ha as (Hf & [seq Hj] & _) end.
  split; [done|]. exists seq. eexists. exact Hj.
Qed.
Lemma undo_record_run s e st w u w' :
  Undo.record s e st w = (Ok u, w') ->
  w_fs w' = w_fs w /\ exists seq ms, journal_at (pool s) w' = journal_at (pool s) w ++
    [row_of_entry seq (mkJournalEntry (je_operation_id e) st (je_action e) (je_to e) (je_from e) ms)].
Proof.
  unfold Undo.record, Undo.undo_entry, Undo.unix_ms. intros H. io_inv.
  match goal with Hn : now_ms _ = _ |- _ => unfold now_ms, now_ns, io_bind, io_ret in Hn; injection Hn as <- <- end.
  match goal with Ha : JournalStore.append _ _ _ = _ |- _ => apply append_run in Ha as (Hf & [seq Hj] & _) end.
  split; [done|]. exists seq. eexists. exact Hj.
Qed.

Lemma mkdirs_journal p w x w' : create_dir_all p w = (x, w') -> forall db, journal_at db w' = journal_at db w.
Proof. intros H db. by apply (only_same_journal _ _ (create_dir_all_only p) _ _ _ H). Qed.
Lemma rename_journal p q w x w' : fs_rename p q w = (x, w') -> forall db, journal_at db w' = journal_at db w.
Proof. intros H db. by apply (only_same_journal _ _ (fs_rename_only p q) _ _ _ H). Qed.

(** The tree [f'] is [f] with more directories. *)
Definition more_dirs (f f' : tree) : Prop :=
  forall p, f' !! p = f !! p \/ (f !! p = None /\ dir_at f' p).

(** What a guarded rename that succeeded did, from the tree [f] in which its
    source was resolved to the tree [f'] after it. *)
Definition rename_done (g : PathGuard) (from to : string) (f f' : tree) : Prop :=
  exists source dest (wa wb : world DB), PathGuard.resolve_existing f g from = Ok source /\
    more_dirs f (w_fs wa) /\ (wf_tree f -> wf_tree (w_fs wa)) /\
    PathGuard.resolve_for_create (w_fs wa) g to = Ok dest /\ path_exists (w_fs wa) dest = false /\
    fs_rename source dest wa = (Ok tt, wb) /\ f' = w_fs wb.

Lemma execute_move_run g s c i w res w' :
  Execute.execute_move g s c i w = (Ok (Ok res), w') ->
  res = Execute.executed_result c /\ rename_done g (c_from c) (c_to c) (w_fs w) (w_fs w') /\
  exists id seq1 ms1 seq2 ms2,
    let e st ms := mkJournalEntry id st (Execute.journal_action (c_action c)) (c_from c) (c_to c) ms in
    journal_at (pool s) w' = journal_at (pool s) w ++
      [row_of_entry seq1 (e Planned ms1); row_of_entry seq2 (e Executed ms2)].
Proof.
  unfold Execute.execute_move, Execute.unix_ms, Execute.planned_entry. intros H.
  apply io_bind_ok in H as (ms & w1 & H1 & H). unfold now_ms, now_ns, io_bind, io_ret in H1.
  injection H1 as <- <-.
  apply io_bind_ok in H as (u & w2 & H2 & H). apply execute_record_run in H2 as (Hf2 & seq1 & ms1 & Hj2).
  change (w_fs w2 = w_fs w) in Hf2.
  change (journal_at (pool s) (tick w)) with (journal_at (pool s) w) in Hj2.
  apply io_bind_ok in H as (f & w3 & [= <- <-] & H). rewrite Hf2 in H.
  destruct (PathGuard.resolve_existing (w_fs w) g (c_from c)) as [source|er] eqn:Hsrc; [|by io_inv].
  apply io_bind_ok in H as (parent & w3 & H3 & H). unfold io_lift in H3. injection H3 as _ <-.
  apply io_bind_ok in H as (u' & wa & Hmk & H). apply io_map_err_inv in Hmk as (r0 & Hmk & _).
  pose proof (create_dir_all_adds_dirs _ _ _ _ Hmk) as Hdirs.
  pose proof (create_dir_all_wf _ _ _ _ Hmk) as Hwf. pose proof (mkdirs_journal _ _ _ _ Hmk) as Hja.
  unfold adds_dirs, keeps_wf in *. rewrite Hf2 in Hdirs, Hwf.
  apply io_bind_ok in H as (f & w4 & [= <- <-] & H).
  apply io_bind_ok in H as (dest & w4 & Hd & H). unfold io_lift in Hd. injection Hd as Hd <-.
  destruct (PathGuard.resolve_for_create (w_fs wa) g (c_to c)) as [dest'|] eqn:Hdst; [|done]. injection Hd as ->.
  destruct (path_exists (w_fs wa) dest) eqn:Hex; [by io_inv|].
  apply io_bind_ok in H as (u1 & wb & Hren & H). apply io_map_err_inv in Hren as ([[]|] & Hren & Hr); [|done].
  apply io_bind_ok in H as (u2 & w5 & H5 & H). injection H as <- <-.
  apply execute_record_run in H5 as (Hf5 & seq2 & ms2 & Hj5).
  split; [done|]. split; [by exists source, dest, wa, wb|].
  eexists _, seq1, ms1, seq2, ms2. cbv zeta. rewrite Hj5, (rename_journal _ _ _ _ _ Hren), Hja, Hj2, <- app_assoc. done.
Qed.

Lemma undo_move_run g s e w res w' :
  Undo.undo_move g s e w = (Ok (Ok res), w') -> u_reason res = None ->
  res = Undo.undone_result e None /\ rename_done g (je_to e) (je_from e) (w_fs w) (w_fs w') /\
  exists seq1 ms1 seq2 ms2,
    let e' st ms := mkJournalEntry (je_operation_id e) st (je_action e) (je_to e) (je_from e) ms in
    journal_at (pool s) w' = journal_at (pool s) w ++
      [row_of_entry seq1 (e' UndoPlanned ms1); row_of_entry seq2 (e' Undone ms2)].
Proof.
  unfold Undo.undo_move. intros H Hres.
  apply io_bind_ok in H as (f & w3 & [= <- <-] & H).
  destruct (PathGuard.resolve_existing (w_fs w) g (je_to e)) as [source|er] eqn:Hsrc.
  2: { destruct (is_ok _); [|by io_inv]. apply io_bind_ok in H as (u & w1 & _ & H).
       injection H as <- <-. done. }
  apply io_bind_ok in H as (parent & w3 & H3 & H). unfold io_lift in H3. injection H3 as _ <-.
  apply io_bind_ok in H as (u' & wa & Hmk & H). apply io_map_err_inv in Hmk as (r0 & Hmk & _).
  pose proof (create_dir_all_adds_dirs _ _ _ _ Hmk) as Hdirs.
  pose proof (create_dir_all_wf _ _ _ _ Hmk) as Hwf. pose proof (mkdirs_journal _ _ _ _ Hmk) as Hja.
  apply io_bind_ok in H as (f & w4 & [= <- <-] & H).
  apply io_bind_ok in H as (dest & w4 & Hd & H). unfold io_lift in Hd. injection Hd as Hd <-.
  destruct (PathGuard.resolve_for_create (w_fs wa) g (je_from e)) as [dest'|] eqn:Hdst; [|done]. injection Hd as ->.
  destruct (path_exists (w_fs wa) dest) eqn:Hex; [by io_inv|].
  apply io_bind_ok in H as (u & w2 & H2 & H). apply undo_record_run in H2 as (Hf2 & seq1 & ms1 & Hj2).
  apply io_bind_ok in H as (u1 & wb & Hren & H). apply io_map_err_inv in Hren as ([[]|] & Hren & Hr); [|done].
  apply io_bind_ok in H as (u2 & w5 & H5 & H). injection H as <- <-.
  apply undo_record_run in H5 as (Hf5 & seq2 & ms2 & Hj5).
  split; [done|]. split.
  - exists source, dest, w2, wb. unfold keeps_wf, adds_dirs in *. rewrite <- Hf2 in Hdirs, Hwf, Hdst, Hex.
    split_and!; done.
  - exists seq1, ms1, seq2, ms2. cbv zeta. rewrite Hj5, (rename_journal _ _ _ _ _ Hren), Hj2, Hja, <- app_assoc. done.
Qed.
End runs.

(** * Trees *)

Lemma more_dirs_sub f f' : more_dirs f f' -> f ⊆ f'.
Proof. intros H. apply map_subseteq_spec. intros p i Hi. destruct (H p) as [Hp|[Hp _]]; congruence. Qed.

Lemma resolve_for_create_walk f g r to dest :
  wf_tree f -> guard_named g r -> PathGuard.resolve_for_create f g to = Ok dest ->
  exists d s l, dest = path_join (abs_path d) s /\ components (path_join (root g) to) = l ++ [Normal s] /\
    walk max_links f false true [] l = Ok d /\ Forall seg_ok d /\ seg_ok s.
Proof.
  intros Hwf Hg H. destruct (resolve_for_create_ok _ Hwf _ _ Hg _ _ H) as (d & s & i & Hd & _ & Hi & _ & Hs & _ & Hn).
  pose proof (wf_segs _ _ _ Hwf Hi) as Hsegs. pose proof Hg as [Hr _].
  unfold PathGuard.resolve_for_create, PathGuard.canonicalize_existing in H.
  destruct (PathGuard.reject_unsafe_components to); [|done]. simpl in H.
  destruct (path_parent _) as [pa|] eqn:Hp; [|done]. simpl in H.
  destruct (canonicalize f pa) as [c|] eqn:Hc; [|done]. simpl in H.
  apply canonicalize_ok in Hc as (q & j & Hq & Hj & _ & ->); [|done].
  destruct (path_starts_with _ _); [|done]. simpl in H. rewrite Hn in H. injection H as H.
  exists q, s, (components pa). split_and!; [done| |done|by eapply wf_segs|done].
  apply components_parent in Hp as [_ [c Hc]]; [|apply is_absolute_join; by rewrite Hr].
  rewrite Hc. unfold path_file_name in Hn. rewrite Hc, reverse_snoc in Hn. by destruct c; simplify_eq/=.
Qed.

Lemma resolve_for_create_name d s d' s' :
  Forall seg_ok d -> seg_ok s -> Forall seg_ok d' -> seg_ok s' ->
  path_join (abs_path d) s = path_join (abs_path d') s' -> d = d' /\ s = s'.
Proof.
  intros Hd Hs Hd' Hs' H%(f_equal components). rewrite !components_abs_join in H by done.
  injection H as H. apply (inj (map Normal)) in H. apply app_inj_tail in H. done.
Qed.

Lemma more_dirs_none f f' p : more_dirs f f' -> f' !! p = None -> f !! p = None.
Proof. intros H Hp. destruct (H p) as [?|[? _]]; congruence. Qed.

(** Moving a subtree away, adding directories, and moving it back. *)
Lemma move_back_more f fa fb q dst f1 f2 :
  wf_tree fa -> fa !! dst = None -> ~ q `prefix_of` dst -> more_dirs f fa ->
  f1 = move_subtree q dst fa -> more_dirs f1 fb -> f2 = move_subtree dst q fb -> more_dirs f f2.
Proof.
  intros Hwfa Hnone Hnp Hda Hf1 Hdb Hf2 p.
  assert (f2 !! p = if bool_decide (q `prefix_of` p) then fb !! (dst ++ drop (length q) p)
                    else if bool_decide (dst `prefix_of` p) then None else fb !! p) as Hp
    by (by rewrite Hf2, lookup_move_subtree).
  case_bool_decide as Hq.
  - destruct Hq as [k ->]. rewrite drop_app_length in Hp.
    assert (f1 !! (dst ++ k) = fa !! (q ++ k)) as H1.
    { rewrite Hf1, lookup_move_subtree, bool_decide_true by (by exists k). by rewrite drop_app_length. }
    destruct (Hdb (dst ++ k)) as [Hb|[Hb (j & Hj & Hdj)]].
    + destruct (Hda (q ++ k)) as [Ha|[Ha (j & Hj & Hdj)]]; [left; congruence|right].
      split; [done|]. exists j. split; [congruence|done].
    + right. split; [eapply more_dirs_none; [exact Hda|congruence]|]. exists j. split; [congruence|done].
  - case_bool_decide as Hd.
    + left. rewrite Hp. symmetry. eapply more_dirs_none; [exact Hda|]. by eapply wf_below_none.
    + assert (f1 !! p = fa !! p) as H1 by (rewrite Hf1, lookup_move_subtree; by rewrite !bool_decide_false).
      destruct (Hdb p) as [Hb|[Hb (j & Hj & Hdj)]].
      * destruct (Hda p) as [Ha|[Ha (j & Hj & Hdj)]]; [left; congruence|right].
        split; [done|]. exists j. split; [congruence|done].
      * right. split; [eapply more_dirs_none; [exact Hda|congruence]|]. exists j. split; [congruence|done].
Qed.

(** No link under the tree leads nowhere. *)
Definition links_live (f : tree) : Prop :=
  forall p i, f !! p = Some i -> is_link_inode i = true -> path_exists f (abs_path p) = true.

Section rename_done.
Context {DB : Type} (g : PathGuard) (r : path) (Hg : guard_named g r).

(** The rename as a move inside the root. *)
Lemma rename_done_moved from to f f' :
  wf_tree f -> rename_done (DB:=DB) g from to f f' ->
  exists q d s l fa, resolve f (path_join (root g) from) = Ok q /\ more_dirs f fa /\ wf_tree fa /\
    moved r q (d ++ [s]) fa fa f' /\ components (path_join (root g) to) = l ++ [Normal s] /\
    walk max_links fa false true [] l = Ok d /\ Forall seg_ok d /\ seg_ok s /\
    path_exists fa (path_join (abs_path d) s) = false.
Proof.
  intros Hwf (source & dest & wa & wb & Hsrc & Hdirs & Hwfa & Hdst & Hex & Hrun & ->).
  specialize (Hwfa Hwf).
  destruct (resolve_for_create_walk _ _ _ _ _ Hwfa Hg Hdst) as (d & s & l & -> & Hl & Hd & Hsd & Hs).
  eapply guarded_rename_run in Hrun; [|exact Hwf|exact Hg|exact Hsrc|by apply more_dirs_sub|exact Hwfa|exact Hdst|done..].
  destruct Hrun as (q & dst & Hq & (d2 & s2 & Heq & -> & Hsd2 & Hs2) & Hm & _).
  apply resolve_for_create_name in Heq as [<- <-]; [|done..].
  exists q, d, s, l, (w_fs wa). done.
Qed.

(** A free destination holds nothing where every link leads somewhere. *)
Lemma free_none f fa d s :
  wf_tree f -> wf_tree fa -> links_live f -> more_dirs f fa -> Forall seg_ok d -> seg_ok s ->
  free fa (d ++ [s]) -> path_exists fa (path_join (abs_path d) s) = false -> fa !! (d ++ [s]) = None.
Proof.
  intros Hwf Hwfa Hlive Hdirs Hd Hs [?|(j & Hj & Hl)] Hex; [done|]. exfalso.
  destruct (Hdirs (d ++ [s])) as [Heq|[_ Hdir]]; [|by rewrite (dir_at_not_link _ _ _ Hdir Hj) in Hl].
  rewrite Heq in Hj. pose proof (Hlive _ _ Hj Hl) as He.
  apply (path_exists_mono _ fa) in He; [|done|by apply more_dirs_sub].
  unfold path_exists, metadata, resolve in He, Hex. rewrite components_abs_join in Hex by done.
  rewrite components_abs_path in He by (apply Forall_app; split; [done|by apply list.Forall_singleton]).
  congruence.
Qed.

(** Where the path of an entry that no link leads to resolves. *)
Lemma components_direct names rel :
  is_absolute rel = false -> components rel = map Normal names ->
  components (path_join (root g) rel) = RootDir :: map Normal (r ++ names).
Proof.
  intros Habs Hc. destruct Hg as [-> Hr]. rewrite components_join, components_abs_path, Hc by done.
  rewrite map_app. by destruct names.
Qed.

(** Renaming there and back leaves the tree as it was, but for directories. *)
Lemma rename_there_and_back from to names i f f1 f2 :
  wf_tree f -> links_live f -> components from = map Normal names ->
  f !! (r ++ names) = Some i -> is_link_inode i = false ->
  rename_done (DB:=DB) g from to f f1 -> rename_done (DB:=DB) g to from f1 f2 -> more_dirs f f2.
Proof.
  intros Hwf Hlive Hnames Hi Hli H1 H2.
  assert (is_absolute from = false) as Habs.
  { apply safe_not_absolute. rewrite Hnames. apply Forall_map, list.Forall_forall. done. }
  destruct (rename_done_moved _ _ _ _ Hwf H1) as (q & d & s & l & fa & Hq & Hda & Hwfa & Hm & Hl & Hd & Hsd & Hs & Hex).
  pose proof (components_direct _ _ Habs Hnames) as Hcomp.
  assert (q = r ++ names) as ->.
  { unfold resolve in Hq. rewrite Hcomp, walk_cons in Hq.
    rewrite (walk_real _ _ _ _ [] (r ++ names) i) in Hq; [by injection Hq|done..|apply (wf_root _ Hwf)|done]. }
  assert (names <> []) as Hne.
  { intros ->. rewrite app_nil_r in Hm. by apply (moved_not_root _ _ _ _ _ _ Hm). }
  destruct (exists_last Hne) as (n' & s' & ->). rewrite app_assoc in *.
  set (q := (r ++ n') ++ [s']) in *.
  assert (q <> []) as Hq0 by (unfold q; by destruct (r ++ n')).
  pose proof (free_none _ _ _ _ Hwf Hwfa Hlive Hda Hsd Hs (moved_free _ _ _ _ _ _ Hm) Hex) as Hnone.
  pose proof (moved_wf _ _ _ _ _ _ Hwfa Hm) as Hwf1.
  destruct (moved_subtree _ _ _ _ _ _ Hm) as [Hnp Hf1].
  destruct (moved_source _ _ _ _ _ _ Hm) as (iq & Hiq & Hliq).
  assert (f1 !! (d ++ [s]) = Some iq) as Hdst1.
  { rewrite Hf1, lookup_move_subtree, bool_decide_true by done. by rewrite drop_all, app_nil_r. }
  (* the way back starts at the destination *)
  destruct (rename_done_moved _ _ _ _ Hwf1 H2) as (q2 & d2 & s2 & l2 & fb & Hq2 & Hdb & Hwfb & Hm2 & Hl2 & Hd2 & _ & _ & _).
  assert (q2 = d ++ [s]) as ->.
  { unfold resolve in Hq2. rewrite Hl in Hq2. apply walk_app_inv in Hq2 as (n2 & d3 & Hw1 & Hw2).
    rewrite Hf1 in Hw1. apply (walk_moved _ _ _ _ _ _ _ _ Hwfa Hnone Hq0) with (2 := Hd) in Hw1 as ->;
      [|by intros ?%prefix_nil_inv].
    rewrite walk_cons, Hdst1 in Hw2. unfold is_link_inode in Hliq.
    destruct (i_kind iq); [by injection Hw2|by rewrite walk_nil in Hw2; injection Hw2|done]. }
  (* and ends at the source *)
  rewrite Hcomp in Hl2. unfold q in Hl2. rewrite map_app in Hl2. simpl in Hl2.
  rewrite app_comm_cons in Hl2. apply app_inj_tail in Hl2 as [<- [= <-]].
  assert (dir_at fb (r ++ n')) as Hdirb.
  { destruct (wf_prefix f (r ++ n') [s'] i) as (j & Hj & Hdj); [done..|]. exists j. split; [|done].
    apply (lookup_weaken _ _ _ _) with (2 := more_dirs_sub _ _ Hdb). rewrite Hf1, lookup_move_subtree.
    apply (lookup_weaken _ _ _ _) with (2 := more_dirs_sub _ _ Hda) in Hj.
    rewrite bool_decide_false; [rewrite bool_decide_false; [done|]|].
    - unfold q. apply not_prefix_shorter.
    - intros Hp. by rewrite (wf_below_none _ _ _ Hwfa Hnone Hp) in Hj. }
  assert (d2 = r ++ n') as ->.
  { rewrite walk_cons in Hd2. destruct Hdirb as (j & Hj & Hdj).
    rewrite (walk_real _ _ _ _ [] (r ++ n') j) in Hd2; [by injection Hd2|done..|apply (wf_root _ Hwfb)|].
    intros _. by eapply dir_at_not_link; [exists j|]. }
  destruct (moved_subtree _ _ _ _ _ _ Hm2) as [_ Hf2]. fold q in Hf2.
  exact (move_back_more f fa fb q (d ++ [s]) f1 f2 Hwfa Hnone Hnp Hda Hf1 Hdb Hf2).
Qed.
End rename_done.

(** * Properties *)

(** a move that reports success did exactly that move.  The entry the source
    path leads to is renamed, inside the root, to a name at which nothing was (at
    most a dangling link); beforehand only directories were added; and the journal
    has two more rows, one operation planned and then executed. *)
Theorem execute_move_moves {DB : Type} `{!SqlDb DB, !JournalDb DB} (g : PathGuard) (root_arg : string)
    (s : JournalStore) (c : PrecheckResult) (i : nat) (w : world DB) res w' :
  wf_tree (w_fs w) -> PathGuard.new (w_fs w) root_arg = Ok g ->
  Execute.execute_move g s c i w = (Ok (Ok res), w') ->
  res = Execute.executed_result c /\
  (exists r q dst fa, root g = abs_path r /\ resolve (w_fs w) (path_join (root g) (c_from c)) = Ok q /\
     more_dirs (w_fs w) fa /\ moved r q dst fa fa (w_fs w')) /\
  exists id seq1 ms1 seq2 ms2,
    let e st ms := mkJournalEntry id st (Execute.journal_action (c_action c)) (c_from c) (c_to c) ms in
    journal_at (pool s) w' = journal_at (pool s) w ++
      [row_of_entry seq1 (e Planned ms1); row_of_entry seq2 (e Executed ms2)].
Proof.
  intros Hwf Hnew H. destruct (new_guard_at _ Hwf _ _ Hnew) as (r & Hg & _).
  pose proof (guard_at_named _ _ _ Hwf Hg) as Hgn.
  apply execute_move_run in H as (-> & Hdone & Hj). split; [done|]. split; [|exact Hj].
  destruct (rename_done_moved g r Hgn _ _ _ _ Hwf Hdone) as (q & d & n & l & fa & Hq & Hda & _ & Hm & _).
  exists r, q, (d ++ [n]), fa. by destruct Hgn.
Qed.

(** C4: undoing a move puts everything back.  Provided that no link anywhere in the file
    system is dangling, and that the source is named directly - by the names on its way from
    the root, none of them a link - and is not a link itself: a successful move followed at
    once by a successful undo of it gives back the tree there was, every entry where it was
    with its contents, plus at most some directories; and the journal records all four
    steps.  ([move_replaces_dangling_link] shows why dangling links are excluded.) *)
Theorem undo_restores_move {DB : Type} `{!SqlDb DB, !JournalDb DB} (g : PathGuard) (r : path)
    (s : JournalStore) (c : PrecheckResult) (i : nat) (e : JournalEntry) (names : path) (n : inode)
    (w : world DB) res w1 undone w2 :
  wf_tree (w_fs w) -> guard_at (w_fs w) g r -> links_live (w_fs w) ->
  components (c_from c) = map Normal names -> w_fs w !! (r ++ names) = Some n -> is_link_inode n = false ->
  Execute.execute_move g s c i w = (Ok (Ok res), w1) ->
  je_from e = c_from c -> je_to e = c_to c ->
  Undo.undo_move g s e w1 = (Ok (Ok undone), w2) -> u_reason undone = None ->
  more_dirs (w_fs w) (w_fs w2) /\
  exists rows, journal_at (pool s) w2 = journal_at (pool s) w ++ rows /\
    map raw_status rows = ["planned"; "executed"; "undo_planned"; "undone"].
Proof.
  intros Hwf Hg Hlive Hnames Hn Hl H1 Hfrom Hto H2 Hreason. pose proof (guard_at_named _ _ _ Hwf Hg) as Hgn.
  apply execute_move_run in H1 as (-> & Hd1 & id & q1 & t1 & q2 & t2 & Hj1).
  apply undo_move_run in H2 as (-> & Hd2 & q3 & t3 & q4 & t4 & Hj2); [|done].
  rewrite Hfrom, Hto in Hd2. split; [by eapply rename_there_and_back|].
  eexists. split; [rewrite Hj2, Hj1, <- app_assoc; reflexivity|done].
Qed.

(** * Witnesses *)
Definition sample_check : PrecheckResult :=
  Precheck.precheck_proposal sample_tree (mkPathGuard sample_root)
    (mkProposal "id" Move "a.txt" "docs/new/a.txt" None 5 (Some 1600000000000%Z) None "sample" Ready).
Definition sample_store : JournalStore :=
  mkJournalStore (Db.db_path_for_root sample_root) (Db.db_path_for_root sample_root).
Definition moved_run := Execute.execute_move (mkPathGuard sample_root) sample_store sample_check 0 sample_machine.

Lemma execute_move_moves_witness :
  match moved_run.1 with Ok (Ok res) => res = Execute.executed_result sample_check | _ => False end.
Proof.
  assert (PathGuard.new (w_fs sample_machine) sample_root = Ok (mkPathGuard sample_root)) as Hnew
    by (vm_compute; reflexivity).
  assert (match moved_run.1 with Ok (Ok _) => true | _ => false end = true) as Hok by (vm_compute; reflexivity).
  destruct moved_run as [[[res|]|] w'] eqn:H; try discriminate Hok. simpl.
  exact (proj1 (execute_move_moves (mkPathGuard sample_root) sample_root sample_store sample_check 0
    sample_machine res w' sample_wf Hnew H)).
Defined.

(** The sample tree without its link. *)
Definition plain_tree : tree := delete ["home"; "root"; "escape"] sample_tree.
Definition links_liveb (f : tree) : bool :=
  forallb (fun kv => negb (is_link_inode kv.2) || path_exists f (abs_path kv.1)) (map_to_list f).
Lemma links_liveb_ok f : links_liveb f = true -> links_live f.
Proof.
  unfold links_liveb. rewrite forallb_forall. intros H p i Hp Hl.
  specialize (H (p, i)). simpl in H. rewrite Hl in H. apply H.
  by apply list_elem_of_In, elem_of_map_to_list.
Qed.
Definition plain_machine : world MemDb := machine plain_tree mem_empty.
Definition there_run := Execute.execute_move (mkPathGuard sample_root) sample_store sample_check 0 plain_machine.
Definition back_entry : JournalEntry := mkJournalEntry "op-1700000000000-0" Executed JMove "a.txt" "docs/new/a.txt" 0.
Definition back_run := Undo.undo_move (mkPathGuard sample_root) sample_store back_entry there_run.2.

Lemma undo_restores_move_witness :
  more_dirs plain_tree (w_fs back_run.2).
Proof.
  assert (match there_run.1 with Ok (Ok _) => true | _ => false end = true) as Hok1 by (vm_compute; reflexivity).
  assert (match back_run.1 with Ok (Ok u) => bool_decide (u_reason u = None) | _ => false end = true) as Hok2
    by (vm_compute; reflexivity).
  assert (wf_tree plain_tree) as Hwf by (apply wf_treeb_ok; vm_compute; reflexivity).
  assert (links_live plain_tree) as Hlive by (apply links_liveb_ok; vm_compute; reflexivity).
  unfold back_run in *. destruct there_run as [[[res|]|] w1] eqn:H1; try discriminate Hok1.
  cbn [snd] in *. destruct (Undo.undo_move _ _ _ w1) as [[[u|]|] w2] eqn:H2; try discriminate Hok2.
  apply bool_decide_eq_true in Hok2.
  refine (proj1 (undo_restores_move (mkPathGuard sample_root) ["home"; "root"] sample_store sample_check 0
    back_entry ["a.txt"] (file_of "hello" 6) plain_machine res w1 u w2 Hwf _ Hlive _ _ _ H1 _ _ H2 Hok2)).
  - split; [reflexivity|]. exists (dir_of 3). split; vm_compute; reflexivity.
  - vm_compute. reflexivity.
  - vm_compute. reflexivity.
  - reflexivity.
  - reflexivity.
  - reflexivity.
Defined.
