(* ===== verification/trash_facts.v ===== *)
(** What trashing a file does, and that undoing it brings the file back. *)
From Stdlib Require Import ZArith Lia Ascii.
From stdpp Require Import strings pretty gmap functions option list relations.
From S2P Require Import prelude rust_str rule_definition std_path std_fs fs_facts path_guard db.
From S2P Require Import journal_store proposal_types decision analyzer proposal.
From S2P Require Import precondition trash execute undo history engine_safety.
From S2P Require Import engine_guard engine move_undo.

Open Scope string_scope.
Open Scope list_scope.

Lemma links_live_mono f f' :
  wf_tree f -> f ⊆ f' -> links_live f ->
  (forall p i, f' !! p = Some i -> is_link_inode i = true -> f !! p = Some i) -> links_live f'.
Proof. intros Hwf Hs Hl Hn p i Hp Hi. eapply path_exists_mono; [done..|]. eapply Hl; eauto. Qed.

(** * The run *)
Section run.
Context {DB : Type} `{!SqlDb DB, !JournalDb DB} (to_string_pretty : TrashMetadata -> result string string).
Implicit Types w : world DB.

(** The steps of a trash that succeeded: [w0] when the directories are made, [wm]
    when the metadata is written. *)
Record trashed (g : PathGuard) (rel : string) (i : inode) (rep : TrashReport) w w' : Prop := {
  tr_id : tr_original_path rep = rel /\
    tr_trashed_path rep = Trash.trashed_relative_path (tr_operation_id rep) /\
    tr_metadata_path rep = Trash.metadata_relative_path (tr_operation_id rep);
  tr_run : exists source dest mpath (w0 wm wr : world DB) json ms,
    PathGuard.resolve_existing (w_fs w) g rel = Ok source /\
    more_dirs (w_fs w) (w_fs w0) /\ (wf_tree (w_fs w) -> wf_tree (w_fs w0)) /\
    PathGuard.resolve_for_create (w_fs w0) g (tr_trashed_path rep) = Ok dest /\ path_exists (w_fs w0) dest = false /\
    PathGuard.resolve_for_create (w_fs w0) g (tr_metadata_path rep) = Ok mpath /\ path_exists (w_fs w0) mpath = false /\
    to_string_pretty (mkTrashMetadata (tr_operation_id rep) rel (tr_trashed_path rep) (inode_len i)
      (modified_unix_ms i) ms) = Ok json /\
    fs_write mpath json w0 = (Ok tt, wm) /\ fs_rename source dest wm = (Ok tt, wr) /\ w_fs w' = w_fs wr;
  tr_rows : exists s1 m1 s2 m2,
    let e st m := Trash.journal_entry (tr_operation_id rep) st rel (tr_trashed_path rep) m in
    journal_at (Db.db_path_for_root (root g)) w' = journal_at (Db.db_path_for_root (root g)) w ++
      [row_of_entry s1 (e Planned m1); row_of_entry s2 (e Executed m2)];
}.

Lemma trash_file_run root_arg rel w rep w' :
  Trash.trash_file to_string_pretty root_arg rel w = (Ok rep, w') ->
  exists g i, PathGuard.new (w_fs w) root_arg = Ok g /\
    symlink_metadata (w_fs w) (path_join (root g) rel) = Ok i /\ is_file_inode i = true /\
    trashed g rel i rep w w'.
Proof.
  unfold Trash.trash_file. intros H.
  apply io_bind_ok in H as (f & w1 & [= <- <-] & H).
  apply io_bind_ok in H as (g & w1 & H1 & H). unfold io_lift in H1. injection H1 as Hg <-.
  destruct (PathGuard.new (w_fs w) root_arg) as [g'|] eqn:Hnew; [|done]. injection Hg as ->.
  apply io_bind_ok in H as (source & w1 & H1 & H). unfold io_lift in H1. injection H1 as Hs <-.
  destruct (PathGuard.resolve_existing (w_fs w) g rel) as [source'|] eqn:Hsrc; [|done]. injection Hs as ->.
  apply io_bind_ok in H as (i & w1 & H1 & H). unfold io_lift in H1. injection H1 as Hi <-.
  destruct (symlink_metadata (w_fs w) (path_join (root g) rel)) as [i'|] eqn:Hmeta; [|done]. injection Hi as ->.
  destruct (is_link_or_reparse_point i); [discriminate H|].
  destruct (is_file_inode i) eqn:Hfile; [|discriminate H]. simpl in H.
  apply io_bind_ok in H as (s & w1 & H1 & H). apply io_map_err_inv in H1 as ([s'|] & H1 & Hr); [|done].
  injection Hr as <-. destruct (open_store _ _ _ _ H1) as [Hpool _].
  pose proof (open_journal_same _ _ _ _ H1) as Hj1. pose proof (open_adds_dirs _ _ _ _ H1) as Hd1.
  pose proof (open_wf _ _ _ _ H1) as Hw1. clear H1. exists g, i. split_and!; [done..|].
  unfold Trash.trash_journaled in H.
  apply io_bind_ok in H as (ms & w2 & H1 & H). unfold now_ms, now_ns, io_bind, io_ret in H1. injection H1 as <- <-.
  apply io_bind_ok in H as (ns & w2 & H1 & H). unfold now_nanos, now_ns, io_bind, io_ret in H1. injection H1 as <- <-.
  set (ms := if (_ <? 0)%Z then 0%Z else _) in *. set (ns := Z.max 0 _) in *. cbv zeta in H.
  apply io_bind_ok in H as (u & w2 & H1 & H). apply io_map_err_inv in H1 as ([[]|] & H1 & Hr); [|done].
  apply append_run in H1 as (Hf2 & [seq1 Hj2] & _).
  apply io_bind_ok in H as (u1 & w3 & H1 & H). apply io_map_err_inv in H1 as ([[]|] & H1 & Hr1); [|done].
  pose proof (create_dir_all_adds_dirs _ _ _ _ H1) as Hd3. pose proof (create_dir_all_wf _ _ _ _ H1) as Hw3.
  pose proof (mkdirs_journal _ _ _ _ H1) as Hj3. clear H1.
  apply io_bind_ok in H as (dest & w4 & H1 & H). apply free_path_run in H1 as [-> H1].
  destruct (H1 _ eq_refl) as [Hdst Hex]. clear H1.
  apply io_bind_ok in H as (mp & w4 & H1 & H). apply free_path_run in H1 as [-> H1].
  destruct (H1 _ eq_refl) as [Hmp Hexm]. clear H1.
  apply io_bind_ok in H as (json & w4 & H1 & H). unfold io_lift in H1. injection H1 as Hjs <-.
  destruct (to_string_pretty _) as [json'|] eqn:Hjson; [|done]. injection Hjs as ->.
  apply io_bind_ok in H as (u2 & w4 & H1 & H). apply io_map_err_inv in H1 as ([[]|] & Hwr & Hr2); [|done].
  apply io_bind_ok in H as (u3 & w5 & H1 & H). apply io_map_err_inv in H1 as ([[]|] & Hren & Hr3); [|done].
  apply io_bind_ok in H as (ms2 & w6 & H1 & H). unfold now_ms, now_ns, io_bind, io_ret in H1. injection H1 as <- <-.
  apply io_bind_ok in H as (u4 & w6 & H1 & H). apply io_map_err_inv in H1 as ([[]|] & H1 & Hr4); [|done].
  injection H as <- <-. apply append_run in H1 as (Hf6 & [seq2 Hj6] & _).
  assert (journal_at (pool s) w5 = journal_at (pool s) w4) as Hj5 by (by eapply rename_journal).
  assert (journal_at (pool s) w4 = journal_at (pool s) w3) as Hj4.
  { by apply (only_same_journal _ _ (fs_write_only mp json) _ _ _ Hwr). }
  split; [done| |]; simpl.
  - exists source, dest, mp, w3, w4, w5, json, ms. unfold keeps_wf, adds_dirs in *.
    change (w_fs (tick (tick w1))) with (w_fs w1) in Hf2. rewrite Hf2 in *.
    split_and!; try done; [|by auto]. intros p.
    destruct (Hd1 p) as [Ha|[Ha (j & Hj & Hdj)]], (Hd3 p) as [Hb|[Hb Hb']]; [left; congruence|right; split; congruence| |congruence].
    right. split; [done|]. exists j. split; [congruence|done].
  - exists seq1. eexists. exists seq2. eexists. rewrite <- Hpool, Hj6.
    change (journal_at (pool s) (tick w5)) with (journal_at (pool s) w5). rewrite Hj5, Hj4, Hj3, Hj2.
    change (journal_at (pool s) (tick (tick w1))) with (journal_at (pool s) w1). rewrite Hj1, <- app_assoc. done.
Qed.
End run.

(** * The tree *)

Lemma inner_file_name s : seg_ok s -> inner_components (split_slash s) = [Normal s].
Proof.
  intros Hs. rewrite split_slash_seg by apply Hs. apply (inner_components_ok [s]). by apply list.Forall_singleton.
Qed.

(** The two names of a trashed file are siblings. *)
Lemma trash_names g id l1 s1 l2 s2 :
  is_absolute (root g) = true ->
  components (path_join (root g) (Trash.trashed_relative_path id)) = l1 ++ [Normal s1] ->
  components (path_join (root g) (Trash.metadata_relative_path id)) = l2 ++ [Normal s2] ->
  l1 = l2 /\ s1 = TRASHED_FILE_NAME /\ s2 = TRASH_METADATA_FILE_NAME.
Proof.
  intros Hg. assert (forall n, seg_ok n -> components (path_join (root g) (Trash.trash_relative_dir id +:+ "/" +:+ n)) =
    (components (root g) ++ inner_components (split_slash (Trash.trash_relative_dir id))) ++ [Normal n]) as H.
  { intros n Hn. rewrite components_join, drop_curdir_components by done.
    by rewrite split_slash_app, inner_components_app, (inner_file_name n Hn), app_assoc. }
  unfold Trash.trashed_relative_path, Trash.metadata_relative_path. rewrite !H by done.
  intros [<- [= <-]]%app_inj_tail [<- [= <-]]%app_inj_tail. done.
Qed.

Lemma resolve_creat_new f d s k q :
  wf_tree f -> f !! d = Some k -> is_link_inode k = false -> seg_ok s -> f !! (d ++ [s]) = None ->
  resolve_creat f (path_join (abs_path d) s) = Ok q -> q = d ++ [s] /\ dir_at f d.
Proof.
  intros Hwf Hk Hl Hs Hn Hq. unfold resolve_creat in Hq. rewrite components_abs_join, walk_cons in Hq; [|by eapply wf_segs|done].
  destruct (is_dir_inode k) eqn:Hd.
  - assert (dir_at f d) as Hdir by (by exists k). rewrite walk_real_missing in Hq by done. by injection Hq.
  - rewrite (walk_file_middle _ Hwf _ _ _ [] d s k) in Hq; [done|done| |apply (wf_root _ Hwf)].
    unfold is_file_inode, is_dir_inode, is_link_inode in *. by destruct (i_kind k).
Qed.

Lemma resolve_mono f f' p q : f ⊆ f' -> resolve f p = Ok q -> resolve f' p = Ok q.
Proof. intros Hs Hr. exact (walk_mono _ _ f' _ _ _ _ Hs Hr). Qed.

(** A regular file found without following its last link is found following it. *)
Lemma file_resolves f p i :
  symlink_metadata f p = Ok i -> is_file_inode i = true ->
  exists q, lresolve f p = Ok q /\ resolve f p = Ok q /\ f !! q = Some i.
Proof.
  unfold symlink_metadata, tree_get. destruct (lresolve f p) as [q|] eqn:Hq; [|done]. simpl.
  destruct (f !! q) as [j|] eqn:Hj; [|done]. intros [= ->] Hf. exists q. split; [done|]. split; [|done].
  eapply walk_follow; [exact Hq|exact Hj|]. unfold is_file_inode, is_link_inode in *. by destruct (i_kind i).
Qed.

(** A name missing in a directory. *)
Lemma missing_not_exists f d s :
  wf_tree f -> dir_at f d -> seg_ok s -> f !! (d ++ [s]) = None -> path_exists f (path_join (abs_path d) s) = false.
Proof.
  intros Hwf Hd Hs Hn. pose proof Hd as (j & Hj & _).
  destruct (path_exists f _) eqn:He; [|done]. unfold path_exists, metadata, tree_get in He.
  destruct (resolve f _) as [q|] eqn:Hq; [|done]. unfold resolve in Hq. apply walk_creat_ok in Hq.
  rewrite components_abs_join, walk_cons, walk_real_missing in Hq by (done || by eapply wf_segs).
  injection Hq as <-. by rewrite Hn in He.
Qed.

(** A guarded rename of a regular file to a name that was free. *)
Lemma moved_file r q dst f fa f' i :
  wf_tree f -> wf_tree fa -> f ⊆ fa -> moved r q dst fa fa f' -> f !! q = Some i -> is_file_inode i = true ->
  f !! dst = None ->
  f' !! dst = Some i /\ f' !! q = None /\ (forall p k, f !! p = Some k -> p <> q -> f' !! p = Some k).
Proof.
  intros Hwf Hwfa Hs Hm Hi Hf Hn. destruct (moved_subtree _ _ _ _ _ _ Hm) as [Hnp Hf'].
  assert (is_dir_inode i = false) as Hd by (unfold is_file_inode, is_dir_inode in *; by destruct (i_kind i)).
  split_and!.
  - rewrite Hf', lookup_move_subtree, bool_decide_true by done. rewrite drop_all, app_nil_r. by eapply lookup_weaken.
  - rewrite Hf', lookup_move_subtree, bool_decide_false, bool_decide_true; [done|done|].
    intros Hp. by rewrite (wf_below_none _ _ _ Hwf Hn Hp) in Hi.
  - intros p k Hp Hne. assert (p <> dst) as Hnd by congruence.
    pose proof (moved_lookup _ _ _ _ _ _ Hwfa Hm _ _ (lookup_weaken _ _ _ _ Hp Hs) Hnd) as Hx. unfold renamed in Hx.
    rewrite bool_decide_false in Hx; [done|]. intros Hpre.
    by rewrite (not_dir_no_children f q p i) in Hp by done.
Qed.

Section tree.
Context {DB : Type} `{!SqlDb DB, !JournalDb DB} (to_string_pretty : TrashMetadata -> result string string).
Implicit Types w : world DB.

(** The rename of a trash that succeeded, seen from the tree with the metadata. *)
Lemma trashed_rename g r rel i rep w w' :
  wf_tree (w_fs w) -> guard_named g r -> links_live (w_fs w) ->
  trashed to_string_pretty g rel i rep w w' ->
  exists fm d j json ms, wf_tree fm /\ w_fs w ⊆ fm /\ links_live fm /\ r `prefix_of` d /\
    fm !! (d ++ [TRASHED_FILE_NAME]) = None /\ w_fs w !! (d ++ [TRASH_METADATA_FILE_NAME]) = None /\
    fm !! (d ++ [TRASH_METADATA_FILE_NAME]) = Some j /\ i_kind j = KFile json /\
    to_string_pretty (mkTrashMetadata (tr_operation_id rep) rel (tr_trashed_path rep) (inode_len i)
      (modified_unix_ms i) ms) = Ok json /\
    rename_done (DB:=DB) g rel (tr_trashed_path rep) fm (w_fs w') /\
    (forall l s, components (path_join (root g) (tr_trashed_path rep)) = l ++ [Normal s] ->
       s = TRASHED_FILE_NAME /\ walk max_links fm false true [] l = Ok d).
Proof.
  intros Hwf Hg Hlive [(_ & Htp & Hmp) (source & dest & mpath & w0 & wm & wr & json & ms & Hsrc & Hdirs & Hw0 &
    Hdst & Hex & Hmr & Hexm & Hjson & Hwrite & Hren & Hf') _].
  specialize (Hw0 Hwf). pose proof (more_dirs_sub _ _ Hdirs) as Hsub.
  assert (links_live (w_fs w0)) as Hlive0.
  { eapply links_live_mono; [exact Hwf|exact Hsub|done|]. intros p k Hp Hk.
    destruct (Hdirs p) as [<-|[_ Hd]]; [done|]. by rewrite (dir_at_not_link _ _ _ Hd Hp) in Hk. }
  destruct (resolve_for_create_walk _ _ _ _ _ Hw0 Hg Hdst) as (d & s & l & -> & Hl & Hd & Hsd & Hs).
  destruct (resolve_for_create_walk _ _ _ _ _ Hw0 Hg Hmr) as (d2 & s2 & l2 & -> & Hl2 & Hd2 & Hsd2 & Hs2).
  destruct (resolve_for_create_ok _ Hw0 _ _ Hg _ _ Hmr) as (d3 & s3 & k & Heq & Hrd & Hk & Hkl & Hs3 & _).
  apply resolve_for_create_name in Heq as [<- <-]; [|done|done|by eapply wf_segs|done].
  assert (is_absolute (root g) = true) as Habs by (destruct Hg as [-> _]; done).
  rewrite Htp in Hl. rewrite Hmp in Hl2.
  destruct (trash_names _ _ _ _ _ _ Habs Hl Hl2) as (-> & -> & ->). rewrite Hd in Hd2. injection Hd2 as <-.
  assert (forall n, seg_ok n -> path_exists (w_fs w0) (path_join (abs_path d) n) = false -> w_fs w0 !! (d ++ [n]) = None) as Hfree.
  { intros n Hn He. apply (free_none (w_fs w0) (w_fs w0)); try done; [intros p; by left|by apply not_exists_free]. }
  pose proof (Hfree _ Hs Hex) as Hn1. pose proof (Hfree _ Hs2 Hexm) as Hn2.
  apply fs_write_run in Hwrite as (m & Hm & Hst).
  destruct (resolve_creat_new _ _ _ _ _ Hw0 Hk Hkl Hs2 Hn2 Hm) as [-> Hdir].
  pose proof (wf_stores _ _ _ _ _ Hm Hst Hw0) as Hwm.
  destruct Hst as (_ & (j & Hfm & Hj) & _).
  assert (w_fs w0 ⊆ w_fs wm) as Hsubm by (rewrite Hfm; by apply insert_subseteq).
  assert (w_fs wm !! (d ++ [TRASHED_FILE_NAME]) = None) as Hn3.
  { rewrite Hfm, lookup_insert_ne; [done|]. by intros [_ [=]]%app_inj_tail. }
  exists (w_fs wm), d, j, json, ms. split_and!; try done.
  - by etrans.
  - eapply links_live_mono; [exact Hw0|exact Hsubm|done|]. intros p n Hp Hl'.
    rewrite Hfm in Hp. apply lookup_insert_Some in Hp as [[_ <-]|[_ Hp]]; [|done].
    unfold file_inode, is_link_inode in *. by rewrite Hj in Hl'.
  - by eapply more_dirs_none.
  - by rewrite Hfm, lookup_insert_eq.
  - exists source, (path_join (abs_path d) TRASHED_FILE_NAME), wm, wr. split_and!; try done.
    + eapply resolve_existing_mono; [exact Hwf| |exact Hsrc]. by etrans.
    + intros p. by left.
    + eapply resolve_for_create_mono; [exact Hw0|exact Hsubm|exact Hdst].
    + apply missing_not_exists; try done. destruct Hdir as (x & Hx & ?).
      exists x. split; [by eapply lookup_weaken|done].
  - intros l' s' Hc. rewrite Htp, Hl in Hc. apply app_inj_tail in Hc as [<- [= <-]]. split; [done|].
    eapply walk_mono; [exact Hsubm|done].
Qed.
End tree.

(** * Properties *)

(** A trashed file is kept, and can be found again.  When a trash succeeds (on a
    tree with no dangling link), the regular file its path names lies, the same
    inode, in a directory of the trash inside the root, next to a metadata file
    that records its original path, its size and time; its old name is free; every
    other entry is where it was; and the journal holds the planned and the executed
    row of the operation. *)
Theorem trash_file_keeps_file {DB : Type} `{!SqlDb DB, !JournalDb DB}
    (to_string_pretty : TrashMetadata -> result string string) (root_arg rel : string) (w : world DB) rep w' :
  wf_tree (w_fs w) -> links_live (w_fs w) ->
  Trash.trash_file to_string_pretty root_arg rel w = (Ok rep, w') ->
  exists g r q i d j json ms, PathGuard.new (w_fs w) root_arg = Ok g /\ root g = abs_path r /\
    resolve (w_fs w) (path_join (root g) rel) = Ok q /\ w_fs w !! q = Some i /\ is_file_inode i = true /\
    r `prefix_of` d /\
    w_fs w' !! (d ++ [TRASHED_FILE_NAME]) = Some i /\ w_fs w' !! q = None /\
    w_fs w' !! (d ++ [TRASH_METADATA_FILE_NAME]) = Some j /\ i_kind j = KFile json /\
    to_string_pretty (mkTrashMetadata (tr_operation_id rep) rel (tr_trashed_path rep) (inode_len i)
      (modified_unix_ms i) ms) = Ok json /\
    (forall p k, w_fs w !! p = Some k -> p <> q -> w_fs w' !! p = Some k) /\
    exists s1 m1 s2 m2,
      let e st m := mkJournalEntry (tr_operation_id rep) st JTrash rel (tr_trashed_path rep) m in
      journal_at (Db.db_path_for_root (root g)) w' = journal_at (Db.db_path_for_root (root g)) w ++
        [row_of_entry s1 (e Planned m1); row_of_entry s2 (e Executed m2)].
Proof.
  intros Hwf Hlive H. apply trash_file_run in H as (g & i & Hnew & Hmeta & Hfile & Ht).
  destruct (new_guard_at _ Hwf _ _ Hnew) as (r & Hg & _). pose proof (guard_at_named _ _ _ Hwf Hg) as Hgn.
  destruct (trashed_rename _ _ _ _ _ _ _ _ Hwf Hgn Hlive Ht) as
    (fm & d & j & json & ms & Hwfm & Hsub & Hlm & Hrd & Hn & Hnj & Hj & Hjk & Hjson & Hdone & Hname).
  destruct (rename_done_moved g r Hgn _ _ _ _ Hwfm Hdone) as (q & d1 & s1 & l & fa & Hq & Hda & Hwfa & Hm & Hl & Hd1 & _).
  destruct (Hname _ _ Hl) as [-> Hd]. rewrite (walk_mono _ _ _ _ _ _ _ (more_dirs_sub _ _ Hda) Hd) in Hd1. injection Hd1 as <-.
  assert (resolve (w_fs w) (path_join (root g) rel) = Ok q /\ w_fs w !! q = Some i) as [Hq0 Hi].
  { destruct (file_resolves _ _ _ Hmeta Hfile) as (q0 & _ & Hr & Hi).
    pose proof (resolve_mono _ _ _ _ Hsub Hr) as Hr'. rewrite Hq in Hr'. injection Hr' as ->. by split. }
  destruct (moved_file _ _ _ fm fa _ i Hwfm Hwfa (more_dirs_sub _ _ Hda) Hm) as (Hnew' & Hgone & Hkeep);
    [by eapply lookup_weaken|done|done|].
  destruct Ht as [_ _ (x1 & y1 & x2 & y2 & Hrows)].
  exists g, r, q, i, d, j, json, ms. split_and!; try done.
  - by destruct Hgn.
  - apply Hkeep; [done|]. intros <-. by rewrite Hnj in Hi.
  - intros p k Hp Hne. apply Hkeep; [|done]. by eapply lookup_weaken.
  - by exists x1, y1, x2, y2.
Qed.

(** C7: what was trashed comes back.  Provided that no link anywhere in the file system is
    dangling, and that the file is named directly - by the names on its way from the root,
    none of them a link - and is not a link itself: a successful trash of it followed at once
    by a successful undo of the operation leaves every entry of the tree where it was with
    its contents, the trashed file first of all, and the journal records all four steps. *)
Theorem undo_restores_trash {DB : Type} `{!SqlDb DB, !JournalDb DB}
    (to_string_pretty : TrashMetadata -> result string string) (root_arg rel : string) (g : PathGuard) (r : path)
    (s : JournalStore) (e : JournalEntry) (names : path) (n : inode) (w : world DB) rep w1 undone w2 :
  wf_tree (w_fs w) -> PathGuard.new (w_fs w) root_arg = Ok g -> guard_at (w_fs w) g r -> links_live (w_fs w) ->
  components rel = map Normal names -> w_fs w !! (r ++ names) = Some n -> is_link_inode n = false ->
  Trash.trash_file to_string_pretty root_arg rel w = (Ok rep, w1) ->
  je_from e = rel -> je_to e = tr_trashed_path rep -> pool s = Db.db_path_for_root (root g) ->
  Undo.undo_move g s e w1 = (Ok (Ok undone), w2) -> u_reason undone = None ->
  w_fs w ⊆ w_fs w2 /\
  exists rows, journal_at (pool s) w2 = journal_at (pool s) w ++ rows /\
    map raw_status rows = ["planned"; "executed"; "undo_planned"; "undone"].
Proof.
  intros Hwf Hnew Hg Hlive Hnames Hn Hl H1 Hfrom Hto Hs H2 Hreason.
  pose proof (guard_at_named _ _ _ Hwf Hg) as Hgn.
  apply trash_file_run in H1 as (g' & i & Hnew' & _ & _ & Ht). rewrite Hnew in Hnew'. injection Hnew' as <-.
  destruct (trashed_rename _ _ _ _ _ _ _ _ Hwf Hgn Hlive Ht) as
    (fm & d & j & json & ms & Hwfm & Hsub & Hlm & _ & _ & _ & _ & _ & _ & Hd1 & _).
  apply undo_move_run in H2 as (-> & Hd2 & q3 & t3 & q4 & t4 & Hj2); [|done]. rewrite Hfrom, Hto in Hd2. split.
  - etrans; [exact Hsub|]. eapply more_dirs_sub, rename_there_and_back; [exact Hgn|exact Hwfm|exact Hlm|exact Hnames| |exact Hl|exact Hd1|exact Hd2].
    by eapply lookup_weaken.
  - destruct Ht as [_ _ (x1 & y1 & x2 & y2 & Hrows)]. rewrite <- Hs in Hrows.
    eexists. split; [rewrite Hj2, Hrows, <- app_assoc; reflexivity|done].
Qed.

(** * Witnesses *)

Definition sample_metadata (m : TrashMetadata) : result string string := Ok (tm_original_path m).
Definition trash_run := Trash.trash_file sample_metadata sample_root "a.txt" plain_machine.
Definition trash_entry : JournalEntry :=
  mkJournalEntry "op-1700000000000-0" Executed JTrash "a.txt"
    (match trash_run.1 with Ok rep => tr_trashed_path rep | Err _ => "" end) 0.
Definition untrash_run := Undo.undo_move (mkPathGuard sample_root) sample_store trash_entry trash_run.2.

Lemma plain_wf : wf_tree plain_tree.
Proof. apply wf_treeb_ok. vm_compute. reflexivity. Qed.
Lemma plain_live : links_live plain_tree.
Proof. apply links_liveb_ok. vm_compute. reflexivity. Qed.

Lemma trash_file_keeps_file_witness :
  exists d i, w_fs trash_run.2 !! (d ++ [TRASHED_FILE_NAME]) = Some i /\ is_file_inode i = true.
Proof.
  assert (is_ok trash_run.1 = true) as Hok by (vm_compute; reflexivity).
  destruct trash_run as [[rep|] w'] eqn:H; [|discriminate Hok].
  destruct (trash_file_keeps_file sample_metadata sample_root "a.txt" plain_machine rep w' plain_wf plain_live H)
    as (g & r & q & i & d & j & json & ms & _ & _ & _ & _ & Hi & _ & Hd & _).
  exists d, i. split; [exact Hd|exact Hi].
Defined.

Lemma undo_restores_trash_witness : plain_tree ⊆ w_fs untrash_run.2.
Proof.
  assert (is_ok trash_run.1 = true) as Hok1 by (vm_compute; reflexivity).
  assert (match untrash_run.1 with Ok (Ok u) => bool_decide (u_reason u = None) | _ => false end = true) as Hok2
    by (vm_compute; reflexivity).
  unfold untrash_run, trash_entry in *. destruct trash_run as [[rep|] w1] eqn:H1; [|discriminate Hok1].
  cbn [fst snd] in *. destruct (Undo.undo_move _ _ _ w1) as [[[u|]|] w2] eqn:H2; try discriminate Hok2.
  apply bool_decide_eq_true in Hok2. cbn [snd].
  refine (proj1 (undo_restores_trash sample_metadata sample_root "a.txt" (mkPathGuard sample_root) ["home"; "root"]
    sample_store _ ["a.txt"] (file_of "hello" 6) plain_machine rep w1 u w2
    plain_wf _ _ plain_live _ _ _ H1 _ _ _ H2 Hok2)).
  - vm_compute. reflexivity.
  - split; [reflexivity|]. exists (dir_of 3). split; vm_compute; reflexivity.
  - vm_compute. reflexivity.
  - vm_compute. reflexivity.
  - reflexivity.
  - reflexivity.
  - reflexivity.
  - reflexivity.
Defined.
