(* ===== verification/file_ops_facts.v ===== *)
(** Renaming and creating files outside the proposals: what is done, what is
    journaled, and what can be undone. *)
From Stdlib Require Import ZArith Lia Ascii.
From stdpp Require Import strings pretty gmap functions option list relations.
From S2P Require Import prelude rust_str rule_definition std_path std_fs fs_facts path_guard db.
From S2P Require Import journal_store proposal_types decision analyzer proposal.
From S2P Require Import precondition trash execute undo history file_ops engine_safety.
From S2P Require Import engine_guard engine move_undo trash_facts.

Open Scope string_scope.
Open Scope list_scope.

Section rename.
Context {DB : Type} `{!SqlDb DB, !JournalDb DB}.
Implicit Types w : world DB.

(** The steps of a rename that succeeded: [wa] when the database is open. *)
Record renamed_file (g : PathGuard) (rel to : string) (i : inode) (rep : RenameFileReport) w w' : Prop := {
  rf_names : rf_from rep = rel /\ rf_to rep = to;
  rf_run : exists source dest0 dest (wa wr : world DB),
    PathGuard.resolve_existing (w_fs w) g rel = Ok source /\
    PathGuard.resolve_for_create (w_fs w) g to = Ok dest0 /\ path_exists (w_fs w) dest0 = false /\
    more_dirs (w_fs w) (w_fs wa) /\ (wf_tree (w_fs w) -> wf_tree (w_fs wa)) /\
    PathGuard.resolve_for_create (w_fs wa) g to = Ok dest /\
    fs_rename source dest wa = (Ok tt, wr) /\ w_fs w' = w_fs wr;
  rf_rows : exists s1 m1 s2 m2,
    let e st m := mkJournalEntry (rf_operation_id rep) st JMove rel to m in
    journal_at (Db.db_path_for_root (root g)) w' = journal_at (Db.db_path_for_root (root g)) w ++
      [row_of_entry s1 (e Planned m1); row_of_entry s2 (e Executed m2)];
}.

Lemma rename_file_run root_arg rel new_name w rep w' :
  FileOps.rename_file root_arg rel new_name w = (Ok rep, w') ->
  exists g n i, PathGuard.new (w_fs w) root_arg = Ok g /\ FileOps.validate_file_name new_name = Ok n /\
    symlink_metadata (w_fs w) (path_join (root g) rel) = Ok i /\ is_file_inode i = true /\
    renamed_file g rel (FileOps.sibling_relative_path rel n) i rep w w'.
Proof.
  unfold FileOps.rename_file. intros H.
  apply io_bind_ok in H as (f & w1 & [= <- <-] & H).
  apply io_bind_ok in H as (g & w1 & H1 & H). unfold io_lift in H1. injection H1 as Hg <-.
  destruct (PathGuard.new (w_fs w) root_arg) as [g'|] eqn:Hnew; [|done]. injection Hg as ->.
  apply io_bind_ok in H as (n & w1 & H1 & H). unfold io_lift in H1. injection H1 as Hn <-.
  apply io_bind_ok in H as (source & w1 & H1 & H). unfold io_lift in H1. injection H1 as Hs <-.
  destruct (PathGuard.resolve_existing (w_fs w) g rel) as [source'|] eqn:Hsrc; [|done]. injection Hs as ->.
  apply io_bind_ok in H as (i & w1 & H1 & H). unfold io_lift in H1. injection H1 as Hi <-.
  destruct (symlink_metadata (w_fs w) (path_join (root g) rel)) as [i'|] eqn:Hmeta; [|done]. injection Hi as ->.
  destruct (is_link_or_reparse_point i); [discriminate H|].
  destruct (is_file_inode i) eqn:Hfile; [|discriminate H]. simpl in H.
  apply io_bind_ok in H as (dest0 & w1 & H1 & H). unfold io_lift in H1. injection H1 as Hd <-.
  destruct (PathGuard.resolve_for_create (w_fs w) g _) as [dest0'|] eqn:Hdst0; [|done]. injection Hd as ->.
  destruct (path_exists (w_fs w) dest0) eqn:Hex; [discriminate H|].
  apply io_bind_ok in H as (s & w1 & H1 & H). apply io_map_err_inv in H1 as ([s'|] & H1 & Hr); [|done].
  injection Hr as <-. destruct (open_store _ _ _ _ H1) as [Hpool _].
  pose proof (open_journal_same _ _ _ _ H1) as Hj1. pose proof (open_adds_dirs _ _ _ _ H1) as Hd1.
  pose proof (open_wf _ _ _ _ H1) as Hw1. clear H1. exists g, n, i. split_and!; [done..|].
  apply io_bind_ok in H as (ns & w2 & H1 & H). unfold FileOps.unix_nanos, now_nanos, now_ns, io_bind, io_ret in H1.
  injection H1 as <- <-. cbv zeta in H.
  apply io_bind_ok in H as (e1 & w2 & H1 & H). unfold FileOps.journal_entry, FileOps.unix_ms, now_ms, now_ns, io_bind, io_ret in H1.
  injection H1 as <- <-.
  apply io_bind_ok in H as (u & w2 & H1 & H). apply io_map_err_inv in H1 as ([[]|] & H1 & Hr); [|done].
  apply append_run in H1 as (Hf2 & [seq1 Hj2] & _).
  apply io_bind_ok in H as (f & w3 & [= <- <-] & H).
  apply io_bind_ok in H as (dest & w3 & H1 & H). unfold io_lift in H1. injection H1 as Hd <-.
  destruct (PathGuard.resolve_for_create (w_fs w2) g _) as [dest'|] eqn:Hdst; [|done]. injection Hd as ->.
  apply io_bind_ok in H as (u3 & w5 & H1 & H). apply io_map_err_inv in H1 as ([[]|] & Hren & Hr3); [|done].
  apply io_bind_ok in H as (e2 & w6 & H1 & H). unfold FileOps.journal_entry, FileOps.unix_ms, now_ms, now_ns, io_bind, io_ret in H1.
  injection H1 as <- <-.
  apply io_bind_ok in H as (u4 & w6 & H1 & H). apply io_map_err_inv in H1 as ([[]|] & H1 & Hr4); [|done].
  injection H as <- <-. apply append_run in H1 as (Hf6 & [seq2 Hj6] & _).
  change (w_fs (tick (tick w1))) with (w_fs w1) in Hf2. unfold keeps_wf, adds_dirs in *.
  split; [done| |]; simpl.
  - exists source, dest0, dest, w2, w5. rewrite Hf2 in *. by split_and!.
  - exists seq1. eexists. exists seq2. eexists. rewrite <- Hpool, Hj6.
    change (journal_at (pool s) (tick w5)) with (journal_at (pool s) w5).
    rewrite (rename_journal _ _ _ _ _ Hren), Hj2.
    change (journal_at (pool s) (tick (tick w1))) with (journal_at (pool s) w1). rewrite Hj1, <- app_assoc. done.
Qed.

(** On a tree with no dangling link the rename is a guarded one: its destination is
    still free when the database is open. *)
Lemma renamed_file_done g r rel to i rep w w' :
  wf_tree (w_fs w) -> guard_named g r -> links_live (w_fs w) ->
  symlink_metadata (w_fs w) (path_join (root g) rel) = Ok i -> is_file_inode i = true ->
  renamed_file g rel to i rep w w' -> rename_done (DB:=DB) g rel to (w_fs w) (w_fs w').
Proof.
  intros Hwf Hg Hlive Hmeta Hfile [_ (source & dest0 & dest & wa & wr & Hsrc & Hdst0 & Hex & Hdirs & Hwfa & Hdst & Hren & Hf') _].
  specialize (Hwfa Hwf). pose proof (more_dirs_sub _ _ Hdirs) as Hsub.
  pose proof (resolve_for_create_mono _ _ _ _ _ Hwf Hsub Hdst0) as Hd. rewrite Hdst in Hd. injection Hd as <-.
  exists source, dest, wa, wr. split_and!; try done.
  destruct (resolve_for_create_ok _ Hwf _ _ Hg _ _ Hdst0) as (d & s & k & -> & _ & Hk & Hkl & Hs & _).
  assert (w_fs w !! (d ++ [s]) = None) as Hn.
  { apply (free_none (w_fs w) (w_fs w)); try done; [intros p; by left|exact (wf_segs _ _ _ Hwf Hk)|by apply not_exists_free]. }
  apply fs_rename_run in Hren as (sp & dp & f' & Hsp & Hdp & Hre & _).
  destruct (locate_abs_join_inv _ Hwfa d s k dp) as [Hdd ->]; [by eapply lookup_weaken|done..|].
  apply missing_not_exists; [done..|]. destruct (Hdirs (d ++ [s])) as [->|[_ (j & Hj & Hjd)]]; [done|]. exfalso.
  destruct (file_resolves _ _ _ Hmeta Hfile) as (q & _ & Hq & Hi).
  destruct (resolve_existing_ok _ Hwf _ _ Hg _ _ Hsrc) as (q' & i' & -> & _ & Hi' & _ & Hq' & _).
  rewrite Hq in Hq'. injection Hq' as <-. pose proof (lookup_weaken _ _ _ _ Hi Hsub) as Him.
  rewrite (lresolve_abs _ Hwfa _ _ Him) in Hsp. injection Hsp as <-.
  apply rename_entry_ok in Hre as (_ & [[Heq _]|(_ & _ & Hkinds)]); [congruence|].
  assert (is_dir_inode i = false) as Hid by (unfold is_file_inode, is_dir_inode in *; by destruct (i_kind i)).
  destruct (Hkinds _ _ Him Hj) as [(? & _)|(_ & ?)]; congruence.
Qed.
End rename.

(** * Names *)

Lemma validate_file_name_ok name n :
  FileOps.validate_file_name name = Ok n -> n = trim name /\ seg_ok n /\ contains_char "\" n = false.
Proof.
  unfold FileOps.validate_file_name, seg_ok.
  destruct (is_empty _) eqn:?, (contains_char "/" _) eqn:?, (contains_char "\" _) eqn:?, (is_dot _) eqn:?,
    (is_dotdot _) eqn:?; simpl; try done. intros [= <-]. done.
Qed.

Lemma replace_char_id a b s : contains_char a s = false -> replace_char a b s = s.
Proof.
  unfold replace_char. induction s as [|c s IH]; simpl; [done|]. intros [Hc Hs]%orb_false_iff.
  rewrite Hc. by rewrite IH.
Qed.
Lemma contains_char_join a sep l :
  contains_char a (join sep l) = false -> Forall (fun s => contains_char a s = false) l.
Proof.
  induction l as [|s l IH]; [by constructor|]. destruct l as [|t l]; [intros H; by repeat constructor|].
  change (join sep (s :: t :: l)) with (s +:+ sep +:+ join sep (t :: l)). rewrite !contains_char_app.
  intros [H1 [_ H2]%orb_false_iff]%orb_false_iff. constructor; [done|by apply IH].
Qed.
Lemma contains_char_join_intro a sep l :
  contains_char a sep = false -> Forall (fun s => contains_char a s = false) l -> contains_char a (join sep l) = false.
Proof.
  intros Hs. induction 1 as [|s l Hx Hl IH]; [done|]. destruct l as [|t l]; [done|].
  change (join sep (s :: t :: l)) with (s +:+ sep +:+ join sep (t :: l)). by rewrite !contains_char_app, Hx, Hs, IH.
Qed.

Lemma components_rel_path k :
  Forall seg_ok k -> is_absolute (join "/" k) = false /\ inner_components (split_slash (join "/" k)) = map Normal k.
Proof.
  intros Hk. destruct k as [|s k]; [done|]. split.
  - apply Forall_cons in Hk as [Hs _]. destruct (seg_ok_first_char _ Hs) as (c & s' & -> & Hc). by destruct k.
  - rewrite split_slash_join; [by apply inner_components_ok|done|].
    eapply Forall_impl; [exact Hk|]. by intros ? [].
Qed.

Lemma path_parent_join k x :
  Forall seg_ok k -> seg_ok x -> path_parent (join "/" (k ++ [x])) = Some (join "/" k).
Proof.
  intros Hk Hx. assert (Forall seg_ok (k ++ [x])) as Hkx by (apply Forall_app; split; [done|by apply list.Forall_singleton]).
  destruct (components_rel_path _ Hkx) as [Habs _]. unfold path_parent. rewrite Habs.
  rewrite split_slash_join; [|by destruct k|eapply Forall_impl; [exact Hkx|]; by intros ? []].
  rewrite reverse_snoc. assert (forall s r, seg_ok s -> trim_right false (s :: r) = s :: r) as Ht.
  { intros s r (_ & He & Hd & _). simpl. by rewrite He, Hd. }
  rewrite Ht by done. destruct k as [|y k _] using rev_ind; [done|]. rewrite reverse_snoc.
  apply Forall_app in Hk as [_ [Hy _]%Forall_cons]. rewrite Ht, reverse_cons, reverse_involutive by done. done.
Qed.

Lemma rel_path_no_slash_end k : Forall seg_ok k -> k <> [] -> ends_with_slash (join "/" k) = false.
Proof.
  intros Hk Hne. destruct (ends_with_slash _) eqn:He; [|done]. apply split_slash_ends in He as [q Hq].
  apply (f_equal split_slash) in Hq.
  rewrite split_slash_end, split_slash_join in Hq; [|done|eapply Forall_impl; [exact Hk|]; by intros ? []].
  rewrite Hq in Hk. apply Forall_app in Hk as [_ [(_ & He & _) _]%Forall_cons]. done.
Qed.

Lemma rel_path_not_empty k : Forall seg_ok k -> k <> [] -> is_empty (join "/" k) = false.
Proof.
  destruct k as [|s k]; [done|]. intros [Hs _]%Forall_cons _.
  destruct (seg_ok_first_char _ Hs) as (c & s' & -> & _). by destruct k.
Qed.

(** The new path is the old one with its last name replaced. *)
Lemma sibling_join k x n :
  Forall seg_ok k -> seg_ok x -> seg_ok n -> contains_char "\" (join "/" (k ++ [x])) = false ->
  contains_char "\" n = false ->
  FileOps.sibling_relative_path (join "/" (k ++ [x])) n = join "/" (k ++ [n]).
Proof.
  intros Hk Hx Hn Hb Hnb. unfold FileOps.sibling_relative_path. rewrite path_parent_join by done.
  destruct (decide (k = [])) as [->|Hne]; [done|].
  rewrite rel_path_not_empty by done.
  unfold path_join. rewrite (rel_path_no_slash_end k) by done.
  destruct (seg_ok_first_char _ Hn) as (c & n' & -> & Hc).
  assert (is_absolute (String c n') = false) as -> by done.
  rewrite rel_path_not_empty by done. simpl orb. rewrite <- (join_snoc "/" k (String c n')) by done. apply replace_char_id.
  apply contains_char_join in Hb. apply Forall_app in Hb as [Hb _].
  apply contains_char_join_intro; [done|]. apply Forall_app. split; [done|]. by apply list.Forall_singleton.
Qed.

(** The directory of a path, resolved, and the path itself. *)
Lemma resolve_last f p l s q i d :
  components p = l ++ [Normal s] -> lresolve f p = Ok q -> f !! q = Some i ->
  walk max_links f false true [] l = Ok d -> q = d ++ [s].
Proof.
  intros Hc Hq Hi Hd. unfold lresolve in Hq. rewrite Hc in Hq.
  apply walk_app_inv in Hq as (n & d' & Hd' & Hq). rewrite Hd in Hd'. injection Hd' as <-.
  rewrite walk_cons in Hq. destruct (f !! (d ++ [s])) as [j|] eqn:Hj; [|done].
  destruct (i_kind j); [by injection Hq|by rewrite walk_nil in Hq; injection Hq|by injection Hq].
Qed.

(** * Properties *)

(** A rename changes one name.  When the rename of a file, given by its path
    under the root, succeeds (on a tree with no dangling link), the same file has
    the requested name, trimmed, in the directory it was in; that name was free;
    the old name is free; every other entry is where it was; and the journal holds
    the planned and the executed move, from the old path to the new. *)
Theorem rename_file_renames {DB : Type} `{!SqlDb DB, !JournalDb DB} (root_arg : string) (k : path) (x : string)
    (new_name : string) (w : world DB) rep w' :
  wf_tree (w_fs w) -> links_live (w_fs w) -> Forall seg_ok (k ++ [x]) ->
  contains_char "\" (join "/" (k ++ [x])) = false ->
  FileOps.rename_file root_arg (join "/" (k ++ [x])) new_name w = (Ok rep, w') ->
  exists g r d i, PathGuard.new (w_fs w) root_arg = Ok g /\ root g = abs_path r /\ r `prefix_of` d /\
    rf_to rep = join "/" (k ++ [trim new_name]) /\
    resolve (w_fs w) (path_join (root g) (join "/" (k ++ [x]))) = Ok (d ++ [x]) /\
    w_fs w !! (d ++ [x]) = Some i /\ is_file_inode i = true /\ w_fs w !! (d ++ [trim new_name]) = None /\
    w_fs w' !! (d ++ [trim new_name]) = Some i /\ w_fs w' !! (d ++ [x]) = None /\
    (forall p j, w_fs w !! p = Some j -> p <> d ++ [x] -> w_fs w' !! p = Some j) /\
    exists s1 m1 s2 m2,
      let e st m := mkJournalEntry (rf_operation_id rep) st JMove (rf_from rep) (rf_to rep) m in
      journal_at (Db.db_path_for_root (root g)) w' = journal_at (Db.db_path_for_root (root g)) w ++
        [row_of_entry s1 (e Planned m1); row_of_entry s2 (e Executed m2)].
Proof.
  intros Hwf Hlive Hseg Hb H. apply rename_file_run in H as (g & n & i & Hnew & Hval & Hmeta & Hfile & Hrun).
  apply validate_file_name_ok in Hval as (-> & Hn & Hnb). pose proof Hseg as [Hk [Hx _]%Forall_cons]%Forall_app.
  rewrite sibling_join in Hrun by done. set (n := trim new_name) in *.
  destruct (new_guard_at _ Hwf _ _ Hnew) as (r & Hg & _). pose proof (guard_at_named _ _ _ Hwf Hg) as Hgn.
  pose proof (renamed_file_done _ _ _ _ _ _ _ _ Hwf Hgn Hlive Hmeta Hfile Hrun) as Hdone.
  destruct Hrun as [[Hrf Hrt] (source & dest0 & dest & wa & wr & _ & Hdst0 & Hex & _) Hrows].
  destruct (rename_done_moved g r Hgn _ _ _ _ Hwf Hdone) as (q & d & s & l & fa & Hq & Hda & Hwfa & Hm & Hl & Hd & Hsd & Hs & Hexa).
  assert (forall y, seg_ok y -> components (path_join (root g) (join "/" (k ++ [y]))) =
    (RootDir :: map Normal (r ++ k)) ++ [Normal y]) as Hc.
  { intros y Hy. assert (Forall seg_ok (k ++ [y])) as Hky
      by (apply Forall_app; split; [done|by apply list.Forall_singleton]).
    destruct (components_rel_path _ Hky) as [Ha Hi]. destruct Hgn as [-> Hr].
    rewrite components_join, components_abs_path, drop_curdir_components, Hi by done.
    by rewrite !map_app, app_assoc. }
  rewrite Hc in Hl by done. apply app_inj_tail in Hl as [<- [= <-]].
  destruct (resolve_for_create_walk _ _ _ _ _ Hwf Hgn Hdst0) as (d0 & s0 & l0 & -> & Hl0 & Hd0 & Hsd0 & Hs0).
  rewrite Hc in Hl0 by done. apply app_inj_tail in Hl0 as [<- [= <-]].
  rewrite (walk_mono _ _ _ _ _ _ _ (more_dirs_sub _ _ Hda) Hd0) in Hd. injection Hd as <-.
  destruct (file_resolves _ _ _ Hmeta Hfile) as (q' & Hlq & Hq' & Hi). rewrite Hq in Hq'. injection Hq' as <-.
  assert (q = d0 ++ [x]) as -> by (eapply resolve_last; [by apply Hc|done..]).
  assert (w_fs w !! (d0 ++ [n]) = None) as Hfree.
  { apply (free_none (w_fs w) (w_fs w)); try done; [intros p; by left|by apply not_exists_free]. }
  destruct (moved_file _ _ _ (w_fs w) fa _ i Hwf Hwfa (more_dirs_sub _ _ Hda) Hm Hi Hfile Hfree) as (H1 & H2 & H3).
  exists g, r, d0, i. rewrite Hrf, Hrt. split_and!;
    [exact Hnew|by destruct Hgn| |done|exact Hq|exact Hi|exact Hfile|exact Hfree|exact H1|exact H2|exact H3|exact Hrows].
  destruct (moved_dest _ _ _ _ _ _ Hm) as (d' & s' & Heq & Hp & _). by apply app_inj_tail in Heq as [<- _].
Qed.

(** A rename can be undone.  On a tree with no dangling link, a rename that
    succeeded, undone with success, leaves every entry of the tree where it was, plus
    at most some directories, and the journal records all four steps. *)
Theorem undo_restores_rename {DB : Type} `{!SqlDb DB, !JournalDb DB} (root_arg rel new_name : string) (g : PathGuard)
    (r : path) (s : JournalStore) (e : JournalEntry) (names : path) (n : inode) (w : world DB) rep w1 undone w2 :
  wf_tree (w_fs w) -> PathGuard.new (w_fs w) root_arg = Ok g -> guard_at (w_fs w) g r -> links_live (w_fs w) ->
  components rel = map Normal names -> w_fs w !! (r ++ names) = Some n -> is_link_inode n = false ->
  FileOps.rename_file root_arg rel new_name w = (Ok rep, w1) ->
  je_from e = rel -> je_to e = rf_to rep -> pool s = Db.db_path_for_root (root g) ->
  Undo.undo_move g s e w1 = (Ok (Ok undone), w2) -> u_reason undone = None ->
  more_dirs (w_fs w) (w_fs w2) /\
  exists rows, journal_at (pool s) w2 = journal_at (pool s) w ++ rows /\
    map raw_status rows = ["planned"; "executed"; "undo_planned"; "undone"].
Proof.
  intros Hwf Hnew Hg Hlive Hnames Hn Hl H1 Hfrom Hto Hs H2 Hreason. pose proof (guard_at_named _ _ _ Hwf Hg) as Hgn.
  apply rename_file_run in H1 as (g' & n' & i & Hnew' & _ & Hmeta & Hfile & Hrun).
  rewrite Hnew in Hnew'. injection Hnew' as <-.
  pose proof (renamed_file_done _ _ _ _ _ _ _ _ Hwf Hgn Hlive Hmeta Hfile Hrun) as Hd1.
  destruct Hrun as [[_ Hrt] _ (s1 & m1 & s2 & m2 & Hrows)]. rewrite <- Hs in Hrows.
  apply undo_move_run in H2 as (-> & Hd2 & q3 & t3 & q4 & t4 & Hj2); [|done]. rewrite Hfrom, Hto, Hrt in Hd2.
  split; [by eapply rename_there_and_back|].
  eexists. split; [rewrite Hj2, Hrows, <- app_assoc; reflexivity|done].
Qed.

(** A created file is new.  A creation that succeeds adds one empty regular file
    below the root, where there was no entry, and changes nothing else; one that
    fails changes nothing; neither touches a journal. *)
Theorem create_empty_file_adds {DB : Type} `{!SqlDb DB, !JournalDb DB} (root_arg rel : string) (w : world DB) x w' :
  wf_tree (w_fs w) -> FileOps.create_empty_file root_arg rel w = (x, w') ->
  same_journal w w' /\
  match x with
  | Ok rep => exists g r q j, PathGuard.new (w_fs w) root_arg = Ok g /\ root g = abs_path r /\ r `prefix_of` q /\
      w_fs w !! q = None /\ w_fs w' = <[q := j]> (w_fs w) /\ i_kind j = KFile ""
  | Err _ => w_fs w' = w_fs w
  end.
Proof.
  intros Hwf H. unfold FileOps.create_empty_file in H. unfold get_fs, io_gets, io_lift in H.
  unfold io_bind at 1 in H. cbv beta iota in H. unfold io_bind at 1 in H.
  destruct (PathGuard.new (w_fs w) root_arg) as [g|e] eqn:Hnew; simpl in H; [|by injection H as <- <-].
  unfold io_bind at 1 in H. destruct (PathGuard.resolve_for_create (w_fs w) g rel) as [target|e] eqn:Hc;
    simpl in H; [|by injection H as <- <-].
  unfold io_bind, io_try in H. destruct (create_new target w) as [opened w1] eqn:Ho.
  pose proof (only_same_journal _ _ (create_new_only target) _ _ _ Ho) as Hj.
  apply create_new_run in Ho. destruct opened as [[]|e]; injection H as <- <-; split; try exact Hj; [|by destruct Ho].
  destruct Ho as (q & Hq & Hn & Hf & _). destruct (new_guard_at _ Hwf _ _ Hnew) as (r & Hg & _).
  pose proof (guard_at_named _ _ _ Hwf Hg) as Hgn.
  destruct (resolve_for_create_ok _ Hwf _ _ Hgn _ _ Hc) as (d & s & i & -> & Hp & Hi & Hl & Hs & _).
  destruct (locate_abs_join_inv _ Hwf d s i q Hi Hl Hs Hq) as [_ ->].
  exists g, r, (d ++ [s]), (new_inode (KFile "") w). split_and!; [done|by destruct Hgn| |exact Hn|exact Hf|done].
  etrans; [exact Hp|by eexists].
Qed.

(** * Witnesses *)

Definition rename_run := FileOps.rename_file sample_root "a.txt" " c.txt " plain_machine.
Definition rename_entry_done : JournalEntry := mkJournalEntry "rename-1" Executed JMove "a.txt" "c.txt" 0.
Definition unrename_run := Undo.undo_move (mkPathGuard sample_root) sample_store rename_entry_done rename_run.2.

Lemma rename_file_renames_witness : exists d i, w_fs rename_run.2 !! (d ++ ["c.txt"]) = Some i.
Proof.
  assert (is_ok rename_run.1 = true) as Hok by (vm_compute; reflexivity).
  destruct rename_run as [[rep|] w'] eqn:H; [|discriminate Hok]. unfold rename_run in H.
  assert (Forall seg_ok ([] ++ ["a.txt"])) as Hseg by (constructor; [repeat split|constructor]).
  destruct (rename_file_renames sample_root [] "a.txt" " c.txt " plain_machine rep w' plain_wf plain_live Hseg
    eq_refl H) as (g & r & d & i & _ & _ & _ & _ & _ & _ & _ & _ & Hi & _).
  exists d, i. exact Hi.
Defined.

Lemma undo_restores_rename_witness : more_dirs plain_tree (w_fs unrename_run.2).
Proof.
  assert (match rename_run.1 with Ok rep => rf_to rep | Err _ => "" end = "c.txt") as Hok1 by (vm_compute; reflexivity).
  assert (match unrename_run.1 with Ok (Ok u) => bool_decide (u_reason u = None) | _ => false end = true) as Hok2
    by (vm_compute; reflexivity).
  unfold unrename_run in *. destruct rename_run as [[rep|] w1] eqn:H1; [|discriminate Hok1].
  cbn [fst snd] in *. destruct (Undo.undo_move _ _ _ w1) as [[[u|]|] w2] eqn:H2; try discriminate Hok2.
  apply bool_decide_eq_true in Hok2. cbn [snd].
  refine (proj1 (undo_restores_rename sample_root "a.txt" " c.txt " (mkPathGuard sample_root) ["home"; "root"]
    sample_store _ ["a.txt"] (file_of "hello" 6) plain_machine rep w1 u w2
    plain_wf _ _ plain_live _ _ _ H1 _ _ _ H2 Hok2)).
  - vm_compute. reflexivity.
  - split; [reflexivity|]. exists (dir_of 3). split; vm_compute; reflexivity.
  - vm_compute. reflexivity.
  - vm_compute. reflexivity.
  - reflexivity.
  - reflexivity.
  - symmetry. exact Hok1.
  - reflexivity.
Defined.

Lemma create_empty_file_adds_witness :
  same_journal plain_machine (FileOps.create_empty_file sample_root "docs/new.txt" plain_machine).2.
Proof.
  destruct (FileOps.create_empty_file sample_root "docs/new.txt" plain_machine) as [x w'] eqn:H.
  exact (proj1 (create_empty_file_adds sample_root "docs/new.txt" plain_machine x w' plain_wf H)).
Defined.
