(* ===== verification/index_facts.v ===== *)
(** The file index as the desktop agent relies on it: an update happens as a whole or
    not at all, a generation names one state of the tables, and the journal in the
    same database is never touched. *)
From Stdlib Require Import ZArith Lia Ascii Sorted.
From stdpp Require Import strings pretty gmap functions option list relations.
From S2P Require Import prelude rust_str std_path std_fs fs_facts path_guard db journal_store.
From S2P Require Import proposal_types analyzer browse index_sql file_index.
From S2P Require Import move_undo.

Open Scope string_scope.
Open Scope list_scope.

(** Membership in the lists of statements. *)
Ltac in_statements := apply (bool_decide_unpack (_ ∈ _)); vm_compute; exact Logic.I.

#[export] Hint Extern 1 (io_rel _ get_fs) => apply io_rel_gets; typeclasses eauto : io.

Section index.
Context {DB : Type} `{!SqlDb DB, !SqlTx DB, !JournalDb DB, !IndexDb DB}.
Implicit Types (w : world DB) (p : string).

Definition idx_at p w : IndexTables := idx (w_db w p).

(** No table of an index and no journal changes. *)
Definition same_index w w' : Prop := same_journal w w' /\ forall p, idx_at p w' = idx_at p w.
#[export] Instance same_index_preorder : PreOrder same_index.
Proof.
  split; [by intros w; split|]. intros w1 w2 w3 [H1 H2] [H3 H4]. split; [by etrans|]. intros p. by rewrite H4, H2.
Qed.

Lemma set_db_index p d w :
  journal_rows d = journal_rows (w_db w p) -> idx d = idx (w_db w p) -> same_index w (set_db p d w).
Proof.
  intros Hj Hi. split; [by apply set_db_journal|]. intros q. unfold idx_at, set_db. simpl.
  destruct (decide (q = p)) as [->|Hq]; [by rewrite fn_lookup_insert|by rewrite fn_lookup_insert_ne].
Qed.
Lemma same_db_index w w' : same_db w w' -> same_index w w'.
Proof. intros H. split; [intros p; unfold journal_at|intros p; unfold idx_at]; by rewrite H. Qed.

Lemma open_root_index root : io_rel same_index (Db.open_root_db (DB:=DB) root).
Proof.
  apply open_root_db_rel; [apply _|..].
  - intros p w r w' H. apply same_db_index. by destruct (create_dir_all_only _ _ _ _ H).
  - intros p w r w'. unfold Db.connect. destruct (sql_connect _) as [r0 d] eqn:Hc. intros [= <- <-].
    apply set_db_index; [by eapply connect_rows|by eapply connect_idx].
  - intros p sql Hs w r w'. unfold Db.execute. destruct (sql_execute _ _ _) as [r0 d] eqn:Hc. intros [= <- <-].
    assert (same_index w (set_db p d w)) by (apply set_db_index; [by eapply schema_rows|by eapply schema_idx]).
    by destruct (is_ok r0).
  - intros p sql _ w r w'. unfold Db.fetch_all. destruct (sql_fetch_all _ _ _) as [r0 d] eqn:Hc. intros [= <- <-].
    apply set_db_index; [by eapply fetch_rows|by eapply fetch_idx].
Qed.
Lemma open_root_dirs root : io_rel adds_dirs (Db.open_root_db (DB:=DB) root).
Proof.
  apply open_root_db_rel; [apply _|..]; intros; [apply create_dir_all_adds_dirs|apply same_tree_adds_dirs..];
    [apply connect_tree|apply execute_tree|apply fetch_tree].
Qed.
Lemma open_root_pool root w p w' : Db.open_root_db (DB:=DB) root w = (Ok p, w') -> p = Db.db_path_for_root root.
Proof. unfold Db.open_root_db, Db.open_pool_at. intros H. io_inv. done. Qed.

(** ** Inside a transaction *)

(** What the statements of a transaction on [p] leave as it was. *)
Definition in_tx p w w' : Prop :=
  w_fs w' = w_fs w /\ saved (w_db w' p) = saved (w_db w p) /\ journal_rows (w_db w' p) = journal_rows (w_db w p) /\
  forall q, q <> p -> w_db w' q = w_db w q.
#[export] Instance in_tx_preorder p : PreOrder (in_tx p).
Proof.
  split; [by intros w|]. intros w1 w2 w3 (H1 & H2 & H3 & H4) (H5 & H6 & H7 & H8).
  split_and!; [congruence..|]. intros q Hq. by rewrite H8, H4.
Qed.

Lemma set_db_in_tx p d w :
  saved d = saved (w_db w p) -> journal_rows d = journal_rows (w_db w p) -> in_tx p w (set_db p d w).
Proof.
  intros Hs Hj. unfold in_tx. simpl. rewrite !fn_lookup_insert. split_and!; [done..|].
  intros q Hq. by rewrite fn_lookup_insert_ne.
Qed.

Lemma execute_run p sql binds w r w' :
  sql ∈ IndexSql.statements -> FileIndex.execute p sql binds w = (r, w') ->
  in_tx p w w' /\
  match r with
  | Ok _ => IndexSql.execute sql binds (idx_at p w) = Some (idx_at p w')
  | Err _ => idx_at p w' = idx_at p w
  end.
Proof.
  intros Hs (r0 & H & ->)%io_map_err_inv. unfold Db.execute in H.
  destruct (sql_execute sql binds (w_db w p)) as [r1 d] eqn:Hx. injection H as <- <-.
  destruct (execute_idx _ _ _ _ _ Hs Hx) as (Hj & Hsv & Hi).
  assert (idx_at p (set_db p d w) = idx d) as Hd by (unfold idx_at; simpl; by rewrite fn_lookup_insert).
  destruct r1 as [[]|e]; simpl; (split; [by apply set_db_in_tx|]); [|by rewrite Hd].
  change (idx_at p (add_log _ ?x)) with (idx_at p x). by rewrite Hd.
Qed.
Lemma execute_in_tx p sql binds : sql ∈ IndexSql.statements -> io_rel (in_tx p) (FileIndex.execute (DB:=DB) p sql binds).
Proof. intros Hs w r w' H. by apply execute_run in H as [H _]. Qed.

Lemma fetch_run p sql binds w r w' :
  Db.fetch_all p sql binds w = (r, w') ->
  in_tx p w w' /\ same_index w w' /\
  (forall rows, r = Ok rows -> sql ∈ IndexSql.queries -> IndexSql.fetch sql binds (idx_at p w) = Some rows).
Proof.
  unfold Db.fetch_all. destruct (sql_fetch_all _ _ _) as [r0 d] eqn:Hx. intros [= <- <-].
  pose proof (fetch_rows _ _ _ _ _ Hx) as Hj. destruct (fetch_idx _ _ _ _ _ Hx) as [Hi Hs]. split_and!.
  - by apply set_db_in_tx.
  - by apply set_db_index.
  - intros rows -> Hq. by eapply fetch_rows_idx.
Qed.
Lemma fetch_in_tx p sql binds : io_rel (in_tx p) (Db.fetch_all (DB:=DB) p sql binds).
Proof. intros w r w' H. by apply fetch_run in H as [H _]. Qed.

Lemma read_scalar_run p sql column w r w' :
  FileIndex.fetch_scalar p sql column w = (r, w') ->
  in_tx p w w' /\ same_index w w' /\
  (forall z, r = Ok z -> sql ∈ IndexSql.queries ->
     exists row rows, IndexSql.fetch sql [] (idx_at p w) = Some (row :: rows) /\ try_get_int row column = Ok z).
Proof.
  intros (r0 & H & ->)%io_map_err_inv.
  apply io_bind_inv in H as [(rows & w1 & H1 & H2)|(e & H1 & ->)]; apply fetch_run in H1 as (Ht & Hi & Hf); [|done].
  unfold io_lift in H2. injection H2 as <- <-. split_and!; [done..|]. intros z Hz Hs.
  destruct rows as [|row rows]; [done|]. exists row, rows. split; [by apply Hf|].
  destruct (try_get_int row column); [by injection Hz as ->|done].
Qed.
Lemma read_scalar_in_tx p sql column : io_rel (in_tx p) (FileIndex.fetch_scalar (DB:=DB) p sql column).
Proof. intros w r w' H. by apply read_scalar_run in H as [H _]. Qed.

(** A transaction happens as a whole or not at all. *)
Lemma transaction_run {E A} (err : string -> E) p (m : io (world DB) E A) w r w' :
  io_rel (in_tx p) m -> in_transaction err p m w = (r, w') ->
  w_fs w' = w_fs w /\ same_journal w w' /\ (forall q, q <> p -> idx_at q w' = idx_at q w) /\
  match r with
  | Ok a => exists w1 w2, w_fs w1 = w_fs w /\ idx_at p w1 = idx_at p w /\ m w1 = (Ok a, w2) /\ idx_at p w' = idx_at p w2
  | Err _ => idx_at p w' = idx_at p w
  end.
Proof.
  intros Hm. unfold in_transaction, transaction. destruct (sql_begin (w_db w p)) as [[[]|e] d] eqn:Hb;
    destruct (begin_idx _ _ _ Hb) as (Hbi & Hbj & Hbs); simpl in Hbs.
  2: { intros [= <- <-]. destruct (set_db_index p d w Hbj Hbi) as [H1 H2]. by split_and!. }
  specialize (Hbs eq_refl). destruct (set_db_index p d w Hbj Hbi) as [Hsj Hsi].
  destruct (m (set_db p d w)) as [r1 w1] eqn:Hr. destruct (Hm _ _ _ Hr) as (Hf & Hs & Hj & Ho).
  simpl in Hs, Hj. rewrite fn_lookup_insert in Hs, Hj.
  assert (forall q d2, q <> p -> w_db (set_db p d2 w1) q = w_db w q) as Hq.
  { intros q d2 Hne. simpl. rewrite fn_lookup_insert_ne by done. rewrite Ho by done. simpl. by rewrite fn_lookup_insert_ne. }
  assert (forall d2, journal_rows d2 = journal_rows (w_db w p) -> same_journal w (set_db p d2 w1)) as Hsame.
  { intros d2 Hd2 q. unfold journal_at. destruct (decide (q = p)) as [->|Hne]; [simpl; by rewrite fn_lookup_insert|by rewrite Hq]. }
  assert (forall d2, saved d2 = saved d -> idx (sql_rollback d2) = idx (w_db w p) /\
    journal_rows (sql_rollback d2) = journal_rows (w_db w p)) as Hroll.
  { intros d2 Hd2. pose proof (rollback_idx d2) as Hrb. rewrite Hd2, Hbs in Hrb. by injection Hrb. }
  assert (forall d2, idx_at p (set_db p d2 w1) = idx d2) as Hat by (intros; unfold idx_at; simpl; by rewrite fn_lookup_insert).
  destruct r1 as [a|e].
  - destruct (sql_commit (w_db w1 p)) as [[[]|e2] d2] eqn:Hc; pose proof (commit_idx _ _ _ Hc) as Hci; simpl in Hci.
    + intros [= <- <-]. destruct Hci as [Hci Hcj]. split_and!; [done|apply Hsame; congruence| |].
      * intros q Hne. unfold idx_at. by rewrite Hq.
      * exists (set_db p d w), w1. split_and!; [done|apply Hsi|done|by rewrite Hat, Hci].
    + intros [= <- <-]. destruct (Hroll d2) as [H1 H2]; [congruence|].
      split_and!; [done|by apply Hsame| |by rewrite Hat]. intros q Hne. unfold idx_at. by rewrite Hq.
  - intros [= <- <-]. destruct (Hroll (w_db w1 p)) as [H1 H2]; [congruence|].
    split_and!; [done|by apply Hsame| |by rewrite Hat]. intros q Hne. unfold idx_at. by rewrite Hq.
Qed.

(** ** The writers *)

Definition bumped (t : IndexTables) : IndexTables :=
  mkIndexTables (it_files t) (it_entries t) (it_generation t + 1) (it_initialized t).
Definition set_init (b : Z) (t : IndexTables) : IndexTables :=
  mkIndexTables (it_files t) (it_entries t) (it_generation t) b.

(** The rows of a file and of a search entry. *)
Definition file_row (file : IndexedFile) : string * FileRow :=
  (if_relative_path file, mkFileRow (as_i64 (if_size_bytes file)) (as_i64 <$> if_modified_unix_ms file)
     (if_extension file) (if_file_id file)).
Definition entry_row (unicode : string -> string) (e : IndexedSearchEntry) : string * SearchRow :=
  (is_relative_path e, mkSearchRow (FileIndex.parent_of (is_relative_path e)) (is_name e)
     (FileIndex.normalize_name unicode (is_name e)) (if is_dir e then "directory" else "file") (is_extension e)
     (as_i64 <$> is_size_bytes e) (as_i64 <$> is_modified_unix_ms e)).

Lemma int_opt_int o : int_opt (opt_int o) = Some o.
Proof. by destruct o. Qed.
Lemma text_opt_text o : text_opt (opt_text o) = Some o.
Proof. by destruct o. Qed.
Lemma file_of_file_binds file : IndexSql.file_of_binds (FileIndex.file_binds file) = Some (file_row file).
Proof.
  unfold IndexSql.file_of_binds, FileIndex.file_binds, opt_i64, file_row. by rewrite int_opt_int, !text_opt_text.
Qed.
Lemma entry_of_entry_binds unicode e :
  IndexSql.entry_of_binds (FileIndex.entry_binds unicode e) = Some (entry_row unicode e).
Proof.
  unfold IndexSql.entry_of_binds, FileIndex.entry_binds, opt_i64, entry_row. rewrite !int_opt_int, text_opt_text.
  by destruct (is_dir e).
Qed.

Lemma bump_run p w r w' :
  FileIndex.bump_generation p w = (r, w') ->
  in_tx p w w' /\ (forall g, r = Ok g -> idx_at p w' = bumped (idx_at p w) /\ g = (it_generation (idx_at p w) + 1)%Z).
Proof.
  unfold FileIndex.bump_generation. intros [(u & w1 & H1 & H)|(e & H1 & ->)]%io_bind_inv;
    apply execute_run in H1 as [Ht1 H1]; try in_statements; [|by split].
  apply io_bind_inv in H as [(g & w2 & H2 & H)|(e & H2 & ->)]; apply read_scalar_run in H2 as (Ht2 & Hi2 & H2);
    [|split; [by etrans|done]].
  unfold io_lift in H. injection H as <- <-. split; [by etrans|]. intros g' Hg.
  destruct (H2 g eq_refl) as (row & rows & Hf & Hrow); [in_statements|].
  assert (g' = g) as ->. { unfold FileIndex.generation_of in Hg. by destruct (g <? 0)%Z; [|injection Hg as ->]. }
  change (IndexSql.execute IndexSql.bump_generation [] (idx_at p w)) with (Some (bumped (idx_at p w))) in H1.
  injection H1 as Hi1. destruct Hi2 as [_ Hi2]. rewrite Hi2, <- Hi1. split; [done|].
  change (IndexSql.fetch IndexSql.select_generation [] (idx_at p w1))
    with (Some [[("generation", SqlInt (it_generation (idx_at p w1)))]]) in Hf.
  injection Hf as <- _. rewrite <- Hi1 in Hrow. by injection Hrow as <-.
Qed.

(** Inserting rows one by one, each new, into a table. *)
Section inserts.
Context {A B : Type} (sql : string) (binds : A -> list sql_value) (row : A -> string * B).
Context (get : IndexTables -> gmap string B) (put : IndexTables -> gmap string B -> IndexTables).
Hypothesis sql_statement : sql ∈ IndexSql.statements.
Hypothesis sql_inserts : forall a t, IndexSql.execute sql (binds a) t =
  match get t !! (row a).1 with Some _ => None | None => Some (put t (<[(row a).1 := (row a).2]> (get t))) end.
Hypothesis get_put : forall t m, get (put t m) = m.
Hypothesis put_put : forall t m m', put (put t m) m' = put t m'.
Hypothesis put_get : forall t, put t (get t) = t.

Definition insert_rows p (l : list A) n : io (world DB) DbError unit :=
  io_for (fun _ _ a => FileIndex.execute p sql (binds a)) n tt l.

Lemma insert_rows_run p l n w u w' :
  insert_rows p l n w = (Ok u, w') ->
  NoDup (map (fun a => (row a).1) l) /\ (forall a, a ∈ l -> get (idx_at p w) !! (row a).1 = None) /\
  idx_at p w' = put (idx_at p w) (list_to_map (map row l) ∪ get (idx_at p w)).
Proof.
  unfold insert_rows. revert w u n. induction l as [|a l IH]; intros w u n H; cbn [io_for] in H.
  { injection H as <- <-. split_and!; [constructor|by intros ? ?%not_elem_of_nil|].
    simpl. by rewrite (left_id ∅ (∪)), put_get. }
  apply io_bind_ok in H as ([] & w1 & H1 & H). apply execute_run in H1 as [_ H1]; [|done].
  rewrite sql_inserts in H1. destruct (get (idx_at p w) !! (row a).1) eqn:Hn; [done|]. injection H1 as H1.
  apply IH in H as (Hnd & Hfree & ->). rewrite <- H1, get_put in *. rewrite put_put.
  assert (forall b, b ∈ l -> (row a).1 <> (row b).1 /\ get (idx_at p w) !! (row b).1 = None) as Hl.
  { intros b Hb. by apply Hfree in Hb as [? ?]%lookup_insert_None. }
  split_and!.
  - cbn [map]. constructor; [|exact Hnd]. intros (b & Heq & Hb)%list_elem_of_fmap. by destruct (Hl b Hb).
  - intros b [->|Hb]%elem_of_cons; [done|]. by apply Hl.
  - cbn [map]. f_equal. destruct (row a) as [k v] eqn:Hrow. cbn [fst snd] in *. cbn [list_to_map foldr].
    rewrite <- insert_union_l, insert_union_r; [done|].
    apply not_elem_of_list_to_map_1. intros (kv & Heq & Hin)%list_elem_of_fmap.
    apply list_elem_of_fmap in Hin as (b & -> & Hin). by destruct (Hl b Hin).
Qed.
Lemma insert_rows_in_tx p l n : io_rel (in_tx p) (insert_rows p l n).
Proof. apply io_rel_for; [apply _|]. intros. by apply execute_in_tx. Qed.
End inserts.

Lemma execute_insert_file l t : IndexSql.execute IndexSql.insert_file l t =
  match IndexSql.file_of_binds l with
  | Some (q, r) => match it_files t !! q with
                   | Some _ => None
                   | None => Some (with_files t (<[q := r]> (it_files t)))
                   end
  | None => None
  end.
Proof. reflexivity. Qed.
Lemma execute_insert_entry l t : IndexSql.execute IndexSql.insert_entry l t =
  match IndexSql.entry_of_binds l with
  | Some (q, r) => match it_entries t !! q with
                   | Some _ => None
                   | None => Some (with_entries t (<[q := r]> (it_entries t)))
                   end
  | None => None
  end.
Proof. reflexivity. Qed.
Lemma file_insert file t : IndexSql.execute IndexSql.insert_file (FileIndex.file_binds file) t =
  match it_files t !! (file_row file).1 with
  | Some _ => None
  | None => Some (with_files t (<[(file_row file).1 := (file_row file).2]> (it_files t)))
  end.
Proof. by rewrite execute_insert_file, file_of_file_binds. Qed.
Lemma entry_insert unicode e t : IndexSql.execute IndexSql.insert_entry (FileIndex.entry_binds unicode e) t =
  match it_entries t !! (entry_row unicode e).1 with
  | Some _ => None
  | None => Some (with_entries t (<[(entry_row unicode e).1 := (entry_row unicode e).2]> (it_entries t)))
  end.
Proof. by rewrite execute_insert_entry, entry_of_entry_binds. Qed.

(** The tables a rebuild leaves. *)
Definition rebuilt (unicode : string -> string) (files : list IndexedFile) (entries : list IndexedSearchEntry)
  (t : IndexTables) : IndexTables :=
  mkIndexTables (list_to_map (map file_row files)) (list_to_map (map (entry_row unicode) entries))
    (it_generation t + 1) 1.

Lemma replace_index_run unicode p files entries w g w' :
  FileIndex.replace_index unicode p files entries w = (Ok g, w') ->
  NoDup (map if_relative_path files) /\ NoDup (map is_relative_path entries) /\
  idx_at p w' = rebuilt unicode files entries (idx_at p w) /\ g = (it_generation (idx_at p w) + 1)%Z.
Proof.
  unfold FileIndex.replace_index. intros H.
  apply io_bind_ok in H as (u1 & w1 & H1 & H). apply execute_run in H1 as [_ H1]; [|in_statements].
  change (Some (with_files (idx_at p w) ∅) = Some (idx_at p w1)) in H1. injection H1 as H1.
  apply io_bind_ok in H as (u2 & w2 & H2 & H).
  apply (insert_rows_run IndexSql.insert_file FileIndex.file_binds file_row it_files with_files) in H2 as (Hnd1 & _ & H2);
    [|in_statements|apply file_insert|done|done|by intros []].
  apply io_bind_ok in H as (u3 & w3 & H3 & H). apply execute_run in H3 as [_ H3]; [|in_statements].
  change (Some (with_entries (idx_at p w2) ∅) = Some (idx_at p w3)) in H3. injection H3 as H3.
  apply io_bind_ok in H as (u4 & w4 & H4 & H).
  apply (insert_rows_run IndexSql.insert_entry (FileIndex.entry_binds unicode) (entry_row unicode) it_entries with_entries)
    in H4 as (Hnd2 & _ & H4); [|in_statements|apply entry_insert|done|done|by intros []].
  apply io_bind_ok in H as (u5 & w5 & H5 & H). apply execute_run in H5 as [_ H5]; [|in_statements].
  change (Some (set_init 1 (idx_at p w4)) = Some (idx_at p w5)) in H5. injection H5 as H5.
  apply bump_run in H as [_ H]. destruct (H g eq_refl) as [Hi ->]. split_and!; [exact Hnd1|exact Hnd2| |].
  - rewrite Hi, <- H5, H4, <- H3, H2, <- H1. unfold rebuilt, bumped, set_init, with_entries, with_files. simpl.
    by rewrite !(right_id ∅ (∪)).
  - by rewrite <- H5, H4, <- H3, H2, <- H1.
Qed.
Lemma replace_index_in_tx unicode p files entries : io_rel (in_tx p) (FileIndex.replace_index (DB:=DB) unicode p files entries).
Proof.
  unfold FileIndex.replace_index, FileIndex.bump_generation, FileIndex.insert_search_entry.
  io_rel_go; first [apply execute_in_tx; in_statements|apply read_scalar_in_tx].
Qed.

(** ** The operations *)

Definition removed (path : string) (t : IndexTables) : IndexTables :=
  let like := FileIndex.escape_like (trim_end_char "/" path) +:+ "/%" in
  bumped (mkIndexTables (IndexSql.kept path like (it_files t)) (IndexSql.kept path like (it_entries t))
    (it_generation t) (it_initialized t)).
Definition cleared (t : IndexTables) : IndexTables := bumped (mkIndexTables ∅ ∅ (it_generation t) 0).
Definition upserted (unicode : string -> string) (file : IndexedFile) (e : IndexedSearchEntry) (t : IndexTables)
  : IndexTables :=
  bumped (mkIndexTables (<[(file_row file).1 := (file_row file).2]> (it_files t))
    (<[(entry_row unicode e).1 := (entry_row unicode e).2]> (delete (if_relative_path file) (it_entries t)))
    (it_generation t) (it_initialized t)).

(** An operation on the index of the database [p]: it changes no journal and no other
    index; it makes [P] of the tables, or fails and leaves them. *)
Definition index_effect {E A} p (P : A -> IndexTables -> IndexTables -> Prop) w (r : result A E) w' : Prop :=
  same_journal w w' /\ (forall q, q <> p -> idx_at q w' = idx_at q w) /\
  match r with Ok a => P a (idx_at p w) (idx_at p w') | Err _ => idx_at p w' = idx_at p w end.

Lemma index_effect_none {E A} p (P : A -> IndexTables -> IndexTables -> Prop) w (e : E) w' :
  same_index w w' -> index_effect p P w (Err e) w'.
Proof. intros [H1 H2]. by split_and!. Qed.
Lemma index_effect_after {E A} p (P : A -> IndexTables -> IndexTables -> Prop) w w1 (r : result A E) w' :
  same_index w w1 -> index_effect p P w1 r w' -> index_effect p P w r w'.
Proof.
  intros [H1 H2] (H3 & H4 & H5). split_and!; [by etrans| |].
  - intros q Hq. by rewrite H4, H2.
  - destruct r; by rewrite H2 in H5.
Qed.
Lemma index_effect_map_err {E F A} p P w (f : E -> F) (r : result A E) w' :
  index_effect p P w r w' -> index_effect p P w (map_err f r) w'.
Proof. intros H. destruct r; exact H. Qed.

Lemma transaction_effect {E A} (err : string -> E) p (P : A -> IndexTables -> IndexTables -> Prop)
    (m : io (world DB) E A) w r w' :
  io_rel (in_tx p) m -> (forall a w1 w2, m w1 = (Ok a, w2) -> P a (idx_at p w1) (idx_at p w2)) ->
  in_transaction err p m w = (r, w') -> index_effect p P w r w'.
Proof.
  intros Hm HP H. destruct (transaction_run err p m w r w' Hm H) as (_ & Hj & Ho & Hr). split_and!; [done..|].
  destruct r as [a|e]; [|done]. destruct Hr as (w1 & w2 & _ & Hi1 & Hr & Hi2). rewrite <- Hi1, Hi2. by apply HP.
Qed.

Lemma open_index_run root_arg w r w' :
  FileIndex.open_index root_arg w = (r, w') ->
  same_index w w' /\ match r with
  | Ok (g, p) => PathGuard.new (w_fs w) root_arg = Ok g /\ p = Db.db_path_for_root (root g)
  | Err _ => True
  end.
Proof.
  unfold FileIndex.open_index, get_fs, io_gets, io_lift. unfold io_bind at 1 2. cbv beta iota.
  destruct (PathGuard.new (w_fs w) root_arg) as [g|e] eqn:Hg; simpl; [|by intros [= <- <-]].
  intros [(p & w1 & H1 & H)|(e & H1 & ->)]%io_bind_inv; apply io_map_err_inv in H1 as (r0 & H1 & Hr0);
    pose proof (open_root_index _ _ _ _ H1); [|by split].
  destruct r0; [|done]. injection Hr0 as <-. injection H as <- <-. split; [done|]. split; [done|].
  by eapply open_root_pool.
Qed.

(** An operation that opens the index and runs one transaction on it. *)
Lemma opened_effect {A} root_arg (k : PathGuard -> string -> io (world DB) FileIndexError A)
    (P : PathGuard -> A -> IndexTables -> IndexTables -> Prop) w r w' :
  (let! ' (g, p) := FileIndex.open_index root_arg in k g p) w = (r, w') ->
  (forall g p w r w', k g p w = (r, w') -> index_effect p (P g) w r w') ->
  (exists e, r = Err e /\ same_index w w') \/
  exists g, PathGuard.new (w_fs w) root_arg = Ok g /\ index_effect (Db.db_path_for_root (root g)) (P g) w r w'.
Proof.
  intros [((g & p) & w1 & H1 & H)|(e & H1 & ->)]%io_bind_inv Hk; apply open_index_run in H1 as [Hs H1]; [right|left; eauto].
  destruct H1 as [Hg ->]. exists g. split; [done|]. eapply index_effect_after; [exact Hs|by apply Hk].
Qed.

Lemma remove_path_run root_arg rel w r w' :
  FileIndex.remove_path root_arg rel w = (r, w') ->
  (exists e, r = Err e /\ same_index w w') \/
  exists g, PathGuard.new (w_fs w) root_arg = Ok g /\
    index_effect (Db.db_path_for_root (root g)) (fun _ t t' => t' = removed rel t) w r w'.
Proof.
  intros H. eapply (opened_effect root_arg _ (fun _ _ t t' => t' = removed rel t)) in H; [exact H|]. clear H w r w'.
  cbv zeta. intros g p w r w' (r0 & H & ->)%io_map_err_inv. apply index_effect_map_err.
  eapply transaction_effect; [| |exact H].
  - unfold FileIndex.bump_generation. io_rel_go; first [apply execute_in_tx; in_statements|apply read_scalar_in_tx].
  - clear H w r0 w'. intros [] w w' H.
    apply io_bind_ok in H as (u1 & w1 & H1 & H). apply execute_run in H1 as [_ H1]; [|in_statements].
    apply io_bind_ok in H as (u2 & w2 & H2 & H). apply execute_run in H2 as [_ H2]; [|in_statements].
    apply io_bind_ok in H as (g2 & w3 & H3 & H). injection H as <-. apply bump_run in H3 as [_ H3].
    destruct (H3 g2 eq_refl) as [-> _]. unfold removed. set (like := _ +:+ "/%") in *.
    change (Some (with_files (idx_at p w) (IndexSql.kept rel like (it_files (idx_at p w)))) = Some (idx_at p w1)) in H1.
    change (Some (with_entries (idx_at p w1) (IndexSql.kept rel like (it_entries (idx_at p w1)))) = Some (idx_at p w2)) in H2.
    injection H1 as H1. injection H2 as H2. by rewrite <- H2, <- H1.
Qed.

Lemma clear_index_run root_arg w r w' :
  FileIndex.clear_index root_arg w = (r, w') ->
  (exists e, r = Err e /\ same_index w w') \/
  exists g, PathGuard.new (w_fs w) root_arg = Ok g /\
    index_effect (Db.db_path_for_root (root g)) (fun _ t t' => t' = cleared t) w r w'.
Proof.
  intros H. eapply (opened_effect root_arg _ (fun _ _ t t' => t' = cleared t)) in H; [exact H|]. clear H w r w'.
  intros g p w r w' (r0 & H & ->)%io_map_err_inv. apply index_effect_map_err.
  eapply transaction_effect; [| |exact H].
  - unfold FileIndex.bump_generation. io_rel_go; first [apply execute_in_tx; in_statements|apply read_scalar_in_tx].
  - clear H w r0 w'. intros [] w w' H.
    apply io_bind_ok in H as (u1 & w1 & H1 & H). apply execute_run in H1 as [_ H1]; [|in_statements].
    apply io_bind_ok in H as (u2 & w2 & H2 & H). apply execute_run in H2 as [_ H2]; [|in_statements].
    apply io_bind_ok in H as (u3 & w3 & H3 & H). apply execute_run in H3 as [_ H3]; [|in_statements].
    apply io_bind_ok in H as (g2 & w4 & H4 & H). injection H as <-. apply bump_run in H4 as [_ H4].
    destruct (H4 g2 eq_refl) as [-> _].
    change (Some (with_files (idx_at p w) ∅) = Some (idx_at p w1)) in H1.
    change (Some (with_entries (idx_at p w1) ∅) = Some (idx_at p w2)) in H2.
    change (Some (set_init 0 (idx_at p w2)) = Some (idx_at p w3)) in H3.
    injection H1 as H1. injection H2 as H2. injection H3 as H3. by rewrite <- H3, <- H2, <- H1.
Qed.

Lemma execute_upsert l t : IndexSql.execute IndexSql.upsert_file l t =
  match IndexSql.file_of_binds l with Some (q, r) => Some (with_files t (<[q := r]> (it_files t))) | None => None end.
Proof. reflexivity. Qed.

(** The file an upsert records, from the tree at its time. *)
Definition upsert_of (f : tree) (g : PathGuard) (rel : string) (size : Z) (modified : option Z) : IndexedFile :=
  mkIndexedFile rel size modified (FileIndex.extension_of rel) (FileIndex.file_id_for_relative_path f g rel).

Lemma upsert_file_run unicode root_arg rel size modified w r w' :
  FileIndex.upsert_file unicode root_arg rel size modified w = (r, w') ->
  (exists e, r = Err e /\ same_index w w') \/
  exists g, PathGuard.new (w_fs w) root_arg = Ok g /\
    index_effect (Db.db_path_for_root (root g)) (fun _ t t' => exists f e,
      FileIndex.indexed_search_entry rel false (Some size) modified = Some e /\
      delete rel (it_entries t) !! is_relative_path e = None /\
      t' = upserted unicode (upsert_of f g rel size modified) e t) w r w'.
Proof.
  intros H. eapply (opened_effect root_arg _ (fun g _ t t' => exists f e,
      FileIndex.indexed_search_entry rel false (Some size) modified = Some e /\
      delete rel (it_entries t) !! is_relative_path e = None /\
      t' = upserted unicode (upsert_of f g rel size modified) e t)) in H; [exact H|]. clear H w r w'.
  intros g p w r w' [(f & w0 & [= <- <-] & H)|(e & [=] & _)]%io_bind_inv.
  apply io_bind_inv in H as [(e & w1 & H1 & H)|(er & H1 & ->)]; unfold io_lift in H1; injection H1 as He <-;
    [|by apply index_effect_none].
  destruct (FileIndex.indexed_search_entry rel false (Some size) modified) as [e'|] eqn:Hent; [|done].
  injection He as ->. fold (upsert_of (w_fs w) g rel size modified) in H.
  apply io_map_err_inv in H as (r0 & H & ->). apply index_effect_map_err.
  eapply transaction_effect; [| |exact H].
  - unfold FileIndex.bump_generation, FileIndex.insert_search_entry.
    io_rel_go; first [apply execute_in_tx; in_statements|apply read_scalar_in_tx].
  - set (f := w_fs w). clearbody f. clear H w r0 w'. intros [] w w' H.
    apply io_bind_ok in H as (u1 & w1 & H1 & H). apply execute_run in H1 as [_ H1]; [|in_statements].
    apply io_bind_ok in H as (u2 & w2 & H2 & H). apply execute_run in H2 as [_ H2]; [|in_statements].
    apply io_bind_ok in H as (u3 & w3 & H3 & H). apply execute_run in H3 as [_ H3]; [|in_statements].
    apply io_bind_ok in H as (g2 & w4 & H4 & H). injection H as <-. apply bump_run in H4 as [_ H4].
    destruct (H4 g2 eq_refl) as [-> _].
    rewrite execute_upsert, file_of_file_binds in H1. rewrite entry_insert in H3.
    change (Some (with_entries (idx_at p w1) (delete rel (it_entries (idx_at p w1)))) = Some (idx_at p w2)) in H2.
    injection H2 as H2. destruct (it_entries (idx_at p w2) !! (entry_row unicode e).1) eqn:Hn; [done|]. injection H3 as H3.
    injection H1 as H1. exists f, e. split; [done|]. rewrite <- H3, <- H2, <- H1 in *. by split.
Qed.

Lemma upsert_existing_file_run unicode root_arg rel w r w' :
  FileIndex.upsert_existing_file unicode root_arg rel w = (r, w') ->
  (exists e, r = Err e /\ same_index w w') \/
  exists g g' q i, PathGuard.new (w_fs w) root_arg = Ok g /\ PathGuard.resolve_existing (w_fs w) g rel = Ok q /\
    symlink_metadata (w_fs w) q = Ok i /\ is_file_inode i = true /\ PathGuard.new (w_fs w) (root g) = Ok g' /\
    index_effect (Db.db_path_for_root (root g')) (fun _ t t' => exists f e,
      FileIndex.indexed_search_entry rel false (Some (inode_len i)) (modified_unix_ms i) = Some e /\
      delete rel (it_entries t) !! is_relative_path e = None /\
      t' = upserted unicode (upsert_of f g' rel (inode_len i) (modified_unix_ms i)) e t) w r w'.
Proof.
  unfold FileIndex.upsert_existing_file, get_fs, io_gets, io_lift. unfold io_bind at 1 2 3 4. cbv beta iota.
  destruct (PathGuard.new (w_fs w) root_arg) as [g|e]; simpl; [|intros [= <- <-]; left; by eexists].
  destruct (PathGuard.resolve_existing (w_fs w) g rel) as [q|e] eqn:Hq; simpl; [|intros [= <- <-]; left; by eexists].
  destruct (symlink_metadata (w_fs w) q) as [i|e] eqn:Hi; simpl; [|intros [= <- <-]; left; by eexists].
  destruct (is_file_inode i) eqn:Hf; simpl; [|intros [= <- <-]; left; by eexists].
  intros [H|(g' & Hg' & H)]%upsert_file_run; [by left|right]. by exists g, g', q, i.
Qed.

Lemma reindex_root_run unicode root_arg w r w' :
  FileIndex.reindex_root unicode root_arg w = (r, w') ->
  (exists e, r = Err e /\ same_index w w') \/
  exists g an entries f, PathGuard.new (w_fs w) root_arg = Ok g /\ Analyzer.analyze_root (w_fs w) (root g) = Ok an /\
    FileIndex.collect_search_entries unicode (w_fs w) (root g) = Ok entries /\ more_dirs (w_fs w) f /\
    let files := map (FileIndex.indexed_file f g) (ar_files an) in
    index_effect (Db.db_path_for_root (root g)) (fun rep t t' =>
      NoDup (map if_relative_path files) /\ NoDup (map is_relative_path entries) /\
      t' = rebuilt unicode files entries t /\
      rep = mkFileIndexReport (ar_root an) (it_generation t + 1) files (ar_skipped_entries an)) w r w'.
Proof.
  unfold FileIndex.reindex_root, get_fs, io_gets, io_lift. unfold io_bind at 1 2 3 4. cbv beta iota.
  destruct (PathGuard.new (w_fs w) root_arg) as [g|e] eqn:Hg; simpl; [|intros [= <- <-]; left; by eexists].
  destruct (Analyzer.analyze_root (w_fs w) (root g)) as [an|e] eqn:Han; simpl; [|intros [= <- <-]; left; by eexists].
  destruct (FileIndex.collect_search_entries unicode (w_fs w) (root g)) as [entries|e] eqn:Hent; simpl;
    [|intros [= <- <-]; left; by eexists].
  intros [(p & w1 & H1 & H)|(e & H1 & ->)]%io_bind_inv; apply io_map_err_inv in H1 as (r1 & H1 & Hr1);
    pose proof (open_root_index _ _ _ _ H1) as Hs; [|left; by eexists]. destruct r1 as [p'|]; [|done]. injection Hr1 as <-.
  pose proof (open_root_dirs _ _ _ _ H1) as Hd. apply open_root_pool in H1 as ->.
  unfold io_bind at 1 in H. right. exists g, an, entries, (w_fs w1). split_and!; [done|exact Han|exact Hent|exact Hd|]. cbv zeta in *.
  set (files := map (FileIndex.indexed_file (w_fs w1) g) (ar_files an)) in *.
  eapply index_effect_after; [exact Hs|]. set (p := Db.db_path_for_root (root g)) in *.
  assert (forall (r0 : result Z DbError) w2,
    in_transaction FileIndex.query_error p (FileIndex.replace_index unicode p files entries) w1 = (r0, w2) ->
    index_effect p (fun gen t t' => NoDup (map if_relative_path files) /\ NoDup (map is_relative_path entries) /\
      t' = rebuilt unicode files entries t /\ gen = (it_generation t + 1)%Z) w1 r0 w2) as Htx.
  { intros r0 w2 Hr. eapply transaction_effect; [|intros gen wa wb Hrun; exact (replace_index_run _ _ _ _ _ _ _ Hrun)|exact Hr].
    apply replace_index_in_tx. }
  apply io_bind_inv in H as [(gen & w2 & H2 & H)|(e & H2 & ->)]; apply io_map_err_inv in H2 as (r2 & H2 & Hr2);
    apply Htx in H2; destruct r2; try done.
  - injection Hr2 as <-. injection H as <- <-. destruct H2 as (H3 & H4 & H5 & H6 & H7 & ->). by split_and!.
Qed.

(** ** The readers *)

Lemma fetch_all_index p sql l : io_rel same_index (Db.fetch_all (DB:=DB) p sql l).
Proof. intros w r w' H. by apply fetch_run in H as (_ & H & _). Qed.
Lemma fetch_scalar_index p sql c : io_rel same_index (FileIndex.fetch_scalar (DB:=DB) p sql c).
Proof. intros w r w' H. by apply read_scalar_run in H as (_ & H & _). Qed.
Lemma open_index_same root_arg : io_rel same_index (FileIndex.open_index (DB:=DB) root_arg).
Proof. intros w r w' H. by apply open_index_run in H as [H _]. Qed.
#[local] Hint Resolve fetch_all_index fetch_scalar_index open_index_same open_root_index : io.

Lemma query_index_same unicode root_arg q : io_rel same_index (FileIndex.query_index (DB:=DB) unicode root_arg q).
Proof. unfold FileIndex.query_index, FileIndex.fetch_indexed, FileIndex.read_generation. io_rel_go. Qed.
Lemma index_generation_same root_arg : io_rel same_index (FileIndex.index_generation (DB:=DB) root_arg).
Proof. unfold FileIndex.index_generation, FileIndex.read_generation. io_rel_go. Qed.
Lemma index_is_initialized_same root_arg : io_rel same_index (FileIndex.index_is_initialized (DB:=DB) root_arg).
Proof. unfold FileIndex.index_is_initialized. io_rel_go. Qed.

(** A transaction that only reads. *)
Lemma reading_transaction {E A} (err : string -> E) p (m : io (world DB) E A) :
  io_rel (in_tx p) m -> io_rel same_index m -> io_rel same_index (in_transaction err p m).
Proof.
  intros Ht Hs w r w' H. destruct (transaction_effect err p (fun _ t t' => t' = t) m w r w' Ht) as (H1 & H2 & H3); [|done|].
  - intros a w1 w2 Hm. by apply Hs in Hm as [_ Hm].
  - split; [done|]. intros q. destruct (decide (q = p)) as [->|Hq]; [by destruct r|by apply H2].
Qed.
Lemma page_loop_rel (R : world DB -> world DB -> Prop) `{!PreOrder R} n p g scope dir q exts limit es off :
  (forall sql l, io_rel R (Db.fetch_all (DB:=DB) p sql l)) ->
  io_rel R (FileIndex.page_loop n p g scope dir q exts limit es off).
Proof.
  intros Hf. revert es off. induction n as [|n IH]; intros es off; simpl; [apply io_rel_fail, _|].
  unfold FileIndex.fetch_page. io_rel_go; first [apply Hf|apply IH].
Qed.
Lemma search_page_same unicode fuel root_arg q scope dir gen off limit exts :
  io_rel same_index (FileIndex.search_index_page_with_extensions (DB:=DB) unicode fuel root_arg q scope dir gen off limit exts).
Proof.
  unfold FileIndex.search_index_page_with_extensions. cbv zeta.
  destruct (negb _); [apply io_rel_fail, _|]. destruct (negb _); [apply io_rel_fail, _|].
  apply io_rel_bind; [apply _|io_rel_go|]; intros ex. apply io_rel_bind; [apply _|io_rel_go|]; intros f.
  apply io_rel_bind; [apply _|io_rel_go|]; intros g. apply io_rel_bind; [apply _|io_rel_go|]; intros d.
  apply io_rel_bind; [apply _|io_rel_go|]; intros u. apply io_rel_bind; [apply _|io_rel_go|]; intros p.
  apply reading_transaction; io_rel_go.
  - apply read_scalar_in_tx.
  - apply page_loop_rel, fetch_in_tx. apply _.
  - apply page_loop_rel, fetch_all_index. apply _.
Qed.
End index.
