(* ===== verification/index_scan.v ===== *)
(** Rebuilding the index: the scan for search entries, and the tables that a rebuild
    leaves, as the tree has them. *)
From Stdlib Require Import ZArith Lia Ascii Sorted.
From stdpp Require Import strings pretty gmap functions option list relations.
From S2P Require Import prelude rust_str std_path std_fs fs_facts path_guard db journal_store.
From S2P Require Import proposal_types analyzer browse index_sql file_index.
From S2P Require Import undo move_undo trash_facts file_ops_facts index_facts.

Open Scope string_scope.
Open Scope list_scope.

Lemma components_rel q : Forall seg_ok q -> q <> [] -> components (join "/" q) = map Normal q.
Proof.
  intros Hq Hne. destruct (components_rel_path q Hq) as [Ha Hi]. unfold components. rewrite Ha.
  rewrite split_slash_join in *; [|done|eapply Forall_impl; [exact Hq|]; by intros ? []
    |done|eapply Forall_impl; [exact Hq|]; by intros ? []].
  destruct q as [|s q]; [done|]. apply Forall_cons in Hq as [(_ & _ & Hd & _) _]. rewrite Hd. exact Hi.
Qed.

(** The search entry of the path [q] below the root, of inode [i]. *)
Definition search_entry (q : path) (i : inode) : option IndexedSearchEntry :=
  FileIndex.indexed_search_entry (join "/" q) (is_dir_inode i)
    (if is_dir_inode i then None else Some (inode_len i)) (modified_unix_ms i).

Section scan.
Context (f : tree) (Hwf : wf_tree f) (r : path) (Hr : dir_at f r).

(** The paths below the root that the scan of [r ++ k] visits, in its order. *)
Fixpoint below (n : nat) (k : path) : list path :=
  match n with
  | O => []
  | S n' =>
      flat_map (fun s =>
        if bool_decide (visible_name s) then
          match f !! (r ++ k ++ [s]) with
          | Some i => if is_link_inode i then []
                      else (k ++ [s]) :: (if is_dir_inode i then below n' (k ++ [s]) else [])
          | None => []
          end
        else []) (children f (r ++ k))
  end.
Definition entry_at (q : path) : option IndexedSearchEntry := f !! (r ++ q) ≫= search_entry q.

Lemma below_shape n k q :
  q ∈ below n k -> exists s q' i, q = k ++ s :: q' /\ f !! (r ++ q) = Some i /\ is_link_inode i = false /\ visible (s :: q').
Proof.
  revert k q. induction n as [|n IH]; intros k q; simpl; [by intros ?%not_elem_of_nil|].
  intros (s & _ & Hs)%list_elem_of_In%in_flat_map. apply list_elem_of_In in Hs.
  case_bool_decide as Hv; [|by apply not_elem_of_nil in Hs].
  destruct (f !! (r ++ k ++ [s])) as [i|] eqn:Hi; [|by apply not_elem_of_nil in Hs].
  destruct (is_link_inode i) eqn:Hl; [by apply not_elem_of_nil in Hs|].
  apply elem_of_cons in Hs as [->|Hs].
  - exists s, [], i. split_and!; [done..|by apply list.Forall_singleton].
  - destruct (is_dir_inode i); [|by apply not_elem_of_nil in Hs].
    apply IH in Hs as (t & q' & j & -> & Hj & Hlj & Hvj). exists s, (t :: q'), j.
    rewrite <- app_assoc in *. split_and!; [done..|by constructor].
Qed.

Lemma below_complete n k s q i :
  (size f <= n + length (r ++ k))%nat -> f !! (r ++ k ++ s :: q) = Some i -> is_link_inode i = false ->
  visible (s :: q) -> (k ++ s :: q) ∈ below n k.
Proof.
  revert k s q. induction n as [|n IH]; intros k s q Hn Hi Hl Hv.
  { pose proof (depth_lt_size _ _ _ Hwf Hi) as Hd. rewrite !length_app in *. simpl in *. lia. }
  simpl. apply list_elem_of_In, in_flat_map. exists s. split.
  - apply list_elem_of_In, elem_of_children. destruct (decide (q = [])) as [->|Hq]; [exists i; by rewrite <- app_assoc|].
    replace (r ++ k ++ s :: q) with (((r ++ k) ++ [s]) ++ q) in Hi by (by rewrite <- !app_assoc).
    by destruct (wf_prefix _ _ _ _ Hwf Hi Hq) as (x & Hx & _).
  - apply Forall_cons in Hv as [Hs Hv]. rewrite bool_decide_true by done. apply list_elem_of_In.
    destruct q as [|t q].
    + rewrite Hi, Hl. by left.
    + replace (r ++ k ++ s :: t :: q) with ((r ++ k ++ [s]) ++ t :: q) in Hi by (by rewrite <- !app_assoc).
      destruct (wf_prefix _ _ _ _ Hwf Hi ltac:(done)) as (x & Hx & Hd). rewrite Hx.
      assert (is_link_inode x = false) as -> by (unfold is_link_inode, is_dir_inode in *; by destruct (i_kind x)).
      rewrite Hd. right. replace (k ++ s :: t :: q) with ((k ++ [s]) ++ t :: q) by (by rewrite <- app_assoc).
      apply IH; [|by rewrite <- !app_assoc in *|done..].
      rewrite !length_app in *. simpl. lia.
Qed.

(** What the scan of a directory appends. *)
Lemma visit_entry_below v n k acc s i :
  f !! (r ++ k ++ [s]) = Some i ->
  (is_dir_inode i = true -> forall acc, v (abs_path (r ++ k ++ [s])) acc = Ok (acc ++ omap entry_at (below n (k ++ [s])))) ->
  FileIndex.visit_entry v f (abs_path r) acc (abs_path (r ++ k ++ [s])) =
    Ok (acc ++ omap entry_at (if bool_decide (visible_name s) then
      if is_link_inode i then [] else (k ++ [s]) :: (if is_dir_inode i then below n (k ++ [s]) else []) else [])).
Proof.
  intros Hi Hv. pose proof (wf_segs _ _ _ Hwf Hi) as Hok.
  pose proof Hok as Hok'. rewrite app_assoc in Hok'. pose proof (internal_dir_iff _ _ Hok') as Hint.
  rewrite <- app_assoc in Hint. unfold FileIndex.visit_entry.
  fold (Analyzer.is_mousekeeper_internal_dir (abs_path (r ++ k ++ [s]))).
  destruct (Analyzer.is_mousekeeper_internal_dir _) eqn:Hin.
  { rewrite bool_decide_false; [by rewrite app_nil_r|]. intros H. by apply Hint in H. }
  rewrite bool_decide_true by (by apply Hint).
  unfold symlink_metadata, tree_get. rewrite (lresolve_abs _ Hwf _ _ Hi), Hi.
  unfold is_link_or_reparse_point, is_windows_reparse_point. rewrite orb_false_r.
  destruct (is_link_inode i) eqn:Hl; [by rewrite app_nil_r|].
  assert (path_strip_prefix (abs_path (r ++ k ++ [s])) (abs_path r) = Some (map Normal (k ++ [s]))) as ->.
  { unfold path_strip_prefix. pose proof Hok as [Hrs _]%Forall_app. rewrite !components_abs_path by done.
    rewrite map_app. change (RootDir :: map Normal r ++ map Normal (k ++ [s]))
      with ((RootDir :: map Normal r) ++ map Normal (k ++ [s])). by rewrite strip_components_app. }
  rewrite join_components_normal. cbn [omap list_omap]. unfold entry_at at 1 3. rewrite Hi. cbn [mbind option_bind].
  unfold search_entry. destruct (is_dir_inode i) eqn:Hd.
  - rewrite Hv by done. destruct (FileIndex.indexed_search_entry _ _ _ _); simpl; by rewrite <- ?app_assoc, ?app_nil_r.
  - assert (is_file_inode i = true) as -> by (unfold is_dir_inode, is_file_inode, is_link_inode in *; by destruct (i_kind i)).
    destruct (FileIndex.indexed_search_entry _ _ _ _); simpl; by rewrite ?app_nil_r.
Qed.

Lemma visit_below n k acc :
  dir_at f (r ++ k) -> (size f <= n + length (r ++ k))%nat ->
  FileIndex.visit n f (abs_path r) (abs_path (r ++ k)) acc = Ok (acc ++ omap entry_at (below n k)).
Proof.
  revert k acc. induction n as [|n IH]; intros k acc Hk Hn.
  { destruct Hk as (i & Hi & _). pose proof (depth_lt_size _ _ _ Hwf Hi). lia. }
  simpl. rewrite (children_of_dir _ Hwf) by done.
  assert (forall L, Forall (fun s => is_Some (f !! (r ++ k ++ [s]))) L -> forall acc,
    try_fold (FileIndex.visit_entry (FileIndex.visit n f (abs_path r)) f (abs_path r)) acc
      (map (path_join (abs_path (r ++ k))) L) =
    Ok (acc ++ omap entry_at (flat_map (fun s =>
        if bool_decide (visible_name s) then
          match f !! (r ++ k ++ [s]) with
          | Some i => if is_link_inode i then []
                      else (k ++ [s]) :: (if is_dir_inode i then below n (k ++ [s]) else [])
          | None => []
          end
        else []) L))) as Hfold.
  { induction L as [|s L IHL]; intros HL acc'; [by rewrite app_nil_r|]. apply Forall_cons in HL as [[i Hi] HL].
    cbn [map try_fold flat_map]. pose proof (wf_segs _ _ _ Hwf Hi) as Hok. rewrite app_assoc in Hok.
    apply Forall_app in Hok as [H1 [H2 _]%Forall_cons]. rewrite join_abs_path, <- app_assoc by done.
    rewrite (visit_entry_below _ n _ _ _ _ Hi).
    - rewrite (IHL HL), Hi, omap_app, app_assoc. by destruct (bool_decide (visible_name s)).
    - intros Hd acc1. apply IH; [by exists i|]. rewrite !length_app in *. simpl. lia. }
  apply Hfold. apply list.Forall_forall. intros s Hs%elem_of_children. by rewrite app_assoc.
Qed.

Lemma collect_entries unicode :
  FileIndex.collect_search_entries unicode f (abs_path r) =
    Ok (sort_by (FileIndex.entry_cmp unicode) (omap entry_at (below (size f) []))).
Proof.
  unfold FileIndex.collect_search_entries. pose proof (visit_below (size f) [] []) as H.
  rewrite app_nil_r in H. rewrite H by (done || lia). done.
Qed.

Lemma elem_of_collected e :
  e ∈ omap entry_at (below (size f) []) <->
  exists q i, q <> [] /\ f !! (r ++ q) = Some i /\ is_link_inode i = false /\ visible q /\ search_entry q i = Some e.
Proof.
  rewrite list_elem_of_omap. unfold entry_at. split.
  - intros (q & Hq & He). apply below_shape in Hq as (s & q' & i & -> & Hi & Hl & Hv). rewrite Hi in He. by exists (s :: q'), i.
  - intros ([|s q] & i & Hne & Hi & Hl & Hv & He); [done|]. exists (s :: q). rewrite Hi. split; [|done].
    apply (below_complete (size f) [] s q i); [lia|done..].
Qed.
End scan.

(** * The tables of a rebuild *)

Lemma split_separator_plain s : contains_char "\" s = false -> split_on Browse.is_separator s = split_slash s.
Proof.
  unfold split_slash. induction s as [|c s IH]; simpl; [done|]. intros [Hc Hs]%orb_false_iff.
  unfold Browse.is_separator at 1. rewrite Hc, orb_false_r, IH by done. done.
Qed.
Lemma filter_all {A} (P : A -> Prop) `{forall x, Decision (P x)} l : Forall P l -> filter P l = l.
Proof. induction 1 as [|x l Hx _ IH]; [done|]. by rewrite filter_cons_True, IH. Qed.
Lemma normalize_plain q :
  Forall seg_ok q -> Forall (fun s => contains_char "\" s = false) q -> Browse.normalize_relative (join "/" q) = join "/" q.
Proof.
  intros Hq Hb. unfold Browse.normalize_relative. rewrite split_separator_plain by (by apply contains_char_join_intro).
  destruct q as [|s q]; [done|]. rewrite split_slash_join; [|done|eapply Forall_impl; [exact Hq|]; by intros ? []].
  f_equal. apply filter_all. eapply Forall_impl; [exact Hq|]. by intros x (_ & -> & _).
Qed.
Lemma file_name_rel q s : Forall seg_ok (q ++ [s]) -> path_file_name (join "/" (q ++ [s])) = Some s.
Proof.
  intros H. unfold path_file_name. rewrite components_rel by (by destruct q || done).
  rewrite map_app. cbn [map]. by rewrite reverse_snoc.
Qed.
Lemma parent_of_rel q s : Forall seg_ok (q ++ [s]) -> FileIndex.parent_of (join "/" (q ++ [s])) = join "/" q.
Proof.
  intros H. pose proof H as [Hq [Hs _]%Forall_cons]%Forall_app. unfold FileIndex.parent_of.
  rewrite path_parent_join by done. destruct (decide (q = [])) as [->|Hne]; [done|].
  by rewrite components_rel, join_components_normal.
Qed.

(** The row of the file, and of the search entry, of the path [q] below the root. *)
Definition file_row_of (q : path) (i : inode) : FileRow :=
  mkFileRow (as_i64 (inode_len i)) (as_i64 <$> modified_unix_ms i) (FileIndex.extension_of (join "/" q))
    (Some (file_id_of_inode i)).
Definition search_row_of (unicode : string -> string) (q : path) (i : inode) : SearchRow :=
  mkSearchRow (join "/" (removelast q)) (List.last q "") (FileIndex.normalize_name unicode (List.last q ""))
    (if is_dir_inode i then "directory" else "file")
    (if is_dir_inode i then None else FileIndex.extension_of (join "/" q))
    (if is_dir_inode i then None else Some (as_i64 (inode_len i))) (as_i64 <$> modified_unix_ms i).

Lemma search_entry_row unicode q i :
  q <> [] -> Forall seg_ok q -> Forall (fun s => contains_char "\" s = false) q ->
  exists e, search_entry q i = Some e /\ entry_row unicode e = (join "/" q, search_row_of unicode q i).
Proof.
  intros Hne Hq Hb. unfold search_entry, FileIndex.indexed_search_entry, search_row_of, entry_row.
  rewrite normalize_plain by done. destruct q as [|s q _] using rev_ind; [done|].
  rewrite file_name_rel by done. eexists. split; [reflexivity|]. cbn [is_relative_path is_name is_dir is_extension is_size_bytes is_modified_unix_ms].
  rewrite parent_of_rel, removelast_last, last_last by done. by destruct (is_dir_inode i).
Qed.

(** The guard resolves the path of an entry to the entry. *)
Lemma resolve_existing_real f g r q i :
  wf_tree f -> guard_named g r -> q <> [] -> f !! (r ++ q) = Some i -> is_link_inode i = false ->
  PathGuard.resolve_existing f g (join "/" q) = Ok (abs_path (r ++ q)).
Proof.
  intros Hwf Hg Hne Hi Hl. pose proof (wf_segs _ _ _ Hwf Hi) as [_ Hq]%Forall_app.
  destruct (components_rel_path q Hq) as [Habs _]. pose proof (components_rel q Hq Hne) as Hc.
  unfold PathGuard.resolve_existing, PathGuard.canonicalize_existing.
  assert (PathGuard.reject_unsafe_components (join "/" q) = Ok tt) as ->.
  { apply reject_unsafe_components_ok. rewrite Hc. apply Forall_map, list.Forall_true. done. }
  assert (canonicalize f (path_join (root g) (join "/" q)) = Ok (abs_path (r ++ q))) as ->.
  { assert (resolve f (path_join (root g) (join "/" q)) = Ok (r ++ q)) as Hres.
    { unfold resolve. rewrite (components_direct g r Hg _ _ Habs Hc), walk_cons.
      eapply (walk_real _ _ _ _ []); [done|exact Hi|apply (wf_root _ Hwf)|done]. }
    unfold canonicalize, tree_get. by rewrite Hres, Hi. }
  simpl. destruct Hg as [-> Hr]. pose proof (wf_segs _ _ _ Hwf Hi) as Hok.
  assert (path_starts_with (abs_path (r ++ q)) (abs_path r) = true) as ->; [|done].
  apply starts_with_abs; [done..|]. by eexists.
Qed.
Lemma file_id_real f f' g r q i :
  wf_tree f -> f ⊆ f' -> guard_named g r -> q <> [] -> f !! (r ++ q) = Some i -> is_link_inode i = false ->
  FileIndex.file_id_for_relative_path f' g (join "/" q) = Some (file_id_of_inode i).
Proof.
  intros Hwf Hs Hg Hne Hi Hl. unfold FileIndex.file_id_for_relative_path, file_id_for_path, metadata, tree_get.
  rewrite (resolve_existing_mono f f' g _ (abs_path (r ++ q))) by (done || by apply (resolve_existing_real f g r q i)).
  rewrite (resolve_mono f f' _ (r ++ q) Hs) by (by apply (resolve_abs f Hwf _ i)).
  by rewrite (lookup_weaken _ _ _ _ Hi Hs).
Qed.
Lemma file_not_link i : is_file_inode i = true -> is_link_inode i = false.
Proof. unfold is_link_inode, is_file_inode. by destruct (i_kind i). Qed.

(** What the tables say of the entries below [r]. *)
Record describes (unicode : string -> string) (f : tree) (r : path) (t : IndexTables) : Prop := {
  describes_files p row : it_files t !! p = Some row <->
    exists q i, q <> [] /\ p = join "/" q /\ f !! (r ++ q) = Some i /\ is_file_inode i = true /\ visible q /\
      row = file_row_of q i;
  describes_entries p row : it_entries t !! p = Some row <->
    exists q i, q <> [] /\ p = join "/" q /\ f !! (r ++ q) = Some i /\ is_link_inode i = false /\ visible q /\
      row = search_row_of unicode q i;
}.
(** No name below [r] has a backslash, which the index would read as a separator. *)
Definition plain_names (f : tree) (r : path) : Prop :=
  forall q i, f !! (r ++ q) = Some i -> Forall (fun s => contains_char "\" s = false) q.

Lemma lookup_rows {A B} (F : A -> string * B) (l : list A) p (b : B) :
  NoDup (map (fun x => (F x).1) l) -> (list_to_map (map F l) : gmap string B) !! p = Some b <-> exists x, x ∈ l /\ F x = (p, b).
Proof.
  intros Hnd. rewrite <- elem_of_list_to_map by (by rewrite <- list_fmap_compose).
  rewrite list_elem_of_fmap. split; intros (x & H1 & H2); eauto.
Qed.

Lemma rebuilt_describes unicode f f' g r root_arg an entries t :
  wf_tree f -> f ⊆ f' -> guard_at f g r -> plain_names f r ->
  PathGuard.new f root_arg = Ok g -> Analyzer.analyze_root f (root g) = Ok an ->
  FileIndex.collect_search_entries unicode f (root g) = Ok entries ->
  NoDup (map if_relative_path (map (FileIndex.indexed_file f' g) (ar_files an))) -> NoDup (map is_relative_path entries) ->
  describes unicode f r (rebuilt unicode (map (FileIndex.indexed_file f' g) (ar_files an)) entries t).
Proof.
  intros Hwf Hsub Hg Hplain Hnew Han Hent Hnd1 Hnd2. pose proof (guard_at_named _ _ _ Hwf Hg) as Hgn.
  destruct (analyze_root_report f (root g) g r Hwf (new_root _ Hwf _ _ Hg) Hg) as (rep & Hrep & _ & Hfiles & _).
  rewrite Han in Hrep. injection Hrep as <-. destruct Hg as [Hroot Hr]. rewrite Hroot in Hent.
  rewrite (collect_entries f Hwf r Hr) in Hent. injection Hent as <-.
  split; intros p row; cbn [rebuilt it_files it_entries].
  - rewrite lookup_rows by (exact Hnd1). setoid_rewrite list_elem_of_fmap. setoid_rewrite Hfiles. split.
    + intros (x & (fe & -> & q & i & Hne & Hi & Hfi & Hv & ->) & [= <- <-]). exists q, i.
      split_and!; [done..|]. unfold file_row_of. simpl. by rewrite (file_id_real f f' g r q i) by (done || by apply file_not_link).
    + intros (q & i & Hne & -> & Hi & Hfi & Hv & ->).
      eexists. split; [exists (entry_of q i); split; [reflexivity|by exists q, i]|].
      unfold file_row, file_row_of. simpl. by rewrite (file_id_real f f' g r q i) by (done || by apply file_not_link).
  - rewrite lookup_rows by (exact Hnd2). setoid_rewrite elem_of_sort_by.
    setoid_rewrite (elem_of_collected f Hwf r). split.
    + intros (e & (q & i & Hne & Hi & Hl & Hv & He) & Hrow). exists q, i.
      pose proof (wf_segs _ _ _ Hwf Hi) as [_ Hq]%Forall_app.
      destruct (search_entry_row unicode q i Hne Hq (Hplain _ _ Hi)) as (e' & He' & Hrow').
      rewrite He in He'. injection He' as <-. rewrite Hrow in Hrow'. injection Hrow' as -> ->. done.
    + intros (q & i & Hne & -> & Hi & Hl & Hv & ->).
      pose proof (wf_segs _ _ _ Hwf Hi) as [_ Hq]%Forall_app.
      destruct (search_entry_row unicode q i Hne Hq (Hplain _ _ Hi)) as (e' & He' & Hrow'). eauto 10.
Qed.

(** A root the guard accepts is scanned, so only the database can fail. *)
Lemma reindex_root_error {DB : Type} `{!SqlDb DB, !SqlTx DB} unicode root_arg g r (w : world DB) e w' :
  wf_tree (w_fs w) -> PathGuard.new (w_fs w) root_arg = Ok g -> guard_at (w_fs w) g r ->
  FileIndex.reindex_root unicode root_arg w = (Err e, w') -> exists d, e = IDb d.
Proof.
  intros Hwf Hnew Hg. unfold FileIndex.reindex_root, get_fs, io_gets, io_lift. unfold io_bind at 1 2 3 4. cbv beta iota.
  destruct (analyze_root_report _ (root g) g r Hwf (new_root _ Hwf _ _ Hg) Hg) as (an & Han & _).
  destruct Hg as [Hroot Hr]. rewrite Hnew. simpl. rewrite Han. simpl.
  rewrite Hroot, (collect_entries _ Hwf r Hr). simpl.
  intros [(p & w1 & _ & H)|(e1 & H & [= <-])]%io_bind_inv; [|apply io_map_err_inv in H as ([] & _ & H); [done|by injection H as ->; eexists]].
  unfold io_bind at 1 in H.
  apply io_bind_inv in H as [(gen & w2 & _ & [=])|(e2 & H & [= <-])].
  apply io_map_err_inv in H as ([] & _ & H); [done|injection H as ->; by eexists].
Qed.

(** The names of a tree, tested. *)
Definition plain_namesb (f : tree) : bool :=
  forallb (fun kv => forallb (fun s => negb (contains_char "\" s)) kv.1) (map_to_list f).
Lemma plain_namesb_ok f r : plain_namesb f = true -> plain_names f r.
Proof.
  unfold plain_namesb. rewrite forallb_forall. intros H q i Hi.
  specialize (H (r ++ q, i) ltac:(by apply list_elem_of_In, elem_of_map_to_list)). simpl in H. rewrite forallb_app in H.
  apply andb_true_iff in H as [_ H]. rewrite forallb_forall in H. apply list.Forall_forall. intros s Hs.
  apply negb_true_iff, H. by apply list_elem_of_In.
Qed.

(** * Properties *)

(** C38: rebuilding the index describes the root.  Provided no name below the root has a
    backslash in it (such names lose their entry, or clash with a path that reads the same
    with slashes): when it succeeds, the table of files
    has exactly one row for each regular file that no link and no internal directory
    hides, with its size, time, extension and identity; the table of search entries
    has exactly one for each such file and directory; the index is initialized, and
    the generation the report names is the next one.  It fails only for the database,
    and then every table is as before.  No journal is touched either way. *)
Theorem reindex_builds {DB : Type} `{!SqlDb DB, !SqlTx DB, !JournalDb DB, !IndexDb DB}
    (unicode : string -> string) (root_arg : string) (g : PathGuard) (r : path) (w w' : world DB) res :
  wf_tree (w_fs w) -> PathGuard.new (w_fs w) root_arg = Ok g -> guard_at (w_fs w) g r -> plain_names (w_fs w) r ->
  FileIndex.reindex_root unicode root_arg w = (res, w') ->
  let p := Db.db_path_for_root (root g) in
  same_journal w w' /\ (forall q, q <> p -> idx_at q w' = idx_at q w) /\
  match res with
  | Ok rep =>
      describes unicode (w_fs w) r (idx_at p w') /\ it_initialized (idx_at p w') = 1%Z /\
      it_generation (idx_at p w') = (it_generation (idx_at p w) + 1)%Z /\
      fi_generation rep = it_generation (idx_at p w')
  | Err e => idx_at p w' = idx_at p w /\ exists d, e = IDb d
  end.
Proof.
  intros Hwf Hnew Hg Hplain Hrun. cbv zeta. destruct (reindex_root_run _ _ _ _ _ Hrun) as [(e & -> & Hj & Hi)|H].
  - split_and!; [done|by intros|done|]. by eapply reindex_root_error.
  - destruct H as (g' & an & entries & f & Hnew' & Han & Hent & Hmore & Hj & Ho & Hres).
    rewrite Hnew in Hnew'. injection Hnew' as <-. split_and!; [done..|]. destruct res as [rep|e].
    + destruct Hres as (Hnd1 & Hnd2 & -> & ->). split_and!; [|done..].
      eapply rebuilt_describes; [exact Hwf|by apply more_dirs_sub|exact Hg|exact Hplain|exact Hnew|done..].
    + split; [done|]. by eapply reindex_root_error.
Qed.

(** * Witnesses *)

Definition reindex_machine : world MemIndex := index_machine sample_tree (mem_index_of empty_tables None).
Definition reindex_run := FileIndex.reindex_root id sample_root reindex_machine.

Lemma reindex_builds_witness :
  describes id sample_tree ["home"; "root"] (idx_at (Db.db_path_for_root sample_root) reindex_run.2) /\
  it_generation (idx_at (Db.db_path_for_root sample_root) reindex_run.2) = 1%Z.
Proof.
  assert (guard_at sample_tree (mkPathGuard sample_root) ["home"; "root"]) as Hg.
  { split; [by vm_compute|]. exists (dir_of 3). by split; vm_compute. }
  assert (is_ok reindex_run.1 = true) as Hok by (vm_compute; reflexivity).
  destruct reindex_run as [[rep|e] w'] eqn:H; [|discriminate Hok].
  destruct (reindex_builds id sample_root (mkPathGuard sample_root) ["home"; "root"] reindex_machine w' (Ok rep)
    sample_wf ltac:(by vm_compute) Hg ltac:(apply plain_namesb_ok; by vm_compute) H) as (_ & _ & H1 & _ & H2 & _).
  split; [exact H1|exact H2].
Defined.
