(* ===== verification/index_engine.v ===== *)
(** The engine and the index of a root together: they share a database, and other
    programs change the files meanwhile. *)
From Stdlib Require Import ZArith Lia Ascii Sorted.
From stdpp Require Import strings pretty gmap functions option list relations.
From S2P Require Import prelude rust_str rule_definition std_path std_fs fs_facts path_guard db journal_store.
From S2P Require Import proposal_types decision analyzer browse proposal precondition trash.
From S2P Require Import execute undo history file_ops engine_safety engine.
From S2P Require Import index_sql file_index move_undo index_facts.

Open Scope string_scope.
Open Scope list_scope.

Section index_engine.
Context {DB : Type} `{!SqlDb DB, !SqlTx DB, !JournalDb DB, !IndexDb DB}.
Context (parse : string -> result RuleSet string) (to_string_pretty : TrashMetadata -> result string string)
  (unicode : string -> string).
Implicit Types w : world DB.

(** * Commands of the index *)

Inductive index_command :=
| IdxReindex (root : string)
| IdxUpsert (root path : string)
| IdxRemove (root path : string)
| IdxClear (root : string)
| IdxGeneration (root : string)
| IdxInitialized (root : string)
| IdxList (root : string)
| IdxSearch (root query : string)
| IdxPage (fuel : nat) (root query : string) (scope : IndexedSearchScope) (directory : string)
    (generation : option Z) (offset limit : Z) (extensions : list string).

Definition run_index_command (c : index_command) w : world DB :=
  match c with
  | IdxReindex root => (FileIndex.reindex_root unicode root w).2
  | IdxUpsert root path => (FileIndex.upsert_existing_file unicode root path w).2
  | IdxRemove root path => (FileIndex.remove_path root path w).2
  | IdxClear root => (FileIndex.clear_index root w).2
  | IdxGeneration root => (FileIndex.index_generation root w).2
  | IdxInitialized root => (FileIndex.index_is_initialized root w).2
  | IdxList root => (FileIndex.list_index unicode root w).2
  | IdxSearch root query => (FileIndex.search_index unicode root query w).2
  | IdxPage fuel root query scope directory generation offset limit extensions =>
      (FileIndex.search_index_page_with_extensions unicode fuel root query scope directory generation offset limit
         extensions w).2
  end.

Inductive root_step w : world DB -> Prop :=
| root_engine c : root_step w (run_command parse to_string_pretty c w)
| root_index c : root_step w (run_index_command c w)
| root_outside w' : outside w w' -> (forall p, idx_at p w' = idx_at p w) -> root_step w w'.

(** * What each keeps *)

(** The engine's commands keep every table. *)
Definition tables_kept w w' : Prop := forall p, idx_at p w' = idx_at p w.
#[export] Instance tables_kept_preorder : PreOrder tables_kept.
Proof. split; [by intros ? ?|]. intros w1 w2 w3 H1 H2 p. by rewrite H2. Qed.
Lemma same_db_kept w w' : same_db w w' -> tables_kept w w'.
Proof. intros H p. unfold idx_at. by rewrite H. Qed.
Lemma only_kept {E A} (Q : event -> Prop) (m : io (world DB) E A) : io_rel (only Q) m -> io_rel tables_kept m.
Proof. intros Hm w r w' H. apply same_db_kept. by destruct (Hm _ _ _ H). Qed.
Lemma same_index_kept {E A} (m : io (world DB) E A) : io_rel same_index m -> io_rel tables_kept m.
Proof. intros Hm w r w' H. by destruct (Hm _ _ _ H). Qed.

Lemma append_kept s e : io_rel tables_kept (JournalStore.append (DB:=DB) (P:=PrecheckError) s e).
Proof.
  intros w r w' (r0 & H & _)%io_map_err_inv. unfold Db.execute in H.
  destruct (sql_execute _ _ _) as [r1 d] eqn:Hx. injection H as <- <-.
  assert (tables_kept w (set_db (pool s) d w)) as Hk.
  { intros p. unfold idx_at. simpl. destruct (decide (p = pool s)) as [->|Hp];
      [rewrite fn_lookup_insert; by eapply journal_idx; [by left|exact Hx]|by rewrite fn_lookup_insert_ne]. }
  by destruct (is_ok r1).
Qed.
#[export] Instance tables_kept_change : ChangeRel tables_kept.
Proof.
  unshelve econstructor; [unshelve econstructor|..]; [apply _|..].
  - intros w w' (_ & H & _). by apply same_db_kept.
  - intros p. eapply only_kept, create_dir_only.
  - intros p. eapply only_kept, create_new_only.
  - apply append_kept.
  - intros root. unfold JournalStore.open. io_rel_go. apply same_index_kept, open_root_index.
  - intros s. unfold JournalStore.read_raw. io_rel_go. apply same_index_kept. intros w r w' H. by apply fetch_run in H as (_ & H & _).
  - intros p q. eapply only_kept, fs_rename_only.
  - intros p. eapply only_kept, remove_file_only.
  - intros p. eapply only_kept, remove_dir_only.
  - intros p. eapply only_kept, file_create_only.
  - intros p c. eapply only_kept, file_append_only.
Qed.

(** A step of the index: the tables stay, or their generation grows by one. *)
Definition index_moves w w' : Prop :=
  same_journal w w' /\
  forall p, idx_at p w' = idx_at p w \/ it_generation (idx_at p w') = (it_generation (idx_at p w) + 1)%Z.

Lemma effect_moves {E A} p (P : A -> IndexTables -> IndexTables -> Prop) w (r : result A E) w' :
  (forall a t t', P a t t' -> it_generation t' = (it_generation t + 1)%Z) ->
  index_effect p P w r w' -> index_moves w w'.
Proof.
  intros HP (Hj & Ho & Hr). split; [done|]. intros q. destruct (decide (q = p)) as [->|Hq]; [|left; by apply Ho].
  destruct r as [a|e]; [right; by eapply HP|by left].
Qed.
Lemma same_moves w w' : same_index w w' -> index_moves w w'.
Proof. intros [H1 H2]. split; [done|]. intros p. by left. Qed.

Lemma index_command_moves c w : index_moves w (run_index_command c w).
Proof.
  destruct c; unfold run_index_command.
  - destruct (FileIndex.reindex_root unicode root w) as [r w'] eqn:H.
    apply reindex_root_run in H as [(e & _ & H)|(g & an & es & f & _ & _ & _ & _ & H)]; [by apply same_moves|].
    eapply effect_moves; [|exact H]. by intros a t t' (_ & _ & -> & _).
  - destruct (FileIndex.upsert_existing_file unicode root path w) as [r w'] eqn:H.
    apply upsert_existing_file_run in H as [(e & _ & H)|(g & g' & q & i & _ & _ & _ & _ & _ & H)]; [by apply same_moves|].
    eapply effect_moves; [|exact H]. by intros a t t' (f & e & _ & _ & ->).
  - destruct (FileIndex.remove_path root path w) as [r w'] eqn:H.
    apply remove_path_run in H as [(e & _ & H)|(g & _ & H)]; [by apply same_moves|].
    eapply effect_moves; [|exact H]. by intros a t t' ->.
  - destruct (FileIndex.clear_index root w) as [r w'] eqn:H.
    apply clear_index_run in H as [(e & _ & H)|(g & _ & H)]; [by apply same_moves|].
    eapply effect_moves; [|exact H]. by intros a t t' ->.
  - apply same_moves, (run_snd same_index), index_generation_same.
  - apply same_moves, (run_snd same_index), index_is_initialized_same.
  - apply same_moves, (run_snd same_index), query_index_same.
  - apply same_moves, (run_snd same_index), query_index_same.
  - apply same_moves, (run_snd same_index), search_page_same.
Qed.
End index_engine.

(** * Properties *)

(** A generation names one state of the index.  Along every interleaving of
    commands of the engine, commands of the index and activity of other programs, a
    root's generation never decreases, and as long as it is the same the tables are
    the same; no command of the index touches a journal. *)
Theorem generation_names_tables {DB : Type} `{!SqlDb DB, !SqlTx DB, !JournalDb DB, !IndexDb DB}
    (parse : string -> result RuleSet string) (to_string_pretty : TrashMetadata -> result string string)
    (unicode : string -> string) (w w' : world DB) (p : string) :
  rtc (root_step parse to_string_pretty unicode) w w' ->
  (it_generation (idx_at p w) <= it_generation (idx_at p w'))%Z /\
  (it_generation (idx_at p w') = it_generation (idx_at p w) -> idx_at p w' = idx_at p w) /\
  exists rows, journal_at p w' = journal_at p w ++ rows.
Proof.
  induction 1 as [w|w1 w2 w3 Hstep _ (IHle & IHeq & rows & IHj)]; [split_and!; [lia|done|exists []; by rewrite app_nil_r]|].
  assert ((idx_at p w2 = idx_at p w1 \/ it_generation (idx_at p w2) = (it_generation (idx_at p w1) + 1)%Z) /\
    exists rows, journal_at p w2 = journal_at p w1 ++ rows) as [Hidx [rows1 Hj]].
  { destruct Hstep as [c|c|w2 [Hj _] Hk].
    - split; [left; apply (run_command_rel parse to_string_pretty tables_kept)|].
      apply (run_command_rel parse to_string_pretty journal_grows).
    - destruct (index_command_moves unicode c w1) as [Hj Hm]. split; [apply Hm|]. exists []. by rewrite app_nil_r.
    - split; [left; apply Hk|]. exists []. by rewrite app_nil_r. }
  split_and!.
  - destruct Hidx as [Hi|Hi]; [by rewrite <- Hi|lia].
  - intros Heq. destruct Hidx as [Hi|Hi]; [rewrite <- Hi; apply IHeq; congruence|lia].
  - exists (rows1 ++ rows). by rewrite IHj, Hj, app_assoc.
Qed.

(** * Witness *)

Lemma generation_names_tables_witness :
  let w := index_machine sample_tree (mem_index_of empty_tables None) in
  let w' := run_index_command id (IdxReindex sample_root) w in
  it_generation (idx_at (Db.db_path_for_root sample_root) w') = 1%Z /\
  (it_generation (idx_at (Db.db_path_for_root sample_root) w) <= it_generation (idx_at (Db.db_path_for_root sample_root) w'))%Z.
Proof.
  intros w w'. split; [vm_compute; reflexivity|].
  assert (rtc (root_step (fun _ => Err "") (fun _ => Err "") id) w w') as H by (apply rtc_once, root_index).
  destruct (generation_names_tables (fun _ => Err "") (fun _ => Err "") id w w' (Db.db_path_for_root sample_root) H) as [Hle _].
  exact Hle.
Defined.
