(* ===== verification/index_page.v ===== *)
(** Two of the operations of the index: its paged search, and the removal of a path. *)
From Stdlib Require Import ZArith Lia Ascii Sorted.
From stdpp Require Import strings pretty gmap functions option list relations.
From S2P Require Import prelude rust_str std_path std_fs fs_facts path_guard db journal_store proposal_types analyzer browse index_sql file_index move_undo.
From S2P Require Import trash_facts file_ops_facts index_facts index_scan.

Open Scope string_scope.
Open Scope list_scope.


(** * Searching the index a page at a time: every page is a window of the same list of
    hits, and following the offsets visits all of them. *)

(** * The specification of a search *)

(** The entry a row stands for, and the entries of a search in the order of the index. *)
Definition entry_of_row (kv : string * SearchRow) : IndexedSearchEntry :=
  mkIndexedSearchEntry (sr_name kv.2) kv.1 (sr_entry_type kv.2 =? "directory")%string (sr_extension kv.2)
    (as_u64 <$> sr_size_bytes kv.2) (as_u128 <$> sr_modified_unix_ms kv.2).
Definition matching (scope : IndexedSearchScope) (directory query : string) (t : IndexTables)
  : list (string * SearchRow) :=
  IndexSql.entries_in_order (match scope with CurrentDirectory => Some directory | ManagedRoot => None end) query t.

(** The entries that are still in the tree, and pass the extension filter. *)
Definition hit (f : tree) (g : PathGuard) (extensions : list string) (e : IndexedSearchEntry) : bool :=
  FileIndex.validate_indexed_search_hit f g e && FileIndex.indexed_entry_matches_extensions e extensions.
Definition hits (f : tree) (g : PathGuard) (extensions : list string) (rows : list (string * SearchRow))
  : list IndexedSearchEntry := List.filter (hit f g extensions) (map entry_of_row rows).

(** A page from the row at [offset]: the first [limit] hits there, and where the next
    one is. *)
Definition page_of (f : tree) (g : PathGuard) (extensions : list string) (rows : list (string * SearchRow))
  (limit offset : Z) (entries : list IndexedSearchEntry) (next : option Z) : Prop :=
  let hits_from o := hits f g extensions (drop (Z.to_nat o) rows) in
  entries = take (Z.to_nat limit) (hits_from offset) /\
  match next with
  | None => hits_from offset = entries
  | Some n => (offset + limit <= n < Z.of_nat (length rows))%Z /\ hits_from n <> [] /\
      hits_from offset = entries ++ hits_from n
  end.

Section rows.
Context (f : tree) (g : PathGuard) (extensions : list string) (limit : Z).
Implicit Types (rows : list (string * SearchRow)) (es : list IndexedSearchEntry).
Abbreviation found := (hits f g extensions).

Lemma decode_entry kv : FileIndex.indexed_search_entry_from_row (IndexSql.entry_columns kv) = Ok (entry_of_row kv).
Proof.
  destruct kv as [p [pa n nn ty e s m]]. unfold FileIndex.indexed_search_entry_from_row, entry_of_row.
  by destruct e, s, m.
Qed.

Lemma hits_app l1 l2 : found (l1 ++ l2) = found l1 ++ found l2.
Proof. unfold hits. by rewrite map_app, List.filter_app. Qed.
Lemma hits_length l : (length (found l) <= length l)%nat.
Proof. unfold hits. rewrite List.filter_length_le. by rewrite length_map. Qed.

(** A batch of rows is used up, or the page is full at a row that is a hit. *)
Lemma scan_rows_run rows es off :
  (Z.of_nat (length es) <= limit)%Z -> (0 <= off)%Z -> (off + Z.of_nat (length rows) < 2 ^ 64)%Z ->
  (FileIndex.scan_rows f g extensions limit (map IndexSql.entry_columns rows) es off =
     Ok (es ++ found rows, (off + Z.of_nat (length rows))%Z, None) /\
   (Z.of_nat (length (es ++ found rows)) <= limit)%Z) \/
  exists l1 l2, rows = l1 ++ l2 /\ l2 <> [] /\ found l2 <> [] /\ Z.of_nat (length (es ++ found l1)) = limit /\
    FileIndex.scan_rows f g extensions limit (map IndexSql.entry_columns rows) es off =
      Ok (es ++ found l1, (off + Z.of_nat (length l1))%Z, Some (off + Z.of_nat (length l1))%Z).
Proof.
  revert es off. induction rows as [|x rows IH]; intros es off Hes Hoff Hmax.
  { left. simpl. by rewrite app_nil_r, Z.add_0_r. }
  cbn [map FileIndex.scan_rows]. rewrite decode_entry. cbn [map_err].
  change (FileIndex.validate_indexed_search_hit f g (entry_of_row x) &&
    FileIndex.indexed_entry_matches_extensions (entry_of_row x) extensions) with (hit f g extensions (entry_of_row x)).
  assert (found (x :: rows) = (if hit f g extensions (entry_of_row x) then [entry_of_row x] else []) ++ found rows) as Hx
    by (unfold hits; simpl; by destruct (hit _ _ _ _)).
  assert (saturating_add off 1 = (off + 1)%Z) as -> by (unfold saturating_add; simpl length in Hmax; lia).
  assert (forall es', es' = es ++ (if hit f g extensions (entry_of_row x) then [entry_of_row x] else []) ->
    (Z.of_nat (length es') <= limit)%Z -> forall res, res = FileIndex.scan_rows f g extensions limit
      (map IndexSql.entry_columns rows) es' (off + 1) ->
    (res = Ok (es ++ found (x :: rows), (off + Z.of_nat (length (x :: rows)))%Z, None) /\
     (Z.of_nat (length (es ++ found (x :: rows))) <= limit)%Z) \/
    exists l1 l2, x :: rows = l1 ++ l2 /\ l2 <> [] /\ found l2 <> [] /\ Z.of_nat (length (es ++ found l1)) = limit /\
      res = Ok (es ++ found l1, (off + Z.of_nat (length l1))%Z, Some (off + Z.of_nat (length l1))%Z)) as Hstep.
  { intros es' -> Hes' res ->. simpl length in *. destruct (IH _ (off + 1)%Z Hes') as [[-> H2]|(l1 & l2 & -> & Hne & Hh & Hl & ->)];
      [lia..| |].
    - left. rewrite Hx, <- app_assoc in *. split; [|done]. do 2 f_equal. f_equal. lia.
    - right. exists (x :: l1), l2.
      assert (found (x :: l1) = (if hit f g extensions (entry_of_row x) then [entry_of_row x] else []) ++ found l1) as Hx1
        by (unfold hits; simpl; by destruct (hit _ _ _ _)).
      rewrite Hx1, app_assoc. split_and!; [done..|]. simpl length.
      replace (off + Z.of_nat (S (length l1)))%Z with (off + 1 + Z.of_nat (length l1))%Z by lia. done. }
  destruct (hit f g extensions (entry_of_row x)) eqn:Hhit; simpl in Hx.
  - destruct (Z.eqb_spec (Z.of_nat (length es)) limit) as [Heq|Hne].
    + right. exists [], (x :: rows). simpl. rewrite app_nil_r, Z.add_0_r. by rewrite Hx.
    + eapply Hstep; [reflexivity|rewrite length_app; simpl; lia|reflexivity].
  - eapply Hstep; [reflexivity|by rewrite app_nil_r|by rewrite app_nil_r].
Qed.
End rows.

Section loop.
Context {DB : Type} `{!SqlDb DB, !SqlTx DB, !JournalDb DB, !IndexDb DB}.
Context (p : string) (g : PathGuard) (scope : IndexedSearchScope) (directory query : string).
Context (extensions : list string) (limit : Z) (Hlimit : (0 <= limit)%Z).
Implicit Types (w : world DB).

Lemma fetch_page_run off w r w' :
  FileIndex.fetch_page p scope directory query off w = (r, w') ->
  w_fs w' = w_fs w /\ idx_at p w' = idx_at p w /\
  match r with
  | Ok raw => raw = map IndexSql.entry_columns
      (take 256 (drop (Z.to_nat (i64_or_max off)) (matching scope directory query (idx_at p w))))
  | Err e => exists s, e = FileIndex.db_error s
  end.
Proof.
  intros (r0 & H & ->)%io_map_err_inv.
  destruct scope; apply fetch_run in H as ((Hf & _) & (_ & Hi) & Hrows); (split_and!; [done|done|]);
    (destruct r0 as [raw|s]; [|by exists s]); cbn [map_err];
    (assert (Some raw = Some raw) as Heq by done); specialize (Hrows raw eq_refl ltac:(in_statements)); clear Heq.
  - change (Some (map IndexSql.entry_columns (IndexSql.window (i64_or_max FileIndex.FETCH_BATCH) (i64_or_max off)
      (IndexSql.entries_in_order (Some directory) query (idx_at p w)))) = Some raw) in Hrows. by injection Hrows as <-.
  - change (Some (map IndexSql.entry_columns (IndexSql.window (i64_or_max FileIndex.FETCH_BATCH) (i64_or_max off)
      (IndexSql.entries_in_order None query (idx_at p w)))) = Some raw) in Hrows. by injection Hrows as <-.
Qed.

(** The loop ends: each round but the last uses up 256 rows. *)
Lemma page_loop_run n es off w r w' :
  let rows := matching scope directory query (idx_at p w) in
  let hits_from o := hits (w_fs w) g extensions (drop (Z.to_nat o) rows) in
  (Z.of_nat (length rows) < 2 ^ 63)%Z -> (0 <= off)%Z -> (0 < n)%nat -> (Z.of_nat (length rows) - off < 256 * Z.of_nat n)%Z ->
  (Z.of_nat (length es) <= limit)%Z ->
  FileIndex.page_loop n p g scope directory query extensions limit es off w = (r, w') ->
  w_fs w' = w_fs w /\ idx_at p w' = idx_at p w /\
  match r with
  | Ok (es', None) => es' = es ++ hits_from off /\ (Z.of_nat (length es') <= limit)%Z
  | Ok (es', Some o) => es ++ hits_from off = es' ++ hits_from o /\ hits_from o <> [] /\
      Z.of_nat (length es') = limit /\ (off + (limit - Z.of_nat (length es)) <= o < Z.of_nat (length rows))%Z
  | Err e => exists s, e = FileIndex.db_error s
  end.
Proof.
  revert es off w r w'. induction n as [|n IH]; intros es off w r w' rows hits_from Hmax Hoff Hpos Hn Hes H; [lia|].
  simpl in H. apply io_bind_inv in H as [(raw & w1 & H1 & H)|(e & H1 & ->)]; apply fetch_page_run in H1 as (Hf & Hi & Hraw);
    [|by split_and!]. fold rows in Hraw.
  assert (drop (Z.to_nat (i64_or_max off)) rows = drop (Z.to_nat off) rows) as Hdrop.
  { unfold i64_or_max. destruct (Z.ltb_spec off (2 ^ 63)); [done|]. rewrite !drop_ge by lia. done. }
  rewrite Hdrop in Hraw. set (batch := take 256 (drop (Z.to_nat off) rows)) in *.
  assert (hits_from off = hits (w_fs w) g extensions batch ++ hits_from (off + 256)%Z) as Hsplit.
  { unfold hits_from. rewrite <- hits_app. f_equal.
    rewrite <- (take_drop 256 (drop (Z.to_nat off) rows)) at 1. rewrite drop_drop. fold batch. do 3 f_equal. lia. }
  assert (length batch = 256%nat /\ (off + 256 <= Z.of_nat (length rows))%Z \/
    (length batch < 256)%nat /\ hits_from (off + 256)%Z = []) as Hlen.
  { unfold batch, hits_from. rewrite length_take, length_drop.
    destruct (decide (Z.to_nat off + 256 <= length rows)%nat); [left; lia|right]. rewrite (drop_ge rows) by lia. split; [lia|done]. }
  case_bool_decide as Hnil.
  { injection H as <- <-. assert (batch = []) as Hb by (by destruct batch; [|subst raw]). rewrite Hb in *.
    split_and!; [done..| |done]. rewrite Hsplit. destruct Hlen as [[Hl _]|[_ ->]]; [done|]. by rewrite app_nil_r. }
  unfold io_bind at 1, get_fs, io_gets in H. rewrite Hf, Hraw in H.
  assert (length batch <= length rows - Z.to_nat off)%nat as Hbl by (unfold batch; rewrite length_take, length_drop; lia).
  assert (0 < length batch)%nat as Hb0 by (destruct batch; [by subst raw|simpl; lia]).
  unfold io_bind, io_lift in H.
  destruct (scan_rows_run (w_fs w) g extensions limit batch es off Hes Hoff)
    as [[Hs Hl]|(l1 & l2 & Hb & Hne & Hh & Hl & Hs)]; [lia| |]; rewrite Hs in H; cbv beta iota in H.
  - rewrite length_map in H. unfold FileIndex.FETCH_BATCH in H.
    destruct (Z.ltb_spec (Z.of_nat (length batch)) 256) as [Hshort|Hfull].
    + injection H as <- <-.
      split_and!; [done..| |done]. rewrite Hsplit. destruct Hlen as [[? _]|[_ ->]]; [lia|]. by rewrite app_nil_r.
    + destruct Hlen as [[Hl256 Hle]|[? _]]; [|lia]. rewrite Hl256 in H. change (Z.of_nat 256) with 256%Z in H.
      apply IH in H as (Hf' & Hi' & Hr); [|rewrite ?Hi; fold rows; lia..|done].
      rewrite Hf, Hi in *. fold rows in Hr. split_and!; [done..|].
      destruct r as [[es' [o|]]|e]; [| |done]; rewrite Hsplit, app_assoc.
      * destruct Hr as (H1 & H2 & H3 & H4). pose proof (hits_length (w_fs w) g extensions batch).
        rewrite length_app in H4. split_and!; [exact H1|exact H2|exact H3|lia|lia].
      * exact Hr.
  - injection H as <- <-. split; [done|]. split; [done|].
    assert (hits_from (off + Z.of_nat (length l1))%Z = hits (w_fs w) g extensions l2 ++ hits_from (off + 256)%Z) as Hfrom.
    { unfold hits_from. rewrite <- hits_app. f_equal.
      assert (drop (Z.to_nat off) rows = l1 ++ l2 ++ drop (Z.to_nat (off + 256)) rows) as Hd.
      { rewrite <- (take_drop 256 (drop (Z.to_nat off) rows)), drop_drop, app_assoc. fold batch. rewrite Hb.
        do 2 f_equal. lia. }
      replace (Z.to_nat (off + Z.of_nat (length l1))) with (Z.to_nat off + length l1)%nat by lia.
      by rewrite <- drop_drop, Hd, drop_app_length. }
    rewrite Hb, hits_app, <- app_assoc, <- Hfrom in Hsplit.
    pose proof (hits_length (w_fs w) g extensions l1). rewrite Hb, length_app in Hbl.
    assert (0 < length l2)%nat by (destruct l2; [done|simpl; lia]). rewrite length_app in Hl.
    split_and!; [by rewrite Hsplit, app_assoc| |by rewrite length_app|lia|lia].
    rewrite Hfrom. intros [Hh' _]%app_nil. done.
Qed.
End loop.

(** The errors of the checks before the search. *)
Definition checked_error (e : FileIndexError) : Prop :=
  match e with GenerationChanged _ _ | IOutOfFuel => False | _ => True end.

Lemma extension_filter_error l e : FileIndex.normalize_extension_filter l = Err e -> checked_error e.
Proof.
  unfold FileIndex.normalize_extension_filter. destruct (_ <? _)%Z; [by intros [= <-]|].
  induction l as [|x l IH]; simpl; [done|]. unfold FileIndex.normalize_extension at 1.
  destruct (strip_prefix _ _); simpl; [|by intros [= <-]]. destruct (_ || _); simpl; [by intros [= <-]|].
  destruct (try_map _ l); [done|]. intros [= <-]. by apply IH.
Qed.
Lemma relative_directory_error d e : FileIndex.normalize_relative_directory d = Err e -> checked_error e.
Proof. unfold FileIndex.normalize_relative_directory. destruct (existsb _ _); [|done]. by intros [= <-]. Qed.
Lemma no_link_below_error f l cur e : FileIndex.no_link_below f cur l = Err e -> checked_error e.
Proof.
  revert cur. induction l as [|[| | |s] l IH]; intros cur; simpl; try (by intros [= <-]).
  destruct (symlink_metadata _ _); simpl; [|by intros [= <-]]. destruct (is_link_or_reparse_point _); [by intros [= <-]|apply IH].
Qed.
Lemma no_link_path_error f g rel b e : FileIndex.validate_no_link_path f g rel b = Err e -> checked_error e.
Proof.
  unfold FileIndex.validate_no_link_path. destruct (is_empty rel); [done|].
  destruct (FileIndex.no_link_below _ _ _) eqn:H; simpl; [|intros [= <-]; by eapply no_link_below_error].
  destruct (PathGuard.resolve_existing _ _ _); simpl; [|by intros [= <-]]. destruct (_ && _); [|done]. by intros [= <-].
Qed.

Lemma matching_length scope d q t : (length (matching scope d q t) <= size (it_entries t))%nat.
Proof.
  unfold matching, IndexSql.entries_in_order. rewrite (Permutation_length (sort_by_perm _ _)).
  etrans; [apply length_filter|]. by rewrite length_map_to_list.
Qed.

Section transaction.
Context {DB : Type} `{!SqlDb DB, !SqlTx DB, !JournalDb DB, !IndexDb DB}.

(** A transaction that fails does so in a statement of its own, or in what it runs. *)
Lemma transaction_error {E A} (err : string -> E) p (m : io (world DB) E A) w e w' :
  in_transaction err p m w = (Err e, w') ->
  (exists s, e = err s) \/ exists w1 w2, w_fs w1 = w_fs w /\ idx_at p w1 = idx_at p w /\ m w1 = (Err e, w2).
Proof.
  unfold in_transaction, transaction. destruct (sql_begin (w_db w p)) as [[[]|s] d] eqn:Hb; [|intros [= <- <-]; left; by exists s].
  destruct (begin_idx _ _ _ Hb) as (Hbi & Hbj & _). destruct (set_db_index p d w Hbj Hbi) as [_ Hi].
  destruct (m (set_db p d w)) as [[a|e1] w1] eqn:Hr.
  - destruct (sql_commit (w_db w1 p)) as [[|s] d2]; [done|]. intros [= <- <-]. left. by exists s.
  - intros [= <- <-]. right. exists (set_db p d w), w1. by split_and!.
Qed.

Lemma generation_run p w r w' :
  FileIndex.fetch_scalar p IndexSql.select_generation "generation" w = (r, w') ->
  w_fs w' = w_fs w /\ idx_at p w' = idx_at p w /\ (forall z, r = Ok z -> z = it_generation (idx_at p w)).
Proof.
  intros ((Hf & _) & [_ Hi] & Hz)%read_scalar_run. split_and!; [done..|]. intros z Hr.
  destruct (Hz z Hr ltac:(in_statements)) as (row & rows & Hrow & Hget).
  change (Some [[("generation", SqlInt (it_generation (idx_at p w)))]] = Some (row :: rows)) in Hrow.
  injection Hrow as <- _. by injection Hget as <-.
Qed.

(** What the transaction of a search answers. *)
Definition page_answer (g : PathGuard) (scope : IndexedSearchScope) (directory query : string) (extensions : list string)
  (expected : option Z) (offset limit : Z) (f : tree) (t : IndexTables) (res : result IndexedSearchPage FileIndexError) : Prop :=
  match res with
  | Ok page =>
      pg_generation page = it_generation t /\ (forall x, expected = Some x -> x = it_generation t) /\
      page_of f g extensions (matching scope directory query t) limit offset (pg_entries page) (pg_next_offset page)
  | Err (GenerationChanged x a) => expected = Some x /\ a = it_generation t /\ x <> a
  | Err e => checked_error e
  end.

Lemma page_transaction p g scope d q exts expected offset limit fuel w r w' :
  (0 <= offset)%Z -> (0 <= limit)%Z -> (Z.of_nat (size (it_entries (idx_at p w))) < Z.min (2 ^ 63) (256 * Z.of_nat fuel))%Z ->
  (let! actual := io_map_err IDb (FileIndex.fetch_scalar p IndexSql.select_generation "generation") in
   if (actual <? 0)%Z then io_fail (InvalidSearch "file index generation is invalid")
   else if match expected with Some expected => negb (expected =? actual)%Z | None => false end
   then io_fail (GenerationChanged (default 0%Z expected) actual)
   else
     let! ' (entries, next_offset) := FileIndex.page_loop fuel p g scope d q exts limit [] offset in
     io_ret (mkIndexedSearchPage actual entries next_offset)) w = (r, w') ->
  page_answer g scope d q exts expected offset limit (w_fs w) (idx_at p w) r.
Proof.
  intros Hoff Hlim Hsize. pose proof (matching_length scope d q (idx_at p w)) as Hlen.
  intros [(z & w1 & H1 & H)|(e & H1 & ->)]%io_bind_inv;
    (apply io_map_err_inv in H1 as (r1 & H1 & Hr1); destruct r1 as [z'|]; try done); [|by injection Hr1 as ->].
  injection Hr1 as <-. apply generation_run in H1 as (Hf & Hi & Hz). rewrite (Hz z eq_refl) in *. clear Hz z.
  set (gen := it_generation (idx_at p w)) in *. destruct (gen <? 0)%Z; [by injection H as <- _|].
  assert (match expected with Some x => x = gen | None => True end \/
    exists x, expected = Some x /\ x <> gen) as [Hex|(x & -> & Hx)].
  { destruct expected as [x|]; [|by left]. destruct (decide (x = gen)); [by left|right; eauto]. }
  2: { rewrite (proj2 (Z.eqb_neq _ _) Hx) in H. injection H as <- _. by split_and!. }
  assert (match expected with Some expected => negb (expected =? gen)%Z | None => false end = false) as Hcond.
  { destruct expected as [x|]; [|done]. by rewrite Hex, Z.eqb_refl. }
  rewrite Hcond in H. apply io_bind_inv in H as [([es nxt] & w2 & H2 & H)|(e & H2 & ->)];
    apply page_loop_run in H2 as (_ & _ & H2); rewrite ?Hi, ?Hf in *; try (simpl; lia).
  - injection H as <- _. simpl in H2. split_and!; [done|by intros x ->|].
    unfold page_of. destruct nxt as [o|]; simpl.
    + destruct H2 as (H2 & H3 & H4 & H5). rewrite H2. split_and!; [|lia|lia|done|done].
      rewrite <- H4, Nat2Z.id. by rewrite take_app_length.
    + destruct H2 as [<- H3]. split; [|done]. rewrite take_ge; [done|lia].
  - by destruct H2 as [s ->].
Qed.
End transaction.

(** * Properties *)

(** C39: a page is a window of one list of hits, and the search ends.  With fuel for
    the rows of the table, the loop over the batches never runs out.  A page holds the
    first [limit] hits at or after [offset], in the order of the index, where a hit is
    a row that matches the query, passes the filter and still stands in the tree; the
    next offset is given exactly when another hit follows, it is further by at least
    [limit], and the hits from there are the rest: following the offsets visits every
    hit once.  The page names the generation it was read at, which is the expected one;
    when that has passed the search says so.  Nothing is written. *)
Theorem search_page_window {DB : Type} `{!SqlDb DB, !SqlTx DB, !JournalDb DB, !IndexDb DB}
    (unicode : string -> string) (fuel : nat) (root_arg query : string) (scope : IndexedSearchScope)
    (directory : string) (expected : option Z) (offset limit : Z) (extensions : list string) (g : PathGuard)
    (w w' : world DB) res :
  let t := idx_at (Db.db_path_for_root (root g)) w in
  PathGuard.new (w_fs w) root_arg = Ok g -> (0 <= offset)%Z ->
  (Z.of_nat (size (it_entries t)) < Z.min (2 ^ 63) (256 * Z.of_nat fuel))%Z ->
  FileIndex.search_index_page_with_extensions unicode fuel root_arg query scope directory expected offset limit
    extensions w = (res, w') ->
  same_index w w' /\
  match res with
  | Ok page => exists exts dir,
      (2 <= chars_count (trim query) <= 100)%Z /\ (1 <= limit <= 200)%Z /\
      FileIndex.normalize_extension_filter extensions = Ok exts /\
      FileIndex.normalize_relative_directory directory = Ok dir /\
      page_answer g scope dir (FileIndex.normalize_name unicode (trim query)) exts expected offset limit (w_fs w') t res
  | Err (GenerationChanged x a) => expected = Some x /\ a = it_generation t /\ x <> a
  | Err e => checked_error e
  end.
Proof.
  intros t Hg Hoff Hsize Hrun. split; [by eapply search_page_same|]. revert Hrun.
  unfold FileIndex.search_index_page_with_extensions. cbv zeta.
  destruct (_ && _) eqn:Hq; simpl; [|by intros [= <- <-]].
  destruct ((1 <=? limit)%Z && _) eqn:Hl; simpl; [|by intros [= <- <-]].
  unfold io_bind at 1 2 3 4, io_lift, get_fs, io_gets.
  destruct (FileIndex.normalize_extension_filter extensions) as [exts|e] eqn:He;
    [|intros [= <- _]; by apply extension_filter_error in He; destruct e].
  rewrite Hg. simpl.
  destruct (FileIndex.normalize_relative_directory directory) as [dir|e] eqn:Hd;
    [|intros [= <- _]; by apply relative_directory_error in Hd; destruct e].
  intros H. assert (forall (r : result unit FileIndexError) w1, match scope with
      | CurrentDirectory => fun w0 : world DB => (FileIndex.validate_no_link_path (w_fs w) g dir true, w0)
      | ManagedRoot => io_ret ()
      end w = (r, w1) -> w1 = w /\ forall e, r = Err e -> checked_error e) as Hdir.
  { intros r w1. destruct scope; intros [= <- <-]; (split; [done|]); intros e; [apply no_link_path_error|done]. }
  apply io_bind_inv in H as [(u & w1 & [-> _]%Hdir & H)|(e & [_ He']%Hdir & ->)];
    [|specialize (He' e eq_refl); by destruct e].
  apply io_bind_inv in H as [(pool & w1 & H1 & H)|(e & (r1 & _ & Hr1)%io_map_err_inv & ->)];
    [|destruct r1; [done|by injection Hr1 as ->]].
  apply io_map_err_inv in H1 as (r1 & H1 & Hr1). destruct r1 as [pool'|]; [|done]. injection Hr1 as <-.
  pose proof (open_root_index _ _ _ _ H1) as [_ Hi1]. apply open_root_pool in H1 as ->.
  set (p := Db.db_path_for_root (root g)) in *. assert (idx_at p w1 = t) as Ht1 by apply Hi1.
  assert (0 <= limit)%Z as Hlim by lia.
  destruct res as [page|e].
  - apply transaction_run in H as (Hf & _ & _ & (wa & wb & Hfa & Hia & Hm & _)).
    + apply page_transaction in Hm; [|done..|by rewrite Hia, Ht1]. rewrite Hia, Ht1, Hfa, <- Hf in Hm.
      exists exts, dir. split_and!; try done; lia.
    + io_rel_go; first [apply read_scalar_in_tx|apply page_loop_rel, fetch_in_tx; apply _].
  - apply transaction_error in H as [[s ->]|(wa & wb & Hfa & Hia & Hm)]; [done|].
    apply page_transaction in Hm; [|done..|by rewrite Hia, Ht1]. by rewrite Hia, Ht1 in Hm.
Qed.

(** * Witness *)

Definition page_run := FileIndex.search_index_page_with_extensions id 1 sample_root ".TXT " ManagedRoot "" (Some 1%Z) 0 1
  [".txt"] reindex_run.2.

Lemma search_page_window_witness :
  exists page, page_run.1 = Ok page /\ pg_generation page = 1%Z /\ (length (pg_entries page) <= 1)%nat.
Proof.
  assert (is_ok page_run.1 = true) as Hok by (vm_compute; reflexivity).
  destruct page_run as [[page|e] w'] eqn:H; [|discriminate Hok].
  destruct (search_page_window id 1 sample_root ".TXT " ManagedRoot "" (Some 1%Z) 0 1 [".txt"] (mkPathGuard sample_root)
    reindex_run.2 w' (Ok page) ltac:(by vm_compute) ltac:(lia) ltac:(by vm_compute) H)
    as (_ & exts & dir & _ & _ & Hexts & Hdir & Hgen & _ & Hes & _).
  exists page. split; [reflexivity|]. split; [rewrite Hgen; by vm_compute|]. rewrite Hes.
  rewrite length_take. change (Z.to_nat 1) with 1%nat. lia.
Defined.

(** * Hits stand in the tree *)

Section hit.
Context (f : tree) (Hwf : wf_tree f) (r : path).

(** The names of a path are segments of it. *)
Lemma normal_segment p s : Normal s ∈ components p -> s ∈ split_slash p.
Proof.
  assert (forall l, Normal s ∈ inner_components l -> s ∈ l) as Hin.
  { intros l (x & Hx & [_ Hl]%list_elem_of_filter)%list_elem_of_fmap. unfold seg_component in Hx.
    destruct (is_dotdot x); [done|]. injection Hx as ->. exact Hl. }
  unfold components. destruct (split_slash p) as [|x l]; [by intros ?%not_elem_of_nil|].
  destruct (is_absolute p); [|destruct (is_dot x)]; [intros [[=]|H%Hin]%elem_of_cons; apply elem_of_cons; by right..|apply Hin].
Qed.

Lemma symlink_metadata_last d s i :
  is_Some (f !! d) -> (forall j, f !! d = Some j -> is_link_inode j = false) -> seg_ok s ->
  symlink_metadata f (abs_path (d ++ [s])) = Ok i -> f !! (d ++ [s]) = Some i.
Proof.
  intros [j Hj] Hl Hs. unfold symlink_metadata, tree_get. destruct (lresolve f _) as [q|] eqn:Hq; [|done].
  pose proof (wf_segs _ _ _ Hwf Hj) as Hd. destruct (lresolve_ok f Hwf _ _ Hq) as [k Hk]. rewrite Hk. intros [= ->].
  assert (q = d ++ [s]) as ->; [|done].
  eapply (resolve_last f (abs_path (d ++ [s])) (RootDir :: map Normal d)); [|exact Hq|exact Hk|].
  - rewrite components_abs_path, map_app by (apply Forall_app; split; [done|by apply list.Forall_singleton]). done.
  - rewrite walk_cons. eapply (walk_real _ _ _ _ []); [done|exact Hj|apply (wf_root _ Hwf)|intros _; by apply Hl].
Qed.

Lemma no_link_below_ok l k :
  Forall comp_ok l -> is_Some (f !! (r ++ k)) -> (forall j, f !! (r ++ k) = Some j -> is_link_inode j = false) ->
  FileIndex.no_link_below f (abs_path (r ++ k)) l = Ok tt ->
  exists q, l = map Normal q /\ is_Some (f !! (r ++ k ++ q)) /\
    (forall j, f !! (r ++ k ++ q) = Some j -> is_link_inode j = false).
Proof.
  revert k. induction l as [|c l IH]; intros k Hl Hk Hlk; simpl; [exists []; by rewrite app_nil_r|].
  apply Forall_cons in Hl as [Hc Hl]. destruct c as [| | |s]; try done. simpl in Hc.
  pose proof Hk as [j Hj]. pose proof (wf_segs _ _ _ Hwf Hj) as Hok. rewrite join_abs_path, <- app_assoc by done.
  destruct (symlink_metadata f _) as [i|e] eqn:Hi; [|done]. simpl.
  unfold is_link_or_reparse_point, is_windows_reparse_point. rewrite orb_false_r.
  destruct (is_link_inode i) eqn:Hli; [done|]. rewrite app_assoc in Hi. apply symlink_metadata_last in Hi; [|done..].
  rewrite <- app_assoc in Hi. intros (q & -> & H1 & H2)%IH; [|done|by exists i|by intros j' ?; simplify_eq].
  exists (s :: q). rewrite <- app_assoc in *. done.
Qed.
End hit.

(** a hit stands in the tree.  An entry the search shows is an existing file or
    directory below the root, of the kind the index says, that no link leads to and no
    internal directory holds. *)
Theorem hit_stands f g r e :
  wf_tree f -> guard_at f g r -> FileIndex.validate_indexed_search_hit f g e = true ->
  exists q i, q <> [] /\ components (is_relative_path e) = map Normal q /\ f !! (r ++ q) = Some i /\ visible q /\
    is_link_inode i = false /\ (if is_dir e then is_dir_inode i else is_file_inode i) = true.
Proof.
  intros Hwf Hg. pose proof (guard_at_named _ _ _ Hwf Hg) as Hgn. destruct Hg as [Hroot Hr].
  unfold FileIndex.validate_indexed_search_hit. destruct (existsb _ _) eqn:Hh; [done|].
  destruct (FileIndex.validate_no_link_path f g (is_relative_path e) (is_dir e)) as [[]|] eqn:Hv; [|done]. simpl.
  assert (is_empty (is_relative_path e) = false) as Hne.
  { destruct (is_relative_path e); [by vm_compute in Hh|done]. }
  unfold FileIndex.validate_no_link_path in Hv. rewrite Hne, Hroot in Hv.
  destruct (FileIndex.no_link_below _ _ _) as [[]|] eqn:Hb; [|done].
  assert (is_Some (f !! (r ++ [])) /\ forall j, f !! (r ++ []) = Some j -> is_link_inode j = false) as [Hk1 Hk2].
  { rewrite app_nil_r. split; [destruct Hr as (i & Hi & _); by exists i|]. intros j Hj. by eapply dir_at_not_link. }
  rewrite <- (app_nil_r r) in Hb at 1.
  apply (no_link_below_ok f Hwf r) in Hb as (q & Hc & [i Hi] & Hl); [|apply components_comp_ok|done..].
  specialize (Hl _ Hi). simpl in Hi.
  assert (q <> []) as Hq.
  { intros ->. unfold components in Hc. destruct (split_slash _) as [|x l] eqn:Hsp; [by apply split_on_nonempty in Hsp|].
    destruct (is_absolute _); [done|]. destruct (is_dot x) eqn:Hd; [done|]. simpl in Hh.
    unfold inner_components in Hc. rewrite filter_cons_True in Hc; [done|]. unfold skipped_seg. rewrite Hd, orb_false_r.
    unfold FileIndex.hidden_segment in Hh. by destruct (is_empty x); [rewrite orb_true_r in Hh|]. }
  assert (is_absolute (is_relative_path e) = false) as Habs.
  { unfold components in Hc. destruct (split_slash _); [by destruct q|]. destruct (is_absolute _); [by destruct q|done]. }
  assert (symlink_metadata f (path_join (root g) (is_relative_path e)) = Ok i) as ->.
  { unfold symlink_metadata, tree_get, lresolve. rewrite (components_direct g r Hgn _ _ Habs Hc).
    rewrite walk_cons. erewrite (walk_real _ _ _ _ []); [by simpl; rewrite Hi|done|exact Hi|apply (wf_root _ Hwf)|done]. }
  rewrite andb_true_iff. intros [_ Hkind]. exists q, i. split_and!; try done.
  apply list.Forall_forall. intros s Hs.
  assert (s ∈ split_slash (is_relative_path e)) as Hin.
  { apply normal_segment. rewrite Hc. by apply list_elem_of_fmap_2. }
  rewrite <- not_true_iff_false, existsb_exists in Hh. unfold visible_name.
  split; intros ->; apply Hh; eexists; (split; [apply list_elem_of_In, Hin|]); by vm_compute.
Qed.

Lemma hit_stands_witness :
  exists q i, q <> [] /\ sample_tree !! (["home"; "root"] ++ q) = Some i /\ is_file_inode i = true.
Proof.
  assert (guard_at sample_tree (mkPathGuard sample_root) ["home"; "root"]) as Hg.
  { split; [by vm_compute|]. exists (dir_of 3). by split; vm_compute. }
  destruct (hit_stands sample_tree (mkPathGuard sample_root) ["home"; "root"]
    (mkIndexedSearchEntry "b.txt" "docs/b.txt" false (Some "txt") (Some 2%Z) None) sample_wf Hg ltac:(by vm_compute))
    as (q & i & H1 & _ & H2 & _ & _ & H3).
  exists q, i. split; [exact H1|]. split; [exact H2|exact H3].
Defined.

(** * Removing a path from the index: the pattern of the two DELETE statements matches
    the path and what is below it, and nothing else. *)

(** * [LIKE] on an escaped name *)

Lemma escape_like_cons c s : FileIndex.escape_like (String c s) =
  if Ascii.eqb c "\" || Ascii.eqb c "%" || Ascii.eqb c "_" then String "\" (String c (FileIndex.escape_like s))
  else String c (FileIndex.escape_like s).
Proof.
  unfold FileIndex.escape_like. simpl. destruct (Ascii.eqb_spec c "\") as [->|H1]; [done|].
  simpl. destruct (Ascii.eqb_spec c "%") as [->|H2]; [done|]. simpl. by destruct (Ascii.eqb_spec c "_") as [->|H3].
Qed.

Lemma like_escaped c s b x p :
  sql_like (FileIndex.escape_like (String c s) +:+ p) (String b x) = same_letter c b && sql_like (FileIndex.escape_like s +:+ p) x.
Proof.
  rewrite escape_like_cons. destruct (Ascii.eqb_spec c "\") as [->|H1]; [done|].
  destruct (Ascii.eqb_spec c "%") as [->|H2]; [done|]. destruct (Ascii.eqb_spec c "_") as [->|H3]; [done|].
  simpl. by rewrite !(proj2 (Ascii.eqb_neq _ _)).
Qed.
Lemma like_escaped_nil c s p : sql_like (FileIndex.escape_like (String c s) +:+ p) "" = false.
Proof.
  rewrite escape_like_cons. destruct (Ascii.eqb_spec c "\") as [->|H1]; [done|].
  destruct (Ascii.eqb_spec c "%") as [->|H2]; [done|]. destruct (Ascii.eqb_spec c "_") as [->|H3]; [done|].
  simpl. by rewrite !(proj2 (Ascii.eqb_neq _ _)).
Qed.

(** An escaped string stands for itself, whatever the case of its ASCII letters. *)
Lemma like_literal s p x :
  sql_like (FileIndex.escape_like s +:+ p) x = true <->
  exists y z, x = y +:+ z /\ eq_ignore_ascii_case y s = true /\ sql_like p z = true.
Proof.
  unfold eq_ignore_ascii_case. revert x. induction s as [|c s IH]; intros x.
  - change (FileIndex.escape_like "") with "". rewrite sappend_nil_l. split.
    + intros H. exists "", x. by rewrite sappend_nil_l.
    + intros ([|b y] & z & -> & H & Hz); [exact Hz|done].
  - destruct x as [|b x].
    + rewrite like_escaped_nil. split; [done|]. by intros ([|] & z & ? & H & _).
    + rewrite like_escaped, andb_true_iff, IH. unfold same_letter. rewrite Ascii.eqb_eq. split.
      * intros (Hc & y & z & -> & Hy & Hz). exists (String b y), z. split_and!; [done| |done].
        apply String.eqb_eq in Hy. apply String.eqb_eq. unfold to_ascii_lowercase in *. simpl. congruence.
      * intros ([|b' y] & z & Hx & Hy & Hz); [done|]. rewrite sappend_cons in Hx. injection Hx as <- ->.
        apply String.eqb_eq in Hy. unfold to_ascii_lowercase in Hy. simpl in Hy. injection Hy as Hb Hy. split; [done|].
        exists y, z. split_and!; [done| |done]. by apply String.eqb_eq.
Qed.
Lemma like_below x : sql_like "/%" x = true <-> exists y, x = "/" +:+ y.
Proof.
  assert (forall b, same_letter "/" b = Ascii.eqb b "/") as Hs.
  { intros b. apply eqb_true_iff. revert b. apply byte_forall. by vm_compute. }
  destruct x as [|b x]; simpl; [split; [done|by intros [y ?]]|]. rewrite Hs.
  assert (sql_like "%" x = true) as Hany by (induction x as [|c x IH]; [done|exact IH]).
  simpl in Hany. rewrite Hany, andb_true_r, Ascii.eqb_eq. split.
  - intros ->. by exists x.
  - intros [y Hy]. rewrite sappend_cons, sappend_nil_l in Hy. by injection Hy.
Qed.

(** * Properties *)

(** The rows a removal of [rel] selects: the path itself, and every path below a
    directory that differs from it at most in the case of ASCII letters. *)
Definition selected (rel q : string) : Prop :=
  q = rel \/ exists d y, q = d +:+ "/" +:+ y /\ eq_ignore_ascii_case d (trim_end_char "/" rel) = true.

Lemma kept_iff {A} rel (m : gmap string A) q (row : A) :
  IndexSql.kept rel (FileIndex.escape_like (trim_end_char "/" rel) +:+ "/%") m !! q = Some row <->
  m !! q = Some row /\ ~ selected rel q.
Proof.
  unfold IndexSql.kept, selected. rewrite map_lookup_filter_Some. simpl.
  rewrite <- not_true_iff_false, like_literal. setoid_rewrite like_below.
  split; intros [H1 H2]; (split; [done|]).
  - intros [->|(d & y & -> & Hd)]; [by destruct H2|]. destruct H2 as [_ []]. exists d, ("/" +:+ y). eauto.
  - split; [intros ->; by destruct H2; left|]. intros (d & z & -> & Hd & y & ->). destruct H2. right. eauto.
Qed.

(** removing a path removes it and what was below it.  On success exactly the
    selected rows are gone from both tables, and the generation grows by one; a name
    that merely starts the same, or has the wildcards of LIKE in it, stays.  On failure
    nothing changed. *)
Theorem remove_path_removes {DB : Type} `{!SqlDb DB, !SqlTx DB, !JournalDb DB, !IndexDb DB}
    (root_arg rel : string) (g : PathGuard) (w w' : world DB) res :
  PathGuard.new (w_fs w) root_arg = Ok g -> FileIndex.remove_path root_arg rel w = (res, w') ->
  let p := Db.db_path_for_root (root g) in
  same_journal w w' /\ (forall q, q <> p -> idx_at q w' = idx_at q w) /\
  match res with
  | Ok _ =>
      (forall q row, it_files (idx_at p w') !! q = Some row <->
        it_files (idx_at p w) !! q = Some row /\ ~ selected rel q) /\
      (forall q row, it_entries (idx_at p w') !! q = Some row <->
        it_entries (idx_at p w) !! q = Some row /\ ~ selected rel q) /\
      it_generation (idx_at p w') = (it_generation (idx_at p w) + 1)%Z /\
      it_initialized (idx_at p w') = it_initialized (idx_at p w)
  | Err _ => idx_at p w' = idx_at p w
  end.
Proof.
  intros Hg Hrun p. apply remove_path_run in Hrun as [(e & -> & Hj & Hi)|(g' & Hg' & H)]; [by split_and!|].
  rewrite Hg in Hg'. injection Hg' as <-. destruct H as (Hj & Ho & H). split_and!; [done..|].
  destruct res as [u|e]; [|done]. fold p in H. rewrite H.
  split_and!; [intros q row; apply kept_iff..|done|done].
Qed.

(** * Witness *)

Definition remove_run := FileIndex.remove_path sample_root "docs/" reindex_run.2.

Lemma remove_path_removes_witness :
  it_generation (idx_at (Db.db_path_for_root sample_root) remove_run.2) = 2%Z.
Proof.
  assert (is_ok remove_run.1 = true) as Hok by (vm_compute; reflexivity).
  destruct remove_run as [[u|e] w'] eqn:H; [|discriminate Hok].
  destruct (remove_path_removes sample_root "docs/" (mkPathGuard sample_root) reindex_run.2 w' (Ok u) ltac:(by vm_compute) H)
    as (_ & _ & _ & _ & Hgen & _).
  etrans; [exact Hgen|]. by vm_compute.
Defined.
