(* ===== verification/reports.v ===== *)
(** What the reports of the engine say, and edge cases of the engine. *)
From Stdlib Require Import ZArith Lia Ascii.
From stdpp Require Import strings pretty gmap functions option list relations.
From S2P Require Import prelude rust_str std_path std_fs fs_facts path_guard db journal_store proposal_types decision rule_definition analyzer index_sql file_index.
From S2P Require Import proposal precondition trash execute history undo engine index_facts index_scan.

Open Scope string_scope.
Open Scope list_scope.


(** * What the reports of executions and undos say: one result for each item, in
    order, and counts that agree with the results; and the bookkeeping of
    interrupted moves. *)

(** A loop that ends normally keeps an invariant over the elements it has seen. *)
Lemma io_for_done {W E A S} (f : nat -> S -> A -> io W E S) (P : list A -> S -> Prop) l i s s' v v' :
  P [] s ->
  (forall seen i s a s1 v v1, P seen s -> f i s a v = (Ok s1, v1) -> P (seen ++ [a]) s1) ->
  io_for f i s l v = (Ok s', v') -> P l s'.
Proof.
  intros H0 Hstep. assert (forall seen i s v, P seen s -> io_for f i s l v = (Ok s', v') -> P (seen ++ l) s') as H.
  { clear H0. induction l as [|a l IH]; intros seen j t u Ht H; simpl in H.
    - injection H as -> _. by rewrite app_nil_r.
    - apply io_bind_ok in H as (t1 & u1 & H1 & H2). rewrite cons_middle, app_assoc.
      by eapply IH; [eapply Hstep|]. }
  intros Hl. exact (H [] _ _ _ H0 Hl).
Qed.

(** How many results have a status. *)
Definition count_status {A B} `{!EqDecision B} (status : A -> B) (b : B) (l : list A) : Z :=
  Z.of_nat (length (filter (fun a => status a = b) l)).
Lemma count_status_snoc {A B} `{!EqDecision B} (status : A -> B) b l a :
  count_status status b (l ++ [a]) = (count_status status b l + (if bool_decide (status a = b) then 1 else 0))%Z.
Proof.
  unfold count_status. rewrite filter_app, length_app, filter_cons, filter_nil.
  case_bool_decide; [rewrite decide_True by done|rewrite decide_False by done]; simpl; lia.
Qed.

(** * Executions *)
Section execute.
Context {DB : Type} `{!SqlDb DB} (to_string_pretty : TrashMetadata -> result string string).
Implicit Types w : world DB.

(** A result is about its check. *)
Definition result_of (c : PrecheckResult) (x : ExecuteResult) : Prop :=
  x_action x = c_action c /\ x_from x = c_from c /\
  (x_status x = XSkipped -> x_to x = c_to c) /\
  (x_status x = XExecuted -> c_action c <> Trash -> x_to x = c_to c).

Definition tally_ok (cs : list PrecheckResult) (t : Execute.tally) : Prop :=
  Forall2 result_of cs (Execute.results t) /\
  Execute.executed_count t = count_status x_status XExecuted (Execute.results t) /\
  Execute.skipped_count t = count_status x_status XSkipped (Execute.results t) /\
  Forall (fun x => x_status x <> XRejected) (Execute.results t).

Lemma count_executed_ok cs t c x :
  tally_ok cs t -> result_of c x -> x_status x = XExecuted -> tally_ok (cs ++ [c]) (Execute.count_executed t x).
Proof.
  intros (H1 & H2 & H3 & H4) Hx Hs. unfold tally_ok. simpl. rewrite !count_status_snoc, Hs, H2, H3. simpl.
  split_and!; [by apply Forall2_app; [|constructor]|done|lia|].
  apply Forall_app. split; [done|]. constructor; [by rewrite Hs|constructor].
Qed.
Lemma count_skipped_ok cs t c reason :
  tally_ok cs t -> tally_ok (cs ++ [c]) (Execute.count_skipped t (Execute.skipped_result c reason)).
Proof.
  intros (H1 & H2 & H3 & H4). unfold tally_ok. simpl. rewrite !count_status_snoc, H2, H3. simpl.
  split_and!; [apply Forall2_app; [done|constructor; [|constructor]]; by repeat split|lia|done|].
  apply Forall_app. split; [done|]. by repeat constructor.
Qed.
Lemma tally_outcome_ok cs t c o :
  tally_ok cs t -> (forall x, o = Ok x -> result_of c x /\ x_status x = XExecuted) ->
  tally_ok (cs ++ [c]) (Execute.tally_outcome t c o).
Proof.
  intros Ht Ho. destruct o as [x|reason]; simpl; [|by apply count_skipped_ok].
  destruct (Ho _ eq_refl). by apply count_executed_ok.
Qed.

Lemma executed_result_of c : result_of c (Execute.executed_result c) /\ x_status (Execute.executed_result c) = XExecuted.
Proof. by repeat split. Qed.

(** Walks to the results of a computation that ends normally. *)
Ltac result_step :=
  match goal with
  | H : io_bind _ _ _ = (Ok _, _) |- _ => apply io_bind_ok in H as (? & ? & _ & H)
  | H : (match ?x with _ => _ end) _ = (Ok _, _) |- _ => destruct x
  | H : io_ret _ _ = (Ok _, _) |- _ => injection H as ? ?; subst
  | H : io_fail _ _ = (Ok _, _) |- _ => discriminate H
  | H : Ok _ = Ok _ |- _ => injection H as ?; subst
  | H : Err _ = Ok _ |- _ => discriminate H
  end.

Lemma create_dir_result g s c i w x w' :
  Execute.execute_create_dir (DB:=DB) g s c i w = (Ok (Ok x), w') -> x = Execute.executed_result c.
Proof. unfold Execute.execute_create_dir. intros H. cbv zeta in H. by repeat result_step. Qed.
Lemma create_file_result g s c i w x w' :
  Execute.execute_create_file (DB:=DB) g s c i w = (Ok (Ok x), w') -> x = Execute.executed_result c.
Proof. unfold Execute.execute_create_file. intros H. by repeat result_step. Qed.
Lemma move_result g s c i w x w' :
  Execute.execute_move (DB:=DB) g s c i w = (Ok (Ok x), w') -> x = Execute.executed_result c.
Proof. unfold Execute.execute_move. intros H. by repeat result_step. Qed.
Lemma readme_result g s c i w x w' :
  Execute.execute_readme_write (DB:=DB) g s c i w = (Ok (Ok x), w') ->
  result_of c x /\ x_status x = XExecuted.
Proof.
  unfold Execute.execute_readme_write.
  destruct (String.eqb_spec (c_from c) "README.md") as [Hf|]; [|by intros [=]].
  destruct (String.eqb_spec (c_to c) "README.md") as [Ht|]; [|by intros [=]]. simpl. intros H.
  repeat result_step; repeat split; simpl; congruence.
Qed.

Lemma recover_result g es s c w x w' :
  Execute.recover_planned_move (DB:=DB) g es s c w = (Ok (Some x), w') ->
  result_of c x /\ x_status x = XExecuted.
Proof. unfold Execute.recover_planned_move. intros H. by repeat result_step. Qed.

Lemma execute_check_ok g s es cs i t c t1 w w1 :
  tally_ok cs t -> Execute.execute_check (DB:=DB) to_string_pretty g s es i t c w = (Ok t1, w1) ->
  tally_ok (cs ++ [c]) t1.
Proof.
  intros Ht. unfold Execute.execute_check. destruct (negb _).
  { intros (o & w2 & H1 & H2)%io_bind_ok. destruct o as [x|]; injection H2 as <- _.
    - apply recover_result in H1 as [? ?]. by apply count_executed_ok.
    - by apply count_skipped_ok. }
  destruct (c_action c) eqn:Ha; intros (o & w2 & H1 & H2)%io_bind_ok; injection H2 as <- _.
  - apply tally_outcome_ok; [done|]. intros x ->. apply move_result in H1 as ->. apply executed_result_of.
  - apply count_executed_ok; [done| |done]. repeat split; simpl; congruence.
  - apply tally_outcome_ok; [done|]. intros x ->. apply create_dir_result in H1 as ->. apply executed_result_of.
  - apply tally_outcome_ok; [done|]. intros x ->. apply create_file_result in H1 as ->. apply executed_result_of.
  - apply tally_outcome_ok; [done|]. intros x ->. by eapply readme_result.
Qed.

Lemma execute_prechecked_report g pre w rep w' :
  Execute.execute_prechecked (DB:=DB) to_string_pretty g pre w = (Ok rep, w') ->
  xr_root rep = pc_root pre /\ Forall2 result_of (pc_checks pre) (xr_results rep) /\
  xr_executed_count rep = count_status x_status XExecuted (xr_results rep) /\
  xr_skipped_count rep = count_status x_status XSkipped (xr_results rep) /\
  Forall (fun x => x_status x <> XRejected) (xr_results rep).
Proof.
  unfold Execute.execute_prechecked. intros (s & w1 & _ & H)%io_bind_ok.
  apply io_bind_ok in H as (es & w2 & _ & H). apply io_bind_ok in H as (t & w3 & H & H').
  injection H' as <- _. split; [done|].
  apply (io_for_done _ tally_ok) in H; [by destruct H as (? & ? & ? & ?)| |].
  - by repeat split; try constructor.
  - intros seen i t0 c t1 v v1. apply execute_check_ok.
Qed.
End execute.

(** * Undos *)
Section undo.
Context {DB : Type} `{!SqlDb DB}.
Implicit Types w : world DB.

(** A result is about its entry. *)
Definition undo_result_of (e : JournalEntry) (u : UndoResult) : Prop := u_from u = je_to e /\ u_to u = je_from e.

(** The entries an undo takes up. *)
Definition undoable (undone_ids : list string) (only : option string) (e : JournalEntry) : Prop :=
  match only with Some id => je_operation_id e = id | None => True end /\
  je_status e = Executed /\ ~ je_operation_id e ∈ undone_ids.
#[export] Instance undoable_dec ids only e : base.Decision (undoable ids only e).
Proof. unfold undoable. destruct only; apply _. Defined.

Definition undo_tally_ok ids only (es : list JournalEntry) (t : Undo.tally) : Prop :=
  Forall2 undo_result_of (filter (undoable ids only) es) (Undo.results t) /\
  Undo.undone_count t = count_status u_status UUndone (Undo.results t) /\
  Undo.skipped_count t = count_status u_status USkipped (Undo.results t).

Ltac undo_result_step :=
  match goal with
  | H : io_bind _ _ _ = (Ok _, _) |- _ => apply io_bind_ok in H as (? & ? & _ & H)
  | H : (match ?x with _ => _ end) _ = (Ok _, _) |- _ => destruct x
  | H : io_ret _ _ = (Ok _, _) |- _ => injection H as ? ?; subst
  | H : Ok _ = Ok _ |- _ => injection H as ?; subst
  | H : Err _ = Ok _ |- _ => discriminate H
  end.

Lemma undo_action_result g s e w u w' :
  (match je_action e with
   | JCreateDir => Undo.undo_create_dir (DB:=DB) g s e
   | JCreateFile => Undo.undo_create_file g s e
   | JReadmeWrite => Undo.undo_readme_write g s e
   | JMove | JTrash => Undo.undo_move g s e
   end) w = (Ok (Ok u), w') -> undo_result_of e u /\ u_status u = UUndone.
Proof.
  destruct (je_action e); intros H;
    unfold Undo.undo_move, Undo.undo_create_dir, Undo.undo_create_file, Undo.undo_readme_write in H; cbv zeta in H;
    by repeat undo_result_step.
Qed.

Lemma undo_step_ok g s ids only es i t e t1 w w1 :
  undo_tally_ok ids only es t -> Undo.undo_step (DB:=DB) g s ids only i t e w = (Ok t1, w1) ->
  undo_tally_ok ids only (es ++ [e]) t1.
Proof.
  intros (H1 & H2 & H3). unfold Undo.undo_step, undo_tally_ok. rewrite filter_app, filter_cons, filter_nil.
  assert ((match only with Some id => negb (id =? je_operation_id e)%string | None => false end = false /\
           negb (bool_decide (je_status e = Executed)) || bool_decide (je_operation_id e ∈ ids) = false) <->
          undoable ids only e) as Hcond.
  { unfold undoable. rewrite orb_false_iff, negb_false_iff, bool_decide_eq_true, bool_decide_eq_false.
    destruct only as [id|]; [|tauto]. rewrite negb_false_iff, String.eqb_eq. split; [intros (-> & ? & ?)|intros (<- & ? & ?)]; done. }
  destruct (match only with Some _ => _ | None => _ end).
  { rewrite decide_False by (by intros [? _]%Hcond). intros [= <- _]. by rewrite app_nil_r. }
  destruct (negb _ || _).
  { rewrite decide_False by (by intros [_ ?]%Hcond). intros [= <- _]. by rewrite app_nil_r. }
  rewrite decide_True by (by apply Hcond). clear Hcond.
  intros (o & w2 & Ho & Hr)%io_bind_ok. destruct o as [u|reason]; injection Hr as <- _; simpl;
    rewrite !count_status_snoc.
  - apply undo_action_result in Ho as [Hu Hs]. rewrite Hs, H2, H3. simpl.
    split_and!; [apply Forall2_app; [done|by constructor; [|constructor]]|done|lia].
  - rewrite H2, H3. simpl. split_and!; [apply Forall2_app; [done|by constructor; [|constructor]]|lia|done].
Qed.
End undo.

(** * Properties *)

(** an execution accounts for every decision.  A report has one result for each
    approved proposal, in order, about that proposal's action and source, then one
    for each rejected proposal with its reason; and its three counts are the
    numbers of executed, skipped and rejected results. *)
Theorem execute_report_complete {DB : Type} `{!SqlDb DB}
    (to_string_pretty : TrashMetadata -> result string string) (root_arg : string)
    (app : DecisionApplication) (w : world DB) rep w' :
  Execute.execute_decision_application to_string_pretty root_arg app w = (Ok rep, w') ->
  (exists xs, xr_results rep = xs ++ map Execute.rejected_result (da_rejected app) /\
     map (fun x => (x_action x, x_from x)) xs = map (fun p => (p_action p, p_from p)) (pr_proposals (da_approved app)) /\
     Forall (fun x => x_status x <> XRejected) xs) /\
  xr_root rep = pr_root (da_approved app) /\
  xr_executed_count rep = count_status x_status XExecuted (xr_results rep) /\
  xr_skipped_count rep = count_status x_status XSkipped (xr_results rep) /\
  xr_rejected_count rep = count_status x_status XRejected (xr_results rep).
Proof.
  unfold Execute.execute_decision_application, Execute.execute_proposals. intros (r & w1 & H & H')%io_bind_ok.
  injection H' as <- <-. apply io_bind_ok in H as (f & w2 & [= <- <-] & H).
  apply io_bind_ok in H as (g & w2 & H1 & H). unfold io_lift in H1. injection H1 as _ <-.
  apply io_bind_ok in H as (pre & w2 & H1 & H). unfold io_lift in H1. injection H1 as Hpre <-.
  apply execute_prechecked_report in H as (Hroot & Hres & He & Hs & Hr).
  assert (pc_root pre = pr_root (da_approved app) /\ exists f g, pc_checks pre =
    map (Precheck.precheck_proposal f g) (pr_proposals (da_approved app))) as [Hpr (f & g' & Hc)].
  { unfold Precheck.precheck_proposals, Precheck.precheck_proposals_with_guard in Hpre.
    destruct (PathGuard.new (w_fs w) (root g)); [|done]. simpl in Hpre. destruct (negb _); [done|].
    injection Hpre as <-. by eauto. }
  assert (forall b, count_status x_status b (map Execute.rejected_result (da_rejected app)) =
    if bool_decide (b = XRejected) then Z.of_nat (length (da_rejected app)) else 0%Z) as Hrej.
  { intros b. unfold count_status. induction (da_rejected app) as [|x l IH]; simpl; [by case_bool_decide|].
    rewrite filter_cons. simpl. case_bool_decide as Hb; [rewrite decide_True by done; simpl; lia|].
    by rewrite decide_False by congruence. }
  assert (forall b, count_status x_status b (xr_results r ++ map Execute.rejected_result (da_rejected app)) =
    (count_status x_status b (xr_results r) + count_status x_status b (map Execute.rejected_result (da_rejected app)))%Z) as Happ.
  { intros b. unfold count_status. rewrite filter_app, length_app. lia. }
  assert (count_status x_status XRejected (xr_results r) = 0%Z) as Hno.
  { unfold count_status. clear -Hr. induction Hr as [|x l Hx _ IH]; [done|]. by rewrite filter_cons, decide_False. }
  simpl. rewrite !Happ, !Hrej, Hno, Hroot. simpl. split_and!; [|done|lia..].
  exists (xr_results r). split_and!; [done| |done]. rewrite Hc in Hres. clear -Hres. revert Hres.
  generalize (xr_results r). induction (pr_proposals (da_approved app)) as [|p ps IH]; intros xs Hxs; simpl in Hxs;
    inversion Hxs as [|? x ? xs' (Ha & Hf & _) Hxs']; subst; [done|]. simpl.
  destruct (precheck_fields f g' p) as (H1 & H2 & _). by rewrite (IH _ Hxs'), Ha, Hf, H1, H2.
Qed.

(** An undo accounts for every operation it takes up.  Its report has one
    result for each journaled execution that no undone row names (of the one
    operation asked for, if any), the latest first, with its ends swapped; its
    counts are the numbers of undone and skipped results; and asking for an
    operation with no such execution is refused. *)
Theorem undo_report_complete {DB : Type} `{!SqlDb DB, !JournalDb DB} (root_arg : string)
    (only : option string) (w : world DB) rep w' :
  Undo.undo_with_filter root_arg only w = (Ok rep, w') ->
  exists g, PathGuard.new (w_fs w) root_arg = Ok g /\
  let entries := readable (journal_at (Db.db_path_for_root (root g)) w) in
  let undone := map je_operation_id (filter (fun e => je_status e = Undone) entries) in
  map (fun u => (u_from u, u_to u)) (ur_results rep) =
    map (fun e => (je_to e, je_from e)) (filter (undoable undone only) (reverse entries)) /\
  ur_undone_count rep = count_status u_status UUndone (ur_results rep) /\
  ur_skipped_count rep = count_status u_status USkipped (ur_results rep) /\
  (is_Some only -> filter (undoable undone only) (reverse entries) <> []).
Proof.
  unfold Undo.undo_with_filter. intros (f & w1 & [= <- <-] & H)%io_bind_ok.
  apply io_bind_ok in H as (g & w1 & H1 & H). unfold io_lift in H1. injection H1 as Hg <-.
  destruct (PathGuard.new (w_fs w) root_arg) as [g'|]; [|done]. injection Hg as ->. exists g. split; [done|].
  apply io_bind_ok in H as (s & w1 & H1 & H). apply io_map_err_inv in H1 as ([s'|] & H1 & Hr); [|done].
  injection Hr as <-. pose proof (open_journal_same _ _ _ _ H1) as Hj. destruct (open_store _ _ _ _ H1) as [Hpool _].
  apply io_bind_ok in H as (es & w2 & H2 & H). apply io_map_err_inv in H2 as ([es'|] & H2 & Hr); [|done].
  injection Hr as <-. apply read_all_run in H2 as (_ & _ & _ & Hes). destruct (Hes _ eq_refl) as [-> _].
  rewrite Hpool, Hj in H. cbv zeta. set (entries := readable _) in *.
  set (ids := map je_operation_id (filter (fun e => je_status e = Undone) entries)) in *.
  apply io_bind_ok in H as (t & w3 & Ht & H).
  apply (io_for_done _ (undo_tally_ok ids only)) in Ht as (H1' & H2' & H3');
    [|by repeat split; constructor|intros; by eapply undo_step_ok].
  assert (ur_results rep = Undo.results t /\ ur_undone_count rep = Undo.undone_count t /\
    ur_skipped_count rep = Undo.skipped_count t /\ (is_Some only -> Undo.results t <> [])) as (-> & -> & -> & Hne).
  { destruct only as [id|]; [case_bool_decide; [discriminate H|]|]; injection H as <- _; split_and!; done || by intros [? ?]. }
  split_and!; [|done|done|].
  - clear -H1'. induction H1' as [|e u es us [Hf Hto] _ IH]; [done|]. simpl. by rewrite Hf, Hto, IH.
  - intros Ho He. apply Hne; [done|]. rewrite He in H1'. by inversion H1'.
Qed.

(** A report about another root is refused before anything changes. *)
Theorem execute_other_root_refused {DB : Type} `{!SqlDb DB}
    (to_string_pretty : TrashMetadata -> result string string) (root_arg : string)
    (app : DecisionApplication) (g : PathGuard) (w : world DB) :
  wf_tree (w_fs w) -> PathGuard.new (w_fs w) root_arg = Ok g -> pr_root (da_approved app) <> root g ->
  Execute.execute_decision_application to_string_pretty root_arg app w =
    (Err (XPrecheck (RootMismatch (root g) (pr_root (da_approved app)))), w).
Proof.
  intros Hwf Hnew Hne. destruct (new_guard_at _ Hwf _ _ Hnew) as (r & Hg & _).
  unfold Execute.execute_decision_application, Execute.execute_proposals, io_bind, io_lift, get_fs, io_gets.
  rewrite Hnew. simpl. unfold Precheck.precheck_proposals. rewrite (new_root _ Hwf _ _ Hg). simpl.
  unfold Precheck.precheck_proposals_with_guard. apply String.eqb_neq in Hne. by rewrite Hne.
Qed.

Lemma find_some_elem {A} (p : A -> bool) l a : List.find p l = Some a -> a ∈ l /\ p a = true.
Proof. intros [Hin Hp]%find_some. by split; [apply list_elem_of_In|]. Qed.

(** An interrupted move is recovered at most once.  The operation recovered for
    a pair of paths is one that was planned as a move of that pair and that no row
    completes; once its executed row is appended it is not found again. *)
Theorem recovered_once (es : list JournalEntry) (from to id : string) (e' : JournalEntry) :
  Execute.pending_planned_operation es from to = Some id ->
  je_operation_id e' = id -> je_status e' = Executed ->
  (exists e, e ∈ es /\ je_operation_id e = id /\ je_status e = Planned /\ je_action e = JMove /\
     je_from e = from /\ je_to e = to) /\
  (forall e, e ∈ es -> je_operation_id e = id -> je_status e = Planned) /\
  Execute.pending_planned_operation (es ++ [e']) from to <> Some id.
Proof.
  intros H Hid Hst. unfold Execute.pending_planned_operation in H.
  apply fmap_Some in H as (e & H & ->). apply find_some_elem in H as [Hin H].
  rewrite !andb_true_iff, !bool_decide_eq_true, !String.eqb_eq, negb_true_iff, bool_decide_eq_false in H.
  destruct H as ((((Hp & Hm) & Hf) & Ht) & Hni). rewrite elem_of_reverse in Hin. split_and!.
  - by exists e.
  - intros x Hx Hxid. destruct (decide (je_status x = Planned)) as [|Hnp]; [done|]. exfalso. apply Hni.
    rewrite <- Hxid. apply list_elem_of_fmap_2, list_elem_of_filter. split; [|done]. destruct (je_status x); [done|auto..].
  - unfold Execute.pending_planned_operation. intros (x & Hx & Hxid)%fmap_Some.
    apply find_some_elem in Hx as [_ Hx]. rewrite !andb_true_iff, negb_true_iff, bool_decide_eq_false in Hx.
    destruct Hx as [_ Hx]. apply Hx. rewrite <- Hxid, <- Hid. apply list_elem_of_fmap_2, list_elem_of_filter.
    split; [by left|]. apply elem_of_app. right. by left.
Qed.

(** * Witnesses *)

Lemma execute_report_complete_witness :
  match executed_run.1 with
  | Ok rep => xr_executed_count rep = count_status x_status XExecuted (xr_results rep)
  | Err _ => False
  end.
Proof.
  assert (is_ok executed_run.1 = true) as Hok by (vm_compute; reflexivity).
  destruct executed_run as [[rep|e] w'] eqn:H; [|discriminate Hok]. simpl.
  exact (proj1 (proj2 (proj2 (execute_report_complete _ _ _ _ _ _ H)))).
Defined.

Lemma undo_report_complete_witness :
  match undone_run.1 with
  | Ok rep => ur_undone_count rep = count_status u_status UUndone (ur_results rep)
  | Err _ => False
  end.
Proof.
  assert (is_ok undone_run.1 = true) as Hok by (vm_compute; reflexivity).
  destruct undone_run as [[rep|e] w'] eqn:H; [|discriminate Hok]. unfold undone_run, Undo.undo_root in H.
  destruct (undo_report_complete _ _ _ _ _ H) as (g & _ & _ & Hc & _). exact Hc.
Defined.

Definition other_application : DecisionApplication := mkDecisionApplication (mkProposalReport "/home/other" sample_plan) [].
Lemma execute_other_root_refused_witness :
  Execute.execute_decision_application sample_pretty sample_root other_application sample_machine =
    (Err (XPrecheck (RootMismatch "/home/root" "/home/other")), sample_machine).
Proof.
  exact (execute_other_root_refused sample_pretty sample_root other_application (mkPathGuard sample_root)
    sample_machine sample_wf sample_guard ltac:(discriminate)).
Defined.

Definition interrupted : JournalEntry := mkJournalEntry "op-1-0" Planned JMove "a.txt" "docs/a.txt" 1.
Definition recovered : JournalEntry := mkJournalEntry "op-1-0" Executed JMove "a.txt" "docs/a.txt" 2.
Lemma recovered_once_witness :
  Execute.pending_planned_operation [interrupted; recovered] "a.txt" "docs/a.txt" <> Some "op-1-0".
Proof.
  refine (proj2 (proj2 (recovered_once [interrupted] "a.txt" "docs/a.txt" "op-1-0" recovered _ _ _))).
  - vm_compute. reflexivity.
  - reflexivity.
  - reflexivity.
Defined.

(** * Edge cases of the engine, evaluated on concrete machines: what the
    definitions show of the code where a comment, a document or another part of
    the code would have it otherwise. *)

Definition one_decision (p : Proposal) : DecisionApplication :=
  mkDecisionApplication (mkProposalReport sample_root [p]) [].
Definition run_one (p : Proposal) (w : world MemDb) :=
  Execute.execute_decision_application sample_pretty sample_root (one_decision p) w.
Definition statuses (x : result ExecuteReport ExecuteError) : option (list ExecuteStatus) :=
  match x with Ok rep => Some (map x_status (xr_results rep)) | Err _ => None end.
Definition entry_kind (w : world MemDb) (p : path) : option kind := i_kind <$> (w_fs w !! p).

(** A move to [../stray/x.txt] is refused, but only after the directory outside the
    root is made: [create_dir_all] comes before [resolve_for_create]. *)
Definition stray : Proposal := sample_proposal Move "a.txt" "../stray/x.txt" 5.
Example move_makes_directory_outside :
  let run := run_one stray sample_machine in
  statuses run.1 = None /\ entry_kind sample_machine ["home"; "stray"] = None /\
  entry_kind run.2 ["home"; "stray"] = Some KDir /\
  entry_kind run.2 ["home"; "root"; "a.txt"] = Some (KFile "hello").
Proof. split_and!; vm_compute; reflexivity. Qed.

(** A dangling link at the destination counts as a free name: the move replaces
    it, and the link is gone. *)
Definition dangling_machine : world MemDb :=
  machine (<[["home"; "root"; "docs"; "later"] := link_of "nowhere" 10]> sample_tree) mem_empty.
Example move_replaces_dangling_link :
  let run := run_one (sample_proposal Move "a.txt" "docs/later" 5) dangling_machine in
  statuses run.1 = Some [XExecuted] /\
  entry_kind dangling_machine ["home"; "root"; "docs"; "later"] = Some (KLink "nowhere") /\
  entry_kind run.2 ["home"; "root"; "docs"; "later"] = Some (KFile "hello").
Proof. split_and!; vm_compute; reflexivity. Qed.

(** An undo that was planned and not finished: the history says that it is in
    progress and cannot be undone, the undo takes it up again. *)
Definition rows_of (es : list JournalEntry) : world MemDb :=
  machine (<[["home"; "root"; "docs"; "a.txt"] := file_of "hello" 6]>
             (delete ["home"; "root"; "a.txt"] sample_tree))
    (mkMemDb (imap (fun i e => row_of_entry (Z.of_nat i + 1) e) es) (Z.of_nat (length es) + 1) None).
Definition half_undone : world MemDb :=
  rows_of [mkJournalEntry "op-1" Planned JMove "a.txt" "docs/a.txt" 1; mkJournalEntry "op-1" Executed JMove "a.txt" "docs/a.txt" 2;
           mkJournalEntry "op-1" UndoPlanned JMove "docs/a.txt" "a.txt" 3].
Example history_blocks_what_undo_retries :
  match (History.read_operation_history sample_root half_undone).1 with
  | Ok rep => map (fun o => (h_operation_id o, h_can_undo o)) (hr_operations rep) = [("op-1", false)]
  | Err _ => False
  end /\
  match (Undo.undo_root sample_root half_undone).1 with
  | Ok rep => map u_status (ur_results rep) = [UUndone]
  | Err _ => False
  end.
Proof. split; vm_compute; reflexivity. Qed.

(** The undo of a README write records that it was planned before it looks for the
    backup; without one it is skipped, and the history holds it as in progress. *)
Definition no_backup : world MemDb :=
  rows_of [mkJournalEntry "op-1" Planned JReadmeWrite ".mousekeeper/backup" "README.md" 1;
           mkJournalEntry "op-1" Executed JReadmeWrite ".mousekeeper/backup" "README.md" 2].
Example readme_undo_plans_before_checking :
  let run := Undo.undo_root sample_root no_backup in
  match run.1 with Ok rep => map u_status (ur_results rep) = [USkipped] | Err _ => False end /\
  map raw_status (journal_at (Db.db_path_for_root sample_root) run.2) = ["planned"; "executed"; "undo_planned"].
Proof. split; vm_compute; reflexivity. Qed.

(** The journal of a plan records every ready check as a move. *)
Definition planned_dir : PrecheckResult :=
  Precheck.precheck_proposal sample_tree (mkPathGuard sample_root) (sample_proposal CreateDir "" "new" 0).
Example plan_records_a_move :
  let store := mkJournalStore (Db.db_path_for_root sample_root) (Db.db_path_for_root sample_root) in
  let run := History.plan_check store 1 0 (0, 0)%Z planned_dir sample_machine in
  c_action planned_dir = CreateDir /\ c_status planned_dir = PReady /\
  map raw_action (journal_at (Db.db_path_for_root sample_root) run.2) = ["move"].
Proof. split_and!; vm_compute; reflexivity. Qed.

(** On a case-sensitive file system [DOCS] is not [docs], but LIKE has it so: removing
    the one from the index removes the files of the other, which are still there. *)
Example remove_ignores_case :
  let p := Db.db_path_for_root sample_root in
  let run := FileIndex.remove_path sample_root "DOCS" reindex_run.2 in
  is_ok run.1 = true /\ is_Some (it_files (idx_at p reindex_run.2) !! "docs/b.txt") /\
  it_files (idx_at p run.2) !! "docs/b.txt" = None /\
  path_exists (w_fs run.2) "/home/root/docs/b.txt" = true /\ path_exists (w_fs run.2) "/home/root/DOCS" = false.
Proof. split_and!; [vm_compute; reflexivity|eexists; vm_compute; reflexivity|vm_compute; reflexivity..]. Qed.

(** A backslash may stand in a Unix name; the index reads it as a separator, so the
    file [docs\b.txt] and the file [b.txt] of [docs] are one key, and no rebuild of
    that root succeeds. *)
Definition backslash_machine : world MemIndex :=
  index_machine (<[["home"; "root"; "docs\b.txt"] := file_of "x" 77]> sample_tree) (mem_index_of empty_tables None).
Example backslash_stops_reindex :
  let run := FileIndex.reindex_root id sample_root backslash_machine in
  is_ok run.1 = false /\ it_initialized (idx_at (Db.db_path_for_root sample_root) run.2) = 0%Z /\
  is_ok (FileIndex.reindex_root id sample_root reindex_machine).1 = true.
Proof. split_and!; vm_compute; reflexivity. Qed.
