(* ===== verification/watcher.v ===== *)
(** The watch of a folder, and that it loses no change. *)
From Stdlib Require Import ZArith Lia Ascii.
From stdpp Require Import strings pretty gmap functions option list.
From S2P Require Import prelude rust_str std_path std_fs fs_facts db journal_store rule_definition analyzer managed_roots.

Open Scope string_scope.
Open Scope list_scope.


(** * [apps/desktop/src-tauri/src/watcher.rs]: what the events of the operating system say
    changed in a folder, gathered until they stop; and
    [apps/desktop/src-tauri/src/storage/watchers.rs], the folders being watched. *)

(** * Events *)

(** The events of [notify], third-party, as far as they are looked at. *)
Inductive EventKind := EventAccess | EventCreate | EventModify | EventRemove | EventAny | EventOther.
Record Event := mkEvent { ev_kind : EventKind; ev_paths : list string; ev_need_rescan : bool }.
Inductive WatchChange := UpsertFile (relative_path : string) | RemovePath (relative_path : string) | Reindex.
#[export] Instance WatchChange_eq_dec : EqDecision WatchChange.
Proof. solve_decision. Defined.

(** ** The thread *)

(** What the loop keeps: the changes it heard, and when it last heard one. *)
Record Debounce := mkDebounce { db_pending : list WatchChange; db_last : Z }.
(** What one wait for an event gives. *)
Inductive received := GotEvent (event : Event) | GotError | TimedOut | Disconnected.
(** A turn of the loop: whether it was told to stop, what it received and when, the
    files then, and when it looks whether the events stopped. *)
Record turn := mkTurn { tn_stopped : bool; tn_received : received; tn_files : tree; tn_at : Z; tn_checked_at : Z }.

Module Watcher.
(** Nanoseconds. *)
Definition DEBOUNCE : Z := 500 * 10 ^ 6.

Definition is_internal (c : Component) : bool :=
  let name := component_str c in (name =? STATE_DIR)%string || (name =? TRASH_DIR)%string.
Definition is_relevant (event : Event) : bool :=
  existsb (fun path => negb (existsb is_internal (components path))) (ev_paths event).

Definition relative_path (root path : string) : option string :=
  match path_strip_prefix path root with
  | None | Some [] => None
  | Some relative => Some (Analyzer.join_components relative)
  end.
Definition classify_remove (root : string) (paths : list string) : list WatchChange :=
  match omap (fun path => RemovePath <$> relative_path root path) paths with
  | [] => [Reindex]
  | changes => changes
  end.
Definition classify_present (f : tree) (root path : string) : WatchChange :=
  match relative_path root path with
  | None => Reindex
  | Some relative =>
      match symlink_metadata f path with
      | Err _ => RemovePath relative
      | Ok metadata => if is_file_inode metadata then UpsertFile relative else Reindex
      end
  end.
Definition classify_present_or_missing (f : tree) (root : string) (paths : list string) : list WatchChange :=
  map (classify_present f root) paths.
Definition classify_change (f : tree) (root : string) (event : Event) : list WatchChange :=
  if ev_need_rescan event || match ev_paths event with [] => true | _ => false end then [Reindex]
  else
    match ev_kind event with
    | EventRemove => classify_remove root (ev_paths event)
    | EventCreate | EventModify => classify_present_or_missing f root (ev_paths event)
    | EventAny | EventOther | EventAccess => [Reindex]
    end.
Definition coalesce_changes (changes : list WatchChange) : list WatchChange :=
  if (1 <? length changes)%nat || bool_decide (Reindex ∈ changes) then [Reindex] else changes.

(** * The thread *)

(** The changes a turn hears, if any that matter. *)
Definition heard (root : string) (t : turn) : option (list WatchChange) :=
  match tn_received t with
  | GotEvent event => if is_relevant event then Some (classify_change (tn_files t) root event) else None
  | GotError => Some [Reindex]
  | TimedOut | Disconnected => None
  end.
Definition absorb (root : string) (t : turn) (s : Debounce) : Debounce :=
  match heard root t with
  | Some changes => mkDebounce (db_pending s ++ changes) (tn_at t)
  | None => s
  end.
Definition ends (t : turn) : bool := tn_stopped t || match tn_received t with Disconnected => true | _ => false end.
(** The state after a turn and the changes it tells of, or the end of the thread. *)
Definition one_turn (root : string) (t : turn) (s : Debounce) : option (Debounce * list WatchChange) :=
  if ends t then None
  else
    let s := absorb root t s in
    match db_pending s with
    | [] => Some (s, [])
    | changes => if (DEBOUNCE <=? tn_checked_at t - db_last s)%Z then Some (mkDebounce [] (db_last s), coalesce_changes changes) else Some (s, [])
    end.
(** The changes told at each turn, while the thread lives. *)
Fixpoint watching (root : string) (turns : list turn) (s : Debounce) : Debounce * list (list WatchChange) :=
  match turns with
  | [] => (s, [])
  | t :: turns =>
      match one_turn root t s with
      | None => (s, [])
      | Some (s, told) => let '(s, rest) := watching root turns s in (s, told :: rest)
      end
  end.
End Watcher.

(** * The folders being watched *)

(** A watch, with the folder as its callback captured it. *)
Record RootWatcher := mkRootWatcher { rw_root_id : string; rw_managed : ManagedRoot }.
(** [WatcherStore] *)
Abbreviation WatcherStore := (gmap string RootWatcher).

Module Watchers.
Definition start (root_id : string) (watcher : RootWatcher) (s : WatcherStore) : WatcherStore := <[root_id := watcher]> s.
Definition stop (root_id : string) (s : WatcherStore) : bool * WatcherStore := (bool_decide (is_Some (s !! root_id)), delete root_id s).
Definition is_watching (root_id : string) (s : WatcherStore) : bool := bool_decide (is_Some (s !! root_id)).
End Watchers.

(** * No change that a watched folder reports is lost: each is told, alone or as part of a
    refresh, once the folder is quiet. *)

Section thread.
Context (root : string).
Implicit Types (t u : turn) (s : Debounce).

(** Instants do not go back. *)
Definition clock_runs (turns : list turn) : Prop :=
  forall i j t u, i <= j -> turns !! i = Some t -> turns !! j = Some u -> (tn_at t <= tn_at u)%Z.
Definition hears t : Prop := is_Some (Watcher.heard root t).

(** What holds of a run from its start. *)
Record debounced (turns : list turn) s (told : list (list WatchChange)) : Prop := {
  dn_length : length told = length turns;
  dn_covered : forall i t changes c, turns !! i = Some t -> Watcher.heard root t = Some changes -> c ∈ changes ->
    c ∈ db_pending s \/ exists j, i <= j /\ (told !! j = Some [c] \/ told !! j = Some [Reindex]);
  dn_single : forall j o, told !! j = Some o -> length o <= 1;
  dn_quiet : forall i j t u o, i <= j -> turns !! i = Some t -> turns !! j = Some u -> told !! j = Some o -> o <> [] ->
    hears t -> (tn_at t + Watcher.DEBOUNCE <= tn_checked_at u)%Z;
  dn_latest : forall i t, turns !! i = Some t -> hears t -> (tn_at t <= db_last s)%Z;
  dn_pending : db_pending s <> [] -> exists i t, turns !! i = Some t /\ hears t /\ db_last s = tn_at t;
}.

Lemma clock_runs_snoc turns t : clock_runs (turns ++ [t]) -> clock_runs turns.
Proof. intros H i j a b Hij Ha Hb. eapply H; [done|by apply lookup_app_l_Some..]. Qed.
Lemma one_turn_alive t s : Watcher.ends t = false -> exists s' o, Watcher.one_turn root t s = Some (s', o).
Proof. unfold Watcher.one_turn. intros ->. destruct (db_pending _); [by eauto|]. destruct (_ <=? _)%Z; by eauto. Qed.
Lemma watching_snoc turns t s :
  Forall (fun t => Watcher.ends t = false) (turns ++ [t]) ->
  Watcher.watching root (turns ++ [t]) s =
    let '(s1, told) := Watcher.watching root turns s in
    match Watcher.one_turn root t s1 with Some (s2, o) => (s2, told ++ [o]) | None => (s1, told) end.
Proof.
  revert s. induction turns as [|a turns IH]; intros s H; simpl.
  - by destruct (Watcher.one_turn root t s) as [[s2 o]|].
  - apply Forall_cons in H as [Ha H]. destruct (Watcher.one_turn root a s) as [[s1 o]|] eqn:Hone.
    + rewrite IH by done. destruct (Watcher.watching root turns s1) as [s2 told].
      by destruct (Watcher.one_turn root t s2) as [[s3 o3]|].
    + by destruct (one_turn_alive a s Ha) as (? & ? & ?%(eq_trans (eq_sym Hone))).
Qed.

Lemma coalesce_covers changes c : c ∈ changes -> Watcher.coalesce_changes changes = [c] \/ Watcher.coalesce_changes changes = [Reindex].
Proof.
  intros Hc. unfold Watcher.coalesce_changes. destruct changes as [|a [|b l]]; [by apply not_elem_of_nil in Hc| |by right].
  apply list_elem_of_singleton in Hc as ->. simpl. by case_match; [right|left].
Qed.
Lemma coalesce_single changes : length (Watcher.coalesce_changes changes) <= 1.
Proof. unfold Watcher.coalesce_changes. destruct (Nat.ltb_spec 1 (length changes)); simpl; [lia|]. case_bool_decide; simpl; lia. Qed.
Lemma coalesce_nil changes : changes <> [] -> Watcher.coalesce_changes changes <> [].
Proof. unfold Watcher.coalesce_changes. intros H. by case_match. Qed.

(** What a turn adds to the pending changes. *)
Lemma absorb_pending t s c : c ∈ db_pending (Watcher.absorb root t s) <->
  c ∈ db_pending s \/ exists changes, Watcher.heard root t = Some changes /\ c ∈ changes.
Proof.
  unfold Watcher.absorb. destruct (Watcher.heard root t) as [l|]; simpl; [rewrite elem_of_app|]; split.
  - intros [H|H]; [by left|right; by exists l].
  - intros [H|(l' & [= <-] & H)]; [by left|by right].
  - by left.
  - by intros [H|(l' & [=] & _)].
Qed.
Lemma absorb_last t s : db_last (Watcher.absorb root t s) = match Watcher.heard root t with Some _ => tn_at t | None => db_last s end.
Proof. unfold Watcher.absorb. by destruct (Watcher.heard root t). Qed.

(** The end of a turn. *)
Lemma one_turn_run t s s' o :
  Watcher.ends t = false -> Watcher.one_turn root t s = Some (s', o) ->
  let a := Watcher.absorb root t s in
  db_last s' = db_last a /\
  ((o = [] /\ db_pending s' = db_pending a /\ (db_pending a = [] \/ (tn_checked_at t < db_last a + Watcher.DEBOUNCE)%Z)) \/
   (o = Watcher.coalesce_changes (db_pending a) /\ db_pending a <> [] /\ db_pending s' = [] /\ (db_last a + Watcher.DEBOUNCE <= tn_checked_at t)%Z)).
Proof.
  intros He H a. unfold Watcher.one_turn in H. rewrite He in H. fold a in H. destruct (db_pending a) as [|c l] eqn:Hp.
  - injection H as <- <-. split; [done|]. left. by rewrite Hp; auto.
  - destruct (Z.leb_spec Watcher.DEBOUNCE (tn_checked_at t - db_last a)%Z); injection H as <- <-; (split; [done|]).
    + right. split_and!; [done..|lia].
    + left. rewrite Hp. split_and!; [done..|right; lia].
Qed.

Lemma debounced_start (t0 : Z) : debounced [] (mkDebounce [] t0) [].
Proof. by split. Qed.
Lemma debounced_snoc turns t s told s' o :
  clock_runs (turns ++ [t]) -> Watcher.ends t = false -> debounced turns s told -> Watcher.one_turn root t s = Some (s', o) ->
  debounced (turns ++ [t]) s' (told ++ [o]).
Proof.
  intros Hclock He [D1 D2 D3 D4 D5 D6] Hone. pose proof (one_turn_run t s s' o He Hone) as Hrun. cbv zeta in Hrun.
  set (a := Watcher.absorb root t s) in *. destruct Hrun as [Hlast Hcases].
  assert (forall i u, (turns ++ [t]) !! i = Some u -> (i < length turns /\ turns !! i = Some u) \/ (i = length turns /\ u = t)) as Hat.
  { intros i u H. destruct (decide (i < length turns)) as [Hi|Hi].
    - left. split; [done|]. by rewrite lookup_app_l in H.
    - right. rewrite lookup_app_r in H by lia. apply list_lookup_singleton_Some in H as [? ->]. split; [lia|done]. }
  assert (forall i u, (turns ++ [t]) !! i = Some u -> hears u -> (tn_at u <= db_last a)%Z) as Hlate.
  { intros i u H Hu. unfold a. rewrite absorb_last. destruct (Watcher.heard root t) as [l|] eqn:Ht.
    - eapply Hclock; [|exact H|apply list_lookup_middle; reflexivity]. apply Hat in H. lia.
    - destruct (Hat _ _ H) as [[_ H']|[_ ->]]; [by eapply D5|]. destruct Hu as [l Hl]. congruence. }
  assert (forall j o', (told ++ [o]) !! j = Some o' -> told !! j = Some o' \/ (j = length turns /\ o' = o)) as Htold.
  { intros j o' H. destruct (decide (j < length told)) as [Hj|Hj]; [left; by rewrite lookup_app_l in H|right].
    rewrite lookup_app_r in H by lia. apply list_lookup_singleton_Some in H as [? ->]. split; [lia|done]. }
  split.
  - rewrite !length_app, D1. done.
  - intros i u changes c Hi Hu Hc.
    assert (c ∈ db_pending a \/ exists j, i <= j /\ (told !! j = Some [c] \/ told !! j = Some [Reindex])) as [Ha|(j & Hj & H)].
    { unfold a. destruct (Hat _ _ Hi) as [[_ H']|[_ ->]].
      - destruct (D2 _ _ _ _ H' Hu Hc) as [H|H]; [left; apply absorb_pending; by left|by right].
      - left. apply absorb_pending. right. by exists changes. }
    + destruct Hcases as [(_ & -> & _)|(-> & _ & _ & _)]; [by left|]. right. exists (length turns).
      split; [destruct (Hat _ _ Hi); lia|]. rewrite <- D1, !list_lookup_middle by done.
      destruct (coalesce_covers _ _ Ha) as [->| ->]; [by left|by right].
    + right. exists j. split; [done|]. destruct H as [H|H]; [left|right]; by apply lookup_app_l_Some.
  - intros j o' H. destruct (Htold _ _ H) as [H'|[_ ->]]; [by eapply D3|].
    destruct Hcases as [(-> & _)|(-> & _)]; [simpl; lia|apply coalesce_single].
  - intros i j u v o' Hij Hu Hv Ho Hne Hh. destruct (Htold _ _ Ho) as [Ho'|[-> ->]].
    + pose proof (lookup_lt_Some _ _ _ Ho') as Hj. destruct (Hat _ _ Hu) as [[_ Hu']|[? _]]; [|lia].
      destruct (Hat _ _ Hv) as [[_ Hv']|[? _]]; [|lia]. exact (D4 _ _ _ _ _ Hij Hu' Hv' Ho' Hne Hh).
    + destruct (Hat _ _ Hv) as [[? _]|[_ ->]]; [lia|]. pose proof (Hlate _ _ Hu Hh).
      destruct Hcases as [(-> & _)|(_ & _ & _ & Hq)]; [done|lia].
  - intros i u H Hu. rewrite Hlast. by eapply Hlate.
  - intros Hne. assert (db_pending a <> []) as Hpa by (by destruct Hcases as [(_ & Hp & _)|(_ & _ & Hp & _)]; rewrite Hp in Hne).
    rewrite Hlast. unfold a. rewrite absorb_last. destruct (Watcher.heard root t) as [l|] eqn:Ht.
    + exists (length turns), t. split_and!; [by apply list_lookup_middle|by exists l|done].
    + assert (db_pending s <> []) as Hps by (unfold a, Watcher.absorb in Hpa; by rewrite Ht in Hpa).
      destruct (D6 Hps) as (i & u & H1 & H2 & H3). exists i, u. split_and!; [by apply lookup_app_l_Some|done..].
Qed.
Lemma watching_debounced turns (t0 : Z) s told :
  clock_runs turns -> Forall (fun t => Watcher.ends t = false) turns ->
  Watcher.watching root turns (mkDebounce [] t0) = (s, told) -> debounced turns s told.
Proof.
  revert s told. induction turns as [|t turns IH] using rev_ind; intros s told Hclock Hends H.
  - injection H as <- <-. apply debounced_start.
  - rewrite watching_snoc in H by done. destruct (Watcher.watching root turns _) as [s1 told1].
    apply Forall_app in Hends as [Hends [Ht _]%Forall_cons].
    destruct (one_turn_alive t s1 Ht) as (s2 & o & Hone). rewrite Hone in H. injection H as <- <-.
    refine (debounced_snoc _ _ _ _ _ _ Hclock Ht _ Hone). by apply IH; [eapply clock_runs_snoc| |].
Qed.

(** C33: No change that a watched folder reports is lost, and a burst of them is told once:
    while the thread runs, every change heard at some turn is still pending or has since
    been told, by itself or as a refresh of the whole folder; a turn tells one change at
    most, and tells one only when half a second has passed since the last that was heard;
    and a turn that finds that half second passed leaves nothing pending. *)
Theorem changes_are_told turns (t0 : Z) s told :
  clock_runs turns -> Forall (fun t => Watcher.ends t = false) turns ->
  Watcher.watching root turns (mkDebounce [] t0) = (s, told) ->
  (forall i t changes c, turns !! i = Some t -> Watcher.heard root t = Some changes -> c ∈ changes ->
    c ∈ db_pending s \/ exists j, i <= j /\ (told !! j = Some [c] \/ told !! j = Some [Reindex])) /\
  (forall i j t u o, i <= j -> turns !! i = Some t -> turns !! j = Some u -> told !! j = Some o -> o <> [] ->
    length o = 1 /\ (hears t -> tn_at t + Watcher.DEBOUNCE <= tn_checked_at u)%Z) /\
  (forall u, last turns = Some u -> Forall (fun t => hears t -> tn_at t + Watcher.DEBOUNCE <= tn_checked_at u)%Z turns -> db_pending s = []).
Proof.
  intros Hclock Hends H. destruct (watching_debounced _ _ _ _ Hclock Hends H) as [D1 D2 D3 D4 D5 D6].
  split_and!; [exact D2| |].
  - intros i j t u o Hij Ht Hu Ho Hne. split; [|exact (D4 _ _ _ _ _ Hij Ht Hu Ho Hne)]. pose proof (D3 _ _ Ho). by destruct o as [|? [|]]; [|simpl in *; lia..].
  - intros u Hlast Hquiet. destruct turns as [|t turns _] using rev_ind; [done|]. rewrite last_snoc in Hlast. injection Hlast as ->.
    rewrite watching_snoc in H by done. destruct (Watcher.watching root turns _) as [s1 told1] eqn:H1.
    apply Forall_app in Hends as [Hends [Hu _]%Forall_cons]. destruct (one_turn_alive u s1 Hu) as (s2 & o & Hone). rewrite Hone in H.
    injection H as <- <-. destruct (one_turn_run _ _ _ _ Hu Hone) as [Hl [(_ & Hp & Hcase)|(_ & _ & Hp & _)]]; [|done].
    destruct (db_pending s2) as [|c l] eqn:Hs2; [done|exfalso]. destruct Hcase as [Hcase|Hcase]; [congruence|].
    destruct D6 as (i & t & Ht & Hh & Hat); [done|]. rewrite Forall_lookup in Hquiet. pose proof (Hquiet _ _ Ht Hh). lia.
Qed.
End thread.

(** * A folder that is watched *)

Definition at_ms (received : received) (ms : Z) : turn := mkTurn false received sample_tree (ms * 10 ^ 6) (ms * 10 ^ 6 + 1).
Definition changed_event (kind : EventKind) (names : list string) : received :=
  GotEvent (mkEvent kind (map (fun name => sample_root +:+ "/" +:+ name) names) false).
(** A file is written twice, then the folder is quiet; later another is removed. *)
Definition busy_turns : list turn :=
  [at_ms (changed_event EventCreate ["a.txt"]) 0; at_ms (changed_event EventModify ["a.txt"]) 200; at_ms TimedOut 300; at_ms TimedOut 800;
   at_ms (changed_event EventRemove ["docs/old.txt"]) 900; at_ms (changed_event EventModify [".mousekeeper/journal"]) 1350; at_ms TimedOut 1450].

Lemma changes_are_told_witness :
  let '(s, told) := Watcher.watching sample_root busy_turns (mkDebounce [] 0) in
  told = [[]; []; []; [Reindex]; []; []; [RemovePath "docs/old.txt"]] /\ db_pending s = [].
Proof.
  assert (clock_runs busy_turns) as Hclock.
  { intros i j t u Hij Ht Hu. do 7 (destruct i as [|i]; [injection Ht as <-; do 7 (destruct j as [|j]; [first [injection Hu as <-; simpl; lia|lia]|]);
      discriminate Hu|]). discriminate Ht. }
  assert (Forall (fun t => Watcher.ends t = false) busy_turns) as Hends by (repeat constructor).
  destruct (Watcher.watching sample_root busy_turns (mkDebounce [] 0)) as [s told] eqn:H.
  destruct (changes_are_told sample_root busy_turns 0 s told Hclock Hends H) as (_ & _ & Hquiet). split.
  - vm_compute in H. by injection H as _ <-.
  - apply (Hquiet (at_ms TimedOut 1450) eq_refl).
    repeat (apply Forall_cons; split; [first [intros _; vm_compute; discriminate|intros [x Hx]; vm_compute in Hx; discriminate Hx]|]).
    apply Forall_nil_2.
Defined.

(** An event that asks for a refresh - the system lost some - names no path: it is taken
    for one inside the bookkeeping folders, and nothing is told. *)
Example lost_events_unheard :
  let event := mkEvent EventOther [] true in
  Watcher.classify_change sample_tree sample_root event = [Reindex] /\
  (Watcher.watching sample_root [at_ms (GotEvent event) 0; at_ms TimedOut 900] (mkDebounce [] 0)).2 = [[]; []].
Proof. split; vm_compute; reflexivity. Qed.
(** A file renamed inside the folder is two changes, told as a refresh. *)
Example rename_refreshes :
  let event := mkEvent EventModify [sample_root +:+ "/gone.txt"; sample_root +:+ "/a.txt"] false in
  Watcher.classify_change sample_tree sample_root event = [RemovePath "gone.txt"; UpsertFile "a.txt"] /\
  Watcher.coalesce_changes (Watcher.classify_change sample_tree sample_root event) = [Reindex].
Proof. split; vm_compute; reflexivity. Qed.
