(* ===== verification/watcher_lifecycle.v ===== *)
(** What follows a change of a folder: the store of snapshots, the life of the watches, and startup. *)
From Stdlib Require Import ZArith Lia Ascii.
From stdpp Require Import strings pretty gmap functions option list.
From S2P Require Import prelude rust_str std_path std_fs fs_facts db journal_store rule_definition index_sql tables outbox desk file_index managed_roots.
From S2P Require Import roots_facts cleanliness agent agent_work outbox_processor delivery_facts desk_db watcher.

Open Scope string_scope.
Open Scope list_scope.


(** * [apps/desktop/src-tauri/src/storage/cleanliness_snapshots.rs]: the latest snapshot
    of each root, in memory and in a database, and
    [cleanliness::calculate_store_and_queue_snapshot], which stores one and queues it. *)

(** A row but its key [root_id]. *)
Record SnapshotRow := mkSnapshotRow { sw_calculated_at : string; sw_snapshot_json : string }.
(** Whether the table is made, and its rows. *)
Record SnapshotTable := mkSnapshotTable { sn_made : bool; sn_rows : gmap string SnapshotRow }.

(** [a > b] of texts: by their bytes. *)
Definition str_gt (a b : string) : bool := match String.compare a b with Gt => true | _ => false end.

Module SnapshotSql.
Definition migrate : string := "CREATE TABLE IF NOT EXISTS cleanliness_snapshots (
                    root_id        TEXT PRIMARY KEY,
                    calculated_at  TEXT NOT NULL,
                    snapshot_json  TEXT NOT NULL
                )".
Definition select : string := "SELECT root_id, snapshot_json FROM cleanliness_snapshots ORDER BY root_id".
Definition upsert : string := "INSERT INTO cleanliness_snapshots (root_id, calculated_at, snapshot_json)
                 VALUES (?, ?, ?)
                 ON CONFLICT(root_id) DO UPDATE SET
                    calculated_at = excluded.calculated_at,
                    snapshot_json = excluded.snapshot_json
                 WHERE excluded.calculated_at > cleanliness_snapshots.calculated_at".
Definition execute (sql : string) (binds : list sql_value) (t : SnapshotTable) : option (SnapshotTable * Z) :=
  if (sql =? migrate)%string then Some (mkSnapshotTable true (sn_rows t), 0%Z)
  else if (sql =? upsert)%string then
    match sn_made t, binds with
    | true, [SqlText id; SqlText at_; SqlText json] =>
        let put := mkSnapshotTable true (<[id := mkSnapshotRow at_ json]> (sn_rows t)) in
        match sn_rows t !! id with
        | None => Some (put, 1%Z)
        | Some r => if str_gt at_ (sw_calculated_at r) then Some (put, 1%Z) else Some (t, 0%Z)
        end
    | _, _ => None
    end
  else None.
Definition fetch (sql : string) (binds : list sql_value) (t : SnapshotTable) : option (list sql_row) :=
  if (sql =? select)%string then
    if sn_made t then
      Some (map (fun e => [("root_id", SqlText e.1); ("snapshot_json", SqlText (sw_snapshot_json e.2))]) (entries (sn_rows t)))
    else None
  else None.
End SnapshotSql.

#[export] Instance snapshot_schema : Schema SnapshotTable := {
  sc_statements := [SnapshotSql.migrate; SnapshotSql.upsert];
  sc_queries := [SnapshotSql.select];
  sc_execute := SnapshotSql.execute;
  sc_fetch := SnapshotSql.fetch;
}.

Record SnapshotStore := mkSnapshotStore { sm_snapshots : gmap string CleanlinessSnapshot; sm_pool : option string }.
Record CleanlinessSnapshotUpdate := mkCleanlinessSnapshotUpdate {
  cu_root_id : string; cu_room_id : option string; cu_snapshot : CleanlinessSnapshot; cu_sync_queued : bool }.

Module Snapshots.
Section store.
Context {DB : Type} `{!SqlDb DB, !SqlTx DB, !SqlCount DB, !Serde CleanlinessSnapshot}.
Abbreviation IO := (io (SnapshotStore * world DB) string).

Definition snapshot_of_row (row : sql_row) : result (string * CleanlinessSnapshot) string :=
  let? root_id := map_err (fun e => "cannot read cleanliness root id: " +:+ e) (try_get_text row "root_id") in
  let? json := map_err (fun e => "cannot read cleanliness snapshot: " +:+ e) (try_get_text row "snapshot_json") in
  match from_text json with
  | Some snapshot => Ok (root_id, snapshot)
  | None => Err ("cannot decode cleanliness snapshot: " +:+ json)
  end.
Definition load_from_db (path : string) : IO unit :=
  let! pool := on_world (io_map_err Db.fmt (Db.open_pool_at path)) in
  do! on_world (io_map_err (fun e => "cannot migrate cleanliness snapshots: " +:+ e) (Db.execute pool SnapshotSql.migrate []));
  let! rows := on_world (io_map_err (fun e => "cannot read cleanliness snapshots: " +:+ e)
                 (Db.fetch_all pool SnapshotSql.select [])) in
  let! loaded := io_lift (try_map snapshot_of_row rows) in
  set_store (mkSnapshotStore (list_to_map (rev loaded)) (Some pool)).

(** [current.calculated_at >= snapshot.calculated_at] *)
Definition not_newer (current snapshot : CleanlinessSnapshot) : bool :=
  negb (str_gt (cs_calculated_at snapshot) (cs_calculated_at current)).
Definition save_latest (root_id : string) (snapshot : CleanlinessSnapshot) : IO bool :=
  if is_empty root_id then io_fail "cleanliness snapshot root id cannot be empty"
  else
    let! s := get_store in
    if match sm_snapshots s !! root_id with Some current => not_newer current snapshot | None => false end
    then io_ret false
    else
      match sm_pool s with
      | None => io_fail "cleanliness snapshot database is not initialized"
      | Some pool =>
          let json := to_text snapshot in
          let! changed := on_world (
            do! io_map_err (fun e => "cannot persist cleanliness snapshot: " +:+ e)
                  (Db.execute pool SnapshotSql.upsert [SqlText root_id; SqlText (cs_calculated_at snapshot); SqlText json]);
            let! n := rows_affected pool in
            io_ret (0 <? n)%Z) in
          if (changed : bool) then
            do! set_store (mkSnapshotStore (<[root_id := snapshot]> (sm_snapshots s)) (sm_pool s));
            io_ret true
          else io_ret false
      end.
Definition get (root_id : string) : IO (option CleanlinessSnapshot) :=
  let! s := get_store in io_ret (sm_snapshots s !! root_id).

(** The clock of snapshots, the store, and the machine. *)
Abbreviation Desk := (Z * (SnapshotStore * world DB))%type.
Definition on_clock {A} (m : io (Z * world DB) string A) : io Desk string A :=
  zoom (fun st => (st.1, st.2.2)) (fun v st => (v.1, (st.2.1, v.2))) m.
Definition on_store {A} (m : IO A) : io Desk string A := zoom snd (fun v st => (st.1, v)) m.

(** [json_of_rules] reads a rule set; nobody else stores a snapshot meanwhile. *)
Definition calculate_store_and_queue_snapshot {V} `{!PayloadCodecs V} (parse : string -> result RuleSet string)
    (outbox : OutboxStore) (root_id root : string) (room_id : option string)
  : io Desk string (option CleanlinessSnapshotUpdate) :=
  let! snapshot := on_clock (Cleanliness.calculate_cleanliness_snapshot parse root) in
  let! saved := on_store (save_latest root_id snapshot) in
  if negb saved then io_ret None
  else
    let! sync_queued := match room_id with
                        | Some room_id =>
                            on_store (on_world (OutboxProcessor.enqueue_room_snapshot (V:=V) outbox room_id snapshot))
                        | None => io_ret false
                        end in
    let! latest := on_store (get root_id) in
    if bool_decide (latest = Some snapshot)
    then io_ret (Some (mkCleanlinessSnapshotUpdate root_id room_id snapshot sync_queued))
    else io_ret None.
End store.
End Snapshots.

(** * [apps/desktop/src-tauri/src/watcher_lifecycle.rs]: watching the folders, at startup and
    on request, what a change does to the index, the cleanliness snapshot and the cache,
    and the periodic repair of the indexes; with
    [cleanliness::reconcile_cleanliness_snapshot]. *)

(** What the windows are told. *)
Inductive UiEvent := SnapshotUpdated (update : CleanlinessSnapshotUpdate) | RootChanged (root_id : string).
(** The stores that the application manages, the machine, and what the windows were told. *)
Record Life (DB : Type) := mkLife {
  li_watchers : WatcherStore;
  li_roots : RootStore;
  li_snapshot_ms : Z;
  li_snapshots : SnapshotStore;
  li_world : world DB;
  li_told : list UiEvent;
}.
Arguments mkLife {DB} _ _ _ _ _ _. Arguments li_watchers {DB} _. Arguments li_roots {DB} _. Arguments li_snapshot_ms {DB} _.
Arguments li_snapshots {DB} _. Arguments li_world {DB} _. Arguments li_told {DB} _.

Record RootIndexReconcileReport := mkRootIndexReconcileReport {
  ri_inspected_root_count : Z;   (** [usize], as the counts below *)
  ri_reindexed_root_count : Z;
  ri_failed_root_count : Z;
}.
Record StartupWatcherResult := mkStartupWatcherResult { sw_root_id : string; sw_started : bool; sw_error : option string }.

Module Lifecycle.
Section life.
Context {V DB : Type} `{!SqlDb DB, !SqlTx DB, !SqlCount DB, !Serde CleanlinessSnapshot, !PayloadCodecs V, !Sha256}.
(** [unicode] lowers a text, [parse] reads a rule set, [os_watch] asks the operating system
    to watch a directory, and [ui] tells the windows. *)
Context (unicode : string -> string) (parse : string -> result RuleSet string).
Context (os_watch : tree -> string -> result unit string) (ui : UiEvent -> result unit string).
Context (outbox : OutboxStore).
Abbreviation IO := (io (Life DB) string).

Definition on_roots {A} (m : io (RootStore * world DB) string A) : IO A :=
  zoom (fun l => (li_roots l, li_world l))
       (fun v l => mkLife (li_watchers l) v.1 (li_snapshot_ms l) (li_snapshots l) v.2 (li_told l)) m.
Definition on_desk {A} (m : io (Z * (SnapshotStore * world DB)) string A) : IO A :=
  zoom (fun l => (li_snapshot_ms l, (li_snapshots l, li_world l)))
       (fun v l => mkLife (li_watchers l) (li_roots l) v.1 v.2.1 v.2.2 (li_told l)) m.
Definition on_machine {A} (m : io (world DB) string A) : IO A := on_roots (on_world m).
Definition on_watchers {A} (f : WatcherStore -> A * WatcherStore) : IO A :=
  fun l => let '(a, s) := f (li_watchers l) in
           (Ok a, mkLife s (li_roots l) (li_snapshot_ms l) (li_snapshots l) (li_world l) (li_told l)).
Definition emit (event : UiEvent) : IO unit :=
  fun l => match ui event with
           | Ok _ => (Ok tt, mkLife (li_watchers l) (li_roots l) (li_snapshot_ms l) (li_snapshots l) (li_world l) (li_told l ++ [event]))
           | Err e => (Err e, l)
           end.

(** ** A change *)

Definition reconcile_cleanliness_snapshot (root_id : string) : IO (option CleanlinessSnapshotUpdate) :=
  let! root := on_roots (ManagedRoots.get root_id) in
  if negb (mr_enabled root) || bool_decide (mr_room_binding_status root = Detached) then io_ret None
  else
    let room_id := match mr_room_binding_status root with Active => mr_room_id root | Unbound | Detached => None end in
    let! update := on_desk (Snapshots.calculate_store_and_queue_snapshot (V:=V) parse outbox root_id (mr_root root) room_id) in
    match update with
    | None => io_ret None
    | Some update =>
        do! io_map_err (fun e => "cannot emit cleanliness snapshot update: " +:+ e) (emit (SnapshotUpdated update));
        io_ret (Some update)
    end.
Definition apply_index_change (root : string) (change : WatchChange) : IO unit :=
  on_machine (io_map_err FileIndex.fmt
    match change with
    | UpsertFile relative_path => FileIndex.upsert_existing_file unicode root relative_path
    | RemovePath relative_path => FileIndex.remove_path root relative_path
    | Reindex => let! _ := FileIndex.reindex_root unicode root in io_ret tt
    end).
Definition enqueue_smart_cache_stale_for_change (managed : ManagedRoot) (change : WatchChange) : IO bool :=
  if negb (bool_decide (mr_room_binding_status managed = Active)) then io_ret false
  else
    match mr_room_id managed with
    | None => io_ret false
    | Some room_id =>
        let stale := fun path reason => on_machine (OutboxProcessor.enqueue_smart_cache_stale (V:=V) outbox room_id path reason) in
        match change with
        | UpsertFile relative_path => stale (Some relative_path) "SOURCE_CHANGED"
        | RemovePath relative_path => stale (Some relative_path) "SOURCE_REMOVED"
        | Reindex => stale None "REINDEXED"
        end
    end.
(** The callback of a watch: the folder is as it was when the watch started. *)
Definition on_change (watch : RootWatcher) (change : WatchChange) : IO unit :=
  let! indexed := io_try (apply_index_change (mr_root (rw_managed watch)) change) in
  do! match indexed with
      | Ok _ => let! _ := io_try (reconcile_cleanliness_snapshot (rw_root_id watch)) in io_ret tt
      | Err _ => io_ret tt
      end;
  let! _ := io_try (enqueue_smart_cache_stale_for_change (rw_managed watch) change) in
  let! _ := io_try (emit (RootChanged (rw_root_id watch))) in
  io_ret tt.

(** ** Starting *)

Definition watch_root_changes (root_id : string) (managed : ManagedRoot) : IO RootWatcher :=
  let! f := on_machine get_fs in
  let! _ := io_lift (os_watch f (mr_root managed)) in
  io_ret (mkRootWatcher root_id managed).
Definition start_root_watcher (root_id : string) : IO unit :=
  let! managed := on_roots (ManagedRoots.get root_id) in
  if negb (mr_enabled managed) then io_fail ("managed root is disabled: " +:+ root_id)
  else
    let! _ := on_machine (io_map_err FileIndex.fmt (FileIndex.reindex_root unicode (mr_root managed))) in
    let! _ := reconcile_cleanliness_snapshot root_id in
    let! watcher := watch_root_changes root_id managed in
    do! on_watchers (fun s => (tt, Watchers.start root_id watcher s));
    let! _ := on_roots (ManagedRoots.update_health root_id RootReady None) in
    io_ret tt.
Definition startup_candidate (root : ManagedRoot) : bool :=
  mr_enabled root && mr_watch_on_startup root && negb (bool_decide (mr_room_binding_status root = Detached)).
Definition restore_one (managed : ManagedRoot) : IO StartupWatcherResult :=
  let! result := io_try (start_root_watcher (mr_root_id managed)) in
  do! match result with
      | Err error => let! _ := io_try (on_roots (ManagedRoots.update_health (mr_root_id managed) RootError (Some error))) in io_ret tt
      | Ok _ => io_ret tt
      end;
  io_ret (mkStartupWatcherResult (mr_root_id managed) (is_ok result) (match result with Err e => Some e | Ok _ => None end)).
Definition restore_startup_watchers : IO (list StartupWatcherResult) :=
  let! roots := on_roots ManagedRoots.list_ in
  io_for (fun _ results managed => let! r := restore_one managed in io_ret (results ++ [r])) 0 [] (List.filter startup_candidate roots).

(** ** The periodic repair *)

Definition reconcile_one (after_reindex : string -> IO unit) (report : RootIndexReconcileReport) (managed : ManagedRoot)
  : IO RootIndexReconcileReport :=
  let! watched := on_watchers (fun s => (Watchers.is_watching (mr_root_id managed) s, s)) in
  if negb (mr_enabled managed) || bool_decide (mr_room_binding_status managed = Detached) || negb watched then io_ret report
  else
    let inspected := (ri_inspected_root_count report + 1)%Z in
    let! reconciled := io_try (
      let! _ := on_machine (io_map_err FileIndex.fmt (FileIndex.reindex_root unicode (mr_root managed))) in
      after_reindex (mr_root_id managed)) in
    match reconciled with
    | Ok _ =>
        let! healthy := io_try (on_roots (ManagedRoots.update_health (mr_root_id managed) RootReady None)) in
        if is_ok healthy
        then io_ret (mkRootIndexReconcileReport inspected (ri_reindexed_root_count report + 1) (ri_failed_root_count report))
        else io_ret (mkRootIndexReconcileReport inspected (ri_reindexed_root_count report) (ri_failed_root_count report + 1))
    | Err _ =>
        let! _ := io_try (on_roots (ManagedRoots.update_health (mr_root_id managed) RootError (Some "scheduled index reconcile failed"))) in
        io_ret (mkRootIndexReconcileReport inspected (ri_reindexed_root_count report) (ri_failed_root_count report + 1))
    end.
Definition reconcile_watched_root_indexes (after_reindex : string -> IO unit) : IO RootIndexReconcileReport :=
  let! roots := on_roots ManagedRoots.list_ in
  io_for (fun _ report managed => reconcile_one after_reindex report managed) 0 (mkRootIndexReconcileReport 0 0 0) roots.
End life.
End Lifecycle.

(** * Watching at startup: every folder that may be watched gets its turn, and one that
    cannot be watched does not keep the others from it. *)

Section life.
Context {V DB : Type} `{!SqlDb DB, !SqlTx DB, !SqlCount DB, texts : !Serde CleanlinessSnapshot, payloads : !PayloadCodecs V, hash : !Sha256}.
Context (unicode : string -> string) (parse : string -> result RuleSet string).
Context (os_watch : tree -> string -> result unit string) (ui : UiEvent -> result unit string).
Context (outbox : OutboxStore).
Implicit Types (l : Life DB).

(** Only the watches of [ids] change. *)
Definition watches_only (ids : list string) l l' : Prop :=
  forall id, id ∉ ids -> li_watchers l' !! id = li_watchers l !! id.
#[export] Instance watches_only_preorder ids : PreOrder (watches_only ids).
Proof. split; [by intros l id|]. intros l1 l2 l3 H1 H2 id Hid. by rewrite H2, H1. Qed.
Lemma watches_more ids ids' l l' : ids ⊆ ids' -> watches_only ids l l' -> watches_only ids' l l'.
Proof. intros Hs H id Hid. apply H. set_solver. Qed.
Definition same_watches l l' : Prop := li_watchers l' = li_watchers l.
#[export] Instance same_watches_preorder : PreOrder same_watches.
Proof. split; [by intros l|]. intros l1 l2 l3 H1 H2. unfold same_watches in *. congruence. Qed.
Lemma same_watches_only ids l l' : same_watches l l' -> watches_only ids l l'.
Proof. intros H id _. by rewrite H. Qed.

Lemma on_roots_watches {A} (m : io (RootStore * world DB) string A) : io_rel same_watches (Lifecycle.on_roots m).
Proof. intros l r l' (v & _ & ->)%zoom_run. done. Qed.
Lemma on_desk_watches {A} (m : io (Z * (SnapshotStore * world DB)) string A) : io_rel same_watches (Lifecycle.on_desk m).
Proof. intros l r l' (v & _ & ->)%zoom_run. done. Qed.
Lemma emit_watches event : io_rel same_watches (Lifecycle.emit (DB:=DB) ui event).
Proof. intros l r l'. unfold Lifecycle.emit. by destruct (ui event) as [u|e]; intros [= <- <-]. Qed.
#[local] Hint Resolve on_roots_watches on_desk_watches emit_watches : io.

Lemma reconcile_watches id : io_rel same_watches (Lifecycle.reconcile_cleanliness_snapshot (V:=V) (DB:=DB) parse ui outbox id).
Proof. unfold Lifecycle.reconcile_cleanliness_snapshot. io_rel_go; eauto with io. Qed.
(** A change keeps the watches. *)
Lemma on_change_watches watch change : io_rel same_watches (Lifecycle.on_change (V:=V) (DB:=DB) unicode parse ui outbox watch change).
Proof.
  unfold Lifecycle.on_change, Lifecycle.apply_index_change, Lifecycle.enqueue_smart_cache_stale_for_change, Lifecycle.on_machine.
  io_rel_go; eauto using reconcile_watches with io.
Qed.

(** The folders stay where they are. *)
Definition same_paths l l' : Prop := forall id, mr_root <$> ms_roots (li_roots l') !! id = mr_root <$> ms_roots (li_roots l) !! id.
#[export] Instance same_paths_preorder : PreOrder same_paths.
Proof. split; [by intros l id|]. intros l1 l2 l3 H1 H2 id. by rewrite H2, H1. Qed.
Lemma on_desk_paths {A} (m : io (Z * (SnapshotStore * world DB)) string A) : io_rel same_paths (Lifecycle.on_desk m).
Proof. intros l r l' (v & _ & ->)%zoom_run. done. Qed.
Lemma emit_paths event : io_rel same_paths (Lifecycle.emit (DB:=DB) ui event).
Proof. intros l r l'. unfold Lifecycle.emit. by destruct (ui event) as [u|e]; intros [= <- <-]. Qed.
Lemma on_watchers_paths {A} (f : WatcherStore -> A * WatcherStore) : io_rel same_paths (Lifecycle.on_watchers (DB:=DB) f).
Proof. intros l r l'. unfold Lifecycle.on_watchers. by destruct (f _) as [a s]; intros [= <- <-]. Qed.
Lemma on_machine_paths {A} (m : io (world DB) string A) : io_rel same_paths (Lifecycle.on_machine m).
Proof. intros l r l' (v & H & ->)%zoom_run. apply on_world_run in H as (w & _ & ->). done. Qed.
Lemma get_run id l r l' :
  Lifecycle.on_roots (DB:=DB) (ManagedRoots.get id) l = (r, l') ->
  l' = l /\ match r with Ok managed => ms_roots (li_roots l) !! id = Some managed | Err _ => ms_roots (li_roots l) !! id = None end.
Proof.
  intros (v & H & ->)%zoom_run. destruct l as [lw lr lc ls lm lt]. unfold ManagedRoots.get, io_bind, get_store, io_gets in H. simpl in H.
  by destruct (ms_roots lr !! id) as [managed|] eqn:Hid; injection H as <- <-.
Qed.
Lemma get_paths id : io_rel same_paths (Lifecycle.on_roots (DB:=DB) (ManagedRoots.get id)).
Proof. intros l r l' [-> _]%get_run. reflexivity. Qed.
Lemma health_paths id status error : io_rel same_paths (Lifecycle.on_roots (DB:=DB) (ManagedRoots.update_health id status error)).
Proof.
  intros l r l' (v & H & ->)%zoom_run. intros k. simpl.
  assert (mr_root <$> ms_roots v.1 !! k = mr_root <$> ms_roots (li_roots l) !! k); [|done].
  unfold ManagedRoots.update_health in H. apply io_bind_inv in H as [(root & st & He%edit_root_run & H)|(e & He%edit_root_run & _)]; simpl in He.
  - apply persist_ret in H as [[-> _] _]. destruct (ms_roots (li_roots l) !! id) as [root'|] eqn:Hid; [|by destruct He].
    destruct He as (now & _ & -> & _). simpl. destruct (decide (k = id)) as [->|Hk]; [by rewrite lookup_insert, Hid, decide_True|].
    by rewrite lookup_insert_ne.
  - destruct (ms_roots (li_roots l) !! id) as [root'|] eqn:Hid; [by destruct He as (now & [=] & _)|]. by destruct He as [_ ->].
Qed.
#[local] Hint Resolve on_desk_paths emit_paths on_watchers_paths on_machine_paths get_paths health_paths : io.
Lemma reconcile_paths id : io_rel same_paths (Lifecycle.reconcile_cleanliness_snapshot (V:=V) (DB:=DB) parse ui outbox id).
Proof. unfold Lifecycle.reconcile_cleanliness_snapshot. io_rel_go. Qed.
#[local] Hint Resolve reconcile_paths : io.

(** A watch of the folder at [path], which the system agreed to. *)
Definition watched_at (id path : string) l : Prop :=
  exists watch, li_watchers l !! id = Some watch /\ rw_root_id watch = id /\ mr_root (rw_managed watch) = path /\
    mr_enabled (rw_managed watch) = true /\ exists f, os_watch f path = Ok tt.
Abbreviation start := (Lifecycle.start_root_watcher (V:=V) (DB:=DB) unicode parse os_watch ui outbox).
Lemma start_paths id : io_rel same_paths (start id).
Proof. unfold Lifecycle.start_root_watcher, Lifecycle.watch_root_changes. io_rel_go. Qed.
Lemma start_run id path l r l' :
  mr_root <$> ms_roots (li_roots l) !! id = Some path -> start id l = (r, l') ->
  watches_only [id] l l' /\ (is_ok r = true -> watched_at id path l').
Proof.
  intros Hpath H. unfold Lifecycle.start_root_watcher in H.
  apply io_bind_inv in H as [(managed & l1 & [-> Hid]%get_run & H)|(e & [-> _]%get_run & ->)]; [|by split].
  rewrite Hid in Hpath. injection Hpath as Hpath. destruct (mr_enabled managed) eqn:Hen; [|by injection H as <- <-; split].
  apply io_bind_inv in H as [(x1 & l1 & H1%on_roots_watches & H)|(e & H1%on_roots_watches & ->)];
    [|by split; [apply same_watches_only|]].
  apply io_bind_inv in H as [(x2 & l2 & H2%reconcile_watches & H)|(e & H2%reconcile_watches & ->)];
    [|by split; [apply same_watches_only; etrans|]].
  apply io_bind_inv in H as [(watch & l3 & H3 & H)|(e & H3 & ->)].
  - unfold Lifecycle.watch_root_changes in H3. apply io_bind_ok in H3 as (f & l4 & H4%on_roots_watches & H3).
    apply io_bind_ok in H3 as ([] & l5 & H5 & H3). injection H5 as Hos <-. injection H3 as <- <-.
    apply io_bind_inv in H as [(u & l6 & H6 & H)|(e & H6 & _)]; [|done]. injection H6 as <- <-.
    assert (li_watchers l' = <[id := mkRootWatcher id managed]> (li_watchers l)) as Hw.
    { assert (same_watches l l4) as <- by (etrans; [done|by etrans]).
      apply io_bind_inv in H as [(m & l7 & H7%on_roots_watches & H)|(e & H7%on_roots_watches & ->)]; [|exact H7].
      injection H as _ <-. exact H7. }
    split.
    + intros k Hk. rewrite Hw, lookup_insert_ne; [done|]. set_solver.
    + intros _. exists (mkRootWatcher id managed). rewrite Hw, lookup_insert, decide_True by done. split_and!; [done..|]. exists f. by subst path.
  - split; [|done]. apply same_watches_only. unfold Lifecycle.watch_root_changes in H3.
    apply io_bind_inv in H3 as [(f & l4 & H4%on_roots_watches & H3)|(e' & H3%on_roots_watches & _)];
      [|by etrans; [|etrans]].
    apply io_bind_inv in H3 as [(u & l5 & H5 & H3)|(e' & H5 & _)]; [done|]. injection H5 as _ <-. by etrans; [|etrans].
Qed.

(** One folder: its result, whatever happens. *)
Lemma restore_one_run managed path l r l' :
  mr_root <$> ms_roots (li_roots l) !! mr_root_id managed = Some path ->
  Lifecycle.restore_one (V:=V) (DB:=DB) unicode parse os_watch ui outbox managed l = (r, l') ->
  same_paths l l' /\ watches_only [mr_root_id managed] l l' /\
  exists result, r = Ok result /\ sw_root_id result = mr_root_id managed /\ (sw_started result = true <-> sw_error result = None) /\
    (sw_started result = true -> watched_at (mr_root_id managed) path l').
Proof.
  intros Hpath H. unfold Lifecycle.restore_one in H. unfold io_bind at 1 in H. unfold io_try at 1 in H.
  destruct (start (mr_root_id managed) l) as [started l1] eqn:Hs. pose proof (start_paths _ _ _ _ Hs) as Hp.
  destruct (start_run _ _ _ _ _ Hpath Hs) as [Hw Ht]. destruct started as [u|error].
  - injection H as <- <-. split_and!; [done..|]. eexists. split_and!; [done..|]. intros _. by apply Ht.
  - unfold io_bind at 1 in H. unfold io_try, io_bind at 1 in H.
    destruct (Lifecycle.on_roots (ManagedRoots.update_health _ _ _) l1) as [r2 l2] eqn:Hh. injection H as <- <-.
    split_and!; [etrans; [exact Hp|exact (health_paths _ _ _ _ _ _ Hh)]|
      etrans; [exact Hw|apply same_watches_only; exact (on_roots_watches _ _ _ _ Hh)]|].
    by eexists.
Qed.
Lemma watched_kept ids id path l l' : watches_only ids l l' -> id ∉ ids -> watched_at id path l -> watched_at id path l'.
Proof. intros H Hid (watch & Hw & Hrest). exists watch. by rewrite H. Qed.

(** The results of some folders, one each. *)
Definition restored (roots : list ManagedRoot) (results : list StartupWatcherResult) l : Prop :=
  Forall2 (fun root result => sw_root_id result = mr_root_id root /\ (sw_started result = true <-> sw_error result = None) /\
    (sw_started result = true -> watched_at (mr_root_id root) (mr_root root) l)) roots results.
Lemma restored_kept ids roots results l l' :
  watches_only ids l l' -> Forall (fun root => mr_root_id root ∉ ids) roots -> restored roots results l -> restored roots results l'.
Proof.
  intros Hw Hd H. induction H as [|root result roots results (H1 & H2 & H3) _ IH]; [constructor|].
  apply Forall_cons in Hd as [Hd1 Hd2]. constructor; [|by apply IH]. split_and!; [done..|]. intros Hs. eapply watched_kept; eauto.
Qed.
Lemma restore_loop_run roots i done results l r l' :
  NoDup (map mr_root_id (done ++ roots)) ->
  Forall (fun root => mr_root <$> ms_roots (li_roots l) !! mr_root_id root = Some (mr_root root)) roots -> restored done results l ->
  io_for (fun _ results managed =>
      let! r := Lifecycle.restore_one (V:=V) (DB:=DB) unicode parse os_watch ui outbox managed in io_ret (results ++ [r])) i results roots l = (r, l') ->
  same_paths l l' /\ watches_only (map mr_root_id roots) l l' /\ exists results', r = Ok results' /\ restored (done ++ roots) results' l'.
Proof.
  revert i done results l. induction roots as [|root roots IH]; intros i done results l Hnd Hat Hres H; simpl in H.
  - injection H as <- <-. split_and!; [reflexivity..|]. exists results. by rewrite app_nil_r.
  - apply Forall_cons in Hat as [Hroot Hat].
    unfold io_bind at 1 2 in H. destruct (Lifecycle.restore_one _ _ _ _ _ root l) as [r1 l1] eqn:H1.
    destruct (restore_one_run _ _ _ _ _ Hroot H1) as (Hp & Hw & result & -> & Hid & Herr & Hst). simpl in H.
    assert (Forall (fun x => mr_root_id x ∉ [mr_root_id root]) done) as Hdone.
    { rewrite map_app in Hnd. apply NoDup_app in Hnd as (_ & Hd & _). apply Forall_forall. intros x Hx.
      pose proof (Hd (mr_root_id x)) as Hn. rewrite not_elem_of_cons in *. split; [|by apply not_elem_of_nil].
      intros Heq. apply Hn; [apply list_elem_of_fmap; by exists x|]. simpl. rewrite Heq. by left. }
    apply (IH _ (done ++ [root])) in H as (Hp' & Hw' & results' & -> & Hres').
    + split_and!; [by etrans| |].
      * etrans; (eapply watches_more; [|eassumption]); simpl; set_solver.
      * exists results'. by rewrite <- app_assoc in Hres'.
    + by rewrite <- app_assoc.
    + eapply Forall_impl; [exact Hat|]. intros x Hx. by rewrite Hp.
    + apply Forall2_app; [by eapply restored_kept|]. constructor; [done|constructor].
Qed.

(** Each folder under its own identifier *)
Definition by_id (s : RootStore) : Prop := map_Forall (fun id root => mr_root_id root = id) (ms_roots s).
Lemma NoDup_ids (s : RootStore) : by_id s -> NoDup (map mr_root_id (values (ms_roots s))).
Proof.
  intros Hok. assert (map mr_root_id (values (ms_roots s)) = map fst (entries (ms_roots s))) as ->.
  { unfold values. rewrite map_map. apply map_ext_in. intros [k root] Hin%list_elem_of_In%elem_of_entries.
    pose proof (Hok _ _ Hin) as Hid. simpl in *. congruence. }
  unfold entries. rewrite sort_by_perm. apply NoDup_fst_map_to_list.
Qed.
Lemma filter_nodup {A} (f : A -> string) (P : A -> bool) xs : NoDup (map f xs) -> NoDup (map f (List.filter P xs)).
Proof.
  induction xs as [|x xs IH]; simpl; [done|]. intros [Hx Hnd]%NoDup_cons. destruct (P x); simpl; [|by apply IH].
  constructor; [|by apply IH]. intros (y & Hy & Hin)%list_elem_of_fmap. apply Hx, list_elem_of_fmap. exists y. split; [done|].
  apply list_elem_of_In in Hin. apply filter_In in Hin as [Hin _]. by apply list_elem_of_In.
Qed.

(** The folders that are watched from the start. *)
Definition starts_watched (root : ManagedRoot) : bool :=
  mr_enabled root && mr_watch_on_startup root && match mr_room_binding_status root with Detached => false | Unbound | Active => true end.
Lemma candidates_start roots : List.filter Lifecycle.startup_candidate roots = List.filter starts_watched roots.
Proof.
  apply filter_ext. intros root. unfold Lifecycle.startup_candidate, starts_watched.
  by destruct (mr_enabled root), (mr_watch_on_startup root), (mr_room_binding_status root).
Qed.

(** Restoring the watches at startup goes through every folder that is enabled, asked to
    be watched and has not left its room, in the order of the identifiers: each gets one
    result, which has an error exactly when it was not started; one that started is watched
    at its own path with the system's consent; an error in one, whatever it is, does not
    keep the others from their turn; and no folder outside of these is watched or unwatched. *)
Theorem startup_watches l r l' :
  by_id (li_roots l) ->
  Lifecycle.restore_startup_watchers (V:=V) (DB:=DB) unicode parse os_watch ui outbox l = (r, l') ->
  let candidates := List.filter starts_watched (values (ms_roots (li_roots l))) in
  watches_only (map mr_root_id candidates) l l' /\ exists results, r = Ok results /\ restored candidates results l'.
Proof.
  intros Hok H candidates. unfold Lifecycle.restore_startup_watchers in H.
  apply io_bind_inv in H as [(roots & l1 & H1 & H)|(e & H1 & _)].
  2: { by apply zoom_run in H1 as (v & [=] & _). }
  apply zoom_run in H1 as (v & [= <- <-] & ->). simpl in H. rewrite candidates_start in H. fold candidates in H.
  assert (forall root, root ∈ candidates -> ms_roots (li_roots l) !! mr_root_id root = Some root) as Hin.
  { intros root Hroot. apply list_elem_of_In, filter_In in Hroot as [Hroot%list_elem_of_In _]. apply elem_of_values in Hroot as [k Hk].
    by rewrite (Hok _ _ Hk). }
  apply (restore_loop_run _ _ []) in H as (_ & Hw & results & -> & Hres).
  - split; [exact Hw|]. by exists results.
  - apply filter_nodup, NoDup_ids, Hok.
  - apply Forall_forall. intros root Hroot%Hin. simpl. by rewrite Hroot.
  - constructor.
Qed.
End life.

(** * A desktop that starts *)

#[local] Instance one_row : SqlCount MemIndex := fun _ => 1%Z.
#[local] Instance snapshot_text : Serde CleanlinessSnapshot := {| to_text := cs_calculated_at; from_text _ := None |}.
#[local] Instance plain_hash : Sha256 := fun s => s.
Definition fixed_snapshot : CleanlinessSnapshot := mkCleanlinessSnapshot "v1" 100 (mkCleanlinessMetrics 0 0 0 []) "9999".
Definition folder_at (id path : string) (startup : bool) : ManagedRoot :=
  mkManagedRoot id path "Folder" true startup RootReady None 0 0 None None Unbound.
(** A folder, one whose directory is gone, and one that is not watched at startup. *)
Definition startup_folders : gmap string ManagedRoot :=
  <["root-1" := folder_at "root-1" sample_root true]> (<["root-2" := folder_at "root-2" "/home/gone" true]>
    (<["root-3" := folder_at "root-3" "/home/other" false]> ∅)).
Lemma startup_folders_ok : map_Forall root_ok startup_folders.
Proof. unfold startup_folders. repeat (apply map_Forall_insert_2; [by split|]). apply map_Forall_empty. Qed.
Definition started_desktop : Life MemIndex :=
  mkLife ∅ (mkRootStore startup_folders None) 0
    (mkSnapshotStore {[ "root-1" := fixed_snapshot ]} None) (index_machine sample_tree (mem_index_of empty_tables None)) [].
Definition can_watch (f : tree) (path : string) : result unit string := if is_ok (metadata f path) then Ok tt else Err "no such directory".
Definition startup := Lifecycle.restore_startup_watchers (V:=value_tree) id (fun _ => Err "") can_watch (fun _ => Ok tt) (mkOutboxStore None) started_desktop.
Strategy 1000 [startup].
Lemma startup_watches_witness :
  exists results, startup.1 = Ok results /\ map sw_root_id results = ["root-1"; "root-2"] /\ map sw_started results = [true; false] /\
    watched_at can_watch "root-1" sample_root startup.2.
Proof.
  assert (match startup.1 with Ok results => bool_decide (map sw_root_id results = ["root-1"; "root-2"] /\ map sw_started results = [true; false])
          | Err _ => false end = true) as Htold by (vm_compute; reflexivity).
  assert (by_id (li_roots started_desktop)) as Hok by (intros id root Hroot; by destruct (startup_folders_ok id root Hroot)).
  unfold startup in *. destruct (Lifecycle.restore_startup_watchers _ _ _ _ _ _) as [r l'] eqn:H.
  destruct (startup_watches (V:=value_tree) id (fun _ => Err "") can_watch (fun _ => Ok tt) (mkOutboxStore None) started_desktop r l' Hok H) as (_ & results & -> & Hres).
  destruct (bool_decide_eq_true_1 _ Htold) as [H1 H2]. exists results. split; [reflexivity|]. split; [exact H1|]. split; [exact H2|].
  assert (List.filter starts_watched (values (ms_roots (li_roots started_desktop))) =
    [folder_at "root-1" sample_root true; folder_at "root-2" "/home/gone" true]) as Hc by (vm_compute; reflexivity).
  rewrite Hc in Hres. destruct results as [|result rest]; [discriminate H1|]. apply Forall2_cons in Hres as [(_ & _ & Hw) _].
  apply Hw. by injection H2 as -> _.
Defined.
