(* ===== verification/agent_files.v ===== *)
(** [apps/desktop/src-tauri/src/agent.rs]: what the server asks of the files of a folder,
    to list them, to send them and to cache them, and the tools of the server's
    assistant, with the validation of the answers. *)
From Stdlib Require Import ZArith Lia Ascii.
From stdpp Require Import strings pretty gmap functions option list.
From S2P Require Import prelude rust_str agent agent_work.

Open Scope string_scope.
Open Scope list_scope.

(** [url::Url::parse]: the scheme and the host, third-party. *)
Class UrlParser := url_parse : string -> option (string * option string).

(** * Data *)

Inductive AgentFileSearchScope := BfCurrentDirectory | BfManagedRoot.
Record AgentFileBrowseRequest := mkAgentFileBrowseRequest {
  bq_request_id : string;
  bq_room_id : string;
  bq_relative_directory : string;
  bq_cursor : option string;
  bq_query : option string;
  bq_extensions : list string;
  bq_limit : Z;   (** [usize] *)
  bq_search_scope : AgentFileSearchScope;
}.
Inductive AgentFileBrowseFailureCode := BfDeviceOffline | BfTimedOut | BfCursorInvalidated | BfOutsideManagedRoot.
Record AgentFileTransferUploadTarget := mkAgentFileTransferUploadTarget {
  ut_transfer_id : string; ut_upload_url : string; ut_expires_at : string }.
Record AgentSmartCachePolicy := mkAgentSmartCachePolicy {
  cy_room_id : string;
  cy_enabled : bool;
  cy_quota_bytes : Z;      (** [u64] *)
  cy_max_file_bytes : Z;   (** [u64] *)
  cy_excluded_patterns : list string;
  cy_pinned_patterns : list string;
}.
Record AgentSmartCacheReservation := mkAgentSmartCacheReservation {
  cv_reservation_id : string;
  cv_status : string;
  cv_source_relative_path : string;
  cv_source_version_hash : string;
  cv_size_bytes : Z;   (** [u64] *)
  cv_upload_url : option string;
  cv_expires_at : string;
}.
Record AgentSmartCacheCandidateBatchResult := mkAgentSmartCacheCandidateBatchResult {
  cb_batch_id : string; cb_approved : list AgentSmartCacheReservation; cb_rejected_count : Z }.
#[export] Instance AgentFileSearchScope_eq_dec : EqDecision AgentFileSearchScope.
Proof. solve_decision. Defined.
#[export] Instance AgentFileBrowseFailureCode_eq_dec : EqDecision AgentFileBrowseFailureCode.
Proof. solve_decision. Defined.
#[export] Instance AgentFileBrowseEntryType_eq_dec : EqDecision AgentFileBrowseEntryType.
Proof. solve_decision. Defined.
#[export] Instance AgentFileBrowseEntry_eq_dec : EqDecision AgentFileBrowseEntry.
Proof. solve_decision. Defined.

(** ** Answers of the server *)
Record FileBrowseRequestResponse := mkFileBrowseRequestResponse {
  br_id : string;
  br_room_id : string;
  br_relative_directory : string;
  br_cursor : option string;
  br_query : option string;
  br_extensions : list string;
  br_limit : Z;   (** [usize] *)
  br_search_scope : AgentFileSearchScope;
  br_status : string;
}.
Record FileTransferUploadTargetResponse := mkFileTransferUploadTargetResponse {
  tr_transfer_id : string; tr_upload_url : string; tr_expires_at : string }.
Record SmartCachePolicyResponse := mkSmartCachePolicyResponse {
  py_room_id : string; py_enabled : bool; py_quota_bytes : Z; py_max_file_bytes : Z;
  py_excluded_patterns : list string; py_pinned_patterns : list string }.
Record SmartCacheReservationResponse := mkSmartCacheReservationResponse {
  rv_reservation_id : string; rv_status : string; rv_source_relative_path : string; rv_source_version_hash : string;
  rv_size_bytes : Z; rv_upload_url : option string; rv_expires_at : string }.
Record SmartCacheCandidateBatchResponse := mkSmartCacheCandidateBatchResponse {
  bb_batch_id : string; bb_approved : list SmartCacheReservationResponse; bb_rejected_count : Z }.
Record AgentToolStep (V : Type) := mkAgentToolStep { ts_id : string; ts_tool_name : string; ts_input : V }.
Arguments mkAgentToolStep {V} _ _ _. Arguments ts_id {V} _. Arguments ts_tool_name {V} _. Arguments ts_input {V} _.
Record AgentToolRequest (V : Type) := mkAgentToolRequest { tq_step : AgentToolStep V; tq_run : V; tq_room : V }.
Arguments mkAgentToolRequest {V} _ _ _. Arguments tq_step {V} _. Arguments tq_run {V} _. Arguments tq_room {V} _.

(** * Validation *)

Module ValidateFiles.
(** The name a failure code is serialized as. *)
Definition browse_failure_code (c : AgentFileBrowseFailureCode) : string :=
  match c with
  | BfDeviceOffline => "DEVICE_OFFLINE" | BfTimedOut => "TIMED_OUT" | BfCursorInvalidated => "CURSOR_INVALIDATED"
  | BfOutsideManagedRoot => "OUTSIDE_MANAGED_ROOT"
  end.
Definition transfer_failure_code (c : AgentFileTransferFailureCode) : string :=
  match c with
  | SourceNotFound => "SOURCE_NOT_FOUND" | SourceChanged => "SOURCE_CHANGED" | OutsideManagedRoot => "OUTSIDE_MANAGED_ROOT"
  | SizeLimitExceeded => "SIZE_LIMIT_EXCEEDED" | ChecksumMismatch => "CHECKSUM_MISMATCH"
  end.

Definition file_browse_extension_is_valid (extension : string) : bool :=
  match extension with
  | String c s => Ascii.eqb c "." && negb (is_empty s) && all_chars (fun a => is_ascii_digit a || is_ascii_letter a) s
  | "" => false
  end.
Definition file_browse_extensions_are_valid (extensions : list string) : bool :=
  bool_decide (extensions = []) || ((Z.of_nat (length extensions) <=? 50)%Z && forallb file_browse_extension_is_valid extensions).
Definition file_browse_request (r : FileBrowseRequestResponse) : result AgentFileBrowseRequest AgentError :=
  if is_empty (br_id r) || is_empty (br_room_id r) || (1024 <? slen (br_relative_directory r))%Z
     || match br_cursor r with Some cursor => (512 <? slen cursor)%Z | None => false end
     || match br_query r with
        | Some query => negb ((2 <=? chars_count (trim query)) && (chars_count (trim query) <=? 100))%Z
                        || negb (query =? trim query)%string
        | None => false
        end
     || (br_limit r =? 0)%Z || (200 <? br_limit r)%Z || negb (file_browse_extensions_are_valid (br_extensions r))
     || (match br_query r with None => true | Some _ => false end && negb (bool_decide (br_extensions r = [])))
     || negb (br_status r =? "REQUESTED")%string
  then Err (invalid_response_error "file browse request failed response validation")
  else Ok (mkAgentFileBrowseRequest (br_id r) (br_room_id r) (br_relative_directory r) (br_cursor r) (br_query r) (br_extensions r)
             (br_limit r) (br_search_scope r)).
Definition file_browse_requests : list FileBrowseRequestResponse -> result (list AgentFileBrowseRequest) AgentError :=
  try_map file_browse_request.
Definition file_transfers : list FileTransferResponse -> result (list AgentFileTransfer) AgentError :=
  try_map Validate.file_transfer_response.

Definition source_version (v : AgentFileTransferSourceVersion) : result unit AgentError :=
  if is_empty (fv_file_id v) || (512 <? slen (fv_file_id v))%Z || (fv_size_bytes v =? 0)%Z || is_empty (fv_modified_at v)
  then Err (validation_error "file transfer sourceVersion failed validation") else Ok tt.

Section url.
Context `{!UrlParser}.
(** [http] or [https], with a host. *)
Definition http_url (invalid other url : string) : result unit AgentError :=
  match url_parse url with
  | None => Err (invalid_response_error invalid)
  | Some (scheme, host) =>
      if negb (one_of ["http"; "https"] scheme) || match host with None => true | Some _ => false end
      then Err (invalid_response_error other) else Ok tt
  end.
Definition upload_target_response (expected_transfer_id : string) (r : FileTransferUploadTargetResponse)
  : result AgentFileTransferUploadTarget AgentError :=
  if negb (tr_transfer_id r =? expected_transfer_id)%string || is_empty (tr_expires_at r)
  then Err (invalid_response_error "file transfer upload target failed response validation")
  else
    let? _ := http_url "file transfer upload target URL is invalid" "file transfer upload target must be an http(s) URL" (tr_upload_url r) in
    Ok (mkAgentFileTransferUploadTarget (tr_transfer_id r) (tr_upload_url r) (tr_expires_at r)).

Definition smart_cache_policy (expected_room_id : string) (r : SmartCachePolicyResponse) : result AgentSmartCachePolicy AgentError :=
  if negb (py_room_id r =? expected_room_id)%string || (py_quota_bytes r =? 0)%Z || (py_max_file_bytes r =? 0)%Z
     || (py_quota_bytes r <? py_max_file_bytes r)%Z
  then Err (invalid_response_error "smart cache policy failed response validation")
  else Ok (mkAgentSmartCachePolicy (py_room_id r) (py_enabled r) (py_quota_bytes r) (py_max_file_bytes r)
             (py_excluded_patterns r) (py_pinned_patterns r)).
Definition smart_cache_reservation (r : SmartCacheReservationResponse) : result AgentSmartCacheReservation AgentError :=
  let? _ := Validate.relative_path "smart cache reservation path" (rv_source_relative_path r) in
  let? _ := Validate.sha256 (rv_source_version_hash r) in
  if is_empty (rv_reservation_id r) || is_empty (rv_expires_at r) || (rv_size_bytes r =? 0)%Z
     || negb (one_of ["RESERVED"; "COMPLETED"] (rv_status r))
  then Err (invalid_response_error "smart cache reservation failed response validation")
  else
    let? _ := if (rv_status r =? "RESERVED")%string then
                match rv_upload_url r with
                | None => Err (invalid_response_error "smart cache reservation omitted upload URL")
                | Some url => http_url "smart cache upload URL is invalid" "smart cache upload target must be an http(s) URL" url
                end
              else Ok tt in
    Ok (mkAgentSmartCacheReservation (rv_reservation_id r) (rv_status r) (rv_source_relative_path r) (rv_source_version_hash r)
          (rv_size_bytes r) (rv_upload_url r) (rv_expires_at r)).
Definition smart_cache_candidate_batch (r : SmartCacheCandidateBatchResponse)
  : result AgentSmartCacheCandidateBatchResult AgentError :=
  if is_empty (bb_batch_id r) then Err (invalid_response_error "smart cache candidate batch omitted batch id")
  else
    let? approved := try_map smart_cache_reservation (bb_approved r) in
    Ok (mkAgentSmartCacheCandidateBatchResult (bb_batch_id r) approved (bb_rejected_count r)).
End url.
End ValidateFiles.

(** * The calls *)

Class FileCodecs (V : Type) := {
  codec_browse_requests :: Serde (list FileBrowseRequestResponse);
  codec_transfers :: Serde (list FileTransferResponse);
  codec_transfer_response :: Serde FileTransferResponse;
  codec_upload_target :: Serde FileTransferUploadTargetResponse;
  codec_cache_policy :: Serde SmartCachePolicyResponse;
  codec_cache_batch :: Serde SmartCacheCandidateBatchResponse;
  codec_tools :: Serde (list (AgentToolRequest V));
}.

Module AgentFiles.
Section agent.
Context {N V : Type} `{!Http N V, !CredentialStore N, !JsonValue V, !Serde ServerErrorResponse, !FileCodecs V, !UrlParser}.
Abbreviation IO := (io (AgentState * N) AgentError).

(** ** Listing *)

Definition pending_file_browse_requests : IO (list AgentFileBrowseRequest) :=
  let! config := Agent.require_authenticated_config in
  let '(base_url, credential) := config in
  Agent.recording (
    let! responses := Agent.send_json (V:=V) (mkHttpRequest "GET"
                        (base_url +:+ "/v1/devices/" +:+ dc_device_id credential +:+ "/file-browse-requests/pending") []
                        (Some (dc_device_token credential)) None BNone) in
    io_lift (ValidateFiles.file_browse_requests responses)).
Definition complete_file_browse_request (request_id : string) (result : AgentFileBrowseResult) : IO unit :=
  do! io_lift (Validate.opaque_value "file browse request id" request_id 200);
  if (200 <? Z.of_nat (length (fb_entries result)))%Z
  then io_fail (validation_error "file browse result cannot contain more than 200 entries")
  else if is_empty (fb_desktop_generation result) || (128 <? slen (fb_desktop_generation result))%Z
  then io_fail (validation_error "file browse desktopGeneration must contain between 1 and 128 characters")
  else if match fb_next_cursor result with Some cursor => (512 <? slen cursor)%Z | None => false end
  then io_fail (validation_error "file browse nextCursor cannot exceed 512 characters")
  else
    let! config := Agent.require_authenticated_config in
    let '(base_url, credential) := config in
    Agent.recording (Agent.send_empty (V:=V) (mkHttpRequest "POST"
      (base_url +:+ "/v1/agent/file-browse-requests/" +:+ request_id +:+ "/result") []
      (Some (dc_device_token credential)) None (BBrowse result))).
Definition fail_file_browse_request (request_id : string) (failure_code : AgentFileBrowseFailureCode) : IO unit :=
  do! io_lift (Validate.opaque_value "file browse request id" request_id 200);
  let! config := Agent.require_authenticated_config in
  let '(base_url, credential) := config in
  Agent.recording (Agent.send_empty (V:=V) (mkHttpRequest "POST"
    (base_url +:+ "/v1/agent/file-browse-requests/" +:+ request_id +:+ "/failure") [] (Some (dc_device_token credential)) None
    (BFields [("failureCode", FText (ValidateFiles.browse_failure_code failure_code))]))).

(** ** Tools *)

Definition pending_agent_tools : IO (list (AgentToolRequest V)) :=
  let! config := Agent.require_authenticated_config in
  let '(base_url, credential) := config in
  Agent.recording (Agent.send_json (V:=V) (mkHttpRequest "GET"
    (base_url +:+ "/v1/devices/" +:+ dc_device_id credential +:+ "/agent-tools/pending") [] (Some (dc_device_token credential)) None BNone)).
Definition complete_agent_tool (step_id status : string) (result_metadata : V) (failure_code : option string) : IO unit :=
  do! io_lift (Validate.opaque_value "agent tool step id" step_id 200);
  if negb (one_of ["SUCCEEDED"; "FAILED"] status) then io_fail (validation_error "invalid agent tool status")
  else
    let! config := Agent.require_authenticated_config in
    let '(base_url, credential) := config in
    Agent.recording (Agent.send_empty (mkHttpRequest "POST" (base_url +:+ "/v1/agent/agent-tools/" +:+ step_id +:+ "/result") []
      (Some (dc_device_token credential)) None
      (BFields [("status", FText status); ("resultMetadata", FValue result_metadata); ("failureCode", FOptText failure_code)]))).

(** ** Transfers *)

Definition pending_file_transfers : IO (list AgentFileTransfer) :=
  let! config := Agent.require_authenticated_config in
  let '(base_url, credential) := config in
  Agent.recording (
    let! responses := Agent.send_json (V:=V) (mkHttpRequest "GET"
                        (base_url +:+ "/v1/devices/" +:+ dc_device_id credential +:+ "/file-transfers/pending") []
                        (Some (dc_device_token credential)) None BNone) in
    io_lift (ValidateFiles.file_transfers responses)).
Definition request_file_transfer_upload_target (transfer_id : string) (source_version : AgentFileTransferSourceVersion)
  : IO AgentFileTransferUploadTarget :=
  do! io_lift (Validate.opaque_value "file transfer id" transfer_id 200);
  do! io_lift (ValidateFiles.source_version source_version);
  let! config := Agent.require_authenticated_config in
  let '(base_url, credential) := config in
  Agent.recording (
    let! response := Agent.send_json (V:=V) (mkHttpRequest "POST"
                       (base_url +:+ "/v1/agent/file-transfers/" +:+ transfer_id +:+ "/upload-target") []
                       (Some (dc_device_token credential)) None (BFields [("sourceVersion", FVersion source_version)])) in
    io_lift (ValidateFiles.upload_target_response transfer_id response)).
Definition fail_file_transfer (transfer_id : string) (failure_code : AgentFileTransferFailureCode) : IO AgentFileTransfer :=
  do! io_lift (Validate.opaque_value "file transfer id" transfer_id 200);
  let! config := Agent.require_authenticated_config in
  let '(base_url, credential) := config in
  Agent.recording (
    let! response := Agent.send_json (V:=V) (mkHttpRequest "POST"
                       (base_url +:+ "/v1/agent/file-transfers/" +:+ transfer_id +:+ "/failure") []
                       (Some (dc_device_token credential)) None
                       (BFields [("failureCode", FText (ValidateFiles.transfer_failure_code failure_code))])) in
    let! transfer := io_lift (Validate.file_transfer_response response) in
    io_lift (Validate.transfer_id_match transfer_id transfer)).

(** ** The cache *)

Definition list_rooms `{!WorkCodecs V} : IO (list AgentRoomSync) :=
  let! config := Agent.require_authenticated_config in
  let '(base_url, credential) := config in
  Agent.recording (
    let! rooms := Agent.send_json (V:=V) (mkHttpRequest "GET" (base_url +:+ "/v1/rooms") [] (Some (dc_device_token credential)) None BNone) in
    let! rooms := io_lift (ValidateWork.server_rooms (dc_device_id credential) rooms) in
    io_ret (map (fun room => mkAgentRoomSync (sr_id room) (sr_root_alias room) (sr_name room) false) rooms)).
Definition smart_cache_policy (room_id : string) : IO AgentSmartCachePolicy :=
  do! io_lift (Validate.opaque_value "room id" room_id 200);
  let! config := Agent.require_authenticated_config in
  let '(base_url, credential) := config in
  Agent.recording (
    let! response := Agent.send_json (V:=V) (mkHttpRequest "GET" (base_url +:+ "/v1/rooms/" +:+ room_id +:+ "/smart-cache-policy") []
                       (Some (dc_device_token credential)) None BNone) in
    io_lift (ValidateFiles.smart_cache_policy room_id response)).
Fixpoint valid_candidates (candidates : list (AgentSmartCacheCandidate V)) : result unit AgentError :=
  match candidates with
  | [] => Ok tt
  | candidate :: candidates =>
      let? _ := Validate.relative_path "smart cache source path" (sd_source_relative_path candidate) in
      let? _ := Validate.sha256 (sd_source_version_hash candidate) in
      if (sd_size_bytes candidate =? 0)%Z then Err (validation_error "smart cache candidate sizeBytes must be positive")
      else valid_candidates candidates
  end.
Definition submit_smart_cache_candidates (idempotency_key room_id : string) (candidates : list (AgentSmartCacheCandidate V))
  : IO AgentSmartCacheCandidateBatchResult :=
  do! io_lift (Validate.opaque_value "smart cache candidate idempotency key" idempotency_key 128);
  do! io_lift (Validate.opaque_value "room id" room_id 200);
  if bool_decide (length candidates = 0%nat) || (200 <? Z.of_nat (length candidates))%Z
  then io_fail (validation_error "smart cache candidate batch must contain between 1 and 200 candidates")
  else
    do! io_lift (valid_candidates candidates);
    let! config := Agent.require_authenticated_config in
    let '(base_url, credential) := config in
    Agent.recording (
      let! response := Agent.send_json (mkHttpRequest "POST" (base_url +:+ "/v1/agent/cache-candidates") []
                         (Some (dc_device_token credential)) (Some idempotency_key)
                         (BFields [("roomId", FText room_id); ("candidates", FCandidates candidates)])) in
      io_lift (ValidateFiles.smart_cache_candidate_batch response)).
Definition cancel_smart_cache_reservation (reservation_id : string) : IO unit :=
  do! io_lift (Validate.opaque_value "smart cache reservation id" reservation_id 200);
  let! config := Agent.require_authenticated_config in
  let '(base_url, credential) := config in
  Agent.recording (Agent.send_empty (V:=V) (mkHttpRequest "DELETE" (base_url +:+ "/v1/agent/cache-uploads/" +:+ reservation_id) []
    (Some (dc_device_token credential)) None BNone)).
End agent.
End AgentFiles.
