(* ===== verification/file_browse.v ===== *)
(** The remote listing and search of a folder, and that its pages cover it. *)
From Stdlib Require Import ZArith Lia Ascii.
From stdpp Require Import strings pretty gmap functions option list.
From S2P Require Import prelude rust_str std_path std_fs fs_facts db journal_store proposal_types browse index_sql tables desk file_index managed_roots.
From S2P Require Import cleanliness agent agent_work office agent_files.

Open Scope string_scope.
Open Scope list_scope.


(** * [apps/desktop/src-tauri/src/file_browse_processor.rs]: the requests of the server to
    list a folder or to search it, page by page. *)

Definition PAGE_SIZE : Z := 200.

Inductive FileBrowseProcessingStatus := BrowseCompleted | BrowseFailed.
Record FileBrowseProcessingResult := mkFileBrowseProcessingResult {
  bs_request_id : string;
  bs_status : FileBrowseProcessingStatus;
  bs_entry_count : Z;   (** [usize] *)
  bs_next_cursor : option string;
  bs_message : option string;
}.
Record FileBrowseProcessingReport := mkFileBrowseProcessingReport {
  bt_inspected_count : Z;   (** [usize] *)
  bt_completed_count : Z;   (** [usize] *)
  bt_failed_count : Z;      (** [usize] *)
  bt_results : list FileBrowseProcessingResult;
}.
Record BuildFileBrowseError := mkBuildFileBrowseError { bx_failure_code : AgentFileBrowseFailureCode; bx_message : string }.

Module FileBrowse.
Definition invalidated (message : string) : BuildFileBrowseError := mkBuildFileBrowseError BfCursorInvalidated message.

Definition validate_page_limit (limit : Z) : result unit BuildFileBrowseError :=
  if ((1 <=? limit) && (limit <=? PAGE_SIZE))%Z then Ok tt else Err (invalidated "file browse limit must be between 1 and 200").
Definition parse_cursor (cursor : option string) : result Z BuildFileBrowseError :=
  match cursor with
  | None | Some "" => Ok 0%Z
  | Some raw =>
      match parse_u64 (default raw (strip_prefix raw "offset:")) with
      | Some offset => Ok offset
      | None => Err (invalidated "file browse cursor must be an offset cursor")
      end
  end.
Definition is_colon (c : ascii) : bool := Ascii.eqb c ":".
Definition parse_search_cursor (cursor : option string) (fingerprint : Z) : result (option Z * Z) BuildFileBrowseError :=
  match cursor with
  | None | Some "" => Ok (None, 0%Z)
  | Some cursor =>
      let bad := Err (invalidated "file search cursor does not match this query and scope") in
      match split_on is_colon cursor with
      | [prefix; print; generation; offset] =>
          match from_str_radix 16 print, parse_u64 generation, parse_u64 offset with
          | Some print, Some generation, Some offset =>
              if (prefix =? "search")%string && (print =? fingerprint)%Z then Ok (Some generation, offset) else bad
          | _, _, _ => bad
          end
      | _ => bad
      end
  end.

Definition map_browse_error (error : BrowseError) : BuildFileBrowseError :=
  mkBuildFileBrowseError BfOutsideManagedRoot (Browse.fmt error).
Definition map_file_index_error (error : FileIndexError) : BuildFileBrowseError :=
  mkBuildFileBrowseError
    (match error with GenerationChanged _ _ | InvalidSearch _ => BfCursorInvalidated | _ => BfOutsideManagedRoot end)
    (FileIndex.fmt error).

Definition is_remotely_browsable_name (name : string) : bool :=
  let name := to_ascii_lowercase name in
  if (name =? ".mousekeeper")%string || (name =? ".mousekeeper_trash")%string then false
  else if existsb (ends_with name) [".tmp"; ".crdownload"; ".part"; ".lock"; ".download"] then false
  else negb (existsb (contains name) ["credential"; "password"; "secret"; "token"]
             || existsb (ends_with name) [".key"; ".pem"; ".p12"; ".pfx"]).
Definition is_remotely_browsable (entry : BrowseEntry) : bool := is_remotely_browsable_name (be_name entry).

Definition fnv1a_64 (bytes : list ascii) : Z :=
  fold_left (fun hash byte => wrap_u64 (Z.lxor hash (byte_of byte) * 1099511628211)) bytes 14695981039346656037%Z.
(** The same conversion as in [cleanliness.rs]. *)
Definition unix_ms_to_rfc3339 : option Z -> string := Calendar.unix_ms_to_rfc3339.
Definition show_bool (b : bool) : string := if b then "true" else "false".
Definition stable_file_id_parts (relative_path : string) (is_dir : bool) (size_bytes modified_unix_ms : option Z) : string :=
  let modified := match modified_unix_ms with Some value => fmt_int value | None => "unknown" end in
  let size := match size_bytes with Some value => fmt_int value | None => "dir" end in
  "hm:" +:+ fmt_hex16 (fnv1a_64 (sbytes (relative_path +:+ "|" +:+ show_bool is_dir +:+ "|" +:+ size +:+ "|" +:+ modified))).
Definition stable_file_id (entry : BrowseEntry) : string :=
  stable_file_id_parts (be_path entry) (be_is_dir entry) (be_size_bytes entry) (be_modified_unix_ms entry).
Definition remote_entry (entry : BrowseEntry) : AgentFileBrowseEntry :=
  mkAgentFileBrowseEntry (be_name entry) (be_path entry) (if be_is_dir entry then BfDirectory else BfFile) (be_size_bytes entry)
    (unix_ms_to_rfc3339 (be_modified_unix_ms entry)) (stable_file_id entry).
Definition remote_search_entry (entry : IndexedSearchEntry) : AgentFileBrowseEntry :=
  mkAgentFileBrowseEntry (is_name entry) (is_relative_path entry) (if is_dir entry then BfDirectory else BfFile)
    (is_size_bytes entry) (unix_ms_to_rfc3339 (is_modified_unix_ms entry))
    (stable_file_id_parts (is_relative_path entry) (is_dir entry) (is_size_bytes entry) (is_modified_unix_ms entry)).

(** [{:?}] of the scope. *)
Definition show_scope (scope : AgentFileSearchScope) : string :=
  match scope with BfCurrentDirectory => "CurrentDirectory" | BfManagedRoot => "ManagedRoot" end.
Definition index_scope (scope : AgentFileSearchScope) : IndexedSearchScope :=
  match scope with BfCurrentDirectory => CurrentDirectory | BfManagedRoot => file_index.ManagedRoot end.
Definition search_fingerprint (unicode : string -> string) (relative_directory query : string) (scope : AgentFileSearchScope)
    (limit : Z) (extensions : list string) : Z :=
  let extensions := sort_by String.compare (map to_ascii_lowercase extensions) in
  fnv1a_64 (sbytes (replace_char "\" "/" relative_directory +:+ "|" +:+ str_to_lowercase unicode query +:+ "|"
                    +:+ show_scope scope +:+ "|" +:+ fmt_int limit +:+ "|" +:+ join "," extensions)).

(** ** A page of a directory *)

(** What a directory has to offer, and a page of it. *)
Definition browsable (report : BrowseReport) : list BrowseEntry := List.filter is_remotely_browsable (br_entries report).
Definition page_of (entries : list BrowseEntry) (offset limit : Z) : list AgentFileBrowseEntry * option string :=
  let page := map remote_entry (take (Z.to_nat limit) (drop (Z.to_nat offset) entries)) in
  let next_offset := (offset + Z.of_nat (length page))%Z in
  (page, if (next_offset <? Z.of_nat (length entries))%Z then Some ("offset:" +:+ fmt_int next_offset) else None).
Section world.
Context {DB : Type} `{!SqlDb DB, !SqlTx DB}.
Context (unicode : string -> string) (fuel : nat).
Abbreviation WIO := (io (world DB) BuildFileBrowseError).

Definition unix_ms : WIO Z := let! ms := now_ms in io_ret (Z.min (2 ^ 63 - 1) ms).
Definition build_result_page_limited (root relative_directory : string) (cursor : option string) (limit : Z)
  : WIO AgentFileBrowseResult :=
  do! io_lift (validate_page_limit limit);
  let! offset := io_lift (parse_cursor cursor) in
  let! f := get_fs in
  let! report := io_lift (map_err map_browse_error (Browse.browse_root f root (Some relative_directory))) in
  let entries := browsable report in
  if (Z.of_nat (length entries) <? offset)%Z
  then io_fail (invalidated "file browse cursor is no longer valid for this directory")
  else
    let '(page, next_cursor) := page_of entries offset limit in
    let! now := unix_ms in
    io_ret (mkAgentFileBrowseResult page next_cursor (fmt_int now)).
Definition build_result_page (root relative_directory : string) (cursor : option string) : WIO AgentFileBrowseResult :=
  build_result_page_limited root relative_directory cursor PAGE_SIZE.

(** ** A page of a search *)

Definition search_cursor (fingerprint generation next_offset : Z) : string :=
  "search:" +:+ fmt_hex16 fingerprint +:+ ":" +:+ fmt_int generation +:+ ":" +:+ fmt_int next_offset.
Definition build_search_result_page_limited (root relative_directory query : string) (scope : AgentFileSearchScope)
    (cursor : option string) (limit : Z) (extensions : list string) : WIO AgentFileBrowseResult :=
  do! io_lift (validate_page_limit limit);
  let fingerprint := search_fingerprint unicode relative_directory query scope limit extensions in
  let! at_ := io_lift (parse_search_cursor cursor fingerprint) in
  let '(expected_generation, offset) := at_ in
  let! initialized := io_map_err map_file_index_error (FileIndex.index_is_initialized root) in
  do! (if (initialized : bool) then io_ret tt
       else let! _ := io_map_err map_file_index_error (FileIndex.reindex_root unicode root) in io_ret tt);
  let! page := io_map_err map_file_index_error
                 (FileIndex.search_index_page_with_extensions unicode fuel root query (index_scope scope) relative_directory
                    expected_generation offset limit extensions) in
  let next_cursor := search_cursor fingerprint (pg_generation page) <$> pg_next_offset page in
  let entries := map remote_search_entry (List.filter (fun e => is_remotely_browsable_name (is_name e)) (pg_entries page)) in
  io_ret (mkAgentFileBrowseResult entries next_cursor (fmt_int (pg_generation page))).
Definition build_search_result_page (root relative_directory query : string) (scope : AgentFileSearchScope) (cursor : option string)
  : WIO AgentFileBrowseResult :=
  build_search_result_page_limited root relative_directory query scope cursor PAGE_SIZE [].
End world.

(** ** The requests *)

Section processor.
Context {N V DB : Type} `{!SqlDb DB, !SqlTx DB, !SqlCount DB, !Http N V, !CredentialStore N, !JsonValue V}.
Context `{!Serde ServerErrorResponse, !WorkCodecs V, !FileCodecs V}.
Context (unicode : string -> string) (fuel : nat).

(** Whatever keeps the folder from being found. *)
Definition outside_root {A} (m : io (office N DB) string A) : io (office N DB) BuildFileBrowseError A :=
  io_map_err (mkBuildFileBrowseError BfOutsideManagedRoot) m.
Definition build_result_for_request (request : AgentFileBrowseRequest) : io (office N DB) BuildFileBrowseError AgentFileBrowseResult :=
  let! room := outside_root (on_agent (AgentWork.root_id_for_room (V:=V) (bq_room_id request))) in
  let! managed_root := outside_root (on_roots (ManagedRoots.ensure_active_room_binding (ry_root_id room) (bq_room_id request))) in
  if negb (mr_enabled managed_root)
  then io_fail (mkBuildFileBrowseError BfOutsideManagedRoot ("managed root is disabled: " +:+ mr_root_id managed_root))
  else
    zoom (fun st => st.2.2) (fun w st => (st.1, (st.2.1, w)))
      (match bq_query request with
       | Some query =>
           build_search_result_page_limited unicode fuel (mr_root managed_root) (bq_relative_directory request) query
             (bq_search_scope request) (bq_cursor request) (bq_limit request) (bq_extensions request)
       | None => build_result_page_limited (mr_root managed_root) (bq_relative_directory request) (bq_cursor request) (bq_limit request)
       end).
Definition process_one (request : AgentFileBrowseRequest) : io (office N DB) string AgentFileBrowseResult :=
  let! result := io_try (build_result_for_request request) in
  match result with
  | Ok result =>
      do! on_agent (AgentFiles.complete_file_browse_request (V:=V) (bq_request_id request) result);
      io_ret result
  | Err (mkBuildFileBrowseError code message) =>
      do! on_agent (AgentFiles.fail_file_browse_request (V:=V) (bq_request_id request) code);
      io_fail message
  end.
Definition told (report : FileBrowseProcessingReport) (request_id : string) (r : result AgentFileBrowseResult string)
  : FileBrowseProcessingReport :=
  match r with
  | Ok result =>
      mkFileBrowseProcessingReport (bt_inspected_count report) (bt_completed_count report + 1) (bt_failed_count report)
        (bt_results report ++ [mkFileBrowseProcessingResult request_id BrowseCompleted (Z.of_nat (length (fb_entries result)))
                                 (fb_next_cursor result) None])
  | Err error =>
      mkFileBrowseProcessingReport (bt_inspected_count report) (bt_completed_count report) (bt_failed_count report + 1)
        (bt_results report ++ [mkFileBrowseProcessingResult request_id BrowseFailed 0 None (Some error)])
  end.
Definition process_pending_file_browse_requests : io (office N DB) string FileBrowseProcessingReport :=
  let! requests := on_agent (AgentFiles.pending_file_browse_requests (V:=V)) in
  io_for (fun _ report request =>
      let! r := io_try (process_one request) in
      io_ret (told report (bq_request_id request) r))
    0 (mkFileBrowseProcessingReport (Z.of_nat (length requests)) 0 0 []) requests.
End processor.
End FileBrowse.

(** * The pages of a directory cover it, and a cursor is read as it was written. *)

(** * Cursors *)

Lemma parse_offset_cursor k : (0 <= k < 2 ^ 64)%Z -> FileBrowse.parse_cursor (Some ("offset:" +:+ fmt_int k)) = Ok k.
Proof.
  intros Hk. unfold FileBrowse.parse_cursor. change ("offset:" +:+ fmt_int k) with (String "o" ("ffset:" +:+ fmt_int k)). cbv beta iota.
  change (String "o" ("ffset:" +:+ fmt_int k)) with ("offset:" +:+ fmt_int k). rewrite strip_prefix_app. simpl default.
  by rewrite parse_fmt_int.
Qed.

(** Digits hold no colon. *)
Lemma colon_not_hex : is_hex ":" = false.
Proof. reflexivity. Qed.
Lemma split_no_colon s t :
  forallb is_hex (String.list_ascii_of_string s) = true ->
  split_on FileBrowse.is_colon (s +:+ String ":" t) = s :: split_on FileBrowse.is_colon t.
Proof.
  induction s as [|c s IH]; simpl; [done|]. intros [Hc Hs]%andb_true_iff. unfold FileBrowse.is_colon at 1.
  destruct (Ascii.eqb_spec c ":") as [->|_]; [by rewrite colon_not_hex in Hc|]. by rewrite IH.
Qed.
Lemma split_digits s : forallb is_hex (String.list_ascii_of_string s) = true -> split_on FileBrowse.is_colon s = [s].
Proof.
  induction s as [|c s IH]; simpl; [done|]. intros [Hc Hs]%andb_true_iff. unfold FileBrowse.is_colon at 1.
  destruct (Ascii.eqb_spec c ":") as [->|_]; [by rewrite colon_not_hex in Hc|]. by rewrite IH.
Qed.
Lemma radix_hex radix s z : (forall c t, s = String c t -> c <> "+"%char) -> from_str_radix radix s = Some z ->
  forallb is_hex (String.list_ascii_of_string s) = true.
Proof.
  destruct s as [|c s]; [done|]. intros Hc. rewrite from_str_radix_cons by by eapply Hc. by apply parse_digits_hex.
Qed.
Lemma fmt_int_no_plus z c t : fmt_int z = String c t -> c <> "+"%char.
Proof.
  unfold fmt_int, pretty, pretty_N. case_decide as H0; [by intros [= <- _]|].
  destruct (pretty_go_head _ "" H0) as (a & u & -> & Ha). by intros [= <- _].
Qed.
Lemma fmt_int_digits z : (0 <= z < 2 ^ 64)%Z -> forallb is_hex (String.list_ascii_of_string (fmt_int z)) = true.
Proof. intros Hz. eapply (radix_hex 10); [apply fmt_int_no_plus|by apply parse_fmt_int]. Qed.
Lemma fmt_hex16_digits z : (0 <= z < 2 ^ 64)%Z -> forallb is_hex (String.list_ascii_of_string (fmt_hex16 z)) = true.
Proof.
  intros Hz. eapply (radix_hex 16); [|by apply parse_fmt_hex16]. intros c t H.
  change (fmt_hex16 z) with (String (hex_digit (Z.land (Z.shiftr z (4 * Z.of_nat 15)) 15)) (hex_fixed 15 z)) in H.
  injection H as <- _. apply hex_digit_head. change 15%Z with (Z.ones 4). rewrite Z.land_ones by lia. apply Z.mod_pos_bound. lia.
Qed.

(** A cursor of a search is read as it was written, by a search of the same directory,
    text, scope, limit and extensions, and by none whose fingerprint differs: the
    generation and the offset that continue it come back for every [u64], and any other
    fingerprint invalidates the cursor. *)
Theorem search_cursor_returns print other generation offset :
  (0 <= print < 2 ^ 64)%Z -> (0 <= generation < 2 ^ 64)%Z -> (0 <= offset < 2 ^ 64)%Z ->
  FileBrowse.parse_search_cursor (Some (FileBrowse.search_cursor print generation offset)) other =
  if (print =? other)%Z then Ok (Some generation, offset)
  else Err (FileBrowse.invalidated "file search cursor does not match this query and scope").
Proof.
  intros Hp Hg Ho. unfold FileBrowse.parse_search_cursor, FileBrowse.search_cursor.
  set (s := "search:" +:+ _). assert (s = String "s" ("earch:" +:+ fmt_hex16 print +:+ ":" +:+ fmt_int generation +:+ ":" +:+ fmt_int offset)) as Hs by done.
  rewrite Hs at 1. cbv beta iota.
  assert (split_on FileBrowse.is_colon s = ["search"; fmt_hex16 print; fmt_int generation; fmt_int offset]) as ->.
  { unfold s. change ("search:" +:+ fmt_hex16 print +:+ ":" +:+ fmt_int generation +:+ ":" +:+ fmt_int offset) with
      ("search" +:+ String ":" (fmt_hex16 print +:+ String ":" (fmt_int generation +:+ String ":" (fmt_int offset)))).
    change (split_on FileBrowse.is_colon ("search" +:+ String ":" ?x)) with ("search" :: split_on FileBrowse.is_colon x).
    by rewrite split_no_colon, split_no_colon, split_digits by (apply fmt_hex16_digits || apply fmt_int_digits; done). }
  rewrite parse_fmt_hex16, !parse_fmt_int by done. simpl. by destruct (print =? other)%Z.
Qed.

(** * Pages *)

Section pages.
Context {DB : Type}.
Abbreviation WIO := (io (world DB) BuildFileBrowseError).
Implicit Types w : world DB.

(** A client that asks for page after page, at most [n] of them. *)
Fixpoint all_pages (n : nat) (root directory : string) (limit : Z) (cursor : option string) : WIO (list AgentFileBrowseEntry) :=
  match n with
  | O => io_fail (FileBrowse.invalidated "no further page is asked for")
  | S n =>
      let! page := FileBrowse.build_result_page_limited root directory cursor limit in
      match fb_next_cursor page with
      | None => io_ret (fb_entries page)
      | Some cursor =>
          let! rest := all_pages n root directory limit (Some cursor) in
          io_ret (fb_entries page ++ rest)
      end
  end.

Lemma all_pages_step n root directory limit cursor :
  all_pages (S n) root directory limit cursor =
  let! page := FileBrowse.build_result_page_limited root directory cursor limit in
  match fb_next_cursor page with
  | None => io_ret (fb_entries page)
  | Some cursor => let! rest := all_pages n root directory limit (Some cursor) in io_ret (fb_entries page ++ rest)
  end.
Proof. done. Qed.
Lemma page_run root directory cursor limit offset report w :
  (1 <= limit <= PAGE_SIZE)%Z -> FileBrowse.parse_cursor cursor = Ok offset ->
  Browse.browse_root (w_fs w) root (Some directory) = Ok report ->
  (offset <= Z.of_nat (length (FileBrowse.browsable report)))%Z ->
  let '(page, next) := FileBrowse.page_of (FileBrowse.browsable report) offset limit in
  exists now w', FileBrowse.build_result_page_limited root directory cursor limit w = (Ok (mkAgentFileBrowseResult page next now), w') /\
    w_fs w' = w_fs w /\ w_db w' = w_db w.
Proof.
  intros Hl Hc Hb Ho. destruct (FileBrowse.page_of _ _ _) as [page next] eqn:Hp.
  unfold FileBrowse.build_result_page_limited, FileBrowse.validate_page_limit, FileBrowse.unix_ms, now_ms, now_ns, get_fs, io_bind, io_lift, io_gets, io_ret.
  rewrite (proj2 (Z.leb_le _ _) (proj1 Hl)), (proj2 (Z.leb_le _ _) (proj2 Hl)). simpl. rewrite Hc, Hb. simpl.
  rewrite (proj2 (Z.ltb_ge _ _) Ho). unfold FileBrowse.page_of in Hp. injection Hp as <- <-.
  eexists _, _. split; [reflexivity|done].
Qed.

Lemma pages_from n root directory limit offset cursor report w :
  (1 <= limit <= PAGE_SIZE)%Z -> (Z.of_nat (length (FileBrowse.browsable report)) < 2 ^ 64)%Z ->
  FileBrowse.parse_cursor cursor = Ok offset -> (0 <= offset <= Z.of_nat (length (FileBrowse.browsable report)))%Z ->
  Browse.browse_root (w_fs w) root (Some directory) = Ok report ->
  (Z.of_nat (length (FileBrowse.browsable report)) - offset <= Z.of_nat n * limit)%Z ->
  exists w', all_pages (S n) root directory limit cursor w =
    (Ok (map FileBrowse.remote_entry (drop (Z.to_nat offset) (FileBrowse.browsable report))), w') /\ w_fs w' = w_fs w /\ w_db w' = w_db w.
Proof.
  revert offset cursor w. induction n as [|n IH]; intros offset cursor w Hl Hlen Hc Ho Hb Hn;
    pose proof (page_run root directory cursor limit offset report w Hl Hc Hb (proj2 Ho)) as Hrun;
    destruct (FileBrowse.page_of _ _ _) as [page next] eqn:Hp; destruct Hrun as (now & w1 & Hrun & Hfs & Hdb);
    rewrite all_pages_step; unfold io_bind at 1; rewrite Hrun; simpl fb_next_cursor; simpl fb_entries;
    unfold FileBrowse.page_of in Hp; injection Hp as Hpage Hnext; rewrite length_map, length_take, length_drop in Hnext.
  - rewrite (proj2 (Z.ltb_ge _ _)) in Hnext by lia. subst next page. exists w1. split; [|done].
    cbn. rewrite (drop_ge _ (Z.to_nat offset)) by lia. by rewrite take_nil.
  - cbn [fb_next_cursor fb_entries]. destruct (Z.ltb_spec (offset + Z.of_nat (Nat.min (Z.to_nat limit) (length (FileBrowse.browsable report) - Z.to_nat offset)))
                (Z.of_nat (length (FileBrowse.browsable report)))) as [Hlt|Hge]; subst next.
    + set (k := (offset + _)%Z) in *. assert (k = offset + limit)%Z as Hk by lia.
      destruct (IH k (Some ("offset:" +:+ fmt_int k)) w1) as (w2 & Hw2 & Hfs2 & Hdb2).
      * done.
      * done.
      * apply parse_offset_cursor. lia.
      * lia.
      * by rewrite Hfs.
      * lia.
      * exists w2. unfold io_bind. rewrite Hw2. split; [|split; congruence]. unfold io_ret. do 2 f_equal. subst page.
        rewrite <- map_app. f_equal. replace (Z.to_nat k) with (Z.to_nat offset + Z.to_nat limit)%nat by lia.
        by rewrite <- drop_drop, take_drop.
    + exists w1. split; [|done]. unfold io_ret. do 2 f_equal. subst page. f_equal. rewrite take_ge; [done|]. rewrite length_drop. lia.
Qed.
End pages.

(** C36: The pages of a directory cover it, on a machine whose files do not change between
    the requests ([page_repeats_after_change] shows an entry told twice when they do).  A
    client that starts without a cursor and follows each cursor it is given, with any
    limit the desktop allows, ends after finitely many pages (one more than the entries
    fill) and has seen every entry that the listing of the directory offers, each once
    and in the order of the listing; no cursor it was given is refused. *)
Theorem listing_pages_cover {DB : Type} (n : nat) (root directory : string) (limit : Z) report (w : world DB) :
  (1 <= limit <= PAGE_SIZE)%Z -> Browse.browse_root (w_fs w) root (Some directory) = Ok report ->
  (Z.of_nat (length (FileBrowse.browsable report)) < 2 ^ 64)%Z ->
  (Z.of_nat (length (FileBrowse.browsable report)) <= Z.of_nat n * limit)%Z ->
  exists w', all_pages (S n) root directory limit None w = (Ok (map FileBrowse.remote_entry (FileBrowse.browsable report)), w') /\
    w_fs w' = w_fs w /\ w_db w' = w_db w.
Proof.
  intros Hl Hb Hlen Hn. destruct (pages_from n root directory limit 0 None report w Hl Hlen) as (w' & H & Hw'); [done|lia|done|lia|].
  exists w'. done.
Qed.

(** * Witness *)

Definition docs_pages := all_pages (DB:=MemDb) 3 sample_root "" 1 None sample_machine.
Strategy 1000 [docs_pages].
Lemma listing_pages_cover_witness :
  exists w', docs_pages = (Ok (match Browse.browse_root (w_fs sample_machine) sample_root (Some "") with
                               | Ok report => map FileBrowse.remote_entry (FileBrowse.browsable report) | Err _ => [] end), w') /\
    w_fs w' = w_fs sample_machine /\ option_map (map bn_name) (result_ok docs_pages.1) = Some ["docs"; "a.txt"].
Proof.
  assert (is_ok (Browse.browse_root (w_fs sample_machine) sample_root (Some "")) = true) as Hok by (vm_compute; reflexivity).
  assert (match Browse.browse_root (w_fs sample_machine) sample_root (Some "") with
          | Ok report => (Z.of_nat (length (FileBrowse.browsable report)) <=? 2)%Z | Err _ => false end = true) as Hlen by (vm_compute; reflexivity).
  destruct (Browse.browse_root (w_fs sample_machine) sample_root (Some "")) as [report|e] eqn:Hb; [|discriminate Hok]. apply Z.leb_le in Hlen.
  assert (1 <= 1 <= PAGE_SIZE)%Z as Hl by (split; discriminate).
  assert (Z.of_nat (length (FileBrowse.browsable report)) < 2 ^ 64)%Z as H64 by (eapply Z.le_lt_trans; [exact Hlen|reflexivity]).
  destruct (listing_pages_cover 2 sample_root "" 1 report sample_machine Hl Hb H64 Hlen) as (w' & H & Hfs & _).
  exists w'. split; [exact H|]. split; [exact Hfs|]. vm_compute. reflexivity.
Defined.
Lemma search_cursor_returns_witness :
  FileBrowse.parse_search_cursor (Some (FileBrowse.search_cursor 255 3 200)) 255 = Ok (Some 3%Z, 200%Z).
Proof.
  assert ((255 =? 255)%Z = true) as Heq by reflexivity.
  pose proof (search_cursor_returns 255 255 3 200 ltac:(lia) ltac:(lia) ltac:(lia)) as H. rewrite Heq in H. exact H.
Defined.

(** * Edge cases *)

(** Only the own name of an entry is hidden: a client that asks for the internal
    directory itself is shown what is in it. *)
Definition state_tree : tree := <[["home"; "root"; ".mousekeeper"] := mkInode KDir 0 None 50]>
  (<[["home"; "root"; ".mousekeeper"; "rules.json"] := mkInode (KFile "{}") 0 None 51]> sample_tree).
Definition shown (directory : string) : option (list string) :=
  match Browse.browse_root state_tree sample_root (Some directory) with
  | Ok report => Some (map be_name (FileBrowse.browsable report)) | Err _ => None end.
Example internal_directory_listed : shown "" = Some ["docs"; "a.txt"] /\ shown ".mousekeeper" = Some ["rules.json"].
Proof. split; vm_compute; reflexivity. Qed.
(** The parts of a fingerprint are joined by characters they may hold: two searches
    share it, and a cursor of one continues the other. *)
Example fingerprints_collide :
  FileBrowse.search_fingerprint id "a" "b|c" BfManagedRoot 10 [] = FileBrowse.search_fingerprint id "a|b" "c" BfManagedRoot 10 [].
Proof. reflexivity. Qed.

(** With a directory made between two requests the second page starts with an entry of the
    first: a cursor of a listing is an offset, and nothing tells that the listing changed. *)
Definition page_after (cursor : option string) (f : tree) : option (list string * option string) :=
  match (FileBrowse.build_result_page_limited (DB:=MemDb) sample_root "" cursor 1 (machine f mem_empty)).1 with
  | Ok page => Some (map bn_name (fb_entries page), fb_next_cursor page)
  | Err _ => None
  end.
Example page_repeats_after_change :
  page_after None sample_tree = Some (["docs"], Some "offset:1") /\
  page_after (Some "offset:1") (<[["home"; "root"; "archive"] := dir_of 20]> sample_tree) = Some (["docs"], Some "offset:2").
Proof. split; vm_compute; reflexivity. Qed.
