(* ===== verification/file_transfer.v ===== *)
(** The transfer of a file to the server, what it sends, and transfers evaluated. *)
From Stdlib Require Import ZArith Lia Ascii.
From stdpp Require Import strings pretty gmap functions option list.
From S2P Require Import prelude rust_str std_path std_fs fs_facts path_guard db journal_store proposal_types rule_definition analyzer index_sql tables outbox.
From S2P Require Import desk managed_roots cleanliness agent agent_work office outbox_processor delivery_facts command_facts desk_db agent_files.

Open Scope string_scope.
Open Scope list_scope.


(** * [apps/desktop/src-tauri/src/file_transfer_processor.rs]: the files that the server asks
    for, checked against their folder, uploaded, and reported complete.

    Other programs may change the machine while the processor works: [meanwhile k] is
    what they do before its [k]-th look at the files. *)

(** The upload of an object, third-party: the address, the declared length and the bytes;
    the status of the answer, or none that arrives. *)
Class Uploader (N : Type) := upload_put : string -> Z -> string -> N -> option Z * N.

#[export] Instance AgentFileTransferSourceVersion_eq_dec : EqDecision AgentFileTransferSourceVersion.
Proof. solve_decision. Defined.
Record ValidatedTransferSource := mkValidatedTransferSource {
  vs_transfer_id : string;
  vs_room_id : string;
  vs_source_relative_path : string;
  vs_resolved_path : string;
  vs_source_version : AgentFileTransferSourceVersion;
}.
Record TransferSourceValidationError := mkTransferSourceValidationError {
  te_failure_code : AgentFileTransferFailureCode; te_message : string }.
Record PreparedTransferUpload := mkPreparedTransferUpload {
  pu_source : ValidatedTransferSource; pu_upload_target : AgentFileTransferUploadTarget }.
(** [TransferUploadPreparationError] and [TransferUploadExecutionError] have the same fields. *)
Record TransferUploadError := mkTransferUploadError {
  tx_transfer_id : string;
  tx_failure_code : option AgentFileTransferFailureCode;
  tx_failure_reported : bool;
  tx_message : string;
}.
Record CompletedTransferUpload := mkCompletedTransferUpload { ct_transfer_id : string; ct_size_bytes : Z; ct_sha256 : string }.
Record TransferUploadPayload := mkTransferUploadPayload { tp_size_bytes : Z; tp_sha256 : string }.
Inductive FileTransferProcessingStatus := TransferCompleted | TransferFailed | TransferSkipped.
Record FileTransferProcessingResult := mkFileTransferProcessingResult {
  fr_transfer_id : string;
  fr_status : FileTransferProcessingStatus;
  fr_size_bytes : option Z;
  fr_sha256 : option string;
  fr_failure_code : option AgentFileTransferFailureCode;
  fr_failure_reported : bool;
  fr_message : option string;
}.
Record FileTransferProcessingReport := mkFileTransferProcessingReport {
  fs_inspected_count : Z;   (** [usize], as the counts below *)
  fs_uploaded_count : Z;
  fs_failed_count : Z;
  fs_skipped_count : Z;
  fs_results : list FileTransferProcessingResult;
}.

(** * Checking the source *)

Module TransferSource.
Definition outside_root (message : string) : TransferSourceValidationError := mkTransferSourceValidationError OutsideManagedRoot message.
Definition map_guard_error (error : PathGuardError) : TransferSourceValidationError :=
  mkTransferSourceValidationError (match error with MissingPath _ => SourceNotFound | _ => OutsideManagedRoot end) (PathGuard.fmt error).
Definition looks_like_windows_absolute (path : string) : bool :=
  match path with String a (String b _) => is_ascii_letter a && Ascii.eqb b ":" | _ => false end.
Definition validate_relative_path_shape (path : string) : result unit TransferSourceValidationError :=
  if is_empty path || (1024 <? slen path)%Z || contains_char "000" path || starts_with_separator path || looks_like_windows_absolute path
  then Err (outside_root "source path must be managed-root-relative")
  else if existsb (fun segment => is_empty segment || is_dot segment || is_dotdot segment) (split_on is_separator path)
  then Err (outside_root "source path cannot contain empty, current, or parent segments")
  else Ok tt.
Definition normalize_relative_path (path : string) : string := join "/" (split_on is_separator path).
(** The same conversion as in [cleanliness.rs]. *)
Definition unix_ms_to_rfc3339 : option Z -> string := Calendar.unix_ms_to_rfc3339.
Definition source_version_of (file_id : string) (metadata : inode) : AgentFileTransferSourceVersion :=
  mkAgentFileTransferSourceVersion file_id (inode_len metadata) (unix_ms_to_rfc3339 (modified_unix_ms metadata)).

Section tree.
Context (f : tree).

Definition validate_local_transfer_source (root_arg source_relative_path : string) (transfer_id room_id : option string)
  : result ValidatedTransferSource TransferSourceValidationError :=
  let? _ := validate_relative_path_shape source_relative_path in
  let? guard := map_err map_guard_error (PathGuard.new f root_arg) in
  let? resolved := map_err map_guard_error (PathGuard.resolve_existing f guard source_relative_path) in
  let unreadable := fun e => mkTransferSourceValidationError SourceNotFound ("cannot read source metadata: " +:+ io_error_str e) in
  let? original_metadata := map_err unreadable (symlink_metadata f (path_join (root guard) source_relative_path)) in
  if is_link_or_reparse_point original_metadata
  then Err (mkTransferSourceValidationError OutsideManagedRoot "source file is a symlink, junction, or reparse point")
  else
    let? metadata := map_err unreadable (metadata f resolved) in
    if negb (is_file_inode metadata) || (inode_len metadata =? 0)%Z
    then Err (mkTransferSourceValidationError SourceNotFound "source path is not a transferable non-empty file")
    else
      match file_id_for_path f resolved with
      | None => Err (mkTransferSourceValidationError SourceChanged "source file identity is unavailable")
      | Some file_id =>
          Ok (mkValidatedTransferSource (default "" transfer_id) (default "" room_id) (normalize_relative_path source_relative_path)
                resolved (source_version_of file_id metadata))
      end.

Definition changed (source : ValidatedTransferSource) (message : string) : TransferUploadError :=
  mkTransferUploadError (vs_transfer_id source) (Some SourceChanged) false message.
Definition ensure_source_unchanged (source : ValidatedTransferSource) : result unit TransferUploadError :=
  let? link_metadata := map_err (fun e => changed source ("cannot re-read source path metadata: " +:+ io_error_str e))
                          (symlink_metadata f (vs_resolved_path source)) in
  if is_link_or_reparse_point link_metadata
  then Err (changed source "source path became a symlink, junction, or reparse point")
  else
    let? metadata := map_err (fun e => changed source ("cannot re-read source metadata: " +:+ io_error_str e))
                       (metadata f (vs_resolved_path source)) in
    if negb (is_file_inode metadata) then Err (changed source "source is no longer a file")
    else
      match file_id_for_path f (vs_resolved_path source) with
      | None => Err (changed source "source file identity is unavailable before upload completion")
      | Some file_id =>
          if bool_decide (source_version_of file_id metadata = vs_source_version source) then Ok tt
          else Err (changed source "source file changed before upload completion")
      end.

(** Opening a file and reading it to its end. *)
Definition open_and_read (cannot_open cannot_read path : string) : result string string :=
  match metadata f path with
  | Err e => Err (cannot_open +:+ io_error_str e)
  | Ok _ => match read_to_string f path with Ok content => Ok content | Err e => Err (cannot_read +:+ io_error_str e) end
  end.
(** The chunks of the loop, joined. *)
Definition hash_source_payload `{!Sha256} (source : ValidatedTransferSource) : result TransferUploadPayload TransferUploadError :=
  let? content := map_err (changed source)
    (open_and_read "cannot open source file for upload: " "cannot read source file for upload: " (vs_resolved_path source)) in
  let size_bytes := Z.min (2 ^ 64 - 1) (slen content) in
  if negb (size_bytes =? fv_size_bytes (vs_source_version source))%Z
  then Err (changed source "source size changed while preparing upload")
  else Ok (mkTransferUploadPayload size_bytes (sha256_hex content)).
End tree.
End TransferSource.

(** * Processing *)

Module FileTransfer.
Definition upload_target_failure_code (message : string) : option AgentFileTransferFailureCode :=
  if contains message "SIZE_LIMIT_EXCEEDED" then Some SizeLimitExceeded else None.

Section processor.
Context {N V DB : Type} `{!SqlDb DB, !SqlTx DB, !SqlCount DB, !Http N V, !CredentialStore N, !JsonValue V, !Uploader N}.
Context `{!Serde ServerErrorResponse, !WorkCodecs V, !FileCodecs V, !PayloadCodecs V, !UrlParser, !Sha256}.
Context (status_text : Z -> string) (meanwhile : nat -> world DB -> world DB).
Abbreviation state := (office N DB).

(** The agent, its own errors kept. *)
Definition asking {A} (m : io (AgentState * N) AgentError A) : io state AgentError A := zoom fst (fun a st => (a, st.2)) m.
Definition on_network {E A} (m : io N E A) : io state E A := zoom (fun st => st.1.2) (fun n st => ((st.1.1, n), st.2)) m.
(** The [k]-th look at the files. *)
Definition look {E A} (k : nat) (g : tree -> result A E) : io state E A :=
  zoom (fun st => st.2.2) (fun w st => (st.1, (st.2.1, w))) (fun w => let w := meanwhile k w in (g (w_fs w), w)).

(** A body that cannot be read is not sent. *)
Definition put_upload_file (upload_url path : string) (size_bytes : Z) : io state string unit :=
  let! content := look 4 (fun f => TransferSource.open_and_read f "cannot open source file stream for upload: "
                                     "cannot stream file upload: " path) in
  let! response := on_network (fun n => let '(r, n) := upload_put upload_url size_bytes content n in (Ok r, n)) in
  match (response : option Z) with
  | None => io_fail "cannot stream file upload: "
  | Some status =>
      if is_success status then io_ret tt
      else io_fail ("upload target rejected file stream with HTTP " +:+ status_text status)
  end.

Definition put_upload_bytes (upload_url bytes : string) : io state string unit :=
  let! response := on_network (fun n => let '(r, n) := upload_put upload_url (slen bytes) bytes n in (Ok r, n)) in
  match (response : option Z) with
  | None => io_fail "cannot upload encrypted smart cache object: "
  | Some status =>
      if is_success status then io_ret tt
      else io_fail ("upload target rejected encrypted smart cache object with HTTP " +:+ status_text status)
  end.

Definition validate_transfer_source_for_request (transfer : AgentFileTransfer) : io state TransferSourceValidationError ValidatedTransferSource :=
  let! room := io_map_err (fun e => TransferSource.outside_root (fmt_error e)) (asking (AgentWork.root_id_for_room (V:=V) (ft_room_id transfer))) in
  let! managed_root := io_map_err TransferSource.outside_root
                         (on_roots (ManagedRoots.ensure_active_room_binding (ry_root_id room) (ft_room_id transfer))) in
  if negb (mr_enabled managed_root)
  then io_fail (TransferSource.outside_root ("managed root is disabled: " +:+ mr_root_id managed_root))
  else
    look 0 (fun f =>
      let? validated := TransferSource.validate_local_transfer_source f (mr_root managed_root) (ft_source_relative_path transfer)
                          (Some (ft_transfer_id transfer)) (Some (ft_room_id transfer)) in
      Ok (mkValidatedTransferSource (ft_transfer_id transfer) (ft_room_id transfer) (vs_source_relative_path validated)
            (vs_resolved_path validated) (vs_source_version validated))).

(** [agent.fail_file_transfer(...).await.is_ok()] *)
Definition report_failure {E} (transfer_id : string) (code : AgentFileTransferFailureCode) : io state E bool :=
  let! r := io_try (asking (AgentFiles.fail_file_transfer (V:=V) transfer_id code)) in
  io_ret (is_ok r).
Definition prepare_upload_target_for_transfer (transfer : AgentFileTransfer) : io state TransferUploadError PreparedTransferUpload :=
  if negb (ft_status transfer =? "REQUESTED")%string
  then io_fail (mkTransferUploadError (ft_transfer_id transfer) None false ("file transfer is not pending: " +:+ ft_status transfer))
  else
    let! validated := io_try (validate_transfer_source_for_request transfer) in
    match validated with
    | Err error =>
        let! failure_reported := report_failure (ft_transfer_id transfer) (te_failure_code error) in
        io_fail (mkTransferUploadError (ft_transfer_id transfer) (Some (te_failure_code error)) failure_reported (te_message error))
    | Ok source =>
        let! target := io_try (asking (AgentFiles.request_file_transfer_upload_target (V:=V) (ft_transfer_id transfer) (vs_source_version source))) in
        match target with
        | Ok upload_target => io_ret (mkPreparedTransferUpload source upload_target)
        | Err error =>
            let failure_code := upload_target_failure_code (ae_message error) in
            let! failure_reported := match failure_code with
                                     | Some code => report_failure (ft_transfer_id transfer) code
                                     | None => io_ret false
                                     end in
            io_fail (mkTransferUploadError (ft_transfer_id transfer) failure_code failure_reported (fmt_error error))
        end
    end.

Definition report_source_changed {A} (transfer_id : string) (error : TransferUploadError) : io state TransferUploadError A :=
  let! failure_reported := report_failure transfer_id SourceChanged in
  io_fail (mkTransferUploadError transfer_id (Some SourceChanged) failure_reported (tx_message error)).
(** A check of the source that reports its failure. *)
Definition checking {A} (source : ValidatedTransferSource) (m : io state TransferUploadError A) : io state TransferUploadError A :=
  let! r := io_try m in
  match r with
  | Ok a => io_ret a
  | Err error => report_source_changed (vs_transfer_id source) error
  end.
Definition ensure_unchanged (k : nat) (source : ValidatedTransferSource) : io state TransferUploadError unit :=
  checking source (look k (fun f => TransferSource.ensure_source_unchanged f source)).
Definition unreported (source : ValidatedTransferSource) (message : string) : TransferUploadError :=
  mkTransferUploadError (vs_transfer_id source) None false message.
Definition upload_prepared_transfer (outbox : OutboxStore) (prepared : PreparedTransferUpload)
  : io state TransferUploadError CompletedTransferUpload :=
  let source := pu_source prepared in
  do! ensure_unchanged 1 source;
  let! payload := checking source (look 2 (fun f => TransferSource.hash_source_payload f source)) in
  do! ensure_unchanged 3 source;
  do! io_map_err (unreported source)
        (put_upload_file (ut_upload_url (pu_upload_target prepared)) (vs_resolved_path source) (tp_size_bytes payload));
  do! ensure_unchanged 5 source;
  do! io_map_err (unreported source)
        (on_machine (OutboxProcessor.enqueue_file_transfer_completion (V:=V) outbox (vs_transfer_id source) (tp_size_bytes payload)
                       (tp_sha256 payload)));
  do! io_map_err (fun e => unreported source (fmt_error e))
        (asking (Agent.complete_file_transfer_upload (V:=V) (vs_transfer_id source)
                   (OutboxProcessor.file_transfer_completion_key (vs_transfer_id source)) (tp_size_bytes payload) (tp_sha256 payload)));
  io_ret (mkCompletedTransferUpload (vs_transfer_id source) (tp_size_bytes payload) (tp_sha256 payload)).

Definition process_one_transfer (outbox : OutboxStore) (transfer : AgentFileTransfer) : io state TransferUploadError CompletedTransferUpload :=
  let! prepared := prepare_upload_target_for_transfer transfer in
  upload_prepared_transfer outbox prepared.

Definition counted (transfer_id : string) (r : result CompletedTransferUpload TransferUploadError) (report : FileTransferProcessingReport)
  : FileTransferProcessingReport :=
  let row := fun up bad skip entry =>
    mkFileTransferProcessingReport (fs_inspected_count report) (fs_uploaded_count report + up) (fs_failed_count report + bad)
      (fs_skipped_count report + skip) (fs_results report ++ [entry]) in
  match r with
  | Ok completed =>
      row 1%Z 0%Z 0%Z (mkFileTransferProcessingResult transfer_id TransferCompleted (Some (ct_size_bytes completed))
                         (Some (ct_sha256 completed)) None false None)
  | Err error =>
      let told := fun status => mkFileTransferProcessingResult transfer_id status None None (tx_failure_code error)
                                  (tx_failure_reported error) (Some (tx_message error)) in
      if contains (tx_message error) "not pending" then row 0%Z 0%Z 1%Z (told TransferSkipped)
      else row 0%Z 1%Z 0%Z (told TransferFailed)
  end.
Definition process_pending_file_transfers (outbox : OutboxStore) : io state string FileTransferProcessingReport :=
  let! transfers := on_agent (AgentFiles.pending_file_transfers (V:=V)) in
  io_for (fun _ report transfer =>
      let! r := io_try (process_one_transfer outbox transfer) in
      io_ret (counted (ft_transfer_id transfer) r report))
    0 (mkFileTransferProcessingReport (Z.of_nat (length transfers)) 0 0 0 []) transfers.
End processor.
End FileTransfer.

(** * What a transfer uploads is the file that was checked, under its own size and hash. *)

(** * Versions and contents *)

(** The version of a regular file, and what is read of it. *)
Definition version_at (f : tree) (path : string) : option AgentFileTransferSourceVersion :=
  match metadata f path with
  | Ok i => if is_file_inode i then Some (TransferSource.source_version_of (file_id_of_inode i) i) else None
  | Err _ => None
  end.
Definition content_at (f : tree) (path : string) : option string := result_ok (read_to_string f path).

Lemma version_size f path v c : version_at f path = Some v -> content_at f path = Some c -> fv_size_bytes v = slen c.
Proof.
  unfold version_at, content_at, read_to_string. destruct (metadata f path) as [i|]; [|done]. simpl.
  destruct (is_file_inode i) eqn:Hi; [|done]. intros [= <-]. unfold TransferSource.source_version_of, inode_len. simpl.
  unfold is_file_inode in Hi. by destruct (i_kind i); [..|done]; intros [= <-].
Qed.
Lemma version_content f path v : version_at f path = Some v -> is_Some (content_at f path).
Proof.
  unfold version_at, content_at, read_to_string. destruct (metadata f path) as [i|]; [|done]. simpl.
  unfold is_file_inode. destruct (i_kind i); by eauto.
Qed.
Lemma file_id_metadata f path i : metadata f path = Ok i -> file_id_for_path f path = Some (file_id_of_inode i).
Proof. unfold file_id_for_path. by intros ->. Qed.

Lemma unchanged_version f source u :
  TransferSource.ensure_source_unchanged f source = Ok u -> version_at f (vs_resolved_path source) = Some (vs_source_version source).
Proof.
  unfold TransferSource.ensure_source_unchanged, version_at. destruct (symlink_metadata f _) as [l|]; [|done]. simpl.
  destruct (is_link_or_reparse_point l); [done|]. destruct (metadata f _) as [i|] eqn:Hm; [|done]. simpl.
  destruct (is_file_inode i); [|done]. simpl. rewrite (file_id_metadata _ _ _ Hm). by case_bool_decide as Hv; [rewrite Hv|].
Qed.
(** What passes the check of a source. *)
Definition checked_source (f : tree) (root_arg relative : string) (source : ValidatedTransferSource) : Prop :=
  TransferSource.validate_relative_path_shape relative = Ok tt /\
  exists guard l, PathGuard.new f root_arg = Ok guard /\
    PathGuard.resolve_existing f guard relative = Ok (vs_resolved_path source) /\
    symlink_metadata f (path_join (root guard) relative) = Ok l /\ is_link_inode l = false /\
    version_at f (vs_resolved_path source) = Some (vs_source_version source) /\ fv_size_bytes (vs_source_version source) <> 0%Z.
Lemma validate_checked f root_arg relative transfer_id room_id source :
  TransferSource.validate_local_transfer_source f root_arg relative transfer_id room_id = Ok source ->
  checked_source f root_arg relative source.
Proof.
  unfold TransferSource.validate_local_transfer_source. intros H. split; [by destruct (TransferSource.validate_relative_path_shape relative) as [[]|]|].
  destruct (TransferSource.validate_relative_path_shape relative); [|done].
  destruct (PathGuard.new f root_arg) as [guard|] eqn:Hg; [|done]. simpl in H.
  destruct (PathGuard.resolve_existing f guard relative) as [path|] eqn:Hp; [|done]. simpl in H.
  destruct (symlink_metadata f (path_join (root guard) relative)) as [l|] eqn:Hl; [|done]. simpl in H.
  destruct (is_link_or_reparse_point l) eqn:Hlink; [done|]. destruct (metadata f path) as [i|] eqn:Hi; [|done]. simpl in H.
  destruct (is_file_inode i) eqn:Hfile; [|done]. simpl in H. destruct (inode_len i =? 0)%Z eqn:Hlen; [done|].
  rewrite (file_id_metadata _ _ _ Hi) in H. injection H as <-. exists guard, l. simpl. unfold version_at. rewrite Hi, Hfile.
  split_and!; try done; [by apply orb_false_iff in Hlink as [? _]|]. by apply Z.eqb_neq.
Qed.

(** * Interference *)

Section transfer.
Context {N V DB : Type} `{!SqlDb DB, !SqlTx DB, !SqlCount DB, !Http N V, !CredentialStore N, !JsonValue V, uploads : !Uploader N}.
Context `{errors : !Serde ServerErrorResponse, !WorkCodecs V, !FileCodecs V, !PayloadCodecs V, parser : !UrlParser, hash : !Sha256}.
Context (status_text : Z -> string) (meanwhile : nat -> world DB -> world DB).
Abbreviation state := (office N DB).
Implicit Types (st : state) (t : tree).

(** The machine at the [k]-th look, from the machine [w] before the looks. *)
Fixpoint at_look (k : nat) (w : world DB) : world DB := meanwhile k (match k with O => w | S k => at_look k w end).
(** A file that has the same version at two looks had the same content at both and at
    every look between them: its version is not restored after a change. *)
Definition versions_tell : Prop :=
  forall w i j k path v, (i <= j <= k)%nat ->
    version_at (w_fs (at_look i w)) path = Some v -> version_at (w_fs (at_look k w)) path = Some v ->
    content_at (w_fs (at_look j w)) path = content_at (w_fs (at_look i w)) path.

Definition files_of st : tree := w_fs st.2.2.
Lemma look_run {E A} k (g : tree -> result A E) st r st' :
  FileTransfer.look meanwhile k g st = (r, st') -> st' = (st.1, (st.2.1, meanwhile k st.2.2)) /\ r = g (files_of st').
Proof. unfold FileTransfer.look, zoom, files_of. by intros [= <- <-]. Qed.
Lemma asking_run {A} (m : io (AgentState * N) AgentError A) st r st' :
  FileTransfer.asking m st = (r, st') -> exists a, m st.1 = (r, a) /\ st' = (a, st.2).
Proof. intros (a & H & ->)%zoom_run. by exists a. Qed.
(** A check that succeeds is its look. *)
Lemma checking_ok {A} source (m : io state TransferUploadError A) st a st' :
  FileTransfer.checking (V:=V) source m st = (Ok a, st') -> m st = (Ok a, st').
Proof.
  intros (r & st1 & H1 & H2)%io_bind_ok. unfold io_try in H1. destruct (m st) as [r1 st1'] eqn:Hm. injection H1 as <- <-.
  destruct r1 as [b|e]; [by injection H2 as <- <-|]. unfold FileTransfer.report_source_changed in H2.
  by apply io_bind_ok in H2 as (x & st2 & _ & H2).
Qed.
Lemma ensure_run k source st u st' :
  FileTransfer.ensure_unchanged (V:=V) meanwhile k source st = (Ok u, st') ->
  st' = (st.1, (st.2.1, meanwhile k st.2.2)) /\ version_at (files_of st') (vs_resolved_path source) = Some (vs_source_version source).
Proof. intros [H Hr]%checking_ok%look_run. split; [done|]. by eapply unchanged_version. Qed.

(** The upload: the bytes it read, which the address accepted. *)
Lemma put_run url path size st u st' :
  FileTransfer.put_upload_file status_text meanwhile url path size st = (Ok u, st') ->
  exists body status n, content_at (w_fs (meanwhile 4 st.2.2)) path = Some body /\
    upload_put url size body st.1.2 = (Some status, n) /\ is_success status = true /\
    st' = ((st.1.1, n), (st.2.1, meanwhile 4 st.2.2)).
Proof.
  intros (body & st1 & [-> Hb]%look_run & H2)%io_bind_ok.
  apply io_bind_ok in H2 as (resp & st2 & H2 & H3). unfold FileTransfer.on_network in H2. apply zoom_run in H2 as (n1 & H2 & ->).
  cbn [fst snd] in *. destruct (upload_put url size body st.1.2) as [r n2] eqn:Hput. injection H2 as <- <-. destruct r as [status|]; [|done].
  destruct (is_success status) eqn:Hs; [|done]. injection H3 as _ <-. exists body, status, n2. split_and!; try done.
  unfold TransferSource.open_and_read, files_of in Hb. simpl in Hb. unfold content_at.
  by destruct (metadata _ path); [destruct (read_to_string _ path); [injection Hb as ->|]|].
Qed.

(** ** What a completed transfer did *)

(** The source: the server's folder for the room is looked up, is bound to the room on this
    machine and enabled, and the path of the request is checked in its root at the first
    look, before which the machine is [w]. *)
Definition prepares (transfer : AgentFileTransfer) st (source : ValidatedTransferSource) (a : AgentState * N) (roots : RootStore) (w : world DB) : Prop :=
  exists room folder,
    AgentWork.root_id_for_room (V:=V) (ft_room_id transfer) st.1 = (Ok room, a) /\
    ManagedRoots.ensure_active_room_binding (ry_root_id room) (ft_room_id transfer) st.2 = (Ok folder, (roots, w)) /\
    mr_enabled folder = true /\
    checked_source (w_fs (at_look 0 w)) (mr_root folder) (ft_source_relative_path transfer) source.
(** The upload: the server, told the version of the source, gives an address [url], which
    accepts the bytes [body]; these are what the source holds at every look, and it has the
    version to the last. *)
Definition delivers (transfer : AgentFileTransfer) (source : ValidatedTransferSource) (a : AgentState * N) (w : world DB) (body : string)
    (a' : AgentState * N) : Prop :=
  exists target a1 status,
    AgentFiles.request_file_transfer_upload_target (V:=V) (ft_transfer_id transfer) (vs_source_version source) a = (Ok target, a1) /\
    upload_put (ut_upload_url target) (slen body) body a1.2 = (Some status, a'.2) /\ is_success status = true /\ a'.1 = a1.1 /\
    forall k, (k <= 5)%nat -> content_at (w_fs (at_look k w)) (vs_resolved_path source) = Some body /\
      (k ∈ [0; 1; 3; 5]%nat -> version_at (w_fs (at_look k w)) (vs_resolved_path source) = Some (vs_source_version source)).
(** The completion is queued, and then told to the server, which takes it. *)
Definition completes (outbox : OutboxStore) (completed : CompletedTransferUpload) (a : AgentState * N) (w : world DB) st' : Prop :=
  let id := ct_transfer_id completed in
  OutboxProcessor.enqueue_file_transfer_completion (V:=V) outbox id (ct_size_bytes completed) (ct_sha256 completed) w = (Ok tt, st'.2.2) /\
  exists answer, Agent.complete_file_transfer_upload (V:=V) id (OutboxProcessor.file_transfer_completion_key id)
    (ct_size_bytes completed) (ct_sha256 completed) a = (Ok answer, st'.1).
Definition sent (outbox : OutboxStore) (transfer : AgentFileTransfer) st (completed : CompletedTransferUpload) st' : Prop :=
  exists source a roots w body a',
    prepares transfer st source a roots w /\ delivers transfer source a w body a' /\
    completed = mkCompletedTransferUpload (ft_transfer_id transfer) (slen body) (sha256_hex body) /\
    completes outbox completed a' (at_look 5 w) st'.

Lemma prepare_run transfer st prepared st' :
  FileTransfer.prepare_upload_target_for_transfer (V:=V) meanwhile transfer st = (Ok prepared, st') ->
  ft_status transfer = "REQUESTED" /\ vs_transfer_id (pu_source prepared) = ft_transfer_id transfer /\
  exists a roots w, prepares transfer st (pu_source prepared) a roots w /\ st'.2 = (roots, at_look 0 w) /\
    AgentFiles.request_file_transfer_upload_target (V:=V) (ft_transfer_id transfer) (vs_source_version (pu_source prepared)) a
      = (Ok (pu_upload_target prepared), st'.1).
Proof.
  unfold FileTransfer.prepare_upload_target_for_transfer. destruct (ft_status transfer =? "REQUESTED")%string eqn:Hs; [|done].
  apply String.eqb_eq in Hs. simpl. intros (r & st1 & H1 & H2)%io_bind_ok. split; [done|]. unfold io_try in H1.
  destruct (FileTransfer.validate_transfer_source_for_request _ _ st) as [v st1'] eqn:Hv. injection H1 as <- <-.
  destruct v as [source|error]; [|by apply io_bind_ok in H2 as (? & ? & _ & H2)].
  apply io_bind_ok in H2 as (target & st2 & Ht & H2). unfold io_try in Ht.
  destruct (FileTransfer.asking _ st1') as [t st2'] eqn:Hask in Ht. injection Ht as <- <-.
  destruct t as [u|e]; [injection H2 as <- <-|by apply io_bind_ok in H2 as (? & ? & _ & H2)]. simpl.
  apply asking_run in Hask as (a2 & Hask & ->). unfold FileTransfer.validate_transfer_source_for_request in Hv.
  apply io_bind_ok in Hv as (room & st3 & Hroom & Hv). apply io_map_err_ok, asking_run in Hroom as (a & Hroom & ->).
  apply io_bind_ok in Hv as (mr & st4 & Hmr & Hv). apply io_map_err_ok, on_roots_run in Hmr as ([roots w] & Hmr & ->).
  destruct (mr_enabled mr) eqn:Hen; [|done]. apply look_run in Hv as [-> Hv].
  destruct (TransferSource.validate_local_transfer_source _ _ _ _ _) as [s|] eqn:Hs'; [|done]. injection Hv as ->.
  split; [done|]. exists a, roots, w. simpl in *. split_and!; [|done..].
  exists room, mr. split_and!; [done..|]. by apply validate_checked in Hs'.
Qed.

Lemma upload_run outbox prepared st w completed st' :
  versions_tell -> let source := pu_source prepared in st.2.2 = at_look 0 w ->
  version_at (w_fs (at_look 0 w)) (vs_resolved_path source) = Some (vs_source_version source) ->
  FileTransfer.upload_prepared_transfer (V:=V) status_text meanwhile outbox prepared st = (Ok completed, st') ->
  exists body status n,
    upload_put (ut_upload_url (pu_upload_target prepared)) (slen body) body st.1.2 = (Some status, n) /\ is_success status = true /\
    completed = mkCompletedTransferUpload (vs_transfer_id source) (slen body) (sha256_hex body) /\
    (forall k, (k <= 5)%nat -> content_at (w_fs (at_look k w)) (vs_resolved_path source) = Some body /\
      (k ∈ [0; 1; 3; 5]%nat -> version_at (w_fs (at_look k w)) (vs_resolved_path source) = Some (vs_source_version source))) /\
    completes outbox completed (st.1.1, n) (at_look 5 w) st'.
Proof.
  intros Htell source Hw V0 H. unfold FileTransfer.upload_prepared_transfer in H. fold source in H.
  apply io_bind_ok in H as (u1 & st1 & [-> V1]%ensure_run & H).
  apply io_bind_ok in H as (payload & st2 & [-> Hash]%checking_ok%look_run & H).
  apply io_bind_ok in H as (u3 & st3 & [-> V3]%ensure_run & H).
  apply io_bind_ok in H as (u4 & st4 & (body & status & n & Hb & Hput & Hst & ->)%io_map_err_ok%put_run & H).
  apply io_bind_ok in H as (u5 & st5 & [-> V5]%ensure_run & H).
  apply io_bind_ok in H as ([] & st6 & H6 & H). apply io_map_err_ok, on_machine_run in H6 as (w6 & H6 & ->).
  apply io_bind_ok in H as (answer & st7 & H7 & H). apply io_map_err_ok, asking_run in H7 as (a7 & H7 & ->). injection H as <- <-.
  unfold files_of, machine_of in *. cbn [fst snd ct_size_bytes ct_sha256] in *. rewrite Hw in *.
  change (meanwhile 1 (at_look 0 w)) with (at_look 1 w) in *. change (meanwhile 2 (at_look 1 w)) with (at_look 2 w) in *.
  change (meanwhile 3 (at_look 2 w)) with (at_look 3 w) in *. change (meanwhile 4 (at_look 3 w)) with (at_look 4 w) in *.
  change (meanwhile 5 (at_look 4 w)) with (at_look 5 w) in *.
  assert (forall k, (k <= 5)%nat -> content_at (w_fs (at_look k w)) (vs_resolved_path source) = Some body) as Hall.
  { pose proof (fun k Hk => Htell w 0 k 5 _ _ (conj (Nat.le_0_l k) Hk) V0 V5)%nat as Hsame. intros k Hk.
    rewrite (Hsame k Hk), <- (Hsame 4%nat); [exact Hb|lia]. }
  assert (payload = mkTransferUploadPayload (slen body) (sha256_hex body)) as ->.
  { unfold TransferSource.hash_source_payload, TransferSource.open_and_read in Hash. pose proof (Hall 2%nat ltac:(lia)) as Hb2.
    pose proof (version_size _ _ _ _ V3 (Hall 3%nat ltac:(lia))) as Hsize. unfold content_at in Hb2.
    destruct (metadata _ _); [|done]. destruct (read_to_string _ _) as [content|]; [|done]. injection Hb2 as ->. simpl in Hash.
    rewrite Hsize in Hash. destruct (_ =? slen body)%Z eqn:He in Hash; [|done]. apply Z.eqb_eq in He. injection Hash as ->. by rewrite He. }
  exists body, status, n. split_and!; [done..| |].
  - intros k Hk. split; [by apply Hall|]. intros Hin. apply list_elem_of_In in Hin. simpl in Hin. by destruct Hin as [<-|[<-|[<-|[<-|[]]]]].
  - split; [exact H6|]. by exists answer.
Qed.

(** C9: A file that another device asked for is sent as it was checked: when processing a
    transfer ends well, its request was pending; the folder of its room, as the server and
    the registry name it in this run, is enabled, and the path asked for, looked at first,
    lies in that folder after every link is resolved, is itself no link, and is a non-empty
    file of the version that the server is then told. Provided that no other program changes
    the file between two looks at it and gives it its old version - identity, size and time -
    back, which the code cannot see: the file holds the same bytes at every look to the last,
    whatever else other programs do; the address that the server gave accepted exactly these
    bytes, declared under their own length; and the completion that is queued and then told
    to the server carries that length and the hash of those bytes. *)
Theorem transfer_sends_source outbox transfer st completed st' :
  versions_tell -> FileTransfer.process_one_transfer (V:=V) status_text meanwhile outbox transfer st = (Ok completed, st') ->
  ft_status transfer = "REQUESTED" /\ sent outbox transfer st completed st'.
Proof.
  intros Htell (prepared & st1 & (Hs & Hid & a & roots & w & Hp & Hm & Hask)%prepare_run & H2)%io_bind_ok. split; [done|].
  assert (version_at (w_fs (at_look 0 w)) (vs_resolved_path (pu_source prepared)) = Some (vs_source_version (pu_source prepared))) as V0
    by (destruct Hp as (? & ? & _ & _ & _ & _ & ? & ? & _ & _ & _ & _ & H & _); exact H).
  apply (upload_run outbox prepared st1 w) in H2 as (body & status & n & H3 & H4 & -> & H5 & H6); [|done|by rewrite Hm|exact V0].
  rewrite Hid in *. exists (pu_source prepared), a, roots, w, body, (st1.1.1, n). split_and!; [done| |done..].
  by exists (pu_upload_target prepared), st1.1, status.
Qed.
End transfer.

(** * Transfers on a concrete machine: one that is sent, and what happens when the file is
    changed meanwhile, or is not there. *)

(** A server that grants every upload, and an address that takes it. *)
#[local] Instance granted : FileCodecs value_tree := {|
  codec_browse_requests := no_codec _; codec_transfers := no_codec _;
  codec_transfer_response := {| to_text _ := ""; from_text _ := Some (mkFileTransferResponse "transfer-1" "room-1" "a.txt" "UPLOADING" "soon" None None None) |};
  codec_upload_target := {| to_text _ := ""; from_text _ := Some (mkFileTransferUploadTargetResponse "transfer-1" "https://store/1" "soon") |};
  codec_cache_policy := no_codec _; codec_cache_batch := no_codec _; codec_tools := no_codec _ |}.
#[local] Instance any_url : UrlParser := fun _ => Some ("https", Some "store").
#[local] Instance takes_all : Uploader helpful := fun _ _ _ n => (Some 200%Z, n).
#[local] Instance short_hash : Sha256 := fun s => if (s =? "hello")%string then String "1" (zeros 63) else zeros 64.

Definition requested (path : string) : AgentFileTransfer := mkAgentFileTransfer "transfer-1" "room-1" path "REQUESTED" "soon" None None None.
(** The processing of one transfer while [meanwhile] happens. *)
Definition transferred (meanwhile : nat -> world deskdb -> world deskdb) (path : string) :=
  FileTransfer.process_one_transfer (V:=value_tree) fmt_int meanwhile sample_outbox (requested path) desk.
Definition undisturbed (k : nat) (w : world deskdb) : world deskdb := w.
Strategy 1000 [transferred].

Lemma undisturbed_tells : versions_tell undisturbed.
Proof.
  assert (forall k w, at_look undisturbed k w = w) as H by (induction k as [|k IH]; intros w; [done|exact (IH w)]).
  intros w i j k path v _ _ _. by rewrite !H.
Qed.
Lemma transfer_sends_source_witness :
  exists completed st', transferred undisturbed "a.txt" = (Ok completed, st') /\
    sent (V:=value_tree) (N:=helpful) undisturbed sample_outbox (requested "a.txt") desk completed st' /\ ct_size_bytes completed = 5%Z.
Proof.
  assert (match (transferred undisturbed "a.txt").1 with Ok c => (ct_size_bytes c =? 5)%Z | Err _ => false end = true) as Hsize
    by (vm_compute; reflexivity).
  destruct (transferred undisturbed "a.txt") as [[completed|e] st'] eqn:H; [|discriminate Hsize].
  exists completed, st'. split; [reflexivity|]. split; [|by apply Z.eqb_eq].
  exact (proj2 (transfer_sends_source fmt_int undisturbed sample_outbox (requested "a.txt") desk completed st' undisturbed_tells H)).
Defined.

(** * Edge cases *)

(** The file as another program leaves it at its [k]-th look. *)
Definition rewritten (k : nat) (content : string) (mtime : Z) (k' : nat) (w : world deskdb) : world deskdb :=
  if Nat.eqb k k' then set_fs (<[["home"; "root"; "a.txt"] := mkInode (KFile content) mtime None 6]> (w_fs w)) w else w.
Definition failure (r : result CompletedTransferUpload TransferUploadError) : option (option AgentFileTransferFailureCode * bool) :=
  match r with Ok _ => None | Err e => Some (tx_failure_code e, tx_failure_reported e) end.
(** Whatever the moment, another version ends the transfer, and the server is told. *)
Example change_ends_transfer :
  map (fun k => failure (transferred (rewritten k "hi" 77) "a.txt").1) (seq 1 5) = repeat (Some (Some SourceChanged, true)) 5.
Proof. vm_compute. reflexivity. Qed.
(** A change between two checks that restores the size, the time and the identity of the
    file is not seen: the bytes sent are not those of the hash. *)
Example restored_version_unseen :
  let '(r, st') := transferred (rewritten 4 "jello" 1600000000000000000) "a.txt" in
  option_map ct_sha256 (result_ok r) = Some (sha256_hex "hello") /\ content_at (files_of st') "/home/root/a.txt" = Some "jello".
Proof. vm_compute. split; reflexivity. Qed.
(** A transfer is taken for skipped by the words of its message, which may come from the
    path: a failure that the server was told of is counted as skipped. *)
Example failure_counted_as_skipped :
  let r := (transferred undisturbed "not pending.txt").1 in
  let report := FileTransfer.counted "transfer-1" r (mkFileTransferProcessingReport 1 0 0 0 []) in
  failure r = Some (Some SourceNotFound, true) /\ fs_failed_count report = 0%Z /\ fs_skipped_count report = 1%Z.
Proof. vm_compute. split_and!; reflexivity. Qed.
(** A link out of the folder is not sent. *)
Example link_not_sent : failure (transferred undisturbed "escape").1 = Some (Some OutsideManagedRoot, true).
Proof. vm_compute. reflexivity. Qed.
