(* ===== verification/policy_glob.v ===== *)
(** The patterns of the smart cache policy [apps/desktop/src-tauri/src/smart_cache_processor.rs]:
    a table of what is reachable, filled token by token, decides what a pattern means. *)
From Stdlib Require Import ZArith Lia Ascii.
From stdpp Require Import strings pretty gmap functions option list.
From S2P Require Import prelude rust_str.

Open Scope string_scope.
Open Scope list_scope.

Inductive PolicyGlobToken := Literal (c : string) | AnySegment | OneSegment | AnyDeep.

Module PolicyGlob.
(** [parse_policy_glob], on the characters that are left. *)
Fixpoint parse_tokens (pattern : list string) : list PolicyGlobToken :=
  match pattern with
  | [] => []
  | c :: rest =>
      if (c =? "*")%string then
        match rest with
        | d :: rest' => if (d =? "*")%string then AnyDeep :: parse_tokens rest' else AnySegment :: parse_tokens rest
        | [] => [AnySegment]
        end
      else if (c =? "?")%string then OneSegment :: parse_tokens rest
      else Literal c :: parse_tokens rest
  end.
Definition parse_policy_glob (pattern : string) : list PolicyGlobToken := parse_tokens (chars pattern).

(** The rows of the table; the row of the next token, as the loops fill it. *)
Definition mark (i : nat) (row : list bool) : list bool := <[i := true]> row.
(** Marks what follows [i] while the characters [l] there are of a segment. *)
Fixpoint mark_segment (l : list string) (i : nat) (row : list bool) : list bool :=
  match l with
  | [] => row
  | c :: l => if (c =? "/")%string then row else mark_segment l (S i) (mark (S i) row)
  end.
Fixpoint mark_all (l : list string) (i : nat) (row : list bool) : list bool :=
  match l with [] => row | _ :: l => mark_all l (S i) (mark (S i) row) end.
Definition reach (token : PolicyGlobToken) (value : list string) (i : nat) (next : list bool) : list bool :=
  match token with
  | Literal expected => if bool_decide (value !! i = Some expected) then mark (S i) next else next
  | AnySegment => mark_segment (drop i value) i (mark i next)
  | OneSegment => match value !! i with
                  | Some c => if (c =? "/")%string then next else mark (S i) next
                  | None => next
                  end
  | AnyDeep => mark_all (drop i value) i (mark i next)
  end.
Definition next_row (value : list string) (row : list bool) (token : PolicyGlobToken) : list bool :=
  foldl (fun next i => if default false (row !! i) then reach token value i next else next)
    (replicate (S (length value)) false) (seq 0 (S (length value))).
Definition first_row (value : list string) : list bool := true :: replicate (length value) false.
Definition glob_matches (pattern value : string) : bool :=
  let value := chars value in
  default false (foldl (next_row value) (first_row value) (parse_policy_glob pattern) !! length value).

Definition normalize_policy_pattern (pattern : string) : string := replace_char "\" "/" (trim pattern).
Definition matches_policy_pattern (relative_path : string) (patterns : list string) : bool :=
  existsb (fun pattern => glob_matches (normalize_policy_pattern pattern) (replace_char "\" "/" relative_path)) patterns.
End PolicyGlob.

(** * What a pattern means *)

(** The texts that the characters of a pattern stand for, read from the left: two stars for
    any text, a star that is not followed by another for any text within a segment, a
    question mark for one character of a segment, any other character for itself. *)
Inductive stands_for : list string -> list string -> Prop :=
| stands_end : stands_for [] []
| stands_deep w p t : stands_for p t -> stands_for ("*" :: "*" :: p) (w ++ t)
| stands_segment w p t : head p <> Some "*" -> "/" ∉ w -> stands_for p t -> stands_for ("*" :: p) (w ++ t)
| stands_one c p t : c <> "/" -> stands_for p t -> stands_for ("?" :: p) (c :: t)
| stands_literal c p t : c <> "*" -> c <> "?" -> stands_for p t -> stands_for (c :: p) (c :: t).

(** ** The same, of tokens *)

(** [**] stands for any text, [*] for any within a segment, [?] for one character of one. *)
Definition token_spec (token : PolicyGlobToken) (w : list string) : Prop :=
  match token with
  | Literal c => w = [c]
  | AnySegment => "/" ∉ w
  | OneSegment => exists c, w = [c] /\ c <> "/"
  | AnyDeep => True
  end.
Inductive policy_spec : list PolicyGlobToken -> list string -> Prop :=
| policy_nil : policy_spec [] []
| policy_token k ks w t : token_spec k w -> policy_spec ks t -> policy_spec (k :: ks) (w ++ t).

Lemma policy_spec_snoc ks k u : policy_spec (ks ++ [k]) u <-> exists u1 w, u = u1 ++ w /\ policy_spec ks u1 /\ token_spec k w.
Proof.
  split.
  - revert u. induction ks as [|k' ks IH]; intros u H; simpl in H; inversion H as [|? ? w t Hw Ht]; subst.
    + inversion Ht; subst. exists [], w. rewrite app_nil_r. split_and!; [done|constructor|done].
    + apply IH in Ht as (u1 & v & -> & H1 & H2). exists (w ++ u1), v. rewrite app_assoc. split_and!; [done|by constructor|done].
  - intros (u1 & w & -> & H1 & H2). induction H1 as [|k' ks w' t Hw' Ht IH]; simpl.
    + rewrite <- (app_nil_r w). repeat constructor. done.
    + rewrite <- app_assoc. by constructor.
Qed.

Section table.
Context (value : list string).
Local Abbreviation len := (length value).
Definition marked (row : list bool) (j : nat) : Prop := row !! j = Some true.
(** The text of [value] from [i] to [j]. *)
Definition between (i j : nat) : list string := take (j - i) (drop i value).

Lemma marked_mark i row j : i < length row -> marked (PolicyGlob.mark i row) j <-> marked row j \/ j = i.
Proof.
  intros Hi. unfold marked, PolicyGlob.mark. destruct (decide (j = i)) as [->|Hj].
  - rewrite list_lookup_insert_eq by done. by split; [right|].
  - rewrite list_lookup_insert_ne by done. by split; [left|intros [?|?]].
Qed.
Lemma marked_segment l i row j :
  i + length l < length row ->
  marked (PolicyGlob.mark_segment l i row) j <-> marked row j \/ exists n, n < length l /\ j = i + S n /\ "/" ∉ take (S n) l.
Proof.
  revert i row. induction l as [|c l IH]; intros i row Hl; simpl in *.
  - split; [by left|]. intros [H|(n & Hn & _)]; [done|lia].
  - destruct (String.eqb_spec c "/") as [->|Hc].
    + split; [by left|]. intros [H|(n & _ & _ & Hn)]; [done|]. destruct Hn. by left.
    + rewrite IH, marked_mark by (unfold PolicyGlob.mark; rewrite ?length_insert; lia). split.
      * intros [[H|H]|(n & Hn & H & Hs)]; [by left|right..].
        -- exists 0. split_and!; [lia|lia|]. simpl. rewrite take_0, list_elem_of_singleton. congruence.
        -- exists (S n). split_and!; [lia|lia|]. apply not_elem_of_cons. split; [congruence|done].
      * intros [H|(n & Hn & H & Hs)]; [by left; left|]. apply not_elem_of_cons in Hs as [_ Hs].
        destruct n as [|n]; [left; right; lia|]. right. exists n. split_and!; [lia|lia|done].
Qed.
Lemma marked_all l i row j :
  i + length l < length row -> marked (PolicyGlob.mark_all l i row) j <-> marked row j \/ exists n, n < length l /\ j = i + S n.
Proof.
  revert i row. induction l as [|c l IH]; intros i row Hl; simpl in *.
  - split; [by left|]. intros [H|(n & Hn & _)]; [done|lia].
  - rewrite IH, marked_mark by (unfold PolicyGlob.mark; rewrite ?length_insert; lia). split.
    + intros [[H|H]|(n & Hn & H)]; [by left|right; exists 0; lia|right; exists (S n); lia].
    + intros [H|(n & Hn & H)]; [by left; left|]. destruct n as [|n]; [left; right; lia|right; exists n; lia].
Qed.
Lemma mark_segment_length l i row : length (PolicyGlob.mark_segment l i row) = length row.
Proof.
  revert i row. induction l as [|c l IH]; intros i row; simpl; [done|]. destruct (c =? "/")%string; [done|].
  by rewrite IH; unfold PolicyGlob.mark; rewrite length_insert.
Qed.
Lemma mark_all_length l i row : length (PolicyGlob.mark_all l i row) = length row.
Proof. revert i row. induction l as [|c l IH]; intros i row; simpl; [done|]. by rewrite IH; unfold PolicyGlob.mark; rewrite length_insert. Qed.
Lemma reach_length k i next : length (PolicyGlob.reach k value i next) = length next.
Proof.
  unfold PolicyGlob.reach. destruct k as [c| | |]; rewrite ?mark_segment_length, ?mark_all_length; unfold PolicyGlob.mark;
    repeat case_match; by rewrite ?length_insert.
Qed.

Lemma between_one i j c : i <= j <= len -> between i j = [c] <-> j = S i /\ value !! i = Some c.
Proof.
  intros Hij. unfold between. split.
  - intros H. assert (length (take (j - i) (drop i value)) = 1) as Hl by (by rewrite H).
    rewrite length_take, length_drop in Hl. assert (j = S i) as -> by lia. split; [done|].
    replace (S i - i) with 1 in H by lia. rewrite <- (Nat.add_0_r i), <- lookup_drop. by destruct (drop i value); [|injection H as ->].
  - intros [-> H]. replace (S i - i) with 1 by lia. by rewrite (drop_S _ _ _ H).
Qed.
Lemma between_grow i j : i <= j <= len -> j = i \/ exists n, n < length (drop i value) /\ j = i + S n.
Proof. intros H. rewrite length_drop. destruct (decide (j = i)); [by left|right]. exists (j - i - 1). lia. Qed.
Lemma marked_reach k i next j :
  i <= len -> length next = S len ->
  marked (PolicyGlob.reach k value i next) j <-> marked next j \/ (i <= j <= len /\ token_spec k (between i j)).
Proof.
  intros Hi Hnext. unfold PolicyGlob.reach. destruct k as [c| | |]; simpl.
  - case_bool_decide as Hc.
    + pose proof (lookup_lt_Some _ _ _ Hc). rewrite marked_mark by lia. split.
      * intros [H'| ->]; [by left|right]. split; [lia|]. by apply between_one; [lia|].
      * intros [H'|[Hj H']]; [by left|right]. by apply between_one in H' as [-> _].
    + split; [by left|]. intros [H'|[Hj H']]; [done|]. by apply between_one in H' as [_ H'].
  - rewrite marked_segment, marked_mark by (unfold PolicyGlob.mark; rewrite ?length_insert, ?length_drop; lia). split.
    + intros [[H| ->]|(n & Hn & -> & Hs)]; [by left|right..].
      * split; [lia|]. unfold between. rewrite Nat.sub_diag. apply not_elem_of_nil.
      * rewrite length_drop in Hn. split; [lia|]. unfold between. by replace (i + S n - i) with (S n) by lia.
    + intros [H|[Hj Hs]]; [by left; left|]. destruct (between_grow i j Hj) as [->|(n & Hn & ->)]; [by left; right|right].
      exists n. split_and!; [done..|]. unfold between in Hs. by replace (i + S n - i) with (S n) in Hs by lia.
  - destruct (value !! i) as [c|] eqn:Hc.
    + pose proof (lookup_lt_Some _ _ _ Hc). destruct (String.eqb_spec c "/") as [->|Hne].
      * split; [by left|]. intros [H'|[Hj (d & H' & Hd)]]; [done|]. apply between_one in H' as [_ H']; [congruence|done].
      * rewrite marked_mark by lia. split.
        -- intros [H'| ->]; [by left|right]. split; [lia|]. exists c. split; [|done]. by apply between_one; [lia|].
        -- intros [H'|[Hj (d & H' & _)]]; [by left|right]. by apply between_one in H' as [-> _].
    + split; [by left|]. intros [H'|[Hj (d & H' & _)]]; [done|]. apply between_one in H' as [_ H']; [congruence|done].
  - rewrite marked_all, marked_mark by (unfold PolicyGlob.mark; rewrite ?length_insert, ?length_drop; lia). split.
    + intros [[H| ->]|(n & Hn & ->)]; [by left|right; split; [lia|done]|]. rewrite length_drop in Hn. right. split; [lia|done].
    + intros [H|[Hj _]]; [by left; left|]. destruct (between_grow i j Hj) as [->|(n & Hn & ->)]; [by left; right|right; by exists n].
Qed.

(** ** A row, and the rows *)

Lemma fill_row k row ps next j :
  Forall (fun i => i <= len) ps -> length next = S len ->
  let next' := foldl (fun next i => if default false (row !! i) then PolicyGlob.reach k value i next else next) next ps in
  length next' = S len /\
  (marked next' j <-> marked next j \/ exists i, i ∈ ps /\ marked row i /\ i <= j <= len /\ token_spec k (between i j)).
Proof.
  revert next. induction ps as [|i ps IH]; intros next His Hnext; simpl.
  - split; [done|]. split; [by left|]. intros [H|(i & H & _)]; [done|by apply not_elem_of_nil in H].
  - apply Forall_cons in His as [Hi His]. set (next1 := if default false (row !! i) then _ else _).
    assert (length next1 = S len) as H1 by (unfold next1; destruct (default _ _); by rewrite ?reach_length).
    destruct (IH next1 His H1) as [H2 H3]. split; [exact H2|]. rewrite H3.
    assert (marked next1 j <-> marked next j \/ (marked row i /\ i <= j <= len /\ token_spec k (between i j))) as ->.
    { unfold next1, marked at 3. destruct (row !! i) as [[]|]; simpl; [rewrite marked_reach by done|..]; intuition discriminate. }
    split.
    + intros [[H|H]|(i' & Hin & H)]; [by left|right; exists i; split; [by left|done]|right; exists i'; split; [by right|done]].
    + intros [H|(i' & Hin & H)]; [by left; left|]. apply elem_of_cons in Hin as [->|Hin]; [by left; right|right; by exists i'].
Qed.
Lemma first_marked j : marked (PolicyGlob.first_row value) j <-> j = 0.
Proof.
  unfold marked, PolicyGlob.first_row. destruct j as [|j]; [done|]. split; [|done]. simpl. intros H.
  by apply lookup_replicate in H as [? _].
Qed.

(** The row of the tokens [ks] marks where a text that they mean ends. *)
Lemma rows_spec ks :
  length (foldl (PolicyGlob.next_row value) (PolicyGlob.first_row value) ks) = S len /\
  forall j, marked (foldl (PolicyGlob.next_row value) (PolicyGlob.first_row value) ks) j <-> j <= len /\ policy_spec ks (take j value).
Proof.
  induction ks as [|k ks [IHl IH]] using rev_ind.
  - simpl. split; [by rewrite length_replicate|]. intros j. rewrite first_marked. split.
    + intros ->. split; [lia|constructor].
    + intros [Hj H]. inversion H as [Hnil|]. destruct j as [|j]; [done|]. destruct value; [simpl in Hj; lia|done].
  - rewrite foldl_app. simpl. set (row := foldl _ _ ks) in *.
    assert (Forall (fun i => i <= len) (seq 0 (S len))) as Hseq by (apply Forall_forall; intros i [_ H]%elem_of_seq; lia).
    assert (length (replicate (S len) false) = S len) as Hrep by apply length_replicate.
    split; [exact (proj1 (fill_row k row _ _ 0 Hseq Hrep))|]. intros j. unfold PolicyGlob.next_row.
    rewrite (proj2 (fill_row k row _ _ j Hseq Hrep)), policy_spec_snoc. split.
    + intros [H|(i & _ & [Hi Hks]%IH & Hij & Hk)]; [by apply lookup_replicate in H as [? _]|]. split; [lia|].
      exists (take i value), (between i j). split_and!; [|done..]. unfold between.
      replace (take j value) with (take (i + (j - i)) value) by (f_equal; lia). by rewrite take_take_drop.
    + intros [Hj (u1 & w & Heq & H1 & H2)]. right.
      assert (length (take j value) = length u1 + length w) as Hlen by (by rewrite Heq, length_app). rewrite length_take in Hlen.
      assert (take (length u1) value = u1) as Hu.
      { pose proof (take_app_length u1 w) as Ht. rewrite <- Heq, take_take in Ht. by replace (length u1 `min` j) with (length u1) in Ht by lia. }
      exists (length u1). split_and!; [apply elem_of_seq; lia|apply IH; rewrite Hu; split; [lia|done]|lia|lia|].
      pose proof (drop_app_length u1 w) as Hd. rewrite <- Heq, skipn_firstn_comm in Hd. unfold between. by rewrite Hd.
Qed.
End table.

Lemma table_decides pattern value :
  PolicyGlob.glob_matches pattern value = true <-> policy_spec (PolicyGlob.parse_policy_glob pattern) (chars value).
Proof.
  unfold PolicyGlob.glob_matches. destruct (rows_spec (chars value) (PolicyGlob.parse_policy_glob pattern)) as [_ H].
  pose proof (H (length (chars value))) as Hend. rewrite take_ge in Hend by lia. unfold marked in Hend.
  transitivity (foldl (PolicyGlob.next_row (chars value)) (PolicyGlob.first_row (chars value)) (PolicyGlob.parse_policy_glob pattern)
    !! length (chars value) = Some true).
  - by destruct (foldl _ _ _ !! _) as [[]|].
  - rewrite Hend. split; [by intros [_ ?]|done].
Qed.

(** ** The tokens of a pattern *)

Lemma spec_cons k ks u : policy_spec (k :: ks) u <-> exists w t, u = w ++ t /\ token_spec k w /\ policy_spec ks t.
Proof.
  split; [intros H; inversion H; subst; eauto|]. intros (w & t & -> & Hw & Ht). by constructor.
Qed.
Lemma tokens_stand p u : policy_spec (PolicyGlob.parse_tokens p) u <-> stands_for p u.
Proof.
  remember (length p) as n eqn:Hn. revert p Hn u. induction (lt_wf n) as [n _ IH]. intros p -> u.
  assert (forall q u, length q < length p -> policy_spec (PolicyGlob.parse_tokens q) u <-> stands_for q u) as IH'.
  { intros q v Hq. by eapply IH. } clear IH. destruct p as [|c p]; simpl.
  { split; intros H; inversion H; constructor. }
  destruct (String.eqb_spec c "*") as [->|Hstar].
  { destruct p as [|d p]; [|destruct (String.eqb_spec d "*") as [->|Hd]]; rewrite spec_cons.
    - split.
      + intros (w & t & -> & Hw & Ht). inversion Ht; subst. by apply stands_segment; [|done|constructor].
      + intros H. inversion H; subst; [|done]. eexists _, _. split_and!; [reflexivity|done|by apply (IH' []); [simpl; lia|]].
    - split.
      + intros (w & t & -> & _ & Ht). apply stands_deep. apply IH'; [simpl; lia|done].
      + intros H. inversion H; subst; [|done..]. eexists _, _. split_and!; [reflexivity|done|]. by apply IH'; [simpl; lia|].
    - split.
      + intros (w & t & -> & Hw & Ht). apply stands_segment; [simpl; congruence|done|]. by apply IH'; [simpl; lia|].
      + intros H. inversion H; subst; [done| |done]. eexists _, _. split_and!; [reflexivity|done|]. by apply IH'; [simpl; lia|]. }
  destruct (String.eqb_spec c "?") as [->|Hmark]; rewrite spec_cons.
  - split.
    + intros (w & t & -> & (c & -> & Hc) & Ht). apply stands_one; [done|]. by apply IH'; [simpl; lia|].
    + intros H. inversion H as [| | |c q t Hc Ht|]; subst; [|done]. exists [c], t. split_and!; [done|by exists c|]. by apply IH'; [simpl; lia|].
  - split.
    + intros (w & t & -> & Hw & Ht). simpl in Hw. subst w. apply stands_literal; [done..|]. by apply IH'; [simpl; lia|].
    + intros H. inversion H as [| | | |d q t _ _ Ht]; subst; [done..|]. exists [c], t. split_and!; [done..|]. by apply IH'; [simpl; lia|].
Qed.

(** C37: A pattern of the smart cache policy excludes or pins exactly the paths it stands for.
    The table the code fills from the tokens it parses, token by token and place by place,
    decides whether the path is a text that the characters of the pattern stand for: read
    from the left, two stars stand for anything, a single one for anything within a segment,
    a question mark for one character other than a slash, and any other character for itself.
    A path matches a list of patterns when it does one of them, each trimmed, backslashes
    read as slashes in both. *)
Theorem policy_glob_correct pattern value path patterns :
  (PolicyGlob.glob_matches pattern value = true <-> stands_for (chars pattern) (chars value)) /\
  (PolicyGlob.matches_policy_pattern path patterns = true <->
   exists p, p ∈ patterns /\ stands_for (chars (replace_char "\" "/" (trim p))) (chars (replace_char "\" "/" path))).
Proof.
  assert (forall p v, PolicyGlob.glob_matches p v = true <-> stands_for (chars p) (chars v)) as Hglob.
  { intros p v. rewrite <- tokens_stand. apply table_decides. }
  split; [apply Hglob|]. unfold PolicyGlob.matches_policy_pattern, PolicyGlob.normalize_policy_pattern. rewrite existsb_exists.
  split; intros (p & Hp & Hm); exists p; (split; [by apply list_elem_of_In|by apply Hglob]).
Qed.
Example policy_patterns :
  map (fun p => PolicyGlob.matches_policy_pattern "docs\work/a.txt" [p]) ["docs/**"; "docs/*"; "**/?.txt"; " DOCS/** "; "*"] =
  [true; false; true; false; false].
Proof. vm_compute. reflexivity. Qed.
