(* ===== verification/smart_cache_store.v ===== *)
(** The smart cache: encryption, the usage of files, and the processor of a room. *)
From Stdlib Require Import ZArith Lia Ascii.
From stdpp Require Import strings pretty gmap functions option list sorting.
From S2P Require Import prelude rust_str std_path std_fs fs_facts path_guard db proposal_types analyzer index_sql tables outbox desk managed_roots.
From S2P Require Import cleanliness agent agent_work office outbox_processor agent_files file_transfer policy_glob.

Open Scope string_scope.
Open Scope list_scope.


(** * [apps/desktop/src-tauri/src/smart_cache_crypto.rs]: files are cached encrypted, under a
    key that the keyring of the system keeps.

    The cipher, the random numbers and the keyring are third-party: [Aes], and the
    operations of [CacheKeys] with the laws that [KeyLaws] names. *)

(** AES-256-GCM: the key, the nonce and the plaintext; the ciphertext followed by its tag. *)
Class Aes := aes256_gcm_encrypt : string -> string -> string -> option string.
Class CacheKeys (N : Type) := {
  fill_bytes : nat -> N -> string * N;
  keyring_entry : N -> bool * N;
  keyring_get : N -> result (option string) unit * N;
  keyring_set : string -> N -> result unit unit * N;
}.
Record SmartCacheKeyMaterial := mkSmartCacheKeyMaterial { km_version : Z; km_key_id : string; km_key_hex : string }.
Record EncryptedSmartCacheObject := mkEncryptedSmartCacheObject {
  eo_bytes : string; eo_size_bytes : Z; eo_sha256 : string; eo_metadata : SmartCacheEncryptionMetadata }.

Module CacheCrypto.
Definition KEY_VERSION : Z := 1.
Definition KEY_ID_BYTES : nat := 16.
Definition KEY_BYTES : nat := 32.
Definition NONCE_BYTES : nat := 12.
Definition TAG_BYTES : Z := 16.
Definition ENVELOPE_MAGIC : string := "MKS1".

(** [u64::checked_add] *)
Definition checked_add (a b : Z) : option Z := if (a + b <? 2 ^ 64)%Z then Some (a + b)%Z else None.
Definition encrypted_smart_cache_object_size (plaintext_size_bytes : Z) : result Z string :=
  match (n ← checked_add plaintext_size_bytes (slen ENVELOPE_MAGIC); m ← checked_add n (Z.of_nat NONCE_BYTES); checked_add m TAG_BYTES) with
  | Some n => Ok n
  | None => Err "smart cache object size overflow"
  end.

Fixpoint hex_lower (bytes : string) : string :=
  match bytes with
  | "" => ""
  | String b bytes => hex_fixed 2 (byte_of b) +:+ hex_lower bytes
  end.
(** The chunks of two that are left. *)
Fixpoint decode_chunks (value : string) : result string string :=
  match value with
  | String high (String low value) =>
      match hex_value high, hex_value low with
      | Some high, Some low =>
          let? bytes := decode_chunks value in
          Ok (String (Ascii.ascii_of_N (Z.to_N (Z.lor (Z.shiftl high 4) low))) bytes)
      | _, _ => Err "invalid hex"
      end
  | _ => Ok ""
  end.
Definition decode_hex_array (n : nat) (value : string) : result string string :=
  if negb (slen value =? Z.of_nat n * 2)%Z then Err "hex length mismatch" else decode_chunks value.

Section crypto.
Context `{!Aes, !Sha256}.

Definition encrypt_smart_cache_bytes_with_key (plaintext key_id key nonce : string) : result EncryptedSmartCacheObject string :=
  if (slen (trim key_id) <? 16)%Z then Err "smart cache encryption key id is too short"
  else
    match aes256_gcm_encrypt key nonce plaintext with
    | None => Err "smart cache encryption failed"
    | Some ciphertext_and_tag =>
        let bytes := ENVELOPE_MAGIC +:+ nonce +:+ ciphertext_and_tag in
        Ok (mkEncryptedSmartCacheObject bytes (slen bytes) (sha256_hex bytes)
              (mkSmartCacheEncryptionMetadata Validate.SMART_CACHE_ENCRYPTION_ALGORITHM Validate.SMART_CACHE_ENCRYPTION_FORMAT key_id
                 (hex_lower nonce) (slen plaintext) (sha256_hex plaintext)))
    end.
End crypto.

Section keys.
Context {N : Type} `{!CacheKeys N, !Serde SmartCacheKeyMaterial}.
Abbreviation IO := (io N string).

Definition fill (n : nat) : IO string := fun s => let '(bytes, s) := fill_bytes n s in (Ok bytes, s).
Definition parse_key_material (serialized : string) : result SmartCacheKeyMaterial string :=
  match from_text serialized with
  | None => Err "UNCONFIGURED: smart cache encryption key is corrupt"
  | Some material =>
      if negb (km_version material =? KEY_VERSION)%Z || (slen (trim (km_key_id material)) <? 16)%Z
         || negb (is_ok (decode_hex_array KEY_BYTES (km_key_hex material)))
      then Err "UNCONFIGURED: smart cache encryption key is invalid"
      else Ok material
  end.
Definition generate_key_material : IO SmartCacheKeyMaterial :=
  let! key := fill KEY_BYTES in
  let! key_id := fill KEY_ID_BYTES in
  io_ret (mkSmartCacheKeyMaterial KEY_VERSION ("mks1-" +:+ hex_lower key_id) (hex_lower key)).
Definition load_or_create_key_material : IO SmartCacheKeyMaterial :=
  fun s =>
    match keyring_entry s with
    | (false, s) => (Err "UNCONFIGURED: smart cache encryption key store unavailable", s)
    | (true, s) =>
        match keyring_get s with
        | (Ok (Some serialized), s) => (parse_key_material serialized, s)
        | (Ok None, s) =>
            (let! material := generate_key_material in
             fun s => match keyring_set (to_text material) s with
                      | (Ok _, s) => (Ok material, s)
                      | (Err _, s) => (Err "UNCONFIGURED: cannot persist smart cache encryption key", s)
                      end) s
        | (Err _, s) => (Err "UNCONFIGURED: cannot load smart cache encryption key", s)
        end
    end.
End keys.

Section file.
Context {N DB : Type} `{!CacheKeys N, !Serde SmartCacheKeyMaterial, !Aes, !Sha256}.
Context (meanwhile : nat -> world DB -> world DB).

(** The file as it is at the [k]-th look. *)
Definition encrypt_smart_cache_file (k : nat) (path : string) (expected_plaintext_size_bytes : Z)
  : io (office N DB) string EncryptedSmartCacheObject :=
  let! key_material := FileTransfer.on_network load_or_create_key_material in
  let! key := io_lift (decode_hex_array KEY_BYTES (km_key_hex key_material)) in
  let! nonce := FileTransfer.on_network (fill NONCE_BYTES) in
  let! plaintext := io_map_err (fun e => "cannot read smart cache source file: " +:+ io_error_str e)
                      (FileTransfer.look meanwhile k (fun f => read_to_string f path)) in
  if negb (slen plaintext =? expected_plaintext_size_bytes)%Z
  then io_fail "smart cache source size changed before encryption"
  else io_lift (encrypt_smart_cache_bytes_with_key plaintext (km_key_id key_material) key nonce).
End file.
End CacheCrypto.

(** * Facts *)

Lemma slen_append s t : slen (s +:+ t) = (slen s + slen t)%Z.
Proof. unfold slen. rewrite length_sappend. lia. Qed.

Lemma hex_pair b s : CacheCrypto.decode_chunks (hex_fixed 2 (byte_of b) +:+ s) =
  match CacheCrypto.decode_chunks s with Ok t => Ok (String b t) | Err e => Err e end.
Proof.
  simpl. set (hi := hex_value _). set (lo := hex_value _).
  assert (exists h l, hi = Some h /\ lo = Some l /\ Ascii.ascii_of_N (Z.to_N (Z.lor (Z.shiftl h 4) l)) = b) as (h & l & -> & -> & ->); [|done].
  unfold hi, lo. clear. revert b.
  assert (forall b, (match hex_value (hex_digit (Z.land (Z.shiftr (byte_of b) 4) 15)), hex_value (hex_digit (Z.land (Z.shiftr (byte_of b) 0) 15)) with
                     | Some h, Some l => Ascii.eqb (Ascii.ascii_of_N (Z.to_N (Z.lor (Z.shiftl h 4) l))) b | _, _ => false end) = true) as H.
  { apply byte_forall. by vm_compute. }
  intros b. specialize (H b). change (4 * Z.of_nat 1)%Z with 4%Z. change (4 * Z.of_nat 0)%Z with 0%Z.
  destruct (hex_value _) as [h|]; [|done]. destruct (hex_value _) as [l|]; [|done]. apply Ascii.eqb_eq in H. by exists h, l.
Qed.
Lemma slen_hex_lower s : slen (CacheCrypto.hex_lower s) = (slen s * 2)%Z.
Proof.
  unfold slen. assert (String.length (CacheCrypto.hex_lower s) = String.length s * 2)%nat as ->; [|lia].
  induction s as [|b s IH]; [done|]. change (S (S (String.length (CacheCrypto.hex_lower s))) = S (String.length s) * 2)%nat. lia.
Qed.
Lemma decode_hex_lower s : CacheCrypto.decode_hex_array (String.length s) (CacheCrypto.hex_lower s) = Ok s.
Proof.
  unfold CacheCrypto.decode_hex_array. rewrite slen_hex_lower. unfold slen. rewrite Z.eqb_refl. simpl.
  induction s as [|b s IH]; [done|]. change (CacheCrypto.hex_lower (String b s)) with (hex_fixed 2 (byte_of b) +:+ CacheCrypto.hex_lower s).
  by rewrite hex_pair, IH.
Qed.

(** * [apps/desktop/src-tauri/src/storage/smart_cache.rs]: which files of a folder are used,
    which of them the user pinned or excluded, and the best to cache. *)

(** * The tables *)

Record UsageRow := mkUsageRow { ur_id : Z; ur_root_id : string; ur_relative_path : string; ur_kind : string; ur_created_unix_ms : Z }.
Record PreferenceRow := mkPreferenceRow { fp_pinned : Z; fp_excluded : Z; fp_updated_unix_ms : Z }.
(** Whether each table is made, its rows, and the identifier of the next event. *)
Record CacheTable := mkCacheTable {
  ca_events_made : bool; ca_events : list UsageRow; ca_next_id : Z;
  ca_preferences_made : bool; ca_preferences : gmap (string * string) PreferenceRow }.
(** [SqliteQueryResult::last_insert_rowid] *)
Class SqlRowid (DB : Type) := sql_last_insert_rowid : DB -> Z.

(** A candidate as the query computes it. *)
Record CandidateRow := mkCandidateRow { cr_path : string; cr_events : Z; cr_last_used : Z; cr_pinned : Z; cr_score : Z }.

Module CacheSql.
Definition create_events : string := "CREATE TABLE IF NOT EXISTS smart_cache_usage_events (
            id INTEGER PRIMARY KEY AUTOINCREMENT,
            root_id TEXT NOT NULL,
            relative_path TEXT NOT NULL,
            kind TEXT NOT NULL,
            created_unix_ms INTEGER NOT NULL
        )".
Definition index_events : string := "CREATE INDEX IF NOT EXISTS idx_smart_cache_usage_root_path
         ON smart_cache_usage_events(root_id, relative_path, created_unix_ms)".
Definition create_preferences : string := "CREATE TABLE IF NOT EXISTS smart_cache_file_preferences (
            root_id TEXT NOT NULL,
            relative_path TEXT NOT NULL,
            pinned INTEGER NOT NULL DEFAULT 0,
            excluded INTEGER NOT NULL DEFAULT 0,
            updated_unix_ms INTEGER NOT NULL,
            PRIMARY KEY(root_id, relative_path)
        )".
Definition insert_event : string := "INSERT INTO smart_cache_usage_events
                    (root_id, relative_path, kind, created_unix_ms)
                 VALUES (?1, ?2, ?3, ?4)".
Definition upsert_preference : string := "INSERT INTO smart_cache_file_preferences
                    (root_id, relative_path, pinned, excluded, updated_unix_ms)
                 VALUES (?1, ?2, COALESCE(?3, 0), COALESCE(?4, 0), ?5)
                 ON CONFLICT(root_id, relative_path) DO UPDATE SET
                    pinned = COALESCE(?3, pinned),
                    excluded = COALESCE(?4, excluded),
                    updated_unix_ms = ?5".
Definition select_preference : string := "SELECT root_id, relative_path, pinned, excluded, updated_unix_ms
                 FROM smart_cache_file_preferences
                 WHERE root_id = ?1 AND relative_path = ?2".
Definition select_candidates : string := "WITH usage AS (
                    SELECT
                        root_id,
                        relative_path,
                        COUNT(*) AS event_count,
                        MAX(created_unix_ms) AS last_used_unix_ms,
                        SUM(CASE kind
                            WHEN 'browse' THEN 1
                            WHEN 'preview' THEN 2
                            WHEN 'download' THEN 8
                            WHEN 'proposal_candidate' THEN 3
                            ELSE 0
                        END) AS usage_score
                    FROM smart_cache_usage_events
                    WHERE root_id = ?1
                    GROUP BY root_id, relative_path
                 )
                 SELECT
                    usage.root_id,
                    usage.relative_path,
                    usage.event_count,
                    usage.last_used_unix_ms,
                    COALESCE(pref.pinned, 0) AS pinned,
                    COALESCE(pref.excluded, 0) AS excluded,
                    usage.usage_score + CASE COALESCE(pref.pinned, 0)
                        WHEN 1 THEN 1000
                        ELSE 0
                    END AS score
                 FROM usage
                 LEFT JOIN smart_cache_file_preferences pref
                    ON pref.root_id = usage.root_id
                    AND pref.relative_path = usage.relative_path
                 WHERE COALESCE(pref.excluded, 0) = 0
                 ORDER BY score DESC, last_used_unix_ms DESC, usage.relative_path ASC
                 LIMIT ?2".

(** The values of [select_candidates]. *)
Definition weight (kind : string) : Z :=
  if (kind =? "browse")%string then 1 else if (kind =? "preview")%string then 2
  else if (kind =? "download")%string then 8 else if (kind =? "proposal_candidate")%string then 3 else 0.
Definition of_file (root_id path : string) (e : UsageRow) : bool := (ur_root_id e =? root_id)%string && (ur_relative_path e =? path)%string.
Definition used_paths (root_id : string) (events : list UsageRow) : list string :=
  remove_dups (map ur_relative_path (List.filter (fun e => (ur_root_id e =? root_id)%string) events)).
Definition max_of (l : list Z) : Z := match l with [] => 0 | z :: l => foldl Z.max z l end.
Definition sum_of (l : list Z) : Z := foldr Z.add 0%Z l.
Definition preference (t : CacheTable) (root_id path : string) : PreferenceRow :=
  default (mkPreferenceRow 0 0 0) (ca_preferences t !! (root_id, path)).
Definition candidate (t : CacheTable) (root_id path : string) : CandidateRow :=
  let events := List.filter (of_file root_id path) (ca_events t) in
  let pinned := fp_pinned (preference t root_id path) in
  mkCandidateRow path (Z.of_nat (length events)) (max_of (map ur_created_unix_ms events)) pinned
    (sum_of (map (fun e => weight (ur_kind e)) events) + (if (pinned =? 1)%Z then 1000 else 0)).
Definition rank (a b : CandidateRow) : comparison :=
  then_with (Z.compare (cr_score b) (cr_score a))
    (then_with (Z.compare (cr_last_used b) (cr_last_used a)) (String.compare (cr_path a) (cr_path b))).
Definition candidates (t : CacheTable) (root_id : string) : list CandidateRow :=
  sort_by rank (map (candidate t root_id)
    (List.filter (fun path => (fp_excluded (preference t root_id path) =? 0)%Z) (used_paths root_id (ca_events t)))).
(** A negative [LIMIT] is none. *)
Definition limited {A} (limit : Z) (l : list A) : list A := if (limit <? 0)%Z then l else take (Z.to_nat limit) l.

Definition execute (sql : string) (binds : list sql_value) (t : CacheTable) : option (CacheTable * Z) :=
  if (sql =? create_events)%string
  then Some (mkCacheTable true (ca_events t) (ca_next_id t) (ca_preferences_made t) (ca_preferences t), 0%Z)
  else if (sql =? index_events)%string then if ca_events_made t then Some (t, 0%Z) else None
  else if (sql =? create_preferences)%string
  then Some (mkCacheTable (ca_events_made t) (ca_events t) (ca_next_id t) true (ca_preferences t), 0%Z)
  else if (sql =? insert_event)%string then
    match ca_events_made t, binds with
    | true, [SqlText root_id; SqlText path; SqlText kind; SqlInt at_] =>
        Some (mkCacheTable true (ca_events t ++ [mkUsageRow (ca_next_id t) root_id path kind at_]) (ca_next_id t + 1)
                (ca_preferences_made t) (ca_preferences t), 1%Z)
    | _, _ => None
    end
  else if (sql =? upsert_preference)%string then
    match ca_preferences_made t, binds with
    | true, [SqlText root_id; SqlText path; pinned; excluded; SqlInt now] =>
        match int_opt pinned, int_opt excluded with
        | Some pinned, Some excluded =>
            let old := preference t root_id path in
            Some (mkCacheTable (ca_events_made t) (ca_events t) (ca_next_id t) true
                    (<[(root_id, path) := mkPreferenceRow (default (fp_pinned old) pinned) (default (fp_excluded old) excluded) now]>
                       (ca_preferences t)), 1%Z)
        | _, _ => None
        end
    | _, _ => None
    end
  else None.
Definition preference_row (root_id path : string) (p : PreferenceRow) : sql_row :=
  [("root_id", SqlText root_id); ("relative_path", SqlText path); ("pinned", SqlInt (fp_pinned p)); ("excluded", SqlInt (fp_excluded p));
   ("updated_unix_ms", SqlInt (fp_updated_unix_ms p))].
Definition candidate_row (root_id : string) (c : CandidateRow) : sql_row :=
  [("root_id", SqlText root_id); ("relative_path", SqlText (cr_path c)); ("event_count", SqlInt (cr_events c));
   ("last_used_unix_ms", SqlInt (cr_last_used c)); ("pinned", SqlInt (cr_pinned c)); ("excluded", SqlInt 0); ("score", SqlInt (cr_score c))].
Definition fetch (sql : string) (binds : list sql_value) (t : CacheTable) : option (list sql_row) :=
  if (sql =? select_preference)%string then
    match ca_preferences_made t, binds with
    | true, [SqlText root_id; SqlText path] =>
        Some (match ca_preferences t !! (root_id, path) with Some p => [preference_row root_id path p] | None => [] end)
    | _, _ => None
    end
  else if (sql =? select_candidates)%string then
    match ca_events_made t && ca_preferences_made t, binds with
    | true, [SqlText root_id; SqlInt limit] => Some (map (candidate_row root_id) (limited limit (candidates t root_id)))
    | _, _ => None
    end
  else None.
End CacheSql.

#[export] Instance cache_schema : Schema CacheTable := {
  sc_statements := [CacheSql.create_events; CacheSql.index_events; CacheSql.create_preferences; CacheSql.insert_event; CacheSql.upsert_preference];
  sc_queries := [CacheSql.select_preference; CacheSql.select_candidates];
  sc_execute := CacheSql.execute;
  sc_fetch := CacheSql.fetch;
}.

(** * The store *)

Record SmartCacheStore := mkSmartCacheStore { sh_pool : option string }.
Inductive SmartCacheUsageEventKind := UsageBrowse | UsagePreview | UsageDownload | UsageProposalCandidate.
Record SmartCacheUsageEventDraft := mkUsageEventDraft { ud_root_id : string; ud_relative_path : string; ud_kind : SmartCacheUsageEventKind }.
Record SmartCacheUsageEvent := mkUsageEvent {
  ue_id : Z; ue_root_id : string; ue_relative_path : string; ue_kind : SmartCacheUsageEventKind; ue_created_unix_ms : Z }.
Record SmartCacheFilePreferencePatch := mkPreferencePatch { pp_pinned : option bool; pp_excluded : option bool }.
Record SmartCacheFilePreference := mkFilePreference {
  sf_root_id : string; sf_relative_path : string; sf_pinned : bool; sf_excluded : bool; sf_updated_unix_ms : Z }.
Record SmartCacheCandidate := mkSmartCacheCandidate {
  sa_root_id : string; sa_relative_path : string; sa_score : Z; sa_event_count : Z; sa_last_used_unix_ms : Z; sa_pinned : bool }.

Module SmartCache.
Definition CACHE_CANDIDATE_LIMIT_MAX : Z := 200.
Definition kind_to_str (kind : SmartCacheUsageEventKind) : string :=
  match kind with
  | UsageBrowse => "browse" | UsagePreview => "preview" | UsageDownload => "download" | UsageProposalCandidate => "proposal_candidate"
  end.
Definition validate_cache_path (relative_path : string) : result unit string :=
  if is_empty (trim relative_path) || starts_with_separator relative_path || contains_char ":" relative_path
     || existsb (fun part => is_empty part || is_dot part || is_dotdot part) (split_on is_separator relative_path)
  then Err "smart cache path must be a safe relative file path"
  else
    let lower := to_ascii_lowercase (replace_char "\" "/" relative_path) in
    if contains lower "/.mousekeeper/" || starts_with lower ".mousekeeper/" || contains lower "/.mousekeeper_trash/"
       || starts_with lower ".mousekeeper_trash/" || existsb (ends_with lower) [".tmp"; ".lock"; ".key"; ".pem"; ".p12"; ".pfx"]
       || existsb (contains lower) ["credential"; "secret"; "token"]
    then Err "smart cache path is excluded by local cache safety policy"
    else Ok tt.

Section store.
Context {DB : Type} `{!SqlDb DB, !SqlTx DB, !SqlCount DB, !SqlRowid DB}.
Abbreviation WIO := (io (world DB) string).

Definition migrate (pool : string) : WIO unit :=
  do! io_map_err (fun e => "cannot migrate smart cache usage events: " +:+ e) (Db.execute pool CacheSql.create_events []);
  do! io_map_err (fun e => "cannot index smart cache usage events: " +:+ e) (Db.execute pool CacheSql.index_events []);
  io_map_err (fun e => "cannot migrate smart cache preferences: " +:+ e) (Db.execute pool CacheSql.create_preferences []).
Definition load_from_db (path : string) : io (SmartCacheStore * world DB) string unit :=
  let! pool := on_world (io_map_err Db.fmt (Db.open_pool_at path)) in
  do! on_world (migrate pool);
  set_store (mkSmartCacheStore (Some pool)).

(** The operations that follow read the store and do not change it. *)
Context (store : SmartCacheStore).
Definition required_pool : WIO string :=
  match sh_pool store with Some pool => io_ret pool | None => io_fail "smart cache database is not initialized" end.
Definition record_usage_event_at (draft : SmartCacheUsageEventDraft) (created_unix_ms : Z) : WIO SmartCacheUsageEvent :=
  do! io_lift (validate_cache_path (ud_relative_path draft));
  let! pool := required_pool in
  do! io_map_err (fun e => "cannot record smart cache usage event: " +:+ e)
        (Db.execute pool CacheSql.insert_event [SqlText (ud_root_id draft); SqlText (ud_relative_path draft);
           SqlText (kind_to_str (ud_kind draft)); SqlInt created_unix_ms]);
  let! id := io_gets (fun w => sql_last_insert_rowid (w_db w pool)) in
  io_ret (mkUsageEvent id (ud_root_id draft) (ud_relative_path draft) (ud_kind draft) created_unix_ms).
Definition record_usage_event (draft : SmartCacheUsageEventDraft) : WIO SmartCacheUsageEvent :=
  let! now := ManagedRoots.unix_ms in
  record_usage_event_at draft now.

Definition preference_from_row (row : sql_row) : result SmartCacheFilePreference string :=
  let? root_id := try_get_text row "root_id" in
  let? relative_path := try_get_text row "relative_path" in
  let? pinned := try_get_int row "pinned" in
  let? excluded := try_get_int row "excluded" in
  let? updated_unix_ms := try_get_int row "updated_unix_ms" in
  Ok (mkFilePreference root_id relative_path (pinned =? 1)%Z (excluded =? 1)%Z updated_unix_ms).
Definition opt_flag (b : option bool) : sql_value := opt_int (ManagedRoots.bool_int <$> b).
Definition update_file_preference (root_id relative_path : string) (patch : SmartCacheFilePreferencePatch) : WIO SmartCacheFilePreference :=
  do! io_lift (validate_cache_path relative_path);
  let! pool := required_pool in
  let! now := ManagedRoots.unix_ms in
  do! io_map_err (fun e => "cannot update smart cache preference: " +:+ e)
        (Db.execute pool CacheSql.upsert_preference [SqlText root_id; SqlText relative_path; opt_flag (pp_pinned patch);
           opt_flag (pp_excluded patch); SqlInt now]);
  let! rows := io_map_err (fun e => "cannot read smart cache preference: " +:+ e)
                 (Db.fetch_all pool CacheSql.select_preference [SqlText root_id; SqlText relative_path]) in
  match rows with
  | [] => io_fail ("cannot read smart cache preference: " +:+
                   "no rows returned by a query that expected to return at least one row")
  | row :: _ => io_lift (preference_from_row row)
  end.

Definition candidate_from_row (row : sql_row) : result SmartCacheCandidate string :=
  let? root_id := try_get_text row "root_id" in
  let? relative_path := try_get_text row "relative_path" in
  let? score := try_get_int row "score" in
  let? event_count := try_get_int row "event_count" in
  let? last_used_unix_ms := try_get_int row "last_used_unix_ms" in
  let? pinned := try_get_int row "pinned" in
  Ok (mkSmartCacheCandidate root_id relative_path score event_count last_used_unix_ms (pinned =? 1)%Z).
Definition list_candidates (root_id : string) (limit : Z) : WIO (list SmartCacheCandidate) :=
  let! pool := required_pool in
  let limit := Z.max 1 (Z.min CACHE_CANDIDATE_LIMIT_MAX limit) in
  let! rows := io_map_err (fun e => "cannot list smart cache candidates: " +:+ e)
                 (Db.fetch_all pool CacheSql.select_candidates [SqlText root_id; SqlInt limit]) in
  io_lift (try_map candidate_from_row rows).
End store.
End SmartCache.

(** * [apps/desktop/src-tauri/src/smart_cache_processor.rs]: the files of a room that are used
    most, offered to the server's cache and uploaded encrypted where it reserves room.

    [meanwhile k] is what other programs do before the [k]-th look at the files. *)

Record SmartCacheProcessingReport := mkSmartCacheProcessingReport {
  sp_inspected_count : Z;   (** [usize], as the counts below *)
  sp_submitted_count : Z;
  sp_approved_count : Z;
  sp_uploaded_count : Z;
  sp_failed_count : Z;
  sp_skipped_count : Z;
  sp_message : option string;
}.
Record PreparedCacheCandidate := mkPreparedCacheCandidate {
  pc_local : SmartCacheCandidate; pc_source : ValidatedTransferSource; pc_source_version_hash : string }.

(** What [serde_json] writes: a version, as text and as a value, and a batch of candidates. *)
Class CacheCodecs (V : Type) := {
  codec_version :: Serde AgentFileTransferSourceVersion;
  version_value :: ToValue V AgentFileTransferSourceVersion;
  batch_text : string -> list (AgentSmartCacheCandidate V) -> result string string;
}.

Module CacheProcessor.
Definition source_version_hash_for_version `{!Sha256, !Serde AgentFileTransferSourceVersion} (version : AgentFileTransferSourceVersion) : string :=
  sha256_hex (to_text version).
Definition source_version_hash `{!Sha256, !Serde AgentFileTransferSourceVersion} (source : ValidatedTransferSource) : string :=
  source_version_hash_for_version (vs_source_version source).
Definition with_pin (c : SmartCacheCandidate) : SmartCacheCandidate :=
  mkSmartCacheCandidate (sa_root_id c) (sa_relative_path c) (sa_score c) (sa_event_count c) (sa_last_used_unix_ms c) true.
Definition apply_policy_candidate_preferences (candidates : list SmartCacheCandidate) (excluded_patterns pinned_patterns : list string)
  : list SmartCacheCandidate * Z :=
  match excluded_patterns, pinned_patterns with
  | [], [] => (candidates, 0%Z)
  | _, _ =>
      let filtered := omap (fun c =>
        if PolicyGlob.matches_policy_pattern (sa_relative_path c) excluded_patterns then None
        else Some (if PolicyGlob.matches_policy_pattern (sa_relative_path c) pinned_patterns then with_pin c else c)) candidates in
      (filtered, Z.of_nat (length candidates - length filtered))
  end.
Definition merge_report (total next : SmartCacheProcessingReport) : SmartCacheProcessingReport :=
  mkSmartCacheProcessingReport (sp_inspected_count total + sp_inspected_count next) (sp_submitted_count total + sp_submitted_count next)
    (sp_approved_count total + sp_approved_count next) (sp_uploaded_count total + sp_uploaded_count next)
    (sp_failed_count total + sp_failed_count next) (sp_skipped_count total + sp_skipped_count next) (sp_message total).
Definition skipped_report (message : string) : SmartCacheProcessingReport := mkSmartCacheProcessingReport 0 0 0 0 0 1 (Some message).

Section processor.
Context {N V DB : Type} `{!SqlDb DB, !SqlTx DB, !SqlCount DB, !Http N V, !CredentialStore N, !JsonValue V, !Uploader N, !CacheKeys N}.
Context `{!Serde ServerErrorResponse, !WorkCodecs V, !FileCodecs V, !PayloadCodecs V, !ResponseCodecs V, !CacheCodecs V}.
Context `{!UrlParser, !Sha256, !Aes, !Serde SmartCacheKeyMaterial}.
Context (status_text : Z -> string) (meanwhile : nat -> world DB -> world DB).
Abbreviation IO := (io (office N DB) string).
Implicit Types (outbox : OutboxStore) (cache : SmartCacheStore).

(** ** Candidates *)

(** The check of a candidate, which both uses share. *)
Definition validate_candidate (k : nat) (root : string) (c : SmartCacheCandidate) : IO ValidatedTransferSource :=
  FileTransfer.look meanwhile k (fun f =>
    map_err te_message (TransferSource.validate_local_transfer_source f root (sa_relative_path c) (Some (sa_relative_path c)) (Some (sa_root_id c)))).
Definition prepare_candidate (k : nat) (root : string) (max_file_bytes : Z) (c : SmartCacheCandidate) : IO PreparedCacheCandidate :=
  let! source := validate_candidate k root c in
  if (max_file_bytes <? fv_size_bytes (vs_source_version source))%Z then io_fail "candidate exceeds smart cache maxFileBytes"
  else io_ret (mkPreparedCacheCandidate c source (source_version_hash source)).
Definition server_candidate (c : PreparedCacheCandidate) : result (AgentSmartCacheCandidate V) string :=
  let? source_version := map_err (fun e => "cannot encode source version: " +:+ e) (to_value (vs_source_version (pc_source c))) in
  let? size_bytes := CacheCrypto.encrypted_smart_cache_object_size (fv_size_bytes (vs_source_version (pc_source c))) in
  Ok (mkAgentSmartCacheCandidate (vs_source_relative_path (pc_source c)) source_version (pc_source_version_hash c) size_bytes
        (sa_score (pc_local c)) (sa_pinned (pc_local c))).
Definition candidate_batch_idempotency_key (room_id : string) (candidates : list (AgentSmartCacheCandidate V)) : result string string :=
  let? text := map_err (fun e => "cannot encode smart cache candidate batch: " +:+ e) (batch_text room_id candidates) in
  Ok ("cache-" +:+ String.substring 0 32 (sha256_hex text)).
Definition ensure_candidate_still_current (k : nat) (root : string) (c : PreparedCacheCandidate) : IO unit :=
  let! current := validate_candidate k root (pc_local c) in
  if negb (bool_decide (vs_source_version current = vs_source_version (pc_source c)))
     || negb (source_version_hash_for_version (vs_source_version current) =? pc_source_version_hash c)%string
  then io_fail "smart cache source changed before upload completion"
  else io_ret tt.

(** ** Uploads *)

(** The candidates by path and version; of two with the same, the later. *)
Definition by_path_and_version (candidates : list PreparedCacheCandidate) : gmap (string * string) PreparedCacheCandidate :=
  list_to_map (rev (map (fun c => ((sa_relative_path (pc_local c), pc_source_version_hash c), c)) candidates)).
(** What the server has reserved, encrypted and put at its address. *)
Definition prepared_upload (k : nat) (root : string) (candidates : gmap (string * string) PreparedCacheCandidate)
    (reservation : AgentSmartCacheReservation) : IO (EncryptedSmartCacheObject * Z * bool) :=
  match cv_upload_url reservation with
  | None => io_fail "smart cache reservation omitted upload URL"
  | Some upload_url =>
      match candidates !! (cv_source_relative_path reservation, cv_source_version_hash reservation) with
      | None => io_fail "smart cache reservation did not match a local candidate"
      | Some c =>
          do! ensure_candidate_still_current k root c;
          let! encrypted := CacheCrypto.encrypt_smart_cache_file meanwhile (k + 1) (vs_resolved_path (pc_source c))
                              (fv_size_bytes (vs_source_version (pc_source c))) in
          if negb (eo_size_bytes encrypted =? cv_size_bytes reservation)%Z
          then io_fail "smart cache reservation size no longer matches local source"
          else
            do! FileTransfer.put_upload_bytes status_text upload_url (eo_bytes encrypted);
            do! ensure_candidate_still_current (k + 2) root c;
            io_ret (encrypted, sa_score (pc_local c), sa_pinned (pc_local c))
      end
  end.
(** Gives a reservation up: the error that ended it stays. *)
Definition cancelling {A} (reservation_id error : string) : IO A :=
  let! _ := io_try (on_agent (AgentFiles.cancel_smart_cache_reservation (V:=V) reservation_id)) in
  io_fail error.
Definition upload_reservation outbox (k : nat) (root : string) (candidates : gmap (string * string) PreparedCacheCandidate)
    (reservation : AgentSmartCacheReservation) : IO unit :=
  let id := cv_reservation_id reservation in
  let! prepared := io_try (prepared_upload k root candidates reservation) in
  match prepared with
  | Err error => cancelling id error
  | Ok (encrypted, usage_score, manual_pin) =>
      let! queued := io_try (on_machine (OutboxProcessor.enqueue_smart_cache_completion (V:=V) outbox id (eo_size_bytes encrypted)
                               (eo_sha256 encrypted) usage_score manual_pin (eo_metadata encrypted))) in
      match queued with
      | Err error => cancelling id error
      | Ok _ =>
          let! _ := on_agent (Agent.complete_smart_cache_upload (V:=V) id (OutboxProcessor.smart_cache_completion_key id)
                                (eo_size_bytes encrypted) (eo_sha256 encrypted) usage_score manual_pin (eo_metadata encrypted)) in
          io_ret tt
      end
  end.

(** ** A room *)

Definition prepare_all (root : string) (max_file_bytes : Z) (candidates : list SmartCacheCandidate)
  : IO (list PreparedCacheCandidate * Z) :=
  io_for (fun i found c =>
      let! r := io_try (prepare_candidate i root max_file_bytes c) in
      io_ret (match r with Ok c => (found.1 ++ [c], found.2) | Err _ => (found.1, (found.2 + 1)%Z) end))
    0 ([], 0%Z) candidates.
(** The uploads that succeed and those that fail; [k] looks were made before. *)
Definition upload_all outbox (k : nat) (root : string) (candidates : gmap (string * string) PreparedCacheCandidate)
    (failed_count : Z) (approved : list AgentSmartCacheReservation) : IO (Z * Z) :=
  io_for (fun i counts reservation =>
      if (cv_status reservation =? "COMPLETED")%string then io_ret counts
      else
        let! r := io_try (upload_reservation outbox (k + 3 * i) root candidates reservation) in
        io_ret (match r with Ok _ => (counts.1 + 1, counts.2)%Z | Err _ => (counts.1, counts.2 + 1)%Z end))
    0 (0%Z, failed_count) approved.
Definition process_smart_cache_for_known_room cache outbox (room : AgentRoomSync) (limit : Z) : IO SmartCacheProcessingReport :=
  let! policy := on_agent (AgentFiles.smart_cache_policy (V:=V) (ry_room_id room)) in
  if negb (cy_enabled policy) then io_ret (skipped_report "smart cache policy is disabled for this room")
  else
    let! root := on_roots (ManagedRoots.ensure_active_room_binding (ry_root_id room) (ry_room_id room)) in
    if negb (mr_enabled root) then io_ret (skipped_report ("managed root is disabled: " +:+ mr_root_id root))
    else
      let! local_candidates := on_machine (SmartCache.list_candidates cache (ry_root_id room) limit) in
      let inspected_count := Z.of_nat (length local_candidates) in
      let '(local_candidates, policy_skipped_count) :=
        apply_policy_candidate_preferences local_candidates (cy_excluded_patterns policy) (cy_pinned_patterns policy) in
      let! ' (prepared, failed_count) := prepare_all (mr_root root) (cy_max_file_bytes policy) local_candidates in
      match prepared with
      | [] => io_ret (mkSmartCacheProcessingReport inspected_count 0 0 0 failed_count policy_skipped_count
                        (Some "no smart cache candidates survived local policy or validation"))
      | _ =>
          let! server_candidates := io_lift (try_map server_candidate prepared) in
          let! key := io_lift (candidate_batch_idempotency_key (ry_room_id room) server_candidates) in
          let submitted_count := Z.of_nat (length server_candidates) in
          let! batch := on_agent (AgentFiles.submit_smart_cache_candidates key (ry_room_id room) server_candidates) in
          let! ' (uploaded_count, failed_count) :=
            upload_all outbox (length local_candidates) (mr_root root) (by_path_and_version prepared) failed_count (cb_approved batch) in
          io_ret (mkSmartCacheProcessingReport inspected_count submitted_count (Z.of_nat (length (cb_approved batch))) uploaded_count
                    failed_count (Z.min (2 ^ 64 - 1) (policy_skipped_count + cb_rejected_count batch)) None)
      end.
Definition process_smart_cache_for_room cache outbox (room_id : string) (limit : Z) : IO SmartCacheProcessingReport :=
  let! room := on_agent (AgentWork.root_id_for_room (V:=V) room_id) in
  process_smart_cache_for_known_room cache outbox room limit.
Definition process_smart_cache_for_enabled_rooms cache outbox (limit_per_room : Z) : IO SmartCacheProcessingReport :=
  let! rooms := on_agent (AgentFiles.list_rooms (V:=V)) in
  io_for (fun _ report room =>
      let! r := io_try (process_smart_cache_for_known_room cache outbox room limit_per_room) in
      io_ret (match r with
              | Ok room_report => merge_report report room_report
              | Err _ => mkSmartCacheProcessingReport (sp_inspected_count report) (sp_submitted_count report) (sp_approved_count report)
                           (sp_uploaded_count report) (sp_failed_count report + 1) (sp_skipped_count report) (sp_message report)
              end))
    0 (mkSmartCacheProcessingReport 0 0 0 0 0 0 None) rooms.
End processor.
End CacheProcessor.
