(* ===== verification/smart_cache_list.v ===== *)
(** The files offered to the cache are the most used of a folder that may be cached. *)
From Stdlib Require Import ZArith Lia Ascii Sorted.
From stdpp Require Import strings pretty gmap functions option list sorting relations.
From S2P Require Import prelude rust_str std_path std_fs fs_facts db journal_store index_sql tables desk managed_roots agent smart_cache_store.

Open Scope string_scope.
Open Scope list_scope.

(** A file of the list, and the order of the list. *)
Definition listed (root_id : string) (c : CandidateRow) : SmartCacheCandidate :=
  mkSmartCacheCandidate root_id (cr_path c) (cr_score c) (cr_events c) (cr_last_used c) (cr_pinned c =? 1)%Z.
(** More used, or used later, or earlier in the alphabet. *)
Definition rank_of (a b : SmartCacheCandidate) : comparison :=
  then_with (Z.compare (sa_score b) (sa_score a))
    (then_with (Z.compare (sa_last_used_unix_ms b) (sa_last_used_unix_ms a)) (String.compare (sa_relative_path a) (sa_relative_path b))).
Definition may_cache (path : string) : Prop := SmartCache.validate_cache_path path = Ok tt.
Definition used (t : CacheTable) (root_id path : string) : Prop :=
  exists e, e ∈ ca_events t /\ ur_root_id e = root_id /\ ur_relative_path e = path.
Definition excluded (t : CacheTable) (root_id path : string) : Prop := fp_excluded (CacheSql.preference t root_id path) <> 0%Z.

Lemma used_paths_used t root_id path : path ∈ CacheSql.used_paths root_id (ca_events t) <-> used t root_id path.
Proof.
  unfold CacheSql.used_paths, used. rewrite elem_of_remove_dups, list_elem_of_fmap. split.
  - intros (e & -> & He%list_elem_of_In). apply filter_In in He as [He%list_elem_of_In Hr%String.eqb_eq]. by exists e.
  - intros (e & He & Hr & <-). exists e. split; [done|]. apply list_elem_of_In, filter_In. split; [by apply list_elem_of_In|by apply String.eqb_eq].
Qed.
Lemma elem_of_candidates t root_id c :
  c ∈ CacheSql.candidates t root_id <-> exists path, c = CacheSql.candidate t root_id path /\ used t root_id path /\ ~ excluded t root_id path.
Proof.
  unfold CacheSql.candidates. rewrite elem_of_sort_by, list_elem_of_fmap. unfold excluded. split.
  - intros (path & -> & H%list_elem_of_In). apply filter_In in H as [H%list_elem_of_In%used_paths_used Hx%Z.eqb_eq]. exists path. split_and!; [done..|]. intros Hn. by apply Hn.
  - intros (path & -> & Hu & Hx). exists path. split; [done|]. apply list_elem_of_In, filter_In. split.
    + by apply list_elem_of_In, used_paths_used.
    + apply Z.eqb_eq. by destruct (decide (fp_excluded (CacheSql.preference t root_id path) = 0%Z)).
Qed.
#[export] Instance rank_total : TotalCmp CacheSql.rank.
Proof.
  unfold CacheSql.rank. assert (TotalCmp (fun a b : Z => Z.compare b a)) as Hz.
  { split; [intros x y; apply Z.compare_antisym|]. intros x y z H1 H2. rewrite Z.compare_gt_iff in *. lia. }
  apply lex_total; [exact (cmp_on_total cr_score _ Hz)|]. apply lex_total; [exact (cmp_on_total cr_last_used _ Hz)|].
  apply (cmp_on_total cr_path), _.
Qed.

Section list.
Context {DB : Type} `{!SqlDb DB, !SqlTx DB, !SqlCount DB, !SqlRowid DB, !TableDb DB CacheTable}.
Context (p : string).
Abbreviation store := (mkSmartCacheStore (Some p)).
Implicit Types w : world DB.

(** The operations of the store. *)
Inductive cache_step w : world DB -> Prop :=
| StepRecord draft r w' : SmartCache.record_usage_event store draft w = (r, w') -> cache_step w w'
| StepPrefer root_id path patch r w' : SmartCache.update_file_preference store root_id path patch w = (r, w') -> cache_step w w'
| StepList root_id limit r w' : SmartCache.list_candidates store root_id limit w = (r, w') -> cache_step w w'.
(** Every event is of a file that may be cached. *)
Definition events_ok (t : CacheTable) : Prop := Forall (fun e => may_cache (ur_relative_path e)) (ca_events t).

Lemma unix_ms_table {E} w (r : result Z E) w' : ManagedRoots.unix_ms w = (r, w') -> table_at p w' = table_at p w.
Proof. unfold ManagedRoots.unix_ms, now_ms, now_ns, io_bind, io_ret. by intros [= _ <-]. Qed.
Lemma read_rows root_id l cs :
  try_map SmartCache.candidate_from_row (map (CacheSql.candidate_row root_id) l) = Ok cs -> cs = map (listed root_id) l.
Proof.
  revert cs. induction l as [|c l IH]; intros cs; simpl; [by intros [= <-]|].
  destruct (try_map SmartCache.candidate_from_row _) as [cs'|e]; intros H; [|done]. injection H as <-. f_equal. by apply IH.
Qed.
Lemma list_run root_id limit w r w' :
  SmartCache.list_candidates store root_id limit w = (r, w') ->
  table_at p w' = table_at p w /\ forall cs, r = Ok cs ->
    cs = map (listed root_id) (take (Z.to_nat (Z.max 1 (Z.min 200 limit))) (CacheSql.candidates (table_at p w) root_id)).
Proof.
  unfold SmartCache.list_candidates. intros [(pool & w1 & H1 & H)|(e & H1 & _)]%io_bind_inv; [injection H1 as <- <-|done].
  set (n := Z.max 1 (Z.min SmartCache.CACHE_CANDIDATE_LIMIT_MAX limit)) in *.
  apply io_bind_inv in H as [(rows & w2 & H2 & H)|(e & (r2 & H2 & _)%io_map_err_inv & ->)].
  - apply query_ok in H2 as (_ & Ht & Hrows); [|simpl; set_solver]. injection H as H <-. split; [exact Ht|]. intros cs ->.
    simpl in Hrows. unfold CacheSql.fetch in Hrows. simpl in Hrows. destruct (ca_events_made _ && _); [|done]. injection Hrows as <-.
    unfold CacheSql.limited in H. assert ((n <? 0)%Z = false) as Hn by (apply Z.ltb_ge; lia). rewrite Hn in H.
    exact (read_rows _ _ _ H).
  - apply query_run in H2 as (_ & Ht & _); [|simpl; set_solver]. by split.
Qed.
Lemma record_run draft w r w' :
  SmartCache.record_usage_event store draft w = (r, w') ->
  ca_events (table_at p w') = ca_events (table_at p w) \/
  (may_cache (ud_relative_path draft) /\ exists id at_, ca_events (table_at p w') = ca_events (table_at p w) ++
     [mkUsageRow id (ud_root_id draft) (ud_relative_path draft) (SmartCache.kind_to_str (ud_kind draft)) at_]).
Proof.
  unfold SmartCache.record_usage_event. intros [(now & w1 & H1 & H)|(e & H1 & _)]%io_bind_inv.
  2: { left. by rewrite (unix_ms_table _ _ _ H1). }
  rewrite <- (unix_ms_table _ _ _ H1). clear H1. unfold SmartCache.record_usage_event_at in H.
  apply io_bind_inv in H as [([] & w2 & H2 & H)|(e & H2 & _)]; [|left; by injection H2 as _ <-]. injection H2 as Hpath <-.
  apply io_bind_inv in H as [(pool & w3 & H3 & H)|(e & H3 & _)]; [injection H3 as <- <-|done].
  apply io_bind_inv in H as [(u & w4 & H4 & H)|(e & (r4 & H4 & Hr)%io_map_err_inv & _)].
  - apply statement_ok in H4 as (_ & n & Hx & _); [|simpl; set_solver]. injection H as _ <-. right. split; [exact Hpath|].
    simpl in Hx. unfold CacheSql.execute in Hx. simpl in Hx. destruct (ca_events_made _); [|done]. injection Hx as <- _. by eexists _, _.
  - left. apply statement_run in H4 as [_ H4]; [|simpl; set_solver]. destruct r4; [done|]. by rewrite H4.
Qed.
Lemma prefer_run root_id path patch w r w' :
  SmartCache.update_file_preference store root_id path patch w = (r, w') -> ca_events (table_at p w') = ca_events (table_at p w).
Proof.
  unfold SmartCache.update_file_preference. intros [([] & w1 & H1 & H)|(e & H1 & _)]%io_bind_inv; [|by injection H1 as _ <-].
  injection H1 as _ <-. apply io_bind_inv in H as [(pool & w2 & H2 & H)|(e & H2 & _)]; [injection H2 as <- <-|done].
  apply io_bind_inv in H as [(now & w3 & H3 & H)|(e & H3 & _)]; [|by rewrite (unix_ms_table _ _ _ H3)].
  rewrite <- (unix_ms_table _ _ _ H3). apply io_bind_inv in H as [(u & w4 & H4 & H)|(e & (r4 & H4 & Hr)%io_map_err_inv & _)].
  - apply statement_ok in H4 as (_ & n & Hx & _); [|simpl; set_solver].
    assert (ca_events (table_at p w4) = ca_events (table_at p w3)) as <-.
    { simpl in Hx. unfold CacheSql.execute in Hx. simpl in Hx. destruct (ca_preferences_made _); [|done].
      destruct (int_opt _); [|done]. destruct (int_opt _); [|done]. by injection Hx as <- _. }
    apply io_bind_inv in H as [(rows & w5 & H5 & H)|(e & (r5 & H5 & _)%io_map_err_inv & _)].
    + apply query_ok in H5 as (_ & Ht & _); [|simpl; set_solver]. rewrite <- Ht. destruct rows; by injection H as _ <-.
    + apply query_run in H5 as (_ & Ht & _); [|simpl; set_solver]. by rewrite Ht.
  - apply statement_run in H4 as [_ H4]; [|simpl; set_solver]. destruct r4; [done|]. by rewrite H4.
Qed.
Lemma step_ok w w' : cache_step w w' -> events_ok (table_at p w) -> events_ok (table_at p w').
Proof.
  intros Hstep Hok. unfold events_ok in *. destruct Hstep as [draft r w' Hr|root_id path patch r w' Hr|root_id limit r w' Hr].
  - apply record_run in Hr as [->|(Hp & id & at_ & ->)]; [done|]. apply Forall_app. split; [done|]. by apply Forall_singleton.
  - by apply prefer_run in Hr as ->.
  - by apply list_run in Hr as [-> _].
Qed.

(** The cache is offered the most used files of a folder that may be cached: whatever was
    recorded, preferred and listed before on a database that had no events, the list for a
    folder has at most the files asked for and at most two hundred; each is a file of that
    folder with a recorded use, was not excluded by the user, and passes the local safety
    check - no path out of the folder, into the bookkeeping, or of a credential or key; they
    are in order of use, and a used file that is not excluded is left out only when the list
    is full of files that are used no less. *)
Theorem best_are_listed root_id limit w0 w cs w' :
  rtc cache_step w0 w -> ca_events (table_at p w0) = [] -> SmartCache.list_candidates store root_id limit w = (Ok cs, w') ->
  let t := table_at p w in
  (Z.of_nat (length cs) <= Z.max 1 (Z.min 200 limit))%Z /\
  Forall (fun c => sa_root_id c = root_id /\ may_cache (sa_relative_path c) /\ used t root_id (sa_relative_path c) /\
                   ~ excluded t root_id (sa_relative_path c)) cs /\
  StronglySorted (cmp_le rank_of) cs /\
  (forall path, used t root_id path -> ~ excluded t root_id path -> path ∈ map sa_relative_path cs \/
     (Z.of_nat (length cs) = Z.max 1 (Z.min 200 limit) /\ Forall (fun c => cmp_le rank_of c (listed root_id (CacheSql.candidate t root_id path))) cs)).
Proof.
  intros Hsteps Hempty H t. assert (events_ok (table_at p w)) as Hok.
  { assert (events_ok (table_at p w0)) as H0 by (unfold events_ok; rewrite Hempty; constructor).
    clear Hempty H t. induction Hsteps; eauto using step_ok. }
  apply list_run in H as [_ H]. specialize (H cs eq_refl). fold t in H. set (n := Z.max 1 (Z.min 200 limit)) in *.
  assert (StronglySorted (cmp_le CacheSql.rank) (CacheSql.candidates t root_id)) as Hsort by apply sort_by_strongly, _.
  pose proof (fun c => elem_of_candidates t root_id c) as Hin. revert Hsort Hin H. generalize (CacheSql.candidates t root_id). intros l Hsort Hin ->.
  rewrite <- (take_drop (Z.to_nat n) l) in Hsort. apply StronglySorted_app in Hsort as (Hbefore & Hsort & _).
  assert (forall a b, cmp_le CacheSql.rank a b <-> cmp_le rank_of (listed root_id a) (listed root_id b)) as Hrank by done.
  split_and!.
  - rewrite length_map, length_take. lia.
  - apply Forall_forall. intros c (x & -> & Hx)%list_elem_of_fmap.
    assert (x ∈ l) as (path & -> & Hu & He)%Hin by (rewrite <- (take_drop (Z.to_nat n) l), elem_of_app; by left).
    split_and!; [done| |done..]. destruct Hu as (e & Hev & _ & Hpath). simpl. rewrite <- Hpath. by apply (proj1 (Forall_forall _ _) Hok).
  - clear Hbefore Hin. induction Hsort as [|x l' Hl IH Hx]; simpl; constructor; [exact IH|].
    apply Forall_fmap. eapply Forall_impl; [exact Hx|]. intros y. apply Hrank.
  - intros path Hu He. assert (CacheSql.candidate t root_id path ∈ l) as Hl by (apply Hin; by exists path).
    rewrite <- (take_drop (Z.to_nat n) l), elem_of_app in Hl. destruct Hl as [Hl|Hl].
    + left. apply list_elem_of_fmap. exists (listed root_id (CacheSql.candidate t root_id path)). split; [done|].
      apply list_elem_of_fmap. by eexists.
    + right. split.
      * rewrite length_map, length_take. destruct (decide (Z.to_nat n <= length l)); [lia|]. rewrite drop_ge in Hl by lia. by apply not_elem_of_nil in Hl.
      * apply Forall_fmap, Forall_forall. intros x Hx. apply Hrank. by apply Hbefore.
Qed.
End list.
