(* ===== verification/smart_cache_facts.v ===== *)
(** The properties of the smart cache: uploads, recovery, and small instances. *)
From Stdlib Require Import ZArith Lia Ascii Sorted.
From stdpp Require Import strings pretty gmap countable functions option list sorting relations.
From S2P Require Import prelude rust_str std_path std_fs fs_facts path_guard db journal_store proposal_types rule_definition analyzer index_sql tables outbox.
From S2P Require Import desk managed_roots cleanliness agent agent_work office outbox_processor delivery_facts command_facts desk_db agent_files file_transfer policy_glob smart_cache_store.
From S2P Require Import smart_cache_list.

Open Scope string_scope.
Open Scope list_scope.


(** * A network that keeps the uploads made on it, and what leaves them as they are. *)

(** An upload: the address, the length it declares, and the bytes. *)
Record Upload := mkUpload { up_url : string; up_length : Z; up_body : string }.
Record logged (N : Type) := mkLogged { lg_uploads : list Upload; lg_net : N }.
Arguments mkLogged {N} _ _. Arguments lg_uploads {N} _. Arguments lg_net {N} _.
Definition beneath {N A} (m : N -> A * N) (l : logged N) : A * logged N :=
  let '(a, n) := m (lg_net l) in (a, mkLogged (lg_uploads l) n).
#[export] Instance logged_http {N V} `{!Http N V} : Http (logged N) V :=
  {| http_send req := beneath (http_send req); http_status_text := http_status_text (N:=N) (V:=V) |}.
#[export] Instance logged_credentials {N} `{!CredentialStore N} : CredentialStore (logged N) := {|
  credentials_load := beneath credentials_load; credentials_save c := beneath (credentials_save c);
  credentials_delete := beneath credentials_delete |}.
#[export] Instance logged_keys {N} `{!CacheKeys N} : CacheKeys (logged N) := {|
  fill_bytes n := beneath (fill_bytes n); keyring_entry := beneath keyring_entry; keyring_get := beneath keyring_get;
  keyring_set t := beneath (keyring_set t) |}.
#[export] Instance logged_uploader {N} `{!Uploader N} : Uploader (logged N) :=
  fun url size body l => let '(a, n) := upload_put url size body (lg_net l) in (a, mkLogged (lg_uploads l ++ [mkUpload url size body]) n).

Section log.
Context {N V : Type} `{!Http N V, !CredentialStore N, !JsonValue V, !Serde ServerErrorResponse}.

Definition same_log (l l' : logged N) : Prop := lg_uploads l' = lg_uploads l.
#[export] Instance same_log_preorder : PreOrder same_log.
Proof. split; [by intros l|]. intros l1 l2 l3 H1 H2. unfold same_log in *. congruence. Qed.
Lemma beneath_log {A} (m : N -> A * N) l a l' : beneath m l = (a, l') -> same_log l l'.
Proof. unfold beneath. destruct (m (lg_net l)) as [b n]. by intros [= _ <-]. Qed.

(** ** The agent *)

Definition agent_log (st st' : AgentState * logged N) : Prop := same_log st.2 st'.2.
#[export] Instance agent_log_preorder : PreOrder agent_log.
Proof. split; [intros st; unfold agent_log; reflexivity|]. intros s1 s2 s3 H1 H2. unfold agent_log in *. by etrans. Qed.
Lemma get_state_log {E} : io_rel (E:=E) agent_log (Agent.get_state (N:=logged N)).
Proof. apply io_rel_gets, _. Qed.
Lemma set_state_log {E} s : io_rel (E:=E) agent_log (Agent.set_state (N:=logged N) s).
Proof. by intros st r st' [= _ <-]. Qed.
Lemma on_network_log {A} (m : N -> result A AgentError * N) : io_rel agent_log (Agent.on_network (beneath m)).
Proof.
  intros st r st'. unfold Agent.on_network. destruct (beneath m st.2) as [a l] eqn:H. intros [= _ <-]. by apply beneath_log in H.
Qed.
Lemma delete_log : io_rel agent_log (Agent.on_network (N:=logged N) credentials_delete).
Proof. apply on_network_log. Qed.
Lemma send_log (rq : HttpRequest V) : io_rel agent_log (Agent.send (N:=logged N) rq).
Proof.
  intros st r st'. unfold Agent.send. cbn [http_send logged_http]. destruct (beneath (http_send rq) st.2) as [a l] eqn:H.
  intros [= _ <-]. by apply beneath_log in H.
Qed.
#[local] Hint Resolve get_state_log set_state_log delete_log send_log : io.
Lemma config_log : io_rel agent_log (Agent.require_authenticated_config (N:=logged N)).
Proof. unfold Agent.require_authenticated_config. io_rel_go. Qed.
Lemma send_json_log {T} `{!Serde T} (rq : HttpRequest V) : io_rel agent_log (Agent.send_json (T:=T) (N:=logged N) rq).
Proof. unfold Agent.send_json. io_rel_go. Qed.
Lemma send_empty_log (rq : HttpRequest V) : io_rel agent_log (Agent.send_empty (N:=logged N) rq).
Proof. unfold Agent.send_empty. io_rel_go. Qed.
Lemma recording_log {A} (m : io (AgentState * logged N) AgentError A) : io_rel agent_log m -> io_rel agent_log (Agent.recording m).
Proof.
  intros Hm. unfold Agent.recording, Agent.mark_online, Agent.record_error, Agent.record_non_authoritative_error, Agent.with_connection.
  apply io_rel_bind; [apply _|by apply io_rel_try|]. intros [a|e]; io_rel_go.
Qed.
End log.
#[export] Hint Resolve config_log send_json_log send_empty_log recording_log : io.
(** Proves [io_rel agent_log] of a call of the agent. *)
Ltac agent_log_go := repeat (first [apply recording_log | io_rel_step]).

(** * The office *)

Section office.
Context {N DB : Type}.
(** The uploads that are made satisfy [P]. *)
Definition uploads_only (P : Upload -> Prop) (st st' : office (logged N) DB) : Prop :=
  exists new, lg_uploads st'.1.2 = lg_uploads st.1.2 ++ new /\ Forall P new.
#[export] Instance uploads_only_preorder P : PreOrder (uploads_only P).
Proof.
  split; [intros st; exists []; by rewrite app_nil_r|]. intros s1 s2 s3 (n1 & H1 & H2) (n2 & H3 & H4).
  exists (n1 ++ n2). rewrite H3, H1, app_assoc. split; [done|]. by apply Forall_app.
Qed.
Lemma uploads_none P (st st' : office (logged N) DB) : same_log st.1.2 st'.1.2 -> uploads_only P st st'.
Proof. intros H. exists []. by rewrite app_nil_r. Qed.
Lemma uploads_mono (P Q : Upload -> Prop) (st st' : office (logged N) DB) : (forall u, P u -> Q u) -> uploads_only P st st' -> uploads_only Q st st'.
Proof. intros H (new & H1 & H2). exists new. split; [done|]. eapply Forall_impl; [exact H2|exact H]. Qed.

Lemma on_agent_uploads P {A} (m : io (AgentState * logged N) AgentError A) :
  io_rel agent_log m -> io_rel (uploads_only P) (on_agent (DB:=DB) m).
Proof. intros Hm st r st' (r0 & a & H & _ & ->)%on_agent_run. apply uploads_none. by apply Hm in H. Qed.
Lemma on_roots_uploads P {A} (m : io (RootStore * world DB) string A) : io_rel (uploads_only P) (on_roots (N:=logged N) m).
Proof. intros st r st' (s & _ & ->)%on_roots_run. by apply uploads_none. Qed.
Lemma on_machine_uploads P {A} (m : io (world DB) string A) : io_rel (uploads_only P) (on_machine (N:=logged N) m).
Proof. intros st r st' (w & _ & ->)%on_machine_run. by apply uploads_none. Qed.
Lemma look_uploads P meanwhile {E A} k (g : tree -> result A E) : io_rel (uploads_only P) (FileTransfer.look (N:=logged N) (DB:=DB) meanwhile k g).
Proof. unfold FileTransfer.look. intros st r st' (w & _ & ->)%zoom_run. by apply uploads_none. Qed.
Lemma keys_uploads P {A} (m : io (logged N) string A) :
  io_rel same_log m -> io_rel (uploads_only P) (FileTransfer.on_network (DB:=DB) m).
Proof. unfold FileTransfer.on_network. intros Hm st r st' (n & H & ->)%zoom_run. apply uploads_none. by apply Hm in H. Qed.
End office.
#[export] Hint Resolve on_roots_uploads on_machine_uploads look_uploads : io.

(** * What leaves the machine for the cache: the encrypted content of files the policy allows. *)

Section uploads.
Context {N V DB : Type} `{!SqlDb DB, !SqlTx DB, !SqlCount DB, net : !Http N V, creds : !CredentialStore N, values : !JsonValue V}.
Context `{uploader : !Uploader N, keys : !CacheKeys N, errors : !Serde ServerErrorResponse, works : !WorkCodecs V, files : !FileCodecs V}.
Context `{payloads : !PayloadCodecs V, responses : !ResponseCodecs V, caches : !CacheCodecs V}.
Context `{parser : !UrlParser, hash : !Sha256, cipher : !Aes, materials : !Serde SmartCacheKeyMaterial}.
Context (status_text : Z -> string) (meanwhile : nat -> world DB -> world DB).
Abbreviation state := (office (logged N) DB).
Implicit Types (st : state).

(** ** The calls of the server upload nothing *)

Lemma policy_log room : io_rel agent_log (AgentFiles.smart_cache_policy (N:=logged N) (V:=V) room).
Proof. unfold AgentFiles.smart_cache_policy. agent_log_go. Qed.
Lemma submit_log key room candidates : io_rel agent_log (AgentFiles.submit_smart_cache_candidates (N:=logged N) (V:=V) key room candidates).
Proof. unfold AgentFiles.submit_smart_cache_candidates. agent_log_go. Qed.
Lemma cancel_log id : io_rel agent_log (AgentFiles.cancel_smart_cache_reservation (N:=logged N) (V:=V) id).
Proof. unfold AgentFiles.cancel_smart_cache_reservation. agent_log_go. Qed.
Lemma complete_log id key size sha score pin meta :
  io_rel agent_log (Agent.complete_smart_cache_upload (N:=logged N) (V:=V) id key size sha score pin meta).
Proof. unfold Agent.complete_smart_cache_upload. agent_log_go. Qed.
Lemma fill_log n : io_rel same_log (CacheCrypto.fill (N:=logged N) n).
Proof.
  intros l r l'. unfold CacheCrypto.fill. destruct (fill_bytes n l) as [b l1] eqn:H. intros [= _ <-]. by apply beneath_log in H.
Qed.
Lemma keys_log : io_rel same_log (CacheCrypto.load_or_create_key_material (N:=logged N)).
Proof.
  intros l r l'. unfold CacheCrypto.load_or_create_key_material.
  destruct (keyring_entry l) as [[] l1] eqn:H1; apply beneath_log in H1; [|by intros [= _ <-]].
  destruct (keyring_get l1) as [[[t|]|e] l2] eqn:H2; apply beneath_log in H2; try by (intros [= _ <-]; etrans).
  intros H. etrans; [exact H1|]. etrans; [exact H2|]. refine ((_ : io_rel same_log _) _ _ _ H). apply io_rel_bind; [apply _|..].
  - unfold CacheCrypto.generate_key_material. apply io_rel_bind; [apply _|apply fill_log|]. intros key.
    apply io_rel_bind; [apply _|apply fill_log|]. intros id. apply io_rel_ret, _.
  - intros m l3 r3 l3'. destruct (keyring_set _ l3) as [[u|e] l4] eqn:H4; apply beneath_log in H4; by intros [= _ <-].
Qed.

(** ** An upload *)

(** What an encryption at the [k]-th look makes of [path]: the key is the one of the
    keyring, the nonce is fresh, the content is what the file holds at that look. *)
Definition encrypts (k : nat) (path : string) (size : Z) st (bytes : string) : Prop :=
  exists material n key nonce n' content ciphertext,
    CacheCrypto.load_or_create_key_material st.1.2 = (Ok material, n) /\
    CacheCrypto.decode_hex_array CacheCrypto.KEY_BYTES (km_key_hex material) = Ok key /\
    CacheCrypto.fill CacheCrypto.NONCE_BYTES n = (Ok nonce, n') /\
    content_at (w_fs (meanwhile k (machine_of st))) path = Some content /\ slen content = size /\
    aes256_gcm_encrypt key nonce content = Some ciphertext /\ bytes = CacheCrypto.ENVELOPE_MAGIC +:+ nonce +:+ ciphertext.
(** An upload for a reservation, of the candidate that it names: at the [k]-th look its path
    in the folder still leads to a file of the same version, and what is encrypted at the
    next look goes to the address of the reservation, at the size it reserved. *)
Definition reserved_upload (k : nat) (root : string) (candidates : gmap (string * string) PreparedCacheCandidate)
    (reservation : AgentSmartCacheReservation) st (c : PreparedCacheCandidate) (u : Upload) : Prop :=
  let w := meanwhile k (machine_of st) in
  candidates !! (cv_source_relative_path reservation, cv_source_version_hash reservation) = Some c /\
  cv_upload_url reservation = Some (up_url u) /\ cv_size_bytes reservation = up_length u /\ up_length u = slen (up_body u) /\
  (exists current, checked_source (w_fs w) root (sa_relative_path (pc_local c)) current /\
    vs_source_version current = vs_source_version (pc_source c)) /\
  encrypts (k + 1) (vs_resolved_path (pc_source c)) (fv_size_bytes (vs_source_version (pc_source c))) (st.1, (st.2.1, w)) (up_body u).

Lemma encrypt_run k path size st e st' :
  CacheCrypto.encrypt_smart_cache_file (N:=logged N) meanwhile k path size st = (Ok e, st') ->
  encrypts k path size st (eo_bytes e) /\ eo_size_bytes e = slen (eo_bytes e).
Proof.
  intros (material & st1 & H1 & H)%io_bind_ok. apply zoom_run in H1 as (n1 & H1 & ->).
  apply io_bind_ok in H as (key & st2 & H2 & H). injection H2 as H2 <-.
  apply io_bind_ok in H as (nonce & st3 & H3 & H). apply zoom_run in H3 as (n3 & H3 & ->).
  apply io_bind_ok in H as (content & st4 & H4 & H). apply io_map_err_ok, look_run in H4 as [-> H4].
  destruct (slen content =? size)%Z eqn:Hs; [|done]. apply Z.eqb_eq in Hs.
  injection H as H _. unfold CacheCrypto.encrypt_smart_cache_bytes_with_key in H. destruct (slen _ <? 16)%Z; [done|].
  destruct (aes256_gcm_encrypt key nonce content) as [ciphertext|] eqn:Hc; [|done]. injection H as <-. split; [|done].
  exists material, n1, key, nonce, n3, content, ciphertext. split_and!; try done. unfold content_at, files_of, machine_of in *. simpl in *. by rewrite <- H4.
Qed.
Lemma encrypt_uploads P k path size :
  io_rel (uploads_only P) (CacheCrypto.encrypt_smart_cache_file (N:=logged N) (DB:=DB) meanwhile k path size).
Proof.
  unfold CacheCrypto.encrypt_smart_cache_file. io_rel_go.
  - apply keys_uploads, keys_log.
  - apply keys_uploads, fill_log.
Qed.
Lemma put_uploads url body st r st' :
  FileTransfer.put_upload_bytes status_text url body st = (r, st') ->
  exists u, lg_uploads st'.1.2 = lg_uploads st.1.2 ++ [u] /\ up_url u = url /\ up_length u = slen body /\ up_body u = body.
Proof.
  unfold FileTransfer.put_upload_bytes, FileTransfer.on_network, zoom, io_bind.
  destruct (upload_put url (slen body) body st.1.2) as [a l] eqn:Hput. unfold upload_put, logged_uploader in Hput.
  destruct (upload_put url (slen body) body (lg_net st.1.2)) as [a' n] in Hput. injection Hput as <- <-.
  destruct a' as [status|]; [destruct (is_success status)|]; intros [= _ <-]; exists (mkUpload url (slen body) body); by split_and!.
Qed.

Lemma validate_run k root c st source st' :
  CacheProcessor.validate_candidate (N:=logged N) meanwhile k root c st = (Ok source, st') ->
  st' = (st.1, (st.2.1, meanwhile k (machine_of st))) /\ checked_source (w_fs (meanwhile k (machine_of st))) root (sa_relative_path c) source.
Proof.
  intros [-> H]%look_run. split; [done|]. destruct (TransferSource.validate_local_transfer_source _ _ _ _ _) as [s|] eqn:Hs; [|done].
  injection H as ->. by apply validate_checked in Hs.
Qed.
Lemma validate_uploads P k root c : io_rel (uploads_only P) (CacheProcessor.validate_candidate (N:=logged N) (DB:=DB) meanwhile k root c).
Proof. apply look_uploads. Qed.
Lemma current_run k root c st u st' :
  CacheProcessor.ensure_candidate_still_current (N:=logged N) meanwhile k root c st = (Ok u, st') ->
  st' = (st.1, (st.2.1, meanwhile k (machine_of st))) /\
  exists current, checked_source (w_fs (meanwhile k (machine_of st))) root (sa_relative_path (pc_local c)) current /\
    vs_source_version current = vs_source_version (pc_source c).
Proof.
  intros (current & st1 & [-> Hc]%validate_run & H)%io_bind_ok. destruct (bool_decide_reflect (vs_source_version current = vs_source_version (pc_source c))) as [Hv|]; [|done].
  simpl in H. destruct (negb _); [done|]. injection H as _ <-. split; [done|]. by exists current.
Qed.
Lemma current_uploads P k root c : io_rel (uploads_only P) (CacheProcessor.ensure_candidate_still_current (N:=logged N) (DB:=DB) meanwhile k root c).
Proof. unfold CacheProcessor.ensure_candidate_still_current. io_rel_go. Qed.
Lemma prepared_uploads k root candidates reservation st r st' :
  CacheProcessor.prepared_upload (N:=logged N) (DB:=DB) status_text meanwhile k root candidates reservation st = (r, st') ->
  uploads_only (fun u => exists c, reserved_upload k root candidates reservation st c u) st st'.
Proof.
  unfold CacheProcessor.prepared_upload. destruct (cv_upload_url reservation) as [url|] eqn:Hurl; [|intros [= _ <-]; reflexivity].
  destruct (candidates !! _) as [c|] eqn:Hc; [|intros [= _ <-]; reflexivity].
  intros [(u1 & st1 & H1 & H)|(e & H1 & _)]%io_bind_inv; [|by eapply current_uploads].
  etrans; [by eapply current_uploads|]. apply current_run in H1 as [-> Hcur].
  apply io_bind_inv in H as [(e & st2 & H2 & H)|(e & H2 & _)]; [|by eapply encrypt_uploads].
  etrans; [by eapply encrypt_uploads|]. apply encrypt_run in H2 as [Henc Hes].
  destruct (eo_size_bytes e =? cv_size_bytes reservation)%Z eqn:Hs; [|injection H as _ <-; reflexivity]. apply Z.eqb_eq in Hs. simpl in H.
  refine ((_ : io_rel (uploads_only _) _) _ _ _ H). apply io_rel_bind; [apply _| |intros _; io_rel_go; apply current_uploads].
  intros st3 r3 st4 (u & Hu & Ha & Hb & Hd)%put_uploads. exists [u]. split; [exact Hu|]. apply Forall_singleton.
  exists c. rewrite <- Hd in Henc. split_and!; [exact Hc|congruence..|exact Hcur|exact Henc].
Qed.
Lemma reservation_uploads outbox k root candidates reservation st r st' :
  CacheProcessor.upload_reservation (N:=logged N) (V:=V) (DB:=DB) status_text meanwhile outbox k root candidates reservation st = (r, st') ->
  uploads_only (fun u => exists c, reserved_upload k root candidates reservation st c u) st st'.
Proof.
  unfold CacheProcessor.upload_reservation, CacheProcessor.cancelling, io_bind at 1, io_try at 1.
  destruct (CacheProcessor.prepared_upload _ _ _ _ _ _ st) as [p st1] eqn:Hp. apply prepared_uploads in Hp. simpl. intros H.
  etrans; [exact Hp|]. refine ((_ : io_rel (uploads_only _) _) _ _ _ H).
  io_rel_go; first [apply on_agent_uploads, cancel_log|apply on_agent_uploads, complete_log].
Qed.

(** ** A room *)

(** The machine after the first [k] looks from [w]. *)
Definition after_looks (k : nat) (w : world DB) : world DB := match k with O => w | S k => at_look meanwhile k w end.
Lemma at_look_after k w : at_look meanwhile k w = meanwhile k (after_looks k w).
Proof. by destruct k. Qed.
(** A candidate that the policy allows: one of the [local] files, excluded by no pattern and
    small enough, which was checked in the folder at its look; [w] is before the looks. *)
Definition allowed (policy : AgentSmartCachePolicy) (root : string) (local : list SmartCacheCandidate) (w : world DB)
    (c : PreparedCacheCandidate) : Prop :=
  PolicyGlob.matches_policy_pattern (sa_relative_path (pc_local c)) (cy_excluded_patterns policy) = false /\
  sa_relative_path (pc_local c) ∈ map sa_relative_path local /\
  (fv_size_bytes (vs_source_version (pc_source c)) <= cy_max_file_bytes policy)%Z /\
  exists i, (CacheProcessor.apply_policy_candidate_preferences local (cy_excluded_patterns policy) (cy_pinned_patterns policy)).1 !! i
      = Some (pc_local c) /\
    checked_source (w_fs (at_look meanwhile i w)) root (sa_relative_path (pc_local c)) (pc_source c).
Lemma preferred_in local excluded pinned c :
  c ∈ (CacheProcessor.apply_policy_candidate_preferences local excluded pinned).1 ->
  PolicyGlob.matches_policy_pattern (sa_relative_path c) excluded = false /\ sa_relative_path c ∈ map sa_relative_path local.
Proof.
  assert (c ∈ omap (fun c => if PolicyGlob.matches_policy_pattern (sa_relative_path c) excluded then None
      else Some (if PolicyGlob.matches_policy_pattern (sa_relative_path c) pinned then CacheProcessor.with_pin c else c)) local ->
    PolicyGlob.matches_policy_pattern (sa_relative_path c) excluded = false /\ sa_relative_path c ∈ map sa_relative_path local) as H.
  { intros (d & Hd & Hc)%list_elem_of_omap. destruct (PolicyGlob.matches_policy_pattern (sa_relative_path d) excluded) eqn:He; [done|].
    injection Hc as <-. destruct (PolicyGlob.matches_policy_pattern (sa_relative_path d) pinned); (split; [done|]);
      apply list_elem_of_fmap; by exists d. }
  unfold CacheProcessor.apply_policy_candidate_preferences. destruct excluded as [|e l]; [destruct pinned as [|q l]|]; [|exact H..].
  intros Hc. split; [done|]. apply list_elem_of_fmap. by exists c.
Qed.
Lemma prepare_uploads P k root max c : io_rel (uploads_only P) (CacheProcessor.prepare_candidate (N:=logged N) (DB:=DB) meanwhile k root max c).
Proof. unfold CacheProcessor.prepare_candidate. io_rel_go. Qed.
Lemma candidate_prepare_run k root max c st r st' :
  CacheProcessor.prepare_candidate (N:=logged N) meanwhile k root max c st = (r, st') ->
  machine_of st' = meanwhile k (machine_of st) /\ forall p, r = Ok p ->
    pc_local p = c /\ (fv_size_bytes (vs_source_version (pc_source p)) <= max)%Z /\
    checked_source (w_fs (meanwhile k (machine_of st))) root (sa_relative_path c) (pc_source p).
Proof.
  intros [(source & st1 & [-> Hs]%validate_run & H2)|(e & [-> _]%look_run & ->)]%io_bind_inv; [|done].
  destruct (max <? _)%Z eqn:Hmax; [by injection H2 as <- <-|]. apply Z.ltb_ge in Hmax. injection H2 as <- <-. split; [done|].
  by intros p [= <-].
Qed.
Lemma prepare_all_allowed policy root local w found st st' :
  machine_of st = w ->
  CacheProcessor.prepare_all (N:=logged N) meanwhile root (cy_max_file_bytes policy)
    (CacheProcessor.apply_policy_candidate_preferences local (cy_excluded_patterns policy) (cy_pinned_patterns policy)).1 st = (Ok found, st') ->
  Forall (allowed policy root local w) found.1.
Proof.
  intros Hw H. set (preferred := (CacheProcessor.apply_policy_candidate_preferences local _ _).1) in H.
  unfold CacheProcessor.prepare_all in H. apply (io_for_prefix _ (fun done found st =>
    machine_of st = after_looks (length done) w /\ Forall (allowed policy root local w) found.1)) in H; [by destruct H|by split|].
  clear found st st' Hw H. intros done c rest found st found' st' Hl [Hw Hall] H. unfold io_bind, io_try in H.
  destruct (CacheProcessor.prepare_candidate _ _ root _ c st) as [r st1] eqn:Hp. injection H as <- <-.
  apply candidate_prepare_run in Hp as [Hm Hp]. rewrite Hw in *. rewrite length_app, Nat.add_comm. simpl. rewrite at_look_after.
  split; [exact Hm|]. destruct r as [p|]; [|exact Hall]. apply Forall_app. split; [exact Hall|]. apply Forall_singleton.
  destruct (Hp p eq_refl) as (<- & Hmax & Hc). rewrite <- at_look_after in Hc.
  assert (preferred !! length done = Some (pc_local p)) as Hi by (by rewrite Hl, list_lookup_middle).
  destruct (preferred_in local (cy_excluded_patterns policy) (cy_pinned_patterns policy) (pc_local p)) as [Hex Hin];
    [by apply list_elem_of_lookup_2 in Hi|]. split_and!; [done..|]. by exists (length done).
Qed.
Lemma by_path_in candidates key c : CacheProcessor.by_path_and_version candidates !! key = Some c -> c ∈ candidates.
Proof.
  unfold CacheProcessor.by_path_and_version. intros H%elem_of_list_to_map_2. apply list_elem_of_In, in_rev, list_elem_of_In in H.
  by apply list_elem_of_fmap in H as (d & [= _ ->] & Hd).
Qed.

(** What processing a room in the state [st] comes to before it uploads, each part the
    result of a call that it makes: the policy of the server, fetched and enabled; the
    [folder] that the registry binds to the room, enabled; the files that the store of
    usages offers, [w] being the machine then; the candidates that are checked one after the
    other; and the [batch] that the server approves of what it is offered. [sb] is the state
    then. *)
Definition offering cache (room : AgentRoomSync) (limit : Z) st (policy : AgentSmartCachePolicy) (folder : ManagedRoot)
    (local : list SmartCacheCandidate) (w : world DB) (prepared : list PreparedCacheCandidate) (failed : Z)
    (batch : AgentSmartCacheCandidateBatchResult) (sb : state) : Prop :=
  exists a roots w0 sp offered key,
    AgentFiles.smart_cache_policy (V:=V) (ry_room_id room) st.1 = (Ok policy, a) /\ cy_enabled policy = true /\
    ManagedRoots.ensure_active_room_binding (ry_root_id room) (ry_room_id room) st.2 = (Ok folder, (roots, w0)) /\ mr_enabled folder = true /\
    SmartCache.list_candidates cache (ry_root_id room) limit w0 = (Ok local, w) /\
    CacheProcessor.prepare_all (N:=logged N) meanwhile (mr_root folder) (cy_max_file_bytes policy)
      (CacheProcessor.apply_policy_candidate_preferences local (cy_excluded_patterns policy) (cy_pinned_patterns policy)).1
      (a, (roots, w)) = (Ok (prepared, failed), sp) /\
    try_map CacheProcessor.server_candidate prepared = Ok offered /\
    CacheProcessor.candidate_batch_idempotency_key (ry_room_id room) offered = Ok key /\
    AgentFiles.submit_smart_cache_candidates (V:=V) key (ry_room_id room) offered sp.1 = (Ok batch, sb.1) /\ sb.2 = sp.2.
(** The upload for the [i]-th reservation of the batch, in the state that the ones before
    it left. *)
Definition upload_of outbox (k : nat) (root : string) (prepared : list PreparedCacheCandidate) (failed : Z)
    (approved : list AgentSmartCacheReservation) (sb : state) (i : nat) (c : PreparedCacheCandidate) (u : Upload) : Prop :=
  let candidates := CacheProcessor.by_path_and_version prepared in
  exists reservation counts st, approved !! i = Some reservation /\ cv_status reservation <> "COMPLETED" /\
    CacheProcessor.upload_all (V:=V) status_text meanwhile outbox k root candidates failed (take i approved) sb = (Ok counts, st) /\
    reserved_upload (k + 3 * i) root candidates reservation st c u.
Lemma upload_loop_uploads outbox k root prepared failed approved sb r st' :
  CacheProcessor.upload_all (V:=V) status_text meanwhile outbox k root (CacheProcessor.by_path_and_version prepared) failed approved sb = (r, st') ->
  uploads_only (fun u => exists i c, upload_of outbox k root prepared failed approved sb i c u) sb st'.
Proof.
  intros H. unfold CacheProcessor.upload_all in H. refine (io_for_path _ _ _ _ _ _ _ H _). clear r st' H.
  intros done reservation rest counts st r st' Hl Hpre H. destruct (String.eqb_spec (cv_status reservation) "COMPLETED") as [|Hst];
    [by injection H as _ <-; reflexivity|]. unfold io_bind, io_try in H.
  destruct (CacheProcessor.upload_reservation _ _ _ _ _ _ _ st) as [r0 st0] eqn:Hu. injection H as _ <-.
  apply reservation_uploads in Hu. eapply uploads_mono; [|exact Hu]. intros u (c & Hc). exists (length done), c, reservation, counts, st.
  split_and!; [by rewrite Hl, list_lookup_middle|done| |exact Hc]. unfold CacheProcessor.upload_all. by rewrite Hl, take_app_length.
Qed.
(** What processing a room lets be uploaded. *)
Definition room_grants cache outbox (room : AgentRoomSync) (limit : Z) st (u : Upload) : Prop :=
  exists policy folder local w prepared failed batch sb i c,
    offering cache room limit st policy folder local w prepared failed batch sb /\
    c ∈ prepared /\ allowed policy (mr_root folder) local w c /\
    upload_of outbox
      (length (CacheProcessor.apply_policy_candidate_preferences local (cy_excluded_patterns policy) (cy_pinned_patterns policy)).1)
      (mr_root folder) prepared failed (cb_approved batch) sb i c u.

(** C8: Only encrypted content leaves the machine for the cache: whatever processing a room
    comes to, each of its uploads was granted in this run by the room's policy, which was
    fetched and enabled, and by its folder, which the registry bound to the room and had
    enabled; it goes to the address of a reservation of the batch that the server approved
    when it was offered the candidates checked in this run, with the length it reserved; its
    candidate is a file that the usage of the folder offered, matches no excluded pattern,
    is no larger than the policy allows, and was found at its look to lie inside that folder
    and, just before the upload, to lie there still with the same version; and its bytes are
    the envelope of the cipher's output - under the key of the keyring and a nonce drawn for
    it - on the content that the file of the candidate held at the look that reads it. *)
Theorem cache_uploads_only_encrypted cache outbox room limit st r st' :
  CacheProcessor.process_smart_cache_for_known_room (N:=logged N) (V:=V) status_text meanwhile cache outbox room limit st = (r, st') ->
  uploads_only (room_grants cache outbox room limit st) st st'.
Proof.
  intros H. unfold CacheProcessor.process_smart_cache_for_known_room in H.
  apply io_bind_inv in H as [(policy & st1 & H1 & H)|(e & H1 & _)]; [|exact (on_agent_uploads _ _ (policy_log _) _ _ _ H1)].
  etrans; [exact (on_agent_uploads _ _ (policy_log _) _ _ _ H1)|]. apply on_agent_run in H1 as ([p|] & a & Hpolicy & [= <-] & ->).
  destruct (cy_enabled policy) eqn:Hen; [|by injection H as _ <-]. simpl in H.
  apply io_bind_inv in H as [(folder & st2 & H2 & H)|(e & H2 & _)]; [|by eapply on_roots_uploads].
  etrans; [by eapply on_roots_uploads|]. apply on_roots_run in H2 as ([roots w0] & Hroot & ->).
  destruct (mr_enabled folder) eqn:Hfolder; [simpl in H|by injection H as _ <-].
  apply io_bind_inv in H as [(local & st3 & H3 & H)|(e & H3 & _)]; [|by eapply on_machine_uploads].
  etrans; [by eapply on_machine_uploads|]. apply on_machine_run in H3 as (w & Hlocal & ->).
  destruct (CacheProcessor.apply_policy_candidate_preferences local _ _) as [preferred skipped] eqn:Hpref.
  assert (forall P, io_rel (uploads_only P) (CacheProcessor.prepare_all (N:=logged N) (DB:=DB) meanwhile (mr_root folder) (cy_max_file_bytes policy) preferred)) as Hnone.
  { intros P. unfold CacheProcessor.prepare_all. apply io_rel_for; [apply _|]. intros i found c. io_rel_go. apply prepare_uploads. }
  apply io_bind_inv in H as [([prepared failed] & sp & H4 & H)|(e & H4 & _)]; [|by eapply Hnone].
  etrans; [by eapply Hnone|].
  pose proof (prepare_all_allowed policy (mr_root folder) local w (prepared, failed) (a, (roots, w)) sp eq_refl) as Hall.
  rewrite Hpref in Hall. specialize (Hall H4). simpl in Hall. destruct prepared as [|c0 others]; [by injection H as _ <-|].
  set (prepared := c0 :: others) in *.
  apply io_bind_inv in H as [(offered & s5 & [= Hoffered <-] & H)|(e & [= _ <-] & _)]; [|done].
  apply io_bind_inv in H as [(key & s6 & [= Hkey <-] & H)|(e & [= _ <-] & _)]; [|done].
  apply io_bind_inv in H as [(batch & sb & H7 & H)|(e & H7 & _)]; [|exact (on_agent_uploads _ _ (submit_log _ _ _) _ _ _ H7)].
  etrans; [exact (on_agent_uploads _ _ (submit_log _ _ _) _ _ _ H7)|].
  apply on_agent_run in H7 as ([b|] & a7 & Hbatch & [= <-] & ->).
  assert (exists r', CacheProcessor.upload_all (V:=V) status_text meanwhile outbox (length preferred) (mr_root folder)
    (CacheProcessor.by_path_and_version prepared) failed (cb_approved batch) (a7, sp.2) = (r', st')) as [r' Hloop].
  { apply io_bind_inv in H as [([up bad] & s8 & H8 & [= _ <-])|(e & H8 & _)]; by eexists. }
  apply upload_loop_uploads in Hloop. eapply uploads_mono; [|exact Hloop].
  intros u (i & c & Hu). exists policy, folder, local, w, prepared, failed, batch, (a7, sp.2), i, c. rewrite Hpref.
  assert (c ∈ prepared) as Hin by (destruct Hu as (? & ? & ? & _ & _ & _ & Hc & _); by eapply by_path_in).
  split_and!; [|done|by eapply Forall_forall|exact Hu].
  exists a, roots, w0, sp, offered, key. rewrite Hpref. by split_and!.
Qed.
End uploads.

(** * What is cached can be read again *)

(** What the keyring of the system does: it keeps what is stored in it.  The random
    numbers are as many as asked for. *)
Class KeyLaws (N : Type) `{!CacheKeys N} := {
  key_stored : N -> option string;
  entry_stored n b n' : keyring_entry n = (b, n') -> key_stored n' = key_stored n;
  get_stored n v n' : keyring_get n = (Ok v, n') -> v = key_stored n /\ key_stored n' = key_stored n;
  set_stored n t u n' : keyring_set t n = (Ok u, n') -> key_stored n' = Some t;
  fill_stored k n b n' : fill_bytes k n = (b, n') -> String.length b = k /\ key_stored n' = key_stored n;
}.

(** The reader of a cached object, with the text in the keyring. *)
Definition recover `{!Serde SmartCacheKeyMaterial} (decrypt : string -> string -> string -> option string) (stored : option string)
    (e : EncryptedSmartCacheObject) : option string :=
  text ← stored;
  material ← result_ok (CacheCrypto.parse_key_material text);
  key ← result_ok (CacheCrypto.decode_hex_array CacheCrypto.KEY_BYTES (km_key_hex material));
  nonce ← result_ok (CacheCrypto.decode_hex_array CacheCrypto.NONCE_BYTES (em_nonce_hex (eo_metadata e)));
  if (km_key_id material =? em_key_id (eo_metadata e))%string then
    ciphertext ← strip_prefix (eo_bytes e) (CacheCrypto.ENVELOPE_MAGIC +:+ nonce);
    decrypt key nonce ciphertext
  else None.

Section recovery.
Context {N DB : Type} `{keys : !CacheKeys N, !KeyLaws N, materials : !Serde SmartCacheKeyMaterial, cipher : !Aes, hash : !Sha256}.
Context (meanwhile : nat -> world DB -> world DB).

Lemma fill_run k (n : N) r n' : CacheCrypto.fill k n = (r, n') -> exists b, r = Ok b /\ String.length b = k /\ key_stored n' = key_stored n.
Proof. unfold CacheCrypto.fill. destruct (fill_bytes k n) as [b n1] eqn:H. intros [= <- <-]. exists b. split; [done|]. by eapply fill_stored. Qed.
(** The key that is used is the one the keyring holds afterwards. *)
Lemma key_material_run (n : N) m n' :
  (forall m, from_text (to_text m) = Some m) -> CacheCrypto.load_or_create_key_material n = (Ok m, n') ->
  exists text, key_stored n' = Some text /\ from_text text = Some m /\ km_version m = CacheCrypto.KEY_VERSION.
Proof.
  intros Hround. unfold CacheCrypto.load_or_create_key_material.
  destruct (keyring_entry n) as [[] n1] eqn:H1; [|done]. destruct (keyring_get n1) as [[[text|]|e] n2] eqn:H2; [..|done].
  - intros [= H <-]. apply get_stored in H2 as [H2 H3]. exists text. rewrite H3, <- H2. split; [done|].
    unfold CacheCrypto.parse_key_material in H. destruct (from_text text) as [m'|]; [|done]. destruct (negb _ || _ || _) eqn:Hbad; [done|].
    injection H as ->. split; [done|]. apply orb_false_iff in Hbad as [[Hv _]%orb_false_iff _]. by apply negb_false_iff, Z.eqb_eq in Hv.
  - intros (material & n3 & H3 & H)%io_bind_ok. destruct (keyring_set (to_text material) n3) as [[u|e] n4] eqn:H4; [|done].
    injection H as <- <-. apply set_stored in H4. exists (to_text material). split_and!; [done..|].
    unfold CacheCrypto.generate_key_material in H3. apply io_bind_ok in H3 as (key & n5 & _ & H3).
    apply io_bind_ok in H3 as (id & n6 & _ & H3). by injection H3 as <- _.
Qed.

(** C34: What is cached is not lost to its owner: when a file was encrypted for the cache, its
    content at that moment, of the size that was announced, is what the reader gets back from
    the object with the key in the keyring - which is there even when it was generated only
    now - and the object is as large as the reservation was asked to be. *)
Theorem cached_file_recovered decrypt k path size (st : office N DB) e st' :
  (forall key nonce p c, aes256_gcm_encrypt key nonce p = Some c -> decrypt key nonce c = Some p /\ slen c = slen p + CacheCrypto.TAG_BYTES)%Z ->
  (forall m, from_text (to_text m) = Some m) -> (size + 32 < 2 ^ 64)%Z ->
  CacheCrypto.encrypt_smart_cache_file meanwhile k path size st = (Ok e, st') ->
  exists content, content_at (files_of st') path = Some content /\ slen content = size /\
    recover decrypt (key_stored st'.1.2) e = Some content /\
    CacheCrypto.encrypted_smart_cache_object_size size = Ok (eo_size_bytes e).
Proof.
  intros Hcipher Hround Hsize (material & st1 & H1 & H)%io_bind_ok. apply zoom_run in H1 as (n1 & H1 & ->).
  apply (key_material_run _ _ _ Hround) in H1 as (text & Hstored & Hread & Hversion).
  apply io_bind_ok in H as (key & st2 & H2 & H). injection H2 as Hkey <-.
  apply io_bind_ok in H as (nonce & st3 & H3 & H). apply zoom_run in H3 as (n3 & H3 & ->). apply fill_run in H3 as (b & [= <-] & Hlen & Hkept).
  apply io_bind_ok in H as (content & st4 & H4 & H). apply io_map_err_ok in H4. pose proof H4 as [_ Hcontent]%look_run. unfold FileTransfer.look in H4. apply zoom_run in H4 as (w & _ & ->).
  destruct (slen content =? size)%Z eqn:Hs; [|done]. apply Z.eqb_eq in Hs. simpl in H. unfold io_lift in H. injection H as H <-.
  unfold CacheCrypto.encrypt_smart_cache_bytes_with_key in H. destruct (slen (trim _) <? 16)%Z eqn:Hid; [done|].
  destruct (aes256_gcm_encrypt key nonce content) as [c|] eqn:Hc; [|done]. injection H as <-. destruct (Hcipher _ _ _ _ Hc) as [Hdec Hclen].
  exists content. split_and!; [by unfold content_at, files_of in *; simpl in *; rewrite <- Hcontent|done|..].
  - simpl. rewrite Hkept. simpl. unfold recover. rewrite Hstored. simpl. unfold CacheCrypto.parse_key_material. rewrite Hread, Hversion, Hid, Hkey.
    simpl. rewrite Hkey. simpl. rewrite <- Hlen, decode_hex_lower. simpl. rewrite String.eqb_refl.
    change ("" +:+ nonce +:+ c) with (nonce +:+ c). change ("" +:+ nonce) with nonce. by rewrite strip_prefix_app.
  - unfold CacheCrypto.encrypted_smart_cache_object_size, CacheCrypto.checked_add.
    change (slen CacheCrypto.ENVELOPE_MAGIC) with 4%Z. change (Z.of_nat CacheCrypto.NONCE_BYTES) with 12%Z. unfold CacheCrypto.TAG_BYTES in *.
    rewrite (proj2 (Z.ltb_lt (size + 4) _)) by lia. simpl. rewrite (proj2 (Z.ltb_lt (size + 4 + 12) _)) by lia. simpl.
    rewrite (proj2 (Z.ltb_lt (size + 4 + 12 + 16) _)) by lia. f_equal. cbn [eo_size_bytes].
    rewrite !slen_append. change (slen CacheCrypto.ENVELOPE_MAGIC) with 4%Z. unfold slen at 1. rewrite Hlen. unfold CacheCrypto.NONCE_BYTES. lia.
Qed.
End recovery.

(** * The cache on concrete machines: a keyring, a toy cipher, a small usage history, and the
    witnesses of its properties. *)

(** * Instances *)

(** Positive numbers as texts of bits. *)
Fixpoint bits_text (n : positive) : string :=
  match n with xH => "" | xO n => String "0" (bits_text n) | xI n => String "1" (bits_text n) end.
Fixpoint text_bits (s : string) : option positive :=
  match s with
  | "" => Some xH
  | String c s => n ← text_bits s; if Ascii.eqb c "0" then Some (xO n) else if Ascii.eqb c "1" then Some (xI n) else None
  end.
Lemma text_bits_text n : text_bits (bits_text n) = Some n.
Proof. induction n as [n IH|n IH|]; simpl; [by rewrite IH..|done]. Qed.
#[local] Instance material_text : Serde SmartCacheKeyMaterial := {|
  to_text m := bits_text (encode (km_version m, km_key_id m, km_key_hex m));
  from_text t := n ← text_bits t; '(version, id, key) ← decode n; Some (mkSmartCacheKeyMaterial version id key) |}.
Lemma material_round m : from_text (to_text m) = Some m.
Proof. destruct m. simpl. rewrite text_bits_text. simpl. by rewrite decode_encode. Qed.

(** A system whose keyring holds a text or none. *)
Record vault := mkVault { vt_key : option string }.
#[local] Instance vault_http : Http vault value_tree := {| http_send req n := (Some (mkHttpResponse 200 ""), n); http_status_text := fmt_int |}.
#[local] Instance vault_credentials : CredentialStore vault := no_keyring _.
#[local] Instance vault_uploader : Uploader vault := fun _ _ _ n => (Some 200%Z, n).
#[local] Instance vault_keys : CacheKeys vault := {|
  fill_bytes k n := (zeros k, n); keyring_entry n := (true, n); keyring_get n := (Ok (vt_key n), n);
  keyring_set t _ := (Ok tt, mkVault (Some t)) |}.
#[local] Instance vault_laws : KeyLaws vault.
Proof.
  unshelve econstructor; [exact vt_key|..]; simpl.
  - by intros n b n' [= <- <-].
  - by intros n v n' [= <- <-].
  - by intros n t u n' [= <- <-].
  - intros k n b n' [= <- <-]. split; [|done]. induction k as [|k IH]; simpl; [done|by rewrite IH].
Defined.
(** The complement of every byte, after a tag. *)
Definition flip (c : ascii) : ascii := Ascii.ascii_of_N (255 - Ascii.N_of_ascii c)%N.
Definition unflip (text : string) : option string := smap flip <$> strip_prefix text (zeros 16).
#[local] Instance toy_cipher : Aes := fun _ _ p => Some (zeros 16 +:+ smap flip p).
Lemma flip_flip s : smap flip (smap flip s) = s.
Proof.
  induction s as [|c s IH]; simpl; [done|]. rewrite IH. f_equal.
  assert (forall c, Ascii.eqb (flip (flip c)) c = true) as H by (apply byte_forall; by vm_compute). by apply Ascii.eqb_eq.
Qed.
Lemma toy_cipher_ok key nonce p c :
  aes256_gcm_encrypt key nonce p = Some c -> unflip c = Some p /\ slen c = (slen p + CacheCrypto.TAG_BYTES)%Z.
Proof.
  intros [= <-]. unfold unflip. rewrite strip_prefix_app. simpl. rewrite flip_flip. split; [done|]. rewrite slen_append.
  change (slen (zeros 16)) with 16%Z. unfold CacheCrypto.TAG_BYTES, slen.
  assert (String.length (smap flip p) = String.length p) as -> by (induction p as [|b p IH]; simpl; [done|by rewrite IH]). apply Z.add_comm.
Qed.
#[local] Instance flat_hash : Sha256 := fun _ => zeros 64.

(** * A file that is cached *)

Definition vault_office (n : vault) : office vault MemDb := ((paired, n), (mkRootStore ∅ None, sample_machine)).
Definition still (k : nat) (w : world MemDb) : world MemDb := w.
Definition encrypted := CacheCrypto.encrypt_smart_cache_file still 0 "/home/root/a.txt" 5 (vault_office (mkVault None)).
Strategy 1000 [encrypted].
Lemma cached_file_recovered_witness :
  exists e st', encrypted = (Ok e, st') /\ recover (fun _ _ => unflip) (key_stored st'.1.2) e = Some "hello" /\ eo_size_bytes e = 37%Z.
Proof.
  assert (is_ok encrypted.1 = true) as Hok by (vm_compute; reflexivity).
  assert (content_at (files_of encrypted.2) "/home/root/a.txt" = Some "hello") as Hhello by (vm_compute; reflexivity).
  assert ((5 + 32 < 2 ^ 64)%Z) as H64 by reflexivity.
  destruct encrypted as [[e|error] st'] eqn:H; [|discriminate Hok].
  destruct (cached_file_recovered still (fun _ _ => unflip) 0 "/home/root/a.txt" 5 (vault_office (mkVault None)) e st' toy_cipher_ok material_round H64 H)
    as (content & Hc & _ & Hr & Hs).
  exists e, st'. split; [reflexivity|]. simpl in Hhello. rewrite Hhello in Hc. injection Hc as <-. split; [exact Hr|].
  by injection Hs as <-.
Defined.

(** * The most used files *)

#[local] Instance last_row : SqlRowid (MemTables CacheTable) := fun d => (ca_next_id (mt_now d) - 1)%Z.
Definition cache_db : string := "/data/cache.db".
Definition cache_tables : CacheTable := mkCacheTable true [] 1 true ∅.
Definition cache_machine : world (MemTables CacheTable) :=
  mkWorld sample_tree (fun _ => mem_of cache_tables) steady_clock 0 no_faults 0 100 [].
Definition draft (path : string) (kind : SmartCacheUsageEventKind) : SmartCacheUsageEventDraft := mkUsageEventDraft "root-1" path kind.
Definition cache_store : SmartCacheStore := mkSmartCacheStore (Some cache_db).
Definition then_record (w : world (MemTables CacheTable)) (d : SmartCacheUsageEventDraft) : world (MemTables CacheTable) :=
  (SmartCache.record_usage_event cache_store d w).2.
Definition then_prefer (path : string) (patch : SmartCacheFilePreferencePatch) (w : world (MemTables CacheTable)) :=
  (SmartCache.update_file_preference cache_store "root-1" path patch w).2.
(** [a.txt] is downloaded and browsed, [b.txt] only browsed but pinned, a key is refused. *)
Definition drafts : list SmartCacheUsageEventDraft :=
  [draft "a.txt" UsageDownload; draft "a.txt" UsageBrowse; draft "docs/b.txt" UsageBrowse; draft "id.key" UsageDownload].
Definition used_machine : world (MemTables CacheTable) :=
  then_prefer "docs/b.txt" (mkPreferencePatch (Some true) None) (foldl then_record cache_machine drafts).
Definition listing := SmartCache.list_candidates cache_store "root-1" 10 used_machine.
Strategy expand [listing cache_store]. Strategy 1000 [then_record then_prefer used_machine].
Lemma record_steps ds w : rtc (cache_step cache_db) w (foldl then_record w ds).
Proof.
  revert w. induction ds as [|d ds IH]; intros w; simpl; [apply rtc_refl|]. apply rtc_l with (then_record w d); [|apply IH].
  unfold then_record, cache_store. destruct (SmartCache.record_usage_event _ _ w) as [r w'] eqn:H. exact (StepRecord cache_db w _ r w' H).
Qed.
Lemma prefer_step path patch w : cache_step cache_db w (then_prefer path patch w).
Proof.
  unfold then_prefer, cache_store. destruct (SmartCache.update_file_preference _ _ _ _ w) as [r w'] eqn:H. exact (StepPrefer cache_db w _ _ _ r w' H).
Qed.
Lemma used_machine_steps : rtc (cache_step cache_db) cache_machine used_machine.
Proof. unfold used_machine. eapply rtc_r; [apply record_steps|apply prefer_step]. Qed.
Lemma best_are_listed_witness :
  exists cs, listing.1 = Ok cs /\ StronglySorted (cmp_le rank_of) cs /\
    map (fun c => (sa_relative_path c, sa_score c)) cs = [("docs/b.txt", 1001%Z); ("a.txt", 9%Z)].
Proof.
  assert (match listing.1 with Ok cs => bool_decide (map (fun c => (sa_relative_path c, sa_score c)) cs = [("docs/b.txt", 1001%Z); ("a.txt", 9%Z)])
          | Err _ => false end = true) as Htold by (vm_compute; reflexivity).
  assert (ca_events (table_at cache_db cache_machine) = []) as Hempty by reflexivity.
  unfold listing, cache_store in *. destruct (SmartCache.list_candidates _ _ _ _) as [[cs|e] w'] eqn:H; [|discriminate Htold]. exists cs. split; [reflexivity|].
  destruct (best_are_listed cache_db "root-1" 10 cache_machine used_machine cs w' used_machine_steps Hempty H) as (_ & _ & Hs & _).
  split; [exact Hs|]. exact (bool_decide_eq_true_1 _ Htold).
Defined.

(** * A room *)

#[local] Instance room_files : FileCodecs value_tree := {|
  codec_browse_requests := no_codec _; codec_transfers := no_codec _; codec_transfer_response := no_codec _; codec_upload_target := no_codec _;
  codec_cache_policy := {| to_text _ := ""; from_text _ := Some (mkSmartCachePolicyResponse "room-1" true 1000 500 ["docs/**"] []) |};
  codec_cache_batch := {| to_text _ := ""; from_text _ := Some (mkSmartCacheCandidateBatchResponse "batch-1"
    [mkSmartCacheReservationResponse "res-1" "RESERVED" "a.txt" (zeros 64) 37 (Some "https://store/1") "soon"] 0) |};
  codec_tools := no_codec _ |}.
#[local] Instance room_caches : CacheCodecs value_tree := {|
  codec_version := {| to_text v := fv_file_id v; from_text _ := None |}; version_value := fun v => Ok (TText (fv_file_id v));
  batch_text room _ := Ok room |}.
#[local] Instance any_url : UrlParser := fun _ => Some ("https", Some "store").
Definition room_office : office (logged vault) (MemTables CacheTable) :=
  ((paired, mkLogged [] (mkVault None)), (mkRootStore {[ "root-1" := docs_root ]} None, used_machine)).
Definition still_cached (k : nat) (w : world (MemTables CacheTable)) : world (MemTables CacheTable) := w.
Definition cached_room := mkAgentRoomSync "room-1" "root-1" "Docs" false.
Definition room_run := CacheProcessor.process_smart_cache_for_known_room (V:=value_tree) fmt_int still_cached cache_store (mkOutboxStore None) cached_room 10 room_office.
Strategy expand [room_run].
(** The pinned file matches an excluded pattern: only [a.txt] is uploaded. *)
Lemma cache_uploads_only_encrypted_witness :
  uploads_only (room_grants (V:=value_tree) (DB:=MemTables CacheTable) fmt_int still_cached cache_store (mkOutboxStore None) cached_room 10
    room_office) room_office room_run.2 /\
  lg_uploads room_run.2.1.2 = [mkUpload "https://store/1" 37 ("MKS1" +:+ zeros 12 +:+ zeros 16 +:+ smap flip "hello")].
Proof.
  split; [|vm_compute; reflexivity]. unfold room_run.
  destruct (CacheProcessor.process_smart_cache_for_known_room _ _ _ _ _ _ _) as [r st'] eqn:H.
  exact (cache_uploads_only_encrypted (V:=value_tree) fmt_int still_cached cache_store (mkOutboxStore None) cached_room 10 room_office r st' H).
Defined.
