(* ===== verification/documents.v ===== *)
(** The text of documents: its extraction, and its bounds. *)
From Stdlib Require Import ZArith Lia Ascii.
From stdpp Require Import strings pretty gmap functions option list.
From S2P Require Import prelude rust_str std_path std_fs fs_facts path_guard db journal_store analyzer desk managed_roots cleanliness agent outbox_processor.

Open Scope string_scope.
Open Scope list_scope.
Open Scope nat_scope.


(** * [apps/desktop/src-tauri/src/document_extraction.rs]: the text of a document of a folder,
    in pieces, for a room that consented to its analysis.

    The formats are read by third-party libraries ([Formats]).  [meanwhile k] is what other
    programs do before the [k]-th look at the files. *)

Record DocumentExtraction := mkDocumentExtraction {
  dx_relative_path : string;
  dx_sha256 : string;
  dx_modified_unix_ms : Z;
  dx_chunks : list string;
  dx_truncated : bool;
}.

(** An entry of an archive: its name, and its content if it is a text. *)
Record ZipEntry := mkZipEntry { ze_name : string; ze_text : option string }.
(** What [quick_xml] reads until the end or an error: a text, if it decodes, or another event. *)
Inductive XmlEvent := XmlText (value : option string) | XmlOther.
(** [pdf_extract::extract_text_from_mem], [ZipArchive::new] with the entries that
    [by_index] gives, and the events of [quick_xml]. *)
Class Formats := {
  pdf_text : string -> result string string;
  zip_open : string -> result (list (option ZipEntry)) string;
  xml_events : string -> list XmlEvent;
}.

Module Documents.
Definition MAX_DOCUMENT_BYTES : Z := 20 * 1024 * 1024.
Definition MAX_EXTRACTED_CHARS : nat := Z.to_nat 100000.
Definition CHUNK_CHARS : nat := Z.to_nat 4000.

(** ** UTF-8 *)

Definition within (lo hi : Z) (c : ascii) : bool := ((lo <=? byte_of c) && (byte_of c <=? hi))%Z.
Definition continues (c : ascii) : bool := within 128 191 c.
(** [String::from_utf8] *)
Fixpoint utf8_valid (s : string) : bool :=
  match s with
  | "" => true
  | String a s =>
      if within 0 127 a then utf8_valid s
      else
        match s with
        | String b s =>
            if within 194 223 a then continues b && utf8_valid s
            else
              match s with
              | String c s =>
                  if within 224 239 a
                  then (if (byte_of a =? 224)%Z then within 160 191 b else if (byte_of a =? 237)%Z then within 128 159 b else continues b)
                       && continues c && utf8_valid s
                  else
                    match s with
                    | String d s =>
                        within 240 244 a
                        && (if (byte_of a =? 240)%Z then within 144 191 b else if (byte_of a =? 244)%Z then within 128 143 b else continues b)
                        && continues c && continues d && utf8_valid s
                    | "" => false
                    end
              | "" => false
              end
        | "" => false
        end
  end.

(** [as i64] *)
Definition as_i64 (z : Z) : Z := ((z + 2 ^ 63) mod 2 ^ 64 - 2 ^ 63)%Z.

(** ** Texts *)

(** [slice::chunks], of a positive size; the fuel is the length. *)
Fixpoint chunks_go {A} (fuel n : nat) (l : list A) : list (list A) :=
  match fuel, l with
  | S fuel, _ :: _ => take n l :: chunks_go fuel n (drop n l)
  | _, _ => []
  end.
Definition chunks {A} (n : nat) (l : list A) : list (list A) := chunks_go (length l) n l.
Definition concat_chars (l : list string) : string := join "" l.
Definition chunk_text (text : string) : list string :=
  List.filter (fun chunk => negb (is_empty (trim chunk))) (map concat_chars (chunks CHUNK_CHARS (chars text))).
Definition push_text (output : string) (event : XmlEvent) : string :=
  match event with
  | XmlText (Some value) => (if is_empty output then output else output +:+ " ") +:+ value
  | XmlText None | XmlOther => output
  end.

Section formats.
Context `{!Formats}.
Definition xml_text (xml : string) : string := foldl push_text "" (xml_events xml).
Definition selected (extension name : string) : bool :=
  if (extension =? "docx")%string then (name =? "word/document.xml")%string
  else if (extension =? "pptx")%string then starts_with name "ppt/slides/slide" && ends_with name ".xml"
  else if (extension =? "xlsx")%string
  then (name =? "xl/sharedStrings.xml")%string || (starts_with name "xl/worksheets/sheet" && ends_with name ".xml")
  else false.
(** [unicode] lowers a text. *)
Context (unicode : string -> string).
Definition format_error (error : string) : string :=
  if contains (str_to_lowercase unicode error) "password" then "ENCRYPTED_DOCUMENT" else "UNSUPPORTED_FORMAT".
Fixpoint read_entries (extension : string) (entries : list (option ZipEntry)) (output : string) : result string string :=
  match entries with
  | [] => Ok output
  | None :: _ => Err "UNSUPPORTED_FORMAT"
  | Some entry :: entries =>
      if negb (selected extension (ze_name entry)) then read_entries extension entries output
      else
        match ze_text entry with
        | None => Err "UNSUPPORTED_FORMAT"
        | Some xml => read_entries extension entries (output +:+ xml_text xml +:+ String "010" "")
        end
  end.
Definition read_ooxml (extension bytes : string) : result string string :=
  let? entries := map_err format_error (zip_open bytes) in
  let? output := read_entries extension entries "" in
  if is_empty (trim output) then Err "UNSUPPORTED_FORMAT" else Ok output.

Section extraction.
Context {DB : Type} `{!Sha256} (meanwhile : nat -> world DB -> world DB).
Abbreviation IO := (io (world DB) string).
Definition look {E A} (k : nat) (g : tree -> result A E) : io (world DB) E A :=
  fun w => let w := meanwhile k w in (g (w_fs w), w).
Definition extract_ooxml (path extension : string) : IO string :=
  let! bytes := io_map_err (fun _ => "SOURCE_CHANGED") (look 2 (fun f => read_to_string f path)) in
  io_lift (read_ooxml extension bytes).
Definition text_of (path bytes : string) : IO string :=
  let extension := to_ascii_lowercase (default "" (path_extension path)) in
  if existsb (String.eqb extension) ["txt"; "md"; "markdown"; "json"; "csv"; "tsv"; "log"]
  then if utf8_valid bytes then io_ret bytes else io_fail "UNSUPPORTED_FORMAT"
  else if (extension =? "pdf")%string then io_lift (map_err format_error (pdf_text bytes))
  else if existsb (String.eqb extension) ["docx"; "pptx"; "xlsx"] then extract_ooxml path extension
  else io_fail "UNSUPPORTED_FORMAT".
(** The checks before the file is read: its path and metadata. *)
Definition checked_document (root_arg relative_path : string) (f : tree) : result (string * inode) string :=
  let? guard := map_err (fun _ => "OUTSIDE_MANAGED_ROOT") (PathGuard.new f root_arg) in
  let? path := map_err (fun _ => "OUTSIDE_MANAGED_ROOT") (PathGuard.resolve_existing f guard relative_path) in
  let? metadata := map_err (fun _ => "SOURCE_CHANGED") (metadata f path) in
  if negb (is_file_inode metadata) then Err "UNSUPPORTED_FORMAT"
  else if (MAX_DOCUMENT_BYTES <? inode_len metadata)%Z then Err "TOO_LARGE"
  else Ok (path, metadata).
Definition extract_document (root_arg relative_path : string) (consent : bool) (expected_sha256 : option string) : IO DocumentExtraction :=
  if negb consent then io_fail "CONSENT_REQUIRED"
  else
    let! ' (path, metadata) := look 0 (checked_document root_arg relative_path) in
    let! bytes := io_map_err (fun _ => "SOURCE_CHANGED") (look 1 (fun f => read_to_string f path)) in
    let sha256 := sha256_hex bytes in
    if match expected_sha256 with Some expected => negb (eq_ignore_ascii_case sha256 expected) | None => false end
    then io_fail "SOURCE_CHANGED"
    else
      let! text := text_of path bytes in
      let normalized := concat_chars (take MAX_EXTRACTED_CHARS (chars text)) in
      io_ret (mkDocumentExtraction (replace_char "\" "/" relative_path) sha256 (default 0%Z (as_i64 <$> modified_unix_ms metadata))
                (chunk_text normalized) (MAX_EXTRACTED_CHARS <? length (chars text))%nat).
End extraction.
End formats.
End Documents.

(** * What is extracted from a document: with consent, from a checked file of the folder, in
    bounded pieces of its text. *)

(** * Characters of characters *)

Fixpoint sskip (n : nat) (s : string) : string :=
  match n, s with S n, String _ s => sskip n s | _, _ => s end.
Lemma chars_go_skip k s : chars_go k s = chars (sskip k s).
Proof. revert k. induction s as [|c s IH]; intros [|k]; simpl; done || by rewrite IH. Qed.
Lemma chars_cons c s : chars (String c s) = stake (utf8_width c) (String c s) :: chars (sskip (Nat.pred (utf8_width c)) s).
Proof. unfold chars at 1. cbn [chars_go]. by rewrite chars_go_skip. Qed.
Lemma width_pos c : utf8_width c = S (Nat.pred (utf8_width c)).
Proof. unfold utf8_width. by repeat case_match. Qed.
Lemma stake_length n s : String.length (stake n s) = Nat.min n (String.length s).
Proof. revert s. induction n as [|n IH]; intros [|c s]; simpl; [done..|]. by rewrite IH. Qed.

(** Characters in a row: each has the bytes its first announces, the last perhaps fewer. *)
Inductive in_row : list string -> Prop :=
| row_nil : in_row []
| row_last c t : S (String.length t) <= utf8_width c -> in_row [String c t]
| row_cons c t l : S (String.length t) = utf8_width c -> in_row l -> in_row (String c t :: l).
Lemma sskip_length k s : String.length (sskip k s) = String.length s - k.
Proof. revert k. induction s as [|b s IH]; intros [|k]; simpl; [done..|]. by rewrite IH. Qed.
Lemma chars_in_row s : in_row (chars s).
Proof.
  remember (String.length s) as n eqn:Hn. revert s Hn. induction (lt_wf n) as [n _ IH]. intros [|c s] ->; [constructor|].
  rewrite chars_cons. pose proof (width_pos c) as Hw. destruct (utf8_width c) as [|k] eqn:Hc; [done|]. cbn [Nat.pred stake].
  destruct (decide (k <= String.length s)) as [Hk|Hk].
  - constructor; [rewrite stake_length; lia|]. apply (IH (String.length (sskip k s))); [|done]. rewrite sskip_length. simpl. lia.
  - assert (sskip k s = "") as ->.
    { pose proof (sskip_length k s) as Hs. destruct (sskip k s); [done|]. simpl in Hs. lia. }
    constructor. rewrite stake_length. lia.
Qed.
Lemma in_row_take n l : in_row l -> in_row (take n l).
Proof.
  intros H. revert n. induction H as [|c t Ht|c t l Ht Hl IH]; intros [|n]; simpl; try by constructor.
  rewrite take_nil. by constructor.
Qed.
Lemma sskip_app t s : sskip (String.length t) (t +:+ s) = s.
Proof. induction t as [|c t IH]; simpl; [by destruct s|done]. Qed.
Lemma stake_app t s : stake (String.length t) (t +:+ s) = t.
Proof. induction t as [|c t IH]; simpl; [done|by rewrite IH]. Qed.
Lemma stake_all n s : String.length s <= n -> stake n s = s.
Proof. revert s. induction n as [|n IH]; intros [|c s] H; simpl in *; [done|lia|done|]. rewrite IH; [done|lia]. Qed.
(** A text is made of its characters, and pieces of it of theirs. *)
Lemma concat_cons c l : Documents.concat_chars (c :: l) = c +:+ Documents.concat_chars l.
Proof.
  unfold Documents.concat_chars. destruct l as [|d l]; [|done]. simpl. induction c as [|b c IH]; [done|exact (f_equal (String b) IH)].
Qed.
Lemma chars_concat l : in_row l -> chars (Documents.concat_chars l) = l.
Proof.
  induction 1 as [|c t Ht|c t l Ht Hl IH]; [done|..].
  - change (Documents.concat_chars [String c t]) with (String c t). rewrite chars_cons, stake_all by done.
    f_equal. pose proof (sskip_length (Nat.pred (utf8_width c)) t) as Hs. pose proof (width_pos c).
    destruct (sskip _ t); [done|]. simpl in Hs. lia.
  - rewrite concat_cons. change (String c t +:+ Documents.concat_chars l) with (String c (t +:+ Documents.concat_chars l)).
    rewrite chars_cons, <- Ht. cbn [Nat.pred stake]. by rewrite stake_app, sskip_app, IH.
Qed.

(** * Pieces *)

Lemma chunks_go_ok {A} fuel n (l : list A) :
  0 < n -> length l <= fuel ->
  concat (Documents.chunks_go fuel n l) = l /\ Forall (fun c => 0 < length c <= n) (Documents.chunks_go fuel n l).
Proof.
  intros Hn. revert l. induction fuel as [|fuel IH]; intros [|x l] Hl; simpl in Hl; [done|lia|done|]. cbn [Documents.chunks_go concat].
  destruct (IH (drop n (x :: l))) as [H1 H2]; [rewrite length_drop; simpl; lia|]. split; [rewrite H1; apply take_drop|].
  constructor; [|exact H2]. rewrite length_take. simpl. lia.
Qed.
Lemma chunks_ok {A} n (l : list A) : 0 < n -> concat (Documents.chunks n l) = l /\ Forall (fun c => 0 < length c <= n) (Documents.chunks n l).
Proof. intros Hn. by apply chunks_go_ok. Qed.

(** A piece of characters in a row is in a row. *)
Lemma in_row_app_l l1 l2 : in_row (l1 ++ l2) -> in_row l1.
Proof. intros H. pose proof (in_row_take (length l1) _ H) as Ht. by rewrite take_app_length in Ht. Qed.
Lemma in_row_app_r l1 l2 : in_row (l1 ++ l2) -> in_row l2.
Proof.
  induction l1 as [|x l1 IH]; simpl; [done|]. intros H. apply IH. inversion H as [|c t Ht Hx|c t l Ht Hl Hx]; [constructor|done].
Qed.
Lemma pieces_in_row pieces l : concat pieces = l -> in_row l -> forall piece, piece ∈ pieces -> in_row piece.
Proof.
  intros <- H piece (l1 & l2 & ->)%list_elem_of_split. rewrite concat_app in H. by apply in_row_app_r, in_row_app_l in H.
Qed.

(** * Extraction *)

Section extraction.
Context {DB : Type} `{formats : !Formats, hash : !Sha256}.
Context (unicode : string -> string) (meanwhile : nat -> world DB -> world DB).
Implicit Types w : world DB.

Lemma look_ok {E A} k (g : tree -> result A E) w a w' :
  Documents.look meanwhile k g w = (Ok a, w') -> g (w_fs (meanwhile k w)) = Ok a /\ w' = meanwhile k w.
Proof. unfold Documents.look. by intros [= H <-]. Qed.

(** The text of a document at [path] of which [bytes] were read and hashed, and which is at
    [path] in the tree [later] when it is opened again. *)
Inductive text_taken (path bytes : string) (later : tree) (text : string) : Prop :=
| plain_text : to_ascii_lowercase (default "" (path_extension path)) ∈ ["txt"; "md"; "markdown"; "json"; "csv"; "tsv"; "log"] ->
    Documents.utf8_valid bytes = true -> text = bytes -> text_taken path bytes later text
| text_of_pdf : to_ascii_lowercase (default "" (path_extension path)) = "pdf" -> pdf_text bytes = Ok text -> text_taken path bytes later text
| text_of_archive again : to_ascii_lowercase (default "" (path_extension path)) ∈ ["docx"; "pptx"; "xlsx"] ->
    read_to_string later path = Ok again -> Documents.read_ooxml unicode (to_ascii_lowercase (default "" (path_extension path))) again = Ok text ->
    text_taken path bytes later text.
Lemma existsb_eqb_elem s l : existsb (String.eqb s) l = true -> s ∈ l.
Proof. rewrite existsb_exists. intros (x & Hx & ->%String.eqb_eq). by apply list_elem_of_In. Qed.
Lemma text_of_ok path bytes w text w' :
  Documents.text_of unicode meanwhile path bytes w = (Ok text, w') -> text_taken path bytes (w_fs (meanwhile 2 w)) text.
Proof.
  unfold Documents.text_of. destruct (existsb _ ["txt"; "md"; "markdown"; "json"; "csv"; "tsv"; "log"]) eqn:Hplain.
  - destruct (Documents.utf8_valid bytes) eqn:Hv; [|done]. intros [= <- _]. apply plain_text; [by apply existsb_eqb_elem|done..].
  - destruct (String.eqb_spec (to_ascii_lowercase (default "" (path_extension path))) "pdf") as [Hpdf|_].
    + unfold io_lift. intros [= H _]. apply text_of_pdf; [done|]. by destruct (pdf_text bytes); simplify_eq/=.
    + destruct (existsb _ ["docx"; "pptx"; "xlsx"]) eqn:Har; [|done]. unfold Documents.extract_ooxml.
      intros (again & w1 & [H1 ->]%io_map_err_ok%look_ok & H2)%io_bind_ok. unfold io_lift in H2. injection H2 as H2 _.
      eapply text_of_archive; [by apply existsb_eqb_elem|exact H1|exact H2].
Qed.
Lemma checked_document_ok root_arg relative f p i :
  Documents.checked_document root_arg relative f = Ok (p, i) ->
  (exists g, PathGuard.new f root_arg = Ok g /\ PathGuard.resolve_existing f g relative = Ok p) /\
  metadata f p = Ok i /\ is_file_inode i = true /\ (inode_len i <= Documents.MAX_DOCUMENT_BYTES)%Z.
Proof.
  unfold Documents.checked_document. destruct (PathGuard.new f root_arg) as [g|]; [|done]. simpl.
  destruct (PathGuard.resolve_existing f g relative) as [q|] eqn:Hq; [|done]. simpl. destruct (metadata f q) as [j|] eqn:Hj; [|done]. simpl.
  destruct (is_file_inode j) eqn:Hf; [|done]. simpl. destruct (_ <? inode_len j)%Z eqn:Hl; [done|]. apply Z.ltb_ge in Hl.
  intros [= <- <-]. split; [by exists g|done].
Qed.

(** C35: Nothing is taken from a document without consent, from outside of its folder, or
    without bound.  The files are looked at three times, and other programs may do anything
    before each look.  When extraction succeeds the room had consented; at the first look the
    path resolved, links followed, inside the folder to a regular file of at most twenty
    megabytes; the hash is that of the bytes read at this path at the second look, and the
    one that was expected if one was; and the chunks are, in order and without the blank
    ones, the pieces of the first hundred thousand characters of the text of the document,
    none longer than four thousand, with the flag that says whether the text went on.  The
    text is of the bytes that were hashed, for a plain text or a PDF; an office document is
    opened again, and its text is of what is at the path at the third look, which need not
    have the hash or the size that was checked ([archive_read_again]). *)
Theorem extraction_is_bounded root_arg relative consent expected w d w' :
  Documents.extract_document unicode meanwhile root_arg relative consent expected w = (Ok d, w') ->
  let first := w_fs (meanwhile 0 w) in
  let second := w_fs (meanwhile 1 (meanwhile 0 w)) in
  let third := w_fs (meanwhile 2 (meanwhile 1 (meanwhile 0 w))) in
  consent = true /\
  exists g path i bytes text pieces,
    PathGuard.new first root_arg = Ok g /\ PathGuard.resolve_existing first g relative = Ok path /\
    metadata first path = Ok i /\ is_file_inode i = true /\ (inode_len i <= Documents.MAX_DOCUMENT_BYTES)%Z /\
    read_to_string second path = Ok bytes /\ dx_sha256 d = sha256_hex bytes /\
    (forall hash, expected = Some hash -> eq_ignore_ascii_case (sha256_hex bytes) hash = true) /\
    text_taken path bytes third text /\
    concat pieces = take Documents.MAX_EXTRACTED_CHARS (chars text) /\ Forall (fun piece => 0 < length piece <= Documents.CHUNK_CHARS) pieces /\
    dx_chunks d = List.filter (fun chunk => negb (is_empty (trim chunk))) (map Documents.concat_chars pieces) /\
    Forall (fun chunk => length (chars chunk) <= Documents.CHUNK_CHARS) (dx_chunks d) /\
    dx_truncated d = (Documents.MAX_EXTRACTED_CHARS <? length (chars text))%nat.
Proof.
  unfold Documents.extract_document. destruct consent; [|done]. simpl. intros ([p i] & w1 & [H1 ->]%look_ok & H)%io_bind_ok.
  apply io_bind_ok in H as (bytes & w2 & [H2 ->]%io_map_err_ok%look_ok & H).
  destruct (match expected with Some e => negb (eq_ignore_ascii_case (sha256_hex bytes) e) | None => false end) eqn:Hexp; [done|].
  apply io_bind_ok in H as (text & w3 & H3%text_of_ok & [= <- _]). split; [done|].
  apply checked_document_ok in H1 as ((g & Hg & Hp) & Hi & Hfile & Hlen).
  set (kept := take Documents.MAX_EXTRACTED_CHARS (chars text)).
  assert (in_row kept) as Hrow by apply in_row_take, chars_in_row. assert (0 < Documents.CHUNK_CHARS) as Hpos by (unfold Documents.CHUNK_CHARS; lia).
  destruct (chunks_ok Documents.CHUNK_CHARS kept Hpos) as [Hconcat Hsizes].
  exists g, p, i, bytes, text, (Documents.chunks Documents.CHUNK_CHARS kept). split_and!; try done.
  - intros e ->. by apply negb_false_iff.
  - cbn [dx_chunks]. unfold Documents.chunk_text. by rewrite chars_concat.
  - cbn [dx_chunks]. unfold Documents.chunk_text. rewrite chars_concat by done.
    apply Forall_forall. intros chunk Hc%list_elem_of_In. apply filter_In in Hc as [Hc%list_elem_of_In _].
    apply list_elem_of_fmap in Hc as (piece & -> & Hpiece). rewrite chars_concat; [by apply (proj1 (Forall_forall _ _) Hsizes)|].
    by apply (pieces_in_row _ _ Hconcat Hrow).
Qed.
End extraction.

(** * Documents on a machine *)

#[local] Instance self_hash : Sha256 := fun s => s.
(** Archives are their one entry, XML texts are themselves. *)
#[local] Instance plain_formats : Formats := {|
  pdf_text _ := Err "Password required"; zip_open s := Ok [Some (mkZipEntry "word/document.xml" (Some s))];
  xml_events s := [XmlOther; XmlText (Some s)] |}.
Definition document_machine (f : tree) : world MemDb := machine f mem_empty.
Definition extracted (meanwhile : nat -> world MemDb -> world MemDb) (f : tree) (path : string) (consent : bool) (expected : option string) :=
  Documents.extract_document id meanwhile sample_root path consent expected (document_machine f).
Definition alone (k : nat) (w : world MemDb) : world MemDb := w.
Definition hello_extracted := extracted alone sample_tree "a.txt" true (Some "HELLO").
Strategy expand [hello_extracted extracted].
Lemma extraction_is_bounded_witness :
  exists d, hello_extracted.1 = Ok d /\ dx_truncated d = false /\ dx_chunks d = ["hello"] /\
    exists bytes, read_to_string sample_tree "/home/root/a.txt" = Ok bytes /\ dx_sha256 d = sha256_hex bytes.
Proof.
  assert (match hello_extracted.1 with Ok d => bool_decide (dx_truncated d = false /\ dx_chunks d = ["hello"]) | Err _ => false end = true)
    as Htold by (vm_compute; reflexivity).
  unfold hello_extracted, extracted in *. destruct (Documents.extract_document _ _ _ _ _ _ _) as [[d|e] w'] eqn:H; [|discriminate Htold].
  exists d. destruct (bool_decide_eq_true_1 _ Htold) as [H1 H2]. split; [reflexivity|]. split; [exact H1|]. split; [exact H2|].
  destruct (extraction_is_bounded id alone sample_root "a.txt" true (Some "HELLO") (document_machine sample_tree) d w' H)
    as (_ & g & path & i & bytes & text & pieces & Hg & Hp & _ & _ & _ & Hb & Hs & _).
  assert (PathGuard.new sample_tree sample_root = Ok (mkPathGuard sample_root)) as Hg' by (vm_compute; reflexivity).
  assert (PathGuard.resolve_existing sample_tree (mkPathGuard sample_root) "a.txt" = Ok "/home/root/a.txt") as Hp' by (vm_compute; reflexivity).
  change (PathGuard.new sample_tree sample_root = Ok g) in Hg. change (PathGuard.resolve_existing sample_tree g "a.txt" = Ok path) in Hp.
  rewrite Hg' in Hg. injection Hg as <-. rewrite Hp' in Hp. injection Hp as <-. exists bytes. split; [exact Hb|exact Hs].
Defined.

Definition document_tree : tree := <[["home"; "root"; "d.docx"] := mkInode (KFile "old") 0 None 40]> sample_tree.
Definition edited (k : nat) (w : world MemDb) : world MemDb :=
  if Nat.eqb k 2 then set_fs (<[["home"; "root"; "d.docx"] := mkInode (KFile "new") 0 None 40]> (w_fs w)) w else w.
Definition outcome (r : result DocumentExtraction string) : result (string * list string) string :=
  match r with Ok d => Ok (dx_sha256 d, dx_chunks d) | Err e => Err e end.
(** An archive is opened again after it was hashed: the text may be of another content
    than the hash, even than the hash that was expected. *)
Example archive_read_again :
  outcome (extracted edited document_tree "d.docx" true (Some "old")).1 = Ok ("old", ["new" +:+ String "010" ""]).
Proof. vm_compute. reflexivity. Qed.
Example refusals :
  map (fun x => outcome (extracted alone document_tree x.1.1 x.1.2 x.2).1)
    [("a.txt", false, None); ("../other/secret.txt", true, None); ("docs", true, None); ("a.txt", true, Some "other"); ("gone.txt", true, None)] =
  [Err "CONSENT_REQUIRED"; Err "OUTSIDE_MANAGED_ROOT"; Err "UNSUPPORTED_FORMAT"; Err "SOURCE_CHANGED"; Err "OUTSIDE_MANAGED_ROOT"].
Proof. vm_compute. reflexivity. Qed.
