(* ===== verification/work_limiter.v ===== *)
(** The limits of concurrent work, and the tools of the assistant. *)
From Stdlib Require Import ZArith Lia Ascii.
From stdpp Require Import strings pretty gmap functions option list relations.
From S2P Require Import prelude rust_str std_path std_fs fs_facts path_guard db journal_store proposal_types rule_definition rule_engine desk managed_roots agent.
From S2P Require Import agent_work office outbox_processor history agent_files documents.

Open Scope string_scope.
Open Scope list_scope.


(** * [apps/desktop/src-tauri/src/work_limiter.rs]: at most one scan, one write and one
    transfer of the desktop at a time, each kind behind a mutex that is never waited for. *)

Inductive WorkKind := Scan | Write | Transfer.
#[export] Instance WorkKind_eq_dec : EqDecision WorkKind.
Proof. solve_decision. Defined.
(** The guard it holds is that of the gate of its kind. *)
Record WorkPermit := mkWorkPermit { wp_kind : WorkKind }.
(** Whether each mutex is locked. *)
Record WorkLimiter := mkWorkLimiter { wl_scan : bool; wl_write : bool; wl_transfer : bool }.

Module Limiter.
Definition label (k : WorkKind) : string := match k with Scan => "scan" | Write => "write" | Transfer => "transfer" end.
Definition default_limiter : WorkLimiter := mkWorkLimiter false false false.
Definition locked (k : WorkKind) (l : WorkLimiter) : bool :=
  match k with Scan => wl_scan l | Write => wl_write l | Transfer => wl_transfer l end.
Definition with_locked (k : WorkKind) (b : bool) (l : WorkLimiter) : WorkLimiter :=
  match k with
  | Scan => mkWorkLimiter b (wl_write l) (wl_transfer l)
  | Write => mkWorkLimiter (wl_scan l) b (wl_transfer l)
  | Transfer => mkWorkLimiter (wl_scan l) (wl_write l) b
  end.
Definition try_begin (k : WorkKind) (l : WorkLimiter) : result WorkPermit string * WorkLimiter :=
  if locked k l then (Err ("BUSY: " +:+ label k +:+ " work is already running"), l)
  else (Ok (mkWorkPermit k), with_locked k true l).
Definition try_scan : WorkLimiter -> result WorkPermit string * WorkLimiter := try_begin Scan.
Definition try_write : WorkLimiter -> result WorkPermit string * WorkLimiter := try_begin Write.
Definition try_transfer : WorkLimiter -> result WorkPermit string * WorkLimiter := try_begin Transfer.
(** Dropping a permit unlocks its gate. *)
Definition drop_permit (p : WorkPermit) (l : WorkLimiter) : WorkLimiter := with_locked (wp_kind p) false l.

Lemma locked_with k k' b l : locked k (with_locked k' b l) = if decide (k = k') then b else locked k l.
Proof. by destruct k, k'. Qed.
End Limiter.

(** * Runs of the desktop: permits taken and dropped in any order *)

(** The permits that are out, and the limiter. *)
Abbreviation working := (list WorkPermit * WorkLimiter)%type.
Inductive works : working -> working -> Prop :=
| WorksBegin k ps l p l' : Limiter.try_begin k l = (Ok p, l') -> works (ps, l) (p :: ps, l')
| WorksBusy k ps l e l' : Limiter.try_begin k l = (Err e, l') -> works (ps, l) (ps, l')
| WorksDrop ps1 p ps2 l : works (ps1 ++ p :: ps2, l) (ps1 ++ ps2, Limiter.drop_permit p l).

(** A gate is locked while a permit of its kind is out, and there is only one. *)
Definition gates_ok (s : working) : Prop :=
  NoDup (map wp_kind s.1) /\ forall k, Limiter.locked k s.2 = true <-> k ∈ map wp_kind s.1.
Lemma works_ok s s' : works s s' -> gates_ok s -> gates_ok s'.
Proof.
  intros H [Hnd Hl]. destruct H as [k ps l p l' H|k ps l e l' H|ps1 p ps2 l]; simpl in *.
  - unfold Limiter.try_begin in H. destruct (Limiter.locked k l) eqn:Hk; [done|]. injection H as <- <-. split.
    + constructor; [|done]. intros Hin%Hl. simpl in Hin. congruence.
    + intros k'. simpl. rewrite Limiter.locked_with, elem_of_cons, <- Hl. case_decide; subst; intuition.
  - unfold Limiter.try_begin in H. destruct (Limiter.locked k l); [|done]. by injection H as _ <-.
  - rewrite map_app in *. simpl in *. apply NoDup_app in Hnd as (H1 & H2 & [H3 H4]%NoDup_cons). split.
    + simpl. rewrite map_app. apply NoDup_app. split_and!; [done|intros k Hk; pose proof (H2 _ Hk) as Hn; set_solver|done].
    + intros k. simpl. unfold Limiter.drop_permit. rewrite map_app, Limiter.locked_with, elem_of_app.
      case_decide as Hk; [subst|rewrite Hl, elem_of_app, elem_of_cons; set_solver]. split; [done|]. intros [Hin|Hin]; [|done].
      destruct (H2 _ Hin). by left.
Qed.

(** Work of one kind never overlaps itself: in every state the desktop can reach by
    taking and dropping permits, at most one permit of each kind is out, and asking for
    one is granted exactly when none of its kind is, whatever other kinds are at work. *)
Theorem permits_exclusive s k :
  rtc works ([], Limiter.default_limiter) s ->
  NoDup (map wp_kind s.1) /\ (is_ok (Limiter.try_begin k s.2).1 = true <-> k ∉ map wp_kind s.1).
Proof.
  intros H. assert (gates_ok s) as [Hnd Hl].
  { assert (gates_ok ([], Limiter.default_limiter)) as Hok by (split; simpl; [apply NoDup_nil_2|by intros []; simpl; rewrite elem_of_nil]).
    revert Hok. generalize ([] : list WorkPermit, Limiter.default_limiter) s H. clear. induction 1; [done|]. eauto using works_ok. }
  split; [done|]. rewrite <- Hl. unfold Limiter.try_begin. by destruct (Limiter.locked k s.2).
Qed.
Lemma permits_exclusive_witness :
  let s := ([mkWorkPermit Write; mkWorkPermit Scan], mkWorkLimiter true true false) in
  rtc works ([], Limiter.default_limiter) s /\ is_ok (Limiter.try_begin Transfer s.2).1 = true /\ is_ok (Limiter.try_begin Scan s.2).1 = false.
Proof.
  intros s. assert (rtc works ([], Limiter.default_limiter) s) as Hs.
  { eapply rtc_l; [by apply (WorksBegin Scan)|]. eapply rtc_l; [by apply (WorksBegin Write)|]. apply rtc_refl. }
  split; [exact Hs|]. split; [|reflexivity]. apply (proj2 (proj2 (permits_exclusive s Transfer Hs))). simpl. set_solver.
Defined.

(** * [apps/desktop/src-tauri/src/agent_tool_processor.rs]: the tools that the assistant runs
    on a folder: a document's text, the rules, the history. *)

(** More of [serde_json]. *)
Class JsonValues (V : Type) := { json_bool : bool -> V; json_array : list V -> V; json_as_bool : V -> option bool }.

Module AgentTools.
(** [{:?}] of an action. *)
Definition debug_action (a : JournalAction) : string :=
  match a with JMove => "Move" | JTrash => "Trash" | JCreateDir => "CreateDir" | JCreateFile => "CreateFile" | JReadmeWrite => "ReadmeWrite" end.

Section tools.
Context {N V DB : Type} `{!SqlDb DB, !Http N V, !CredentialStore N, !JsonValue V, !Json V, !JsonValues V, !Serde ServerErrorResponse}.
Context `{!FileCodecs V, !UrlParser, !Formats, !Sha256, !ToValue V DocumentExtraction, !ToValue V (list Rule)}.
Context (unicode : string -> string) (parse : string -> result RuleSet string) (meanwhile : nat -> world DB -> world DB).
Abbreviation IO := (io (office N DB) string).

Definition input_text (step : AgentToolStep V) (key : string) : option string := json_get key (ts_input step) ≫= json_as_str.
Definition complete (step_id status : string) (metadata : V) (failure_code : option string) : IO unit :=
  on_agent (AgentFiles.complete_agent_tool step_id status metadata failure_code).
(** [roots.get(root_id).and_then(|root| f(&root.root))] *)
Definition on_folder {A} (step : AgentToolStep V) (f : string -> io (world DB) string A) : IO A :=
  let! root := on_roots (ManagedRoots.get (default "" (input_text step "rootId"))) in
  on_machine (f (mr_root root)).
Definition opt_text_value (o : option string) : V := match o with Some s => json_text s | None => json_null end.
Definition operation_value (o : OperationHistoryEntry) : V :=
  json_object [("operationId", json_text (h_operation_id o)); ("action", json_text (debug_action (h_action o)));
    ("createdAt", json_int (h_created_unix_ms o)); ("canUndo", json_bool (h_can_undo o));
    ("undoBlockedReason", opt_text_value (h_undo_blocked_reason o))].
Definition history_value (report : OperationHistoryReport) : V :=
  json_object [("operations", json_array (map operation_value (take 50 (hr_operations report))));
    ("corruption", match hr_corruption report with
                   | Some c => json_object [("line", json_int (line c)); ("message", json_text (message c))]
                   | None => json_null
                   end)].

Definition document_extract (step : AgentToolStep V) (room : V) : IO unit :=
  let path := default "" (input_text step "relativePath") in
  let consent := default false (json_get "aiDocumentAnalysisConsent" room ≫= json_as_bool) in
  let! extraction := io_try (on_folder step (fun root =>
    Documents.extract_document unicode meanwhile root path consent (input_text step "expectedSha256"))) in
  match extraction with
  | Ok result =>
      let! value := io_lift (to_value result) in
      complete (ts_id step) "SUCCEEDED" value None
  | Err error => complete (ts_id step) "FAILED" (json_object []) (Some error)
  end.
Definition rule_list (step : AgentToolStep V) : IO unit :=
  let! result := io_try (on_folder step (fun root =>
    let! f := get_fs in
    io_lift (map_err RuleError.fmt (load_rule_set_for_root parse f root)))) in
  match result with
  | Ok rules =>
      let! value := io_lift (to_value (rule_definition.rules rules)) in
      complete (ts_id step) "SUCCEEDED" (json_object [("version", json_int (version rules)); ("rules", value)]) None
  | Err _ => complete (ts_id step) "FAILED" (json_object []) (Some "RULE_LIST_FAILED")
  end.
Definition operation_history (step : AgentToolStep V) : IO unit :=
  let! result := io_try (on_folder step (fun root => io_map_err (fun _ => "") (History.read_operation_history root))) in
  match result with
  | Ok report => complete (ts_id step) "SUCCEEDED" (history_value report) None
  | Err _ => complete (ts_id step) "FAILED" (json_object []) (Some "OPERATION_HISTORY_FAILED")
  end.
Definition process_one (completed : Z) (request : AgentToolRequest V) : IO Z :=
  let step := tq_step request in
  if (ts_tool_name step =? "DOCUMENT_EXTRACT")%string then do! document_extract step (tq_room request); io_ret (completed + 1)%Z
  else if (ts_tool_name step =? "RULE_LIST")%string then do! rule_list step; io_ret (completed + 1)%Z
  else if negb (ts_tool_name step =? "OPERATION_HISTORY")%string then
    let! _ := io_try (complete (ts_id step) "FAILED" (json_object []) (Some "UNSUPPORTED_TOOL")) in
    io_ret completed
  else do! operation_history step; io_ret (completed + 1)%Z.
Definition process_pending_agent_tools : IO Z :=
  let! requests := on_agent (AgentFiles.pending_agent_tools (V:=V)) in
  io_for (fun _ completed request => process_one completed request) 0 0%Z requests.
End tools.
End AgentTools.
