(* ===== verification/agent_sync.v ===== *)
(** The cursors of the replayed events, and that they survive failures and restarts. *)
From Stdlib Require Import ZArith Lia Ascii.
From stdpp Require Import strings pretty gmap functions option list.
From S2P Require Import prelude rust_str std_path std_fs fs_facts db index_sql tables desk.

Open Scope string_scope.
Open Scope list_scope.


(** * [apps/desktop/src-tauri/src/storage/agent_sync.rs]: how far each device has replayed
    the events of the server, in memory and in a database. *)

(** * The database *)

(** The last sequence of each device and stream. *)
Record SyncTable := mkSyncTable { yt_made : bool; yt_rows : gmap (string * string) Z }.

Module SyncSql.
Definition create : string := "CREATE TABLE IF NOT EXISTS sync_cursors (
                    device_id TEXT NOT NULL,
                    stream TEXT NOT NULL,
                    last_sequence INTEGER NOT NULL CHECK(last_sequence >= 0),
                    PRIMARY KEY(device_id, stream)
                )".
Definition select : string := "SELECT device_id, last_sequence FROM sync_cursors WHERE stream = ?".
Definition upsert : string := "INSERT INTO sync_cursors(device_id, stream, last_sequence)
                 VALUES (?, ?, ?)
                 ON CONFLICT(device_id, stream) DO UPDATE SET last_sequence = excluded.last_sequence
                 WHERE excluded.last_sequence >= sync_cursors.last_sequence".
Definition delete : string := "DELETE FROM sync_cursors WHERE device_id = ?".

Definition execute (sql : string) (binds : list sql_value) (t : SyncTable) : option (SyncTable * Z) :=
  if (sql =? create)%string then Some (mkSyncTable true (yt_rows t), 0%Z)
  else if negb (yt_made t) then None
  else if (sql =? upsert)%string then
    match binds with
    | [SqlText device; SqlText stream; SqlInt sequence] =>
        if (sequence <? 0)%Z then None
        else if match yt_rows t !! (device, stream) with Some old => (sequence <? old)%Z | None => false end then Some (t, 0%Z)
        else Some (mkSyncTable true (<[(device, stream) := sequence]> (yt_rows t)), 1%Z)
    | _ => None
    end
  else if (sql =? delete)%string then
    match binds with
    | [SqlText device] =>
        Some (mkSyncTable true (filter (fun e => e.1.1 <> device) (yt_rows t)),
              Z.of_nat (size (filter (fun e => e.1.1 = device) (yt_rows t))))
    | _ => None
    end
  else None.
Definition fetch (sql : string) (binds : list sql_value) (t : SyncTable) : option (list sql_row) :=
  if (sql =? select)%string then
    match yt_made t, binds with
    | true, [SqlText stream] =>
        Some (map (fun e => [("device_id", SqlText e.1.1); ("last_sequence", SqlInt e.2)])
                (map_to_list (filter (fun e => e.1.2 = stream) (yt_rows t))))
    | _, _ => None
    end
  else None.
End SyncSql.

#[export] Instance sync_schema : Schema SyncTable := {
  sc_statements := [SyncSql.create; SyncSql.upsert; SyncSql.delete];
  sc_queries := [SyncSql.select];
  sc_execute := SyncSql.execute;
  sc_fetch := SyncSql.fetch;
}.

(** * The store *)

Record AgentSyncStore := mkAgentSyncStore { sy_cursors : gmap string Z; sy_pool : option string }.
Definition no_cursors : AgentSyncStore := mkAgentSyncStore ∅ None.

Module AgentSync.
Definition SYNC_STREAM : string := "user-events".

Section store.
Context {DB : Type} `{!SqlDb DB}.
Abbreviation WIO := (io (world DB) string).
Abbreviation IO := (io (AgentSyncStore * world DB) string).

Definition cursor_of_row (row : sql_row) : result (string * Z) string :=
  let? device_id := try_get_text row "device_id" in
  let? sequence := try_get_int row "last_sequence" in
  if (sequence <? 0)%Z then Err ("encountered unexpected or invalid data: " +:+ "negative sync cursor in database")
  else Ok (device_id, sequence).
Definition read_cursors (pool : string) : WIO (gmap string Z) :=
  do! Db.execute pool SyncSql.create [];
  let! rows := Db.fetch_all pool SyncSql.select [SqlText SYNC_STREAM] in
  let! cursors := io_lift (try_map cursor_of_row rows) in
  io_ret (list_to_map (rev cursors)).
Definition load_from_db (path : string) : IO unit :=
  let! pool := on_world (io_map_err Db.fmt (Db.open_pool_at path)) in
  let! loaded := on_world (read_cursors pool) in
  set_store (mkAgentSyncStore loaded (Some pool)).

Definition cursor (device_id : string) (s : AgentSyncStore) : Z := default 0%Z (sy_cursors s !! device_id).
Definition advance (device_id : string) (sequence : Z) : IO Z :=
  let! s := get_store in
  if (sequence <? cursor device_id s)%Z
  then io_fail ("sync cursor cannot move backwards: current=" +:+ fmt_int (cursor device_id s) +:+ ", requested=" +:+ fmt_int sequence)
  else if (2 ^ 63 <=? sequence)%Z then io_fail "sync cursor exceeds SQLite integer range"
  else
    do! match sy_pool s with
        | Some pool => on_world (Db.execute pool SyncSql.upsert [SqlText device_id; SqlText SYNC_STREAM; SqlInt sequence])
        | None => io_ret tt
        end;
    do! set_store (mkAgentSyncStore (<[device_id := sequence]> (sy_cursors s)) (sy_pool s));
    io_ret sequence.
Definition clear_device (device_id : string) : IO unit :=
  let! s := get_store in
  do! match sy_pool s with
      | Some pool => on_world (Db.execute pool SyncSql.delete [SqlText device_id])
      | None => io_ret tt
      end;
  set_store (mkAgentSyncStore (delete device_id (sy_cursors s)) (sy_pool s)).

(** ** Calls *)

Inductive Call := Load (path : string) | Advance (device_id : string) (sequence : Z) | ClearDevice (device_id : string).
Definition call (c : Call) : IO unit :=
  match c with
  | Load path => load_from_db path
  | Advance device_id sequence => let! _ := advance device_id sequence in io_ret tt
  | ClearDevice device_id => clear_device device_id
  end.
(** Calls in their order, each answered before the next, failing or not. *)
Definition calls (l : list Call) (st : AgentSyncStore * world DB) : AgentSyncStore * world DB :=
  fold_left (fun st c => (call c st).2) l st.
End store.
End AgentSync.

(** * The cursors of the replay: they only move forward, and memory and disk never disagree
    on them, whatever fails. *)

Section disk.
Context {DB : Type} `{!SqlDb DB, !SqlTx DB, !SqlCount DB, !TableDb DB SyncTable}.
Implicit Types (w : world DB) (st : AgentSyncStore * world DB) (m : gmap string Z).

(** The rows of the stream are the cursors. *)
Definition rows_are (rows : gmap (string * string) Z) m : Prop := forall d, rows !! (d, AgentSync.SYNC_STREAM) = m !! d.
Definition disk_is (path : string) w m : Prop := yt_made (table_at path w) = true /\ rows_are (yt_rows (table_at path w)) m.
(** A store that was loaded agrees with its database. *)
Definition synced st : Prop := forall path, sy_pool st.1 = Some path -> disk_is path st.2 (sy_cursors st.1).

Lemma upsert_in_step d z t m :
  yt_made t = true -> rows_are (yt_rows t) m -> (default 0 (m !! d) <= z)%Z -> forall t' n,
  SyncSql.execute SyncSql.upsert [SqlText d; SqlText AgentSync.SYNC_STREAM; SqlInt z] t = Some (t', n) ->
  yt_made t' = true /\ rows_are (yt_rows t') (<[d := z]> m).
Proof.
  intros Ht Hm Hz t' n. unfold SyncSql.execute. change (SyncSql.upsert =? SyncSql.create)%string with false.
  change (SyncSql.upsert =? SyncSql.upsert)%string with true. cbv beta iota. rewrite Ht. simpl.
  destruct (z <? 0)%Z; [done|]. rewrite (Hm d). destruct (m !! d) as [old|] eqn:Hold; simpl in Hz.
  1: destruct (Z.ltb_spec z old); [lia|].
  all: intros [= <- _]; split; [done|]; intros d'; simpl; destruct (decide (d' = d)) as [->|Hd];
    [by rewrite !lookup_insert_eq|rewrite !lookup_insert_ne by congruence; apply Hm].
Qed.
Lemma delete_in_step d t m :
  yt_made t = true -> rows_are (yt_rows t) m -> forall t' n, SyncSql.execute SyncSql.delete [SqlText d] t = Some (t', n) ->
  yt_made t' = true /\ rows_are (yt_rows t') (delete d m).
Proof.
  intros Ht Hm t' n. unfold SyncSql.execute. change (SyncSql.delete =? SyncSql.create)%string with false.
  change (SyncSql.delete =? SyncSql.upsert)%string with false. change (SyncSql.delete =? SyncSql.delete)%string with true.
  cbv beta iota. rewrite Ht. simpl. intros [= <- _]. split; [done|]. intros d'. simpl. destruct (decide (d' = d)) as [->|Hd].
  - rewrite lookup_delete_eq. apply map_lookup_filter_None. right. intros z Hz Hne. by apply Hne.
  - rewrite lookup_delete_ne by done. rewrite <- Hm. destruct (yt_rows t !! (d', AgentSync.SYNC_STREAM)) as [z|] eqn:Hz.
    + by apply map_lookup_filter_Some.
    + apply map_lookup_filter_None. by left.
Qed.

(** A statement on the table, by what it does when the schema takes it. *)
Lemma sync_statement p sql binds w r w' m m' :
  sql ∈ sc_statements (T:=SyncTable) -> Db.execute p sql binds w = (r, w') -> disk_is p w m ->
  (forall t' n, SyncSql.execute sql binds (table_at p w) = Some (t', n) -> yt_made t' = true /\ rows_are (yt_rows t') m') ->
  disk_is p w' (if is_ok r then m' else m).
Proof.
  intros Hs H Hd Hx. destruct (statement_run (T:=SyncTable) _ _ _ _ _ _ Hs H) as (_ & Hr). destruct r as [[]|e]; simpl.
  - destruct Hr as (n & Hr & _). by apply (Hx _ _ Hr).
  - unfold disk_is in *. by rewrite Hr.
Qed.

(** ** The calls *)

Lemma advance_run d z st r st' :
  AgentSync.advance d z st = (r, st') -> synced st ->
  synced st' /\ sy_pool st'.1 = sy_pool st.1 /\
  match r with
  | Ok z' => z' = z /\ (AgentSync.cursor d st.1 <= z)%Z /\ sy_cursors st'.1 = <[d := z]> (sy_cursors st.1)
  | Err _ => st'.1 = st.1
  end.
Proof.
  destruct st as [s w]. intros H Hs. unfold AgentSync.advance in H. cbn [get_store io_gets io_bind fst] in H. unfold io_bind at 1 in H. simpl in H.
  destruct (Z.ltb_spec z (AgentSync.cursor d s)) as [Hlt|Hge]; [by injection H as <- <-|].
  destruct (2 ^ 63 <=? z)%Z; [by injection H as <- <-|].
  destruct (sy_pool s) as [path|] eqn:Hp.
  - unfold io_bind at 1 in H. destruct (on_world _ (s, w)) as [r1 st1] eqn:H1. apply on_world_run in H1 as (w1 & H1 & ->).
    specialize (Hs path Hp). simpl in Hs.
    pose proof (sync_statement _ _ _ _ _ _ _ (<[d := z]> (sy_cursors s)) ltac:(by right; left) H1 Hs) as Hd.
    specialize (Hd ltac:(intros t' n; by apply upsert_in_step; [apply Hs..|])).
    destruct r1 as [[]|e]; injection H as <- <-; simpl in *.
    + split_and!; [|done..]. intros p [= <-]. exact Hd.
    + split_and!; [|done..]. intros p Hp'. simpl in *. rewrite Hp in Hp'. by injection Hp' as <-.
  - injection H as <- <-. simpl. split_and!; [by intros p Hp'|done..].
Qed.
Lemma cursor_clear_run d st r st' :
  AgentSync.clear_device d st = (r, st') -> synced st ->
  synced st' /\ sy_pool st'.1 = sy_pool st.1 /\
  match r with Ok _ => sy_cursors st'.1 = delete d (sy_cursors st.1) | Err _ => st'.1 = st.1 end.
Proof.
  destruct st as [s w]. intros H Hs. unfold AgentSync.clear_device in H. unfold io_bind at 1 in H. simpl in H.
  destruct (sy_pool s) as [path|] eqn:Hp.
  - unfold io_bind at 1 in H. destruct (on_world _ (s, w)) as [r1 st1] eqn:H1. apply on_world_run in H1 as (w1 & H1 & ->).
    specialize (Hs path Hp). simpl in Hs.
    pose proof (sync_statement _ _ _ _ _ _ _ (delete d (sy_cursors s)) ltac:(by right; right; left) H1 Hs) as Hd.
    specialize (Hd ltac:(intros t' n; apply delete_in_step; apply Hs)).
    destruct r1 as [[]|e]; injection H as <- <-; simpl in *.
    + split_and!; [|done..]. intros p [= <-]. exact Hd.
    + split_and!; [|done..]. intros p Hp'. simpl in *. rewrite Hp in Hp'. by injection Hp' as <-.
  - injection H as <- <-. simpl. split_and!; [by intros p Hp'|done..].
Qed.

(** What a load reads is the rows of the stream. *)
Lemma cursors_of_rows (l : list ((string * string) * Z)) cursors :
  try_map AgentSync.cursor_of_row (map (fun e => [("device_id", SqlText e.1.1); ("last_sequence", SqlInt e.2)]) l) = Ok cursors ->
  cursors = map (fun e => (e.1.1, e.2)) l.
Proof.
  revert cursors. induction l as [|[[d s] z] l IH]; intros cursors H; simpl in H; [by injection H as <-|].
  unfold AgentSync.cursor_of_row at 1 in H. simpl in H. destruct (z <? 0)%Z; [done|]. simpl in H.
  destruct (try_map _ _) as [cs|] eqn:Hcs; [|done]. injection H as <-. simpl. f_equal. by apply IH.
Qed.
Lemma collect_cursors (rows : gmap (string * string) Z) :
  rows_are rows (list_to_map (rev (map (fun e => (e.1.1, e.2)) (map_to_list (filter (fun e => e.1.2 = AgentSync.SYNC_STREAM) rows))))).
Proof.
  set (l := map_to_list _). assert (NoDup (map fst (map (fun e : (string * string) * Z => (e.1.1, e.2)) l))) as Hnd.
  { rewrite map_map. simpl.
    assert (Forall (fun e => e.1.2 = AgentSync.SYNC_STREAM) l) as Hs.
    { apply list.Forall_forall. intros [k z] H%elem_of_map_to_list. by apply map_lookup_filter_Some in H as [_ H]. }
    pose proof (NoDup_fst_map_to_list (filter (fun e => e.1.2 = AgentSync.SYNC_STREAM) rows)) as Hk. fold l in Hk.
    clear -Hs Hk. induction Hs as [|[[d s] z] l Hs Hl IH]; simpl in *; [constructor|]. apply NoDup_cons in Hk as [Hn Hk].
    apply NoDup_cons. split; [|by apply IH]. intros ([[d2 s2] z2] & Hd & Hin)%list_elem_of_fmap. simpl in *. subst d2 s.
    pose proof (proj1 (list.Forall_forall _ _) Hl _ Hin) as Hs2. simpl in Hs2. subst s2. apply Hn.
    apply list_elem_of_fmap. eexists. split; [|exact Hin]. done. }
  intros d. apply option_eq. intros z.
  rewrite <- elem_of_list_to_map by (rewrite map_rev, <- Permutation_rev; exact Hnd).
  rewrite <- Permutation_rev, list_elem_of_fmap. split.
  - intros Hz. exists ((d, AgentSync.SYNC_STREAM), z). split; [done|]. apply elem_of_map_to_list. by apply map_lookup_filter_Some.
  - intros ([[d2 s2] z2] & [= -> ->] & H%elem_of_map_to_list). apply map_lookup_filter_Some in H as [H Hs]. simpl in Hs. by subst s2.
Qed.
(** Opening a database changes no tables. *)
Lemma open_pool_run path w r w' :
  Db.open_pool_at path w = (r, w') -> (forall q, table_at (T:=SyncTable) q w' = table_at q w) /\ match r with Ok p => p = path | Err _ => True end.
Proof.
  intros H. unfold Db.open_pool_at in H.
  assert (forall r w1, (match path_parent path with
      | Some parent => io_map_err (fun e => CreateStateDir parent (io_error_str e)) (create_dir_all parent)
      | None => io_ret tt end) w = (r, w1) -> w_db w1 = w_db w) as Hdir.
  { intros r1 w1 H1. destruct (path_parent path) as [parent|]; [|by injection H1 as _ <-]. apply io_map_err_inv in H1 as (r2 & H1 & _).
    by destruct (create_dir_all_only parent _ _ _ H1). }
  apply io_bind_inv in H as [([] & w1 & H1 & H)|(e & H1 & ->)].
  2: { split; [|done]. intros q. unfold table_at. by rewrite (Hdir _ _ H1). }
  apply Hdir in H1. assert (forall r2 w2, io_map_err (Open path) (Db.connect path) w1 = (r2, w2) -> forall q, table_at (T:=SyncTable) q w2 = table_at q w) as Hcon.
  { intros r2 w2 (r3 & H2 & _)%io_map_err_inv q. unfold Db.connect in H2. rewrite H1 in H2.
    destruct (sql_connect (w_db w path)) as [r4 d] eqn:Hd. injection H2 as _ <-. destruct (decide (q = path)) as [->|Hq].
    - by rewrite table_at_set, (connect_table _ _ _ Hd).
    - unfold table_at. simpl. by rewrite fn_lookup_insert_ne, H1. }
  apply io_bind_inv in H as [([] & w2 & H2 & [= <- <-])|(e & H2 & ->)]; (split; [by eapply Hcon|done]).
Qed.
(** Making the table, and reading it. *)
Lemma create_stated : SyncSql.create ∈ sc_statements (T:=SyncTable).
Proof. by left. Qed.
Lemma select_asked : SyncSql.select ∈ sc_queries (T:=SyncTable).
Proof. by left. Qed.
Lemma read_run path w r w' :
  AgentSync.read_cursors path w = (r, w') ->
  (forall q, q <> path -> table_at (T:=SyncTable) q w' = table_at q w) /\ yt_rows (table_at path w') = yt_rows (table_at path w) /\
  (yt_made (table_at path w) = true -> yt_made (table_at path w') = true) /\
  match r with Ok m => disk_is path w' m | Err _ => True end.
Proof.
  intros H. unfold AgentSync.read_cursors in H.
  assert (forall (u : world DB), db_only path w u -> forall q, q <> path -> table_at (T:=SyncTable) q u = table_at q w) as Hall.
  { intros u (_ & _ & _ & Hu) q Hq. unfold table_at. by rewrite Hu. }
  apply io_bind_inv in H as [([] & w1 & H1 & H)|(e & H1 & ->)];
    destruct (statement_run (T:=SyncTable) _ _ _ _ _ _ create_stated H1) as ((Ho1 & _) & Hx).
  2: { split_and!; [by apply Hall|by rewrite Hx..|done]. }
  destruct Hx as (n & Hx & _). cbn in Hx. injection Hx as Hx _.
  assert (yt_made (table_at (T:=SyncTable) path w1) = true /\ yt_rows (table_at (T:=SyncTable) path w1) = yt_rows (table_at path w)) as [Hm1 Hr1]
    by (rewrite <- Hx; done).
  apply io_bind_inv in H as [(rows & w2 & H2 & H)|(e & H2 & ->)];
    destruct (query_run (T:=SyncTable) _ _ _ _ _ _ select_asked H2) as ((Ho2 & _) & Ht & Hf).
  2: { split_and!; [apply Hall; by etrans|by rewrite Ht|by rewrite Ht|done]. }
  assert (w' = w2 /\ match r with Ok m => exists cs, try_map AgentSync.cursor_of_row rows = Ok cs /\ m = list_to_map (rev cs) | Err _ => True end) as [-> Hr].
  { apply io_bind_inv in H as [(cs & w3 & H3 & [= <- <-])|(e & H3 & ->)]; injection H3 as H3 <-; [|done]. split; [done|]. by exists cs. }
  split_and!; [apply Hall; by etrans|by rewrite Ht|by rewrite Ht|]. destruct r as [m|e]; [|done]. destruct Hr as (cs & Hcs & ->).
  unfold disk_is. rewrite Ht. split; [done|]. cbn in Hf. rewrite Hm1 in Hf. injection Hf as <-.
  apply cursors_of_rows in Hcs as ->. apply collect_cursors.
Qed.
Lemma load_run path st r st' :
  AgentSync.load_from_db path st = (r, st') ->
  (forall q, q <> path -> table_at (T:=SyncTable) q st'.2 = table_at q st.2) /\ yt_rows (table_at path st'.2) = yt_rows (table_at path st.2) /\
  (yt_made (table_at path st.2) = true -> yt_made (table_at path st'.2) = true) /\
  match r with
  | Ok _ => sy_pool st'.1 = Some path /\ disk_is path st'.2 (sy_cursors st'.1)
  | Err _ => st'.1 = st.1
  end.
Proof.
  destruct st as [s w]. intros H. unfold AgentSync.load_from_db in H.
  apply io_bind_inv in H as [(p & st1 & H1 & H)|(e & H1 & ->)]; apply on_world_run in H1 as (w1 & H1 & ->);
    apply io_map_err_inv in H1 as (r1 & H1 & Hr1); apply open_pool_run in H1 as [Ht1 Hp].
  2: { simpl. rewrite !Ht1. split_and!; [by intros q _|done..]. }
  destruct r1 as [p'|]; [|done]. injection Hr1 as ->. subst p'.
  apply io_bind_inv in H as [(m & st2 & H2 & H)|(e & H2 & ->)]; apply on_world_run in H2 as (w2 & H2 & ->);
    apply read_run in H2 as (Ho & Hrows & Hm & Hd).
  2: { simpl. rewrite Hrows, <- (Ht1 path). split_and!; [|done..]. intros q Hq. by rewrite Ho, Ht1. }
  injection H as <- <-. simpl. rewrite Hrows, <- (Ht1 path). split_and!; [|done..]. intros q Hq. by rewrite Ho, Ht1.
Qed.
Lemma load_synced path st r st' : AgentSync.load_from_db path st = (r, st') -> synced st -> synced st'.
Proof.
  intros (Ho & Hrows & Hm & Hr)%load_run Hs p Hp. destruct r as [[]|e].
  - destruct Hr as [Hpool Hd]. rewrite Hpool in Hp. by injection Hp as <-.
  - rewrite Hr in *. destruct (Hs p Hp) as [Hmade Hrs]. unfold disk_is. destruct (decide (p = path)) as [->|Hq].
    + split; [by apply Hm|]. by rewrite Hrows.
    + by rewrite Ho.
Qed.

Lemma call_synced c st : synced st -> synced (AgentSync.call c st).2.
Proof.
  intros Hs. destruct (AgentSync.call c st) as [r st'] eqn:H. simpl. destruct c as [path|d z|d]; simpl in H.
  - by eapply load_synced.
  - apply io_bind_inv in H as [(z' & st1 & H & [= _ <-])|(e & H & _)]; by eapply advance_run.
  - by eapply cursor_clear_run.
Qed.
Lemma calls_synced l st : synced st -> synced (AgentSync.calls l st).
Proof. unfold AgentSync.calls. revert st. induction l as [|c l IH]; intros st Hs; simpl; [done|]. by apply IH, call_synced. Qed.

(** C32: The desktop never forgets nor invents how far it has replayed the events.  After any
    calls on an empty store, failing databases included, the cursors in memory are those a
    restart reads back from the database it loaded, or the restart fails and changes nothing;
    and a further advance moves the cursor of its own device to the sequence asked for and
    never backwards, or fails and moves none. *)
Theorem cursors_survive l w d z r st' :
  let st := AgentSync.calls l (no_cursors, w) in
  (forall path s0 r0 st0, sy_pool st.1 = Some path -> AgentSync.load_from_db path (s0, st.2) = (r0, st0) ->
     match r0 with Ok _ => sy_cursors st0.1 = sy_cursors st.1 | Err _ => st0.1 = s0 end) /\
  (AgentSync.advance d z st = (r, st') ->
     match r with
     | Ok _ => (AgentSync.cursor d st.1 <= z)%Z /\ forall d', AgentSync.cursor d' st'.1 = if decide (d' = d) then z else AgentSync.cursor d' st.1
     | Err _ => st'.1 = st.1
     end).
Proof.
  intros st. assert (synced st) as Hs by (apply calls_synced; by intros p). split.
  - intros path s0 r0 st0 Hp H. pose proof (load_run _ _ _ _ H) as (_ & Hrows & _ & Hr). destruct r0 as [[]|e]; [|exact Hr].
    destruct Hr as [_ [_ Hd]]. destruct (Hs path Hp) as [_ Hs']. apply map_eq. intros d'. simpl in Hrows. by rewrite <- Hd, Hrows, Hs'.
  - intros H. destruct (advance_run _ _ _ _ _ H Hs) as (_ & _ & Hr). destruct r as [z'|e]; [|exact Hr].
    destruct Hr as (_ & Hle & Hc). split; [exact Hle|]. intros d'. unfold AgentSync.cursor. rewrite Hc. case_decide as Hd.
    + subst d'. by rewrite lookup_insert_eq.
    + by rewrite lookup_insert_ne.
Qed.
End disk.
