(* ===== verification/agent_chat.v ===== *)
(** The calls of the agent about rooms, rules, events, chats, drafts and decisions, and their type. *)
From Stdlib Require Import ZArith Lia Ascii.
From stdpp Require Import strings pretty gmap functions option list.
From S2P Require Import prelude rust_str desk agent network agent_work.

Open Scope string_scope.
Open Scope list_scope.


(** * [apps/desktop/src-tauri/src/agent.rs]: the rooms of the server, their rules, and the
    events that the server replays. *)

Section data.
Context {V : Type}.
Record SyncEvent := mkSyncEvent {
  sv_event_id : string;
  sv_event_type : string;
  sv_schema_version : Z;          (** [u64] *)
  sv_correlation_id : string;
  sv_aggregate_type : string;
  sv_aggregate_id : string;
  sv_device_id : option string;
  sv_room_id : option string;
  sv_sequence : Z;                (** [u64] *)
  sv_occurred_at : string;
  sv_payload : V;
}.
Record AgentRule := mkAgentRule {
  al_rule_id : string;
  al_room_id : string;
  al_name : string;
  al_definition : V;
  al_priority : Z;                (** [i64] *)
  al_enabled : bool;
  al_version : Z;                 (** [i64] *)
}.
Record SyncEventResponse := mkSyncEventResponse {
  vr_event_id : string; vr_event_type : string; vr_schema_version : Z; vr_correlation_id : string; vr_aggregate_type : string;
  vr_aggregate_id : string; vr_device_id : option string; vr_room_id : option string; vr_sequence : Z; vr_occurred_at : string;
  vr_payload : V }.
Record RuleResponse := mkRuleResponse {
  rl_id : string; rl_room_id : string; rl_name : string; rl_definition : V; rl_priority : Z; rl_enabled : bool; rl_version : Z }.
(** [SyncEvent::from] *)
Definition sync_event_of (r : SyncEventResponse) : SyncEvent :=
  mkSyncEvent (vr_event_id r) (vr_event_type r) (vr_schema_version r) (vr_correlation_id r) (vr_aggregate_type r) (vr_aggregate_id r)
    (vr_device_id r) (vr_room_id r) (vr_sequence r) (vr_occurred_at r) (vr_payload r).
End data.
Arguments SyncEvent : clear implicits. Arguments AgentRule : clear implicits.
Arguments SyncEventResponse : clear implicits. Arguments RuleResponse : clear implicits.

(** * Validation *)

Module ValidateRooms.
Definition alias_char (c : ascii) : bool := Validate.opaque_char c || Ascii.eqb c ":".
Definition root_alias (value : string) : result unit AgentError :=
  if is_empty value || (120 <? slen value)%Z || negb (all_chars alias_char value)
  then Err (validation_error "managed root id has an invalid room alias format") else Ok tt.

Section value.
Context {V : Type} `{!JsonValue V}.
Definition rule (r : RuleResponse V) : result (AgentRule V) AgentError :=
  if is_empty (trim (rl_id r)) || is_empty (trim (rl_room_id r)) || is_empty (trim (rl_name r)) || (120 <? chars_count (rl_name r))%Z
     || negb (value_is_object (rl_definition r)) || (rl_priority r <? 0)%Z || (rl_version r <=? 0)%Z
  then Err (invalid_response_error "rule failed response validation")
  else Ok (mkAgentRule (rl_id r) (rl_room_id r) (rl_name r) (rl_definition r) (rl_priority r) (rl_enabled r) (rl_version r)).
Definition rules : list (RuleResponse V) -> result (list (AgentRule V)) AgentError := try_map rule.

(** One event, after the sequence of the one before it. *)
Definition event_is_bad (previous : Z) (e : SyncEventResponse V) : bool :=
  (vr_sequence e <=? previous)%Z || is_empty (vr_event_id e) || is_empty (vr_event_type e) || (vr_schema_version e =? 0)%Z
  || is_empty (vr_correlation_id e) || is_empty (vr_aggregate_type e) || is_empty (vr_aggregate_id e) || is_empty (vr_occurred_at e)
  || negb (value_is_object (vr_payload e)).
Fixpoint sync_events (previous : Z) (events : list (SyncEventResponse V)) : result (list (SyncEvent V)) AgentError :=
  match events with
  | [] => Ok []
  | event :: events =>
      if event_is_bad previous event then Err (invalid_response_error "sync replay event failed envelope validation")
      else
        let? validated := sync_events (vr_sequence event) events in
        Ok (sync_event_of event :: validated)
  end.
End value.
End ValidateRooms.

(** * Requests *)

Class RoomCodecs (V : Type) := {
  codec_room :: Serde ServerRoom;
  codec_rules :: Serde (list (RuleResponse V));
  codec_events :: Serde (list (SyncEventResponse V));
}.

Module AgentRooms.
Section agent.
Context {N V : Type} `{!Http N V, !CredentialStore N, !JsonValue V, !Serde ServerErrorResponse, !WorkCodecs V, !RoomCodecs V}.
Abbreviation IO := (io (AgentState * N) AgentError).

(** The calls are answered one at a time: the lock of the source. *)
Definition ensure_room_for_root (root_id display_name : string) : IO AgentRoomSync :=
  do! io_lift (ValidateRooms.root_alias root_id);
  let display_name := trim display_name in
  if is_empty display_name || (120 <? chars_count display_name)%Z
  then io_fail (validation_error "managed root display name must contain between 1 and 120 characters")
  else
    let! config := Agent.require_authenticated_config in
    let '(base_url, credential) := config in
    Agent.recording (
      let! rooms := Agent.send_json (V:=V) (mkHttpRequest "GET" (base_url +:+ "/v1/rooms") [] (Some (dc_device_token credential)) None BNone) in
      let! existing := io_lift (ValidateWork.server_rooms (dc_device_id credential) rooms) in
      match find (fun room => sr_root_alias room =? root_id)%string existing with
      | Some room => io_ret (mkAgentRoomSync (sr_id room) root_id (sr_name room) false)
      | None =>
          let! room := Agent.send_json (V:=V) (mkHttpRequest "POST" (base_url +:+ "/v1/rooms") [] (Some (dc_device_token credential)) None
                         (BFields [("desktopDeviceId", FText (dc_device_id credential)); ("name", FText display_name);
                                   ("rootAlias", FText root_id)])) in
          let! room := io_lift (ValidateWork.server_room (dc_device_id credential) room) in
          if (sr_root_alias room =? root_id)%string then io_ret (mkAgentRoomSync (sr_id room) root_id (sr_name room) true)
          else io_fail (invalid_response_error "created room response did not match the managed root alias")
      end).

Definition list_rules (room_id : string) : IO (list (AgentRule V)) :=
  do! io_lift (Validate.opaque_value "room id" room_id 200);
  let! config := Agent.require_authenticated_config in
  let '(base_url, credential) := config in
  Agent.recording (
    let! responses := Agent.send_json (V:=V) (mkHttpRequest "GET" (base_url +:+ "/v1/rooms/" +:+ room_id +:+ "/rules") []
                        (Some (dc_device_token credential)) None BNone) in
    io_lift (ValidateRooms.rules responses)).

Definition disconnect_room (room_id idempotency_key : string) : IO unit :=
  do! io_lift (Validate.opaque_value "room id" room_id 200);
  do! io_lift (Validate.opaque_value "room disconnect idempotency key" idempotency_key 200);
  let! config := Agent.require_authenticated_config in
  let '(base_url, credential) := config in
  Agent.recording (Agent.send_empty (V:=V) (mkHttpRequest "DELETE" (base_url +:+ "/v1/agent/rooms/" +:+ room_id) []
    (Some (dc_device_token credential)) (Some idempotency_key) BNone)).

Definition replay_events (after limit : Z) : IO (list (SyncEvent V)) :=
  if negb ((1 <=? limit) && (limit <=? 200))%Z then io_fail (validation_error "sync replay limit must be between 1 and 200")
  else
    let! config := Agent.require_authenticated_config in
    let '(base_url, credential) := config in
    Agent.recording (
      let! responses := Agent.send_json (V:=V) (mkHttpRequest "GET" (base_url +:+ "/v1/sync/events")
                          [("after", fmt_int after); ("limit", fmt_int limit)] (Some (dc_device_token credential)) None BNone) in
      io_lift (ValidateRooms.sync_events after responses)).
End agent.
End AgentRooms.

(** * [apps/desktop/src-tauri/src/agent.rs]: the chats of a room, with the validation of
    what the server answers. *)

(** * Data *)

Record AgentChatSession := mkAgentChatSession {
  hs_session_id : string;
  hs_room_id : string;
  hs_title : string;
  hs_status : string;
  hs_created_at : string;
  hs_updated_at : string;
  hs_message_preview : string;
  hs_unread_count : Z;                  (** [u64], as the counts below *)
  hs_pending_action_count : Z;
  hs_last_read_message_id : option string;
  hs_read_at : option string;
}.
Record ChatSessionResponse := mkChatSessionResponse {
  hr_id : string; hr_room_id : string; hr_title : string; hr_status : string; hr_created_at : string; hr_updated_at : string;
  hr_message_preview : string; hr_unread_count : option Z; hr_pending_action_count : option Z;
  hr_last_read_message_id : option string; hr_read_at : option string }.
Record AgentChatQuickPrompt := mkAgentChatQuickPrompt { hp_id : string; hp_label : string; hp_prompt : string; hp_category : string }.
Record AgentChatQuickHistoryItem := mkAgentChatQuickHistoryItem {
  hi_message_id : string; hi_session_id : string; hi_session_title : string; hi_sender_type : string; hi_message_type : string;
  hi_content : string; hi_created_at : string }.
Record AgentChatQuickSuggestion := mkAgentChatQuickSuggestion {
  hg_message_id : string; hg_session_id : string; hg_session_title : string; hg_message_type : string; hg_content : string;
  hg_draft_id : string; hg_status : string; hg_created_at : string }.
(** The answers of the same fields: [ChatQuickPromptResponse], [ChatQuickHistoryResponse]
    and [ChatQuickSuggestionResponse]. *)
Record ChatQuickPromptResponse := mkChatQuickPromptResponse { qp_id : string; qp_label : string; qp_prompt : string; qp_category : string }.
Record ChatQuickHistoryResponse := mkChatQuickHistoryResponse {
  qh_message_id : string; qh_session_id : string; qh_session_title : string; qh_sender_type : string; qh_message_type : string;
  qh_content : string; qh_created_at : string }.
Record ChatQuickSuggestionResponse := mkChatQuickSuggestionResponse {
  qg_message_id : string; qg_session_id : string; qg_session_title : string; qg_message_type : string; qg_content : string;
  qg_draft_id : string; qg_status : string; qg_created_at : string }.
Record AgentChatQuickView := mkAgentChatQuickView {
  hv_prompts : list AgentChatQuickPrompt; hv_sessions : list AgentChatSession; hv_history : list AgentChatQuickHistoryItem;
  hv_pending_suggestions : list AgentChatQuickSuggestion; hv_unread_count : Z; hv_pending_action_count : Z }.
Record ChatQuickViewResponse := mkChatQuickViewResponse {
  qv_prompts : list ChatQuickPromptResponse; qv_sessions : list ChatSessionResponse; qv_history : list ChatQuickHistoryResponse;
  qv_pending_suggestions : list ChatQuickSuggestionResponse; qv_unread_count : Z; qv_pending_action_count : Z }.

Section data.
Context (V : Type).
Record AgentChatMessage := mkAgentChatMessage {
  hm_message_id : string; hm_room_id : string; hm_session_id : option string; hm_sender_type : string; hm_message_type : string;
  hm_content : string; hm_structured_payload : V; hm_command_id : option string; hm_created_at : string }.
Record ChatMessageResponse := mkChatMessageResponse {
  ms_id : string; ms_room_id : string; ms_session_id : option string; ms_sender_type : string; ms_message_type : string;
  ms_content : string; ms_structured_payload : V; ms_command_id : option string; ms_created_at : string }.
Record AgentChatSendResult := mkAgentChatSendResult {
  hd_message : AgentChatMessage; hd_assistant : option AgentChatMessage; hd_ai_status : string; hd_ai : V;
  hd_agent_run_id : option string; hd_agent_run_status : option string }.
Record ChatSendResponse := mkChatSendResponse {
  sd_message : ChatMessageResponse; sd_assistant : option ChatMessageResponse; sd_ai_status : string; sd_ai : V;
  sd_agent_run_id : option string; sd_agent_run_status : option string }.
Record AgentChatQuickCleanupResult := mkAgentChatQuickCleanupResult {
  hc_session : AgentChatSession; hc_message : AgentChatMessage; hc_assistant : option AgentChatMessage; hc_ai_status : string; hc_ai : V }.
Record ChatQuickCleanupResponse := mkChatQuickCleanupResponse {
  qc_session : ChatSessionResponse; qc_message : ChatMessageResponse; qc_assistant : option ChatMessageResponse;
  qc_ai_status : string; qc_ai : V }.
End data.
Arguments mkAgentChatMessage {V} _ _ _ _ _ _ _ _ _. Arguments mkChatMessageResponse {V} _ _ _ _ _ _ _ _ _.
Arguments ms_id {V} _. Arguments ms_room_id {V} _. Arguments ms_session_id {V} _. Arguments ms_sender_type {V} _.
Arguments ms_message_type {V} _. Arguments ms_content {V} _. Arguments ms_structured_payload {V} _. Arguments ms_command_id {V} _.
Arguments ms_created_at {V} _. Arguments hm_session_id {V} _. Arguments hm_content {V} _. Arguments hm_message_id {V} _.
Arguments hm_room_id {V} _. Arguments hm_sender_type {V} _. Arguments hm_message_type {V} _. Arguments hm_created_at {V} _.
Arguments hd_message {V} _. Arguments hd_assistant {V} _. Arguments hd_ai {V} _.
Arguments hc_session {V} _. Arguments hc_message {V} _. Arguments hc_assistant {V} _. Arguments hc_ai {V} _.
Arguments mkAgentChatSendResult {V} _ _ _ _ _ _. Arguments mkChatSendResponse {V} _ _ _ _ _ _.
Arguments sd_message {V} _. Arguments sd_assistant {V} _. Arguments sd_ai_status {V} _. Arguments sd_ai {V} _.
Arguments sd_agent_run_id {V} _. Arguments sd_agent_run_status {V} _.
Arguments mkAgentChatQuickCleanupResult {V} _ _ _ _ _. Arguments mkChatQuickCleanupResponse {V} _ _ _ _ _.
Arguments qc_session {V} _. Arguments qc_message {V} _. Arguments qc_assistant {V} _. Arguments qc_ai_status {V} _. Arguments qc_ai {V} _.

(** * Validation *)

Module ValidateChat.
Definition blank (s : string) : bool := is_empty (trim s).
Definition longer (n : Z) (s : string) : bool := (n <? chars_count s)%Z.
(** [Option<T>::map(f).transpose()?] *)
Definition transposed {A B E} (f : A -> result B E) (o : option A) : result (option B) E :=
  match o with Some a => let? b := f a in Ok (Some b) | None => Ok None end.
Definition message_types : list string := ["TEXT"; "COMMAND_DRAFT"; "RULE_DRAFT"; "QUERY_RESULT"; "EXECUTION_RESULT"; "PROPOSAL"; "DECISION"].
Definition bad_session : AgentError := invalid_response_error "chat session failed response validation".

Definition chat_session_any_room (r : ChatSessionResponse) : result AgentChatSession AgentError :=
  if is_empty (hr_id r) || is_empty (hr_room_id r) || blank (hr_title r) || longer 120 (hr_title r)
     || negb (hr_status r =? "ACTIVE")%string || is_empty (hr_created_at r) || is_empty (hr_updated_at r)
     || longer 120 (hr_message_preview r)
  then Err bad_session
  else Ok (mkAgentChatSession (hr_id r) (hr_room_id r) (hr_title r) (hr_status r) (hr_created_at r) (hr_updated_at r)
             (hr_message_preview r) (default 0%Z (hr_unread_count r)) (default 0%Z (hr_pending_action_count r))
             (hr_last_read_message_id r) (hr_read_at r)).
Definition chat_session (expected_room_id : string) (r : ChatSessionResponse) : result AgentChatSession AgentError :=
  if negb (hr_room_id r =? expected_room_id)%string then Err bad_session else chat_session_any_room r.
Definition chat_sessions (expected_room_id : string) : list ChatSessionResponse -> result (list AgentChatSession) AgentError :=
  try_map (chat_session expected_room_id).
Definition chat_content (content : string) : result unit AgentError :=
  let trimmed := trim content in
  if is_empty trimmed || longer 2000 trimmed
  then Err (validation_error "chat message content must contain between 1 and 2000 characters") else Ok tt.

Definition chat_quick_prompt (r : ChatQuickPromptResponse) : result AgentChatQuickPrompt AgentError :=
  if blank (qp_id r) || longer 80 (qp_id r) || blank (qp_label r) || longer 80 (qp_label r) || blank (qp_prompt r)
     || longer 500 (qp_prompt r) || negb (one_of ["QUERY"; "COMMAND"; "RULE"; "CLEANUP"] (qp_category r))
  then Err (invalid_response_error "chat quick prompt failed response validation")
  else Ok (mkAgentChatQuickPrompt (qp_id r) (qp_label r) (qp_prompt r) (qp_category r)).
Definition chat_quick_history (r : ChatQuickHistoryResponse) : result AgentChatQuickHistoryItem AgentError :=
  if blank (qh_message_id r) || blank (qh_session_id r) || blank (qh_session_title r) || longer 120 (qh_session_title r)
     || negb (one_of ["USER"; "ASSISTANT"; "SYSTEM"] (qh_sender_type r)) || negb (one_of message_types (qh_message_type r))
     || blank (qh_content r) || longer 2000 (qh_content r) || blank (qh_created_at r)
  then Err (invalid_response_error "chat quick history failed response validation")
  else Ok (mkAgentChatQuickHistoryItem (qh_message_id r) (qh_session_id r) (qh_session_title r) (qh_sender_type r)
             (qh_message_type r) (qh_content r) (qh_created_at r)).
Definition chat_quick_suggestion (r : ChatQuickSuggestionResponse) : result AgentChatQuickSuggestion AgentError :=
  if blank (qg_message_id r) || blank (qg_session_id r) || blank (qg_session_title r) || longer 120 (qg_session_title r)
     || negb (one_of ["COMMAND_DRAFT"; "RULE_DRAFT"] (qg_message_type r)) || blank (qg_content r) || longer 2000 (qg_content r)
     || blank (qg_draft_id r) || blank (qg_status r) || longer 40 (qg_status r) || blank (qg_created_at r)
  then Err (invalid_response_error "chat quick suggestion failed response validation")
  else Ok (mkAgentChatQuickSuggestion (qg_message_id r) (qg_session_id r) (qg_session_title r) (qg_message_type r)
             (qg_content r) (qg_draft_id r) (qg_status r) (qg_created_at r)).
Definition chat_quick_view (expected_room_id : string) (r : ChatQuickViewResponse) : result AgentChatQuickView AgentError :=
  if (match qv_prompts r with [] => true | _ => false end) || (12 <? length (qv_prompts r))%nat || (5 <? length (qv_sessions r))%nat
     || (12 <? length (qv_history r))%nat || (12 <? length (qv_pending_suggestions r))%nat
  then Err (invalid_response_error "chat quick view failed response validation")
  else
    let? prompts := try_map chat_quick_prompt (qv_prompts r) in
    let? sessions := chat_sessions expected_room_id (qv_sessions r) in
    let? history := try_map chat_quick_history (qv_history r) in
    let? pending_suggestions := try_map chat_quick_suggestion (qv_pending_suggestions r) in
    Ok (mkAgentChatQuickView prompts sessions history pending_suggestions (qv_unread_count r) (qv_pending_action_count r)).

Section value.
Context {V : Type} `{!JsonValue V}.
Definition session_matches (expected_session_id : option string) (session_id : option string) : bool :=
  match expected_session_id with
  | Some expected => match session_id with Some s => (s =? expected)%string | None => false end
  | None => match session_id with Some _ => true | None => false end
  end.
Definition chat_message (expected_session_id : option string) (r : ChatMessageResponse V) : result (AgentChatMessage V) AgentError :=
  if is_empty (ms_id r) || is_empty (ms_room_id r) || negb (session_matches expected_session_id (ms_session_id r))
     || negb (one_of ["USER"; "ASSISTANT"] (ms_sender_type r)) || negb (one_of message_types (ms_message_type r))
     || longer 2000 (ms_content r) || is_empty (ms_created_at r)
  then Err (invalid_response_error "chat message failed response validation")
  else Ok (mkAgentChatMessage (ms_id r) (ms_room_id r) (ms_session_id r) (ms_sender_type r) (ms_message_type r) (ms_content r)
             (ms_structured_payload r) (ms_command_id r) (ms_created_at r)).
Definition chat_messages (expected_session_id : option string) : list (ChatMessageResponse V) -> result (list (AgentChatMessage V)) AgentError :=
  try_map (chat_message expected_session_id).
Definition chat_send_result (expected_session_id : string) (r : ChatSendResponse V) : result (AgentChatSendResult V) AgentError :=
  let? message := chat_message (Some expected_session_id) (sd_message r) in
  let? assistant := transposed (chat_message (Some expected_session_id)) (sd_assistant r) in
  if is_empty (sd_ai_status r) || negb (value_is_object (sd_ai r))
  then Err (invalid_response_error "chat AI result failed response validation")
  else Ok (mkAgentChatSendResult message assistant (sd_ai_status r) (sd_ai r) (sd_agent_run_id r) (sd_agent_run_status r)).
Definition chat_quick_cleanup (expected_room_id : string) (r : ChatQuickCleanupResponse V) : result (AgentChatQuickCleanupResult V) AgentError :=
  let? session := chat_session expected_room_id (qc_session r) in
  let? message := chat_message (Some (hs_session_id session)) (qc_message r) in
  let? assistant := transposed (chat_message (Some (hs_session_id session))) (qc_assistant r) in
  if negb (qc_ai_status r =? "READY")%string || negb (value_is_object (qc_ai r))
  then Err (invalid_response_error "chat quick cleanup failed response validation")
  else Ok (mkAgentChatQuickCleanupResult session message assistant (qc_ai_status r) (qc_ai r)).
End value.
End ValidateChat.

(** * Requests *)

Class ChatCodecs (V : Type) := {
  codec_chat_session :: Serde ChatSessionResponse;
  codec_chat_sessions :: Serde (list ChatSessionResponse);
  codec_chat_messages :: Serde (list (ChatMessageResponse V));
  codec_chat_send :: Serde (ChatSendResponse V);
  codec_quick_view :: Serde ChatQuickViewResponse;
  codec_quick_cleanup :: Serde (ChatQuickCleanupResponse V);
}.

Module AgentAsking.
Section agent.
Context {N V : Type} `{!Http N V, !CredentialStore N, !Serde ServerErrorResponse}.
(** A request of the device to the server at a path, and its answer checked. *)
Definition asking {T A} `{!Serde T} (method path : string) (idempotency_key : option string) (body : request_body V)
  (check : T -> result A AgentError) : io (AgentState * N) AgentError A :=
  let! config := Agent.require_authenticated_config in
  let '(base_url, credential) := config in
  Agent.recording (
    let! response := Agent.send_json (mkHttpRequest method (base_url +:+ path) [] (Some (dc_device_token credential)) idempotency_key body) in
    io_lift (check response)).
End agent.
End AgentAsking.
Import AgentAsking.

Module AgentChat.
Section agent.
Context {N V : Type} `{!Http N V, !CredentialStore N, !JsonValue V, !Serde ServerErrorResponse, !ChatCodecs V}.
Abbreviation IO := (io (AgentState * N) AgentError).

Definition list_chat_sessions (room_id : string) : IO (list AgentChatSession) :=
  do! io_lift (Validate.opaque_value "room id" room_id 200);
  asking "GET" ("/v1/rooms/" +:+ room_id +:+ "/chat-sessions") None BNone (ValidateChat.chat_sessions room_id).
Definition chat_quick_view (room_id : string) : IO AgentChatQuickView :=
  do! io_lift (Validate.opaque_value "room id" room_id 200);
  asking "GET" ("/v1/rooms/" +:+ room_id +:+ "/chat/quick-view") None BNone (ValidateChat.chat_quick_view room_id).
Definition create_quick_cleanup_suggestion (room_id : string) : IO (AgentChatQuickCleanupResult V) :=
  do! io_lift (Validate.opaque_value "room id" room_id 200);
  asking "POST" ("/v1/rooms/" +:+ room_id +:+ "/chat/quick-cleanup") None (BFields []) (ValidateChat.chat_quick_cleanup room_id).
Definition create_chat_session (room_id : string) (title : option string) : IO AgentChatSession :=
  do! io_lift (Validate.opaque_value "room id" room_id 200);
  let! body := io_lift (match title with
                        | Some title =>
                            let trimmed := trim title in
                            if is_empty trimmed || ValidateChat.longer 120 trimmed
                            then Err (validation_error "chat session title must contain between 1 and 120 characters")
                            else Ok (BFields [("title", FText trimmed)])
                        | None => Ok (BFields [])
                        end) in
  asking "POST" ("/v1/rooms/" +:+ room_id +:+ "/chat-sessions") None body (ValidateChat.chat_session room_id).
Definition list_chat_messages (session_id : string) : IO (list (AgentChatMessage V)) :=
  do! io_lift (Validate.opaque_value "chat session id" session_id 200);
  asking "GET" ("/v1/chat-sessions/" +:+ session_id +:+ "/messages") None BNone (ValidateChat.chat_messages (Some session_id)).
Definition mark_chat_session_read (session_id : string) (last_read_message_id : option string) : IO AgentChatSession :=
  do! io_lift (Validate.opaque_value "chat session id" session_id 200);
  do! match last_read_message_id with
      | Some message_id => io_lift (Validate.opaque_value "last read message id" message_id 200)
      | None => io_ret tt
      end;
  asking "POST" ("/v1/chat-sessions/" +:+ session_id +:+ "/read") None
    (BFields (match last_read_message_id with Some message_id => [("lastReadMessageId", FText message_id)] | None => [] end))
    ValidateChat.chat_session_any_room.
Definition send_chat_message (session_id content : string) : IO (AgentChatSendResult V) :=
  do! io_lift (Validate.opaque_value "chat session id" session_id 200);
  do! io_lift (ValidateChat.chat_content content);
  asking "POST" ("/v1/chat-sessions/" +:+ session_id +:+ "/messages") None (BFields [("content", FText (trim content))])
    (ValidateChat.chat_send_result session_id).
End agent.
End AgentChat.

(** * [apps/desktop/src-tauri/src/agent.rs]: the drafts of commands and rules that a chat
    makes, the proposals of a room and the decision on one. *)

(** * Data *)

Record AgentRuleDraftSummary := mkAgentRuleDraftSummary { rs_draft_id : string; rs_status : string; rs_rule_id : option string }.
Record AgentRuleDraftRejection := mkAgentRuleDraftRejection { rj_draft : AgentRuleDraftSummary }.
Record AgentOpenProposal := mkAgentOpenProposal { op_proposal_id : string; op_command_id : string; op_room_id : string; op_status : string }.
Record AgentProposalDetails := mkAgentProposalDetails {
  ap_proposal_id : string; ap_command_id : string; ap_room_id : string; ap_status : string; ap_item_ids : list string }.
Record AgentDecision := mkAgentDecision { an_decision_id : string; an_proposal_id : string; an_decision_type : string }.
Record CommandDraftSummaryResponse := mkCommandDraftSummaryResponse { cd_id : string; cd_status : string; cd_command_id : option string }.
Record RuleDraftSummaryResponse := mkRuleDraftSummaryResponse { rr_id : string; rr_status : string; rr_rule_id : option string }.
Record RuleDraftRejectionResponse := mkRuleDraftRejectionResponse { jr_draft : RuleDraftSummaryResponse }.
Record OpenProposalResponse := mkOpenProposalResponse { or_id : string; or_command_id : string; or_room_id : string; or_status : string }.

Section data.
Context (V : Type).
Record AgentCommandDraftConfirmation := mkAgentCommandDraftConfirmation { cc_draft_id : string; cc_command : option (AgentCommand V) }.
Record AgentRuleDraftConfirmation := mkAgentRuleDraftConfirmation { rc_draft : AgentRuleDraftSummary; rc_rule : AgentRule V }.
Record CommandDraftConfirmationResponse := mkCommandDraftConfirmationResponse {
  cr_draft : CommandDraftSummaryResponse; cr_command : option (ServerCommand V) }.
Record RuleDraftConfirmationResponse := mkRuleDraftConfirmationResponse { rx_draft : RuleDraftSummaryResponse; rx_rule : RuleResponse V }.
Record ProposalDetailResponse := mkProposalDetailResponse {
  dr_id : string; dr_command_id : string; dr_room_id : string; dr_status : string; dr_items : list (ProposalItemResponse V) }.
End data.
Arguments mkAgentCommandDraftConfirmation {V} _ _. Arguments cc_draft_id {V} _. Arguments cc_command {V} _.
Arguments mkAgentRuleDraftConfirmation {V} _ _. Arguments rc_draft {V} _. Arguments rc_rule {V} _.
Arguments mkCommandDraftConfirmationResponse {V} _ _. Arguments cr_draft {V} _. Arguments cr_command {V} _.
Arguments mkRuleDraftConfirmationResponse {V} _ _. Arguments rx_draft {V} _. Arguments rx_rule {V} _.
Arguments mkProposalDetailResponse {V} _ _ _ _ _. Arguments dr_id {V} _. Arguments dr_command_id {V} _. Arguments dr_room_id {V} _.
Arguments dr_status {V} _. Arguments dr_items {V} _.

(** * Validation *)

Module ValidateDrafts.
Definition blank (s : string) : bool := is_empty (trim s).
(** [Option::is_some_and] *)
Definition some_blank (o : option string) : bool := match o with Some s => blank s | None => false end.
Definition same_id (o : option string) (id : string) : bool := match o with Some s => (s =? id)%string | None => false end.

Definition rule_draft_summary (r : RuleDraftSummaryResponse) : result AgentRuleDraftSummary AgentError :=
  if blank (rr_id r) || blank (rr_status r) || some_blank (rr_rule_id r)
  then Err (invalid_response_error "rule draft summary failed response validation")
  else Ok (mkAgentRuleDraftSummary (rr_id r) (rr_status r) (rr_rule_id r)).
Definition rule_draft_rejection (r : RuleDraftRejectionResponse) : result AgentRuleDraftRejection AgentError :=
  let? draft := rule_draft_summary (jr_draft r) in Ok (mkAgentRuleDraftRejection draft).
Definition open_proposal (r : OpenProposalResponse) : result AgentOpenProposal AgentError :=
  if blank (or_id r) || blank (or_command_id r) || blank (or_room_id r) || blank (or_status r)
  then Err (invalid_response_error "open proposal failed response validation")
  else Ok (mkAgentOpenProposal (or_id r) (or_command_id r) (or_room_id r) (or_status r)).
Definition open_proposals : list OpenProposalResponse -> result (list AgentOpenProposal) AgentError := try_map open_proposal.
Definition created_decision (expected_proposal_id : string) (r : DecisionResponse) : result AgentDecision AgentError :=
  if blank (dn_id r) || negb (dn_proposal_id r =? expected_proposal_id)%string || negb (dn_decision_type r =? "APPROVE")%string
  then Err (invalid_response_error "created decision failed response validation")
  else Ok (mkAgentDecision (dn_id r) (dn_proposal_id r) (dn_decision_type r)).

Section value.
Context {V : Type} `{!JsonValue V}.
Definition command_draft_confirmation (r : CommandDraftConfirmationResponse V) : result (AgentCommandDraftConfirmation V) AgentError :=
  if blank (cd_id (cr_draft r)) || blank (cd_status (cr_draft r)) || some_blank (cd_command_id (cr_draft r))
  then Err (invalid_response_error "command draft confirmation failed response validation")
  else
    let? command := ValidateChat.transposed Validate.server_command (cr_command r) in
    if match command with Some c => negb (same_id (cd_command_id (cr_draft r)) (ac_command_id c)) | None => false end
    then Err (invalid_response_error "confirmed command did not match command draft summary")
    else Ok (mkAgentCommandDraftConfirmation (cd_id (cr_draft r)) command).
Definition rule_draft_confirmation (r : RuleDraftConfirmationResponse V) : result (AgentRuleDraftConfirmation V) AgentError :=
  let? draft := rule_draft_summary (rx_draft r) in
  let? rule := ValidateRooms.rule (rx_rule r) in
  if negb (same_id (rs_rule_id draft) (al_rule_id rule))
  then Err (invalid_response_error "confirmed rule did not match rule draft summary")
  else Ok (mkAgentRuleDraftConfirmation draft rule).
Definition detail_item (proposal_id : string) (item : ProposalItemResponse V) : result string AgentError :=
  if blank (pi_id item) || negb (pi_proposal_id item =? proposal_id)%string
  then Err (invalid_response_error "proposal item failed response validation") else Ok (pi_id item).
Definition proposal_details (r : ProposalDetailResponse V) : result AgentProposalDetails AgentError :=
  if blank (dr_id r) || blank (dr_command_id r) || blank (dr_room_id r) || blank (dr_status r)
     || match dr_items r with [] => true | _ => false end || (200 <? length (dr_items r))%nat
  then Err (invalid_response_error "proposal detail failed response validation")
  else
    let? item_ids := try_map (detail_item (dr_id r)) (dr_items r) in
    Ok (mkAgentProposalDetails (dr_id r) (dr_command_id r) (dr_room_id r) (dr_status r) item_ids).
End value.
End ValidateDrafts.

(** * Requests *)

Class DraftCodecs (V : Type) := {
  codec_command_confirmation :: Serde (CommandDraftConfirmationResponse V);
  codec_rule_confirmation :: Serde (RuleDraftConfirmationResponse V);
  codec_rule_rejection :: Serde RuleDraftRejectionResponse;
  codec_open_proposals :: Serde (list OpenProposalResponse);
  codec_proposal_detail :: Serde (ProposalDetailResponse V);
  codec_decision :: Serde DecisionResponse;
}.

Import AgentAsking.

Module AgentDrafts.
Section agent.
Context {N V : Type} `{!Http N V, !CredentialStore N, !JsonValue V, !Serde ServerErrorResponse, !DraftCodecs V}.
Abbreviation IO := (io (AgentState * N) AgentError).

Definition confirm_command_draft (draft_id idempotency_key : string) : IO (AgentCommandDraftConfirmation V) :=
  do! io_lift (Validate.opaque_value "command draft id" draft_id 200);
  do! io_lift (Validate.opaque_value "command draft confirmation idempotency key" idempotency_key 128);
  asking "POST" ("/v1/command-drafts/" +:+ draft_id +:+ "/confirm") (Some idempotency_key) (BFields []) ValidateDrafts.command_draft_confirmation.
Definition confirm_rule_draft (draft_id idempotency_key : string) : IO (AgentRuleDraftConfirmation V) :=
  do! io_lift (Validate.opaque_value "rule draft id" draft_id 200);
  do! io_lift (Validate.opaque_value "rule draft confirmation idempotency key" idempotency_key 128);
  asking "POST" ("/v1/rule-drafts/" +:+ draft_id +:+ "/confirm") (Some idempotency_key) (BFields []) ValidateDrafts.rule_draft_confirmation.
Definition reject_rule_draft (draft_id : string) : IO AgentRuleDraftRejection :=
  do! io_lift (Validate.opaque_value "rule draft id" draft_id 200);
  asking "POST" ("/v1/rule-drafts/" +:+ draft_id +:+ "/reject") None (BFields []) ValidateDrafts.rule_draft_rejection.
Definition open_proposals_for_room (room_id : string) : IO (list AgentOpenProposal) :=
  do! io_lift (Validate.opaque_value "room id" room_id 200);
  asking "GET" ("/v1/rooms/" +:+ room_id +:+ "/proposals/open") None BNone ValidateDrafts.open_proposals.
Definition get_proposal (proposal_id : string) : IO AgentProposalDetails :=
  do! io_lift (Validate.opaque_value "proposal id" proposal_id 200);
  asking "GET" ("/v1/proposals/" +:+ proposal_id) None BNone ValidateDrafts.proposal_details.
Definition create_decision (proposal_id : string) (approved_item_ids : list string) (idempotency_key : string) : IO AgentDecision :=
  do! io_lift (Validate.opaque_value "proposal id" proposal_id 200);
  do! io_lift (Validate.opaque_value "decision idempotency key" idempotency_key 128);
  if (match approved_item_ids with [] => true | _ => false end) || (200 <? length approved_item_ids)%nat
  then io_fail (validation_error "approved item ids must contain between 1 and 200 items")
  else
    do! io_lift (let? _ := try_map (fun item_id => Validate.opaque_value "approved item id" item_id 200) approved_item_ids in Ok tt);
    asking "POST" ("/v1/proposals/" +:+ proposal_id +:+ "/decisions") (Some idempotency_key)
      (BFields [("decisionType", FText "APPROVE"); ("approvedItemIds", FTexts approved_item_ids)])
      (ValidateDrafts.created_decision proposal_id).
End agent.
End AgentDrafts.

(** * The type of the chats: whatever the server answers, a call of the chats, of the drafts
    or of the proposals that succeeds asked once and returns a value well typed for what it
    asked. *)

(** * Calls, by the type of what they return *)

Inductive ChatCall (V : Type) : Type -> Type :=
| ListSessions (room_id : string) : ChatCall V (list AgentChatSession)
| QuickView (room_id : string) : ChatCall V AgentChatQuickView
| QuickCleanup (room_id : string) : ChatCall V (AgentChatQuickCleanupResult V)
| NewSession (room_id : string) (title : option string) : ChatCall V AgentChatSession
| ListMessages (session_id : string) : ChatCall V (list (AgentChatMessage V))
| MarkRead (session_id : string) (last_read_message_id : option string) : ChatCall V AgentChatSession
| SendMessage (session_id content : string) : ChatCall V (AgentChatSendResult V)
| ConfirmCommand (draft_id key : string) : ChatCall V (AgentCommandDraftConfirmation V)
| ConfirmRule (draft_id key : string) : ChatCall V (AgentRuleDraftConfirmation V)
| RejectRule (draft_id : string) : ChatCall V AgentRuleDraftRejection
| OpenProposals (room_id : string) : ChatCall V (list AgentOpenProposal)
| GetProposal (proposal_id : string) : ChatCall V AgentProposalDetails
| Approve (proposal_id : string) (item_ids : list string) (key : string) : ChatCall V AgentDecision.
Arguments ListSessions {V} _. Arguments QuickView {V} _. Arguments QuickCleanup {V} _. Arguments NewSession {V} _ _.
Arguments ListMessages {V} _. Arguments MarkRead {V} _ _. Arguments SendMessage {V} _ _. Arguments ConfirmCommand {V} _ _.
Arguments ConfirmRule {V} _ _. Arguments RejectRule {V} _. Arguments OpenProposals {V} _. Arguments GetProposal {V} _.
Arguments Approve {V} _ _ _.

(** * What is well typed *)

Definition filled (s : string) : Prop := trim s <> "".
Definition within (n : Z) (s : string) : Prop := (chars_count s <= n)%Z.
Definition at_most {A} (n : nat) (l : list A) : Prop := (length l <= n)%nat.

Definition session_typed (s : AgentChatSession) : Prop :=
  hs_session_id s <> "" /\ hs_room_id s <> "" /\ filled (hs_title s) /\ within 120 (hs_title s) /\ hs_status s = "ACTIVE" /\
  within 120 (hs_message_preview s).
Definition prompt_typed (p : AgentChatQuickPrompt) : Prop :=
  filled (hp_id p) /\ within 80 (hp_id p) /\ filled (hp_label p) /\ within 80 (hp_label p) /\ filled (hp_prompt p) /\
  within 500 (hp_prompt p) /\ hp_category p ∈ ["QUERY"; "COMMAND"; "RULE"; "CLEANUP"].
Definition history_typed (h : AgentChatQuickHistoryItem) : Prop :=
  filled (hi_message_id h) /\ filled (hi_session_id h) /\ filled (hi_content h) /\ within 2000 (hi_content h) /\
  hi_sender_type h ∈ ["USER"; "ASSISTANT"; "SYSTEM"] /\ hi_message_type h ∈ ValidateChat.message_types.
Definition suggestion_typed (g : AgentChatQuickSuggestion) : Prop :=
  filled (hg_message_id g) /\ filled (hg_draft_id g) /\ filled (hg_content g) /\ within 2000 (hg_content g) /\ within 40 (hg_status g) /\
  hg_message_type g ∈ ["COMMAND_DRAFT"; "RULE_DRAFT"].
Definition view_typed (room_id : string) (v : AgentChatQuickView) : Prop :=
  hv_prompts v <> [] /\ at_most 12 (hv_prompts v) /\ at_most 5 (hv_sessions v) /\ at_most 12 (hv_history v) /\
  at_most 12 (hv_pending_suggestions v) /\ Forall prompt_typed (hv_prompts v) /\
  Forall (fun s => session_typed s /\ hs_room_id s = room_id) (hv_sessions v) /\ Forall history_typed (hv_history v) /\
  Forall suggestion_typed (hv_pending_suggestions v).

Section value.
Context {V : Type} `{!JsonValue V}.
Definition message_typed (session_id : string) (m : AgentChatMessage V) : Prop :=
  hm_message_id m <> "" /\ hm_room_id m <> "" /\ hm_session_id m = Some session_id /\ hm_sender_type m ∈ ["USER"; "ASSISTANT"] /\
  hm_message_type m ∈ ValidateChat.message_types /\ within 2000 (hm_content m).
Definition exchange_typed (session_id : string) (message : AgentChatMessage V) (assistant : option (AgentChatMessage V)) (ai : V) : Prop :=
  message_typed session_id message /\ (forall a, assistant = Some a -> message_typed session_id a) /\ value_is_object ai = true.
Definition rule_typed (r : AgentRule V) : Prop :=
  filled (al_rule_id r) /\ filled (al_room_id r) /\ filled (al_name r) /\ within 120 (al_name r) /\ value_is_object (al_definition r) = true /\
  (0 <= al_priority r)%Z /\ (0 < al_version r)%Z.
Definition command_typed (c : AgentCommand V) : Prop :=
  ac_command_id c <> "" /\ ac_room_id c <> "" /\ value_is_object (ac_payload c) = true.

(** The request of a call: its method, path and key, and the identifiers it names. *)
Definition method_of {A} (c : ChatCall V A) : string :=
  match c with ListSessions _ | QuickView _ | ListMessages _ | OpenProposals _ | GetProposal _ => "GET" | _ => "POST" end.
Definition path_of {A} (c : ChatCall V A) : string :=
  match c with
  | ListSessions room_id | NewSession room_id _ => "/v1/rooms/" +:+ room_id +:+ "/chat-sessions"
  | QuickView room_id => "/v1/rooms/" +:+ room_id +:+ "/chat/quick-view"
  | QuickCleanup room_id => "/v1/rooms/" +:+ room_id +:+ "/chat/quick-cleanup"
  | ListMessages session_id | SendMessage session_id _ => "/v1/chat-sessions/" +:+ session_id +:+ "/messages"
  | MarkRead session_id _ => "/v1/chat-sessions/" +:+ session_id +:+ "/read"
  | ConfirmCommand draft_id _ => "/v1/command-drafts/" +:+ draft_id +:+ "/confirm"
  | ConfirmRule draft_id _ => "/v1/rule-drafts/" +:+ draft_id +:+ "/confirm"
  | RejectRule draft_id => "/v1/rule-drafts/" +:+ draft_id +:+ "/reject"
  | OpenProposals room_id => "/v1/rooms/" +:+ room_id +:+ "/proposals/open"
  | GetProposal proposal_id => "/v1/proposals/" +:+ proposal_id
  | Approve proposal_id _ _ => "/v1/proposals/" +:+ proposal_id +:+ "/decisions"
  end.
Definition key_of {A} (c : ChatCall V A) : option string :=
  match c with ConfirmCommand _ key | ConfirmRule _ key | Approve _ _ key => Some key | _ => None end.
(** What a call sends: the title and the content without the blanks around them. *)
Definition body_of {A} (c : ChatCall V A) : request_body V :=
  match c with
  | ListSessions _ | QuickView _ | ListMessages _ | OpenProposals _ | GetProposal _ => BNone
  | NewSession _ (Some title) => BFields [("title", FText (trim title))]
  | MarkRead _ (Some message_id) => BFields [("lastReadMessageId", FText message_id)]
  | SendMessage _ content => BFields [("content", FText (trim content))]
  | Approve _ item_ids _ => BFields [("decisionType", FText "APPROVE"); ("approvedItemIds", FTexts item_ids)]
  | _ => BFields []
  end.
Definition ids_of {A} (c : ChatCall V A) : list string :=
  match c with
  | ListSessions id | NewSession id _ | QuickView id | QuickCleanup id | ListMessages id | SendMessage id _ | MarkRead id None
  | RejectRule id | OpenProposals id | GetProposal id => [id]
  | MarkRead id (Some message_id) => [id; message_id]
  | ConfirmCommand id key | ConfirmRule id key => [id; key]
  | Approve id item_ids key => id :: key :: item_ids
  end.
(** Letters, digits, dashes and underlines: nothing that a path gives a meaning to. *)
Definition opaque (id : string) : Prop := id <> "" /\ all_chars Validate.opaque_char id = true.

(** A value returned for a call: of the room, the session or the proposal of the call where the
    check of its answer is given it; the other checks - of a session marked read, of drafts and
    of proposals - look at the answer alone. *)
Definition well_typed {A} (c : ChatCall V A) : A -> Prop :=
  match c in ChatCall _ A return A -> Prop with
  | ListSessions room_id => Forall (fun s => session_typed s /\ hs_room_id s = room_id)
  | QuickView room_id => view_typed room_id
  | QuickCleanup room_id => fun r =>
      session_typed (hc_session r) /\ hs_room_id (hc_session r) = room_id /\
      exchange_typed (hs_session_id (hc_session r)) (hc_message r) (hc_assistant r) (hc_ai r)
  | NewSession room_id _ => fun s => session_typed s /\ hs_room_id s = room_id
  | ListMessages session_id => Forall (message_typed session_id)
  | MarkRead _ _ => session_typed
  | SendMessage session_id _ => fun r => exchange_typed session_id (hd_message r) (hd_assistant r) (hd_ai r)
  | ConfirmCommand _ _ => fun r => filled (cc_draft_id r) /\ forall c, cc_command r = Some c -> command_typed c
  | ConfirmRule _ _ => fun r => filled (rs_draft_id (rc_draft r)) /\ rs_rule_id (rc_draft r) = Some (al_rule_id (rc_rule r)) /\ rule_typed (rc_rule r)
  | RejectRule _ => fun r => filled (rs_draft_id (rj_draft r)) /\ filled (rs_status (rj_draft r))
  | OpenProposals _ => Forall (fun p => filled (op_proposal_id p) /\ filled (op_command_id p) /\ filled (op_room_id p) /\ filled (op_status p))
  | GetProposal _ => fun d => filled (ap_proposal_id d) /\ filled (ap_command_id d) /\ filled (ap_room_id d) /\ filled (ap_status d) /\
      ap_item_ids d <> [] /\ at_most 200 (ap_item_ids d) /\ Forall filled (ap_item_ids d)
  | Approve proposal_id _ _ => fun d => filled (an_decision_id d) /\ an_proposal_id d = proposal_id /\ an_decision_type d = "APPROVE"
  end.

Context {N : Type} `{!Http N V, !CredentialStore N, !Serde ServerErrorResponse, !ChatCodecs V, !DraftCodecs V}.
Definition run_call {A} (c : ChatCall V A) : io (AgentState * N) AgentError A :=
  match c in ChatCall _ A return io (AgentState * N) AgentError A with
  | ListSessions room_id => AgentChat.list_chat_sessions (V:=V) room_id
  | QuickView room_id => AgentChat.chat_quick_view (V:=V) room_id
  | QuickCleanup room_id => AgentChat.create_quick_cleanup_suggestion room_id
  | NewSession room_id title => AgentChat.create_chat_session (V:=V) room_id title
  | ListMessages session_id => AgentChat.list_chat_messages session_id
  | MarkRead session_id message_id => AgentChat.mark_chat_session_read (V:=V) session_id message_id
  | SendMessage session_id content => AgentChat.send_chat_message session_id content
  | ConfirmCommand draft_id key => AgentDrafts.confirm_command_draft draft_id key
  | ConfirmRule draft_id key => AgentDrafts.confirm_rule_draft draft_id key
  | RejectRule draft_id => AgentDrafts.reject_rule_draft (V:=V) draft_id
  | OpenProposals room_id => AgentDrafts.open_proposals_for_room (V:=V) room_id
  | GetProposal proposal_id => AgentDrafts.get_proposal (V:=V) proposal_id
  | Approve proposal_id item_ids key => AgentDrafts.create_decision (V:=V) proposal_id item_ids key
  end.
End value.

(** * The checks *)

(** [H], that none of the flaws was found, as what each of them denies. *)
Ltac sound H :=
  rewrite ?orb_false_iff, ?negb_false_iff in H; destruct_and? H.
Ltac checked H := match type of H with (if ?b then _ else _) = Ok _ => let Hb := fresh "Hb" in destruct b eqn:Hb; [done|]; sound Hb end.

Lemma not_blank s : ValidateChat.blank s = false -> filled s.
Proof. unfold ValidateChat.blank, filled. by destruct (trim s). Qed.
Lemma not_longer n s : ValidateChat.longer n s = false -> within n s.
Proof. unfold ValidateChat.longer, within. intros H%Z.ltb_ge. done. Qed.
Lemma nonempty_text s : is_empty s = false -> s <> "".
Proof. by destruct s. Qed.
Lemma one_of_elem l s : one_of l s = true -> s ∈ l.
Proof. unfold one_of. rewrite existsb_exists. intros (x & Hx & ->%String.eqb_eq). by apply list_elem_of_In. Qed.
Create HintDb typed.
#[export] Hint Resolve not_blank not_longer nonempty_text one_of_elem : typed.

Lemma session_checked r s : ValidateChat.chat_session_any_room r = Ok s -> session_typed s /\ hs_room_id s = hr_room_id r.
Proof.
  unfold ValidateChat.chat_session_any_room. intros H. checked H. injection H as <-. unfold session_typed. simpl.
  split_and!; eauto with typed. by apply String.eqb_eq.
Qed.
Lemma session_checked_typed r s : ValidateChat.chat_session_any_room r = Ok s -> session_typed s.
Proof. by intros [H _]%session_checked. Qed.
Lemma room_session_checked room r s : ValidateChat.chat_session room r = Ok s -> session_typed s /\ hs_room_id s = room.
Proof.
  unfold ValidateChat.chat_session. intros H. checked H. apply session_checked in H as [Hs ->]. split; [done|by apply String.eqb_eq].
Qed.
Lemma prompt_checked r p : ValidateChat.chat_quick_prompt r = Ok p -> prompt_typed p.
Proof. unfold ValidateChat.chat_quick_prompt. intros H. checked H. injection H as <-. unfold prompt_typed. simpl. split_and!; eauto with typed. Qed.
Lemma history_checked r h : ValidateChat.chat_quick_history r = Ok h -> history_typed h.
Proof. unfold ValidateChat.chat_quick_history. intros H. checked H. injection H as <-. unfold history_typed. simpl. split_and!; eauto with typed. Qed.
Lemma suggestion_checked r g : ValidateChat.chat_quick_suggestion r = Ok g -> suggestion_typed g.
Proof. unfold ValidateChat.chat_quick_suggestion. intros H. checked H. injection H as <-. unfold suggestion_typed. simpl. split_and!; eauto with typed. Qed.
Lemma at_most_ok {A} n (l : list A) : (n <? length l)%nat = false -> at_most n l.
Proof. intros H%Nat.ltb_ge. exact H. Qed.
Lemma try_map_same {A B E} (f : A -> result B E) l l' : try_map f l = Ok l' -> length l' = length l.
Proof. intros H%try_map_ok. symmetry. by eapply Forall2_length. Qed.
Lemma view_checked room r v : ValidateChat.chat_quick_view room r = Ok v -> view_typed room v.
Proof.
  unfold ValidateChat.chat_quick_view. intros H. checked H.
  destruct (try_map ValidateChat.chat_quick_prompt (qv_prompts r)) as [prompts|] eqn:Hp; [|done].
  destruct (ValidateChat.chat_sessions _ _) as [sessions|] eqn:Hs; [|done].
  destruct (try_map ValidateChat.chat_quick_history _) as [history|] eqn:Hh; [|done].
  destruct (try_map ValidateChat.chat_quick_suggestion _) as [suggestions|] eqn:Hg; [|done]. injection H as <-.
  unfold view_typed. simpl. unfold at_most.
  rewrite (try_map_same _ _ _ Hp), (try_map_same _ _ _ Hs), (try_map_same _ _ _ Hh), (try_map_same _ _ _ Hg).
  split_and!; try by apply at_most_ok.
  - intros ->. apply try_map_same in Hp. by destruct (qv_prompts r).
  - by eapply try_map_forall; [apply prompt_checked|].
  - by eapply try_map_forall; [apply room_session_checked|].
  - by eapply try_map_forall; [apply history_checked|].
  - by eapply try_map_forall; [apply suggestion_checked|].
Qed.

Section checks.
Context {V : Type} `{!JsonValue V}.
Lemma message_checked session (r : ChatMessageResponse V) m : ValidateChat.chat_message (Some session) r = Ok m -> message_typed session m.
Proof.
  unfold ValidateChat.chat_message. intros H. checked H. injection H as <-. unfold message_typed. simpl. split_and!; eauto with typed.
  unfold ValidateChat.session_matches in *. destruct (ms_session_id r) as [s|]; [|done]. f_equal. by apply String.eqb_eq.
Qed.
Lemma assistant_checked session (r : option (ChatMessageResponse V)) a :
  ValidateChat.transposed (ValidateChat.chat_message (Some session)) r = Ok a -> forall m, a = Some m -> message_typed session m.
Proof.
  destruct r as [r|]; simpl; [|by intros [= <-]]. destruct (ValidateChat.chat_message _ r) as [m|] eqn:Hm; [|done].
  intros [= <-] m' [= <-]. by eapply message_checked.
Qed.
Lemma send_checked session (r : ChatSendResponse V) x : ValidateChat.chat_send_result session r = Ok x ->
  exchange_typed session (hd_message x) (hd_assistant x) (hd_ai x).
Proof.
  unfold ValidateChat.chat_send_result. intros H. destruct (ValidateChat.chat_message _ _) as [m|] eqn:Hm; [|done]. simpl in H.
  destruct (ValidateChat.transposed _ _) as [a|] eqn:Ha; [|done]. simpl in H. checked H. injection H as <-.
  split_and!; [by eapply message_checked|by eapply assistant_checked|done].
Qed.
Lemma cleanup_checked room (r : ChatQuickCleanupResponse V) x : ValidateChat.chat_quick_cleanup room r = Ok x ->
  session_typed (hc_session x) /\ hs_room_id (hc_session x) = room /\
  exchange_typed (hs_session_id (hc_session x)) (hc_message x) (hc_assistant x) (hc_ai x).
Proof.
  unfold ValidateChat.chat_quick_cleanup. intros H. destruct (ValidateChat.chat_session _ _) as [s|] eqn:Hs; [|done]. simpl in H.
  destruct (ValidateChat.chat_message _ _) as [m|] eqn:Hm; [|done]. simpl in H.
  destruct (ValidateChat.transposed _ _) as [a|] eqn:Ha; [|done]. simpl in H. checked H. injection H as <-.
  apply room_session_checked in Hs as [Hs Hroom].
  split_and!; [done..|]. split_and!; [by eapply message_checked|by eapply assistant_checked|done].
Qed.
Lemma not_negative z n : (z <? n)%Z = false -> (n <= z)%Z.
Proof. by intros H%Z.ltb_ge. Qed.
Lemma rule_checked (r : RuleResponse V) x : ValidateRooms.rule r = Ok x -> rule_typed x.
Proof.
  unfold ValidateRooms.rule. intros H. checked H. injection H as <-. unfold rule_typed. simpl.
  split_and!; eauto using not_negative with typed. by apply Z.leb_gt.
Qed.
Lemma summary_checked r x : ValidateDrafts.rule_draft_summary r = Ok x -> filled (rs_draft_id x) /\ filled (rs_status x).
Proof. unfold ValidateDrafts.rule_draft_summary. intros H. checked H. injection H as <-. split; by apply not_blank. Qed.
Lemma same_id_eq o id : ValidateDrafts.same_id o id = true -> o = Some id.
Proof. destruct o as [s|]; [|done]. by intros ->%String.eqb_eq. Qed.
Lemma command_checked (r : ServerCommand V) c : Validate.server_command r = Ok c -> command_typed c.
Proof. unfold Validate.server_command. intros H. checked H. injection H as <-. unfold command_typed. simpl. split_and!; eauto with typed. Qed.
Lemma confirmation_checked (r : CommandDraftConfirmationResponse V) x : ValidateDrafts.command_draft_confirmation r = Ok x ->
  filled (cc_draft_id x) /\ forall c, cc_command x = Some c -> command_typed c.
Proof.
  unfold ValidateDrafts.command_draft_confirmation. intros H. checked H.
  destruct (ValidateChat.transposed _ _) as [command|] eqn:Hc; [|done]. simpl in H.
  assert (x = mkAgentCommandDraftConfirmation (cd_id (cr_draft r)) command) as ->.
  { destruct command as [c|]; [destruct (negb _); [done|]|]; by injection H as <-. }
  split; [by apply not_blank|]. simpl. intros c ->. unfold ValidateChat.transposed in Hc. destruct (cr_command r) as [s|]; [|done].
  destruct (Validate.server_command s) as [c'|] eqn:Hs; [|done]. injection Hc as ->. by eapply command_checked.
Qed.
Lemma rule_confirmation_checked (r : RuleDraftConfirmationResponse V) x : ValidateDrafts.rule_draft_confirmation r = Ok x ->
  filled (rs_draft_id (rc_draft x)) /\ rs_rule_id (rc_draft x) = Some (al_rule_id (rc_rule x)) /\ rule_typed (rc_rule x).
Proof.
  unfold ValidateDrafts.rule_draft_confirmation. intros H. destruct (ValidateDrafts.rule_draft_summary _) as [s|] eqn:Hs; [|done]. simpl in H.
  destruct (ValidateRooms.rule _) as [rule|] eqn:Hr; [|done]. simpl in H. checked H. injection H as <-.
  apply summary_checked in Hs as [Hs _]. split_and!; [done|by apply same_id_eq|by eapply rule_checked].
Qed.
Lemma open_checked r p : ValidateDrafts.open_proposal r = Ok p ->
  filled (op_proposal_id p) /\ filled (op_command_id p) /\ filled (op_room_id p) /\ filled (op_status p).
Proof. unfold ValidateDrafts.open_proposal. intros H. checked H. injection H as <-. split_and!; by apply not_blank. Qed.
Lemma item_checked id (i : ProposalItemResponse V) s : ValidateDrafts.detail_item id i = Ok s -> filled s.
Proof. unfold ValidateDrafts.detail_item. intros H. checked H. injection H as <-. by apply not_blank. Qed.
Lemma details_checked (r : ProposalDetailResponse V) d : ValidateDrafts.proposal_details r = Ok d ->
  filled (ap_proposal_id d) /\ filled (ap_command_id d) /\ filled (ap_room_id d) /\ filled (ap_status d) /\
  ap_item_ids d <> [] /\ at_most 200 (ap_item_ids d) /\ Forall filled (ap_item_ids d).
Proof.
  unfold ValidateDrafts.proposal_details. intros H. checked H. destruct (try_map _ _) as [ids|] eqn:Hi; [|done]. injection H as <-. simpl.
  unfold at_most. rewrite (try_map_same _ _ _ Hi). split_and!; try by apply not_blank.
  - intros ->. apply try_map_same in Hi. by destruct (dr_items r).
  - by apply at_most_ok.
  - by eapply try_map_forall; [apply item_checked|].
Qed.
Lemma decision_checked id r d : ValidateDrafts.created_decision id r = Ok d ->
  filled (an_decision_id d) /\ an_proposal_id d = id /\ an_decision_type d = "APPROVE".
Proof.
  unfold ValidateDrafts.created_decision. intros H. checked H. injection H as <-. split_and!; [by apply not_blank|by apply String.eqb_eq..].
Qed.
Lemma sessions_checked room l ss :
  ValidateChat.chat_sessions room l = Ok ss -> Forall (fun s => session_typed s /\ hs_room_id s = room) ss.
Proof. apply try_map_forall, room_session_checked. Qed.
Lemma messages_checked session (l : list (ChatMessageResponse V)) ms :
  ValidateChat.chat_messages (Some session) l = Ok ms -> Forall (message_typed session) ms.
Proof. apply try_map_forall, message_checked. Qed.
Lemma proposals_checked l ps : ValidateDrafts.open_proposals l = Ok ps ->
  Forall (fun p => filled (op_proposal_id p) /\ filled (op_command_id p) /\ filled (op_room_id p) /\ filled (op_status p)) ps.
Proof. apply try_map_forall, open_checked. Qed.
Lemma rejection_checked r x : ValidateDrafts.rule_draft_rejection r = Ok x -> filled (rs_draft_id (rj_draft x)) /\ filled (rs_status (rj_draft x)).
Proof.
  unfold ValidateDrafts.rule_draft_rejection. destruct (ValidateDrafts.rule_draft_summary _) as [s|] eqn:Hs; [|done]. intros [= <-].
  by eapply summary_checked.
Qed.
End checks.

(** * The calls *)

Section calls.
Context {N V : Type} `{!Http N V, !CredentialStore N, !JsonValue V, !Serde ServerErrorResponse, !ChatCodecs V, !DraftCodecs V}.
Abbreviation agent := (AgentState * taped N V)%type.
Implicit Types st : agent.

Definition asked (method path : string) (key : option string) (body : request_body V) st st' : Prop :=
  exists base c, ag_server_base_url st.1 = Some base /\ ag_credential st.1 = Some c /\
    tp_requests st'.2 = tp_requests st.2 ++ [mkHttpRequest method (base +:+ path) [] (Some (dc_device_token c)) key body].
Lemma asking_ok {T A} `{!Serde T} method path key body (check : T -> result A AgentError) st a st' :
  AgentAsking.asking method path key body check st = (Ok a, st') ->
  asked method path key body st st' /\ exists r, check r = Ok a.
Proof.
  intros H. unfold AgentAsking.asking in H. apply authenticated_ok in H as (base & c & Hb & Hc & H).
  apply recording_ok in H as (st1 & H & Hst). apply io_bind_ok in H as (r & st2 & H1 & H2). unfold io_lift in H2. injection H2 as Hr <-.
  split; [|by exists r]. exists base, c. split_and!; [done..|]. rewrite Hst. unfold Agent.send_json in H1.
  apply io_bind_ok in H1 as (resp & st3 & H1 & H3). apply send_tape in H1. unfold io_lift in H3. injection H3 as _ <-. exact H1.
Qed.
Lemma opaque_value_ok name id n u : Validate.opaque_value name id n = Ok u -> opaque id.
Proof. unfold Validate.opaque_value. intros H. checked H. split; [by apply nonempty_text|done]. Qed.
Lemma opaque_ok {B} name id n (k : unit -> io agent AgentError B) st b st' :
  io_bind (io_lift (Validate.opaque_value name id n)) k st = (Ok b, st') -> opaque id /\ k tt st = (Ok b, st').
Proof.
  intros ([] & st1 & H1 & H2)%io_bind_ok. unfold io_lift in H1. injection H1 as H1 <-. split; [by eapply opaque_value_ok|done].
Qed.
Lemma lifted {A B} (r : result A AgentError) (k : A -> io agent AgentError B) st b st' :
  io_bind (io_lift r) k st = (Ok b, st') -> exists a, r = Ok a /\ k a st = (Ok b, st').
Proof. intros (a & st1 & [= -> <-] & H)%io_bind_ok. eauto. Qed.

(** What a call that succeeded did. *)
Definition call_done {A} (c : ChatCall V A) (v : A) st st' : Prop :=
  well_typed c v /\ Forall opaque (ids_of c) /\ asked (method_of c) (path_of c) (key_of c) (body_of c) st st'.
Ltac answered H check :=
  let r := fresh "r" in let Hr := fresh "Hr" in let Ha := fresh "Ha" in
  apply asking_ok in H as [Ha [r Hr]]; split; [eapply check; exact Hr|split; [repeat (apply Forall_cons; split; [done|]); by apply Forall_nil|exact Ha]].
Lemma approve_done id items key st d st' :
  run_call (Approve id items key) st = (Ok d, st') -> call_done (Approve id items key) d st st'.
Proof.
  simpl. unfold AgentDrafts.create_decision. intros H. apply opaque_ok in H as [Hid H]. apply opaque_ok in H as [Hkey H].
  destruct (_ || _); [done|]. apply lifted in H as (u & Hu & H). apply asking_ok in H as [Ha [r Hr]].
  split; [by eapply decision_checked|split; [|exact Ha]]. constructor; [done|]. constructor; [done|].
  clear Ha Hr. destruct (try_map _ items) as [us|] eqn:Hus; [|done]. apply try_map_ok in Hus.
  induction Hus as [|id' u' l us Hi _ IH]; constructor; [by eapply opaque_value_ok|done].
Qed.
Lemma mark_read_done id last st s st' : run_call (MarkRead id last) st = (Ok s, st') -> call_done (MarkRead id last) s st st'.
Proof.
  simpl. unfold AgentChat.mark_chat_session_read. intros H. apply opaque_ok in H as [Hid H]. destruct last as [m|].
  - apply opaque_ok in H as [Hm H]. answered H session_checked_typed.
  - apply io_bind_ok in H as (u & st1 & [= <- <-] & H). answered H session_checked_typed.
Qed.

(** C31: Whatever the server answers, a call of the chats, of the drafts or of the proposals
    that succeeds made exactly one request, with the credential of the device, at the path
    of what it names and with the body that says the rest; the identifiers put in that path
    are letters, digits, dashes and underlines; and the value it returns is well typed: its
    enumerated kinds, lengths and counts are within their limits, and a confirmed rule is
    the one its draft names.  It is of the room or the
    session asked for where sessions or messages are listed, made or sent, in the quick view
    and the quick cleanup, and of the proposal decided on in a decision; the session that
    was marked read, the drafts and the proposals are not compared with what was asked. *)
Theorem chats_well_typed {A} (c : ChatCall V A) st v st' : run_call c st = (Ok v, st') -> call_done c v st st'.
Proof.
  destruct c as [id|id|id|id title|id|id last|id content|id key|id key|id|id|id|id items key]; intros H;
    [..|by apply approve_done]; try (by apply mark_read_done); simpl in H; apply opaque_ok in H as [Hid H].
  - answered H sessions_checked.
  - answered H view_checked.
  - answered H cleanup_checked.
  - apply lifted in H as (body & Hbody & H).
    assert (body = body_of (V:=V) (NewSession id title)) as ->.
    { destruct title as [t|]; [|by injection Hbody as <-]. simpl in Hbody. destruct (_ || _); [done|by injection Hbody as <-]. }
    answered H room_session_checked.
  - answered H (messages_checked (V:=V)).
  - apply lifted in H as ([] & _ & H). answered H send_checked.
  - apply opaque_ok in H as [Hkey H]. answered H confirmation_checked.
  - apply opaque_ok in H as [Hkey H]. answered H rule_confirmation_checked.
  - answered H rejection_checked.
  - answered H proposals_checked.
  - answered H (details_checked (V:=V)).
Qed.
End calls.
