(* ===== verification/room_sync.v ===== *)
(** The commands around rooms, and those around approvals in a chat. *)
From Stdlib Require Import ZArith Lia Ascii.
From stdpp Require Import strings pretty gmap functions option list.
From S2P Require Import prelude rust_str rule_definition std_path std_fs fs_facts path_guard db journal_store precondition rule_engine history index_sql tables.
From S2P Require Import desk file_index managed_roots cleanliness agent agent_work agent_chat agent_sync office watcher trash execute outbox outbox_processor.
From S2P Require Import command_processor execution_processor work_limiter.

Open Scope string_scope.
Open Scope list_scope.


(** * [apps/desktop/src-tauri/src/commands/agent.rs]: the rooms of the folders, bound,
    disconnected and revoked; the replay of the events of the server; and the rules that
    the server sends. *)

(** * Data *)

Record AutomaticRoomSyncFailure := mkAutomaticRoomSyncFailure { af_root_id : string; af_message : string }.
Record AutomaticRoomSyncReport := mkAutomaticRoomSyncReport {
  ax_inspected_count : Z;             (** [usize] *)
  ax_synced_rooms : list AgentRoomSync;
  ax_failures : list AutomaticRoomSyncFailure;
}.
Record CleanlinessSnapshotSyncReport (V : Type) := mkCleanlinessSnapshotSyncReport {
  cy_root_id : string; cy_room_id : string; cy_room_created : bool; cy_snapshot : CleanlinessSnapshot;
  cy_server_snapshot : AgentRoomSnapshot V }.
Arguments mkCleanlinessSnapshotSyncReport {V} _ _ _ _ _.
Record RoomDisconnectPreflight := mkRoomDisconnectPreflight {
  rp_root_id : string;
  rp_room_id : string;
  rp_blocking_reasons : list string;
  rp_undoable_operation_count : Z;    (** [usize] *)
  rp_requires_confirmation : bool;
}.
Record RoomDisconnectReport := mkRoomDisconnectReport {
  rd_root_id : string; rd_room_id : string; rd_watcher_stopped : bool; rd_index_cleared : bool; rd_undoable_operation_count : Z }.
Record LocalRoomDetachReport := mkLocalRoomDetachReport {
  ld_root_id : string; ld_room_id : string; ld_watcher_stopped : bool; ld_index_cleared : bool }.
Record AgentChatMessageSyncUpdate := mkAgentChatMessageSyncUpdate { mu_room_id : string; mu_session_id : string; mu_message_id : string }.
Record SyncReplay (V : Type) := mkSyncReplay { sp_previous_cursor : Z; sp_next_cursor : Z; sp_events : list (SyncEvent V) }.
Arguments mkSyncReplay {V} _ _ _. Arguments sp_previous_cursor {V} _. Arguments sp_next_cursor {V} _. Arguments sp_events {V} _.

(** What the commands run on: the agent, the registry and the machine; the folders being
    watched; the cursors of the replay; and when the last snapshot was taken. *)
Record Desktop (N DB : Type) := mkDesktop {
  ds_office : office N DB;
  ds_watchers : WatcherStore;
  ds_cursors : AgentSyncStore;
  ds_snapshot_ms : Z;
}.
Arguments mkDesktop {N DB} _ _ _ _. Arguments ds_office {N DB} _. Arguments ds_watchers {N DB} _. Arguments ds_cursors {N DB} _.
Arguments ds_snapshot_ms {N DB} _.

(** * Commands *)

Module RoomSync.
Definition STATE_NAME : string := ".mousekeeper".
Definition automatic_room_sync_candidates : list ManagedRoot -> list ManagedRoot :=
  List.filter (fun root => mr_enabled root && bool_decide (mr_room_binding_status root = Unbound)).
(** [Option::as_deref] of the room, or the aggregate when it is a room. *)
Definition removed_room_id {V} (event : SyncEvent V) : option string :=
  match sv_room_id event with
  | Some room_id => Some room_id
  | None => if (sv_aggregate_type event =? "room")%string then Some (sv_aggregate_id event) else None
  end.
Definition revokes {V} (device_id : string) (event : SyncEvent V) : bool :=
  (sv_event_type event =? "device.revoked")%string
  && (opt_is (sv_device_id event) device_id
      || (sv_aggregate_type event =? "device")%string && (sv_aggregate_id event =? device_id)%string).
Definition chat_message_sync_update {V} `{!Json V} (event : SyncEvent V) : option AgentChatMessageSyncUpdate :=
  if negb (sv_event_type event =? "chat.message.created")%string then None
  else
    match sv_room_id event, json_get "sessionId" (sv_payload event) ≫= json_as_str with
    | Some room_id, Some session_id =>
        let room_id := trim room_id in
        let session_id := trim session_id in
        let message_id := trim (default (sv_aggregate_id event) (json_get "messageId" (sv_payload event) ≫= json_as_str)) in
        if is_empty room_id || is_empty session_id || is_empty message_id then None
        else Some (mkAgentChatMessageSyncUpdate room_id session_id message_id)
    | _, _ => None
    end.
Definition merged_rules (set : RuleSet) (rule_id : string) (incoming : list Rule) : RuleSet :=
  mkRuleSet (version set)
    (List.filter (fun r => negb (r_id r =? rule_id)%string && negb (starts_with (r_id r) (rule_id +:+ "-any-"))) (rules set) ++ incoming).
(** What keeps a folder from being disconnected. *)
Definition blocking_reasons (history : OperationHistoryReport) : list string :=
  let incomplete := List.filter (fun o => bool_decide (h_latest_status o = Planned) || bool_decide (h_latest_status o = UndoPlanned))
                      (hr_operations history) in
  match hr_corruption history with
  | Some _ => ["operation journal is corrupted; recover or preserve it before disconnecting"]
  | None => []
  end
  ++ match incomplete with
     | [] => []
     | _ => [fmt_int (Z.of_nat (length incomplete)) +:+ " journal operation(s) are incomplete; finish recovery before disconnecting"]
     end.
Definition undoable_count (history : OperationHistoryReport) : Z := Z.of_nat (length (List.filter h_can_undo (hr_operations history))).

Section commands.
Context {N V DB : Type} `{!SqlDb DB, !SqlTx DB, !Http N V, !CredentialStore N, !JsonValue V, !Json V, !Serde ServerErrorResponse}.
Context `{!WorkCodecs V, !RoomCodecs V}.
(** [unicode] lowers a text, [parse] reads the rules of a folder and [print] writes them,
    [contract] reads the definition of a rule. *)
Context (unicode : string -> string) (parse : string -> result RuleSet string) (print : RuleSet -> result string string).
Context (contract : V -> result Contract.ContractRuleDefinition string).
Abbreviation IO := (io (Desktop N DB) string).

Definition on_office {A} (m : io (office N DB) string A) : IO A :=
  zoom ds_office (fun o d => mkDesktop o (ds_watchers d) (ds_cursors d) (ds_snapshot_ms d)) m.
Definition on_agent {A} (m : io (AgentState * N) AgentError A) : IO A := on_office (office.on_agent m).
Definition on_roots {A} (m : io (RootStore * world DB) string A) : IO A := on_office (office.on_roots m).
Definition on_machine {A} (m : io (world DB) string A) : IO A := on_office (office.on_machine m).
Definition on_watchers {A} (f : WatcherStore -> A * WatcherStore) : IO A :=
  fun d => let '(a, s) := f (ds_watchers d) in (Ok a, mkDesktop (ds_office d) s (ds_cursors d) (ds_snapshot_ms d)).
Definition on_cursors {A} (m : io (AgentSyncStore * world DB) string A) : IO A :=
  zoom (fun d => (ds_cursors d, machine_of (ds_office d)))
       (fun v d => mkDesktop ((ds_office d).1, ((ds_office d).2.1, v.2)) (ds_watchers d) v.1 (ds_snapshot_ms d)) m.
Definition on_clock {A} (m : io (Z * world DB) string A) : IO A :=
  zoom (fun d => (ds_snapshot_ms d, machine_of (ds_office d)))
       (fun v d => mkDesktop ((ds_office d).1, ((ds_office d).2.1, v.2)) (ds_watchers d) (ds_cursors d) v.1) m.
Definition status : IO AgentConnectionStatus := io_gets (fun d => Agent.connection_status (ds_office d).1.1).

(** ** Binding *)

Definition preflight_agent_room_binding (root_id : string) : io (office N DB) string unit :=
  let! root := office.on_roots (ManagedRoots.get root_id) in
  if negb (mr_enabled root) then io_fail ("managed root is disabled: " +:+ root_id)
  else
    let! _ := office.on_machine (io_map_err FileIndex.fmt (FileIndex.reindex_root unicode (mr_root root))) in
    io_ret tt.
Definition activate_agent_room_binding (room : AgentRoomSync) : io (office N DB) string unit :=
  let! _ := office.on_roots (ManagedRoots.bind_room (ry_root_id room) (ry_room_id room)) in
  io_ret tt.
(** [ensure_agent_room], before it watches the folder *)
Definition ensure_agent_room (root_id display_name : string) : io (office N DB) string AgentRoomSync :=
  do! preflight_agent_room_binding root_id;
  let! room := office.on_agent (AgentRooms.ensure_room_for_root (V:=V) root_id display_name) in
  do! activate_agent_room_binding room;
  io_ret room.
Definition sync_one (report : AutomaticRoomSyncReport) (root : ManagedRoot) : io (office N DB) string AutomaticRoomSyncReport :=
  let! synced := io_try (ensure_agent_room (mr_root_id root) (mr_display_name root)) in
  io_ret (match synced with
          | Ok room => mkAutomaticRoomSyncReport (ax_inspected_count report) (ax_synced_rooms report ++ [room]) (ax_failures report)
          | Err message => mkAutomaticRoomSyncReport (ax_inspected_count report) (ax_synced_rooms report)
                             (ax_failures report ++ [mkAutomaticRoomSyncFailure (mr_root_id root) message])
          end).
Definition sync_unbound_agent_rooms : io (office N DB) string AutomaticRoomSyncReport :=
  let! roots := office.on_roots ManagedRoots.list_ in
  let candidates := automatic_room_sync_candidates roots in
  io_for (fun _ report root => sync_one report root) 0 (mkAutomaticRoomSyncReport (Z.of_nat (length candidates)) [] []) candidates.

(** ** Detaching *)

Definition clear_index_of (root : ManagedRoot) : io (world DB) string unit :=
  io_map_err FileIndex.fmt (FileIndex.clear_index (mr_root root)).
Definition apply_local_room_detached (room_id : string) : IO (option LocalRoomDetachReport) :=
  let! found := on_roots (ManagedRoots.find_by_room room_id) in
  match found with
  | None => io_ret None
  | Some root =>
      do! if negb (bool_decide (mr_room_binding_status root = Detached))
          then let! _ := on_roots (ManagedRoots.detach_room room_id) in io_ret tt
          else io_ret tt;
      let! watcher_stopped := on_watchers (Watchers.stop (mr_root_id root)) in
      let! index_cleared := io_try (on_machine (clear_index_of root)) in
      io_ret (Some (mkLocalRoomDetachReport (mr_root_id root) room_id watcher_stopped (is_ok index_cleared)))
  end.
Definition has_room (root : ManagedRoot) : bool :=
  is_ok (match mr_room_id root with Some _ => Ok tt | None => Err tt end) || bool_decide (mr_room_binding_status root = Detached).
Definition forget_folder (root : ManagedRoot) : IO unit :=
  let! _ := on_watchers (Watchers.stop (mr_root_id root)) in
  let! _ := io_try (on_machine (clear_index_of root)) in
  io_ret tt.
Definition apply_local_device_revoked : IO AgentConnectionStatus :=
  let! before := status in
  let! roots := on_roots ManagedRoots.list_ in
  let! _ := io_try (on_roots ManagedRoots.detach_all_rooms) in
  do! io_for (fun _ _ root => forget_folder root) 0 tt (List.filter has_room roots);
  do! match st_device_id before with
      | Some device_id => let! _ := io_try (on_cursors (AgentSync.clear_device device_id)) in io_ret tt
      | None => io_ret tt
      end;
  on_agent Agent.forget_device.
(** [revoke_agent_device], but the pause of the background work *)
Definition revoke_agent_device (pause : IO unit) (idempotency_key : string) : IO AgentConnectionStatus :=
  do! on_agent (Agent.revoke_self (V:=V) idempotency_key);
  let! _ := io_try pause in
  apply_local_device_revoked.

(** ** Disconnecting a folder *)

Definition preflight_agent_room_disconnect_impl (root_id : string) : io (office N DB) string RoomDisconnectPreflight :=
  let! root := office.on_roots (ManagedRoots.get root_id) in
  let! room_id := io_lift (match match mr_room_id root with Some r => Some r | None => mr_detached_room_id root end with
                           | Some room_id => Ok room_id
                           | None => Err "ROOM_NOT_BOUND: managed root is not connected to a mobile room"
                           end) in
  if bool_decide (mr_room_binding_status root = Detached)
  then io_ret (mkRoomDisconnectPreflight root_id room_id [] 0 false)
  else
    let! history := office.on_machine (io_map_err (JournalError.fmt Precheck.fmt) (History.read_operation_history (mr_root root))) in
    let undoable := undoable_count history in
    io_ret (mkRoomDisconnectPreflight root_id room_id (blocking_reasons history) undoable (0 <? undoable)%Z).
Definition disconnected (missing : string) (undoable : Z) (room_id : string) : IO RoomDisconnectReport :=
  let! detached := apply_local_room_detached room_id in
  io_lift (match detached with
           | Some r => Ok (mkRoomDisconnectReport (ld_root_id r) (ld_room_id r) (ld_watcher_stopped r) (ld_index_cleared r) undoable)
           | None => Err missing
           end).
Definition disconnect_agent_room_impl (root_id idempotency_key : string) (acknowledge_undoable : bool) : IO RoomDisconnectReport :=
  let! preflight := on_office (preflight_agent_room_disconnect_impl root_id) in
  let! root := on_roots (ManagedRoots.get (rp_root_id preflight)) in
  if bool_decide (mr_room_binding_status root = Detached)
  then disconnected "detached room tombstone disappeared during cleanup" 0 (rp_room_id preflight)
  else
    match rp_blocking_reasons preflight with
    | _ :: _ => io_fail ("ROOM_DISCONNECT_BLOCKED: " +:+ join "; " (rp_blocking_reasons preflight))
    | [] =>
        if rp_requires_confirmation preflight && negb acknowledge_undoable
        then io_fail ("ROOM_DISCONNECT_REQUIRES_CONFIRMATION: " +:+ fmt_int (rp_undoable_operation_count preflight)
                      +:+ " undoable operation(s) will remain available locally")
        else
          do! on_agent (AgentRooms.disconnect_room (V:=V) (rp_room_id preflight) idempotency_key);
          disconnected "room binding disappeared during disconnect" (rp_undoable_operation_count preflight) (rp_room_id preflight)
    end.

(** ** The rules of the server *)

Definition apply_server_rule_to_local_root (rule : AgentRule V) : io (office N DB) string unit :=
  let! found := office.on_roots (ManagedRoots.find_by_room (al_room_id rule)) in
  match found with
  | None => io_fail ("managed root is not bound to room: " +:+ al_room_id rule)
  | Some managed_root =>
      let state_dir := path_join (mr_root managed_root) STATE_NAME in
      let rules_path := path_join state_dir RULES_FILE in
      office.on_machine (
        let! f := get_fs in
        let! rule_set :=
          if path_exists f rules_path
          then io_lift (map_err (fun e => "cannot load existing local rules: " +:+ RuleError.fmt e)
                          (load_rule_set_for_root parse f (mr_root managed_root)))
          else io_ret default_rule_set in
        let! incoming :=
          if al_enabled rule
          then io_lift (map_err (fun e => "invalid server rule definition: " +:+ RuleError.fmt e)
                          (result_map rules (ContractRule.from_contract_definition contract (al_rule_id rule) (al_priority rule) (al_definition rule))))
          else io_ret [] in
        let rule_set := merged_rules rule_set (al_rule_id rule) incoming in
        do! io_lift (map_err (fun e => "invalid merged local rules: " +:+ RuleError.fmt e) (RuleSet.validate rule_set));
        do! io_map_err (fun e => "cannot create rules directory " +:+ state_dir +:+ ": " +:+ io_error_str e) (create_dir_all state_dir);
        let! encoded := io_lift (map_err (fun e => "cannot serialize local rules: " +:+ e) (print rule_set)) in
        io_map_err (fun e => "cannot write local rules " +:+ rules_path +:+ ": " +:+ io_error_str e) (fs_write rules_path encoded))
  end.
Definition apply_rule_created_event (event : SyncEvent V) : io (office N DB) string bool :=
  if negb (sv_event_type event =? "rule.created")%string then io_ret false
  else
    match sv_room_id event with
    | None => io_ret false
    | Some room_id =>
        let rule_id := default (sv_aggregate_id event) (json_get "ruleId" (sv_payload event) ≫= json_as_str) in
        let! rules := office.on_agent (AgentRooms.list_rules room_id) in
        match find (fun candidate => al_rule_id candidate =? rule_id)%string rules with
        | None => io_ret false
        | Some rule => do! apply_server_rule_to_local_root rule; io_ret true
        end
    end.

(** ** The replay *)

(** One event; whether it revokes the device, which ends the replay. *)
Definition apply_event (device_id : string) (event : SyncEvent V) : IO bool :=
  do! if (sv_event_type event =? "room.removed")%string
      then match removed_room_id event with
           | Some room_id => let! _ := apply_local_room_detached room_id in io_ret tt
           | None => io_ret tt
           end
      else io_ret tt;
  do! if (sv_event_type event =? "rule.created")%string
      then let! _ := on_office (apply_rule_created_event event) in io_ret tt
      else io_ret tt;
  if revokes device_id event then let! _ := apply_local_device_revoked in io_ret true else io_ret false.
Fixpoint apply_events (device_id : string) (events : list (SyncEvent V)) : IO bool :=
  match events with
  | [] => io_ret false
  | event :: events =>
      let! device_revoked := apply_event device_id event in
      if device_revoked : bool then io_ret true else apply_events device_id events
  end.
Definition replay_agent_events_impl : IO (SyncReplay V) :=
  let! st := status in
  let! device_id := io_lift (match st_device_id st with
                             | Some device_id => Ok device_id
                             | None => Err "UNCONFIGURED: desktop device pairing is required"
                             end) in
  let! previous_cursor := io_gets (fun d => AgentSync.cursor device_id (ds_cursors d)) in
  let! events := on_agent (AgentRooms.replay_events (V:=V) previous_cursor 100) in
  let! device_revoked := apply_events device_id events in
  let next_cursor := default previous_cursor (sv_sequence <$> last events) in
  do! if negb device_revoked && (previous_cursor <? next_cursor)%Z
      then let! _ := on_cursors (AgentSync.advance device_id next_cursor) in io_ret tt
      else io_ret tt;
  io_ret (mkSyncReplay previous_cursor next_cursor events).

(** ** The cleanliness of a folder *)

Definition submit_cleanliness_snapshot_impl `{!Serde (RoomSnapshotResponse V)} (root_id : string) : IO (CleanlinessSnapshotSyncReport V) :=
  let! managed_root := on_roots (ManagedRoots.get root_id) in
  if negb (mr_enabled managed_root) then io_fail ("managed root is disabled: " +:+ root_id)
  else if bool_decide (mr_room_binding_status managed_root = Detached)
  then io_fail "ROOM_DETACHED: reconnect this managed root explicitly before syncing cleanliness"
  else
    let! snapshot := on_clock (Cleanliness.calculate_cleanliness_snapshot parse (mr_root managed_root)) in
    let! room := on_agent (AgentRooms.ensure_room_for_root (V:=V) (mr_root_id managed_root) (mr_display_name managed_root)) in
    let! _ := on_roots (ManagedRoots.bind_room (mr_root_id managed_root) (ry_room_id room)) in
    let! server_snapshot := on_agent (Agent.submit_room_snapshot (ry_room_id room) snapshot) in
    io_ret (mkCleanlinessSnapshotSyncReport (mr_root_id managed_root) (ry_room_id room) (ry_created room) snapshot server_snapshot).
End commands.
End RoomSync.

(** * [apps/desktop/src-tauri/src/commands/agent.rs]: what the user approves in a chat: a
    command of a draft, confirmed, computed, decided and executed at once; an open
    proposal; and a rule of a draft. *)

Record ChatProposalExecutionReport := mkChatProposalExecutionReport {
  ce_proposal : AgentProposalDetails;
  ce_decision : AgentDecision;
  ce_execution_report : DecisionProcessingReport;
  ce_execution_outbox_report : OutboxFlushReport;
}.
Record ChatCommandDraftExecutionReport (V : Type) := mkChatCommandDraftExecutionReport {
  cf_draft : AgentCommandDraftConfirmation V;
  cf_command_report : CommandProcessingReport;
  cf_proposal : AgentProposalDetails;
  cf_decision : AgentDecision;
  cf_execution_report : DecisionProcessingReport;
  cf_proposal_outbox_report : OutboxFlushReport;
  cf_execution_outbox_report : OutboxFlushReport;
}.
Arguments mkChatCommandDraftExecutionReport {V} _ _ _ _ _ _ _.

(** [m] while a permit of the kind is held, which is dropped however [m] ends. *)
Definition with_permit {S A} (k : WorkKind) (m : io S string A) : io (WorkLimiter * S) string A :=
  fun st =>
    match Limiter.try_begin k st.1 with
    | (Err busy, l) => (Err busy, (l, st.2))
    | (Ok permit, l) => let '(r, s) := m st.2 in (r, (Limiter.drop_permit permit l, s))
    end.

Module ChatApproval.
Definition scoped_chat_approval_key (scope idempotency_key : string) : result string string :=
  if is_empty idempotency_key || (100 <? slen idempotency_key)%Z || negb (all_chars Validate.opaque_char idempotency_key)
  then Err "approval idempotency key has an invalid format"
  else Ok (scope +:+ "-" +:+ idempotency_key).
Definition is_status (s : CommandProcessingStatus) (r : CommandProcessingResult) : bool :=
  match s, cx_status r with
  | SubmittedProposal, SubmittedProposal | NoProposal, NoProposal | CommandFailed, CommandFailed | CommandSkipped, CommandSkipped => true
  | _, _ => false
  end.
Definition ensure_chat_command_submitted (report : CommandProcessingReport) (command_id : string) : result bool string :=
  match find (fun r => cx_command_id r =? command_id)%string (cy_results report) with
  | None => Err "COMMAND_PROCESSING_MISSING: confirmed command was not processed"
  | Some result =>
      if is_status SubmittedProposal result then Ok true
      else if is_status NoProposal result then Ok false
      else Err ("COMMAND_PROCESSING_FAILED: " +:+ default "proposal was not submitted" (cx_message result))
  end.

Section commands.
Context {N V DB : Type} `{!SqlDb DB, !SqlTx DB, !SqlCount DB, !Http N V, !CredentialStore N, !JsonValue V, !Json V}.
Context `{!PayloadCodecs V, !ResponseCodecs V, !WorkCodecs V, !CommandCodecs V, !RoomCodecs V, !DraftCodecs V, !ToValue V ExecuteReport}.
Context (to_string_pretty : TrashMetadata -> result string string) (outbox : OutboxStore).
(** The limiter, then the office. *)
Abbreviation IO := (io (WorkLimiter * office N DB) string).

Definition on_office {A} (m : io (office N DB) string A) : IO A := zoom snd (fun o st => (st.1, o)) m.
Definition on_agent {A} (m : io (AgentState * N) AgentError A) : IO A := on_office (office.on_agent m).
Definition flush : IO OutboxFlushReport :=
  on_office (zoom (fun o => (o.1, machine_of o)) (fun v o => (v.1, (o.2.1, v.2))) (OutboxProcessor.flush_outbox (V:=V) outbox)).

Definition approve_proposal_details_and_execute (proposal : AgentProposalDetails) (decision_key : string) : IO ChatProposalExecutionReport :=
  let! decision := on_agent (AgentDrafts.create_decision (V:=V) (ap_proposal_id proposal) (ap_item_ids proposal) decision_key) in
  let! execution_report := with_permit Write (ExecutionProcessor.process_pending_decisions (V:=V) to_string_pretty outbox) in
  let! execution_outbox_report := flush in
  io_ret (mkChatProposalExecutionReport proposal decision execution_report execution_outbox_report).
Definition proposal_for_command (room_id command_id : string) : IO AgentProposalDetails :=
  let! proposals := on_agent (AgentDrafts.open_proposals_for_room (V:=V) room_id) in
  match find (fun p => (op_command_id p =? command_id) && (op_status p =? "OPEN"))%string proposals with
  | None => io_fail "PROPOSAL_NOT_READY: confirmed command did not produce an open proposal yet"
  | Some proposal => on_agent (AgentDrafts.get_proposal (V:=V) (op_proposal_id proposal))
  end.
Definition approve_agent_command_draft_and_execute_impl (draft_id room_id idempotency_key : string) : IO (ChatCommandDraftExecutionReport V) :=
  let! confirm_key := io_lift (scoped_chat_approval_key "confirm" idempotency_key) in
  let! decision_key := io_lift (scoped_chat_approval_key "decision" idempotency_key) in
  let! draft := on_agent (AgentDrafts.confirm_command_draft draft_id confirm_key) in
  match cc_command draft with
  | None => io_fail "COMMAND_DRAFT_NOT_EXECUTABLE: this draft did not materialize a desktop command"
  | Some command =>
      if negb (ac_room_id command =? room_id)%string
      then io_fail "COMMAND_ROOM_MISMATCH: confirmed command belongs to a different room"
      else
        let! command_report := with_permit Scan (CommandProcessor.process_commands outbox [command]) in
        let! submitted := io_lift (ensure_chat_command_submitted command_report (ac_command_id command)) in
        if negb submitted then io_fail "NO_PROPOSAL_ITEMS: already clean; no proposal items were found"
        else
          let! proposal_outbox_report := flush in
          let! proposal := proposal_for_command room_id (ac_command_id command) in
          let! executed := approve_proposal_details_and_execute proposal decision_key in
          io_ret (mkChatCommandDraftExecutionReport draft command_report proposal (ce_decision executed) (ce_execution_report executed)
                    proposal_outbox_report (ce_execution_outbox_report executed))
  end.
Definition approve_agent_open_proposal_and_execute_impl (proposal_id room_id idempotency_key : string) : IO ChatProposalExecutionReport :=
  let! proposal := on_agent (AgentDrafts.get_proposal (V:=V) proposal_id) in
  if negb (ap_room_id proposal =? room_id)%string
  then io_fail "PROPOSAL_ROOM_MISMATCH: proposal belongs to a different room"
  else
    let! decision_key := io_lift (scoped_chat_approval_key "decision" idempotency_key) in
    approve_proposal_details_and_execute proposal decision_key.

(** [parse] reads the rules of a folder and [print] writes them, [contract] reads the
    definition of a rule. *)
Definition confirm_agent_rule_draft_impl (parse : string -> result RuleSet string) (print : RuleSet -> result string string)
  (contract : V -> result Contract.ContractRuleDefinition string) (draft_id room_id idempotency_key : string)
  : io (office N DB) string (AgentRuleDraftConfirmation V) :=
  let! confirmation := office.on_agent (AgentDrafts.confirm_rule_draft draft_id idempotency_key) in
  if negb (al_room_id (rc_rule confirmation) =? room_id)%string
  then io_fail "RULE_ROOM_MISMATCH: confirmed rule belongs to a different room"
  else
    do! RoomSync.apply_server_rule_to_local_root parse print contract (rc_rule confirmation);
    io_ret confirmation.
End commands.
End ChatApproval.
