(* ===== verification/overlay.v ===== *)
(** The character and the places of its windows, and what the places promise. *)
From Stdlib Require Import ZArith Lia Ascii.
From stdpp Require Import strings pretty gmap functions option list.
From S2P Require Import prelude rust_str.

Open Scope string_scope.
Open Scope list_scope.


(** * [apps/desktop/src-tauri/src/overlay.rs]: what the character shows of the work of the
    desktop, and whether its window is there; with the delivery of its events and the
    places of the windows around it, of [commands/overlay.rs].

    The windows are [tauri]'s: whether one is open and takes an event is a parameter. *)

(** * The character *)

Inductive CharacterEventKind :=
| KIdle | KConnecting | KAnalyzing | KWaitingForApproval | KWorking | KSuccess | KError | KUserWorking | KOffline.
#[export] Instance CharacterEventKind_eq_dec : EqDecision CharacterEventKind.
Proof. solve_decision. Defined.
Record CharacterEvent := mkCharacterEvent { ch_kind : CharacterEventKind; ch_message : option string; ch_correlation_id : option string }.
Record OverlayActivity := mkOverlayActivity {
  oa_had_error : bool;
  oa_executed_item_count : Z;         (** [usize], as the counts below *)
  oa_execution_failed_count : Z;
  oa_submitted_proposal_count : Z;
  oa_processed_command_count : Z;
}.
Definition no_activity : OverlayActivity := mkOverlayActivity false 0 0 0 0.
Inductive OverlayState := OverlayNotReady | OverlayHidden | OverlayVisible | OverlayErr.
Inductive OverlayErrorCode := CodeNotReady | CodeWindowMissing | CodeEmitFailed.
Record OverlayError := mkOverlayError { oe_code : OverlayErrorCode; oe_message : string }.
Record OverlayRuntime := mkOverlayRuntime {
  or_state : OverlayState; or_last_event_kind : option CharacterEventKind; or_last_error : option OverlayError }.
Record OverlayStatus := mkOverlayStatus {
  os_state : OverlayState; os_window_label : string; os_last_event_kind : option CharacterEventKind;
  os_last_error_code : option OverlayErrorCode; os_last_error_message : option string }.

Module Overlay.
Definition OVERLAY_WINDOW_LABEL : string := "character-overlay".
Definition CHAT_OVERLAY_WINDOW_LABEL : string := "chat-overlay".
Definition CHARACTER_EVENT_NAME : string := "character-event".

Definition character_event_for (activity : OverlayActivity) : CharacterEvent :=
  let kind :=
    if oa_had_error activity || (0 <? oa_execution_failed_count activity)%Z then KError
    else if (0 <? oa_executed_item_count activity)%Z then KSuccess
    else if (0 <? oa_submitted_proposal_count activity)%Z then KWaitingForApproval
    else if (0 <? oa_processed_command_count activity)%Z then KAnalyzing
    else KIdle in
  mkCharacterEvent kind None None.

Definition code_str (c : OverlayErrorCode) : string :=
  match c with CodeNotReady => "NOT_READY" | CodeWindowMissing => "WINDOW_MISSING" | CodeEmitFailed => "EMIT_FAILED" end.
(** [impl Display for OverlayError] *)
Definition fmt (e : OverlayError) : string := code_str (oe_code e) +:+ ": " +:+ oe_message e.
Definition default_runtime : OverlayRuntime :=
  mkOverlayRuntime OverlayNotReady None (Some (mkOverlayError CodeNotReady "overlay window is not configured yet")).
Definition status (r : OverlayRuntime) : OverlayStatus :=
  mkOverlayStatus (or_state r) OVERLAY_WINDOW_LABEL (or_last_event_kind r) (oe_code <$> or_last_error r) (oe_message <$> or_last_error r).
Definition mark_event_accepted (event : CharacterEvent) (r : OverlayRuntime) : OverlayRuntime :=
  mkOverlayRuntime (or_state r) (Some (ch_kind event)) None.
Definition set_visibility (s : OverlayState) (r : OverlayRuntime) : OverlayStatus * OverlayRuntime :=
  let r := mkOverlayRuntime s (or_last_event_kind r) None in (status r, r).
Definition mark_visible : OverlayRuntime -> OverlayStatus * OverlayRuntime := set_visibility OverlayVisible.
Definition mark_hidden : OverlayRuntime -> OverlayStatus * OverlayRuntime := set_visibility OverlayHidden.
Definition mark_not_ready (message : string) (r : OverlayRuntime) : OverlayError * OverlayRuntime :=
  let error := mkOverlayError CodeNotReady message in (error, mkOverlayRuntime OverlayNotReady (or_last_event_kind r) (Some error)).

(** ** Delivery *)

Section windows.
(** The window of a label, when it is open, and what it answers when it is told of an event. *)
Context (tell : string -> CharacterEvent -> option (result unit string)).

Definition emit_character_event (event : CharacterEvent) (r : OverlayRuntime) : result unit string * OverlayRuntime :=
  match tell OVERLAY_WINDOW_LABEL event with
  | Some (Err error) => (Err ("EMIT_FAILED: " +:+ error), r)
  | Some (Ok _) => (Ok tt, mark_event_accepted event r)
  | None => let '(error, r) := mark_not_ready "overlay window is not created yet" r in (Err (fmt error), r)
  end.
Definition emit_character_event_if_open (event : CharacterEvent) (r : OverlayRuntime) : OverlayRuntime :=
  match tell OVERLAY_WINDOW_LABEL event with
  | Some (Ok _) => mark_event_accepted event r
  | _ => r
  end.
End windows.
End Overlay.

(** * The places of the windows *)

(** [i32]: the sums, differences and products wrap. *)
Definition wrap_i32 (z : Z) : Z := ((z + 2 ^ 31) mod 2 ^ 32 - 2 ^ 31)%Z.
Definition i32_add (a b : Z) : Z := wrap_i32 (a + b).
Definition i32_sub (a b : Z) : Z := wrap_i32 (a - b).
Definition i32_mul (a b : Z) : Z := wrap_i32 (a * b).
Definition i32_div (a b : Z) : Z := wrap_i32 (Z.quot a b).
Declare Scope i32_scope.
Delimit Scope i32_scope with i32.
Arguments i32_add (_ _)%_i32. Arguments i32_sub (_ _)%_i32. Arguments i32_mul (_ _)%_i32. Arguments i32_div (_ _)%_i32.
Notation "a + b" := (i32_add a b) : i32_scope.
Notation "a - b" := (i32_sub a b) : i32_scope.
Notation "a * b" := (i32_mul a b) : i32_scope.
Notation "a / b" := (i32_div a b) : i32_scope.
Number Notation Z Z.of_num_int Z.to_num_int : i32_scope.

Record RectI := mkRectI { rc_x : Z; rc_y : Z; rc_w : Z; rc_h : Z }.   (** [i32] *)
Inductive TailSide := TailBottom | TailTop | TailLeft | TailRight.

Module Placement.
Definition CHAT_OVERLAY_WIDTH : Z := 450.
Definition CHAT_OVERLAY_HEIGHT : Z := 360.
Definition SPEECH_BUBBLE_WIDTH : Z := 300.
Definition SPEECH_BUBBLE_HEIGHT : Z := 130.
Definition SPEECH_BUBBLE_GAP : Z := 150.

(** [Ord::clamp] of bounds in order *)
Definition clamp (x lo hi : Z) : Z := if (x <? lo)%Z then lo else if (hi <? x)%Z then hi else x.
Definition clamp_rect (rect : RectI) (bounds : option RectI) : RectI :=
  match bounds with
  | None => rect
  | Some b =>
      let max_x := (rc_x b + Z.max (rc_w b - rc_w rect)%i32 0)%i32 in
      let max_y := (rc_y b + Z.max (rc_h b - rc_h rect)%i32 0)%i32 in
      mkRectI (clamp (rc_x rect) (rc_x b) max_x) (clamp (rc_y rect) (rc_y b) max_y) (rc_w rect) (rc_h rect)
  end.
Definition overlap_area (a b : RectI) : Z :=
  let x := (Z.min (rc_x a + rc_w a)%i32 (rc_x b + rc_w b)%i32 - Z.max (rc_x a) (rc_x b))%i32 in
  let y := (Z.min (rc_y a + rc_h a)%i32 (rc_y b + rc_h b)%i32 - Z.max (rc_y a) (rc_y b))%i32 in
  (Z.max x 0 * Z.max y 0)%i32.
Definition distance_squared (a b : RectI) : Z :=
  let ax := (rc_x a + rc_w a / 2)%i32 in
  let ay := (rc_y a + rc_h a / 2)%i32 in
  let bx := (rc_x b + rc_w b / 2)%i32 in
  let by_ := (rc_y b + rc_h b / 2)%i32 in
  let dx := (ax - bx)%i32 in
  let dy := (ay - by_)%i32 in
  (dx * dx + dy * dy)%i32.

(** [min_by_key]: the first of the least. *)
Definition key_lt (k k' : Z * Z) : bool := (k.1 <? k'.1)%Z || ((k.1 =? k'.1) && (k.2 <? k'.2))%Z.
Fixpoint min_by_key {A} (key : A -> Z * Z) (l : list A) : option A :=
  match l with
  | [] => None
  | a :: l =>
      match min_by_key key l with
      | None => Some a
      | Some b => if key_lt (key b) (key a) then Some b else Some a
      end
  end.
(** To the left, to the right, above and below. *)
Definition chat_candidates (mouse : RectI) : list RectI :=
  let chat_w := CHAT_OVERLAY_WIDTH in
  let chat_h := CHAT_OVERLAY_HEIGHT in
  let gap := 12%Z in
  let align_y := (rc_y mouse + rc_h mouse - chat_h)%i32 in
  let align_x := (rc_x mouse + (rc_w mouse - chat_w) / 2)%i32 in
  [mkRectI (rc_x mouse - chat_w - gap)%i32 align_y chat_w chat_h;
   mkRectI (rc_x mouse + rc_w mouse + gap)%i32 align_y chat_w chat_h;
   mkRectI align_x (rc_y mouse - chat_h - gap)%i32 chat_w chat_h;
   mkRectI align_x (rc_y mouse + rc_h mouse + gap)%i32 chat_w chat_h].
Definition placement_key (mouse : RectI) (house : option RectI) (candidate : RectI) : Z * Z :=
  ((overlap_area candidate mouse
    + match house with Some house => (overlap_area candidate house * 2)%i32 | None => 0%Z end)%i32,
   distance_squared candidate mouse).
(** [position_chat_overlay], with the places it reads and the one it sets *)
Definition position_chat_overlay (mouse : RectI) (monitor house : option RectI) : Z * Z :=
  let candidates := map (fun candidate => clamp_rect candidate monitor) (chat_candidates mouse) in
  match min_by_key (placement_key mouse house) candidates with
  | Some best => (rc_x best, rc_y best)
  | None => ((rc_x mouse - CHAT_OVERLAY_WIDTH - 12)%i32, (rc_y mouse + rc_h mouse - CHAT_OVERLAY_HEIGHT)%i32)
  end.
(** The place that [show_speech_bubble] computes, and the edge of its tail *)
Definition speech_bubble_place (mouse : RectI) (monitor : option RectI) : RectI * TailSide :=
  let align_y := (rc_y mouse + (rc_h mouse - SPEECH_BUBBLE_HEIGHT) / 2)%i32 in
  let left_rect := mkRectI (rc_x mouse - SPEECH_BUBBLE_WIDTH - SPEECH_BUBBLE_GAP)%i32 align_y SPEECH_BUBBLE_WIDTH SPEECH_BUBBLE_HEIGHT in
  (match monitor with
   | Some m => mkRectI (rc_x left_rect) (clamp (rc_y left_rect) (rc_y m) (rc_y m + Z.max (rc_h m - rc_h left_rect)%i32 0)%i32)
                 (rc_w left_rect) (rc_h left_rect)
   | None => left_rect
   end, TailRight).
End Placement.

(** * The places of the windows: the chat lies on the monitor, clear of the character and of
    the house as far as one of its places is; the bubble never covers the character. *)

(** * Arithmetic that does not wrap *)

Lemma wrap_id z : (- 2 ^ 31 <= z < 2 ^ 31)%Z -> wrap_i32 z = z.
Proof. intros H. unfold wrap_i32. rewrite Z.mod_small; lia. Qed.
(** Rewrites every [wrap_i32] of a number in range, innermost first. *)
Ltac unwrap := unfold i32_add, i32_sub, i32_mul, i32_div; repeat match goal with |- context [wrap_i32 ?z] => lazymatch z with context [wrap_i32 _] => fail | _ => rewrite (wrap_id z) by lia end end.
Lemma quot_range a n b : (0 < b)%Z -> (- n <= a <= n)%Z -> (- n <= Z.quot a b <= n)%Z.
Proof.
  intros Hb Ha. destruct (Z.le_gt_cases 0 a).
  - rewrite Z.quot_div_nonneg by lia. pose proof (Z.div_pos a b ltac:(lia) Hb). pose proof (Z.div_le_upper_bound a b n Hb ltac:(nia)). lia.
  - replace a with (- (- a))%Z by lia. rewrite Z.quot_opp_l by lia. rewrite Z.quot_div_nonneg by lia.
    pose proof (Z.div_pos (- a) b ltac:(lia) Hb). pose proof (Z.div_le_upper_bound (- a) b n Hb ltac:(nia)). lia.
Qed.

(** A window or a monitor as screens have them. *)
Definition on_screen (r : RectI) : Prop :=
  (- 2 ^ 24 <= rc_x r <= 2 ^ 24)%Z /\ (- 2 ^ 24 <= rc_y r <= 2 ^ 24)%Z /\ (0 <= rc_w r <= 2 ^ 24)%Z /\ (0 <= rc_h r <= 2 ^ 24)%Z.
(** [a] within [b]; the area that both cover. *)
Definition within (a b : RectI) : Prop :=
  (rc_x b <= rc_x a)%Z /\ (rc_x a + rc_w a <= rc_x b + rc_w b)%Z /\ (rc_y b <= rc_y a)%Z /\ (rc_y a + rc_h a <= rc_y b + rc_h b)%Z.
Definition common_area (a b : RectI) : Z :=
  (Z.max 0 (Z.min (rc_x a + rc_w a) (rc_x b + rc_w b) - Z.max (rc_x a) (rc_x b)) *
   Z.max 0 (Z.min (rc_y a + rc_h a) (rc_y b + rc_h b) - Z.max (rc_y a) (rc_y b)))%Z.
(** How much of the character and of the house a window covers, the house counted twice. *)
Definition covered (mouse : RectI) (house : option RectI) (r : RectI) : Z :=
  (common_area r mouse + match house with Some h => 2 * common_area r h | None => 0 end)%Z.

Definition chat_sized (r : RectI) : Prop := rc_w r = Placement.CHAT_OVERLAY_WIDTH /\ rc_h r = Placement.CHAT_OVERLAY_HEIGHT.
Lemma common_bound a b : chat_sized a -> on_screen b -> (0 <= common_area a b <= 450 * 360)%Z.
Proof.
  intros [Hw Hh] (_ & _ & Hbw & Hbh). unfold Placement.CHAT_OVERLAY_WIDTH, Placement.CHAT_OVERLAY_HEIGHT in *. unfold common_area. rewrite Hw, Hh.
  set (x := Z.max 0 _). set (y := Z.max 0 _). assert (0 <= x <= 450)%Z by lia. assert (0 <= y <= 360)%Z by lia. nia.
Qed.
Lemma overlap_common a b : chat_sized a -> (- 2 ^ 26 <= rc_x a <= 2 ^ 26)%Z -> (- 2 ^ 26 <= rc_y a <= 2 ^ 26)%Z -> on_screen b ->
  Placement.overlap_area a b = common_area a b.
Proof.
  intros Hs Hx Hy Hb. pose proof (common_bound a b Hs Hb) as Hc. destruct Hs as [Hw Hh], Hb as (Hbx & Hby & Hbw & Hbh).
  unfold Placement.CHAT_OVERLAY_WIDTH, Placement.CHAT_OVERLAY_HEIGHT in *. unfold Placement.overlap_area, common_area in *. rewrite Hw, Hh in *.
  rewrite !(Z.max_comm _ 0). unwrap. done.
Qed.

(** * The least *)

(** First the part covered, then the distance. *)
Definition key_le (k k' : Z * Z) : Prop := (k.1 < k'.1 \/ k.1 = k'.1 /\ k.2 <= k'.2)%Z.
Lemma key_lt_spec k k' : if Placement.key_lt k k' then key_le k k' else key_le k' k.
Proof.
  unfold Placement.key_lt, key_le.
  destruct (Z.ltb_spec k.1 k'.1); simpl; [lia|]. destruct (Z.eqb_spec k.1 k'.1), (Z.ltb_spec k.2 k'.2); simpl; lia.
Qed.
#[export] Instance key_le_trans : Transitive key_le.
Proof. unfold key_le. intros a b c. lia. Qed.
#[export] Instance key_le_refl : Reflexive key_le.
Proof. unfold key_le. intros a. lia. Qed.
Lemma key_le_inv k k' : key_le k k' -> (k.1 <= k'.1 /\ (k'.1 = k.1 -> k.2 <= k'.2))%Z.
Proof. unfold key_le. lia. Qed.
Lemma min_by_key_some {A} (key : A -> Z * Z) l : l <> [] -> exists a, Placement.min_by_key key l = Some a /\ a ∈ l /\ Forall (fun b => key_le (key a) (key b)) l.
Proof.
  induction l as [|a l IH]; [done|]. intros _. simpl. destruct l as [|b l].
  - exists a. split_and!; [done|by left|by constructor].
  - destruct IH as (m & -> & Hm & Hl); [done|]. pose proof (key_lt_spec (key m) (key a)) as Hk. destruct (Placement.key_lt (key m) (key a)).
    + exists m. split_and!; [done|by right|]. by constructor.
    + exists a. split_and!; [done|by left|]. constructor; [done|]. eapply Forall_impl; [exact Hl|]. intros z Hz. by etrans.
Qed.

(** * The chat *)

(** The places tried, on the monitor. *)
Definition places (mouse : RectI) (monitor : option RectI) : list RectI :=
  map (fun candidate => Placement.clamp_rect candidate monitor) (Placement.chat_candidates mouse).
Definition near (r : RectI) : Prop := chat_sized r /\ (- 2 ^ 26 <= rc_x r <= 2 ^ 26)%Z /\ (- 2 ^ 26 <= rc_y r <= 2 ^ 26)%Z.
Lemma candidates_near mouse : on_screen mouse -> Forall near (Placement.chat_candidates mouse).
Proof.
  intros (Hx & Hy & Hw & Hh). unfold Placement.chat_candidates, Placement.CHAT_OVERLAY_WIDTH, Placement.CHAT_OVERLAY_HEIGHT.
  assert (- 2 ^ 25 <= Z.quot (rc_w mouse - 450) 2 <= 2 ^ 25)%Z as Hq by (apply quot_range; lia).
  unfold i32_div, i32_sub at 1. unfold i32_sub. rewrite (wrap_id (rc_w mouse - 450)) by lia. set (q := Z.quot _ 2) in *. clearbody q.
  repeat (apply Forall_cons; split); [..|by apply Forall_nil]; unwrap; (split; [done|]); simpl; lia.
Qed.
Lemma clamp_between x lo hi : (lo <= hi)%Z -> (lo <= Placement.clamp x lo hi <= hi)%Z.
Proof. intros H. unfold Placement.clamp. destruct (Z.ltb_spec x lo); [lia|]. destruct (Z.ltb_spec hi x); lia. Qed.
(** What the clamp does to a place: a monitor that is large enough holds it. *)
Lemma clamped_within m r : on_screen m -> near r -> (450 <= rc_w m)%Z -> (360 <= rc_h m)%Z ->
  near (Placement.clamp_rect r (Some m)) /\ within (Placement.clamp_rect r (Some m)) m.
Proof.
  intros (Hx & Hy & Hw & Hh) ([Hrw Hrh] & Hrx & Hry) Hmw Hmh. unfold Placement.CHAT_OVERLAY_WIDTH, Placement.CHAT_OVERLAY_HEIGHT in *.
  unfold Placement.clamp_rect. rewrite Hrw, Hrh. unwrap. rewrite !Z.max_l by lia. unwrap.
  pose proof (clamp_between (rc_x r) (rc_x m) (rc_x m + (rc_w m - 450)) ltac:(lia)).
  pose proof (clamp_between (rc_y r) (rc_y m) (rc_y m + (rc_h m - 360)) ltac:(lia)). split.
  - split; [done|]. simpl. lia.
  - unfold within. simpl. rewrite ?Hrw, ?Hrh. lia.
Qed.
Lemma key_covered mouse house r : on_screen mouse -> (forall h, house = Some h -> on_screen h) -> near r ->
  (Placement.placement_key mouse house r).1 = covered mouse house r.
Proof.
  intros Hm Hh (Hs & Hx & Hy). unfold Placement.placement_key, covered. simpl. rewrite overlap_common by done.
  pose proof (common_bound r mouse Hs Hm). destruct house as [h|].
  - rewrite overlap_common by auto. pose proof (common_bound r h Hs (Hh h eq_refl)). unwrap. lia.
  - unwrap. done.
Qed.

(** The squared distance of the centres, exactly; and windows as the screens of today
    have them, where it fits into 32 bits. *)
Definition distance (a b : RectI) : Z :=
  ((rc_x a + Z.quot (rc_w a) 2 - (rc_x b + Z.quot (rc_w b) 2)) ^ 2 + (rc_y a + Z.quot (rc_h a) 2 - (rc_y b + Z.quot (rc_h b) 2)) ^ 2)%Z.
Definition small (r : RectI) : Prop :=
  (- 2 ^ 13 <= rc_x r <= 2 ^ 13)%Z /\ (- 2 ^ 13 <= rc_y r <= 2 ^ 13)%Z /\ (0 <= rc_w r <= 2 ^ 13)%Z /\ (0 <= rc_h r <= 2 ^ 13)%Z.
Lemma key_distance mouse house r m : small mouse -> small m -> chat_sized r -> within r m ->
  (Placement.placement_key mouse house r).2 = distance r mouse.
Proof.
  intros (Hx & Hy & Hw & Hh) (Hmx & Hmy & Hmw & Hmh) [Hrw Hrh] (H1 & H2 & H3 & H4).
  unfold Placement.CHAT_OVERLAY_WIDTH, Placement.CHAT_OVERLAY_HEIGHT in *. unfold Placement.placement_key, Placement.distance_squared, distance.
  simpl (_.2). rewrite Hrw, Hrh in *. change (Z.quot 450 2) with 225%Z. change (Z.quot 360 2) with 180%Z.
  assert (0 <= Z.quot (rc_w mouse) 2 <= 2 ^ 12)%Z as Hqw by (split; [apply Z.quot_pos|apply Z.quot_le_upper_bound]; lia).
  assert (0 <= Z.quot (rc_h mouse) 2 <= 2 ^ 12)%Z as Hqh by (split; [apply Z.quot_pos|apply Z.quot_le_upper_bound]; lia).
  unfold i32_div. change (Z.quot 450 2) with 225%Z. change (Z.quot 360 2) with 180%Z.
  set (qw := Z.quot (rc_w mouse) 2) in *. set (qh := Z.quot (rc_h mouse) 2) in *. clearbody qw qh.
  unfold i32_add, i32_sub, i32_mul. rewrite !(wrap_id 225), !(wrap_id 180), (wrap_id qw), (wrap_id qh) by lia.
  rewrite (wrap_id (rc_x r + 225)), (wrap_id (rc_y r + 180)), (wrap_id (rc_x mouse + qw)), (wrap_id (rc_y mouse + qh)) by lia.
  set (dx := (rc_x r + 225 - _)%Z). set (dy := (rc_y r + 180 - _)%Z).
  assert (- 25000 <= dx <= 25000)%Z as Hdx by lia. assert (- 25000 <= dy <= 25000)%Z as Hdy by lia. clearbody dx dy.
  rewrite (wrap_id dx), (wrap_id dy) by lia. rewrite (wrap_id (dx * dx)), (wrap_id (dy * dy)) by nia. rewrite wrap_id by nia. lia.
Qed.

(** C40: The chat is placed on the monitor of the character, whole, when the monitor has the
    room for it; and of the places tried - to the left, to the right, above and below, each
    brought onto the monitor - none covers less of the character and of the house, the house
    counted twice: the arithmetic of 32 bits gives the true areas on a screen of at most
    2^24 pixels a side.  Where the character and the monitor have at most 2^13 pixels a side
    and lie at most that far from the origin, none that covers as little is nearer to the
    character either; on larger ones the squared distance may wrap, and then decides ties
    only. *)
Theorem chat_is_placed mouse m house :
  on_screen mouse -> on_screen m -> (forall h, house = Some h -> on_screen h) -> (450 <= rc_w m)%Z -> (360 <= rc_h m)%Z ->
  let at_ := Placement.position_chat_overlay mouse (Some m) house in
  let chat := mkRectI at_.1 at_.2 Placement.CHAT_OVERLAY_WIDTH Placement.CHAT_OVERLAY_HEIGHT in
  chat ∈ places mouse (Some m) /\ within chat m /\
  Forall (fun place => covered mouse house chat <= covered mouse house place)%Z (places mouse (Some m)) /\
  (small mouse -> small m ->
   Forall (fun place => covered mouse house place = covered mouse house chat -> distance chat mouse <= distance place mouse)%Z
     (places mouse (Some m))).
Proof.
  intros Hmouse Hm Hh Hw Hhh. unfold Placement.position_chat_overlay. fold (places mouse (Some m)).
  assert (Forall (fun r => near r /\ within r m) (places mouse (Some m))) as Hnear.
  { unfold places. apply Forall_map. eapply Forall_impl; [by apply candidates_near|]. intros r Hr. by apply clamped_within. }
  destruct (min_by_key_some (Placement.placement_key mouse house) (places mouse (Some m))) as (best & -> & Hin & Hleast); [done|].
  pose proof (proj1 (list.Forall_forall _ _) Hnear _ Hin) as [Hb Hbm]. simpl.
  assert (mkRectI (rc_x best) (rc_y best) Placement.CHAT_OVERLAY_WIDTH Placement.CHAT_OVERLAY_HEIGHT = best) as ->.
  { destruct Hb as [[<- <-] _]. by destruct best. }
  assert (forall place, place ∈ places mouse (Some m) -> near place /\ within place m /\
            (covered mouse house best <= covered mouse house place)%Z /\
            (covered mouse house place = covered mouse house best -> (Placement.placement_key mouse house best).2 <= (Placement.placement_key mouse house place).2)%Z) as Hall.
  { intros place Hp. pose proof (key_le_inv _ _ (proj1 (list.Forall_forall _ _) Hleast _ Hp)) as Hle. pose proof (proj1 (list.Forall_forall _ _) Hnear _ Hp) as [Hpn Hpm].
    rewrite !key_covered in Hle by done. destruct Hle. by split_and!; [apply Hpn..| | |]. }
  split_and!; [done|apply Hbm..| |].
  - apply list.Forall_forall. intros place Hp. by apply Hall.
  - intros Hsm Hsmm. apply list.Forall_forall. intros place Hp Heq. destruct (Hall place Hp) as ([Hps _] & Hpm & _ & Hle).
    rewrite (key_distance mouse house best m Hsm Hsmm (proj1 Hb) Hbm), (key_distance mouse house place m Hsm Hsmm Hps Hpm) in Hle. by apply Hle.
Qed.

Definition character : RectI := mkRectI 1500 700 200 200.
Definition screen : RectI := mkRectI 0 0 1920 1080.
Definition house : RectI := mkRectI 900 600 300 300.
Lemma chat_is_placed_witness :
  Placement.position_chat_overlay character (Some screen) (Some house) = (1375, 328)%Z /\
  within (mkRectI 1375 328 450 360) screen.
Proof.
  assert (Placement.position_chat_overlay character (Some screen) (Some house) = (1375, 328)%Z) as Hp by (vm_compute; reflexivity).
  split; [exact Hp|].
  assert (on_screen character /\ on_screen screen /\ on_screen house) as (H1 & H2 & H3) by (unfold on_screen; simpl; lia).
  assert (forall h, Some house = Some h -> on_screen h) as H4 by (by intros h [= <-]).
  assert (450 <= rc_w screen)%Z as H5 by (simpl; lia). assert (360 <= rc_h screen)%Z as H6 by (simpl; lia).
  destruct (chat_is_placed character screen (Some house) H1 H2 H4 H5 H6) as (_ & Hin & _). rewrite Hp in Hin. exact Hin.
Defined.

(** * The bubble *)

(** It is left of the character, and never covers it. *)
Lemma bubble_left mouse monitor : on_screen mouse ->
  rc_x (Placement.speech_bubble_place mouse monitor).1 = (rc_x mouse - 450)%Z /\
  common_area (Placement.speech_bubble_place mouse monitor).1 mouse = 0%Z.
Proof.
  intros (Hx & Hy & Hw & Hh). assert (rc_x (Placement.speech_bubble_place mouse monitor).1 = rc_x mouse - 450 /\
    rc_w (Placement.speech_bubble_place mouse monitor).1 = 300)%Z as [E1 E2].
  { unfold Placement.speech_bubble_place, Placement.SPEECH_BUBBLE_WIDTH, Placement.SPEECH_BUBBLE_GAP. destruct monitor; simpl; unwrap; lia. }
  split; [done|]. unfold common_area. rewrite E1, E2. rewrite (Z.max_l 0); lia.
Qed.
(** Beside the left edge of the screen it is off the screen: the places on the other sides
    are not tried. *)
Example bubble_off_screen :
  (Placement.speech_bubble_place (mkRectI 0 500 200 200) (Some screen)).1 = mkRectI (-450) 535 300 130 /\
  common_area (Placement.speech_bubble_place (mkRectI 0 500 200 200) (Some screen)).1 screen = 0%Z.
Proof. split; vm_compute; reflexivity. Qed.
