(* ===== verification/background.v ===== *)
(** [apps/desktop/src-tauri/src/background.rs]: the background work of the desktop, what
    a tick does and in which order, when it stops, and the status it keeps. *)
From Stdlib Require Import ZArith Lia Ascii.
From stdpp Require Import strings pretty gmap functions option list.
From S2P Require Import prelude rust_str rule_definition std_path std_fs fs_facts db proposal_types trash execute index_sql tables desk outbox file_index managed_roots.
From S2P Require Import cleanliness agent agent_work office outbox_processor command_processor execution_processor.
From S2P Require Import approval_store auto_cleanup watcher_lifecycle watcher agent_files file_browse file_transfer.
From S2P Require Import smart_cache_store documents work_limiter.
From S2P Require Import agent_sync agent_chat room_sync overlay.

Open Scope string_scope.
Open Scope list_scope.

(** * Data *)

Inductive BackgroundRuntimeState := Stopped | Running | Suspended.
(** The fields [last_<name>_unix_ms] of the status, and those [last_<name>_count]. *)
Inductive StatusTime :=
| TStarted | TStopped | THeartbeat | TReplay | TCommandPoll | TDecisionPoll | TRealtimeSignal | TFileBrowsePoll | TFileIndexReconcile
| TFileTransferPoll | TSmartCachePoll | TAutoCleanup | TOutboxFlush.
Inductive StatusCount :=
| CCommand | CProcessedCommand | CSubmittedProposal | CDecision | CExecutedItem | CExecutionFailed
| CFileBrowse | CFileBrowseCompleted | CFileBrowseFailed | CFileIndexReconcileRoot | CFileIndexReconcileFailed
| CFileTransfer | CFileTransferUploaded | CFileTransferFailed | CSmartCacheCandidate | CSmartCacheUploaded | CSmartCacheFailed
| CAutoCleanupRoot | CAutoCleanupApproved | CAutoCleanupExecuted | CAutoCleanupFailed | CAutoSubmittedProposal
| COutboxSent | COutboxFailed.
#[export] Instance StatusTime_eq_dec : EqDecision StatusTime.
Proof. solve_decision. Defined.
#[export] Instance StatusCount_eq_dec : EqDecision StatusCount.
Proof. solve_decision. Defined.
#[export] Instance BackgroundRuntimeState_eq_dec : EqDecision BackgroundRuntimeState.
Proof. solve_decision. Defined.
Record BackgroundRuntimeStatus := mkBackgroundRuntimeStatus {
  bs_state : BackgroundRuntimeState;
  bs_last_unix_ms : StatusTime -> option Z;      (** [i64] *)
  bs_last_count : StatusCount -> Z;              (** [usize] *)
  bs_last_auto_cleanup_proposals : list AutoCleanupProposalEvent;
  bs_last_error_message : option string;
}.
Inductive BackgroundTickOutcome := TickContinue | TickStop.
Inductive BackgroundTickMode := HeartbeatOnly | FullReconcileOnly | HeartbeatAndFastReconcile | HeartbeatAndFullReconcile.
Inductive ReplayOutcome := ReplayContinue | ReplayDeviceRevoked.
#[export] Instance BackgroundTickOutcome_eq_dec : EqDecision BackgroundTickOutcome.
Proof. solve_decision. Defined.
#[export] Instance BackgroundTickMode_eq_dec : EqDecision BackgroundTickMode.
Proof. solve_decision. Defined.

(** What the windows are told. *)
Inductive DeskEvent :=
| BindingChanged (root_id : string)
| DesktopDeviceRevoked (device_id : string)
(** The same events as the command that replays sends them *)
| RoomBindingChanged (room_id : option string)
| RevokedDeviceReplayed (device_id : option string)
| ChatMessageCreated (update : AgentChatMessageSyncUpdate)
| CleanupProposed (event : AutoCleanupProposalEvent)
| CharacterShown (event : CharacterEvent)
| OfLifecycle (event : UiEvent).

(** The state of the application, as far as the background work goes. *)
Record Desk (N DB : Type) := mkDesk {
  dk_desktop : Desktop N DB;
  dk_policies : AutoApprovalStore;
  dk_snapshots : SnapshotStore;
  dk_limiter : WorkLimiter;
  dk_overlay : OverlayRuntime;
  dk_status : BackgroundRuntimeStatus;
  dk_told : list DeskEvent;
}.
Arguments mkDesk {N DB} _ _ _ _ _ _ _. Arguments dk_desktop {N DB} _. Arguments dk_policies {N DB} _. Arguments dk_snapshots {N DB} _.
Arguments dk_limiter {N DB} _. Arguments dk_overlay {N DB} _. Arguments dk_status {N DB} _. Arguments dk_told {N DB} _.

(** * The status *)

Module Status.
Definition DEVICE_REVOKED_REASON : string := "desktop device pairing was revoked; pair the desktop again".
Definition default_status : BackgroundRuntimeStatus := mkBackgroundRuntimeStatus Stopped (fun _ => None) (fun _ => 0%Z) [] None.
Definition with_state (state : BackgroundRuntimeState) (s : BackgroundRuntimeStatus) : BackgroundRuntimeStatus :=
  mkBackgroundRuntimeStatus state (bs_last_unix_ms s) (bs_last_count s) (bs_last_auto_cleanup_proposals s) (bs_last_error_message s).
Definition at_time (t : StatusTime) (now : Z) (s : BackgroundRuntimeStatus) : BackgroundRuntimeStatus :=
  mkBackgroundRuntimeStatus (bs_state s) (<[t := Some now]> (bs_last_unix_ms s)) (bs_last_count s)
    (bs_last_auto_cleanup_proposals s) (bs_last_error_message s).
Definition with_counts (counts : list (StatusCount * Z)) (s : BackgroundRuntimeStatus) : BackgroundRuntimeStatus :=
  mkBackgroundRuntimeStatus (bs_state s) (bs_last_unix_ms s) (foldr (fun c f => <[c.1 := c.2]> f) (bs_last_count s) counts)
    (bs_last_auto_cleanup_proposals s) (bs_last_error_message s).
Definition with_proposals (l : list AutoCleanupProposalEvent) (s : BackgroundRuntimeStatus) : BackgroundRuntimeStatus :=
  mkBackgroundRuntimeStatus (bs_state s) (bs_last_unix_ms s) (bs_last_count s) l (bs_last_error_message s).
Definition with_error (e : option string) (s : BackgroundRuntimeStatus) : BackgroundRuntimeStatus :=
  mkBackgroundRuntimeStatus (bs_state s) (bs_last_unix_ms s) (bs_last_count s) (bs_last_auto_cleanup_proposals s) e.
(** [if failed_count > 0 { last_error_message = Some(format!("{} ...", failed_count)) }] *)
Definition failed_message (failed : Z) (what : string) (s : BackgroundRuntimeStatus) : BackgroundRuntimeStatus :=
  if (0 <? failed)%Z then with_error (Some (fmt_int failed +:+ what)) s else s.
End Status.

(** * Modes *)

Module TickMode.
Definition BACKGROUND_FAST_RECONCILE_EVERY_TICKS : Z := 3.
Definition BACKGROUND_FULL_RECONCILE_EVERY_TICKS : Z := 6.
Definition sends_heartbeat (m : BackgroundTickMode) : bool :=
  match m with HeartbeatOnly | HeartbeatAndFastReconcile | HeartbeatAndFullReconcile => true | FullReconcileOnly => false end.
Definition reconciles (m : BackgroundTickMode) : bool := match m with HeartbeatOnly => false | _ => true end.
Definition runs_heavy_rest (m : BackgroundTickMode) : bool :=
  match m with FullReconcileOnly | HeartbeatAndFullReconcile => true | _ => false end.
Definition scheduled_tick_mode (tick : Z) : BackgroundTickMode :=
  if (tick mod BACKGROUND_FULL_RECONCILE_EVERY_TICKS =? 0)%Z then HeartbeatAndFullReconcile
  else if (tick mod BACKGROUND_FAST_RECONCILE_EVERY_TICKS =? 0)%Z then HeartbeatAndFastReconcile
  else HeartbeatOnly.
End TickMode.

(** * A tick *)

Module Background.
Definition AUTO_CLEANUP_INTERVAL_MS : Z := 15 * 1000.
Section background.
Context {N V DB : Type} `{!SqlDb DB, !SqlTx DB, !SqlCount DB, !Http N V, !CredentialStore N, !Uploader N, !CacheKeys N}.
Context `{!JsonValue V, !Json V, !JsonValues V, !Serde ServerErrorResponse, !Serde HeartbeatResponse, !Serde CleanlinessSnapshot}.
Context `{!WorkCodecs V, !RoomCodecs V, !PayloadCodecs V, !ResponseCodecs V, !CommandCodecs V, !FileCodecs V, !CacheCodecs V}.
Context `{!Serde (list V), !Serde ProposalReport, !Serde SmartCacheKeyMaterial, !UrlParser, !Formats, !Sha256, !Aes}.
Context `{!ToValue V DocumentExtraction, !ToValue V (list Rule), !ToValue V ExecuteReport}.
(** [unicode] lowers a text; [parse] reads the rules of a folder, [print] writes them and
    [contract] reads the definition of a rule; [pretty] writes the metadata of a trash;
    [status_text] names an HTTP status; [os_watch] asks the operating system to watch a
    directory; [ui] and [tell] tell the windows; [meanwhile] is what other programs do
    between two steps of a transfer; [fuel] bounds the pages of a search. *)
Context (unicode : string -> string) (parse : string -> result RuleSet string) (print : RuleSet -> result string string).
Context (contract : V -> result Contract.ContractRuleDefinition string) (pretty_metadata : TrashMetadata -> result string string).
Context (status_text : Z -> string) (os_watch : tree -> string -> result unit string) (ui : UiEvent -> result unit string).
Context (tell : string -> CharacterEvent -> option (result unit string)) (meanwhile : nat -> world DB -> world DB) (fuel : nat).
Context (outbox : OutboxStore) (cache : SmartCacheStore).
Abbreviation IO := (io (Desk N DB) string).

(** ** The parts of the state *)

Definition on_desktop {A} (m : io (Desktop N DB) string A) : IO A :=
  zoom dk_desktop (fun v d => mkDesk v (dk_policies d) (dk_snapshots d) (dk_limiter d) (dk_overlay d) (dk_status d) (dk_told d)) m.
Definition on_office {A} (m : io (office N DB) string A) : IO A := on_desktop (RoomSync.on_office m).
Definition with_office (o : office N DB) (d : Desktop N DB) : Desktop N DB := mkDesktop o (ds_watchers d) (ds_cursors d) (ds_snapshot_ms d).
Definition on_cleanup {A} (m : io (AutoApprovalStore * (RootStore * world DB)) string A) : IO A :=
  zoom (fun d => (dk_policies d, (ds_office (dk_desktop d)).2))
       (fun v d => mkDesk (with_office ((ds_office (dk_desktop d)).1, v.2) (dk_desktop d)) v.1 (dk_snapshots d) (dk_limiter d) (dk_overlay d)
                     (dk_status d) (dk_told d)) m.
Definition on_life {A} (m : io (Life DB) string A) : IO A :=
  zoom (fun d => mkLife (ds_watchers (dk_desktop d)) (ds_office (dk_desktop d)).2.1 (ds_snapshot_ms (dk_desktop d)) (dk_snapshots d)
                   (machine_of (ds_office (dk_desktop d))) [])
       (fun l d => mkDesk (mkDesktop ((ds_office (dk_desktop d)).1, (li_roots l, li_world l)) (li_watchers l) (ds_cursors (dk_desktop d))
                             (li_snapshot_ms l))
                     (dk_policies d) (li_snapshots l) (dk_limiter d) (dk_overlay d) (dk_status d) (dk_told d ++ map OfLifecycle (li_told l))) m.
Definition flush : IO OutboxFlushReport :=
  on_office (zoom (fun o => (o.1, machine_of o)) (fun v o => (v.1, (o.2.1, v.2))) (OutboxProcessor.flush_outbox (V:=V) outbox)).
Definition notify (event : DeskEvent) : IO unit :=
  fun d => (Ok tt, mkDesk (dk_desktop d) (dk_policies d) (dk_snapshots d) (dk_limiter d) (dk_overlay d) (dk_status d) (dk_told d ++ [event])).
Definition set_status (f : BackgroundRuntimeStatus -> BackgroundRuntimeStatus) (d : Desk N DB) : Desk N DB :=
  mkDesk (dk_desktop d) (dk_policies d) (dk_snapshots d) (dk_limiter d) (dk_overlay d) (f (dk_status d)) (dk_told d).
Definition unix_ms : IO Z := on_office (office.on_machine ManagedRoots.unix_ms).
Definition update_status (f : BackgroundRuntimeStatus -> BackgroundRuntimeStatus) : IO unit := fun d => (Ok tt, set_status f d).
(** An update that sets a time to now. *)
Definition update_at (t : StatusTime) (f : BackgroundRuntimeStatus -> BackgroundRuntimeStatus) : IO unit :=
  let! now := unix_ms in
  update_status (fun s => f (Status.at_time t now s)).
Definition report_error (error : string) : IO unit := update_status (Status.with_error (Some error)).
Definition mark_suspended (reason : string) : IO unit :=
  update_at TStopped (fun s => Status.with_error (Some reason) (Status.with_state Suspended s)).
Definition record_busy_skip (message : string) : IO unit := report_error message.
Definition connection : IO AgentConnectionStatus := on_desktop RoomSync.status.

(** [match work_limiter.try_...() { Ok(_permit) => m, Err(error) => record_busy_skip }] *)
Definition limited {A} (k : WorkKind) (skipped : A) (m : IO A) : IO A :=
  fun d =>
    let with_limiter l d := mkDesk (dk_desktop d) (dk_policies d) (dk_snapshots d) l (dk_overlay d) (dk_status d) (dk_told d) in
    match Limiter.try_begin k (dk_limiter d) with
    | (Err busy, l) => (let! _ := record_busy_skip busy in io_ret skipped) (with_limiter l d)
    | (Ok permit, l) => let '(r, d) := m (with_limiter l d) in (r, with_limiter (Limiter.drop_permit permit (dk_limiter d)) d)
    end.

(** ** The character *)

Definition show_character (event : CharacterEvent) : IO unit :=
  fun d => (Ok tt, mkDesk (dk_desktop d) (dk_policies d) (dk_snapshots d) (dk_limiter d)
                     (Overlay.emit_character_event_if_open tell event (dk_overlay d)) (dk_status d) (dk_told d ++ [CharacterShown event])).
Definition emit_overlay_activity (activity : OverlayActivity) : IO unit := show_character (Overlay.character_event_for activity).
Definition only_error : OverlayActivity := mkOverlayActivity true 0 0 0 0.
Definition with_error (failed : bool) (a : OverlayActivity) : OverlayActivity :=
  mkOverlayActivity (oa_had_error a || failed) (oa_executed_item_count a) (oa_execution_failed_count a) (oa_submitted_proposal_count a)
    (oa_processed_command_count a).
Definition add_counts (executed submitted processed : Z) (a : OverlayActivity) : OverlayActivity :=
  mkOverlayActivity (oa_had_error a) (oa_executed_item_count a + executed) (oa_execution_failed_count a)
    (oa_submitted_proposal_count a + submitted) (oa_processed_command_count a + processed).
Definition set_executed (executed failed : Z) (a : OverlayActivity) : OverlayActivity :=
  mkOverlayActivity (oa_had_error a) executed failed (oa_submitted_proposal_count a) (oa_processed_command_count a).
Definition emit_working_if_decisions_pending : IO unit :=
  let! decisions := io_try (on_office (on_agent (AgentWork.pending_decisions (V:=V)))) in
  match decisions with
  | Ok (_ :: _) => show_character (mkCharacterEvent KWorking None None)
  | _ => io_ret tt
  end.

(** ** The stages *)

Definition is_revoked (s : AgentConnectionState) : bool := match s with SRevoked => true | _ => false end.
(** [Some] of the outcome when the tick ends here. *)
Definition stop_if_agent_revoked : IO (option BackgroundTickOutcome) :=
  let! st := connection in
  if negb (is_revoked (st_state st)) then io_ret None
  else
    do! mark_suspended Status.DEVICE_REVOKED_REASON;
    do! emit_overlay_activity only_error;
    io_ret (Some TickStop).

Definition heartbeat : IO (option BackgroundTickOutcome) :=
  let! before := connection in
  let! beat := on_desktop (RoomSync.on_office (fun o =>
                 let '(r, a) := Agent.heartbeat (V:=V) "ONLINE_IDLE" o.1 in (Ok r, (a, o.2)))) in
  match beat with
  | Ok _ =>
      do! update_at THeartbeat (fun s => Status.with_error None (Status.with_state Running s));
      io_ret None
  | Err error =>
      do! if is_confirmed_device_absent error
          then
            let! _ := io_try (on_desktop RoomSync.apply_local_device_revoked) in
            do! match st_device_id before with
                | Some device_id =>
                    let! _ := io_try (on_desktop (RoomSync.on_cursors (AgentSync.clear_device device_id))) in
                    notify (DesktopDeviceRevoked device_id)
                | None => io_ret tt
                end;
            mark_suspended Status.DEVICE_REVOKED_REASON
          else report_error (fmt_error error);
      do! emit_overlay_activity only_error;
      io_ret (Some (if is_confirmed_device_absent error then TickStop else TickContinue))
  end.

(** The rooms of the folders that have none. *)
Definition watch_room (errors : list string) (room : AgentRoomSync) : IO (list string) :=
  let! started := io_try (on_life (Lifecycle.start_root_watcher (V:=V) unicode parse os_watch ui outbox (ry_root_id room))) in
  do! notify (BindingChanged (ry_root_id room));
  io_ret (match started with Ok _ => errors | Err error => errors ++ [ry_root_id room +:+ " watcher: " +:+ error] end).
Definition sync_rooms (activity : OverlayActivity) : IO OverlayActivity :=
  limited Scan activity (
    let! synced := io_try (on_office (RoomSync.sync_unbound_agent_rooms (V:=V) unicode)) in
    match synced with
    | Ok report =>
        let failures := map (fun f => af_root_id f +:+ ": " +:+ af_message f) (ax_failures report) in
        let! sync_errors := io_for (fun _ errors room => watch_room errors room) 0 failures (ax_synced_rooms report) in
        match sync_errors with
        | [] => io_ret activity
        | _ =>
            do! report_error ("automatic managed-root sync failed: " +:+ join "; " sync_errors);
            io_ret (with_error true activity)
        end
    | Err error =>
        do! report_error ("cannot inspect roots for automatic sync: " +:+ error);
        io_ret (with_error true activity)
    end).

(** [replay_events] *)
Definition replay_event (device_id : string) (event : SyncEvent V) : IO bool :=
  do! if (sv_event_type event =? "room.removed")%string
      then match RoomSync.removed_room_id event with
           | Some room_id =>
               let! report := on_desktop (RoomSync.apply_local_room_detached room_id) in
               match report with Some report => notify (BindingChanged (ld_root_id report)) | None => io_ret tt end
           | None => io_ret tt
           end
      else io_ret tt;
  do! if (sv_event_type event =? "rule.created")%string
      then let! _ := on_office (RoomSync.apply_rule_created_event parse print contract event) in io_ret tt
      else io_ret tt;
  do! match RoomSync.chat_message_sync_update event with
      | Some update => notify (ChatMessageCreated update)
      | None => io_ret tt
      end;
  if RoomSync.revokes device_id event
  then
    let! _ := on_desktop RoomSync.apply_local_device_revoked in
    do! notify (DesktopDeviceRevoked device_id);
    io_ret true
  else io_ret false.
Fixpoint replay_all (device_id : string) (events : list (SyncEvent V)) : IO bool :=
  match events with
  | [] => io_ret false
  | event :: events =>
      let! device_revoked := replay_event device_id event in
      if device_revoked : bool then io_ret true else replay_all device_id events
  end.
Definition replay_events (device_id : string) : IO ReplayOutcome :=
  let! previous_cursor := io_gets (fun d => AgentSync.cursor device_id (ds_cursors (dk_desktop d))) in
  let! events := on_office (on_agent (AgentRooms.replay_events (V:=V) previous_cursor 100)) in
  let! device_revoked := replay_all device_id events in
  if device_revoked : bool then io_ret ReplayDeviceRevoked
  else
    do! match last events with
        | Some event => let! _ := on_desktop (RoomSync.on_cursors (AgentSync.advance device_id (sv_sequence event))) in io_ret tt
        | None => io_ret tt
        end;
    io_ret ReplayContinue.
Definition replay : IO (option BackgroundTickOutcome) :=
  let! st := connection in
  match st_device_id st with
  | None => io_ret None
  | Some device_id =>
      let! replayed := io_try (replay_events device_id) in
      match replayed with
      | Ok ReplayContinue => do! update_at TReplay id; stop_if_agent_revoked
      | Ok ReplayDeviceRevoked => do! mark_suspended Status.DEVICE_REVOKED_REASON; io_ret (Some TickStop)
      | Err error =>
          do! report_error error;
          do! emit_overlay_activity only_error;
          io_ret (Some TickContinue)
      end
  end.

(** The autonomous cleanup. *)
Definition should_run_auto_cleanup : IO bool :=
  let! now := unix_ms in
  io_gets (fun d => match bs_last_unix_ms (dk_status d) TAutoCleanup with
                    | Some last => (AUTO_CLEANUP_INTERVAL_MS <=? now - last)%Z
                    | None => true
                    end).
Definition run_cleanup (activity : OverlayActivity) : IO (OverlayActivity * option AutoCleanupReport) :=
  limited Write (activity, None) (
    let! cleaned := io_try (on_cleanup (AutoCleanup.process_auto_cleanup parse)) in
    match cleaned with
    | Ok report =>
        do! io_for (fun _ _ proposal => notify (CleanupProposed proposal)) 0 tt (cl_proposals report);
        do! update_at TAutoCleanup (fun s =>
              Status.failed_message (cl_failed_count report) " auto cleanup root(s) failed"
                (Status.with_proposals (cl_proposals report)
                   (Status.with_counts [(CAutoCleanupRoot, cl_proposed_root_count report); (CAutoCleanupApproved, cl_approved_count report);
                                        (CAutoCleanupExecuted, cl_executed_count report); (CAutoCleanupFailed, cl_failed_count report)]
                      (Status.with_state Running s))));
        io_ret (with_error (0 <? cl_failed_count report)%Z (add_counts (cl_executed_count report) 0 0 activity), Some report)
    | Err error =>
        do! update_at TAutoCleanup (fun s => Status.with_error (Some error) (Status.with_state Running s));
        io_ret (with_error true activity, None)
    end).
Definition submit_cleanup (cleanup : AutoCleanupReport) (activity : OverlayActivity) : IO OverlayActivity :=
  let! auto := on_office (AutoProposal.submit_autonomous_proposals (V:=V) cleanup) in
  do! update_status (Status.with_counts [(CAutoSubmittedProposal, au_submitted_count auto)]);
  io_ret (with_error (0 <? au_failed_count auto)%Z (add_counts 0 (au_submitted_count auto) 0 activity)).
Definition auto_cleanup (activity : OverlayActivity) : IO (OverlayActivity * option BackgroundTickOutcome) :=
  let! due := should_run_auto_cleanup in
  let! ran := if due : bool then run_cleanup activity else io_ret (activity, None) in
  match ran.2 with
  | None => io_ret (ran.1, None)
  | Some cleanup =>
      let! activity := submit_cleanup cleanup ran.1 in
      let! stopped := stop_if_agent_revoked in
      io_ret (activity, stopped)
  end.

(** A stage under a permit: [m], what its report sets in the status, how many it counts as
    failed, and their name. *)
Definition stage {R} (k : WorkKind) (activity : OverlayActivity) (m : IO R) (t : StatusTime) (counts : R -> list (StatusCount * Z))
  (failed : R -> Z) (what : string) (act : R -> OverlayActivity -> OverlayActivity) : IO OverlayActivity :=
  limited k activity (
    let! done := io_try m in
    match done with
    | Ok report =>
        do! update_at t (fun s => Status.failed_message (failed report) what (Status.with_counts (counts report) s));
        io_ret (act report activity)
    | Err error => do! report_error error; io_ret (with_error true activity)
    end).
Definition count_failed {R} (failed : R -> Z) (report : R) : OverlayActivity -> OverlayActivity := with_error (0 <? failed report)%Z.

Definition commands (activity : OverlayActivity) : IO OverlayActivity :=
  stage Scan activity (on_office (CommandProcessor.process_pending_commands (V:=V) outbox)) TCommandPoll
    (fun r => [(CCommand, cy_inspected_count r); (CProcessedCommand, cy_processed_count r); (CSubmittedProposal, cy_submitted_proposal_count r)])
    cy_failed_count " command(s) failed during proposal processing"
    (fun r a => with_error (0 <? cy_failed_count r)%Z (add_counts 0 (cy_submitted_proposal_count r) (cy_processed_count r) a)).
Definition agent_tools (activity : OverlayActivity) : IO OverlayActivity :=
  let! done := io_try (on_office (AgentTools.process_pending_agent_tools unicode parse meanwhile)) in
  match done with
  | Ok _ => io_ret activity
  | Err error => do! report_error error; io_ret (with_error true activity)
  end.
Definition decisions (activity : OverlayActivity) : IO OverlayActivity :=
  stage Write activity (do! emit_working_if_decisions_pending;
                        on_office (ExecutionProcessor.process_pending_decisions (V:=V) pretty_metadata outbox)) TDecisionPoll
    (fun r => [(CDecision, dp_inspected_count r); (CExecutedItem, dp_executed_item_count r); (CExecutionFailed, dp_failed_count r)])
    dp_failed_count " decision(s) failed during execution"
    (fun r => set_executed (dp_executed_item_count r) (dp_failed_count r)).
Definition reconcile_indexes (activity : OverlayActivity) : IO OverlayActivity :=
  stage Scan activity
    (on_life (Lifecycle.reconcile_watched_root_indexes unicode (fun root_id =>
       let! _ := Lifecycle.reconcile_cleanliness_snapshot (V:=V) parse ui outbox root_id in io_ret tt))) TFileIndexReconcile
    (fun r => [(CFileIndexReconcileRoot, ri_inspected_root_count r); (CFileIndexReconcileFailed, ri_failed_root_count r)])
    ri_failed_root_count " managed root index reconcile(s) failed" (count_failed ri_failed_root_count).
Definition file_browses (activity : OverlayActivity) : IO OverlayActivity :=
  stage Scan activity (on_office (FileBrowse.process_pending_file_browse_requests (V:=V) unicode fuel)) TFileBrowsePoll
    (fun r => [(CFileBrowse, bt_inspected_count r); (CFileBrowseCompleted, bt_completed_count r); (CFileBrowseFailed, bt_failed_count r)])
    bt_failed_count " file browse request(s) failed" (count_failed bt_failed_count).
Definition file_transfers (activity : OverlayActivity) : IO OverlayActivity :=
  stage Transfer activity (on_office (FileTransfer.process_pending_file_transfers (V:=V) status_text meanwhile outbox)) TFileTransferPoll
    (fun r => [(CFileTransfer, fs_inspected_count r); (CFileTransferUploaded, fs_uploaded_count r); (CFileTransferFailed, fs_failed_count r)])
    fs_failed_count " file transfer(s) failed" (count_failed fs_failed_count).
Definition smart_caches (activity : OverlayActivity) : IO OverlayActivity :=
  stage Transfer activity (on_office (CacheProcessor.process_smart_cache_for_enabled_rooms (V:=V) status_text meanwhile cache outbox 25)) TSmartCachePoll
    (fun r => [(CSmartCacheCandidate, sp_inspected_count r); (CSmartCacheUploaded, sp_uploaded_count r); (CSmartCacheFailed, sp_failed_count r)])
    sp_failed_count " smart cache item(s) failed" (count_failed sp_failed_count).
Definition flush_background_outbox : IO unit :=
  let! flushed := io_try flush in
  match flushed with
  | Ok report =>
      update_at TOutboxFlush (fun s =>
        Status.failed_message (fl_failed_count report) " outbox item(s) permanently failed delivery"
          (Status.with_counts [(COutboxSent, fl_sent_count report); (COutboxFailed, fl_failed_count report)] s))
  | Err error => report_error error
  end.

(** ** The tick *)

(** [if let Some(outcome) = m { return outcome }], then [k]. *)
Definition unless (m : IO (option BackgroundTickOutcome)) (k : IO BackgroundTickOutcome) : IO BackgroundTickOutcome :=
  let! stopped := m in
  match stopped with Some outcome => io_ret outcome | None => k end.
(** A stage of the work, and whether the device was revoked in it. *)
Definition then_unless_revoked (m : IO OverlayActivity) (k : OverlayActivity -> IO BackgroundTickOutcome) : IO BackgroundTickOutcome :=
  let! activity := m in
  unless stop_if_agent_revoked (k activity).

(** What follows the replay. *)
Definition work (mode : BackgroundTickMode) (activity : OverlayActivity) : IO BackgroundTickOutcome :=
  let! ' (activity, stopped) := auto_cleanup activity in
  unless (io_ret stopped) (
  then_unless_revoked (let! activity := commands activity in agent_tools activity) (fun activity =>
  then_unless_revoked (decisions activity) (fun activity =>
  let! activity := if TickMode.runs_heavy_rest mode then reconcile_indexes activity else io_ret activity in
  then_unless_revoked (file_browses activity) (fun activity =>
  if negb (TickMode.runs_heavy_rest mode) then
    then_unless_revoked (do! flush_background_outbox; io_ret activity) (fun activity =>
    do! emit_overlay_activity activity; io_ret TickContinue)
  else
    then_unless_revoked (file_transfers activity) (fun activity =>
    then_unless_revoked (smart_caches activity) (fun activity =>
    then_unless_revoked (do! flush_background_outbox; io_ret activity) (fun activity =>
    do! emit_overlay_activity activity; io_ret TickContinue))))))).

Definition run_background_tick (mode : BackgroundTickMode) : IO BackgroundTickOutcome :=
  let! st := connection in
  match st_device_id st with
  | None => io_ret TickContinue
  | Some _ =>
      unless (if TickMode.sends_heartbeat mode then heartbeat else io_ret None) (
      if negb (TickMode.reconciles mode) then io_ret TickContinue
      else
        let! activity := sync_rooms no_activity in
        unless replay (work mode activity))
  end.

(** ** The loop *)

(** What wakes the loop: its ticker, a notification of the server, and its stop signal. *)
Inductive LoopInput := Ticked | Woken | StopTold.
(** The count of the scheduled ticks after an input, or the end of the loop. *)
Definition loop_step (scheduled_tick_count : Z) (i : LoopInput) : IO (option Z) :=
  let ticked mode count :=
    let! outcome := run_background_tick mode in
    io_ret (match outcome with TickStop => None | TickContinue => Some count end) in
  match i with
  | Ticked => let count := Z.min (2 ^ 64 - 1) (scheduled_tick_count + 1) in ticked (TickMode.scheduled_tick_mode count) count
  | Woken => do! update_at TRealtimeSignal id; ticked FullReconcileOnly scheduled_tick_count
  | StopTold => do! mark_suspended "background runtime stopped"; io_ret None
  end.
Fixpoint loop (scheduled_tick_count : Z) (inputs : list LoopInput) : IO unit :=
  match inputs with
  | [] => io_ret tt
  | i :: inputs =>
      let! next := loop_step scheduled_tick_count i in
      match next with Some count => loop count inputs | None => io_ret tt end
  end.
Definition run_background_loop (inputs : list LoopInput) : IO unit :=
  let! outcome := run_background_tick HeartbeatAndFullReconcile in
  match outcome with TickStop => io_ret tt | TickContinue => loop 0 inputs end.
End background.
End Background.

(** * Starting and pausing *)

(** The task of the loop, and the credentials of its notifications when it was paired. *)
Record BackgroundTask := mkBackgroundTask { bt_realtime : option RealtimeCredentials }.

Module BackgroundRuntime.
Section runtime.
Context {N DB : Type}.
(** The task that runs, then the desk. *)
Abbreviation IO := (io (option BackgroundTask * Desk N DB) string).
Definition on_desk {A} (m : io (Desk N DB) string A) : IO A := zoom snd (fun d st => (st.1, d)) m.
Definition status : IO BackgroundRuntimeStatus := io_gets (fun st => dk_status st.2).
Definition set_task (task : option BackgroundTask) : IO unit := fun st => (Ok tt, (task, st.2)).

Definition start_suspended (reason : string) : IO BackgroundRuntimeStatus :=
  do! on_desk (Background.update_at TStarted (fun s => Status.with_error (Some reason) (Status.with_state Suspended s)));
  status.
Definition should_clear_revoked_task (s : BackgroundRuntimeStatus) : bool :=
  bool_decide (bs_state s = Suspended) && bool_decide (bs_last_error_message s = Some Status.DEVICE_REVOKED_REASON).
Definition start : IO BackgroundRuntimeStatus :=
  let! st := on_desk Background.connection in
  if Background.is_revoked (st_state st) then start_suspended Status.DEVICE_REVOKED_REASON
  else
    let! s := status in
    do! if should_clear_revoked_task s then set_task None else io_ret tt;
    let! task := io_gets fst in
    match task with
    | Some _ => status
    | None =>
        let! credentials := io_gets (fun st => Agent.realtime_credentials (ds_office (dk_desktop st.2)).1.1) in
        do! set_task (Some (mkBackgroundTask credentials));
        do! on_desk (Background.update_at TStarted (fun s => Status.with_error None (Status.with_state Running s)));
        status
    end.
Definition pause (reason : string) : IO BackgroundRuntimeStatus :=
  do! set_task None;
  do! on_desk (Background.update_at TStopped (fun s => Status.with_error (Some reason) (Status.with_state Suspended s)));
  status.
End runtime.
End BackgroundRuntime.
