(* ===== verification/replay_facts.v ===== *)
(** The properties of the commands around rooms: replay, revocation, disconnection, rules; with small instances. *)
From Stdlib Require Import ZArith Lia Ascii Sorted.
From stdpp Require Import strings pretty gmap functions option list.
From S2P Require Import prelude rust_str std_path std_fs fs_facts path_guard db journal_store rule_definition rule_engine index_sql tables desk file_index.
From S2P Require Import managed_roots roots_facts cleanliness agent network agent_work office delivery_facts approval_store precondition history desk_db watcher watcher_lifecycle.
From S2P Require Import work_limiter agent_sync agent_chat room_sync overlay background.

Open Scope string_scope.
Open Scope list_scope.


(** * The replay of the events of the server and the revocation of the device: the cursor
    only passes events that were all applied, the room of a removed event is left by its
    folder, and a revoked desktop leaves every room. *)

(** * What the parts keep *)

(** Some folders left their rooms, and nothing else happened to the folders. *)
Definition left_some (b b' : folders) : Prop := forall id, b' !! id = b !! id \/ b' !! id = leave <$> b !! id.
#[export] Instance left_some_preorder : PreOrder left_some.
Proof.
  split; [by left|]. intros b1 b2 b3 H1 H2 id. destruct (H2 id) as [->| ->], (H1 id) as [->| ->]; auto.
  right. destruct (b1 !! id) as [d|]; [|done]. simpl. by rewrite leave_idemp.
Qed.
Lemma knows_leave room d : knows_room room (leave d) = knows_room room d.
Proof.
  apply bool_decide_ext. unfold leave. destruct d as [p [|r|r]]; simpl; [done| |done].
  split; [intros [H|[= ->]]; [done|by left]|intros [[= ->]|H]; [by right|done]].
Qed.

Section desk.
Context {N DB : Type}.
Implicit Types (d : Desktop N DB) (o : office N DB) (st : RootStore * world DB).

Definition roots_of d : RootStore := (ds_office d).2.1.
(** The folders only leave their rooms, and no cursor moves, but by being forgotten. *)
Definition cursors_kept (s s' : AgentSyncStore) : Prop :=
  forall dev, AgentSync.cursor dev s' = AgentSync.cursor dev s \/ AgentSync.cursor dev s' = 0%Z.
#[export] Instance cursors_kept_preorder : PreOrder cursors_kept.
Proof. split; [by left|]. intros s1 s2 s3 H1 H2 dev. destruct (H2 dev) as [->| ->]; [apply H1|by right]. Qed.
Definition stores_leave st st' : Prop := roots_ok st.1 -> roots_ok st'.1 /\ left_some (folders_of st.1) (folders_of st'.1).
#[export] Instance stores_leave_preorder : PreOrder stores_leave.
Proof.
  split; [intros st Hok; by split|]. intros s1 s2 s3 H1 H2 Hok. destruct (H1 Hok) as [Hok2 H3]. destruct (H2 Hok2) as [Hok3 H4].
  split; [done|by etrans].
Qed.
Definition offices_leave o o' : Prop := stores_leave o.2 o'.2.
#[export] Instance offices_leave_preorder : PreOrder offices_leave.
Proof. split; [intros o; unfold offices_leave; reflexivity|]. intros o1 o2 o3 H1 H2. unfold offices_leave in *. by etrans. Qed.
Definition leaves d d' : Prop := offices_leave (ds_office d) (ds_office d') /\ cursors_kept (ds_cursors d) (ds_cursors d').
#[export] Instance leaves_preorder : PreOrder leaves.
Proof. split; [intros d; split; reflexivity|]. intros d1 d2 d3 [H1 H2] [H3 H4]. split; by etrans. Qed.

(** ** Operations on a part *)

Lemma on_office_leaves {A} (m : io (office N DB) string A) : io_rel offices_leave m -> io_rel leaves (RoomSync.on_office m).
Proof. intros Hm. eapply io_rel_zoom; [exact Hm|]. intros d o H. split; [exact H|reflexivity]. Qed.
Lemma agent_leaves {A} (m : io (AgentState * N) AgentError A) : io_rel offices_leave (office.on_agent (DB:=DB) m).
Proof. intros o r o' (r0 & a & _ & _ & ->)%on_agent_run. unfold offices_leave. simpl. reflexivity. Qed.
Lemma roots_leaves {A} (m : io (RootStore * world DB) string A) : io_rel stores_leave m -> io_rel offices_leave (office.on_roots (N:=N) m).
Proof. intros Hm. eapply io_rel_zoom; [exact Hm|]. by intros o st. Qed.
Lemma machine_leaves {A} (m : io (world DB) string A) : io_rel offices_leave (office.on_machine (N:=N) m).
Proof. apply roots_leaves. intros [s w] r st (w' & _ & ->)%on_world_run Hok. by split. Qed.
Lemma watchers_leaves {A} (f : WatcherStore -> A * WatcherStore) : io_rel leaves (RoomSync.on_watchers f).
Proof.
  intros d r d'. unfold RoomSync.on_watchers. destruct (f (ds_watchers d)) as [a s]. intros [= _ <-]. split; simpl; reflexivity.
Qed.
Lemma on_agent_leaves {A} (m : io (AgentState * N) AgentError A) : io_rel leaves (RoomSync.on_agent m).
Proof. apply on_office_leaves, agent_leaves. Qed.
Lemma on_roots_leaves {A} (m : io (RootStore * world DB) string A) : io_rel stores_leave m -> io_rel leaves (RoomSync.on_roots m).
Proof. intros Hm. by apply on_office_leaves, roots_leaves. Qed.
Lemma on_machine_leaves {A} (m : io (world DB) string A) : io_rel leaves (RoomSync.on_machine m).
Proof. apply on_office_leaves, machine_leaves. Qed.
#[local] Hint Resolve agent_leaves machine_leaves watchers_leaves on_agent_leaves on_machine_leaves : io.

Context `{!SqlDb DB, !SqlTx DB}.
Lemma list_leaves : io_rel stores_leave ManagedRoots.list_.
Proof. unfold ManagedRoots.list_, get_store. io_rel_go. Qed.
Lemma find_leaves room : io_rel stores_leave (ManagedRoots.find_by_room room).
Proof. unfold ManagedRoots.find_by_room, get_store. io_rel_go. Qed.
Lemma detach_room_leaves room : io_rel stores_leave (ManagedRoots.detach_room room).
Proof.
  intros st r st' H Hok. destruct (detach_room_follows room _ _ _ Hok H) as (_ & Hok' & _ & Ho). split; [done|].
  assert (forall b', folder_effect (w_fs st.2) (CDetach room) (folders_of st.1) = Some b' -> left_some (folders_of st.1) b') as He.
  { intros b'. simpl. destruct (find _ _) as [[id x]|] eqn:Hf; intros [= <-]; [|reflexivity].
    apply find_some in Hf as [Hx%elem_of_entries Hr]. simpl in Hr. intros j. destruct (decide (j = id)) as [->|Hj].
    - right. by rewrite lookup_insert_eq, Hx; simpl; rewrite (leave_knows room).
    - left. by rewrite lookup_insert_ne. }
  destruct r as [a|e]; simpl in Ho; [by apply He|]. destruct Ho as [->|Ho]; [reflexivity|by apply He].
Qed.
Lemma detach_all_leaves : io_rel stores_leave ManagedRoots.detach_all_rooms.
Proof.
  intros st r st' H Hok. destruct (detach_all_run _ _ _ Hok H) as (_ & Hok' & _ & Ho). split; [done|]. rewrite Ho.
  intros id. right. apply lookup_fmap.
Qed.
Lemma clear_device_leaves dev : io_rel leaves (RoomSync.on_cursors (N:=N) (AgentSync.clear_device dev)).
Proof.
  intros d r d' ([s w] & H & ->)%zoom_run. simpl. split; simpl.
  { intros Hok. split; [exact Hok|]. reflexivity. }
  unfold AgentSync.clear_device in H. apply io_bind_inv in H as [(s0 & st1 & [= <- <-] & H)|(e & [=] & _)].
  simpl in H. apply io_bind_inv in H as [(u & st1 & H1 & H)|(e & H1 & ->)].
  - injection H as <- <-. intros dev'. unfold AgentSync.cursor. simpl. destruct (decide (dev' = dev)) as [->|Hd].
    + right. by rewrite lookup_delete_eq.
    + left. by rewrite lookup_delete_ne.
  - destruct (sy_pool (ds_cursors d)); [|done]. apply on_world_run in H1 as (w1 & _ & [= <- <-]). reflexivity.
Qed.
#[local] Hint Resolve clear_device_leaves : io.
End desk.
#[export] Hint Resolve agent_leaves machine_leaves watchers_leaves on_agent_leaves on_machine_leaves clear_device_leaves
  list_leaves find_leaves detach_room_leaves detach_all_leaves : io.
#[export] Hint Resolve on_roots_leaves roots_leaves on_office_leaves | 2 : io.

(** * Events *)

Section replay.
Context {N V DB : Type} `{!SqlDb DB, !SqlTx DB, !Http N V, !CredentialStore N, !JsonValue V, !Json V, !Serde ServerErrorResponse}.
Context `{!WorkCodecs V, !RoomCodecs V}.
Context (parse : string -> result RuleSet string) (print : RuleSet -> result string string).
Context (contract : V -> result Contract.ContractRuleDefinition string).
Implicit Types (d : Desktop N DB) (e : SyncEvent V) (b : folders).

Lemma detached_leaves room : io_rel leaves (RoomSync.apply_local_room_detached (N:=N) (DB:=DB) room).
Proof. unfold RoomSync.apply_local_room_detached. io_rel_go. Qed.
Lemma rule_leaves e : io_rel (offices_leave (N:=N) (DB:=DB)) (RoomSync.apply_rule_created_event parse print contract e).
Proof. unfold RoomSync.apply_rule_created_event, RoomSync.apply_server_rule_to_local_root. io_rel_go. Qed.
Lemma forget_folder_leaves root : io_rel leaves (RoomSync.forget_folder (N:=N) (DB:=DB) root).
Proof. unfold RoomSync.forget_folder. io_rel_go. Qed.
Lemma status_leaves : io_rel leaves (RoomSync.status (N:=N) (DB:=DB)).
Proof. unfold RoomSync.status. io_rel_go. Qed.
#[local] Hint Resolve detached_leaves rule_leaves forget_folder_leaves status_leaves : io.
Lemma revoked_leaves : io_rel leaves (RoomSync.apply_local_device_revoked (N:=N) (DB:=DB)).
Proof. unfold RoomSync.apply_local_device_revoked. io_rel_go. Qed.
#[local] Hint Resolve revoked_leaves : io.

(** ** The desk *)

Implicit Types k : Desk N DB.
Definition desks_leave k k' : Prop := leaves (dk_desktop k) (dk_desktop k').
#[export] Instance desks_leave_preorder : PreOrder desks_leave.
Proof. split; [intros k; unfold desks_leave; reflexivity|]. intros k1 k2 k3 H1 H2. unfold desks_leave in *. by etrans. Qed.
Lemma on_desktop_leaves {A} (m : io (Desktop N DB) string A) : io_rel leaves m -> io_rel desks_leave (Background.on_desktop m).
Proof. intros Hm. eapply io_rel_zoom; [exact Hm|]. by intros k d. Qed.
Lemma notify_leaves event : io_rel desks_leave (Background.notify (N:=N) (DB:=DB) event).
Proof. intros k r k' [= _ <-]. unfold desks_leave. simpl. reflexivity. Qed.
#[local] Hint Resolve on_desktop_leaves | 2 : io.
#[local] Hint Resolve notify_leaves : io.
Abbreviation replay_event := (Background.replay_event (N:=N) (DB:=DB) parse print contract).
Abbreviation replay_all := (Background.replay_all (N:=N) (DB:=DB) parse print contract).
Lemma replay_event_leaves dev e : io_rel desks_leave (replay_event dev e).
Proof. unfold Background.replay_event, Background.on_office. io_rel_go; apply on_desktop_leaves; auto with io. Qed.
#[local] Hint Resolve replay_event_leaves : io.
Lemma replay_all_leaves dev events : io_rel desks_leave (replay_all dev events).
Proof. induction events as [|e events IH]; simpl; io_rel_go. Qed.

(** ** The room of an event *)

(** At most one folder is or was in the room; no folder is in it. *)
Definition one_folder (room : string) b : Prop :=
  forall i j x y, b !! i = Some x -> b !! j = Some y -> knows_room room x = true -> knows_room room y = true -> i = j.
Definition nobody_in (room : string) b : Prop := forall id x, b !! id = Some x -> fo_binding x <> InRoom room.
Lemma left_some_lookup b b' id x : left_some b b' -> b' !! id = Some x -> exists y, b !! id = Some y /\ (x = y \/ x = leave y).
Proof.
  intros Hb Hx. destruct (Hb id) as [H|H]; rewrite H in Hx; [by eauto|]. apply fmap_Some in Hx as (y & Hy & ->). eauto.
Qed.
Lemma one_folder_left room b b' : left_some b b' -> one_folder room b -> one_folder room b'.
Proof.
  intros Hb Ho i j x y Hx Hy Hkx Hky. destruct (left_some_lookup _ _ _ _ Hb Hx) as (x0 & Hx0 & Hx1).
  destruct (left_some_lookup _ _ _ _ Hb Hy) as (y0 & Hy0 & Hy1). apply (Ho i j x0 y0 Hx0 Hy0).
  - destruct Hx1 as [->| ->]; by rewrite ?knows_leave in Hkx.
  - destruct Hy1 as [->| ->]; by rewrite ?knows_leave in Hky.
Qed.
Lemma nobody_in_left room b b' : left_some b b' -> nobody_in room b -> nobody_in room b'.
Proof.
  intros Hb Ho id x Hx. destruct (left_some_lookup _ _ _ _ Hb Hx) as (y & Hy & [->| ->]); [by eapply Ho|].
  specialize (Ho _ _ Hy). unfold leave. by destruct (fo_binding y) eqn:Hbd; simpl; rewrite ?Hbd.
Qed.
Lemma nobody_but room b id x : one_folder room b -> b !! id = Some x -> knows_room room x = true -> fo_binding x <> InRoom room -> nobody_in room b.
Proof.
  intros Ho Hx Hk Hn j y Hy Hb. assert (j = id) as -> by (apply (Ho j id y x Hy Hx); [by apply bool_decide_true; left|done]). congruence.
Qed.
Lemma in_room_knows room x : fo_binding x = InRoom room -> knows_room room x = true.
Proof. intros H. apply bool_decide_true. by left. Qed.
Lemma detached_room room d r d' :
  roots_ok (roots_of d) -> one_folder room (folders_of (roots_of d)) -> RoomSync.apply_local_room_detached room d = (Ok r, d') ->
  nobody_in room (folders_of (roots_of d')).
Proof.
  intros Hok Ho H. unfold RoomSync.apply_local_room_detached in H.
  apply io_bind_ok in H as (found & d1 & H1 & H). apply zoom_run in H1 as (o1 & H1 & Hd1). apply on_roots_run in H1 as (st1 & H1 & ->).
  unfold ManagedRoots.find_by_room, get_store, io_bind, io_gets, io_ret in H1. injection H1 as Hf <-.
  assert (roots_of d1 = roots_of d) as Hr by (by rewrite Hd1). clear Hd1. fold (roots_of d) in Hf.
  assert (forall root, root ∈ values (ms_roots (roots_of d)) -> exists id, ms_roots (roots_of d) !! id = Some root /\ binding_ok root /\
            folders_of (roots_of d) !! id = Some (folder_of root) /\ ManagedRoots.of_room room root = knows_room room (folder_of root)) as Hval.
  { intros root (id & Hid)%elem_of_values. destruct (Hok _ _ Hid) as [_ Hb]. exists id. split_and!; [done..| |by apply of_room_knows].
    by rewrite lookup_folders, Hid. }
  destruct found as [root|].
  - apply find_some in Hf as [Hin Hroom]. destruct (Hval _ Hin) as (id & Hid & Hb & Hfold & Hknow). rewrite Hknow in Hroom.
    apply io_bind_ok in H as ([] & d2 & H2 & H).
    assert (leaves d2 d') as [Hl _]. { revert H. generalize (Ok (E:=string) r). intros r0 H. revert H. eapply (_ : io_rel leaves _). Unshelve. io_rel_go. }
    assert (roots_ok (ds_office d1).2.1) as Hok1 by (unfold roots_of in Hr; by rewrite Hr).
    destruct (bool_decide (mr_room_binding_status root = Detached)) eqn:Hs; simpl in H2.
    + injection H2 as <-. destruct (Hl Hok1) as [_ Hl']. eapply nobody_in_left; [exact Hl'|].
      fold (roots_of d1). rewrite Hr. eapply nobody_but; [exact Ho|exact Hfold|exact Hroom|].
      apply bool_decide_eq_true in Hs. simpl. unfold binding_of. by rewrite Hs; destruct (mr_detached_room_id root).
    + apply io_bind_ok in H2 as (det & d3 & H2 & [= <-]). apply zoom_run in H2 as (o3 & H2 & Hd3). apply on_roots_run in H2 as (st3 & H2 & ->).
      destruct (detach_room_follows room _ _ _ Hok1 H2) as (_ & Hok3 & _ & Heff). simpl in Heff. fold (roots_of d1) in Heff.
      rewrite Hr in Heff. assert ((ds_office d3).2.1 = st3.1) as Hd3' by (by rewrite Hd3). unfold offices_leave, stores_leave in Hl.
      rewrite Hd3' in Hl. destruct (Hl Hok3) as [_ Hl']. eapply nobody_in_left; [exact Hl'|].
      destruct (find _ _) as [[j y]|] eqn:Hfj.
      * injection Heff as <-. apply find_some in Hfj as [Hj%elem_of_entries Hky]. simpl in Hky.
        intros i x Hx Hbx. destruct (decide (i = j)) as [->|Hi]; [rewrite lookup_insert_eq in Hx; by injection Hx as <-|].
        rewrite lookup_insert_ne in Hx by done. apply Hi. apply (Ho i j x y Hx Hj); [by apply in_room_knows|done].
      * rewrite find_none in Hfj. pose proof (proj1 (list.Forall_forall _ _) Hfj (id, folder_of root)) as Hn. simpl in Hn.
        rewrite Hn in Hroom; [done|]. by apply elem_of_entries.
  - injection H as _ <-. rewrite Hr. rewrite find_none in Hf. intros id x Hx Hbx.
    rewrite lookup_folders in Hx. apply fmap_Some in Hx as (root & Hid & ->).
    assert (root ∈ values (ms_roots (roots_of d))) as Hin by (apply elem_of_values; by exists id).
    destruct (Hval _ Hin) as (id' & _ & _ & _ & Hknow). apply (proj1 (list.Forall_forall _ _) Hf) in Hin. rewrite Hknow in Hin.
    by rewrite (in_room_knows _ _ Hbx) in Hin.
Qed.

Definition desk_folders k : folders := folders_of (roots_of (dk_desktop k)).
Definition desk_ok k : Prop := roots_ok (roots_of (dk_desktop k)).
Definition desk_cursor dev k : Z := AgentSync.cursor dev (ds_cursors (dk_desktop k)).
Lemma desks_leave_folders k k' : desks_leave k k' -> desk_ok k -> desk_ok k' /\ left_some (desk_folders k) (desk_folders k').
Proof. intros [H _] Hok. by apply H. Qed.

(** What an event does to the desktop, each part succeeding: the folder of a removed room
    leaves it; a created rule that the server still lists for its room is applied to the
    folder of the room. *)
Definition rule_taken (e : SyncEvent V) (o o' : office N DB) : Prop :=
  match sv_room_id e with
  | None => o' = o
  | Some room =>
      exists rules o1, office.on_agent (AgentRooms.list_rules (V:=V) room) o = (Ok rules, o1) /\
        let rule_id := default (sv_aggregate_id e) (json_get "ruleId" (sv_payload e) ≫= json_as_str) in
        match find (fun rule => al_rule_id rule =? rule_id)%string rules with
        | None => o' = o1
        | Some rule => RoomSync.apply_server_rule_to_local_root parse print contract rule o1 = (Ok tt, o')
        end
  end.
Definition applied (e : SyncEvent V) (d d' : Desktop N DB) : Prop :=
  exists d1,
    (if (sv_event_type e =? "room.removed")%string
     then match RoomSync.removed_room_id e with
          | Some room => exists report, RoomSync.apply_local_room_detached room d = (Ok report, d1)
          | None => d1 = d
          end
     else d1 = d) /\
    if (sv_event_type e =? "rule.created")%string
    then exists o', rule_taken e (ds_office d1) o' /\ RoomSync.on_office (fun _ => (Ok (E:=string) tt, o')) d1 = (Ok tt, d')
    else d' = d1.
Inductive all_applied : list (SyncEvent V) -> Desktop N DB -> Desktop N DB -> Prop :=
| none_applied d : all_applied [] d d
| one_applied e events d d1 d2 : applied e d d1 -> all_applied events d1 d2 -> all_applied (e :: events) d d2.

Lemma rule_event_run (e : SyncEvent V) o taken o' :
  sv_event_type e = "rule.created" -> RoomSync.apply_rule_created_event parse print contract e o = (Ok taken, o') -> rule_taken e o o'.
Proof.
  intros Ht H. unfold RoomSync.apply_rule_created_event in H. rewrite Ht in H. change (negb _) with false in H. cbv beta iota in H.
  unfold rule_taken. destruct (sv_room_id e) as [room|]; [|by injection H as _ <-].
  cbv zeta in H. apply io_bind_ok in H as (rules & o1 & H1 & H). exists rules, o1. split; [done|]. cbv zeta.
  destruct (find _ rules) as [rule|]; [|by injection H as _ <-].
  apply io_bind_ok in H as ([] & o2 & H2 & H). by injection H as _ <-.
Qed.
Lemma replay_event_applied dev e k r k' :
  replay_event dev e k = (Ok r, k') -> RoomSync.revokes dev e = false -> applied e (dk_desktop k) (dk_desktop k').
Proof.
  intros H Hrev. unfold Background.replay_event in H. rewrite Hrev in H.
  apply io_bind_ok in H as ([] & k1 & H1 & H). apply io_bind_ok in H as ([] & k2 & H2 & H).
  apply io_bind_ok in H as ([] & k3 & H3 & H). injection H as _ <-.
  assert (dk_desktop k3 = dk_desktop k2) as ->.
  { destruct (RoomSync.chat_message_sync_update e); [unfold Background.notify in H3|]; by injection H3 as <-. }
  exists (dk_desktop k1). split.
  - destruct (_ =? _)%string; [|by injection H1 as <-]. destruct (RoomSync.removed_room_id e) as [room|]; [|by injection H1 as <-].
    apply io_bind_ok in H1 as (report & k4 & (d4 & H1 & ->)%zoom_run & H4). exists report. rewrite H1. f_equal.
    destruct report; [unfold Background.notify in H4|]; by injection H4 as <-.
  - destruct (sv_event_type e =? "rule.created")%string eqn:Ht in H2 |- *; [|by injection H2 as <-]. apply String.eqb_eq in Ht.
    apply io_bind_ok in H2 as (b & k4 & (d4 & (o4 & H2 & ->)%zoom_run & ->)%zoom_run & H4). injection H4 as <-.
    exists o4. split; [by eapply rule_event_run|done].
Qed.
Lemma replay_all_applied dev events k k' :
  replay_all dev events k = (Ok false, k') -> Forall (fun e => RoomSync.revokes dev e = false) events ->
  all_applied events (dk_desktop k) (dk_desktop k').
Proof.
  revert k. induction events as [|e events IH]; intros k H Hrev; simpl in H; [injection H as <-; constructor|].
  apply Forall_cons in Hrev as [Hrev Hrest]. apply io_bind_ok in H as ([] & k1 & H1 & H); [done|].
  econstructor; [by eapply replay_event_applied|by apply IH].
Qed.

Lemma replay_event_run dev e k r k' :
  replay_event dev e k = (Ok r, k') -> desk_ok k ->
  r = RoomSync.revokes dev e /\
  forall room, sv_event_type e = "room.removed" -> RoomSync.removed_room_id e = Some room -> one_folder room (desk_folders k) ->
    nobody_in room (desk_folders k').
Proof.
  intros H Hok. unfold Background.replay_event in H. apply io_bind_ok in H as ([] & k1 & H1 & H).
  assert (desks_leave k k1) as Hl1.
  { revert H1. generalize (Ok (E:=string) tt). intros r0 H1. revert H1. eapply (_ : io_rel desks_leave _). Unshelve. io_rel_go. }
  assert (desks_leave k1 k') as Hl2.
  { revert H. generalize (Ok (E:=string) r). intros r0 H. revert H. eapply (_ : io_rel desks_leave _). Unshelve.
    unfold Background.on_office. io_rel_go; apply on_desktop_leaves; auto with io. }
  destruct (desks_leave_folders _ _ Hl1 Hok) as [Hok1 _]. destruct (desks_leave_folders _ _ Hl2 Hok1) as [_ Hl2']. split.
  - apply io_bind_ok in H as (u2 & k2 & _ & H). apply io_bind_ok in H as (u3 & k3 & _ & H).
    destruct (RoomSync.revokes dev e); [|by injection H as <- _].
    apply io_bind_ok in H as (u4 & k4 & _ & H). apply io_bind_ok in H as (u5 & k5 & _ & H). by injection H as <- _.
  - intros room Ht Hroom Ho. rewrite Ht, Hroom in H1. change ("room.removed" =? "room.removed")%string with true in H1. cbv beta iota in H1.
    apply io_bind_ok in H1 as (rep & k2 & H1 & H3). apply zoom_run in H1 as (d2 & H1 & Hk2).
    apply (nobody_in_left _ _ _ Hl2'). assert (desk_folders k1 = desk_folders k2) as ->.
    { destruct rep; [|by injection H3 as <-]. unfold Background.notify in H3. by injection H3 as <-. }
    unfold desk_folders. rewrite Hk2. simpl. eapply detached_room; [exact Hok|exact Ho|exact H1].
Qed.
Lemma replay_all_run dev events k k' :
  replay_all dev events k = (Ok false, k') -> desk_ok k ->
  Forall (fun e => RoomSync.revokes dev e = false) events /\
  forall e room, e ∈ events -> sv_event_type e = "room.removed" -> RoomSync.removed_room_id e = Some room ->
    one_folder room (desk_folders k) -> nobody_in room (desk_folders k').
Proof.
  revert k. induction events as [|e0 events IH]; intros k H Hok; simpl in H; [split; [constructor|by intros e room H0%elem_of_nil]|].
  apply io_bind_ok in H as (r & k1 & H1 & H). pose proof (replay_event_leaves _ _ _ _ _ H1) as Hl1.
  destruct (desks_leave_folders _ _ Hl1 Hok) as [Hok1 Hl1']. apply replay_event_run in H1 as [-> Hrun]; [|done].
  destruct (RoomSync.revokes dev e0) eqn:Hrev; [done|]. pose proof (replay_all_leaves dev events _ _ _ H) as Hl2.
  destruct (desks_leave_folders _ _ Hl2 Hok1) as [_ Hl2']. destruct (IH _ H Hok1) as [Hall Hrest]. split; [by constructor|].
  intros e room [->|He]%elem_of_cons Ht Hroom Ho.
  - eapply nobody_in_left; [exact Hl2'|]. by eapply Hrun.
  - eapply Hrest; [done..|]. by eapply one_folder_left.
Qed.

(** ** The events of the server *)

Lemma events_follow previous (answers : list (SyncEventResponse V)) events :
  ValidateRooms.sync_events previous answers = Ok events -> StronglySorted Z.lt (previous :: map sv_sequence events).
Proof.
  revert previous events. induction answers as [|a answers IH]; intros previous events H; simpl in H.
  { injection H as <-. apply SSorted_cons; constructor. }
  destruct (ValidateRooms.event_is_bad previous a) eqn:Hbad; [done|]. destruct (ValidateRooms.sync_events _ answers) as [rest|] eqn:Hrest; [|done].
  injection H as <-. apply IH in Hrest. simpl. pose proof Hrest as Hrest'. apply StronglySorted_inv in Hrest' as [_ Hfst].
  assert (previous < vr_sequence a)%Z as Hlt.
  { unfold ValidateRooms.event_is_bad in Hbad. destruct (Z.leb_spec (vr_sequence a) previous); [done|lia]. }
  apply SSorted_cons; [exact Hrest|]. constructor; [exact Hlt|]. eapply list.Forall_impl; [exact Hfst|]. simpl. intros z Hz. lia.
Qed.
Lemma answered_in_order previous limit (k : Desk N DB) events k' :
  Background.on_office (office.on_agent (AgentRooms.replay_events (V:=V) previous limit)) k = (Ok events, k') ->
  StronglySorted Z.lt (previous :: map sv_sequence events).
Proof.
  intros (d & H & _)%zoom_run. apply zoom_run in H as (o & H & _). apply on_agent_run in H as (r0 & a & H & Hr & _).
  destruct r0 as [evs|]; [|done]. simpl in Hr. injection Hr as <-. unfold AgentRooms.replay_events in H. destruct (negb _); [done|].
  apply io_bind_ok in H as ([base c] & st1 & _ & H). unfold Agent.recording in H. apply io_bind_ok in H as (x & st2 & Hx & H).
  unfold io_try in Hx. destruct (io_bind _ _ st1) as [rx sx] eqn:Hsend. injection Hx as <- <-.
  destruct rx as [evs'|e]; [|by apply io_bind_ok in H as (u & s & _ & [=])].
  apply io_bind_ok in H as (u & s & _ & [= <- _]). apply io_bind_ok in Hsend as (answers & s1 & _ & H2). injection H2 as H2 _.
  by eapply events_follow.
Qed.

Lemma advance_cursor dev z (d : Desktop N DB) r d' :
  RoomSync.on_cursors (AgentSync.advance dev z) d = (r, d') ->
  roots_of d' = roots_of d /\
  ds_cursors d' = match r with Ok _ => mkAgentSyncStore (<[dev := z]> (sy_cursors (ds_cursors d))) (sy_pool (ds_cursors d)) | Err _ => ds_cursors d end.
Proof.
  intros ([s w] & H & ->)%zoom_run. split; [done|]. unfold AgentSync.advance in H.
  apply io_bind_inv in H as [(s0 & st1 & [= <- <-] & H)|(e & [=] & _)]. simpl in H.
  destruct (z <? _)%Z; [by injection H as <- <- _|]. destruct (2 ^ 63 <=? z)%Z; [by injection H as <- <- _|].
  apply io_bind_inv in H as [(u & st1 & H1 & H)|(e & H1 & ->)].
  - by injection H as <- <- _.
  - destruct (sy_pool (ds_cursors d)); [|done]. by apply on_world_run in H1 as (w1 & _ & [= <- _]).
Qed.

(** C14: The replay of the server's events loses none.  The cursor of the device moves only
    to the last of events that follow it in increasing order and were all applied, none of
    them revoking the device; a replay that fails or meets its revocation leaves the cursor
    or forgets it, so the same events are asked for again.  "Applied" is said of each event in
    turn: the room of a removed one was left without an error, the rule of a created one was
    written into the rules of its folder without an error, or the server lists it no more.
    No replay takes a folder into a room, and after one that succeeds no folder is in a room
    that an event removed, provided at most one folder had been in that room, now or before
    ([detach_misses_bound_root] shows why). *)
Theorem replay_is_applied dev k r k' :
  desk_ok k -> Background.replay_events parse print contract dev k = (r, k') ->
  desk_ok k' /\ left_some (desk_folders k) (desk_folders k') /\
  match r with
  | Ok ReplayContinue =>
      exists events k1,
        Background.on_office (office.on_agent (AgentRooms.replay_events (V:=V) (desk_cursor dev k) 100)) k = (Ok events, k1) /\
        StronglySorted Z.lt (desk_cursor dev k :: map sv_sequence events) /\
        Forall (fun e => RoomSync.revokes dev e = false) events /\
        (exists d, all_applied events (dk_desktop k1) d /\
           match last events with
           | Some event => exists moved, RoomSync.on_cursors (AgentSync.advance dev (sv_sequence event)) d = (Ok moved, dk_desktop k')
           | None => dk_desktop k' = d
           end) /\
        desk_cursor dev k' = default (desk_cursor dev k) (sv_sequence <$> last events) /\
        forall e room, e ∈ events -> sv_event_type e = "room.removed" -> RoomSync.removed_room_id e = Some room ->
          one_folder room (desk_folders k) -> nobody_in room (desk_folders k')
  | _ => desk_cursor dev k' = desk_cursor dev k \/ desk_cursor dev k' = 0%Z
  end.
Proof.
  intros Hok H. unfold Background.replay_events in H. apply io_bind_inv in H as [(z & k0 & [= <- <-] & H)|(e & [=] & _)].
  assert (forall u u', desks_leave u u' -> desk_cursor dev u' = desk_cursor dev u \/ desk_cursor dev u' = 0%Z) as Hcur.
  { intros u u' [_ Hc]. apply Hc. }
  assert (forall u, desks_leave k u -> desk_ok u /\ left_some (desk_folders k) (desk_folders u)) as Hdesk.
  { intros u Hu. by apply desks_leave_folders. }
  apply io_bind_inv in H as [(events & k1 & H1 & H)|(e & H1 & ->)];
    pose proof (on_desktop_leaves _ (on_office_leaves _ (agent_leaves _)) _ _ _ H1) as Hl1.
  2: { destruct (Hdesk _ Hl1). split_and!; [done..|by apply Hcur]. }
  assert (forall u, desks_leave k1 u -> desks_leave k u) as Htr by (intros u Hu; by etrans).
  apply io_bind_inv in H as [(revoked & k2 & H2 & H)|(e & H2 & ->)]; pose proof (Htr _ (replay_all_leaves _ _ _ _ _ H2)) as Hl2.
  2: { destruct (Hdesk _ Hl2). split_and!; [done..|by apply Hcur]. }
  destruct revoked.
  { injection H as <- <-. destruct (Hdesk _ Hl2). split_and!; [done..|by apply Hcur]. }
  assert (events = [] -> desk_cursor dev k2 = desk_cursor dev k) as Hnone.
  { intros ->. injection H2 as <-. apply zoom_run in H1 as (d1 & (o1 & _ & ->)%zoom_run & ->). done. }
  pose proof H2 as Happlied. apply replay_all_run in H2 as [Hrev Hrooms]; [|by apply Hdesk]. apply replay_all_applied in Happlied; [|done].
  assert (forall e room, e ∈ events -> sv_event_type e = "room.removed" -> RoomSync.removed_room_id e = Some room ->
            one_folder room (desk_folders k) -> nobody_in room (desk_folders k2)) as Hrooms'.
  { intros e room He Ht Hroom Ho. eapply Hrooms; [done..|]. eapply one_folder_left; [by apply (Hdesk k1)|done]. }
  apply answered_in_order in H1 as Hsorted. destruct (Hdesk _ Hl2) as [Hok2 Hleft2].
  destruct (last events) as [event|] eqn:Hlast.
  - apply io_bind_inv in H as [(u & k3 & H3 & H)|(e & H3 & ->)].
    + injection H as <- <-. apply io_bind_ok in H3 as (z & k4 & (d4 & H4 & Hk4)%zoom_run & H3). injection H3 as _ <-.
      pose proof H4 as Hadv. apply advance_cursor in H4 as [Hr4 Hc4]. unfold desk_ok, desk_folders, desk_cursor in *. rewrite Hk4. simpl. rewrite Hr4, Hc4.
      split_and!; [done..|]. exists events, k1. split_and!; [done..| | |done].
      * exists (dk_desktop k2). split; [done|]. rewrite Hlast. exists z. exact Hadv.
      * unfold AgentSync.cursor. simpl. by rewrite Hlast, lookup_insert_eq.
    + apply io_bind_inv in H3 as [(z & k4 & _ & [=])|(e' & (d4 & H4 & Hk4)%zoom_run & _)].
      apply advance_cursor in H4 as [Hr4 Hc4]. unfold desk_ok, desk_folders, desk_cursor in *. rewrite Hk4. simpl. rewrite Hr4, Hc4.
      split_and!; [done..|]. by apply Hcur.
  - injection H as <- <-. split_and!; [done..|]. exists events, k1. split_and!; [done..| | |done].
    + exists (dk_desktop k2). by rewrite Hlast.
    + rewrite Hlast. by apply Hnone, last_None.
Qed.

(** ** The revocation *)

(** Only the watchers of folders and the machine change. *)
Definition winds_down (d d' : Desktop N DB) : Prop :=
  roots_of d' = roots_of d /\ (ds_office d').1 = (ds_office d).1 /\ ds_cursors d' = ds_cursors d /\ ds_watchers d' ⊆ ds_watchers d.
#[export] Instance winds_down_preorder : PreOrder winds_down.
Proof. split; [by intros d|]. intros d1 d2 d3 (H1 & H2 & H3 & H4) (H5 & H6 & H7 & H8). split_and!; [congruence..|by etrans]. Qed.
Lemma forget_folder_run root (d : Desktop N DB) :
  exists d', RoomSync.forget_folder root d = (Ok tt, d') /\ winds_down d d' /\ ds_watchers d' !! mr_root_id root = None.
Proof.
  unfold RoomSync.forget_folder, io_bind, RoomSync.on_watchers, Watchers.stop, io_try. cbv beta iota.
  set (d1 := mkDesktop _ _ _ _). destruct (RoomSync.on_machine (RoomSync.clear_index_of root) d1) as [r d2] eqn:H. exists d2. split; [done|].
  apply zoom_run in H as (o & (w & _ & ->)%on_machine_run & ->). split; [|apply lookup_delete_eq].
  split_and!; try done. simpl. apply delete_subseteq.
Qed.
Lemma forget_folders_run l i (d : Desktop N DB) :
  exists d', io_for (fun _ (_ : unit) root => RoomSync.forget_folder root) i tt l d = (Ok tt, d') /\ winds_down d d' /\
    Forall (fun root => ds_watchers d' !! mr_root_id root = None) l.
Proof.
  revert i d. induction l as [|root l IH]; intros i d; simpl; [by exists d|].
  destruct (forget_folder_run root d) as (d1 & H1 & Hw1 & Hn). destruct (IH (S i) d1) as (d2 & H2 & Hw2 & Hall).
  exists d2. unfold io_bind. rewrite H1. split_and!; [exact H2|by etrans|]. constructor; [|exact Hall].
  eapply lookup_weaken_None; [exact Hn|]. apply Hw2.
Qed.
Lemma clear_device_run dev (d : Desktop N DB) r d' :
  RoomSync.on_cursors (AgentSync.clear_device dev) d = (r, d') ->
  roots_of d' = roots_of d /\ (ds_office d').1 = (ds_office d).1 /\ ds_watchers d' = ds_watchers d /\ cursors_kept (ds_cursors d) (ds_cursors d').
Proof. intros H. pose proof (clear_device_leaves _ _ _ _ H) as [_ Hc]. by apply zoom_run in H as (v & _ & ->). Qed.

Lemma root_list_run (d : Desktop N DB) : RoomSync.on_roots ManagedRoots.list_ d = (Ok (values (ms_roots (roots_of d))), d).
Proof. by destruct d as [[a [s w]] ws c z]. Qed.
(** C15: A revoked desktop lets go of everything, whatever fails on the way.  Every folder has
    left its room, in memory at once even when the registry cannot be saved; no folder that
    had a room is watched; no cursor moves but by being forgotten; and the call succeeds only
    with the credential gone, so it fails closed: a failure leaves the agent as it was, to be
    retried, with the folders out of their rooms. *)
Theorem revocation_lets_go (d : Desktop N DB) r d' :
  roots_ok (roots_of d) -> RoomSync.apply_local_device_revoked d = (r, d') ->
  roots_ok (roots_of d') /\ folders_of (roots_of d') = leave <$> folders_of (roots_of d) /\
  (forall id x, folders_of (roots_of d) !! id = Some x -> fo_binding x <> NoRoom -> ds_watchers d' !! id = None) /\
  cursors_kept (ds_cursors d) (ds_cursors d') /\
  match r with
  | Ok st => ag_credential (ds_office d').1.1 = None /\ st_device_id st = None
  | Err _ => (ds_office d').1.1 = (ds_office d).1.1
  end.
Proof.
  intros Hok H. unfold RoomSync.apply_local_device_revoked in H. apply io_bind_inv in H as [(before & d0 & [= <- <-] & H)|(e & [=] & _)].
  unfold io_bind at 1 in H. rewrite root_list_run in H. set (roots := values _) in H.
  apply io_bind_inv in H as [(r0 & d0 & H1 & H)|(e & H1 & _)]; unfold io_try in H1;
    destruct (RoomSync.on_roots ManagedRoots.detach_all_rooms d) as [r1 d1'] eqn:Hd1; [|done].
  injection H1 as _ <-. apply zoom_run in Hd1 as (o & (st & Hd1 & ->)%on_roots_run & ->).
  destruct (detach_all_run _ _ _ Hok Hd1) as (_ & Hok1 & _ & Hleft). set (d1 := mkDesktop _ _ _ _) in H.
  destruct (forget_folders_run (List.filter RoomSync.has_room roots) 0 d1) as (d2 & H2 & (Hr2 & Ha2 & Hc2 & Hw2) & Hnone).
  unfold io_bind at 1 in H. rewrite H2 in H. change (roots_of d1) with st.1 in Hr2.
  assert (forall d3, roots_of d3 = roots_of d2 -> ds_watchers d3 = ds_watchers d2 ->
    roots_ok (roots_of d3) /\ folders_of (roots_of d3) = leave <$> folders_of (roots_of d) /\
    forall id x, folders_of (roots_of d) !! id = Some x -> fo_binding x <> NoRoom -> ds_watchers d3 !! id = None) as Hdone.
  { intros d3 Hr3 Hw3. rewrite Hr3, Hr2, Hw3. split_and!; [done..|]. intros id x Hx Hb. rewrite lookup_folders in Hx.
    apply fmap_Some in Hx as (root & Hroot & ->). destruct (Hok _ _ Hroot) as [<- Hbind].
    apply (proj1 (list.Forall_forall _ _) Hnone), list_elem_of_In, filter_In. split.
    - apply list_elem_of_In, elem_of_values. by eexists.
    - unfold RoomSync.has_room, folder_of, binding_of, binding_ok in *. simpl in Hb.
      destruct (mr_room_binding_status root), (mr_room_id root), (mr_detached_room_id root); simpl; try done; by destruct Hbind. }
  apply io_bind_inv in H as [(u & d3 & H3 & H)|(e & H3 & _)].
  2: { destruct (st_device_id _); [|done]. apply io_bind_inv in H3 as [(x & d3 & _ & [=])|(e' & H3 & _)].
       unfold io_try in H3. by destruct (RoomSync.on_cursors _ d2). }
  assert (roots_of d3 = roots_of d2 /\ (ds_office d3).1 = (ds_office d2).1 /\ ds_watchers d3 = ds_watchers d2 /\
          cursors_kept (ds_cursors d2) (ds_cursors d3)) as (Hr3 & Ha3 & Hw3 & Hc3).
  { destruct (st_device_id _) as [dev|]; [|by injection H3 as _ <-]. apply io_bind_ok in H3 as (x & d4 & H3 & [= _ <-]).
    unfold io_try in H3. destruct (RoomSync.on_cursors _ d2) as [rx dx] eqn:Hx. injection H3 as _ <-. by apply clear_device_run in Hx. }
  destruct (Hdone d3 Hr3 Hw3) as (Hok3 & Hf3 & Hn3). rewrite Hc2 in Hc3.
  apply zoom_run in H as (o' & (r2 & a & H & -> & ->)%on_agent_run & ->). cbn [ds_office ds_watchers ds_cursors roots_of fst snd].
  split_and!; [exact Hok3|exact Hf3|exact Hn3|exact Hc3|].
  rewrite Ha3, Ha2 in H. simpl in H. clear -H. unfold Agent.forget_device in H.
  apply io_bind_inv in H as [(x & st1 & H1 & H)|(e & H1 & ->)]; unfold Agent.on_network in H1;
    destruct (credentials_delete (ds_office d).1.2) as [rd n] eqn:Hd; injection H1 as -> <-; [|done].
  unfold Agent.get_state, Agent.set_state, io_bind, io_gets, io_ret in H. by injection H as <- <-.
Qed.
End replay.

(** * Disconnecting a folder from its room: nothing is asked of the server and nothing
    changes while the journal of the folder is corrupted or has unfinished operations. *)

Section disconnect.
Context {N V DB : Type} `{!SqlDb DB, !SqlTx DB, !Http N V, !CredentialStore N, !JsonValue V, !Serde ServerErrorResponse}.
Abbreviation desktop := (Desktop (taped N V) DB).
Implicit Types d : desktop.

Definition requests_of d : list (HttpRequest V) := tp_requests (ds_office d).1.2.
Definition disconnect_request (base room_id idempotency_key : string) (c : DeviceCredential) : HttpRequest V :=
  mkHttpRequest "DELETE" (base +:+ "/v1/agent/rooms/" +:+ room_id) [] (Some (dc_device_token c)) (Some idempotency_key) BNone.

(** The one request of a disconnect that succeeds. *)
Lemma disconnect_room_ok room_id key (st : AgentState * taped N V) u st' :
  AgentRooms.disconnect_room (V:=V) room_id key st = (Ok u, st') ->
  exists base c, ag_server_base_url st.1 = Some base /\ ag_credential st.1 = Some c /\
    tp_requests st'.2 = tp_requests st.2 ++ [disconnect_request base room_id key c].
Proof.
  intros H. unfold AgentRooms.disconnect_room in H. apply io_bind_ok in H as (u1 & st1 & H1 & H). unfold io_lift in H1. injection H1 as _ <-.
  apply io_bind_ok in H as (u2 & st2 & H2 & H). unfold io_lift in H2. injection H2 as _ <-.
  apply authenticated_ok in H as (base & c & Hb & Hc & H). exists base, c. split_and!; [done..|].
  apply recording_ok in H as (st3 & H & ->). unfold Agent.send_empty in H. apply io_bind_ok in H as (resp & st4 & H & [= _ <-]).
  by apply send_tape in H.
Qed.

(** What lets a folder be disconnected. *)
Definition finished (ack : bool) (root : ManagedRoot) (w : world DB) : Prop :=
  exists history w', History.read_operation_history (mr_root root) w = (Ok history, w') /\ hr_corruption history = None /\
    Forall (fun o => h_latest_status o <> Planned /\ h_latest_status o <> UndoPlanned) (hr_operations history) /\
    (ack = true \/ Forall (fun o => h_can_undo o = false) (hr_operations history)).

Lemma no_blocking history :
  RoomSync.blocking_reasons history = [] ->
  hr_corruption history = None /\ Forall (fun o => h_latest_status o <> Planned /\ h_latest_status o <> UndoPlanned) (hr_operations history).
Proof.
  unfold RoomSync.blocking_reasons. intros [Hc Hi]%app_eq_nil. split; [by destruct (hr_corruption history)|].
  destruct (List.filter _ _) eqn:Hf; [|done]. apply list.Forall_forall. intros o Ho.
  assert (~ (bool_decide (h_latest_status o = Planned) || bool_decide (h_latest_status o = UndoPlanned) = true)) as Hn.
  { intros Hb. assert (In o []) as []. rewrite <- Hf. apply filter_In. split; [by apply list_elem_of_In|done]. }
  split; intros Hs; apply Hn; rewrite Hs; [done|]. by apply orb_true_r.
Qed.
Lemma none_undoable history : RoomSync.undoable_count history = 0%Z -> Forall (fun o => h_can_undo o = false) (hr_operations history).
Proof.
  unfold RoomSync.undoable_count. intros H. apply list.Forall_forall. intros o Ho. destruct (h_can_undo o) eqn:Hu; [|done].
  destruct (List.filter h_can_undo _) eqn:Hf; [|simpl in H; lia]. assert (In o []) as []. rewrite <- Hf. apply filter_In.
  split; [by apply list_elem_of_In|done].
Qed.

(** The preflight reads. *)
Definition untouched d d' : Prop := roots_of d' = roots_of d /\ (ds_office d').1 = (ds_office d).1 /\ ds_watchers d' = ds_watchers d.
Lemma root_get_run root_id d root :
  ms_roots (roots_of d) !! root_id = Some root -> RoomSync.on_roots (ManagedRoots.get root_id) d = (Ok root, d).
Proof.
  destruct d as [[a [s w]] ws c z]. unfold roots_of. simpl. intros H.
  unfold RoomSync.on_roots, RoomSync.on_office, zoom, office.on_roots, zoom, ManagedRoots.get, get_store, io_bind, io_gets. simpl. by rewrite H.
Qed.
Lemma preflight_run root_id d root r d' :
  ms_roots (roots_of d) !! root_id = Some root -> mr_room_binding_status root <> Detached ->
  RoomSync.on_office (RoomSync.preflight_agent_room_disconnect_impl root_id) d = (r, d') ->
  untouched d d' /\
  forall p, r = Ok p ->
    rp_root_id p = root_id /\ Some (rp_room_id p) = match mr_room_id root with Some x => Some x | None => mr_detached_room_id root end /\
    exists history w, History.read_operation_history (mr_root root) (machine_of (ds_office d)) = (Ok history, w) /\
      rp_blocking_reasons p = RoomSync.blocking_reasons history /\ rp_undoable_operation_count p = RoomSync.undoable_count history /\
      rp_requires_confirmation p = (0 <? RoomSync.undoable_count history)%Z.
Proof.
  intros Hroot Hs H. apply zoom_run in H as (o & H & ->). unfold RoomSync.preflight_agent_room_disconnect_impl in H.
  pose proof (root_get_run root_id d root Hroot) as Hget. apply zoom_run in Hget as (o0 & Hget & Hd). unfold io_bind at 1 in H.
  rewrite Hget in H. apply (f_equal ds_office) in Hd. simpl in Hd. subst o0. clear Hget.
  apply io_bind_inv in H as [(room & o1 & H1 & H)|(e & H1 & ->)]; unfold io_lift in H1; injection H1 as Hroom <-; [|done].
  rewrite bool_decide_false in H by done.
  apply io_bind_inv in H as [(h & o1 & H1 & H)|(e & H1 & ->)]; apply on_machine_run in H1 as (w & H1 & ->).
  - injection H as <- <-. split; [done|]. intros p [= <-]. simpl. split_and!; [done| |].
    + by destruct (mr_room_id root); [|destruct (mr_detached_room_id root)]; simplify_eq.
    + apply io_map_err_ok in H1. by exists h, w.
  - by split.
Qed.

(** What the server hears and what happens to the folder. *)
Lemma disconnected_keeps missing n room : io_rel (fun d d' => (ds_office d').1 = (ds_office d).1) (RoomSync.disconnected missing n room (N:=taped N V) (DB:=DB)).
Proof.
  assert (PreOrder (fun d d' : desktop => (ds_office d').1 = (ds_office d).1)) as Hpre by (split; [by intros x|intros x y z; congruence]).
  assert (forall A (m : io (RootStore * world DB) string A),
            io_rel (fun d d' : desktop => (ds_office d').1 = (ds_office d).1) (RoomSync.on_roots m)) as Hroots.
  { intros A m x r x' (o & (st & _ & ->)%on_roots_run & ->)%zoom_run. done. }
  assert (forall A (m : io (world DB) string A),
            io_rel (fun d d' : desktop => (ds_office d').1 = (ds_office d).1) (RoomSync.on_machine m)) as Hmach.
  { intros A m. apply Hroots. }
  assert (forall A (f : WatcherStore -> A * WatcherStore),
            io_rel (fun d d' : desktop => (ds_office d').1 = (ds_office d).1) (RoomSync.on_watchers f)) as Hwatch.
  { intros A f x r x'. unfold RoomSync.on_watchers. destruct (f _). by intros [= _ <-]. }
  unfold RoomSync.disconnected, RoomSync.apply_local_room_detached. io_rel_go; auto.
Qed.
Lemma disconnected_room missing n room d report d' :
  roots_ok (roots_of d) -> one_folder room (folders_of (roots_of d)) -> RoomSync.disconnected missing n room d = (Ok report, d') ->
  nobody_in room (folders_of (roots_of d')).
Proof.
  intros Hok Ho H. unfold RoomSync.disconnected in H. apply io_bind_ok in H as (rep & d1 & H1 & H). unfold io_lift in H. injection H as _ <-.
  by eapply detached_room.
Qed.

(** A folder that is connected, or in its room. *)
Lemma disconnect_connected root_id key ack d r d' root :
  roots_ok (roots_of d) -> ms_roots (roots_of d) !! root_id = Some root -> mr_room_binding_status root <> Detached ->
  RoomSync.disconnect_agent_room_impl root_id key ack d = (r, d') ->
  (finished ack root (machine_of (ds_office d)) \/
   is_ok r = false /\ requests_of d' = requests_of d /\ roots_of d' = roots_of d /\ ds_watchers d' = ds_watchers d) /\
  match r with
  | Ok _ => exists room base c, mr_room_id root = Some room /\
      ag_server_base_url (ds_office d).1.1 = Some base /\ ag_credential (ds_office d).1.1 = Some c /\
      requests_of d' = requests_of d ++ [disconnect_request base room key c] /\
      (one_folder room (folders_of (roots_of d)) -> nobody_in room (folders_of (roots_of d')))
  | Err _ => True
  end.
Proof.
  intros Hok Hroot Hs H. unfold RoomSync.disconnect_agent_room_impl in H.
  assert (forall d2, untouched d d2 -> requests_of d2 = requests_of d /\ roots_of d2 = roots_of d /\ ds_watchers d2 = ds_watchers d) as Hstill.
  { intros d2 (H1 & H2 & H3). unfold requests_of. by rewrite H2. }
  apply io_bind_inv in H as [(p & d1 & H1 & H)|(e & H1 & ->)]; eapply preflight_run in H1 as [Hu Hp]; try done.
  2: { split; [right; split; [done|by apply Hstill]|done]. }
  destruct (Hp p eq_refl) as (Hid & Hroom & history & w & Hread & Hblock & Hn & Hconf). destruct Hu as (Hr1 & Ha1 & Hw1).
  unfold io_bind at 1 in H. rewrite Hid, (root_get_run root_id d1 root) in H by (by rewrite Hr1). rewrite bool_decide_false in H by done.
  destruct (rp_blocking_reasons p) as [|reason reasons] eqn:Hreasons.
  2: { injection H as <- <-. split; [right; split; [done|by apply Hstill]|done]. }
  destruct (rp_requires_confirmation p && negb ack) eqn:Hack.
  { injection H as <- <-. split; [right; split; [done|by apply Hstill]|done]. }
  assert (finished ack root (machine_of (ds_office d))) as Hfin.
  { exists history, w. symmetry in Hblock. apply no_blocking in Hblock as [Hc Hf]. split_and!; [done..|].
    destruct ack; [by left|]. right. rewrite andb_true_r, Hconf in Hack. apply none_undoable.
    apply Z.ltb_ge in Hack. unfold RoomSync.undoable_count in *. lia. }
  split; [by left|]. apply io_bind_inv in H as [([] & d2 & H2 & H)|(e & H2 & ->)]; [|done].
  destruct r as [report|e]; [|done]. apply zoom_run in H2 as (o & (r0 & a & H2 & Hr0 & ->)%on_agent_run & ->).
  destruct r0 as [[]|]; [|done]. clear Hr0. apply disconnect_room_ok in H2 as (base & c & Hb & Hc & Hreq).
  assert (mr_room_id root = Some (rp_room_id p)) as Hroom'.
  { destruct (Hok _ _ Hroot) as [_ Hbind]. unfold binding_ok in Hbind. destruct (mr_room_id root); [by rewrite Hroom|].
    destruct (mr_room_binding_status root); [destruct Hbind as [_ Hn']; by rewrite Hn' in Hroom|by destruct Hbind as [[] _]|done]. }
  exists (rp_room_id p), base, c. rewrite Ha1 in *. pose proof (disconnected_keeps _ _ _ _ _ _ H) as Hkeep. simpl in Hkeep.
  split_and!; [done..| |].
  - unfold requests_of. by rewrite Hkeep.
  - intros Ho. eapply disconnected_room; [| |exact H]; unfold roots_of in *; simpl; by rewrite Hr1.
Qed.
(** A folder that has left its room already. *)
Lemma disconnect_detached root_id key ack d r d' root :
  roots_ok (roots_of d) -> ms_roots (roots_of d) !! root_id = Some root -> mr_room_binding_status root = Detached ->
  RoomSync.disconnect_agent_room_impl root_id key ack d = (r, d') ->
  exists room, mr_detached_room_id root = Some room /\ requests_of d' = requests_of d /\
    forall report, r = Ok report -> one_folder room (folders_of (roots_of d)) -> nobody_in room (folders_of (roots_of d')).
Proof.
  intros Hok Hroot Hs H. destruct (Hok _ _ Hroot) as [_ Hbind]. unfold binding_ok in Hbind. rewrite Hs in Hbind.
  pose proof (root_get_run root_id d root Hroot) as Hget.
  assert (exists room, mr_detached_room_id root = Some room /\
            RoomSync.on_office (RoomSync.preflight_agent_room_disconnect_impl root_id) d = (Ok (mkRoomDisconnectPreflight root_id room [] 0 false), d))
    as (room & Hroom & Hpre).
  { destruct Hbind as [Hr Hd]. destruct (mr_detached_room_id root) as [room|] eqn:Hroom; [|by destruct Hd]. exists room. split; [done|].
    apply zoom_run in Hget as (o & Hget & Hd'). unfold RoomSync.on_office, zoom, RoomSync.preflight_agent_room_disconnect_impl, io_bind.
    rewrite Hget, Hr, Hroom. unfold io_lift. rewrite bool_decide_true by done. simpl. by rewrite <- Hd'. }
  exists room. split; [done|]. unfold RoomSync.disconnect_agent_room_impl in H. unfold io_bind at 1 in H. rewrite Hpre in H. cbv beta iota in H.
  unfold io_bind at 1 in H. simpl rp_root_id in H. rewrite Hget, bool_decide_true in H by done. simpl rp_room_id in H.
  pose proof (disconnected_keeps _ _ _ _ _ _ H) as Hkeep. unfold requests_of. rewrite Hkeep. split; [done|].
  intros report -> Ho. by eapply disconnected_room.
Qed.

(** C16: A folder is disconnected only with its work finished.  For a registered folder that
    has not left its room: unless its journal reads without corruption, no operation of it is
    planned and not finished, and what could still be undone was acknowledged, a disconnect is
    refused with nothing asked of the server, the folder in its room and still watched; and
    one that succeeds made exactly one request, for its own room.  For a folder that has
    already been detached from its room nothing is asked of the server, whatever its journal
    holds.  After a success no folder is in the room, provided at most one folder had been in
    it, now or before. *)
Theorem disconnect_needs_finished_work root_id key ack d r d' root :
  roots_ok (roots_of d) -> ms_roots (roots_of d) !! root_id = Some root ->
  RoomSync.disconnect_agent_room_impl root_id key ack d = (r, d') ->
  (mr_room_binding_status root <> Detached ->
    (finished ack root (machine_of (ds_office d)) \/
     is_ok r = false /\ requests_of d' = requests_of d /\ roots_of d' = roots_of d /\ ds_watchers d' = ds_watchers d) /\
    match r with
    | Ok _ => exists room base c, mr_room_id root = Some room /\
        ag_server_base_url (ds_office d).1.1 = Some base /\ ag_credential (ds_office d).1.1 = Some c /\
        requests_of d' = requests_of d ++ [disconnect_request base room key c] /\
        (one_folder room (folders_of (roots_of d)) -> nobody_in room (folders_of (roots_of d')))
    | Err _ => True
    end) /\
  (mr_room_binding_status root = Detached ->
    exists room, mr_detached_room_id root = Some room /\ requests_of d' = requests_of d /\
      forall report, r = Ok report -> one_folder room (folders_of (roots_of d)) -> nobody_in room (folders_of (roots_of d'))).
Proof. intros Hok Hroot H. split; intros Hs; [by eapply disconnect_connected|by eapply disconnect_detached]. Qed.
End disconnect.

(** * A rule of the server applied to the folder of its room: what the folder's rules are
    after it, and that applying it again changes nothing. *)

(** A rule that stands for the rule [id] of the server: it, or one of its conditions. *)
Definition of_rule (id : string) (r : Rule) : bool := (r_id r =? id)%string || starts_with (r_id r) (id +:+ "-any-").

(** * The rules of a definition *)

Lemma starts_with_itself p s : starts_with (p +:+ s) p = true.
Proof. induction p as [|c p IH]; simpl; [by destruct s|]. by rewrite Ascii.eqb_refl. Qed.
Lemma any_rules_named id priority action i l rs :
  ContractRule.any_rules id priority action i l = Ok rs -> Forall (fun r => of_rule id r = true) rs.
Proof.
  revert i rs. induction l as [|c l IH]; intros i rs H; simpl in H; [by injection H as <-|].
  destruct (Condition.apply_contract_condition _ _ _) as [condition|]; [|done]. simpl in H.
  destruct (ContractRule.any_rules _ _ _ _ l) as [rs'|] eqn:Hrs; [|done]. injection H as <-. constructor; [|by eapply IH].
  unfold of_rule. simpl r_id. apply orb_true_intro. right.
  replace (id +:+ "-any-" +:+ fmt_int (i + 1)) with ((id +:+ "-any-") +:+ fmt_int (i + 1)) by (by rewrite sappend_assoc).
  apply starts_with_itself.
Qed.
Lemma definition_named {V} (contract : V -> result Contract.ContractRuleDefinition string) id priority definition set :
  ContractRule.from_contract_definition contract id priority definition = Ok set -> Forall (fun r => of_rule id r = true) (rules set).
Proof.
  unfold ContractRule.from_contract_definition, ContractRule.into_rule_set. destruct (contract definition) as [d|]; simpl; [|done].
  destruct (Contract.match_mode d); intros H.
  - destruct (try_fold _ _ _) as [c|]; simpl in H; [|done]. destruct (RuleSet.validate _); [|done]. injection H as <-.
    constructor; [|done]. unfold of_rule. simpl. by rewrite String.eqb_refl.
  - destruct (ContractRule.any_rules _ _ _ _ _) as [rs|] eqn:Hrs; simpl in H; [|done]. destruct (RuleSet.validate _); [|done]. injection H as <-.
    by eapply any_rules_named.
Qed.
Lemma merged_eq set id incoming :
  RoomSync.merged_rules set id incoming = mkRuleSet (version set) (List.filter (fun r => negb (of_rule id r)) (rules set) ++ incoming).
Proof. unfold RoomSync.merged_rules. f_equal. f_equal. apply List.filter_ext. intros r. unfold of_rule. by rewrite negb_orb. Qed.
(** What [merged_rules] keeps and what it replaces. *)
Lemma filter_none {A} (p : A -> bool) l : Forall (fun a => p a = false) l -> List.filter p l = [].
Proof. induction 1 as [|a l Ha _ IH]; simpl; [done|]. by rewrite Ha. Qed.
Lemma filter_every {A} (p : A -> bool) l : Forall (fun a => p a = true) l -> List.filter p l = l.
Proof. induction 1 as [|a l Ha _ IH]; simpl; [done|]. by rewrite Ha, IH. Qed.
Lemma filtered_all {A} (p : A -> bool) l : Forall (fun a => p a = true) (List.filter p l).
Proof. apply List.Forall_forall. intros a Ha. by apply List.filter_In in Ha as [_ Ha]. Qed.
Lemma merged_others set id incoming :
  Forall (fun r => of_rule id r = true) incoming ->
  List.filter (fun r => negb (of_rule id r)) (rules (RoomSync.merged_rules set id incoming)) = List.filter (fun r => negb (of_rule id r)) (rules set).
Proof.
  intros Hin. rewrite merged_eq. simpl. rewrite List.filter_app, (filter_every _ _ (filtered_all _ _)), (filter_none _ incoming); [apply app_nil_r|].
  eapply List.Forall_impl; [|exact Hin]. simpl. by intros r ->.
Qed.
Lemma merged_own set id incoming :
  Forall (fun r => of_rule id r = true) incoming -> List.filter (of_rule id) (rules (RoomSync.merged_rules set id incoming)) = incoming.
Proof.
  intros Hin. rewrite merged_eq. simpl. rewrite List.filter_app, (filter_every _ incoming Hin), (filter_none _ (List.filter _ _)); [done|].
  eapply List.Forall_impl; [|apply filtered_all]. simpl. intros r Hr. by apply negb_true_iff in Hr.
Qed.
Lemma merged_again set id incoming :
  Forall (fun r => of_rule id r = true) incoming ->
  RoomSync.merged_rules (RoomSync.merged_rules set id incoming) id incoming = RoomSync.merged_rules set id incoming.
Proof. intros Hin. rewrite (merged_eq (RoomSync.merged_rules _ _ _)), merged_others by done. by rewrite merged_eq. Qed.

(** * The file *)

Section rules.
Context {N V DB : Type} (parse : string -> result RuleSet string) (print : RuleSet -> result string string).
Context (contract : V -> result Contract.ContractRuleDefinition string).
(** [serde_json] reads back what it wrote. *)
Hypothesis printed : forall set text, print set = Ok text -> parse (trim_start_bom text) = Ok set.
Implicit Types (st : office N DB) (rule : AgentRule V).

Definition rules_of st (root : ManagedRoot) : result RuleSet RuleError := load_rule_set_for_root parse (w_fs (machine_of st)) (mr_root root).
(** The rules the server's rule stands for: none when it is disabled. *)
Definition incoming_of rule : result (list Rule) RuleError :=
  if al_enabled rule
  then result_map rules (ContractRule.from_contract_definition contract (al_rule_id rule) (al_priority rule) (al_definition rule))
  else Ok [].
Lemma incoming_named rule incoming : incoming_of rule = Ok incoming -> Forall (fun r => of_rule (al_rule_id rule) r = true) incoming.
Proof.
  unfold incoming_of. destruct (al_enabled rule); [|by intros [= <-]].
  destruct (ContractRule.from_contract_definition _ _ _ _) as [set|] eqn:H; [|done]. intros [= <-]. by eapply definition_named.
Qed.

(** A text that was written is loaded. *)
Lemma written_load path text set (w : world DB) w' :
  fs_write path text w = (Ok tt, w') -> print set = Ok text -> RuleSet.validate set = Ok tt ->
  path_exists (w_fs w') path = true /\ read_to_string (w_fs w') path = Ok text.
Proof.
  intros H Hp Hv. apply fs_write_run in H as (q & Hq & Hstor & (i & Hf & Hi) & _).
  assert (is_file_inode i = true) as Hfile by (unfold is_file_inode; by rewrite Hi).
  assert (metadata (w_fs w') path = Ok i) as Hm.
  { unfold metadata, resolve, tree_get. rewrite Hf, (walk_stored _ _ _ _ _ q i); [|exact Hq|exact Hstor|exact Hfile].
    simpl. by rewrite lookup_insert_eq. }
  unfold path_exists, read_to_string. rewrite Hm. simpl. by rewrite Hi.
Qed.

(** What a successful application does. *)
Lemma apply_rule_run rule st u st' root :
  find (ManagedRoots.of_room (al_room_id rule)) (values (ms_roots st.2.1)) = Some root ->
  RoomSync.apply_server_rule_to_local_root parse print contract rule st = (Ok u, st') ->
  st'.1 = st.1 /\ st'.2.1 = st.2.1 /\
  exists old incoming, rules_of st root = Ok old /\ incoming_of rule = Ok incoming /\
    RuleSet.validate (RoomSync.merged_rules old (al_rule_id rule) incoming) = Ok tt /\
    rules_of st' root = Ok (RoomSync.merged_rules old (al_rule_id rule) incoming).
Proof.
  destruct st as [a [s w]]. simpl. intros Hfind H. unfold RoomSync.apply_server_rule_to_local_root in H.
  apply io_bind_ok in H as (found & st1 & (s1 & H1 & ->)%on_roots_run & H).
  unfold ManagedRoots.find_by_room, get_store, io_bind, io_gets, io_ret in H1. simpl in H1. rewrite Hfind in H1. injection H1 as <- <-.
  cbv zeta in H. set (rules_path := path_join _ RULES_FILE) in H. apply on_machine_run in H as (w' & H & ->). simpl in H. split_and!; [done..|].
  apply io_bind_ok in H as (f & w0 & [= <- <-] & H).
  apply io_bind_ok in H as (old & w1 & H1 & H). apply io_bind_ok in H as (incoming & w2 & H2 & H).
  apply io_bind_ok in H as (v & w3 & H3 & H). apply io_bind_ok in H as (v2 & w4 & H4 & H). apply io_bind_ok in H as (text & w5 & H5 & H).
  apply io_map_err_ok in H. injection H3 as H3 <-. injection H5 as H5 <-.
  assert (rules_of (a, (s, w)) root = Ok old) as Hold.
  { destruct (path_exists _ rules_path) eqn:He; [by apply io_lift_err_ok in H1 as [H1 _]|]. injection H1 as <- _.
    unfold rules_of, load_rule_set_for_root. by change (path_join (path_join (mr_root root) STATE_DIR) RULES_FILE) with rules_path; rewrite He. }
  assert (incoming_of rule = Ok incoming) as Hinc.
  { unfold incoming_of. destruct (al_enabled rule); [by apply io_lift_err_ok in H2 as [H2 _]|]. by injection H2 as <- _. }
  exists old, incoming. assert (RuleSet.validate (RoomSync.merged_rules old (al_rule_id rule) incoming) = Ok tt) as Hv.
  { by destruct (RuleSet.validate _) as [[]|]. }
  split_and!; [done..|]. destruct u, (print _) as [text'|] eqn:Hprint in H5; [|done]. injection H5 as ->.
  destruct (written_load _ _ _ _ _ H Hprint Hv) as [He Hr]. unfold rules_of, load_rule_set_for_root.
  change (path_join (path_join (mr_root root) STATE_DIR) RULES_FILE) with rules_path. unfold machine_of. simpl. rewrite He. simpl. rewrite Hr. simpl.
  rewrite (printed _ _ Hprint). simpl. by rewrite Hv.
Qed.

(** C30: A rule of the server that was applied to the folder of its room is read back from
    the folder's file: the rules of that id are exactly the ones the server's rule stands
    for (none when it is disabled), the other rules are the ones the file had, in order,
    and the agent and the registry are as before. A second application that succeeds
    leaves the same rules, so that the event may be replayed. *)
Theorem server_rule_applied rule st u st' root :
  find (ManagedRoots.of_room (al_room_id rule)) (values (ms_roots st.2.1)) = Some root ->
  RoomSync.apply_server_rule_to_local_root parse print contract rule st = (Ok u, st') ->
  st'.1 = st.1 /\ st'.2.1 = st.2.1 /\
  exists old incoming set, rules_of st root = Ok old /\ incoming_of rule = Ok incoming /\ rules_of st' root = Ok set /\
    List.filter (of_rule (al_rule_id rule)) (rules set) = incoming /\
    List.filter (fun r => negb (of_rule (al_rule_id rule) r)) (rules set)
    = List.filter (fun r => negb (of_rule (al_rule_id rule) r)) (rules old) /\
    forall u' st'', RoomSync.apply_server_rule_to_local_root parse print contract rule st' = (Ok u', st'') -> rules_of st'' root = Ok set.
Proof.
  intros Hfind H. destruct (apply_rule_run _ _ _ _ _ Hfind H) as (Ha & Hs & old & incoming & Ho & Hi & _ & Hr).
  pose proof (incoming_named _ _ Hi) as Hn. split_and!; [done..|]. exists old, incoming, (RoomSync.merged_rules old (al_rule_id rule) incoming).
  split_and!; [done..| | |]; [by apply merged_own|by apply merged_others|].
  intros u' st'' H'. rewrite <- Hs in Hfind. destruct (apply_rule_run _ _ _ _ _ Hfind H') as (_ & _ & old' & incoming' & Ho' & Hi' & _ & Hr').
  rewrite Hr in Ho'. rewrite Hi in Hi'. injection Ho' as <-. injection Hi' as <-. by rewrite Hr', merged_again.
Qed.
End rules.

(** * The rooms of a small desktop: a replay of the events of a server, a revoked device, a
    disconnect, a rule of the server and the cursors of the replay, each run to its end. *)

(** * A desktop of two folders, the first in a room and watched *)

Definition small_desktop : Desktop (taped helpful value_tree) deskdb :=
  mkDesktop ((paired, mkTaped [] Helpful), (sample_folders, desk_machine)) {[ "root-1" := mkRootWatcher "root-1" bound_root ]} no_cursors 0.
Definition small_desk : Desk (taped helpful value_tree) deskdb :=
  mkDesk small_desktop no_policies (mkSnapshotStore ∅ None) Limiter.default_limiter Overlay.default_runtime Status.default_status [].
Lemma sample_folders_ok : roots_ok sample_folders.
Proof.
  intros id root Hroot. simpl in Hroot. apply lookup_insert_Some in Hroot as [[<- <-]|[_ Hroot]]; [by split|].
  apply lookup_singleton_Some in Hroot as [<- <-]. by split.
Qed.

Lemma folders_apart : one_folder "room-1" (folders_of sample_folders).
Proof.
  assert (forall i x, folders_of sample_folders !! i = Some x -> knows_room "room-1" x = true -> i = "root-1") as Hone; [|by intros i j x y Hx Hy Kx Ky; rewrite (Hone i x), (Hone j y)].
  intros i x Hx Hk. rewrite lookup_folders in Hx. apply fmap_Some in Hx as (root & Hroot & ->). simpl in Hroot.
  apply lookup_insert_Some in Hroot as [[<- _]|[_ Hroot]]; [done|]. by apply lookup_singleton_Some in Hroot as [_ <-].
Qed.

(** Its room was removed, and a message was written in another. *)
Definition removed_event : SyncEventResponse value_tree :=
  mkSyncEventResponse "event-1" "room.removed" 1 "call-1" "room" "room-1" None None 3 "now" (TObject []).
Definition message_event : SyncEventResponse value_tree :=
  mkSyncEventResponse "event-2" "chat.message.created" 1 "call-2" "message" "message-1" None (Some "room-9") 7 "now"
    (TObject [("sessionId", TText "session-1")]).
#[local] Instance silent_errors : Serde ServerErrorResponse := no_codec _.
#[local] Instance removing_server : RoomCodecs value_tree := {|
  codec_room := no_codec _; codec_rules := no_codec _;
  codec_events := {| to_text _ := ""; from_text _ := Some [removed_event; message_event] |} |}.
Definition no_print : RuleSet -> result string string := fun _ => Err "".
Definition no_contract : value_tree -> result Contract.ContractRuleDefinition string := fun _ => Err "not a rule".
Definition replayed := Background.replay_events no_rules no_print no_contract "device-1" small_desk.
Definition answered := Background.on_office (office.on_agent (AgentRooms.replay_events (V:=value_tree) (desk_cursor "device-1" small_desk) 100)) small_desk.

(** Conversion compares these runs before it computes them. *)
Strategy 1000 [replayed answered].

Lemma replay_is_applied_witness :
  replayed.1 = Ok ReplayContinue /\ desk_cursor "device-1" replayed.2 = 7%Z /\
  nobody_in "room-1" (desk_folders replayed.2) /\ map rq_method (tp_requests (ds_office (dk_desktop replayed.2)).1.2) = ["GET"] /\
  dk_told replayed.2 = [BindingChanged "root-1"; ChatMessageCreated (mkAgentChatMessageSyncUpdate "room-9" "session-1" "message-1")].
Proof.
  assert (replayed.1 = Ok ReplayContinue) as Hok by (vm_compute; reflexivity).
  assert (desk_cursor "device-1" replayed.2 = 7%Z) as Hc by (vm_compute; reflexivity).
  split; [exact Hok|]. split; [exact Hc|]. split; [|split; vm_compute; reflexivity].
  assert (answered.1 = Ok (map sync_event_of [removed_event; message_event])) as Hasked by (vm_compute; reflexivity).
  unfold replayed in *. destruct (Background.replay_events _ _ _ _ _) as [r k'] eqn:H. simpl in Hok. subst r.
  destruct (replay_is_applied no_rules no_print no_contract "device-1" small_desk _ k' sample_folders_ok H) as (_ & _ & events & k1 & H1 & _ & _ & _ & _ & Hrooms).
  apply (f_equal fst) in H1.
  change (answered.1 = Ok events) in H1. rewrite Hasked in H1. injection H1 as <-. apply (Hrooms (sync_event_of removed_event)); [by left|done|done|].
  apply folders_apart.
Defined.

(** * The device was revoked *)

Definition revoked := RoomSync.apply_local_device_revoked small_desktop.
(** A folder with no work left, which leaves its room. *)
Definition left_room := RoomSync.disconnect_agent_room_impl (V:=value_tree) "root-1" "key-1" true small_desktop.
Strategy 1000 [revoked left_room].

Lemma revocation_lets_go_witness :
  folders_of (roots_of revoked.2) = leave <$> folders_of sample_folders /\ ds_watchers revoked.2 !! "root-1" = None /\
  ag_credential (ds_office revoked.2).1.1 = None.
Proof.
  assert (is_ok revoked.1 = true) as Hok by (vm_compute; reflexivity). unfold revoked in *.
  destruct (RoomSync.apply_local_device_revoked small_desktop) as [r d'] eqn:H.
  destruct (revocation_lets_go small_desktop r d' sample_folders_ok H) as (_ & Hf & Hw & _ & Hr). split; [exact Hf|].
  split; [apply (Hw "root-1" (folder_of bound_root)); done|]. destruct r; [apply Hr|discriminate Hok].
Defined.

Lemma disconnect_needs_finished_work_witness :
  is_ok left_room.1 = true /\ map rq_url (requests_of left_room.2) = ["https://server/v1/agent/rooms/room-1"] /\
  nobody_in "room-1" (folders_of (roots_of left_room.2)).
Proof.
  assert (is_ok left_room.1 = true) as Hok by (vm_compute; reflexivity). split; [exact Hok|]. split; [vm_compute; reflexivity|].
  unfold left_room in *. destruct (RoomSync.disconnect_agent_room_impl _ _ _ small_desktop) as [r d'] eqn:H.
  assert (ms_roots (roots_of small_desktop) !! "root-1" = Some bound_root) as Hroot by reflexivity.
  destruct (proj1 (disconnect_needs_finished_work "root-1" "key-1" true small_desktop r d' bound_root sample_folders_ok Hroot H) ltac:(discriminate)) as [_ Hr].
  destruct r; [|discriminate Hok]. destruct Hr as (room & base & c & Hroom & _ & _ & _ & Hn). injection Hroom as <-. exact (Hn folders_apart).
Defined.

(** * A rule of the server *)

Definition docs_contract : value_tree -> result Contract.ContractRuleDefinition string :=
  fun _ => Ok (Contract.mkContractRuleDefinition Contract.Any
    [Contract.Name Contract.Contains "draft"; Contract.Name Contract.Contains "old"] (Contract.Move "drafts")).
Definition server_rule : AgentRule value_tree := mkAgentRule "rule-1" "room-1" "Drafts" (TObject []) 5 true 1.
Definition incoming_rules : list Rule := match incoming_of docs_contract server_rule with Ok l => l | Err _ => [] end.
Definition expected_rules : RuleSet := RoomSync.merged_rules default_rule_set "rule-1" incoming_rules.
(** Texts of one set of rules. *)
Definition print_expected (set : RuleSet) : result string string :=
  if decide (version set = version expected_rules /\ rules set = rules expected_rules) then Ok "1" else Err "another set".
Definition parse_expected (text : string) : result RuleSet string := if (text =? "1")%string then Ok expected_rules else Err "another text".
Lemma print_parse_expected set text : print_expected set = Ok text -> parse_expected (trim_start_bom text) = Ok set.
Proof. unfold print_expected. case_decide as Hs; [|done]. intros [= <-]. destruct set as [v l]. simpl in Hs. by destruct Hs as [-> ->]. Qed.
Definition ruled := RoomSync.apply_server_rule_to_local_root parse_expected print_expected docs_contract server_rule (ds_office small_desktop).
Strategy 1000 [ruled].
Lemma server_rule_applied_witness :
  is_ok ruled.1 = true /\ map r_id incoming_rules = ["rule-1-any-1"; "rule-1-any-2"] /\
  exists set, rules_of parse_expected ruled.2 bound_root = Ok set /\ List.filter (of_rule "rule-1") (rules set) = incoming_rules.
Proof.
  assert (is_ok ruled.1 = true) as Hok by (vm_compute; reflexivity). split; [exact Hok|]. split; [vm_compute; reflexivity|].
  unfold ruled in *. destruct (RoomSync.apply_server_rule_to_local_root _ _ _ _ _) as [[u|e] st'] eqn:H; [|discriminate Hok].
  assert (find (ManagedRoots.of_room (al_room_id server_rule)) (values (ms_roots (ds_office small_desktop).2.1)) = Some bound_root) as Hfind
    by (vm_compute; reflexivity).
  destruct (server_rule_applied parse_expected print_expected docs_contract print_parse_expected server_rule _ u st' bound_root Hfind H)
    as (_ & _ & old & incoming & set & _ & Hi & Hset & Hown & _). exists set. split; [exact Hset|].
  unfold incoming_rules. rewrite Hi. exact Hown.
Defined.

(** * The cursors *)

Definition sync_machine : world (MemTables SyncTable) :=
  mkWorld sample_tree (fun _ => mem_of (mkSyncTable false ∅)) steady_clock 0 no_faults 0 100 [].
Definition sync_db : string := sample_root +:+ "/sync.db".
Definition some_calls : list AgentSync.Call := [AgentSync.Load sync_db; AgentSync.Advance "device-1" 5; AgentSync.Advance "device-1" 3].
Definition moved := AgentSync.advance "device-1" 9 (AgentSync.calls some_calls (no_cursors, sync_machine)).
Definition reloaded := AgentSync.load_from_db sync_db (no_cursors, (AgentSync.calls some_calls (no_cursors, sync_machine)).2).
Strategy 1000 [moved reloaded].
Lemma cursors_survive_witness : AgentSync.cursor "device-1" reloaded.2.1 = 5%Z /\ AgentSync.cursor "device-1" moved.2.1 = 9%Z.
Proof.
  assert (is_ok reloaded.1 && is_ok moved.1 = true) as [Hr Hm]%andb_true_iff by (vm_compute; reflexivity).
  assert (sy_pool (AgentSync.calls some_calls (no_cursors, sync_machine)).1 = Some sync_db) as Hp by (vm_compute; reflexivity).
  assert (AgentSync.cursor "device-1" (AgentSync.calls some_calls (no_cursors, sync_machine)).1 = 5%Z) as Hc by (vm_compute; reflexivity).
  unfold reloaded, moved in *. destruct (AgentSync.load_from_db _ _) as [r0 st0] eqn:H0. destruct (AgentSync.advance _ _ _) as [r st'] eqn:H.
  destruct (cursors_survive some_calls sync_machine "device-1" 9 r st') as [Hload Hadv]. specialize (Hload sync_db no_cursors r0 st0 Hp H0).
  destruct r0; [|discriminate Hr]. destruct r; [|discriminate Hm]. split; [unfold AgentSync.cursor in *; cbn [snd]; by rewrite Hload|].
  destruct (Hadv H) as [_ Hadv']. simpl. rewrite Hadv'. by rewrite decide_True.
Defined.

(** * A chat *)

Definition said (text : string) : ChatMessageResponse value_tree :=
  mkChatMessageResponse "message-1" "room-1" (Some "session-1") "USER" "TEXT" text (TObject []) None "now".
#[local] Instance talking : ChatCodecs value_tree := {|
  codec_chat_session := no_codec _; codec_chat_sessions := no_codec _; codec_chat_messages := no_codec _;
  codec_chat_send := {| to_text _ := ""; from_text _ := Some (mkChatSendResponse (said "tidy up") None "READY" (TObject []) None None) |};
  codec_quick_view := no_codec _; codec_quick_cleanup := no_codec _ |}.
#[local] Instance no_drafts : DraftCodecs value_tree := {|
  codec_command_confirmation := no_codec _; codec_rule_confirmation := no_codec _; codec_rule_rejection := no_codec _;
  codec_open_proposals := no_codec _; codec_proposal_detail := no_codec _; codec_decision := no_codec _ |}.
Definition chatted := run_call (SendMessage (V:=value_tree) "session-1" " tidy up ") (ds_office small_desktop).1.
Strategy 1000 [chatted].
Lemma chats_well_typed_witness :
  exists v, chatted.1 = Ok v /\ message_typed "session-1" (hd_message v) /\
    map rq_url (tp_requests chatted.2.2) = ["https://server/v1/chat-sessions/session-1/messages"].
Proof.
  assert (is_ok chatted.1 = true) as Hok by (vm_compute; reflexivity).
  assert (map rq_url (tp_requests chatted.2.2) = ["https://server/v1/chat-sessions/session-1/messages"]) as Hurl by (vm_compute; reflexivity).
  unfold chatted in *. destruct (run_call _ _) as [[v|e] st'] eqn:H; [|discriminate Hok]. exists v.
  destruct (chats_well_typed (SendMessage "session-1" " tidy up ") _ v st' H) as [[Hm _] _]. split_and!; [done|apply Hm..|exact Hurl].
Defined.
