(* ===== verification/background_facts.v ===== *)
(** The properties of a tick of the background work, and ticks evaluated. *)
From Stdlib Require Import ZArith Lia Ascii.
From stdpp Require Import strings pretty gmap functions option list.
From S2P Require Import prelude rust_str std_path std_fs fs_facts db journal_store proposal_types rule_definition index_sql tables outbox desk file_index.
From S2P Require Import managed_roots cleanliness agent network agent_work office outbox_processor command_processor delivery_facts approval_store auto_cleanup trash execute execution_processor.
From S2P Require Import auto_facts desk_db watcher watcher_lifecycle agent_files file_browse file_transfer smart_cache_store documents work_limiter agent_sync agent_chat room_sync overlay.
From S2P Require Import background replay_facts.

Open Scope string_scope.
Open Scope list_scope.


(** * A tick of the background work: nothing of the server's queue is asked for, and nothing
    is proposed, before the rooms and the events of the server are known; and a tick that
    stops leaves the status that lets a paired desktop start again. *)

(** The requests that establish what the desktop may do: its presence, its rooms, the
    events it missed and the rules of its rooms. *)
Inductive control {V} (base : string) (c : DeviceCredential) : HttpRequest V -> Prop :=
| asks_presence body :
    control base c (mkHttpRequest "POST" (base +:+ "/v1/devices/" +:+ dc_device_id c +:+ "/heartbeat") [] (Some (dc_device_token c)) None body)
| asks_rooms : control base c (mkHttpRequest "GET" (base +:+ "/v1/rooms") [] (Some (dc_device_token c)) None BNone)
| asks_room body : control base c (mkHttpRequest "POST" (base +:+ "/v1/rooms") [] (Some (dc_device_token c)) None body)
| asks_events query : control base c (mkHttpRequest "GET" (base +:+ "/v1/sync/events") query (Some (dc_device_token c)) None BNone)
| asks_rules room :
    control base c (mkHttpRequest "GET" (base +:+ "/v1/rooms/" +:+ room +:+ "/rules") [] (Some (dc_device_token c)) None BNone).

Section background.
Context {N V DB : Type} `{!SqlDb DB, !SqlTx DB, !SqlCount DB, !Http N V, !CredentialStore N, uploads : !Uploader (taped N V), keys : !CacheKeys (taped N V)}.
Context `{!JsonValue V, !Json V, !JsonValues V, !Serde ServerErrorResponse, !Serde HeartbeatResponse, !Serde CleanlinessSnapshot}.
Context `{!WorkCodecs V, !RoomCodecs V, !PayloadCodecs V, !ResponseCodecs V, !CommandCodecs V, !FileCodecs V, !CacheCodecs V}.
Context `{!Serde (list V), !Serde ProposalReport, !Serde SmartCacheKeyMaterial, urls : !UrlParser, formats : !Formats, hash : !Sha256, aes : !Aes}.
Context `{docs : !ToValue V DocumentExtraction, rule_values : !ToValue V (list Rule), reports : !ToValue V ExecuteReport}.
Context (unicode : string -> string) (parse : string -> result RuleSet string) (print : RuleSet -> result string string).
Context (contract : V -> result Contract.ContractRuleDefinition string).
Context (os_watch : tree -> string -> result unit string) (ui : UiEvent -> result unit string).
Context (tell : string -> CharacterEvent -> option (result unit string)).
Context (pretty_metadata : TrashMetadata -> result string string) (status_text : Z -> string) (meanwhile : nat -> world DB -> world DB) (fuel : nat).
Context (outbox : OutboxStore) (cache : SmartCacheStore).
Abbreviation desk := (Desk (taped N V) DB).
Implicit Types (k : desk) (d : Desktop (taped N V) DB).

Definition agent_of k : AgentState * taped N V := (ds_office (dk_desktop k)).1.
(** What was asked of the server between two states. *)
Definition desktop_asks own d d' : Prop := office_asks (V:=V) own (ds_office d) (ds_office d').
Definition desk_asks own k k' : Prop := asks own (agent_of k) (agent_of k').
#[export] Instance desktop_asks_preorder own : PreOrder (desktop_asks own).
Proof. split; [intros d; unfold desktop_asks; reflexivity|]. intros d1 d2 d3 H1 H2. unfold desktop_asks in *. by etrans. Qed.
#[export] Instance desk_asks_preorder own : PreOrder (desk_asks own).
Proof. split; [intros k; unfold desk_asks; reflexivity|]. intros d1 d2 d3 H1 H2. unfold desk_asks in *. by etrans. Qed.

(** ** Operations on a part *)

Section own.
Context (own : string -> DeviceCredential -> HttpRequest V -> Prop).
Lemma office_part {A} (m : io (office (taped N V) DB) string A) : io_rel (office_asks own) m -> io_rel (desktop_asks own) (RoomSync.on_office m).
Proof. intros Hm. eapply io_rel_zoom; [exact Hm|]. by intros d o. Qed.
Lemma desktop_part {A} (m : io (Desktop (taped N V) DB) string A) : io_rel (desktop_asks own) m -> io_rel (desk_asks own) (Background.on_desktop m).
Proof. intros Hm. eapply io_rel_zoom; [exact Hm|]. by intros k d. Qed.
Lemma cursors_part {A} (m : io (AgentSyncStore * world DB) string A) : io_rel (desktop_asks own) (RoomSync.on_cursors m).
Proof. intros d r d' (v & _ & ->)%zoom_run. unfold desktop_asks, office_asks. simpl. reflexivity. Qed.
Lemma watchers_part {A} (f : WatcherStore -> A * WatcherStore) : io_rel (desktop_asks own) (RoomSync.on_watchers f).
Proof. intros d r d'. unfold RoomSync.on_watchers. destruct (f _) as [a s]. intros [= _ <-]. unfold desktop_asks. simpl. reflexivity. Qed.
Lemma life_part {A} (m : io (Life DB) string A) : io_rel (desk_asks own) (Background.on_life m).
Proof. intros k r k' (v & _ & ->)%zoom_run. unfold desk_asks, agent_of. simpl. reflexivity. Qed.
Lemma notify_part event : io_rel (desk_asks own) (Background.notify (N:=taped N V) (DB:=DB) event).
Proof. intros k r k' [= _ <-]. unfold desk_asks, agent_of. simpl. reflexivity. Qed.
Lemma status_part f : io_rel (desk_asks own) (Background.update_status (N:=taped N V) (DB:=DB) f).
Proof. intros k r k' [= _ <-]. unfold desk_asks, agent_of. simpl. reflexivity. Qed.
Lemma character_part event : io_rel (desk_asks own) (Background.show_character (N:=taped N V) (DB:=DB) tell event).
Proof. intros k r k' [= _ <-]. unfold desk_asks, agent_of. simpl. reflexivity. Qed.
Lemma limited_part {A} kind (skipped : A) (m : io desk string A) : io_rel (desk_asks own) m -> io_rel (desk_asks own) (Background.limited kind skipped m).
Proof.
  intros Hm k r k' H. unfold Background.limited in H. destruct (Limiter.try_begin _ _) as [[permit|busy] l].
  - match type of H with (let '(_, _) := m ?k0 in _) = _ => destruct (m k0) as [r1 k1] eqn:H1; apply Hm in H1 end. injection H as _ <-. exact H1.
  - injection H as _ <-. unfold desk_asks, agent_of. simpl. reflexivity.
Qed.
Lemma forget_part : io_rel (asks own) (Agent.forget_device (N:=taped N V)).
Proof.
  intros [a t] r st'. unfold Agent.forget_device, Agent.on_network, Agent.get_state, Agent.set_state, io_bind, io_gets, io_ret.
  cbn [credentials_delete taped_keys]. unfold on_tape. simpl. destruct (credentials_delete (tp_net t)) as [r0 n].
  destruct r0; intros [= _ <-]; (split; [split; [done|simpl; auto]|exists []; by rewrite app_nil_r]).
Qed.
End own.
#[local] Hint Resolve cursors_part watchers_part life_part notify_part status_part character_part forget_part on_roots_asks on_machine_asks : io.
#[local] Hint Resolve office_part desktop_part limited_part on_agent_asks | 2 : io.
Lemma unix_ms_asks own : io_rel (desk_asks own) (Background.unix_ms (N:=taped N V) (DB:=DB)).
Proof. apply desktop_part, office_part, on_machine_asks. Qed.
Lemma connection_asks own : io_rel (desk_asks own) (Background.connection (N:=taped N V) (DB:=DB)).
Proof. unfold Background.connection, RoomSync.status. apply desktop_part. io_rel_go. Qed.
#[local] Hint Resolve unix_ms_asks connection_asks : io.
Lemma update_at_asks own t f : io_rel (desk_asks own) (Background.update_at (N:=taped N V) (DB:=DB) t f).
Proof. unfold Background.update_at. io_rel_go. Qed.
#[local] Hint Resolve update_at_asks : io.
Lemma detached_asks own room : io_rel (desktop_asks own) (RoomSync.apply_local_room_detached (N:=taped N V) (DB:=DB) room).
Proof. unfold RoomSync.apply_local_room_detached, RoomSync.on_roots, RoomSync.on_machine. io_rel_go. Qed.
Lemma revoked_asks own : io_rel (desktop_asks own) (RoomSync.apply_local_device_revoked (N:=taped N V) (DB:=DB)).
Proof.
  unfold RoomSync.apply_local_device_revoked, RoomSync.forget_folder, RoomSync.on_roots, RoomSync.on_machine, RoomSync.on_agent, RoomSync.status. io_rel_go.
Qed.
#[local] Hint Resolve detached_asks revoked_asks : io.

(** ** What the control part asks *)

Lemma heartbeat_asks presence : io_rel (asks control) (Agent.heartbeat (V:=V) (N:=taped N V) presence).
Proof. unfold Agent.heartbeat. destruct (negb _); [io_rel_go|]. asks_go. constructor. Qed.
(** A request made after another: the agent is still the one that made the first. *)
Lemma send_json_same {T} `{!Serde T} (rq : HttpRequest V) (st : AgentState * taped N V) r st' :
  Agent.send_json (T:=T) rq st = (r, st') -> st'.1 = st.1.
Proof.
  unfold Agent.send_json. intros [(resp & st1 & H1 & H2)|(e & H1 & _)]%io_bind_inv.
  - unfold io_lift in H2. injection H2 as _ <-. unfold Agent.send in H1. destruct (http_send rq st.2). by injection H1 as _ <-.
  - unfold Agent.send in H1. destruct (http_send rq st.2). by injection H1 as _ <-.
Qed.
Lemma then_at own {T B} `{!Serde T} (rq : HttpRequest V) (k : T -> io (AgentState * taped N V) AgentError B) st :
  asks_at own st (Agent.send_json (T:=T) rq) -> (forall a st1, st1.1 = st.1 -> asks_at own st1 (k a)) -> asks_at own st (io_bind (Agent.send_json rq) k).
Proof.
  intros Hm Hk r st' [(a & st1 & H1 & H2)|(e & H1 & _)]%io_bind_inv; [|by eapply Hm].
  etrans; [by eapply Hm|]. eapply Hk; [by eapply send_json_same|exact H2].
Qed.
Lemma rel_at own {A} (m : io (AgentState * taped N V) AgentError A) st : io_rel (asks own) m -> asks_at own st m.
Proof. intros Hm r st' H. by eapply Hm. Qed.
Lemma ensure_room_asks root_id name : io_rel (asks control) (AgentRooms.ensure_room_for_root (V:=V) (N:=taped N V) root_id name).
Proof.
  unfold AgentRooms.ensure_room_for_root. apply io_rel_bind; [apply _|io_rel_go|]. intros _. destruct (_ || _); [io_rel_go|].
  apply authenticated_asks. intros base c st Hb Hc. apply then_at; [eapply send_json_at; [done..|constructor]|]. intros rooms st1 Hst.
  intros r st' [(existing & st2 & H1 & H2)|(e & H1 & _)]%io_bind_inv; unfold io_lift in H1; injection H1 as _ <-; [|reflexivity].
  revert r st' H2. destruct (find _ _); [apply rel_at; io_rel_go|]. apply bind_at; [eapply send_json_at; [by rewrite Hst..|constructor]|].
  intros room. io_rel_go.
Qed.
Lemma replay_asks after limit : io_rel (asks control) (AgentRooms.replay_events (V:=V) (N:=taped N V) after limit).
Proof. unfold AgentRooms.replay_events. destruct (negb _); [io_rel_go|]. asks_go. constructor. Qed.
Lemma list_rules_asks room : io_rel (asks control) (AgentRooms.list_rules (V:=V) (N:=taped N V) room).
Proof. unfold AgentRooms.list_rules. asks_go. constructor. Qed.
#[local] Hint Resolve heartbeat_asks ensure_room_asks replay_asks list_rules_asks : io.

(** ** The parts of a tick *)

Lemma stop_asks own : io_rel (desk_asks own) (Background.stop_if_agent_revoked (N:=taped N V) (DB:=DB) tell).
Proof. unfold Background.stop_if_agent_revoked, Background.mark_suspended, Background.emit_overlay_activity. io_rel_go. Qed.
#[local] Hint Resolve stop_asks : io.
Lemma beat_asks : io_rel (desk_asks control) (Background.heartbeat (V:=V) (N:=taped N V) (DB:=DB) tell).
Proof.
  unfold Background.heartbeat, Background.mark_suspended, Background.report_error, Background.emit_overlay_activity.
  apply io_rel_bind; [apply _|io_rel_go|]. intros before. apply io_rel_bind; [apply _| |intros beat; io_rel_go].
  apply desktop_part, office_part. intros o r o'. destruct (Agent.heartbeat (V:=V) "ONLINE_IDLE" o.1) as [r0 a] eqn:H.
  intros [= _ <-]. eapply heartbeat_asks in H. exact H.
Qed.
Lemma sync_asks activity : io_rel (desk_asks control) (Background.sync_rooms (V:=V) (N:=taped N V) (DB:=DB) unicode parse os_watch ui outbox activity).
Proof.
  unfold Background.sync_rooms, Background.watch_room, Background.report_error, Background.on_office, RoomSync.sync_unbound_agent_rooms,
    RoomSync.sync_one, RoomSync.ensure_agent_room, RoomSync.preflight_agent_room_binding, RoomSync.activate_agent_room_binding.
  apply limited_part. io_rel_go; apply desktop_part, office_part; io_rel_go.
Qed.
Lemma rule_asks event : io_rel (office_asks control) (RoomSync.apply_rule_created_event (N:=taped N V) (DB:=DB) parse print contract event).
Proof. unfold RoomSync.apply_rule_created_event, RoomSync.apply_server_rule_to_local_root. io_rel_go. Qed.
#[local] Hint Resolve rule_asks : io.
Lemma event_asks dev event : io_rel (desk_asks control) (Background.replay_event (N:=taped N V) (DB:=DB) parse print contract dev event).
Proof. unfold Background.replay_event, Background.on_office. io_rel_go; apply desktop_part; eauto with io. Qed.
#[local] Hint Resolve event_asks : io.
Lemma events_asks dev events : io_rel (desk_asks control) (Background.replay_all (N:=taped N V) (DB:=DB) parse print contract dev events).
Proof. induction events as [|event events IH]; simpl; io_rel_go. Qed.
#[local] Hint Resolve events_asks : io.
Lemma replayed_asks : io_rel (desk_asks control) (Background.replay (N:=taped N V) (DB:=DB) parse print contract tell).
Proof.
  unfold Background.replay, Background.replay_events, Background.report_error, Background.mark_suspended, Background.emit_overlay_activity,
    Background.on_office. io_rel_go; apply desktop_part; eauto with io.
Qed.

(** ** A tick that stops *)

(** The status that [start] recognises after a revocation. *)
Definition suspended k : Prop := BackgroundRuntime.should_clear_revoked_task (dk_status k) = true.
Lemma suspended_after k k' : Background.mark_suspended Status.DEVICE_REVOKED_REASON k = (Ok tt, k') -> suspended k'.
Proof.
  unfold Background.mark_suspended, Background.update_at. intros (now & k1 & _ & H)%io_bind_ok. injection H as <-. by vm_compute.
Qed.
Lemma shown_suspended event k r k' : suspended k -> Background.show_character tell event k = (r, k') -> suspended k'.
Proof. intros Hs [= _ <-]. exact Hs. Qed.
(** An early return of a tick, when it stops it. *)
Definition stops_suspended (m : io desk string (option BackgroundTickOutcome)) : Prop :=
  forall k o k', m k = (Ok (Some o), k') -> o = TickStop -> suspended k'.
Definition ends_suspended (m : io desk string BackgroundTickOutcome) : Prop := forall k k', m k = (Ok TickStop, k') -> suspended k'.
Lemma stop_suspends : stops_suspended (Background.stop_if_agent_revoked tell).
Proof.
  intros k o k' H _. unfold Background.stop_if_agent_revoked in H. apply io_bind_ok in H as (st & k1 & _ & H).
  destruct (negb _); [done|]. apply io_bind_ok in H as ([] & k2 & H2 & H). apply io_bind_ok in H as (u & k3 & H3 & H).
  injection H as _ <-. eapply shown_suspended; [by eapply suspended_after|exact H3].
Qed.
Lemma heartbeat_suspends : stops_suspended (Background.heartbeat (V:=V) tell).
Proof.
  intros k o k' H ->. unfold Background.heartbeat in H. apply io_bind_ok in H as (before & k1 & _ & H). apply io_bind_ok in H as (beat & k2 & _ & H).
  destruct beat as [b|e]; [by apply io_bind_ok in H as (u & k3 & _ & [=])|].
  apply io_bind_ok in H as ([] & k3 & H3 & H). apply io_bind_ok in H as (u & k4 & H4 & H). injection H as H <-.
  destruct (is_confirmed_device_absent e); [|done]. apply io_bind_ok in H3 as (u1 & k5 & _ & H3). apply io_bind_ok in H3 as (u2 & k6 & _ & H3).
  eapply shown_suspended; [by eapply suspended_after|exact H4].
Qed.
Lemma replay_suspends : stops_suspended (Background.replay parse print contract tell).
Proof.
  intros k o k' H ->. unfold Background.replay in H. apply io_bind_ok in H as (st & k1 & _ & H). destruct (st_device_id st) as [dev|]; [|done].
  apply io_bind_ok in H as (replayed & k2 & _ & H). destruct replayed as [[|]|e].
  - apply io_bind_ok in H as (u & k3 & _ & H). by eapply stop_suspends.
  - apply io_bind_ok in H as ([] & k3 & H3 & H). injection H as <-. by eapply suspended_after.
  - apply io_bind_ok in H as (u & k3 & _ & H). by apply io_bind_ok in H as (u' & k4 & _ & [=]).
Qed.
Lemma unless_suspends m after : stops_suspended m -> ends_suspended after -> ends_suspended (Background.unless m after).
Proof.
  intros Hm Ha k k' H. unfold Background.unless in H. apply io_bind_ok in H as (stopped & k1 & H1 & H).
  destruct stopped as [o|]; [|by eapply Ha]. injection H as -> <-. by eapply Hm.
Qed.
Lemma then_suspends m after : (forall a, ends_suspended (after a)) -> ends_suspended (Background.then_unless_revoked tell m after).
Proof.
  intros Ha k k' H. unfold Background.then_unless_revoked in H. apply io_bind_ok in H as (a & k1 & _ & H).
  eapply unless_suspends; [apply stop_suspends|apply Ha|exact H].
Qed.
Lemma cleanup_suspends activity k a o k' :
  Background.auto_cleanup (V:=V) parse tell activity k = (Ok (a, Some o), k') -> o = TickStop -> suspended k'.
Proof.
  intros H Ho. unfold Background.auto_cleanup in H. apply io_bind_ok in H as (due & k1 & _ & H). apply io_bind_ok in H as ([a1 found] & k2 & _ & H).
  destruct found as [cleanup|]; simpl in H; [|done]. apply io_bind_ok in H as (a2 & k3 & _ & H). apply io_bind_ok in H as (stopped & k4 & H4 & H).
  injection H as _ -> <-. by eapply stop_suspends.
Qed.
Abbreviation work := (Background.work (V:=V) unicode parse pretty_metadata status_text ui tell meanwhile fuel outbox cache).
Abbreviation tick := (Background.run_background_tick unicode parse print contract pretty_metadata status_text os_watch ui tell meanwhile fuel outbox cache).
Abbreviation replay := (Background.replay (N:=taped N V) (DB:=DB) parse print contract tell).
Lemma continues : ends_suspended (io_ret TickContinue).
Proof. by intros k k' [=]. Qed.
Lemma then_continues (m : io desk string unit) : ends_suspended (do! m; io_ret TickContinue).
Proof. by intros k k' (u & k1 & _ & [=])%io_bind_ok. Qed.
Lemma work_suspends mode activity : ends_suspended (work mode activity).
Proof.
  intros k k' H. unfold Background.work in H. apply io_bind_ok in H as ([a stopped] & k1 & H1 & H).
  unfold Background.unless in H at 1. apply io_bind_ok in H as (x & k2 & [= <- <-] & H).
  destruct stopped as [o|]; [injection H as -> <-; by eapply cleanup_suspends|]. revert k1 k' H1 H. intros k1 k' _. revert k1 k'.
  apply then_suspends. intros a1. apply then_suspends. intros a2 k1 k' (a3 & k2 & _ & H)%io_bind_ok. revert k2 k' H.
  apply then_suspends. intros a4. destruct (negb _).
  - apply then_suspends. intros a5. apply then_continues.
  - apply then_suspends. intros a5. apply then_suspends. intros a6. apply then_suspends. intros a7. apply then_continues.
Qed.

Lemma connection_run k : Background.connection k = (Ok (Agent.connection_status (agent_of k).1), k).
Proof. by destruct k as [[[[a t] [s w]] ws cs z] ps ss l o s' e]. Qed.
(** A replay that lets the tick go on. *)
Lemma replay_ran k k' :
  replay k = (Ok None, k') ->
  ag_credential (agent_of k).1 = None \/
  exists dev k2, Background.replay_events parse print contract dev k = (Ok ReplayContinue, k2) /\ agent_of k' = agent_of k2.
Proof.
  intros H. unfold Background.replay in H. unfold io_bind at 1 in H. rewrite connection_run in H.
  destruct (st_device_id _) as [dev|] eqn:Hdev; [right; exists dev|left; simpl in Hdev; by destruct (ag_credential _)].
  apply io_bind_ok in H as (replayed & k2 & H2 & H). unfold io_try in H2.
  destruct (Background.replay_events _ _ _ dev k) as [r0 k2'] eqn:Hr. injection H2 as <- <-. destruct r0 as [[|]|e].
  - exists k2'. split; [done|]. apply io_bind_ok in H as ([] & k3 & H3 & H).
    assert (agent_of k3 = agent_of k2') as <-.
    { unfold Background.update_at in H3. apply io_bind_ok in H3 as (now & k4 & H4 & H3). injection H3 as <-.
      unfold agent_of. simpl. apply zoom_run in H4 as (d & H4 & ->). apply zoom_run in H4 as (o & H4 & ->). apply on_roots_run in H4 as (s & _ & ->). done. }
    unfold Background.stop_if_agent_revoked in H. unfold io_bind at 1 in H. rewrite connection_run in H. destruct (negb _).
    + by injection H as <-.
    + apply io_bind_ok in H as (u & k4 & _ & H). by apply io_bind_ok in H as (u' & k5 & _ & [=]).
  - by apply io_bind_ok in H as (u & k3 & _ & [=]).
  - apply io_bind_ok in H as (u & k3 & _ & H). by apply io_bind_ok in H as (u' & k4 & _ & [=]).
Qed.

(** C13: A tick of the background fails closed.  Either all it asks of the server is what
    establishes what the desktop may do - its presence, its rooms, their rules and the
    events it missed - or its work began right after a replay of the events that succeeded,
    unless the credential was lost before it; so no command, decision or proposal follows
    an event that was missed.  A tick that stops the work leaves the status from which a
    desktop that is paired again starts. *)
Theorem tick_fails_closed mode k r k' :
  tick mode k = (r, k') ->
  (desk_asks control k k' \/
   exists k0 k1 activity, TickMode.reconciles mode = true /\ desk_asks control k k1 /\ replay k0 = (Ok None, k1) /\
     (ag_credential (agent_of k0).1 = None \/
      exists dev k2, Background.replay_events parse print contract dev k0 = (Ok ReplayContinue, k2) /\ agent_of k1 = agent_of k2) /\
     work mode activity k1 = (r, k')) /\
  (r = Ok TickStop -> suspended k').
Proof.
  intros H. unfold Background.run_background_tick in H. unfold io_bind at 1 in H. rewrite connection_run in H.
  destruct (st_device_id _) as [dev0|]; [|by injection H as <- <-; split; [left; reflexivity|]].
  set (beat := if TickMode.sends_heartbeat mode then _ else _) in H.
  assert (io_rel (desk_asks control) beat /\ stops_suspended beat) as [Hbeat Hstop].
  { subst beat. destruct (TickMode.sends_heartbeat mode); [split; [apply beat_asks|apply heartbeat_suspends]|].
    split; [io_rel_go|by intros k0 o k0' [=]]. }
  unfold Background.unless at 1 in H. apply io_bind_inv in H as [(stopped & k1 & H1 & H)|(e & H1%Hbeat & ->)]; [|by split; [left|]].
  pose proof (Hbeat _ _ _ H1) as Hk1. destruct stopped as [o|].
  { injection H as <- <-. split; [by left|]. intros [= ->]. by eapply Hstop. }
  destruct (TickMode.reconciles mode) eqn:Hmode; simpl in H; [|by injection H as <- <-; split; [left|]].
  apply io_bind_inv in H as [(activity & k2 & H2%sync_asks & H)|(e & H2%sync_asks & ->)]; [|by split; [left; etrans|]].
  assert (desk_asks control k k2) as Hk2 by (by etrans). unfold Background.unless in H.
  apply io_bind_inv in H as [(o & k3 & H3 & H)|(e & H3%replayed_asks & ->)]; [|by split; [left; etrans|]].
  assert (desk_asks control k k3) as Hk3 by (etrans; [exact Hk2|by eapply replayed_asks]). destruct o as [o|].
  { injection H as <- <-. split; [by left|]. intros [= ->]. by eapply replay_suspends. }
  split; [right; exists k2, k3, activity; split_and!; try done|intros ->; by eapply work_suspends]. by apply replay_ran.
Qed.
End background.

(** * Ticks of a small desktop: one in which the server says, when asked for the events, that
    the device was revoked, and what is left after it. *)

(** * A server that has revoked the device *)

Inductive revoking := Revoking.
#[local] Instance revoking_http : Http revoking value_tree := {|
  http_send req n := (Some (if contains (rq_url req) "/sync/events" || contains (rq_url req) "/heartbeat" then mkHttpResponse 403 "DEVICE_REVOKED" else mkHttpResponse 200 ""), n);
  http_status_text := fmt_int |}.
#[local] Instance revoking_keys : CredentialStore revoking := no_keyring _.
#[local] Instance revoked_code : Serde ServerErrorResponse := {|
  to_text _ := ""; from_text t := if (t =? "DEVICE_REVOKED")%string then Some (mkServerErrorResponse (Some t) None) else None |}.

(** What the tick does not come to. *)
#[local] Instance no_uploads : Uploader (taped revoking value_tree) := fun _ _ _ n => (None, n).
#[local] Instance no_keys : CacheKeys (taped revoking value_tree) := {|
  fill_bytes _ n := ("", n); keyring_entry n := (false, n); keyring_get n := (Ok None, n); keyring_set _ n := (Err tt, n) |}.
#[local] Instance no_values : JsonValues value_tree := {| json_bool _ := TNull; json_array _ := TNull; json_as_bool _ := None |}.
#[local] Instance no_beat : Serde HeartbeatResponse := no_codec _.
#[local] Instance no_snapshot : Serde CleanlinessSnapshot := no_codec _.
#[local] Instance no_rooms : RoomCodecs value_tree := {| codec_room := no_codec _; codec_rules := no_codec _; codec_events := no_codec _ |}.
#[local] Instance no_files : FileCodecs value_tree := {|
  codec_browse_requests := no_codec _; codec_transfers := no_codec _; codec_transfer_response := no_codec _; codec_upload_target := no_codec _;
  codec_cache_policy := no_codec _; codec_cache_batch := no_codec _; codec_tools := no_codec _ |}.
#[local] Instance no_caches : CacheCodecs value_tree := {|
  codec_version := no_codec _; version_value := fun _ => Err ""; batch_text _ _ := Err "" |}.
#[local] Instance no_list : Serde (list value_tree) := no_codec _.
#[local] Instance no_report : Serde ProposalReport := no_codec _.
#[local] Instance no_material : Serde SmartCacheKeyMaterial := no_codec _.
#[local] Instance no_url : UrlParser := fun _ => None.
#[local] Instance no_formats : Formats := {| pdf_text _ := Err ""; zip_open _ := Err ""; xml_events _ := [] |}.
#[local] Instance no_aes : Aes := fun _ _ _ => None.
#[local] Instance no_documents : ToValue value_tree DocumentExtraction := fun _ => Err "".
#[local] Instance no_rule_values : ToValue value_tree (list Rule) := fun _ => Err "".

Definition watching_desktop : Desktop (taped revoking value_tree) deskdb :=
  mkDesktop ((paired, mkTaped [] Revoking), (sample_folders, desk_machine)) {[ "root-1" := mkRootWatcher "root-1" bound_root ]} no_cursors 0.
Definition running_desk : Desk (taped revoking value_tree) deskdb :=
  mkDesk watching_desktop no_policies (mkSnapshotStore ∅ None) Limiter.default_limiter Overlay.default_runtime
    (Status.with_state Running Status.default_status) [].
Definition tick_of (mode : BackgroundTickMode) :=
  Background.run_background_tick (V:=value_tree) (fun s => s) no_rules (fun _ => Err "") (fun _ => Err "") (fun _ => Err "") fmt_int
    (fun _ _ => Ok tt) (fun _ => Ok tt) (fun _ _ => None) (fun _ w => w) 10 sample_outbox (mkSmartCacheStore None) mode.
(** The tick that a notification of the server wakes. *)
Definition woken := tick_of FullReconcileOnly running_desk.
Definition after_woken := tick_of HeartbeatAndFullReconcile woken.2.
(** A tick that begins with a heartbeat. *)
Definition beaten := tick_of HeartbeatAndFullReconcile running_desk.
Strategy 1000 [woken after_woken beaten].

Lemma tick_fails_closed_witness :
  beaten.1 = Ok TickStop /\ suspended beaten.2 /\
  map rq_url (tp_requests (agent_of beaten.2).2) = ["https://server/v1/devices/device-1/heartbeat"].
Proof.
  assert (beaten.1 = Ok TickStop) as Hstop by (vm_compute; reflexivity).
  split; [exact Hstop|]. split; [|vm_compute; reflexivity]. unfold beaten, tick_of in *.
  destruct (Background.run_background_tick _ _ _ _ _ _ _ _ _ _ _ _ _ _ _) as [r k'] eqn:H.
  exact (proj2 (tick_fails_closed (N:=revoking) (DB:=deskdb) _ _ _ _ _ _ _ _ _ _ _ _ _ _ _ _ _ H) Hstop).
Defined.

(** The notification that the device was revoked is lost: the credential is forgotten, but
    the folder stays in its room and watched, the work is not suspended, the windows are
    not told, and a later tick finds no device and does nothing. *)
Example woken_tick_misses_revocation :
  woken.1 = Ok TickContinue /\ ag_credential (agent_of woken.2).1 = None /\ bs_state (dk_status woken.2) = Running /\
  (mr_room_id <$> ms_roots (ds_office (dk_desktop woken.2)).2.1 !! "root-1") = Some (Some "room-1") /\
  Watchers.is_watching "root-1" (ds_watchers (dk_desktop woken.2)) = true /\
  existsb (fun e => match e with DesktopDeviceRevoked _ => true | _ => false end) (dk_told woken.2) = false /\
  after_woken.1 = Ok TickContinue /\ length (dk_told after_woken.2) = length (dk_told woken.2).
Proof. split_and!; vm_compute; reflexivity. Qed.
