(* ===== verification/command_line.v ===== *)
(** The command line of the engine, and what an invocation of it may do. *)
From Stdlib Require Import ZArith Lia Ascii.
From stdpp Require Import strings pretty gmap functions option list relations.
From S2P Require Import prelude rust_str std_path std_fs fs_facts path_guard db journal_store proposal_types decision rule_definition rule_engine analyzer browse.
From S2P Require Import index_sql file_index proposal precondition trash execute history file_ops undo engine_safety journal_facts engine index_facts index_engine.

Open Scope string_scope.
Open Scope list_scope.


(** * [tools/file-engine-cli/src/main.rs]: the command line of the engine.  What is printed is
    made by [serde_json], the argument [show]; an invocation ends with a line for the
    standard output, or with an exit code and lines for the standard error. *)

(** * Options *)

Record CommandOptions := mkCommandOptions { co_proposal : option string; co_decision : option string }.
(** [process::exit(code)], after the lines for the standard error *)
Record Exit := mkExit { ex_code : Z; ex_stderr : list string }.
(** What [serde_json::to_string_pretty] is asked for *)
Inductive Report :=
| RpAnalyze (r : AnalyzeReport)
| RpBrowse (r : BrowseReport)
| RpIndex (r : FileIndexReport)
| RpRules (r : RuleSet)
| RpProposal (r : ProposalReport)
| RpPrecheck (r : PrecheckReport)
| RpJournal (r : JournalWriteReport)
| RpRecovery (r : JournalRecoveryReport)
| RpExecute (r : ExecuteReport)
| RpTrash (r : TrashReport)
| RpCreateFile (r : CreateFileReport)
| RpRenameFile (r : RenameFileReport)
| RpUndo (r : UndoReport).

Module CommandLine.
Definition usage : list string :=
  ["usage:";
   "  file-engine-cli guard <managed-root> <relative-path>";
   "  file-engine-cli analyze <managed-root>";
   "  file-engine-cli browse <managed-root> [--path <relative-path>]";
   "  file-engine-cli index <managed-root>";
   "  file-engine-cli search <managed-root> <query>";
   "  file-engine-cli rules <managed-root>";
   "  file-engine-cli propose <managed-root>";
   "  file-engine-cli precheck <managed-root> [--proposal <proposal.json> [--decision <decision.jsonl>]]";
   "  file-engine-cli journal <managed-root>";
   "  file-engine-cli recover-journal <managed-root>";
   "  file-engine-cli execute <managed-root> [--proposal <proposal.json> [--decision <decision.jsonl>]]";
   "  file-engine-cli trash <managed-root> <relative-path>";
   "  file-engine-cli create-file <managed-root> <relative-path>";
   "  file-engine-cli rename-file <managed-root> <relative-path> <new-file-name>";
   "  file-engine-cli undo <managed-root>"].
Definition usage_exit : Exit := mkExit 2 usage.

(** [args.next()] after an option may give nothing: the option is then absent. *)
Fixpoint parse_path_option_go (path : option string) (args : list string) : result (option string) Exit :=
  match args with
  | [] => Ok path
  | arg :: args =>
      if (arg =? "--path")%string
      then match args with value :: args => parse_path_option_go (Some value) args | [] => Ok None end
      else Err usage_exit
  end.
Definition parse_path_option : list string -> result (option string) Exit := parse_path_option_go None.

Fixpoint parse_options_go (options : CommandOptions) (args : list string) : result CommandOptions Exit :=
  match args with
  | [] => Ok options
  | arg :: args =>
      if (arg =? "--proposal")%string then
        match args with
        | value :: args => parse_options_go (mkCommandOptions (Some value) (co_decision options)) args
        | [] => Ok (mkCommandOptions None (co_decision options))
        end
      else if (arg =? "--decision")%string then
        match args with
        | value :: args => parse_options_go (mkCommandOptions (co_proposal options) (Some value)) args
        | [] => Ok (mkCommandOptions (co_proposal options) None)
        end
      else Err usage_exit
  end.
Definition parse_options (args : list string) : result CommandOptions Exit :=
  let? options := parse_options_go (mkCommandOptions None None) args in
  match co_decision options, co_proposal options with
  | Some _, None => Err usage_exit
  | _, _ => Ok options
  end.

Section main.
Context {DB : Type} `{!SqlDb DB, !SqlTx DB}.
(** [parse], [report_from_str] and [decision_from_str] read rules, a proposal and a line of
    decisions; [show], [to_string] and [to_string_pretty] write reports, rows of a journal
    and the metadata of a trash; [unicode] lowers a text. *)
Context (parse : string -> result RuleSet string) (report_from_str : string -> result ProposalReport string)
  (decision_from_str : string -> result DecisionEntry string).
Context (show : Report -> result string string) (to_string : RawJournalRow -> result string string)
  (to_string_pretty : TrashMetadata -> result string string) (unicode : string -> string).
Abbreviation CLI := (io (world DB) Exit).

(** [eprintln!("{what}: {error}"); process::exit(1)] *)
Definition failed (what : string) (error : string) : Exit := mkExit 1 [what +:+ ": " +:+ error].
Definition print_json_or_exit (report : Report) : CLI string :=
  io_lift (map_err (failed "cannot serialize report") (show report)).
(** [match m.and_then(|report| to_string_pretty(&report).map_err(serialize))], with the
    error printed after [what] *)
Definition reported {E A} (what : string) (fmt : E -> string) (serialize : string -> E) (wrap : A -> Report)
  (m : io (world DB) E A) : CLI string :=
  io_map_err (fun e => failed what (fmt e))
    (let! report := m in io_lift (map_err serialize (show (wrap report)))).
(** A report with its own error of printing *)
Definition printed {E} (what : string) (fmt : E -> string) (m : io (world DB) E FileIndexReport) : CLI string :=
  let! report := io_map_err (fun e => failed what (fmt e)) m in
  print_json_or_exit (RpIndex report).

Definition apply_optional_decisions (proposal : ProposalReport) (decision_path : option string)
  : io (world DB) DecisionError DecisionApplication :=
  match decision_path with
  | Some path =>
      let! f := get_fs in
      io_lift (let? decisions := Decision.read_decision_file decision_from_str f path in
               Decision.apply_decisions proposal decisions)
  | None => io_ret (mkDecisionApplication proposal [])
  end.
(** [read_proposal_file(path)] with the decisions of [options], under the errors of a
    subcommand *)
Definition decided {E} (proposal_error : ProposalError -> E) (decision_error : DecisionError -> E) (path : string)
  (options : CommandOptions) : io (world DB) E DecisionApplication :=
  let! proposal := io_map_err proposal_error (ProposalEngine.read_proposal_file report_from_str path) in
  io_map_err decision_error (apply_optional_decisions proposal (co_decision options)).

Definition guard (root relative_path : string) : CLI string :=
  let! f := get_fs in
  io_lift (map_err (fun e => failed "path rejected" (PathGuard.fmt e))
             (let? g := PathGuard.new f root in PathGuard.resolve_existing f g relative_path)).
Definition rules (root : string) : io (world DB) RuleError RuleSet :=
  let! f := get_fs in io_lift (load_rule_set_for_root parse f root).
Definition precheck (root : string) (options : CommandOptions) : io (world DB) PrecheckError PrecheckReport :=
  match co_proposal options with
  | Some path =>
      let! application := decided PcProposal PcDecision path options in
      let! f := get_fs in
      io_lift (Precheck.precheck_proposals f root (da_approved application))
  | None => Precheck.precheck_root parse root
  end.
Definition execute (root : string) (options : CommandOptions) : io (world DB) ExecuteError ExecuteReport :=
  match co_proposal options with
  | Some path =>
      let! application := decided XPrecheckProposal XDecision path options in
      Execute.execute_decision_application to_string_pretty root application
  | None => Execute.execute_root parse to_string_pretty root
  end.

(** The arguments of a subcommand: [root] alone, with one more, with two more; more are
    left unread. *)
Definition with_root (args : list string) (k : string -> list string -> CLI string) : CLI string :=
  match args with root :: args => k root args | [] => io_fail usage_exit end.
Definition with_path (args : list string) (k : string -> string -> list string -> CLI string) : CLI string :=
  with_root args (fun root args => with_root args (fun path args => k root path args)).
Definition subcommand (name : string) (args : list string) : CLI string :=
  if (name =? "guard")%string then with_path args (fun root relative_path _ => guard root relative_path)
  else if (name =? "analyze")%string then with_root args (fun root _ =>
    reported "analyze failed" Analyzer.fmt ASerialize RpAnalyze
      (let! f := get_fs in io_lift (Analyzer.analyze_root f root)))
  else if (name =? "browse")%string then with_root args (fun root args =>
    let! path := io_lift (parse_path_option args) in
    reported "browse failed" Browse.fmt BSerialize RpBrowse
      (let! f := get_fs in io_lift (Browse.browse_root f root path)))
  else if (name =? "index")%string then with_root args (fun root _ =>
    printed "index failed" FileIndex.fmt (FileIndex.reindex_root unicode root))
  else if (name =? "search")%string then with_path args (fun root query _ =>
    printed "search failed" FileIndex.fmt
      (if is_empty query then FileIndex.list_index unicode root else FileIndex.search_index unicode root query))
  else if (name =? "rules")%string then with_root args (fun root _ =>
    reported "rules failed" RuleError.fmt RSerialize RpRules (rules root))
  else if (name =? "propose")%string then with_root args (fun root _ =>
    reported "proposal failed" ProposalEngine.fmt PSerialize RpProposal (ProposalEngine.propose_for_root parse root))
  else if (name =? "precheck")%string then with_root args (fun root args =>
    let! options := io_lift (parse_options args) in
    reported "precheck failed" Precheck.fmt PcSerialize RpPrecheck (precheck root options))
  else if (name =? "journal")%string then with_root args (fun root _ =>
    reported "journal failed" (JournalError.fmt Precheck.fmt) JSerialize RpJournal (History.write_planned_journal parse root))
  else if (name =? "recover-journal")%string then with_root args (fun root _ =>
    reported "recover-journal failed" (JournalError.fmt Precheck.fmt) JSerialize RpRecovery (History.recover_journal to_string root))
  else if (name =? "execute")%string then with_root args (fun root args =>
    let! options := io_lift (parse_options args) in
    reported "execute failed" Execute.fmt XSerialize RpExecute (execute root options))
  else if (name =? "trash")%string then with_path args (fun root relative_path _ =>
    reported "trash failed" Trash.fmt TSerialize RpTrash (Trash.trash_file to_string_pretty root relative_path))
  else if (name =? "create-file")%string then with_path args (fun root relative_path _ =>
    reported "create-file failed" FileOps.fmt FSerialize RpCreateFile (FileOps.create_empty_file root relative_path))
  else if (name =? "rename-file")%string then with_path args (fun root relative_path args =>
    with_root args (fun new_name _ =>
      reported "rename-file failed" FileOps.fmt FSerialize RpRenameFile (FileOps.rename_file root relative_path new_name)))
  else if (name =? "undo")%string then with_root args (fun root _ =>
    reported "undo failed" Undo.fmt USerialize RpUndo (Undo.undo_root root))
  else io_fail usage_exit.
(** [main], with the arguments after the name of the program *)
Definition main (args : list string) : CLI string :=
  match args with name :: args => subcommand name args | [] => io_fail usage_exit end.
End main.
End CommandLine.

(** * What an invocation of the command line may do: a usage error changes nothing, a journal
    loses its rows only to a recovery that keeps them, and only decided proposals are
    executed. *)

(** * The usage *)

(** The lines of the usage: a name, how many arguments it needs, the options it takes. *)
Definition usage_lines : list (string * nat * list string) :=
  [("guard", 2, []); ("analyze", 1, []); ("browse", 1, ["--path"]); ("index", 1, []); ("search", 2, []); ("rules", 1, []);
   ("propose", 1, []); ("precheck", 1, ["--proposal"; "--decision"]); ("journal", 1, []); ("recover-journal", 1, []);
   ("execute", 1, ["--proposal"; "--decision"]); ("trash", 2, []); ("create-file", 2, []); ("rename-file", 3, []); ("undo", 1, [])].
(** Options with their values; the last one may lack it. *)
Fixpoint option_values (names args : list string) : option (list (string * option string)) :=
  match args with
  | [] => Some []
  | name :: args =>
      if bool_decide (name ∈ names)
      then match args with
           | [] => Some [(name, None)]
           | value :: args => cons (name, Some value) <$> option_values names args
           end
      else None
  end.
Definition last_value (name : string) (values : list (string * option string)) : option string :=
  fold_left (fun old v => if (v.1 =? name)%string then v.2 else old) values None.
Definition options_fit (names args : list string) : bool :=
  match names with
  | [] => true
  | _ => match option_values names args with
         | None => false
         | Some values => negb (bool_decide (is_Some (last_value "--decision" values))) || bool_decide (is_Some (last_value "--proposal" values))
         end
  end.
Definition fits (args : list string) : bool :=
  match args with
  | [] => false
  | name :: args =>
      match find (fun l => (l.1.1 =? name)%string) usage_lines with
      | Some (_, n, names) => (n <=? length args)%nat && options_fit names (drop n args)
      | None => false
      end
  end.

Lemma last_value_absent name names args values :
  option_values names args = Some values -> name ∉ names -> last_value name values = None.
Proof.
  intros Hv Hn. assert (Forall (fun v => v.1 <> name) values) as HF.
  { revert values Hv. remember (length args) as n eqn:Hlen. revert args Hlen. induction n as [n IH] using lt_wf_ind. intros args -> values.
    destruct args as [|o [|value args]]; simpl; [intros [= <-]; constructor|..]; case_bool_decide as Ho; try done.
    - intros [= <-]. repeat constructor. simpl. by intros ->.
    - destruct (option_values names args) as [vs|] eqn:Hvs; [|done]. intros [= <-]. constructor; [simpl; by intros ->|].
      eapply IH; [|reflexivity|exact Hvs]. simpl. lia. }
  unfold last_value. clear Hv. induction HF as [|v values Hne _ IH]; [done|]. simpl. by destruct (String.eqb_spec (v.1) name).
Qed.
Lemma options_values_spec o args :
  CommandLine.parse_options_go o args =
  match option_values ["--proposal"; "--decision"] args with
  | Some values =>
      Ok (mkCommandOptions (fold_left (fun old v => if (v.1 =? "--proposal")%string then v.2 else old) values (co_proposal o))
            (fold_left (fun old v => if (v.1 =? "--decision")%string then v.2 else old) values (co_decision o)))
  | None => Err CommandLine.usage_exit
  end.
Proof.
  remember (length args) as n eqn:Hn. revert o args Hn. induction n as [n IH] using lt_wf_ind. intros o args ->.
  destruct args as [|name [|value args]]; [by destruct o|..]; simpl; destruct (String.eqb_spec name "--proposal") as [->|Hp];
    try (destruct (String.eqb_spec name "--decision") as [->|Hd]); try (rewrite bool_decide_true by set_solver);
    try (rewrite bool_decide_false by set_solver); try done; try (by destruct o);
    (rewrite (IH (length args)) by (simpl; lia || done)); by destruct (option_values _ args).
Qed.
Lemma parse_options_fit args :
  match CommandLine.parse_options args with
  | Ok options => options_fit ["--proposal"; "--decision"] args = true
  | Err e => e = CommandLine.usage_exit /\ options_fit ["--proposal"; "--decision"] args = false
  end.
Proof.
  unfold CommandLine.parse_options, options_fit, last_value. rewrite options_values_spec. simpl.
  destruct (option_values _ args) as [values|]; [|done]. simpl.
  destruct (fold_left _ _ None) as [p|] eqn:Hp, (fold_left _ _ None) as [d|] eqn:Hd in |- *; done.
Qed.
Lemma parse_path_fit path args :
  match CommandLine.parse_path_option_go path args with
  | Ok _ => is_Some (option_values ["--path"] args)
  | Err e => e = CommandLine.usage_exit /\ option_values ["--path"] args = None
  end.
Proof.
  remember (length args) as n eqn:Hn. revert path args Hn. induction n as [n IH] using lt_wf_ind. intros path args ->.
  destruct args as [|name [|value args]]; [by eexists|..]; simpl; destruct (String.eqb_spec name "--path") as [->|Hp];
    rewrite ?bool_decide_true, ?bool_decide_false by set_solver; try done; try (by eexists).
  specialize (IH (length args) ltac:(simpl; lia) (Some value) args eq_refl).
  destruct (CommandLine.parse_path_option_go _ _); destruct (option_values _ args); naive_solver.
Qed.

(** * Invocations *)

Section main.
Context {DB : Type} `{!SqlDb DB, !SqlTx DB, !JournalDb DB, !IndexDb DB}.
Context (parse : string -> result RuleSet string) (report_from_str : string -> result ProposalReport string)
  (decision_from_str : string -> result DecisionEntry string).
Context (show : Report -> result string string) (to_string : RawJournalRow -> result string string)
  (to_string_pretty : TrashMetadata -> result string string) (unicode : string -> string).
Implicit Types w : world DB.
Abbreviation run := (CommandLine.main (DB:=DB) parse report_from_str decision_from_str show to_string to_string_pretty unicode).

(** A call that ends well or with the code 1, and keeps a relation *)
Definition runs (R : world DB -> world DB -> Prop) (m : io (world DB) Exit string) : Prop :=
  forall w r w', m w = (r, w') -> R w w' /\ match r with Err e => ex_code e = 1%Z | Ok _ => True end.
Lemma reported_result {E A} what (fmt : E -> string) serialize (wrap : A -> Report) (m : io (world DB) E A) w r w' :
  CommandLine.reported show what fmt serialize wrap m w = (r, w') ->
  exists r0, m w = (r0, w') /\ match r with Err e => ex_code e = 1%Z | Ok text => exists a, r0 = Ok a /\ show (wrap a) = Ok text end.
Proof.
  unfold CommandLine.reported. intros (r1 & H & ->)%io_map_err_inv.
  apply io_bind_inv in H as [(a & w1 & H & [= <- <-])|(e & H & ->)]; [exists (Ok a)|by exists (Err e)].
  split; [done|]. destruct (show (wrap a)) as [text|e] eqn:Hs; simpl; [by exists a|done].
Qed.
Lemma reported_runs R {E A} what (fmt : E -> string) serialize (wrap : A -> Report) (m : io (world DB) E A) :
  io_rel R m -> runs R (CommandLine.reported show what fmt serialize wrap m).
Proof. intros Hm w r w' (r0 & H & Hr)%reported_result. split; [by eapply Hm|]. by destruct r. Qed.
Lemma printed_runs R {E} what (fmt : E -> string) (m : io (world DB) E FileIndexReport) :
  io_rel R m -> runs R (CommandLine.printed show what fmt m).
Proof.
  intros Hm w r w' H. unfold CommandLine.printed in H.
  apply io_bind_inv in H as [(a & w1 & (r1 & H & Hr)%io_map_err_inv & [= <- <-])|(e & (r1 & H & Hr)%io_map_err_inv & ->)].
  - split; [by eapply Hm|]. by destruct (show (RpIndex a)).
  - split; [by eapply Hm|]. destruct r1; simplify_eq/=. done.
Qed.
Lemma guard_runs R `{!PreOrder R} root path : runs R (CommandLine.guard root path).
Proof. intros w r w' [= <- <-]. split; [reflexivity|]. by destruct (let? g := _ in _). Qed.

(** What an invocation whose arguments fit the usage, or do not, ends with *)
Definition answers (fit : bool) (R : world DB -> world DB -> Prop) (m : io (world DB) Exit string) : Prop :=
  forall w r w', m w = (r, w') -> R w w' /\
    match r with
    | Ok _ => fit = true
    | Err e => fit = true /\ ex_code e = 1%Z \/ fit = false /\ e = CommandLine.usage_exit /\ w' = w
    end.
Lemma answers_runs R m : runs R m -> answers true R m.
Proof. intros Hm w r w' [HR Hr]%Hm. split; [done|]. destruct r; [done|by left]. Qed.
Lemma answers_usage R `{!PreOrder R} : answers false R (io_fail CommandLine.usage_exit).
Proof. intros w r w' [= <- <-]. split; [reflexivity|by right]. Qed.
Lemma answers_options R `{!PreOrder R} args m :
  (forall options, runs R (m options)) ->
  answers (options_fit ["--proposal"; "--decision"] args) R (let! options := io_lift (CommandLine.parse_options args) in m options).
Proof.
  intros Hm. pose proof (parse_options_fit args) as Hfit. unfold io_bind, io_lift.
  destruct (CommandLine.parse_options args) as [options|e]; [rewrite Hfit; apply answers_runs, Hm|].
  destruct Hfit as [-> ->]. by apply answers_usage.
Qed.
Lemma answers_path R `{!PreOrder R} args m :
  (forall path, runs R (m path)) ->
  answers (options_fit ["--path"] args) R (let! path := io_lift (CommandLine.parse_path_option args) in m path).
Proof.
  intros Hm. pose proof (parse_path_fit None args) as Hfit. unfold io_bind, io_lift, CommandLine.parse_path_option.
  destruct (CommandLine.parse_path_option_go None args) as [path|e].
  - enough (options_fit ["--path"] args = true) as -> by apply answers_runs, Hm.
    destruct Hfit as [values Hv]. unfold options_fit. rewrite Hv, (last_value_absent _ _ _ _ Hv) by set_solver. done.
  - destruct Hfit as [-> Hv]. unfold options_fit. rewrite Hv. by apply answers_usage.
Qed.

(** ** The journals *)

Lemma index_grows {E A} (m : io (world DB) E A) c : (forall w, (m w).2 = run_index_command unicode c w) -> io_rel journal_grows m.
Proof.
  intros Hc w r w' H. specialize (Hc w). rewrite H in Hc. simpl in Hc. subst w'. apply same_grows, (index_command_moves unicode c w).
Qed.
Lemma decided_same {E} pe de path options : io_rel eq (CommandLine.decided (DB:=DB) (E:=E) report_from_str decision_from_str pe de path options).
Proof.
  unfold CommandLine.decided, ProposalEngine.read_proposal_file, CommandLine.apply_optional_decisions, get_fs.
  io_rel_go.
Qed.
Lemma precheck_grows root options : io_rel journal_grows (CommandLine.precheck (DB:=DB) parse report_from_str decision_from_str root options).
Proof.
  unfold CommandLine.precheck. destruct (co_proposal options); [|apply precheck_root_rel, _]. io_rel_go.
  intros w r w' <-%decided_same. reflexivity.
Qed.
Lemma execute_grows root options :
  io_rel journal_grows (CommandLine.execute (DB:=DB) parse report_from_str decision_from_str to_string_pretty root options).
Proof.
  unfold CommandLine.execute. destruct (co_proposal options); [|apply execute_root_rel, _]. io_rel_go; [|apply execute_decisions_rel, _].
  intros w r w' <-%decided_same. reflexivity.
Qed.

Definition keeps_rows args w w' : Prop :=
  journal_grows w w' \/ exists root_arg rest, args = "recover-journal" :: root_arg :: rest /\ recovered to_string root_arg w w'.
Lemma recovery_keeps root_arg rest w r w' :
  CommandLine.reported show "recover-journal failed" (JournalError.fmt Precheck.fmt) JSerialize RpRecovery
    (History.recover_journal to_string root_arg) w = (r, w') ->
  keeps_rows ("recover-journal" :: root_arg :: rest) w w' /\ match r with Err e => ex_code e = 1%Z | Ok _ => True end.
Proof.
  intros (r0 & H & Hr)%reported_result. split; [|by destruct r]. apply recover_recovered in H as [H|H].
  - left. by apply same_grows.
  - right. by exists root_arg, rest.
Qed.


Lemma answers_weaken fit (R Q : world DB -> world DB -> Prop) m : (forall w w', R w w' -> Q w w') -> answers fit R m -> answers fit Q m.
Proof. intros HQ Hm w r w' [HR Hr]%Hm. split; [by apply HQ|done]. Qed.
Lemma answers_grows fit args m : answers fit journal_grows m -> answers fit (keeps_rows args) m.
Proof. apply answers_weaken. by left. Qed.

Lemma answers_missing args : answers false (keeps_rows args) (io_fail CommandLine.usage_exit).
Proof. apply answers_grows, answers_usage, _. Qed.
Lemma answers_reported args {E A} what (fmt : E -> string) serialize (wrap : A -> Report) (m : io (world DB) E A) :
  io_rel journal_grows m -> answers true (keeps_rows args) (CommandLine.reported show what fmt serialize wrap m).
Proof. intros Hm. by apply answers_grows, answers_runs, reported_runs. Qed.
Lemma answers_printed args {E} what (fmt : E -> string) (m : io (world DB) E FileIndexReport) :
  io_rel journal_grows m -> answers true (keeps_rows args) (CommandLine.printed show what fmt m).
Proof. intros Hm. by apply answers_grows, answers_runs, printed_runs. Qed.
Lemma search_grows root query :
  io_rel journal_grows (if is_empty query then FileIndex.list_index unicode root else FileIndex.search_index unicode root query).
Proof. destruct (is_empty query); [by apply (index_grows _ (IdxList root))|by apply (index_grows _ (IdxSearch root query))]. Qed.

(** The subcommand of this name, with [n] arguments at hand *)
Local Ltac fitting := match goal with |- answers ?fit _ _ =>
  let b := eval cbv [fits find usage_lines fst snd String.eqb Ascii.eqb Bool.eqb Nat.leb length drop skipn andb] in fit in
  change fit with b end; cbn [CommandLine.with_root CommandLine.with_path].
Local Ltac named name := match goal with |- context [(name =? ?s)%string] => destruct (String.eqb_spec name s) as [->|?] end.
Local Ltac one args dir := destruct args as [|dir args]; fitting; [apply answers_missing|].
Local Ltac two args dir sub := destruct args as [|dir [|sub args]]; fitting; [apply answers_missing..|].
Lemma subcommand_answers name args :
  answers (fits (name :: args)) (keeps_rows (name :: args))
    (CommandLine.subcommand parse report_from_str decision_from_str show to_string to_string_pretty unicode name args).
Proof.
  unfold CommandLine.subcommand.
  named name; [two args dir sub; apply answers_grows, answers_runs, guard_runs, _|].
  named name; [one args dir; apply answers_reported; io_rel_go|].
  named name; [one args dir; apply answers_grows, answers_path; [apply _|]; intros p; apply reported_runs; io_rel_go|].
  named name; [one args dir; apply answers_printed; by apply (index_grows _ (IdxReindex dir))|].
  named name; [two args dir sub; apply answers_printed, search_grows|].
  named name; [one args dir; apply answers_reported; unfold CommandLine.rules; io_rel_go|].
  named name; [one args dir; apply answers_reported, propose_rel, _|].
  named name; [one args dir; apply answers_grows, answers_options; [apply _|]; intros o; apply reported_runs, precheck_grows|].
  named name; [one args dir; apply answers_reported, write_planned_rel, _|].
  named name; [one args dir; apply answers_runs; intros w r w'; apply recovery_keeps|].
  named name; [one args dir; apply answers_grows, answers_options; [apply _|]; intros o; apply reported_runs, execute_grows|].
  named name; [two args dir sub; apply answers_reported, trash_file_rel, _|].
  named name; [two args dir sub; apply answers_reported, create_empty_file_rel, _|].
  named name; [two args dir sub; destruct args as [|new_name args]; fitting; [apply answers_missing|apply answers_reported, rename_file_rel, _]|].
  named name; [one args dir; apply answers_reported, undo_with_filter_rel, _|].
  enough (fits (name :: args) = false) as -> by apply answers_missing.
  cbv [fits find usage_lines fst snd].
  repeat match goal with |- context [(?s =? name)%string] => destruct (String.eqb_spec s name) as [<-|_]; [done|] end. reflexivity.
Qed.
End main.

(** ** The decisions of an execution *)

#[export] Instance approved_by_dec decisions p : base.Decision (approved_by decisions p).
Proof. destruct (decide (proposal_id_of p ∈ Decision.approved_ids decisions)) as [H|H]; [left|right]; by rewrite <- approved_ids_elem. Defined.
(** Decisions on proposals: each on one of them, none decided twice, none rejected without
    a reason. *)
Definition decisions_fit (report : ProposalReport) (decisions : list DecisionEntry) : Prop :=
  Forall (fun d => d_proposal_id d ∈ map proposal_id_of (pr_proposals report)) decisions /\
  NoDup (map d_proposal_id decisions) /\ Forall (fun d => d_decision d = Rejected -> Decision.rejection_reason d <> None) decisions.
(** The proposals that a file of proposals and perhaps a file of decisions ask for, in the
    order of the file *)
Definition asked_for (report_from_str : string -> result ProposalReport string) (decision_from_str : string -> result DecisionEntry string) (f : tree) (file : string) (decision : option string) (asked : ProposalReport) : Prop :=
  exists text report, read_to_string f file = Ok text /\ report_from_str (trim_start_bom text) = Ok report /\
    match decision with
    | None => asked = report
    | Some decision_file => exists decisions,
        Decision.read_decision_file decision_from_str f decision_file = Ok decisions /\ decisions_fit report decisions /\
        asked = mkProposalReport (pr_root report) (filter (approved_by decisions) (pr_proposals report))
    end.
Lemma applied_decisions report decisions :
  match Decision.apply_decisions report decisions with
  | Ok app => decisions_fit report decisions /\ da_approved app = mkProposalReport (pr_root report) (filter (approved_by decisions) (pr_proposals report))
  | Err _ => ~ decisions_fit report decisions
  end.
Proof.
  unfold Decision.apply_decisions. destruct (Decision.check_decisions _ _ _) as [[]|] eqn:Hc; simpl.
  - pose proof (partition_approved (Decision.approved_ids decisions) (Decision.rejected_by_id decisions) (pr_proposals report)) as Hp.
    destruct (Decision.partition _ _ _) as [approved rejected]. simpl in Hp. simpl. apply check_decisions_ok in Hc as (Hk & Hnd & _ & Hr).
    split; [done|]. f_equal. rewrite Hp. apply list_filter_iff. intros p. apply approved_ids_elem.
  - intros (Hk & Hnd & Hr). assert (Decision.check_decisions (map proposal_id_of (pr_proposals report)) [] decisions = Ok tt) as Hx; [|congruence].
    apply check_decisions_ok. split_and!; [done..| |done]. apply list.Forall_forall. intros d _. apply not_elem_of_nil.
Qed.
Lemma decided_run {DB E} report_from_str decision_from_str pe de file options (w : world DB) r w' :
  CommandLine.decided (E:=E) report_from_str decision_from_str pe de file options w = (r, w') ->
  w' = w /\ match r with
            | Ok app => asked_for report_from_str decision_from_str (w_fs w) file (co_decision options) (da_approved app)
            | Err _ => forall asked, ~ asked_for report_from_str decision_from_str (w_fs w) file (co_decision options) asked
            end.
Proof.
  unfold CommandLine.decided, ProposalEngine.read_proposal_file, CommandLine.apply_optional_decisions, asked_for.
  unfold io_bind, io_map_err, io_lift, io_ret, get_fs, io_gets. simpl.
  destruct (read_to_string (w_fs w) file) as [text|] eqn:Ht; simpl; [|by intros [= <- <-]; split; [done|intros asked (? & ? & [=] & _)]].
  destruct (report_from_str (trim_start_bom text)) as [report|] eqn:Hr; simpl;
    [|intros [= <- <-]; split; [done|intros asked (? & ? & [= <-] & ? & _); congruence]].
  destruct (co_decision options) as [decision_file|]; [|intros [= <- <-]; split; [done|by exists text, report]].
  destruct (Decision.read_decision_file _ _ _) as [decisions|] eqn:Hd; simpl;
    [|intros [= <- <-]; split; [done|by intros asked (? & ? & _ & _ & ? & [=] & _)]].
  pose proof (applied_decisions report decisions) as Ha.
  destruct (Decision.apply_decisions report decisions) as [app|]; simpl; intros [= <- <-]; (split; [done|]).
  - exists text, report. split_and!; [done..|]. by exists decisions.
  - intros asked (? & ? & [= <-] & Hr' & ? & [= <-] & Hfit & _). assert (x0 = report) as -> by congruence. done.
Qed.

(** * Properties *)


(** C26: Only what was decided is executed.  For an execution of a proposal file: when the
    --decision option has a value, what is asked for are exactly the proposals that a decision
    of that file approves, in the order of the proposals, and there is nothing to ask for
    unless both files can be read and each decision is on one of the proposals, no two on the
    same, and none rejects without a reason; without the option, or when it comes last
    without its value, it is the whole proposal file.  If nothing can be asked for, the
    invocation fails and changes nothing; otherwise it is the execution of what is asked
    for - which may still fail, after some of it was done - and prints a report only when that
    execution succeeded. *)
Theorem execution_obeys_decisions {DB : Type} `{!SqlDb DB, !SqlTx DB}
    (parse : string -> result RuleSet string) (report_from_str : string -> result ProposalReport string)
    (decision_from_str : string -> result DecisionEntry string) (show : Report -> result string string)
    (to_string : RawJournalRow -> result string string) (to_string_pretty : TrashMetadata -> result string string)
    (unicode : string -> string) (args : list string) (root : string) (options : CommandOptions) (file : string) (w : world DB) r w' :
  CommandLine.parse_options args = Ok options -> co_proposal options = Some file ->
  CommandLine.main parse report_from_str decision_from_str show to_string to_string_pretty unicode ("execute" :: root :: args) w = (r, w') ->
  w' = w /\ is_ok r = false /\ (forall asked, ~ asked_for report_from_str decision_from_str (w_fs w) file (co_decision options) asked) \/
  exists app x, asked_for report_from_str decision_from_str (w_fs w) file (co_decision options) (da_approved app) /\
    Execute.execute_decision_application to_string_pretty root app w = (x, w') /\
    match r with Ok line => exists rep, x = Ok rep /\ show (RpExecute rep) = Ok line | Err e => ex_code e = 1%Z end.
Proof.
  intros Hopts Hfile H. change (CommandLine.main _ _ _ _ _ _ _ _) with
    (let! options := io_lift (CommandLine.parse_options args) in
     CommandLine.reported show "execute failed" Execute.fmt XSerialize RpExecute
       (CommandLine.execute (DB:=DB) parse report_from_str decision_from_str to_string_pretty root options)) in H.
  rewrite Hopts in H. apply reported_result in H as (r0 & H & Hr). unfold CommandLine.execute in H. rewrite Hfile in H.
  apply io_bind_inv in H as [(app & w1 & [-> Happ]%decided_run & H)|(e & [-> Hno]%decided_run & ->)];
    [right; exists app, r0; split; [done|]; split; [done|]|left; split; [done|]; split; [|done]]; destruct r as [line|e']; try done; naive_solver.
Qed.

(** * Witnesses *)

Definition planned_proposal (id : string) (a : ProposalAction) (from to : string) (size : Z) : Proposal :=
  mkProposal id a from to None size (Some 1600000000000%Z) None "sample" Ready.
Definition planned : ProposalReport := mkProposalReport sample_root
  [planned_proposal "1" CreateDir "" "new" 0; planned_proposal "2" Move "a.txt" "new/a.txt" 5;
   planned_proposal "3" Trash "docs/b.txt" "" 6; planned_proposal "4" CreateFile "" "docs/empty.txt" 0].
(** A report of an execution is shown as what it executed; a line of decisions approves the
    first proposal. *)
Definition shown_report (r : Report) : result string string :=
  match r with RpExecute rep => Ok (fmt_int (xr_executed_count rep)) | _ => Ok "" end.
Definition approves_first (line : string) : result DecisionEntry string := Ok (mkDecisionEntry "1" Approved None).
Definition cli (args : list string) (w : world MemIndex) : result string Exit * world MemIndex :=
  CommandLine.main sample_parse (fun _ => Ok planned) approves_first shown_report sample_json sample_pretty id args w.
Definition cli_machine : world MemIndex := index_machine sample_tree (mem_index_of empty_tables None).
Definition decided_args : list string := ["--proposal"; "/home/root/docs/b.txt"; "--decision"; "/home/root/a.txt"].

Lemma execution_obeys_decisions_witness :
  let run := cli ("execute" :: sample_root :: decided_args) cli_machine in
  run.1 = Ok "1" /\
  exists app x, asked_for (fun _ => Ok planned) approves_first sample_tree "/home/root/docs/b.txt" (Some "/home/root/a.txt") (da_approved app) /\
    Execute.execute_decision_application sample_pretty sample_root app cli_machine = (x, run.2).
Proof.
  intros run. assert (run.1 = Ok "1") as Hok by (vm_compute; reflexivity). split; [exact Hok|].
  destruct run as [r w'] eqn:H. simpl in Hok. subst r. unfold run, cli in H.
  destruct (execution_obeys_decisions sample_parse (fun _ => Ok planned) approves_first shown_report sample_json sample_pretty id
              decided_args sample_root (mkCommandOptions (Some "/home/root/docs/b.txt") (Some "/home/root/a.txt"))
              "/home/root/docs/b.txt" cli_machine (Ok "1") w' eq_refl eq_refl H)
    as [(_ & Hno & _)|(app & x & Happ & Hx & _)]; [discriminate Hno|].
  exists app, x. split; [exact Happ|exact Hx].
Defined.

(** A decision option without its value is no decision at all: everything is executed. *)
Example dangling_decision_executes_all :
  (cli ("execute" :: sample_root :: decided_args) cli_machine).1 = Ok "1" /\
  (cli ("execute" :: sample_root :: take 3 decided_args) cli_machine).1 = Ok "4".
Proof. split; vm_compute; reflexivity. Qed.
