(* ===== verification/folder_commands.v ===== *)
(** The commands of the windows about folders, and what their changes keep. *)
From Stdlib Require Import ZArith Lia Ascii.
From stdpp Require Import strings pretty gmap functions option list relations.
From S2P Require Import prelude rust_str std_path std_fs fs_facts path_guard db journal_store proposal_types decision auto_approval rule_definition analyzer browse.
From S2P Require Import index_sql tables outbox desk file_index managed_roots proposal cleanliness agent agent_work office outbox_processor delivery_facts approval_store.
From S2P Require Import auto_cleanup precondition trash execute history file_ops undo engine_safety engine_guard engine desk_db move_undo trash_facts file_ops_facts.
From S2P Require Import watcher watcher_lifecycle agent_files file_transfer smart_cache_store documents work_limiter agent_sync agent_chat room_sync overlay background replay_facts.

Open Scope string_scope.
Open Scope list_scope.


(** * [apps/desktop/src-tauri/src/commands/]: the commands that the windows of the desktop give
    about folders, files, policies, the cache and the watches ([file_engine.rs],
    [smart_cache.rs], [watcher.rs]), and which window may give them ([permissions.rs]). *)

(** * The windows *)

Module Permissions.
Definition MAIN_WINDOW_LABEL : string := "main".
Definition HOUSE_OVERLAY_WINDOW_LABEL : string := "house-overlay".
Definition CHAT_OVERLAY_WINDOW_LABEL : string := "chat-overlay".
Definition forbidden (windows : string) : string := "FORBIDDEN_WINDOW: command is only available from the " +:+ windows +:+ " window".
Definition require_main_window_label (label : string) : result unit string :=
  if (label =? MAIN_WINDOW_LABEL)%string then Ok tt else Err (forbidden MAIN_WINDOW_LABEL).
Definition require_file_manager_window_label (label : string) : result unit string :=
  if (label =? MAIN_WINDOW_LABEL)%string || (label =? HOUSE_OVERLAY_WINDOW_LABEL)%string then Ok tt
  else Err (forbidden (MAIN_WINDOW_LABEL +:+ " or " +:+ HOUSE_OVERLAY_WINDOW_LABEL)).
Definition require_chat_approval_window_label (label : string) : result unit string :=
  if (label =? MAIN_WINDOW_LABEL)%string || (label =? CHAT_OVERLAY_WINDOW_LABEL)%string then Ok tt
  else Err (forbidden (MAIN_WINDOW_LABEL +:+ " or " +:+ CHAT_OVERLAY_WINDOW_LABEL)).
End Permissions.

(** * Data *)

Record UnregisterManagedRootReport := mkUnregisterManagedRootReport {
  ug_root_id : string; ug_server_room_removed : bool; ug_server_message : option string }.
Record ChatAutoCleanupExecutionReport := mkChatAutoCleanupExecutionReport {
  cz_root_id : string; cz_approved_count : Z; cz_precheck : PrecheckReport; cz_execution : ExecuteReport }.

Module FolderCommands.
(** [apply_decisions_for_command]: no decisions at all approve everything. *)
Definition apply_decisions_for_command (proposal : ProposalReport) (decisions : list DecisionEntry) : result DecisionApplication string :=
  match decisions with
  | [] => Ok (mkDecisionApplication proposal [])
  | _ => map_err Decision.fmt (Decision.apply_decisions proposal decisions)
  end.

(** ** On a folder of the machine *)

Section machine.
Context {DB : Type} `{!SqlDb DB, !SqlTx DB}.
Context (unicode : string -> string) (parse : string -> result RuleSet string) (to_string_pretty : TrashMetadata -> result string string)
  (to_string : RawJournalRow -> result string string).
Abbreviation IO := (io (world DB) string).
Definition journal_fmt : JErr -> string := JournalError.fmt Precheck.fmt.
Definition analyze_root_impl (root : string) : IO AnalyzeReport :=
  let! f := get_fs in io_lift (map_err Analyzer.fmt (Analyzer.analyze_root f root)).
Definition browse_root_tree_impl (root : string) (path : option string) : IO BrowseReport :=
  let! f := get_fs in io_lift (map_err Browse.fmt (Browse.browse_root f root path)).
Definition reindex_managed_root_impl (root : string) : IO FileIndexReport := io_map_err FileIndex.fmt (FileIndex.reindex_root unicode root).
Definition search_managed_root_impl (root query : string) : IO FileIndexReport :=
  io_map_err FileIndex.fmt (if is_empty (trim query) then FileIndex.list_index unicode root else FileIndex.search_index unicode root query).
Definition propose_file_changes_impl (root : string) : IO ProposalReport :=
  io_map_err ProposalEngine.fmt (ProposalEngine.propose_for_root parse root).
Definition precheck_file_changes_impl (root : string) (proposal : ProposalReport) (decisions : list DecisionEntry) : IO PrecheckReport :=
  let! application := io_lift (apply_decisions_for_command proposal decisions) in
  let! f := get_fs in
  io_lift (map_err Precheck.fmt (Precheck.precheck_proposals f root (da_approved application))).
Definition execute_file_changes_impl (root : string) (proposal : ProposalReport) (decisions : list DecisionEntry) : IO ExecuteReport :=
  let! application := io_lift (apply_decisions_for_command proposal decisions) in
  io_map_err Execute.fmt (Execute.execute_decision_application to_string_pretty root application).
Definition approve_auto_cleanup_proposal_from_chat_impl (root_id root : string) (proposal : ProposalReport) : IO ChatAutoCleanupExecutionReport :=
  if negb (pr_root proposal =? root)%string then io_fail "proposal root does not match the selected managed root"
  else
    match pr_proposals proposal with
    | [] => io_fail "auto cleanup proposal has no items to approve"
    | items =>
        let decisions := map (fun item => mkDecisionEntry (proposal_id_of item) Approved None) items in
        let! precheck := precheck_file_changes_impl root proposal decisions in
        let! execution := execute_file_changes_impl root proposal decisions in
        io_ret (mkChatAutoCleanupExecutionReport root_id (Z.of_nat (length (pc_checks precheck))) precheck execution)
    end.
Definition trash_file_impl (root path : string) : IO TrashReport := io_map_err Trash.fmt (Trash.trash_file to_string_pretty root path).
Definition create_file_impl (root path : string) : IO CreateFileReport := io_map_err FileOps.fmt (FileOps.create_empty_file root path).
Definition rename_file_impl (root path new_name : string) : IO RenameFileReport := io_map_err FileOps.fmt (FileOps.rename_file root path new_name).
Definition undo_last_file_operation_impl (root : string) : IO UndoReport := io_map_err Undo.fmt (Undo.undo_root root).
Definition undo_operation_impl (root operation_id : string) : IO UndoReport := io_map_err Undo.fmt (Undo.undo_operation root operation_id).
Definition list_operation_history_impl (root : string) : IO OperationHistoryReport := io_map_err journal_fmt (History.read_operation_history root).
Definition recover_journal_impl (root : string) : IO JournalRecoveryReport := io_map_err journal_fmt (History.recover_journal to_string root).
End machine.
Definition validate_rule_draft_impl {V} (rule_set_from_value : V -> result RuleSet string) (draft : V) : result unit string :=
  let? rule_set := map_err (fun e => "invalid rule draft shape: " +:+ e) (rule_set_from_value draft) in
  map_err RuleError.fmt (RuleSet.validate rule_set).

(** ** On the desktop *)

Section desk.
Context {N V DB : Type} `{!SqlDb DB, !SqlTx DB, !SqlCount DB, !SqlRowid DB, !Http N V, !CredentialStore N, !Uploader N, !CacheKeys N}.
Context `{!JsonValue V, !Json V, !Serde (list V), !Serde (list ProposalAction), !Serde CleanlinessSnapshot, !Serde SmartCacheKeyMaterial, !UrlParser, !Formats, !Sha256, !Aes}.
Context `{!WorkCodecs V, !RoomCodecs V, !PayloadCodecs V, !ResponseCodecs V, !FileCodecs V, !CacheCodecs V}.
(** As for the background work; [rule_set_from_value] reads a draft, [to_string] writes a row
    of the journal, and [window] is the label of the window that gives the command. *)
Context (unicode : string -> string) (parse : string -> result RuleSet string) (rule_set_from_value : V -> result RuleSet string).
Context (to_string_pretty : TrashMetadata -> result string string) (to_string : RawJournalRow -> result string string).
Context (status_text : Z -> string) (os_watch : tree -> string -> result unit string) (ui : UiEvent -> result unit string).
Context (meanwhile : nat -> world DB -> world DB) (outbox : OutboxStore) (cache : SmartCacheStore).
Abbreviation IO := (io (Desk N DB) string).

Definition on_roots {A} (m : io (RootStore * world DB) string A) : IO A := Background.on_desktop (RoomSync.on_roots m).
Definition on_machine {A} (m : io (world DB) string A) : IO A := Background.on_desktop (RoomSync.on_machine m).
Definition on_watchers {A} (f : WatcherStore -> A * WatcherStore) : IO A := Background.on_desktop (RoomSync.on_watchers f).
Definition on_policies {A} (m : io (AutoApprovalStore * world DB) string A) : IO A := Background.on_cleanup (AutoCleanup.on_policies m).
(** [let _permit = limiter.try_...()?;], then [m] *)
Definition permitted {A} (k : WorkKind) (m : IO A) : IO A :=
  fun d =>
    let with_limiter l d := mkDesk (dk_desktop d) (dk_policies d) (dk_snapshots d) l (dk_overlay d) (dk_status d) (dk_told d) in
    match Limiter.try_begin k (dk_limiter d) with
    | (Err busy, l) => (Err busy, with_limiter l d)
    | (Ok permit, l) => let '(r, d) := m (with_limiter l d) in (r, with_limiter (Limiter.drop_permit permit (dk_limiter d)) d)
    end.
(** [permissions::require_..._window(&window)?;], then [m] *)
Definition from_window {A} (required : string -> result unit string) (window : string) (m : IO A) : IO A :=
  do! io_lift (required window); m.
Definition from_manager {A} : string -> IO A -> IO A := from_window Permissions.require_file_manager_window_label.
Definition resolve_root_id (root_id : string) : IO string :=
  let! root := on_roots (ManagedRoots.get root_id) in io_ret (mr_root root).
(** The folder of an identifier, then [m] on the machine under a permit *)
Definition in_folder {A} (k : WorkKind) (root_id : string) (m : string -> io (world DB) string A) : IO A :=
  let! root := resolve_root_id root_id in permitted k (on_machine (m root)).
Definition look_in_folder {A} (root_id : string) (m : string -> io (world DB) string A) : IO A :=
  let! root := resolve_root_id root_id in on_machine (m root).

(** *** Folders *)

Definition register_managed_root (path window : string) : IO ManagedRoot :=
  from_manager window (on_roots (RootCommands.register_managed_root_in_store path)).
Definition list_managed_roots : IO (list ManagedRoot) := on_roots ManagedRoots.list_.
Definition update_managed_root_state_impl (root_id : string) (patch : ManagedRootStatePatch) : IO ManagedRoot :=
  let! updated := on_roots (ManagedRoots.update_state root_id patch) in
  do! if bool_decide (patch_enabled patch = Some false) then let! _ := on_watchers (Watchers.stop root_id) in io_ret tt else io_ret tt;
  io_ret updated.
Definition update_managed_root_state (root_id : string) (patch : ManagedRootStatePatch) (window : string) : IO ManagedRoot :=
  from_manager window (update_managed_root_state_impl root_id patch).
Definition unregister_managed_root_impl (root_id idempotency_key : string) (acknowledge_undoable : bool) : IO UnregisterManagedRootReport :=
  let! root := on_roots (ManagedRoots.get root_id) in
  do! if negb (bool_decide (mr_room_binding_status root = Unbound))
      then let! _ := Background.on_desktop (RoomSync.disconnect_agent_room_impl (V:=V) root_id idempotency_key acknowledge_undoable) in io_ret tt
      else let! _ := on_watchers (Watchers.stop root_id) in io_ret tt;
  let! _ := on_policies (ApprovalStore.remove root_id) in
  let! _ := on_roots (ManagedRoots.remove root_id) in
  io_ret (mkUnregisterManagedRootReport root_id true None).
Definition unregister_managed_root (root_id idempotency_key : string) (acknowledge_undoable : bool) (window : string) : IO UnregisterManagedRootReport :=
  from_manager window (unregister_managed_root_impl root_id idempotency_key acknowledge_undoable).

(** *** Looking *)

Definition analyze_root (root_id : string) : IO AnalyzeReport := in_folder Scan root_id analyze_root_impl.
Definition browse_root_tree (root_id : string) (path : option string) : IO BrowseReport :=
  look_in_folder root_id (fun root => browse_root_tree_impl root path).
Definition reindex_managed_root (root_id : string) : IO FileIndexReport :=
  let! root := resolve_root_id root_id in
  permitted Scan (
    let! report := on_machine (reindex_managed_root_impl unicode root) in
    let! _ := Background.on_life (Lifecycle.reconcile_cleanliness_snapshot (V:=V) parse ui outbox root_id) in
    io_ret report).
Definition search_managed_root (root_id query : string) : IO FileIndexReport :=
  in_folder Scan root_id (fun root => search_managed_root_impl unicode root query).
Definition propose_file_changes (root_id : string) : IO ProposalReport := in_folder Scan root_id (propose_file_changes_impl parse).
Definition get_latest_cleanliness_snapshot (root_id : string) : IO (option CleanlinessSnapshot) :=
  io_gets (fun d => sm_snapshots (dk_snapshots d) !! root_id).
Definition calculate_cleanliness_snapshot_impl (root : string) : IO CleanlinessSnapshot :=
  Background.on_desktop (RoomSync.on_clock (Cleanliness.calculate_cleanliness_snapshot parse root)).
Definition calculate_cleanliness_snapshot (root_id : string) : IO CleanlinessSnapshot :=
  let! managed := on_roots (ManagedRoots.get root_id) in
  permitted Scan (
    if bool_decide (mr_room_binding_status managed = Detached) then calculate_cleanliness_snapshot_impl (mr_root managed)
    else
      let! update := Background.on_life (Lifecycle.reconcile_cleanliness_snapshot (V:=V) parse ui outbox root_id) in
      match update with
      | Some update => io_ret (cu_snapshot update)
      | None =>
          let! snapshot := get_latest_cleanliness_snapshot root_id in
          match snapshot with
          | Some snapshot => io_ret snapshot
          | None => calculate_cleanliness_snapshot_impl (mr_root managed)
          end
      end).
Definition validate_rule_draft (draft : V) : IO unit := io_lift (validate_rule_draft_impl rule_set_from_value draft).
Definition list_operation_history (root_id : string) : IO OperationHistoryReport := look_in_folder root_id list_operation_history_impl.
Definition extract_managed_document (root_id relative_path : string) (consent : bool) (expected_sha256 : option string) : IO DocumentExtraction :=
  let! root := on_roots (ManagedRoots.get root_id) in
  if negb (mr_enabled root) then io_fail "MANAGED_ROOT_DISABLED"
  else on_machine (Documents.extract_document unicode meanwhile (mr_root root) relative_path consent expected_sha256).

(** *** Policies *)

Definition get_auto_approval_policy_impl (root_id : string) : IO AutoApprovalPolicyRecord :=
  let! _ := on_roots (ManagedRoots.get root_id) in on_policies (ApprovalStore.get_or_default root_id).
Definition get_auto_approval_policy (root_id : string) : IO AutoApprovalPolicyRecord := get_auto_approval_policy_impl root_id.
Definition update_auto_approval_policy_impl (root_id : string) (patch : AutoApprovalPolicyPatch) : IO AutoApprovalPolicyRecord :=
  let! _ := on_roots (ManagedRoots.get root_id) in on_policies (ApprovalStore.patch root_id patch).
Definition update_auto_approval_policy (root_id : string) (patch : AutoApprovalPolicyPatch) (window : string) : IO AutoApprovalPolicyRecord :=
  from_manager window (update_auto_approval_policy_impl root_id patch).
Definition auto_approve_file_changes_impl (root_id : string) (proposal : ProposalReport) : IO (list DecisionEntry) :=
  let! root := resolve_root_id root_id in
  if negb (pr_root proposal =? root)%string then io_fail "proposal root does not match the selected managed root"
  else
    let! policy := on_policies (ApprovalStore.get_or_default root_id) in
    let! policy := on_policies (on_world (ApprovalStore.to_engine_policy policy)) in
    io_lift (map_err AutoApproval.fmt (AutoApproval.auto_approve_decisions proposal policy)).
Definition auto_approve_file_changes (root_id : string) (proposal : ProposalReport) (window : string) : IO (list DecisionEntry) :=
  from_manager window (auto_approve_file_changes_impl root_id proposal).

(** *** Changes *)

Definition precheck_file_changes (root_id : string) (proposal : ProposalReport) (decisions : list DecisionEntry) : IO PrecheckReport :=
  look_in_folder root_id (fun root => precheck_file_changes_impl root proposal decisions).
Definition execute_file_changes (root_id : string) (proposal : ProposalReport) (decisions : list DecisionEntry) (window : string) : IO ExecuteReport :=
  from_manager window (in_folder Write root_id (fun root => execute_file_changes_impl to_string_pretty root proposal decisions)).
Definition approve_auto_cleanup_proposal_from_chat (root_id : string) (proposal : ProposalReport) (window : string) : IO ChatAutoCleanupExecutionReport :=
  from_window Permissions.require_chat_approval_window_label window
    (in_folder Write root_id (fun root => approve_auto_cleanup_proposal_from_chat_impl to_string_pretty root_id root proposal)).
Definition trash_file (root_id path window : string) : IO TrashReport :=
  from_manager window (in_folder Write root_id (fun root => trash_file_impl to_string_pretty root path)).
Definition create_file (root_id path window : string) : IO CreateFileReport :=
  from_manager window (in_folder Write root_id (fun root => create_file_impl root path)).
Definition rename_file (root_id path new_name window : string) : IO RenameFileReport :=
  from_manager window (in_folder Write root_id (fun root => rename_file_impl root path new_name)).
Definition undo_last_file_operation (root_id window : string) : IO UndoReport :=
  from_manager window (in_folder Write root_id undo_last_file_operation_impl).
Definition undo_operation (root_id operation_id window : string) : IO UndoReport :=
  from_manager window (in_folder Write root_id (fun root => undo_operation_impl root operation_id)).
Definition recover_journal (root_id window : string) : IO JournalRecoveryReport :=
  from_manager window (in_folder Write root_id (recover_journal_impl to_string)).

(** *** The cache *)

Definition record_smart_cache_usage_event (draft : SmartCacheUsageEventDraft) (window : string) : IO SmartCacheUsageEvent :=
  from_manager window (on_machine (SmartCache.record_usage_event cache draft)).
Definition update_smart_cache_file_preference (root_id relative_path : string) (patch : SmartCacheFilePreferencePatch) (window : string)
  : IO SmartCacheFilePreference :=
  from_manager window (on_machine (SmartCache.update_file_preference cache root_id relative_path patch)).
Definition list_smart_cache_candidates (root_id : string) (limit : option Z) (window : string) : IO (list SmartCacheCandidate) :=
  from_manager window (on_machine (SmartCache.list_candidates cache root_id (default 25%Z limit))).
Definition process_smart_cache_for_room (room_id : string) (limit : option Z) (window : string) : IO SmartCacheProcessingReport :=
  from_manager window (permitted Transfer (
    Background.on_office (CacheProcessor.process_smart_cache_for_room (V:=V) status_text meanwhile cache outbox room_id (default 25%Z limit)))).

(** *** Watches *)

Definition start_watching_root (root_id window : string) : IO unit :=
  from_manager window (Background.on_life (Lifecycle.start_root_watcher (V:=V) unicode parse os_watch ui outbox root_id)).
Definition stop_watching_root (root_id window : string) : IO bool := from_manager window (on_watchers (Watchers.stop root_id)).
Definition is_watching_root (root_id window : string) : IO bool :=
  from_manager window (on_watchers (fun s => (Watchers.is_watching root_id s, s))).
End desk.
End FolderCommands.

(** * The changes a window asks of a folder: who may ask, what of the desktop they touch, and
    that they lose no file with contents. *)

(** * A rename by hand *)

Section rename.
Context {DB : Type} `{!SqlDb DB, !JournalDb DB}.
Implicit Types w : world DB.
Abbreviation filed := (keep (DB:=DB) (fun _ => True) (fun _ => True) (files_kept every_file)).

(** A rename to a name that denied to exist before directories were added replaces no file. *)
Lemma rename_over_free (g : PathGuard) r to source dest (f : tree) w x w' :
  wf_tree f -> guard_named g r -> f ⊆ w_fs w -> more_dirs f (w_fs w) -> wf_tree (w_fs w) ->
  PathGuard.resolve_for_create f g to = Ok dest -> path_exists f dest = false ->
  fs_rename source dest w = (x, w') -> files_kept every_file (w_fs w) (w_fs w').
Proof.
  intros Hwf Hg Hsub Hdirs Hwfa Hdst Hex H. apply fs_rename_run in H. destruct x as [u|e].
  2: { destruct H as (-> & _). reflexivity. }
  destruct H as (q & dp & f' & _ & Hdp & Hren & -> & _).
  destruct (resolve_for_create_ok _ Hwf _ _ Hg _ _ Hdst) as (d & s & k & -> & _ & Hk & Hkl & Hs & _).
  destruct (locate_abs_join_inv _ Hwfa d s k dp) as [_ ->]; [by eapply lookup_weaken|done..|].
  pose proof (not_exists_free _ _ _ Hwf Hs Hex) as Hfree. pose proof (rename_entry_ok _ _ _ _ Hren) as (_ & Hcases).
  destruct (decide (q = d ++ [s])) as [->|Hq].
  { destruct Hcases as [[_ ->]|[Hn _]]; [reflexivity|]. by destruct Hn. }
  intros p i Hp Hfile _. eexists. eapply rename_lookup; [done..|]. intros ->.
  destruct (Hdirs (d ++ [s])) as [Heq|[_ (j & Hj & Hd)]].
  - rewrite Heq in Hp. destruct Hfree as [Hn|(j & Hj & Hl)]; [congruence|].
    assert (i = j) as -> by congruence. unfold is_file_inode, is_link_inode in *. by destruct (i_kind j).
  - assert (i = j) as -> by congruence. unfold is_file_inode, is_dir_inode in *. by destruct (i_kind j).
Qed.

Lemma rename_file_kept root_arg rel new_name w x w' :
  wf_tree (w_fs w) -> FileOps.rename_file root_arg rel new_name w = (x, w') -> files_kept every_file (w_fs w) (w_fs w').
Proof.
  intros Hwf H. unfold FileOps.rename_file in H. assert (rooted (fun _ => True) w) as Hw by done.
  unfold io_bind at 1, get_fs at 1, io_gets at 1 in H. unfold io_bind at 1, io_lift at 1 in H.
  destruct (PathGuard.new (w_fs w) root_arg) as [g|e] eqn:Hnew; [|by injection H as <- <-].
  enough (kept (fun _ => True) (fun _ => True) (files_kept every_file) w w') as (_ & _ & Hk) by done.
  cbn [map_err] in H. destruct (new_guard_at _ Hwf _ _ Hnew) as (r & Hg & _).
  destruct (guard_at_named _ _ _ Hwf Hg) as [Hr Hsegs]. assert (StepRel filed) as Hstep by (by eapply (keep_step _ _ _ r)).
  assert (forall w, rooted (fun _ => True) w -> kept (fun _ => True) (fun _ => True) (files_kept every_file) w w) as Hrefl by (intros v Hv; split_and!; [done|reflexivity|reflexivity]).
  eapply keep_then; [apply _| |exact Hw|exact H|]; [io_rel_go|]. clear H. intros n w1 H1 _ H. unfold io_lift in H1. injection H1 as _ <-.
  eapply keep_then; [apply _| |exact Hw|exact H|]; [io_rel_go|]. clear H. intros source w1 H1 _ H. unfold io_lift in H1. injection H1 as _ <-.
  eapply keep_then; [apply _| |exact Hw|exact H|]; [io_rel_go|]. clear H. intros md w1 H1 _ H. unfold io_lift in H1. injection H1 as _ <-.
  destruct (is_link_or_reparse_point md); [injection H as <- <-; by apply Hrefl|].
  destruct (negb (is_file_inode md)); [injection H as <- <-; by apply Hrefl|]. cbv zeta in H.
  eapply keep_then; [apply _| |exact Hw|exact H|]; [io_rel_go|]. clear H. intros dest w1 H1 _ H. unfold io_lift in H1. injection H1 as H1 <-.
  destruct (PathGuard.resolve_for_create (w_fs w) g _) as [dest'|] eqn:Hdst; [|done]. injection H1 as ->.
  destruct (path_exists (w_fs w) dest) eqn:Hex; [injection H as <- <-; by apply Hrefl|].
  eapply keep_then; [apply _| |exact Hw|exact H|]; [io_rel_go|]. clear H. intros store w1 Ho Hw1 H. apply io_map_err_inv in Ho as (r0 & Ho & _).
  pose proof (open_adds_dirs _ _ _ _ Ho) as Hdirs.
  eapply keep_then; [apply _| |exact Hw1|exact H|]; [io_rel_go|]. clear H. intros nanos w2 [= <- <-] Hw2 H. cbv zeta in H.
  eapply keep_then; [apply _| |exact Hw2|exact H|]; [apply file_ops_entry_rel, _|]. clear H. intros planned w3 [= <- <-] Hw3 H.
  eapply keep_then; [apply _| |exact Hw3|exact H|]; [io_rel_go|]. clear H. intros u w4 Happ Hw4 H.
  apply io_map_err_inv in Happ as (r1 & Happ & _). assert (w_fs w4 = w_fs w1) as Hf4 by exact (append_tree _ _ _ _ _ Happ).
  eapply keep_then; [apply _| |exact Hw4|exact H|]; [io_rel_go|]. clear H. intros f w5 [= <- <-] _ H.
  eapply keep_then; [apply _| |exact Hw4|exact H|]; [io_rel_go|]. clear H. intros dest' w5 H1 _ H. unfold io_lift in H1. injection H1 as H1 <-.
  pose proof (adds_dirs_mono _ _ Hdirs) as Hsub.
  rewrite Hf4 in H1. rewrite (resolve_for_create_mono _ _ _ _ _ Hwf Hsub Hdst) in H1. injection H1 as <-.
  assert (forall r2 w5, fs_rename source dest w4 = (r2, w5) -> kept (fun _ => True) (fun _ => True) (files_kept every_file) w4 w5) as Hren.
  { intros r2 w5 H5. split_and!; [split; [|done]; eapply fs_rename_wf; [exact H5|apply Hw4]| |].
    - destruct (fs_rename_only _ _ _ _ _ H5) as [_ (l & Hl & _)]. exists l. split; [done|]. by apply list.Forall_forall.
    - unfold adds_dirs in Hdirs. rewrite <- Hf4 in Hsub, Hdirs. eapply (rename_over_free g r _ _ _ (w_fs w)); try done. apply Hw4. }
  apply io_bind_inv in H as [(u' & w5 & H5 & H)|(e & H5 & ->)]; apply io_map_err_inv in H5 as (r2 & H5 & _); apply Hren in H5; [|done].
  eapply kept_trans; [apply _|exact H5|]. eapply keep_all; [|exact (proj1 H5)|exact H]. io_rel_go. apply file_ops_entry_rel, _.
Qed.
End rename.

(** * What a change keeps of the tree *)

Section kept.
Context {DB : Type} `{!SqlDb DB, !JournalDb DB} (to_string_pretty : TrashMetadata -> result string string).
Implicit Types w : world DB.

Lemma trash_file_kept root_arg rel w x w' :
  wf_tree (w_fs w) -> Trash.trash_file to_string_pretty root_arg rel w = (x, w') -> files_kept every_file (w_fs w) (w_fs w').
Proof.
  intros Hwf H. destruct (PathGuard.new (w_fs w) root_arg) as [g|e] eqn:Hnew.
  2: { unfold Trash.trash_file, io_bind, io_lift, get_fs, io_gets in H. rewrite Hnew in H. by injection H as <- <-. }
  destruct (new_guard_at _ Hwf _ _ Hnew) as (r & Hg & _). destruct (guard_at_named _ _ _ Hwf Hg) as [Hr Hsegs].
  assert (Trash.trash_file to_string_pretty root_arg rel w = Trash.trash_file to_string_pretty (abs_path r) rel w) as Heq.
  { unfold Trash.trash_file, io_bind, io_lift, get_fs, io_gets. rewrite Hnew, (new_abs_root r _ Hwf (proj2 Hg)).
    by destruct g as [root]; simpl in Hr; subst root. }
  rewrite Heq in H. assert (rooted (fun f => dir_at f r) w) as Hw by (split; [done|apply Hg]).
  assert (io_rel (keep (fun f => dir_at f r) (fun _ => True) (files_kept every_file)) (Trash.trash_file (DB:=DB) to_string_pretty (abs_path r) rel)) as Hk
    by (apply trash_file_keep; by try apply _).
  by destruct (Hk _ _ _ H Hw) as (_ & _ & ?).
Qed.
Lemma create_file_kept root_arg rel w x w' :
  wf_tree (w_fs w) -> FileOps.create_empty_file root_arg rel w = (x, w') -> files_kept every_file (w_fs w) (w_fs w').
Proof.
  intros Hwf H. assert (StepRel (keep (DB:=DB) (fun _ => True) (fun _ => True) (files_kept every_file))) as Hstep
    by (by eapply (keep_step _ _ _ [])).
  by destruct (create_empty_file_rel (keep (DB:=DB) (fun _ => True) (fun _ => True) (files_kept every_file)) _ _ _ _ _ H) as (_ & _ & ?).
Qed.

(** An execution without a README write, an undo over a journal without one *)
Lemma execute_kept_files root_arg app w x w' :
  wf_tree (w_fs w) -> ReadmeWrite ∉ map p_action (pr_proposals (da_approved app)) ->
  Execute.execute_decision_application to_string_pretty root_arg app w = (x, w') -> files_kept every_file (w_fs w) (w_fs w').
Proof.
  intros Hwf Hno H. destruct (PathGuard.new (w_fs w) root_arg) as [g|e] eqn:Hnew.
  - destruct (new_guard_at _ Hwf _ _ Hnew) as (r & [Hr Hd] & _).
    by destruct (execute_decisions_kept to_string_pretty (fun f => dir_at f r) (fun _ => True) (files_kept every_file) r
                   root_arg app g w x w') as (_ & _ & Hk); try apply _.
  - unfold Execute.execute_decision_application, Execute.execute_proposals, io_bind, io_lift, get_fs, io_gets in H.
    rewrite Hnew in H. by injection H as <- <-.
Qed.
Definition no_readme_rows root_arg w : Prop :=
  forall g, PathGuard.new (w_fs w) root_arg = Ok g ->
    Forall (fun e => je_action e <> JReadmeWrite) (readable (journal_at (Db.db_path_for_root (root g)) w)).
Lemma undo_kept_files root_arg only w x w' :
  wf_tree (w_fs w) -> no_readme_rows root_arg w -> Undo.undo_with_filter root_arg only w = (x, w') ->
  files_kept not_empty (w_fs w) (w_fs w').
Proof.
  intros Hwf Hno H. destruct (PathGuard.new (w_fs w) root_arg) as [g|e] eqn:Hnew.
  - by destruct (undo_kept_data _ _ _ _ _ _ Hwf Hnew (Hno _ Hnew) H) as (_ & _ & Hk).
  - unfold Undo.undo_with_filter, io_bind, io_lift, get_fs, io_gets in H. rewrite Hnew in H. by injection H as <- <-.
Qed.
Lemma files_kept_weaken f f' : files_kept every_file f f' -> files_kept not_empty f f'.
Proof. intros H p i Hp Hf _. by eapply H. Qed.
End kept.

(** * Changes *)

(** What a window may ask to change in a folder. *)
Inductive Change :=
| ExecuteChanges (proposal : ProposalReport) (decisions : list DecisionEntry)
| ApproveCleanup (proposal : ProposalReport)
| TrashOne (path : string)
| CreateOne (path : string)
| RenameOne (path new_name : string)
| UndoLast
| UndoOne (operation_id : string).

Section changes.
Context {N DB : Type} `{!SqlDb DB, !SqlTx DB, !JournalDb DB} (to_string_pretty : TrashMetadata -> result string string).
Abbreviation desk := (Desk N DB).
Implicit Types k : desk.
Definition ignoring {A} (m : io desk string A) : io desk string unit := let! _ := m in io_ret tt.

Definition ask (c : Change) (root_id window : string) : io desk string unit :=
  match c with
  | ExecuteChanges proposal decisions => ignoring (FolderCommands.execute_file_changes to_string_pretty root_id proposal decisions window)
  | ApproveCleanup proposal => ignoring (FolderCommands.approve_auto_cleanup_proposal_from_chat to_string_pretty root_id proposal window)
  | TrashOne path => ignoring (FolderCommands.trash_file to_string_pretty root_id path window)
  | CreateOne path => ignoring (FolderCommands.create_file root_id path window)
  | RenameOne path new_name => ignoring (FolderCommands.rename_file root_id path new_name window)
  | UndoLast => ignoring (FolderCommands.undo_last_file_operation root_id window)
  | UndoOne operation_id => ignoring (FolderCommands.undo_operation root_id operation_id window)
  end.
(** The windows that may ask. *)
Definition may_ask (c : Change) (window : string) : Prop :=
  window = "main" \/ window = match c with ApproveCleanup _ => "chat-overlay" | _ => "house-overlay" end.
(** The writing of a README replaces a file, and undoing one does too. *)
Definition no_readme (c : Change) (root : string) (w : world DB) : Prop :=
  match c with
  | ExecuteChanges proposal _ | ApproveCleanup proposal => ReadmeWrite ∉ map p_action (pr_proposals proposal)
  | UndoLast | UndoOne _ => no_readme_rows root w
  | _ => True
  end.

Definition desk_roots k : RootStore := (ds_office (dk_desktop k)).2.1.
Definition desk_machine_of k : world DB := machine_of (ds_office (dk_desktop k)).
(** The desktop with another machine under it *)
Definition on_this_machine (w : world DB) k : desk :=
  mkDesk (mkDesktop ((ds_office (dk_desktop k)).1, (desk_roots k, w)) (ds_watchers (dk_desktop k)) (ds_cursors (dk_desktop k)) (ds_snapshot_ms (dk_desktop k)))
    (dk_policies k) (dk_snapshots k) (dk_limiter k) (dk_overlay k) (dk_status k) (dk_told k).

Lemma guarded_run {A} (required : string -> result unit string) window root_id (m : string -> io (world DB) string A) k r k' :
  FolderCommands.from_window required window (FolderCommands.in_folder Write root_id m) k = (r, k') ->
  is_ok r = false /\ k' = k \/
  required window = Ok tt /\ wl_write (dk_limiter k) = false /\
  exists root w', ms_roots (desk_roots k) !! root_id = Some root /\ m (mr_root root) (desk_machine_of k) = (r, w') /\ k' = on_this_machine w' k.
Proof.
  destruct k as [[[a [s w]] ws cs z] ps sn [l1 l2 l3] o st told]. unfold FolderCommands.from_window, io_bind, io_lift.
  destruct (required window) as [[]|e]; [|intros [= <- <-]; by left].
  unfold FolderCommands.in_folder, FolderCommands.resolve_root_id, FolderCommands.on_roots, Background.on_desktop, RoomSync.on_roots,
    RoomSync.on_office, office.on_roots, ManagedRoots.get, get_store, zoom, io_bind, io_gets, io_ret, desk_roots, desk_machine_of, machine_of. simpl.
  destruct (ms_roots s !! root_id) as [root|]; simpl; [|intros [= <- <-]; by left].
  unfold FolderCommands.permitted, Limiter.try_begin. simpl. destruct l2; [intros [= <- <-]; by left|].
  unfold FolderCommands.on_machine, Background.on_desktop, RoomSync.on_machine, RoomSync.on_roots, RoomSync.on_office, office.on_machine, office.on_roots, on_world, zoom. simpl.
  destruct (m (mr_root root) w) as [r1 w1] eqn:Hm. intros [= <- <-]. right. split_and!; [done..|]. by exists root, w1.
Qed.

(** The machine after a change that was let through *)
Lemma ignoring_run {A} (m : io desk string A) k r k' :
  ignoring m k = (r, k') -> exists r0, m k = (r0, k') /\ is_ok r0 = is_ok r.
Proof.
  unfold ignoring. intros [(a & k1 & H & [= <- <-])|(e & H & ->)]%io_bind_inv; [by exists (Ok a)|by exists (Err e)].
Qed.
Lemma approved_all proposal decisions app :
  FolderCommands.apply_decisions_for_command proposal decisions = Ok app ->
  forall a, a ∈ map p_action (pr_proposals (da_approved app)) -> a ∈ map p_action (pr_proposals proposal).
Proof.
  unfold FolderCommands.apply_decisions_for_command. destruct decisions as [|d ds]; [by intros [= <-]|].
  unfold Decision.apply_decisions. destruct (Decision.check_decisions _ _ _) as [u|]; [|done]. simpl.
  pose proof (partition_approved (Decision.approved_ids (d :: ds)) (Decision.rejected_by_id (d :: ds)) (pr_proposals proposal)) as Hp.
  destruct (Decision.partition _ _ _) as [approved rejected]. simpl in Hp. intros [= <-]. simpl. intros a.
  rewrite !list_elem_of_fmap. intros (p & -> & Hin). exists p. split; [done|]. rewrite Hp in Hin. by apply list_elem_of_filter in Hin as [_ ?].
Qed.
Lemma execute_changes_kept root proposal decisions w x w' :
  wf_tree (w_fs w) -> ReadmeWrite ∉ map p_action (pr_proposals proposal) ->
  FolderCommands.execute_file_changes_impl (DB:=DB) to_string_pretty root proposal decisions w = (x, w') -> files_kept every_file (w_fs w) (w_fs w').
Proof.
  intros Hwf Hno H. unfold FolderCommands.execute_file_changes_impl in H.
  apply io_bind_inv in H as [(app & w1 & H1 & H)|(e & H1 & ->)]; unfold io_lift in H1; injection H1 as Happ <-; [|done].
  apply io_map_err_inv in H as (r0 & H & _). eapply execute_kept_files; [done| |exact H]. by intros Ha%(approved_all _ _ _ Happ).
Qed.

(** What a change keeps of the machine *)
Definition machine_kept (w w' : world DB) : Prop := journal_grows w w' /\ files_kept not_empty (w_fs w) (w_fs w').
Lemma execute_changes_grows root proposal decisions :
  io_rel journal_grows (FolderCommands.execute_file_changes_impl (DB:=DB) to_string_pretty root proposal decisions).
Proof. unfold FolderCommands.execute_file_changes_impl. io_rel_go. apply execute_decisions_rel, _. Qed.
Lemma execute_changes_machine root proposal decisions w x w' :
  wf_tree (w_fs w) -> ReadmeWrite ∉ map p_action (pr_proposals proposal) ->
  FolderCommands.execute_file_changes_impl (DB:=DB) to_string_pretty root proposal decisions w = (x, w') -> machine_kept w w'.
Proof.
  intros Hwf Hno H. split; [by eapply execute_changes_grows|]. by eapply files_kept_weaken, execute_changes_kept.
Qed.
Lemma approve_cleanup_machine root_id root proposal w x w' :
  wf_tree (w_fs w) -> ReadmeWrite ∉ map p_action (pr_proposals proposal) ->
  FolderCommands.approve_auto_cleanup_proposal_from_chat_impl (DB:=DB) to_string_pretty root_id root proposal w = (x, w') -> machine_kept w w'.
Proof.
  intros Hwf Hno H. assert (machine_kept w w) as Hsame by (split; reflexivity).
  unfold FolderCommands.approve_auto_cleanup_proposal_from_chat_impl in H. destruct (negb _); [by injection H as _ <-|].
  destruct (pr_proposals proposal) as [|p ps] eqn:Hps; [by injection H as _ <-|]. rewrite <- Hps in Hno.
  assert (io_rel eq (FolderCommands.precheck_file_changes_impl (DB:=DB) root proposal
            (map (fun item => mkDecisionEntry (proposal_id_of item) Approved None) (p :: ps)))) as Heq.
  { unfold FolderCommands.precheck_file_changes_impl, get_fs. io_rel_go. }
  apply io_bind_inv in H as [(pre & w1 & <-%Heq & H)|(e & <-%Heq & ->)]; [|done].
  apply io_bind_inv in H as [(rep & w2 & H & [= _ <-])|(e & H & ->)]; by eapply execute_changes_machine.
Qed.
Lemma grown_machine {E A} (m : io (world DB) E A) w x w' :
  io_rel journal_grows m -> m w = (x, w') -> files_kept not_empty (w_fs w) (w_fs w') -> machine_kept w w'.
Proof. intros Hm H Hk. split; [by eapply Hm|done]. Qed.

Lemma manager_may window :
  Permissions.require_file_manager_window_label window = Ok tt -> window = "main" \/ window = "house-overlay".
Proof.
  unfold Permissions.require_file_manager_window_label. destruct (String.eqb_spec window Permissions.MAIN_WINDOW_LABEL) as [->|]; [by left|].
  destruct (String.eqb_spec window Permissions.HOUSE_OVERLAY_WINDOW_LABEL) as [->|]; [by right|done].
Qed.
Lemma chat_may window : Permissions.require_chat_approval_window_label window = Ok tt -> window = "main" \/ window = "chat-overlay".
Proof.
  unfold Permissions.require_chat_approval_window_label. destruct (String.eqb_spec window Permissions.MAIN_WINDOW_LABEL) as [->|]; [by left|].
  destruct (String.eqb_spec window Permissions.CHAT_OVERLAY_WINDOW_LABEL) as [->|]; [by right|done].
Qed.
(** What is to be shown of each change, from what its call on the machine keeps *)
Definition let_through c root_id window k w' : Prop :=
  may_ask c window /\ wl_write (dk_limiter k) = false /\ is_Some (ms_roots (desk_roots k) !! root_id) /\ machine_kept (desk_machine_of k) w'.
Lemma change_run {A} c (required : string -> result unit string) root_id window (m : string -> io (world DB) string A) k r k' :
  (required window = Ok tt -> may_ask c window) ->
  (forall root, ms_roots (desk_roots k) !! root_id = Some root -> forall x w', m (mr_root root) (desk_machine_of k) = (x, w') ->
     machine_kept (desk_machine_of k) w') ->
  ignoring (FolderCommands.from_window required window (FolderCommands.in_folder Write root_id m)) k = (r, k') ->
  is_ok r = false /\ k' = k \/ exists w', let_through c root_id window k w' /\ k' = on_this_machine w' k.
Proof.
  intros Hmay Hm (r0 & H & Hr)%ignoring_run. apply guarded_run in H as [[Hn ->]|(Hw & Hl & root & w' & Hroot & H & ->)]; [left; by rewrite <- Hr|].
  right. exists w'. split; [|done]. split_and!; [by apply Hmay|done|by exists root|by eapply Hm].
Qed.
End changes.

(** * Properties *)


(** * Witnesses *)

Definition asked (c : Change) (window : string) := ask sample_pretty c "root-1" window small_desk.

(** The window of the chat may approve a cleanup, and nothing else. *)
Example chat_window_refused :
  is_ok (asked (TrashOne "docs/b.txt") "chat-overlay").1 = false /\ is_ok (asked (TrashOne "docs/b.txt") "main").1 = true.
Proof. split; vm_compute; reflexivity. Qed.
