(* ===== verification/agent_commands.v ===== *)
(** The commands of the windows about the agent, and the startup of the application. *)
From Stdlib Require Import ZArith Lia Ascii.
From stdpp Require Import strings pretty gmap functions option list.
From S2P Require Import prelude rust_str std_path std_fs fs_facts db journal_store proposal_types rule_definition rule_engine index_sql tables outbox desk.
From S2P Require Import file_index managed_roots cleanliness agent agent_work office outbox_processor command_processor delivery_facts approval_store auto_cleanup trash execute execution_processor.
From S2P Require Import desk_db watcher watcher_lifecycle agent_files file_browse file_transfer smart_cache_store documents work_limiter agent_sync agent_chat room_sync overlay background.
From S2P Require Import folder_commands.

Open Scope string_scope.
Open Scope list_scope.


(** * [apps/desktop/src-tauri/src/commands/agent.rs], [commands/background.rs], the commands of
    [commands/overlay.rs] that show and hide the character, and the startup of [lib.rs]: what
    the windows ask of the agent, and in which order the application comes up.

    The windows are [tauri]'s, and so are parameters: which are open, and what building,
    showing and hiding one answers.  The tray and the main window keep no state. *)

(** * The windows around the character *)

Module OverlayWindows.
Section windows.
Context (is_open : string -> bool) (build show hide : string -> result unit string).
Definition HOUSE_OVERLAY_WINDOW_LABEL : string := Permissions.HOUSE_OVERLAY_WINDOW_LABEL.
Definition build_overlay_window : result unit string :=
  map_err (fun error => "WINDOW_MISSING: cannot create overlay window: " +:+ error) (build Overlay.OVERLAY_WINDOW_LABEL).
(** The chat, the bubble and the house are only made ready: their errors are printed. *)
Definition show_overlay_window (r : OverlayRuntime) : result OverlayStatus string * OverlayRuntime :=
  let not_ready message := let '(error, r) := Overlay.mark_not_ready message r in (Err (Overlay.fmt error), r) in
  match (if is_open Overlay.OVERLAY_WINDOW_LABEL then Ok tt else build_overlay_window) with
  | Err error => not_ready error
  | Ok _ =>
      match show Overlay.OVERLAY_WINDOW_LABEL with
      | Err error => not_ready ("cannot show overlay: " +:+ error)
      | Ok _ => let '(status, r) := Overlay.mark_visible r in (Ok status, r)
      end
  end.
(** [if let Some(window) = app.get_webview_window(label) { window.hide().map_err(..)? }] *)
Definition hide_window (label name : string) : result unit string :=
  if is_open label then map_err (fun error => "WINDOW_MISSING: cannot hide " +:+ name +:+ ": " +:+ error) (hide label) else Ok tt.
Definition hide_overlay (r : OverlayRuntime) : result OverlayStatus string * OverlayRuntime :=
  match (let? _ := hide_window Overlay.CHAT_OVERLAY_WINDOW_LABEL "chat overlay" in
         let? _ := hide_window Overlay.OVERLAY_WINDOW_LABEL "overlay" in
         hide_window HOUSE_OVERLAY_WINDOW_LABEL "house overlay") with
  | Err error => (Err error, r)
  | Ok _ => let '(status, r) := Overlay.mark_hidden r in (Ok status, r)
  end.
End windows.
End OverlayWindows.

(** * The commands *)

Module AgentCommands.
Section commands.
Context {N V DB : Type} `{!SqlDb DB, !SqlTx DB, !SqlCount DB, !Http N V, !CredentialStore N, !Uploader N}.
Context `{!JsonValue V, !Json V, !Serde PairingSessionResponse, !Serde PairingStatusResponse, !Serde HeartbeatResponse, !Serde CleanlinessSnapshot}.
Context `{!WorkCodecs V, !RoomCodecs V, !ChatCodecs V, !DraftCodecs V, !PayloadCodecs V, !ResponseCodecs V, !CommandCodecs V, !FileCodecs V}.
Context `{!UrlParser, !Sha256, !ToValue V ExecuteReport}.
(** The arguments of the background work, and the windows. *)
Context (unicode : string -> string) (parse : string -> result RuleSet string) (print : RuleSet -> result string string).
Context (contract : V -> result Contract.ContractRuleDefinition string) (pretty_metadata : TrashMetadata -> result string string).
Context (status_text : Z -> string) (os_watch : tree -> string -> result unit string) (ui : UiEvent -> result unit string).
Context (tell : string -> CharacterEvent -> option (result unit string)) (meanwhile : nat -> world DB -> world DB) (fuel : nat).
Context (is_open : string -> bool) (build show hide : string -> result unit string) (outbox : OutboxStore).
Abbreviation IO := (io (Desk N DB) string).

Definition ask {A} (m : io (AgentState * N) AgentError A) : IO A := Background.on_office (office.on_agent m).
Definition on_overlay {A} (f : OverlayRuntime -> result A string * OverlayRuntime) : IO A :=
  fun d => let '(r, o) := f (dk_overlay d) in
           (r, mkDesk (dk_desktop d) (dk_policies d) (dk_snapshots d) (dk_limiter d) o (dk_status d) (dk_told d)).
(** The limiter and the office, for what is approved in a chat *)
Definition on_chat {A} (m : io (WorkLimiter * office N DB) string A) : IO A :=
  zoom (fun d => (dk_limiter d, ds_office (dk_desktop d)))
       (fun v d => mkDesk (Background.with_office v.2 (dk_desktop d)) (dk_policies d) (dk_snapshots d) v.1 (dk_overlay d) (dk_status d) (dk_told d)) m.

(** ** The connection *)

Definition get_agent_connection_status : IO AgentConnectionStatus := Background.connection.
Definition start_agent_pairing (device_name : string) : IO PairingSession := ask (Agent.start_pairing (V:=V) device_name).
Definition announce_room (room : AgentRoomSync) : IO unit :=
  let! _ := io_try (Background.on_life (Lifecycle.start_root_watcher (V:=V) unicode parse os_watch ui outbox (ry_root_id room))) in
  Background.notify (BindingChanged (ry_root_id room)).
(** A pairing that is claimed publishes the folders that were registered before it. *)
Definition poll_agent_pairing (session_id desktop_nonce : string) : IO PairingStatus :=
  let! status := ask (Agent.poll_pairing (V:=V) session_id desktop_nonce) in
  do! match pst_device_id status with
      | None => io_ret tt
      | Some _ =>
          let! synced := io_try (Background.on_office (RoomSync.sync_unbound_agent_rooms (V:=V) unicode)) in
          do! match synced with
              | Ok report => io_for (fun _ _ room => announce_room room) 0 tt (ax_synced_rooms report)
              | Err _ => io_ret tt
              end;
          let! _ := io_try (on_overlay (OverlayWindows.show_overlay_window is_open build show)) in io_ret tt
      end;
  io_ret status.
Definition send_agent_heartbeat (presence : string) : IO HeartbeatResult := ask (Agent.heartbeat (V:=V) presence).
Definition update_agent_command_status (command_id status : string) : IO (AgentCommand V) := ask (Agent.update_command_status command_id status).

(** ** The work of the agent, on request *)

Definition poll_agent_commands : IO (list (AgentCommand V)) := ask AgentWork.poll_commands.
Definition process_agent_commands : IO CommandProcessingReport :=
  FolderCommands.permitted Scan (Background.on_office (CommandProcessor.process_pending_commands (V:=V) outbox)).
Definition process_agent_decisions : IO DecisionProcessingReport :=
  FolderCommands.permitted Write (Background.on_office (ExecutionProcessor.process_pending_decisions (V:=V) pretty_metadata outbox)).
Definition process_agent_file_browse_requests : IO FileBrowseProcessingReport :=
  FolderCommands.permitted Scan (Background.on_office (FileBrowse.process_pending_file_browse_requests (V:=V) unicode fuel)).
Definition process_agent_file_transfers : IO FileTransferProcessingReport :=
  FolderCommands.permitted Transfer (Background.on_office (FileTransfer.process_pending_file_transfers (V:=V) status_text meanwhile outbox)).
Definition flush_agent_outbox : IO OutboxFlushReport := Background.flush (V:=V) outbox.

(** ** Rooms and events *)

Definition ensure_agent_room (root_id display_name : string) : IO AgentRoomSync :=
  let! room := Background.on_office (RoomSync.ensure_agent_room (V:=V) unicode root_id display_name) in
  do! Background.on_life (Lifecycle.start_root_watcher (V:=V) unicode parse os_watch ui outbox (ry_root_id room));
  io_ret room.
Definition submit_cleanliness_snapshot (root_id : string) : IO (CleanlinessSnapshotSyncReport V) :=
  Background.on_desktop (RoomSync.submit_cleanliness_snapshot_impl parse root_id).
Definition told_of_event (event : SyncEvent V) : list DeskEvent :=
  (if (sv_event_type event =? "room.removed")%string then [RoomBindingChanged (sv_room_id event)] else [])
  ++ (if (sv_event_type event =? "device.revoked")%string then [RevokedDeviceReplayed (sv_device_id event)] else [])
  ++ match RoomSync.chat_message_sync_update event with Some update => [ChatMessageCreated update] | None => [] end.
Definition replay_agent_events : IO (SyncReplay V) :=
  let! replay := Background.on_desktop (RoomSync.replay_agent_events_impl parse print contract) in
  do! io_for (fun _ _ event => Background.notify event) 0 tt (concat (map told_of_event (sp_events replay)));
  io_ret replay.
Definition preflight_agent_room_disconnect (root_id : string) : IO RoomDisconnectPreflight :=
  Background.on_office (RoomSync.preflight_agent_room_disconnect_impl root_id).
Definition disconnect_agent_room (root_id idempotency_key : string) (acknowledge_undoable : bool) : IO RoomDisconnectReport :=
  Background.on_desktop (RoomSync.disconnect_agent_room_impl (V:=V) root_id idempotency_key acknowledge_undoable).

(** ** Chats *)

Definition list_agent_chat_sessions (room_id : string) : IO (list AgentChatSession) := ask (AgentChat.list_chat_sessions (V:=V) room_id).
Definition create_agent_chat_session (room_id : string) (title : option string) : IO AgentChatSession :=
  ask (AgentChat.create_chat_session (V:=V) room_id title).
Definition get_agent_chat_quick_view (room_id : string) : IO AgentChatQuickView := ask (AgentChat.chat_quick_view (V:=V) room_id).
Definition create_agent_chat_quick_cleanup (room_id : string) : IO (AgentChatQuickCleanupResult V) :=
  ask (AgentChat.create_quick_cleanup_suggestion room_id).
Definition list_agent_chat_messages (session_id : string) : IO (list (AgentChatMessage V)) := ask (AgentChat.list_chat_messages session_id).
Definition mark_agent_chat_session_read (session_id : string) (last_read_message_id : option string) : IO AgentChatSession :=
  ask (AgentChat.mark_chat_session_read (V:=V) session_id last_read_message_id).
Definition send_agent_chat_message (session_id content : string) : IO (AgentChatSendResult V) := ask (AgentChat.send_chat_message session_id content).
Definition confirm_agent_rule_draft (draft_id room_id idempotency_key : string) : IO (AgentRuleDraftConfirmation V) :=
  Background.on_office (ChatApproval.confirm_agent_rule_draft_impl parse print contract draft_id room_id idempotency_key).
Definition reject_agent_rule_draft (draft_id : string) : IO AgentRuleDraftRejection := ask (AgentDrafts.reject_rule_draft (V:=V) draft_id).
Definition list_agent_open_proposals (room_id : string) : IO (list AgentOpenProposal) := ask (AgentDrafts.open_proposals_for_room (V:=V) room_id).
Definition approve_agent_command_draft_and_execute (draft_id room_id idempotency_key : string) : IO (ChatCommandDraftExecutionReport V) :=
  on_chat (ChatApproval.approve_agent_command_draft_and_execute_impl pretty_metadata outbox draft_id room_id idempotency_key).
Definition approve_agent_open_proposal_and_execute (proposal_id room_id idempotency_key : string) : IO ChatProposalExecutionReport :=
  on_chat (ChatApproval.approve_agent_open_proposal_and_execute_impl (V:=V) pretty_metadata outbox proposal_id room_id idempotency_key).

(** ** The character *)

Definition get_overlay_status : IO OverlayStatus := io_gets (fun d => Overlay.status (dk_overlay d)).
Definition show_overlay : IO OverlayStatus := on_overlay (OverlayWindows.show_overlay_window is_open build show).
Definition hide_overlay : IO OverlayStatus := on_overlay (OverlayWindows.hide_overlay is_open hide).
Definition emit_character_event (event : CharacterEvent) : IO unit := on_overlay (Overlay.emit_character_event tell event).

(** ** The background work *)

Definition get_background_runtime_status_impl : io (option BackgroundTask * Desk N DB) string BackgroundRuntimeStatus := BackgroundRuntime.status.
Definition start_background_runtime : io (option BackgroundTask * Desk N DB) string BackgroundRuntimeStatus := BackgroundRuntime.start.
Definition pause_background_runtime_impl : io (option BackgroundTask * Desk N DB) string BackgroundRuntimeStatus :=
  BackgroundRuntime.pause "paused by user".
(** [RoomSync.revoke_agent_device], with the pause of the background work *)
Definition revoke_agent_device (idempotency_key : string) : io (option BackgroundTask * Desk N DB) string AgentConnectionStatus :=
  do! BackgroundRuntime.on_desk (ask (Agent.revoke_self (V:=V) idempotency_key));
  let! _ := io_try (BackgroundRuntime.pause "desktop device revoked by user") in
  BackgroundRuntime.on_desk (Background.on_desktop RoomSync.apply_local_device_revoked).
End commands.
End AgentCommands.

(** * The startup *)

(** The application while it comes up: the background task, the desktop, and the stores of
    the outbox and of the cache, which do not change later. *)
Record App (N DB : Type) := mkApp {
  ap_task : option BackgroundTask; ap_desk : Desk N DB; ap_outbox : OutboxStore; ap_cache : SmartCacheStore }.
Arguments mkApp {N DB} _ _ _ _. Arguments ap_task {N DB} _. Arguments ap_desk {N DB} _. Arguments ap_outbox {N DB} _. Arguments ap_cache {N DB} _.

Module Startup.
Section startup.
Context {N V DB : Type} `{!SqlDb DB, !SqlTx DB, !SqlCount DB, !Serde CleanlinessSnapshot, !Serde (list ProposalAction), !PayloadCodecs V, !Sha256}.
(** [data_dir] is what [app.path().app_data_dir()] answers. *)
Context (unicode : string -> string) (parse : string -> result RuleSet string) (os_watch : tree -> string -> result unit string).
Context (ui : UiEvent -> result unit string) (is_open : string -> bool) (build show : string -> result unit string) (data_dir : result string string).
Abbreviation IO := (io (App N DB) string).

Definition on_desk {A} (m : io (Desk N DB) string A) : IO A :=
  zoom ap_desk (fun d s => mkApp (ap_task s) d (ap_outbox s) (ap_cache s)) m.
Definition on_machine {A} (m : io (world DB) string A) : IO A := on_desk (FolderCommands.on_machine m).
Definition on_runtime {A} (m : io (option BackgroundTask * Desk N DB) string A) : IO A :=
  zoom (fun s => (ap_task s, ap_desk s)) (fun v s => mkApp v.1 v.2 (ap_outbox s) (ap_cache s)) m.
Definition on_snapshots {A} (m : io (SnapshotStore * world DB) string A) : IO A :=
  on_desk (Background.on_life (Lifecycle.on_desk (fun v => let '(r, v') := m v.2 in (r, (v.1, v'))))).
Definition on_cache {A} (m : io (SmartCacheStore * world DB) string A) : IO A :=
  zoom (fun s => (ap_cache s, machine_of (ds_office (dk_desktop (ap_desk s)))))
       (fun v s => let d := ap_desk s in
          mkApp (ap_task s)
            (mkDesk (Background.with_office ((ds_office (dk_desktop d)).1, ((ds_office (dk_desktop d)).2.1, v.2)) (dk_desktop d)) (dk_policies d)
               (dk_snapshots d) (dk_limiter d) (dk_overlay d) (dk_status d) (dk_told d))
            (ap_outbox s) v.1) m.
Definition set_outbox (outbox : OutboxStore) : IO unit := fun s => (Ok tt, mkApp (ap_task s) (ap_desk s) outbox (ap_cache s)).
(** [app.path().app_data_dir().map_err(..)?.join(name)], then the load, whose error is
    [cannot load {what}: ..] *)
Definition stored {A} (name what : string) (load : string -> IO A) : IO A :=
  let! dir := io_lift (map_err (fun error => "cannot resolve app data directory: " +:+ error) data_dir) in
  io_map_err (fun error => "cannot load " +:+ what +:+ ": " +:+ error) (load (path_join dir name)).

Definition load_stores : IO unit :=
  do! stored "managed-roots.db" "managed roots" (fun path => on_desk (FolderCommands.on_roots (ManagedRoots.load_from_db path)));
  do! stored "auto-approval.db" "auto approval policies" (fun path => on_desk (FolderCommands.on_policies (ApprovalStore.load_from_db path)));
  do! stored "agent-sync.db" "desktop agent sync cursor" (fun path =>
        on_desk (Background.on_desktop (RoomSync.on_cursors (AgentSync.load_from_db path))));
  do! stored "desktop-outbox.db" "desktop outbox" (fun path =>
        let! store := on_machine (Outbox.load_from_db path) in set_outbox store);
  do! stored "cleanliness-snapshots.db" "cleanliness snapshots" (fun path => on_snapshots (Snapshots.load_from_db path));
  stored "smart-cache.db" "smart cache metadata" (fun path => on_cache (SmartCache.load_from_db path)).
(** [setup] of [run] *)
Definition setup : IO unit :=
  do! load_stores;
  let! outbox := io_gets ap_outbox in
  let! _ := on_desk (Background.on_life (Lifecycle.restore_startup_watchers (V:=V) unicode parse os_watch ui outbox)) in
  let! _ := on_runtime BackgroundRuntime.start in
  let! status := on_desk Background.connection in
  match st_device_id status with
  | Some _ => let! _ := io_try (on_desk (AgentCommands.on_overlay (OverlayWindows.show_overlay_window is_open build show))) in io_ret tt
  | None => io_ret tt
  end.
End startup.
End Startup.

(** * The startup of the application: nothing runs before every store is loaded, and what
    runs when it is up. *)

(** * Loading *)

Section load.
Context {DB : Type} `{!SqlDb DB}.
Lemma pool_opened path (w : world DB) p w' : io_map_err Db.fmt (Db.open_pool_at path) w = (Ok p, w') -> p = path.
Proof. intros H%io_map_err_ok. unfold Db.open_pool_at in H. io_inv. done. Qed.
Lemma store_opened {S A} path (k : string -> io (S * world DB) string A) st a st' :
  io_bind (desk.on_world (io_map_err Db.fmt (Db.open_pool_at path))) k st = (Ok a, st') -> exists st1, k path st1 = (Ok a, st').
Proof.
  intros (p & st1 & H1 & H)%io_bind_ok. destruct st as [s w]. apply on_world_run in H1 as (w1 & ->%pool_opened & ->). by eexists.
Qed.
Lemma roots_loaded `{!SqlTx DB, !SqlCount DB} path (st : RootStore * world DB) u st' :
  ManagedRoots.load_from_db path st = (Ok u, st') -> ms_pool st'.1 = Some path /\ by_id st'.1.
Proof.
  intros H. unfold ManagedRoots.load_from_db in H. apply store_opened in H as (st1 & H).
  apply io_bind_ok in H as (u1 & st2 & _ & H). apply io_bind_ok in H as (loaded & st3 & _ & H). apply io_bind_ok in H as (u2 & st4 & _ & H).
  injection H as _ <-. split; [done|]. intros id root Hin%elem_of_list_to_map_2. simpl in Hin.
  apply list_elem_of_In in Hin. rewrite <- in_rev in Hin. apply list_elem_of_In in Hin. by apply list_elem_of_fmap in Hin as (r & [= -> ->] & _).
Qed.
Lemma policies_loaded `{!SqlTx DB, !SqlCount DB, !Serde (list ProposalAction)} path (st : AutoApprovalStore * world DB) u st' :
  ApprovalStore.load_from_db path st = (Ok u, st') -> as_pool st'.1 = Some path.
Proof.
  intros H. unfold ApprovalStore.load_from_db in H. apply store_opened in H as (st1 & H).
  apply io_bind_ok in H as (loaded & st3 & _ & H). by injection H as _ <-.
Qed.
Lemma cursors_loaded path (st : AgentSyncStore * world DB) u st' :
  AgentSync.load_from_db path st = (Ok u, st') -> sy_pool st'.1 = Some path.
Proof.
  intros H. unfold AgentSync.load_from_db in H. apply store_opened in H as (st1 & H).
  apply io_bind_ok in H as (loaded & st3 & _ & H). by injection H as _ <-.
Qed.
Lemma outbox_loaded `{!SqlTx DB, !SqlCount DB} path (w : world DB) store w' :
  Outbox.load_from_db path w = (Ok store, w') -> os_pool store = Some path.
Proof.
  intros H. unfold Outbox.load_from_db in H. apply io_bind_ok in H as (p & w1 & ->%pool_opened & H).
  apply io_bind_ok in H as (u & w2 & _ & H). by injection H as <- _.
Qed.
Lemma snapshots_loaded `{!Serde CleanlinessSnapshot} path (st : SnapshotStore * world DB) u st' :
  Snapshots.load_from_db path st = (Ok u, st') -> sm_pool st'.1 = Some path.
Proof.
  intros H. unfold Snapshots.load_from_db in H. apply store_opened in H as (st1 & H).
  apply io_bind_ok in H as (u1 & st2 & _ & H). apply io_bind_ok in H as (rows & st3 & _ & H). apply io_bind_ok in H as (loaded & st4 & _ & H).
  by injection H as _ <-.
Qed.
Lemma cache_loaded path (st : SmartCacheStore * world DB) u st' :
  SmartCache.load_from_db path st = (Ok u, st') -> sh_pool st'.1 = Some path.
Proof.
  intros H. unfold SmartCache.load_from_db in H. apply store_opened in H as (st1 & H).
  apply io_bind_ok in H as (u1 & st2 & _ & H). by injection H as _ <-.
Qed.
End load.

(** * The parts of the application *)

Section parts.
Context {N V DB : Type} `{!SqlDb DB, !SqlTx DB, !SqlCount DB, !Serde CleanlinessSnapshot, !Serde (list ProposalAction), !PayloadCodecs V, !Sha256}.
Context (unicode : string -> string) (parse : string -> result RuleSet string) (os_watch : tree -> string -> result unit string).
Context (ui : UiEvent -> result unit string) (is_open : string -> bool) (build show : string -> result unit string) (data_dir : result string string).
Implicit Types s : App N DB.

Definition app_roots s : RootStore := (ds_office (dk_desktop (ap_desk s))).2.1.
Definition app_machine s : world DB := machine_of (ds_office (dk_desktop (ap_desk s))).
Definition app_agent s : AgentState * N := (ds_office (dk_desktop (ap_desk s))).1.
Definition app_watchers s : WatcherStore := ds_watchers (dk_desktop (ap_desk s)).
(** The stores that are loaded, and what runs beside them *)
Definition stores s := (app_roots s, dk_policies (ap_desk s), ds_cursors (dk_desktop (ap_desk s)), ap_outbox s, dk_snapshots (ap_desk s), ap_cache s).
Definition running s := (ap_task s, app_agent s, app_watchers s, dk_status (ap_desk s), dk_overlay (ap_desk s), dk_limiter (ap_desk s)).

Local Ltac parts := repeat match goal with
  | Hz : zoom _ _ _ _ = _ |- _ => apply zoom_run in Hz as (? & ? & ?)
  | Hz : desk.on_world _ _ = _ |- _ => apply zoom_run in Hz as (? & ? & ?)
  end; subst; simpl in *.
Lemma on_roots_parts {A} (m : io (RootStore * world DB) string A) s r s' :
  Startup.on_desk (FolderCommands.on_roots m) s = (r, s') ->
  exists v, m (app_roots s, app_machine s) = (r, v) /\ running s' = running s /\
    stores s' = (v.1, dk_policies (ap_desk s), ds_cursors (dk_desktop (ap_desk s)), ap_outbox s, dk_snapshots (ap_desk s), ap_cache s).
Proof.
  destruct s as [tk [[[a [rs w]] ws cs z] ps sn l o st told] ob ca]. intros Hrun.
  unfold Startup.on_desk, FolderCommands.on_roots, Background.on_desktop, RoomSync.on_roots, RoomSync.on_office, office.on_roots in Hrun. parts. eauto.
Qed.
Lemma on_policies_parts {A} (m : io (AutoApprovalStore * world DB) string A) s r s' :
  Startup.on_desk (FolderCommands.on_policies m) s = (r, s') ->
  exists v, m (dk_policies (ap_desk s), app_machine s) = (r, v) /\ running s' = running s /\
    stores s' = (app_roots s, v.1, ds_cursors (dk_desktop (ap_desk s)), ap_outbox s, dk_snapshots (ap_desk s), ap_cache s).
Proof.
  destruct s as [tk [[[a [rs w]] ws cs z] ps sn l o st told] ob ca]. intros Hrun.
  unfold Startup.on_desk, FolderCommands.on_policies, Background.on_cleanup, AutoCleanup.on_policies in Hrun. parts. eauto.
Qed.
Lemma on_cursors_parts {A} (m : io (AgentSyncStore * world DB) string A) s r s' :
  Startup.on_desk (Background.on_desktop (RoomSync.on_cursors m)) s = (r, s') ->
  exists v, m (ds_cursors (dk_desktop (ap_desk s)), app_machine s) = (r, v) /\ running s' = running s /\
    stores s' = (app_roots s, dk_policies (ap_desk s), v.1, ap_outbox s, dk_snapshots (ap_desk s), ap_cache s).
Proof.
  destruct s as [tk [[[a [rs w]] ws cs z] ps sn l o st told] ob ca]. intros Hrun.
  unfold Startup.on_desk, Background.on_desktop, RoomSync.on_cursors in Hrun. parts. eauto.
Qed.
Lemma on_machine_parts {A} (m : io (world DB) string A) s r s' :
  Startup.on_machine m s = (r, s') ->
  exists w, m (app_machine s) = (r, w) /\ running s' = running s /\ stores s' = stores s.
Proof.
  intros Hrun. apply on_roots_parts in Hrun as (v & H1 & Hr & Hs). apply on_world_run in H1 as (w & H1 & ->). by exists w.
Qed.
Lemma on_snapshots_parts {A} (m : io (SnapshotStore * world DB) string A) s r s' :
  Startup.on_snapshots m s = (r, s') ->
  exists v, m (dk_snapshots (ap_desk s), app_machine s) = (r, v) /\ running s' = running s /\
    stores s' = (app_roots s, dk_policies (ap_desk s), ds_cursors (dk_desktop (ap_desk s)), ap_outbox s, v.1, ap_cache s).
Proof.
  destruct s as [tk [[[a [rs w]] ws cs z] ps sn l o st told] ob ca]. intros Hrun.
  unfold Startup.on_snapshots, Startup.on_desk, Background.on_life, Lifecycle.on_desk in Hrun. parts. unfold app_machine, machine_of in *. simpl in *.
  destruct (m (sn, w)) as [r1 v1]. simplify_eq. eauto.
Qed.
Lemma on_cache_parts {A} (m : io (SmartCacheStore * world DB) string A) s r s' :
  Startup.on_cache m s = (r, s') ->
  exists v, m (ap_cache s, app_machine s) = (r, v) /\ running s' = running s /\
    stores s' = (app_roots s, dk_policies (ap_desk s), ds_cursors (dk_desktop (ap_desk s)), ap_outbox s, dk_snapshots (ap_desk s), v.1).
Proof.
  destruct s as [tk [[[a [rs w]] ws cs z] ps sn l o st told] ob ca]. intros Hrun. unfold Startup.on_cache in Hrun. parts. eauto.
Qed.

(** ** Loading *)

Lemma stored_run {A} name what (load : string -> io (App N DB) string A) s r s' :
  Startup.stored data_dir name what load s = (r, s') ->
  s' = s /\ is_ok r = false \/ exists dir r0, data_dir = Ok dir /\ load (path_join dir name) s = (r0, s') /\ (forall a, r = Ok a -> r0 = Ok a).
Proof.
  unfold Startup.stored, io_bind, io_lift. destruct data_dir as [dir|e]; simpl; [|intros [= <- <-]; by left].
  intros (r0 & Hrun & ->)%io_map_err_inv. right. exists dir, r0. split_and!; [done..|]. intros a Ha. destruct r0; [by injection Ha as ->|done].
Qed.
(** The stores are in their files of the directory. *)
Definition loaded dir s : Prop :=
  ms_pool (app_roots s) = Some (path_join dir "managed-roots.db") /\ as_pool (dk_policies (ap_desk s)) = Some (path_join dir "auto-approval.db") /\
  sy_pool (ds_cursors (dk_desktop (ap_desk s))) = Some (path_join dir "agent-sync.db") /\ os_pool (ap_outbox s) = Some (path_join dir "desktop-outbox.db") /\
  sm_pool (dk_snapshots (ap_desk s)) = Some (path_join dir "cleanliness-snapshots.db") /\ sh_pool (ap_cache s) = Some (path_join dir "smart-cache.db").
Abbreviation load_all := (Startup.load_stores (N:=N) (DB:=DB) data_dir).
Definition beside s s' : Prop := running s' = running s.
#[export] Instance beside_preorder : PreOrder beside.
Proof. split; [by intros s|]. intros s1 s2 s3 H12 H23. unfold beside in *. congruence. Qed.
Lemma stored_beside {A} name what (load : string -> io (App N DB) string A) :
  (forall path, io_rel beside (load path)) -> io_rel beside (Startup.stored data_dir name what load).
Proof. intros Hl s r s' [[-> _]|(dir & r0 & _ & Hrun & _)]%stored_run; [reflexivity|by eapply Hl]. Qed.
Lemma set_outbox_beside store : io_rel beside (Startup.set_outbox (N:=N) (DB:=DB) store).
Proof. by intros s r s' [= _ <-]. Qed.
Lemma load_beside : io_rel beside load_all.
Proof.
  unfold Startup.load_stores. repeat (apply io_rel_bind; [apply _| |intros _]); apply stored_beside; intros path.
  - by intros s r s' (v & _ & Hr & _)%on_roots_parts.
  - by intros s r s' (v & _ & Hr & _)%on_policies_parts.
  - by intros s r s' (v & _ & Hr & _)%on_cursors_parts.
  - apply io_rel_bind; [apply _|by intros s r s' (v & _ & Hr & _)%on_machine_parts|intros store; apply set_outbox_beside].
  - by intros s r s' (v & _ & Hr & _)%on_snapshots_parts.
  - by intros s r s' (v & _ & Hr & _)%on_cache_parts.
Qed.
Lemma stored_ok {A} dir name what (load : string -> io (App N DB) string A) s a s' :
  data_dir = Ok dir -> Startup.stored data_dir name what load s = (Ok a, s') -> load (path_join dir name) s = (Ok a, s').
Proof.
  intros Hdir [[_ [=]]|(dir' & r0 & Hdir' & Hrun & Heq)]%stored_run. rewrite Hdir in Hdir'. injection Hdir' as <-. by rewrite (Heq _ eq_refl) in Hrun.
Qed.
Lemma load_ok s u s' : load_all s = (Ok u, s') -> exists dir, data_dir = Ok dir /\ loaded dir s' /\ by_id (app_roots s').
Proof.
  intros Hrun. unfold Startup.load_stores in Hrun. apply io_bind_ok in Hrun as (u1 & s1 & Hl1 & Hrun).
  destruct (stored_run _ _ _ _ _ _ Hl1) as [[_ [=]]|(dir & _ & Hdir & _)]. exists dir. split; [done|].
  apply (stored_ok _ _ _ _ _ _ _ Hdir), on_roots_parts in Hl1 as (v1 & [Hv1 Hid]%roots_loaded & _ & [= ? ? ? ? ? ?]).
  apply io_bind_ok in Hrun as (u2 & s2 & Hl2 & Hrun). apply (stored_ok _ _ _ _ _ _ _ Hdir), on_policies_parts in Hl2 as (v2 & Hv2%policies_loaded & _ & [= ? ? ? ? ? ?]).
  apply io_bind_ok in Hrun as (u3 & s3 & Hl3 & Hrun). apply (stored_ok _ _ _ _ _ _ _ Hdir), on_cursors_parts in Hl3 as (v3 & Hv3%cursors_loaded & _ & [= ? ? ? ? ? ?]).
  apply io_bind_ok in Hrun as (u4 & s4 & Hl4 & Hrun). apply (stored_ok _ _ _ _ _ _ _ Hdir), io_bind_ok in Hl4 as (store & s5 & Hl4 & Hset).
  apply on_machine_parts in Hl4 as (w4 & Hv4%outbox_loaded & _ & [= ? ? ? ? ? ?]). injection Hset as _ <-.
  apply io_bind_ok in Hrun as (u6 & s6 & Hl6 & Hrun). apply (stored_ok _ _ _ _ _ _ _ Hdir), on_snapshots_parts in Hl6 as (v6 & Hv6%snapshots_loaded & _ & [= ? ? ? ? ? ?]).
  apply (stored_ok _ _ _ _ _ _ _ Hdir), on_cache_parts in Hrun as (v7 & Hv7%cache_loaded & _ & [= ? ? ? ? ? ?]).
  unfold loaded, app_roots in *. simpl in *. split; [split_and!; congruence|]. assert ((ds_office (dk_desktop (ap_desk s'))).2.1 = v1.1) as -> by congruence. exact Hid.
Qed.

(** ** Running *)

Definition revoked (agent : AgentState * N) : bool := Background.is_revoked (st_state (Agent.connection_status agent.1)).
Lemma runtime_start_run (task : option BackgroundTask) (k : Desk N DB) r st' :
  BackgroundRuntime.start (task, k) = (r, st') ->
  is_ok r = true /\ ds_watchers (dk_desktop st'.2) = ds_watchers (dk_desktop k) /\ (ds_office (dk_desktop st'.2)).1 = (ds_office (dk_desktop k)).1 /\
  if revoked (ds_office (dk_desktop k)).1 then st'.1 = task /\ bs_state (dk_status st'.2) = Suspended
  else is_Some st'.1 /\ (task = None -> bs_state (dk_status st'.2) = Running).
Proof.
  destruct k as [[[[a n] [rs w]] ws cs z] ps sn l o st told]. unfold BackgroundRuntime.start, revoked. simpl.
  unfold BackgroundRuntime.start_suspended, BackgroundRuntime.on_desk, BackgroundRuntime.set_task, BackgroundRuntime.status, Background.connection,
    Background.on_desktop, RoomSync.status, io_bind, zoom, io_gets, io_ret. simpl.
  destruct (Background.is_revoked _) eqn:Hrev; [by intros [= <- <-]|].
  match goal with |- context [if ?clear then _ else _] => destruct clear end; simpl; [|destruct task as [task|]; simpl]; intros [= <- <-]; simpl; split_and!; eauto; done.
Qed.

(** The life of the watches at a state, and what the startup makes of it *)
Definition life_of s : Life DB :=
  mkLife (app_watchers s) (app_roots s) (ds_snapshot_ms (dk_desktop (ap_desk s))) (dk_snapshots (ap_desk s)) (app_machine s) [].
Definition candidates s : list ManagedRoot := List.filter starts_watched (values (ms_roots (app_roots s))).
Abbreviation restore outbox := (Lifecycle.restore_startup_watchers (V:=V) (DB:=DB) unicode parse os_watch ui outbox).
Lemma restore_run outbox s r s' :
  by_id (app_roots s) -> Startup.on_desk (Background.on_life (restore outbox)) s = (r, s') ->
  exists results l', restore outbox (life_of s) = (Ok results, l') /\ r = Ok results /\ restored os_watch (candidates s) results l' /\
    app_watchers s' = li_watchers l' /\ (forall id, id ∉ map mr_root_id (candidates s) -> app_watchers s' !! id = app_watchers s !! id) /\
    ap_task s' = ap_task s /\ app_agent s' = app_agent s.
Proof.
  destruct s as [tk [[[a [rs w]] ws cs z] ps sn l o st told] ob ca]. intros Hid Hrun. unfold Startup.on_desk, Background.on_life in Hrun. parts.
  match goal with Hz : restore outbox _ = _ |- _ => rename Hz into Hres end.
  destruct (startup_watches (V:=V) unicode parse os_watch ui outbox (mkLife ws rs z sn w []) _ _ Hid Hres) as [Hw (results & -> & Hr)].
  exists results. eexists. split_and!; [exact Hres|done|exact Hr|done|exact Hw|done..].
Qed.
(** The overlay comes last and stops nothing. *)
Lemma shown_run s r s' :
  (let! status := Startup.on_desk Background.connection in
   match st_device_id status with
   | Some _ => let! _ := io_try (Startup.on_desk (AgentCommands.on_overlay (OverlayWindows.show_overlay_window is_open build show))) in io_ret tt
   | None => io_ret tt
   end) s = (r, s') ->
  r = Ok tt /\ ap_task s' = ap_task s /\ app_agent s' = app_agent s /\ app_watchers s' = app_watchers s /\ dk_status (ap_desk s') = dk_status (ap_desk s).
Proof.
  destruct s as [tk [[[a [rs w]] ws cs z] ps sn l o st told] ob ca].
  unfold Startup.on_desk, Background.connection, Background.on_desktop, RoomSync.status, AgentCommands.on_overlay, io_bind, io_try, zoom, io_gets, io_ret. simpl.
  match goal with |- context [match ?device with Some _ => _ | None => _ end] => destruct device end; [|by intros [= <- <-]].
  simpl. destruct (OverlayWindows.show_overlay_window is_open build show o) as [r1 o1]. by intros [= <- <-].
Qed.
End parts.

(** * Properties *)

(** C29: The application comes up whole or not at all.  A startup asks nothing of the server.
    When it fails, no background work was started and no folder is watched.  When it
    succeeds, all six stores were loaded, each from its file in one directory; then every
    folder that is enabled, asked to be watched and has not left its room was tried and is
    watched if it could be, and no other folder is; and the background work runs, unless the
    device was revoked, when it is suspended. *)
Theorem startup_is_whole {N V DB : Type} `{!SqlDb DB, !SqlTx DB, !SqlCount DB, !Serde CleanlinessSnapshot, !Serde (list ProposalAction), !PayloadCodecs V, !Sha256}
    (unicode : string -> string) (parse : string -> result RuleSet string) (os_watch : tree -> string -> result unit string)
    (ui : UiEvent -> result unit string) (is_open : string -> bool) (build show : string -> result unit string) (data_dir : result string string)
    (s : App N DB) r s' :
  ap_task s = None -> app_watchers s = ∅ ->
  Startup.setup (V:=V) unicode parse os_watch ui is_open build show data_dir s = (r, s') ->
  app_agent s' = app_agent s /\
  match r with
  | Err _ => ap_task s' = None /\ app_watchers s' = ∅ /\ dk_status (ap_desk s') = dk_status (ap_desk s)
  | Ok _ => exists dir s1 results l', data_dir = Ok dir /\ Startup.load_stores data_dir s = (Ok tt, s1) /\ loaded dir s1 /\
      Lifecycle.restore_startup_watchers (V:=V) unicode parse os_watch ui (ap_outbox s1) (life_of s1) = (Ok results, l') /\
      restored os_watch (candidates s1) results l' /\ app_watchers s' = li_watchers l' /\
      (forall id, is_Some (app_watchers s' !! id) -> id ∈ map mr_root_id (candidates s1)) /\
      if revoked (app_agent s) then ap_task s' = None /\ bs_state (dk_status (ap_desk s')) = Suspended
      else is_Some (ap_task s') /\ bs_state (dk_status (ap_desk s')) = Running
  end.
Proof.
  intros Htask Hnone Hrun. unfold Startup.setup in Hrun.
  apply io_bind_inv in Hrun as [([] & s1 & Hload & Hrun)|(e & Hload & ->)]; pose proof (load_beside _ _ _ _ Hload) as Hb; unfold beside, running in Hb;
    injection Hb as Ht1 Ha1 Hw1 Hst1 _ _.
  2: { split_and!; congruence. }
  apply load_ok in Hload as Hok. destruct Hok as (dir & Hdir & Hl & Hid).
  unfold io_bind at 1, io_gets at 1 in Hrun. unfold io_bind at 1 in Hrun.
  destruct (Startup.on_desk (Background.on_life _) s1) as [r2 s2] eqn:Hres.
  apply (restore_run (V:=V)) in Hres as (results & l' & Hres & -> & Hrest & Hw2 & Hkeep & Ht2 & Ha2); [|done].
  unfold io_bind at 1 in Hrun. destruct (Startup.on_runtime BackgroundRuntime.start s2) as [r3 s3] eqn:Hstart.
  apply zoom_run in Hstart as ([t3 k3] & Hstart & ->). apply runtime_start_run in Hstart as (Hr3 & Hw3 & Ha3 & Hend).
  destruct r3 as [u3|]; [|done]. apply shown_run in Hrun as (-> & Ht' & Ha' & Hw' & Hst'). unfold app_agent, app_watchers in *. simpl in *.
  split; [congruence|]. exists dir, s1, results, l'. split_and!; try done; [congruence| |].
  - intros id Hsome. destruct (decide (id ∈ map mr_root_id (candidates s1))) as [|Hno]; [done|]. exfalso.
    rewrite Hw', Hw3, (Hkeep _ Hno), Hw1, Hnone, lookup_empty in Hsome. by destruct Hsome.
  - rewrite Ha2, Ha1 in Hend. rewrite Ht', Hst'. destruct (revoked _); [by rewrite Ht2, Ht1, Htask in Hend|]. destruct Hend as [Hsome Hstate].
    split; [done|]. apply Hstate. congruence.
Qed.

(** * Witnesses *)

(** A database that does what it is told and holds two folders, one of which is gone. *)
Inductive two_folder_db := TwoFolders.
#[local] Instance two_folder_sql : SqlDb two_folder_db := {|
  sql_connect d := (Ok tt, d); sql_execute _ _ d := (Ok tt, d);
  sql_fetch_all sql _ d :=
    (Ok (if (sql =? RootSql.select)%string
         then [[("root_id", SqlText "root-1"); ("canonical_path", SqlText sample_root); ("display_name", SqlText "Docs")];
               [("root_id", SqlText "root-2"); ("canonical_path", SqlText "/home/gone"); ("display_name", SqlText "Gone")]]
         else if (sql =? IndexSql.select_generation)%string then [[("generation", SqlInt 1)]] else []), d) |}.
#[local] Instance two_folder_tx : SqlTx two_folder_db := {| sql_begin d := (Ok tt, d); sql_commit d := (Ok tt, d); sql_rollback d := d |}.
#[local] Instance two_folder_count : SqlCount two_folder_db := fun _ => 1%Z.
#[local] Instance text_snapshot : Serde CleanlinessSnapshot := {| to_text := cs_calculated_at; from_text _ := None |}.
#[local] Instance text_actions : Serde (list ProposalAction) := {| to_text _ := ""; from_text _ := None |}.
#[local] Instance text_hash : Sha256 := fun s => s.

Definition stopped_app : App unit two_folder_db :=
  mkApp None
    (mkDesk (mkDesktop ((mkAgentState (Some "https://server") (Some (mkDeviceCredential "https://server" "device-1" "token")) SOffline None, tt),
        (mkRootStore ∅ None, mkWorld sample_tree (fun _ => TwoFolders) steady_clock 0 no_faults 0 100 [])) ∅ no_cursors 0)
      no_policies (mkSnapshotStore ∅ None) Limiter.default_limiter Overlay.default_runtime Status.default_status [])
    (mkOutboxStore None) (mkSmartCacheStore None).
Definition started := Startup.setup (V:=value_tree) id (fun _ => Err "no rules") (fun _ _ => Ok tt) (fun _ => Ok tt) (fun _ => false)
  (fun _ => Ok tt) (fun _ => Ok tt) (Ok "/home/data") stopped_app.

Strategy 1000 [started].
Lemma startup_is_whole_witness :
  started.1 = Ok tt /\ app_agent started.2 = app_agent stopped_app /\ is_Some (ap_task started.2) /\
  bs_state (dk_status (ap_desk started.2)) = Running /\ map fst (map_to_list (app_watchers started.2)) = ["root-1"] /\
  exists (s1 : App unit two_folder_db) results (l' : Life two_folder_db), loaded "/home/data" s1 /\ restored (fun _ _ => Ok tt) (candidates s1) results l' /\ app_watchers started.2 = li_watchers l'.
Proof.
  assert (started.1 = Ok tt) as Hok by (vm_compute; reflexivity).
  assert (map fst (map_to_list (app_watchers started.2)) = ["root-1"]) as Hw by (vm_compute; reflexivity).
  destruct started as [r s'] eqn:H. simpl in *. subst r. unfold started in H.
  destruct (startup_is_whole (V:=value_tree) id (fun _ => Err "no rules") (fun _ _ => Ok tt) (fun _ => Ok tt) (fun _ => false)
              (fun _ => Ok tt) (fun _ => Ok tt) (Ok "/home/data") stopped_app (Ok tt) s' eq_refl eq_refl H)
    as (Ha & dir & s1 & results & l' & Hdir & _ & Hl & _ & Hres & Hwatch & _ & Htask & Hstate).
  injection Hdir as <-. split; [reflexivity|]. split; [exact Ha|]. split; [exact Htask|]. split; [exact Hstate|]. split; [exact Hw|].
  exists s1, results, l'. split; [exact Hl|]. split; [exact Hres|exact Hwatch].
Defined.
